(* ===== verification/_CoqProject ===== *)
-Q . S2P
Prelude.v
GoBase.v
Decimals.v
Strings.v
GoLib.v
Durations.v
Regex.v
Semver.v
VersionPkg.v
Api.v
Objects.v
Plugins.v
Solver.v
Effects.v
Conditions.v
K8s.v
Rcon.v
Selector.v
Images.v
Resolve.v
Snapshots.v
Backup.v
Window.v
Url.v
Update.v
StatusEq.v
Jar.v
PluginCtl.v
Webhook.v
Config.v
Workload.v
Network.v
Ensure.v
Routes.v
ServerCtl.v
Clients.v
Service.v
Targets.v
OpenAPI.v
Rest.v
Http.v
Floats.v
Schema.v
Markup.v
Render.v
Pages.v
Templates.v
WebUI.v
WebMarkup.v
SSE.v
Runtime.v
Metrics.v
Startup.v
Main.v
Deletion.v
