(* ===== verification/Prelude.v ===== *)
(** * minecraft-operator: verification library

    The program is a Kubernetes operator in Go (module
    github.com/lexfrei/minecraft-operator).  Its custom resources are
    PaperMCServer, a Minecraft server that runs as a StatefulSet, and Plugin, a
    plugin with a selector for servers.  Controllers bring the cluster in line
    with them: the PaperMCServer controller resolves the Paper version and the
    plugin versions and builds the StatefulSet, Service, network policy, routes
    and injected configuration of a server; the plugin controller keeps the
    metadata of a plugin and takes its JAR off the servers when it is deleted;
    the update controller rolls an update out inside a maintenance window; the
    backup controller takes volume snapshots.  Admission webhooks refuse bad
    resources.  A REST API and a web interface work on the same resources through a
    service layer.  The process itself parses flags, applies the custom resource
    definitions, and sets all this up before it runs the manager.
    All of them share the version, solver, selector, plugin cache, RCON and
    backup packages and the clients of the plugin repositories and the image
    registry.

    ** Method

    The development is a shallow embedding.  Pure Go functions are Rocq
    functions on records that mirror the structs (Api, Objects, OpenAPI).  A
    function that talks to the world is a program of type [prog] (Effects): a
    tree of requests (K8s: one constructor per verb and kind, for the API server,
    the clock, pods, RCON connections, registries, the scheduler and locks) with
    a continuation for every answer.  [runs p tr x] says that [p] answers [x]
    when the world gives the answers recorded in the trace [tr]; every answer is
    allowed, so theorems about [runs] hold for every failure and every
    interleaving with other writers that shows in the answers.  Start-up is a
    program over requests of its own (Startup, [Boot]).  [exec] runs a
    program against a concrete environment, which is how the witnesses are
    evaluated, and [wp] is the weakest precondition that most proofs use.  A Go
    pointer that is mutated is passed and returned; an error is a value of
    [result]; int64 arithmetic on times wraps or saturates as Go's does; strings
    are byte strings.

    ** Files and what they model

    Foundations:
    - Prelude: record update, tactics, generic lemmas (no code).
    - GoBase, Decimals, Strings, GoLib, Durations, Regex: the part of Go's run
      time and standard library in use: machine integers, time and duration,
      strings (splitting, trimming, searching, paths), decimal numbers, errors,
      sorting of strings, printing of plain quoted text, time.ParseDuration (its
      fractions in binary64, through the Standard Library's SpecFloat), and the
      regular expressions of the source by derivatives.
    - Semver: interface to Masterminds/semver with its documented laws, and a
      concrete instance.
    - Floats: float64 as text; Markup: html.EscapeString and a strict reader of HTML
      fragments and pages (no code).
    - Effects, K8s: programs and requests (no code).
    - Conditions: interface to the condition helpers of k8s.io/apimachinery.

    Data:
    - Api: the structs of src/api/v1beta1 (papermcserver_types.go,
      plugin_types.go) with zero values.
    - Objects: the fields the source sets or reads of the Kubernetes objects it
      builds (StatefulSet, Service, NetworkPolicy, ConfigMap, routes).
    - OpenAPI: the structs and enums of src/api/openapi/generated/api.gen.go, and
      the conversions of src/pkg/api/handlers.go between them and the service
      layer's data.

    Packages:
    - VersionPkg: src/pkg/version.
    - Plugins: src/pkg/plugins/client.go and cache.go; the cache by its critical
      sections, concurrency as a step relation over them.
    - Url: the download URL check of src/pkg/plugins/url.go, with net.ParseIP,
      net.SplitHostPort and big.Int.SetString modelled; url.Parse as an interface.
    - Jar: the JAR metadata of src/pkg/plugins.
    - Solver: src/pkg/solver; the interface as the class [Solver], its contract as
      [SolverSpec], SimpleSolver as the instance that meets it.
    - Rcon: src/pkg/rcon/client.go.
    - Selector: src/pkg/selector/matcher.go; label selectors as an interface.
    - Snapshots: src/pkg/backup (hooks.go, snapshotter.go).
    - Clients: the registry, Paper and Hangar clients (src/pkg/registry,
      src/pkg/paper, src/pkg/plugins/hangar.go) above their HTTP calls.

    Controllers (src/internal/controller):
    - Images, Resolve, StatusEq, ServerCtl: papermcserver_controller.go - tags
      and images; version resolution, gates and plugin status; comparison of
      statuses; the reconciler itself.
    - Workload, Network, Ensure, Routes, Config: what the reconciler builds and
      keeps - StatefulSet and Service; the network policy; their creation,
      update and removal; HTTP, TCP and UDP routes; the injection of
      configuration files.
    - PluginCtl: plugin_controller.go, with the deletion protocol.
    - Window, Update: update_controller.go - when an update may start, its steps
      and the reconciler; cron as an interface.
    - Backup: backup_controller.go.
    - Deletion: the plugin controller and the update controller together, any number
      of runs in any interleaving of their requests.

    Interfaces to users:
    - Webhook: the validators of src/api/v1beta1 (papermcserver_webhook.go,
      plugin_webhook.go).
    - Service: src/pkg/service (servers, plugins, config maps, namespaces).
    - Targets: which object an operation of the service layer writes (no code).
    - Rest: the handlers of src/pkg/api/handlers.go, one program per endpoint.
    - Http: what the generated code and src/pkg/api/server.go put around them: routes,
      binding of parameters, decoding of bodies, answers.
    - Schema, Render: src/pkg/webui/schema, from the OpenAPI document to the fields
      of a form and the text of the form.
    - Pages, WebUI: src/pkg/webui (adapters.go with the data of the templates;
      handlers.go and server.go, every handler and the dispatch).
    - Templates: the text that the generated code in src/pkg/webui/templates writes;
      WebMarkup: what every answer in HTML is.
    - SSE: src/pkg/webui/sse.go; the broker's loop and the connection handlers as a
      step relation over the shared map and the channels.

    The process:
    - Runtime: the HTTP client of downloads (src/pkg/plugins/url.go), commands in pods
      (pod_executor.go), the cron schedulers (src/pkg/cron) and the start and stop of
      the web server.
    - Metrics: src/pkg/metrics, both recorders behind their interface.
    - Startup: src/internal/crdmanager, and what can be asked of the libraries while
      the process starts.
    - Main: src/cmd/main.go and the SetupWithManager methods of the controllers.

    Definitions keep the names of the Go functions; a helper that names a part of
    a long function (a loop body, the tail after an early return) says so in its
    comment.

    ** What the theorems show

    - Choice of versions: FindBestPluginVersion, the sort, IsDowngrade,
      FindMaxVersion, ContainsVersion and findLatestVersionFromTags answer what they
      promise on every branch; FindBestPaperVersion does so in the documented sense of
      compatibility for plugins with version metadata and without an override, and two
      lemmas show where it departs from the documentation for others
      (override_ignored, metadata_free_refused); updateDesiredVersion changes the
      desired version only past the downgrade gate, the plugin gate and the image
      check; the client of the solver is proved against its contract only.
    - Updates: an update starts only with an open gate, after a snapshot if one is
      required; the steps of a combined update keep their order; downloads are of
      validated URLs and verified by checksum, and what becomes of the file on each
      failure is stated; status writes are retried at most
      three times; the delay and an enabled window with a schedule that keeps firing open
      exactly when they should, and a window that is not enabled is always open.
    - Backups: with RCON auto-save is off only around the snapshot and always switched
      on again, without RCON no command is sent; what is recorded is what happened; triggers are consumed only after a
      snapshot; cron jobs do not leak; retention deletes the oldest.
    - Server reconciliation: only StatefulSets with the justified image are
      written, in a fixed order of objects; the status is written at most once,
      last, and truthfully; serverStatusEqual decides equality of what it
      compares.  The builders are exact: StatefulSet with its whole environment, Service
      ports, and what a network policy opens and nothing else.  Managed objects
      converge: one run stores the wanted object or removes the unwanted one, a second
      run keeps it so and only reads the policy; the Service, in which the API server
      may fill in defaults, it may write again (ensureService_rewrites); routes that are desired are there and only owned ones are deleted.
    - Configuration files: the injection script copies exactly the wanted files
      with overrides in the right order, and for admitted resources every line of it, with
      the RCON part, is a fixed command on plain paths below the mounts; it needs two
      hypotheses, on the directory names of plugins without files and on the key of the
      RCON password, and without either an injection exists (admitted_script_injection).
    - Plugin deletion: in any interleaving of both controllers the finalizer goes only
      when every server of the deletion is gone, free of the JAR, past the timeout, or
      was rid of the JAR by an update that ran rm in its pod; and it does go once the
      timeout has passed and the API server answers.
    - Admission: both validators admit exactly the resources that satisfy
      declarative rules.
    - Service layer and REST API: updates change exactly the given fields; the
      annotation of an apply-now request is honoured by the update controller for
      five minutes and not longer; an answer tells truthfully whether something
      was written; only ports in range reach the conversion to int32; lists have
      the declared types; what creation still leaves to the webhook.  Over HTTP the
      same holds of every request: [Handler_honest] relates the status of an answer to
      what was written, [Handler_typed] its body to the declared types.  Tags of all
      pages of the registry are listed.
    - Web interface: a form has exactly one field per property, whatever the order of
      Go's map ranges, and each field says what the keywords of its property say
      ([describes], a contract without the parser's code); parsing ends exactly when no
      chain of references is infinite; every page and fragment is well-formed for every request and all
      answers, with no dynamic value read as markup, and a redirect is one link on this host; only a POST to
      an action writes, once, to the object it names, exactly when the answer is not
      an error; polling stops; the dashboard lists what there is; the broker never
      closes a channel twice or sends on a closed one, and loses no order.
    - The process: [run_correct] - nothing is set up before the definitions are
      established, the manager runs only when all that the flags ask for is set up,
      in order, and every failure is fatal; downloads never ask a blocked host, also
      after redirects; a stopped scheduler waits for its jobs; the recorders count what
      they are told.
    - Packages: the plugin cache under interleaving (a hit on versions was fetched for
      that project; compatibility entries of projects with colons can collide,
      compat_collision), selector matching, the order
      of a graceful shutdown, the image reference round trip, the URL check on
      every writing of an IPv4 address.
    - Defects that modelling showed are theorems too: the trigger search that does
      not return, the stale condition that blocks updates, the loopback writings
      that pass the URL check, metadata-free plugins that block every version, two
      routes under one name, an image change outside the window, a not-found
      answer to an update that was written, an edit form that cannot be saved as it
      was opened, event handlers that outlive the broker's loop, a ConfigMap that is
      created in another namespace than that of the path, redirects to plain HTTP, a
      web server that cannot listen and is not missed, a plugin that is released
      although no update will take its JAR off.

    ** Bounds and fuel

    [findLastLoop] has fuel for one activation per minute of the seven-day
    lookback and two more; [findLastCronTrigger_ok] shows that this is enough for
    every schedule that keeps firing, and [findLastCronTrigger_diverges] that no
    fuel is enough for one that never fires.  [waitForPodReady] takes the number
    of ticks before its deadline as a parameter: theorems hold for every number;
    the code's is 120 (ten minutes, a tick every five seconds).  [retryStatus]
    makes the code's three attempts, [parseIPv6Loop] the eight groups of an
    address.  The loop over the pages of a registry has fuel for the number of
    pages: [ListTags_complete] shows that any larger fuel gives the answer when
    the links end, and a cycle of links has no answer for any fuel.
    [ParseDuration] has the length of its input as fuel ([parseTerms_fuel]: more
    changes nothing).  [parseField] has fuel for the depth of a schema:
    [ParseSchema_returns] says exactly when some fuel is enough.  The download client
    follows [MaxRedirects] redirects, the code's bound.  Waiting for a definition to be
    established polls at most 61 times, its timeout of 30 seconds in steps of half a
    second and the first look.  Other loops are structural.

    ** Assumptions

    Third-party code is a class whose laws are its documented behaviour, with a
    concrete instance that satisfies them: [Semver], [LabelSelectors],
    [MetaConditions], [GoSort] (sort.Slice), [Cron] (five-field expressions, whose
    activations are at whole minutes), [URLs], [MapRange] (the order in which Go
    ranges over a map: some permutation of it), [Digest] (the hash of a config map's
    content), [Owning] (SetControllerReference and IsControlledBy), [JarLib] (zip
    and YAML reading), [HubLib] (the HTTP answers of the repositories and the
    registry), [GoRuntime], [Templ] (escaping and checking of links by the template
    engine), [Binding] (parameters of a request), [NetHttp] (the words of net/http in redirects
    and listings), [Prometheus]. A read of the
    Kubernetes client answers a fresh object. Theorems that name an object assume
    that a read answers the object that was asked for, and the composition in Deletion
    that a mark in a plugin's status was sent before it is read. The convergence theorems
    assume an API server that keeps what it is sent and may fill in what was left open
    of a Service; the completion of a deletion assumes that writes are accepted and that
    the timeout has passed. [quoted] prints %q of text without characters to escape.
    Case folding and white space are those of ASCII text. Logging, and the calls of
    the recorder inside the controllers, are left out.

    ** Not modelled

    The content of the static file; the encoding of bodies as JSON and their decoding (what a body
    decodes to is part of a request); the parsing of an HTTP request and the listener;
    the ticker that wakes the web interface; the embedded API document and generated
    code that nothing calls; generated deep copies, which are the identity on the
    values of this model; constructors of plain clients and the scheme; code that
    nothing calls: FormatTime and FormatTimestamp, and the second copies of
    formatCronSchedule, splitCronExpression and getWeekdayName in src/pkg/webui; tests
    and test doubles (src/pkg/rcon/mock.go, src/test). *)

From stdpp Require Export base list strings gmap pretty.
From Stdlib Require Export ZArith Lia Bool.

(** ** Scope, hint database *)

Declare Scope mc_scope.
Delimit Scope mc_scope with mc.

Create HintDb mc.

(** ** Functional record update

    [s <| proj := v |>] replaces one field of a record.  A record [R] opts in
    with an [Eta R] instance, its constructor applied to its own projections;
    the setter of a field is computed from that term by abstracting the
    projection. *)

Class Eta (R : Type) := eta_expand : R -> R.

Class Updatable {R T : Type} (proj : R -> T) := update_field : (T -> T) -> R -> R.

Ltac derive_update :=
  lazymatch goal with
  | |- @Updatable ?R ?T ?proj =>
      let inst := constr:(_ : Eta R) in
      let body := eval hnf in inst in
      lazymatch eval pattern proj in body with
      | ?abs _ => exact (fun f s => abs (fun r => f (proj r)) s)
      end
  end.

#[export] Hint Extern 1 (Updatable _) => derive_update : typeclass_instances.

Notation "s <| proj := v |>" := (update_field (proj := proj) (fun _ => v) s)
  (at level 1, left associativity, format "s  <|  proj  :=  v  |>") : mc_scope.

#[global] Open Scope mc_scope.

(** ** Tactics *)

(** [simpl_upd] computes projections of updated records. *)
Ltac simpl_upd := unfold update_field in *; simpl in *.

(** [guard_step H] performs the next case split that the hypothesis [H] (an
    equation about a handler) is stuck on. *)
Ltac guard_step H :=
  match type of H with
  | context [match ?x with _ => _ end] =>
      lazymatch x with
      | context [match _ with _ => _ end] => fail
      | _ => let E := fresh "Hg" in destruct x eqn:E; simplify_eq/=
      end
  end.

Ltac guards H := repeat guard_step H.

(** [goal_guard] does the same in the goal. *)
Ltac goal_guard :=
  match goal with
  | |- context [match ?x with _ => _ end] =>
      lazymatch x with
      | context [match _ with _ => _ end] => fail
      | _ => let E := fresh "Hg" in destruct x eqn:E; simplify_eq/=
      end
  end.

(** [bool_prop] turns boolean tests of the code into propositions. *)
Ltac bool_prop :=
  repeat match goal with
  | H : (_ && _)%bool = true |- _ => apply andb_true_iff in H; destruct H
  | H : (_ || _)%bool = false |- _ => apply orb_false_iff in H; destruct H
  | H : negb _ = true |- _ => apply negb_true_iff in H
  | H : negb _ = false |- _ => apply negb_false_iff in H
  | H : (_ =? _)%Z = true |- _ => apply Z.eqb_eq in H
  | H : (_ =? _)%Z = false |- _ => apply Z.eqb_neq in H
  | H : (_ <? _)%Z = true |- _ => apply Z.ltb_lt in H
  | H : (_ <? _)%Z = false |- _ => apply Z.ltb_ge in H
  | H : (_ <=? _)%Z = true |- _ => apply Z.leb_le in H
  | H : (_ <=? _)%Z = false |- _ => apply Z.leb_gt in H
  | H : (_ =? _)%string = true |- _ => apply String.eqb_eq in H
  | H : (_ =? _)%string = false |- _ => apply String.eqb_neq in H
  | H : bool_decide _ = true |- _ => apply bool_decide_eq_true in H
  | H : bool_decide _ = false |- _ => apply bool_decide_eq_false in H
  end.

(** ** Options *)

Lemma Some_bind {A B} (x : option A) (k : A -> option B) b :
  x ≫= k = Some b -> exists a, x = Some a /\ k a = Some b.
Proof. destruct x as [a|]; [by exists a | done]. Qed.

(** ** Generic list lemmas *)

Section lists.
Context {A B : Type}.

Lemma find_some_elem (f : A -> bool) (l : list A) (x : A) :
  List.find f l = Some x -> x ∈ l /\ f x = true.
Proof.
  intros H. apply List.find_some in H as [Hin Hf].
  split; [by apply list_elem_of_In | done].
Qed.

Lemma find_none_elem (f : A -> bool) (l : list A) (x : A) :
  List.find f l = None -> x ∈ l -> f x = false.
Proof.
  intros H Hx. apply (List.find_none f l H). by apply list_elem_of_In.
Qed.

Lemma existsb_elem (f : A -> bool) (l : list A) :
  existsb f l = true <-> exists x, x ∈ l /\ f x = true.
Proof.
  rewrite existsb_exists. split; intros (x & Hx & Hf); exists x; split; try done;
    by apply list_elem_of_In.
Qed.

Lemma forallb_elem (f : A -> bool) (l : list A) :
  forallb f l = true <-> forall x, x ∈ l -> f x = true.
Proof.
  rewrite forallb_forall. split; intros H x Hx; apply H; by apply list_elem_of_In.
Qed.

Lemma elem_of_rev (x : A) (l : list A) : x ∈ rev l <-> x ∈ l.
Proof. by rewrite !list_elem_of_In, <- in_rev. Qed.

Lemma elem_of_map (f : A -> B) (y : B) (l : list A) : y ∈ map f l <-> exists x, y = f x /\ x ∈ l.
Proof. apply list_elem_of_fmap. Qed.

Lemma elem_of_List_filter (f : A -> bool) (x : A) (l : list A) : x ∈ List.filter f l <-> x ∈ l /\ f x = true.
Proof. by rewrite !list_elem_of_In, filter_In. Qed.

Lemma elem_of_concat_map (f : A -> list B) (y : B) (l : list A) : y ∈ concat (map f l) <-> exists x, x ∈ l /\ y ∈ f x.
Proof.
  induction l as [|x l IH]; cbn [map concat].
  - split; [intros H | intros (x & H & _)]; by apply not_elem_of_nil in H.
  - rewrite elem_of_app, IH. split.
    + intros [H|(z & ? & ?)]; [exists x | exists z]; by rewrite elem_of_cons; auto.
    + intros (z & [->|?]%elem_of_cons & ?); eauto.
Qed.

(** Elements with distinct keys are equal if their keys are. *)
Lemma NoDup_map_inj (f : A -> B) (l : list A) (x y : A) : NoDup (map f l) -> x ∈ l -> y ∈ l -> f x = f y -> x = y.
Proof.
  induction l as [|z l IH]; cbn [map]; intros Hn Hx Hy He; [by apply not_elem_of_nil in Hx|].
  apply NoDup_cons in Hn as [Hz Hn].
  apply elem_of_cons in Hx as [->|Hx], Hy as [->|Hy]; try done; [| |by apply IH].
  - destruct Hz. rewrite He. apply elem_of_map. eauto.
  - destruct Hz. rewrite <- He. apply elem_of_map. eauto.
Qed.

(** The first element satisfying [f] splits the list. *)
Lemma find_split (f : A -> bool) (l : list A) (x : A) :
  List.find f l = Some x <->
  exists l1 l2, l = l1 ++ x :: l2 /\ f x = true /\ Forall (fun y => f y = false) l1.
Proof.
  split.
  - induction l as [|y l IH]; simpl; [done|].
    destruct (f y) eqn:Hy.
    + intros [= ->]. by exists [], l.
    + intros (l1 & l2 & -> & Hx & Hl)%IH. exists (y :: l1), l2. auto.
  - intros (l1 & l2 & -> & Hx & Hl).
    induction Hl as [|y l1 Hy Hl IH]; simpl; [by rewrite Hx | by rewrite Hy].
Qed.

Lemma find_ext_elem (f g : A -> bool) (l : list A) :
  (forall x, x ∈ l -> f x = g x) -> List.find f l = List.find g l.
Proof.
  induction l as [|x l IH]; simpl; intros H; [done|].
  rewrite (H x) by set_solver. rewrite IH by set_solver. done.
Qed.
End lists.

From Stdlib Require Import Sorting.Sorted.

(** In a sorted list every element of a prefix is before every element of the rest. *)
Lemma StronglySorted_split {A} (R : A -> A -> Prop) (a b : list A) x y :
  StronglySorted R (a ++ b) -> x ∈ a -> y ∈ b -> R x y.
Proof.
  induction a as [|z a IH]; intros Hs Hx Hy; [by apply not_elem_of_nil in Hx|].
  cbn in Hs. inversion Hs as [|? ? Hs' Hf]; subst.
  apply elem_of_cons in Hx as [->|Hx]; [|by apply IH].
  rewrite Forall_forall in Hf. apply Hf, elem_of_app. by right.
Qed.

(** An element of a concatenation is in one of the two parts. *)
Lemma app_split_elem {A} (a b t1 t2 : list A) x :
  a ++ x :: b = t1 ++ t2 ->
  (exists b', t1 = a ++ x :: b' /\ b = b' ++ t2) \/ (exists a', a = t1 ++ a' /\ t2 = a' ++ x :: b).
Proof.
  revert t1. induction a as [|y a IH]; intros [|z t1] H; cbn in *; simplify_eq.
  - right. by exists [].
  - left. by exists t1.
  - right. by exists (y :: a).
  - destruct (IH t1) as [(b' & -> & ->)|(a' & -> & ->)]; [done | left; by exists b' | right; by exists a'].
Qed.

Lemma cons_split {A} (x : A) l a y b :
  x :: l = a ++ y :: b -> (a = [] /\ x = y /\ l = b) \/ exists a', a = x :: a' /\ l = a' ++ y :: b.
Proof. destruct a as [|z a]; intros [=]; subst; [by left | right; by exists a]. Qed.

Lemma nil_split {A} a (y : A) b : [] = a ++ y :: b -> False.
Proof. by destruct a. Qed.

Lemma existsb_split {A} (f : A -> bool) (l : list A) :
  existsb f l = true -> exists a x b, l = a ++ x :: b /\ f x = true.
Proof.
  induction l as [|y l IH]; cbn; [done|]. intros [H|(a & x & b & -> & Hx)%IH]%orb_true_iff.
  - by exists [], y, l.
  - by exists (y :: a), x, b.
Qed.

Lemma StronglySorted_weaken {A} (R S : A -> A -> Prop) l :
  (forall x y, R x y -> S x y) -> StronglySorted R l -> StronglySorted S l.
Proof. intros H. induction 1 as [|x l _ IH Hf]; constructor; [done|]. eapply Forall_impl; [exact Hf|]. apply H. Qed.
