(* ===== verification/GoBase.v ===== *)
(** * The part of Go's run time and standard library that the source uses

    Integers of width 64 with wrap-around, [time.Time] and [time.Duration],
    byte strings, decimal formatting and parsing, and error values. *)

From S2P Require Import Prelude.
From Stdlib Require Import Ascii.

Open Scope Z_scope.

(** ** Machine integers *)

Definition minInt64 : Z := - 2 ^ 63.
Definition maxInt64 : Z := 2 ^ 63 - 1.

(** Two's-complement wrap-around of int64 arithmetic. *)
Definition wrap64 (z : Z) : Z := (z + 2 ^ 63) mod 2 ^ 64 - 2 ^ 63.

Definition in_int64 (z : Z) : Prop := minInt64 <= z <= maxInt64.

(** Conversion to int32. *)
Definition wrap32 (z : Z) : Z := (z + 2 ^ 31) mod 2 ^ 32 - 2 ^ 31.

Lemma wrap64_range z : in_int64 (wrap64 z).
Proof.
  unfold in_int64, wrap64, minInt64, maxInt64.
  pose proof (Z.mod_pos_bound (z + 2 ^ 63) (2 ^ 64)). lia.
Qed.

Lemma wrap64_id z : in_int64 z -> wrap64 z = z.
Proof.
  unfold in_int64, wrap64, minInt64, maxInt64. intros H.
  rewrite Z.mod_small; lia.
Qed.

(** ** Time

    A [time.Time] is the number of nanoseconds since the zero time, January 1
    of year 1, UTC; a [time.Duration] is an int64 number of nanoseconds. *)

Abbreviation Time := Z (only parsing).
Abbreviation Duration := Z (only parsing).

Definition Second : Duration := 1000000000.
Definition Minute : Duration := 60 * Second.
Definition Hour : Duration := 60 * Minute.

(** Seconds between the zero time and the Unix epoch. *)
Definition unixToInternal : Z := 62135596800.

(** [time.Unix(sec, 0)] *)
Definition Unix (sec : Z) : Time := (sec + unixToInternal) * Second.

Definition IsZero (t : Time) : bool := t =? 0.
Definition Before (t u : Time) : bool := t <? u.
Definition After (t u : Time) : bool := u <? t.
Definition TimeEqual (t u : Time) : bool := t =? u.
Definition Add (t : Time) (d : Duration) : Time := t + d.

(** [t.Sub(u)] saturates at the bounds of int64. *)
Definition Sub (t u : Time) : Duration := Z.max minInt64 (Z.min maxInt64 (t - u)).

Lemma Sub_range t u : in_int64 (Sub t u).
Proof. unfold in_int64, Sub, minInt64, maxInt64. lia. Qed.

Lemma Sub_exact t u : in_int64 (t - u) -> Sub t u = t - u.
Proof. unfold in_int64, Sub. lia. Qed.

(** [t.Unix()]: seconds since the Unix epoch. *)
Definition UnixSeconds (t : Time) : Z := t / Second - unixToInternal.

(** ** Byte strings *)

(** [s[:n]] and [s[n:]] for [n] within bounds. *)
Fixpoint str_take (n : nat) (s : string) : string :=
  match n, s with
  | S n, String c s => String c (str_take n s)
  | _, _ => EmptyString
  end.

Fixpoint str_drop (n : nat) (s : string) : string :=
  match n, s with
  | S n, String _ s => str_drop n s
  | _, _ => s
  end.

Definition HasPrefix (s p : string) : bool := (str_take (String.length p) s =? p)%string.

Definition HasSuffix (s p : string) : bool :=
  (String.length p <=? String.length s)%nat &&
  (str_drop (String.length s - String.length p) s =? p)%string.

Lemma str_app_cons c (a b : string) : String c a +:+ b = String c (a +:+ b).
Proof. reflexivity. Qed.

Lemma str_app_nil (b : string) : "" +:+ b = b.
Proof. reflexivity. Qed.

(** Induction on the first operand of an append. *)
Ltac app_induction a :=
  induction a as [|? a IHa];
  [ rewrite ?str_app_nil | rewrite ?str_app_cons ]; cbn; rewrite ?IHa; try done.

Lemma str_length_app (a b : string) :
  String.length (a +:+ b) = (String.length a + String.length b)%nat.
Proof. app_induction a. Qed.

Lemma str_app_assoc (a b c : string) : (a +:+ b) +:+ c = a +:+ (b +:+ c).
Proof. app_induction a. Qed.

Lemma str_app_nil_r (a : string) : a +:+ EmptyString = a.
Proof. app_induction a. Qed.

Lemma str_take_drop n s : str_take n s +:+ str_drop n s = s.
Proof.
  revert s; induction n; intros [|c s]; try reflexivity.
  cbn. by rewrite str_app_cons, IHn.
Qed.

Lemma str_take_app a b : str_take (String.length a) (a +:+ b) = a.
Proof. app_induction a; by destruct b. Qed.

Lemma str_drop_app a b : str_drop (String.length a) (a +:+ b) = b.
Proof. app_induction a; by destruct b. Qed.

Lemma str_take_length n s :
  (n <= String.length s)%nat -> String.length (str_take n s) = n.
Proof. revert s; induction n; intros [|c s]; simpl; intros; try lia. rewrite IHn; lia. Qed.

Lemma str_app_inj_l (a b c : string) : a +:+ b = a +:+ c -> b = c.
Proof. induction a; [done|]. rewrite !str_app_cons. intros [=]; auto. Qed.

Lemma HasPrefix_spec s p : HasPrefix s p = true <-> exists r, s = p +:+ r.
Proof.
  unfold HasPrefix. rewrite String.eqb_eq. split.
  - intros H. exists (str_drop (String.length p) s). rewrite <- H at 1. by rewrite str_take_drop.
  - intros [r ->]. apply str_take_app.
Qed.

Lemma HasSuffix_spec s p : HasSuffix s p = true <-> exists r, s = r +:+ p.
Proof.
  unfold HasSuffix. rewrite andb_true_iff, Nat.leb_le, String.eqb_eq. split.
  - intros [Hl H]. exists (str_take (String.length s - String.length p) s).
    rewrite <- H at 2. by rewrite str_take_drop.
  - intros [r ->]. rewrite str_length_app. split; [lia|].
    replace (String.length r + String.length p - String.length p)%nat
      with (String.length r) by lia.
    apply str_drop_app.
Qed.

#[export] Hint Rewrite str_length_app str_app_assoc str_app_nil_r : mc.

(** ** Package [strings], on ASCII text *)

Definition lowerChar (c : Ascii.ascii) : Ascii.ascii :=
  let n := Ascii.nat_of_ascii c in
  if ((65 <=? n) && (n <=? 90))%nat then Ascii.ascii_of_nat (n + 32) else c.

(** [strings.ToLower] *)
Fixpoint ToLower (s : string) : string :=
  match s with
  | EmptyString => EmptyString
  | String c s' => String (lowerChar c) (ToLower s')
  end.

(** The white space that [strings.TrimSpace] removes. *)
Definition isSpaceChar (c : Ascii.ascii) : bool :=
  let n := Ascii.nat_of_ascii c in ((9 <=? n) && (n <=? 13))%nat || (n =? 32)%nat.

Fixpoint TrimLeftSpace (s : string) : string :=
  match s with
  | String c s' => if isSpaceChar c then TrimLeftSpace s' else s
  | EmptyString => EmptyString
  end.

Fixpoint TrimRightSpace (s : string) : string :=
  match s with
  | EmptyString => EmptyString
  | String c s' =>
      match TrimRightSpace s' with
      | EmptyString => if isSpaceChar c then EmptyString else String c EmptyString
      | r => String c r
      end
  end.

Definition TrimSpace (s : string) : string := TrimRightSpace (TrimLeftSpace s).

(** [strings.IndexByte]; -1 if the byte does not occur. *)
Fixpoint IndexByte (s : string) (c : Ascii.ascii) : Z :=
  match s with
  | EmptyString => -1
  | String d s' =>
      if Ascii.eqb d c then 0
      else let i := IndexByte s' c in if i <? 0 then -1 else i + 1
  end.

(** ** Decimal numbers *)

Definition isDigit (c : Ascii.ascii) : bool :=
  let n := Ascii.nat_of_ascii c in (48 <=? n)%nat && (n <=? 57)%nat.

Definition digitVal (c : Ascii.ascii) : Z := Z.of_nat (Ascii.nat_of_ascii c) - 48.

(** The longest prefix of ASCII digits, its value in base ten on top of [acc],
    the number of digits read and the rest of the input. *)
Fixpoint scanDigits (s : string) (acc : Z) (n : nat) : Z * nat * string :=
  match s with
  | String c s' => if isDigit c then scanDigits s' (acc * 10 + digitVal c) (S n) else (acc, n, s)
  | EmptyString => (acc, n, EmptyString)
  end.

(** An optional sign. *)
Definition scanSign (s : string) : bool * string :=
  match s with
  | String "-"%char s' => (true, s')
  | String "+"%char s' => (false, s')
  | _ => (false, s)
  end.

Definition signed (neg : bool) (v : Z) : Z := if neg then - v else v.

Definition inInt64b (z : Z) : bool := (minInt64 <=? z) && (z <=? maxInt64).

(** [strconv.Atoi]: the whole string is an optional sign and decimal digits, and
    the value fits in an int (64 bits). *)
Definition Atoi (s : string) : option Z :=
  let '(neg, s1) := scanSign s in
  let '(v, n, rest) := scanDigits s1 0 0 in
  if (n =? 0)%nat then None
  else if negb (rest =? "")%string then None
  else if inInt64b (signed neg v) then Some (signed neg v) else None.

(** Space characters that [fmt.Sscanf] skips before a number. *)
Definition isSkippedSpace (c : Ascii.ascii) : bool :=
  let n := Ascii.nat_of_ascii c in
  ((n =? 9) || (n =? 11) || (n =? 12) || (n =? 13) || (n =? 32))%nat.

Fixpoint skipSpace (s : string) : string :=
  match s with
  | String c s' => if isSkippedSpace c then skipSpace s' else s
  | EmptyString => EmptyString
  end.

(** [fmt.Sscanf(s, "%d", &ts)] for an int64 [ts]; input after the number is
    ignored. *)
Definition SscanfD (s : string) : option Z :=
  let '(neg, s1) := scanSign (skipSpace s) in
  let '(v, n, _) := scanDigits s1 0 0 in
  if (n =? 0)%nat then None
  else if inInt64b (signed neg v) then Some (signed neg v) else None.

Lemma SscanfD_range s v : SscanfD s = Some v -> in_int64 v.
Proof.
  unfold SscanfD, inInt64b, in_int64. intros H.
  destruct (scanSign _) as [neg s1], (scanDigits _ _ _) as [[w n] rest].
  guards H. bool_prop. lia.
Qed.

(** ** Errors

    An error is a message, a wrapped error (errors.Wrap), an error marked with a
    sentinel (errors.Mark) or an error of the Kubernetes API with its reason. *)

Inductive ApiReason := NotFound | Conflict | NoMatch | OtherReason.

Inductive Sentinel := errChecksumMismatch | errInvalidURL | errUnsupportedSourceType.

#[export] Instance ApiReason_eq_dec : EqDecision ApiReason.
Proof. solve_decision. Defined.
#[export] Instance Sentinel_eq_dec : EqDecision Sentinel.
Proof. solve_decision. Defined.

Inductive error :=
  | ErrNew (msg : string)
  | ErrApi (reason : ApiReason) (msg : string)
  | ErrWrap (e : error) (msg : string)
  | ErrMark (e : error) (mark : Sentinel).

#[export] Instance error_eq_dec : EqDecision error.
Proof. solve_decision. Defined.

(** [err.Error()] *)
Fixpoint errString (e : error) : string :=
  match e with
  | ErrNew m => m
  | ErrApi _ m => m
  | ErrWrap e m => m +:+ ": " +:+ errString e
  | ErrMark e _ => errString e
  end.

(** The reason of an API error, looking through wrappers as errors.As does. *)
Fixpoint apiReason (e : error) : option ApiReason :=
  match e with
  | ErrNew _ => None
  | ErrApi r _ => Some r
  | ErrWrap e _ => apiReason e
  | ErrMark e _ => apiReason e
  end.

Definition IsNotFound (e : error) : bool := bool_decide (apiReason e = Some NotFound).
Definition IsConflict (e : error) : bool := bool_decide (apiReason e = Some Conflict).
Definition IsNoMatchError (e : error) : bool := bool_decide (apiReason e = Some NoMatch).

(** [errors.Is(err, sentinel)] *)
Fixpoint errIs (e : error) (s : Sentinel) : bool :=
  match e with
  | ErrNew _ | ErrApi _ _ => false
  | ErrWrap e _ => errIs e s
  | ErrMark e m => bool_decide (m = s) || errIs e s
  end.

(** A Go result pair [(value, error)] of which one side is meaningful. *)
Inductive result (A : Type) := Ok (a : A) | Err (e : error).
Arguments Ok {A} _.
Arguments Err {A} _.

Definition wrap {A} (msg : string) (r : result A) : result A :=
  match r with Ok a => Ok a | Err e => Err (ErrWrap e msg) end.

Definition isOk {A} (r : result A) : bool := match r with Ok _ => true | Err _ => false end.

(** Sequencing with an early return of the error. *)
Definition res_bind {A B} (r : result A) (k : A -> result B) : result B :=
  match r with Ok a => k a | Err e => Err e end.

Lemma res_bind_Ok {A B} (r : result A) (k : A -> result B) b :
  res_bind r k = Ok b <-> exists a, r = Ok a /\ k a = Ok b.
Proof. destruct r; naive_solver. Qed.

Lemma wrap_Ok {A} m (r : result A) a : wrap m r = Ok a <-> r = Ok a.
Proof. destruct r; naive_solver. Qed.
