(* ===== verification/Decimals.v ===== *)
(** * Decimal strings

    What [fmt.Sprintf("%d")] writes is read back by the scanners of GoBase, and
    consists of digits; predicates on all bytes of a string. *)

From S2P Require Import Prelude GoBase.
From Stdlib Require Import Ascii.

Open Scope Z_scope.

Definition nonempty (s : string) : bool := negb (s =? "")%string.

Fixpoint str_all (f : ascii -> bool) (s : string) : bool :=
  match s with
  | String c s' => f c && str_all f s'
  | EmptyString => true
  end.

Lemma str_all_app f a b : str_all f (a +:+ b) = str_all f a && str_all f b.
Proof. app_induction a. by rewrite andb_assoc. Qed.

Lemma str_all_mono (f g : ascii -> bool) s :
  (forall c, f c = true -> g c = true) -> str_all f s = true -> str_all g s = true.
Proof.
  intros H. induction s as [|c s IH]; simpl; [done|].
  intros [Hc Hs]%andb_true_iff. by rewrite (H c Hc), IH.
Qed.

(** ** Decimal numbers round trip *)

Lemma digit_pretty_char (x : N) :
  (x < 10)%N -> isDigit (pretty_N_char x) = true /\ digitVal (pretty_N_char x) = Z.of_N x.
Proof.
  intros Hx.
  assert (x = 0 \/ x = 1 \/ x = 2 \/ x = 3 \/ x = 4 \/ x = 5 \/ x = 6 \/ x = 7 \/ x = 8 \/ x = 9)%N
    as Hc by lia.
  repeat destruct Hc as [-> | Hc]; try (split; reflexivity). rewrite Hc. split; reflexivity.
Qed.

(** Reading back the digits that [pretty_N_go] puts in front of [s]. *)
Lemma scanDigits_pretty_go (x : N) : (0 < x)%N ->
  exists k m, forall s acc n,
    scanDigits (pretty_N_go x s) acc n = scanDigits s (acc * m + Z.of_N x) (S k + n)%nat.
Proof.
  induction (N.lt_wf_0 x) as [x _ IH]. intros Hx.
  assert (Hd : (x mod 10 < 10)%N) by (apply N.mod_lt; lia).
  destruct (digit_pretty_char _ Hd) as [Hdig Hval].
  assert (Hdm : (x = 10 * (x / 10) + x mod 10)%N) by (apply N.div_mod; lia).
  destruct (decide (0 < x / 10)%N) as [Hq|Hq].
  - destruct (IH (x / 10)%N) as (k & m & Hk); [apply N.div_lt; lia | done |].
    exists (S k), (m * 10). intros s acc n. rewrite pretty_N_go_step by done. rewrite Hk.
    cbn [scanDigits]. rewrite Hdig, Hval. f_equal; lia.
  - exists 0%nat, 10. intros s acc n. rewrite pretty_N_go_step by done.
    replace (x / 10)%N with 0%N by lia. rewrite pretty_N_go_0. cbn [scanDigits].
    rewrite Hdig, Hval. f_equal. lia.
Qed.

(** The decimal string of a natural number, with something behind it. *)
Lemma scanDigits_pretty (z : Z) s : 0 <= z ->
  exists k, scanDigits (pretty z +:+ s) 0 0 = scanDigits s z (S k).
Proof.
  intros Hz. destruct z as [|p|p]; [|  |lia].
  - exists 0%nat. reflexivity.
  - destruct (scanDigits_pretty_go (N.pos p)) as (k & m & Hk); [lia|]. exists k.
    assert (Happ : forall x t u, (0 < x)%N ->
              pretty_N_go x t +:+ u = pretty_N_go x (t +:+ u)).
    { intros x. induction (N.lt_wf_0 x) as [x _ IH]. intros t u Hx.
      rewrite (pretty_N_go_step x t), (pretty_N_go_step x (t +:+ u)) by done.
      destruct (decide (0 < x / 10)%N) as [Hq|Hq%N.nlt_ge%N.le_0_r].
      - rewrite IH; [done | apply N.div_lt; lia | done].
      - rewrite Hq. by rewrite !pretty_N_go_0, str_app_cons. }
    change (pretty (Z.pos p)) with (pretty_N_go (N.pos p) "").
    rewrite Happ by lia. rewrite Hk, Nat.add_0_r. by rewrite str_app_nil.
Qed.

Lemma scanSign_pretty (z : Z) s : 0 <= z -> scanSign (pretty z +:+ s) = (false, pretty z +:+ s).
Proof.
  intros Hz. destruct (scanDigits_pretty z s Hz) as [k Hk].
  destruct (pretty z +:+ s) as [|c t] eqn:E.
  - reflexivity.
  - cbn [scanDigits] in Hk. destruct (isDigit c) eqn:Hc.
    + destruct c as [[] [] [] [] [] [] [] []]; try reflexivity; discriminate Hc.
    + exfalso. pose proof (scanDigits_pretty z "" Hz) as [k' Hk']. cbn [scanDigits] in Hk'.
      rewrite str_app_nil_r in Hk'.
      destruct (pretty z) as [|c' t'] eqn:Ep; [by cbn in Hk'|].
      rewrite str_app_cons in E. injection E as -> _. cbn [scanDigits] in Hk'.
      rewrite Hc in Hk'. done.
Qed.

(** [strconv.Atoi(fmt.Sprintf("%d", z))] *)
Lemma Atoi_pretty (z : Z) : 0 <= z <= maxInt64 -> Atoi (pretty z) = Some z.
Proof.
  intros Hz. unfold Atoi.
  pose proof (scanSign_pretty z "" ltac:(lia)) as Hs. rewrite str_app_nil_r in Hs. rewrite Hs.
  pose proof (scanDigits_pretty z "" ltac:(lia)) as [k Hk]. rewrite str_app_nil_r in Hk. rewrite Hk.
  cbn [scanDigits Nat.eqb negb String.eqb signed]. unfold inInt64b.
  assert ((minInt64 <=? z) && (z <=? maxInt64) = true) as ->; [|done].
  unfold minInt64 in *. lia.
Qed.

Lemma pretty_digits (z : Z) : 0 <= z -> str_all isDigit (pretty z) = true /\ nonempty (pretty z) = true.
Proof.
  intros Hz. destruct z as [|p|p]; [done | | lia].
  change (pretty (Z.pos p)) with (pretty_N_go (N.pos p) "").
  assert (H : forall x s, (0 < x)%N -> str_all isDigit s = true ->
            str_all isDigit (pretty_N_go x s) = true /\ nonempty (pretty_N_go x s) = true).
  { intros x. induction (N.lt_wf_0 x) as [x _ IH]. intros s Hx Hs.
    rewrite pretty_N_go_step by done.
    assert (Hd : (x mod 10 < 10)%N) by (apply N.mod_lt; lia).
    destruct (digit_pretty_char _ Hd) as [Hdig _].
    destruct (decide (0 < x / 10)%N) as [Hq|Hq%N.nlt_ge%N.le_0_r].
    - apply IH; [apply N.div_lt; lia | done |]. cbn. by rewrite Hdig.
    - rewrite Hq, pretty_N_go_0. cbn. by rewrite Hdig. }
  by apply H.
Qed.

(** A number below [10^k] has at most [k] digits. *)
Lemma pretty_N_go_length (k : nat) (x : N) s :
  (x < 10 ^ N.of_nat k)%N -> (String.length (pretty_N_go x s) <= k + String.length s)%nat.
Proof.
  revert x s. induction k as [|k IH]; intros x s Hx.
  - assert (x = 0%N) as -> by (cbn in Hx; lia). rewrite pretty_N_go_0. lia.
  - destruct (N.eq_dec x 0) as [->|H0]; [rewrite pretty_N_go_0; lia|].
    rewrite pretty_N_go_step by lia. etransitivity.
    + apply IH. rewrite Nat2N.inj_succ, N.pow_succ_r' in Hx. apply N.Div0.div_lt_upper_bound. lia.
    + cbn. lia.
Qed.

Lemma pretty_length (k : nat) (z : Z) : (1 <= k)%nat -> 0 <= z < 10 ^ Z.of_nat k -> (String.length (pretty z) <= k)%nat.
Proof.
  intros Hk [H0 Hz]. destruct z as [|p|p]; [cbn; lia| |lia].
  change (pretty (Z.pos p)) with (pretty_N_go (N.pos p) "").
  etransitivity; [apply (pretty_N_go_length k) | cbn; lia].
  apply N2Z.inj_lt. rewrite N2Z.inj_pow, nat_N_Z. exact Hz.
Qed.
