(* ===== verification/Strings.v ===== *)
(** * Packages strings and path/filepath

    The functions on byte strings that several components use: splitting, joining,
    searching, and cleaning of slash-separated paths. *)

From S2P Require Import Prelude GoBase Decimals.
From Stdlib Require Import Ascii.

Open Scope Z_scope.

Definition TrimPrefix (s p : string) : string :=
  if HasPrefix s p then str_drop (String.length p) s else s.

Definition TrimSuffix (s p : string) : string :=
  if HasSuffix s p then str_take (String.length s - String.length p) s else s.

(** [strings.Split(s, sep)] for a separator of one byte. *)
Fixpoint SplitByte (s : string) (sep : ascii) : list string :=
  match s with
  | EmptyString => [EmptyString]
  | String d s' =>
      if Ascii.eqb d sep then EmptyString :: SplitByte s' sep
      else match SplitByte s' sep with
           | [] => [String d EmptyString]
           | p :: ps => String d p :: ps
           end
  end.

(** [strings.LastIndexByte]; -1 if the byte does not occur. *)
Fixpoint LastIndexByte (s : string) (c : ascii) : Z :=
  match s with
  | EmptyString => -1
  | String d s' =>
      let i := LastIndexByte s' c in
      if 0 <=? i then i + 1 else if Ascii.eqb d c then 0 else -1
  end.

(** [strings.Contains] *)
Fixpoint Contains (s sub : string) : bool :=
  HasPrefix s sub ||
  match s with
  | EmptyString => false
  | String _ s' => Contains s' sub
  end.

(** [strings.Join] *)
Fixpoint Join (l : list string) (sep : string) : string :=
  match l with
  | [] => ""
  | [x] => x
  | x :: l => x +:+ sep +:+ Join l sep
  end.

(** ** filepath on slash-separated paths *)

(** One element of a path on top of the elements kept so far, the last one first. *)
Definition cleanStep (rooted : bool) (stack : list string) (el : string) : list string :=
  if (el =? "")%string || (el =? ".")%string then stack
  else if (el =? "..")%string then
    match stack with
    | top :: rest => if (top =? "..")%string then el :: stack else rest
    | [] => if rooted then [] else [el]
    end
  else el :: stack.

(** [filepath.Clean] *)
Definition Clean (path : string) : string :=
  let rooted := HasPrefix path "/" in
  let out := Join (rev (foldl (cleanStep rooted) [] (SplitByte path "/"%char))) "/" in
  if rooted then "/" +:+ out else if (out =? "")%string then "." else out.

(** [filepath.Dir] *)
Definition Dir (path : string) : string :=
  Clean (str_take (Z.to_nat (LastIndexByte path "/"%char + 1)) path).

(** ** Lemmas *)

Lemma Contains_spec s sub : Contains s sub = true <-> exists a b, s = a +:+ sub +:+ b.
Proof.
  induction s as [|c s IH]; cbn [Contains]; rewrite orb_true_iff, HasPrefix_spec.
  - split.
    + intros [[r Hr]|?]; [|done]. by exists "", r.
    + intros (a & b & H). left. destruct a; [by exists b | done].
  - rewrite IH. split.
    + intros [[r ->]|(a & b & ->)]; [by exists "", r | by exists (String c a), b].
    + intros (a & b & H). destruct a as [|d a]; [left; by exists b|].
      rewrite str_app_cons in H. injection H as -> ->. right. by exists a, b.
Qed.

Lemma str_all_spec f s : str_all f s = true <-> forall a c b, s = a +:+ String c b -> f c = true.
Proof.
  induction s as [|d s IH]; cbn [str_all].
  - split; [|done]. intros _ a c b H. by destruct a.
  - rewrite andb_true_iff, IH. split.
    + intros [Hd Hs] a c b H. destruct a as [|e a]; [by injection H as -> ->|].
      rewrite str_app_cons in H. injection H as -> H. by eapply Hs.
    + intros H. split; [by apply (H "" d s)|]. intros a c b ->. by apply (H (String d a) c b).
Qed.

Lemma str_all_take f n s : str_all f s = true -> str_all f (str_take n s) = true.
Proof. intros H. rewrite <- (str_take_drop n s), str_all_app in H. by apply andb_true_iff in H as [? _]. Qed.

(** The pieces of a split have the characters of the whole, without the separator. *)
Lemma SplitByte_all f s sep :
  str_all f s = true -> Forall (fun p => str_all (fun c => f c && negb (Ascii.eqb c sep)) p = true) (SplitByte s sep).
Proof.
  induction s as [|c s IH]; cbn [SplitByte str_all]; [by repeat constructor|].
  rewrite andb_true_iff. intros [Hc Hs]. specialize (IH Hs).
  destruct (Ascii.eqb c sep) eqn:He; [by constructor|].
  destruct (SplitByte s sep) as [|p ps]; [repeat constructor|inversion IH; subst; constructor; [|done]];
    cbn [str_all]; by rewrite Hc, He.
Qed.

Lemma Join_all f l sep :
  str_all f sep = true -> Forall (fun p => str_all f p = true) l -> str_all f (Join l sep) = true.
Proof.
  intros Hs. induction 1 as [|x l Hx Hl IH]; [done|]. destruct l as [|y l]; [exact Hx|].
  change (Join (x :: y :: l) sep) with (x +:+ sep +:+ Join (y :: l) sep).
  by rewrite !str_all_app, Hx, Hs, IH.
Qed.

(** Cleaning keeps a class of characters that has the dot and the slash. *)
Lemma cleanStep_all f rooted stack el :
  f "."%char = true -> Forall (fun p => str_all f p = true) stack -> str_all f el = true ->
  Forall (fun p => str_all f p = true) (cleanStep rooted stack el).
Proof.
  intros Hd Hs He. unfold cleanStep. repeat case_match; try done; try (by constructor).
  by inversion Hs.
Qed.

Lemma Clean_all f path :
  f "."%char = true -> f "/"%char = true -> str_all f path = true -> str_all f (Clean path) = true.
Proof.
  intros Hd Hs Hp. unfold Clean.
  assert (Hj : str_all f (Join (rev (foldl (cleanStep (HasPrefix path "/")) [] (SplitByte path "/"%char))) "/") = true).
  { apply Join_all; [cbn; by rewrite Hs|]. apply Forall_rev.
    assert (Hl : Forall (fun p => str_all f p = true) (SplitByte path "/"%char)).
    { eapply Forall_impl; [by apply SplitByte_all|]. cbn. intros p. apply str_all_mono. intros c. by intros [? _]%andb_true_iff. }
    assert (Ha : Forall (fun p => str_all f p = true) []) by constructor.
    revert Ha. generalize (@nil string) as acc. induction Hl as [|x l Hx Hl IH]; intros acc Ha; [done|].
    cbn [foldl]. apply IH. by apply cleanStep_all. }
  repeat case_match; [|cbn; by rewrite Hd | exact Hj].
  rewrite str_app_cons, str_app_nil. cbn [str_all]. by rewrite Hs, Hj.
Qed.

Lemma Dir_all f path :
  f "."%char = true -> f "/"%char = true -> str_all f path = true -> str_all f (Dir path) = true.
Proof. intros ? ? ?. unfold Dir. apply Clean_all; try done. by apply str_all_take. Qed.

(** ** Paths without [..] *)

Lemma Contains_app_l a b sub : Contains (a +:+ b) sub = false -> Contains a sub = false.
Proof.
  intros H. destruct (Contains a sub) eqn:E; [|done]. apply Contains_spec in E as (u & v & ->).
  rewrite <- H. symmetry. apply Contains_spec. exists u, (v +:+ b). by rewrite !str_app_assoc.
Qed.

Lemma Contains_app_r a b sub : Contains (a +:+ b) sub = false -> Contains b sub = false.
Proof.
  intros H. destruct (Contains b sub) eqn:E; [|done]. apply Contains_spec in E as (u & v & ->).
  rewrite <- H. symmetry. apply Contains_spec. exists (a +:+ u), v. by rewrite !str_app_assoc.
Qed.

(** A separator that is not in the text searched for keeps the two sides apart. *)
Lemma Contains_sep a c b d e :
  Ascii.eqb c d = false -> Ascii.eqb c e = false ->
  Contains a (String d (String e "")) = false -> Contains b (String d (String e "")) = false ->
  Contains (a +:+ String c b) (String d (String e "")) = false.
Proof.
  intros Hd He. induction a as [|x a IH]; intros Ha Hb.
  - cbn [String.append Contains] in *. change (EmptyString +:+ String c b) with (String c b). cbn [Contains]. rewrite Hb, orb_false_r.
    unfold HasPrefix. cbn. by rewrite Hd.
  - rewrite str_app_cons. cbn [Contains] in Ha |- *. apply orb_false_iff in Ha as [Hp Ha]. rewrite (IH Ha Hb), orb_false_r.
    destruct a as [|y a]; [|exact Hp]. change (EmptyString +:+ String c b) with (String c b).
    unfold HasPrefix. cbn. rewrite He. by destruct (Ascii.eqb x d).
Qed.

Lemma SplitByte_nonnil s sep : SplitByte s sep <> [].
Proof. destruct s as [|c s]; cbn [SplitByte]; repeat case_match; done. Qed.

(** A piece of a split is a part of the whole. *)
Lemma SplitByte_part s sep p : p ∈ SplitByte s sep -> exists a b, s = a +:+ p +:+ b.
Proof.
  revert p. induction s as [|c s IH]; intros p; cbn [SplitByte].
  - intros ->%list_elem_of_singleton. by exists "", "".
  - destruct (Ascii.eqb c sep).
    + intros [->|Hp]%elem_of_cons; [by exists "", (String c s)|]. destruct (IH _ Hp) as (a & b & ->). by exists (String c a), b.
    + destruct (SplitByte s sep) as [|q qs] eqn:Hq.
      { intros ->%list_elem_of_singleton. by exists "", s. }
      intros [->|Hp]%elem_of_cons.
      * assert (Hh : forall s q qs, SplitByte s sep = q :: qs -> exists b, s = q +:+ b).
        { clear. induction s as [|d s IH]; intros q qs; cbn [SplitByte]; [intros [= <- <-]; by exists ""|].
          destruct (Ascii.eqb d sep); [intros [= <- <-]; by exists (String d s)|].
          destruct (SplitByte s sep) as [|u us]; intros [= <- <-]; [by exists s|].
          destruct (IH u us eq_refl) as [b ->]. by exists b. }
        destruct (Hh _ _ _ Hq) as [b ->]. by exists "", b.
      * destruct (IH p) as (a & b & ->); [by right|]. by exists (String c a), b.
Qed.

Lemma LastIndexByte_app a b c : LastIndexByte (a +:+ b) c =
  if 0 <=? LastIndexByte b c then Z.of_nat (String.length a) + LastIndexByte b c else LastIndexByte a c.
Proof.
  induction a as [|d a IH].
  - rewrite str_app_nil. cbn [String.length LastIndexByte]. destruct (Z.leb_spec 0 (LastIndexByte b c)); [lia|].
    assert (H1 : -1 <= LastIndexByte b c) by (clear; induction b as [|e b IH]; cbn; [lia|]; repeat case_match; lia). lia.
  - rewrite str_app_cons. cbn [LastIndexByte String.length]. rewrite IH.
    destruct (Z.leb_spec 0 (LastIndexByte b c)); [|done].
    rewrite (proj2 (Z.leb_le 0 (Z.of_nat (String.length a) + LastIndexByte b c))) by lia. lia.
Qed.

Lemma str_take_app_le a b n : str_take (String.length a + n) (a +:+ b) = a +:+ str_take n b.
Proof. induction a as [|c a IH]; [done|]. rewrite str_app_cons. cbn. by rewrite IH. Qed.

Lemma foldl_cleanStep l stack :
  Forall (fun el => el <> "..") l -> exists new, foldl (cleanStep true) stack l = new ++ stack.
Proof.
  revert stack. induction l as [|el l IH]; intros stack Hl; [by exists []|].
  apply Forall_cons in Hl as [Hel Hl]. cbn [foldl]. destruct (IH (cleanStep true stack el) Hl) as [new ->].
  unfold cleanStep. destruct (_ || _); [by exists new|].
  destruct (String.eqb_spec el "..") as [->|_]; [done|]. exists (new ++ [el]). by rewrite <- app_assoc.
Qed.

(** The directory of a path below [/data/] without [..] is [/data] or below it. *)
Lemma Dir_below base r :
  SplitByte base "/"%char = [base] -> base <> "" -> base <> "." -> base <> ".." -> Contains r ".." = false ->
  HasPrefix (Dir ("/" +:+ base +:+ "/" +:+ r)) ("/" +:+ base) = true.
Proof.
  intros Hs H0 H1 H2 Hr. unfold Dir.
  assert (Ht : exists r', str_take (Z.to_nat (LastIndexByte ("/" +:+ base +:+ "/" +:+ r) "/"%char + 1)) ("/" +:+ base +:+ "/" +:+ r) =
      "/" +:+ base +:+ "/" +:+ r' /\ Contains r' ".." = false).
  { assert (Hl : LastIndexByte ("/" +:+ base +:+ "/") "/"%char = Z.of_nat (String.length ("/" +:+ base))).
    { rewrite <- str_app_assoc, LastIndexByte_app. cbn. lia. }
    replace ("/" +:+ base +:+ "/" +:+ r) with (("/" +:+ base +:+ "/") +:+ r) by by rewrite !str_app_assoc.
    rewrite LastIndexByte_app. destruct (Z.leb_spec 0 (LastIndexByte r "/"%char)).
    - exists (str_take (Z.to_nat (LastIndexByte r "/"%char + 1)) r). split.
      + rewrite <- Z.add_assoc, Z2Nat.inj_add, Nat2Z.id, str_take_app_le by lia. by rewrite !str_app_assoc.
      + apply (Contains_app_l _ (str_drop (Z.to_nat (LastIndexByte r "/"%char + 1)) r)). by rewrite str_take_drop.
    - exists "". split; [|done]. rewrite Hl, str_app_nil_r.
      replace (Z.to_nat (Z.of_nat (String.length ("/" +:+ base)) + 1)) with (String.length ("/" +:+ base +:+ "/")) by
        (rewrite <- str_app_assoc, !str_length_app; cbn; lia).
      by rewrite str_take_app. }
  destruct Ht as (r' & -> & Hr'). unfold Clean.
  rewrite (proj2 (HasPrefix_spec _ "/")) by (by eexists).
  assert (Hsp : SplitByte ("/" +:+ base +:+ "/" +:+ r') "/"%char = "" :: base :: SplitByte r' "/"%char).
  { change ("/" +:+ base +:+ "/" +:+ r') with (String "/"%char (base +:+ String "/"%char r')). cbn [SplitByte Ascii.eqb Bool.eqb]. f_equal.
    assert (Hg : forall b q, SplitByte b "/"%char = [q] -> SplitByte (b +:+ String "/"%char r') "/"%char = q :: SplitByte r' "/"%char).
    { clear. induction b as [|d b IH]; intros q; [by intros [= <-]|]. rewrite str_app_cons. cbn [SplitByte].
      destruct (Ascii.eqb d "/"%char); [intros [= _ Hb]; by apply SplitByte_nonnil in Hb|].
      destruct (SplitByte b "/"%char) as [|u us] eqn:Hu; [by apply SplitByte_nonnil in Hu|]. intros [= <- ->]. by rewrite (IH u). }
    exact (Hg base base Hs). }
  rewrite Hsp. cbn [foldl]. replace (cleanStep true (cleanStep true [] "") base) with [base].
  2:{ unfold cleanStep. cbn. rewrite !(proj2 (String.eqb_neq _ _)) by done. done. }
  destruct (foldl_cleanStep (SplitByte r' "/"%char) [base]) as [new ->].
  { apply Forall_forall. intros p Hp ->. apply SplitByte_part in Hp as (a & b & ->).
    rewrite (proj2 (Contains_spec _ "..")) in Hr' by (by exists a, b). done. }
  rewrite rev_app_distr. apply HasPrefix_spec. cbn [rev app Join].
  destruct (rev new) as [|x l]; [exists ""; by rewrite str_app_nil_r|].
  exists ("/" +:+ Join (x :: l) "/"). by rewrite !str_app_assoc.
Qed.

Example Dir_examples :
  map Dir ["/data/plugins/BlueMap/core.conf"; "/data/plugins//x"; "/data/x"; "a"; "/a/../../b/c"] =
  ["/data/plugins/BlueMap"; "/data/plugins"; "/data"; "."; "/b"].
Proof. reflexivity. Qed.
