(* ===== verification/GoLib.v ===== *)
(** * Interfaces to library functions with a choice or a digest

    [sort.Slice], the iteration over a Go map, whose order is arbitrary, SHA-256
    and [%q]; each with its documented laws and a concrete instance. *)

From S2P Require Import Prelude GoBase Decimals Strings.
From Stdlib Require Import Ascii Sorting.Sorted.

Open Scope Z_scope.

(** ** sort.Slice *)

Class GoSort := { SortSlice : forall {A : Type}, (A -> A -> bool) -> list A -> list A }.

(** [less] is a strict weak order. *)
Definition weakOrder {A} (less : A -> A -> bool) : Prop :=
  (forall x y, less x y = true -> less y x = false) /\
  (forall x y z, less x y = true -> less x z = true \/ less z y = true).

Class GoSortLaws {GS : GoSort} : Prop := {
  SortSlice_perm : forall {A} (less : A -> A -> bool) l, SortSlice less l ≡ₚ l;
  SortSlice_ordered : forall {A} (less : A -> A -> bool) l, weakOrder less ->
    StronglySorted (fun x y => less y x = false) (SortSlice less l)
}.

(** Comparing a number or a string key is a weak order. *)
Lemma weakOrder_Z {A} (key : A -> Z) : weakOrder (fun x y => key x <? key y).
Proof. split; intros; rewrite ?Z.ltb_lt, ?Z.ltb_ge in *; lia. Qed.

Definition strLess (a b : string) : bool := negb (String.leb b a).

Lemma weakOrder_string {A} (key : A -> string) : weakOrder (fun x y => strLess (key x) (key y)).
Proof.
  unfold strLess. split; intros x y.
  - rewrite negb_true_iff, negb_false_iff. intros H.
    destruct (String.leb_total (key x) (key y)) as [Hl|Hl]; [done | congruence].
  - intros z. rewrite !negb_true_iff. intros H. destruct (String.leb (key z) (key x)) eqn:H1; [|by left].
    right. destruct (String.leb (key y) (key z)) eqn:H2; [|done]. rewrite <- H.
    symmetry. apply Is_true_true. exact (transitivity (R := String.le) (Is_true_true_2 _ H2) (Is_true_true_2 _ H1)).
Qed.

Lemma SortSlice_sorted {GS : GoSort} {GL : GoSortLaws} {A} (key : A -> Z) l :
  StronglySorted (fun x y => key x <= key y) (SortSlice (fun x y => key x <? key y) l).
Proof.
  pose proof (SortSlice_ordered _ l (weakOrder_Z key)) as H.
  induction H as [|x l0 _ IH Hf]; constructor; [done|].
  eapply Forall_impl; [exact Hf|]. intros y Hy. by apply Z.ltb_ge in Hy.
Qed.

Module InsertionSort.
Fixpoint insert {A} (less : A -> A -> bool) (x : A) (l : list A) : list A :=
  match l with
  | [] => [x]
  | y :: l => if less y x then y :: insert less x l else x :: y :: l
  end.

Definition sort {A} (less : A -> A -> bool) (l : list A) : list A := foldr (insert less) [] l.

#[global] Instance goSort : GoSort := {| SortSlice := @sort |}.

Lemma insert_perm {A} (less : A -> A -> bool) x l : insert less x l ≡ₚ x :: l.
Proof.
  induction l as [|y l IH]; cbn; [done|]. destruct (less y x); [|done].
  rewrite IH. apply perm_swap.
Qed.

Lemma insert_sorted {A} (less : A -> A -> bool) x l :
  weakOrder less -> StronglySorted (fun x y => less y x = false) l ->
  StronglySorted (fun x y => less y x = false) (insert less x l).
Proof.
  intros [Ha Hn]. induction 1 as [|y l Hs IH Hf]; cbn; [repeat constructor|].
  rewrite Forall_forall in Hf. destruct (less y x) eqn:Hyx.
  - constructor; [done|]. apply Forall_forall. intros z Hz.
    rewrite insert_perm in Hz. apply elem_of_cons in Hz as [->|Hz]; [by apply Ha | by apply Hf].
  - constructor; [constructor; [done | by apply Forall_forall]|].
    constructor; [done|]. apply Forall_forall. intros z Hz. specialize (Hf z Hz).
    destruct (less z x) eqn:Hzx; [|done]. destruct (Hn z x y Hzx); congruence.
Qed.

#[global] Instance goSort_laws : GoSortLaws.
Proof.
  split.
  - intros A less l. cbn. induction l as [|x l IH]; cbn; [done|]. by rewrite insert_perm, IH.
  - intros A less l Hw. cbn. induction l as [|x l IH]; cbn; [constructor|]. by apply insert_sorted.
Qed.
End InsertionSort.

(** ** Iteration over a map

    [for k, v := range m] visits every pair once, in an order that the language
    leaves open; an instance is one choice of orders. *)

Class MapRange := { mapRange : forall {V : Type}, gmap string V -> list (string * V) }.

Class MapRangeLaws {MR : MapRange} : Prop := {
  mapRange_perm : forall {V} (m : gmap string V), mapRange m ≡ₚ map_to_list m
}.

Lemma elem_of_mapRange {MR : MapRange} {ML : MapRangeLaws} {V} (m : gmap string V) k v :
  (k, v) ∈ mapRange m <-> m !! k = Some v.
Proof. by rewrite mapRange_perm, elem_of_map_to_list. Qed.

Module InOrder.
#[global] Instance range : MapRange := {| mapRange V m := map_to_list m |}.
#[global] Instance range_laws : MapRangeLaws.
Proof. by split. Qed.
End InOrder.

Module Reversed.
#[global] Instance range : MapRange := {| mapRange V m := rev (map_to_list m) |}.
#[global] Instance range_laws : MapRangeLaws.
Proof. split. intros V m. cbn. symmetry. apply Permutation_rev. Qed.
End Reversed.

(** ** SHA-256 in hexadecimal *)

Class Digest := { Sha256Hex : string -> string }.

Definition isHexDigit (c : Ascii.ascii) : bool :=
  isDigit c || (let n := Ascii.nat_of_ascii c in (97 <=? n)%nat && (n <=? 102)%nat).

Class DigestLaws {DG : Digest} : Prop := {
  Sha256Hex_length : forall s, String.length (Sha256Hex s) = 64%nat;
  Sha256Hex_hex : forall s, str_all isHexDigit (Sha256Hex s) = true
}.

(** The length of the text in hexadecimal stands for its digest. *)
Module LengthDigest.
Fixpoint pad (n : nat) (s : string) : string := match n with O => s | S n => String "0"%char (pad n s) end.

Fixpoint hex (fuel n : nat) (s : string) : string :=
  match fuel with
  | O => s
  | S fuel => hex fuel (n / 10) (String (Ascii.ascii_of_nat (48 + n mod 10)) s)
  end.

#[global] Instance digest : Digest := {| Sha256Hex s := hex 64 (String.length s) EmptyString |}.

Lemma hex_spec fuel n s : str_all isHexDigit s = true ->
  String.length (hex fuel n s) = (fuel + String.length s)%nat /\ str_all isHexDigit (hex fuel n s) = true.
Proof.
  revert n s. induction fuel as [|fuel IH]; intros n s Hs; [done|]. cbn [hex].
  pose proof (Nat.mod_upper_bound n 10 ltac:(lia)) as Hm.
  destruct (IH (n / 10)%nat (String (Ascii.ascii_of_nat (48 + n mod 10)) s)) as [Hl Ha].
  - cbn [str_all]. rewrite Hs, andb_true_r. unfold isHexDigit, isDigit.
    rewrite Ascii.nat_ascii_embedding by lia. rewrite (proj2 (Nat.leb_le 48 _)), (proj2 (Nat.leb_le _ 57)) by lia. done.
  - split; [|done]. rewrite Hl. cbn. lia.
Qed.

#[global] Instance digest_laws : DigestLaws.
Proof.
  split; intros s; cbn [Sha256Hex digest]; destruct (hex_spec 64 (String.length s) EmptyString eq_refl) as [Hl Ha];
    [exact Hl | exact Ha].
Qed.
End LengthDigest.

(** ** [%q] of a string without quotes, backslashes and control characters *)

Definition quoted (t : string) : string :=
  let q := String (Ascii.ascii_of_nat 34) EmptyString in q +:+ t +:+ q.
