(* ===== verification/Durations.v ===== *)
(** * [time.ParseDuration]

    Go's parser of durations, a signed sequence of decimal numbers with unit
    suffixes, in 64-bit unsigned integers.  The digits after a decimal point go
    through float64 as in Go; they are computed with the IEEE 754 operations of
    the Standard Library's [SpecFloat].  [quote] is the quoting of package
    [time]. *)

From S2P Require Import Prelude GoBase Decimals Strings.
From Stdlib Require Import Ascii SpecFloat.

Open Scope Z_scope.

(** ** float64 *)

Definition float64 (n : Z) : spec_float := binary_normalize 53 1024 n 0 false.
Definition fmul : spec_float -> spec_float -> spec_float := SFmul 53 1024.
Definition fdiv : spec_float -> spec_float -> spec_float := SFdiv 53 1024.

(** [uint64(x)] of a finite number in range: the fraction is cut off. *)
Definition truncate (x : spec_float) : Z :=
  match x with
  | S754_finite false m e => Z.shiftl (Zpos m) e
  | _ => 0
  end.

(** ** Error messages *)

Definition hexDigit (n : nat) : ascii := if (n <? 10)%nat then ascii_of_nat (48 + n) else ascii_of_nat (87 + n).

(** A byte outside printable ASCII is written in hexadecimal. *)
Fixpoint quoteBytes (s : string) : string :=
  match s with
  | EmptyString => EmptyString
  | String c s =>
      let n := nat_of_ascii c in
      if ((128 <=? n) || (n <? 32))%nat
      then "\x" +:+ String (hexDigit (n / 16)) (String (hexDigit (n mod 16)) (quoteBytes s))
      else if ((n =? 34) || (n =? 92))%nat then "\" +:+ String c (quoteBytes s)
      else String c (quoteBytes s)
  end.

Definition quote (s : string) : string :=
  let q := String (ascii_of_nat 34) EmptyString in q +:+ quoteBytes s +:+ q.

Definition invalidDuration (orig : string) : error := ErrNew ("time: invalid duration " +:+ quote orig).
Definition missingUnit (orig : string) : error := ErrNew ("time: missing unit in duration " +:+ quote orig).
Definition unknownUnit (u orig : string) : error :=
  ErrNew ("time: unknown unit " +:+ quote u +:+ " in duration " +:+ quote orig).

(** ** Digits *)

(** The digits before the point; [None] if they exceed 2^63. *)
Fixpoint leadingInt (s : string) (x : Z) : option (Z * string) :=
  match s with
  | String c s' =>
      if isDigit c then
        if 2 ^ 63 / 10 <? x then None
        else let x := x * 10 + digitVal c in if 2 ^ 63 <? x then None else leadingInt s' x
      else Some (x, s)
  | EmptyString => Some (x, s)
  end.

(** The digits after the point and the power of ten they are to be divided by;
    digits beyond 63 bits are read and dropped. *)
Fixpoint leadingFraction (s : string) (x scale : Z) (overflow : bool) : Z * Z * string :=
  match s with
  | String c s' =>
      if isDigit c then
        if overflow then leadingFraction s' x scale true
        else if maxInt64 / 10 <? x then leadingFraction s' x scale true
        else let y := x * 10 + digitVal c in
             if 2 ^ 63 <? y then leadingFraction s' x scale true else leadingFraction s' y (scale * 10) false
      else (x, scale, s)
  | EmptyString => (x, scale, s)
  end.

(** The unit: what precedes the next point or digit. *)
Fixpoint splitUnit (s : string) : string * string :=
  match s with
  | String c s' =>
      if Ascii.eqb c "."%char || isDigit c then (EmptyString, s)
      else let '(u, rest) := splitUnit s' in (String c u, rest)
  | EmptyString => (EmptyString, s)
  end.

(** The two spellings of the micro sign, in UTF-8. *)
Definition microSign : string := String (ascii_of_nat 194) (String (ascii_of_nat 181) EmptyString).
Definition greekMu : string := String (ascii_of_nat 206) (String (ascii_of_nat 188) EmptyString).

Definition unitMap (u : string) : option Z :=
  if (u =? "ns")%string then Some 1
  else if (u =? "us")%string || (u =? microSign +:+ "s")%string || (u =? greekMu +:+ "s")%string then Some 1000
  else if (u =? "ms")%string then Some 1000000
  else if (u =? "s")%string then Some Second
  else if (u =? "m")%string then Some Minute
  else if (u =? "h")%string then Some Hour
  else None.

(** ** The loop *)

(** One number with its unit, added to [d]. *)
Definition parseTerm (orig s : string) (d : Z) : result (Z * string) :=
  match s with
  | EmptyString => Err (invalidDuration orig)
  | String c _ =>
      if negb (Ascii.eqb c "."%char || isDigit c) then Err (invalidDuration orig)
      else
        match leadingInt s 0 with
        | None => Err (invalidDuration orig)
        | Some (v, s1) =>
            let pre := negb (String.length s1 =? String.length s)%nat in
            let '(f, scale, post, s2) :=
              match s1 with
              | String "."%char s' =>
                  let '(f, scale, s2) := leadingFraction s' 0 1 false in
                  (f, scale, negb (String.length s2 =? String.length s')%nat, s2)
              | _ => (0, 1, false, s1)
              end in
            if negb pre && negb post then Err (invalidDuration orig)
            else
              let '(u, s3) := splitUnit s2 in
              if (u =? "")%string then Err (missingUnit orig)
              else
                match unitMap u with
                | None => Err (unknownUnit u orig)
                | Some unit =>
                    if 2 ^ 63 / unit <? v then Err (invalidDuration orig)
                    else
                      let v := v * unit in
                      let v := if 0 <? f then v + truncate (fmul (float64 f) (fdiv (float64 unit) (float64 scale))) else v in
                      if (0 <? f) && (2 ^ 63 <? v) then Err (invalidDuration orig)
                      else
                        let d := (d + v) mod 2 ^ 64 in
                        if 2 ^ 63 <? d then Err (invalidDuration orig) else Ok (d, s3)
                end
        end
  end.

Fixpoint parseTerms (fuel : nat) (orig s : string) (d : Z) : result Z :=
  match fuel with
  | O => Ok d
  | S fuel =>
      if (s =? "")%string then Ok d
      else match parseTerm orig s d with
           | Err e => Err e
           | Ok (d, s) => parseTerms fuel orig s d
           end
  end.

Definition ParseDuration (orig : string) : result Duration :=
  let '(neg, s) := scanSign orig in
  if (s =? "0")%string then Ok 0
  else if (s =? "")%string then Err (invalidDuration orig)
  else match parseTerms (String.length s) orig s 0 with
       | Err e => Err e
       | Ok d =>
           if neg then Ok (wrap64 (- wrap64 d))
           else if maxInt64 <? d then Err (invalidDuration orig) else Ok d
       end.

(** ** Lemmas *)

Lemma leadingInt_length s x v r : leadingInt s x = Some (v, r) -> (String.length r <= String.length s)%nat.
Proof.
  revert x. induction s as [|c s IH]; intros x; cbn [leadingInt]; [by intros [= <- <-]|].
  destruct (isDigit c); [|by intros [= <- <-]]. destruct (_ <? _); [done|]. destruct (_ <? _); [done|].
  intros H%IH. cbn. lia.
Qed.

Lemma leadingFraction_length s x k o v k' r :
  leadingFraction s x k o = (v, k', r) -> (String.length r <= String.length s)%nat.
Proof.
  revert x k o. induction s as [|c s IH]; intros x k o; cbn [leadingFraction]; [by intros [= <- <- <-]|].
  destruct (isDigit c); [|by intros [= <- <- <-]]. destruct o; [intros H%IH; cbn; lia|].
  destruct (_ <? _); [intros H%IH; cbn; lia|]. destruct (_ <? _); intros H%IH; cbn; lia.
Qed.

Lemma splitUnit_app s u r : splitUnit s = (u, r) -> s = u +:+ r.
Proof.
  revert u. induction s as [|c s IH]; intros u; cbn [splitUnit]; [by intros [= <- <-]|].
  destruct (_ || _); [by intros [= <- <-]|]. destruct (splitUnit s) as [u' r'] eqn:E. intros [= <- <-].
  by rewrite str_app_cons, <- (IH u').
Qed.

(** Every term reads at least its unit. *)
Lemma parseTerm_progress orig s d d' s' :
  parseTerm orig s d = Ok (d', s') -> (String.length s' < String.length s)%nat /\ 0 <= d' <= 2 ^ 63.
Proof.
  unfold parseTerm. destruct s as [|c s0] eqn:Es; [done|]. rewrite <- Es. destruct (negb _); [done|].
  destruct (leadingInt s 0) as [[v s1]|] eqn:Hi; [|done]. apply leadingInt_length in Hi. cbv zeta.
  set (frac := match s1 with
               | String "."%char s'' =>
                   let '(f, scale, s2) := leadingFraction s'' 0 1 false in
                   (f, scale, negb (String.length s2 =? String.length s'')%nat, s2)
               | _ => (0, 1, false, s1)
               end).
  assert (Hf : (String.length frac.2 <= String.length s1)%nat).
  { subst frac. destruct s1 as [|a s1']; [done|].
    destruct a as [[] [] [] [] [] [] [] []]; try done.
    destruct (leadingFraction s1' 0 1 false) as [[f scale] s2] eqn:Hl. apply leadingFraction_length in Hl. cbn. lia. }
  destruct frac as [[[f scale] post] s2]. cbn [snd] in Hf. destruct (_ && _); [done|].
  destruct (splitUnit s2) as [u s3] eqn:Hu. apply splitUnit_app in Hu. subst s2.
  destruct (String.eqb_spec u "") as [|Hne]; [done|]. destruct (unitMap u); [|done].
  destruct (_ <? _); [done|]. destruct (_ && _); [done|]. destruct (_ <? (_ mod _)) eqn:Hd; [done|].
  intros [= <- <-]. rewrite str_length_app in Hf. bool_prop. split.
  - destruct u; [done|]. cbn in Hf. lia.
  - split; [|lia]. apply Z.mod_pos_bound. lia.
Qed.

(** The fuel of [ParseDuration], the length of the input, is enough: more changes nothing. *)
Lemma parseTerms_fuel fuel orig s d k :
  (String.length s <= fuel)%nat -> parseTerms (fuel + k) orig s d = parseTerms fuel orig s d.
Proof.
  revert s d. induction fuel as [|fuel IH]; intros s d Hl.
  - destruct s; [|cbn in Hl; lia]. by destruct k.
  - cbn [parseTerms plus]. destruct (s =? "")%string; [done|].
    destruct (parseTerm orig s d) as [[d' s']|e] eqn:Ht; [|done]. apply parseTerm_progress in Ht as [Ht _]. apply IH. lia.
Qed.

Lemma parseTerms_range fuel orig s d r : 0 <= d <= 2 ^ 63 -> parseTerms fuel orig s d = Ok r -> 0 <= r <= 2 ^ 63.
Proof.
  revert s d. induction fuel as [|fuel IH]; intros s d Hd; cbn [parseTerms]; [by intros [= <-]|].
  destruct (s =? "")%string; [by intros [= <-]|]. destruct (parseTerm orig s d) as [[d' s']|e] eqn:Ht; [|done].
  apply parseTerm_progress in Ht as [_ Ht]. by apply IH.
Qed.

Lemma ParseDuration_range s d : ParseDuration s = Ok d -> in_int64 d.
Proof.
  unfold ParseDuration. destruct (scanSign s) as [neg s1]. destruct (_ =? _)%string; [by intros [= <-]|].
  destruct (_ =? _)%string; [done|]. destruct (parseTerms _ _ _ _) as [r|e] eqn:Hr; [|done].
  apply parseTerms_range in Hr; [|lia]. destruct neg; [intros [= <-]; apply wrap64_range|].
  destruct (_ <? _) eqn:Hm; [done|]. intros [= <-]. bool_prop. unfold in_int64, minInt64. lia.
Qed.

Example ParseDuration_examples :
  map ParseDuration ["24h"; "1h30m"; "1.5h"; ".5s"; "-5m"; "0"] =
  [Ok (24 * Hour); Ok (90 * Minute); Ok (90 * Minute); Ok 500000000; Ok (-5 * Minute); Ok 0] /\
  isOk (ParseDuration "5") = false /\ isOk (ParseDuration "1d") = false /\ isOk (ParseDuration "") = false /\
  isOk (ParseDuration "9223372036854775808ns") = false /\
  ParseDuration "-9223372036854775808ns" = Ok minInt64.
Proof. by vm_compute. Qed.

(** ** [Duration.String] *)

(** The loop of [fmtFrac]: [n] digits of [v] from the right, without the zeros at the end. *)
Fixpoint fracLoop (n : nat) (v : Z) (print : bool) (acc : string) : string * Z :=
  match n with
  | O => (if print then "." +:+ acc else acc, v)
  | S n =>
      let digit := v mod 10 in
      let print := print || negb (digit =? 0) in
      fracLoop n (v / 10) print (if print then pretty digit +:+ acc else acc)
  end.

(** [u] units of 10^-prec seconds (or milliseconds, microseconds) with their fraction. *)
Definition withFraction (prec : nat) (u : Z) (unit : string) : string :=
  let '(frac, v) := fracLoop prec u false "" in pretty v +:+ frac +:+ unit.

Definition DurationString (d : Duration) : string :=
  let u := Z.abs d in
  let body :=
    if u =? 0 then "0s"
    else if u <? 1000 then pretty u +:+ "ns"
    else if u <? 1000000 then withFraction 3 u (microSign +:+ "s")
    else if u <? Second then withFraction 6 u "ms"
    else
      let '(frac, s) := fracLoop 9 u false "" in
      (if s / 3600 =? 0 then "" else pretty (s / 3600) +:+ "h") +:+
      (if s / 60 =? 0 then "" else pretty (s / 60 mod 60) +:+ "m") +:+
      pretty (s mod 60) +:+ frac +:+ "s" in
  if d <? 0 then "-" +:+ body else body.

Example DurationString_examples :
  map DurationString [0; 1500; 168 * Hour; 90 * Second; - (3 * Second + 250000000); 1000000] =
    ["0s"; "1.5" +:+ microSign +:+ "s"; "168h0m0s"; "1m30s"; "-3.25s"; "1ms"] /\
  map (fun d => ParseDuration (DurationString d)) [1500; 168 * Hour; 90 * Second; - (3 * Second + 250000000)] =
    map Ok [1500; 168 * Hour; 90 * Second; - (3 * Second + 250000000)].
Proof. by vm_compute. Qed.
