(* ===== verification/Regex.v ===== *)
(** * Regular expressions (package regexp)

    The patterns that the source compiles are values of [re]; [MatchString] runs
    them by derivatives.  All of them are anchored at both ends, so a match is a
    match of the whole string.  [denotes] is the textbook meaning. *)

From S2P Require Import Prelude GoBase Decimals.
From Stdlib Require Import Ascii.

Inductive re :=
  | Empty
  | Eps
  | Chr (f : ascii -> bool)
  | Seq (a b : re)
  | Alt (a b : re)
  | Star (a : re).

(** ** Matching *)

Fixpoint nullable (r : re) : bool :=
  match r with
  | Empty | Chr _ => false
  | Eps | Star _ => true
  | Seq a b => nullable a && nullable b
  | Alt a b => nullable a || nullable b
  end.

(** Constructors that drop what cannot match. *)
Definition seq (a b : re) : re :=
  match a, b with
  | Empty, _ | _, Empty => Empty
  | Eps, b => b
  | a, b => Seq a b
  end.

Definition alt (a b : re) : re :=
  match a, b with
  | Empty, b => b
  | a, Empty => a
  | a, b => Alt a b
  end.

Fixpoint deriv (c : ascii) (r : re) : re :=
  match r with
  | Empty | Eps => Empty
  | Chr f => if f c then Eps else Empty
  | Seq a b => if nullable a then alt (seq (deriv c a) b) (deriv c b) else seq (deriv c a) b
  | Alt a b => alt (deriv c a) (deriv c b)
  | Star a => seq (deriv c a) (Star a)
  end.

Fixpoint MatchString (r : re) (s : string) : bool :=
  match s with
  | EmptyString => nullable r
  | String c s => MatchString (deriv c r) s
  end.

(** ** Meaning *)

Inductive denotes : re -> string -> Prop :=
  | denotes_Eps : denotes Eps ""
  | denotes_Chr f c : f c = true -> denotes (Chr f) (String c "")
  | denotes_Seq a b s t : denotes a s -> denotes b t -> denotes (Seq a b) (s +:+ t)
  | denotes_AltL a b s : denotes a s -> denotes (Alt a b) s
  | denotes_AltR a b s : denotes b s -> denotes (Alt a b) s
  | denotes_StarNil a : denotes (Star a) ""
  | denotes_StarCons a s t : denotes a s -> denotes (Star a) t -> denotes (Star a) (s +:+ t).

#[export] Hint Constructors denotes : mc.

Lemma denotes_Empty s : ~ denotes Empty s.
Proof. inversion 1. Qed.

Lemma denotes_Eps_inv s : denotes Eps s <-> s = "".
Proof. split; [by inversion 1 | intros ->; constructor]. Qed.

Lemma denotes_Seq_inv a b s : denotes (Seq a b) s <-> exists u v, s = u +:+ v /\ denotes a u /\ denotes b v.
Proof. split; [inversion 1; subst; eauto | intros (u & v & -> & ? & ?); by constructor]. Qed.

Lemma denotes_Alt_inv a b s : denotes (Alt a b) s <-> denotes a s \/ denotes b s.
Proof. split; [inversion 1; subst; auto | intros [?|?]; auto with mc]. Qed.

Lemma denotes_Chr_inv f s : denotes (Chr f) s <-> exists c, s = String c "" /\ f c = true.
Proof. split; [inversion 1; subst; eauto | intros (c & -> & ?); by constructor]. Qed.

Lemma seq_spec a b s : denotes (seq a b) s <-> denotes (Seq a b) s.
Proof.
  assert (HE : forall s, denotes (Seq Empty b) s -> False).
  { intros t (u & v & _ & H & _)%denotes_Seq_inv. by apply denotes_Empty in H. }
  assert (HE2 : forall s, denotes (Seq a Empty) s -> False).
  { intros t (u & v & _ & _ & H)%denotes_Seq_inv. by apply denotes_Empty in H. }
  assert (H1 : denotes b s <-> denotes (Seq Eps b) s).
  { rewrite denotes_Seq_inv. split; [intros H; exists "", s; auto with mc|].
    intros (u & v & -> & ->%denotes_Eps_inv & H). exact H. }
  destruct a, b; cbn; try done; (split; [intros H; by apply denotes_Empty in H | intros H; exfalso; eauto]).
Qed.

Lemma alt_spec a b s : denotes (alt a b) s <-> denotes (Alt a b) s.
Proof.
  assert (HL : denotes b s <-> denotes (Alt Empty b) s).
  { rewrite denotes_Alt_inv. split; [auto|]. intros [H%denotes_Empty|H]; done. }
  assert (HR : denotes a s <-> denotes (Alt a Empty) s).
  { rewrite denotes_Alt_inv. split; [auto|]. intros [H|H%denotes_Empty]; done. }
  destruct a, b; cbn; done.
Qed.

Lemma nullable_spec r : nullable r = true <-> denotes r "".
Proof.
  induction r as [| |f|a IHa b IHb|a IHa b IHb|a IHa]; cbn.
  - split; [done | by intros ?%denotes_Empty].
  - split; auto with mc.
  - split; [done | by inversion 1].
  - rewrite andb_true_iff, IHa, IHb, denotes_Seq_inv. split.
    + intros [? ?]. by exists "", "".
    + intros (u & v & Huv & ? & ?). destruct u; [|done]. rewrite str_app_nil in Huv. by subst v.
  - rewrite orb_true_iff, IHa, IHb. by rewrite denotes_Alt_inv.
  - split; auto with mc.
Qed.

(** A nonempty match of a star starts with a nonempty match of its body. *)
Lemma star_cons_inv a c s :
  denotes (Star a) (String c s) -> exists u v, s = u +:+ v /\ denotes a (String c u) /\ denotes (Star a) v.
Proof.
  remember (Star a) as r eqn:Hr. remember (String c s) as t eqn:Ht. intros H. revert s Ht.
  induction H as [| | | | | |r0 u v Hu _ Hv IH]; intros w Ht; try done.
  injection Hr as ->. destruct u as [|d u]; [rewrite str_app_nil in Ht; by apply IH|]. rewrite str_app_cons in Ht. injection Ht as -> <-. by exists u, v.
Qed.

Lemma deriv_spec r c s : denotes (deriv c r) s <-> denotes r (String c s).
Proof.
  revert s. induction r as [| |f|a IHa b IHb|a IHa b IHb|a IHa]; intros s; cbn [deriv].
  - split; by intros ?%denotes_Empty.
  - split; [by intros ?%denotes_Empty | by inversion 1].
  - rewrite denotes_Chr_inv. destruct (f c) eqn:Hf; [rewrite denotes_Eps_inv|]; split.
    + intros ->. by exists c.
    + by intros (d & [= -> ->] & _).
    + by intros ?%denotes_Empty.
    + intros (d & [= -> ->] & ?). congruence.
  - assert (Hs : denotes (seq (deriv c a) b) s <-> exists u v, s = u +:+ v /\ denotes a (String c u) /\ denotes b v).
    { rewrite seq_spec, denotes_Seq_inv. by setoid_rewrite IHa. }
    assert (Hc : denotes (Seq a b) (String c s) <->
      (exists u v, s = u +:+ v /\ denotes a (String c u) /\ denotes b v) \/ (denotes a "" /\ denotes b (String c s))).
    { rewrite denotes_Seq_inv. split.
      - intros (u & v & Huv & Hu & Hv). destruct u as [|d u]; [rewrite str_app_nil in Huv; subst v; by right|].
        rewrite str_app_cons in Huv. injection Huv as -> ->. left. by exists u, v.
      - intros [(u & v & -> & ? & ?)|[? ?]]; [by exists (String c u), v | by exists "", (String c s)]. }
    rewrite Hc. pose proof (nullable_spec a) as Hn. destruct (nullable a).
    + rewrite alt_spec, denotes_Alt_inv, Hs, IHb. naive_solver.
    + rewrite Hs. naive_solver.
  - rewrite alt_spec, !denotes_Alt_inv, IHa, IHb. done.
  - rewrite seq_spec, denotes_Seq_inv. split.
    + intros (u & v & -> & Hu & Hv). apply IHa in Hu. rewrite <- str_app_cons. by constructor.
    + intros (u & v & -> & Hu & Hv)%star_cons_inv. exists u, v. by rewrite IHa.
Qed.

(** The matcher decides the meaning. *)
Lemma MatchString_spec r s : MatchString r s = true <-> denotes r s.
Proof.
  revert r; induction s as [|c s IH]; intros r; cbn; [apply nullable_spec | by rewrite IH, deriv_spec].
Qed.

(** ** Characters and repetition *)

Definition isLower (c : ascii) : bool := let n := nat_of_ascii c in (97 <=? n)%nat && (n <=? 122)%nat.
Definition isUpper (c : ascii) : bool := let n := nat_of_ascii c in (65 <=? n)%nat && (n <=? 90)%nat.
Definition isChar (d c : ascii) : bool := Ascii.eqb c d.

Definition Plus (a : re) : re := Seq a (Star a).
Definition Opt (a : re) : re := Alt Eps a.

Fixpoint Rep (n : nat) (a : re) : re := match n with O => Eps | S n => Seq a (Rep n a) end.

Lemma star_chr f s : denotes (Star (Chr f)) s <-> str_all f s = true.
Proof.
  induction s as [|c s IH]; [split; auto with mc|]. cbn [str_all]. rewrite andb_true_iff, <- IH. split.
  - intros (u & v & -> & (d & [= <- ->] & Hf)%denotes_Chr_inv & Hv)%star_cons_inv. by split.
  - intros [Hf Hs]. change (String c s) with (String c "" +:+ s). constructor; [by constructor | done].
Qed.

Lemma plus_chr f s : denotes (Plus (Chr f)) s <-> s <> "" /\ str_all f s = true.
Proof.
  unfold Plus. rewrite denotes_Seq_inv. split.
  - intros (u & v & -> & (c & -> & Hc)%denotes_Chr_inv & Hv%star_chr). split; [done|].
    rewrite str_all_app. cbn. by rewrite Hc, Hv.
  - intros [Hne Hs]. destruct s as [|c s]; [done|]. cbn in Hs. apply andb_true_iff in Hs as [Hc Hs].
    exists (String c ""), s. split_and!; [done | by constructor | by apply star_chr].
Qed.

Lemma rep_chr n f s : denotes (Rep n (Chr f)) s <-> String.length s = n /\ str_all f s = true.
Proof.
  revert s. induction n as [|n IH]; intros s; cbn [Rep].
  - rewrite denotes_Eps_inv. split; [by intros -> | intros [H _]; by destruct s].
  - rewrite denotes_Seq_inv. split.
    + intros (u & v & -> & (c & -> & Hc)%denotes_Chr_inv & [<- Hv]%IH). rewrite str_app_cons, str_app_nil. cbn. by rewrite Hc.
    + intros [Hl Hs]. destruct s as [|c s]; [done|]. cbn in Hl, Hs. injection Hl as Hl.
      apply andb_true_iff in Hs as [Hc Hs]. exists (String c ""), s. split_and!; [done | by constructor | by apply IH].
Qed.
