(* ===== verification/Semver.v ===== *)
(** * Interface of the semantic-versioning package

    The source imports [github.com/Masterminds/semver/v3]; its code is not part
    of the repository.  [Semver] is what the source calls ([NewVersion],
    [Compare], [GreaterThan]) and [SemverLaws] is the documented behaviour that
    the theorems rely on: comparison by precedence is a total preorder.
    [Dotted] is a concrete instance for strings of one to three dot-separated
    numbers, used to evaluate the definitions on concrete inputs. *)

From S2P Require Import Prelude GoBase.
From Stdlib Require Import Ascii.

Open Scope Z_scope.

Class Semver := {
  Version : Type;
  NewVersion : string -> result Version;
  VCompare : Version -> Version -> comparison
}.

Class SemverLaws {SV : Semver} : Prop := {
  VCompare_antisym : forall v w, VCompare w v = CompOpp (VCompare v w);
  VCompare_trans : forall u v w,
    VCompare u v <> Gt -> VCompare v w <> Gt -> VCompare u w <> Gt
}.

Section derived.
Context {SV : Semver}.

(** [v.GreaterThan(w)] *)
Definition GreaterThan (v w : Version) : bool :=
  match VCompare v w with Gt => true | _ => false end.

(** [v] has precedence at most [w]. *)
Definition vle (v w : Version) : Prop := VCompare v w <> Gt.

Lemma GreaterThan_false v w : GreaterThan v w = false <-> vle v w.
Proof. unfold GreaterThan, vle. destruct (VCompare v w); split; by intros ?. Qed.

Context {SL : SemverLaws}.

Lemma vle_refl v : vle v v.
Proof.
  unfold vle. pose proof (VCompare_antisym v v) as H.
  by destruct (VCompare v v).
Qed.

Lemma vle_trans u v w : vle u v -> vle v w -> vle u w.
Proof. apply VCompare_trans. Qed.

Lemma GreaterThan_true v w : GreaterThan v w = true -> vle w v.
Proof.
  unfold GreaterThan, vle. rewrite (VCompare_antisym v w).
  destruct (VCompare v w); done.
Qed.

Lemma vle_total v w : vle v w \/ vle w v.
Proof.
  destruct (GreaterThan v w) eqn:H.
  - right. by apply GreaterThan_true.
  - left. by apply GreaterThan_false.
Qed.

(** [int] result of [Compare]. *)
Definition cmpInt (c : comparison) : Z :=
  match c with Lt => -1 | Eq => 0 | Gt => 1 end.

Lemma cmpInt_neg v w : cmpInt (VCompare v w) < 0 <-> ~ vle w v.
Proof.
  unfold vle. rewrite (VCompare_antisym v w).
  destruct (VCompare v w); simpl.
  - split; [lia|]. intros Hn. by destruct Hn.
  - split; [|lia]. intros _ Hn. by destruct Hn.
  - split; [lia|]. intros Hn. by destruct Hn.
Qed.
End derived.

#[export] Hint Resolve vle_refl : mc.

(** ** A concrete instance *)

Module Dotted.
Record ver := Ver { major : Z; minor : Z; patch : Z }.

(** Split at every dot. *)
Fixpoint split (s : string) : list string :=
  match s with
  | EmptyString => [EmptyString]
  | String c s' =>
      match split s' with
      | [] => []
      | p :: ps => if Ascii.eqb c "."%char then EmptyString :: p :: ps else String c p :: ps
      end
  end.

Definition digits (s : string) : option Z :=
  let '(v, n, rest) := scanDigits s 0 0 in
  if (n =? 0)%nat || negb (rest =? "")%string then None else Some v.

Definition parse (s : string) : result ver :=
  let err := Err (ErrNew "Invalid Semantic Version") in
  match mapM digits (split s) with
  | Some [a] => Ok (Ver a 0 0)
  | Some [a; b] => Ok (Ver a b 0)
  | Some [a; b; c] => Ok (Ver a b c)
  | _ => err
  end.

Definition compare (v w : ver) : comparison :=
  match Z.compare (major v) (major w) with
  | Eq => match Z.compare (minor v) (minor w) with
          | Eq => Z.compare (patch v) (patch w)
          | c => c
          end
  | c => c
  end.

#[global] Instance semver : Semver :=
  {| Version := ver; NewVersion := parse; VCompare := compare |}.

#[global] Instance semver_laws : SemverLaws.
Proof.
  split; simpl; unfold compare.
  - intros v w.
    destruct (Z.compare_spec (major v) (major w)), (Z.compare_spec (major w) (major v)); try lia;
    destruct (Z.compare_spec (minor v) (minor w)), (Z.compare_spec (minor w) (minor v)); try lia;
    destruct (Z.compare_spec (patch v) (patch w)), (Z.compare_spec (patch w) (patch v));
    try lia; done.
  - intros u v w.
    destruct (Z.compare_spec (major u) (major v)), (Z.compare_spec (major v) (major w)),
      (Z.compare_spec (major u) (major w)); try lia; try done;
    destruct (Z.compare_spec (minor u) (minor v)), (Z.compare_spec (minor v) (minor w)),
      (Z.compare_spec (minor u) (minor w)); try lia; try done;
    destruct (Z.compare_spec (patch u) (patch v)), (Z.compare_spec (patch v) (patch w)),
      (Z.compare_spec (patch u) (patch w)); try lia; done.
Qed.

Example parse_ok : parse "1.21.4" = Ok (Ver 1 21 4).
Proof. reflexivity. Qed.
End Dotted.
