(* ===== verification/VersionPkg.v ===== *)
(** * Package [pkg/version]

    Glob matching of Minecraft versions ([match.go]), comparison with the
    special tag "latest" ([compare.go]), and filtering and maximum of version
    lists ([comparator.go]). *)

From S2P Require Import Prelude GoBase Semver.

Open Scope Z_scope.

(** ** match.go *)

Definition MatchesVersionPattern (pattern target : string) : bool :=
  let n := String.length pattern in
  if (2 <? n)%nat && (str_drop (n - 2) pattern =? ".x")%string then
    let prefix := str_take (n - 1) pattern in
    (String.length prefix <=? String.length target)%nat &&
    (str_take (String.length prefix) target =? prefix)%string
  else false.

Fixpoint ContainsVersion (versions : list string) (target : string) : bool :=
  match versions with
  | [] => false
  | v :: rest =>
      if (v =? target)%string then true
      else if MatchesVersionPattern v target then true
      else ContainsVersion rest target
  end.

(** A glob of the list: a nonempty stem followed by ".x". *)
Definition glob_matches (pattern target : string) : Prop :=
  exists stem rest, stem <> "" /\ pattern = stem +:+ ".x" /\ target = stem +:+ "." +:+ rest.

Definition supports (versions : list string) (target : string) : Prop :=
  exists v, v ∈ versions /\ (v = target \/ glob_matches v target).

Lemma glob_take (stem : string) :
  str_take (String.length (stem +:+ ".x") - 1) (stem +:+ ".x") = stem +:+ ".".
Proof.
  replace (stem +:+ ".x") with ((stem +:+ ".") +:+ "x") by by rewrite str_app_assoc.
  rewrite str_length_app. simpl String.length.
  replace (String.length (stem +:+ ".") + 1 - 1)%nat with (String.length (stem +:+ ".")) by lia.
  apply str_take_app.
Qed.

Lemma glob_shape (pattern : string) :
  (2 <? String.length pattern)%nat &&
  (str_drop (String.length pattern - 2) pattern =? ".x")%string = true <->
  exists stem, stem <> "" /\ pattern = stem +:+ ".x".
Proof.
  rewrite andb_true_iff, Nat.ltb_lt, String.eqb_eq. split.
  - intros [Hl Hd]. exists (str_take (String.length pattern - 2) pattern). split.
    + intros H. apply (f_equal String.length) in H.
      rewrite str_take_length in H; simpl in H; lia.
    + rewrite <- Hd at 1. by rewrite str_take_drop.
  - intros (stem & Hne & ->). rewrite str_length_app. simpl String.length. split.
    + destruct stem; [done | simpl; lia].
    + replace (String.length stem + 2 - 2)%nat with (String.length stem) by lia.
      apply str_drop_app.
Qed.

Lemma MatchesVersionPattern_spec pattern target :
  MatchesVersionPattern pattern target = true <-> glob_matches pattern target.
Proof.
  unfold MatchesVersionPattern, glob_matches. split.
  - destruct (_ && _) eqn:Hg; [|done].
    apply glob_shape in Hg as (stem & Hne & ->). rewrite glob_take.
    intros H%andb_true_iff. destruct H as [_ H].
    apply (HasPrefix_spec target (stem +:+ ".")) in H as [r ->].
    exists stem, r. by rewrite str_app_assoc.
  - intros (stem & rest & Hne & -> & ->).
    rewrite (proj2 (glob_shape (stem +:+ ".x"))) by eauto.
    rewrite glob_take, <- str_app_assoc, !str_length_app.
    apply andb_true_iff. split; [apply Nat.leb_le; lia|].
    rewrite <- str_length_app, str_take_app. apply String.eqb_refl.
Qed.

Lemma ContainsVersion_spec versions target :
  ContainsVersion versions target = true <-> supports versions target.
Proof.
  unfold supports. induction versions as [|v rest IH]; simpl.
  - split; [done|]. set_solver.
  - destruct (v =? target)%string eqn:E.
    + apply String.eqb_eq in E as ->. split; [|done]. intros _. exists target. set_solver.
    + apply String.eqb_neq in E. destruct (MatchesVersionPattern v target) eqn:Hm.
      * apply MatchesVersionPattern_spec in Hm. split; [|done]. intros _. exists v. set_solver.
      * rewrite IH. split.
        -- intros (u & Hu & Hd). exists u. set_solver.
        -- intros (u & [->|Hu]%elem_of_cons & Hd); [|eauto].
           destruct Hd as [->|Hd]; [done|].
           apply MatchesVersionPattern_spec in Hd. congruence.
Qed.

(** ** compare.go *)

Definition Latest : string := "latest".

Section semver.
Context {SV : Semver}.

Definition Compare (v1 v2 : string) : result Z :=
  if (v1 =? Latest)%string || (v2 =? Latest)%string then
    if (v1 =? v2)%string then Ok 0
    else if (v1 =? Latest)%string then Ok 1
    else Ok (-1)
  else
    res_bind (wrap ("invalid version: " +:+ v1) (NewVersion v1)) (fun ver1 =>
    res_bind (wrap ("invalid version: " +:+ v2) (NewVersion v2)) (fun ver2 =>
    Ok (cmpInt (VCompare ver1 ver2)))).

Definition IsDowngrade (currentVersion candidateVersion : string) : result bool :=
  res_bind (Compare candidateVersion currentVersion) (fun cmp => Ok (cmp <? 0)).

(** ** comparator.go *)

Definition ParseVersion (version : string) : result Version :=
  wrap ("failed to parse version " +:+ version) (NewVersion version).

Definition CompareVersions (v1 v2 : string) : result Z :=
  res_bind (wrap "failed to parse first version" (ParseVersion v1)) (fun ver1 =>
  res_bind (wrap "failed to parse second version" (ParseVersion v2)) (fun ver2 =>
  Ok (cmpInt (VCompare ver1 ver2)))).

(** One iteration of the loop of [FindMaxVersion]; the accumulator is
    [maxVer] (nil at first) with [maxStr]. *)
Definition findMaxStep (acc : option (Version * string)) (v : string)
  : option (Version * string) :=
  match ParseVersion v with
  | Err _ => acc
  | Ok ver =>
      match acc with
      | None => Some (ver, v)
      | Some (maxVer, _) => if GreaterThan ver maxVer then Some (ver, v) else acc
      end
  end.

Definition FindMaxVersion (versions : list string) : result string :=
  match versions with
  | [] => Ok ""
  | _ =>
      match foldl findMaxStep None versions with
      | None => Err (ErrNew "no valid versions found")
      | Some (_, maxStr) => Ok maxStr
      end
  end.

(** The order that [Compare] decides on tags and parsable versions. *)
Definition tag_le (v w : string) : Prop :=
  w = Latest \/
  (v <> Latest /\ exists a b, NewVersion v = Ok a /\ NewVersion w = Ok b /\ vle a b).
End semver.

Record VersionInfo := { vrVersion : string; vrReleaseDate : Time }.

(** [FilterByUpdateDelay]; [now] is the value of [time.Now()]. *)
Definition FilterByUpdateDelay (now : Time) (versions : list VersionInfo) (delay : Duration)
  : list VersionInfo :=
  if delay =? 0 then versions
  else
    let cutoff := Add now (wrap64 (- delay)) in
    List.filter (fun v => Before (vrReleaseDate v) cutoff || TimeEqual (vrReleaseDate v) cutoff)
      versions.

(** ** Properties *)

Section properties.
Context {SV : Semver} {SL : SemverLaws}.

(** A parsable version is no downgrade exactly when it is at least the
    current one. *)
Lemma IsDowngrade_false current candidate :
  IsDowngrade current candidate = Ok false -> tag_le current candidate.
Proof.
  unfold IsDowngrade, Compare, tag_le. intros H.
  apply res_bind_Ok in H as (c & Hc & [= Hneg]).
  destruct (candidate =? Latest)%string eqn:E1; [left; by apply String.eqb_eq|].
  destruct (current =? Latest)%string eqn:E2; simpl in Hc.
  - destruct (candidate =? current)%string eqn:E3; [|simplify_eq; lia].
    apply String.eqb_eq in E2, E3. left. congruence.
  - right. split; [by apply String.eqb_neq|].
    apply res_bind_Ok in Hc as (a & Ha%wrap_Ok & Hc).
    apply res_bind_Ok in Hc as (b & Hb%wrap_Ok & [= <-]).
    exists b, a. split_and!; try done.
    destruct (GreaterThan b a) eqn:Hg; [|by apply GreaterThan_false].
    apply Z.ltb_ge in Hneg. unfold GreaterThan in Hg.
    rewrite (VCompare_antisym b a) in Hneg.
    by destruct (VCompare b a).
Qed.

Lemma tag_le_IsDowngrade current candidate :
  tag_le current candidate -> IsDowngrade current candidate = Ok false.
Proof.
  unfold tag_le, IsDowngrade, Compare.
  destruct (String.eqb_spec candidate Latest) as [->|Hl]; intros H; cbn [orb].
  { by destruct (Latest =? current)%string. }
  destruct H as [?|(Hc & a & b & Ha & Hb & Hle)]; [done|].
  rewrite (proj2 (String.eqb_neq _ _) Hc), Ha, Hb. cbn. f_equal.
  apply Z.ltb_ge. destruct (decide (cmpInt (VCompare b a) < 0)) as [Hn|Hn]; [|lia].
  by apply cmpInt_neg in Hn.
Qed.

Lemma foldl_findMaxStep versions acc :
  match foldl findMaxStep acc versions with
  | None => acc = None /\ Forall (fun v => isOk (ParseVersion v) = false) versions
  | Some (m, s) =>
      (acc = Some (m, s) \/ (s ∈ versions /\ ParseVersion s = Ok m)) /\
      (forall m0 s0, acc = Some (m0, s0) -> vle m0 m) /\
      (forall v w, v ∈ versions -> ParseVersion v = Ok w -> vle w m)
  end.
Proof.
  revert acc. induction versions as [|v rest IH]; intros acc; simpl.
  - destruct acc as [[m s]|]; [|done].
    split_and!; [by left | intros ? ? [= -> ->]; apply vle_refl | set_solver].
  - specialize (IH (findMaxStep acc v)).
    destruct (foldl findMaxStep _ rest) as [[m s]|].
    + destruct IH as (Hin & Hacc & Hrest). unfold findMaxStep in *.
      destruct (ParseVersion v) as [w|e] eqn:Hv.
      * destruct acc as [[m0 s0]|].
        -- destruct (GreaterThan w m0) eqn:Hg.
           ++ split_and!.
              ** destruct Hin as [[= -> ->]|[? ?]]; right; [by split; [left|] | set_solver].
              ** intros ? ? [= <- <-]. apply vle_trans with w; [by apply GreaterThan_true|].
                 by eapply Hacc.
              ** intros u x [->|Hu]%elem_of_cons Hx; [|eauto].
                 assert (x = w) as -> by congruence. by eapply Hacc.
           ++ split_and!.
              ** destruct Hin as [?|[? ?]]; [by left | right; split; [by right | done]].
              ** intros ? ? ?. by eapply Hacc.
              ** intros u x [->|Hu]%elem_of_cons Hx; [|eauto].
                 assert (x = w) as -> by congruence. apply vle_trans with m0; [by apply GreaterThan_false|]. by eapply Hacc.
        -- split_and!.
           ++ destruct Hin as [[= -> ->]|[? ?]]; right; [by split; [left|] | set_solver].
           ++ done.
           ++ intros u x [->|Hu]%elem_of_cons Hx; [|eauto].
                 assert (x = w) as -> by congruence. by eapply Hacc.
      * split_and!; [destruct Hin as [?|[? ?]]; [by left | right; split; [by right | done]] | done |].
        intros u x [->|Hu]%elem_of_cons Hx; [congruence | eauto].
    + destruct IH as [Ha Hr]. unfold findMaxStep in Ha.
      destruct (ParseVersion v) as [w|e] eqn:Hv.
      * destruct acc as [[m0 s0]|]; [destruct (GreaterThan w m0)|]; done.
      * split; [done|]. constructor; [by rewrite Hv | done].
Qed.
End properties.

(** [ContainsVersion] accepts a target exactly when an entry of the list is
    the target itself or a glob "stem.x" with a nonempty stem whose "stem." is a
    prefix of the target; in particular "1.21.x" never accepts "1.210.1". *)
Theorem ContainsVersion_correct versions target :
  ContainsVersion versions target = true <-> supports versions target.
Proof. apply ContainsVersion_spec. Qed.

Section theorems.
Context {SV : Semver} {SL : SemverLaws}.

(** [IsDowngrade] answers an error exactly when neither side is "latest"
    and one does not parse; "latest" is never a downgrade, every other tag is a
    downgrade of "latest", and a parsable candidate is a downgrade exactly when
    it has strictly lower precedence than the current version. *)
Theorem IsDowngrade_correct current candidate :
  match IsDowngrade current candidate with
  | Err _ => candidate <> Latest /\ current <> Latest /\
      (isOk (NewVersion candidate) = false \/ isOk (NewVersion current) = false)
  | Ok b =>
      (candidate = Latest /\ b = false) \/
      (candidate <> Latest /\ current = Latest /\ b = true) \/
      (candidate <> Latest /\ current <> Latest /\ exists v w,
         NewVersion candidate = Ok v /\ NewVersion current = Ok w /\
         (b = true <-> ~ vle w v))
  end.
Proof.
  unfold IsDowngrade, Compare.
  destruct (String.eqb_spec candidate Latest) as [->|H1]; cbn [orb].
  { destruct (String.eqb_spec Latest current); cbn; by left. }
  destruct (String.eqb_spec current Latest) as [->|H2]; cbn [orb].
  { rewrite (proj2 (String.eqb_neq _ _) H1). cbn. right. left. done. }
  destruct (NewVersion candidate) as [v|] eqn:Hv; cbn; [|by auto].
  destruct (NewVersion current) as [w|] eqn:Hw; cbn; [|by auto].
  right. right. split_and!; try done. exists v, w. split_and!; try done.
  rewrite <- cmpInt_neg. apply Z.ltb_lt.
Qed.

(** [FindMaxVersion] returns an element of the list that parses and has
    precedence over every parsable element, skipping the others; it fails
    exactly on a nonempty list without a parsable element, and answers the
    empty string for the empty list. *)
Theorem FindMaxVersion_correct versions :
  match FindMaxVersion versions with
  | Ok m => (versions = [] /\ m = "") \/
      (m ∈ versions /\ exists v, NewVersion m = Ok v /\
         forall u w, u ∈ versions -> NewVersion u = Ok w -> vle w v)
  | Err _ => versions <> [] /\ forall u, u ∈ versions -> isOk (NewVersion u) = false
  end.
Proof.
  unfold FindMaxVersion. destruct versions as [|x xs] eqn:Ex; [by left|].
  assert (versions <> []) as Hne by by rewrite Ex.
  rewrite <- Ex. clear Ex.
  pose proof (foldl_findMaxStep versions None) as H.
  destruct (foldl _ _ _) as [[m s]|] eqn:E.
  - destruct H as ([?|[Hin Hm%wrap_Ok]] & _ & Hmax); [done|]. right. split; [done|].
    exists m. split; [done|]. intros u w Hu Hw. eapply Hmax; [done|]. by apply wrap_Ok.
  - destruct H as [_ H]. split; [done|]. intros u Hu.
    rewrite Forall_forall in H. specialize (H u Hu). unfold ParseVersion, wrap in H.
    by destruct (NewVersion u).
Qed.
End theorems.

(** The theorems at concrete versions. *)
Section witnesses.
Existing Instance Dotted.semver.
Existing Instance Dotted.semver_laws.

Lemma IsDowngrade_correct_witness :
  IsDowngrade "1.21.4" "1.20.6" = Ok true /\
  match IsDowngrade "1.21.4" "1.20.6" with
  | Err _ => ("1.20.6" : string) <> Latest /\ ("1.21.4" : string) <> Latest /\
      (isOk (NewVersion "1.20.6") = false \/ isOk (NewVersion "1.21.4") = false)
  | Ok b =>
      (("1.20.6" : string) = Latest /\ b = false) \/
      (("1.20.6" : string) <> Latest /\ ("1.21.4" : string) = Latest /\ b = true) \/
      (("1.20.6" : string) <> Latest /\ ("1.21.4" : string) <> Latest /\ exists v w,
         NewVersion "1.20.6" = Ok v /\ NewVersion "1.21.4" = Ok w /\
         (b = true <-> ~ vle w v))
  end.
Proof. split; [reflexivity | exact (IsDowngrade_correct "1.21.4" "1.20.6")]. Defined.

Lemma FindMaxVersion_correct_witness :
  FindMaxVersion ["1.20.6"; "snapshot"; "1.21.10"; "1.21.4"] = Ok "1.21.10" /\
  match FindMaxVersion ["1.20.6"; "snapshot"; "1.21.10"; "1.21.4"] with
  | Ok m => (["1.20.6"; "snapshot"; "1.21.10"; "1.21.4"] = ([] : list string) /\ m = "") \/
      (m ∈ ["1.20.6"; "snapshot"; "1.21.10"; "1.21.4"] /\ exists v, NewVersion m = Ok v /\
         forall u w, u ∈ ["1.20.6"; "snapshot"; "1.21.10"; "1.21.4"] ->
           NewVersion u = Ok w -> vle w v)
  | Err _ => ["1.20.6"; "snapshot"; "1.21.10"; "1.21.4"] <> ([] : list string) /\
      forall u, u ∈ ["1.20.6"; "snapshot"; "1.21.10"; "1.21.4"] -> isOk (NewVersion u) = false
  end.
Proof.
  split; [reflexivity|].
  exact (FindMaxVersion_correct ["1.20.6"; "snapshot"; "1.21.10"; "1.21.4"]).
Defined.
End witnesses.
