(* ===== verification/Api.v ===== *)
(** * Data of the custom resources (api/v1beta1)

    The structs of [papermcserver_types.go] and [plugin_types.go] as records,
    with the fields of the Kubernetes types they embed that the source reads or
    writes.  A pointer field is an [option]; [metav1.Time] and
    [metav1.Duration] are their numbers of nanoseconds; a nil map is the empty
    map. Field names carry a two- or three-letter prefix of their record. *)

From S2P Require Import Prelude GoBase.

(** ** Kubernetes types *)

(** [metav1.OwnerReference]: the owner and whether it is the controller. *)
Record OwnerReference := MkOwnerReference {
  orUID : string;
  orController : bool
}.
#[export] Instance eta_OwnerReference : Eta OwnerReference := fun r => MkOwnerReference (orUID r) (orController r).
#[export] Instance OwnerReference_eq_dec : EqDecision OwnerReference.
Proof. solve_decision. Defined.

(** [metav1.ObjectMeta]: the fields the source uses.  A nil map and an empty map are the same value. *)
Record ObjectMeta := MkObjectMeta {
  Name : string;
  Namespace : string;
  Labels : gmap string string;
  Annotations : gmap string string;
  Finalizers : list string;
  DeletionTimestamp : option Time;
  CreationTimestamp : Time;
  Generation : Z;
  ResourceVersion : string;
  UID : string;
  OwnerReferences : list OwnerReference
}.
#[export] Instance eta_ObjectMeta : Eta ObjectMeta := fun r => MkObjectMeta (Name r) (Namespace r) (Labels r) (Annotations r) (Finalizers r) (DeletionTimestamp r) (CreationTimestamp r) (Generation r) (ResourceVersion r) (UID r) (OwnerReferences r).
#[export] Instance ObjectMeta_eq_dec : EqDecision ObjectMeta.
Proof. solve_decision. Defined.

(** [metav1.Condition] *)
Record Condition := MkCondition {
  cdType : string;
  cdStatus : string;
  cdReason : string;
  cdMessage : string;
  cdLastTransitionTime : Time;
  cdObservedGeneration : Z
}.
#[export] Instance eta_Condition : Eta Condition := fun r => MkCondition (cdType r) (cdStatus r) (cdReason r) (cdMessage r) (cdLastTransitionTime r) (cdObservedGeneration r).
#[export] Instance Condition_eq_dec : EqDecision Condition.
Proof. solve_decision. Defined.

(** [metav1.LabelSelectorRequirement] *)
Record LabelSelectorRequirement := MkRequirement {
  lrKey : string;
  lrOperator : string;
  lrValues : list string
}.
#[export] Instance eta_LabelSelectorRequirement : Eta LabelSelectorRequirement := fun r => MkRequirement (lrKey r) (lrOperator r) (lrValues r).
#[export] Instance LabelSelectorRequirement_eq_dec : EqDecision LabelSelectorRequirement.
Proof. solve_decision. Defined.

(** [metav1.LabelSelector] *)
Record LabelSelector := MkLabelSelector {
  lsMatchLabels : gmap string string;
  lsMatchExpressions : list LabelSelectorRequirement
}.
#[export] Instance eta_LabelSelector : Eta LabelSelector := fun r => MkLabelSelector (lsMatchLabels r) (lsMatchExpressions r).
#[export] Instance LabelSelector_eq_dec : EqDecision LabelSelector.
Proof. solve_decision. Defined.

(** The [SecretKeyRef] of an environment variable. *)
Record SecretRef := MkSecretRef {
  srName : string;
  srKey : string
}.
#[export] Instance eta_SecretRef : Eta SecretRef := fun r => MkSecretRef (srName r) (srKey r).
#[export] Instance SecretRef_eq_dec : EqDecision SecretRef.
Proof. solve_decision. Defined.

(** [corev1.EnvVar] with a value or a secret reference. *)
Record EnvVar := MkEnvVar {
  evName : string;
  evValue : string;
  evSecretRef : option SecretRef
}.
#[export] Instance eta_EnvVar : Eta EnvVar := fun r => MkEnvVar (evName r) (evValue r) (evSecretRef r).
#[export] Instance EnvVar_eq_dec : EqDecision EnvVar.
Proof. solve_decision. Defined.

(** [corev1.VolumeMount] *)
Record VolumeMount := MkVolumeMount {
  vmName : string;
  vmMountPath : string;
  vmReadOnly : bool
}.
#[export] Instance eta_VolumeMount : Eta VolumeMount := fun r => MkVolumeMount (vmName r) (vmMountPath r) (vmReadOnly r).
#[export] Instance VolumeMount_eq_dec : EqDecision VolumeMount.
Proof. solve_decision. Defined.

(** [corev1.ConfigMapVolumeSource] *)
Record ConfigMapVolume := MkConfigMapVolume {
  cvName : string;
  cvDefaultMode : option Z
}.
#[export] Instance eta_ConfigMapVolume : Eta ConfigMapVolume := fun r => MkConfigMapVolume (cvName r) (cvDefaultMode r).
#[export] Instance ConfigMapVolume_eq_dec : EqDecision ConfigMapVolume.
Proof. solve_decision. Defined.

(** [corev1.Volume]: its source is a ConfigMap, a Secret or another kind, which is kept as a value. *)
Record Volume := MkVolume {
  voName : string;
  voConfigMap : option ConfigMapVolume;
  voSecret : option string;
  voOther : string
}.
#[export] Instance eta_Volume : Eta Volume := fun r => MkVolume (voName r) (voConfigMap r) (voSecret r) (voOther r).
#[export] Instance Volume_eq_dec : EqDecision Volume.
Proof. solve_decision. Defined.

(** [corev1.SecurityContext]: the fields the source sets. *)
Record SecurityContext := MkSecurityContext {
  scAllowPrivilegeEscalation : option bool;
  scReadOnlyRootFilesystem : option bool;
  scDrop : list string
}.
#[export] Instance eta_SecurityContext : Eta SecurityContext := fun r => MkSecurityContext (scAllowPrivilegeEscalation r) (scReadOnlyRootFilesystem r) (scDrop r).
#[export] Instance SecurityContext_eq_dec : EqDecision SecurityContext.
Proof. solve_decision. Defined.

(** [corev1.Container]: the fields the source reads and writes, and the others as one value. *)
Record Container := MkContainer {
  ctName : string;
  ctImage : string;
  ctCommand : list string;
  ctEnv : list EnvVar;
  ctVolumeMounts : list VolumeMount;
  ctSecurityContext : option SecurityContext;
  ctOther : string
}.
#[export] Instance eta_Container : Eta Container := fun r => MkContainer (ctName r) (ctImage r) (ctCommand r) (ctEnv r) (ctVolumeMounts r) (ctSecurityContext r) (ctOther r).
#[export] Instance Container_eq_dec : EqDecision Container.
Proof. solve_decision. Defined.

(** [corev1.PodTemplateSpec] with its pod specification: the fields the source reads and writes, and the others as one value. *)
Record PodTemplateSpec := MkPodTemplateSpec {
  ptLabels : gmap string string;
  ptAnnotations : gmap string string;
  ptInitContainers : list Container;
  ptContainers : list Container;
  ptVolumes : list Volume;
  ptTerminationGracePeriodSeconds : option Z;
  ptOther : string
}.
#[export] Instance eta_PodTemplateSpec : Eta PodTemplateSpec := fun r => MkPodTemplateSpec (ptLabels r) (ptAnnotations r) (ptInitContainers r) (ptContainers r) (ptVolumes r) (ptTerminationGracePeriodSeconds r) (ptOther r).
#[export] Instance PodTemplateSpec_eq_dec : EqDecision PodTemplateSpec.
Proof. solve_decision. Defined.

(** ** papermcserver_types.go *)

Record MaintenanceWindow := MkMaintenanceWindow {
  mwCron : string;
  mwEnabled : bool
}.
#[export] Instance eta_MaintenanceWindow : Eta MaintenanceWindow := fun r => MkMaintenanceWindow (mwCron r) (mwEnabled r).
#[export] Instance MaintenanceWindow_eq_dec : EqDecision MaintenanceWindow.
Proof. solve_decision. Defined.

Record UpdateSchedule := MkUpdateSchedule {
  usCheckCron : string;
  usMaintenanceWindow : MaintenanceWindow
}.
#[export] Instance eta_UpdateSchedule : Eta UpdateSchedule := fun r => MkUpdateSchedule (usCheckCron r) (usMaintenanceWindow r).
#[export] Instance UpdateSchedule_eq_dec : EqDecision UpdateSchedule.
Proof. solve_decision. Defined.

Record GracefulShutdown := MkGracefulShutdown {
  gsTimeout : Duration
}.
#[export] Instance eta_GracefulShutdown : Eta GracefulShutdown := fun r => MkGracefulShutdown (gsTimeout r).
#[export] Instance GracefulShutdown_eq_dec : EqDecision GracefulShutdown.
Proof. solve_decision. Defined.

Record SecretKeyRef := MkSecretKeyRef {
  skName : string;
  skKey : string
}.
#[export] Instance eta_SecretKeyRef : Eta SecretKeyRef := fun r => MkSecretKeyRef (skName r) (skKey r).
#[export] Instance SecretKeyRef_eq_dec : EqDecision SecretKeyRef.
Proof. solve_decision. Defined.

Record RCONConfig := MkRCONConfig {
  rcEnabled : bool;
  rcPasswordSecret : SecretKeyRef;
  rcPort : Z
}.
#[export] Instance eta_RCONConfig : Eta RCONConfig := fun r => MkRCONConfig (rcEnabled r) (rcPasswordSecret r) (rcPort r).
#[export] Instance RCONConfig_eq_dec : EqDecision RCONConfig.
Proof. solve_decision. Defined.

Record PluginHTTPRoute := MkPluginHTTPRoute {
  hrPluginName : string;
  hrEndpointName : string;
  hrHostname : string;
  hrPathPrefix : string
}.
#[export] Instance eta_PluginHTTPRoute : Eta PluginHTTPRoute := fun r => MkPluginHTTPRoute (hrPluginName r) (hrEndpointName r) (hrHostname r) (hrPathPrefix r).
#[export] Instance PluginHTTPRoute_eq_dec : EqDecision PluginHTTPRoute.
Proof. solve_decision. Defined.

Record GatewayParentRef := MkGatewayParentRef {
  gpName : string;
  gpNamespace : string;
  gpSectionName : string
}.
#[export] Instance eta_GatewayParentRef : Eta GatewayParentRef := fun r => MkGatewayParentRef (gpName r) (gpNamespace r) (gpSectionName r).
#[export] Instance GatewayParentRef_eq_dec : EqDecision GatewayParentRef.
Proof. solve_decision. Defined.

Record RouteConfig := MkRouteConfig {
  rtEnabled : bool
}.
#[export] Instance eta_RouteConfig : Eta RouteConfig := fun r => MkRouteConfig (rtEnabled r).
#[export] Instance RouteConfig_eq_dec : EqDecision RouteConfig.
Proof. solve_decision. Defined.

Record GatewayConfig := MkGatewayConfig {
  gwEnabled : bool;
  gwParentRefs : list GatewayParentRef;
  gwTCPRoute : option RouteConfig;
  gwUDPRoute : option RouteConfig;
  gwHTTPRoutes : list PluginHTTPRoute
}.
#[export] Instance eta_GatewayConfig : Eta GatewayConfig := fun r => MkGatewayConfig (gwEnabled r) (gwParentRefs r) (gwTCPRoute r) (gwUDPRoute r) (gwHTTPRoutes r).
#[export] Instance GatewayConfig_eq_dec : EqDecision GatewayConfig.
Proof. solve_decision. Defined.

Record NetworkPolicySource := MkNetworkPolicySource {
  nsCIDR : string;
  nsPodSelector : option LabelSelector;
  nsNamespaceSelector : option LabelSelector
}.
#[export] Instance eta_NetworkPolicySource : Eta NetworkPolicySource := fun r => MkNetworkPolicySource (nsCIDR r) (nsPodSelector r) (nsNamespaceSelector r).
#[export] Instance NetworkPolicySource_eq_dec : EqDecision NetworkPolicySource.
Proof. solve_decision. Defined.

Record NetworkPolicyDestination := MkNetworkPolicyDestination {
  ndCIDR : string;
  ndPort : option Z;
  ndProtocol : option string
}.
#[export] Instance eta_NetworkPolicyDestination : Eta NetworkPolicyDestination := fun r => MkNetworkPolicyDestination (ndCIDR r) (ndPort r) (ndProtocol r).
#[export] Instance NetworkPolicyDestination_eq_dec : EqDecision NetworkPolicyDestination.
Proof. solve_decision. Defined.

Record ServerNetworkPolicy := MkServerNetworkPolicy {
  npEnabled : bool;
  npAllowFrom : list NetworkPolicySource;
  npRestrictEgress : option bool;
  npAllowEgressTo : list NetworkPolicyDestination
}.
#[export] Instance eta_ServerNetworkPolicy : Eta ServerNetworkPolicy := fun r => MkServerNetworkPolicy (npEnabled r) (npAllowFrom r) (npRestrictEgress r) (npAllowEgressTo r).
#[export] Instance ServerNetworkPolicy_eq_dec : EqDecision ServerNetworkPolicy.
Proof. solve_decision. Defined.

Record NetworkConfig := MkNetworkConfig {
  ncNetworkPolicy : option ServerNetworkPolicy
}.
#[export] Instance eta_NetworkConfig : Eta NetworkConfig := fun r => MkNetworkConfig (ncNetworkPolicy r).
#[export] Instance NetworkConfig_eq_dec : EqDecision NetworkConfig.
Proof. solve_decision. Defined.

Record ServiceConfig := MkServiceConfig {
  svType : string;
  svAnnotations : gmap string string;
  svLoadBalancerIP : string
}.
#[export] Instance eta_ServiceConfig : Eta ServiceConfig := fun r => MkServiceConfig (svType r) (svAnnotations r) (svLoadBalancerIP r).
#[export] Instance ServiceConfig_eq_dec : EqDecision ServiceConfig.
Proof. solve_decision. Defined.

Record BackupRetention := MkBackupRetention {
  brMaxCount : Z
}.
#[export] Instance eta_BackupRetention : Eta BackupRetention := fun r => MkBackupRetention (brMaxCount r).
#[export] Instance BackupRetention_eq_dec : EqDecision BackupRetention.
Proof. solve_decision. Defined.

Record BackupSpec := MkBackupSpec {
  bsEnabled : bool;
  bsSchedule : string;
  bsBeforeUpdate : option bool;
  bsVolumeSnapshotClassName : string;
  bsRetention : BackupRetention
}.
#[export] Instance eta_BackupSpec : Eta BackupSpec := fun r => MkBackupSpec (bsEnabled r) (bsSchedule r) (bsBeforeUpdate r) (bsVolumeSnapshotClassName r) (bsRetention r).
#[export] Instance BackupSpec_eq_dec : EqDecision BackupSpec.
Proof. solve_decision. Defined.

Record BackupRecord := MkBackupRecord {
  bcSnapshotName : string;
  bcStartedAt : Time;
  bcCompletedAt : option Time;
  bcSuccessful : bool;
  bcTrigger : string
}.
#[export] Instance eta_BackupRecord : Eta BackupRecord := fun r => MkBackupRecord (bcSnapshotName r) (bcStartedAt r) (bcCompletedAt r) (bcSuccessful r) (bcTrigger r).
#[export] Instance BackupRecord_eq_dec : EqDecision BackupRecord.
Proof. solve_decision. Defined.

Record BackupStatus := MkBackupStatus {
  bkLastBackup : option BackupRecord;
  bkBackupCount : Z
}.
#[export] Instance eta_BackupStatus : Eta BackupStatus := fun r => MkBackupStatus (bkLastBackup r) (bkBackupCount r).
#[export] Instance BackupStatus_eq_dec : EqDecision BackupStatus.
Proof. solve_decision. Defined.

Record ConfigMapKeyRef := MkConfigMapKeyRef {
  ckName : string;
  ckKey : string
}.
#[export] Instance eta_ConfigMapKeyRef : Eta ConfigMapKeyRef := fun r => MkConfigMapKeyRef (ckName r) (ckKey r).
#[export] Instance ConfigMapKeyRef_eq_dec : EqDecision ConfigMapKeyRef.
Proof. solve_decision. Defined.

Record PluginConfigFile := MkPluginConfigFile {
  pfConfigMapRef : ConfigMapKeyRef;
  pfPath : string;
  pfOverwrite : string
}.
#[export] Instance eta_PluginConfigFile : Eta PluginConfigFile := fun r => MkPluginConfigFile (pfConfigMapRef r) (pfPath r) (pfOverwrite r).
#[export] Instance PluginConfigFile_eq_dec : EqDecision PluginConfigFile.
Proof. solve_decision. Defined.

Record ServerPluginConfig := MkServerPluginConfig {
  scPluginName : string;
  scConfigs : list PluginConfigFile
}.
#[export] Instance eta_ServerPluginConfig : Eta ServerPluginConfig := fun r => MkServerPluginConfig (scPluginName r) (scConfigs r).
#[export] Instance ServerPluginConfig_eq_dec : EqDecision ServerPluginConfig.
Proof. solve_decision. Defined.

Record ServerConfigFile := MkServerConfigFile {
  sfConfigMapRef : ConfigMapKeyRef;
  sfPath : string;
  sfOverwrite : string
}.
#[export] Instance eta_ServerConfigFile : Eta ServerConfigFile := fun r => MkServerConfigFile (sfConfigMapRef r) (sfPath r) (sfOverwrite r).
#[export] Instance ServerConfigFile_eq_dec : EqDecision ServerConfigFile.
Proof. solve_decision. Defined.

Record PaperMCServerSpec := MkPaperMCServerSpec {
  ssUpdateStrategy : string;
  ssVersion : string;
  ssBuild : option Z;
  ssUpdateDelay : option Duration;
  ssUpdateSchedule : UpdateSchedule;
  ssGracefulShutdown : GracefulShutdown;
  ssRCON : RCONConfig;
  ssService : ServiceConfig;
  ssGateway : option GatewayConfig;
  ssBackup : option BackupSpec;
  ssNetwork : option NetworkConfig;
  ssPluginConfigs : list ServerPluginConfig;
  ssServerConfigs : list ServerConfigFile;
  ssPodTemplate : PodTemplateSpec
}.
#[export] Instance eta_PaperMCServerSpec : Eta PaperMCServerSpec := fun r => MkPaperMCServerSpec (ssUpdateStrategy r) (ssVersion r) (ssBuild r) (ssUpdateDelay r) (ssUpdateSchedule r) (ssGracefulShutdown r) (ssRCON r) (ssService r) (ssGateway r) (ssBackup r) (ssNetwork r) (ssPluginConfigs r) (ssServerConfigs r) (ssPodTemplate r).
#[export] Instance PaperMCServerSpec_eq_dec : EqDecision PaperMCServerSpec.
Proof. solve_decision. Defined.

Record PluginRef := MkPluginRef {
  prName : string;
  prNamespace : string
}.
#[export] Instance eta_PluginRef : Eta PluginRef := fun r => MkPluginRef (prName r) (prNamespace r).
#[export] Instance PluginRef_eq_dec : EqDecision PluginRef.
Proof. solve_decision. Defined.

Record ServerPluginStatus := MkServerPluginStatus {
  spPluginRef : PluginRef;
  spResolvedVersion : string;
  spCurrentVersion : string;
  spDesiredVersion : string;
  spCompatible : bool;
  spSource : string;
  spPendingDeletion : bool;
  spInstalledJARName : string
}.
#[export] Instance eta_ServerPluginStatus : Eta ServerPluginStatus := fun r => MkServerPluginStatus (spPluginRef r) (spResolvedVersion r) (spCurrentVersion r) (spDesiredVersion r) (spCompatible r) (spSource r) (spPendingDeletion r) (spInstalledJARName r).
#[export] Instance ServerPluginStatus_eq_dec : EqDecision ServerPluginStatus.
Proof. solve_decision. Defined.

Record PluginVersionPair := MkPluginVersionPair {
  pvPluginRef : PluginRef;
  pvVersion : string
}.
#[export] Instance eta_PluginVersionPair : Eta PluginVersionPair := fun r => MkPluginVersionPair (pvPluginRef r) (pvVersion r).
#[export] Instance PluginVersionPair_eq_dec : EqDecision PluginVersionPair.
Proof. solve_decision. Defined.

Record AvailableUpdate := MkAvailableUpdate {
  auVersion : string;
  auBuild : Z;
  auReleasedAt : Time;
  auPlugins : list PluginVersionPair;
  auFoundAt : Time
}.
#[export] Instance eta_AvailableUpdate : Eta AvailableUpdate := fun r => MkAvailableUpdate (auVersion r) (auBuild r) (auReleasedAt r) (auPlugins r) (auFoundAt r).
#[export] Instance AvailableUpdate_eq_dec : EqDecision AvailableUpdate.
Proof. solve_decision. Defined.

Record UpdateHistory := MkUpdateHistory {
  uhAppliedAt : Time;
  uhPreviousVersion : string;
  uhSuccessful : bool
}.
#[export] Instance eta_UpdateHistory : Eta UpdateHistory := fun r => MkUpdateHistory (uhAppliedAt r) (uhPreviousVersion r) (uhSuccessful r).
#[export] Instance UpdateHistory_eq_dec : EqDecision UpdateHistory.
Proof. solve_decision. Defined.

Record BlockedByInfo := MkBlockedByInfo {
  bbPlugin : string;
  bbVersion : string;
  bbSupportedVersions : list string
}.
#[export] Instance eta_BlockedByInfo : Eta BlockedByInfo := fun r => MkBlockedByInfo (bbPlugin r) (bbVersion r) (bbSupportedVersions r).
#[export] Instance BlockedByInfo_eq_dec : EqDecision BlockedByInfo.
Proof. solve_decision. Defined.

Record UpdateBlockedStatus := MkUpdateBlockedStatus {
  ubBlocked : bool;
  ubReason : string;
  ubBlockedBy : option BlockedByInfo
}.
#[export] Instance eta_UpdateBlockedStatus : Eta UpdateBlockedStatus := fun r => MkUpdateBlockedStatus (ubBlocked r) (ubReason r) (ubBlockedBy r).
#[export] Instance UpdateBlockedStatus_eq_dec : EqDecision UpdateBlockedStatus.
Proof. solve_decision. Defined.

Record PaperMCServerStatus := MkPaperMCServerStatus {
  stCurrentVersion : string;
  stCurrentBuild : Z;
  stDesiredVersion : string;
  stDesiredBuild : Z;
  stPlugins : list ServerPluginStatus;
  stAvailableUpdate : option AvailableUpdate;
  stLastUpdate : option UpdateHistory;
  stUpdateBlocked : option UpdateBlockedStatus;
  stBackup : option BackupStatus;
  stConditions : list Condition
}.
#[export] Instance eta_PaperMCServerStatus : Eta PaperMCServerStatus := fun r => MkPaperMCServerStatus (stCurrentVersion r) (stCurrentBuild r) (stDesiredVersion r) (stDesiredBuild r) (stPlugins r) (stAvailableUpdate r) (stLastUpdate r) (stUpdateBlocked r) (stBackup r) (stConditions r).
#[export] Instance PaperMCServerStatus_eq_dec : EqDecision PaperMCServerStatus.
Proof. solve_decision. Defined.

Record PaperMCServer := MkPaperMCServer {
  srvMeta : ObjectMeta;
  srvSpec : PaperMCServerSpec;
  srvStatus : PaperMCServerStatus
}.
#[export] Instance eta_PaperMCServer : Eta PaperMCServer := fun r => MkPaperMCServer (srvMeta r) (srvSpec r) (srvStatus r).
#[export] Instance PaperMCServer_eq_dec : EqDecision PaperMCServer.
Proof. solve_decision. Defined.

(** ** plugin_types.go *)

Record PluginSource := MkPluginSource {
  soType : string;
  soProject : string;
  soURL : string;
  soChecksum : string
}.
#[export] Instance eta_PluginSource : Eta PluginSource := fun r => MkPluginSource (soType r) (soProject r) (soURL r) (soChecksum r).
#[export] Instance PluginSource_eq_dec : EqDecision PluginSource.
Proof. solve_decision. Defined.

Record CompatibilityOverride := MkCompatibilityOverride {
  coEnabled : bool;
  coMinecraftVersions : list string
}.
#[export] Instance eta_CompatibilityOverride : Eta CompatibilityOverride := fun r => MkCompatibilityOverride (coEnabled r) (coMinecraftVersions r).
#[export] Instance CompatibilityOverride_eq_dec : EqDecision CompatibilityOverride.
Proof. solve_decision. Defined.

Record PluginEndpoint := MkPluginEndpoint {
  peName : string;
  pePort : Z;
  peProtocol : string
}.
#[export] Instance eta_PluginEndpoint : Eta PluginEndpoint := fun r => MkPluginEndpoint (peName r) (pePort r) (peProtocol r).
#[export] Instance PluginEndpoint_eq_dec : EqDecision PluginEndpoint.
Proof. solve_decision. Defined.

Record PluginSpec := MkPluginSpec {
  psSource : PluginSource;
  psUpdateStrategy : string;
  psVersion : string;
  psBuild : option Z;
  psUpdateDelay : option Duration;
  psInstanceSelector : LabelSelector;
  psEndpoints : list PluginEndpoint;
  psPluginDirName : string;
  psConfigs : list PluginConfigFile;
  psCompatibilityOverride : option CompatibilityOverride
}.
#[export] Instance eta_PluginSpec : Eta PluginSpec := fun r => MkPluginSpec (psSource r) (psUpdateStrategy r) (psVersion r) (psBuild r) (psUpdateDelay r) (psInstanceSelector r) (psEndpoints r) (psPluginDirName r) (psConfigs r) (psCompatibilityOverride r).
#[export] Instance PluginSpec_eq_dec : EqDecision PluginSpec.
Proof. solve_decision. Defined.

Record PluginVersionInfo := MkPluginVersionInfo {
  viVersion : string;
  viMinecraftVersions : list string;
  viDownloadURL : string;
  viHash : string;
  viCachedAt : Time;
  viReleasedAt : Time
}.
#[export] Instance eta_PluginVersionInfo : Eta PluginVersionInfo := fun r => MkPluginVersionInfo (viVersion r) (viMinecraftVersions r) (viDownloadURL r) (viHash r) (viCachedAt r) (viReleasedAt r).
#[export] Instance PluginVersionInfo_eq_dec : EqDecision PluginVersionInfo.
Proof. solve_decision. Defined.

Record MatchedInstance := MkMatchedInstance {
  miName : string;
  miNamespace : string;
  miVersion : string;
  miCompatible : bool
}.
#[export] Instance eta_MatchedInstance : Eta MatchedInstance := fun r => MkMatchedInstance (miName r) (miNamespace r) (miVersion r) (miCompatible r).
#[export] Instance MatchedInstance_eq_dec : EqDecision MatchedInstance.
Proof. solve_decision. Defined.

Record DeletionProgressEntry := MkDeletionProgressEntry {
  dpServerName : string;
  dpNamespace : string;
  dpJARDeleted : bool;
  dpDeletedAt : option Time;
  dpDeletionRequestedAt : option Time
}.
#[export] Instance eta_DeletionProgressEntry : Eta DeletionProgressEntry := fun r => MkDeletionProgressEntry (dpServerName r) (dpNamespace r) (dpJARDeleted r) (dpDeletedAt r) (dpDeletionRequestedAt r).
#[export] Instance DeletionProgressEntry_eq_dec : EqDecision DeletionProgressEntry.
Proof. solve_decision. Defined.

Record PluginStatus := MkPluginStatus {
  pgAvailableVersions : list PluginVersionInfo;
  pgMatchedInstances : list MatchedInstance;
  pgRepositoryStatus : string;
  pgLastFetched : option Time;
  pgDeletionProgress : list DeletionProgressEntry;
  pgConditions : list Condition
}.
#[export] Instance eta_PluginStatus : Eta PluginStatus := fun r => MkPluginStatus (pgAvailableVersions r) (pgMatchedInstances r) (pgRepositoryStatus r) (pgLastFetched r) (pgDeletionProgress r) (pgConditions r).
#[export] Instance PluginStatus_eq_dec : EqDecision PluginStatus.
Proof. solve_decision. Defined.

Record Plugin := MkPlugin {
  plgMeta : ObjectMeta;
  plgSpec : PluginSpec;
  plgStatus : PluginStatus
}.
#[export] Instance eta_Plugin : Eta Plugin := fun r => MkPlugin (plgMeta r) (plgSpec r) (plgStatus r).
#[export] Instance Plugin_eq_dec : EqDecision Plugin.
Proof. solve_decision. Defined.

(** ** Zero values of the structs *)

Definition zeroOwnerReference : OwnerReference := MkOwnerReference "" false.
Definition zeroObjectMeta : ObjectMeta := MkObjectMeta "" "" ∅ ∅ [] None 0%Z 0%Z "" "" [].
Definition zeroCondition : Condition := MkCondition "" "" "" "" 0%Z 0%Z.
Definition zeroLabelSelectorRequirement : LabelSelectorRequirement := MkRequirement "" "" [].
Definition zeroLabelSelector : LabelSelector := MkLabelSelector ∅ [].
Definition zeroSecretRef : SecretRef := MkSecretRef "" "".
Definition zeroEnvVar : EnvVar := MkEnvVar "" "" None.
Definition zeroVolumeMount : VolumeMount := MkVolumeMount "" "" false.
Definition zeroConfigMapVolume : ConfigMapVolume := MkConfigMapVolume "" None.
Definition zeroVolume : Volume := MkVolume "" None None "".
Definition zeroSecurityContext : SecurityContext := MkSecurityContext None None [].
Definition zeroContainer : Container := MkContainer "" "" [] [] [] None "".
Definition zeroPodTemplateSpec : PodTemplateSpec := MkPodTemplateSpec ∅ ∅ [] [] [] None "".
Definition zeroMaintenanceWindow : MaintenanceWindow := MkMaintenanceWindow "" false.
Definition zeroUpdateSchedule : UpdateSchedule := MkUpdateSchedule "" zeroMaintenanceWindow.
Definition zeroGracefulShutdown : GracefulShutdown := MkGracefulShutdown 0%Z.
Definition zeroSecretKeyRef : SecretKeyRef := MkSecretKeyRef "" "".
Definition zeroRCONConfig : RCONConfig := MkRCONConfig false zeroSecretKeyRef 0%Z.
Definition zeroPluginHTTPRoute : PluginHTTPRoute := MkPluginHTTPRoute "" "" "" "".
Definition zeroGatewayParentRef : GatewayParentRef := MkGatewayParentRef "" "" "".
Definition zeroRouteConfig : RouteConfig := MkRouteConfig false.
Definition zeroGatewayConfig : GatewayConfig := MkGatewayConfig false [] None None [].
Definition zeroNetworkPolicySource : NetworkPolicySource := MkNetworkPolicySource "" None None.
Definition zeroNetworkPolicyDestination : NetworkPolicyDestination := MkNetworkPolicyDestination "" None None.
Definition zeroServerNetworkPolicy : ServerNetworkPolicy := MkServerNetworkPolicy false [] None [].
Definition zeroNetworkConfig : NetworkConfig := MkNetworkConfig None.
Definition zeroServiceConfig : ServiceConfig := MkServiceConfig "" ∅ "".
Definition zeroBackupRetention : BackupRetention := MkBackupRetention 0%Z.
Definition zeroBackupSpec : BackupSpec := MkBackupSpec false "" None "" zeroBackupRetention.
Definition zeroBackupRecord : BackupRecord := MkBackupRecord "" 0%Z None false "".
Definition zeroBackupStatus : BackupStatus := MkBackupStatus None 0%Z.
Definition zeroConfigMapKeyRef : ConfigMapKeyRef := MkConfigMapKeyRef "" "".
Definition zeroPluginConfigFile : PluginConfigFile := MkPluginConfigFile zeroConfigMapKeyRef "" "".
Definition zeroServerPluginConfig : ServerPluginConfig := MkServerPluginConfig "" [].
Definition zeroServerConfigFile : ServerConfigFile := MkServerConfigFile zeroConfigMapKeyRef "" "".
Definition zeroPaperMCServerSpec : PaperMCServerSpec := MkPaperMCServerSpec "" "" None None zeroUpdateSchedule zeroGracefulShutdown zeroRCONConfig zeroServiceConfig None None None [] [] zeroPodTemplateSpec.
Definition zeroPluginRef : PluginRef := MkPluginRef "" "".
Definition zeroServerPluginStatus : ServerPluginStatus := MkServerPluginStatus zeroPluginRef "" "" "" false "" false "".
Definition zeroPluginVersionPair : PluginVersionPair := MkPluginVersionPair zeroPluginRef "".
Definition zeroAvailableUpdate : AvailableUpdate := MkAvailableUpdate "" 0%Z 0%Z [] 0%Z.
Definition zeroUpdateHistory : UpdateHistory := MkUpdateHistory 0%Z "" false.
Definition zeroBlockedByInfo : BlockedByInfo := MkBlockedByInfo "" "" [].
Definition zeroUpdateBlockedStatus : UpdateBlockedStatus := MkUpdateBlockedStatus false "" None.
Definition zeroPaperMCServerStatus : PaperMCServerStatus := MkPaperMCServerStatus "" 0%Z "" 0%Z [] None None None None [].
Definition zeroPaperMCServer : PaperMCServer := MkPaperMCServer zeroObjectMeta zeroPaperMCServerSpec zeroPaperMCServerStatus.
Definition zeroPluginSource : PluginSource := MkPluginSource "" "" "" "".
Definition zeroCompatibilityOverride : CompatibilityOverride := MkCompatibilityOverride false [].
Definition zeroPluginEndpoint : PluginEndpoint := MkPluginEndpoint "" 0%Z "".
Definition zeroPluginSpec : PluginSpec := MkPluginSpec zeroPluginSource "" "" None None zeroLabelSelector [] "" [] None.
Definition zeroPluginVersionInfo : PluginVersionInfo := MkPluginVersionInfo "" [] "" "" 0%Z 0%Z.
Definition zeroMatchedInstance : MatchedInstance := MkMatchedInstance "" "" "" false.
Definition zeroDeletionProgressEntry : DeletionProgressEntry := MkDeletionProgressEntry "" "" false None None.
Definition zeroPluginStatus : PluginStatus := MkPluginStatus [] [] "" None [] [].
Definition zeroPlugin : Plugin := MkPlugin zeroObjectMeta zeroPluginSpec zeroPluginStatus.

(** ** Access shorthands *)

Definition srvName (s : PaperMCServer) : string := Name (srvMeta s).
Definition srvNamespace (s : PaperMCServer) : string := Namespace (srvMeta s).
Definition plgName (p : Plugin) : string := Name (plgMeta p).
Definition plgNamespace (p : Plugin) : string := Namespace (plgMeta p).

(** [server.Status.f = v] *)
Definition updStatus (f : PaperMCServerStatus -> PaperMCServerStatus) (s : PaperMCServer)
  : PaperMCServer := s <| srvStatus := f (srvStatus s) |>.

(** [plugin.Status.f = v] *)
Definition updPlgStatus (f : PluginStatus -> PluginStatus) (p : Plugin) : Plugin :=
  p <| plgStatus := f (plgStatus p) |>.

(** A reference to an object: its namespace and name. *)
Definition key : Type := string * string.

Definition srvKey (s : PaperMCServer) : key := (srvNamespace s, srvName s).
Definition plgKey (p : Plugin) : key := (plgNamespace p, plgName p).
