(* ===== verification/Objects.v ===== *)
(** * Kubernetes objects that the operator creates

    ConfigMaps, StatefulSets, Services, network policies and Gateway API routes,
    with the fields the source sets, reads or compares. *)

From S2P Require Import Prelude GoBase Api.

(** [corev1.ConfigMap]; of the binary data only the keys. *)
Record ConfigMap := MkConfigMap {
  cmMeta : ObjectMeta;
  cmData : gmap string string;
  cmBinaryKeys : list string
}.
#[export] Instance eta_ConfigMap : Eta ConfigMap := fun r => MkConfigMap (cmMeta r) (cmData r) (cmBinaryKeys r).
#[export] Instance ConfigMap_eq_dec : EqDecision ConfigMap.
Proof. solve_decision. Defined.

(** [corev1.PersistentVolumeClaim] as a template: name, access modes, storage request. *)
Record VolumeClaim := MkVolumeClaim {
  vcName : string;
  vcAccessModes : list string;
  vcStorage : string
}.
#[export] Instance eta_VolumeClaim : Eta VolumeClaim := fun r => MkVolumeClaim (vcName r) (vcAccessModes r) (vcStorage r).
#[export] Instance VolumeClaim_eq_dec : EqDecision VolumeClaim.
Proof. solve_decision. Defined.

(** [appsv1.StatefulSet] with its specification and, of its status, the
    replicas, the ready replicas and the revisions. *)
Record StatefulSet := MkStatefulSet {
  stsMeta : ObjectMeta;
  stsTemplate : PodTemplateSpec;
  stsReplicas : Z;
  stsStatusReplicas : Z;
  stsReadyReplicas : Z;
  stsCurrentRevision : string;
  stsUpdateRevision : string;
  stsServiceName : string;
  stsSelector : gmap string string;
  stsVolumeClaimTemplates : list VolumeClaim
}.
#[export] Instance eta_StatefulSet : Eta StatefulSet := fun r => MkStatefulSet (stsMeta r) (stsTemplate r) (stsReplicas r) (stsStatusReplicas r) (stsReadyReplicas r) (stsCurrentRevision r) (stsUpdateRevision r) (stsServiceName r) (stsSelector r) (stsVolumeClaimTemplates r).
#[export] Instance StatefulSet_eq_dec : EqDecision StatefulSet.
Proof. solve_decision. Defined.

(** [corev1.ServicePort] *)
Record ServicePort := MkServicePort {
  sePortName : string;
  sePort : Z;
  seTargetPort : Z;
  seProtocol : string;
  seNodePort : Z;
  seAppProtocol : option string
}.
#[export] Instance eta_ServicePort : Eta ServicePort := fun r => MkServicePort (sePortName r) (sePort r) (seTargetPort r) (seProtocol r) (seNodePort r) (seAppProtocol r).
#[export] Instance ServicePort_eq_dec : EqDecision ServicePort.
Proof. solve_decision. Defined.

(** [corev1.ServiceSpec]: the fields that the source sets or copies, those that the API
    server fills in, and the others as one value. *)
Record ServiceSpec := MkServiceSpec {
  seType : string;
  sePorts : list ServicePort;
  seSelector : gmap string string;
  seLoadBalancerIP : string;
  seClusterIP : string;
  seClusterIPs : list string;
  seSessionAffinity : string;
  seExternalTrafficPolicy : string;
  seInternalTrafficPolicy : option string;
  seIPFamilies : list string;
  seIPFamilyPolicy : option string;
  seAllocateLoadBalancerNodePorts : option bool;
  seOther : string
}.
#[export] Instance eta_ServiceSpec : Eta ServiceSpec := fun r => MkServiceSpec (seType r) (sePorts r) (seSelector r) (seLoadBalancerIP r) (seClusterIP r) (seClusterIPs r) (seSessionAffinity r) (seExternalTrafficPolicy r) (seInternalTrafficPolicy r) (seIPFamilies r) (seIPFamilyPolicy r) (seAllocateLoadBalancerNodePorts r) (seOther r).
#[export] Instance ServiceSpec_eq_dec : EqDecision ServiceSpec.
Proof. solve_decision. Defined.

(** [corev1.Service] *)
Record Service := MkService {
  seMeta : ObjectMeta;
  seSpec : ServiceSpec
}.
#[export] Instance eta_Service : Eta Service := fun r => MkService (seMeta r) (seSpec r).
#[export] Instance Service_eq_dec : EqDecision Service.
Proof. solve_decision. Defined.

(** [networkingv1.NetworkPolicyPeer]; an IP block is its CIDR. *)
Record NetworkPolicyPeer := MkPeer {
  prIPBlock : option string;
  prPodSelector : option LabelSelector;
  prNamespaceSelector : option LabelSelector
}.
#[export] Instance eta_NetworkPolicyPeer : Eta NetworkPolicyPeer := fun r => MkPeer (prIPBlock r) (prPodSelector r) (prNamespaceSelector r).
#[export] Instance NetworkPolicyPeer_eq_dec : EqDecision NetworkPolicyPeer.
Proof. solve_decision. Defined.

(** [networkingv1.NetworkPolicyPort] *)
Record NetworkPolicyPort := MkPolicyPort {
  poProtocol : string;
  poPort : Z
}.
#[export] Instance eta_NetworkPolicyPort : Eta NetworkPolicyPort := fun r => MkPolicyPort (poProtocol r) (poPort r).
#[export] Instance NetworkPolicyPort_eq_dec : EqDecision NetworkPolicyPort.
Proof. solve_decision. Defined.

(** An ingress or egress rule: ports and the peers it comes from or goes to. *)
Record NetworkPolicyRule := MkPolicyRule {
  ruPorts : list NetworkPolicyPort;
  ruPeers : list NetworkPolicyPeer
}.
#[export] Instance eta_NetworkPolicyRule : Eta NetworkPolicyRule := fun r => MkPolicyRule (ruPorts r) (ruPeers r).
#[export] Instance NetworkPolicyRule_eq_dec : EqDecision NetworkPolicyRule.
Proof. solve_decision. Defined.

(** [networkingv1.NetworkPolicySpec] *)
Record NetworkPolicySpec := MkNetworkPolicySpec {
  nyPodSelector : LabelSelector;
  nyPolicyTypes : list string;
  nyIngress : list NetworkPolicyRule;
  nyEgress : list NetworkPolicyRule
}.
#[export] Instance eta_NetworkPolicySpec : Eta NetworkPolicySpec := fun r => MkNetworkPolicySpec (nyPodSelector r) (nyPolicyTypes r) (nyIngress r) (nyEgress r).
#[export] Instance NetworkPolicySpec_eq_dec : EqDecision NetworkPolicySpec.
Proof. solve_decision. Defined.

(** [networkingv1.NetworkPolicy] *)
Record NetworkPolicy := MkNetworkPolicy {
  nyMeta : ObjectMeta;
  nySpec : NetworkPolicySpec
}.
#[export] Instance eta_NetworkPolicy : Eta NetworkPolicy := fun r => MkNetworkPolicy (nyMeta r) (nySpec r).
#[export] Instance NetworkPolicy_eq_dec : EqDecision NetworkPolicy.
Proof. solve_decision. Defined.

(** [gatewayv1.ParentReference] *)
Record ParentReference := MkParentReference {
  paName : string;
  paNamespace : option string;
  paSectionName : option string
}.
#[export] Instance eta_ParentReference : Eta ParentReference := fun r => MkParentReference (paName r) (paNamespace r) (paSectionName r).
#[export] Instance ParentReference_eq_dec : EqDecision ParentReference.
Proof. solve_decision. Defined.

(** [gatewayv1.BackendRef] *)
Record BackendRef := MkBackendRef {
  baGroup : option string;
  baKind : option string;
  baName : string;
  baPort : Z
}.
#[export] Instance eta_BackendRef : Eta BackendRef := fun r => MkBackendRef (baGroup r) (baKind r) (baName r) (baPort r).
#[export] Instance BackendRef_eq_dec : EqDecision BackendRef.
Proof. solve_decision. Defined.

(** The specification of a TCPRoute or UDPRoute; a rule is its backends. *)
Record L4RouteSpec := MkL4RouteSpec {
  l4ParentRefs : list ParentReference;
  l4Rules : list (list BackendRef)
}.
#[export] Instance eta_L4RouteSpec : Eta L4RouteSpec := fun r => MkL4RouteSpec (l4ParentRefs r) (l4Rules r).
#[export] Instance L4RouteSpec_eq_dec : EqDecision L4RouteSpec.
Proof. solve_decision. Defined.

(** [gatewayv1alpha2.TCPRoute] or [gatewayv1alpha2.UDPRoute] *)
Record L4Route := MkL4Route {
  l4Meta : ObjectMeta;
  l4Spec : L4RouteSpec
}.
#[export] Instance eta_L4Route : Eta L4Route := fun r => MkL4Route (l4Meta r) (l4Spec r).
#[export] Instance L4Route_eq_dec : EqDecision L4Route.
Proof. solve_decision. Defined.

(** [gatewayv1.HTTPRouteRule]; a match is a path type and value. *)
Record HTTPRouteRule := MkHTTPRouteRule {
  huMatches : list (string * string);
  huBackendRefs : list BackendRef
}.
#[export] Instance eta_HTTPRouteRule : Eta HTTPRouteRule := fun r => MkHTTPRouteRule (huMatches r) (huBackendRefs r).
#[export] Instance HTTPRouteRule_eq_dec : EqDecision HTTPRouteRule.
Proof. solve_decision. Defined.

(** [gatewayv1.HTTPRouteSpec] *)
Record HTTPRouteSpec := MkHTTPRouteSpec {
  heParentRefs : list ParentReference;
  heHostnames : list string;
  heRules : list HTTPRouteRule
}.
#[export] Instance eta_HTTPRouteSpec : Eta HTTPRouteSpec := fun r => MkHTTPRouteSpec (heParentRefs r) (heHostnames r) (heRules r).
#[export] Instance HTTPRouteSpec_eq_dec : EqDecision HTTPRouteSpec.
Proof. solve_decision. Defined.

(** [gatewayv1.HTTPRoute] *)
Record HTTPRoute := MkHTTPRoute {
  htMeta : ObjectMeta;
  htSpec : HTTPRouteSpec
}.
#[export] Instance eta_HTTPRoute : Eta HTTPRoute := fun r => MkHTTPRoute (htMeta r) (htSpec r).
#[export] Instance HTTPRoute_eq_dec : EqDecision HTTPRoute.
Proof. solve_decision. Defined.

(** ** Zero values *)

Definition zeroConfigMap : ConfigMap := MkConfigMap zeroObjectMeta ∅ [].
Definition zeroVolumeClaim : VolumeClaim := MkVolumeClaim "" [] "".
Definition zeroStatefulSet : StatefulSet := MkStatefulSet zeroObjectMeta zeroPodTemplateSpec 0%Z 0%Z 0%Z "" "" "" ∅ [].
Definition zeroServicePort : ServicePort := MkServicePort "" 0%Z 0%Z "" 0%Z None.
Definition zeroServiceSpec : ServiceSpec := MkServiceSpec "" [] ∅ "" "" [] "" "" None [] None None "".
Definition zeroService : Service := MkService zeroObjectMeta zeroServiceSpec.
Definition zeroNetworkPolicyPeer : NetworkPolicyPeer := MkPeer None None None.
Definition zeroNetworkPolicyPort : NetworkPolicyPort := MkPolicyPort "" 0%Z.
Definition zeroNetworkPolicyRule : NetworkPolicyRule := MkPolicyRule [] [].
Definition zeroNetworkPolicySpec : NetworkPolicySpec := MkNetworkPolicySpec zeroLabelSelector [] [] [].
Definition zeroNetworkPolicy : NetworkPolicy := MkNetworkPolicy zeroObjectMeta zeroNetworkPolicySpec.
Definition zeroParentReference : ParentReference := MkParentReference "" None None.
Definition zeroBackendRef : BackendRef := MkBackendRef None None "" 0%Z.
Definition zeroL4RouteSpec : L4RouteSpec := MkL4RouteSpec [] [].
Definition zeroL4Route : L4Route := MkL4Route zeroObjectMeta zeroL4RouteSpec.
Definition zeroHTTPRouteRule : HTTPRouteRule := MkHTTPRouteRule [] [].
Definition zeroHTTPRouteSpec : HTTPRouteSpec := MkHTTPRouteSpec [] [] [].
Definition zeroHTTPRoute : HTTPRoute := MkHTTPRoute zeroObjectMeta zeroHTTPRouteSpec.
