(* ===== verification/Plugins.v ===== *)
(** * Package [pkg/plugins]: the repository-client interface and its cache

    [client.go] declares what a plugin repository answers; [cache.go] wraps a
    client in an in-memory cache guarded by a read-write lock.  The cache is
    modelled by its critical sections (the code between a Lock and its Unlock);
    [GetVersions] and [GetCompatibility] compose them with the fetch, and the
    relation [cstep] interleaves the critical sections of any number of callers. *)

From S2P Require Import Prelude GoBase Decimals Strings.
From Stdlib Require Import Ascii.

Open Scope Z_scope.

(** ** client.go *)

Record PluginVersion := MkPluginVersion {
  pvVer : string;
  pvReleaseDate : Time;
  pvPaperVersions : list string;
  pvMinecraftVersions : list string;
  pvDownloadURL : string;
  pvHash : string
}.
#[export] Instance eta_PluginVersion : Eta PluginVersion := fun r =>
  MkPluginVersion (pvVer r) (pvReleaseDate r) (pvPaperVersions r) (pvMinecraftVersions r)
    (pvDownloadURL r) (pvHash r).
#[export] Instance PluginVersion_eq_dec : EqDecision PluginVersion.
Proof. solve_decision. Defined.

Record CompatibilityInfo := MkCompatibilityInfo {
  ciMinecraftVersions : list string;
  ciPaperVersions : list string
}.

(** The interface [PluginClient]; the answer of one call, by its arguments. *)
Class PluginClient := {
  clGetVersions : string -> result (list PluginVersion);
  clGetCompatibility : string -> string -> result CompatibilityInfo
}.

(** ** cache.go *)

Module Cache.

Record cacheEntry := MkEntry {
  versions : list PluginVersion;
  compat : CompatibilityInfo;
  expiresAt : Time;
  isVersions : bool
}.

Record CachedPluginClient := MkCached { cache : gmap string cacheEntry; ttl : Duration }.
#[export] Instance eta_Cached : Eta CachedPluginClient := fun r => MkCached (cache r) (ttl r).

Definition NewCachedPluginClient (d : Duration) : CachedPluginClient :=
  {| cache := ∅; ttl := d |}.

Definition noCompat : CompatibilityInfo := MkCompatibilityInfo [] [].

Definition versionsKey (project : string) : string := "versions:" +:+ project.
Definition compatPrefix (project : string) : string := "compat:" +:+ project +:+ ":".
Definition compatKey (project version : string) : string :=
  "compat:" +:+ project +:+ ":" +:+ version.

(** The check under the read lock: the cached value, if it is of the right
    kind and not expired at [now]. *)
Definition lookupVersions (c : CachedPluginClient) (project : string) (now : Time)
  : option (list PluginVersion) :=
  match cache c !! versionsKey project with
  | Some e => if isVersions e && Before now (expiresAt e) then Some (versions e) else None
  | None => None
  end.

Definition lookupCompat (c : CachedPluginClient) (project version : string) (now : Time)
  : option CompatibilityInfo :=
  match cache c !! compatKey project version with
  | Some e => if negb (isVersions e) && Before now (expiresAt e) then Some (compat e) else None
  | None => None
  end.

(** The update under the write lock; [now] is its [time.Now()]. *)
Definition storeVersions (c : CachedPluginClient) (project : string)
    (vs : list PluginVersion) (now : Time) : CachedPluginClient :=
  c <| cache := <[versionsKey project := MkEntry vs noCompat (Add now (ttl c)) true]> (cache c) |>.

Definition storeCompat (c : CachedPluginClient) (project version : string)
    (ci : CompatibilityInfo) (now : Time) : CachedPluginClient :=
  c <| cache := <[compatKey project version := MkEntry [] ci (Add now (ttl c)) false]> (cache c) |>.

Section client.
Context {PC : PluginClient}.

(** [now1] and [now2] are the two readings of the clock. *)
Definition GetVersions (c : CachedPluginClient) (project : string) (now1 now2 : Time)
  : result (list PluginVersion) * CachedPluginClient :=
  match lookupVersions c project now1 with
  | Some vs => (Ok vs, c)
  | None =>
      match wrap "failed to fetch versions" (clGetVersions project) with
      | Err e => (Err e, c)
      | Ok vs => (Ok vs, storeVersions c project vs now2)
      end
  end.

Definition GetCompatibility (c : CachedPluginClient) (project version : string)
    (now1 now2 : Time) : result CompatibilityInfo * CachedPluginClient :=
  match lookupCompat c project version now1 with
  | Some ci => (Ok ci, c)
  | None =>
      match wrap "failed to fetch compatibility" (clGetCompatibility project version) with
      | Err e => (Err e, c)
      | Ok ci => (Ok ci, storeCompat c project version ci now2)
      end
  end.
End client.

Definition ClearCache (c : CachedPluginClient) : CachedPluginClient := c <| cache := ∅ |>.

(** The test of the loop of [ClearProject]. *)
Definition projectKey (project k : string) : bool :=
  let versionKey := versionsKey project in
  let prefix := compatPrefix project in
  (k =? versionKey)%string ||
  ((String.length prefix <=? String.length k)%nat &&
   (str_take (String.length prefix) k =? prefix)%string).

Definition ClearProject (c : CachedPluginClient) (project : string) : CachedPluginClient :=
  c <| cache := filter (fun kv => projectKey project (kv.1) = false) (cache c) |>.

(** ** Interleavings

    A fetch that was stored: who was asked, what was answered, when the
    answer was stored. *)
Inductive fetched :=
  | FetchedVersions (project : string) (vs : list PluginVersion) (at_ : Time)
  | FetchedCompat (project version : string) (ci : CompatibilityInfo) (at_ : Time).

(** One critical section that writes, executed atomically. *)
Inductive cstep : CachedPluginClient * list fetched -> CachedPluginClient * list fetched -> Prop :=
  | cstep_versions c h p vs t :
      cstep (c, h) (storeVersions c p vs t, FetchedVersions p vs t :: h)
  | cstep_compat c h p v ci t :
      cstep (c, h) (storeCompat c p v ci t, FetchedCompat p v ci t :: h)
  | cstep_clear c h : cstep (c, h) (ClearCache c, h)
  | cstep_clear_project c h p : cstep (c, h) (ClearProject c p, h).

(** Every entry was stored under its key by some fetch and expires [ttl]
    after that fetch was stored. *)
Definition entry_ok (d : Duration) (h : list fetched) (k : string) (e : cacheEntry) : Prop :=
  if isVersions e then
    exists p t, k = versionsKey p /\ FetchedVersions p (versions e) t ∈ h /\ expiresAt e = t + d
  else
    exists p v t, k = compatKey p v /\ FetchedCompat p v (compat e) t ∈ h /\ expiresAt e = t + d.

Definition cinv (s : CachedPluginClient * list fetched) : Prop :=
  forall k e, cache s.1 !! k = Some e -> entry_ok (ttl s.1) s.2 k e.

Lemma entry_ok_more d h x k e : entry_ok d h k e -> entry_ok d (x :: h) k e.
Proof.
  unfold entry_ok. destruct (isVersions e).
  - intros (p & t & ? & ? & ?). exists p, t. split_and!; try done. by right.
  - intros (p & v & t & ? & ? & ?). exists p, v, t. split_and!; try done. by right.
Qed.

Lemma cstep_ttl s s' : cstep s s' -> ttl s'.1 = ttl s.1.
Proof. by destruct 1. Qed.

Lemma cstep_inv s s' : cinv s -> cstep s s' -> cinv s'.
Proof.
  intros Hi Hs. destruct Hs; intros k e; simpl_upd; intros Hk.
  - apply lookup_insert_Some in Hk as [[<- <-]|[_ Hk]].
    + exists p, t. split_and!; [done | by left | done].
    + apply entry_ok_more. by apply Hi.
  - apply lookup_insert_Some in Hk as [[<- <-]|[_ Hk]].
    + exists p, v, t. split_and!; [done | by left | done].
    + apply entry_ok_more. by apply Hi.
  - by rewrite lookup_empty in Hk.
  - apply map_lookup_filter_Some in Hk as [Hk _]. by apply Hi.
Qed.

Lemma csteps_inv s s' : rtc cstep s s' -> cinv s -> cinv s' /\ ttl s'.1 = ttl s.1.
Proof.
  induction 1 as [s|s s1 s2 Hs _ IH]; intros Hi; [done|].
  destruct (IH (cstep_inv _ _ Hi Hs)) as [Hi2 Ht]. split; [done|].
  rewrite Ht. by apply cstep_ttl.
Qed.

Lemma versionsKey_inj p q : versionsKey p = versionsKey q -> p = q.
Proof. apply str_app_inj_l. Qed.

Lemma projectKey_spec p k :
  projectKey p k = true <-> k = versionsKey p \/ exists v, k = compatKey p v.
Proof.
  unfold projectKey. rewrite orb_true_iff, String.eqb_eq. split.
  - intros [->|H]; [by left|]. right. apply andb_true_iff in H as [_ H].
    apply (HasPrefix_spec k (compatPrefix p)) in H as [v ->]. exists v.
    unfold compatPrefix, compatKey. by rewrite !str_app_assoc.
  - intros [->|[v ->]]; [by left|]. right.
    assert (compatKey p v = compatPrefix p +:+ v) as ->.
    { unfold compatPrefix, compatKey. by rewrite !str_app_assoc. }
    rewrite str_take_app, String.eqb_refl, str_length_app, andb_true_r.
    apply Nat.leb_le. lia.
Qed.

(** A project without a colon. *)
Definition plainProject (p : string) : Prop := str_all (fun c => negb (Ascii.eqb c ":"%char)) p = true.

Lemma joined_inj p q v w : plainProject p -> plainProject q -> p +:+ ":" +:+ v = q +:+ ":" +:+ w -> p = q /\ v = w.
Proof.
  unfold plainProject. revert q. induction p as [|a p IH]; intros [|b q] Hp Hq Heq; cbn [str_all] in *;
    rewrite ?str_app_nil, ?str_app_cons, ?str_app_nil in Heq; injection Heq as Heq.
  - done.
  - subst b. by rewrite Ascii.eqb_refl in Hq.
  - subst a. by rewrite Ascii.eqb_refl in Hp.
  - apply andb_true_iff in Hp as [_ Hp], Hq as [_ Hq]. destruct (IH q Hp Hq) as [-> ->]; [done|]. by subst.
Qed.

Lemma compatKey_inj p q v w : plainProject p -> plainProject q -> compatKey p v = compatKey q w -> p = q /\ v = w.
Proof. intros Hp Hq Hk. apply str_app_inj_l in Hk. by apply joined_inj. Qed.

(** ** Properties *)

(** C39: Under any interleaving of the critical sections of concurrent callers,
    starting from an empty cache, a hit is an answer that was fetched and stored less
    than [ttl] before [now].  A hit of [GetVersions] was fetched for that very project:
    the cache never serves another project's or a compatibility entry's value.  A hit
    of [GetCompatibility] was fetched for a project and a version that give the same
    text when they are joined by a colon, and so for that very project and version if
    the projects have no colon. *)
Theorem cache_hit_sound (d : Duration) c h now :
  rtc cstep (NewCachedPluginClient d, []) (c, h) ->
  (forall p vs, lookupVersions c p now = Some vs -> exists t, FetchedVersions p vs t ∈ h /\ now < t + d) /\
  (forall p v ci, lookupCompat c p v now = Some ci ->
     exists p' v' t, FetchedCompat p' v' ci t ∈ h /\ now < t + d /\ p' +:+ ":" +:+ v' = p +:+ ":" +:+ v /\
       (plainProject p -> plainProject p' -> p' = p /\ v' = v)).
Proof.
  intros Hr. apply csteps_inv in Hr as [Hi Ht].
  2: { intros k e Hk. simpl in Hk. by rewrite lookup_empty in Hk. }
  unfold cinv in Hi. rewrite Ht in Hi. cbn [fst snd ttl NewCachedPluginClient] in Hi. split.
  - intros p vs Hl. unfold lookupVersions in Hl. guards Hl. bool_prop.
    specialize (Hi _ _ Hg). unfold entry_ok in Hi. rewrite H in Hi.
    destruct Hi as (p' & t & ->%versionsKey_inj & Hf & He). exists t. split; [done|]. unfold Before in *. bool_prop. lia.
  - intros p v ci Hl. unfold lookupCompat in Hl. guards Hl. bool_prop.
    specialize (Hi _ _ Hg). unfold entry_ok in Hi. rewrite H in Hi. destruct Hi as (p' & v' & t & Hk & Hf & He).
    exists p', v', t. split_and!; [done | unfold Before in *; bool_prop; lia | symmetry; by apply str_app_inj_l in Hk|].
    intros Hp Hp'. by apply compatKey_inj.
Qed.

(** Projects with colons collide: an answer for version "b:c" of project "a" is served
    for version "c" of project "a:b". *)
Lemma compat_collision (ci : CompatibilityInfo) (d t now : Z) :
  now < t + d -> lookupCompat (storeCompat (NewCachedPluginClient d) "a" "b:c" ci t) "a:b" "c" now = Some ci.
Proof.
  intros H. unfold lookupCompat, storeCompat. simpl_upd. change (compatKey "a:b" "c") with (compatKey "a" "b:c").
  rewrite lookup_insert_eq. cbn. unfold Before, Add. by rewrite (proj2 (Z.ltb_lt _ _) H).
Qed.

(** [ClearProject p] makes every later lookup of versions or compatibility
    of [p] a miss, and leaves the cached versions of every other project as
    they were. *)
Theorem ClearProject_exact c p q v now :
  lookupVersions (ClearProject c p) q now
    = (if decide (q = p) then None else lookupVersions c q now) /\
  lookupCompat (ClearProject c p) p v now = None.
Proof.
  unfold lookupVersions, lookupCompat, ClearProject. simpl_upd. split.
  - destruct (decide (q = p)) as [->|Hne].
    + rewrite map_lookup_filter_None_2; [done|]. right. intros e _ Hk. simpl in Hk.
      assert (projectKey p (versionsKey p) = true) as Ht by (apply projectKey_spec; by left).
      congruence.
    + destruct (cache c !! versionsKey q) as [e|] eqn:Hc.
      * rewrite (map_lookup_filter_Some_2 _ _ _ e); [done|done|]. simpl.
        destruct (projectKey p (versionsKey q)) eqn:Hk; [|done].
        apply projectKey_spec in Hk as [?%versionsKey_inj|[v' Hv]]; [done|].
        unfold versionsKey, compatKey in Hv. by rewrite !str_app_cons in Hv.
      * rewrite map_lookup_filter_None_2; [done | by left].
  - rewrite map_lookup_filter_None_2; [done|]. right. intros e _ Hk. simpl in Hk.
    assert (projectKey p (compatKey p v) = true) as Ht by (apply projectKey_spec; eauto).
    congruence.
Qed.

(** [GetVersions] answers from the cache exactly when the lookup hits, and
    then does not ask the client; on a miss it returns the client's answer, an
    error leaves the cache as it was, and a stored answer is served again
    until [ttl] has passed. *)
Theorem GetVersions_spec `{PC : PluginClient} c p now1 now2 :
  match lookupVersions c p now1, clGetVersions p with
  | Some vs, _ => GetVersions c p now1 now2 = (Ok vs, c)
  | None, Err e => GetVersions c p now1 now2 = (Err (ErrWrap e "failed to fetch versions"), c)
  | None, Ok vs => exists c', GetVersions c p now1 now2 = (Ok vs, c') /\
      forall now, lookupVersions c' p now = (if now <? now2 + ttl c then Some vs else None)
  end.
Proof.
  unfold GetVersions. destruct (lookupVersions c p now1) as [vs|]; [done|].
  destruct (clGetVersions p) as [vs|e]; simpl; [|done].
  eexists. split; [done|]. intros now. unfold lookupVersions, storeVersions. simpl_upd.
  by rewrite lookup_insert_eq.
Qed.

(** A run in which the versions of project "a" are fetched, then its compatibility, then
    "b" is cleared. *)
Lemma cache_hit_sound_witness :
  exists c h, rtc cstep (NewCachedPluginClient 100, []) (c, h) /\
    lookupVersions c "a" 50 = Some [] /\ (exists t, FetchedVersions "a" [] t ∈ h /\ 50 < t + 100) /\
    lookupCompat c "a" "1.0" 50 = Some noCompat /\ (exists t, FetchedCompat "a" "1.0" noCompat t ∈ h /\ 50 < t + 100).
Proof.
  set (c1 := storeVersions (NewCachedPluginClient 100) "a" [] 10).
  set (c2 := storeCompat c1 "a" "1.0" noCompat 20).
  set (h := [FetchedCompat "a" "1.0" noCompat 20; FetchedVersions "a" [] 10]).
  assert (Hr : rtc cstep (NewCachedPluginClient 100, []) (ClearProject c2 "b", h)).
  { eapply rtc_l; [apply cstep_versions|]. eapply rtc_l; [apply cstep_compat|].
    eapply rtc_l; [apply cstep_clear_project|]. apply rtc_refl. }
  assert (Hv : lookupVersions (ClearProject c2 "b") "a" 50 = Some []) by reflexivity.
  assert (Hc : lookupCompat (ClearProject c2 "b") "a" "1.0" 50 = Some noCompat) by reflexivity.
  exists (ClearProject c2 "b"), h. destruct (cache_hit_sound 100 _ _ 50 Hr) as [H1 H2].
  split; [exact Hr|]. split; [exact Hv|]. split; [exact (H1 _ _ Hv)|]. split; [exact Hc|].
  destruct (H2 _ _ _ Hc) as (p' & v' & t & Hin & Ht & _). exists t. split; [|exact Ht].
  apply elem_of_cons in Hin as [Hin|Hin]; [injection Hin as -> -> ->; by left|].
  apply list_elem_of_singleton in Hin. discriminate Hin.
Defined.
End Cache.
