(* ===== verification/Solver.v ===== *)
(** * Package [pkg/solver]: the linear-search version solver

    [SimpleSolver] answers the highest version of a plugin that is compatible
    with all matched servers, and the highest Paper version that is compatible
    with all matched plugins.  [Solver] is the interface of [solver.go];
    [SolverSpec] is what the doc comments of the interface promise, and the
    instance [SimpleSolver_spec] shows that the linear search implements it. *)

From S2P Require Import Prelude GoBase Semver VersionPkg Api Plugins.
From Stdlib Require Import Sorting.Sorted.

Open Scope Z_scope.

(** ** Exchange sort on strings seen through [get] (simple_solver.go) *)

Section sorting.
Context {SV : Semver} {A : Type} (get : A -> string).

(** [err1 == nil && err2 == nil && v2.GreaterThan(v1)] *)
Definition outOfOrder (a b : A) : bool :=
  match NewVersion (get a), NewVersion (get b) with
  | Ok v1, Ok v2 => GreaterThan v2 v1
  | _, _ => false
  end.

(** The body of the inner loop: compare positions [i] and [j], swap them. *)
Definition swapStep (i : nat) (sorted : list A) (j : nat) : list A :=
  match sorted !! i, sorted !! j with
  | Some a, Some b =>
      if outOfOrder a b then <[i := b]> (<[j := a]> sorted) else sorted
  | _, _ => sorted
  end.

(** [for j := i + 1; j < len(sorted); j++] *)
Definition innerLoop (sorted : list A) (i : nat) : list A :=
  foldl (swapStep i) sorted (seq (i + 1) (length sorted - (i + 1))).

(** [for i := 0; i < len(sorted)-1; i++] *)
Definition exchangeSort (versions : list A) : list A :=
  foldl innerLoop versions (seq 0 (length versions - 1)).

(** Reference definition: carry the current element of position [i] through
    the rest of the list. *)
Fixpoint bubble (x : A) (rest : list A) : A * list A :=
  match rest with
  | [] => (x, [])
  | y :: ys =>
      if outOfOrder x y
      then let '(m, r) := bubble y ys in (m, x :: r)
      else let '(m, r) := bubble x ys in (m, y :: r)
  end.

Fixpoint refSort (fuel : nat) (l : list A) : list A :=
  match fuel, l with
  | S n, x :: rest => let '(m, r) := bubble x rest in m :: refSort n r
  | _, _ => l
  end.

(** Highest first, as far as both versions parse. *)
Definition desc (a b : A) : Prop :=
  forall v w, NewVersion (get a) = Ok v -> NewVersion (get b) = Ok w -> vle w v.

Lemma bubble_perm x rest : x :: rest ≡ₚ (bubble x rest).1 :: (bubble x rest).2.
Proof.
  revert x; induction rest as [|y ys IH]; intros x; simpl; [done|].
  destruct (outOfOrder x y).
  - specialize (IH y). destruct (bubble y ys) as [m r]. simpl in *.
    rewrite IH. apply perm_swap.
  - specialize (IH x). destruct (bubble x ys) as [m r]. simpl in *.
    rewrite perm_swap, IH. apply perm_swap.
Qed.

Lemma bubble_length x rest : length (bubble x rest).2 = length rest.
Proof. pose proof (Permutation_length (bubble_perm x rest)). simpl in *. lia. Qed.

Lemma swapStep_mid (p q : list A) x y rest :
  swapStep (length p) (p ++ x :: q ++ y :: rest) (length p + S (length q)) =
  if outOfOrder x y then p ++ y :: q ++ x :: rest else p ++ x :: q ++ y :: rest.
Proof.
  unfold swapStep. rewrite list_lookup_middle by done.
  rewrite lookup_app_r by lia.
  replace (length p + S (length q) - length p)%nat with (S (length q)) by lia. simpl.
  rewrite list_lookup_middle by done. destruct (outOfOrder x y); [|done].
  rewrite insert_app_r_alt by lia.
  replace (length p + S (length q) - length p)%nat with (S (length q)) by lia.
  rewrite insert_app_r_alt by lia. rewrite Nat.sub_diag. simpl.
  rewrite insert_app_r_alt by lia. by rewrite Nat.sub_diag.
Qed.

Lemma innerLoop_bubble_gen (p q : list A) x rest :
  foldl (swapStep (length p)) (p ++ x :: q ++ rest)
    (seq (length p + S (length q)) (length rest)) =
  p ++ (bubble x rest).1 :: q ++ (bubble x rest).2.
Proof.
  revert q x; induction rest as [|y ys IH]; intros q x; simpl; [done|].
  rewrite swapStep_mid.
  destruct (outOfOrder x y).
  - specialize (IH (q ++ [x]) y). rewrite length_app in IH. simpl in IH.
    rewrite <- !app_assoc in IH. simpl in IH.
    replace (length p + S (length q + 1))%nat with (S (length p + S (length q))) in IH by lia.
    rewrite IH. by destruct (bubble y ys).
  - specialize (IH (q ++ [y]) x). rewrite length_app in IH. simpl in IH.
    rewrite <- !app_assoc in IH. simpl in IH.
    replace (length p + S (length q + 1))%nat with (S (length p + S (length q))) in IH by lia.
    rewrite IH. by destruct (bubble x ys).
Qed.

Lemma innerLoop_bubble p x rest :
  innerLoop (p ++ x :: rest) (length p) = p ++ (bubble x rest).1 :: (bubble x rest).2.
Proof.
  unfold innerLoop. pose proof (innerLoop_bubble_gen p [] x rest) as H. simpl in H.
  rewrite <- H. f_equal. rewrite length_app. simpl. f_equal; lia.
Qed.

Lemma exchangeSort_ref_gen p l n :
  n = (length l - 1)%nat ->
  foldl innerLoop (p ++ l) (seq (length p) n) = p ++ refSort n l.
Proof.
  revert p l; induction n as [|n IH]; intros p l Hn; simpl; [done|].
  destruct l as [|x rest]; [done|]. simpl in Hn.
  rewrite innerLoop_bubble. pose proof (bubble_length x rest) as Hl.
  destruct (bubble x rest) as [m r]. simpl in *.
  specialize (IH (p ++ [m]) r ltac:(lia)). rewrite length_app in IH. simpl in IH.
  rewrite <- !app_assoc in IH. simpl in IH. rewrite Nat.add_1_r in IH. by rewrite IH.
Qed.

Lemma exchangeSort_ref l : exchangeSort l = refSort (length l - 1) l.
Proof. by apply (exchangeSort_ref_gen []). Qed.

Lemma refSort_perm n l : l ≡ₚ refSort n l.
Proof.
  revert l; induction n as [|n IH]; intros [|x rest]; simpl; try done.
  rewrite bubble_perm. destruct (bubble x rest) as [m r]. simpl. by rewrite <- IH.
Qed.

Lemma exchangeSort_perm l : l ≡ₚ exchangeSort l.
Proof. rewrite exchangeSort_ref. apply refSort_perm. Qed.

Context {SL : SemverLaws}.

(** An unparsable element stays where it is; a parsable one is replaced by one
    that is at least itself and every parsable element of the rest. *)
Lemma bubble_max x rest :
  (isOk (NewVersion (get x)) = isOk (NewVersion (get (bubble x rest).1))) /\
  (forall y, y ∈ x :: rest -> desc (bubble x rest).1 y).
Proof.
  revert x; induction rest as [|y ys IH]; intros x; simpl.
  - split; [done|]. intros z ->%list_elem_of_singleton v w Hv Hw.
    assert (v = w) as -> by congruence. apply vle_refl.
  - destruct (outOfOrder x y) eqn:Ho; unfold outOfOrder in Ho.
    + destruct (NewVersion (get x)) as [vx|] eqn:Hx, (NewVersion (get y)) as [vy|] eqn:Hy;
        try done.
      destruct (IH y) as [H1 H2]. destruct (bubble y ys) as [m r]. simpl in *.
      split; [by rewrite <- H1, Hy|].
      intros z [->|Hz]%elem_of_cons; [|by apply H2].
      intros v w Hv Hw. apply vle_trans with vy.
      * apply GreaterThan_true. congruence.
      * eapply H2; [by left | done | done].
    + destruct (IH x) as [H1 H2]. destruct (bubble x ys) as [m r]. simpl in *.
      split; [done|].
      intros z [->|[->|Hz]%elem_of_cons]%elem_of_cons; [by apply H2; left | | by apply H2; right].
      intros v w Hv Hw. rewrite Hw, Hv in *.
      destruct (NewVersion (get x)) as [vx|] eqn:Hx; [|done].
      apply vle_trans with vx; [by apply GreaterThan_false|].
      eapply H2; [by left | done | done].
Qed.

Lemma refSort_desc n l : (length l <= S n)%nat -> StronglySorted desc (refSort n l).
Proof.
  revert l; induction n as [|n IH]; intros [|x rest] Hl; simpl in *; try by constructor.
  - destruct rest; [repeat constructor | simpl in Hl; lia].
  - pose proof (bubble_length x rest) as Hb.
    pose proof (bubble_max x rest) as [_ Hm].
    pose proof (bubble_perm x rest) as Hp.
    destruct (bubble x rest) as [m r]. simpl in *. constructor; [apply IH; lia|].
    apply Forall_forall. intros y Hy. apply Hm. rewrite Hp. right.
    by rewrite (refSort_perm n r).
Qed.

Lemma exchangeSort_desc l : StronglySorted desc (exchangeSort l).
Proof. rewrite exchangeSort_ref. apply refSort_desc. lia. Qed.

(** The first element of the sorted list that passes a test is maximal among
    the elements that pass it. *)
Lemma find_exchangeSort_max (f : A -> bool) l x :
  List.find f (exchangeSort l) = Some x ->
  x ∈ l /\ f x = true /\ forall y, y ∈ l -> f y = true -> desc x y.
Proof.
  intros H. pose proof (find_some_elem _ _ _ H) as [Hx Hf].
  split_and!; [by rewrite (exchangeSort_perm l) | done |].
  intros y Hy Hfy. pose proof (exchangeSort_desc l) as Hs.
  apply find_split in H as (l1 & l2 & Heq & _ & Hl1).
  rewrite (exchangeSort_perm l), Heq in Hy. rewrite Heq in Hs.
  apply elem_of_app in Hy as [Hy|[->|Hy]%elem_of_cons].
  - rewrite Forall_forall in Hl1. apply Hl1 in Hy. congruence.
  - intros v w Hv Hw. assert (v = w) as -> by congruence. apply vle_refl.
  - clear -Hs Hy. induction l1 as [|z l1 IH]; simpl in Hs; inversion Hs as [|? ? Hs' Hall];
      subst; [|by apply IH].
    rewrite Forall_forall in Hall. by apply Hall.
Qed.

Lemma find_exchangeSort_none (f : A -> bool) l :
  List.find f (exchangeSort l) = None <-> forall y, y ∈ l -> f y = false.
Proof.
  split.
  - intros H y Hy. apply (find_none_elem _ _ _ H). by rewrite <- (exchangeSort_perm l).
  - intros H. destruct (List.find f (exchangeSort l)) as [x|] eqn:E; [|done].
    apply find_some_elem in E as [Hx Hf]. rewrite <- (exchangeSort_perm l) in Hx.
    rewrite H in Hf; done.
Qed.
End sorting.

(** ** solver.go: the interface *)

Class Solver := {
  FindBestPluginVersion :
    Time -> Plugin -> list PaperMCServer -> list PluginVersion -> result string;
  FindBestPaperVersion : PaperMCServer -> list Plugin -> list string -> result string
}.

Definition updateStrategyLatest : string := "latest".
Definition updateStrategyAuto : string := "auto".
Definition updateStrategyPin : string := "pin".
Definition updateStrategyBuildPin : string := "build-pin".
Definition versionPolicyPinned : string := "pinned".

(** An empty strategy means "latest". *)
Definition orLatest (strategy : string) : string :=
  if (strategy =? "")%string then updateStrategyLatest else strategy.

(** ** simple_solver.go *)

Module Simple.
Section semver.
Context {SV : Semver}.

Definition checkPinnedPluginVersion (plugin : Plugin) : string :=
  let strategy := orLatest (psUpdateStrategy (plgSpec plugin)) in
  if (strategy =? updateStrategyPin)%string || (strategy =? updateStrategyBuildPin)%string then
    if negb (psVersion (plgSpec plugin) =? "")%string then psVersion (plgSpec plugin) else ""
  else if (strategy =? versionPolicyPinned)%string then
    if negb (psVersion (plgSpec plugin) =? "")%string then psVersion (plgSpec plugin) else ""
  else "".

(** The release dates that [filterByDelay] keeps; [now] is [time.Now()]. *)
Definition releasedBefore (now : Time) (delay : Duration) (d : Time) : bool :=
  let cutoff := Add now (wrap64 (- delay)) in
  Before d cutoff || TimeEqual d cutoff.

Definition filterByDelay (now : Time) (versions : list PluginVersion) (delay : Duration)
  : list PluginVersion :=
  if delay =? 0 then versions
  else List.filter (fun v => releasedBefore now delay (pvReleaseDate v)) versions.

Definition sortVersionsDesc (versions : list PluginVersion) : list PluginVersion :=
  exchangeSort pvVer versions.

Definition sortPaperVersionsDesc (versions : list string) : list string :=
  exchangeSort (fun v => v) versions.

Definition filterAndSortPluginVersions (now : Time) (plugin : Plugin)
    (allVersions : list PluginVersion) : result (list PluginVersion) :=
  let delay := default 0 (psUpdateDelay (plgSpec plugin)) in
  let filteredVersions := filterByDelay now allVersions delay in
  if (length filteredVersions =? 0)%nat
  then Err (ErrNew "no versions available after updateDelay filtering")
  else Ok (sortVersionsDesc filteredVersions).

Definition isPluginCompatibleWithServer (pv : PluginVersion) (server : PaperMCServer)
    (plugin : Plugin) : bool :=
  let paperVersion :=
    if (stCurrentVersion (srvStatus server) =? "")%string
    then ssVersion (srvSpec server) else stCurrentVersion (srvStatus server) in
  let byMetadata :=
    if (length (pvMinecraftVersions pv) =? 0)%nat && (length (pvPaperVersions pv) =? 0)%nat
    then true
    else ContainsVersion (pvMinecraftVersions pv) paperVersion ||
         ContainsVersion (pvPaperVersions pv) paperVersion in
  match psCompatibilityOverride (plgSpec plugin) with
  | Some ov =>
      if coEnabled ov then
        if (0 <? length (coMinecraftVersions ov))%nat
        then ContainsVersion (coMinecraftVersions ov) paperVersion
        else true
      else byMetadata
  | None => byMetadata
  end.

Fixpoint findCompatiblePluginVersion (sortedVersions : list PluginVersion)
    (servers : list PaperMCServer) (plugin : Plugin) : result string :=
  match sortedVersions with
  | [] => Err (ErrNew "no plugin version compatible with all matched servers")
  | pv :: rest =>
      if forallb (fun server => isPluginCompatibleWithServer pv server plugin) servers
      then Ok (pvVer pv)
      else findCompatiblePluginVersion rest servers plugin
  end.

Definition FindBestPluginVersion (now : Time) (plugin : Plugin)
    (servers : list PaperMCServer) (allVersions : list PluginVersion) : result string :=
  if (length allVersions =? 0)%nat then Err (ErrNew "no versions available")
  else if (length servers =? 0)%nat then Err (ErrNew "no servers matched by selector")
  else
    let pinnedVersion := checkPinnedPluginVersion plugin in
    if negb (pinnedVersion =? "")%string then Ok pinnedVersion
    else
      res_bind (filterAndSortPluginVersions now plugin allVersions) (fun sortedVersions =>
      findCompatiblePluginVersion sortedVersions servers plugin).

Definition isPaperVersionCompatibleWithAllPlugins (paperVer : string)
    (matchedPlugins : list Plugin) : bool :=
  forallb (fun plugin =>
    if (length (pgAvailableVersions (plgStatus plugin)) =? 0)%nat then true
    else existsb (fun pvInfo => ContainsVersion (viMinecraftVersions pvInfo) paperVer)
           (pgAvailableVersions (plgStatus plugin))) matchedPlugins.

Definition filterAndSortPaperVersions (paperVersions : list string) : list string :=
  sortPaperVersionsDesc paperVersions.

Definition FindBestPaperVersion (server : PaperMCServer) (matchedPlugins : list Plugin)
    (paperVersions : list string) : result string :=
  if (length paperVersions =? 0)%nat then Err (ErrNew "no Paper versions available")
  else
    let strategy := orLatest (ssUpdateStrategy (srvSpec server)) in
    if (strategy =? updateStrategyPin)%string || (strategy =? updateStrategyBuildPin)%string then
      if (ssVersion (srvSpec server) =? "")%string
      then Err (ErrNew ("updateStrategy is '" +:+ strategy +:+ "' but version is not set"))
      else Ok (ssVersion (srvSpec server))
    else if (strategy =? updateStrategyAuto)%string || (strategy =? updateStrategyLatest)%string then
      match List.find (fun paperVer => isPaperVersionCompatibleWithAllPlugins paperVer matchedPlugins)
              (filterAndSortPaperVersions paperVersions) with
      | Some paperVer => Ok paperVer
      | None => Err (ErrNew "no Paper version compatible with all matched plugins")
      end
    else Err (ErrNew ("invalid updateStrategy: " +:+ strategy +:+
                      " (expected 'latest', 'auto', 'pin', or 'build-pin')")).
End semver.

#[export] Instance SimpleSolver `{SV : Semver} : Solver :=
  {| Solver.FindBestPluginVersion := FindBestPluginVersion;
     Solver.FindBestPaperVersion := FindBestPaperVersion |}.
End Simple.

(** ** What the interface promises *)

(** "For all plugins there is a plugin version compatible with the Paper
    version"; a plugin without cached versions is taken as compatible. *)
Definition paperCompatible (matchedPlugins : list Plugin) (paperVer : string) : Prop :=
  forall plugin, plugin ∈ matchedPlugins ->
    pgAvailableVersions (plgStatus plugin) = [] \/
    exists i, i ∈ pgAvailableVersions (plgStatus plugin) /\ supports (viMinecraftVersions i) paperVer.

(** The version of Paper that a server runs, or is told to run. *)
Definition paperVersionOf (server : PaperMCServer) : string :=
  if decide (stCurrentVersion (srvStatus server) = "")
  then ssVersion (srvSpec server) else stCurrentVersion (srvStatus server).

(** "Compatible(plugin version, server's Paper version)". *)
Definition pluginCompatible (plugin : Plugin) (pv : PluginVersion) (server : PaperMCServer) : Prop :=
  match psCompatibilityOverride (plgSpec plugin) with
  | Some (MkCompatibilityOverride true vs) => vs = [] \/ supports vs (paperVersionOf server)
  | _ => (pvMinecraftVersions pv = [] /\ pvPaperVersions pv = []) \/
         supports (pvMinecraftVersions pv) (paperVersionOf server) \/
         supports (pvPaperVersions pv) (paperVersionOf server)
  end.

(** What the documentation (docs/architecture/solver.md, design.md) says of a release of
    a plugin and a version of Paper: an override that is enabled decides, and without
    metadata the release is taken as compatible. *)
Definition releaseCompatible (plugin : Plugin) (i : PluginVersionInfo) (paperVer : string) : Prop :=
  match psCompatibilityOverride (plgSpec plugin) with
  | Some (MkCompatibilityOverride true vs) => vs = [] \/ supports vs paperVer
  | _ => viMinecraftVersions i = [] \/ supports (viMinecraftVersions i) paperVer
  end.

Definition documentedCompatible (matchedPlugins : list Plugin) (paperVer : string) : Prop :=
  forall plugin, plugin ∈ matchedPlugins ->
    pgAvailableVersions (plgStatus plugin) = [] \/
    exists i, i ∈ pgAvailableVersions (plgStatus plugin) /\ releaseCompatible plugin i paperVer.

(** No override is enabled, and every release has its metadata. *)
Definition plainPlugin (plugin : Plugin) : Prop :=
  (~ exists vs, psCompatibilityOverride (plgSpec plugin) = Some (MkCompatibilityOverride true vs)) /\
  forall i, i ∈ pgAvailableVersions (plgStatus plugin) -> viMinecraftVersions i <> [].

(** Old enough for the plugin's update delay. *)
Definition pastDelay (now : Time) (plugin : Plugin) (pv : PluginVersion) : Prop :=
  default 0 (psUpdateDelay (plgSpec plugin)) = 0 \/
  pvReleaseDate pv <= now + wrap64 (- default 0 (psUpdateDelay (plgSpec plugin))).

(** The candidates among the versions of a plugin. *)
Definition eligible (now : Time) (plugin : Plugin) (servers : list PaperMCServer)
    (pv : PluginVersion) : Prop :=
  pastDelay now plugin pv /\ forall server, server ∈ servers -> pluginCompatible plugin pv server.

Definition isPinStrategy (s : string) : Prop := s = updateStrategyPin \/ s = updateStrategyBuildPin.
Definition isSolvedStrategy (s : string) : Prop := s = updateStrategyAuto \/ s = updateStrategyLatest.

(** The strategies under which a plugin is pinned ("pinned" is a legacy name). *)
Definition isPluginPin (s : string) : Prop :=
  s = updateStrategyPin \/ s = updateStrategyBuildPin \/ s = versionPolicyPinned.

Class SolverSpec `{SV : Semver} (S : Solver) : Prop := {
  paper_solved server plugins versions v :
    isSolvedStrategy (orLatest (ssUpdateStrategy (srvSpec server))) ->
    FindBestPaperVersion server plugins versions = Ok v ->
    v ∈ versions /\ paperCompatible plugins v /\
    forall w, w ∈ versions -> paperCompatible plugins w -> desc (fun x => x) v w;
  paper_unsolved server plugins versions e :
    isSolvedStrategy (orLatest (ssUpdateStrategy (srvSpec server))) ->
    FindBestPaperVersion server plugins versions = Err e ->
    forall w, w ∈ versions -> ~ paperCompatible plugins w;
  plugin_solved now plugin servers versions v :
    FindBestPluginVersion now plugin servers versions = Ok v ->
    (psVersion (plgSpec plugin) = v /\ v <> "" /\
     isPluginPin (psUpdateStrategy (plgSpec plugin))) \/
    exists pv, pv ∈ versions /\ pvVer pv = v /\ eligible now plugin servers pv /\
      forall pw, pw ∈ versions -> eligible now plugin servers pw -> desc pvVer pv pw;
  plugin_unsolved now plugin servers versions e :
    FindBestPluginVersion now plugin servers versions = Err e ->
    servers = [] \/ forall pw, pw ∈ versions -> ~ eligible now plugin servers pw
}.

Section simple_correct.
Context {SV : Semver} {SL : SemverLaws}.

Lemma paperCompatible_spec v plugins :
  Simple.isPaperVersionCompatibleWithAllPlugins v plugins = true <-> paperCompatible plugins v.
Proof.
  unfold Simple.isPaperVersionCompatibleWithAllPlugins, paperCompatible.
  rewrite forallb_elem. apply forall_proper; intros p.
  destruct (pgAvailableVersions (plgStatus p)) as [|i l] eqn:Hl; cbn [length Nat.eqb].
  - split; intros H Hp; [by left | done].
  - rewrite existsb_elem. setoid_rewrite ContainsVersion_spec.
    split; intros H Hp; specialize (H Hp); [by right | by destruct H].
Qed.

Lemma pluginCompatible_spec pv server plugin :
  Simple.isPluginCompatibleWithServer pv server plugin = true <-> pluginCompatible plugin pv server.
Proof.
  unfold Simple.isPluginCompatibleWithServer, pluginCompatible.
  assert ((if (stCurrentVersion (srvStatus server) =? "")%string then ssVersion (srvSpec server)
           else stCurrentVersion (srvStatus server)) = paperVersionOf server) as ->.
  { unfold paperVersionOf.
    destruct (decide _), (String.eqb_spec (stCurrentVersion (srvStatus server)) ""); done. }
  assert (Hmeta : (if (length (pvMinecraftVersions pv) =? 0)%nat &&
                      (length (pvPaperVersions pv) =? 0)%nat then true
    else ContainsVersion (pvMinecraftVersions pv) (paperVersionOf server)
         || ContainsVersion (pvPaperVersions pv) (paperVersionOf server)) = true <->
    (pvMinecraftVersions pv = [] /\ pvPaperVersions pv = []) \/
    supports (pvMinecraftVersions pv) (paperVersionOf server) \/
    supports (pvPaperVersions pv) (paperVersionOf server)).
  { rewrite <- !ContainsVersion_spec, <- orb_true_iff.
    destruct (pvMinecraftVersions pv), (pvPaperVersions pv); cbn [length Nat.eqb andb];
      naive_solver. }
  destruct (psCompatibilityOverride (plgSpec plugin)) as [[[] vs]|]; try apply Hmeta.
  cbn [coEnabled coMinecraftVersions]. rewrite <- ContainsVersion_spec.
  destruct vs; cbn [length Nat.ltb Nat.leb]; naive_solver.
Qed.

Lemma releasedBefore_spec now delay d :
  Simple.releasedBefore now delay d = true <-> d <= now + wrap64 (- delay).
Proof. unfold Simple.releasedBefore, Before, TimeEqual, Add. lia. Qed.

Lemma filterByDelay_spec now plugin versions pv :
  pv ∈ Simple.filterByDelay now versions (default 0 (psUpdateDelay (plgSpec plugin))) <->
  pv ∈ versions /\ pastDelay now plugin pv.
Proof.
  unfold Simple.filterByDelay, pastDelay.
  destruct (Z.eqb_spec (default 0 (psUpdateDelay (plgSpec plugin))) 0) as [->|Hd].
  - naive_solver.
  - rewrite !list_elem_of_In, List.filter_In, releasedBefore_spec. naive_solver.
Qed.

Lemma findCompatible_find l servers plugin :
  Simple.findCompatiblePluginVersion l servers plugin =
  match List.find (fun pv => forallb (fun s => Simple.isPluginCompatibleWithServer pv s plugin) servers) l with
  | Some pv => Ok (pvVer pv)
  | None => Err (ErrNew "no plugin version compatible with all matched servers")
  end.
Proof. induction l as [|pv l IH]; simpl; [done|]. by destruct (forallb _ _). Qed.

Lemma forallb_compatible servers plugin pv :
  forallb (fun s => Simple.isPluginCompatibleWithServer pv s plugin) servers = true <->
  forall server, server ∈ servers -> pluginCompatible plugin pv server.
Proof. rewrite forallb_elem. by setoid_rewrite pluginCompatible_spec. Qed.

Lemma checkPinned_spec plugin v :
  Simple.checkPinnedPluginVersion plugin = v -> v <> "" ->
  psVersion (plgSpec plugin) = v /\ isPluginPin (psUpdateStrategy (plgSpec plugin)).
Proof.
  unfold Simple.checkPinnedPluginVersion, orLatest, isPluginPin. intros H Hne.
  destruct (String.eqb_spec (psUpdateStrategy (plgSpec plugin)) ""); [simpl in H; congruence|].
  destruct (String.eqb_spec (psUpdateStrategy (plgSpec plugin)) updateStrategyPin),
    (String.eqb_spec (psUpdateStrategy (plgSpec plugin)) updateStrategyBuildPin),
    (String.eqb_spec (psUpdateStrategy (plgSpec plugin)) versionPolicyPinned);
    cbn [orb] in H; repeat case_match; try congruence; tauto.
Qed.
End simple_correct.

(** ** The linear search implements the interface *)

Section instance.
Context {SV : Semver} {SL : SemverLaws}.

Lemma paper_search server plugins versions :
  isSolvedStrategy (orLatest (ssUpdateStrategy (srvSpec server))) ->
  versions <> [] ->
  Simple.FindBestPaperVersion server plugins versions =
  match List.find (fun v => Simple.isPaperVersionCompatibleWithAllPlugins v plugins)
          (exchangeSort (fun x => x) versions) with
  | Some v => Ok v
  | None => Err (ErrNew "no Paper version compatible with all matched plugins")
  end.
Proof.
  intros Hs Hne. unfold Simple.FindBestPaperVersion.
  destruct versions as [|w ws]; [done|]. cbn [length Nat.eqb].
  by destruct Hs as [-> | ->].
Qed.

Lemma plugin_search now plugin servers versions :
  versions <> [] -> servers <> [] -> Simple.checkPinnedPluginVersion plugin = "" ->
  match Simple.FindBestPluginVersion now plugin servers versions with
  | Ok v => exists pv, pv ∈ versions /\ pvVer pv = v /\ eligible now plugin servers pv /\
      forall pw, pw ∈ versions -> eligible now plugin servers pw -> desc pvVer pv pw
  | Err _ => forall pw, pw ∈ versions -> ~ eligible now plugin servers pw
  end.
Proof.
  intros Hv Hs Hp. unfold Simple.FindBestPluginVersion. rewrite Hp.
  destruct versions as [|x xs] eqn:Ex; [done|]. rewrite <- Ex in *. clear Ex.
  replace (length versions =? 0)%nat with false by by destruct versions.
  replace (length servers =? 0)%nat with false by by destruct servers.
  cbn [String.eqb negb]. unfold Simple.filterAndSortPluginVersions.
  pose proof (filterByDelay_spec now plugin versions) as Hf.
  destruct (Simple.filterByDelay now versions _) as [|y ys] eqn:Ef.
  - cbn. intros pw Hpw [Hd _]. specialize (Hf pw). set_solver.
  - cbn [length Nat.eqb]. unfold res_bind, Simple.sortVersionsDesc. rewrite <- Ef in *.
    rewrite findCompatible_find. clear Ef y ys.
    destruct (List.find _ _) as [pv|] eqn:E.
    + pose proof (find_exchangeSort_max _ _ _ _ E) as (Hin & Hc & Hmax).
      apply Hf in Hin as [Hin Hd]. exists pv. split_and!; try done.
      * split; [done|]. by apply forallb_compatible.
      * intros pw Hpw [Hd' Hc']. apply Hmax; [by apply Hf | by apply forallb_compatible].
    + intros pw Hpw [Hd Hc].
      rewrite find_exchangeSort_none in E. specialize (E pw).
      apply forallb_compatible in Hc. rewrite E in Hc; [done|]. by apply Hf.
Qed.

#[global] Instance SimpleSolver_spec : SolverSpec Simple.SimpleSolver.
Proof.
  split; simpl.
  - intros server plugins versions v Hs H.
    destruct (decide (versions = [])) as [->|Hne]; [by unfold Simple.FindBestPaperVersion in H|].
    rewrite paper_search in H by done. case_match eqn:E; simplify_eq.
    pose proof (find_exchangeSort_max _ _ _ _ E) as (Hin & Hc & Hmax).
    rewrite paperCompatible_spec in Hc. split_and!; try done.
    intros w Hw Hcw. apply Hmax; [done|]. by rewrite paperCompatible_spec.
  - intros server plugins versions e Hs H w Hw Hc.
    rewrite paper_search in H by (done || (intros ->; set_solver)).
    case_match eqn:E; simplify_eq. rewrite find_exchangeSort_none in E.
    apply E in Hw. rewrite <- paperCompatible_spec in Hc. congruence.
  - intros now plugin servers versions v H.
    destruct (decide (versions = [])) as [->|Hv]; [done|].
    destruct (decide (servers = [])) as [->|Hs];
      [by unfold Simple.FindBestPluginVersion in H; destruct (length versions =? 0)%nat|].
    destruct (decide (Simple.checkPinnedPluginVersion plugin = "")) as [Hp|Hp].
    + right. pose proof (plugin_search now plugin servers versions Hv Hs Hp) as Hsp.
      by rewrite H in Hsp.
    + left. unfold Simple.FindBestPluginVersion in H.
      destruct versions, servers; try done. cbn [length Nat.eqb] in H.
      rewrite (proj2 (String.eqb_neq _ _) Hp) in H. simpl in H. injection H as Hpv.
      destruct (checkPinned_spec plugin v Hpv) as (? & ?); [congruence|].
      split_and!; try done. congruence.
  - intros now plugin servers versions e H.
    destruct (decide (versions = [])) as [->|Hv]; [right; set_solver|].
    destruct (decide (servers = [])) as [->|Hs]; [by left|]. right.
    destruct (decide (Simple.checkPinnedPluginVersion plugin = "")) as [Hp|Hp].
    + pose proof (plugin_search now plugin servers versions Hv Hs Hp) as Hsp.
      by rewrite H in Hsp.
    + unfold Simple.FindBestPluginVersion in H.
      destruct versions, servers; try done. cbn [length Nat.eqb] in H.
      by rewrite (proj2 (String.eqb_neq _ _) Hp) in H.
Qed.
End instance.

(** ** Properties *)

Section theorems.
Context {SV : Semver} {SL : SemverLaws}.

(** The Paper version that the solver answers, on every branch, by its own notion of
    compatibility ([paperCompatible]). *)
Lemma FindBestPaperVersion_spec server plugins versions :
  versions <> [] ->
  let s := orLatest (ssUpdateStrategy (srvSpec server)) in
  match Simple.FindBestPaperVersion server plugins versions with
  | Ok v => (isPinStrategy s /\ v = ssVersion (srvSpec server) /\ v <> "") \/
      (isSolvedStrategy s /\ v ∈ versions /\ paperCompatible plugins v /\
       forall w, w ∈ versions -> paperCompatible plugins w -> desc (fun x => x) v w)
  | Err _ => (isPinStrategy s /\ ssVersion (srvSpec server) = "") \/
      (isSolvedStrategy s /\ forall w, w ∈ versions -> ~ paperCompatible plugins w) \/
      (~ isPinStrategy s /\ ~ isSolvedStrategy s)
  end.
Proof.
  intros Hne s.
  destruct (decide (s = updateStrategyAuto \/ s = updateStrategyLatest)) as [Hs|Hs].
  - destruct (Simple.FindBestPaperVersion server plugins versions) as [v|e] eqn:E.
    + right. split; [done|]. by apply (paper_solved (S := Simple.SimpleSolver) server).
    + right. left. split; [done|]. by apply (paper_unsolved (S := Simple.SimpleSolver) server plugins versions e).
  - unfold Simple.FindBestPaperVersion. fold s. destruct versions; [done|]. cbn [length Nat.eqb].
    unfold isPinStrategy, isSolvedStrategy.
    destruct (String.eqb_spec s updateStrategyPin), (String.eqb_spec s updateStrategyBuildPin),
      (String.eqb_spec s updateStrategyAuto), (String.eqb_spec s updateStrategyLatest);
      cbn [orb]; try (exfalso; tauto);
      destruct (String.eqb_spec (ssVersion (srvSpec server)) ""); tauto.
Qed.

(** On plain plugins the solver's notion is the documented one. *)
Lemma paperCompatible_documented plugins v :
  Forall plainPlugin plugins -> paperCompatible plugins v <-> documentedCompatible plugins v.
Proof.
  rewrite Forall_forall. intros Hp. unfold paperCompatible, documentedCompatible. apply forall_proper. intros p.
  apply forall_proper. intros Hin. destruct (Hp p Hin) as [Ho Hm].
  assert (He : forall i, i ∈ pgAvailableVersions (plgStatus p) -> supports (viMinecraftVersions i) v <-> releaseCompatible p i v).
  { intros i Hi. unfold releaseCompatible. pose proof (Hm i Hi) as Hne.
    destruct (psCompatibilityOverride (plgSpec p)) as [[[|] vs]|]; [by destruct Ho; exists vs | tauto..]. }
  split; (intros [?|(i & Hi & Hs)]; [by left|]; right; exists i; split; [done | by apply He]).
Qed.



(** The two nested loops of [sortVersionsDesc] return a permutation of the
    list in which every parsable element comes before the parsable elements of
    lower precedence, and they compute the same list as the structural
    reference [refSort]. *)
Theorem sortVersionsDesc_correct l :
  Simple.sortVersionsDesc l ≡ₚ l /\
  StronglySorted (desc pvVer) (Simple.sortVersionsDesc l) /\
  Simple.sortVersionsDesc l = refSort pvVer (length l) l.
Proof.
  unfold Simple.sortVersionsDesc. split_and!.
  - symmetry. apply exchangeSort_perm.
  - exact (exchangeSort_desc pvVer l).
  - rewrite exchangeSort_ref. clear SL.
    destruct l as [|x l]; [done|]. cbn [length]. rewrite Nat.sub_1_r. cbn [Nat.pred].
    remember (length l) as n eqn:Hn. revert x l Hn.
    induction n as [|n IH]; intros x l Hn; [by destruct l|].
    destruct l as [|y l]; [done|]. change (refSort pvVer (S (S n)) (x :: y :: l))
      with (let '(m, r) := bubble pvVer x (y :: l) in m :: refSort pvVer (S n) r).
    change (refSort pvVer (S n) (x :: y :: l))
      with (let '(m, r) := bubble pvVer x (y :: l) in m :: refSort pvVer n r).
    pose proof (bubble_length pvVer x (y :: l)) as Hb.
    destruct (bubble pvVer x (y :: l)) as [m [|z r]]; [done|]. simpl in Hb, Hn.
    f_equal. apply IH. lia.
Qed.
End theorems.

Section witnesses.
Existing Instance Dotted.semver.
Existing Instance Dotted.semver_laws.

(** A plugin whose only version supports 1.20.x and 1.21.4. *)
Definition samplePlugin : Plugin :=
  zeroPlugin <| plgStatus := zeroPluginStatus <| pgAvailableVersions :=
    [MkPluginVersionInfo "2.0" ["1.20.x"; "1.21.4"] "" "" 0 0] |> |>.

Definition samplePV (v : string) (mc : list string) : PluginVersion :=
  MkPluginVersion v 0 [] mc "" "".

Definition sampleServer : PaperMCServer :=
  zeroPaperMCServer <| srvSpec := zeroPaperMCServerSpec <| ssVersion := "1.21.4" |> |>.


(** An override that allows a version does not help: the solver refuses every version,
    although the documentation has the override decide. *)
Definition overriddenPlugin : Plugin :=
  samplePlugin <| plgSpec := zeroPluginSpec <| psCompatibilityOverride := Some (MkCompatibilityOverride true ["1.21.10"]) |> |>.

Lemma override_ignored :
  documentedCompatible [overriddenPlugin] "1.21.10" /\
  Simple.FindBestPaperVersion sampleServer [overriddenPlugin] ["1.21.10"] =
    Err (ErrNew "no Paper version compatible with all matched plugins").
Proof.
  split; [|vm_compute; reflexivity]. intros p Hp. apply list_elem_of_singleton in Hp. subst p. right.
  eexists. split; [by left|]. right. by apply ContainsVersion_spec; vm_compute.
Qed.

(** A release without metadata is refused with every version, although the documentation
    says that it is taken as compatible. *)
Definition metadataFree : Plugin :=
  zeroPlugin <| plgStatus := zeroPluginStatus <| pgAvailableVersions := [MkPluginVersionInfo "2.0" [] "" "" 0 0] |> |>.

Lemma metadata_free_refused v :
  documentedCompatible [metadataFree] v /\ ~ paperCompatible [metadataFree] v.
Proof.
  split.
  - intros p Hp. apply list_elem_of_singleton in Hp. subst p. right. eexists. split; [by left|]. by left.
  - intros H. destruct (H metadataFree) as [H2|(i & Hi & Hs)]; [by left | discriminate H2|].
    apply list_elem_of_singleton in Hi. subst i. apply ContainsVersion_spec in Hs. discriminate Hs.
Qed.


Lemma sortVersionsDesc_correct_witness :
  let l := [samplePV "1.0" []; samplePV "nightly" []; samplePV "1.10" []; samplePV "1.9" []] in
  Simple.sortVersionsDesc l =
    [samplePV "1.10" []; samplePV "nightly" []; samplePV "1.9" []; samplePV "1.0" []] /\
  Simple.sortVersionsDesc l ≡ₚ l /\
  StronglySorted (desc pvVer) (Simple.sortVersionsDesc l) /\
  Simple.sortVersionsDesc l = refSort pvVer (length l) l.
Proof.
  split; [vm_compute; reflexivity|].
  exact (sortVersionsDesc_correct
    [samplePV "1.0" []; samplePV "nightly" []; samplePV "1.10" []; samplePV "1.9" []]).
Defined.
End witnesses.
