(* ===== verification/Effects.v ===== *)
(** * Effectful handlers as programs over requests

    A controller is a program that issues requests to its environment (the
    Kubernetes API server, the clock, a registry, a pod) and continues with the
    answers.  [prog] is the type of such programs, [runs p tr a] says that [p] can
    answer [a] when the environment gives the answers recorded in the trace [tr]
    (every answer is allowed), [exec env p] runs [p] against a concrete
    environment, and [wp] is the weakest precondition used to prove facts about
    all runs. *)

From S2P Require Import Prelude GoBase.

Class Effect := { req : Type; ans : req -> Type }.

Section prog.
Context {E : Effect}.

(** A request with its answer. *)
Definition event : Type := { r : req & ans r }.
Definition Ev (r : req) (y : ans r) : event := existT r y.

Inductive prog (A : Type) : Type :=
  | Ret (a : A)
  | Call (r : req) (k : ans r -> prog A).
Arguments Ret {A} _.
Arguments Call {A} _ _.

Definition call (r : req) : prog (ans r) := Call r (fun y => Ret y).

Fixpoint bind {A B} (p : prog A) (f : A -> prog B) : prog B :=
  match p with
  | Ret a => f a
  | Call r k => Call r (fun y => bind (k y) f)
  end.

Fixpoint runs {A} (p : prog A) (tr : list event) (a : A) : Prop :=
  match p with
  | Ret x => tr = [] /\ a = x
  | Call r k => exists (y : ans r) tr', tr = Ev r y :: tr' /\ runs (k y) tr' a
  end.

(** Run against an environment that answers from the history of the run. *)
Fixpoint exec {A} (env : list event -> forall r, ans r) (p : prog A) (h : list event)
  : list event * A :=
  match p with
  | Ret a => ([], a)
  | Call r k =>
      let y := env h r in
      let '(tr, a) := exec env (k y) (h ++ [Ev r y]) in (Ev r y :: tr, a)
  end.

Lemma exec_runs {A} env (p : prog A) h : runs p (exec env p h).1 (exec env p h).2.
Proof.
  revert h; induction p as [a|r k IH]; intros h; simpl; [done|].
  specialize (IH (env h r) (h ++ [Ev r (env h r)])).
  destruct (exec env (k (env h r)) _) as [tr a]. simpl in *. eauto.
Qed.

(** Every answer of the trace is the environment's. *)
Lemma exec_answers {A} env (p : prog A) h e :
  e ∈ (exec env p h).1 -> exists h', projT2 e = env h' (projT1 e).
Proof.
  revert h; induction p as [a|r k IH]; intros h; simpl; [by intros ?%not_elem_of_nil|].
  specialize (IH (env h r) (h ++ [Ev r (env h r)])).
  destruct (exec env (k (env h r)) _) as [tr a]. simpl in *.
  intros [->|Hin]%elem_of_cons; [by exists h | by apply IH].
Qed.

(** Run against an environment with a state. *)
Fixpoint execS {S A} (handle : S -> forall r, S * ans r) (s : S) (p : prog A) : S * list event * A :=
  match p with
  | Ret a => (s, [], a)
  | Call r k =>
      let '(s, y) := handle s r in
      let '(s, tr, a) := execS handle s (k y) in (s, Ev r y :: tr, a)
  end.

Lemma execS_runs {S A} handle (s : S) (p : prog A) : runs p (execS handle s p).1.2 (execS handle s p).2.
Proof.
  revert s; induction p as [a|r k IH]; intros s; simpl; [done|].
  destruct (handle s r) as [s' y]. specialize (IH y s').
  destruct (execS handle s' (k y)) as [[s'' tr] a]. simpl in *. eauto.
Qed.

Lemma execS_bind {S A B} handle (s : S) (p : prog A) (f : A -> prog B) :
  execS handle s (bind p f) =
  let '(s, tr, a) := execS handle s p in
  let '(s, tr', b) := execS handle s (f a) in (s, tr ++ tr', b).
Proof.
  revert s; induction p as [a|r k IH]; intros s; simpl; [by destruct (execS handle s (f a)) as [[? ?] ?]|].
  destruct (handle s r) as [s' y]. rewrite IH. destruct (execS handle s' (k y)) as [[s1 t1] a].
  by destruct (execS handle s1 (f a)) as [[s2 t2] b].
Qed.

Lemma runs_bind {A B} (p : prog A) (f : A -> prog B) tr b :
  runs (bind p f) tr b <->
  exists tr1 a tr2, tr = tr1 ++ tr2 /\ runs p tr1 a /\ runs (f a) tr2 b.
Proof.
  revert tr; induction p as [x|r k IH]; intros tr; simpl.
  - split.
    + intros H. exists [], x, tr. done.
    + intros (? & ? & ? & -> & [-> ->] & ?). done.
  - split.
    + intros (y & tr' & -> & H). apply IH in H as (tr1 & a & tr2 & -> & H1 & H2).
      exists (Ev r y :: tr1), a, tr2. split_and!; [done | by exists y, tr1 | done].
    + intros (tr1 & a & tr2 & -> & (y & tr' & -> & H1) & H2).
      exists y, (tr' ++ tr2). split; [done|]. apply IH. by exists tr', a, tr2.
Qed.

(** [wp p Q h]: started after the history [h], every run of [p] ends with a
    history and an answer that satisfy [Q]. *)
Fixpoint wp {A} (p : prog A) (Q : list event -> A -> Prop) (h : list event) : Prop :=
  match p with
  | Ret a => Q h a
  | Call r k => forall y, wp (k y) Q (h ++ [Ev r y])
  end.

Lemma wp_runs {A} (p : prog A) Q h :
  wp p Q h <-> forall tr a, runs p tr a -> Q (h ++ tr) a.
Proof.
  revert h; induction p as [x|r k IH]; intros h; simpl.
  - split.
    + intros H tr a [-> ->]. by rewrite app_nil_r.
    + intros H. specialize (H [] x). rewrite app_nil_r in H. by apply H.
  - split.
    + intros H tr a (y & tr' & -> & Hr). specialize (H y). rewrite IH in H.
      specialize (H tr' a Hr). by rewrite <- app_assoc in H.
    + intros H y. apply IH. intros tr a Hr. rewrite <- app_assoc. apply H. eauto.
Qed.

Lemma wp_bind {A B} (p : prog A) (f : A -> prog B) Q h :
  wp (bind p f) Q h <-> wp p (fun h' a => wp (f a) Q h') h.
Proof.
  revert h; induction p as [x|r k IH]; intros h; simpl; [done|].
  by apply forall_proper; intros y.
Qed.

Lemma wp_mono {A} (p : prog A) (Q Q' : list event -> A -> Prop) h :
  (forall h' a, Q h' a -> Q' h' a) -> wp p Q h -> wp p Q' h.
Proof.
  intros HQ. revert h; induction p as [x|r k IH]; intros h; simpl; [by apply HQ|].
  intros H y. by apply IH.
Qed.

(** The run extends the history. *)
Lemma wp_extends {A} (p : prog A) (Q : list event -> A -> Prop) h :
  wp p Q h -> wp p (fun h' a => (exists tr, h' = h ++ tr /\ runs p tr a) /\ Q h' a) h.
Proof.
  rewrite !wp_runs. intros H tr a Hr. split; [by exists tr | by apply H].
Qed.

(** A property [C] of histories that holds of their prefixes may be assumed. *)
Lemma wp_assume {A} (C : list event -> Prop) (p : prog A) (Q : list event -> A -> Prop) h :
  (forall h t, C (h ++ t) -> C h) ->
  (C h -> wp p (fun h' a => C h' -> Q h' a) h) -> wp p (fun h' a => C h' -> Q h' a) h.
Proof.
  intros HC H. apply wp_runs. intros tr a Hr Hc.
  by apply (proj1 (wp_runs p _ h) (H (HC _ _ Hc)) tr a Hr).
Qed.

Lemma wp_true {A} (p : prog A) h : wp p (fun _ _ => True) h.
Proof. rewrite wp_runs. done. Qed.

Lemma wp_conj {A} (p : prog A) (Q Q' : list event -> A -> Prop) h :
  wp p Q h -> wp p Q' h -> wp p (fun h' a => Q h' a /\ Q' h' a) h.
Proof. rewrite !wp_runs. eauto. Qed.

(** Every program has a run. *)
Lemma runs_total {A} (p : prog A) (env : forall r, ans r) : exists tr a, runs p tr a.
Proof. eexists _, _. apply (exec_runs (fun _ => env) p []). Qed.

(** No run of the program issues a request in [P]. *)
Fixpoint avoids {A} (P : req -> bool) (p : prog A) : Prop :=
  match p with
  | Ret _ => True
  | Call r k => P r = false /\ forall y, avoids P (k y)
  end.

Lemma avoids_bind {A B} P (p : prog A) (f : A -> prog B) :
  avoids P p -> (forall a, avoids P (f a)) -> avoids P (bind p f).
Proof. induction p as [a|r k IH]; cbn; [auto|]. intros [? ?] ?. split; auto. Qed.

Lemma avoids_runs {A} P (p : prog A) tr a :
  avoids P p -> runs p tr a -> Forall (fun e : event => P (projT1 e) = false) tr.
Proof.
  revert tr; induction p as [x|r k IH]; cbn; intros tr.
  - intros _ [-> _]. constructor.
  - intros [Hr Hk] (y & tr' & -> & Hrun). constructor; [done|]. by eapply IH.
Qed.

(** Every request of [tr] in [P] is made only once the history before it
    satisfies [C]. *)
Definition guarded (P : req -> bool) (C : list event -> Prop) (tr : list event) : Prop :=
  forall a e b, tr = a ++ e :: b -> P (projT1 e) = true -> C a.

Definition monotone (C : list event -> Prop) : Prop := forall h t, C h -> C (h ++ t).

Lemma guarded_quiet P C h t :
  guarded P C h -> Forall (fun e : event => P (projT1 e) = false) t -> guarded P C (h ++ t).
Proof.
  intros Hh Ht a e b Heq He. symmetry in Heq.
  apply app_split_elem in Heq as [(b' & -> & _)|(a' & -> & ->)]; [by eapply Hh|].
  apply Forall_app in Ht as [_ Ht]. inversion Ht; subst. congruence.
Qed.

Lemma guarded_open P C h t : monotone C -> guarded P C h -> C h -> guarded P C (h ++ t).
Proof.
  intros Hm Hh Hc a e b Heq He. symmetry in Heq.
  apply app_split_elem in Heq as [(b' & -> & _)|(a' & -> & _)]; [by eapply Hh | by apply Hm].
Qed.

(** A program without requests in [P] keeps the guard. *)
Lemma wp_guard_avoids {A} P C (p : prog A) h :
  avoids P p -> guarded P C h -> wp p (fun h' _ => guarded P C h') h.
Proof.
  rewrite wp_runs. intros Ha Hh tr a Hr. apply guarded_quiet; [done|]. by eapply avoids_runs.
Qed.

(** Once [C] holds everything may be done. *)
Lemma wp_guard_open {A} P C (p : prog A) h :
  monotone C -> guarded P C h -> C h -> wp p (fun h' _ => guarded P C h' /\ C h') h.
Proof.
  rewrite wp_runs. intros Hm Hh Hc tr a Hr. split; [by apply guarded_open | by apply Hm].
Qed.

(** The guarded requests come after a prefix that has none. *)
Lemma guarded_prefix P (C : list event -> Prop) h t :
  Forall (fun e : event => P (projT1 e) = false) h -> guarded P C (h ++ t) ->
  guarded P (fun a => (exists t', a = h ++ t') /\ C a) (h ++ t).
Proof.
  intros Hq Hg a e b Heq He. split; [|by eapply Hg]. symmetry in Heq.
  apply app_split_elem in Heq as [(b' & -> & _)|(a' & -> & _)]; [|by exists a'].
  apply Forall_app in Hq as [_ Hq]. inversion Hq; subst. congruence.
Qed.

Lemma guarded_mono P (C C' : list event -> Prop) h :
  (forall h, C h -> C' h) -> guarded P C h -> guarded P C' h.
Proof. intros H Hg a e b Heq He. by eapply H, Hg. Qed.

Lemma avoids_weaken {A} (P P' : req -> bool) (p : prog A) :
  (forall r, P' r = true -> P r = true) -> avoids P p -> avoids P' p.
Proof.
  intros H. induction p as [a|r k IH]; cbn; [done|]. intros [Hr Hk]. split; [|auto].
  destruct (P' r) eqn:EP; [|done]. rewrite (H r EP) in Hr. done.
Qed.

(** Bind on a Go result: the error is returned at once. *)
Definition bind_ok {A B} (p : prog (result A)) (f : A -> prog (result B)) : prog (result B) :=
  bind p (fun x => match x with Ok a => f a | Err e => Ret (Err e) end).

(** A loop over the elements of a list that threads a state. *)
Fixpoint foldP {A S} (f : S -> A -> prog S) (s : S) (l : list A) : prog S :=
  match l with
  | [] => Ret s
  | x :: l => bind (f s x) (fun s' => foldP f s' l)
  end.

Lemma avoids_foldP {A S} P (f : S -> A -> prog S) :
  (forall s x, avoids P (f s x)) -> forall l s, avoids P (foldP f s l).
Proof. intros Hf l. induction l as [|x l IH]; intros s; cbn [foldP]; [done | by apply avoids_bind]. Qed.

(** Loop rule: [I] holds of the state, the elements still to visit and the
    history. *)
Lemma wp_foldP {A S} (f : S -> A -> prog S) (I : list A -> S -> list event -> Prop) s l h :
  (forall x l' s' h', I (x :: l') s' h' -> wp (f s' x) (fun h'' s'' => I l' s'' h'') h') ->
  I l s h -> wp (foldP f s l) (fun h' s' => I [] s' h') h.
Proof.
  intros Hf. revert s h; induction l as [|x l IH]; intros s h Hi; simpl; [done|].
  apply wp_bind. eapply wp_mono; [|by apply Hf]. intros h' s' Hi'. by apply IH.
Qed.
End prog.

Arguments Ret {E A} _.
Arguments Call {E A} _ _.

Notation "x <- p ;; q" := (bind p (fun x => q))
  (at level 100, p at next level, right associativity) : mc_scope.
Notation "x <-? p ;; q" := (bind_ok p (fun x => q))
  (at level 100, p at next level, right associativity) : mc_scope.
Notation "p ;;; q" := (bind p (fun _ => q)) (at level 100, right associativity) : mc_scope.

(** [wp_step] performs one symbolic step of the program in a [wp] goal. *)
Ltac wp_step :=
  match goal with
  | |- wp (bind _ _) _ _ => apply wp_bind
  | |- wp (bind_ok _ _) _ _ => unfold bind_ok at 1; apply wp_bind
  | |- wp (Ret _) _ _ => cbn [wp]
  | |- wp (call _) _ _ => cbn [wp call]; intros ?
  | |- wp (Call _ _) _ _ => cbn [wp]; intros ?
  | |- wp (match ?x with _ => _ end) _ _ =>
      lazymatch x with
      | context [match _ with _ => _ end] => fail
      | _ => let Eq := fresh "Hc" in destruct x eqn:Eq
      end
  | |- wp (if ?x then _ else _) _ _ => let Eq := fresh "Hc" in destruct x eqn:Eq
  | |- wp (let '(_, _) := ?x in _) _ _ => let Eq := fresh "Hc" in destruct x eqn:Eq
  end.

(** [avoids_tac] proves [avoids] goals of straight-line code. *)
Ltac avoids_tac :=
  repeat first
    [ progress cbn [avoids bind call bind_ok]
    | match goal with
      | |- True => exact I
      | |- _ /\ _ => split
      | |- _ = false => reflexivity
      | |- forall _, _ => intros ?
      | H : avoids ?P ?p |- avoids ?P ?p => exact H
      | |- avoids _ (bind _ _) => apply avoids_bind
      | |- avoids _ (let '(_, _) := ?x in _) => destruct x
      | |- avoids _ (match ?x with _ => _ end) => destruct x
      end ].
