(* ===== verification/Conditions.v ===== *)
(** * Status conditions

    [k8s.io/apimachinery/pkg/api/meta] keeps a list of conditions with at most
    one per type; its code is not part of the repository.  [MetaConditions] is
    what the source calls and [MetaConditionsLaws] its documented behaviour;
    [ListConditions] is a concrete instance for the evaluated examples. *)

From S2P Require Import Prelude GoBase Api.

Definition ConditionTrue : string := "True".
Definition ConditionFalse : string := "False".
Definition ConditionUnknown : string := "Unknown".

Class MetaConditions := {
  (** the time is what the package reads from the clock when the new condition
      has no transition time *)
  SetStatusCondition : Time -> list Condition -> Condition -> list Condition;
  RemoveStatusCondition : list Condition -> string -> list Condition;
  FindStatusCondition : list Condition -> string -> option Condition
}.

(** [c'] is [c] up to its transition time. *)
Definition sameCondition (c c' : Condition) : Prop :=
  cdType c' = cdType c /\ cdStatus c' = cdStatus c /\ cdReason c' = cdReason c /\
  cdMessage c' = cdMessage c /\ cdObservedGeneration c' = cdObservedGeneration c.

Class MetaConditionsLaws {MC : MetaConditions} : Prop := {
  Find_Set_eq now cs c : exists c',
    FindStatusCondition (SetStatusCondition now cs c) (cdType c) = Some c' /\ sameCondition c c';
  Find_Set_ne now cs c t : t <> cdType c ->
    FindStatusCondition (SetStatusCondition now cs c) t = FindStatusCondition cs t;
  Find_Remove_eq cs t : FindStatusCondition (RemoveStatusCondition cs t) t = None;
  Find_Remove_ne cs t u : u <> t ->
    FindStatusCondition (RemoveStatusCondition cs t) u = FindStatusCondition cs u
}.

(** The status of a condition, if it is set. *)
Definition conditionStatus {MC : MetaConditions} (cs : list Condition) (t : string) : option string :=
  cdStatus <$> FindStatusCondition cs t.

Lemma conditionStatus_set {MC : MetaConditions} {ML : MetaConditionsLaws} now cs c :
  conditionStatus (SetStatusCondition now cs c) (cdType c) = Some (cdStatus c).
Proof.
  unfold conditionStatus. destruct (Find_Set_eq now cs c) as (c' & -> & _ & Hs & _). simpl.
  by rewrite Hs.
Qed.

Lemma conditionStatus_set_ne {MC : MetaConditions} {ML : MetaConditionsLaws} now cs c t :
  t <> cdType c ->
  conditionStatus (SetStatusCondition now cs c) t = conditionStatus cs t.
Proof. intros H. unfold conditionStatus. by rewrite Find_Set_ne. Qed.

(** ** A concrete instance *)

Module ListConditions.
Fixpoint find (cs : list Condition) (t : string) : option Condition :=
  match cs with
  | [] => None
  | c :: cs => if (cdType c =? t)%string then Some c else find cs t
  end.

Definition withTime (now : Time) (c : Condition) : Condition :=
  if IsZero (cdLastTransitionTime c) then c <| cdLastTransitionTime := now |> else c.

Fixpoint set (now : Time) (cs : list Condition) (c : Condition) : list Condition :=
  match cs with
  | [] => [withTime now c]
  | d :: cs =>
      if (cdType d =? cdType c)%string then
        (if (cdStatus d =? cdStatus c)%string
         then c <| cdLastTransitionTime := cdLastTransitionTime d |> else withTime now c) :: cs
      else d :: set now cs c
  end.

Definition remove (cs : list Condition) (t : string) : list Condition :=
  List.filter (fun c => negb (cdType c =? t)%string) cs.

#[global] Instance conditions : MetaConditions :=
  {| SetStatusCondition := set; RemoveStatusCondition := remove; FindStatusCondition := find |}.

Lemma withTime_same now c : sameCondition c (withTime now c).
Proof. unfold withTime, sameCondition. by destruct (IsZero _). Qed.

#[global] Instance conditions_laws : MetaConditionsLaws.
Proof.
  split; simpl.
  - intros now cs c. induction cs as [|d cs IH]; simpl.
    + exists (withTime now c). destruct (withTime_same now c) as [Ht ?].
      rewrite Ht, String.eqb_refl. done.
    + destruct (cdType d =? cdType c)%string eqn:E; simpl; [|by rewrite E].
      destruct (cdStatus d =? cdStatus c)%string; simpl_upd; [|].
      * rewrite String.eqb_refl. by eexists.
      * exists (withTime now c). destruct (withTime_same now c) as [Ht ?].
        rewrite Ht, String.eqb_refl. done.
  - intros now cs c t Hne. induction cs as [|d cs IH]; simpl.
    + destruct (withTime_same now c) as [Ht ?]. rewrite Ht.
      by rewrite (proj2 (String.eqb_neq _ _)) by congruence.
    + destruct (cdType d =? cdType c)%string eqn:E; simpl; [|by rewrite IH].
      apply String.eqb_eq in E. rewrite E.
      rewrite (proj2 (String.eqb_neq (cdType c) t)) by congruence.
      destruct (cdStatus d =? cdStatus c)%string; simpl_upd.
      * by rewrite (proj2 (String.eqb_neq (cdType c) t)) by congruence.
      * destruct (withTime_same now c) as [Ht ?]. rewrite Ht.
        by rewrite (proj2 (String.eqb_neq (cdType c) t)) by congruence.
  - intros cs t. unfold remove. induction cs as [|d cs IH]; simpl; [done|].
    destruct (cdType d =? t)%string eqn:E; simpl; [done|]. by rewrite E.
  - intros cs t u Hne. unfold remove. induction cs as [|d cs IH]; simpl; [done|].
    destruct (cdType d =? t)%string eqn:E; simpl.
    + rewrite IH. apply String.eqb_eq in E. rewrite E.
      by rewrite (proj2 (String.eqb_neq t u)) by congruence.
    + destruct (cdType d =? u)%string; done.
Qed.
End ListConditions.
