(* ===== verification/K8s.v ===== *)
(** * The requests of the controllers

    What the reconcilers ask of the world outside the repository's code: the
    clock and the context, the Kubernetes API server (one request per verb and
    kind), commands in a pod, RCON connections (package gorcon), the container
    registry and the Paper API (the interfaces [RegistryAPI] and [PaperAPI]), the
    cron scheduler and mutexes.  Every answer is allowed; an error is a value. *)

From S2P Require Import Prelude GoBase Api Objects Plugins Effects.

Open Scope Z_scope.

(** ** Kubernetes objects that are only read or deleted *)

Record Pod := MkPod {
  podIP : string;
  podConditions : list (string * string)  (* type, status *)
}.

Record VolumeSnapshot := MkVolumeSnapshot {
  vsMeta : ObjectMeta;
  vsGenerateName : string;
  vsOwners : list string;
  vsPVCName : string;
  vsClassName : option string
}.
#[export] Instance eta_VolumeSnapshot : Eta VolumeSnapshot := fun r =>
  MkVolumeSnapshot (vsMeta r) (vsGenerateName r) (vsOwners r) (vsPVCName r) (vsClassName r).

(** [paper.BuildInfo] *)
Record BuildInfo := MkBuildInfo { biVersion : string; biBuild : Z; biDownloadURL : string; biSHA256 : string }.

(** The answer to an HTTP GET: the status code, the announced length (-1 if there is
    none) and what reading the body gives. *)
Record HTTPResponse := MkHTTPResponse {
  htStatusCode : Z;
  htContentLength : Z;
  htBody : result string
}.

(** ** Requests *)

Inductive kreq :=
  (* clock and context *)
  | RNow
  | RCtxErr
  | RSleep (d : Duration)
  | RTick
  (* custom resources *)
  | RGetServer (k : key)
  | RListServers (ns : string)
  | RCreateServer (s : PaperMCServer)
  | RUpdateServer (s : PaperMCServer)
  | RDeleteServer (k : key)
  | RPatchServer (s : PaperMCServer)
  | RStatusServer (s : PaperMCServer)
  | RGetPlugin (k : key)
  | RListPlugins (ns : string)
  | RCreatePlugin (p : Plugin)
  | RUpdatePlugin (p : Plugin)
  | RDeletePlugin (k : key)
  | RStatusPlugin (p : Plugin)
  (* built-in resources *)
  | RGetPod (k : key)
  | RDeletePod (k : key)
  | RGetSts (k : key)
  | RCreateSts (s : StatefulSet)
  | RUpdateSts (s : StatefulSet)
  | RGetConfigMap (k : key)
  | RListConfigMaps (ns : string)
  | RCreateConfigMap (c : ConfigMap)
  | RUpdateConfigMap (c : ConfigMap)
  | RDeleteConfigMap (k : key)
  | RGetService (k : key)
  | RCreateService (s : Service)
  | RUpdateService (s : Service)
  | RGetNetworkPolicy (k : key)
  | RCreateNetworkPolicy (p : NetworkPolicy)
  | RUpdateNetworkPolicy (p : NetworkPolicy)
  | RDeleteNetworkPolicy (k : key)
  (* TCP and UDP routes: [udp] tells the kind *)
  | RGetL4Route (udp : bool) (k : key)
  | RCreateL4Route (udp : bool) (r : L4Route)
  | RUpdateL4Route (udp : bool) (r : L4Route)
  | RDeleteL4Route (udp : bool) (k : key)
  | RListHTTPRoutes (ns : string) (labels : gmap string string)
  | RCreateHTTPRoute (r : HTTPRoute)
  | RUpdateHTTPRoute (r : HTTPRoute)
  | RDeleteHTTPRoute (k : key)
  | RGetSecret (k : key)
  | RGetPVC (k : key)
  | RCreateSnapshot (s : VolumeSnapshot)
  | RListSnapshots (ns : string) (labels : gmap string string)
  | RDeleteSnapshot (s : VolumeSnapshot)
  (* pods and RCON *)
  | RExec (ns pod container : string) (cmd : list string)
  | RDial (address password : string)
  | RExecute (conn : Z) (cmd : string)
  | RCloseConn (conn : Z)
  (* registries *)
  | RListTags (repo : string) (pageSize : Z)
  | RImageExists (repo tag : string)
  | RPaperVersions
  | RPaperBuild (ver : string)
  | RBuilds (ver : string)
  | RPluginVersions (project : string)
  | RDownload (url : string)
  (* scheduler and locks *)
  | RCronAdd (spec : string)
  | RCronRemove (id : Z)
  | RLock (k : string)
  | RUnlock (k : string)
  | RLockDelete (k : string)
  (* the trigger times that cron callbacks write concurrently *)
  | RTriggerGet (k : string)
  | RTriggerDelete (k : string).

Definition kans (r : kreq) : Type :=
  match r with
  | RNow => Time
  | RCtxErr => option error       (* [ctx.Err()] *)
  | RSleep _ => option error      (* [ctx.Err()] if the context ended before the delay *)
  | RTick => bool                 (* did the timeout of the context end first? *)
  | RGetServer _ | RCreateServer _ | RUpdateServer _ | RPatchServer _ | RStatusServer _ => result PaperMCServer
  | RListServers _ => result (list PaperMCServer)
  | RDeleteServer _ | RDeletePlugin _ => result unit
  | RListConfigMaps _ => result (list ConfigMap)
  | RGetPlugin _ | RCreatePlugin _ | RUpdatePlugin _ | RStatusPlugin _ => result Plugin
  | RListPlugins _ => result (list Plugin)
  | RGetPod _ => result Pod
  | RDeletePod _ => result unit
  | RGetSts _ | RCreateSts _ | RUpdateSts _ => result StatefulSet
  | RGetConfigMap _ | RCreateConfigMap _ | RUpdateConfigMap _ => result ConfigMap
  | RGetService _ | RCreateService _ | RUpdateService _ => result Service
  | RGetNetworkPolicy _ | RCreateNetworkPolicy _ | RUpdateNetworkPolicy _ => result NetworkPolicy
  | RGetL4Route _ _ | RCreateL4Route _ _ | RUpdateL4Route _ _ => result L4Route
  | RListHTTPRoutes _ _ => result (list HTTPRoute)
  | RCreateHTTPRoute _ | RUpdateHTTPRoute _ => result HTTPRoute
  | RDeleteConfigMap _ | RDeleteNetworkPolicy _ | RDeleteL4Route _ _ | RDeleteHTTPRoute _ => result unit
  | RGetSecret _ => result (gmap string string)
  | RGetPVC _ => result unit
  | RCreateSnapshot _ => result VolumeSnapshot
  | RListSnapshots _ _ => result (list VolumeSnapshot)
  | RDeleteSnapshot _ => result unit
  | RExec _ _ _ _ => result string
  | RDial _ _ => result Z
  | RExecute _ _ => result string
  | RCloseConn _ => result unit
  | RListTags _ _ => result (list string)
  | RImageExists _ _ => result bool
  | RPaperVersions => result (list string)
  | RPaperBuild _ => result BuildInfo
  | RBuilds _ => result (list Z)
  | RPluginVersions _ => result (list PluginVersion)
  | RDownload _ => result HTTPResponse
  | RCronAdd _ => result Z
  | RCronRemove _ | RLock _ | RUnlock _ | RLockDelete _ | RTriggerDelete _ => unit
  | RTriggerGet _ => option Time
  end.

#[export] Instance K8s : Effect := {| req := kreq; ans := kans |}.

(** A request with its answer type computed. *)
Definition ask (r : kreq) : prog (kans r) := call (E := K8s) r.

(** [e] is a request in the set [P]. *)
Definition isReq (P : kreq -> bool) (e : event) : bool := P (projT1 e).

(** The event is the request [r] (requests compared by a boolean test where the
    properties need it). *)
Definition reqOf (e : event) : kreq := projT1 e.

(** ** Environments for evaluated examples

    [idle] answers every read with an error and every write with success. *)
Definition notFound : error := ErrApi NotFound "not found".

Definition idle (r : kreq) : kans r :=
  match r return kans r with
  | RNow => 0
  | RCtxErr | RSleep _ => None
  | RTick => true
  | RCreateServer s | RUpdateServer s | RPatchServer s | RStatusServer s => Ok s
  | RCreatePlugin p | RUpdatePlugin p | RStatusPlugin p => Ok p
  | RDeleteServer _ | RDeletePlugin _ => Ok tt
  | RListConfigMaps _ => Ok []
  | RCreateSts s | RUpdateSts s => Ok s
  | RGetConfigMap _ => Err notFound
  | RCreateConfigMap c | RUpdateConfigMap c => Ok c
  | RGetService _ => Err notFound
  | RCreateService s | RUpdateService s => Ok s
  | RGetNetworkPolicy _ => Err notFound
  | RCreateNetworkPolicy p | RUpdateNetworkPolicy p => Ok p
  | RGetL4Route _ _ => Err notFound
  | RCreateL4Route _ r | RUpdateL4Route _ r => Ok r
  | RListHTTPRoutes _ _ => Ok []
  | RCreateHTTPRoute r | RUpdateHTTPRoute r => Ok r
  | RDeleteConfigMap _ | RDeleteNetworkPolicy _ | RDeleteL4Route _ _ | RDeleteHTTPRoute _ => Ok tt
  | RCreateSnapshot s => Ok s
  | RGetServer _ => Err notFound
  | RListServers _ => Ok []
  | RGetPlugin _ => Err notFound
  | RListPlugins _ => Ok []
  | RGetPod _ => Err notFound
  | RDeletePod _ => Ok tt
  | RGetSts _ => Err notFound
  | RGetSecret _ => Err notFound
  | RGetPVC _ => Ok tt
  | RListSnapshots _ _ => Ok []
  | RDeleteSnapshot _ => Ok tt
  | RExec _ _ _ _ => Ok ""
  | RDial _ _ => Ok 1
  | RExecute _ _ => Ok ""
  | RCloseConn _ => Ok tt
  | RListTags _ _ => Ok []
  | RImageExists _ _ => Ok true
  | RPaperVersions => Ok []
  | RPaperBuild _ => Err notFound
  | RBuilds _ => Ok []
  | RPluginVersions _ => Ok []
  | RDownload _ => Err notFound
  | RCronAdd _ => Ok 1
  | RCronRemove _ | RLock _ | RUnlock _ | RLockDelete _ | RTriggerDelete _ => tt
  | RTriggerGet _ => None
  end.
