(* ===== verification/Rcon.v ===== *)
(** * Package [pkg/rcon]: the RCON client

    [RCONClient] wraps a connection of package gorcon; a connection is the number
    that the dial answered.  Methods take the client as it is and return it as
    they leave it. *)

From S2P Require Import Prelude GoBase Effects K8s.

Open Scope Z_scope.

(** The context a method runs under: the caller's, or one that was just made from
    the background context with a timeout of seconds (it has not ended when it is
    first looked at). *)
Inductive Ctx := CtxCaller | CtxFresh.

Definition ctxErr (c : Ctx) : prog (option error) :=
  match c with CtxCaller => ask RCtxErr | CtxFresh => Ret None end.

Record RCONClient := MkRCONClient {
  rcConn : option Z;
  rcHost : string;
  rcPortNo : Z;
  rcPassword : string
}.
#[export] Instance eta_RCONClient : Eta RCONClient := fun r =>
  MkRCONClient (rcConn r) (rcHost r) (rcPortNo r) (rcPassword r).

Definition NewRCONClient (host : string) (port : Z) (password : string) : result RCONClient :=
  if (host =? "")%string then Err (ErrNew "host cannot be empty")
  else if (port <=? 0) || (65535 <? port) then Err (ErrNew ("invalid port: " +:+ pretty port))
  else if (password =? "")%string then Err (ErrNew "password cannot be empty")
  else Ok (MkRCONClient None host port password).

Definition Connect (ctx : Ctx) (c : RCONClient) : prog (RCONClient * result unit) :=
  ce <- ctxErr ctx ;;
  match ce with
  | Some e => Ret (c, Err e)
  | None =>
      let address := rcHost c +:+ ":" +:+ pretty (rcPortNo c) in
      d <- ask (RDial address (rcPassword c)) ;;
      match d with
      | Err e => Ret (c, Err (ErrWrap e ("failed to connect to RCON at " +:+ address)))
      | Ok conn => Ret (c <| rcConn := Some conn |>, Ok tt)
      end
  end.

Definition SendCommand (ctx : Ctx) (c : RCONClient) (command : string) : prog (result string) :=
  ce <- ctxErr ctx ;;
  match ce with
  | Some e => Ret (Err e)
  | None =>
      match rcConn c with
      | None => Ret (Err (ErrNew "not connected to RCON server"))
      | Some conn =>
          x <- ask (RExecute conn command) ;;
          Ret (wrap ("failed to execute command: " +:+ command) x)
      end
  end.

(** The warning loop; [n] is the number of warnings after the current one. *)
Fixpoint sendWarnings (c : RCONClient) (warnings : list string) (interval : Duration)
  : prog (result unit) :=
  match warnings with
  | [] => Ret (Ok tt)
  | w :: rest =>
      ce <- ask RCtxErr ;;
      match ce with
      | Some e => Ret (Err (ErrWrap e "shutdown cancelled"))
      | None =>
          x <- SendCommand CtxCaller c ("say " +:+ w) ;;
          match x with
          | Err e => Ret (Err (ErrWrap e "failed to send warning"))
          | Ok _ =>
              match rest with
              | [] => Ret (Ok tt)
              | _ =>
                  s <- ask (RSleep interval) ;;
                  match s with
                  | Some e => Ret (Err (ErrWrap e "shutdown cancelled"))
                  | None => sendWarnings c rest interval
                  end
              end
          end
      end
  end.

Definition GracefulShutdown (c : RCONClient) (warnings : list string) (interval : Duration)
  : prog (result unit) :=
  match rcConn c with
  | None => Ret (Err (ErrNew "not connected to RCON server"))
  | Some _ =>
      _ <-? sendWarnings c warnings interval ;;
      x <- SendCommand CtxCaller c "save-all" ;;
      match x with
      | Err e => Ret (Err (ErrWrap e "failed to save world"))
      | Ok _ =>
          s <- ask (RSleep (2 * Second)) ;;
          match s with
          | Some e => Ret (Err (ErrWrap e "shutdown cancelled during save wait"))
          | None =>
              x <- SendCommand CtxCaller c "stop" ;;
              match x with
              | Err e => Ret (Err (ErrWrap e "failed to stop server"))
              | Ok _ => Ret (Ok tt)
              end
          end
      end
  end.

Definition Close (c : RCONClient) : prog (RCONClient * result unit) :=
  match rcConn c with
  | None => Ret (c, Ok tt)
  | Some conn =>
      x <- ask (RCloseConn conn) ;;
      Ret (c <| rcConn := None |>, wrap "failed to close RCON connection" x)
  end.

Definition IsConnected (c : RCONClient) : bool :=
  match rcConn c with None => false | Some _ => true end.

(** ** The commands a run sends *)

Definition command (e : event) : option string :=
  match reqOf e with RExecute _ cmd => Some cmd | _ => None end.

Definition commands (tr : list event) : list string := omap command tr.

Lemma commands_app a b : commands (a ++ b) = commands a ++ commands b.
Proof. apply omap_app. Qed.

(** What a graceful shutdown is to send. *)
Definition shutdownPlan (warnings : list string) : list string :=
  map (fun w => "say " +:+ w) warnings ++ ["save-all"; "stop"].

(** The commands of a run are a prefix of the plan, all of it on success. *)
Definition followsPlan {A} (plan : list string) (h : list event) (h' : list event) (x : result A) : Prop :=
  exists sent, commands h' = commands h ++ sent /\ sent `prefix_of` plan /\
    (isOk x = true -> sent = plan).

(** One command: it is sent, or the answer is an error. *)
Lemma wp_SendCommand ctx c cmd h :
  wp (SendCommand ctx c cmd) (fun h' x => followsPlan [cmd] h h' x) h.
Proof.
  assert (Hnil : forall h' (e : error), commands h' = commands h ->
            followsPlan [cmd] h h' (Err e : result string)).
  { intros h' e Hc. exists []. rewrite Hc, app_nil_r.
    split_and!; [done | apply prefix_nil | done]. }
  assert (Hone : forall h' c x (y : result string), commands h' = commands h ->
            followsPlan [cmd] h (h' ++ [Ev (E := K8s) (RExecute c cmd) x]) y).
  { intros h' cn x y Hc. exists [cmd]. rewrite commands_app, Hc. done. }
  unfold SendCommand, ask. destruct ctx; cbn; [intros [e|]; cbn|].
  1: apply Hnil; by rewrite commands_app, app_nil_r.
  all: destruct (rcConn c); cbn; [intros ?; apply Hone | apply Hnil];
    by rewrite ?commands_app, ?app_nil_r.
Qed.

Lemma followsPlan_step {A B} p q h h1 h2 (x : result A) (y : result B) :
  followsPlan p h h1 x -> isOk x = true -> followsPlan q h1 h2 y ->
  followsPlan (p ++ q) h h2 y.
Proof.
  intros (s1 & H1 & _ & Ho1) Hx (s2 & H2 & Hp2 & Ho2). rewrite (Ho1 Hx) in H1.
  exists (p ++ s2). rewrite H2, H1, app_assoc. split_and!; [done | by apply prefix_app |].
  intros Hy. by rewrite (Ho2 Hy).
Qed.

Lemma followsPlan_stop {A B} p q h h1 (x : result A) (e : error) :
  followsPlan p h h1 x -> followsPlan (p ++ q) h h1 (Err e : result B).
Proof.
  intros (s1 & H1 & Hp1 & _). exists s1. split_and!; [done | by apply prefix_app_r | done].
Qed.

Lemma followsPlan_quiet {A} p h h1 h2 (x : result A) :
  followsPlan p h h1 x -> commands h2 = commands h1 -> followsPlan p h h2 x.
Proof. intros (s & H & ?) Hc. exists s. by rewrite Hc. Qed.

Lemma followsPlan_nil {A} h h' (x : result A) :
  commands h' = commands h -> followsPlan [] h h' x.
Proof. intros Hc. exists []. by rewrite Hc, app_nil_r. Qed.

Lemma wp_sendWarnings c ws d h :
  wp (sendWarnings c ws d) (fun h' x => followsPlan (map (fun w => "say " +:+ w) ws) h h' x) h.
Proof.
  revert h; induction ws as [|w rest IH]; intros h; [by apply followsPlan_nil|].
  cbn [sendWarnings map]. unfold ask. cbn [bind call wp]. intros [e|].
  { cbn. apply (followsPlan_stop (A := unit) [] _ h _ (Ok tt)), followsPlan_nil.
    by rewrite commands_app, app_nil_r. }
  apply wp_bind. eapply wp_mono; [|apply wp_SendCommand].
  intros h1 x Hx. apply (followsPlan_quiet (A := _)) with (h2 := h1) in Hx; [|done].
  assert (Hx' : followsPlan ["say " +:+ w] h h1 x).
  { destruct Hx as (s & Hs & ?). exists s. by rewrite Hs, commands_app, app_nil_r. }
  destruct x as [o|e]; [|by apply (followsPlan_stop ["say " +:+ w] _ h h1 _ _ Hx')].
  destruct rest as [|w2 rest]; [by apply followsPlan_step with (1 := Hx') (3 := followsPlan_nil _ _ _ eq_refl)|].
  cbn [bind wp call]. intros [e|].
  { cbn. apply (followsPlan_stop ["say " +:+ w] _ h _ (Ok o)).
    eapply followsPlan_quiet; [exact Hx' | by rewrite commands_app, app_nil_r]. }
  eapply wp_mono; [|apply IH]. intros h2 y Hy.
  apply (followsPlan_step ["say " +:+ w] _ h h1 h2 (Ok o)); [done | done|].
  destruct Hy as (s & Hs & ?). exists s. by rewrite Hs, commands_app, app_nil_r.
Qed.

Lemma wp_GracefulShutdown c ws d h :
  wp (GracefulShutdown c ws d) (fun h' x => followsPlan (shutdownPlan ws) h h' x) h.
Proof.
  unfold GracefulShutdown, shutdownPlan. destruct (rcConn c).
  2: { cbn. apply (followsPlan_stop (A := unit) [] _ h h (Ok tt)), followsPlan_nil. done. }
  unfold bind_ok. apply wp_bind. eapply wp_mono; [|apply wp_sendWarnings].
  intros h1 [u|e] H1; [|by apply (followsPlan_stop _ _ h h1 _ _ H1)].
  apply wp_bind. eapply wp_mono; [|apply wp_SendCommand]. intros h2 x H2.
  pose proof (followsPlan_step _ _ h h1 h2 _ _ H1 eq_refl H2) as H12.
  change (["save-all"; "stop"]) with (["save-all"] ++ ["stop"]). rewrite app_assoc.
  destruct x as [o|e]; [|by apply (followsPlan_stop _ _ h h2 _ _ H12)].
  unfold ask. cbn [bind call wp]. intros y.
  apply followsPlan_quiet with (h2 := h2 ++ [Ev (E := K8s) (RSleep (2 * Second)) y]) in H12;
    [|by rewrite commands_app, app_nil_r].
  destruct y as [e|]; [by apply (followsPlan_stop _ _ h _ _ _ H12)|].
  apply wp_bind. eapply wp_mono; [|apply wp_SendCommand]. intros h3 w H3.
  pose proof (followsPlan_step _ _ h _ h3 _ _ H12 eq_refl H3) as H123.
  by destruct w.
Qed.

(** ** Properties *)

(** Whatever the server and the context answer, the commands that
    [GracefulShutdown] sends are an initial part of: every warning as "say", in
    order, then "save-all", then "stop"; when it reports success it has sent all
    of them.  In particular "stop" is never sent before the world is saved, and
    never after a failed warning or save. *)
Theorem GracefulShutdown_order c warnings interval tr x :
  runs (GracefulShutdown c warnings interval) tr x ->
  commands tr `prefix_of` shutdownPlan warnings /\
  (isOk x = true -> commands tr = shutdownPlan warnings).
Proof.
  intros Hr.
  pose proof (proj1 (wp_runs _ _ []) (wp_GracefulShutdown c warnings interval []) tr x Hr)
    as (s & Hs & Hp & Ho).
  simpl in Hs. subst s. done.
Qed.

(** A shutdown with two warnings on connection 7, every command answered. *)
Lemma GracefulShutdown_order_witness :
  let c := MkRCONClient (Some 7) "10.0.0.1" 25575 "pw" in
  let run := exec (fun _ => idle) (GracefulShutdown c ["a"; "b"] 1) [] in
  commands run.1 = ["say a"; "say b"; "save-all"; "stop"] /\ run.2 = Ok tt /\
  runs (GracefulShutdown c ["a"; "b"] 1) run.1 run.2 /\
  (commands run.1 `prefix_of` shutdownPlan ["a"; "b"] /\
   (isOk run.2 = true -> commands run.1 = shutdownPlan ["a"; "b"])).
Proof.
  set (c := MkRCONClient (Some 7) "10.0.0.1" 25575 "pw"). cbv zeta.
  assert (Hr : runs (GracefulShutdown c ["a"; "b"] 1)
            (exec (fun _ => idle) (GracefulShutdown c ["a"; "b"] 1) []).1
            (exec (fun _ => idle) (GracefulShutdown c ["a"; "b"] 1) []).2) by apply exec_runs.
  split; [vm_compute; reflexivity|]. split; [vm_compute; reflexivity|].
  split; [exact Hr|]. exact (GracefulShutdown_order c ["a"; "b"] 1 _ _ Hr).
Defined.
