(* ===== verification/Selector.v ===== *)
(** * Package [pkg/selector]: which plugins belong to which servers

    Label selectors are compiled and evaluated by
    [k8s.io/apimachinery/pkg/labels], whose code is not part of the repository:
    [LabelSelectors] is what the source calls.  [Exact] is a concrete instance
    with the documented operators. *)

From S2P Require Import Prelude GoBase Api Effects K8s.

Class LabelSelectors := {
  Selector : Type;
  LabelSelectorAsSelector : LabelSelector -> result Selector;
  Matches : Selector -> gmap string string -> bool
}.

Section selector.
Context {LS : LabelSelectors}.

Definition MatchesSelector (labelSet : gmap string string) (selector : LabelSelector)
  : result bool :=
  res_bind (wrap "failed to convert label selector" (LabelSelectorAsSelector selector)) (fun s =>
  Ok (Matches s labelSet)).

Definition FindMatchingServers (namespace : string) (selector : LabelSelector)
  : prog (result (list PaperMCServer)) :=
  l <- ask (RListServers namespace) ;;
  Ret (res_bind (wrap "failed to list PaperMCServer resources" l) (fun items =>
       res_bind (wrap "failed to convert label selector" (LabelSelectorAsSelector selector))
         (fun s => Ok (List.filter (fun server => Matches s (Labels (srvMeta server))) items)))).

(** The loop of [FindMatchingPlugins]; [matched] is the accumulator. *)
Fixpoint filterPlugins (serverLabels : gmap string string) (items matched : list Plugin)
  : result (list Plugin) :=
  match items with
  | [] => Ok matched
  | plugin :: rest =>
      match LabelSelectorAsSelector (psInstanceSelector (plgSpec plugin)) with
      | Err e => Err (ErrWrap e ("plugin " +:+ plgNamespace plugin +:+ "/" +:+ plgName plugin +:+
                                 " has invalid instanceSelector"))
      | Ok s =>
          if Matches s serverLabels
          then filterPlugins serverLabels rest (matched ++ [plugin])
          else filterPlugins serverLabels rest matched
      end
  end.

Definition FindMatchingPlugins (namespace : string) (serverLabels : gmap string string)
  : prog (result (list Plugin)) :=
  l <- ask (RListPlugins namespace) ;;
  Ret (res_bind (wrap "failed to list Plugin resources" l) (fun items =>
       filterPlugins serverLabels items [])).

(** The plugin selects the labels. *)
Definition selects (plugin : Plugin) (ls : gmap string string) : bool :=
  match LabelSelectorAsSelector (psInstanceSelector (plgSpec plugin)) with
  | Ok s => Matches s ls
  | Err _ => false
  end.

Definition validSelector (plugin : Plugin) : bool :=
  isOk (LabelSelectorAsSelector (psInstanceSelector (plgSpec plugin))).

Lemma filterPlugins_spec ls items acc :
  match filterPlugins ls items acc with
  | Ok matched => Forall (fun p => validSelector p = true) items /\
      matched = acc ++ List.filter (fun p => selects p ls) items
  | Err _ => exists p, p ∈ items /\ validSelector p = false
  end.
Proof.
  revert acc. induction items as [|p items IH]; intros acc; simpl.
  - by rewrite app_nil_r.
  - unfold selects, validSelector in *.
    destruct (LabelSelectorAsSelector (psInstanceSelector (plgSpec p))) as [s|e] eqn:Hs.
    + destruct (Matches s ls) eqn:Hm.
      * specialize (IH (acc ++ [p])). destruct (filterPlugins _ _ _).
        -- destruct IH as [Hf ->]. split; [constructor; [by rewrite Hs | done]|].
           by rewrite <- app_assoc.
        -- destruct IH as (q & Hq & He). exists q. split; [by right | done].
      * specialize (IH acc). destruct (filterPlugins _ _ _).
        -- destruct IH as [Hf ->]. split; [constructor; [by rewrite Hs | done] | done].
        -- destruct IH as (q & Hq & He). exists q. split; [by right | done].
    + exists p. split; [by left | by rewrite Hs].
Qed.
End selector.

(** ** A concrete instance *)

Module Exact.
Definition knownOperator (op : string) : bool :=
  existsb (String.eqb op) ["In"; "NotIn"; "Exists"; "DoesNotExist"].

Definition compile (s : LabelSelector) : result LabelSelector :=
  if forallb (fun r => knownOperator (lrOperator r)) (lsMatchExpressions s)
  then Ok s else Err (ErrNew "not a valid label selector operator").

Definition requirement (ls : gmap string string) (r : LabelSelectorRequirement) : bool :=
  let is_in := match ls !! lrKey r with
               | Some v => existsb (String.eqb v) (lrValues r) | None => false end in
  let present := match ls !! lrKey r with Some _ => true | None => false end in
  if (lrOperator r =? "In")%string then is_in
  else if (lrOperator r =? "NotIn")%string then negb is_in
  else if (lrOperator r =? "Exists")%string then present
  else negb present.

Definition matches (s : LabelSelector) (ls : gmap string string) : bool :=
  forallb (fun kv => bool_decide (ls !! kv.1 = Some kv.2)) (map_to_list (lsMatchLabels s)) &&
  forallb (requirement ls) (lsMatchExpressions s).

#[global] Instance selectors : LabelSelectors :=
  {| Selector := LabelSelector; LabelSelectorAsSelector := compile; Matches := matches |}.
End Exact.

(** ** Properties *)

(** [FindMatchingPlugins] and [FindMatchingServers] describe one relation.
    When the two lookups list the namespace's objects [servers] and [plugins] and
    both succeed, a listed plugin is in the answer for a listed server's labels
    exactly when that server is in the answer for the plugin's selector. *)
Theorem matching_symmetric {LS : LabelSelectors} ns (servers : list PaperMCServer)
    (plugins : list Plugin) server plugin trp ps trs ss :
  server ∈ servers -> plugin ∈ plugins ->
  runs (FindMatchingPlugins ns (Labels (srvMeta server))) trp (Ok ps) ->
  trp = [Ev (E := K8s) (RListPlugins ns) (Ok plugins)] ->
  runs (FindMatchingServers ns (psInstanceSelector (plgSpec plugin))) trs (Ok ss) ->
  trs = [Ev (E := K8s) (RListServers ns) (Ok servers)] ->
  plugin ∈ ps <-> server ∈ ss.
Proof.
  intros Hs Hp Hrp -> Hrs ->. simpl in Hrp, Hrs.
  destruct Hrp as (y & tr & Heq & -> & Hps). apply (f_equal (fun l => match l with
    | existT (RListPlugins _) a :: _ => a | _ => Err notFound end)) in Heq. simpl in Heq. subst y.
  destruct Hrs as (y & tr & Heq & -> & Hss). apply (f_equal (fun l => match l with
    | existT (RListServers _) a :: _ => a | _ => Err notFound end)) in Heq. simpl in Heq. subst y.
  simpl in Hps, Hss.
  pose proof (filterPlugins_spec (Labels (srvMeta server)) plugins []) as Hf.
  rewrite <- Hps in Hf. destruct Hf as [_ ->]. simpl.
  destruct (LabelSelectorAsSelector (psInstanceSelector (plgSpec plugin))) as [s|e] eqn:He;
    simpl in Hss; [|done]. injection Hss as ->.
  rewrite !list_elem_of_In, !List.filter_In, <- !list_elem_of_In. unfold selects.
  rewrite He. naive_solver.
Qed.

(** [FindMatchingPlugins] returns the listed plugins whose selector matches
    the labels, in the order listed; one invalid selector among the listed
    plugins makes the whole lookup fail, and so does a failed list. *)
Theorem FindMatchingPlugins_correct {LS : LabelSelectors} ns ls tr x :
  runs (FindMatchingPlugins ns ls) tr x ->
  exists l, tr = [Ev (E := K8s) (RListPlugins ns) l] /\
  match l, x with
  | Ok items, Ok matched =>
      matched = List.filter (fun p => selects p ls) items /\
      forall p, p ∈ items -> validSelector p = true
  | Ok items, Err _ => exists p, p ∈ items /\ validSelector p = false
  | Err e, y => y = Err (ErrWrap e "failed to list Plugin resources")
  end.
Proof.
  simpl. intros (l & tr' & -> & -> & ->). exists l. split; [done|].
  destruct l as [items|e]; [|done]. simpl.
  pose proof (filterPlugins_spec ls items []) as Hf.
  destruct (filterPlugins ls items []); [|done].
  destruct Hf as [Hv ->]. split; [done|]. by rewrite Forall_forall in Hv.
Qed.

Section witnesses.
Definition labelled : gmap string string := {[ "app" := "papermc" ]}.

Definition sampleSrv : PaperMCServer :=
  zeroPaperMCServer <| srvMeta := zeroObjectMeta <| Labels := labelled |> |>.

Definition samplePlg : Plugin :=
  zeroPlugin <| plgSpec := zeroPluginSpec <| psInstanceSelector :=
    MkLabelSelector labelled [] |> |>.

Lemma matching_symmetric_witness :
  sampleSrv ∈ [sampleSrv] /\ samplePlg ∈ [zeroPlugin; samplePlg] /\
  (samplePlg ∈ [zeroPlugin; samplePlg] <-> sampleSrv ∈ [sampleSrv]).
Proof.
  assert (Hs : sampleSrv ∈ [sampleSrv]) by by left.
  assert (Hp : samplePlg ∈ [zeroPlugin; samplePlg]) by (right; by left).
  split; [exact Hs|]. split; [exact Hp|].
  apply (matching_symmetric (LS := Exact.selectors) "default" [sampleSrv] [zeroPlugin; samplePlg]
           sampleSrv samplePlg
           [Ev (E := K8s) (RListPlugins "default") (Ok [zeroPlugin; samplePlg])] _
           [Ev (E := K8s) (RListServers "default") (Ok [sampleSrv])] _ Hs Hp).
  - eexists _, []. split; [reflexivity|]. split; vm_compute; reflexivity.
  - reflexivity.
  - eexists _, []. split; [reflexivity|]. split; vm_compute; reflexivity.
  - reflexivity.
Defined.

Lemma FindMatchingPlugins_correct_witness :
  let tr := [Ev (E := K8s) (RListPlugins "default") (Ok [zeroPlugin; samplePlg])] in
  runs (FindMatchingPlugins (LS := Exact.selectors) "default" ∅) tr (Ok [zeroPlugin]) /\
  exists l, tr = [Ev (E := K8s) (RListPlugins "default") l] /\
  match l, (Ok [zeroPlugin] : result (list Plugin)) with
  | Ok items, Ok matched =>
      matched = List.filter (fun p => selects (LS := Exact.selectors) p ∅) items /\
      forall p, p ∈ items -> validSelector (LS := Exact.selectors) p = true
  | Ok items, Err _ => exists p, p ∈ items /\ validSelector (LS := Exact.selectors) p = false
  | Err e, y => y = Err (ErrWrap e "failed to list Plugin resources")
  end.
Proof.
  cbv zeta.
  assert (Hr : runs (FindMatchingPlugins (LS := Exact.selectors) "default" ∅)
            [Ev (E := K8s) (RListPlugins "default") (Ok [zeroPlugin; samplePlg])]
            (Ok [zeroPlugin])).
  { eexists _, []. split; [reflexivity|]. split; vm_compute; reflexivity. }
  split; [exact Hr|]. exact (FindMatchingPlugins_correct "default" ∅ _ _ Hr).
Defined.
End witnesses.
