(* ===== verification/Images.v ===== *)
(** * Image references and tags (internal/controller/papermcserver_controller.go)

    The regular expressions on image names and tags as hand-written matchers,
    the highest version-build of a tag list, and the version that a StatefulSet's
    image says is running. *)

From S2P Require Import Prelude GoBase Decimals Semver VersionPkg Api Objects Plugins Effects K8s.
From Stdlib Require Import Ascii.

Open Scope Z_scope.

(** The name of the container that runs the server. *)
Definition containerNamePaperMC : string := "papermc".

(** ** Regular expressions *)

(** The longest prefix of characters of a class, and the rest. *)
Fixpoint span (f : ascii -> bool) (s : string) : string * string :=
  match s with
  | String c s' =>
      if f c then let '(a, b) := span f s' in (String c a, b) else (EmptyString, s)
  | EmptyString => (EmptyString, EmptyString)
  end.

Definition newline : ascii := ascii_of_nat 10.
Definition notNewline (c : ascii) : bool := negb (Ascii.eqb c newline).
Definition isDigitOrDot (c : ascii) : bool := isDigit c || Ascii.eqb c "."%char.


Definition repository : string := "lexfrei/papermc".

(** [(lexfrei/papermc):(.+)] at the start of [s]: the second group. *)
Definition papermcTag (s : string) : option string :=
  let lit := repository +:+ ":" in
  if HasPrefix s lit then
    let tag := (span notNewline (str_drop (String.length lit) s)).1 in
    if nonempty tag then Some tag else None
  else None.

(** [(?:.*/)(lexfrei/papermc):(.+)] at the start of [s], the star greedy. *)
Fixpoint afterSlash (s : string) : option string :=
  match s with
  | String c s' =>
      if Ascii.eqb c newline then None
      else match afterSlash s' with
           | Some t => Some t
           | None => if Ascii.eqb c "/"%char then papermcTag s' else None
           end
  | EmptyString => None
  end.

(** [imageRegex.FindStringSubmatch(image)]: the leftmost match. *)
Fixpoint imageTag (s : string) : option string :=
  match afterSlash s with
  | Some t => Some t
  | None =>
      match papermcTag s with
      | Some t => Some t
      | None => match s with String _ s' => imageTag s' | EmptyString => None end
      end
  end.

(** [^([0-9.]+)-([0-9]+)$] *)
Definition matchTag (tag : string) : option (string * string) :=
  let '(v, r) := span isDigitOrDot tag in
  match r with
  | String "-"%char r' =>
      let '(b, r'') := span isDigit r' in
      if nonempty v && nonempty b && (r'' =? "")%string then Some (v, b) else None
  | _ => None
  end.

(** One [\d+] followed by the character [c]: the digits and what follows [c]. *)
Definition digitsThen (c : ascii) (s : string) : option (string * string) :=
  let '(d, r) := span isDigit s in
  match r with
  | String c' r' => if nonempty d && Ascii.eqb c c' then Some (d, r') else None
  | EmptyString => None
  end.

(** [^(\d+\.\d+\.\d+)-(\d+)$] *)
Definition matchVersionBuild (tag : string) : option (string * string) :=
  match digitsThen "."%char tag with
  | None => None
  | Some (a, r1) =>
      match digitsThen "."%char r1 with
      | None => None
      | Some (b, r2) =>
          match digitsThen "-"%char r2 with
          | None => None
          | Some (c, r3) =>
              let '(n, r4) := span isDigit r3 in
              if nonempty n && (r4 =? "")%string
              then Some (a +:+ "." +:+ b +:+ "." +:+ c, n) else None
          end
      end
  end.

(** ** detectCurrentPaperVersion *)

Definition detectCurrentPaperVersion (statefulSet : option StatefulSet) : string * Z :=
  match statefulSet with
  | None => ("", 0)
  | Some sts =>
      match ptContainers (stsTemplate sts) with
      | [] => ("", 0)
      | c :: _ =>
          match imageTag (ctImage c) with
          | None => ("", 0)
          | Some tag =>
              if (tag =? Latest)%string then (Latest, 0)
              else match matchTag tag with
                   | None => ("", 0)
                   | Some (paperVersion, buildStr) =>
                       match Atoi buildStr with
                       | None => (paperVersion, 0)
                       | Some build => (paperVersion, build)
                       end
                   end
          end
      end
  end.

(** [fmt.Sprintf("%s-%d", version, build)] *)
Definition tagFor (version : string) (build : Z) : string := version +:+ "-" +:+ pretty build.

(** [fmt.Sprintf("docker.io/lexfrei/papermc:%s-%d", version, build)] *)
Definition imageFor (version : string) (build : Z) : string :=
  "docker.io/" +:+ repository +:+ ":" +:+ tagFor version build.

(** ** findLatestVersionFromTags *)

Section tags.
Context {SV : Semver}.

(** One iteration; the accumulator is [latestVersion], [latestBuild]. *)
Definition latestTagStep (acc : string * Z) (tag : string) : string * Z :=
  let '(latestVersion, latestBuild) := acc in
  match matchVersionBuild tag with
  | None => acc
  | Some (candidateVersion, buildStr) =>
      match Atoi buildStr with
      | None => acc
      | Some candidateBuild =>
          if (latestVersion =? "")%string then (candidateVersion, candidateBuild)
          else match Compare candidateVersion latestVersion with
               | Err _ => acc
               | Ok cmp =>
                   if 0 <? cmp then (candidateVersion, candidateBuild)
                   else if (cmp =? 0) && (latestBuild <? candidateBuild)
                   then (latestVersion, candidateBuild)
                   else acc
               end
      end
  end.

Definition findLatestVersionFromTags (tags : list string) : result (string * Z) :=
  let '(latestVersion, latestBuild) := foldl latestTagStep ("", 0) tags in
  if (latestVersion =? "")%string
  then Err (ErrNew "no valid version-build tags found in Docker Hub")
  else Ok (latestVersion, latestBuild).

(** The tag names this version and build. *)
Definition tagIs (tag v : string) (b : Z) : Prop :=
  exists s, matchVersionBuild tag = Some (v, s) /\ Atoi s = Some b.
End tags.

(** ** Lemmas on the matchers *)

Lemma span_stop f a c r : str_all f a = true -> f c = false ->
  span f (a +:+ String c r) = (a, String c r).
Proof.
  intros Ha Hc. induction a as [|d a IH]; [by rewrite str_app_nil; cbn; rewrite Hc|].
  cbn in Ha. apply andb_true_iff in Ha as [Hd Ha]. rewrite str_app_cons. cbn.
  by rewrite Hd, IH.
Qed.

Lemma span_all f a : str_all f a = true -> span f a = (a, EmptyString).
Proof.
  induction a as [|c a IH]; simpl; [done|].
  intros [Hc Ha]%andb_true_iff. by rewrite Hc, IH.
Qed.

Lemma span_spec f s a r : span f s = (a, r) -> str_all f a = true /\ s = a +:+ r.
Proof.
  revert a r; induction s as [|c s IH]; intros a r; cbn; [by intros [= <- <-]|].
  destruct (f c) eqn:Hc; [|by intros [= <- <-]].
  destruct (span f s) as [a' r'] eqn:E. intros [= <- <-].
  destruct (IH _ _ eq_refl) as [Ha ->]. cbn. by rewrite Hc, Ha.
Qed.

Lemma isDigit_other c : isDigit c = true ->
  notNewline c = true /\ Ascii.eqb c "/"%char = false /\ Ascii.eqb c "-"%char = false /\
  isDigitOrDot c = true.
Proof. destruct c as [[] [] [] [] [] [] [] []]; vm_compute; done. Qed.

Lemma isDigitOrDot_other c : isDigitOrDot c = true ->
  notNewline c = true /\ Ascii.eqb c "/"%char = false /\ isDigitOrDot "-"%char = false.
Proof. destruct c as [[] [] [] [] [] [] [] []]; vm_compute; done. Qed.

Definition noSlash (c : ascii) : bool := negb (Ascii.eqb c "/"%char).

Lemma afterSlash_none s : str_all noSlash s = true -> afterSlash s = None.
Proof.
  induction s as [|c s IH]; simpl; [done|].
  intros [Hc Hs]%andb_true_iff. rewrite IH by done. unfold noSlash in Hc.
  apply negb_true_iff in Hc. rewrite Hc. by destruct (Ascii.eqb c newline).
Qed.

Lemma tagFor_chars (f : ascii -> bool) v b :
  (forall c, isDigitOrDot c = true -> f c = true) -> f "-"%char = true ->
  str_all isDigitOrDot v = true -> 0 <= b -> str_all f (tagFor v b) = true.
Proof.
  intros Hf Hd Hv Hb. unfold tagFor. rewrite !str_all_app.
  rewrite (str_all_mono _ _ _ Hf Hv). cbn [str_all]. rewrite Hd.
  destruct (pretty_digits b Hb) as [Hp _].
  apply (str_all_mono _ isDigitOrDot) in Hp; [|intros c Hc; by apply isDigit_other in Hc as (_ & _ & _ & ?)].
  by rewrite (str_all_mono _ _ _ Hf Hp).
Qed.

Lemma matchTag_tagFor v b :
  nonempty v = true -> str_all isDigitOrDot v = true -> 0 <= b ->
  matchTag (tagFor v b) = Some (v, pretty b).
Proof.
  intros Hne Hv Hb. unfold matchTag, tagFor.
  change ("-" +:+ pretty b) with (String "-"%char (pretty b)).
  rewrite span_stop by done.
  destruct (pretty_digits b Hb) as [Hp Hn]. rewrite (span_all _ _ Hp).
  by rewrite Hne, Hn.
Qed.

Lemma imageTag_imageFor v b :
  str_all isDigitOrDot v = true -> 0 <= b -> imageTag (imageFor v b) = Some (tagFor v b).
Proof.
  intros Hv Hb.
  assert (Hs : str_all noSlash (tagFor v b) = true).
  { apply tagFor_chars; try done. intros c Hc. apply isDigitOrDot_other in Hc as (_ & Hc & _).
    unfold noSlash. by rewrite Hc. }
  assert (Hl : str_all notNewline (tagFor v b) = true).
  { apply tagFor_chars; try done. intros c Hc. by apply isDigitOrDot_other in Hc as (? & _). }
  assert (Hne : nonempty (tagFor v b) = true).
  { unfold nonempty, tagFor. by destruct v. }
  pose proof (afterSlash_none _ Hs) as Ha.
  unfold imageFor, repository.
  cbv [String.append]. cbn [String.append].
  generalize dependent (tagFor v b). intros t Hs Hl Hne Ha.
  assert (Hp : papermcTag (("lexfrei/papermc" +:+ ":") +:+ t) = Some t).
  { unfold papermcTag, repository. unfold HasPrefix. rewrite str_take_app, String.eqb_refl.
    rewrite str_drop_app, (span_all _ _ Hl). cbn [fst]. by rewrite Hne. }
  rewrite str_app_assoc in Hp.
  rewrite !str_app_cons, !str_app_nil in *. cbn. rewrite Ha. cbn in Hp. rewrite Hp. done.
Qed.

Lemma matchVersionBuild_shape tag v s :
  matchVersionBuild tag = Some (v, s) -> v <> "" /\ v <> Latest.
Proof.
  unfold matchVersionBuild, digitsThen. intros H.
  destruct (span isDigit tag) as [a r1] eqn:E1. destruct r1 as [|c r1]; [done|].
  destruct (nonempty a && Ascii.eqb "."%char c) eqn:Ha; [|done].
  apply andb_true_iff in Ha as [Ha _]. apply span_spec in E1 as [Hd _].
  destruct a as [|c0 a]; [done|]. cbn in Hd. apply andb_true_iff in Hd as [Hd _].
  repeat match type of H with
  | context [match ?x with _ => _ end] =>
      lazymatch x with context [match _ with _ => _ end] => fail | _ => destruct x; try discriminate H end
  end.
  injection H as <- _. rewrite str_app_cons. split; [done|]. unfold Latest.
  intros Heq. injection Heq as -> _. discriminate Hd.
Qed.

Section latest.
Context {SV : Semver} {SL : SemverLaws}.

Lemma Compare_parsed v w a b :
  v <> Latest -> w <> Latest -> NewVersion v = Ok a -> NewVersion w = Ok b ->
  Compare v w = Ok (cmpInt (VCompare a b)).
Proof.
  intros Hv Hw Ha Hb. unfold Compare.
  rewrite (proj2 (String.eqb_neq _ _) Hv), (proj2 (String.eqb_neq _ _) Hw). cbn [orb].
  by rewrite Ha, Hb.
Qed.

(** The version-build pair [(w, c)] is at most [(v, b)]. *)
Definition atMost (w : string) (c : Z) (v : string) (b : Z) : Prop :=
  exists x y, NewVersion w = Ok x /\ NewVersion v = Ok y /\
    (VCompare x y = Lt \/ (VCompare x y = Eq /\ c <= b)).

(** [(v, b)] is the maximum of the tags [l], its version and build both from
    tags. *)
Definition best (l : list string) (v : string) (b : Z) : Prop :=
  v <> Latest /\
  (exists tag c, tag ∈ l /\ tagIs tag v c) /\
  (exists tag w x y, tag ∈ l /\ tagIs tag w b /\
     NewVersion w = Ok x /\ NewVersion v = Ok y /\ VCompare x y = Eq) /\
  (forall tag w c, tag ∈ l -> tagIs tag w c -> atMost w c v b).

(** The accumulator after the tags [l]. *)
Definition latestInv (l : list string) (acc : string * Z) : Prop :=
  if (acc.1 =? "")%string then forall tag v b, tag ∈ l -> ~ tagIs tag v b
  else best l acc.1 acc.2.

Lemma VCompare_refl v : VCompare v v = Eq.
Proof. pose proof (VCompare_antisym v v) as H. by destruct (VCompare v v). Qed.

(** A strictly higher pair bounds everything the old maximum bounded. *)
Lemma atMost_gt u d v b w c x y :
  atMost u d v b -> NewVersion w = Ok x -> NewVersion v = Ok y -> VCompare x y = Gt ->
  atMost u d w c.
Proof.
  intros (p & q & Hp & Hq & Hc) Hx Hy Hgt. assert (q = y) as -> by congruence.
  exists p, x. split_and!; try done. left.
  destruct (VCompare p x) eqn:E; [| done |]; exfalso.
  - assert (Hxy : vle x y); [|by apply Hxy].
    apply vle_trans with p; unfold vle; [rewrite (VCompare_antisym p x); by rewrite E|].
    by destruct Hc as [->|[-> _]].
  - assert (Hxy : vle x y); [|by apply Hxy].
    apply vle_trans with p; unfold vle; [rewrite (VCompare_antisym p x); by rewrite E|].
    by destruct Hc as [->|[-> _]].
Qed.

Lemma atMost_build u d v b b' : atMost u d v b -> b <= b' -> atMost u d v b'.
Proof.
  intros (p & q & Hp & Hq & Hc) Hb. exists p, q. split_and!; try done.
  destruct Hc as [?|[? ?]]; [by left | right; split; [done | lia]].
Qed.

Lemma tagIs_fun tag v b w c : tagIs tag v b -> tagIs tag w c -> v = w /\ b = c.
Proof. intros (s & H1 & H2) (t & H3 & H4). naive_solver congruence. Qed.

Lemma best_keep l v b tag :
  best l v b -> (forall w c, tagIs tag w c -> atMost w c v b) -> best (l ++ [tag]) v b.
Proof.
  intros (Hl & (t1 & c1 & H1 & ?) & (t2 & w & x & y & H2 & ?) & Hmax) Hnew.
  split_and!; [done | | |].
  - exists t1, c1. split; [apply elem_of_app; by left | done].
  - exists t2, w, x, y. split; [apply elem_of_app; by left | done].
  - intros t u c [Ht | ->%list_elem_of_singleton]%elem_of_app Hu; [by eapply Hmax | by apply Hnew].
Qed.

Lemma atMost_refl v b x : NewVersion v = Ok x -> atMost v b v b.
Proof.
  intros Hx. exists x, x. rewrite VCompare_refl. split_and!; try done. right. split; [done | lia].
Qed.

Lemma best_new l v b x tag :
  tagIs tag v b -> v <> Latest -> NewVersion v = Ok x ->
  (forall t w c, t ∈ l -> tagIs t w c -> atMost w c v b) -> best (l ++ [tag]) v b.
Proof.
  intros Ht Hl Hx Hmax. split_and!; [done | | |].
  - exists tag, b. split; [apply elem_of_app; right; by left | done].
  - exists tag, v, x, x. rewrite VCompare_refl.
    split; [apply elem_of_app; right; by left | done].
  - intros t w c [H | ->%list_elem_of_singleton]%elem_of_app Hw; [by eapply Hmax|].
    destruct (tagIs_fun _ _ _ _ _ Ht Hw) as [<- <-]. by eapply atMost_refl.
Qed.

Lemma best_build l v b w c x y tag :
  best l v b -> tagIs tag w c -> NewVersion w = Ok x -> NewVersion v = Ok y ->
  VCompare x y = Eq -> b < c -> best (l ++ [tag]) v c.
Proof.
  intros (Hl & (t1 & c1 & H1 & ?) & _ & Hmax) Ht Hx Hy He Hb. split_and!; [done | | |].
  - exists t1, c1. split; [apply elem_of_app; by left | done].
  - exists tag, w, x, y. split; [apply elem_of_app; right; by left | done].
  - intros t u d [H' | ->%list_elem_of_singleton]%elem_of_app Hu.
    + apply atMost_build with b; [by eapply Hmax | lia].
    + destruct (tagIs_fun _ _ _ _ _ Ht Hu) as [<- <-]. exists x, y.
      split_and!; try done. right. split; [done | lia].
Qed.

Lemma latestTagStep_inv l acc tag :
  (forall v b, tagIs tag v b -> isOk (NewVersion v) = true) ->
  latestInv l acc -> latestInv (l ++ [tag]) (latestTagStep acc tag).
Proof.
  intros Hok. destruct acc as [lv lb]. unfold latestTagStep, latestInv.
  destruct (matchVersionBuild tag) as [[cv bs]|] eqn:Hm; [destruct (Atoi bs) as [cb|] eqn:Hb|].
  2, 3: assert (Hno : forall v b, ~ tagIs tag v b) by (intros v b (s & ? & ?); congruence);
    cbn [fst snd]; destruct (lv =? "")%string;
    [ intros Hi t v b [Ht | ->%list_elem_of_singleton]%elem_of_app; [by apply Hi | apply Hno]
    | intros Hi; apply best_keep; [done | by intros w c ?%Hno] ].
  assert (Htag : tagIs tag cv cb) by (exists bs; done).
  destruct (matchVersionBuild_shape _ _ _ Hm) as [Hcne%String.eqb_neq Hcl].
  destruct (NewVersion cv) as [cx|] eqn:Hcx; [|by specialize (Hok _ _ Htag); rewrite Hcx in Hok].
  cbn [fst snd]. destruct (lv =? "")%string eqn:Elv; cbn [fst snd]; intros Hi.
  { rewrite Hcne. eapply best_new; try done. intros t w c Ht Hw. by destruct (Hi t w c). }
  pose proof Hi as (Hl & _ & (t2 & w2 & x2 & y & _ & _ & _ & Hy & _) & Hmax).
  rewrite (Compare_parsed cv lv cx y) by done.
  destruct (VCompare cx y) eqn:E; cbn [cmpInt Z.ltb Z.compare Z.eqb andb];
    [destruct (Z.ltb_spec lb cb)| |]; cbn [fst snd]; rewrite ?Elv, ?Hcne.
  - by eapply best_build.
  - apply best_keep; [done|]. intros w c Hw. destruct (tagIs_fun _ _ _ _ _ Htag Hw) as [<- <-].
    exists cx, y. split_and!; try done. right. split; [done | lia].
  - apply best_keep; [done|]. intros w c Hw. destruct (tagIs_fun _ _ _ _ _ Htag Hw) as [<- <-].
    exists cx, y. split_and!; try done. by left.
  - eapply best_new; try done. intros t w c Ht Hw.
    apply (atMost_gt w c lv lb cv cb cx y); [by eapply Hmax | done..].
Qed.

Lemma findLatest_inv tags :
  (forall tag v b, tag ∈ tags -> tagIs tag v b -> isOk (NewVersion v) = true) ->
  latestInv tags (foldl latestTagStep ("", 0) tags).
Proof.
  induction tags as [|tag tags IH] using rev_ind; intros Hok; [intros t v b Ht; set_solver|].
  rewrite foldl_app. cbn [foldl]. apply latestTagStep_inv.
  - intros v b. apply Hok. apply elem_of_app. right. by left.
  - apply IH. intros t v b Ht. apply Hok. apply elem_of_app. by left.
Qed.
End latest.

(** ** Properties *)

(** C40: The image reference that the operator writes for a version of digits and
    dots and a build number is read back as that version and build: the
    version that [detectCurrentPaperVersion] reports is the one that
    [buildPodSpec] and [performCombinedUpdate] deployed. *)
Theorem detect_imageFor sts c cs v b :
  ptContainers (stsTemplate sts) = c :: cs -> ctImage c = imageFor v b ->
  nonempty v = true -> str_all isDigitOrDot v = true -> 0 <= b <= maxInt64 ->
  detectCurrentPaperVersion (Some sts) = (v, b).
Proof.
  intros Hc Hi Hne Hv Hb. unfold detectCurrentPaperVersion. rewrite Hc, Hi.
  rewrite imageTag_imageFor by (done || lia).
  assert ((tagFor v b =? Latest)%string = false) as ->.
  { apply String.eqb_neq. intros Heq. destruct v as [|d v]; [done|].
    unfold tagFor in Heq. rewrite str_app_cons in Heq. unfold Latest in Heq.
    injection Heq as -> _. discriminate Hv. }
  rewrite matchTag_tagFor by (done || lia). by rewrite Atoi_pretty.
Qed.

(** When every version-build tag of the registry carries a parsable version,
    [findLatestVersionFromTags] answers a version and a build that both come from
    such tags and bound every such tag: lower precedence, or the same and at most
    that build.  It fails exactly when no tag is a version-build tag. *)
Theorem findLatestVersionFromTags_correct {SV : Semver} {SL : SemverLaws} tags :
  (forall tag v b, tag ∈ tags -> tagIs tag v b -> isOk (NewVersion v) = true) ->
  match findLatestVersionFromTags tags with
  | Ok (v, b) => best tags v b
  | Err _ => forall tag v b, tag ∈ tags -> ~ tagIs tag v b
  end.
Proof.
  intros Hok. pose proof (findLatest_inv tags Hok) as Hi.
  unfold findLatestVersionFromTags, latestInv in *.
  destruct (foldl latestTagStep ("", 0) tags) as [v b]. cbn [fst snd] in Hi.
  by destruct (v =? "")%string.
Qed.

Section witnesses.
Existing Instance Dotted.semver.
Existing Instance Dotted.semver_laws.

Definition sampleSts (image : string) : StatefulSet :=
  zeroStatefulSet <| stsTemplate :=
    zeroPodTemplateSpec <| ptContainers := [zeroContainer <| ctName := "papermc" |> <| ctImage := image |>] |> |>.

Lemma detect_imageFor_witness :
  imageFor "1.21.10" 91 = "docker.io/lexfrei/papermc:1.21.10-91" /\
  detectCurrentPaperVersion (Some (sampleSts (imageFor "1.21.10" 91))) = ("1.21.10", 91).
Proof.
  split; [vm_compute; reflexivity|].
  apply (detect_imageFor _ (zeroContainer <| ctName := "papermc" |> <| ctImage := imageFor "1.21.10" 91 |>) []);
    first [reflexivity | vm_compute; split; discriminate].
Defined.

Lemma findLatest_witness :
  let tags := ["latest"; "1.20.6-151"; "1.21.4-9"; "1.21.4-10"; "1.21-7"] in
  findLatestVersionFromTags tags = Ok ("1.21.4", 10) /\
  match findLatestVersionFromTags tags with
  | Ok (v, b) => best tags v b
  | Err _ => forall tag v b, tag ∈ tags -> ~ tagIs tag v b
  end.
Proof.
  split; [vm_compute; reflexivity|].
  apply (findLatestVersionFromTags_correct
    ["latest"; "1.20.6-151"; "1.21.4-9"; "1.21.4-10"; "1.21-7"]).
  intros tag v b Ht (s & Hm & _).
  repeat (apply elem_of_cons in Ht as [-> | Ht];
    [vm_compute in Hm; first [discriminate Hm | injection Hm as <- <-; reflexivity] |]).
  by apply not_elem_of_nil in Ht.
Defined.
End witnesses.
