(* ===== verification/Resolve.v ===== *)
(** * Version resolution of the PaperMCServer controller

    [internal/controller/papermcserver_controller.go]: which Paper version and
    build a server is to run ([resolveDesiredPaperVersion] and its four
    strategies, with the downgrade and compatibility gates), which update is
    available, which version of each plugin fits the server, and the status
    fields they set.  Functions that mutate [server *PaperMCServer] take the
    server and return it with their result.  The second half states what they
    guarantee: the gates that every strategy passes through, the evidence for the
    image that is chosen, the fallback, the per-server plugin versions (against
    the solver's interface only) and the plugin status list. *)

From S2P Require Import Prelude GoBase Semver VersionPkg Api Objects Plugins Solver Conditions.
From S2P Require Import Effects K8s Selector Images.

Open Scope Z_scope.

Definition conditionTypeStatefulSetReady : string := "StatefulSetReady".
Definition conditionTypeUpdateAvailable : string := "UpdateAvailable".
Definition conditionTypeUpdateBlocked : string := "UpdateBlocked".
Definition conditionTypeSolverRunning : string := "SolverRunning".

(** ** Conditions and the blocked flag *)

Section conditions.
Context {MC : MetaConditions}.

Definition setCondition (server : PaperMCServer) (conditionType status reason message : string)
  : prog PaperMCServer :=
  now <- ask RNow ;;
  let condition := MkCondition conditionType status reason message now
                     (Generation (srvMeta server)) in
  Ret (updStatus (fun st => st <| stConditions := SetStatusCondition now (stConditions st) condition |>)
         server).

Definition setUpdateBlocked (server : PaperMCServer) (reason : string)
    (blockedBy : option BlockedByInfo) : prog PaperMCServer :=
  let server := updStatus (fun st => st <| stUpdateBlocked :=
                  Some (MkUpdateBlockedStatus true reason blockedBy) |>) server in
  setCondition server conditionTypeUpdateBlocked ConditionTrue "UpdateBlocked" reason.

Definition clearUpdateBlocked (server : PaperMCServer) : prog PaperMCServer :=
  let server := updStatus (fun st => st <| stUpdateBlocked := None |>) server in
  setCondition server conditionTypeUpdateBlocked ConditionFalse "UpdateUnblocked"
    "No compatibility issues preventing update".
End conditions.

(** ** Compatibility of plugins with a candidate Paper version *)

Definition isPluginCompatibleWithPaper (plugin : Plugin) (candidateVersion : string) : bool :=
  let byVersions := existsb (fun ver => ContainsVersion (viMinecraftVersions ver) candidateVersion)
                      (pgAvailableVersions (plgStatus plugin)) in
  match psCompatibilityOverride (plgSpec plugin) with
  | Some ov =>
      if coEnabled ov then
        if (0 <? length (coMinecraftVersions ov))%nat
        then ContainsVersion (coMinecraftVersions ov) candidateVersion
        else true
      else byVersions
  | None => byVersions
  end.

Definition overrideEnabled (plugin : Plugin) : bool :=
  match psCompatibilityOverride (plgSpec plugin) with Some ov => coEnabled ov | None => false end.

(** (compatible, blockingPlugin, blockReason) *)
Fixpoint checkPluginCompatibility (candidateVersion : string) (matchedPlugins : list Plugin)
  : bool * string * string :=
  match matchedPlugins with
  | [] => (true, "", "")
  | plugin :: rest =>
      if (length (pgAvailableVersions (plgStatus plugin)) =? 0)%nat && negb (overrideEnabled plugin)
      then checkPluginCompatibility candidateVersion rest
      else if negb (isPluginCompatibleWithPaper plugin candidateVersion)
      then (false, plgName plugin,
            "Plugin '" +:+ plgName plugin +:+ "' is incompatible with Paper " +:+ candidateVersion)
      else checkPluginCompatibility candidateVersion rest
  end.

(** The details of the first plugin of that name. *)
Fixpoint blockedByOf (blockingPlugin : string) (matchedPlugins : list Plugin) : option BlockedByInfo :=
  match matchedPlugins with
  | [] => None
  | plugin :: rest =>
      if (plgName plugin =? blockingPlugin)%string then
        let pluginVersion := match pgAvailableVersions (plgStatus plugin) with
                             | v :: _ => viVersion v | [] => "unknown" end in
        Some (MkBlockedByInfo blockingPlugin pluginVersion [])
      else blockedByOf blockingPlugin rest
  end.

(** ** Gates *)

Section gates.
Context {SV : Semver} {MC : MetaConditions}.

Definition checkDowngrade (server : PaperMCServer) (candidateVersion : string)
  : prog (PaperMCServer * result unit) :=
  let current := stCurrentVersion (srvStatus server) in
  if (current =? "")%string then Ret (server, Ok tt)
  else if (current =? updateStrategyLatest)%string then Ret (server, Ok tt)
  else
    match IsDowngrade current candidateVersion with
    | Err e => Ret (server, Err (ErrWrap e "failed to compare versions"))
    | Ok true =>
        let reason := "Downgrade not allowed: current=" +:+ current +:+
                      ", candidate=" +:+ candidateVersion in
        server <- setUpdateBlocked server reason None ;;
        Ret (server, Err (ErrNew "downgrade prevented"))
    | Ok false => Ret (server, Ok tt)
    end.

Definition checkCompatibility (server : PaperMCServer) (candidateVersion : string)
    (matchedPlugins : list Plugin) : prog (PaperMCServer * result unit) :=
  match checkPluginCompatibility candidateVersion matchedPlugins with
  | (true, _, _) => Ret (server, Ok tt)
  | (false, blockingPlugin, blockReason) =>
      server <- setUpdateBlocked server blockReason (blockedByOf blockingPlugin matchedPlugins) ;;
      Ret (server, Err (ErrNew "update blocked by plugin incompatibility"))
  end.

(** Both gates; on refusal the handlers answer the error (their version and
    build results are then ignored by the only caller). *)
Definition gated (server : PaperMCServer) (candidateVersion : string) (matchedPlugins : list Plugin)
    (k : PaperMCServer -> prog (PaperMCServer * result (string * Z)))
  : prog (PaperMCServer * result (string * Z)) :=
  x <- checkDowngrade server candidateVersion ;;
  match x with
  | (server, Err e) => Ret (server, Err e)
  | (server, Ok _) =>
      y <- checkCompatibility server candidateVersion matchedPlugins ;;
      match y with
      | (server, Err e) => Ret (server, Err e)
      | (server, Ok _) => k server
      end
  end.
End gates.

(** ** Plugin versions for the solver *)

Definition toPluginVersion (v : PluginVersionInfo) : PluginVersion :=
  MkPluginVersion (viVersion v) (viReleasedAt v) [] (viMinecraftVersions v) (viDownloadURL v) (viHash v).

Section plugins.
Context {SO : Solver}.

(** [filteredVersions]: for each version that passed the delay, the first
    version of the list with its name. *)
Definition keepByName (allVersions : list PluginVersion) (filtered : list VersionInfo)
  : list PluginVersion :=
  omap (fun f => List.find (fun v => (pvVer v =? vrVersion f)%string) allVersions) filtered.

(** The end of [resolvePluginVersionForServer]: the solver chooses. *)
Definition solveForServer (server : PaperMCServer) (plugin : Plugin) (filteredVersions : list PluginVersion)
  : prog (result string) :=
  if (length filteredVersions =? 0)%nat
  then Ret (Err (ErrNew "no versions available after applying update delay"))
  else
    now <- ask RNow ;;
    match FindBestPluginVersion now plugin [server] filteredVersions with
    | Err e => Ret (Err (ErrWrap e "solver failed to find compatible version"))
    | Ok resolvedVersion =>
        if (resolvedVersion =? "")%string
        then Ret (Err (ErrNew ("no compatible version found for server " +:+
               srvNamespace server +:+ "/" +:+ srvName server +:+ " with Paper " +:+
               stCurrentVersion (srvStatus server))))
        else Ret (Ok resolvedVersion)
    end.

Definition resolvePluginVersionForServer (server : PaperMCServer) (plugin : Plugin)
  : prog (result string) :=
  if (length (pgAvailableVersions (plgStatus plugin)) =? 0)%nat then Ret (Ok "")
  else
    let allVersions := map toPluginVersion (pgAvailableVersions (plgStatus plugin)) in
    let strategy := orLatest (psUpdateStrategy (plgSpec plugin)) in
    if (strategy =? updateStrategyPin)%string || (strategy =? updateStrategyBuildPin)%string ||
       (strategy =? versionPolicyPinned)%string then
      let pinnedVersion := psVersion (plgSpec plugin) in
      if (pinnedVersion =? "")%string
      then Ret (Err (ErrNew ("updateStrategy is '" +:+ strategy +:+ "' but version is not set")))
      else if negb (existsb (fun v => (pvVer v =? pinnedVersion)%string) allVersions)
      then Ret (Err (ErrNew ("pinned version " +:+ pinnedVersion +:+ " not found")))
      else Ret (Ok pinnedVersion)
    else
      filteredVersions <-
        match psUpdateDelay (plgSpec plugin) with
        | None => Ret allVersions
        | Some delay =>
            let versionInfos := map (fun v => {| vrVersion := pvVer v;
                                                 vrReleaseDate := pvReleaseDate v |}) allVersions in
            now <- ask RNow ;;
            Ret (keepByName allVersions (FilterByUpdateDelay now versionInfos delay))
        end ;;
      solveForServer server plugin filteredVersions.

Definition refKey (ns name : string) : string := ns +:+ "/" +:+ name.

(** The lookup map of a plugin status list; later entries win. *)
Definition statusMap (l : list ServerPluginStatus) : gmap string ServerPluginStatus :=
  foldl (fun m p => <[refKey (prNamespace (spPluginRef p)) (prName (spPluginRef p)) := p]> m) ∅ l.

(** The status entry of one plugin: resolved fields fresh, the fields of other
    controllers from the previous entry. *)
Definition pluginStatusEntry (existing : gmap string ServerPluginStatus) (plugin : Plugin)
    (resolvedVersion : string) : ServerPluginStatus :=
  let pluginStatus := MkServerPluginStatus (MkPluginRef (plgName plugin) (plgNamespace plugin))
    resolvedVersion "" resolvedVersion (negb (resolvedVersion =? "")%string)
    (soType (psSource (plgSpec plugin))) false "" in
  match existing !! refKey (plgNamespace plugin) (plgName plugin) with
  | Some prev =>
      pluginStatus <| spInstalledJARName := spInstalledJARName prev |>
                   <| spCurrentVersion := spCurrentVersion prev |>
                   <| spPendingDeletion := spPendingDeletion prev |>
  | None => pluginStatus
  end.

Definition buildPluginStatus (server : PaperMCServer) (matchedPlugins : list Plugin)
  : prog (list ServerPluginStatus) :=
  let existing := statusMap (stPlugins (srvStatus server)) in
  foldP (fun status plugin =>
    r <- resolvePluginVersionForServer server plugin ;;
    let resolvedVersion := match r with Ok v => v | Err _ => "" end in
    Ret (status ++ [pluginStatusEntry existing plugin resolvedVersion])) [] matchedPlugins.

Definition buildPluginVersionPairs (candidatePaperVersion : string) (matchedPlugins : list Plugin)
  : prog (list PluginVersionPair) :=
  foldP (fun pluginPairs plugin =>
    match pgAvailableVersions (plgStatus plugin) with
    | [] => Ret pluginPairs
    | v0 :: _ =>
        let allVersions := map toPluginVersion (pgAvailableVersions (plgStatus plugin)) in
        let tempServer := zeroPaperMCServer <| srvStatus :=
          zeroPaperMCServerStatus <| stCurrentVersion := candidatePaperVersion |> |> in
        now <- ask RNow ;;
        let resolvedVersion :=
          match FindBestPluginVersion now plugin [tempServer] allVersions with
          | Ok v => v
          | Err _ => viVersion v0
          end in
        Ret (pluginPairs ++ [MkPluginVersionPair (MkPluginRef (plgName plugin) (plgNamespace plugin))
                               resolvedVersion])
    end) [] matchedPlugins.
End plugins.

(** ** Available updates *)

Section updates.
Context {SV : Semver} {MC : MetaConditions} {SO : Solver}.

Definition findVersionUpdate (server : PaperMCServer) (matchedPlugins : list Plugin)
  : prog (PaperMCServer * result (option AvailableUpdate)) :=
  pv <- ask RPaperVersions ;;
  match pv with
  | Err e => Ret (server, Err (ErrWrap e "failed to fetch paper versions"))
  | Ok paperVersions =>
      server <- setCondition server conditionTypeSolverRunning ConditionTrue "SolverStarted"
                  "Resolving optimal Paper version" ;;
      match FindBestPaperVersion server matchedPlugins paperVersions with
      | Err e =>
          server <- setCondition server conditionTypeSolverRunning ConditionFalse "SolverFailed"
                      ("Solver failed: " +:+ errString e) ;;
          Ret (server, Err (ErrWrap e "solver failed to find best version"))
      | Ok bestVersion =>
          server <- setCondition server conditionTypeSolverRunning ConditionFalse "SolverCompleted"
                      "Version resolved successfully" ;;
          if (bestVersion =? stCurrentVersion (srvStatus server))%string || (bestVersion =? "")%string
          then Ret (server, Ok None)
          else
            bi <- ask (RPaperBuild bestVersion) ;;
            match bi with
            | Err e => Ret (server, Err (ErrWrap e "failed to get build info"))
            | Ok buildInfo =>
                pluginPairs <- buildPluginVersionPairs bestVersion matchedPlugins ;;
                releasedAt <- ask RNow ;;
                foundAt <- ask RNow ;;
                Ret (server, Ok (Some (MkAvailableUpdate bestVersion (biBuild buildInfo)
                                         releasedAt pluginPairs foundAt)))
            end
      end
  end.

Definition findBuildUpdate (server : PaperMCServer) (matchedPlugins : list Plugin)
  : prog (result (option AvailableUpdate)) :=
  bi <- ask (RPaperBuild (ssVersion (srvSpec server))) ;;
  match bi with
  | Err e => Ret (Err (ErrWrap e "failed to get latest build"))
  | Ok buildInfo =>
      if biBuild buildInfo <=? stCurrentBuild (srvStatus server) then Ret (Ok None)
      else
        pluginPairs <- buildPluginVersionPairs (ssVersion (srvSpec server)) matchedPlugins ;;
        releasedAt <- ask RNow ;;
        foundAt <- ask RNow ;;
        Ret (Ok (Some (MkAvailableUpdate (ssVersion (srvSpec server)) (biBuild buildInfo)
                         releasedAt pluginPairs foundAt)))
  end.

Definition findAvailableUpdate (server : PaperMCServer) (matchedPlugins : list Plugin)
  : prog (PaperMCServer * result (option AvailableUpdate)) :=
  let strategy := ssUpdateStrategy (srvSpec server) in
  if (strategy =? updateStrategyLatest)%string || (strategy =? updateStrategyAuto)%string
  then findVersionUpdate server matchedPlugins
  else if (strategy =? updateStrategyPin)%string
  then r <- findBuildUpdate server matchedPlugins ;; Ret (server, r)
  else if (strategy =? updateStrategyBuildPin)%string then Ret (server, Ok None)
  else Ret (server, Err (ErrNew ("unknown updateStrategy: " +:+ strategy))).

(** ** resolveDesiredPaperVersion *)

Definition resolveLatestVersion (server : PaperMCServer) (matchedPlugins : list Plugin)
  : prog (PaperMCServer * result (string * Z)) :=
  t <- ask (RListTags repository 0) ;;
  match t with
  | Err e => Ret (server, Err (ErrWrap e "failed to list Docker Hub tags"))
  | Ok tags =>
      match findLatestVersionFromTags tags with
      | Err e => Ret (server, Err (ErrWrap e "failed to find latest version from tags"))
      | Ok (candidateVersion, candidateBuild) =>
          gated server candidateVersion matchedPlugins (fun server =>
            server <- clearUpdateBlocked server ;;
            Ret (server, Ok (candidateVersion, candidateBuild)))
      end
  end.

Definition resolveAutoVersion (server : PaperMCServer) (matchedPlugins : list Plugin)
  : prog (PaperMCServer * result (string * Z)) :=
  x <- findAvailableUpdate server matchedPlugins ;;
  match x with
  | (server, Err e) => Ret (server, Err (ErrWrap e "failed to find available update in auto mode"))
  | (server, Ok None) => Ret (server, Err (ErrNew "no available update found in auto mode"))
  | (server, Ok (Some availableUpdate)) =>
      let candidateVersion := auVersion availableUpdate in
      let build := auBuild availableUpdate in
      gated server candidateVersion matchedPlugins (fun server =>
        let tag := tagFor candidateVersion build in
        ex <- ask (RImageExists repository tag) ;;
        match ex with
        | Err e => Ret (server, Err (ErrWrap e ("failed to verify image existence for " +:+ tag)))
        | Ok false => Ret (server, Err (ErrNew ("image docker.io/lexfrei/papermc:" +:+ tag +:+
                                                " does not exist")))
        | Ok true =>
            server <- clearUpdateBlocked server ;;
            Ret (server, Ok (candidateVersion, build))
        end)
  end.

(** The loop over the builds, latest first ([builds] is reversed). *)
Fixpoint findExistingBuild (server : PaperMCServer) (candidateVersion : string) (builds : list Z)
  : prog (PaperMCServer * result (string * Z)) :=
  match builds with
  | [] => Ret (server, Err (ErrNew ("no Docker images found for any build of version " +:+
                                    candidateVersion)))
  | buildNum :: rest =>
      ex <- ask (RImageExists repository (tagFor candidateVersion buildNum)) ;;
      match ex with
      | Ok true =>
          server <- clearUpdateBlocked server ;;
          Ret (server, Ok (candidateVersion, buildNum))
      | _ => findExistingBuild server candidateVersion rest
      end
  end.

Definition resolveVersionOnlyMode (server : PaperMCServer) (candidateVersion : string)
    (matchedPlugins : list Plugin) : prog (PaperMCServer * result (string * Z)) :=
  gated server candidateVersion matchedPlugins (fun server =>
    b <- ask (RBuilds candidateVersion) ;;
    match b with
    | Err e => Ret (server, Err (ErrWrap e ("failed to get builds for version " +:+ candidateVersion)))
    | Ok buildNumbers => findExistingBuild server candidateVersion (rev buildNumbers)
    end).

Definition resolvePinnedVersionBuild (server : PaperMCServer) (candidateVersion buildStr fullSpec : string)
    (matchedPlugins : list Plugin) : prog (PaperMCServer * result (string * Z)) :=
  match Atoi buildStr with
  | None => Ret (server, Err (ErrWrap (ErrNew ("strconv.Atoi: parsing " +:+ buildStr))
                           ("failed to parse build number from " +:+ fullSpec)))
  | Some build =>
      gated server candidateVersion matchedPlugins (fun server =>
        let tag := tagFor candidateVersion build in
        ex <- ask (RImageExists repository tag) ;;
        match ex with
        | Err e => Ret (server, Err (ErrWrap e ("failed to verify image existence for " +:+ tag)))
        | Ok false =>
            let reason := "Image docker.io/lexfrei/papermc:" +:+ tag +:+ " does not exist" in
            server <- setUpdateBlocked server reason None ;;
            Ret (server, Err (ErrNew ("image docker.io/lexfrei/papermc:" +:+ tag +:+
                                      " does not exist")))
        | Ok true =>
            server <- clearUpdateBlocked server ;;
            Ret (server, Ok (candidateVersion, build))
        end)
  end.

Definition resolveDesiredPaperVersion (server : PaperMCServer) (matchedPlugins : list Plugin)
  : prog (PaperMCServer * result (string * Z)) :=
  let spec := srvSpec server in
  let strategy := ssUpdateStrategy spec in
  if (strategy =? updateStrategyLatest)%string then resolveLatestVersion server matchedPlugins
  else if (strategy =? updateStrategyAuto)%string then resolveAutoVersion server matchedPlugins
  else if (strategy =? updateStrategyPin)%string then
    if (ssVersion spec =? "")%string
    then Ret (server, Err (ErrNew "version is required for 'pin' strategy"))
    else resolveVersionOnlyMode server (ssVersion spec) matchedPlugins
  else if (strategy =? updateStrategyBuildPin)%string then
    if (ssVersion spec =? "")%string
    then Ret (server, Err (ErrNew "version is required for 'build-pin' strategy"))
    else match ssBuild spec with
         | None => Ret (server, Err (ErrNew "build is required for 'build-pin' strategy"))
         | Some build =>
             let buildStr := pretty build in
             resolvePinnedVersionBuild server (ssVersion spec) buildStr
               (ssVersion spec +:+ "-" +:+ buildStr) matchedPlugins
         end
  else Ret (server, Err (ErrNew ("invalid updateStrategy: " +:+ strategy +:+
              " (expected 'latest', 'auto', 'pin', or 'build-pin')"))).

Definition updateDesiredVersion (server : PaperMCServer) (matchedPlugins : list Plugin)
  : prog (PaperMCServer * result unit) :=
  x <- resolveDesiredPaperVersion server matchedPlugins ;;
  let set s v b := updStatus (fun st => st <| stDesiredVersion := v |> <| stDesiredBuild := b |>) s in
  match x with
  | (server, Ok (desiredVersion, desiredBuild)) => Ret (set server desiredVersion desiredBuild, Ok tt)
  | (server, Err e) =>
      if negb (stDesiredVersion (srvStatus server) =? "")%string
      then Ret (set server (stDesiredVersion (srvStatus server)) (stDesiredBuild (srvStatus server)), Ok tt)
      else Ret (server, Err (ErrWrap e "cannot resolve desired version and no fallback available"))
  end.

(** ** Status of the server *)

Definition updateAvailableUpdateStatus (server : PaperMCServer) (matchedPlugins : list Plugin)
  : prog PaperMCServer :=
  x <- findAvailableUpdate server matchedPlugins ;;
  match x with
  | (server, Err e) =>
      let server := updStatus (fun st => st <| stAvailableUpdate := None |>) server in
      setCondition server conditionTypeUpdateAvailable ConditionFalse "NoUpdate" (errString e)
  | (server, Ok availableUpdate) =>
      let server := updStatus (fun st => st <| stAvailableUpdate := availableUpdate |>) server in
      match availableUpdate with
      | Some u => setCondition server conditionTypeUpdateAvailable ConditionTrue "UpdateFound"
                    ("Update to " +:+ auVersion u +:+ " available")
      | None => setCondition server conditionTypeUpdateAvailable ConditionFalse "NoUpdate"
                  "Server is up to date"
      end
  end.

Definition isStatefulSetReady (statefulSet : option StatefulSet) : bool :=
  match statefulSet with
  | None => false
  | Some sts => (0 <? stsReadyReplicas sts) && (stsReadyReplicas sts =? stsStatusReplicas sts)
  end.

Definition updateStatefulSetReadiness (server : PaperMCServer) (statefulSet : option StatefulSet)
  : prog PaperMCServer :=
  if isStatefulSetReady statefulSet
  then setCondition server conditionTypeStatefulSetReady ConditionTrue "StatefulSetReady"
         "StatefulSet is ready"
  else setCondition server conditionTypeStatefulSetReady ConditionFalse "StatefulSetNotReady"
         "StatefulSet is not ready".

Definition updateServerStatus (server : PaperMCServer) (statefulSet : option StatefulSet)
    (matchedPlugins : list Plugin) : prog PaperMCServer :=
  let '(currentVersion, currentBuild) := detectCurrentPaperVersion statefulSet in
  let server := updStatus (fun st => st <| stCurrentVersion := currentVersion |>
                                        <| stCurrentBuild := currentBuild |>) server in
  ps <- buildPluginStatus server matchedPlugins ;;
  let server := updStatus (fun st => st <| stPlugins := ps |>) server in
  server <- updateAvailableUpdateStatus server matchedPlugins ;;
  updateStatefulSetReadiness server statefulSet.

Definition findMatchedPlugins {LS : LabelSelectors} (server : PaperMCServer)
  : prog (result (list Plugin)) :=
  r <- FindMatchingPlugins (srvNamespace server) (Labels (srvMeta server)) ;;
  Ret (wrap "failed to find matching plugins" r).
End updates.

(** ** Proof rules *)

(** One or more steps of straight-line code. *)
Ltac wp_go :=
  repeat first
    [ progress cbn [bind call ask bind_ok wp]
    | progress unfold ask, setUpdateBlocked, clearUpdateBlocked, setCondition
    | match goal with |- forall _, _ => intros ? end ].

(** Case split on the answer that the program is stuck on. *)
Ltac wp_case :=
  match goal with |- wp (match ?y with _ => _ end) _ _ => destruct y end.

(** ** What the gates check *)

(** No downgrade: the server runs nothing yet, or an unresolved "latest", or the
    candidate is at least the current version. *)
Definition upgradeAllowed {SV : Semver} (server : PaperMCServer) (v : string) : Prop :=
  stCurrentVersion (srvStatus server) = "" \/
  stCurrentVersion (srvStatus server) = updateStrategyLatest \/
  tag_le (stCurrentVersion (srvStatus server)) v.

(** A plugin accepts a Paper version: by its override, by one of its versions,
    or because nothing is known about it. *)
Definition pluginAccepts (v : string) (plugin : Plugin) : Prop :=
  match psCompatibilityOverride (plgSpec plugin) with
  | Some (MkCompatibilityOverride true vs) => vs = [] \/ supports vs v
  | _ => pgAvailableVersions (plgStatus plugin) = [] \/
         exists i, i ∈ pgAvailableVersions (plgStatus plugin) /\ supports (viMinecraftVersions i) v
  end.

Lemma checkPluginCompatibility_spec v plugins :
  match checkPluginCompatibility v plugins with
  | (true, _, _) => forall p, p ∈ plugins -> pluginAccepts v p
  | (false, name, _) => exists p, p ∈ plugins /\ plgName p = name /\ ~ pluginAccepts v p
  end.
Proof.
  induction plugins as [|p ps IH]; cbn [checkPluginCompatibility]; [set_solver|].
  assert (Hacc : (length (pgAvailableVersions (plgStatus p)) =? 0)%nat && negb (overrideEnabled p) = true \/
            isPluginCompatibleWithPaper p v = true <-> pluginAccepts v p).
  { unfold pluginAccepts, isPluginCompatibleWithPaper, overrideEnabled.
    assert (Hv : existsb (fun ver => ContainsVersion (viMinecraftVersions ver) v)
                   (pgAvailableVersions (plgStatus p)) = true <->
            exists i, i ∈ pgAvailableVersions (plgStatus p) /\ supports (viMinecraftVersions i) v).
    { rewrite existsb_elem. by setoid_rewrite ContainsVersion_spec. }
    destruct (psCompatibilityOverride (plgSpec p)) as [[[] vs]|]; cbn [coEnabled coMinecraftVersions negb].
    - rewrite <- ContainsVersion_spec.
      destruct vs, (pgAvailableVersions (plgStatus p)); cbn [length Nat.ltb Nat.leb Nat.eqb andb]; naive_solver.
    - rewrite <- Hv. destruct (pgAvailableVersions (plgStatus p)); cbn [length Nat.eqb andb]; naive_solver.
    - rewrite <- Hv. destruct (pgAvailableVersions (plgStatus p)); cbn [length Nat.eqb andb]; naive_solver. }
  assert (Hrest : pluginAccepts v p -> match checkPluginCompatibility v ps with
    | (true, _, _) => forall q, q ∈ p :: ps -> pluginAccepts v q
    | (false, name, _) => exists q, q ∈ p :: ps /\ plgName q = name /\ ~ pluginAccepts v q
    end).
  { intros Hp. destruct (checkPluginCompatibility v ps) as [[[] name] reason].
    - intros q [->|Hq]%elem_of_cons; auto.
    - destruct IH as (q & ? & ?). exists q. split; [by right | done]. }
  destruct (_ && _) eqn:E1; [apply Hrest, Hacc; by left|].
  destruct (isPluginCompatibleWithPaper p v) eqn:E2; cbn [negb]; [apply Hrest, Hacc; by right|].
  exists p. split_and!; [by left | done |]. intros [?|?]%Hacc; congruence.
Qed.

(** The fields that resolution leaves alone. *)
Definition frame (s s' : PaperMCServer) : Prop :=
  srvMeta s' = srvMeta s /\ srvSpec s' = srvSpec s /\
  stDesiredVersion (srvStatus s') = stDesiredVersion (srvStatus s) /\
  stDesiredBuild (srvStatus s') = stDesiredBuild (srvStatus s) /\
  stCurrentVersion (srvStatus s') = stCurrentVersion (srvStatus s) /\
  stCurrentBuild (srvStatus s') = stCurrentBuild (srvStatus s) /\
  stPlugins (srvStatus s') = stPlugins (srvStatus s).

Lemma frame_refl s : frame s s.
Proof. done. Qed.

Lemma frame_trans s t u : frame s t -> frame t u -> frame s u.
Proof. unfold frame. intuition congruence. Qed.

#[export] Hint Resolve frame_refl : mc.

(** Evidence in the history that the image of a version and build exists. *)
Definition imageKnown {SV : Semver} (h : list event) (v : string) (b : Z) : Prop :=
  Ev (E := K8s) (RImageExists repository (tagFor v b)) (Ok true) ∈ h \/
  exists tags, Ev (E := K8s) (RListTags repository 0) (Ok tags) ∈ h /\
    findLatestVersionFromTags tags = Ok (v, b).

Lemma imageKnown_app {SV : Semver} h tr v b : imageKnown h v b -> imageKnown (h ++ tr) v b.
Proof.
  intros [?|(tags & ? & ?)]; [left | right; exists tags; split; [|done]]; apply elem_of_app; by left.
Qed.

Section facts.
Context {SV : Semver} {SL : SemverLaws} {MC : MetaConditions} {SO : Solver}.

(** The outcome of resolution started on [server]. *)
Definition resolvedOk (server : PaperMCServer) (plugins : list Plugin) (h : list event)
    (x : PaperMCServer * result (string * Z)) : Prop :=
  frame server x.1 /\
  match x.2 with
  | Ok (v, b) => stUpdateBlocked (srvStatus x.1) = None /\ upgradeAllowed server v /\
      (forall p, p ∈ plugins -> pluginAccepts v p) /\ imageKnown h v b
  | Err _ => True
  end.

Lemma upgradeAllowed_frame s t v : frame s t -> upgradeAllowed t v -> upgradeAllowed s v.
Proof. unfold frame, upgradeAllowed. intros (_ & _ & _ & _ & -> & _). done. Qed.

(** The gates as a rule: the continuation starts on a server with the same
    frame, knowing that the candidate passed both gates. *)
Lemma wp_gated server v plugins k Q h :
  (forall h' s', frame server s' -> upgradeAllowed server v ->
     (forall p, p ∈ plugins -> pluginAccepts v p) -> (exists tr, h' = h ++ tr) -> wp (k s') Q h') ->
  (forall h' s' e, frame server s' -> Q h' (s', Err e)) ->
  wp (gated server v plugins k) Q h.
Proof.
  intros Hk He. unfold gated.
  assert (Hcompat : upgradeAllowed server v ->
    wp (y <- checkCompatibility server v plugins ;;
        match y with (s, Err e) => Ret (s, Err e) | (s, Ok _) => k s end) Q h).
  { intros Hu. unfold checkCompatibility.
    pose proof (checkPluginCompatibility_spec v plugins) as Hc.
    destruct (checkPluginCompatibility v plugins) as [[[] name] reason].
    - apply Hk; try done. exists []. by rewrite app_nil_r.
    - wp_go. by apply He. }
  unfold checkDowngrade.
  destruct (String.eqb_spec (stCurrentVersion (srvStatus server)) "").
  { apply Hcompat. by left. }
  destruct (String.eqb_spec (stCurrentVersion (srvStatus server)) updateStrategyLatest).
  { apply Hcompat. by right; left. }
  destruct (IsDowngrade _ v) as [[]|e] eqn:Ed.
  - wp_go. by apply He.
  - apply Hcompat. right; right. by apply IsDowngrade_false.
  - by apply He.
Qed.

(** Resolution ends: the image is known, the block is cleared. *)
Lemma wp_resolved_end server s plugins v b h :
  frame server s -> upgradeAllowed server v -> (forall p, p ∈ plugins -> pluginAccepts v p) ->
  imageKnown h v b ->
  wp (s <- clearUpdateBlocked s ;; Ret (s, Ok (v, b))) (resolvedOk server plugins) h.
Proof.
  intros Hf Hu Hp Hi. wp_go. split; [exact Hf|]. split_and!; try done. by apply imageKnown_app.
Qed.

Lemma imageKnown_last h v b :
  imageKnown (h ++ [Ev (E := K8s) (RImageExists repository (tagFor v b)) (Ok true)]) v b.
Proof. left. apply elem_of_app. right. by left. Qed.

Lemma wp_resolveLatest server plugins h :
  wp (resolveLatestVersion server plugins) (resolvedOk server plugins) h.
Proof.
  unfold resolveLatestVersion. wp_go. destruct y as [tags|e]; [|done].
  destruct (findLatestVersionFromTags tags) as [[v b]|e] eqn:Ef; [|done].
  apply wp_gated; [|by intros ???? ].
  intros h' s' Hf Hu Hp [tr ->]. apply wp_resolved_end; try done.
  apply imageKnown_app. right. exists tags. split; [|done]. apply elem_of_app. right. by left.
Qed.

Lemma wp_findExistingBuild server s plugins v builds h :
  frame server s -> upgradeAllowed server v -> (forall p, p ∈ plugins -> pluginAccepts v p) ->
  wp (findExistingBuild s v builds) (resolvedOk server plugins) h.
Proof.
  intros Hf Hu Hp. revert h; induction builds as [|b bs IH]; intros h; [done|].
  cbn [findExistingBuild]. unfold ask. cbn [bind call wp]. intros [[]|e]; [|apply IH..].
  apply wp_resolved_end; try done. apply imageKnown_last.
Qed.

Lemma wp_resolveVersionOnly server plugins v h :
  wp (resolveVersionOnlyMode server v plugins) (resolvedOk server plugins) h.
Proof.
  unfold resolveVersionOnlyMode. apply wp_gated; [|by intros ????].
  intros h' s' Hf Hu Hp _. unfold ask. cbn [bind call wp]. intros [bs|e]; [|done].
  by apply wp_findExistingBuild.
Qed.

Lemma wp_resolvePinned server plugins v bs full h :
  wp (resolvePinnedVersionBuild server v bs full plugins) (resolvedOk server plugins) h.
Proof.
  unfold resolvePinnedVersionBuild. destruct (Atoi bs) as [b|]; [|done].
  apply wp_gated; [|by intros ????].
  intros h' s' Hf Hu Hp _. unfold ask. cbn [bind call wp]. intros [[]|e]; [| |done].
  - apply wp_resolved_end; try done. apply imageKnown_last.
  - wp_go. split; [exact Hf | done].
Qed.

Lemma wp_findVersionUpdate server plugins h :
  wp (findVersionUpdate server plugins) (fun _ x => frame server x.1) h.
Proof.
  unfold findVersionUpdate. wp_go. destruct y as [vs|e]; [|done]. wp_go.
  destruct (FindBestPaperVersion _ plugins vs) as [best|e]; wp_go; [|done].
  destruct (_ || _); [done|]. wp_go. wp_case; [|done].
  apply wp_bind. eapply wp_mono; [|apply wp_true]. intros h1 pairs _. wp_go. done.
Qed.

Lemma wp_findAvailableUpdate server plugins h :
  wp (findAvailableUpdate server plugins) (fun _ x => frame server x.1) h.
Proof.
  unfold findAvailableUpdate. destruct (_ || _); [apply wp_findVersionUpdate|].
  destruct (_ =? updateStrategyPin)%string.
  - apply wp_bind. eapply wp_mono; [|apply wp_true]. done.
  - by destruct (_ =? updateStrategyBuildPin)%string.
Qed.

Lemma wp_resolveAuto server plugins h :
  wp (resolveAutoVersion server plugins) (resolvedOk server plugins) h.
Proof.
  unfold resolveAutoVersion. apply wp_bind. eapply wp_mono; [|apply wp_findAvailableUpdate].
  intros h1 [s1 [[u|]|e]] Hf1; cbn [fst] in Hf1; [|done|done].
  apply wp_gated; [|intros h' s' e Hf; split; [by eapply frame_trans | done]].
  intros h' s' Hf Hu Hp _. unfold ask. cbn [bind call wp].
  assert (Hf' : frame server s') by by eapply frame_trans.
  intros [[]|e]; [|done|done]. apply wp_resolved_end; try done; [|apply imageKnown_last].
  exact (upgradeAllowed_frame _ _ _ Hf1 Hu).
Qed.

Lemma wp_resolveDesired server plugins h :
  wp (resolveDesiredPaperVersion server plugins) (resolvedOk server plugins) h.
Proof.
  unfold resolveDesiredPaperVersion.
  destruct (_ =? updateStrategyLatest)%string; [apply wp_resolveLatest|].
  destruct (_ =? updateStrategyAuto)%string; [apply wp_resolveAuto|].
  destruct (_ =? updateStrategyPin)%string.
  { destruct (_ =? "")%string; [done | apply wp_resolveVersionOnly]. }
  destruct (_ =? updateStrategyBuildPin)%string; [|done].
  destruct (_ =? "")%string; [done|]. destruct (ssBuild _); [apply wp_resolvePinned | done].
Qed.
End facts.

(** ** Properties *)

Section theorems.
Context {SV : Semver} {SL : SemverLaws} {MC : MetaConditions} {SO : Solver}.


(** The search of [findExistingBuild]: the build it answers has an image and
    every build before it in the list was asked for and refused. *)
Lemma wp_findExisting_latest s v builds h :
  wp (findExistingBuild s v builds) (fun h' x => forall v' b, x.2 = Ok (v', b) ->
    v' = v /\ exists l1 l2, builds = l1 ++ b :: l2 /\
      Ev (E := K8s) (RImageExists repository (tagFor v b)) (Ok true) ∈ h' /\
      forall n, n ∈ l1 -> exists a, a <> Ok true /\
        Ev (E := K8s) (RImageExists repository (tagFor v n)) a ∈ h') h.
Proof.
  revert h. induction builds as [|b bs IH]; intros h; [done|].
  cbn [findExistingBuild]. unfold ask. cbn [bind call wp]. intros a.
  assert (Hmiss : a <> Ok true -> wp (findExistingBuild s v bs) (fun h' x => forall v' b', x.2 = Ok (v', b') ->
    v' = v /\ exists l1 l2, b :: bs = l1 ++ b' :: l2 /\
      Ev (E := K8s) (RImageExists repository (tagFor v b')) (Ok true) ∈ h' /\
      forall n, n ∈ l1 -> exists a, a <> Ok true /\
        Ev (E := K8s) (RImageExists repository (tagFor v n)) a ∈ h')
      (h ++ [Ev (E := K8s) (RImageExists repository (tagFor v b)) a])).
  { intros Ha. eapply wp_mono; [|apply wp_extends, IH].
    intros h' x [(tr & -> & _) Hx] v' b' Heq.
    destruct (Hx v' b' Heq) as (-> & l1 & l2 & -> & Hin & Hall). split; [done|].
    exists (b :: l1), l2. split_and!; [done | done |].
    intros n [->|Hn]%elem_of_cons; [|by apply Hall]. exists a. split; [done|].
    apply elem_of_app. left. apply elem_of_app. right. by left. }
  destruct a as [[]|e]; [|by apply Hmiss..]. clear Hmiss. wp_go.
  simplify_eq/=. split; [done|]. exists [], bs. split_and!; [done | | set_solver].
  apply elem_of_app. left. apply elem_of_app. right. by left.
Qed.

(** With the "pin" strategy the answered build is the last of the version's
    builds, in the order the Paper API lists them, whose image the registry
    confirms: every later build of the list was asked for in this run and not
    confirmed. *)
Theorem resolveVersionOnlyMode_latest server v plugins tr server' v' b :
  runs (resolveVersionOnlyMode server v plugins) tr (server', Ok (v', b)) ->
  v' = v /\ exists older newer,
    Ev (E := K8s) (RBuilds v) (Ok (older ++ b :: newer)) ∈ tr /\
    Ev (E := K8s) (RImageExists repository (tagFor v b)) (Ok true) ∈ tr /\
    forall n, n ∈ newer -> exists a, a <> Ok true /\
      Ev (E := K8s) (RImageExists repository (tagFor v n)) a ∈ tr.
Proof.
  intros Hr. revert Hr.
  enough (H : wp (resolveVersionOnlyMode server v plugins) (fun tr x => forall v' b, x.2 = Ok (v', b) ->
    v' = v /\ exists older newer,
      Ev (E := K8s) (RBuilds v) (Ok (older ++ b :: newer)) ∈ tr /\
      Ev (E := K8s) (RImageExists repository (tagFor v b)) (Ok true) ∈ tr /\
      forall n, n ∈ newer -> exists a, a <> Ok true /\
        Ev (E := K8s) (RImageExists repository (tagFor v n)) a ∈ tr) []).
  { intros Hr. exact (proj1 (wp_runs _ _ _) H tr _ Hr v' b eq_refl). }
  unfold resolveVersionOnlyMode. apply wp_gated; [|by intros ????].
  intros h' s' _ _ _ _. unfold ask. cbn [bind call wp]. intros [bs|e]; [|done].
  eapply wp_mono; [|apply wp_extends, wp_findExisting_latest].
  intros h2 x [(tr2 & -> & _) Hx] w c Heq.
  destruct (Hx w c Heq) as (-> & l1 & l2 & Hbs & Hin & Hall). split; [done|].
  exists (rev l2), (rev l1). split_and!; [| done |].
  - assert (rev l2 ++ c :: rev l1 = bs) as ->.
    { rewrite <- (rev_involutive bs), Hbs, rev_app_distr. simpl. by rewrite <- app_assoc. }
    apply elem_of_app. left. apply elem_of_app. right. by left.
  - intros n Hn. apply Hall. apply list_elem_of_In. apply list_elem_of_In in Hn.
    by apply in_rev.
Qed.

(** A candidate that would be a downgrade, or that a matched plugin does not
    accept, is refused before anything is asked of a registry: the answer is an
    error, the continuation does not run, the blocked flag is raised with its
    condition, and nothing else of the server changes. *)
Theorem gated_refuses {ML : MetaConditionsLaws} server v plugins k tr server' r :
  runs (gated server v plugins k) tr (server', r) ->
  let current := stCurrentVersion (srvStatus server) in
  (current <> "" /\ current <> updateStrategyLatest /\ IsDowngrade current v = Ok true) \/
  (upgradeAllowed server v /\ exists p, p ∈ plugins /\ ~ pluginAccepts v p) ->
  isOk r = false /\ (exists now, tr = [Ev (E := K8s) RNow now]) /\ frame server server' /\
  (exists reason by_, stUpdateBlocked (srvStatus server') = Some (MkUpdateBlockedStatus true reason by_)) /\
  conditionStatus (stConditions (srvStatus server')) conditionTypeUpdateBlocked = Some ConditionTrue.
Proof.
  intros Hr current [(Hne & Hnl & Hd)|(Hu & p & Hp & Hna)].
  - unfold gated, checkDowngrade in Hr. fold current in Hr.
    rewrite (proj2 (String.eqb_neq _ _) Hne), (proj2 (String.eqb_neq _ _) Hnl), Hd in Hr.
    cbn in Hr. destruct Hr as (now & tr' & -> & -> & [= -> ->]).
    split_and!; [done | by exists now | done | by eexists _, _ |].
    cbn. apply (conditionStatus_set now _ (MkCondition _ _ _ _ _ _)).
  - assert (Hg : checkDowngrade server v = Ret (server, Ok tt)).
    { unfold checkDowngrade. fold current.
      destruct (String.eqb_spec current ""); [done|].
      destruct (String.eqb_spec current updateStrategyLatest); [done|].
      destruct Hu as [?|[?|Htl]]; [done..|]. fold current in Htl. by rewrite (tag_le_IsDowngrade _ _ Htl). }
    unfold gated in Hr. rewrite Hg in Hr. cbn [bind] in Hr.
    unfold checkCompatibility in Hr.
    pose proof (checkPluginCompatibility_spec v plugins) as Hc.
    destruct (checkPluginCompatibility v plugins) as [[[] name] reason];
      [by destruct (Hna (Hc p Hp))|].
    cbn in Hr. destruct Hr as (now & tr' & -> & -> & [= -> ->]).
    split_and!; [done | by exists now | done | by eexists _, _ |].
    cbn. apply (conditionStatus_set now _ (MkCondition _ _ _ _ _ _)).
Qed.
End theorems.

(** ** Plugin versions of a server *)

(** The entry of the lookup map under a key: the last one of the list. *)
Lemma statusMap_lookup l k :
  statusMap l !! k =
  List.find (fun p => (refKey (prNamespace (spPluginRef p)) (prName (spPluginRef p)) =? k)%string) (rev l).
Proof.
  unfold statusMap. induction l as [|p l IH] using rev_ind; [done|].
  rewrite foldl_app, rev_app_distr. cbn [foldl rev app List.find].
  destruct (String.eqb_spec (refKey (prNamespace (spPluginRef p)) (prName (spPluginRef p))) k) as [->|Hne].
  - by rewrite lookup_insert_eq.
  - by rewrite lookup_insert_ne.
Qed.

Section plugin_theorems.
Context {SV : Semver} {SL : SemverLaws} {SO : Solver} {SS : SolverSpec SO}.

Lemma keepByName_in all filtered v : v ∈ keepByName all filtered -> v ∈ all.
Proof.
  unfold keepByName. intros (f & _ & Hf)%list_elem_of_omap. by apply find_some_elem in Hf as [? _].
Qed.

(** What a resolved version is. *)
Definition resolvedFor (server : PaperMCServer) (plugin : Plugin) (r : result string) : Prop :=
  forall v, r = Ok v ->
    (v = "" /\ pgAvailableVersions (plgStatus plugin) = []) \/
    (v <> "" /\ exists i, i ∈ pgAvailableVersions (plgStatus plugin) /\ viVersion i = v /\
      (psVersion (plgSpec plugin) = v \/ pluginCompatible plugin (toPluginVersion i) server)).

(** A name among the cached versions is that of one of them. *)
Lemma cached_version plugin pv :
  pv ∈ map toPluginVersion (pgAvailableVersions (plgStatus plugin)) ->
  exists i, i ∈ pgAvailableVersions (plgStatus plugin) /\ viVersion i = pvVer pv /\ pv = toPluginVersion i.
Proof. intros (i & -> & Hi)%list_elem_of_fmap. by exists i. Qed.

Lemma wp_solveForServer server plugin l h :
  ~ isPluginPin (psUpdateStrategy (plgSpec plugin)) ->
  (forall pv, pv ∈ l -> pv ∈ map toPluginVersion (pgAvailableVersions (plgStatus plugin))) ->
  wp (solveForServer server plugin l) (fun _ => resolvedFor server plugin) h.
Proof.
  intros Hpin Hl. unfold solveForServer. destruct (length l =? 0)%nat; [done|]. wp_go.
  destruct (FindBestPluginVersion _ plugin [server] l) as [w|e] eqn:Ef; [|done].
  destruct (String.eqb_spec w ""); [done|]. cbn [wp]. intros u [= <-]. right. split; [done|].
  apply plugin_solved in Ef as [(_ & _ & Hp)|(pv & Hin & Hv & [_ Hc] & _)]; [done|].
  destruct (cached_version plugin pv (Hl pv Hin)) as (i & Hi & Hvi & ->). exists i.
  split_and!; [done | congruence | right; apply Hc; by left].
Qed.


(** The status entry of a plugin, field by field. *)
Definition entryOk (server : PaperMCServer) (p : Plugin) (e : ServerPluginStatus) : Prop :=
  spPluginRef e = MkPluginRef (plgName p) (plgNamespace p) /\
  spSource e = soType (psSource (plgSpec p)) /\
  spDesiredVersion e = spResolvedVersion e /\
  (spCompatible e = true <-> spResolvedVersion e <> "") /\
  (spResolvedVersion e <> "" ->
    exists tr, runs (resolvePluginVersionForServer server p) tr (Ok (spResolvedVersion e))) /\
  match List.find (fun q => (refKey (prNamespace (spPluginRef q)) (prName (spPluginRef q)) =?
                             refKey (plgNamespace p) (plgName p))%string)
          (rev (stPlugins (srvStatus server))) with
  | Some prev => spInstalledJARName e = spInstalledJARName prev /\
      spCurrentVersion e = spCurrentVersion prev /\ spPendingDeletion e = spPendingDeletion prev
  | None => spInstalledJARName e = "" /\ spCurrentVersion e = "" /\ spPendingDeletion e = false
  end.

Lemma pluginStatusEntry_ok server p v :
  (v <> "" -> exists tr, runs (resolvePluginVersionForServer server p) tr (Ok v)) ->
  entryOk server p (pluginStatusEntry (statusMap (stPlugins (srvStatus server))) p v).
Proof.
  intros Hv. unfold entryOk, pluginStatusEntry. rewrite statusMap_lookup.
  destruct (List.find _ _); simpl_upd; split_and!; try done;
    destruct (String.eqb_spec v ""); naive_solver.
Qed.

(** [buildPluginStatus] answers one entry per matched plugin, in order.  The
    resolved and desired versions are the version just resolved for this server
    (empty, and then marked incompatible, if resolution failed), and the fields
    owned by the other controllers - installed JAR, current version, pending
    deletion - are carried over from the plugin's last entry in the previous
    status. *)
Theorem buildPluginStatus_correct server plugins tr l :
  runs (buildPluginStatus server plugins) tr l -> Forall2 (entryOk server) plugins l.
Proof.
  intros Hr. refine (proj1 (wp_runs _ (fun _ l => Forall2 (entryOk server) plugins l) []) _ tr l Hr).
  unfold buildPluginStatus.
  set (I := fun (rest : list Plugin) (s : list ServerPluginStatus) (_ : list event) =>
    exists seen, plugins = seen ++ rest /\ Forall2 (entryOk server) seen s).
  eapply wp_mono; [|apply (wp_foldP _ I); [|by exists []]].
  - intros h s (seen & -> & Hs). by rewrite app_nil_r.
  - intros p rest s h (seen & -> & Hs). apply wp_bind, wp_runs. intros tr' r Hrun.
    cbn [wp]. exists (seen ++ [p]). split; [by rewrite <- app_assoc|].
    apply Forall2_app; [done|]. constructor; [|constructor].
    apply pluginStatusEntry_ok. destruct r as [v|e]; [by eexists | done].
Qed.
End plugin_theorems.

(** ** A gap between the documents and the gate

    The design documents say that a plugin without version metadata is taken as
    compatible with a warning; the solver does so for a single plugin version
    ([isPluginCompatibleWithServer]).  The two checks on candidate Paper
    versions do not. *)

(** A plugin without override whose cached versions all lack Minecraft
    versions is compatible with every server as far as the choice of the plugin's
    version goes, and yet it blocks every candidate Paper version: the gate
    refuses the candidate and the solver finds no Paper version at all. *)
Theorem metadata_free_plugin_blocks {SV : Semver} {SL : SemverLaws} plugin :
  psCompatibilityOverride (plgSpec plugin) = None ->
  pgAvailableVersions (plgStatus plugin) <> [] ->
  (forall i, i ∈ pgAvailableVersions (plgStatus plugin) -> viMinecraftVersions i = []) ->
  (forall i server, i ∈ pgAvailableVersions (plgStatus plugin) ->
     pluginCompatible plugin (toPluginVersion i) server) /\
  (forall v plugins, plugin ∈ plugins -> (checkPluginCompatibility v plugins).1.1 = false) /\
  (forall server plugins versions v, plugin ∈ plugins ->
     isSolvedStrategy (orLatest (ssUpdateStrategy (srvSpec server))) ->
     Simple.FindBestPaperVersion server plugins versions <> Ok v).
Proof.
  intros Hov Hne Hmc.
  assert (Hno : forall v, ~ supports ([] : list string) v) by (intros v (w & Hw & _); set_solver).
  split_and!.
  - intros i server Hi. unfold pluginCompatible. rewrite Hov. left. split; [exact (Hmc i Hi) | reflexivity].
  - intros v plugins Hp. pose proof (checkPluginCompatibility_spec v plugins) as Hc.
    destruct (checkPluginCompatibility v plugins) as [[[] name] reason]; [|done].
    specialize (Hc plugin Hp). unfold pluginAccepts in Hc. rewrite Hov in Hc.
    destruct Hc as [?|(i & Hi & Hs)]; [done|]. rewrite (Hmc i Hi) in Hs. by destruct (Hno v).
  - intros server plugins versions v Hp Hs Hf.
    apply (paper_solved (S := Simple.SimpleSolver)) in Hf as (_ & Hc & _); [|done].
    destruct (Hc plugin Hp) as [?|(i & Hi & Hsup)]; [done|].
    rewrite (Hmc i Hi) in Hsup. by destruct (Hno v).
Qed.

(** ** The theorems on concrete runs *)

Section witnesses.
Existing Instance Dotted.semver.
Existing Instance Dotted.semver_laws.
Existing Instance ListConditions.conditions.
Existing Instance ListConditions.conditions_laws.
Existing Instance Simple.SimpleSolver.

(** A registry with two images; version 1.21.4 has builds 1, 2, 3. *)
Definition registry (h : list event) (r : kreq) : kans r :=
  match r return kans r with
  | RListTags _ _ => Ok ["1.20.6-151"; "1.21.4-2"; "latest"]
  | RBuilds _ => Ok [1; 2; 3]
  | RImageExists _ tag => if (tag =? "1.21.4-2")%string then Ok true else Ok false
  | r => idle r
  end.

Definition demoServer (strategy version current : string) : PaperMCServer :=
  zeroPaperMCServer
    <| srvSpec := zeroPaperMCServerSpec <| ssUpdateStrategy := strategy |> <| ssVersion := version |> |>
    <| srvStatus := zeroPaperMCServerStatus <| stCurrentVersion := current |> |>.

Definition demoPlugin : Plugin :=
  zeroPlugin <| plgStatus := zeroPluginStatus <| pgAvailableVersions :=
    [MkPluginVersionInfo "2.0" ["1.21.x"] "" "" 0 0] |> |>.


Lemma resolveVersionOnlyMode_latest_witness :
  let p := resolveVersionOnlyMode (demoServer "pin" "1.21.4" "") "1.21.4" [demoPlugin] in
  let run := exec registry p [] in
  runs p run.1 (run.2.1, Ok ("1.21.4", 2)) /\
  ("1.21.4" : string) = "1.21.4" /\ exists older newer,
    Ev (E := K8s) (RBuilds "1.21.4") (Ok (older ++ 2 :: newer)) ∈ run.1 /\
    Ev (E := K8s) (RImageExists repository (tagFor "1.21.4" 2)) (Ok true) ∈ run.1 /\
    forall n, n ∈ newer -> exists a, a <> Ok true /\
      Ev (E := K8s) (RImageExists repository (tagFor "1.21.4" n)) a ∈ run.1.
Proof.
  cbv zeta.
  set (p := resolveVersionOnlyMode (demoServer "pin" "1.21.4" "") "1.21.4" [demoPlugin]).
  assert (Hr : runs p (exec registry p []).1 ((exec registry p []).2.1, Ok ("1.21.4", 2))).
  { assert (Hv : (exec registry p []).2.2 = Ok ("1.21.4", 2)) by (vm_compute; reflexivity).
    rewrite <- Hv, <- surjective_pairing. apply exec_runs. }
  split; [exact Hr|]. exact (resolveVersionOnlyMode_latest _ _ _ _ _ _ _ Hr).
Defined.

(** The current version is above the candidate. *)
Lemma gated_refuses_witness :
  let server := demoServer "pin" "1.20.6" "1.21.4" in
  let p := gated server "1.20.6" [] (fun s => Ret (s, Ok ("1.20.6", 1))) in
  let run := exec registry p [] in
  (stCurrentVersion (srvStatus server) <> "" /\
   stCurrentVersion (srvStatus server) <> updateStrategyLatest /\
   IsDowngrade (stCurrentVersion (srvStatus server)) "1.20.6" = Ok true) /\
  (isOk run.2.2 = false /\ (exists now, run.1 = [Ev (E := K8s) RNow now]) /\ frame server run.2.1 /\
   (exists reason by_, stUpdateBlocked (srvStatus run.2.1) = Some (MkUpdateBlockedStatus true reason by_)) /\
   conditionStatus (stConditions (srvStatus run.2.1)) conditionTypeUpdateBlocked = Some ConditionTrue).
Proof.
  cbv zeta. set (server := demoServer "pin" "1.20.6" "1.21.4").
  set (p := gated server "1.20.6" [] (fun s => Ret (s, Ok ("1.20.6", 1)))).
  assert (Hr : runs p (exec registry p []).1 ((exec registry p []).2.1, (exec registry p []).2.2)).
  { rewrite <- surjective_pairing. apply exec_runs. }
  assert (Hd : stCurrentVersion (srvStatus server) <> "" /\
   stCurrentVersion (srvStatus server) <> updateStrategyLatest /\
   IsDowngrade (stCurrentVersion (srvStatus server)) "1.20.6" = Ok true).
  { split_and!; vm_compute; first [discriminate | reflexivity]. }
  split; [exact Hd|].
  exact (gated_refuses server "1.20.6" [] _ _ _ _ Hr (or_introl Hd)).
Defined.


Lemma buildPluginStatus_correct_witness :
  let server := demoServer "latest" "" "1.21.4" in
  let p := buildPluginStatus server [demoPlugin] in
  map spResolvedVersion (exec registry p []).2 = ["2.0"] /\
  runs p (exec registry p []).1 (exec registry p []).2 /\
  Forall2 (entryOk server) [demoPlugin] (exec registry p []).2.
Proof.
  cbv zeta. set (server := demoServer "latest" "" "1.21.4").
  set (p := buildPluginStatus server [demoPlugin]).
  assert (Hr : runs p (exec registry p []).1 (exec registry p []).2) by apply exec_runs.
  split; [vm_compute; reflexivity|]. split; [exact Hr|].
  exact (buildPluginStatus_correct server [demoPlugin] _ _ Hr).
Defined.

Lemma metadata_free_plugin_blocks_witness :
  let plugin := zeroPlugin <| plgStatus := zeroPluginStatus <| pgAvailableVersions :=
                  [MkPluginVersionInfo "2.0" [] "" "" 0 0] |> |> in
  psCompatibilityOverride (plgSpec plugin) = None /\
  (checkPluginCompatibility "1.21.4" [plugin]).1.1 = false /\
  Simple.FindBestPaperVersion (demoServer "latest" "" "") [plugin] ["1.21.4"] <> Ok "1.21.4".
Proof.
  cbv zeta. set (plugin := zeroPlugin <| plgStatus := _ |>).
  split; [reflexivity|].
  assert (H : (forall i server, i ∈ pgAvailableVersions (plgStatus plugin) ->
     pluginCompatible plugin (toPluginVersion i) server) /\
    (forall v plugins, plugin ∈ plugins -> (checkPluginCompatibility v plugins).1.1 = false) /\
    (forall server plugins versions v, plugin ∈ plugins ->
     isSolvedStrategy (orLatest (ssUpdateStrategy (srvSpec server))) ->
     Simple.FindBestPaperVersion server plugins versions <> Ok v)).
  { apply (metadata_free_plugin_blocks plugin); [reflexivity | discriminate |].
    intros i [->|Hi]%elem_of_cons; [reflexivity | by apply not_elem_of_nil in Hi]. }
  destruct H as (_ & H2 & H3). split; [apply H2; by left|]. apply H3; [by left | by right].
Defined.
End witnesses.
