(* ===== verification/Snapshots.v ===== *)
(** * Package [pkg/backup]: RCON hooks and VolumeSnapshots

    [hooks.go]: the commands around a snapshot.  [snapshotter.go]: creation,
    listing and retention of VolumeSnapshots.  [sort.Slice] is a parameter with
    its documented law, since it is not stable. *)

From S2P Require Import Prelude GoBase GoLib Api Plugins Effects K8s Rcon.
From Stdlib Require Import Sorting.Sorted.

Open Scope Z_scope.

(** ** hooks.go *)

Definition SaveFlushDelay : Duration := 2 * Second.

Definition PreSnapshotHook (c : RCONClient) : prog (result unit) :=
  ce <- ask RCtxErr ;;
  match ce with
  | Some e => Ret (Err e)
  | None =>
      x <- SendCommand CtxCaller c "save-all" ;;
      match x with
      | Err e => Ret (Err (ErrWrap e "failed to execute save-all"))
      | Ok _ =>
          s <- ask (RSleep SaveFlushDelay) ;;
          match s with
          | Some e => Ret (Err e)
          | None =>
              x <- SendCommand CtxCaller c "save-off" ;;
              match x with
              | Err e => Ret (Err (ErrWrap e "failed to execute save-off"))
              | Ok _ => Ret (Ok tt)
              end
          end
      end
  end.

(** The hook ignores the caller's context and makes its own. *)
Definition PostSnapshotHook (c : RCONClient) : prog (result unit) :=
  x <- SendCommand CtxFresh c "save-on" ;;
  match x with
  | Err e => Ret (Err (ErrWrap e "failed to execute save-on"))
  | Ok _ => Ret (Ok tt)
  end.

(** ** snapshotter.go *)

Definition LabelServerName : string := "mc.k8s.lex.la/server-name".
Definition LabelTrigger : string := "mc.k8s.lex.la/backup-trigger".
Definition LabelManagedBy : string := "app.kubernetes.io/managed-by".

Record SnapshotRequest := MkSnapshotRequest {
  sqNamespace : string;
  sqPVCName : string;
  sqServerName : string;
  sqVolumeSnapshotClassName : string;
  sqTrigger : string;
  sqTimestamp : Time;
  sqOwnerReferences : list string
}.

Definition snapshotLabels (serverName : string) : gmap string string :=
  <[LabelServerName := serverName]> {[LabelManagedBy := "minecraft-operator"]}.

Definition CreateSnapshot (q : SnapshotRequest) : prog (result string) :=
  now <- (if IsZero (sqTimestamp q) then ask RNow else Ret (sqTimestamp q)) ;;
  let namePrefix := sqServerName q +:+ "-backup-" +:+ pretty (UnixSeconds now) +:+ "-" in
  let meta := zeroObjectMeta
    <| Namespace := sqNamespace q |>
    <| CreationTimestamp := now |>
    <| Labels := <[LabelTrigger := sqTrigger q]> (snapshotLabels (sqServerName q)) |> in
  let snapshot := MkVolumeSnapshot meta namePrefix (sqOwnerReferences q) (sqPVCName q)
    (if negb (sqVolumeSnapshotClassName q =? "")%string
     then Some (sqVolumeSnapshotClassName q) else None) in
  x <- ask (RCreateSnapshot snapshot) ;;
  match x with
  | Err e => Ret (Err (ErrWrap e "failed to create VolumeSnapshot"))
  | Ok created => Ret (Ok (Name (vsMeta created)))
  end.

Definition ListSnapshots (namespace serverName : string) : prog (result (list VolumeSnapshot)) :=
  x <- ask (RListSnapshots namespace (snapshotLabels serverName)) ;;
  Ret (wrap "failed to list VolumeSnapshots" x).

(** The deletion loop; [deleted] counts. *)
Fixpoint deleteSnapshots (snapshots : list VolumeSnapshot) (deleted : Z) : prog (Z * option error) :=
  match snapshots with
  | [] => Ret (deleted, None)
  | snap :: rest =>
      x <- ask (RDeleteSnapshot snap) ;;
      match x with
      | Err e => Ret (deleted, Some (ErrWrap e ("failed to delete snapshot " +:+ Name (vsMeta snap))))
      | Ok _ => deleteSnapshots rest (deleted + 1)
      end
  end.

Definition olderThan (a b : VolumeSnapshot) : bool :=
  CreationTimestamp (vsMeta a) <? CreationTimestamp (vsMeta b).

(** The number deleted and the error, if any.  A negative [maxCount] would index
    past the end of the slice, which panics. *)
Definition DeleteOldSnapshots {GS : GoSort} (namespace serverName : string) (maxCount : Z)
  : prog (Z * option error) :=
  x <- ListSnapshots namespace serverName ;;
  match x with
  | Err e => Ret (0, Some e)
  | Ok snapshots =>
      let n := Z.of_nat (length snapshots) in
      if n <=? maxCount then Ret (0, None)
      else
        let sorted := SortSlice olderThan snapshots in
        let toDelete := n - maxCount in
        r <- deleteSnapshots (take (Z.to_nat toDelete) sorted) 0 ;;
        match r with
        | (deleted, None) =>
            if n <? toDelete then Ret (deleted, Some (ErrNew "runtime error: index out of range"))
            else Ret (deleted, None)
        | r => Ret r
        end
  end.

(** ** Deletions of a run *)

Definition deletedSnapshot (e : event) : option VolumeSnapshot :=
  match reqOf e with RDeleteSnapshot s => Some s | _ => None end.

Definition deletions (tr : list event) : list VolumeSnapshot := omap deletedSnapshot tr.

Lemma wp_deleteSnapshots l d h :
  wp (deleteSnapshots l d) (fun h' x => exists l1 l2, l = l1 ++ l2 /\
    deletions h' = deletions h ++ l1 ++ (match x.2 with None => [] | Some _ => take 1 l2 end) /\
    x.1 = d + Z.of_nat (length l1) /\ (x.2 = None -> l2 = []) /\ (is_Some x.2 -> l2 <> [])) h.
Proof.
  revert d h. induction l as [|s l IH]; intros d h; cbn [deleteSnapshots].
  - exists [], []. cbn. rewrite app_nil_r, Z.add_0_r. split_and!; done.
  - unfold ask. cbn [bind call wp]. intros [[]|e].
    + eapply wp_mono; [|apply IH]. intros h' [n oe] (l1 & l2 & -> & Hd & Hn & He & He').
      exists (s :: l1), l2. split_and!; try done.
      * rewrite Hd. unfold deletions. rewrite omap_app. cbn. by rewrite <- app_assoc.
      * cbn [fst] in *. cbn [length]. lia.
    + exists [], (s :: l). unfold deletions. cbn. rewrite omap_app, Z.add_0_r. by split_and!.
Qed.

Section retention.
Context {GS : GoSort} {GL : GoSortLaws}.

(** C38: Retention never deletes a snapshot that is newer than one it keeps and never
    leaves fewer than [maxCount].  When the list and every deletion succeed it
    deletes exactly the [n - maxCount] oldest of the [n] listed snapshots (none
    if there are at most [maxCount]); on a failed deletion it stops there and
    reports how many it deleted. *)
Theorem DeleteOldSnapshots_retention ns name maxCount tr count err :
  0 <= maxCount ->
  runs (DeleteOldSnapshots ns name maxCount) tr (count, err) ->
  exists answer, hd_error tr = Some (Ev (E := K8s) (RListSnapshots ns (snapshotLabels name)) answer) /\
  match answer with
  | Err _ => deletions tr = [] /\ is_Some err
  | Ok listed => exists kept, listed ≡ₚ deletions tr ++ kept /\
      (forall d k, d ∈ deletions tr -> k ∈ kept ->
         CreationTimestamp (vsMeta d) <= CreationTimestamp (vsMeta k)) /\
      Z.min maxCount (Z.of_nat (length listed)) <= Z.of_nat (length kept) /\
      (err = None -> count = Z.of_nat (length (deletions tr)) /\
         Z.of_nat (length kept) = Z.min maxCount (Z.of_nat (length listed)))
  end.
Proof.
  intros Hmax Hr. unfold DeleteOldSnapshots, ListSnapshots, ask in Hr. cbn [bind call runs] in Hr.
  destruct Hr as (answer & tr' & -> & Hr). exists answer. split; [done|].
  destruct answer as [listed|e]; cbn [wrap] in Hr.
  2: { destruct Hr as [-> [= -> ->]]. split; [done | by eexists]. }
  destruct (Z.leb_spec (Z.of_nat (length listed)) maxCount) as [Hle|Hgt].
  { destruct Hr as [-> [= -> ->]]. exists listed. cbn. split_and!; [done | set_solver | lia |].
    intros _. split; [done | lia]. }
  set (sorted := SortSlice olderThan listed) in *.
  set (m := Z.to_nat (Z.of_nat (length listed) - maxCount)) in *.
  assert (Hperm : sorted ≡ₚ listed) by apply SortSlice_perm.
  assert (Hlen : length sorted = length listed) by by rewrite Hperm.
  apply runs_bind in Hr as (tr1 & [n oe] & tr2 & -> & H1 & H2).
  pose proof (proj1 (wp_runs _ _ []) (wp_deleteSnapshots (take m sorted) 0 []) tr1 _ H1)
    as (l1 & l2 & Heq & Hd & Hn & Hnone & Hsome).
  change (deletions []) with (@nil VolumeSnapshot) in Hd. cbn [fst snd app] in Hd, Hn, Hnone, Hsome.
  assert (Htr2 : tr2 = [] /\ (oe = None -> count = n /\ err = None) /\ (is_Some oe -> is_Some err)).
  { destruct oe; cbn in H2; [|destruct (Z.ltb_spec (Z.of_nat (length listed))
      (Z.of_nat (length listed) - maxCount)); [lia|]]; destruct H2 as [-> [= -> ->]];
      split_and!; try done; by intros [? ?]. }
  destruct Htr2 as (-> & Hoe & Hse). rewrite app_nil_r.
  assert (Hpre : exists k, take m sorted = deletions tr1 ++ k /\ (oe = None -> k = [])).
  { rewrite Heq, Hd. destruct oe as [e|].
    - exists (drop 1 l2). by rewrite <- app_assoc, take_drop.
    - exists []. rewrite (Hnone eq_refl). by rewrite !app_nil_r. }
  destruct Hpre as (k & Hk & Hkn).
  assert (Hall : sorted = deletions tr1 ++ (k ++ drop m sorted)).
  { rewrite app_assoc, <- Hk. by rewrite take_drop. }
  pose proof (f_equal length Hk) as Hlk. rewrite length_take, length_app in Hlk.
  pose proof (f_equal length Hall) as Hla. rewrite !length_app, length_drop in Hla.
  change (deletions (_ :: tr1)) with (deletions tr1).
  exists (k ++ drop m sorted). split_and!.
  - by rewrite <- Hall, Hperm.
  - intros x y. apply (StronglySorted_split
      (fun x y => CreationTimestamp (vsMeta x) <= CreationTimestamp (vsMeta y))).
    rewrite <- Hall. apply (SortSlice_sorted (fun s => CreationTimestamp (vsMeta s))).
  - rewrite length_app, length_drop. lia.
  - intros He. destruct oe as [e|]; [destruct (Hse (ex_intro _ e eq_refl)); congruence|].
    rewrite (Hkn eq_refl) in *. cbn in *. destruct (Hoe eq_refl) as [-> _].
    rewrite app_nil_r in Hd. rewrite length_drop, Hn, Hd in *. lia.
Qed.
End retention.

(** ** A run *)

Section witnesses.
Existing Instance InsertionSort.goSort.
Existing Instance InsertionSort.goSort_laws.

Definition snap (name : string) (t : Time) : VolumeSnapshot :=
  MkVolumeSnapshot (zeroObjectMeta <| Name := name |> <| CreationTimestamp := t |>) "" [] "" None.

Definition threeSnapshots (h : list event) (r : kreq) : kans r :=
  match r return kans r with
  | RListSnapshots _ _ => Ok [snap "c" 30; snap "a" 10; snap "b" 20]
  | r => idle r
  end.

Lemma DeleteOldSnapshots_retention_witness :
  let run := exec threeSnapshots (DeleteOldSnapshots "ns" "srv" 1) [] in
  map (fun s => Name (vsMeta s)) (deletions run.1) = ["a"; "b"] /\ run.2 = (2, None) /\
  exists answer, hd_error run.1 = Some (Ev (E := K8s) (RListSnapshots "ns" (snapshotLabels "srv")) answer) /\
  match answer with
  | Err _ => deletions run.1 = [] /\ is_Some run.2.2
  | Ok listed => exists kept, listed ≡ₚ deletions run.1 ++ kept /\
      (forall d k, d ∈ deletions run.1 -> k ∈ kept ->
         CreationTimestamp (vsMeta d) <= CreationTimestamp (vsMeta k)) /\
      Z.min 1 (Z.of_nat (length listed)) <= Z.of_nat (length kept) /\
      (run.2.2 = None -> run.2.1 = Z.of_nat (length (deletions run.1)) /\
         Z.of_nat (length kept) = Z.min 1 (Z.of_nat (length listed)))
  end.
Proof.
  cbv zeta. set (p := DeleteOldSnapshots "ns" "srv" 1).
  assert (Hr : runs p (exec threeSnapshots p []).1
    ((exec threeSnapshots p []).2.1, (exec threeSnapshots p []).2.2)).
  { rewrite <- surjective_pairing. apply exec_runs. }
  split; [vm_compute; reflexivity|]. split; [vm_compute; reflexivity|].
  apply (DeleteOldSnapshots_retention "ns" "srv" 1); [lia | exact Hr].
Defined.
End witnesses.
