(* ===== verification/Backup.v ===== *)
(** * Backup controller (internal/controller/backup_controller.go)

    Scheduled, manual and pre-update backups of a server's volume.  The cron
    entries of the reconciler are threaded as a state; the trigger times that cron
    callbacks write concurrently, and the per-server mutex, are requests. *)

From S2P Require Import Prelude GoBase GoLib Api Objects Plugins Conditions Effects K8s Rcon Snapshots.

Open Scope Z_scope.

Definition conditionTypeBackupCronValid : string := "BackupCronValid".
Definition conditionTypeBackupReady : string := "BackupReady".
Definition snapshotAPIRetryInterval : Duration := 5 * Minute.
Definition backupNowMaxAge : Duration := 5 * Minute.
Definition defaultMaxBackupCount : Z := 10.
Definition AnnotationBackupNow : string := "mc.k8s.lex.la/backup-now".

(** cron_types.go *)
Record cronEntryInfo := MkCronEntry { ceID : Z; ceSpec : string }.

(** [types.NamespacedName.String()] *)
Definition keyString (k : key) : string := k.1 +:+ "/" +:+ k.2.

(** ** Decisions *)

(** [now] is [r.now()]. *)
Definition shouldBackupNow (now : Time) (server : PaperMCServer) : bool :=
  match Annotations (srvMeta server) !! AnnotationBackupNow with
  | None => false
  | Some tsStr =>
      match SscanfD tsStr with
      | None => false
      | Some ts =>
          let age := Sub now (Unix ts) in
          negb ((backupNowMaxAge <? age) || (age <? - backupNowMaxAge))
      end
  end.

(** [trigger] is the entry of [cronTriggerTimes]. *)
Definition shouldRunScheduledBackup (trigger : option Time) (server : PaperMCServer) : bool :=
  match trigger with
  | None => false
  | Some triggerTime =>
      match stBackup (srvStatus server) with
      | Some b =>
          match bkLastBackup b with
          | Some lastBackup =>
              negb (bcSuccessful lastBackup && negb (Before (bcStartedAt lastBackup) triggerTime))
          | None => true
          end
      | None => true
      end
  end.

(** ** Connection to the server *)

Record rconConnInfo := MkRconConnInfo { rciHost : string; rciPassword : string; rciPort : Z }.

Definition getRCONConnInfo (server : PaperMCServer) : prog (result rconConnInfo) :=
  p <- ask (RGetPod (srvNamespace server, srvName server +:+ "-0")) ;;
  match p with
  | Err e => Ret (Err (ErrWrap e "failed to get pod for RCON connection"))
  | Ok pod =>
      if (podIP pod =? "")%string then Ret (Err (ErrNew "pod IP not available"))
      else
        let ref := rcPasswordSecret (ssRCON (srvSpec server)) in
        s <- ask (RGetSecret (srvNamespace server, skName ref)) ;;
        match s with
        | Err e => Ret (Err (ErrWrap e "failed to get RCON password secret"))
        | Ok data =>
            match data !! skKey ref with
            | None => Ret (Err (ErrNew ("key " +:+ skKey ref +:+ " not found in secret " +:+ skName ref)))
            | Some password =>
                let port := if rcPort (ssRCON (srvSpec server)) =? 0 then 25575
                            else rcPort (ssRCON (srvSpec server)) in
                Ret (Ok (MkRconConnInfo (podIP pod) password port))
            end
        end
  end.

Definition createBackupRCONClient (server : PaperMCServer) : prog (result RCONClient) :=
  i <- getRCONConnInfo server ;;
  match i with
  | Err e => Ret (Err e)
  | Ok info => Ret (wrap "failed to create RCON client"
                     (NewRCONClient (rciHost info) (rciPort info) (rciPassword info)))
  end.

(** ** Status *)

(** [server.Status = latest.Status; server.ResourceVersion = latest.ResourceVersion] *)
Definition copyStatus (server latest : PaperMCServer) : PaperMCServer :=
  server <| srvStatus := srvStatus latest |>
         <| srvMeta := (srvMeta server) <| ResourceVersion := ResourceVersion (srvMeta latest) |> |>.

(** [r.Status().Update(ctx, &s)]: the object as the call leaves it, and its error. *)
Definition statusUpdate (s : PaperMCServer) : prog (PaperMCServer * option error) :=
  u <- ask (RStatusServer s) ;;
  Ret (match u with Ok s' => (s', None) | Err e => (s, Some e) end).

Definition zeroBackupStatus' : BackupStatus := MkBackupStatus None 0.

Definition persistBackupStatus (server : PaperMCServer) (record : BackupRecord) (backupCount : Z)
  : prog PaperMCServer :=
  g <- ask (RGetServer (srvKey server)) ;;
  match g with
  | Err _ => Ret server
  | Ok latestServer =>
      let b := default zeroBackupStatus' (stBackup (srvStatus latestServer)) in
      let b := b <| bkLastBackup := Some record |> in
      let b := if 0 <=? backupCount then b <| bkBackupCount := backupCount |> else b in
      let latestServer := updStatus (fun st => st <| stBackup := Some b |>) latestServer in
      u <- statusUpdate latestServer ;;
      Ret (copyStatus server u.1)
  end.

Section controller.
Context {MC : MetaConditions} {GS : GoSort}.

Definition setStatusConditionNow (server : PaperMCServer) (c : Condition) : prog PaperMCServer :=
  now <- ask RNow ;;
  Ret (updStatus (fun st => st <| stConditions := SetStatusCondition now (stConditions st) c |>) server).

Definition setBackupCronCondition (server : PaperMCServer) (status reason message : string)
  : prog PaperMCServer :=
  setStatusConditionNow server
    (MkCondition conditionTypeBackupCronValid status reason message 0 (Generation (srvMeta server))).

Definition persistCronCondition (k : key) (server : PaperMCServer)
  : prog (PaperMCServer * result unit) :=
  g <- ask (RGetServer k) ;;
  match g with
  | Err e => Ret (server, Err (ErrWrap e "failed to re-fetch server for cron condition"))
  | Ok latestServer =>
      latestServer <-
        match FindStatusCondition (stConditions (srvStatus server)) conditionTypeBackupCronValid with
        | Some cond => setStatusConditionNow latestServer cond
        | None => Ret latestServer
        end ;;
      u <- statusUpdate latestServer ;;
      match u with
      | (_, Some e) => Ret (server, Err (ErrWrap e "failed to update cron condition"))
      | (latestServer, None) => Ret (copyStatus server latestServer, Ok tt)
      end
  end.

Definition isSnapshotCRDMissing (namespace serverName : string) : prog bool :=
  x <- ListSnapshots namespace serverName ;;
  Ret (match x with Ok _ => false | Err e => IsNoMatchError e end).

Definition isSnapshotAPIUnavailable (server : PaperMCServer) : prog (PaperMCServer * bool) :=
  x <- ListSnapshots (srvNamespace server) (srvName server) ;;
  match x with
  | Ok _ => Ret (server, false)
  | Err e =>
      if IsNoMatchError e then
        g <- ask (RGetServer (srvKey server)) ;;
        match g with
        | Err _ => Ret (server, true)
        | Ok latestServer =>
            latestServer <- setStatusConditionNow latestServer
              (MkCondition conditionTypeBackupReady ConditionFalse "VolumeSnapshotAPIUnavailable"
                 "VolumeSnapshot CRD (snapshot.storage.k8s.io) is not installed. Install the CSI snapshot controller and CRDs to enable backups."
                 0 (Generation (srvMeta latestServer))) ;;
            u <- statusUpdate latestServer ;;
            Ret (copyStatus server u.1, true)
        end
      else Ret (server, false)
  end.

(** ** performBackup *)

Definition failedRecord (startedAt : Time) (trigger : string) : BackupRecord :=
  MkBackupRecord "" startedAt None false trigger.

(** From the creation of the snapshot to the status. *)
Definition takeSnapshot (server : PaperMCServer) (trigger pvcName : string) (now : Time)
  : prog (PaperMCServer * result unit) :=
  let spec := ssBackup (srvSpec server) in
  let snapshotClass := match spec with Some b => bsVolumeSnapshotClassName b | None => "" end in
  c <- CreateSnapshot (MkSnapshotRequest (srvNamespace server) pvcName (srvName server) snapshotClass
                         trigger now [UID (srvMeta server)]) ;;
  match c with
  | Err e =>
      server <- persistBackupStatus server (failedRecord now trigger) (-1) ;;
      Ret (server, Err (ErrWrap e "failed to create VolumeSnapshot"))
  | Ok snapshotName =>
      let maxCount := match spec with
                      | Some b => if 0 <? brMaxCount (bsRetention b) then brMaxCount (bsRetention b)
                                  else defaultMaxBackupCount
                      | None => defaultMaxBackupCount
                      end in
      DeleteOldSnapshots (srvNamespace server) (srvName server) maxCount ;;;
      l <- ListSnapshots (srvNamespace server) (srvName server) ;;
      let backupCount := match l with Ok snapshots => wrap32 (Z.of_nat (length snapshots)) | Err _ => -1 end in
      completedAt <- ask RNow ;;
      server <- persistBackupStatus server
        (MkBackupRecord snapshotName now (Some completedAt) true trigger) backupCount ;;
      Ret (server, Ok tt)
  end.

(** With RCON: the hooks and the deferred calls around the snapshot. *)
Definition backupWithRCON (server : PaperMCServer) (trigger pvcName : string) (now : Time)
  : prog (PaperMCServer * result unit) :=
  rc <- createBackupRCONClient server ;;
  match rc with
  | Err e =>
      server <- persistBackupStatus server (failedRecord now trigger) (-1) ;;
      Ret (server, Err (ErrWrap e "failed to create RCON client for backup"))
  | Ok rconClient =>
      x <- Connect CtxCaller rconClient ;;
      let '(rconClient, connected) := x in
      match connected with
      | Err e =>
          server <- persistBackupStatus server (failedRecord now trigger) (-1) ;;
          Close rconClient ;;;
          Ret (server, Err (ErrWrap e "failed to connect to RCON for backup"))
      | Ok _ =>
          pre <- PreSnapshotHook rconClient ;;
          match pre with
          | Err e =>
              PostSnapshotHook rconClient ;;;
              server <- persistBackupStatus server (failedRecord now trigger) (-1) ;;
              Close rconClient ;;;
              Ret (server, Err (ErrWrap e "pre-snapshot hook failed"))
          | Ok _ =>
              r <- takeSnapshot server trigger pvcName now ;;
              PostSnapshotHook rconClient ;;;
              Close rconClient ;;;
              Ret r
          end
      end
  end.

Definition pvcNameOf (server : PaperMCServer) : string := "data-" +:+ srvName server +:+ "-0".

(** The body under the lock. *)
Definition performBackupLocked (server : PaperMCServer) (trigger : string)
  : prog (PaperMCServer * result unit) :=
  now <- ask RNow ;;
  let pvcName := pvcNameOf server in
  pvc <- ask (RGetPVC (srvNamespace server, pvcName)) ;;
  match pvc with
  | Err pvcErr =>
      server <- persistBackupStatus server (failedRecord now trigger) (-1) ;;
      if IsNotFound pvcErr
      then Ret (server, Err (ErrNew ("PVC " +:+ pvcName +:+ " not found in namespace " +:+
             srvNamespace server +:+ "; ensure the StatefulSet has created its volume")))
      else Ret (server, Err (ErrWrap pvcErr "failed to check PVC existence before backup"))
  | Ok _ =>
      if rcEnabled (ssRCON (srvSpec server))
      then backupWithRCON server trigger pvcName now
      else takeSnapshot server trigger pvcName now
  end.

Definition performBackup (server : PaperMCServer) (trigger : string)
  : prog (PaperMCServer * result unit) :=
  ask (RLock (keyString (srvKey server))) ;;;
  r <- performBackupLocked server trigger ;;
  ask (RUnlock (keyString (srvKey server))) ;;;
  Ret r.

(** ** Cron schedule *)

Definition removeBackupCronJob (entries : gmap string cronEntryInfo) (serverKey : string)
  : prog (gmap string cronEntryInfo) :=
  match entries !! serverKey with
  | None => Ret entries
  | Some entry => ask (RCronRemove (ceID entry)) ;;; Ret (delete serverKey entries)
  end.

Definition consumeCronTrigger (serverKey : string) : prog unit := ask (RTriggerDelete serverKey).

(** The new entries, the server with its condition, and whether the schedule is
    valid.  The callback that is registered writes [cronTriggerTimes]. *)
Definition manageBackupCronSchedule (entries : gmap string cronEntryInfo) (server : PaperMCServer)
    (cronSpec : string) : prog (gmap string cronEntryInfo * PaperMCServer * bool) :=
  let serverKey := keyString (srvKey server) in
  let add (entries : gmap string cronEntryInfo) :=
    a <- ask (RCronAdd cronSpec) ;;
    match a with
    | Err e =>
        server <- setBackupCronCondition server ConditionFalse "InvalidBackupCronExpression" (errString e) ;;
        Ret (entries, server, false)
    | Ok entryID =>
        server <- setBackupCronCondition server ConditionTrue "BackupCronScheduleConfigured"
                    ("Backup cron schedule configured: " +:+ cronSpec) ;;
        Ret (<[serverKey := MkCronEntry entryID cronSpec]> entries, server, true)
    end in
  match entries !! serverKey with
  | Some existing =>
      if (ceSpec existing =? cronSpec)%string then Ret (entries, server, true)
      else entries <- removeBackupCronJob entries serverKey ;; add entries
  | None => add entries
  end.

Definition removeBackupNowAnnotation (server : PaperMCServer) : prog (PaperMCServer * result unit) :=
  g <- ask (RGetServer (srvKey server)) ;;
  match g with
  | Err e => Ret (server, Err (ErrWrap e "failed to get server for annotation removal"))
  | Ok currentServer =>
      let currentServer := currentServer <| srvMeta := (srvMeta currentServer)
        <| Annotations := delete AnnotationBackupNow (Annotations (srvMeta currentServer)) |> |> in
      p <- ask (RPatchServer currentServer) ;;
      match p with
      | Err e => Ret (server, Err (ErrWrap e "failed to remove backup-now annotation"))
      | Ok currentServer =>
          Ret (server <| srvMeta := (srvMeta server)
                 <| Annotations := Annotations (srvMeta currentServer) |>
                 <| ResourceVersion := ResourceVersion (srvMeta currentServer) |> |>, Ok tt)
      end
  end.

(** ** Reconcile *)

(** The stale BackupReady=False condition is replaced once the API is back. *)
Definition recoverBackupReady (k : key) (server : PaperMCServer) : prog PaperMCServer :=
  match FindStatusCondition (stConditions (srvStatus server)) conditionTypeBackupReady with
  | Some cond =>
      if (cdStatus cond =? ConditionFalse)%string then
        g <- ask (RGetServer k) ;;
        match g with
        | Err _ => Ret server
        | Ok latestServer =>
            latestServer <- setStatusConditionNow latestServer
              (MkCondition conditionTypeBackupReady ConditionTrue "VolumeSnapshotAPIAvailable"
                 "VolumeSnapshot API is available in the cluster." 0 (Generation (srvMeta latestServer))) ;;
            u <- statusUpdate latestServer ;;
            Ret (copyStatus server u.1)
        end
      else Ret server
  | None => Ret server
  end.

(** The requeue delay (0 for none) or the error, with the cron entries. *)
Definition backupOutcome : Type := gmap string cronEntryInfo * result Duration.

(** The scheduled trigger, to the end. *)
Definition runScheduled (entries : gmap string cronEntryInfo) (k : key) (schedule : string)
    (server : PaperMCServer) : prog backupOutcome :=
  let finish : backupOutcome := (entries, Ok (if negb (schedule =? "")%string then Minute else 0)) in
  t <- ask (RTriggerGet (keyString k)) ;;
  if shouldRunScheduledBackup t server then
    r <- performBackup server "scheduled" ;;
    match r with
    | (_, Err e) => Ret (entries, Err e)
    | (_, Ok _) => consumeCronTrigger (keyString k) ;;; Ret finish
    end
  else Ret finish.

(** From the manual trigger to the end. *)
Definition runTriggers (entries : gmap string cronEntryInfo) (k : key) (schedule : string)
    (server : PaperMCServer) : prog backupOutcome :=
  now <- ask RNow ;;
  if shouldBackupNow now server then
    x <- removeBackupNowAnnotation server ;;
    match x with
    | (_, Err e) => Ret (entries, Err (ErrWrap e "failed to remove backup-now annotation"))
    | (server, Ok _) =>
        r <- performBackup server "manual" ;;
        match r with
        | (server, Err _) => runScheduled entries k schedule server
        | (server, Ok _) => consumeCronTrigger (keyString k) ;;; runScheduled entries k schedule server
        end
    end
  else
    match Annotations (srvMeta server) !! AnnotationBackupNow with
    | Some _ =>
        x <- removeBackupNowAnnotation server ;;
        match x with
        | (_, Err e) => Ret (entries, Err (ErrWrap e "failed to remove stale backup-now annotation"))
        | (server, Ok _) => runScheduled entries k schedule server
        end
    | None => runScheduled entries k schedule server
    end.

(** From the pre-flight check to the end. *)
Definition afterSchedule (entries : gmap string cronEntryInfo) (k : key) (schedule : string)
    (server : PaperMCServer) : prog backupOutcome :=
  x <- isSnapshotAPIUnavailable server ;;
  let '(server, unavailable) := x in
  if (unavailable : bool) then Ret (entries, Ok snapshotAPIRetryInterval)
  else server <- recoverBackupReady k server ;; runTriggers entries k schedule server.

Definition forgetServer (entries : gmap string cronEntryInfo) (k : key)
  : prog (gmap string cronEntryInfo) :=
  entries <- removeBackupCronJob entries (keyString k) ;;
  consumeCronTrigger (keyString k) ;;;
  ask (RLockDelete (keyString k)) ;;;
  Ret entries.

Definition Reconcile (entries : gmap string cronEntryInfo) (k : key) : prog backupOutcome :=
  g <- ask (RGetServer k) ;;
  match g with
  | Err e =>
      if IsNotFound e then entries <- forgetServer entries k ;; Ret (entries, Ok 0)
      else Ret (entries, Err (ErrWrap e "failed to get server"))
  | Ok server =>
      match ssBackup (srvSpec server) with
      | None => entries <- forgetServer entries k ;; Ret (entries, Ok 0)
      | Some b =>
          if negb (bsEnabled b) then entries <- forgetServer entries k ;; Ret (entries, Ok 0)
          else if negb (bsSchedule b =? "")%string then
            x <- manageBackupCronSchedule entries server (bsSchedule b) ;;
            let '(entries, server, cronValid) := x in
            y <- persistCronCondition k server ;;
            match y with
            | (_, Err e) => Ret (entries, Err (ErrWrap e "failed to persist cron condition"))
            | (server, Ok _) =>
                if negb cronValid then Ret (entries, Ok 0)
                else afterSchedule entries k (bsSchedule b) server
            end
          else
            entries <- removeBackupCronJob entries (keyString k) ;;
            consumeCronTrigger (keyString k) ;;;
            afterSchedule entries k "" server
      end
  end.
End controller.

(** ** Requests of interest *)

Definition isCommand (r : kreq) : bool := match r with RExecute _ _ => true | _ => false end.
Definition isCreate (r : kreq) : bool := match r with RCreateSnapshot _ => true | _ => false end.
Definition isStatus (r : kreq) : bool := match r with RStatusServer _ => true | _ => false end.
Definition isLock (r : kreq) : bool :=
  match r with RLock _ | RUnlock _ | RLockDelete _ => true | _ => false end.

(** The requests of [performBackupLocked] that the theorems look at. *)
Definition isBackupReq (r : kreq) : bool := isCommand r || isCreate r || isStatus r || isLock r.

Lemma commands_none tr :
  Forall (fun e : event (E := K8s) => isCommand (projT1 e) = false) tr -> commands tr = [].
Proof.
  induction 1 as [|[r y] tr He _ IH]; [done|]. unfold commands, command, reqOf in *. cbn in *.
  destruct r; try done.
Qed.

Lemma no_event {A} P (p : prog (E := K8s) A) tr a x r y b :
  avoids (E := K8s) P p -> runs p tr x -> tr = a ++ Ev (E := K8s) r y :: b -> P r = true -> False.
Proof.
  intros Ha Hr -> Hp. pose proof (avoids_runs (E := K8s) P p _ _ Ha Hr) as Hf.
  apply Forall_app in Hf as [_ Hf]. inversion Hf; subst. cbn in *. congruence.
Qed.

Lemma avoids_getRCON P server :
  (forall k, P (RGetPod k) = false) -> (forall k, P (RGetSecret k) = false) ->
  avoids (E := K8s) P (createBackupRCONClient server).
Proof.
  intros H1 H2. unfold createBackupRCONClient, getRCONConnInfo, ask. avoids_tac; auto.
Qed.

Lemma avoids_persist P server r n :
  (forall k, P (RGetServer k) = false) -> (forall s, P (RStatusServer s) = false) ->
  avoids (E := K8s) P (persistBackupStatus server r n).
Proof.
  intros H1 H2. unfold persistBackupStatus, statusUpdate, ask. cbn. split; [auto|].
  intros [s|e]; cbn; auto.
Qed.

Lemma avoids_deleteSnapshots P l d :
  (forall s, P (RDeleteSnapshot s) = false) -> avoids (E := K8s) P (deleteSnapshots l d).
Proof.
  intros H. revert d. induction l as [|s l IH]; intros d; cbn; [done|].
  split; [auto|]. intros [u|e]; cbn; auto.
Qed.

Section facts.
Context {MC : MetaConditions} {GS : GoSort}.

Lemma avoids_retention P ns name m :
  (forall a b, P (RListSnapshots a b) = false) -> (forall s, P (RDeleteSnapshot s) = false) ->
  avoids (E := K8s) P (DeleteOldSnapshots ns name m).
Proof.
  intros H1 H2. unfold DeleteOldSnapshots, ListSnapshots, ask. cbn. split; [auto|].
  intros [l|e]; cbn; [|done]. destruct (_ <=? _); [done|].
  apply avoids_bind; [by apply avoids_deleteSnapshots|]. intros [n [e|]]; cbn; [done|].
  by destruct (_ <? _).
Qed.

(** Taking the snapshot sends no command to the server. *)
Lemma takeSnapshot_no_command server trigger pvc now :
  avoids (E := K8s) isCommand (takeSnapshot server trigger pvc now).
Proof.
  unfold takeSnapshot, CreateSnapshot. apply avoids_bind.
  { destruct (IsZero _); unfold ask; avoids_tac. }
  intros [name|e].
  - apply avoids_bind; [by apply avoids_retention|]. intros _. unfold ListSnapshots, ask.
    cbn [avoids bind call]. split; [done|]. intros l. split; [done|]. intros t.
    apply avoids_bind; [by apply avoids_persist | done].
  - apply avoids_bind; [by apply avoids_persist | done].
Qed.

(** The commands of the two hooks. *)
Lemma PreSnapshotHook_commands c tr x :
  runs (PreSnapshotHook c) tr x ->
  commands tr `prefix_of` ["save-all"; "save-off"] /\
  (isOk x = true -> commands tr = ["save-all"; "save-off"]).
Proof.
  intros Hr.
  enough (H : wp (PreSnapshotHook c) (fun h x => followsPlan (["save-all"] ++ ["save-off"]) [] h x) []).
  { pose proof (proj1 (wp_runs _ _ []) H tr x Hr) as (s & Hs & Hp & Ho). cbn in Hs. by subst s. }
  unfold PreSnapshotHook, ask. cbn [bind call wp]. intros [e|].
  { cbn. by apply (followsPlan_stop (A := unit) [] _ [] _ (Ok tt)), followsPlan_nil. }
  apply wp_bind. eapply wp_mono; [|apply wp_SendCommand]. intros h1 y (s & Hs & Hy).
  assert (Hx : followsPlan ["save-all"] [] h1 y) by (exists s; done).
  destruct y as [o|e]; [|by apply (followsPlan_stop _ _ [] h1 _ _ Hx)].
  cbn [bind wp call]. intros z.
  apply followsPlan_quiet with (h2 := h1 ++ [Ev (E := K8s) (RSleep SaveFlushDelay) z]) in Hx;
    [|by rewrite commands_app, app_nil_r].
  destruct z as [e|]; [by apply (followsPlan_stop _ _ [] _ _ _ Hx)|].
  apply wp_bind. eapply wp_mono; [|apply wp_SendCommand]. intros h3 w H3.
  pose proof (followsPlan_step _ _ [] _ h3 _ _ Hx eq_refl H3) as H4. by destruct w.
Qed.

Lemma PostSnapshotHook_commands c conn tr x :
  rcConn c = Some conn -> runs (PostSnapshotHook c) tr x -> commands tr = ["save-on"].
Proof.
  intros Hc. unfold PostSnapshotHook, SendCommand. cbn. rewrite Hc. cbn.
  intros (y & tr' & -> & Hr). destruct y; cbn in Hr; by destruct Hr as [-> _].
Qed.

Lemma Connect_conn c tr c' u :
  runs (Connect CtxCaller c) tr (c', Ok u) -> exists conn, rcConn c' = Some conn.
Proof.
  unfold Connect. cbn. intros (ce & t & -> & Hr). destruct ce as [e|]; cbn in Hr;
    [by destruct Hr as [_ [= _ ?]]|].
  destruct Hr as (d & t' & -> & Hr). destruct d as [conn|e]; cbn in Hr;
    destruct Hr as [_ [= -> ?]]; by eexists.
Qed.

Lemma avoids_pre c : avoids (E := K8s) isCreate (PreSnapshotHook c).
Proof. unfold PreSnapshotHook, SendCommand, ctxErr, ask. avoids_tac. Qed.

Lemma avoids_post c : avoids (E := K8s) isCreate (PostSnapshotHook c).
Proof. unfold PostSnapshotHook, SendCommand, ctxErr, ask. avoids_tac. Qed.

Lemma avoids_connect P c :
  P RCtxErr = false -> (forall a p, P (RDial a p) = false) -> avoids (E := K8s) P (Connect CtxCaller c).
Proof. intros H1 H2. unfold Connect, ctxErr, ask. avoids_tac; auto. Qed.

Lemma avoids_close P c : (forall n, P (RCloseConn n) = false) -> avoids (E := K8s) P (Close c).
Proof. intros H. unfold Close, ask. destruct (rcConn c); cbn; auto. Qed.
End facts.

(** ** The window in which auto-save is off *)

(** The commands of a run: none, or an initial part of the pre-hook's followed by
    "save-on"; and a snapshot is created only between "save-off" and "save-on". *)
Definition windowOk (tr : list event) : Prop :=
  (commands tr = [] \/
   exists p, p `prefix_of` ["save-all"; "save-off"] /\ commands tr = p ++ ["save-on"]) /\
  (forall a s y b, tr = a ++ Ev (E := K8s) (RCreateSnapshot s) y :: b ->
     commands a = ["save-all"; "save-off"] /\ commands b = ["save-on"]).

Definition isCommandOrCreate (r : kreq) : bool := isCommand r || isCreate r.

(** A part of a run without commands and creations. *)
Definition quiet (tr : list event) : Prop :=
  Forall (fun e : event (E := K8s) => isCommandOrCreate (projT1 e) = false) tr.

Lemma quiet_commands tr : quiet tr -> commands tr = [].
Proof.
  intros H. apply commands_none. eapply Forall_impl; [exact H|]. intros [r y] He. cbn in *.
  unfold isCommandOrCreate in He. by apply orb_false_iff in He as [? _].
Qed.

Lemma quiet_create tr a s y b : quiet tr -> tr = a ++ Ev (E := K8s) (RCreateSnapshot s) y :: b -> False.
Proof. intros H ->. apply Forall_app in H as [_ H]. by inversion H. Qed.

Lemma quiet_run {A} (p : prog (E := K8s) A) tr x :
  avoids (E := K8s) isCommandOrCreate p -> runs p tr x -> quiet tr.
Proof. apply avoids_runs. Qed.

Lemma windowOk_quiet tr : quiet tr -> windowOk tr.
Proof.
  intros H. split; [left; by apply quiet_commands|]. intros a s y b Heq. by destruct (quiet_create _ _ _ _ _ H Heq).
Qed.

Lemma windowOk_app t u v : quiet t -> windowOk u -> quiet v -> windowOk (t ++ u ++ v).
Proof.
  intros Ht [Hc Hw] Hv. pose proof (quiet_commands _ Ht) as Ct. pose proof (quiet_commands _ Hv) as Cv.
  split.
  - rewrite !commands_app, Ct, Cv, app_nil_r. done.
  - intros a s y b Heq. symmetry in Heq.
    apply app_split_elem in Heq as [(b' & -> & _)|(a' & -> & Heq)];
      [by destruct (quiet_create _ _ _ _ _ Ht eq_refl)|].
    symmetry in Heq. apply app_split_elem in Heq as [(b' & -> & ->)|(a2 & -> & ->)];
      [|by destruct (quiet_create _ _ _ _ _ Hv eq_refl)].
    destruct (Hw _ _ _ _ eq_refl) as [Ha Hb]. by rewrite !commands_app, Ct, Cv, Ha, Hb, app_nil_r.
Qed.

Section window.
Context {MC : MetaConditions} {GS : GoSort}.

Lemma windowOk_failed_pre c conn t1 t2 e x :
  rcConn c = Some conn -> runs (PreSnapshotHook c) t1 (Err e) -> runs (PostSnapshotHook c) t2 x ->
  windowOk (t1 ++ t2).
Proof.
  intros Hc H1 H2. pose proof (PreSnapshotHook_commands _ _ _ H1) as [Hp _].
  pose proof (PostSnapshotHook_commands _ _ _ _ Hc H2) as Ho. split.
  - right. exists (commands t1). by rewrite commands_app, Ho.
  - intros a s y b Heq. symmetry in Heq.
    apply app_split_elem in Heq as [(b' & -> & _)|(a' & _ & ->)]; exfalso;
      [ eapply (no_event isCreate _ _ _ _ _ _ _ (avoids_pre c) H1)
      | eapply (no_event isCreate _ _ _ _ _ _ _ (avoids_post c) H2) ]; done.
Qed.

Lemma windowOk_snapshot c conn server trigger pvc now t1 t2 t3 u x y :
  rcConn c = Some conn -> runs (PreSnapshotHook c) t1 (Ok u) ->
  runs (takeSnapshot server trigger pvc now) t2 x -> runs (PostSnapshotHook c) t3 y ->
  windowOk (t1 ++ t2 ++ t3).
Proof.
  intros Hc H1 H2 H3. pose proof (PreSnapshotHook_commands _ _ _ H1) as [_ Hp].
  specialize (Hp eq_refl). pose proof (PostSnapshotHook_commands _ _ _ _ Hc H3) as Ho.
  pose proof (commands_none _ (avoids_runs _ _ _ _ (takeSnapshot_no_command server trigger pvc now) H2)) as Hs.
  split.
  - right. exists ["save-all"; "save-off"]. by rewrite !commands_app, Hp, Hs, Ho.
  - intros a s z b Heq. symmetry in Heq.
    apply app_split_elem in Heq as [(b' & -> & _)|(a' & -> & Heq)];
      [by destruct (no_event isCreate _ _ _ _ _ _ _ (avoids_pre c) H1 eq_refl)|].
    symmetry in Heq. apply app_split_elem in Heq as [(b' & -> & ->)|(a2 & _ & ->)];
      [|by destruct (no_event isCreate _ _ _ _ _ _ _ (avoids_post c) H3 eq_refl)].
    rewrite commands_app in Hs. apply app_eq_nil in Hs as [Ha Hb].
    rewrite !commands_app, Hp, Ha, Ho. unfold commands in *. cbn in Hb. by rewrite Hb.
Qed.

Lemma quiet_persist server r n tr x : runs (persistBackupStatus server r n) tr x -> quiet tr.
Proof. apply quiet_run. by apply avoids_persist. Qed.

Lemma quiet_close c tr x : runs (Close c) tr x -> quiet tr.
Proof. apply quiet_run. by apply avoids_close. Qed.

Lemma backupWithRCON_window server trigger pvc now tr x :
  runs (backupWithRCON server trigger pvc now) tr x -> windowOk tr.
Proof.
  unfold backupWithRCON. intros (t1 & rc & t2 & -> & H1 & H2)%runs_bind.
  assert (Q1 : quiet t1) by (eapply quiet_run; [by apply avoids_getRCON | exact H1]).
  destruct rc as [c|e].
  2: { apply runs_bind in H2 as (t3 & s & t4 & -> & H3 & [-> _]).
       apply windowOk_quiet. apply Forall_app. split; [done|]. rewrite app_nil_r. by eapply quiet_persist. }
  apply runs_bind in H2 as (t3 & [c' connected] & t4 & -> & H3 & H4).
  assert (Q3 : quiet t3) by (eapply quiet_run; [by apply avoids_connect | exact H3]).
  assert (Q13 : quiet (t1 ++ t3)) by by apply Forall_app.
  destruct connected as [u|e].
  2: { apply runs_bind in H4 as (t5 & s & t6 & -> & H5 & H6).
       apply runs_bind in H6 as (t7 & v & t8 & -> & H7 & [-> _]). apply windowOk_quiet.
       rewrite app_assoc. apply Forall_app. split; [done|]. rewrite app_nil_r.
       apply Forall_app. split; [by eapply quiet_persist | by eapply quiet_close]. }
  destruct (Connect_conn _ _ _ _ H3) as [conn Hc]. rewrite app_assoc.
  apply runs_bind in H4 as (t5 & pre & t6 & -> & H5 & H6). destruct pre as [w|e].
  - apply runs_bind in H6 as (t7 & r & t8 & -> & H7 & H8).
    apply runs_bind in H8 as (t9 & z & t10 & -> & H9 & H10).
    apply runs_bind in H10 as (t11 & q & t12 & -> & H11 & [-> _]). rewrite app_nil_r.
    replace (t5 ++ t7 ++ t9 ++ t11) with ((t5 ++ t7 ++ t9) ++ t11) by by rewrite <- !app_assoc.
    apply windowOk_app; [done | | by eapply quiet_close]. by eapply windowOk_snapshot.
  - apply runs_bind in H6 as (t7 & z & t8 & -> & H7 & H8).
    apply runs_bind in H8 as (t9 & s & t10 & -> & H9 & H10).
    apply runs_bind in H10 as (t11 & q & t12 & -> & H11 & [-> _]). rewrite app_nil_r.
    replace (t5 ++ t7 ++ t9 ++ t11) with ((t5 ++ t7) ++ (t9 ++ t11)) by by rewrite <- !app_assoc.
    apply windowOk_app; [done | by eapply windowOk_failed_pre |].
    apply Forall_app. split; [by eapply quiet_persist | by eapply quiet_close].
Qed.
End window.

(** ** What is recorded *)

(** Success flag and trigger of the last backup in a server's status. *)
Definition lastRecord (s : PaperMCServer) : option (bool * string) :=
  b ← stBackup (srvStatus s); r ← bkLastBackup b; Some (bcSuccessful r, bcTrigger r).

(** Every status written in the run records the backup with the given outcome, and
    the outcome is success exactly when a snapshot was created. *)
Definition recorded (trigger : string) (ok : bool) (tr : list event) : Prop :=
  (forall s y, Ev (E := K8s) (RStatusServer s) y ∈ tr -> lastRecord s = Some (ok, trigger)) /\
  (ok = true <-> exists s s', Ev (E := K8s) (RCreateSnapshot s) (Ok s') ∈ tr).

Definition isCreateOrStatus (r : kreq) : bool := isCreate r || isStatus r.

Definition neutral (tr : list event) : Prop :=
  Forall (fun e : event (E := K8s) => isCreateOrStatus (projT1 e) = false) tr.

Lemma neutral_run {A} (p : prog (E := K8s) A) tr x :
  avoids (E := K8s) isCreateOrStatus p -> runs p tr x -> neutral tr.
Proof. apply avoids_runs. Qed.

Lemma neutral_not_in tr r y :
  neutral tr -> isCreateOrStatus r = true -> Ev (E := K8s) r y ∈ tr -> False.
Proof.
  unfold neutral. rewrite Forall_forall. intros H Hr Hin. specialize (H _ Hin). cbn in H. congruence.
Qed.

Lemma recorded_app trigger ok t u v :
  neutral t -> recorded trigger ok u -> neutral v -> recorded trigger ok (t ++ u ++ v).
Proof.
  intros Ht [Hs Hc] Hv. split.
  - intros s y [Hin|[Hin|Hin]%elem_of_app]%elem_of_app; [|by eapply Hs|]; exfalso;
      [by apply (neutral_not_in _ _ _ Ht) in Hin | by apply (neutral_not_in _ _ _ Hv) in Hin].
  - rewrite Hc. split; intros (s & s' & Hin); exists s, s'.
    + apply elem_of_app. right. apply elem_of_app. by left.
    + apply elem_of_app in Hin as [Hin|[Hin|Hin]%elem_of_app]; [|done|]; exfalso;
        [by apply (neutral_not_in _ _ _ Ht) in Hin | by apply (neutral_not_in _ _ _ Hv) in Hin].
Qed.

Lemma persist_statuses server r n tr x s y :
  runs (persistBackupStatus server r n) tr x -> Ev (E := K8s) (RStatusServer s) y ∈ tr ->
  lastRecord s = Some (bcSuccessful r, bcTrigger r).
Proof.
  unfold persistBackupStatus, statusUpdate, ask. cbn [bind call runs].
  intros (g & t & -> & Hr) Hin. destruct g as [latest|e]; cbn [bind call runs] in Hr.
  - destruct Hr as (u & t' & -> & [-> _]).
    apply elem_of_cons in Hin as [Hin|Hin]; [by apply (f_equal (fun e => reqOf e)) in Hin|].
    apply list_elem_of_singleton in Hin. apply (f_equal (fun e => reqOf e)) in Hin.
    cbn in Hin. injection Hin as ->. unfold lastRecord. simpl_upd. by destruct (0 <=? n).
  - destruct Hr as [-> _]. apply list_elem_of_singleton in Hin.
    by apply (f_equal (fun e => reqOf e)) in Hin.
Qed.

Lemma recorded_failed trigger server now n tr x :
  runs (persistBackupStatus server (failedRecord now trigger) n) tr x -> recorded trigger false tr.
Proof.
  intros Hr. split.
  - intros s y Hin. exact (persist_statuses _ _ _ _ _ _ _ Hr Hin).
  - split; [done|]. intros (s & s' & Hin). exfalso.
    assert (Ha : avoids (E := K8s) isCreate (persistBackupStatus server (failedRecord now trigger) n))
      by by apply avoids_persist.
    pose proof (avoids_runs (E := K8s) _ _ _ _ Ha Hr) as Hf. rewrite Forall_forall in Hf.
    by specialize (Hf _ Hin).
Qed.

Section record.
Context {MC : MetaConditions} {GS : GoSort}.

Lemma takeSnapshot_recorded server trigger pvc now tr s r :
  runs (takeSnapshot server trigger pvc now) tr (s, r) -> recorded trigger (isOk r) tr.
Proof.
  unfold takeSnapshot, CreateSnapshot. rewrite runs_bind.
  intros (t1 & c & t2 & -> & H1 & H2).
  apply runs_bind in H1 as (t3 & nw & t4 & -> & H3 & H4).
  assert (N3 : neutral t3).
  { eapply neutral_run; [|exact H3]. destruct (IsZero _); unfold ask; avoids_tac. }
  unfold ask in H4. cbn [bind call runs] in H4. destruct H4 as (ans & t5 & -> & H5).
  destruct ans as [created|e]; cbn [runs] in H5; destruct H5 as [-> ->].
  - apply runs_bind in H2 as (t6 & ret & t7 & -> & H6 & H7).
    assert (N6 : neutral t6) by (eapply neutral_run; [by apply avoids_retention | exact H6]).
    unfold ListSnapshots, ask in H7. cbn [bind call runs] in H7.
    destruct H7 as (l & t8 & -> & H8). destruct H8 as (ca & t9 & -> & H9).
    apply runs_bind in H9 as (t10 & sv & t11 & -> & H10 & [-> [= -> ->]]). rewrite app_nil_r. split.
    + intros s' y Hin. cbn [isOk].
      repeat (apply elem_of_app in Hin as [Hin|Hin] || apply elem_of_cons in Hin as [Hin|Hin]).
      all: try by apply (f_equal (fun e => reqOf e)) in Hin.
      * by apply (neutral_not_in _ _ _ N3) in Hin.
      * by apply not_elem_of_nil in Hin.
      * by apply (neutral_not_in _ _ _ N6) in Hin.
      * exact (persist_statuses _ _ _ _ _ _ _ H10 Hin).
    + split; [intros _ | done]. eexists _, _. apply elem_of_app. left. apply elem_of_app. right. by left.
  - apply runs_bind in H2 as (t6 & sv & t7 & -> & H6 & [-> [= -> ->]]). rewrite app_nil_r.
    pose proof (recorded_failed _ _ _ _ _ _ H6) as [Hs Hc]. split.
    + intros s' y Hin. apply elem_of_app in Hin as [[Hin|Hin]%elem_of_app|Hin]; [| |by eapply Hs].
      * by apply (neutral_not_in _ _ _ N3) in Hin.
      * apply list_elem_of_singleton in Hin. by apply (f_equal (fun e => reqOf e)) in Hin.
    + split; [done|]. intros (s1 & s2 & Hin).
      apply elem_of_app in Hin as [[Hin|Hin]%elem_of_app|Hin].
      * by apply (neutral_not_in _ _ _ N3) in Hin.
      * apply list_elem_of_singleton in Hin.
        apply (f_equal (fun e : event (E := K8s) => match e with
          | existT (RCreateSnapshot _) a => isOk a | _ => false end)) in Hin. done.
      * apply Hc. eauto.
Qed.

Lemma neutral_pre c tr x : runs (PreSnapshotHook c) tr x -> neutral tr.
Proof.
  apply neutral_run. unfold PreSnapshotHook, SendCommand, ctxErr, ask. avoids_tac.
Qed.

Lemma neutral_post c tr x : runs (PostSnapshotHook c) tr x -> neutral tr.
Proof.
  apply neutral_run. unfold PostSnapshotHook, SendCommand, ctxErr, ask. avoids_tac.
Qed.

Lemma neutral_close c tr x : runs (Close c) tr x -> neutral tr.
Proof. apply neutral_run. by apply avoids_close. Qed.

Lemma neutral_nil : neutral [].
Proof. constructor. Qed.

Lemma neutral_app t u : neutral t -> neutral u -> neutral (t ++ u).
Proof. intros. by apply Forall_app. Qed.

#[local] Hint Resolve neutral_nil neutral_app neutral_pre neutral_post neutral_close : mc.

Lemma backupWithRCON_recorded server trigger pvc now tr s r :
  runs (backupWithRCON server trigger pvc now) tr (s, r) -> recorded trigger (isOk r) tr.
Proof.
  unfold backupWithRCON. intros (t1 & rc & t2 & -> & H1 & H2)%runs_bind.
  assert (N1 : neutral t1) by (eapply neutral_run; [by apply avoids_getRCON | exact H1]).
  destruct rc as [c|e].
  2: { apply runs_bind in H2 as (t3 & sv & t4 & -> & H3 & [-> [= -> ->]]).
       apply recorded_app; [done | by eapply recorded_failed | apply neutral_nil]. }
  apply runs_bind in H2 as (t3 & [c' connected] & t4 & -> & H3 & H4).
  assert (N3 : neutral t3) by (eapply neutral_run; [by apply avoids_connect | exact H3]).
  rewrite app_assoc. destruct connected as [u|e].
  2: { apply runs_bind in H4 as (t5 & sv & t6 & -> & H5 & H6).
       apply runs_bind in H6 as (t7 & v & t8 & -> & H7 & [-> [= -> ->]]).
       apply recorded_app; [by apply neutral_app | by eapply recorded_failed |].
       eauto with mc. }
  apply runs_bind in H4 as (t5 & pre & t6 & -> & H5 & H6). rewrite app_assoc. destruct pre as [w|e].
  - apply runs_bind in H6 as (t7 & [sv rv] & t8 & -> & H7 & H8).
    apply runs_bind in H8 as (t9 & z & t10 & -> & H9 & H10).
    apply runs_bind in H10 as (t11 & q & t12 & -> & H11 & [-> [= -> ->]]).
    apply recorded_app; [eauto with mc | by eapply takeSnapshot_recorded | eauto with mc].
  - apply runs_bind in H6 as (t7 & z & t8 & -> & H7 & H8). rewrite app_assoc.
    apply runs_bind in H8 as (t9 & sv & t10 & -> & H9 & H10).
    apply runs_bind in H10 as (t11 & q & t12 & -> & H11 & [-> [= -> ->]]).
    apply recorded_app; [eauto 6 with mc | by eapply recorded_failed | eauto with mc].
Qed.

Lemma performBackupLocked_recorded server trigger tr s r :
  runs (performBackupLocked server trigger) tr (s, r) -> recorded trigger (isOk r) tr.
Proof.
  unfold performBackupLocked, ask. cbn [bind call runs].
  intros (now & t1 & -> & pvc & t2 & -> & Hr).
  match goal with |- recorded _ _ (?a :: ?b :: t2) => change (a :: b :: t2) with ([a; b] ++ t2) end.
  rewrite <- (app_nil_r t2). apply recorded_app; [by repeat constructor | | apply neutral_nil].
  destruct pvc as [u|e].
  - destruct (rcEnabled _); [by eapply backupWithRCON_recorded | by eapply takeSnapshot_recorded].
  - apply runs_bind in Hr as (t3 & sv & t4 & -> & H3 & H4).
    destruct (IsNotFound e); destruct H4 as [-> [= -> ->]]; rewrite app_nil_r; by eapply recorded_failed.
Qed.
End record.

(** ** Consumption of cron triggers *)

Definition isConsume (r : kreq) : bool := match r with RTriggerDelete _ => true | _ => false end.

(** The server is gone, or its backups are disabled or have no schedule. *)
Definition noSchedule (answer : result PaperMCServer) : Prop :=
  match answer with
  | Err e => IsNotFound e = true
  | Ok s => match ssBackup (srvSpec s) with
            | None => True
            | Some b => bsEnabled b = false \/ bsSchedule b = ""
            end
  end.

(** What must have happened in a run before it may consume a trigger. *)
Definition mayConsume (k : key) (h : list event) : Prop :=
  (exists answer, hd_error h = Some (Ev (E := K8s) (RGetServer k) answer) /\ noSchedule answer) \/
  (exists s s', Ev (E := K8s) (RCreateSnapshot s) (Ok s') ∈ h).

Definition consumeOk (k : key) (h : list event) : Prop :=
  forall a ks y b, h = a ++ Ev (E := K8s) (RTriggerDelete ks) y :: b -> mayConsume k a.

Lemma mayConsume_app k h t : mayConsume k h -> mayConsume k (h ++ t).
Proof.
  intros [(ans & Hh & Hn)|(s & s' & Hin)]; [left; exists ans | right; exists s, s'].
  - split; [|done]. by destruct h.
  - apply elem_of_app. by left.
Qed.

Lemma consumeOk_app k h t :
  consumeOk k h -> Forall (fun e : event (E := K8s) => isConsume (projT1 e) = false) t ->
  consumeOk k (h ++ t).
Proof.
  intros Hh Ht a ks y b Heq. symmetry in Heq.
  apply app_split_elem in Heq as [(b' & -> & _)|(a' & -> & ->)]; [by eapply Hh|].
  apply Forall_app in Ht as [_ Ht]. by inversion Ht.
Qed.

Lemma consumeOk_allowed k h t :
  consumeOk k h -> mayConsume k h -> consumeOk k (h ++ t).
Proof.
  intros Hh Hm a ks y b Heq. symmetry in Heq.
  apply app_split_elem in Heq as [(b' & -> & _)|(a' & -> & ->)]; [by eapply Hh|].
  by apply mayConsume_app.
Qed.

(** A part that consumes nothing preserves the invariant. *)
Lemma wp_consume_avoids {A} k (p : prog (E := K8s) A) h :
  avoids (E := K8s) isConsume p -> consumeOk k h ->
  wp p (fun h' _ => consumeOk k h' /\ exists t, h' = h ++ t) h.
Proof.
  intros Ha Hh. apply wp_runs. intros tr a Hr. split; [|by exists tr].
  apply consumeOk_app; [done|]. by eapply avoids_runs.
Qed.

(** Once allowed, anything may follow. *)
Lemma wp_consume_allowed {A} k (p : prog (E := K8s) A) h :
  consumeOk k h -> mayConsume k h -> wp p (fun h' _ => consumeOk k h') h.
Proof. intros Hh Hm. apply wp_runs. intros tr a _. by apply consumeOk_allowed. Qed.

Section triggers.
Context {MC : MetaConditions} {GS : GoSort}.

(** The requests that a backup may make. *)
Definition madeByBackup (r : kreq) : bool :=
  match r with
  | RNow | RCtxErr | RSleep _ | RGetServer _ | RStatusServer _ | RGetPod _ | RGetSecret _ | RGetPVC _
  | RCreateSnapshot _ | RListSnapshots _ _ | RDeleteSnapshot _ | RDial _ _ | RExecute _ _
  | RCloseConn _ | RLock _ | RUnlock _ => true
  | _ => false
  end.

Definition notByBackup (r : kreq) : bool := negb (madeByBackup r).

Lemma performBackup_requests server trigger :
  avoids (E := K8s) notByBackup (performBackup server trigger).
Proof.
  assert (Hsnap : forall sv pvc now, avoids (E := K8s) notByBackup (takeSnapshot sv trigger pvc now)).
  { intros sv pvc now. unfold takeSnapshot, CreateSnapshot. apply avoids_bind.
    { destruct (IsZero _); unfold ask; avoids_tac. }
    intros [name|e]; [|apply avoids_bind; [by apply avoids_persist | done]].
    apply avoids_bind; [by apply avoids_retention|]. intros _. unfold ListSnapshots, ask.
    cbn [avoids bind call]. split; [done|]. intros l. split; [done|]. intros t.
    apply avoids_bind; [by apply avoids_persist | done]. }
  unfold performBackup, performBackupLocked, ask. cbn [avoids bind call].
  split; [done|]. intros _. split; [done|]. intros now. split; [done|]. intros pvc.
  apply avoids_bind; [|intros r; cbn; by split].
  destruct pvc as [u|e].
  2: { apply avoids_bind; [by apply avoids_persist|]. intros s. by destruct (IsNotFound e). }
  destruct (rcEnabled _); [|apply Hsnap]. unfold backupWithRCON.
  apply avoids_bind; [by apply avoids_getRCON|].
  intros [c|e]; [|apply avoids_bind; [by apply avoids_persist | done]].
  apply avoids_bind; [by apply avoids_connect|]. intros [c' [v|e]].
  - apply avoids_bind; [unfold PreSnapshotHook, SendCommand, ctxErr, ask; avoids_tac|].
    intros [w|e].
    + apply avoids_bind; [apply Hsnap|]. intros r.
      apply avoids_bind; [unfold PostSnapshotHook, SendCommand, ctxErr, ask; avoids_tac|].
      intros _. apply avoids_bind; [by apply avoids_close | done].
    + apply avoids_bind; [unfold PostSnapshotHook, SendCommand, ctxErr, ask; avoids_tac|].
      intros _. apply avoids_bind; [by apply avoids_persist|]. intros ?.
      apply avoids_bind; [by apply avoids_close | done].
  - apply avoids_bind; [by apply avoids_persist|]. intros ?.
    apply avoids_bind; [by apply avoids_close | done].
Qed.

Lemma avoids_performBackup P server trigger :
  (forall r, P r = true -> madeByBackup r = false) -> avoids (E := K8s) P (performBackup server trigger).
Proof.
  intros H. eapply avoids_weaken; [|apply performBackup_requests]. intros r Hr.
  unfold notByBackup. by rewrite (H r Hr).
Qed.

(** A backup reports success exactly when a snapshot was created. *)
Lemma performBackup_snapshot server trigger tr s r :
  runs (performBackup server trigger) tr (s, r) ->
  isOk r = true <-> exists q q', Ev (E := K8s) (RCreateSnapshot q) (Ok q') ∈ tr.
Proof.
  unfold performBackup, ask. cbn [bind call runs].
  intros (y & t1 & -> & Hr). apply runs_bind in Hr as (t2 & [s2 r2] & t3 & -> & H2 & H3).
  cbn [bind call runs] in H3. destruct H3 as (y2 & t4 & -> & -> & [= -> ->]).
  apply performBackupLocked_recorded in H2 as [_ ->].
  split; intros (q & q' & Hin); exists q, q'; [set_solver|].
  apply elem_of_cons in Hin as [Hin|Hin]; [by apply (f_equal (fun e => reqOf e)) in Hin|].
  apply elem_of_app in Hin as [Hin|Hin]; [done|].
  apply list_elem_of_singleton in Hin. by apply (f_equal (fun e => reqOf e)) in Hin.
Qed.

(** After a backup that succeeded, the trigger may be consumed. *)
Lemma wp_performBackup_consume k server trigger h :
  consumeOk k h ->
  wp (performBackup server trigger) (fun h' x => consumeOk k h' /\
    (isOk x.2 = true -> mayConsume k h') /\ exists t, h' = h ++ t) h.
Proof.
  intros Hh. apply wp_runs. intros tr [s r] Hr. split_and!; [| |by exists tr].
  - apply consumeOk_app; [done|]. eapply avoids_runs; [apply (avoids_performBackup isConsume); by intros [] | exact Hr].
  - intros Ho. apply (performBackup_snapshot _ _ _ _ _ Hr) in Ho as (q & q' & Hin).
    right. exists q, q'. set_solver.
Qed.

Lemma avoids_removeAnnotation server : avoids (E := K8s) isConsume (removeBackupNowAnnotation server).
Proof. unfold removeBackupNowAnnotation, ask. avoids_tac. Qed.

Lemma wp_runScheduled_consume entries k schedule server h :
  consumeOk k h -> wp (runScheduled entries k schedule server) (fun h' _ => consumeOk k h') h.
Proof.
  intros Hh. unfold runScheduled. apply wp_bind. unfold ask. cbn [call wp]. intros t.
  assert (Hh1 : consumeOk k (h ++ [Ev (E := K8s) (RTriggerGet (keyString k)) t])).
  { apply consumeOk_app; [done | by repeat constructor]. }
  destruct (shouldRunScheduledBackup t server); [|done].
  apply wp_bind. eapply wp_mono; [|by apply wp_performBackup_consume].
  intros h' [s [u|e]] (Hc & Hm & _); [|done]. apply wp_consume_allowed; [done | by apply Hm].
Qed.

Lemma wp_runTriggers_consume entries k schedule server h :
  consumeOk k h -> wp (runTriggers entries k schedule server) (fun h' _ => consumeOk k h') h.
Proof.
  intros Hh. unfold runTriggers. apply wp_bind. unfold ask. cbn [call wp]. intros now.
  assert (Hh1 : consumeOk k (h ++ [Ev (E := K8s) RNow now])).
  { apply consumeOk_app; [done | by repeat constructor]. }
  destruct (shouldBackupNow now server).
  - apply wp_bind. eapply wp_mono; [|apply wp_consume_avoids; [apply avoids_removeAnnotation | exact Hh1]].
    intros h1 [s [u|e]] [Hc _]; [|done].
    apply wp_bind. eapply wp_mono; [|by apply wp_performBackup_consume].
    intros h2 [s2 [v|e]] (Hc2 & Hm & _); [|by apply wp_runScheduled_consume].
    apply wp_consume_allowed; [done | by apply Hm].
  - destruct (Annotations (srvMeta server) !! AnnotationBackupNow); [|by apply wp_runScheduled_consume].
    apply wp_bind. eapply wp_mono; [|apply wp_consume_avoids; [apply avoids_removeAnnotation | exact Hh1]].
    intros h1 [s2 [u|e]] [Hc _]; [by apply wp_runScheduled_consume | done].
Qed.

Lemma wp_afterSchedule_consume entries k schedule server h :
  consumeOk k h -> wp (afterSchedule entries k schedule server) (fun h' _ => consumeOk k h') h.
Proof.
  intros Hh. unfold afterSchedule. apply wp_bind.
  eapply wp_mono; [|apply wp_consume_avoids; [|exact Hh]].
  2: { unfold isSnapshotAPIUnavailable, ListSnapshots, setStatusConditionNow, statusUpdate, ask. avoids_tac. }
  intros h1 [s []] [Hc _]; [done|]. apply wp_bind.
  eapply wp_mono; [|apply wp_consume_avoids; [|exact Hc]].
  2: { unfold recoverBackupReady, setStatusConditionNow, statusUpdate, ask. avoids_tac. }
  intros h2 s2 [Hc2 _]. by apply wp_runTriggers_consume.
Qed.

(** Registering or replacing the cron job consumes nothing. *)
Lemma avoids_manage entries server spec :
  avoids (E := K8s) isConsume (manageBackupCronSchedule entries server spec).
Proof.
  unfold manageBackupCronSchedule, removeBackupCronJob, setBackupCronCondition,
    setStatusConditionNow, ask. avoids_tac.
Qed.

Lemma wp_Reconcile_consume entries k :
  wp (Reconcile entries k) (fun h _ => consumeOk k h) [].
Proof.
  unfold Reconcile. apply wp_bind. unfold ask at 1. cbn [call wp app]. intros g.
  set (h := [Ev (E := K8s) (RGetServer k) g]).
  assert (Hh : consumeOk k h).
  { intros a ks y b Heq. destruct a as [|e a]; [by apply (f_equal (fun l => reqOf <$> hd_error l)) in Heq|].
    by destruct a. }
  assert (Hallowed : forall {A} (p : prog (E := K8s) A), noSchedule g -> wp p (fun h _ => consumeOk k h) h).
  { intros A p Hn. apply wp_consume_allowed; [done|]. left. by exists g. }
  destruct g as [server|e].
  2: { destruct (IsNotFound e) eqn:En; [by apply Hallowed | done]. }
  destruct (ssBackup (srvSpec server)) as [b|] eqn:Eb; [|apply Hallowed; cbn; by rewrite Eb].
  destruct (bsEnabled b) eqn:Een; cbn [negb]; [|apply Hallowed; cbn; rewrite Eb; by left].
  destruct (String.eqb_spec (bsSchedule b) "") as [Es|Es]; cbn [negb];
    [apply Hallowed; cbn; rewrite Eb; by right|].
  apply wp_bind. eapply wp_mono; [|apply wp_consume_avoids; [apply avoids_manage | exact Hh]].
  intros h1 [[entries' s1] valid] [Hc _]. apply wp_bind.
  eapply wp_mono; [|apply wp_consume_avoids; [|exact Hc]].
  2: { unfold persistCronCondition, setStatusConditionNow, statusUpdate, ask. avoids_tac. }
  intros h2 [s2 [u|e]] [Hc2 _]; [|done]. destruct valid; cbn [negb]; [|done].
  by apply wp_afterSchedule_consume.
Qed.
End triggers.

(** ** Cron jobs are tracked *)

Definition isCron (r : kreq) : bool := match r with RCronAdd _ | RCronRemove _ => true | _ => false end.

(** The entries after a run against the entries before: other servers' entries
    are untouched, a job added in the run is the one recorded, and a recorded job
    is still recorded or was removed from the scheduler. *)
Definition cronTracked (ks : string) (entries entries' : gmap string cronEntryInfo) (tr : list event) : Prop :=
  (forall k', k' <> ks -> entries' !! k' = entries !! k') /\
  (forall spec id, Ev (E := K8s) (RCronAdd spec) (Ok id) ∈ tr -> entries' !! ks = Some (MkCronEntry id spec)) /\
  (forall e, entries !! ks = Some e ->
     entries' !! ks = Some e \/ Ev (E := K8s) (RCronRemove (ceID e)) tt ∈ tr).

Definition cronQuiet (tr : list event) : Prop :=
  Forall (fun e : event (E := K8s) => isCron (projT1 e) = false) tr.

Lemma cronTracked_app ks en en' t u v :
  cronQuiet t -> cronTracked ks en en' u -> cronQuiet v -> cronTracked ks en en' (t ++ u ++ v).
Proof.
  intros Ht (H1 & H2 & H3) Hv. split_and!; [done | |].
  - intros spec id [Hin|[Hin|Hin]%elem_of_app]%elem_of_app; [|by apply H2|]; exfalso.
    + unfold cronQuiet in Ht. rewrite Forall_forall in Ht. by apply Ht in Hin.
    + unfold cronQuiet in Hv. rewrite Forall_forall in Hv. by apply Hv in Hin.
  - intros e He. destruct (H3 e He) as [?|?]; [by left | right; apply elem_of_app; right; apply elem_of_app; by left].
Qed.

Lemma cronTracked_quiet ks en t : cronQuiet t -> cronTracked ks en en t.
Proof.
  intros Ht. split_and!; [done | | auto].
  intros spec id Hin. unfold cronQuiet in Ht. rewrite Forall_forall in Ht. by apply Ht in Hin.
Qed.

(** Program form: the property of the result and the new part of the history. *)
Definition tracks {A} (ks : string) (en : gmap string cronEntryInfo)
    (out : A -> gmap string cronEntryInfo) (p : prog (E := K8s) A) : Prop :=
  forall tr a, runs p tr a -> cronTracked ks en (out a) tr.

(** A quiet program before a tracking one. *)
Lemma tracks_bind_l {A B} ks en out (p : prog (E := K8s) A) (f : A -> prog B) :
  avoids (E := K8s) isCron p -> (forall a, tracks ks en out (f a)) -> tracks ks en out (bind p f).
Proof.
  intros Hp Hf tr b (t1 & a & t2 & -> & H1 & H2)%runs_bind.
  rewrite <- (app_nil_r t2). apply cronTracked_app; [by eapply avoids_runs | by eapply Hf | constructor].
Qed.

(** A tracking program before a quiet one that keeps the entries. *)
Lemma tracks_bind_r {A B} ks en outA outB (p : prog (E := K8s) A) (f : A -> prog B) :
  tracks ks en outA p -> (forall a, avoids (E := K8s) isCron (f a)) ->
  (forall a tr b, runs (f a) tr b -> outB b = outA a) -> tracks ks en outB (bind p f).
Proof.
  intros Hp Hf Ho tr b (t1 & a & t2 & -> & H1 & H2)%runs_bind.
  rewrite (Ho _ _ _ H2). change (t1 ++ t2) with ([] ++ t1 ++ t2).
  apply cronTracked_app; [constructor | by apply Hp | by eapply avoids_runs].
Qed.

Lemma tracks_quiet {A} ks en out (p : prog (E := K8s) A) :
  avoids (E := K8s) isCron p -> (forall tr a, runs p tr a -> out a = en) -> tracks ks en out p.
Proof.
  intros Hp Ho tr a Hr. rewrite (Ho _ _ Hr). apply cronTracked_quiet. by eapply avoids_runs.
Qed.

Section tracking.
Context {MC : MetaConditions} {GS : GoSort}.

Lemma tracks_remove en ks : tracks ks en (fun x => x) (removeBackupCronJob en ks).
Proof.
  unfold removeBackupCronJob. destruct (en !! ks) as [e|] eqn:He.
  - intros tr a Hr. unfold ask in Hr. cbn [bind call runs] in Hr. destruct Hr as ([] & t & -> & -> & ->).
    split_and!.
    + intros k' Hk. by rewrite lookup_delete_ne.
    + intros spec id Hin%list_elem_of_singleton. by apply (f_equal (fun e => reqOf e)) in Hin.
    + intros e' He'. right. assert (e' = e) as -> by congruence. by left.
  - by apply tracks_quiet; [|intros tr a [_ ->]].
Qed.

Lemma tracks_manage en server spec :
  tracks (keyString (srvKey server)) en (fun x => x.1.1) (manageBackupCronSchedule en server spec).
Proof.
  unfold manageBackupCronSchedule. set (ks := keyString (srvKey server)).
  set (add := fun en0 : gmap string cronEntryInfo => bind (ask (RCronAdd spec)) _).
  assert (Hadd : forall en0 tr x, runs (add en0) tr x ->
    (x.1.1 = en0 /\ forall sp id, Ev (E := K8s) (RCronAdd sp) (Ok id) ∉ tr) \/
    exists id, x.1.1 = <[ks := MkCronEntry id spec]> en0 /\
      forall sp i, Ev (E := K8s) (RCronAdd sp) (Ok i) ∈ tr -> sp = spec /\ i = id).
  { intros en0 tr x Hr. unfold add, setBackupCronCondition, setStatusConditionNow, ask in Hr.
    cbn [bind call runs] in Hr. destruct Hr as (a & t & -> & Hr).
    destruct a as [id|e]; cbn [bind call runs] in Hr; destruct Hr as (now & t2 & -> & -> & ->).
    - right. exists id. split; [done|]. intros sp i Hin.
      apply elem_of_cons in Hin as [Hin|Hin%list_elem_of_singleton];
        [|by apply (f_equal (fun e => reqOf e)) in Hin].
      pose proof (f_equal (fun e => reqOf e) Hin) as Hq. cbn in Hq. injection Hq as ->.
      apply (f_equal (fun e : event (E := K8s) => match e with
          | existT (RCronAdd _) (Ok n) => Some n | _ => None end)) in Hin. by injection Hin as ->.
    - left. split; [done|]. intros sp i Hin.
      apply elem_of_cons in Hin as [Hin|Hin%list_elem_of_singleton];
        [|by apply (f_equal (fun e => reqOf e)) in Hin].
      by apply (f_equal (fun e : event (E := K8s) => match e with
          | existT (RCronAdd _) (Ok n) => Some n | _ => None end)) in Hin. }
  destruct (en !! ks) as [e|] eqn:He; [destruct (ceSpec e =? spec)%string|].
  - by apply tracks_quiet; [|intros tr a [_ ->]].
  - intros tr x (t1 & en1 & t2 & -> & H1 & H2)%runs_bind.
    unfold removeBackupCronJob in H1. fold ks in H1. rewrite He in H1. unfold ask in H1.
    cbn [bind call runs] in H1. destruct H1 as ([] & t & -> & -> & ->).
    assert (Hrm : forall e', en !! ks = Some e' -> Ev (E := K8s) (RCronRemove (ceID e')) tt ∈
        [Ev (E := K8s) (RCronRemove (ceID e)) tt] ++ t2).
    { intros e' He'. assert (e' = e) as -> by congruence. by left. }
    destruct (Hadd _ _ _ H2) as [[-> Hn]|(id & -> & Hi)]; split_and!;
      try (intros e' He'; right; by apply Hrm).
    + intros k' Hk. by rewrite lookup_delete_ne.
    + intros sp i [Hin%list_elem_of_singleton|Hin]%elem_of_app; [|by destruct (Hn sp i)].
      by apply (f_equal (fun e => reqOf e)) in Hin.
    + intros k' Hk. by rewrite lookup_insert_ne, lookup_delete_ne.
    + intros sp i [Hin%list_elem_of_singleton|Hin]%elem_of_app;
        [by apply (f_equal (fun e => reqOf e)) in Hin|].
      destruct (Hi _ _ Hin) as [-> ->]. by rewrite lookup_insert_eq.
  - intros tr x Hr. destruct (Hadd _ _ _ Hr) as [[-> Hn]|(id & -> & Hi)]; split_and!;
      try (intros e' He'; congruence).
    + intros sp i Hin. by destruct (Hn sp i).
    + intros k' Hk. by rewrite lookup_insert_ne.
    + intros sp i Hin. destruct (Hi _ _ Hin) as [-> ->]. by rewrite lookup_insert_eq.
Qed.
End tracking.

(** ** Properties *)

Section theorems.
Context {MC : MetaConditions} {GS : GoSort}.

Lemma avoids_afterSchedule en k schedule server :
  avoids (E := K8s) isCron (afterSchedule en k schedule server).
Proof.
  assert (Hb : forall sv trigger, avoids (E := K8s) isCron (performBackup sv trigger)).
  { intros sv trigger.
    assert (Hsnap : forall s pvc now, avoids (E := K8s) isCron (takeSnapshot s trigger pvc now)).
    { intros s pvc now. unfold takeSnapshot, CreateSnapshot. apply avoids_bind.
      { destruct (IsZero _); unfold ask; avoids_tac. }
      intros [name|e]; [|apply avoids_bind; [by apply avoids_persist | done]].
      apply avoids_bind; [by apply avoids_retention|]. intros _. unfold ListSnapshots, ask.
      cbn [avoids bind call]. split; [done|]. intros l. split; [done|]. intros t.
      apply avoids_bind; [by apply avoids_persist | done]. }
    unfold performBackup, performBackupLocked, backupWithRCON, PreSnapshotHook, PostSnapshotHook,
      SendCommand, createBackupRCONClient, getRCONConnInfo, Connect, Close, ctxErr,
      persistBackupStatus, statusUpdate, ask. avoids_tac; apply Hsnap. }
  unfold afterSchedule, isSnapshotAPIUnavailable, recoverBackupReady, runTriggers, runScheduled,
    removeBackupNowAnnotation, consumeCronTrigger, ListSnapshots, setStatusConditionNow, statusUpdate, ask.
  avoids_tac; apply Hb.
Qed.

Lemma runs_entries {A} (out : A -> gmap string cronEntryInfo) en (p : prog (E := K8s) A) :
  wp p (fun _ a => out a = en) [] -> forall tr a, runs p tr a -> out a = en.
Proof. intros H tr a Hr. exact (proj1 (wp_runs _ _ _) H tr a Hr). Qed.

Lemma afterSchedule_entries en k schedule server tr x :
  runs (afterSchedule en k schedule server) tr x -> x.1 = en.
Proof.
  revert tr x. apply runs_entries.
  assert (Hs : forall sv h, wp (runScheduled en k schedule sv) (fun _ x => x.1 = en) h).
  { intros sv h. unfold runScheduled. apply wp_bind. unfold ask. cbn [call wp]. intros t.
    destruct (shouldRunScheduledBackup t sv); [|done].
    apply wp_bind. eapply wp_mono; [|apply wp_true]. intros h' [s [u|e]] _; cbn; done. }
  unfold afterSchedule. apply wp_bind. eapply wp_mono; [|apply wp_true]. intros h1 [s []] _; [done|].
  apply wp_bind. eapply wp_mono; [|apply wp_true]. intros h2 s2 _.
  unfold runTriggers. apply wp_bind. unfold ask. cbn [call wp]. intros now.
  destruct (shouldBackupNow now s2); [|destruct (Annotations (srvMeta s2) !! AnnotationBackupNow); [|apply Hs]];
    (apply wp_bind; eapply wp_mono; [|apply wp_true]; intros h3 [s3 [u|e]] _); [|done|apply Hs|done].
  apply wp_bind. eapply wp_mono; [|apply wp_true]. intros h4 [s4 [v|e]] _; [|apply Hs].
  unfold consumeCronTrigger, ask. cbn [bind call wp]. intros ?. apply Hs.
Qed.

(** C12: A backup that switches auto-save off sends the command that switches it on
    again, whatever fails on the way.  On a server with RCON the commands of a run are
    either none or an initial part of "save-all", "save-off" followed by "save-on", and
    the snapshot is created only while auto-save is off, after "save-off" and before
    "save-on".  On a server without RCON, whose snapshots are only crash consistent, no
    command is sent. *)
Theorem performBackup_save_window server trigger tr x :
  runs (performBackup server trigger) tr x ->
  if rcEnabled (ssRCON (srvSpec server)) then windowOk tr else commands tr = [].
Proof.
  unfold performBackup, performBackupLocked, ask. cbn [bind call runs].
  intros (y & t1 & -> & now & t2 & -> & pvc & t3 & -> & Hr).
  apply runs_bind in Hr as (t4 & r & t5 & -> & H4 & H5). cbn [bind call runs] in H5.
  destruct H5 as (z & t6 & -> & -> & ->).
  set (pre := [Ev (E := K8s) (RLock (keyString (srvKey server))) y; Ev (E := K8s) RNow now;
               Ev (E := K8s) (RGetPVC (srvNamespace server, pvcNameOf server)) pvc]).
  set (post := [Ev (E := K8s) (RUnlock (keyString (srvKey server))) z]).
  change (if rcEnabled (ssRCON (srvSpec server)) then windowOk (pre ++ t4 ++ post)
          else commands (pre ++ t4 ++ post) = []).
  assert (Qpre : quiet pre) by repeat constructor. assert (Qpost : quiet post) by repeat constructor.
  assert (Hfail : forall e, pvc = Err e -> quiet t4).
  { intros e ->. apply runs_bind in H4 as (t7 & sv & t8 & -> & H7 & H8).
    destruct (IsNotFound e); destruct H8 as [-> _]; rewrite app_nil_r; by eapply quiet_persist. }
  destruct (rcEnabled (ssRCON (srvSpec server))) eqn:Er.
  - apply windowOk_app; [done | | done].
    destruct pvc as [u|e]; [by eapply backupWithRCON_window | by eapply windowOk_quiet, Hfail].
  - rewrite !commands_app, (quiet_commands _ Qpre), (quiet_commands _ Qpost), app_nil_r.
    destruct pvc as [u|e]; [|by eapply quiet_commands, Hfail].
    apply commands_none. eapply avoids_runs; [apply takeSnapshot_no_command | exact H4].
Qed.

(** A backup reports success exactly when a VolumeSnapshot was created in the
    run, and every status it writes records its trigger with that same outcome,
    on every path: missing volume, unreachable RCON, failed hook, failed creation
    or success. *)
Theorem performBackup_recorded server trigger tr server' r :
  runs (performBackup server trigger) tr (server', r) ->
  (isOk r = true <-> exists s s', Ev (E := K8s) (RCreateSnapshot s) (Ok s') ∈ tr) /\
  (forall s y, Ev (E := K8s) (RStatusServer s) y ∈ tr -> lastRecord s = Some (isOk r, trigger)).
Proof.
  unfold performBackup, ask. cbn [bind call runs]. intros (y & t1 & -> & Hr).
  apply runs_bind in Hr as (t2 & [s2 r2] & t3 & -> & H2 & H3). cbn [bind call runs] in H3.
  destruct H3 as (z & t4 & -> & -> & [= -> ->]).
  apply performBackupLocked_recorded in H2.
  pose proof (recorded_app trigger (isOk r2) [Ev (E := K8s) (RLock (keyString (srvKey server))) y] t2
    [Ev (E := K8s) (RUnlock (keyString (srvKey server))) z]) as [Hs Hc];
    [by repeat constructor | done | by repeat constructor | done].
Qed.

(** A cron trigger is consumed only when it is obsolete (the server is gone,
    its backups are disabled or have no schedule) or after a VolumeSnapshot was
    created earlier in the same reconciliation: a failed scheduled backup leaves
    its trigger for the next reconciliation. *)
Lemma Reconcile_consumes_after_backup entries k tr out a ks y b :
  runs (Reconcile entries k) tr out ->
  tr = a ++ Ev (E := K8s) (RTriggerDelete ks) y :: b ->
  (exists answer, hd_error a = Some (Ev (E := K8s) (RGetServer k) answer) /\ noSchedule answer) \/
  (exists s s', Ev (E := K8s) (RCreateSnapshot s) (Ok s') ∈ a).
Proof.
  intros Hr Heq. exact (proj1 (wp_runs _ _ []) (wp_Reconcile_consume entries k) tr out Hr a ks y b Heq).
Qed.

(** Forgetting a server. *)
Lemma forget_tracked entries k (o : result Duration) tr entries' r :
  runs (en <- forgetServer entries k ;; Ret (en, o)) tr (entries', r) ->
  cronTracked (keyString k) entries entries' tr.
Proof.
  unfold forgetServer. intros Hf.
  assert (Ht : tracks (keyString k) entries fst (en <- (en <- removeBackupCronJob entries (keyString k) ;;
    consumeCronTrigger (keyString k) ;;; ask (RLockDelete (keyString k)) ;;; Ret en) ;; Ret (en, o))).
  { eapply (tracks_bind_r _ _ (fun x => x)); [eapply (tracks_bind_r _ _ (fun x => x)); [apply tracks_remove|..]|..].
    - intros en. cbn. done.
    - intros en tr' en' (z & t1 & -> & w & t2 & -> & -> & ->). done.
    - done.
    - intros en tr' en' [_ ->]. done. }
  exact (Ht _ _ Hf).
Qed.

(** The rest of a reconciliation keeps the entries and the scheduler. *)
Lemma afterSchedule_quiet en k sch s tr x : runs (afterSchedule en k sch s) tr x -> cronQuiet tr /\ x.1 = en.
Proof.
  intros Hx. split; [|by eapply afterSchedule_entries]. eapply avoids_runs; [apply avoids_afterSchedule | exact Hx].
Qed.

(** What follows a step that keeps to the rule is quiet. *)
Lemma cronTracked_then ks entries en t1 t2 :
  cronTracked ks entries en t1 -> cronQuiet t2 -> cronTracked ks entries en (t1 ++ t2).
Proof. intros H1 H2. change (t1 ++ t2) with ([] ++ t1 ++ t2). by apply cronTracked_app; [constructor|..]. Qed.

(** C37: No cron job leaks.  After a reconciliation of [k] for which the API answers
    the object of that name, the entries of other servers are as before; a job
    added to the scheduler is the one recorded for [k], with its spec; and a job
    that was recorded before is still recorded or was removed from the scheduler. *)
Theorem Reconcile_cron_tracked entries k tr entries' r :
  runs (Reconcile entries k) tr (entries', r) ->
  (forall s, hd_error tr = Some (Ev (E := K8s) (RGetServer k) (Ok s)) -> srvKey s = k) ->
  cronTracked (keyString k) entries entries' tr.
Proof.
  intros Hr Hk. unfold Reconcile in Hr. apply runs_bind in Hr as (t0 & g & t & -> & H0 & Hr).
  unfold ask in H0. cbn [call runs] in H0. destruct H0 as (y & t' & -> & -> & <-).
  rewrite <- (app_nil_r t). apply cronTracked_app; [by repeat constructor | | constructor].
  destruct g as [server|e].
  2: { destruct (IsNotFound e); [by eapply forget_tracked|].
       destruct Hr as [-> [= -> ->]]. by apply cronTracked_quiet; constructor. }
  specialize (Hk server eq_refl).
  destruct (ssBackup (srvSpec server)) as [b|]; [|by eapply forget_tracked].
  destruct (bsEnabled b); cbn [negb] in Hr; [|by eapply forget_tracked].
  destruct (bsSchedule b =? "")%string; cbn [negb] in Hr.
  - apply runs_bind in Hr as (t1 & en & t2 & -> & H1 & H2).
    unfold consumeCronTrigger, ask in H2. cbn [bind call runs] in H2.
    destruct H2 as (z & t3 & -> & [Hq He]%afterSchedule_quiet). cbn in He. subst entries'.
    apply cronTracked_then; [exact (tracks_remove _ _ _ _ H1) | by constructor].
  - apply runs_bind in Hr as (t1 & [[en s1] valid] & t2 & -> & H1 & H2).
    apply runs_bind in H2 as (t3 & [s2 p] & t4 & -> & H3 & H4).
    assert (Hq3 : cronQuiet t3).
    { eapply avoids_runs; [|exact H3].
      unfold persistCronCondition, setStatusConditionNow, statusUpdate, ask. avoids_tac. }
    assert (Hq4 : cronQuiet t4 /\ entries' = en).
    { destruct p as [u|e]; [destruct valid; cbn [negb] in H4; [exact (afterSchedule_quiet _ _ _ _ _ _ H4)|]|];
        destruct H4 as [-> [= -> ->]]; (split; [constructor | done]). }
    destruct Hq4 as [Hq4 ->]. apply cronTracked_then; [|by apply Forall_app].
    rewrite <- Hk. exact (tracks_manage _ _ _ _ _ H1).
Qed.

(** The backup-now annotation triggers a backup exactly when it holds a number
    of seconds (input after the number is ignored) within five minutes of the
    present on either side. *)
Theorem shouldBackupNow_window now server :
  shouldBackupNow now server = true <->
  exists s ts, Annotations (srvMeta server) !! AnnotationBackupNow = Some s /\ SscanfD s = Some ts /\
    - (5 * Minute) <= now - Unix ts <= 5 * Minute.
Proof.
  unfold shouldBackupNow, backupNowMaxAge.
  destruct (Annotations (srvMeta server) !! AnnotationBackupNow) as [s|] eqn:Ha; [|naive_solver].
  destruct (SscanfD s) as [ts|] eqn:Hs; [|naive_solver].
  assert (Hm : 0 < 5 * Minute < maxInt64) by by vm_compute.
  rewrite negb_true_iff, orb_false_iff, Z.ltb_ge, Z.ltb_ge.
  unfold Sub, minInt64 in *.
  split.
  - intros [H1 H2]. exists s, ts. split_and!; [done | done | unfold maxInt64 in *; lia..].
  - intros (s' & ts' & [= <-] & Hs' & H1). assert (ts' = ts) as -> by congruence.
    unfold maxInt64 in *. lia.
Qed.
End theorems.

(** ** The theorems on concrete runs *)

Section witnesses.
Existing Instance ListConditions.conditions.
Existing Instance InsertionSort.goSort.

(** A server with RCON and a backup schedule. *)
Definition backupServer : PaperMCServer :=
  zeroPaperMCServer
    <| srvMeta := zeroObjectMeta <| Name := "srv" |> <| Namespace := "ns" |>
         <| Annotations := {[ AnnotationBackupNow := "1700000000 now" ]} |> |>
    <| srvSpec := zeroPaperMCServerSpec
         <| ssRCON := MkRCONConfig true (MkSecretKeyRef "rcon" "password") 0 |>
         <| ssBackup := Some (MkBackupSpec true "0 4 * * *" None "" (MkBackupRetention 3)) |> |>.

(** A cluster in which everything works and a trigger is pending; [fail] makes the
    creation of the snapshot fail. *)
Definition cluster (fail : bool) (h : list event) (r : kreq) : kans r :=
  match r return kans r with
  | RGetServer _ => Ok backupServer
  | RGetPod _ => Ok (MkPod "10.0.0.1" [])
  | RGetSecret _ => Ok {[ "password" := "pw" ]}
  | RDial _ _ => Ok 7
  | RCreateSnapshot s => if fail then Err (ErrNew "quota exceeded") else Ok s
  | RTriggerGet _ => Some 1
  | r => idle r
  end.

Lemma performBackup_save_window_witness :
  let p := performBackup backupServer "manual" in
  commands (exec (cluster true) p []).1 = ["save-all"; "save-off"; "save-on"] /\
  isOk (exec (cluster true) p []).2.2 = false /\
  windowOk (exec (cluster true) p []).1.
Proof.
  cbv zeta. set (p := performBackup backupServer "manual").
  assert (Hr : runs p (exec (cluster true) p []).1 (exec (cluster true) p []).2) by apply exec_runs.
  split; [vm_compute; reflexivity|]. split; [vm_compute; reflexivity|].
  exact (performBackup_save_window backupServer "manual" _ _ Hr).
Defined.

Lemma performBackup_recorded_witness :
  let p := performBackup backupServer "manual" in let run := exec (cluster false) p [] in
  isOk run.2.2 = true /\
  (isOk run.2.2 = true <-> exists s s', Ev (E := K8s) (RCreateSnapshot s) (Ok s') ∈ run.1) /\
  (forall s y, Ev (E := K8s) (RStatusServer s) y ∈ run.1 -> lastRecord s = Some (isOk run.2.2, "manual")).
Proof.
  cbv zeta. set (p := performBackup backupServer "manual").
  assert (Hr : runs p (exec (cluster false) p []).1
    ((exec (cluster false) p []).2.1, (exec (cluster false) p []).2.2)).
  { rewrite <- surjective_pairing. apply exec_runs. }
  split; [vm_compute; reflexivity|].
  exact (performBackup_recorded backupServer "manual" _ _ _ Hr).
Defined.

(** The last request of a successful scheduled reconciliation consumes the trigger. *)
Lemma Reconcile_consumes_witness :
  let p := Reconcile ∅ ("ns", "srv") in let tr := (exec (cluster false) p []).1 in
  exists a b, tr = a ++ Ev (E := K8s) (RTriggerDelete "ns/srv") tt :: b /\
  ((exists answer, hd_error a = Some (Ev (E := K8s) (RGetServer ("ns", "srv")) answer) /\ noSchedule answer) \/
   (exists s s', Ev (E := K8s) (RCreateSnapshot s) (Ok s') ∈ a)).
Proof.
  cbv zeta. set (p := Reconcile ∅ ("ns", "srv")).
  assert (Hr : runs p (exec (cluster false) p []).1 (exec (cluster false) p []).2) by apply exec_runs.
  set (tr := (exec (cluster false) p []).1) in *.
  assert (Heq : tr = take (length tr - 1) tr ++ Ev (E := K8s) (RTriggerDelete "ns/srv") tt :: []).
  { vm_compute. reflexivity. }
  exists (take (length tr - 1) tr), []. split; [exact Heq|].
  exact (Reconcile_consumes_after_backup _ _ _ _ _ _ _ _ Hr Heq).
Defined.

(** The schedule changed: job 5 is removed and a new one registered. *)
Lemma Reconcile_cron_tracked_witness :
  let entries := {[ "ns/srv" := MkCronEntry 5 "old" ]} in
  let p := Reconcile entries ("ns", "srv") in let run := exec (cluster false) p [] in
  run.2.1 !! "ns/srv" = Some (MkCronEntry 1 "0 4 * * *") /\
  cronTracked "ns/srv" entries run.2.1 run.1.
Proof.
  cbv zeta. set (entries := {[ "ns/srv" := MkCronEntry 5 "old" ]}).
  set (p := Reconcile entries ("ns", "srv")).
  assert (Hr : runs p (exec (cluster false) p []).1
    ((exec (cluster false) p []).2.1, (exec (cluster false) p []).2.2)).
  { rewrite <- surjective_pairing. apply exec_runs. }
  split; [vm_compute; reflexivity|].
  apply (Reconcile_cron_tracked entries ("ns", "srv") _ _ _ Hr).
  intros s Hs. assert (Hhd : hd_error (exec (cluster false) p []).1 =
    Some (Ev (E := K8s) (RGetServer ("ns", "srv")) (Ok backupServer))) by (vm_compute; reflexivity).
  rewrite Hhd in Hs. apply (f_equal (fun o : option (event (E := K8s)) => match o with
    | Some (existT (RGetServer _) (Ok q)) => Some q | _ => None end)) in Hs.
  injection Hs as <-. vm_compute. reflexivity.
Defined.

(** The annotation is valid four minutes before and after its time, and refused
    six minutes after. *)
Example backup_now_window :
  shouldBackupNow (Unix 1700000240) backupServer = true /\
  shouldBackupNow (Unix 1699999760) backupServer = true /\
  shouldBackupNow (Unix 1700000360) backupServer = false.
Proof. vm_compute. split_and!; reflexivity. Qed.
End witnesses.
