(* ===== verification/Window.v ===== *)
(** * When an update may be applied

    The decisions of [internal/controller/update_controller.go]: the update
    delay, the maintenance window and the apply-now annotation.  Cron
    expressions are parsed and evaluated by [github.com/robfig/cron]; [Cron] is
    what the source calls and [CronLaws] its documented behaviour. *)

From S2P Require Import Prelude GoBase Api.

Open Scope Z_scope.

(** ** The cron package *)

Class Cron := {
  Schedule : Type;
  ParseCron : string -> result Schedule;
  (** the next activation after a time, or the zero time if none is found *)
  Next : Schedule -> Time -> Time
}.

(** [fires s u]: the schedule is active at [u]; activations of five-field
    expressions are at whole minutes. *)
Class CronLaws {CR : Cron} := {
  fires : Schedule -> Time -> Prop;
  fires_minute : forall s u, fires s u -> u mod Minute = 0;
  Next_spec : forall s t, Next s t <> 0 ->
    t < Next s t /\ fires s (Next s t) /\ forall u, t < u < Next s t -> ~ fires s u
}.

(** ** Update delay *)

(** [now] is [r.now()]: whether to apply, and the remaining delay. *)
Definition shouldApplyUpdate (now : Time) (server : PaperMCServer) : bool * Duration :=
  match stAvailableUpdate (srvStatus server) with
  | None => (true, 0)
  | Some u =>
      match ssUpdateDelay (srvSpec server) with
      | None => (true, 0)
      | Some delay =>
          let timeSinceRelease := Sub now (auReleasedAt u) in
          if delay <=? timeSinceRelease then (true, 0)
          else (false, wrap64 (delay - timeSinceRelease))
      end
  end.

(** ** Apply-now annotation *)

Definition applyNowMaxAge : Duration := 5 * Minute.
Definition AnnotationApplyNow : string := "mc.k8s.lex.la/apply-now".

Definition shouldApplyNow (now : Time) (server : PaperMCServer) : bool :=
  match Annotations (srvMeta server) !! AnnotationApplyNow with
  | None => false
  | Some tsStr =>
      match SscanfD tsStr with
      | None => false
      | Some ts => negb (applyNowMaxAge <? Sub now (Unix ts))
      end
  end.

(** ** Maintenance window *)

Definition maintenanceWindowDuration : Duration := Hour.
Definition lookback : Duration := 7 * 24 * Hour.

(** ** Delay and annotation: properties *)

(** the update delay.  Without a pending update or a delay an update may be
    applied; otherwise exactly when the delay has passed since the release.  While
    it has not, the remaining time is positive, and the update may be applied once
    it has passed and not a moment before. *)
Theorem shouldApplyUpdate_correct now server u d :
  stAvailableUpdate (srvStatus server) = Some u -> ssUpdateDelay (srvSpec server) = Some d ->
  0 <= d <= maxInt64 -> in_int64 (now - auReleasedAt u) -> in_int64 (d - (now - auReleasedAt u)) ->
  (auReleasedAt u + d <= now -> shouldApplyUpdate now server = (true, 0)) /\
  (now < auReleasedAt u + d -> exists rem, shouldApplyUpdate now server = (false, rem) /\ 0 < rem /\
     (shouldApplyUpdate (now + rem) server).1 = true /\
     forall e, 0 <= e < rem -> (shouldApplyUpdate (now + e) server).1 = false).
Proof.
  intros Hu Hd Hr Hb Hw. unfold shouldApplyUpdate. rewrite Hu, Hd.
  assert (Hsub : forall e, 0 <= e -> now + e <= auReleasedAt u + d ->
    Sub (now + e) (auReleasedAt u) = now + e - auReleasedAt u).
  { intros e He Hle. unfold Sub. unfold in_int64 in *. lia. }
  assert (Hsub0 : Sub now (auReleasedAt u) = now - auReleasedAt u).
  { unfold Sub. unfold in_int64 in *. lia. }
  rewrite Hsub0, wrap64_id by done. split.
  - intros H. by rewrite (proj2 (Z.leb_le _ _)) by lia.
  - intros H. rewrite (proj2 (Z.leb_gt _ _)) by lia. eexists. split; [done|]. split; [lia|]. split.
    + rewrite Hsub by lia. by rewrite (proj2 (Z.leb_le _ _)) by lia.
    + intros e He. rewrite Hsub by lia. by rewrite (proj2 (Z.leb_gt _ _)) by lia.
Qed.

(** An update released at second 1000 with an hour of delay, looked at half an
    hour later. *)
Definition delayed : PaperMCServer :=
  zeroPaperMCServer
    <| srvSpec := zeroPaperMCServerSpec <| ssUpdateDelay := Some Hour |> |>
    <| srvStatus := zeroPaperMCServerStatus
         <| stAvailableUpdate := Some (MkAvailableUpdate "1.21.4" 10 (1000 * Second) [] (1000 * Second)) |> |>.

Lemma shouldApplyUpdate_correct_witness :
  shouldApplyUpdate (1000 * Second + 30 * Minute) delayed = (false, 30 * Minute) /\
  shouldApplyUpdate (1000 * Second + 60 * Minute) delayed = (true, 0).
Proof.
  split.
  - destruct (shouldApplyUpdate_correct (1000 * Second + 30 * Minute) delayed _ Hour eq_refl eq_refl)
      as [_ H]; [by vm_compute | by vm_compute | by vm_compute |].
    destruct H as (rem & E & _); [by vm_compute|]. vm_compute in E. injection E as <-. by vm_compute.
  - destruct (shouldApplyUpdate_correct (1000 * Second + 60 * Minute) delayed _ Hour eq_refl eq_refl)
      as [H _]; [by vm_compute | by vm_compute | by vm_compute |]. apply H. by vm_compute.
Defined.

(** the apply-now annotation.  It is honoured exactly when its value starts
    with a decimal timestamp that is at most five minutes old.  There is no bound
    on the other side: a timestamp in the future is honoured at once and stays
    honoured until five minutes after it. *)
Theorem shouldApplyNow_correct now server :
  shouldApplyNow now server = true <->
  exists v ts, Annotations (srvMeta server) !! AnnotationApplyNow = Some v /\ SscanfD v = Some ts /\
    now <= Unix ts + applyNowMaxAge.
Proof.
  unfold shouldApplyNow.
  assert (HA : 0 < applyNowMaxAge < maxInt64) by by vm_compute.
  assert (HS : forall t, (applyNowMaxAge <? Sub now t) = false <-> now <= t + applyNowMaxAge).
  { intros t. rewrite Z.ltb_ge. unfold Sub. assert (minInt64 < 0) by by vm_compute. lia. }
  destruct (_ !! _) as [v|] eqn:Hv.
  2: { split; [done|]. by intros (v & ts & [=] & _). }
  destruct (SscanfD v) as [ts|] eqn:Ht.
  - rewrite negb_true_iff, HS. split; [intros H; by exists v, ts|].
    intros (v' & ts' & [= <-] & Ht' & H). rewrite Ht in Ht'. injection Ht' as <-. done.
  - split; [done|]. intros (v' & ts' & [= <-] & Ht' & _). congruence.
Qed.

Section window.
Context {CR : Cron}.

(** The loop of [findLastCronTrigger]; [None] when the fuel runs out. *)
Fixpoint findLastLoop (fuel : nat) (schedule : Schedule) (now candidate lastTrigger : Time)
  : option Time :=
  match fuel with
  | O => None
  | S n =>
      let next := Next schedule candidate in
      if After next now then Some lastTrigger
      else findLastLoop n schedule now next next
  end.

(** One activation per minute of the lookback, the first step and the last. *)
Definition triggerFuel : nat := Z.to_nat (lookback / Minute + 3).

Definition findLastCronTrigger (schedule : Schedule) (now : Time) : option Time :=
  findLastLoop triggerFuel schedule now (Add now (- lookback)) 0.

(** [None] when [findLastCronTrigger] does not return. *)
Definition isInMaintenanceWindow (now : Time) (server : PaperMCServer) : option bool :=
  let mw := usMaintenanceWindow (ssUpdateSchedule (srvSpec server)) in
  if negb (mwEnabled mw) || (mwCron mw =? "")%string then Some true
  else match ParseCron (mwCron mw) with
       | Err _ => Some false
       | Ok schedule =>
           match findLastCronTrigger schedule now with
           | None => None
           | Some lastTrigger =>
               if IsZero lastTrigger then Some false
               else
                 let windowEnd := Add lastTrigger maintenanceWindowDuration in
                 Some (negb (Before now lastTrigger) && Before now windowEnd)
           end
       end.

Context {CL : CronLaws}.

(** The answer is the last activation of the lookback, zero if there is none. *)
Definition lastTriggerIs (s : Schedule) (now r : Time) : Prop :=
  (r = 0 /\ forall u, now - lookback < u <= now -> ~ fires s u) \/
  (fires s r /\ now - lookback < r <= now /\ forall u, r < u <= now -> ~ fires s u).

Lemma findLastLoop_from fuel s now c :
  (forall t, now - lookback <= t <= now -> Next s t <> 0) ->
  fires s c -> now - lookback < c <= now -> (now - c) / Minute + 1 < Z.of_nat fuel ->
  exists r, findLastLoop fuel s now c c = Some r /\ lastTriggerIs s now r.
Proof.
  intros Hnz. revert c. induction fuel as [|n IH]; intros c Hc Hb Hf.
  { pose proof (Z.div_pos (now - c) Minute ltac:(lia) ltac:(by vm_compute)). lia. }
  cbn [findLastLoop]. destruct (Next_spec s c) as (Hlt & Hfire & Hleast); [apply Hnz; lia|].
  unfold After. destruct (Z.ltb_spec now (Next s c)) as [Ha|Ha].
  - exists c. split; [done|]. right. split_and!; [done | lia | lia |].
    intros u Hu. apply Hleast. lia.
  - apply IH; [done | lia |].
    pose proof (fires_minute _ _ Hc) as M1. pose proof (fires_minute _ _ Hfire) as M2.
    assert (Hgap : c + Minute <= Next s c).
    { assert (HM : 0 < Minute) by by vm_compute.
      pose proof (Z.div_mod c Minute ltac:(lia)) as D1.
      pose proof (Z.div_mod (Next s c) Minute ltac:(lia)) as D2. rewrite M1 in D1. rewrite M2 in D2.
      revert D1 D2. generalize (c / Minute) (Next s c / Minute). intros a b D1 D2.
      assert (a < b) by nia. nia. }
    assert ((now - Next s c) / Minute + 1 <= (now - c) / Minute); [|lia].
    rewrite <- Z.div_add by by vm_compute. apply Z.div_le_mono; [by vm_compute | lia].
Qed.

Lemma findLastCronTrigger_ok s now :
  (forall t, now - lookback <= t <= now -> Next s t <> 0) ->
  exists r, findLastCronTrigger s now = Some r /\ lastTriggerIs s now r.
Proof.
  intros Hnz. unfold findLastCronTrigger, Add.
  assert (Hfuel : triggerFuel = S (Z.to_nat (lookback / Minute + 2))) by by vm_compute.
  rewrite Hfuel. cbn [findLastLoop]. assert (HL : 0 < lookback) by by vm_compute.
  replace (now + - lookback) with (now - lookback) by lia.
  destruct (Next_spec s (now - lookback)) as (Hlt & Hfire & Hleast); [apply Hnz; lia|].
  unfold After. destruct (Z.ltb_spec now (Next s (now - lookback))) as [Ha|Ha].
  - exists 0. split; [done|]. left. split; [done|]. intros u Hu. apply Hleast. lia.
  - apply findLastLoop_from; [done | done | lia |].
    assert ((now - Next s (now - lookback)) / Minute <= lookback / Minute).
    { apply Z.div_le_mono; [by vm_compute | lia]. }
    assert (0 <= lookback / Minute) by by vm_compute. rewrite Z2Nat.id; lia.
Qed.

Definition windowEnabled (server : PaperMCServer) : Prop :=
  mwEnabled (usMaintenanceWindow (ssUpdateSchedule (srvSpec server))) = true /\
  mwCron (usMaintenanceWindow (ssUpdateSchedule (srvSpec server))) <> "".

Lemma maintenanceWindow_short : 0 < maintenanceWindowDuration < lookback.
Proof. by vm_compute. Qed.

(** The window test of the code and the interval it stands for. *)
Lemma windowTest_spec (s : Schedule) now r :
  lastTriggerIs s now r -> lookback <= now ->
  (if IsZero r then false
   else negb (Before now r) && Before now (Add r maintenanceWindowDuration)) = true <->
  exists t, fires s t /\ t <= now < t + maintenanceWindowDuration.
Proof.
  pose proof maintenanceWindow_short as HW. unfold IsZero, Before, Add.
  intros [[-> Hno]|(Hf & Hr & Hlast)] Hnow.
  - cbn. split; [done|]. intros (t & Ht & Hb). destruct (Hno t); [lia | done].
  - destruct (Z.eqb_spec r 0) as [->|Hnz]; [lia|].
    rewrite andb_true_iff, negb_true_iff, Z.ltb_ge, Z.ltb_lt. split; [by exists r|].
    intros (t & Ht & Hb). split; [lia|]. destruct (Z.le_gt_cases t r); [lia|].
    destruct (Hlast t); [lia | done].
Qed.

(** A window that is disabled or without expression is always open, although
    docs/operations/troubleshooting.md says that disabling it disables updates. *)
Lemma isInMaintenanceWindow_disabled now server : ~ windowEnabled server -> isInMaintenanceWindow now server = Some true.
Proof.
  unfold windowEnabled, isInMaintenanceWindow. destruct (usMaintenanceWindow _) as [cron [|]]; cbn; [|done].
  destruct (String.eqb_spec cron "") as [->|Hne]; cbn; [done|]. intros H. by destruct H.
Qed.

(** C34: the maintenance window.  For a window that is enabled, with an expression: if
    the expression does not parse the window is closed; if its schedule keeps firing
    during the lookback, [isInMaintenanceWindow] returns, and it answers true exactly
    when the schedule fired at some time less than an hour ago.  (A schedule that never
    fires makes it run for ever: [findLastCronTrigger_diverges].) *)
Theorem isInMaintenanceWindow_correct now server :
  lookback <= now -> windowEnabled server ->
  match ParseCron (mwCron (usMaintenanceWindow (ssUpdateSchedule (srvSpec server)))) with
  | Err _ => isInMaintenanceWindow now server = Some false
  | Ok s =>
      (forall t, now - lookback <= t <= now -> Next s t <> 0) ->
      exists b, isInMaintenanceWindow now server = Some b /\
        (b = true <-> exists t, fires s t /\ t <= now < t + maintenanceWindowDuration)
  end.
Proof.
  intros Hnow. unfold windowEnabled, isInMaintenanceWindow.
  destruct (usMaintenanceWindow _) as [cron [|]]; cbn; [|by intros []].
  intros [_ Hne]. rewrite (proj2 (String.eqb_neq _ _) Hne). cbn. destruct (ParseCron cron) as [s|e]; [|done].
  intros Hnz. destruct (findLastCronTrigger_ok s now Hnz) as (r & -> & Hr).
  eexists. split; [|by apply (windowTest_spec s now r Hr Hnow)]. by destruct (IsZero r).
Qed.

(** [findLastCronTrigger] does not return for a schedule that never fires.
    The cron package answers the zero time when it finds no activation; the loop
    then restarts from the zero time, which is never after [now], so no number of
    iterations reaches the break. *)
Theorem findLastCronTrigger_diverges (s : Schedule) now fuel :
  (forall t, Next s t = 0) -> 0 <= now ->
  findLastLoop fuel s now (Add now (- lookback)) 0 = None.
Proof.
  intros Hn Hnow. generalize (Add now (- lookback)) as c, 0 as l. induction fuel as [|n IH]; intros c l; [done|].
  cbn [findLastLoop]. rewrite Hn. unfold After. rewrite (proj2 (Z.ltb_ge now 0)) by lia. apply IH.
Qed.
End window.

(** ** A concrete instance: daily schedules, and one that never fires *)

Module Daily.
Definition Day : Duration := 24 * Hour.

(** The minute of the day, or never. *)
Definition next (s : option Z) (t : Time) : Time :=
  match s with
  | None => 0
  | Some m =>
      let base := t / Day * Day + (m mod 1440) * Minute in
      if t <? base then base else base + Day
  end.

Definition parse (spec : string) : result (option Z) :=
  if (spec =? "0 4 * * *")%string then Ok (Some 240)
  else if (spec =? "0 0 30 2 *")%string then Ok None
  else Err (ErrNew "expected exactly 5 fields").

#[global] Instance cron : Cron := {| Schedule := option Z; ParseCron := parse; Next := next |}.

Definition active (s : option Z) (u : Time) : Prop :=
  match s with None => False | Some m => u mod Day = (m mod 1440) * Minute end.

#[global] Instance cron_laws : CronLaws.
Proof.
  refine {| fires := active |}; cbn.
  - intros [m|] u; cbn; [|done]. intros Hu.
    assert (Day = 1440 * Minute) as HD by by vm_compute.
    assert (0 < Minute) by by vm_compute.
    rewrite (Z.div_mod u Day) by (rewrite HD; lia). rewrite Hu, HD.
    replace (1440 * Minute * (u / (1440 * Minute)) + m mod 1440 * Minute)
      with ((1440 * (u / (1440 * Minute)) + m mod 1440) * Minute) by lia.
    apply Z.mod_mul. lia.
  - intros [m|] t Hn; cbn in *; [|done]. clear Hn.
    assert (HD : Day = 1440 * Minute) by by vm_compute.
    assert (HM : 0 < Minute) by by vm_compute.
    pose proof (Z.mod_pos_bound m 1440 ltac:(lia)) as Hm.
    pose proof (Z.div_mod t Day ltac:(lia)) as Ht. pose proof (Z.mod_pos_bound t Day ltac:(lia)) as Hr.
    assert (Hact : forall k, (k * Day + m mod 1440 * Minute) mod Day = m mod 1440 * Minute).
    { intros k. rewrite Z.add_comm, Z.mod_add by lia. apply Z.mod_small. nia. }
    assert (Hu : forall u, u mod Day = m mod 1440 * Minute -> exists k, u = k * Day + m mod 1440 * Minute).
    { intros u Hu. exists (u / Day). pose proof (Z.div_mod u Day ltac:(lia)). lia. }
    destruct (Z.ltb_spec t (t / Day * Day + m mod 1440 * Minute)).
    + split_and!; [done | apply Hact |]. intros u Hb (k & ->)%Hu.
      assert (k < t / Day) by nia. nia.
    + split_and!; [nia | replace (t / Day * Day + m mod 1440 * Minute + Day)
        with ((t / Day + 1) * Day + m mod 1440 * Minute) by lia; apply Hact |].
      intros u Hb (k & ->)%Hu. assert (k < t / Day + 1) by nia. assert (t / Day < k) by nia. lia.
Defined.
End Daily.

(** ** Evaluated examples *)

Definition withWindow (cron : string) : PaperMCServer :=
  zeroPaperMCServer
    <| srvSpec := zeroPaperMCServerSpec
         <| ssUpdateSchedule := MkUpdateSchedule cron (MkMaintenanceWindow cron true) |> |>.

(** 2023-11-14 04:30 and 05:30, for a window that opens at four. *)
Definition fourThirty : Time := Unix 1699936200.

Lemma isInMaintenanceWindow_correct_witness :
  isInMaintenanceWindow fourThirty (withWindow "0 4 * * *") = Some true /\
  isInMaintenanceWindow (fourThirty + Hour) (withWindow "0 4 * * *") = Some false /\
  exists b, isInMaintenanceWindow fourThirty (withWindow "0 4 * * *") = Some b /\
    (b = true <-> exists t, Daily.active (Some 240) t /\ t <= fourThirty < t + maintenanceWindowDuration).
Proof.
  split; [by vm_compute|]. split; [by vm_compute|].
  refine (isInMaintenanceWindow_correct fourThirty (withWindow "0 4 * * *") ltac:(by vm_compute) ltac:(by split; vm_compute) _).
  intros t Ht. unfold Next; cbn -[Z.mul Z.add Z.div Z.modulo fourThirty lookback].
  assert (0 < t) by (assert (0 < fourThirty - lookback) by (by vm_compute); lia).
  unfold Daily.next. pose proof (Z.div_pos t Daily.Day ltac:(lia) ltac:(by vm_compute)).
  assert (0 < Daily.Day) by by vm_compute. assert (0 < 240 mod 1440 * Minute) by by vm_compute.
  destruct (_ <? _); nia.
Defined.

Lemma findLastCronTrigger_diverges_witness :
  ParseCron "0 0 30 2 *" = Ok None /\ forall fuel, findLastLoop fuel None fourThirty (Add fourThirty (- lookback)) 0 = None.
Proof.
  split; [done|]. intros fuel. apply (findLastCronTrigger_diverges (CR := Daily.cron) None fourThirty fuel); by vm_compute.
Defined.
