(* ===== verification/Url.v ===== *)
(** * Download URLs (pkg/plugins/url.go)

    The check that keeps plugin downloads away from internal addresses.  The
    functions of the packages net, net/netip and math/big that the source calls
    are modelled on byte strings; [net/url.Parse], whose grammar differs between
    releases of Go, is an interface that answers scheme and host. *)

From S2P Require Import Prelude GoBase Decimals Strings.
From Stdlib Require Import Ascii.

Open Scope Z_scope.

(** ** Strings *)

Definition byteAt (s : string) (i : nat) : option ascii := String.get i s.

Definition hexVal (c : ascii) : option Z :=
  let n := Z.of_nat (nat_of_ascii c) in
  if (48 <=? n) && (n <=? 57) then Some (n - 48)
  else if (97 <=? n) && (n <=? 102) then Some (n - 87)
  else if (65 <=? n) && (n <=? 70) then Some (n - 55)
  else None.

(** ** net.SplitHostPort *)

Definition SplitHostPort (hostport : string) : option (string * string) :=
  let i := LastIndexByte hostport ":"%char in
  if i <? 0 then None
  else
    let port := str_drop (Z.to_nat (i + 1)) hostport in
    let finish (host : string) (j k : nat) :=
      if 0 <=? IndexByte (str_drop j hostport) "["%char then None
      else if 0 <=? IndexByte (str_drop k hostport) "]"%char then None
      else Some (host, port) in
    match byteAt hostport 0 with
    | Some "["%char =>
        let e := IndexByte hostport "]"%char in
        if e <? 0 then None
        else if e + 1 =? i then
          finish (str_take (Z.to_nat (e - 1)) (str_drop 1 hostport)) 1%nat (Z.to_nat (e + 1))
        else None
    | _ =>
        let host := str_take (Z.to_nat i) hostport in
        if 0 <=? IndexByte host ":"%char then None else finish host 0%nat 0%nat
    end.

(** ** net.ParseIP

    An address is its sixteen bytes; an IPv4 address is mapped into the IPv6
    space. *)

Definition IP : Type := list Z.

Definition v4InV6Prefix : list Z := [0; 0; 0; 0; 0; 0; 0; 0; 0; 0; 255; 255].

(** [net.IPv4] *)
Definition IPv4 (a b c d : Z) : IP := v4InV6Prefix ++ [a; b; c; d].

(** The loop of [parseIPv4Fields]: [val] and [digLen] of the current field, the
    fields before it. *)
Fixpoint parseIPv4Loop (s : string) (val digLen : Z) (fields : list Z) : option (list Z) :=
  match s with
  | EmptyString =>
      if digLen =? 0 then None
      else if (length fields <? 3)%nat then None
      else Some (fields ++ [val])
  | String c s' =>
      if isDigit c then
        if (digLen =? 1) && (val =? 0) then None
        else
          let val := val * 10 + digitVal c in
          if 255 <? val then None else parseIPv4Loop s' val (digLen + 1) fields
      else if Ascii.eqb c "."%char then
        if digLen =? 0 then None
        else if (length fields =? 3)%nat then None
        else parseIPv4Loop s' 0 0 (fields ++ [val])
      else None
  end.

Definition parseIPv4Fields (s : string) : option (list Z) := parseIPv4Loop s 0 0 [].

(** The hex number at the head of a group: value, digits read, rest; more than
    four digits are an error. *)
Fixpoint parseHexGroup (s : string) (acc : Z) (off : nat) : option (Z * nat * string) :=
  match s with
  | EmptyString => Some (acc, off, s)
  | String c s' =>
      match hexVal c with
      | None => Some (acc, off, s)
      | Some v => if (3 <? off)%nat then None else parseHexGroup s' (acc * 16 + v) (S off)
      end
  end.

(** The loop of [parseIPv6], at most eight groups: the bytes read, the position of
    the ellipsis and the unread rest. *)
Fixpoint parseIPv6Loop (groups : nat) (s : string) (ip : list Z) (ellipsis : option nat)
  : option (list Z * option nat * string) :=
  match groups with
  | O => Some (ip, ellipsis, s)
  | S n =>
      match parseHexGroup s 0 0 with
      | None => None
      | Some (acc, off, rest) =>
          if (off =? 0)%nat then None
          else match byteAt rest 0 with
          | Some "."%char =>
              if (match ellipsis with None => true | Some _ => false end) && negb (length ip =? 12)%nat then None
              else if (16 <? length ip + 4)%nat then None
              else match parseIPv4Fields s with
                   | None => None
                   | Some fs => Some (ip ++ fs, ellipsis, EmptyString)
                   end
          | o =>
              let ip := ip ++ [acc / 256; acc mod 256] in
              match o with
              | None => Some (ip, ellipsis, EmptyString)
              | Some ":"%char =>
                  match str_drop 1 rest with
                  | EmptyString => None
                  | s1 =>
                      if HasPrefix s1 ":" then
                        match ellipsis with
                        | Some _ => None
                        | None =>
                            match str_drop 1 s1 with
                            | EmptyString => Some (ip, Some (length ip), EmptyString)
                            | s2 => parseIPv6Loop n s2 ip (Some (length ip))
                            end
                        end
                      else parseIPv6Loop n s1 ip ellipsis
                  end
              | Some _ => None
              end
          end
      end
  end.

Definition parseIPv6 (s : string) : option IP :=
  let lead := HasPrefix s "::" in
  let s1 := if lead then str_drop 2 s else s in
  if lead && (s1 =? "")%string then Some (repeat 0 16)
  else
    match parseIPv6Loop 8 s1 [] (if lead then Some 0%nat else None) with
    | None => None
    | Some (ip, ellipsis, rest) =>
        if negb (rest =? "")%string then None
        else if (length ip <? 16)%nat then
          match ellipsis with
          | None => None
          | Some e => Some (take e ip ++ repeat 0 (16 - length ip) ++ drop e ip)
          end
        else match ellipsis with Some _ => None | None => Some ip end
    end.

(** The first '.', ':' or '%' decides the family. *)
Fixpoint addrFamily (s : string) : option ascii :=
  match s with
  | EmptyString => None
  | String c s' =>
      if (Ascii.eqb c "." || Ascii.eqb c ":" || Ascii.eqb c "%")%char then Some c else addrFamily s'
  end.

(** Addresses with a zone are refused. *)
Definition ParseIP (s : string) : option IP :=
  match addrFamily s with
  | Some "."%char => (fun fs => v4InV6Prefix ++ fs) <$> parseIPv4Fields s
  | Some ":"%char => if 0 <=? IndexByte s "%"%char then None else parseIPv6 s
  | _ => None
  end.

Definition To4 (ip : IP) : option (list Z) :=
  if bool_decide (take 12 ip = v4InV6Prefix) then Some (drop 12 ip) else None.

Definition at_ (l : list Z) (i : nat) : Z := nth i l 0.

Definition IsLoopback (ip : IP) : bool :=
  match To4 ip with
  | Some v4 => at_ v4 0 =? 127
  | None => bool_decide (ip = repeat 0 15 ++ [1])
  end.

Definition IsPrivate (ip : IP) : bool :=
  match To4 ip with
  | Some v4 => (at_ v4 0 =? 10) || ((at_ v4 0 =? 172) && (Z.land (at_ v4 1) 240 =? 16)) ||
               ((at_ v4 0 =? 192) && (at_ v4 1 =? 168))
  | None => Z.land (at_ ip 0) 254 =? 252
  end.

Definition IsLinkLocalUnicast (ip : IP) : bool :=
  match To4 ip with
  | Some v4 => (at_ v4 0 =? 169) && (at_ v4 1 =? 254)
  | None => (at_ ip 0 =? 254) && (Z.land (at_ ip 1) 192 =? 128)
  end.

Definition IsLinkLocalMulticast (ip : IP) : bool :=
  match To4 ip with
  | Some v4 => (at_ v4 0 =? 224) && (at_ v4 1 =? 0) && (at_ v4 2 =? 0)
  | None => (at_ ip 0 =? 255) && (Z.land (at_ ip 1) 15 =? 2)
  end.

Definition IsUnspecified (ip : IP) : bool :=
  bool_decide (ip = IPv4 0 0 0 0) || bool_decide (ip = repeat 0 16).

(** The ranges that [isBlockedHost] refuses, for both kinds of literal. *)
Definition restricted (ip : IP) : bool :=
  IsLoopback ip || IsPrivate ip || IsLinkLocalUnicast ip || IsLinkLocalMulticast ip || IsUnspecified ip.

(** ** url.go *)

Definition allDigits (s : string) : bool := str_all isDigit s.

Definition hasHexPrefix (s : string) : bool := HasPrefix s "0x" || HasPrefix s "0X".

(** The loop of [looksLikeNonStandardIP] over the parts. *)
Fixpoint nonStandardParts (parts : list string) : bool :=
  match parts with
  | [] => false
  | part :: rest =>
      if (part =? "")%string then false
      else if hasHexPrefix part then true
      else if (1 <? String.length part)%nat && HasPrefix part "0" && allDigits part then true
      else nonStandardParts rest
  end.

Definition looksLikeNonStandardIP (hostname : string) : bool :=
  let parts := SplitByte hostname "."%char in
  if negb (length parts =? 4)%nat then false else nonStandardParts parts.

(** Hex digits only, on top of [acc]. *)
Fixpoint hexDigits (s : string) (acc : Z) : option Z :=
  match s with
  | EmptyString => Some acc
  | String c s' => match hexVal c with Some v => hexDigits s' (acc * 16 + v) | None => None end
  end.

(** [n.SetString(s, 16)] of package math/big: an optional sign and hex digits. *)
Definition SetString16 (s : string) : option Z :=
  let '(neg, s1) := scanSign s in
  if (s1 =? "")%string then None else signed neg <$> hexDigits s1 0.

(** [net.IPv4] of the four bytes of a 32-bit number. *)
Definition ipOfInt (v : Z) : IP :=
  IPv4 (Z.shiftr v 24 mod 256) (Z.shiftr v 16 mod 256) (Z.shiftr v 8 mod 256) (v mod 256).

Definition parseIntegerIP (hostname : string) : option IP :=
  if (hostname =? "")%string then None
  else
    let n :=
      if hasHexPrefix hostname then
        let hexPart := str_drop 2 hostname in
        if (hexPart =? "")%string then None else SetString16 hexPart
      else if allDigits hostname then Some (scanDigits hostname 0 0).1.1
      else None in
    match n with
    | None => None
    | Some n => if (n <? 0) || (2 ^ 32 - 1 <? n) then None else Some (ipOfInt n)
    end.

(** The host without its port and brackets. *)
Definition hostnameOf (host : string) : string :=
  let hostname := match SplitHostPort host with Some (h, _) => h | None => host end in
  TrimSuffix (TrimPrefix hostname "[") "]".

Definition isBlockedHost (host : string) : bool :=
  let hostname := hostnameOf host in
  match ParseIP hostname with
  | Some ip => restricted ip
  | None =>
      match parseIntegerIP hostname with
      | Some ip => restricted ip
      | None =>
          if looksLikeNonStandardIP hostname then true
          else
            let lower := ToLower hostname in
            if (lower =? "localhost")%string then true
            else if HasSuffix lower ".svc" || HasSuffix lower ".cluster.local" then true
            else if (lower =? "metadata.google.internal")%string || (lower =? "instance-data.ec2.internal")%string
            then true
            else HasSuffix lower ".local" || HasSuffix lower ".internal"
      end
  end.

(** [url.Parse]: scheme and host of the result. *)
Class URLs := {
  urlParse : string -> result (string * string);
  (** the path of a URL that parses *)
  urlPath : string -> string
}.

Definition ValidateDownloadURL {UR : URLs} (rawURL : string) : result unit :=
  if (rawURL =? "")%string then Err (ErrNew "URL is required for url source type")
  else match urlParse rawURL with
       | Err e => Err (ErrWrap e "failed to parse URL")
       | Ok (scheme, host) =>
           if negb (scheme =? "https")%string then Err (ErrNew ("URL must use HTTPS, got " +:+ scheme))
           else if (host =? "")%string then Err (ErrNew "URL must have a valid host")
           else if isBlockedHost host
           then Err (ErrNew ("URL host " +:+ hostnameOf host +:+ " is blocked (private/internal address)"))
           else Ok tt
       end.

(** ** Lemmas on the scanners *)

Definition except (c d : ascii) : bool := negb (Ascii.eqb d c).

Lemma IndexByte_none s c : str_all (except c) s = true -> IndexByte s c = -1.
Proof.
  induction s as [|d s IH]; [done|]. cbn [str_all IndexByte]. unfold except at 1.
  intros [Hd Hs]%andb_true_iff. apply negb_true_iff in Hd. rewrite Hd, IH by done. done.
Qed.

Lemma LastIndexByte_none s c : str_all (except c) s = true -> LastIndexByte s c = -1.
Proof.
  induction s as [|d s IH]; [done|]. cbn [str_all LastIndexByte]. unfold except at 1.
  intros [Hd Hs]%andb_true_iff. apply negb_true_iff in Hd. by rewrite IH, Hd.
Qed.

Lemma LastIndexByte_sep a c b :
  str_all (except c) b = true -> LastIndexByte (a +:+ String c b) c = Z.of_nat (String.length a).
Proof.
  intros Hb. rewrite LastIndexByte_app. cbn [LastIndexByte]. rewrite (LastIndexByte_none b c Hb). cbn.
  rewrite Ascii.eqb_refl. cbn. lia.
Qed.

(** Bytes without a meaning for [SplitHostPort] and the brackets. *)
Definition plain (c : ascii) : bool := except ":" c && except "[" c && except "]" c.

Lemma plain_except s c : str_all plain s = true -> c = ":"%char \/ c = "["%char \/ c = "]"%char ->
  str_all (except c) s = true.
Proof.
  intros Hs Hc. eapply str_all_mono; [|exact Hs]. unfold plain. intros d.
  rewrite !andb_true_iff. destruct Hc as [->|[->| ->]]; intuition.
Qed.

Lemma trim_plain s : str_all plain s = true -> TrimSuffix (TrimPrefix s "[") "]" = s.
Proof.
  intros Hs. unfold TrimPrefix, TrimSuffix.
  destruct (HasPrefix s "[") eqn:Hp.
  { apply HasPrefix_spec in Hp as [r ->]. done. }
  destruct (HasSuffix s "]") eqn:Hq; [|done].
  apply HasSuffix_spec in Hq as [r ->]. rewrite str_all_app in Hs. by apply andb_true_iff in Hs as [_ Hs].
Qed.

Lemma hostnameOf_plain h : str_all plain h = true -> hostnameOf h = h.
Proof.
  intros Hh. unfold hostnameOf, SplitHostPort. rewrite LastIndexByte_none by (apply plain_except; tauto).
  by apply trim_plain.
Qed.

Lemma hostnameOf_port h p : str_all plain h = true -> str_all plain p = true ->
  hostnameOf (h +:+ ":" +:+ p) = h.
Proof.
  intros Hh Hp. change (":" +:+ p) with (String ":" p). unfold hostnameOf, SplitHostPort.
  assert (Hall : forall c, c = "["%char \/ c = "]"%char -> str_all (except c) (h +:+ String ":" p) = true).
  { intros c Hc. rewrite str_all_app. cbn [str_all]. rewrite !plain_except by tauto.
    by destruct Hc as [-> | ->]. }
  rewrite LastIndexByte_sep by (apply plain_except; tauto).
  rewrite (proj2 (Z.ltb_ge _ _)) by lia. cbn [str_drop].
  rewrite (IndexByte_none (h +:+ String ":" p) "["), (IndexByte_none (h +:+ String ":" p) "]")
    by (apply Hall; tauto).
  assert (Ht : str_take (Z.to_nat (Z.of_nat (String.length h))) (h +:+ String ":" p) = h).
  { rewrite Nat2Z.id. apply str_take_app. }
  rewrite Ht. rewrite (IndexByte_none h) by (apply plain_except; tauto).
  destruct (byteAt _ 0) as [c|] eqn:Hb; [|by apply trim_plain].
  assert (Hc : Ascii.eqb c "[" = false).
  { specialize (Hall "["%char ltac:(tauto)). destruct (h +:+ String ":" p) as [|d s]; [done|].
    cbn in Hb. injection Hb as ->. cbn in Hall. unfold except in Hall. destruct (Ascii.eqb c "["); done. }
  destruct c as [[] [] [] [] [] [] [] []]; try discriminate Hc; by apply trim_plain.
Qed.

Lemma isDigit_plain c : isDigit c = true -> plain c = true.
Proof. destruct c as [[] [] [] [] [] [] [] []]; vm_compute; done. Qed.

(** Characters that decide nothing about the family. *)
Definition noFamily (c : ascii) : bool := except "." c && except ":" c && except "%" c.

Lemma addrFamily_none s : str_all noFamily s = true -> addrFamily s = None.
Proof.
  induction s as [|d s IH]; [done|]. cbn [str_all addrFamily]. unfold noFamily at 1, except.
  intros [[[->%negb_true_iff ->%negb_true_iff]%andb_true_iff ->%negb_true_iff]%andb_true_iff Hs]%andb_true_iff.
  by apply IH.
Qed.

Lemma addrFamily_dot w s : str_all noFamily w = true -> addrFamily (w +:+ String "." s) = Some "."%char.
Proof.
  induction w as [|d w IH]; [done|]. rewrite str_app_cons. cbn [str_all addrFamily]. unfold noFamily at 1, except.
  intros [[[->%negb_true_iff ->%negb_true_iff]%andb_true_iff ->%negb_true_iff]%andb_true_iff Hs]%andb_true_iff.
  by apply IH.
Qed.

Lemma isDigit_noFamily c : isDigit c = true -> noFamily c = true.
Proof. destruct c as [[] [] [] [] [] [] [] []]; vm_compute; done. Qed.

Lemma hexVal_noFamily c v : hexVal c = Some v -> noFamily c = true /\ plain c = true.
Proof. destruct c as [[] [] [] [] [] [] [] []]; vm_compute; intros [=]; done. Qed.

(** ** Dotted quads *)

Definition dotted (a b c d : Z) : string :=
  pretty a +:+ "." +:+ pretty b +:+ "." +:+ pretty c +:+ "." +:+ pretty d.

Lemma parseIPv4_digit (x : N) s v k fields :
  (x < 10)%N -> ~ (k = 1 /\ v = 0) -> v * 10 + Z.of_N x <= 255 ->
  parseIPv4Loop (String (pretty_N_char x) s) v k fields = parseIPv4Loop s (v * 10 + Z.of_N x) (k + 1) fields.
Proof.
  intros Hx Hk Hv. destruct (digit_pretty_char x Hx) as [Hd Hval]. cbn [parseIPv4Loop]. rewrite Hd, Hval.
  destruct (Z.eqb_spec k 1) as [->|]; cbn [andb].
  - destruct (Z.eqb_spec v 0) as [->|]; [by destruct Hk|]. by rewrite (proj2 (Z.ltb_ge _ _)) by lia.
  - by rewrite (proj2 (Z.ltb_ge _ _)) by lia.
Qed.

(** A printed octet is read as one field. *)
Lemma parseIPv4_octet a : 0 <= a <= 255 -> exists n, 0 < n /\ forall s fields,
  parseIPv4Loop (pretty a +:+ s) 0 0 fields = parseIPv4Loop s a n fields.
Proof.
  intros Ha. destruct a as [|p|]; [by exists 1 | | lia].
  change (pretty (Z.pos p)) with (pretty_N_go (N.pos p) ""). set (x := N.pos p) in *.
  assert (Hx : Z.pos p = Z.of_N x) by done. rewrite Hx in *.
  assert (Hpos : (0 < x)%N) by lia. pose proof (N.div_mod x 10 ltac:(lia)) as Hdm.
  assert (Hm : (x mod 10 < 10)%N) by (apply N.mod_lt; lia). set (q := (x / 10)%N) in *. set (r := (x mod 10)%N) in *.
  rewrite (pretty_N_go_step x) by done. fold q r. destruct (decide (q = 0)%N) as [Hq|Hq].
  { exists 1. split; [lia|]. intros s fields. rewrite Hq, pretty_N_go_0, str_app_cons, str_app_nil.
    rewrite parseIPv4_digit by lia. f_equal; lia. }
  pose proof (N.div_mod q 10 ltac:(lia)) as Hdm2.
  assert (Hm2 : (q mod 10 < 10)%N) by (apply N.mod_lt; lia). set (q2 := (q / 10)%N) in *. set (r2 := (q mod 10)%N) in *.
  rewrite (pretty_N_go_step q) by lia. fold q2 r2. destruct (decide (q2 = 0)%N) as [Hq2|Hq2].
  { exists 2. split; [lia|]. intros s fields. rewrite Hq2, pretty_N_go_0, !str_app_cons, str_app_nil.
    rewrite !parseIPv4_digit by lia. f_equal; lia. }
  exists 3. split; [lia|]. intros s fields. rewrite (pretty_N_go_step q2) by lia.
  rewrite (N.div_small q2 10), (N.mod_small q2 10), pretty_N_go_0, !str_app_cons, str_app_nil by lia.
  rewrite !parseIPv4_digit by lia. f_equal; lia.
Qed.

Lemma parseIPv4_dotted a b c d :
  0 <= a <= 255 -> 0 <= b <= 255 -> 0 <= c <= 255 -> 0 <= d <= 255 ->
  parseIPv4Fields (dotted a b c d) = Some [a; b; c; d].
Proof.
  intros (na & Ha & Ea)%parseIPv4_octet (nb & Hb & Eb)%parseIPv4_octet (nc & Hc & Ec)%parseIPv4_octet
    (nd & Hd & Ed)%parseIPv4_octet.
  unfold parseIPv4Fields, dotted.
  assert (Hdot : forall s v k fields, 0 < k -> (length fields < 3)%nat ->
            parseIPv4Loop ("." +:+ s) v k fields = parseIPv4Loop s 0 0 (fields ++ [v])).
  { intros s v k fields Hk Hl. change ("." +:+ s) with (String "." s). cbn [parseIPv4Loop].
    change (isDigit ".") with false. cbn. rewrite (proj2 (Z.eqb_neq k 0)) by lia.
    by rewrite (proj2 (Nat.eqb_neq _ _)) by lia. }
  rewrite Ea, Hdot by (cbn; lia). rewrite Eb, Hdot by (cbn; lia). rewrite Ec, Hdot by (cbn; lia).
  rewrite <- (str_app_nil_r (pretty d)), Ed. cbn. by rewrite (proj2 (Z.eqb_neq nd 0)) by lia.
Qed.

(** ** The writings of an IPv4 address *)

Definition dottedOf (n : Z) : string :=
  dotted (Z.shiftr n 24 mod 256) (Z.shiftr n 16 mod 256) (Z.shiftr n 8 mod 256) (n mod 256).

(** [host] writes the address [n]: four decimal octets, one decimal number, or one
    hexadecimal number after 0x or 0X. *)
Inductive ipv4Writing (n : Z) : string -> Prop :=
  | WriteDotted : ipv4Writing n (dottedOf n)
  | WriteDecimal : ipv4Writing n (pretty n)
  | WriteHex x s : x = "0x" \/ x = "0X" -> s <> "" -> hexDigits s 0 = Some n -> ipv4Writing n (x +:+ s).

Lemma octet_range z : 0 <= z mod 256 <= 255.
Proof. pose proof (Z.mod_pos_bound z 256). lia. Qed.

Lemma pretty_all (f : ascii -> bool) z :
  (forall c, isDigit c = true -> f c = true) -> 0 <= z -> str_all f (pretty z) = true.
Proof. intros Hf Hz. destruct (pretty_digits z Hz) as [H _]. by eapply str_all_mono. Qed.

Lemma dottedOf_plain n : str_all plain (dottedOf n) = true.
Proof.
  unfold dottedOf, dotted. rewrite !str_all_app.
  rewrite !(pretty_all plain) by (try apply octet_range; apply isDigit_plain). done.
Qed.

Lemma hexDigits_all s acc n (f : ascii -> bool) :
  (forall c v, hexVal c = Some v -> f c = true) -> hexDigits s acc = Some n -> str_all f s = true.
Proof.
  intros Hf. revert acc. induction s as [|c s IH]; intros acc; cbn; [done|].
  destruct (hexVal c) eqn:Hc; [|done]. intros H. by rewrite (Hf _ _ Hc), (IH _ H).
Qed.

Lemma SetString16_hex s n : s <> "" -> hexDigits s 0 = Some n -> SetString16 s = Some n.
Proof.
  intros Hne H. unfold SetString16. assert (Hs : scanSign s = (false, s)).
  { destruct s as [|c s]; [done|]. cbn [hexDigits] in H. destruct (hexVal c) eqn:Hc; [|done].
    destruct c as [[] [] [] [] [] [] [] []]; try reflexivity; by vm_compute in Hc. }
  rewrite Hs, (proj2 (String.eqb_neq s "") Hne), H. done.
Qed.

Lemma ParseIP_dotted n : ParseIP (dottedOf n) = Some (ipOfInt n).
Proof.
  unfold ParseIP, dottedOf, dotted.
  set (rest := pretty (Z.shiftr n 16 mod 256) +:+ "." +:+ pretty (Z.shiftr n 8 mod 256) +:+ "." +:+ pretty (n mod 256)).
  change ("." +:+ rest) with (String "." rest).
  rewrite addrFamily_dot by (apply pretty_all; [apply isDigit_noFamily | apply octet_range]).
  pose proof (parseIPv4_dotted _ _ _ _ (octet_range (Z.shiftr n 24)) (octet_range (Z.shiftr n 16))
    (octet_range (Z.shiftr n 8)) (octet_range n)) as H.
  unfold dotted in H. fold rest in H. change ("." +:+ rest) with (String "." rest) in H. by rewrite H.
Qed.

Lemma parseIntegerIP_decimal n : 0 <= n < 2 ^ 32 -> parseIntegerIP (pretty n) = Some (ipOfInt n).
Proof.
  intros Hn. destruct (pretty_digits n) as [Hd Hne]; [lia|]. unfold parseIntegerIP, nonempty in *.
  apply negb_true_iff in Hne. rewrite Hne.
  assert (Hx : hasHexPrefix (pretty n) = false).
  { unfold hasHexPrefix. apply orb_false_iff. split; apply not_true_iff_false; intros [r Hr]%HasPrefix_spec;
      rewrite Hr in Hd; done. }
  rewrite Hx. unfold allDigits. rewrite Hd. destruct (scanDigits_pretty n "") as [k Hk]; [lia|].
  rewrite str_app_nil_r in Hk. rewrite Hk. cbn [scanDigits fst].
  by rewrite (proj2 (Z.ltb_ge n 0)), (proj2 (Z.ltb_ge (2 ^ 32 - 1) n)) by lia.
Qed.

Lemma parseIntegerIP_hex n x s : x = "0x" \/ x = "0X" -> s <> "" -> hexDigits s 0 = Some n ->
  0 <= n < 2 ^ 32 -> parseIntegerIP (x +:+ s) = Some (ipOfInt n).
Proof.
  intros Hx Hs Hh Hn. unfold parseIntegerIP.
  assert (Hp : hasHexPrefix (x +:+ s) = true /\ str_drop 2 (x +:+ s) = s /\ (x +:+ s =? "")%string = false).
  { by destruct Hx as [-> | ->]. }
  destruct Hp as (-> & -> & ->). rewrite (proj2 (String.eqb_neq s "") Hs), (SetString16_hex s n Hs Hh).
  by rewrite (proj2 (Z.ltb_ge n 0)), (proj2 (Z.ltb_ge (2 ^ 32 - 1) n)) by lia.
Qed.

Lemma writing_blocked n host : 0 <= n < 2 ^ 32 -> ipv4Writing n host ->
  str_all plain host = true /\
  match ParseIP host with
  | Some ip => ip = ipOfInt n
  | None => parseIntegerIP host = Some (ipOfInt n)
  end.
Proof.
  intros Hn [| | x s Hx Hs Hh].
  - split; [apply dottedOf_plain | by rewrite ParseIP_dotted].
  - split; [apply pretty_all; [apply isDigit_plain | lia]|]. unfold ParseIP.
    rewrite addrFamily_none by (apply pretty_all; [apply isDigit_noFamily | lia]). by apply parseIntegerIP_decimal.
  - split.
    + rewrite str_all_app, (hexDigits_all s 0 n plain) by (done || by intros c v [? ?]%hexVal_noFamily).
      by destruct Hx as [-> | ->].
    + unfold ParseIP. rewrite addrFamily_none; [by apply parseIntegerIP_hex|].
      rewrite str_all_app, (hexDigits_all s 0 n noFamily) by (done || by intros c v [? ?]%hexVal_noFamily).
      by destruct Hx as [-> | ->].
Qed.

(** ** The restricted ranges as intervals *)

Definition quad (a b c d : Z) : Z := ((a * 256 + b) * 256 + c) * 256 + d.

(** Loopback, private use, link local, local multicast, unspecified. *)
Definition internalRange (n : Z) : Prop :=
  quad 127 0 0 0 <= n <= quad 127 255 255 255 \/ quad 10 0 0 0 <= n <= quad 10 255 255 255 \/
  quad 172 16 0 0 <= n <= quad 172 31 255 255 \/ quad 192 168 0 0 <= n <= quad 192 168 255 255 \/
  quad 169 254 0 0 <= n <= quad 169 254 255 255 \/ quad 224 0 0 0 <= n <= quad 224 0 0 255 \/ n = 0.

(** A network mask on a byte. *)
Lemma land_240 b : 0 <= b <= 255 -> Z.land b 240 = b / 16 * 16.
Proof.
  intros Hb. change 16 with (2 ^ 4). rewrite <- Z.shiftr_div_pow2, <- Z.shiftl_mul_pow2 by lia.
  apply Z.bits_inj'. intros i Hi. rewrite Z.land_spec.
  destruct (Z.lt_ge_cases i 4).
  - rewrite Z.shiftl_spec_low by lia.
    assert (i = 0 \/ i = 1 \/ i = 2 \/ i = 3) as [->|[->|[->| ->]]] by lia; by rewrite andb_false_r.
  - rewrite Z.shiftl_spec_high by lia. rewrite Z.shiftr_spec by lia. replace (i - 4 + 4) with i by lia.
    destruct (Z.lt_ge_cases i 8).
    + assert (i = 4 \/ i = 5 \/ i = 6 \/ i = 7) as [->|[->|[->| ->]]] by lia; by rewrite andb_true_r.
    + rewrite (Z.bits_above_log2 b i); [done | lia |]. destruct (decide (b = 0)) as [->|]; [cbn; lia|].
      assert (Z.log2 b < 8); [|lia]. apply Z.log2_lt_pow2; lia.
Qed.

Lemma restricted_internal n : 0 <= n < 2 ^ 32 -> restricted (ipOfInt n) = true <-> internalRange n.
Proof.
  intros Hn. unfold restricted, ipOfInt, IsLoopback, IsPrivate, IsLinkLocalUnicast, IsLinkLocalMulticast,
    IsUnspecified. cbn [To4]. unfold To4, IPv4.
  rewrite bool_decide_true by reflexivity.
  change (drop 12 (v4InV6Prefix ++ [Z.shiftr n 24 mod 256; Z.shiftr n 16 mod 256; Z.shiftr n 8 mod 256; n mod 256]))
    with [Z.shiftr n 24 mod 256; Z.shiftr n 16 mod 256; Z.shiftr n 8 mod 256; n mod 256].
  rewrite !Z.shiftr_div_pow2 by lia. cbn [at_ nth].
  pose proof (octet_range (n / 2 ^ 24)) as Ra. pose proof (octet_range (n / 2 ^ 16)) as Rb.
  pose proof (octet_range (n / 2 ^ 8)) as Rc. pose proof (octet_range n) as Rd.
  assert (Hq : n = quad (n / 2 ^ 24 mod 256) (n / 2 ^ 16 mod 256) (n / 2 ^ 8 mod 256) (n mod 256)).
  { unfold quad. change (2 ^ 24) with 16777216. change (2 ^ 16) with 65536. change (2 ^ 8) with 256.
    clear -Hn. Z.to_euclidean_division_equations. lia. }
  revert Hq Ra Rb Rc Rd. generalize (n / 2 ^ 24 mod 256) (n / 2 ^ 16 mod 256) (n / 2 ^ 8 mod 256) (n mod 256).
  intros a b c d Hq Ra Rb Rc Rd. change (at_ [a; b; c; d] 0) with a. change (at_ [a; b; c; d] 1) with b.
  change (at_ [a; b; c; d] 2) with c. rewrite land_240 by lia.
  rewrite (bool_decide_false (v4InV6Prefix ++ [a; b; c; d] = repeat 0 16)) by done.
  assert (Hz : bool_decide (v4InV6Prefix ++ [a; b; c; d] = v4InV6Prefix ++ [0; 0; 0; 0]) = true <->
            a = 0 /\ b = 0 /\ c = 0 /\ d = 0).
  { rewrite bool_decide_eq_true. split; [by intros [=] | by intros (-> & -> & -> & ->)]. }
  rewrite !orb_true_iff, !andb_true_iff, Hz, !Z.eqb_eq. unfold internalRange, quad in *. subst n.
  assert (Hb : b / 16 * 16 = 16 <-> 16 <= b <= 31) by (clear; Z.to_euclidean_division_equations; lia).
  rewrite Hb. clear Hb Hz Hn. split; lia.
Qed.

(** ** Properties *)

(** C31: literal addresses.  An IPv4 address is refused exactly when it lies in a
    loopback, private, link-local or unspecified range, however it is written -
    four decimal octets, one decimal number, one hexadecimal number - and whether
    or not a port follows. *)
Theorem isBlockedHost_ipv4 n host port :
  0 <= n < 2 ^ 32 -> ipv4Writing n host -> allDigits port = true ->
  (isBlockedHost host = true <-> internalRange n) /\
  (isBlockedHost (host +:+ ":" +:+ port) = true <-> internalRange n).
Proof.
  intros Hn Hw Hp. destruct (writing_blocked n host Hn Hw) as [Hplain Hparse].
  assert (Hpp : str_all plain port = true) by (eapply str_all_mono; [apply isDigit_plain | exact Hp]).
  unfold isBlockedHost. rewrite (hostnameOf_plain host), (hostnameOf_port host port) by done.
  rewrite <- (restricted_internal n Hn). destruct (ParseIP host) as [ip|]; [by subst ip|].
  by rewrite Hparse.
Qed.

(** 127.0.0.1 as octets, as 2130706433 and as 0x7f000001; 8.8.8.8 is allowed. *)
Lemma isBlockedHost_ipv4_witness :
  isBlockedHost "127.0.0.1:443" = true /\ isBlockedHost "2130706433" = true /\
  isBlockedHost "0x7f000001:8443" = true /\ isBlockedHost "8.8.8.8" = false.
Proof.
  split_and!.
  - apply (isBlockedHost_ipv4 2130706433 "127.0.0.1" "443"); [lia | | by vm_compute | left; by vm_compute].
    change "127.0.0.1" with (dottedOf 2130706433). constructor.
  - apply (isBlockedHost_ipv4 2130706433 "2130706433" ""); [lia | | by vm_compute | left; by vm_compute].
    change "2130706433" with (pretty 2130706433). constructor.
  - apply (isBlockedHost_ipv4 2130706433 "0x7f000001" "8443"); [lia | | by vm_compute | left; by vm_compute].
    change "0x7f000001" with ("0x" +:+ "7f000001"). constructor; [by left | done | by vm_compute].
  - by vm_compute.
Defined.

(** what [ValidateDownloadURL] accepts: exactly the URLs that parse with the
    scheme https and a host that is present and not blocked. *)
Theorem ValidateDownloadURL_correct {UR : URLs} raw :
  isOk (ValidateDownloadURL raw) = true <->
  raw <> "" /\ exists host, urlParse raw = Ok ("https", host) /\ host <> "" /\ isBlockedHost host = false.
Proof.
  unfold ValidateDownloadURL. destruct (String.eqb_spec raw "") as [->|Hne]; [split; [done | by intros []]|].
  destruct (urlParse raw) as [[scheme host]|e]; [|split; [done | by intros (_ & ? & [=] & _)]].
  destruct (String.eqb_spec scheme "https") as [->|Hs]; cbn [negb].
  2: { split; [done|]. intros (_ & h & [= -> ->] & _). done. }
  destruct (String.eqb_spec host "") as [->|Hh].
  { split; [done|]. intros (_ & h & [= <-] & ? & _). done. }
  destruct (isBlockedHost host) eqn:Hb; cbn.
  - split; [done|]. intros (_ & h & [= <-] & _ & ?). congruence.
  - split; [|done]. intros _. split; [done|]. by exists host.
Qed.

(** writings of the loopback address that are not recognised.  The comments of
    [isBlockedHost] mean to refuse encodings that [net.ParseIP] rejects but curl
    resolves; the two-part form 127.1, the octal number 017700000001, the octal
    form with two or three parts and the name localhost with a trailing dot pass. *)
Theorem isBlockedHost_misses :
  Forall (fun host => isBlockedHost host = false)
    ["127.1"; "127.0.1"; "017700000001"; "0177.1"; "localhost."; "metadata.google.internal."].
Proof. repeat constructor; vm_compute; reflexivity. Qed.

(** ** A concrete instance *)

(** Scheme and host of an absolute URL without user, port and query. *)
Module SplitURLs.
#[global] Instance simpleURLs : URLs := {|
  urlParse raw :=
    match SplitByte raw "/"%char with
    | scheme :: "" :: host :: _ => Ok (TrimSuffix scheme ":", host)
    | _ => Err (ErrNew "no host")
    end;
  urlPath raw :=
    match SplitByte raw "/"%char with
    | _ :: _ :: _ :: rest => "/" +:+ Join rest "/"
    | _ => ""
    end
|}.
End SplitURLs.
