(* ===== verification/Update.v ===== *)
(** * Update controller (internal/controller/update_controller.go)

    From the pending update in a server's status to the restarted pod: when an
    update may start is in the file Window, here are the steps of the update and
    the reconciler.  Handlers that change the server through its pointer take it
    and return it; the cron entries of the reconciler are threaded.  Whether the
    backup reconciler is configured and the number of ticks that
    [waitForPodReady] sees before its deadline are parameters. *)

From S2P Require Import Prelude GoBase GoLib Api Objects Plugins Conditions Effects K8s Rcon Images Snapshots Backup Window Url.

From Stdlib Require Import Ascii.

Open Scope Z_scope.

Definition conditionTypeUpdating : string := "Updating".
Definition conditionTypeCronScheduleValid : string := "CronScheduleValid".
Definition gcPluginUpdateDir : string := "/data/plugins/update".
Definition MaxJARSize : Z := 100 * 1024 * 1024.
Definition MaxRedirects : Z := 10.

Definition podNameOf (server : PaperMCServer) : string := srvName server +:+ "-0".

Definition ExecInPod (server : PaperMCServer) (cmd : list string) : prog (result string) :=
  ask (RExec (srvNamespace server) (podNameOf server) containerNamePaperMC cmd).

(** ** Plugin downloads *)

Definition jarPath (pluginName : string) : string := "/data/plugins/update/" +:+ pluginName +:+ ".jar".

Definition curlCommand (outputPath downloadURL : string) : list string :=
  ["curl"; "--fail"; "--silent"; "--show-error"; "--location"; "--proto"; "=https";
   "--max-redirs"; pretty MaxRedirects; "--max-filesize"; pretty MaxJARSize;
   "--connect-timeout"; "30"; "--max-time"; "300"; "--user-agent"; "minecraft-operator";
   "--output"; outputPath; "--"; downloadURL].

(** The hash in the output of sha256sum. *)
Definition hashOf (output : string) : string :=
  let actualHash := ToLower (TrimSpace output) in
  let spaceIdx := IndexByte actualHash " "%char in
  if 0 <? spaceIdx then str_take (Z.to_nat spaceIdx) actualHash else actualHash.

Definition verifyPluginChecksum (server : PaperMCServer) (pluginName outputPath expectedHash : string)
  : prog (result unit) :=
  x <- ExecInPod server ["sha256sum"; outputPath] ;;
  match x with
  | Err e => Ret (Err (ErrWrap e ("failed to verify checksum for plugin " +:+ pluginName)))
  | Ok output =>
      let actualHash := hashOf output in
      if negb (actualHash =? ToLower expectedHash)%string then
        ExecInPod server ["rm"; "--force"; outputPath] ;;;
        Ret (Err (ErrNew ("checksum mismatch: expected " +:+ expectedHash +:+ ", got " +:+ actualHash)))
      else Ret (Ok tt)
  end.

Definition downloadPluginToServer (server : PaperMCServer) (pluginName downloadURL expectedHash : string)
  : prog (result unit) :=
  m <- ExecInPod server ["mkdir"; "-p"; gcPluginUpdateDir] ;;
  match m with
  | Err e => Ret (Err (ErrWrap e "failed to create plugins/update directory"))
  | Ok _ =>
      let outputPath := jarPath pluginName in
      x <- ExecInPod server (curlCommand outputPath downloadURL) ;;
      match x with
      | Err e => Ret (Err (ErrWrap e ("failed to download plugin " +:+ pluginName)))
      | Ok _ =>
          if negb (expectedHash =? "")%string
          then verifyPluginChecksum server pluginName outputPath expectedHash
          else Ret (Ok tt)
      end
  end.

(** [%v] of a slice of errors. *)
Definition errList (es : list error) : string := "[" +:+ String.concat " " (map errString es) +:+ "]".

(** The last plugin of a name, as the map built by the loop holds it. *)
Definition pluginByName (items : list Plugin) : gmap string Plugin :=
  foldl (fun m p => <[plgName p := p]> m) ∅ items.

(** Download URL and hash of the first listed version of that name. *)
Definition downloadOf (plugin : Plugin) (version : string) : string * string :=
  match List.find (fun v => (viVersion v =? version)%string) (pgAvailableVersions (plgStatus plugin)) with
  | Some v => (viDownloadURL v, viHash v)
  | None => ("", "")
  end.

Section downloads.
Context {UR : URLs}.

(** One iteration of the loop of [applyPluginUpdates]: the plugin status as the
    iteration leaves it, and the error it appends. *)
Definition applyOne (server : PaperMCServer) (pluginMap : gmap string Plugin) (ps : ServerPluginStatus)
  : prog (ServerPluginStatus * option error) :=
  let pluginName := prName (spPluginRef ps) in
  match pluginMap !! pluginName with
  | None => Ret (ps, None)
  | Some plugin =>
      if (spResolvedVersion ps =? "")%string then Ret (ps, None)
      else if (spCurrentVersion ps =? spResolvedVersion ps)%string then Ret (ps, None)
      else
        let '(downloadURL, hash) := downloadOf plugin (spResolvedVersion ps) in
        if (downloadURL =? "")%string then Ret (ps, None)
        else
          match ValidateDownloadURL downloadURL with
          | Err e => Ret (ps, Some (ErrWrap e ("plugin " +:+ pluginName +:+ " download URL validation failed")))
          | Ok _ =>
              d <- downloadPluginToServer server pluginName downloadURL hash ;;
              match d with
              | Err e => Ret (ps, Some (ErrWrap e ("plugin " +:+ pluginName)))
              | Ok _ => Ret (ps <| spInstalledJARName := pluginName +:+ ".jar" |>, None)
              end
          end
  end.

(** The loop: the plugin statuses as it leaves them, and [downloadErrors]. *)
Definition applyStep (server : PaperMCServer) (pluginMap : gmap string Plugin)
    (acc : list ServerPluginStatus * list error) (ps : ServerPluginStatus)
  : prog (list ServerPluginStatus * list error) :=
  x <- applyOne server pluginMap ps ;;
  let '(ps', e) := x in
  Ret (acc.1 ++ [ps'], acc.2 ++ match e with Some e => [e] | None => [] end).

Definition applyPluginUpdates (server : PaperMCServer) : prog (PaperMCServer * result unit) :=
  l <- ask (RListPlugins (srvNamespace server)) ;;
  match l with
  | Err e => Ret (server, Err (ErrWrap e "failed to list plugins"))
  | Ok items =>
      x <- foldP (applyStep server (pluginByName items)) ([], []) (stPlugins (srvStatus server)) ;;
      let '(statuses, downloadErrors) := x in
      let server := updStatus (fun st => st <| stPlugins := statuses |>) server in
      match downloadErrors with
      | [] => Ret (server, Ok tt)
      | _ => Ret (server, Err (ErrNew ("failed to download " +:+ pretty (length downloadErrors) +:+
                    " plugins: " +:+ errList downloadErrors)))
      end
  end.
End downloads.

(** ** Plugin deletion *)

Definition getPluginsToDelete (server : PaperMCServer) : list ServerPluginStatus :=
  List.filter spPendingDeletion (stPlugins (srvStatus server)).

(** The first deletion entry of the server is marked; [None] if there is none. *)
Fixpoint markEntry (serverName serverNamespace : string) (now : Time) (l : list DeletionProgressEntry)
  : option (list DeletionProgressEntry) :=
  match l with
  | [] => None
  | e :: l =>
      if (dpServerName e =? serverName)%string && (dpNamespace e =? serverNamespace)%string
      then Some (e <| dpJARDeleted := true |> <| dpDeletedAt := Some now |> :: l)
      else (fun l' => e :: l') <$> markEntry serverName serverNamespace now l
  end.

Definition markJARAsDeleted (pluginName pluginNamespace serverName serverNamespace : string)
  : prog (result unit) :=
  g <- ask (RGetPlugin (pluginNamespace, pluginName)) ;;
  match g with
  | Err e => Ret (Err (ErrWrap e "failed to get plugin"))
  | Ok plugin =>
      now <- ask RNow ;;
      match markEntry serverName serverNamespace now (pgDeletionProgress (plgStatus plugin)) with
      | None => Ret (Ok tt)
      | Some progress =>
          u <- ask (RStatusPlugin (updPlgStatus (fun st => st <| pgDeletionProgress := progress |>) plugin)) ;;
          match u with
          | Err e => Ret (Err (ErrWrap e "failed to update plugin status"))
          | Ok _ => Ret (Ok tt)
          end
      end
  end.

Definition deletePluginJAR (server : PaperMCServer) (plugin : ServerPluginStatus) : prog (result unit) :=
  let ref := spPluginRef plugin in
  let mark := markJARAsDeleted (prName ref) (prNamespace ref) (srvName server) (srvNamespace server) in
  if (spInstalledJARName plugin =? "")%string then mark
  else
    x <- ExecInPod server ["rm"; "--force"; "/data/plugins/" +:+ spInstalledJARName plugin;
                           "/data/plugins/update/" +:+ spInstalledJARName plugin] ;;
    match x with
    | Err e => Ret (Err (ErrWrap e ("failed to delete JAR for plugin " +:+ prName ref)))
    | Ok _ =>
        m <- mark ;;
        match m with
        | Err e => Ret (Err (ErrWrap e ("failed to mark JAR as deleted for plugin " +:+ prName ref)))
        | Ok _ => Ret (Ok tt)
        end
    end.

Definition deleteStep (server : PaperMCServer) (errs : list error) (plugin : ServerPluginStatus)
  : prog (list error) :=
  x <- deletePluginJAR server plugin ;;
  Ret (errs ++ match x with Err e => [e] | Ok _ => [] end).

(** [errors.CombineErrors] shows and classifies as its first argument. *)
Definition deleteMarkedPlugins (server : PaperMCServer) : prog (result unit) :=
  match getPluginsToDelete server with
  | [] => Ret (Ok tt)
  | pluginsToDelete =>
      errs <- foldP (deleteStep server) [] pluginsToDelete ;;
      match errs with
      | [] => Ret (Ok tt)
      | e :: _ => Ret (Err e)
      end
  end.

(** ** Shutdown, image and pod *)

(** The loop of [waitForPodReady]: [ticks] bounds the ticks that arrive before the
    deadline of the context is seen. *)
Fixpoint waitForPodReady (ticks : nat) (server : PaperMCServer) : prog (result unit) :=
  match ticks with
  | O => Ret (Err (ErrNew "timeout waiting for pod to become ready"))
  | S n =>
      timedOut <- ask RTick ;;
      if (timedOut : bool) then Ret (Err (ErrNew "timeout waiting for pod to become ready"))
      else
        p <- ask (RGetPod (srvNamespace server, podNameOf server)) ;;
        match p with
        | Err _ => waitForPodReady n server
        | Ok pod =>
            if existsb (fun c => (c.1 =? "Ready")%string && (c.2 =? ConditionTrue)%string) (podConditions pod)
            then Ret (Ok tt)
            else waitForPodReady n server
        end
  end.

Definition deletePod (podName namespace : string) : prog (result unit) :=
  g <- ask (RGetPod (namespace, podName)) ;;
  match g with
  | Err e => Ret (Err (ErrWrap e "failed to get pod for deletion"))
  | Ok _ =>
      d <- ask (RDeletePod (namespace, podName)) ;;
      Ret (wrap "failed to delete pod" d)
  end.

(** The same steps as the backup controller's, on the same pod and secret. *)
Definition createRCONClient (server : PaperMCServer) : prog (result RCONClient) :=
  p <- ask (RGetPod (srvNamespace server, podNameOf server)) ;;
  match p with
  | Err e => Ret (Err (ErrWrap e "failed to get pod for RCON connection"))
  | Ok pod =>
      if (podIP pod =? "")%string then Ret (Err (ErrNew "pod IP not available"))
      else
        let ref := rcPasswordSecret (ssRCON (srvSpec server)) in
        s <- ask (RGetSecret (srvNamespace server, skName ref)) ;;
        match s with
        | Err e => Ret (Err (ErrWrap e "failed to get RCON password secret"))
        | Ok data =>
            match data !! skKey ref with
            | None => Ret (Err (ErrNew ("key " +:+ skKey ref +:+ " not found in secret " +:+ skName ref)))
            | Some password =>
                let port := if rcPort (ssRCON (srvSpec server)) =? 0 then 25575
                            else rcPort (ssRCON (srvSpec server)) in
                Ret (wrap "failed to create RCON client" (NewRCONClient (podIP pod) port password))
            end
        end
  end.

Definition shutdownWarnings : list string :=
  ["Server will restart for update in 5 minutes";
   "Server will restart for update in 2 minutes";
   "Server will restart for update in 1 minute";
   "Server will restart for update in 30 seconds";
   "Server restarting now for update"].

Definition executeGracefulShutdownWithClient (server : PaperMCServer) (rconClient : RCONClient)
  : prog (result unit) :=
  x <- Connect CtxCaller rconClient ;;
  let '(rconClient, connected) := x in
  match connected with
  | Err e => Ret (Err (ErrWrap e "failed to connect to RCON"))
  | Ok _ =>
      let warningInterval := Z.quot (gsTimeout (ssGracefulShutdown (srvSpec server)))
                                    (Z.of_nat (length shutdownWarnings)) in
      r <- GracefulShutdown rconClient shutdownWarnings warningInterval ;;
      Close rconClient ;;;
      Ret (wrap "graceful shutdown failed" r)
  end.

(** The image of the first container named papermc is replaced. *)
Fixpoint setImage (newImage : string) (containers : list Container) : option (list Container) :=
  match containers with
  | [] => None
  | c :: cs =>
      if (ctName c =? containerNamePaperMC)%string then Some (c <| ctImage := newImage |> :: cs)
      else (fun cs' => c :: cs') <$> setImage newImage cs
  end.

Definition updateStatefulSetImage (server : PaperMCServer) (newImage : string) : prog (result unit) :=
  g <- ask (RGetSts (srvKey server)) ;;
  match g with
  | Err e => Ret (Err (ErrWrap e "failed to get StatefulSet"))
  | Ok sts =>
      match setImage newImage (ptContainers (stsTemplate sts)) with
      | None => Ret (Err (ErrNew "papermc container not found in StatefulSet"))
      | Some cs =>
          u <- ask (RUpdateSts (sts <| stsTemplate := (stsTemplate sts) <| ptContainers := cs |> |>)) ;;
          match u with
          | Err e => Ret (Err (ErrWrap e "failed to update StatefulSet"))
          | Ok _ => Ret (Ok tt)
          end
      end
  end.

(** ** The two kinds of update *)

Section updates.
Context {MC : MetaConditions} {GS : GoSort}.
Context {UR : URLs}.
(** Whether [r.BackupReconciler] is set, and the ticks of [waitForPodReady]. *)
Context (hasBackupReconciler : bool) (ticks : nat).

Definition backupRequired (server : PaperMCServer) : bool :=
  hasBackupReconciler &&
  match ssBackup (srvSpec server) with
  | None => false
  | Some b => bsEnabled b && match bsBeforeUpdate b with Some v => v | None => true end
  end.

Definition backupBeforeUpdate (server : PaperMCServer) : prog (PaperMCServer * result unit) :=
  if negb (backupRequired server) then Ret (server, Ok tt)
  else
    missing <- isSnapshotCRDMissing (srvNamespace server) (srvName server) ;;
    if (missing : bool)
    then Ret (server, Err (ErrNew "pre-update backup failed: VolumeSnapshot API unavailable in cluster"))
    else performBackup server "before-update".

(** Steps 0 to 2, the same in both kinds: backup, deletions, downloads. *)
Definition prepareUpdate (server : PaperMCServer) : prog (PaperMCServer * result unit) :=
  b <- backupBeforeUpdate server ;;
  match b with
  | (server, Err e) => Ret (server, Err (ErrWrap e "pre-update backup failed, aborting update"))
  | (server, Ok _) =>
      d <- deleteMarkedPlugins server ;;
      match d with
      | Err e => Ret (server, Err (ErrWrap e "failed to delete marked plugins"))
      | Ok _ =>
          a <- applyPluginUpdates server ;;
          match a with
          | (server, Err e) => Ret (server, Err (ErrWrap e "failed to download plugins"))
          | (server, Ok _) => Ret (server, Ok tt)
          end
      end
  end.

(** The last two steps, the same in both kinds: the pod is deleted and awaited. *)
Definition restartPod (server : PaperMCServer) : prog (result unit) :=
  d <- deletePod (podNameOf server) (srvNamespace server) ;;
  match d with
  | Err e => Ret (Err (ErrWrap e "failed to delete pod for recreation"))
  | Ok _ =>
      w <- waitForPodReady ticks server ;;
      Ret (wrap "failed to wait for pod ready" w)
  end.

Definition performPluginOnlyUpdate (server : PaperMCServer) : prog (PaperMCServer * result unit) :=
  p <- prepareUpdate server ;;
  match p with
  | (server, Err e) => Ret (server, Err e)
  | (server, Ok _) =>
      (if rcEnabled (ssRCON (srvSpec server)) then
         c <- createRCONClient server ;;
         match c with
         | Err _ => Ret tt
         | Ok rconClient => executeGracefulShutdownWithClient server rconClient ;;; Ret tt
         end
       else Ret tt) ;;;
      r <- restartPod server ;;
      Ret (server, r)
  end.

(** Step 3 of the combined update. *)
Definition shutdownForUpdate (server : PaperMCServer) : prog (result unit) :=
  if rcEnabled (ssRCON (srvSpec server)) then
    c <- createRCONClient server ;;
    match c with
    | Err e => Ret (Err (ErrWrap e "failed to create RCON client"))
    | Ok rconClient =>
        x <- executeGracefulShutdownWithClient server rconClient ;;
        Ret (wrap "failed to execute graceful shutdown" x)
    end
  else Ret (Ok tt).

Definition newImageOf (server : PaperMCServer) : string :=
  "docker.io/lexfrei/papermc:" +:+ stDesiredVersion (srvStatus server) +:+ "-" +:+
  pretty (stDesiredBuild (srvStatus server)).

Definition performCombinedUpdate (server : PaperMCServer) : prog (PaperMCServer * result unit) :=
  p <- prepareUpdate server ;;
  match p with
  | (server, Err e) => Ret (server, Err e)
  | (server, Ok _) =>
      s <- shutdownForUpdate server ;;
      match s with
      | Err e => Ret (server, Err e)
      | Ok _ =>
          i <- updateStatefulSetImage server (newImageOf server) ;;
          match i with
          | Err e => Ret (server, Err (ErrWrap e "failed to update StatefulSet image"))
          | Ok _ =>
              r <- restartPod server ;;
              Ret (server, r)
          end
      end
  end.

(** ** Status *)

Definition setUpdatingConditionWithType (server : PaperMCServer)
    (conditionType status reason message : string) : prog PaperMCServer :=
  now <- ask RNow ;;
  Ret (updStatus (fun st => st <| stConditions := SetStatusCondition now (stConditions st)
         (MkCondition conditionType status reason message now (Generation (srvMeta server))) |>) server).

Definition setUpdatingCondition (server : PaperMCServer) (updating : bool) (message : string)
  : prog PaperMCServer :=
  setUpdatingConditionWithType server conditionTypeUpdating
    (if updating then ConditionTrue else ConditionFalse)
    (if updating then "UpdateInProgress" else "UpdateComplete") message.

Definition markCurrent (p : ServerPluginStatus) : ServerPluginStatus :=
  if negb (spResolvedVersion p =? "")%string then p <| spCurrentVersion := spResolvedVersion p |> else p.

Definition updateServerStatus (server : PaperMCServer) (successful : bool) : prog PaperMCServer :=
  now <- ask RNow ;;
  let server := updStatus (fun st => st <| stLastUpdate :=
                  Some (MkUpdateHistory now (stCurrentVersion st) successful) |>) server in
  Ret (if successful
       then updStatus (fun st => st <| stAvailableUpdate := None |>
                                    <| stCurrentVersion := stDesiredVersion st |>
                                    <| stCurrentBuild := stDesiredBuild st |>
                                    <| stPlugins := map markCurrent (stPlugins st) |>) server
       else server).

(** The fields of a plugin status that are carried onto a fresh object. *)
Definition mergePlugin (desired : list ServerPluginStatus) (p : ServerPluginStatus) : ServerPluginStatus :=
  match List.find (fun d => bool_decide (spPluginRef p = spPluginRef d)) desired with
  | Some d => p <| spCurrentVersion := spCurrentVersion d |>
                <| spInstalledJARName := spInstalledJARName d |>
                <| spPendingDeletion := spPendingDeletion d |>
  | None => p
  end.

Definition reapply (desired : PaperMCServerStatus) (latest : PaperMCServer) : PaperMCServer :=
  updStatus (fun st => st <| stLastUpdate := stLastUpdate desired |>
                          <| stConditions := stConditions desired |>
                          <| stPlugins := map (mergePlugin (stPlugins desired)) (stPlugins st) |>) latest.

(** The loop of [updateStatusWithRetry] with the attempts left. *)
Fixpoint retryStatus (attempts : nat) (k : key) (desired : PaperMCServerStatus) (server : PaperMCServer)
  : prog (PaperMCServer * result unit) :=
  match attempts with
  | O => Ret (server, Err (ErrNew "status update failed after max retries"))
  | S n =>
      u <- ask (RStatusServer server) ;;
      match u with
      | Ok server' => Ret (server', Ok tt)
      | Err e =>
          if negb (IsConflict e) then Ret (server, Err e)
          else
            g <- ask (RGetServer k) ;;
            match g with
            | Err e => Ret (server, Err (ErrWrap e "failed to re-read server for retry"))
            | Ok latest => retryStatus n k desired (reapply desired latest)
            end
      end
  end.

Definition maxRetries : nat := 3.

Definition updateStatusWithRetry (server : PaperMCServer) : prog (PaperMCServer * result unit) :=
  retryStatus maxRetries (srvKey server) (srvStatus server) server.

Definition hasPendingPluginUpdates (server : PaperMCServer) : bool :=
  existsb (fun p => negb (spDesiredVersion p =? "")%string &&
                    negb (spDesiredVersion p =? spCurrentVersion p)%string)
          (stPlugins (srvStatus server)).

(** ** Cron schedule and annotation *)

Definition removeCronJob (entries : gmap string cronEntryInfo) (serverKey : string)
  : prog (gmap string cronEntryInfo) :=
  match entries !! serverKey with
  | None => Ret entries
  | Some entry => ask (RCronRemove (ceID entry)) ;;; Ret (delete serverKey entries)
  end.

(** The callback that is registered only writes to the log. *)
Definition manageCronSchedule (entries : gmap string cronEntryInfo) (server : PaperMCServer)
  : prog (gmap string cronEntryInfo * PaperMCServer) :=
  let serverKey := keyString (srvKey server) in
  let mw := usMaintenanceWindow (ssUpdateSchedule (srvSpec server)) in
  if negb (mwEnabled mw) then
    entries <- removeCronJob entries serverKey ;; Ret (entries, server)
  else
    let cronSpec := mwCron mw in
    let add (entries : gmap string cronEntryInfo) :=
      a <- ask (RCronAdd cronSpec) ;;
      match a with
      | Err e =>
          server <- setUpdatingConditionWithType server conditionTypeCronScheduleValid
                      ConditionFalse "InvalidCronExpression" (errString e) ;;
          Ret (entries, server)
      | Ok entryID =>
          server <- setUpdatingConditionWithType server conditionTypeCronScheduleValid
                      ConditionTrue "CronScheduleConfigured" ("Cron schedule configured: " +:+ cronSpec) ;;
          Ret (<[serverKey := MkCronEntry entryID cronSpec]> entries, server)
      end in
    match entries !! serverKey with
    | Some existing =>
        if (ceSpec existing =? cronSpec)%string then Ret (entries, server)
        else entries <- removeCronJob entries serverKey ;; add entries
    | None => add entries
    end.

(** The annotation is removed from a fresh copy; the caller's object keeps it. *)
Definition removeApplyNowAnnotation (server : PaperMCServer) : prog (result unit) :=
  match Annotations (srvMeta server) !! AnnotationApplyNow with
  | None => Ret (Ok tt)
  | Some _ =>
      g <- ask (RGetServer (srvKey server)) ;;
      match g with
      | Err e => Ret (Err (ErrWrap e "failed to get server for annotation removal"))
      | Ok currentServer =>
          u <- ask (RUpdateServer (currentServer <| srvMeta := (srvMeta currentServer)
                 <| Annotations := delete AnnotationApplyNow (Annotations (srvMeta currentServer)) |> |>)) ;;
          match u with
          | Err e => Ret (Err (ErrWrap e "failed to remove apply-now annotation"))
          | Ok _ => Ret (Ok tt)
          end
      end
  end.

(** ** Reconcile *)

(** [Returned r]: the requeue delay (0 for none) or the error; [Hung]: the handler
    does not return (see [findLastCronTrigger]). *)
Inductive Outcome := Returned (r : result Duration) | Hung.

Definition paperChanged (server : PaperMCServer) : bool :=
  let st := srvStatus server in
  negb (stDesiredVersion st =? stCurrentVersion st)%string || negb (stDesiredBuild st =? stCurrentBuild st).

(** From the Updating condition to the end. *)
Definition applyUpdate (server : PaperMCServer) : prog Outcome :=
  server <- setUpdatingCondition server true "Update in progress" ;;
  x <- (if paperChanged server then performCombinedUpdate server else performPluginOnlyUpdate server) ;;
  let '(server, updateErr) := x in
  server <- updateServerStatus server (isOk updateErr) ;;
  server <- setUpdatingCondition server false "Update completed" ;;
  u <- updateStatusWithRetry server ;;
  Ret (Returned (match u.2 with
                 | Err e => Err (ErrWrap e "failed to update status")
                 | Ok _ => match updateErr with Err e => Err e | Ok _ => Ok 0 end
                 end)).

Context {CR : Cron}.

(** The gates: from the pending update to [applyUpdate]. *)
Definition gateUpdate (server : PaperMCServer) : prog Outcome :=
  now <- ask RNow ;;
  if shouldApplyNow now server then
    x <- removeApplyNowAnnotation server ;;
    match x with
    | Err e => Ret (Returned (Err (ErrWrap e "failed to remove apply-now annotation")))
    | Ok _ => applyUpdate server
    end
  else
    now <- ask RNow ;;
    let '(shouldApply, remainingDelay) := shouldApplyUpdate now server in
    if negb shouldApply then
      Ret (Returned (Ok (if 0 <? remainingDelay then remainingDelay else 0)))
    else
      now <- ask RNow ;;
      match isInMaintenanceWindow now server with
      | None => Ret Hung
      | Some false => Ret (Returned (Ok (5 * Minute)))
      | Some true => applyUpdate server
      end.

Definition cronInvalid (server : PaperMCServer) : bool :=
  match FindStatusCondition (stConditions (srvStatus server)) conditionTypeCronScheduleValid with
  | Some c => (cdStatus c =? ConditionFalse)%string
  | None => false
  end.

Definition updatePending (server : PaperMCServer) : bool :=
  match stAvailableUpdate (srvStatus server) with
  | Some _ => true
  | None => hasPendingPluginUpdates server
  end.

Definition Reconcile (entries : gmap string cronEntryInfo) (k : key)
  : prog (gmap string cronEntryInfo * Outcome) :=
  g <- ask (RGetServer k) ;;
  match g with
  | Err e =>
      if IsNotFound e then entries <- removeCronJob entries (keyString k) ;; Ret (entries, Returned (Ok 0))
      else Ret (entries, Returned (Err (ErrWrap e "failed to get server")))
  | Ok server =>
      x <- manageCronSchedule entries server ;;
      let '(entries, server) := x in
      if cronInvalid server then
        u <- ask (RStatusServer server) ;;
        match u with
        | Err e => Ret (entries, Returned (Err (ErrWrap e "failed to update status")))
        | Ok _ => Ret (entries, Returned (Ok 0))
        end
      else if negb (updatePending server) then Ret (entries, Returned (Ok 0))
      else o <- gateUpdate server ;; Ret (entries, o)
  end.
End updates.

(** ** Facts: what each step may request *)

(** Requests that change the server's files, its workload or its pod. *)
Definition destructive (r : kreq) : bool :=
  match r with RExec _ _ _ _ | RUpdateSts _ | RDeletePod _ => true | _ => false end.

(** Requests that act on the running server, its volume or its workload. *)
Definition actsOnServer (r : kreq) : bool :=
  destructive r || match r with RExecute _ _ | RCreateSnapshot _ => true | _ => false end.

Definition snapshotTaken (h : list event) : Prop :=
  exists q q', Ev (E := K8s) (RCreateSnapshot q) (Ok q') ∈ h.

Lemma snapshotTaken_monotone : monotone snapshotTaken.
Proof. intros h t (q & q' & H). exists q, q'. set_solver. Qed.

(** [s'] is [s] up to its conditions. *)
Definition sameButConditions (s s' : PaperMCServer) : Prop :=
  exists cs, s' = updStatus (fun st => st <| stConditions := cs |>) s.

Section steps.
Context {MC : MetaConditions} {GS : GoSort}.
Context {UR : URLs}.
Context (hasBackupReconciler : bool) (ticks : nat).

Lemma wp_setUpdating server b m h Q :
  (forall s' y, sameButConditions server s' -> Q (h ++ [Ev (E := K8s) RNow y]) s') ->
  wp (setUpdatingCondition server b m) Q h.
Proof. intros H. cbn. intros y. apply H. by eexists. Qed.

Lemma avoids_updateServerStatus P server b :
  P RNow = false -> avoids (E := K8s) P (updateServerStatus server b).
Proof. intros H. cbn. auto. Qed.

Lemma avoids_retry P n k desired server :
  (forall s, P (RStatusServer s) = false) -> (forall k, P (RGetServer k) = false) ->
  avoids (E := K8s) P (retryStatus n k desired server).
Proof.
  intros H1 H2. revert server. induction n as [|n IH]; intros server; cbn; [done|].
  split; [auto|]. intros [s|e]; cbn; [done|]. destruct (IsConflict e); cbn; [|done].
  split; [auto|]. intros [s|e']; cbn; [apply IH | done].
Qed.

(** The end of [applyUpdate], once the steps are done. *)
Lemma avoids_finish P s (r : result unit) :
  P RNow = false -> (forall s, P (RStatusServer s) = false) -> (forall k, P (RGetServer k) = false) ->
  avoids (E := K8s) P (server <- updateServerStatus s (isOk r) ;;
    server <- setUpdatingCondition server false "Update completed" ;;
    u <- updateStatusWithRetry server ;;
    Ret (Returned (match u.2 with
                 | Err e => Err (ErrWrap e "failed to update status")
                 | Ok _ => match r with Err e => Err e | Ok _ => Ok 0 end
                 end))).
Proof.
  intros H1 H2 H3. apply avoids_bind; [by apply avoids_updateServerStatus|]. intros s3.
  apply avoids_bind; [by split|]. intros s4.
  apply avoids_bind; [by apply avoids_retry | done].
Qed.

Lemma avoids_removeCron P entries ks :
  (forall i, P (RCronRemove i) = false) -> avoids (E := K8s) P (removeCronJob entries ks).
Proof. intros H. unfold removeCronJob, ask. destruct (_ !! _); cbn; auto. Qed.

Lemma avoids_wait P n server :
  P RTick = false -> (forall k, P (RGetPod k) = false) -> avoids (E := K8s) P (waitForPodReady n server).
Proof.
  intros H1 H2. induction n as [|n IH]; cbn; [done|]. split; [auto|]. intros [|]; cbn; [done|].
  split; [auto|]. intros [pod|e]; [|done]. by destruct (existsb _ _).
Qed.

(** Backup first: what happens until the deletions and downloads. *)
Lemma wp_backupBeforeUpdate server h :
  guarded (E := K8s) destructive snapshotTaken h ->
  wp (backupBeforeUpdate hasBackupReconciler server) (fun h' x =>
    guarded (E := K8s) destructive snapshotTaken h' /\
    (backupRequired hasBackupReconciler server = true -> isOk x.2 = true -> snapshotTaken h')) h.
Proof.
  intros Hh. unfold backupBeforeUpdate. destruct (backupRequired _ server); cbn [negb]; [|by cbn].
  apply wp_bind. eapply wp_mono.
  2: { apply (wp_guard_avoids (E := K8s) destructive snapshotTaken); [|exact Hh].
       unfold isSnapshotCRDMissing, ListSnapshots, ask. avoids_tac. }
  cbn. intros h1 [|] H1; [by cbn|]. apply wp_runs. intros tr [s r] Hr. split.
  - apply guarded_quiet; [done|]. eapply avoids_runs; [|exact Hr]. apply avoids_performBackup. by intros [].
  - intros _ Ho. apply (performBackup_snapshot _ _ _ _ _ Hr) in Ho as (q & q' & Hin).
    exists q, q'. set_solver.
Qed.

Lemma wp_prepareUpdate server h :
  backupRequired hasBackupReconciler server = true -> guarded (E := K8s) destructive snapshotTaken h ->
  wp (prepareUpdate hasBackupReconciler server) (fun h' x =>
    guarded (E := K8s) destructive snapshotTaken h' /\ (isOk x.2 = true -> snapshotTaken h')) h.
Proof.
  intros Hb Hh. unfold prepareUpdate. apply wp_bind.
  eapply wp_mono; [|by apply wp_backupBeforeUpdate]. cbn. intros h1 [s [u|e]] [Hg Ht]; [|by cbn].
  specialize (Ht Hb eq_refl). eapply wp_mono; [|apply (wp_guard_open (E := K8s) destructive snapshotTaken);
    [apply snapshotTaken_monotone | exact Hg | exact Ht]].
  intros h2 x []. done.
Qed.

(** Both kinds of update, however they go on. *)
Lemma wp_prepared {A} server (f : PaperMCServer * result unit -> prog (E := K8s) A) h :
  backupRequired hasBackupReconciler server = true -> guarded (E := K8s) destructive snapshotTaken h ->
  (forall s e, avoids (E := K8s) destructive (f (s, Err e))) ->
  wp (bind (prepareUpdate hasBackupReconciler server) f)
    (fun h' _ => guarded (E := K8s) destructive snapshotTaken h') h.
Proof.
  intros Hb Hh Hf. apply wp_bind. eapply wp_mono; [|by apply wp_prepareUpdate].
  cbn. intros h1 [s [u|e]] [Hg Ht].
  - specialize (Ht eq_refl). eapply wp_mono; [|apply (wp_guard_open (E := K8s) destructive snapshotTaken);
      [apply snapshotTaken_monotone | exact Hg | exact Ht]]. by intros ? ? [].
  - by apply wp_guard_avoids.
Qed.

Lemma backupRequired_same s s' :
  sameButConditions s s' -> backupRequired hasBackupReconciler s' = backupRequired hasBackupReconciler s.
Proof. by intros [cs ->]. Qed.

Lemma wp_applyUpdate_backed server h :
  backupRequired hasBackupReconciler server = true -> guarded (E := K8s) destructive snapshotTaken h ->
  wp (applyUpdate hasBackupReconciler ticks server)
    (fun h' _ => guarded (E := K8s) destructive snapshotTaken h') h.
Proof.
  intros Hb Hh. unfold applyUpdate. apply wp_bind, wp_setUpdating. intros s1 y Hs.
  rewrite <- (backupRequired_same _ _ Hs) in Hb.
  apply (guarded_quiet _ _ _ [Ev (E := K8s) RNow y]) in Hh; [|by constructor].
  apply wp_bind. eapply wp_mono.
  2: { destruct (paperChanged s1); apply wp_prepared; done. }
  cbn beta. intros h2 [s2 r] H2. apply (wp_guard_avoids (E := K8s) destructive snapshotTaken); [|done].
  by apply avoids_finish.
Qed.
End steps.

(** ** When an update may start *)

Definition calm (h : list event) : Prop :=
  Forall (fun e : event (E := K8s) => actsOnServer (projT1 e) = false) h.

(** The gates, read off the history: the apply-now annotation was valid and has
    been removed, or the delay has passed and the window is open. *)
Definition gateOpen {CR : Cron} (server : PaperMCServer) (h : list event) : Prop :=
  (exists now sv sv', Ev (E := K8s) RNow now ∈ h /\ shouldApplyNow now server = true /\
     Ev (E := K8s) (RUpdateServer sv) (Ok sv') ∈ h /\ Annotations (srvMeta sv) !! AnnotationApplyNow = None) \/
  (exists n1 n2, Ev (E := K8s) RNow n1 ∈ h /\ (shouldApplyUpdate n1 server).1 = true /\
     Ev (E := K8s) RNow n2 ∈ h /\ isInMaintenanceWindow n2 server = Some true).

Section gates.
Context {MC : MetaConditions} {GS : GoSort} {CR : Cron}.
Context {UR : URLs}.
Context (hasBackupReconciler : bool) (ticks : nat).

Lemma gateOpen_monotone server : monotone (E := K8s) (gateOpen server).
Proof.
  intros h t [(now & sv & sv' & ?)|(n1 & n2 & ?)]; [left; exists now, sv, sv' | right; exists n1, n2];
    set_solver.
Qed.

Lemma gateOpen_same s s' h : sameButConditions s s' -> gateOpen s' h -> gateOpen s h.
Proof. by intros [cs ->]. Qed.

Lemma calm_app h t : calm h -> calm t -> calm (h ++ t).
Proof. intros. by apply Forall_app. Qed.

(** The gate: nothing is done before [applyUpdate], which runs with an open gate. *)
Lemma wp_gateUpdate server h (Q : list event -> Outcome -> Prop) :
  calm h ->
  (forall h', calm h' -> (exists t, h' = h ++ t) -> gateOpen server h' ->
     wp (applyUpdate hasBackupReconciler ticks server) Q h') ->
  (forall h' o, calm h' -> Q h' o) ->
  wp (gateUpdate hasBackupReconciler ticks server) Q h.
Proof.
  intros Hh Happ Hend. unfold gateUpdate, ask. cbn [bind call wp]. intros now.
  assert (H1 : calm (h ++ [Ev (E := K8s) RNow now])) by (apply calm_app; [done | by constructor]).
  destruct (shouldApplyNow now server) eqn:Hs.
  - unfold removeApplyNowAnnotation, ask. destruct (_ !! _) eqn:Ha.
    2: { unfold shouldApplyNow in Hs. by rewrite Ha in Hs. }
    cbn [bind call wp]. intros g. set (h2 := (_ ++ [_]) ++ [_]).
    assert (H2 : calm h2) by (apply calm_app; [done | by constructor]).
    destruct g as [current|e]; cbn [bind call wp]; [|by apply Hend]. intros u.
    match goal with |- wp _ _ (h2 ++ [?e]) => set (ev := e) end.
    assert (H3 : calm (h2 ++ [ev])) by (apply calm_app; [done | by constructor]).
    destruct u as [sv'|e]; cbn [bind]; [|by apply Hend]. apply Happ; [done | |].
    + eexists. unfold h2. rewrite <- !app_assoc. done.
    + left. eexists now, _, sv'. split; [unfold h2; set_solver|]. split; [done|].
      split; [apply elem_of_app; right; apply list_elem_of_singleton; reflexivity|].
      cbn. by rewrite lookup_delete_eq.
  - cbn [wp]. intros n1. destruct (shouldApplyUpdate n1 server) as [b rem] eqn:Hn.
    assert (H2 : calm ((h ++ [Ev (E := K8s) RNow now]) ++ [Ev (E := K8s) RNow n1]))
      by (apply calm_app; [done | by constructor]).
    destruct b; cbn [negb bind wp]; [|by apply Hend]. intros n2.
    assert (H3 : calm (((h ++ [Ev (E := K8s) RNow now]) ++ [Ev (E := K8s) RNow n1]) ++ [Ev (E := K8s) RNow n2]))
      by (apply calm_app; [done | by constructor]).
    destruct (isInMaintenanceWindow n2 server) as [[|]|] eqn:Hw; [|by apply Hend..].
    apply Happ; [done | eexists; by rewrite <- !app_assoc |]. right. exists n1, n2. rewrite Hn. set_solver.
Qed.

Lemma wp_manage entries server h (Q : list event -> gmap string cronEntryInfo * PaperMCServer -> Prop) :
  calm h -> (forall h' en s', calm h' -> (exists t, h' = h ++ t) -> sameButConditions server s' -> Q h' (en, s')) ->
  wp (manageCronSchedule entries server) Q h.
Proof.
  intros Hh HQ. apply wp_runs. intros tr [en s'] Hr. apply HQ.
  - apply calm_app; [done|]. eapply avoids_runs; [|exact Hr].
    unfold manageCronSchedule, removeCronJob, ask. avoids_tac. all: by split.
  - by exists tr.
  - assert (Hs : wp (manageCronSchedule entries server) (fun _ x => sameButConditions server x.2) []).
    { assert (R : sameButConditions server server) by (exists (stConditions (srvStatus server)); by destruct server as [? ? []]).
      unfold manageCronSchedule, removeCronJob, ask.
      destruct (negb _); destruct (_ !! _); cbn; intros; try done.
      all: try (destruct (_ =? _)%string; cbn; intros; try done).
      all: destruct y0 || destruct y; cbn; intros; by eexists. }
    exact (proj1 (wp_runs _ _ []) Hs _ _ Hr).
Qed.

Lemma wp_Reconcile entries k (Q : list event -> gmap string cronEntryInfo * Outcome -> Prop) :
  (forall server s' h' en, calm h' -> (exists t, h' = Ev (E := K8s) (RGetServer k) (Ok server) :: t) ->
     updatePending server = true -> gateOpen server h' -> sameButConditions server s' ->
     wp (applyUpdate hasBackupReconciler ticks s') (fun h o => Q h (en, o)) h') ->
  (forall h' x, calm h' -> Q h' x) ->
  wp (Reconcile hasBackupReconciler ticks entries k) Q [].
Proof.
  intros Happ Hend. unfold Reconcile. unfold ask at 1. cbn [bind call wp app]. intros [server|e].
  2: { destruct (IsNotFound e); cbn [wp]; [|apply Hend; by constructor]. apply wp_runs. intros tr x Hr.
       apply Hend. constructor; [done|]. eapply avoids_runs; [|exact Hr].
       apply avoids_bind; [by apply avoids_removeCron | done]. }
  apply wp_bind, wp_manage; [by constructor|]. intros h1 en s1 H1 [t1 ->] Hs.
  destruct (cronInvalid s1).
  { unfold ask. cbn [bind call wp]. intros u.
    assert (calm (([Ev (E := K8s) (RGetServer k) (Ok server)] ++ t1) ++ [Ev (E := K8s) (RStatusServer s1) u]))
      by (apply calm_app; [done | by constructor]).
    destruct u; cbn [wp]; by apply Hend. }
  destruct (updatePending s1) eqn:Hp; cbn [negb]; [|by apply Hend].
  apply wp_bind, wp_gateUpdate; [done | |intros; by apply Hend].
  intros h2 H2 [t2 ->] Hg. cbn [wp]. apply (Happ server); [done | by eexists | | |done].
  - destruct Hs as [cs ->]. exact Hp.
  - by eapply gateOpen_same.
Qed.
End gates.

(** The server that a read answered. *)
Definition serverRead (e : event (E := K8s)) : option PaperMCServer :=
  match e with
  | existT (RGetServer _) (Ok s) => Some s
  | _ => None
  end.

Section reconcile_theorems.
Context {MC : MetaConditions} {GS : GoSort} {CR : Cron}.
Context {UR : URLs}.
Context (hasBackupReconciler : bool) (ticks : nat).

(** [guarded] on a run whose first event is known. *)
Lemma guarded_run {A} P C (p : prog (E := K8s) A) tr x a e b :
  wp p (fun h _ => guarded (E := K8s) P C h) [] -> runs p tr x -> tr = a ++ e :: b ->
  P (projT1 e) = true -> C a.
Proof. intros Hw Hr -> He. exact (proj1 (wp_runs _ _ []) Hw _ _ Hr a e b eq_refl He). Qed.

Lemma guarded_calm C h : calm h -> guarded (E := K8s) actsOnServer C h.
Proof. intros Hc. change h with ([] ++ h). apply guarded_quiet; [|done]. intros [] ? ? [=]. Qed.

(** A run acts on a server only through an open gate. *)
Lemma run_gated entries k tr out a e b :
  runs (Reconcile hasBackupReconciler ticks entries k) tr out ->
  tr = a ++ e :: b -> actsOnServer (reqOf e) = true ->
  exists server, (exists t, a = Ev (E := K8s) (RGetServer k) (Ok server) :: t) /\
    updatePending server = true /\ gateOpen server a.
Proof.
  set (C := fun h => exists server, (exists t, h = Ev (E := K8s) (RGetServer k) (Ok server) :: t) /\
    updatePending server = true /\ gateOpen server h).
  intros Hr Heq He. refine (guarded_run actsOnServer C _ _ _ _ _ _ _ Hr Heq He).
  apply wp_Reconcile; [|intros h' x H; by apply guarded_calm].
  intros server s' h' en Hc Hf Hp Hg _.
  eapply wp_mono; [|apply (wp_guard_open (E := K8s) actsOnServer C)].
  - by intros ? ? [].
  - intros h t (sv & (t' & ->) & Hu & Ho). exists sv. split; [by eexists|]. split; [done|].
    by apply (gateOpen_monotone sv (Ev (E := K8s) (RGetServer k) (Ok sv) :: t') t).
  - by apply guarded_calm.
  - by exists server.
Qed.

(** C13: no update starts before its time.  Whatever the cluster answers, the
    update reconciler acts on a server (commands in its pod or over RCON, a
    snapshot, a new image, the deletion of the pod) only if the server it read has
    a pending update, and either its apply-now annotation was valid and has been
    removed, or the update delay has passed and the maintenance window is open. *)
Theorem Reconcile_gated entries k tr out a e b :
  runs (Reconcile hasBackupReconciler ticks entries k) tr out ->
  tr = a ++ e :: b -> actsOnServer (reqOf e) = true ->
  exists server, (exists t, a = Ev (E := K8s) (RGetServer k) (Ok server) :: t) /\
    updatePending server = true /\ gateOpen server a.
Proof. apply run_gated. Qed.

(** C5: backup first.  If the server that the reconciler read asks for a backup
    before updates (and the backup reconciler is configured), no command is run
    in its pod, no image is changed and no pod is deleted before a volume snapshot
    was created in the same run. *)
Theorem Reconcile_backs_up_first entries k tr out server a e b :
  runs (Reconcile hasBackupReconciler ticks entries k) tr out ->
  tr = Ev (E := K8s) (RGetServer k) (Ok server) :: a ++ e :: b -> destructive (reqOf e) = true ->
  backupRequired hasBackupReconciler server = true ->
  snapshotTaken a.
Proof.
  set (C := fun h => forall s t, h = Ev (E := K8s) (RGetServer k) (Ok s) :: t ->
    backupRequired hasBackupReconciler s = true -> snapshotTaken h).
  intros Hr Heq He Hb.
  enough (H : C (Ev (E := K8s) (RGetServer k) (Ok server) :: a)).
  { destruct (H _ _ eq_refl Hb) as (q & q' & Hin). exists q, q'.
    apply elem_of_cons in Hin as [Hin|Hin]; [|done]. by apply (f_equal (fun e => reqOf e)) in Hin. }
  refine (guarded_run destructive C _ _ _ (_ :: a) e b _ Hr Heq He).
  assert (Hcalm : forall D h, calm h -> guarded (E := K8s) destructive D h).
  { intros D h Hc. change h with ([] ++ h). apply guarded_quiet; [intros [] ? ? [=]|].
    eapply Forall_impl; [exact Hc|]. intros ev Hev. unfold actsOnServer in Hev.
    by apply orb_false_iff in Hev as [? _]. }
  apply wp_Reconcile; [|intros h' x H; by apply Hcalm].
  intros s s' h' en Hc [t ->] _ _ Hs. destruct (backupRequired hasBackupReconciler s) eqn:Hbs.
  - eapply wp_mono; [|apply wp_applyUpdate_backed; [by erewrite backupRequired_same | by apply Hcalm]].
    cbn. intros h2 _ Hg a2 e2 b2 H2 He2 s2 t2 -> _. exact (Hg _ _ _ H2 He2).
  - apply wp_runs. intros tr2 o _ a2 e2 b2 H2 He2 s2 t2 -> Hb2. cbn in H2. apply (f_equal (fun l => head l ≫= serverRead)) in H2. cbn in H2. congruence.
Qed.
End reconcile_theorems.

(** ** Status writes *)

Definition statusWrite (e : event (E := K8s)) : option PaperMCServer :=
  match e with
  | existT (RStatusServer s) _ => Some s
  | _ => None
  end.

Definition statusWrites (tr : list event) : list PaperMCServer := omap statusWrite tr.

(** [w] is [latest] with the update's result on it. *)
Definition carriedOnto (desired : PaperMCServerStatus) (latest w : PaperMCServer) : Prop :=
  let st := srvStatus w in
  stLastUpdate st = stLastUpdate desired /\ stConditions st = stConditions desired /\
  Forall2 (fun p q => spPluginRef q = spPluginRef p /\ spResolvedVersion q = spResolvedVersion p /\
             forall d, List.find (fun d => bool_decide (spPluginRef p = spPluginRef d)) (stPlugins desired) = Some d ->
               spCurrentVersion q = spCurrentVersion d /\ spInstalledJARName q = spInstalledJARName d)
    (stPlugins (srvStatus latest)) (stPlugins st) /\
  stAvailableUpdate st = stAvailableUpdate (srvStatus latest) /\
  stCurrentVersion st = stCurrentVersion (srvStatus latest) /\
  stCurrentBuild st = stCurrentBuild (srvStatus latest).

Lemma reapply_carried desired latest : carriedOnto desired latest (reapply desired latest).
Proof.
  unfold carriedOnto, reapply, updStatus. simpl_upd. split_and!; try done.
  apply Forall2_fmap_r, Forall_Forall2_diag, Forall_forall. intros p _. unfold mergePlugin.
  destruct (List.find _ _) eqn:Hf; simpl_upd; rewrite ?Hf; (split; [done|]; split; [done|]; by intros ? [= ->]).
Qed.

Lemma retryStatus_writes n k desired server tr s' r :
  runs (retryStatus n k desired server) tr (s', r) ->
  match n with
  | O => statusWrites tr = [] /\ isOk r = false
  | S m => exists ws, statusWrites tr = server :: ws /\ (length ws <= m)%nat /\
      (forall w, w ∈ ws -> exists latest, Ev (E := K8s) (RGetServer k) (Ok latest) ∈ tr /\
         w = reapply desired latest) /\
      (isOk r = true -> exists a w, tr = a ++ [Ev (E := K8s) (RStatusServer w) (Ok s')])
  end.
Proof.
  revert server tr. induction n as [|n IH]; intros server tr; cbn [retryStatus]; unfold ask;
    cbn [bind call runs]; [by intros [-> [= _ ->]]|].
  intros (u & t1 & -> & H1). destruct u as [sv|e].
  { destruct H1 as [-> [= -> ->]]. exists []. split_and!; [done | cbn; lia | |].
    - by intros w ?%not_elem_of_nil.
    - intros _. by exists [], server. }
  destruct (IsConflict e); cbn [negb runs bind] in H1.
  2: { destruct H1 as [-> [= -> ->]]. exists []. split_and!; [done | cbn; lia | | done].
       by intros w ?%not_elem_of_nil. }
  destruct H1 as (g & t2 & -> & H2). destruct g as [latest|e2].
  2: { destruct H2 as [-> [= -> ->]]. exists []. split_and!; [done | cbn; lia | | done].
       by intros w ?%not_elem_of_nil. }
  apply IH in H2.
  assert (Hcons : forall e1 e2, statusWrites (Ev (E := K8s) (RStatusServer server) e1 ::
            Ev (E := K8s) (RGetServer k) e2 :: t2) = server :: statusWrites t2) by done.
  rewrite Hcons. destruct n as [|m].
  - destruct H2 as [Hw Ho]. exists []. rewrite Hw. split_and!; [done | cbn; lia | | congruence].
    by intros w ?%not_elem_of_nil.
  - destruct H2 as (ws & Hw & Hl & Hws & Ho). exists (reapply desired latest :: ws).
    split_and!; [by rewrite Hw | cbn; lia | |].
    + intros w [->|Hin]%elem_of_cons; [exists latest; set_solver|].
      destruct (Hws w Hin) as (l2 & ? & ->). exists l2. set_solver.
    + intros Hr. destruct (Ho Hr) as (a & w & ->). eexists (_ :: _ :: a), w. done.
Qed.

(** Status write with retry.  At most three status updates are sent; the first
    is the server as the reconciler left it, every later one is a freshly read
    server that carries the update record, the conditions and the plugins'
    installed versions - but keeps the pending update and the current version and
    build that were read, even after a successful update.  Success means that the
    last write was accepted. *)
Theorem updateStatusWithRetry_correct server tr s' r :
  runs (updateStatusWithRetry server) tr (s', r) ->
  exists ws, statusWrites tr = server :: ws /\ (length ws <= 2)%nat /\
    (forall w, w ∈ ws -> exists latest, Ev (E := K8s) (RGetServer (srvKey server)) (Ok latest) ∈ tr /\
       carriedOnto (srvStatus server) latest w) /\
    (isOk r = true -> exists a w, tr = a ++ [Ev (E := K8s) (RStatusServer w) (Ok s')]).
Proof.
  intros Hr. apply (retryStatus_writes 3) in Hr as (ws & Hw & Hl & Hws & Ho). exists ws.
  split_and!; [done | lia | | done]. intros w Hin. destruct (Hws w Hin) as (latest & ? & ->).
  exists latest. split; [done | apply reapply_carried].
Qed.

(** ** Downloads *)

Definition isExec (r : kreq) : bool := match r with RExec _ _ _ _ => true | _ => false end.

Definition execAnswer (e : event (E := K8s)) : option (result string) :=
  match e with
  | existT (RExec _ _ _ _) y => Some y
  | _ => None
  end.

(** [event_cases H]: where the event of [H : e1 :: ... = a ++ e :: b] is; equal
    events have equal requests and equal answers. *)
Ltac event_cases H :=
  lazymatch type of H with
  | [] = _ => destruct (nil_split _ _ _ H)
  | _ => apply cons_split in H as [(-> & H & <-)|(? & -> & H)];
      [ let Hq := fresh in pose proof (f_equal (fun e => reqOf e) H) as Hq; cbn in Hq;
        try discriminate Hq;
        let Ha := fresh in pose proof (f_equal execAnswer H) as Ha; cbn in Ha; try discriminate Ha; injection Ha as <-; try done
      | event_cases H ]
  end.

(** The output of sha256sum on a path in the run. *)
Definition checksumRead (server : PaperMCServer) (path out : string) : event (E := K8s) :=
  Ev (E := K8s) (RExec (srvNamespace server) (podNameOf server) containerNamePaperMC ["sha256sum"; path]) (Ok out).

(** sha256sum did not run. *)
Definition checksumFailed (server : PaperMCServer) (path : string) (e : error) : event (E := K8s) :=
  Ev (E := K8s) (RExec (srvNamespace server) (podNameOf server) containerNamePaperMC ["sha256sum"; path]) (Err e).

(** C32: verified downloads.  If the download of a plugin with a known hash
    succeeds, the last thing that happened is that sha256sum read that hash from
    the downloaded file.  If it read another one, the download fails, and the removal
    of the file is the one thing that is still tried.  If sha256sum could not run, the
    download fails too, but nothing is done any more: the file stays where it is. *)
Theorem downloadPluginToServer_verified server name url hash tr r :
  runs (downloadPluginToServer server name url hash) tr r -> hash <> "" ->
  (isOk r = true -> exists a out, tr = a ++ [checksumRead server (jarPath name) out] /\ hashOf out = ToLower hash) /\
  (forall a out b, tr = a ++ checksumRead server (jarPath name) out :: b -> hashOf out <> ToLower hash ->
     isOk r = false /\ exists y, b = [Ev (E := K8s) (RExec (srvNamespace server) (podNameOf server)
       containerNamePaperMC ["rm"; "--force"; jarPath name]) y]) /\
  (forall a e b, tr = a ++ checksumFailed server (jarPath name) e :: b -> isOk r = false /\ b = []).
Proof.
  intros Hr Hh. unfold downloadPluginToServer, verifyPluginChecksum, ExecInPod, ask in Hr.
  rewrite (proj2 (String.eqb_neq hash "") Hh) in Hr. cbn [bind call runs negb] in Hr.
  destruct Hr as (m & t1 & -> & Hr). destruct m as [o1|e]; cbn [bind call runs] in Hr.
  2: { destruct Hr as [-> ->]. split_and!; [done|..]; by intros a x b Heq; event_cases Heq. }
  destruct Hr as (c & t2 & -> & Hr). destruct c as [o2|e]; cbn [bind call runs] in Hr.
  2: { destruct Hr as [-> ->]. split_and!; [done|..]; by intros a x b Heq; event_cases Heq. }
  destruct Hr as (s & t3 & -> & Hr). destruct s as [o3|e]; cbn [bind call runs] in Hr.
  2: { destruct Hr as [-> ->]. split_and!; [done|by intros a x b Heq; event_cases Heq|].
       intros a x b Heq. split; [done|]. by event_cases Heq. }
  destruct (String.eqb_spec (hashOf o3) (ToLower hash)) as [Heq|Hne]; cbn [negb bind call runs] in Hr.
  - destruct Hr as [-> ->]. split_and!.
    + intros _. eexists [_; _], o3. split; [reflexivity | done].
    + intros a out b Hs. by event_cases Hs.
    + intros a e b Hs. by event_cases Hs.
  - destruct Hr as (y & t4 & -> & -> & ->). split_and!; [done| |].
    + intros a out b Hs. event_cases Hs. intros _. split; [done|]. by eexists.
    + intros a e b Hs. by event_cases Hs.
Qed.

(** ** Order of the combined update *)

(** The identity and the spec of the server do not change along the steps. *)
Definition sameObject (s s' : PaperMCServer) : Prop :=
  srvSpec s' = srvSpec s /\ srvKey s' = srvKey s.

Lemma sameObject_trans s t u : sameObject s t -> sameObject t u -> sameObject s u.
Proof. intros [H1 H2] [H3 H4]. split; congruence. Qed.

Section frames.
Context {MC : MetaConditions} {GS : GoSort}.
Context {UR : URLs}.
Context (hasBackupReconciler : bool) (ticks : nat).

Lemma persist_sameObject server r n tr s : runs (persistBackupStatus server r n) tr s -> sameObject server s.
Proof.
  unfold persistBackupStatus, statusUpdate, ask. cbn [bind call runs]. intros (g & t & -> & H).
  destruct g as [latest|e]; cbn [bind call runs] in H; [|by destruct H as [_ ->]].
  by destruct H as (u & t2 & -> & _ & ->).
Qed.

Lemma takeSnapshot_sameObject server trigger pvc now tr s r :
  runs (takeSnapshot server trigger pvc now) tr (s, r) -> sameObject server s.
Proof.
  unfold takeSnapshot. intros (t1 & [name|e] & t2 & -> & _ & H)%runs_bind.
  - apply runs_bind in H as (t3 & d & t4 & -> & _ & H).
    apply runs_bind in H as (t5 & l & t6 & -> & _ & H).
    apply runs_bind in H as (t7 & ca & t8 & -> & _ & H).
    apply runs_bind in H as (t9 & s9 & t10 & -> & H9 & [-> [= -> ->]]). by eapply persist_sameObject.
  - apply runs_bind in H as (t9 & s9 & t10 & -> & H9 & [-> [= -> ->]]). by eapply persist_sameObject.
Qed.

Lemma performBackup_sameObject server trigger tr s r :
  runs (performBackup server trigger) tr (s, r) -> sameObject server s.
Proof.
  unfold performBackup, performBackupLocked, ask. cbn [bind call runs].
  intros (y & t1 & -> & now & t2 & -> & pvc & t3 & -> & H).
  apply runs_bind in H as (t4 & [s4 r4] & t5 & -> & H4 & H5).
  destruct H5 as (y2 & t6 & -> & -> & [= -> ->]). destruct pvc as [u|e].
  2: { apply runs_bind in H4 as (t7 & s7 & t8 & -> & H7 & H8). destruct (IsNotFound e);
         destruct H8 as [-> [= -> ->]]; by eapply persist_sameObject. }
  destruct (rcEnabled _); [|by eapply takeSnapshot_sameObject].
  unfold backupWithRCON in H4. apply runs_bind in H4 as (t7 & [c|e] & t8 & -> & _ & H).
  2: { apply runs_bind in H as (t9 & s9 & t10 & -> & H9 & [-> [= -> ->]]). by eapply persist_sameObject. }
  apply runs_bind in H as (t9 & [c' [v|e]] & t10 & -> & _ & H).
  - apply runs_bind in H as (t11 & [w|e] & t12 & -> & _ & H).
    + apply runs_bind in H as (t13 & [s13 r13] & t14 & -> & H13 & H).
      apply runs_bind in H as (t15 & q & t16 & -> & _ & H).
      apply runs_bind in H as (t17 & q2 & t18 & -> & _ & [-> [= -> ->]]). by eapply takeSnapshot_sameObject.
    + apply runs_bind in H as (t13 & q & t14 & -> & _ & H).
      apply runs_bind in H as (t15 & s15 & t16 & -> & H15 & H).
      apply runs_bind in H as (t17 & q2 & t18 & -> & _ & [-> [= -> ->]]). by eapply persist_sameObject.
  - apply runs_bind in H as (t11 & s11 & t12 & -> & H11 & H).
    apply runs_bind in H as (t13 & q & t14 & -> & _ & [-> [= -> ->]]). by eapply persist_sameObject.
Qed.

Lemma prepareUpdate_sameObject server tr s r :
  runs (prepareUpdate hasBackupReconciler server) tr (s, r) -> sameObject server s.
Proof.
  unfold prepareUpdate. intros (t1 & [s1 r1] & t2 & -> & H1 & H2)%runs_bind.
  assert (R1 : sameObject server s1).
  { unfold backupBeforeUpdate in H1. destruct (negb _); [by destruct H1 as [_ [= -> _]]|].
    apply runs_bind in H1 as (t3 & [|] & t4 & -> & _ & H4); [by destruct H4 as [_ [= -> _]]|].
    by eapply performBackup_sameObject. }
  destruct r1 as [u|e]; [|by destruct H2 as [_ [= -> _]]].
  apply runs_bind in H2 as (t3 & [u3|e3] & t4 & -> & _ & H4); [|by destruct H4 as [_ [= -> _]]].
  apply runs_bind in H4 as (t5 & [s5 r5] & t6 & -> & H5 & H6).
  assert (R5 : sameObject s1 s5).
  { unfold applyPluginUpdates, ask in H5. cbn [bind call runs] in H5.
    destruct H5 as (l & t7 & -> & H7). destruct l as [items|e]; [|by destruct H7 as [_ [= -> _]]].
    apply runs_bind in H7 as (t8 & [sts errs] & t9 & -> & _ & H9).
    destruct errs; by destruct H9 as [_ [= -> _]]. }
  assert (s = s5) as ->. { destruct r5; by destruct H6 as [_ [= -> _]]. }
  by eapply sameObject_trans.
Qed.
End frames.

(** A new image or the deletion of the pod. *)
Definition isRollout (r : kreq) : bool :=
  match r with RUpdateSts _ | RDeletePod _ => true | _ => false end.

Definition podReady (pod : Pod) : bool :=
  existsb (fun c => (c.1 =? "Ready")%string && (c.2 =? ConditionTrue)%string) (podConditions pod).

Definition podKey (server : PaperMCServer) : key := (srvNamespace server, podNameOf server).

(** The image of the papermc container. *)
Definition paperImage (sts : StatefulSet) : option string :=
  ctImage <$> List.find (fun c => (ctName c =? containerNamePaperMC)%string) (ptContainers (stsTemplate sts)).

Lemma setImage_image img cs cs' : setImage img cs = Some cs' ->
  ctImage <$> List.find (fun c => (ctName c =? containerNamePaperMC)%string) cs' = Some img.
Proof.
  revert cs'. induction cs as [|c cs IH]; intros cs'; cbn; [done|].
  destruct (ctName c =? containerNamePaperMC)%string eqn:En.
  - intros [= <-]. simpl_upd. by rewrite En.
  - intros (cs2 & H2 & ->)%fmap_Some. cbn. rewrite En. by apply IH.
Qed.

Section order.
Context {MC : MetaConditions} {GS : GoSort}.
Context {UR : URLs}.
Context (hasBackupReconciler : bool) (ticks : nat).

Lemma avoids_mark P a b c d :
  (forall k, P (RGetPlugin k) = false) -> P RNow = false -> (forall p, P (RStatusPlugin p) = false) ->
  avoids (E := K8s) P (markJARAsDeleted a b c d).
Proof. intros H1 H2 H3. unfold markJARAsDeleted, ask. avoids_tac; auto. Qed.

Lemma avoids_deletions server : avoids (E := K8s) isRollout (deleteMarkedPlugins server).
Proof.
  unfold deleteMarkedPlugins. destruct (getPluginsToDelete server); [done|].
  apply avoids_bind; [|by intros []]. apply avoids_foldP. intros errs p.
  apply avoids_bind; [|done]. unfold deletePluginJAR. destruct (_ =? _)%string; [by apply avoids_mark|].
  unfold ExecInPod, ask. cbn [avoids bind call]. split; [done|]. intros [o|e]; [|done].
  apply avoids_bind; [by apply avoids_mark | by intros []].
Qed.

Lemma avoids_applyPlugins server : avoids (E := K8s) isRollout (applyPluginUpdates server).
Proof.
  unfold applyPluginUpdates, ask. cbn [avoids bind call]. split; [done|]. intros [items|e]; [|done].
  apply avoids_bind; [|by intros [sts []]]. apply avoids_foldP. intros acc p.
  apply avoids_bind; [|by intros []].
  unfold applyOne, downloadPluginToServer, verifyPluginChecksum, ExecInPod, ask. avoids_tac.
Qed.

Lemma avoids_prepare server :
  avoids (E := K8s) isRollout (prepareUpdate hasBackupReconciler server).
Proof.
  unfold prepareUpdate. apply avoids_bind.
  { unfold backupBeforeUpdate. destruct (negb _); [done|]. apply avoids_bind.
    - unfold isSnapshotCRDMissing, ListSnapshots, ask. avoids_tac.
    - intros [|]; [done|]. apply avoids_performBackup. by intros []. }
  intros [s [u|e]]; [|done]. apply avoids_bind; [apply avoids_deletions|]. intros [v|e]; [|done].
  apply avoids_bind; [apply avoids_applyPlugins | by intros [? []]].
Qed.

Lemma avoids_createRCON P server :
  (forall k, P (RGetPod k) = false) -> (forall k, P (RGetSecret k) = false) ->
  avoids (E := K8s) P (createRCONClient server).
Proof. intros H1 H2. unfold createRCONClient, ask. avoids_tac; auto. Qed.

Lemma avoids_sendWarnings c ws d : avoids (E := K8s) isRollout (sendWarnings c ws d).
Proof.
  induction ws as [|w ws IH]; [done|]. cbn [sendWarnings]. unfold SendCommand, ctxErr, ask.
  avoids_tac.
Qed.

Lemma avoids_shutdown server : avoids (E := K8s) isRollout (shutdownForUpdate server).
Proof.
  unfold shutdownForUpdate. destruct (rcEnabled _); [|done].
  apply avoids_bind; [by apply avoids_createRCON|]. intros [c|e]; [|done].
  apply avoids_bind; [|done]. unfold executeGracefulShutdownWithClient.
  apply avoids_bind; [by apply avoids_connect|]. intros [c' [u|e]]; [|done].
  apply avoids_bind; [|intros; apply avoids_bind; [by apply avoids_close | done]].
  unfold GracefulShutdown. destruct (rcConn c'); [|done]. apply avoids_bind; [apply avoids_sendWarnings|].
  intros [v|e]; [|done]. unfold SendCommand, ctxErr, ask. avoids_tac.
Qed.

Lemma shutdown_commands server tr :
  runs (shutdownForUpdate server) tr (Ok tt) -> rcEnabled (ssRCON (srvSpec server)) = true ->
  commands tr = shutdownPlan shutdownWarnings.
Proof.
  unfold shutdownForUpdate. intros H He. rewrite He in H. apply runs_bind in H as (t1 & [c|e] & t2 & -> & H1 & H); [|by destruct H].
  apply runs_bind in H as (t3 & r3 & t4 & -> & H & [-> Hr]). symmetry in Hr. apply wrap_Ok in Hr as ->.
  unfold executeGracefulShutdownWithClient in H.
  apply runs_bind in H as (t5 & [c' [u|e]] & t6 & -> & H5 & H); [|by destruct H].
  apply runs_bind in H as (t7 & r7 & t8 & -> & H7 & H).
  apply runs_bind in H as (t9 & q & t10 & -> & H9 & [-> Hr]). symmetry in Hr. apply wrap_Ok in Hr as ->.
  destruct (proj1 (wp_runs _ _ []) (wp_GracefulShutdown c' shutdownWarnings _ []) _ _ H7) as (sent & Hs & _ & Ho).
  cbn [app] in Hs. rewrite !app_nil_r, !commands_app, Hs, (Ho eq_refl).
  rewrite (commands_none t1), (commands_none t5), (commands_none t9); [by rewrite app_nil_r | ..].
  - eapply avoids_runs; [|exact H9]. by apply avoids_close.
  - eapply avoids_runs; [|exact H5]. by apply avoids_connect.
  - eapply avoids_runs; [|exact H1]. by apply avoids_createRCON.
Qed.

Lemma updateImage_runs server img tr r :
  runs (updateStatefulSetImage server img) tr r ->
  (forall a sts y b, tr = a ++ Ev (E := K8s) (RUpdateSts sts) y :: b ->
     paperImage sts = Some img /\ commands a = []) /\
  (isOk r = true -> exists sts s', Ev (E := K8s) (RUpdateSts sts) (Ok s') ∈ tr).
Proof.
  unfold updateStatefulSetImage, ask. cbn [bind call runs]. intros (g & t & -> & H).
  assert (Hno : forall a sts y b, [Ev (E := K8s) (RGetSts (srvKey server)) g] <>
            a ++ Ev (E := K8s) (RUpdateSts sts) y :: b).
  { intros a sts y b Hs. apply cons_split in Hs as [(-> & Hs & <-)|(a' & -> & Hs)];
      [by apply (f_equal (fun e => reqOf e)) in Hs | by apply nil_split in Hs]. }
  destruct g as [sts|e].
  2: { destruct H as [-> ->]. split; [|done]. intros a s y b Hs. by destruct (Hno a s y b). }
  destruct (setImage img _) as [cs|] eqn:Hi; cbn [bind call runs] in H.
  2: { destruct H as [-> ->]. split; [|done]. intros a s y b Hs. by destruct (Hno a s y b). }
  destruct H as (u & t2 & -> & H). assert (t2 = []) as -> by (destruct u; by destruct H). split.
  - intros a s y b Hs. apply cons_split in Hs as [(-> & Hs & _)|(a' & -> & Hs)];
      [by apply (f_equal (fun e => reqOf e)) in Hs|].
    apply cons_split in Hs as [(-> & Hs & _)|(a2 & -> & Hs)]; [|by apply nil_split in Hs].
    apply (f_equal (fun e => reqOf e)) in Hs. cbn in Hs. injection Hs as <-. split; [|done].
    unfold paperImage. simpl_upd. by eapply setImage_image.
  - intros Ho. destruct u as [s'|e]; [|by destruct H as [_ ->]]. eexists _, s'. apply elem_of_cons. right. by apply list_elem_of_singleton.
Qed.

Lemma waitForPodReady_ready n server tr :
  runs (waitForPodReady n server) tr (Ok tt) ->
  exists pod, Ev (E := K8s) (RGetPod (podKey server)) (Ok pod) ∈ tr /\ podReady pod = true.
Proof.
  revert tr. induction n as [|n IH]; intros tr; cbn [waitForPodReady]; [by intros []|].
  unfold ask. cbn [bind call runs]. intros (timedOut & t & -> & H). destruct timedOut; [by destruct H|].
  cbn [bind call runs] in H. destruct H as (p & t2 & -> & H). destruct p as [pod|e].
  - destruct (existsb _ _) eqn:Hr.
    + exists pod. split; [|done]. set_solver.
    + destruct (IH _ H) as (pod2 & ? & ?). exists pod2. split; [set_solver | done].
  - destruct (IH _ H) as (pod2 & ? & ?). exists pod2. split; [set_solver | done].
Qed.

Lemma restartPod_runs server tr r :
  runs (restartPod ticks server) tr r ->
  (forall a k y b, tr = a ++ Ev (E := K8s) (RDeletePod k) y :: b -> k = podKey server) /\
  (r = Ok tt -> exists a b pod, tr = a ++ Ev (E := K8s) (RDeletePod (podKey server)) (Ok tt) :: b /\
     Ev (E := K8s) (RGetPod (podKey server)) (Ok pod) ∈ b /\ podReady pod = true).
Proof.
  unfold restartPod, deletePod, ask. cbn [bind call runs]. intros (g & t & -> & H).
  destruct g as [pod|e]; cbn [bind call runs] in H.
  2: { destruct H as [-> ->]. split; [|done]. intros a k y b Hs.
       apply cons_split in Hs as [(-> & Hs & _)|(a' & -> & Hs)];
         [by apply (f_equal (fun e => reqOf e)) in Hs | by apply nil_split in Hs]. }
  destruct H as (d & t2 & -> & H).
  assert (Hd : forall a k y b, t2 = a ++ Ev (E := K8s) (RDeletePod k) y :: b -> False).
  { intros a k y b Hs. destruct d as [u|e]; cbn [wrap bind] in H.
    - apply runs_bind in H as (t3 & w & t4 & -> & H3 & [-> _]). rewrite app_nil_r in Hs.
      eapply (no_event isRollout); [|exact H3 | exact Hs | done]. by apply avoids_wait.
    - destruct H as [-> _]. by apply nil_split in Hs. }
  split.
  - intros a k y b Hs. apply cons_split in Hs as [(-> & Hs & _)|(a' & -> & Hs)];
      [by apply (f_equal (fun e => reqOf e)) in Hs|].
    apply cons_split in Hs as [(-> & Hs & _)|(a2 & -> & Hs)]; [|by apply Hd in Hs].
    apply (f_equal (fun e => reqOf e)) in Hs. cbn in Hs. by injection Hs as <-.
  - intros ->. destruct d as [[]|e]; cbn [wrap bind] in H; [|by destruct H].
    apply runs_bind in H as (t3 & w & t4 & -> & H3 & [-> Hw]). symmetry in Hw. apply wrap_Ok in Hw as ->.
    apply waitForPodReady_ready in H3 as (pod2 & Hin & Hready).
    eexists [_], t3, pod2. rewrite app_nil_r. split; [reflexivity | done].
Qed.

Lemma podKey_same s s' : sameObject s s' -> podKey s' = podKey s.
Proof. intros [_ H]. unfold podKey, podNameOf. unfold srvKey in H. by injection H as -> ->. Qed.

(** The last two phases: neither makes the other's request. *)
Lemma restartPod_no_image server tr r a sts y b :
  runs (restartPod ticks server) tr r -> tr = a ++ Ev (E := K8s) (RUpdateSts sts) y :: b -> False.
Proof.
  intros Hr Hs.
  eapply (no_event (fun q => match q with RUpdateSts _ => true | _ => false end)); [|exact Hr|exact Hs|done].
  unfold restartPod, deletePod, ask. cbn [avoids bind call]. split; [done|]. intros [pod|e]; [|done].
  cbn [avoids bind call]. split; [done|]. intros [u7|e]; [|done]. cbn [wrap bind].
  apply avoids_bind; [by apply avoids_wait | done].
Qed.

Lemma updateImage_no_delete server img tr r a k y b :
  runs (updateStatefulSetImage server img) tr r -> tr = a ++ Ev (E := K8s) (RDeletePod k) y :: b -> False.
Proof.
  intros Hr Hs.
  eapply (no_event (fun q => match q with RDeletePod _ => true | _ => false end)); [|exact Hr|exact Hs|done].
  unfold updateStatefulSetImage, ask. avoids_tac.
Qed.

(** The first two phases roll nothing out. *)
Lemma prepared_no_rollout server s t1 t3 x y a q z b :
  runs (prepareUpdate hasBackupReconciler server) t1 x ->
  runs (shutdownForUpdate s) t3 y -> t1 ++ t3 = a ++ Ev (E := K8s) q z :: b -> isRollout q = true -> False.
Proof.
  intros H1 H3 Hs Hq. symmetry in Hs. apply app_split_elem in Hs as [(b' & Hs & _)|(a' & _ & Hs)].
  - eapply (no_event isRollout); [apply avoids_prepare | exact H1 | exact Hs | done].
  - eapply (no_event isRollout); [apply avoids_shutdown | exact H3 | exact Hs | done].
Qed.

(** C11: order of a combined update.  The image of the StatefulSet is changed only
    once the backup, the deletions and the downloads succeeded and, with RCON
    enabled, the players were warned, the world saved and the server stopped; the
    new image is the one of the desired version and build.  The pod is deleted only
    after the new image was accepted.  The update succeeds only if a ready pod was
    seen after the deletion. *)
Theorem performCombinedUpdate_order server tr server' r :
  runs (performCombinedUpdate hasBackupReconciler ticks server) tr (server', r) ->
  sameObject server server' /\
  (forall a sts y b, tr = a ++ Ev (E := K8s) (RUpdateSts sts) y :: b ->
     paperImage sts = Some (newImageOf server') /\
     (exists t, t `prefix_of` a /\
        runs (prepareUpdate hasBackupReconciler server) t (server', Ok tt)) /\
     (rcEnabled (ssRCON (srvSpec server)) = true ->
        exists c, commands a = c ++ shutdownPlan shutdownWarnings)) /\
  (forall a k y b, tr = a ++ Ev (E := K8s) (RDeletePod k) y :: b ->
     k = podKey server /\ exists sts s', Ev (E := K8s) (RUpdateSts sts) (Ok s') ∈ a) /\
  (r = Ok tt -> exists a b pod, tr = a ++ Ev (E := K8s) (RDeletePod (podKey server)) (Ok tt) :: b /\
     Ev (E := K8s) (RGetPod (podKey server)) (Ok pod) ∈ b /\ podReady pod = true).
Proof.
  unfold performCombinedUpdate. intros (t1 & [s r1] & t2 & -> & H1 & H2)%runs_bind.
  pose proof (prepareUpdate_sameObject _ _ _ _ _ H1) as Hsame.
  destruct r1 as [[]|e].
  2: { destruct H2 as [-> [= -> ->]]. rewrite app_nil_r.
       assert (N : forall a q y b, t1 = a ++ Ev (E := K8s) q y :: b -> isRollout q = true -> False).
       { intros a q y b Hs Hq. eapply (no_event isRollout); [apply avoids_prepare | exact H1 | exact Hs | done]. }
       split_and!; [done | intros; exfalso; by eapply N | intros; exfalso; by eapply N | done]. }
  apply runs_bind in H2 as (t3 & r3 & t4 & -> & H3 & H4).
  pose proof (fun a q y b => prepared_no_rollout _ _ _ _ _ _ a q y b H1 H3) as N13.
  destruct r3 as [[]|e].
  2: { destruct H4 as [-> [= -> ->]]. rewrite app_nil_r.
       split_and!; [done | intros; exfalso; by eapply N13 | intros; exfalso; by eapply N13 | done]. }
  apply runs_bind in H4 as (t5 & r5 & t6 & -> & H5 & H6).
  destruct (updateImage_runs _ _ _ _ H5) as [Himg Hacc].
  assert (H6' : server' = s /\ ((exists e, r5 = Err e /\ t6 = [] /\ r <> Ok tt) \/
            (exists u, r5 = Ok u) /\ runs (restartPod ticks s) t6 r)).
  { destruct r5 as [u|e]; [|destruct H6 as [-> [= -> ->]]; split; [done|]; left; by exists e].
    apply runs_bind in H6 as (t7 & r7 & t8 & -> & H7 & [-> [= -> ->]]). rewrite app_nil_r.
    split; [done|]. right. split; [by exists u | done]. }
  clear H6. destruct H6' as [-> H6]. rewrite app_assoc, <- (podKey_same _ _ Hsame). split; [done|]. split; [|split].
  - intros a sts y b Hs. symmetry in Hs. apply app_split_elem in Hs as [(b' & Hs & _)|(a' & -> & Hs)];
      [destruct (N13 _ _ _ _ Hs eq_refl)|].
    symmetry in Hs. apply app_split_elem in Hs as [(b' & -> & _)|(a2 & -> & Hs)].
    2: { destruct H6 as [(e & _ & -> & _)|[_ H6]]; [by apply nil_split in Hs | by destruct (restartPod_no_image _ _ _ _ _ _ _ H6 Hs)]. }
    destruct (Himg _ _ _ _ eq_refl) as [Hi Hc]. split; [done|]. split.
    + exists t1. split; [|done]. rewrite <- app_assoc. by apply prefix_app_r.
    + intros He. exists (commands t1). rewrite !commands_app, Hc, app_nil_r. f_equal.
      apply (shutdown_commands _ _ H3). by destruct Hsame as [-> _].
  - intros a k y b Hs. symmetry in Hs. apply app_split_elem in Hs as [(b' & Hs & _)|(a' & -> & Hs)];
      [destruct (N13 _ _ _ _ Hs eq_refl)|].
    symmetry in Hs. apply app_split_elem in Hs as [(b' & -> & _)|(a2 & -> & Hs)];
      [by destruct (updateImage_no_delete _ _ _ _ _ _ _ _ H5 eq_refl)|].
    destruct H6 as [(e & _ & -> & _)|[[u ->] H6]]; [by apply nil_split in Hs|].
    destruct (restartPod_runs _ _ _ H6) as [Hk _]. split; [by eapply Hk|].
    destruct (Hacc eq_refl) as (sts & s' & Hin). exists sts, s'. set_solver.
  - intros ->. destruct H6 as [(e & _ & _ & Hne)|[_ H6]]; [done|].
    destruct (restartPod_runs _ _ _ H6) as [_ Ho]. destruct (Ho eq_refl) as (a & b & pod & -> & Hin & Hp).
    exists ((t1 ++ t3) ++ t5 ++ a), b, pod. by rewrite <- !app_assoc.
Qed.
End order.

Section stale.
Context {MC : MetaConditions} {GS : GoSort} {CR : Cron}.
Context {UR : URLs}.
Context (hasBackupReconciler : bool) (ticks : nat).

(** a stale cron condition blocks every update.  If the maintenance window has
    been disabled while the server's status still says that its cron expression is
    invalid, the reconciler writes the status back unchanged and stops: no run acts
    on the server, and the condition is never cleared. *)
Theorem Reconcile_stale_cron_blocks entries k server t out :
  runs (Reconcile hasBackupReconciler ticks entries k)
    (Ev (E := K8s) (RGetServer k) (Ok server) :: t) out ->
  mwEnabled (usMaintenanceWindow (ssUpdateSchedule (srvSpec server))) = false ->
  cronInvalid server = true ->
  calm t /\ statusWrites t = [server].
Proof.
  unfold Reconcile, ask at 1. cbn [bind call runs]. intros (g & t' & Heq & H) Hm Hc.
  assert (Hg : Some server = (fun e => serverRead e) (Ev (E := K8s) (RGetServer k) g)).
  { apply (f_equal (fun l => head l ≫= serverRead)) in Heq. exact Heq. }
  apply (f_equal tail) in Heq. cbn in Heq. subst t'. destruct g as [s|e]; cbn in Hg; [|done].
  injection Hg as <-. apply runs_bind in H as (t1 & [en s1] & t2 & -> & H1 & H2).
  unfold manageCronSchedule in H1. rewrite Hm in H1. cbn [negb] in H1.
  apply runs_bind in H1 as (t3 & en3 & t4 & -> & H3 & [-> [= -> ->]]). rewrite Hc in H2.
  unfold ask in H2. cbn [bind call runs] in H2. destruct H2 as (u & t5 & -> & H5).
  assert (t5 = []) as -> by (destruct u; by destruct H5). rewrite app_nil_r.
  unfold removeCronJob, ask in H3. destruct (entries !! _).
  - cbn [bind call runs] in H3. destruct H3 as (y & t6 & -> & -> & _). split; [|done].
    by repeat constructor.
  - destruct H3 as [-> _]. split; [|done]. by repeat constructor.
Qed.
End stale.

(** ** The download loop *)

Section loop.
Context {UR : URLs}.

(** A download of [url] is due for the plugin status [ps]. *)
Definition wanted (items : list Plugin) (ps : ServerPluginStatus) (url : string) : Prop :=
  exists plugin hash, pluginByName items !! prName (spPluginRef ps) = Some plugin /\
    spResolvedVersion ps <> "" /\ spCurrentVersion ps <> spResolvedVersion ps /\
    downloadOf plugin (spResolvedVersion ps) = (url, hash) /\ isOk (ValidateDownloadURL url) = true.

(** The request and answer of a download. *)
Definition curlOf (e : event (E := K8s)) : option (list string * bool) :=
  match e with
  | existT (RExec _ _ _ ("curl" :: args)) y => Some ("curl" :: args, isOk y)
  | _ => None
  end.

(** Every download in [h] is wanted by one of the statuses. *)
Definition curlsWanted (items : list Plugin) (all : list ServerPluginStatus) (h : list event) : Prop :=
  forall e cmd ok, e ∈ h -> curlOf e = Some (cmd, ok) ->
  exists ps url, ps ∈ all /\ wanted items ps url /\ cmd = curlCommand (jarPath (prName (spPluginRef ps))) url.

(** What the loop makes of a status: nothing, or the name of the JAR that a
    successful download in [h] wrote. *)
Definition installed (items : list Plugin) (h : list event) (ps ps' : ServerPluginStatus) : Prop :=
  ps' = ps \/
  ps' = ps <| spInstalledJARName := prName (spPluginRef ps) +:+ ".jar" |> /\
  exists url e, wanted items ps url /\ e ∈ h /\
    curlOf e = Some (curlCommand (jarPath (prName (spPluginRef ps))) url, true).

Lemma curlsWanted_app items all h t :
  curlsWanted items all h -> Forall (fun e => curlOf e = None) t -> curlsWanted items all (h ++ t).
Proof.
  intros Hh Ht e cmd ok [Hin|Hin]%elem_of_app He; [by eapply Hh|].
  rewrite Forall_forall in Ht. specialize (Ht e Hin). congruence.
Qed.

Lemma installed_mono items h t ps ps' : installed items h ps ps' -> installed items (h ++ t) ps ps'.
Proof.
  intros [->|(-> & url & e & Hw & Hin & He)]; [by left|]. right. split; [done|]. exists url, e. set_solver.
Qed.

(** One download: its commands, and success only after a successful curl. *)
Lemma wp_download items all server ps url hash h :
  ps ∈ all -> wanted items ps url -> curlsWanted items all h ->
  wp (downloadPluginToServer server (prName (spPluginRef ps)) url hash) (fun h' r =>
    curlsWanted items all h' /\ (exists t, h' = h ++ t) /\
    (isOk r = true -> exists e, e ∈ h' /\
       curlOf e = Some (curlCommand (jarPath (prName (spPluginRef ps))) url, true))) h.
Proof.
  intros Hps Hw Hh. unfold downloadPluginToServer, verifyPluginChecksum, ExecInPod, ask. cbn [bind call wp].
  intros m. set (e1 := Ev _ m). assert (H1 : curlsWanted items all (h ++ [e1])) by (apply curlsWanted_app; [done | by constructor]).
  destruct m as [o|e]; cbn [bind call wp]; [|split; [done|]; split; [by eexists | done]].
  intros y. set (e2 := Ev _ y). assert (H2 : curlsWanted items all ((h ++ [e1]) ++ [e2])).
  { intros e cmd ok [Hin|Hin]%elem_of_app He; [by eapply H1|]. apply list_elem_of_singleton in Hin as ->.
    cbn in He. injection He as <- _. by exists ps, url. }
  assert (Hex : exists t, (h ++ [e1]) ++ [e2] = h ++ t) by (eexists; by rewrite <- app_assoc).
  destruct y as [o2|e]; cbn [bind call wp]; [|by split_and!].
  assert (Hc : exists e, e ∈ (h ++ [e1]) ++ [e2] /\
            curlOf e = Some (curlCommand (jarPath (prName (spPluginRef ps))) url, true)).
  { exists e2. split; [set_solver | reflexivity]. }
  destruct (negb (hash =? "")%string); cbn [bind call wp]; [|by split_and!].
  intros s. set (e3 := Ev _ s). destruct Hc as (ec & Hin & Hec).
  assert (H3 : curlsWanted items all (((h ++ [e1]) ++ [e2]) ++ [e3])) by (apply curlsWanted_app; [done | by constructor]).
  assert (Hex3 : exists t, ((h ++ [e1]) ++ [e2]) ++ [e3] = h ++ t) by (eexists; by rewrite <- !app_assoc).
  destruct s as [out|e]; cbn [bind call wp].
  2: { split; [done|]. split; [done|]. intros [=]. }
  destruct (negb _); cbn [bind call wp].
  - intros z. split; [apply curlsWanted_app; [done | by constructor]|]. split; [|done].
    eexists. by rewrite <- !app_assoc.
  - split; [done|]. split; [done|]. intros _. exists ec. split; [set_solver | done].
Qed.

Lemma wp_applyOne items all server ps h :
  ps ∈ all -> curlsWanted items all h ->
  wp (applyOne server (pluginByName items) ps) (fun h' x =>
    curlsWanted items all h' /\ (exists t, h' = h ++ t) /\ installed items h' ps x.1) h.
Proof.
  intros Hps Hh. unfold applyOne.
  assert (Hsame : curlsWanted items all h /\ (exists t, h = h ++ t) /\ installed items h ps ps).
  { split; [done|]. split; [exists []; by rewrite app_nil_r | by left]. }
  destruct (_ !! _) as [plugin|] eqn:Hp; [|exact Hsame].
  destruct (String.eqb_spec (spResolvedVersion ps) "") as [|Hr]; [exact Hsame|].
  destruct (String.eqb_spec (spCurrentVersion ps) (spResolvedVersion ps)) as [|Hc]; [exact Hsame|].
  destruct (downloadOf plugin (spResolvedVersion ps)) as [url hash] eqn:Hd.
  destruct (url =? "")%string; [exact Hsame|].
  destruct (ValidateDownloadURL url) as [u|e] eqn:Hv; [|exact Hsame].
  assert (Hw : wanted items ps url) by (exists plugin, hash; by rewrite Hv).
  apply wp_bind. eapply wp_mono; [|by eapply (wp_download items all server ps url hash h)].
  intros h' [v|e] (Hcw & Hex & Ho); cbn [wp].
  - split; [done|]. split; [done|]. right. split; [done|].
    destruct (Ho eq_refl) as (ev & Hin & Hev). by exists url, ev.
  - split; [done|]. split; [done|]. by left.
Qed.

(** C33: the download loop.  Whatever the pod answers, every download that is
    started is of the URL listed for the resolved version of a plugin in the
    server's status that is not installed yet, and that URL has passed
    [ValidateDownloadURL]; a plugin's status changes only in the name of its JAR,
    and only after its own download succeeded; nothing else of the server
    changes. *)
Theorem applyPluginUpdates_correct server tr server' r items :
  runs (applyPluginUpdates server) (Ev (E := K8s) (RListPlugins (srvNamespace server)) (Ok items) :: tr) (server', r) ->
  curlsWanted items (stPlugins (srvStatus server)) tr /\
  Forall2 (installed items tr) (stPlugins (srvStatus server)) (stPlugins (srvStatus server')) /\
  server' = updStatus (fun st => st <| stPlugins := stPlugins (srvStatus server') |>) server.
Proof.
  unfold applyPluginUpdates, ask. cbn [bind call runs]. intros (l & t & Heq & H).
  assert (l = Ok items /\ t = tr) as [-> ->].
  { split; [|by injection Heq]. apply (f_equal (fun t => head t ≫= fun e : event (E := K8s) => match e with
      | existT (RListPlugins _) y => Some y | _ => None end)) in Heq. cbn in Heq. congruence. }
  apply runs_bind in H as (t1 & [sts errs] & t2 & -> & H1 & H2).
  set (all := stPlugins (srvStatus server)).
  assert (Hinv : curlsWanted items all t1 /\ Forall2 (installed items t1) all sts).
  { assert (Hw : wp (foldP (applyStep server (pluginByName items)) ([], []) all) (fun h x =>
              curlsWanted items all h /\ exists done_, all = done_ ++ [] /\ Forall2 (installed items h) done_ x.1) []).
    { apply (wp_foldP _ (fun rest (x : list ServerPluginStatus * list error) h => curlsWanted items all h /\
        exists done_, all = done_ ++ rest /\ Forall2 (installed items h) done_ x.1)).
      - intros ps rest [acc es] h (Hc & done_ & Hall & Hf). unfold applyStep. apply wp_bind.
        eapply wp_mono; [|apply (wp_applyOne items all); [rewrite Hall; set_solver | exact Hc]].
        intros h' [ps' e] (Hc' & (t & ->) & Hi). cbn [wp fst]. split; [done|]. exists (done_ ++ [ps]).
        split; [by rewrite <- app_assoc|]. apply Forall2_app; [|by constructor].
        eapply Forall2_impl; [exact Hf|]. intros. by apply installed_mono.
      - split; [by intros e cmd ok Hin%not_elem_of_nil|]. exists []. split; [done | constructor]. }
    destruct (proj1 (wp_runs _ _ []) Hw _ _ H1) as (Hc & done_ & Hall & Hf). rewrite app_nil_r in Hall.
    split; [done|]. by rewrite Hall. }
  assert (Hend : t2 = [] /\ server' = updStatus (fun st => st <| stPlugins := sts |>) server).
  { destruct errs; by destruct H2 as [-> [= -> _]]. }
  destruct Hend as [-> ->]. rewrite app_nil_r. destruct Hinv as [Hc Hf]. split; [done|]. split; [exact Hf | done].
Qed.
End loop.

(** ** Evaluated examples *)

Section witnesses.
Existing Instance ListConditions.conditions.
Existing Instance InsertionSort.goSort.
Existing Instance Daily.cron.
Existing Instance SplitURLs.simpleURLs.

Definition chatPlugin : Plugin :=
  zeroPlugin
    <| plgMeta := zeroObjectMeta <| Name := "chat" |> <| Namespace := "ns" |> |>
    <| plgStatus := zeroPluginStatus <| pgAvailableVersions :=
         [MkPluginVersionInfo "2.0" [] "https://hangar.papermc.io/chat.jar" "ABC" 0 0] |> |>.

(** A server that runs 1.21.1, is to run 1.21.4 with a new plugin version, and
    wants a backup before. *)
Definition outdated : PaperMCServer :=
  zeroPaperMCServer
    <| srvMeta := zeroObjectMeta <| Name := "srv" |> <| Namespace := "ns" |> |>
    <| srvSpec := zeroPaperMCServerSpec
         <| ssRCON := MkRCONConfig true (MkSecretKeyRef "rcon" "password") 0 |>
         <| ssBackup := Some (MkBackupSpec true "" None "" (MkBackupRetention 3)) |> |>
    <| srvStatus := zeroPaperMCServerStatus
         <| stCurrentVersion := "1.21.1" |> <| stCurrentBuild := 50 |>
         <| stDesiredVersion := "1.21.4" |> <| stDesiredBuild := 10 |>
         <| stAvailableUpdate := Some (MkAvailableUpdate "1.21.4" 10 0 [] 0) |>
         <| stPlugins := [MkServerPluginStatus (MkPluginRef "chat" "ns") "2.0" "1.0" "2.0" true "hangar" false ""] |> |>.

Definition paperSts : StatefulSet :=
  zeroStatefulSet <| stsTemplate := zeroPodTemplateSpec <| ptContainers := [zeroContainer <| ctName := "papermc" |> <| ctImage := "docker.io/lexfrei/papermc:1.21.1-50" |>] |> |> <| stsReplicas := 1 |> <| stsStatusReplicas := 1 |> <| stsReadyReplicas := 1 |>.

(** A cluster in which everything works for the server [s]; [sum] is what
    sha256sum prints, [conflicts] makes every status update conflict. *)
Definition world (s : PaperMCServer) (sum : string) (conflicts : bool) (h : list event) (r : kreq) : kans r :=
  match r return kans r with
  | RNow => Unix 1700000000
  | RGetServer _ => Ok s
  | RGetPod _ => Ok (MkPod "10.0.0.1" [("Ready", "True")])
  | RGetSecret _ => Ok {[ "password" := "pw" ]}
  | RDial _ _ => Ok 7
  | RGetSts _ => Ok paperSts
  | RListPlugins _ => Ok [chatPlugin]
  | RTick => false
  | RExec _ _ _ cmd => match cmd with "sha256sum" :: _ => Ok sum | _ => Ok "" end
  | RStatusServer s => if conflicts then Err (ErrApi Conflict "modified") else Ok s
  | r => idle r
  end.

Definition goodSum : string := "abc  /data/plugins/update/chat.jar
".

Definition isImage (e : event (E := K8s)) : bool := match reqOf e with RUpdateSts _ => true | _ => false end.

Definition fullRun := exec (world outdated goodSum false) (Reconcile true 120 ∅ ("ns", "srv")) [].

Lemma fullRun_runs : runs (Reconcile true 120 ∅ ("ns", "srv")) fullRun.1 fullRun.2.
Proof. unfold fullRun. apply exec_runs. Qed.

Lemma fullRun_image : exists a e b, fullRun.1 = a ++ e :: b /\ isImage e = true.
Proof. apply existsb_split. vm_compute. reflexivity. Qed.

(** The whole update: it changes the image, and the gates were open. *)
Lemma Reconcile_gated_witness :
  fullRun.2.2 = Returned (Ok 0) /\
  exists a e b, fullRun.1 = a ++ e :: b /\ isImage e = true /\
  exists server, (exists t, a = Ev (E := K8s) (RGetServer ("ns", "srv")) (Ok server) :: t) /\
    updatePending server = true /\ gateOpen server a.
Proof.
  split; [vm_compute; reflexivity|]. destruct fullRun_image as (a & e & b & Heq & He).
  exists a, e, b. split; [exact Heq|]. split; [exact He|].
  apply (Reconcile_gated true 120 _ _ _ _ _ _ _ fullRun_runs Heq).
  unfold isImage in He. unfold actsOnServer. by destruct (reqOf e).
Defined.

(** The same run: a snapshot precedes the first command in the pod. *)
Lemma Reconcile_backs_up_first_witness :
  exists a e b, fullRun.1 = Ev (E := K8s) (RGetServer ("ns", "srv")) (Ok outdated) :: a ++ e :: b /\
    isImage e = true /\ snapshotTaken a.
Proof.
  assert (H : fullRun.1 = Ev (E := K8s) (RGetServer ("ns", "srv")) (Ok outdated) :: tail fullRun.1).
  { vm_compute. reflexivity. }
  assert (Hi : existsb isImage (tail fullRun.1) = true) by (vm_compute; reflexivity).
  apply existsb_split in Hi as (a & e & b & Heq & He). rewrite Heq in H. exists a, e, b.
  split; [exact H|]. split; [exact He|].
  apply (Reconcile_backs_up_first true 120 _ _ _ _ outdated a e b fullRun_runs H); [|by vm_compute].
  unfold isImage in He. by destruct (reqOf e).
Defined.

Lemma updateStatusWithRetry_witness :
  let p := updateStatusWithRetry outdated in let run := exec (world outdated goodSum true) p [] in
  length (statusWrites run.1) = 3%nat /\ isOk run.2.2 = false /\
  exists ws, statusWrites run.1 = outdated :: ws /\ (length ws <= 2)%nat.
Proof.
  cbv zeta. set (p := updateStatusWithRetry outdated).
  assert (Hr : runs p (exec (world outdated goodSum true) p []).1
    ((exec (world outdated goodSum true) p []).2.1, (exec (world outdated goodSum true) p []).2.2)).
  { rewrite <- surjective_pairing. apply exec_runs. }
  split; [vm_compute; reflexivity|]. split; [vm_compute; reflexivity|].
  destruct (updateStatusWithRetry_correct outdated _ _ _ Hr) as (ws & Hw & Hl & _). by exists ws.
Defined.

(** A wrong checksum: the download fails and the file is removed. *)
Lemma downloadPluginToServer_verified_witness :
  let p := downloadPluginToServer outdated "chat" "https://hangar.papermc.io/chat.jar" "ABC" in
  isOk (exec (world outdated goodSum false) p []).2 = true /\
  isOk (exec (world outdated "def  x" false) p []).2 = false /\
  exists a out, (exec (world outdated goodSum false) p []).1 =
    a ++ [checksumRead outdated (jarPath "chat") out] /\ hashOf out = "abc".
Proof.
  cbv zeta. set (p := downloadPluginToServer outdated "chat" "https://hangar.papermc.io/chat.jar" "ABC").
  assert (Hr : runs p (exec (world outdated goodSum false) p []).1 (exec (world outdated goodSum false) p []).2)
    by apply exec_runs.
  assert (Hok : isOk (exec (world outdated goodSum false) p []).2 = true) by (vm_compute; reflexivity).
  split; [exact Hok|]. split; [vm_compute; reflexivity|].
  destruct (downloadPluginToServer_verified outdated "chat" _ "ABC" _ _ Hr ltac:(done)) as [H _].
  exact (H Hok).
Defined.

Definition combinedRun := exec (world outdated goodSum false) (performCombinedUpdate true 120 outdated) [].

Lemma combinedRun_runs :
  runs (performCombinedUpdate true 120 outdated) combinedRun.1 (combinedRun.2.1, combinedRun.2.2).
Proof. rewrite <- surjective_pairing. unfold combinedRun. apply exec_runs. Qed.

Lemma performCombinedUpdate_order_witness :
  isOk combinedRun.2.2 = true /\
  exists a b pod, combinedRun.1 = a ++ Ev (E := K8s) (RDeletePod ("ns", "srv-0")) (Ok tt) :: b /\
    Ev (E := K8s) (RGetPod ("ns", "srv-0")) (Ok pod) ∈ b /\ podReady pod = true.
Proof.
  assert (Hok : combinedRun.2.2 = Ok tt) by (vm_compute; reflexivity). rewrite Hok. split; [done|].
  destruct (performCombinedUpdate_order true 120 outdated _ _ _ combinedRun_runs) as (_ & _ & _ & H).
  exact (H Hok).
Defined.

(** The window was disabled while the condition still says that the cron is invalid. *)
Definition stale : PaperMCServer :=
  updStatus (fun st => st <| stConditions :=
    [MkCondition conditionTypeCronScheduleValid ConditionFalse "InvalidCronExpression" "bad" 0 0] |>) outdated.

Lemma Reconcile_stale_cron_blocks_witness :
  let run := exec (world stale goodSum false) (Reconcile true 120 ∅ ("ns", "srv")) [] in
  updatePending stale = true /\ calm (tail run.1) /\ statusWrites (tail run.1) = [stale].
Proof.
  cbv zeta. set (p := Reconcile true 120 ∅ ("ns", "srv")). split; [vm_compute; reflexivity|].
  assert (Hr : runs p (exec (world stale goodSum false) p []).1 (exec (world stale goodSum false) p []).2)
    by apply exec_runs.
  assert (H : (exec (world stale goodSum false) p []).1 =
    Ev (E := K8s) (RGetServer ("ns", "srv")) (Ok stale) :: tail (exec (world stale goodSum false) p []).1).
  { vm_compute. reflexivity. }
  rewrite H in Hr. apply (Reconcile_stale_cron_blocks true 120 _ _ stale _ _ Hr); vm_compute; reflexivity.
Defined.

Lemma applyPluginUpdates_correct_witness :
  let run := exec (world outdated goodSum false) (applyPluginUpdates outdated) [] in
  map spInstalledJARName (stPlugins (srvStatus run.2.1)) = ["chat.jar"] /\
  curlsWanted [chatPlugin] (stPlugins (srvStatus outdated)) (tail run.1) /\
  run.2.1 = updStatus (fun st => st <| stPlugins := stPlugins (srvStatus run.2.1) |>) outdated.
Proof.
  cbv zeta. set (p := applyPluginUpdates outdated).
  assert (Hr : runs p (exec (world outdated goodSum false) p []).1
    ((exec (world outdated goodSum false) p []).2.1, (exec (world outdated goodSum false) p []).2.2)).
  { rewrite <- surjective_pairing. apply exec_runs. }
  assert (H : (exec (world outdated goodSum false) p []).1 =
    Ev (E := K8s) (RListPlugins "ns") (Ok [chatPlugin]) :: tail (exec (world outdated goodSum false) p []).1).
  { vm_compute. reflexivity. }
  split; [vm_compute; reflexivity|]. rewrite H in Hr.
  destruct (applyPluginUpdates_correct outdated _ _ _ [chatPlugin] Hr) as (H1 & _ & H3). by split.
Defined.
End witnesses.
