(* ===== verification/StatusEq.v ===== *)
(** * Status comparison

    The controllers write a status only if it differs from the one they read.
    The comparisons of internal/controller/papermcserver_controller.go and
    plugin_controller.go look lists up by a key, independent of the order. *)

From S2P Require Import Prelude GoBase Api.

Open Scope Z_scope.

(** ** Lists compared by key *)

Section keyed.
Context {A : Type} (keyOf : A -> string) (same : A -> A -> bool).

(** The map that the first loop builds; later entries win. *)
Definition keyedMap (a : list A) : gmap string A := foldl (fun m x => <[keyOf x := x]> m) ∅ a.

(** The two loops: same length, and every entry of [b] has one in [a]. *)
Definition keyedEqual (a b : list A) : bool :=
  (length a =? length b)%nat &&
  forallb (fun y => match keyedMap a !! keyOf y with None => false | Some x => same x y end) b.

Definition agree (x y : A) : Prop := keyOf x = keyOf y /\ same x y = true.

Lemma keyedMap_foldl a (m : gmap string A) k x :
  foldl (fun m x => <[keyOf x := x]> m) m a !! k = Some x ->
  (x ∈ a /\ keyOf x = k) \/ m !! k = Some x.
Proof.
  revert m. induction a as [|y a IH]; cbn; intros m H; [by right|].
  apply IH in H as [[Hin Hk]|H]; [left; set_solver|].
  apply lookup_insert_Some in H as [[Hk ->]|[_ H]]; [left; set_solver | by right].
Qed.

Lemma keyedMap_some a k x : keyedMap a !! k = Some x -> x ∈ a /\ keyOf x = k.
Proof. intros [?|H]%keyedMap_foldl; [done|]. by rewrite lookup_empty in H. Qed.

Lemma keyedMap_unique a x : NoDup (map keyOf a) -> x ∈ a -> keyedMap a !! keyOf x = Some x.
Proof.
  unfold keyedMap. generalize (∅ : gmap string A). induction a as [|y a IH]; intros m Hn Hx.
  { by apply not_elem_of_nil in Hx. }
  cbn in Hn. apply NoDup_cons in Hn as [Hy Hn]. cbn. apply elem_of_cons in Hx as [->|Hx]; [|by apply IH].
  assert (Hk : forall l (m : gmap string A), keyOf y ∉ map keyOf l ->
            foldl (fun m x => <[keyOf x := x]> m) (<[keyOf y := y]> m) l !! keyOf y = Some y).
  { clear. induction l as [|z l IHl] using rev_ind; intros m Hl; cbn.
    - by rewrite lookup_insert_eq.
    - rewrite map_app in Hl. rewrite foldl_app. cbn. rewrite lookup_insert_ne.
      + apply IHl. intros Hin. apply Hl. apply elem_of_app. by left.
      + intros He. apply Hl. apply elem_of_app. right. cbn. rewrite He. by apply list_elem_of_singleton. }
  by apply Hk.
Qed.

(** With distinct keys on one side, the comparison is equality up to order. *)
Lemma keyedEqual_spec a b : NoDup (map keyOf b) ->
  keyedEqual a b = true <-> exists a', a ≡ₚ a' /\ Forall2 agree a' b.
Proof.
  intros Hb. unfold keyedEqual. rewrite andb_true_iff, Nat.eqb_eq, forallb_elem. split.
  - intros [Hlen Hall].
    assert (Hex : exists a', Forall2 agree a' b /\ forall x, x ∈ a' -> x ∈ a).
    { clear Hlen Hb. induction b as [|y b IH]; [exists []; split; [constructor | by intros ? ?%not_elem_of_nil]|].
      destruct IH as (a' & Hf & Hin); [intros; apply Hall; set_solver|].
      specialize (Hall y ltac:(set_solver)). destruct (keyedMap a !! keyOf y) as [x|] eqn:Hx; [|done].
      apply keyedMap_some in Hx as [Hxa Hk]. exists (x :: a'). split; [by constructor|]. set_solver. }
    destruct Hex as (a' & Hf & Hin). exists a'. split; [|done].
    assert (Hk : map keyOf a' = map keyOf b).
    { clear -Hf. induction Hf as [|x y a b [Hk _] _ IH]; [done|]. cbn. by rewrite Hk, IH. }
    symmetry. apply submseteq_length_Permutation.
    + apply NoDup_submseteq; [|done]. apply (NoDup_fmap_1 keyOf). change (keyOf <$> a') with (map keyOf a').
      by rewrite Hk.
    + rewrite Hlen. by rewrite (Forall2_length _ _ _ Hf).
  - intros (a' & Hp & Hf). split; [by rewrite Hp, (Forall2_length _ _ _ Hf)|].
    assert (Hk : map keyOf a' = map keyOf b).
    { clear -Hf. induction Hf as [|x y a b [Hk _] _ IH]; [done|]. cbn. by rewrite Hk, IH. }
    assert (Hn : NoDup (map keyOf a)).
    { rewrite <- Hk in Hb. change (map keyOf a) with (keyOf <$> a). change (map keyOf a') with (keyOf <$> a') in Hb.
      by rewrite Hp. }
    intros y Hy. apply list_elem_of_lookup in Hy as [i Hi].
    destruct (Forall2_lookup_r _ _ _ _ _ Hf Hi) as (x & Hx & Hkey & Hs).
    apply list_elem_of_lookup_2 in Hx. rewrite <- Hp in Hx.
    rewrite <- Hkey, (keyedMap_unique a x Hn Hx). done.
Qed.
End keyed.

(** ** Conditions and plugin statuses *)

Definition conditionSame (p c : Condition) : bool :=
  (cdStatus p =? cdStatus c)%string && (cdReason p =? cdReason c)%string && (cdMessage p =? cdMessage c)%string.

Definition conditionsEqual (a b : list Condition) : bool := keyedEqual cdType conditionSame a b.

Definition pluginKey (p : ServerPluginStatus) : string :=
  prNamespace (spPluginRef p) +:+ "/" +:+ prName (spPluginRef p).

Definition pluginSame (prev p : ServerPluginStatus) : bool :=
  (spResolvedVersion prev =? spResolvedVersion p)%string && eqb (spCompatible prev) (spCompatible p) &&
  (spCurrentVersion prev =? spCurrentVersion p)%string && (spDesiredVersion prev =? spDesiredVersion p)%string &&
  (spSource prev =? spSource p)%string && eqb (spPendingDeletion prev) (spPendingDeletion p) &&
  (spInstalledJARName prev =? spInstalledJARName p)%string.

Definition pluginStatusSliceEqual (a b : list ServerPluginStatus) : bool := keyedEqual pluginKey pluginSame a b.

(** ** Optional parts *)

(** Both nil, or both set and equal under [eq]. *)
Definition ptrEqual {A} (eq : A -> A -> bool) (a b : option A) : bool :=
  match a, b with
  | None, None => true
  | Some x, Some y => eq x y
  | _, _ => false
  end.

Fixpoint pairsEqual (a b : list PluginVersionPair) : bool :=
  match a, b with
  | [], [] => true
  | x :: a, y :: b =>
      bool_decide (pvPluginRef x = pvPluginRef y) && (pvVersion x =? pvVersion y)%string && pairsEqual a b
  | _, _ => false
  end.

Definition availableUpdateEqual : option AvailableUpdate -> option AvailableUpdate -> bool :=
  ptrEqual (fun a b => (auVersion a =? auVersion b)%string && (auBuild a =? auBuild b) &&
                       pairsEqual (auPlugins a) (auPlugins b)).

Definition updateHistoryEqual : option UpdateHistory -> option UpdateHistory -> bool :=
  ptrEqual (fun a b => eqb (uhSuccessful a) (uhSuccessful b) &&
                       (uhPreviousVersion a =? uhPreviousVersion b)%string &&
                       TimeEqual (uhAppliedAt a) (uhAppliedAt b)).

Definition recordEqual (a b : BackupRecord) : bool :=
  (bcSnapshotName a =? bcSnapshotName b)%string && eqb (bcSuccessful a) (bcSuccessful b) &&
  (bcTrigger a =? bcTrigger b)%string && TimeEqual (bcStartedAt a) (bcStartedAt b) &&
  ptrEqual TimeEqual (bcCompletedAt a) (bcCompletedAt b).

Definition backupStatusEqual : option BackupStatus -> option BackupStatus -> bool :=
  ptrEqual (fun a b => (bkBackupCount a =? bkBackupCount b) &&
                       ptrEqual recordEqual (bkLastBackup a) (bkLastBackup b)).

Definition updateBlockedEqual : option UpdateBlockedStatus -> option UpdateBlockedStatus -> bool :=
  ptrEqual (fun a b => eqb (ubBlocked a) (ubBlocked b) && (ubReason a =? ubReason b)%string &&
    ptrEqual (fun x y => (bbPlugin x =? bbPlugin y)%string && (bbVersion x =? bbVersion y)%string)
      (ubBlockedBy a) (ubBlockedBy b)).

Definition serverStatusEqual (a b : PaperMCServerStatus) : bool :=
  (stCurrentVersion a =? stCurrentVersion b)%string && (stCurrentBuild a =? stCurrentBuild b) &&
  (stDesiredVersion a =? stDesiredVersion b)%string && (stDesiredBuild a =? stDesiredBuild b) &&
  updateBlockedEqual (stUpdateBlocked a) (stUpdateBlocked b) &&
  pluginStatusSliceEqual (stPlugins a) (stPlugins b) &&
  availableUpdateEqual (stAvailableUpdate a) (stAvailableUpdate b) &&
  updateHistoryEqual (stLastUpdate a) (stLastUpdate b) &&
  backupStatusEqual (stBackup a) (stBackup b) &&
  conditionsEqual (stConditions a) (stConditions b).

(** ** plugin_controller.go *)

Definition instanceKey (mi : MatchedInstance) : string := miNamespace mi +:+ "/" +:+ miName mi.

Definition instanceSame (prev mi : MatchedInstance) : bool :=
  eqb (miCompatible prev) (miCompatible mi) && (miVersion prev =? miVersion mi)%string.

Fixpoint minecraftVersionsEqual (a b : list string) : bool :=
  match a, b with
  | [], [] => true
  | x :: a, y :: b => (x =? y)%string && minecraftVersionsEqual a b
  | _, _ => false
  end.

Definition versionInfoEqual (a b : PluginVersionInfo) : bool :=
  (viVersion a =? viVersion b)%string && (viDownloadURL a =? viDownloadURL b)%string &&
  (viHash a =? viHash b)%string && TimeEqual (viCachedAt a) (viCachedAt b) &&
  TimeEqual (viReleasedAt a) (viReleasedAt b) &&
  minecraftVersionsEqual (viMinecraftVersions a) (viMinecraftVersions b).

Fixpoint versionsEqual (a b : list PluginVersionInfo) : bool :=
  match a, b with
  | [], [] => true
  | x :: a, y :: b => versionInfoEqual x y && versionsEqual a b
  | _, _ => false
  end.

Definition statusEqual (a b : PluginStatus) : bool :=
  (pgRepositoryStatus a =? pgRepositoryStatus b)%string &&
  ptrEqual TimeEqual (pgLastFetched a) (pgLastFetched b) &&
  keyedEqual instanceKey instanceSame (pgMatchedInstances a) (pgMatchedInstances b) &&
  versionsEqual (pgAvailableVersions a) (pgAvailableVersions b) &&
  conditionsEqual (pgConditions a) (pgConditions b).

(** ** Reading the boolean tests *)

Lemma ptrEqual_spec {A} (eq : A -> A -> bool) (R : A -> A -> Prop) a b :
  (forall x y, eq x y = true <-> R x y) -> ptrEqual eq a b = true <-> option_Forall2 R a b.
Proof.
  intros H. destruct a as [x|], b as [y|]; cbn; rewrite ?H; split; intros Hx;
    try (by inversion Hx); by constructor.
Qed.

Lemma TimeEqual_spec t u : TimeEqual t u = true <-> t = u.
Proof. apply Z.eqb_eq. Qed.

Lemma pairsEqual_spec a b : pairsEqual a b = true <-> a = b.
Proof.
  revert b. induction a as [|[r v] a IH]; intros [|[r' v'] b]; cbn; try done.
  rewrite !andb_true_iff, bool_decide_eq_true, String.eqb_eq, IH. split; [by intros [[-> ->] ->] | by intros [= -> -> ->]].
Qed.

Lemma minecraftVersionsEqual_spec a b : minecraftVersionsEqual a b = true <-> a = b.
Proof.
  revert b. induction a as [|x a IH]; intros [|y b]; cbn; try done.
  rewrite andb_true_iff, String.eqb_eq, IH. split; [by intros [-> ->] | by intros [= -> ->]].
Qed.

Lemma option_eq_Forall2 {A} (a b : option A) : option_Forall2 eq a b <-> a = b.
Proof. split; [by intros [? ? ->|] | intros ->; destruct b; by constructor]. Qed.

Lemma recordEqual_spec a b : recordEqual a b = true <-> a = b.
Proof.
  destruct a, b. unfold recordEqual. cbn.
  rewrite !andb_true_iff, !String.eqb_eq, eqb_true_iff, TimeEqual_spec,
    (ptrEqual_spec _ eq), option_eq_Forall2 by apply TimeEqual_spec.
  split; [by intros ((((-> & ->) & ->) & ->) & ->) | by intros [= -> -> -> -> ->]].
Qed.

Lemma historyEqual_spec a b : updateHistoryEqual a b = true <-> a = b.
Proof.
  unfold updateHistoryEqual. rewrite (ptrEqual_spec _ eq), option_eq_Forall2; [done|].
  intros [] []. cbn. rewrite !andb_true_iff, String.eqb_eq, eqb_true_iff, TimeEqual_spec.
  split; [by intros [[-> ->] ->] | by intros [= -> -> ->]].
Qed.

Lemma backupStatusEqual_spec a b : backupStatusEqual a b = true <-> a = b.
Proof.
  unfold backupStatusEqual. rewrite (ptrEqual_spec _ eq), option_eq_Forall2; [done|].
  intros [] []. cbn. rewrite andb_true_iff, Z.eqb_eq, (ptrEqual_spec _ eq), option_eq_Forall2 by apply recordEqual_spec.
  split; [by intros [-> ->] | by intros [= -> ->]].
Qed.

(** What the comparison of pending updates looks at: not the times. *)
Definition sameUpdate (a b : AvailableUpdate) : Prop :=
  auVersion a = auVersion b /\ auBuild a = auBuild b /\ auPlugins a = auPlugins b.

Lemma availableUpdateEqual_spec a b : availableUpdateEqual a b = true <-> option_Forall2 sameUpdate a b.
Proof.
  apply ptrEqual_spec. intros x y. unfold sameUpdate.
  rewrite !andb_true_iff, String.eqb_eq, Z.eqb_eq, pairsEqual_spec. tauto.
Qed.

(** ... and of the blocked flag: not the supported versions. *)
Definition sameBlocked (a b : UpdateBlockedStatus) : Prop :=
  ubBlocked a = ubBlocked b /\ ubReason a = ubReason b /\
  option_Forall2 (fun x y => bbPlugin x = bbPlugin y /\ bbVersion x = bbVersion y) (ubBlockedBy a) (ubBlockedBy b).

Lemma updateBlockedEqual_spec a b : updateBlockedEqual a b = true <-> option_Forall2 sameBlocked a b.
Proof.
  apply ptrEqual_spec. intros x y. unfold sameBlocked. rewrite !andb_true_iff, String.eqb_eq, eqb_true_iff.
  rewrite (ptrEqual_spec _ (fun x y => bbPlugin x = bbPlugin y /\ bbVersion x = bbVersion y)); [tauto|].
  intros. by rewrite andb_true_iff, !String.eqb_eq.
Qed.

(** Conditions agree up to transition time and generation. *)
Definition sameCond (x y : Condition) : Prop :=
  cdType x = cdType y /\ cdStatus x = cdStatus y /\ cdReason x = cdReason y /\ cdMessage x = cdMessage y.

Lemma agree_condition x y : agree cdType conditionSame x y <-> sameCond x y.
Proof. unfold agree, conditionSame, sameCond. rewrite !andb_true_iff, !String.eqb_eq. tauto. Qed.

(** ** Property *)

(** C30: when a server's status is written.  For statuses with one condition per
    type and one entry per plugin, [serverStatusEqual] answers true exactly when
    versions, builds, update record and backup are equal, plugins and conditions
    are equal up to order (conditions up to time and generation), and the pending
    update and the blocked flag agree up to their times and supported versions.
    In particular a change of releasedAt alone is never written. *)
Theorem serverStatusEqual_correct a b :
  NoDup (map pluginKey (stPlugins b)) -> NoDup (map cdType (stConditions b)) ->
  serverStatusEqual a b = true <->
  stCurrentVersion a = stCurrentVersion b /\ stCurrentBuild a = stCurrentBuild b /\
  stDesiredVersion a = stDesiredVersion b /\ stDesiredBuild a = stDesiredBuild b /\
  option_Forall2 sameBlocked (stUpdateBlocked a) (stUpdateBlocked b) /\
  (exists ps, stPlugins a ≡ₚ ps /\ Forall2 (agree pluginKey pluginSame) ps (stPlugins b)) /\
  option_Forall2 sameUpdate (stAvailableUpdate a) (stAvailableUpdate b) /\
  stLastUpdate a = stLastUpdate b /\ stBackup a = stBackup b /\
  (exists cs, stConditions a ≡ₚ cs /\ Forall2 sameCond cs (stConditions b)).
Proof.
  intros Hp Hc. unfold serverStatusEqual, pluginStatusSliceEqual, conditionsEqual.
  rewrite !andb_true_iff, !String.eqb_eq, !Z.eqb_eq, updateBlockedEqual_spec, availableUpdateEqual_spec,
    historyEqual_spec, backupStatusEqual_spec, (keyedEqual_spec pluginKey) by done.
  rewrite (keyedEqual_spec cdType) by done.
  assert (Hcs : forall cs, Forall2 (agree cdType conditionSame) cs (stConditions b) <->
            Forall2 sameCond cs (stConditions b)).
  { intros cs. split; intros H; (eapply Forall2_impl; [exact H|]); intros; by apply agree_condition. }
  setoid_rewrite Hcs. tauto.
Qed.

(** Two statuses that differ in the order of the conditions and in releasedAt. *)
Definition condA : Condition := MkCondition "A" "True" "R" "m" 1 1.
Definition condB : Condition := MkCondition "B" "False" "R" "m" 2 1.
Definition withUpdate (cs : list Condition) (t : Time) : PaperMCServerStatus :=
  zeroPaperMCServerStatus <| stConditions := cs |>
    <| stAvailableUpdate := Some (MkAvailableUpdate "1.21.4" 10 t [] 0) |>.

Lemma serverStatusEqual_correct_witness :
  serverStatusEqual (withUpdate [condA; condB] 5) (withUpdate [condB; condA] 9) = true /\
  exists cs, [condA; condB] ≡ₚ cs /\ Forall2 sameCond cs [condB; condA].
Proof.
  assert (H : serverStatusEqual (withUpdate [condA; condB] 5) (withUpdate [condB; condA] 9) = true) by by vm_compute.
  split; [exact H|].
  apply serverStatusEqual_correct in H as (_ & _ & _ & _ & _ & _ & _ & _ & _ & Hc); [exact Hc | constructor |].
  apply (bool_decide_unpack (NoDup (map cdType [condB; condA]))). by vm_compute.
Defined.
