(* ===== verification/Jar.v ===== *)
(** * Plugin archives (pkg/plugins/url.go)

    Downloading a JAR and reading the metadata in it.  ZIP archives and
    YAML are an interface: [zipOpen] lists the entries of an archive with what
    opening and reading each gives. *)

From S2P Require Import Prelude GoBase Api Plugins Effects K8s.

Open Scope Z_scope.

Definition MaxJARSize : Z := 100 * 1024 * 1024.
Definition maxPluginYMLSize : Z := 10 * 1024 * 1024.

Record JARMetadata := MkJARMetadata { jmName : string; jmVersion : string; jmAPIVersion : string }.

Record ZipFile := MkZipFile { zfName : string; zfOpen : result (result string) }.

Class JarLib := {
  zipOpen : string -> result (list ZipFile);
  yamlUnmarshal : string -> result JARMetadata
}.

(** The body is read up to one byte past the limit, which is enough to see that it
    is too long. *)
Definition DownloadJAR (jarURL : string) : prog (result string) :=
  x <- ask (RDownload jarURL) ;;
  match x with
  | Err e => Ret (Err (ErrWrap e "failed to download JAR"))
  | Ok resp =>
      if negb (htStatusCode resp =? 200) then
        Ret (Err (ErrNew ("HTTP " +:+ pretty (htStatusCode resp) +:+ " downloading JAR from " +:+ jarURL)))
      else if MaxJARSize <? htContentLength resp then
        Ret (Err (ErrNew ("JAR exceeds maximum size of " +:+ pretty MaxJARSize +:+ " bytes (Content-Length: " +:+
                          pretty (htContentLength resp) +:+ ")")))
      else
        match htBody resp with
        | Err e => Ret (Err (ErrWrap e "failed to read JAR body"))
        | Ok body =>
            if MaxJARSize <? Z.of_nat (String.length body)
            then Ret (Err (ErrNew ("JAR exceeds maximum size of " +:+ pretty MaxJARSize +:+ " bytes")))
            else Ret (Ok body)
        end
  end.

Section jar.
Context {JL : JarLib}.

(** The last entry of each of the two names. *)
Definition findEntries (files : list ZipFile) : option ZipFile * option ZipFile :=
  foldl (fun acc f =>
    if (zfName f =? "plugin.yml")%string then (Some f, acc.2)
    else if (zfName f =? "paper-plugin.yml")%string then (acc.1, Some f)
    else acc) (None, None) files.

Definition extractPluginYML (files : list ZipFile) : result JARMetadata :=
  let '(pluginFile, paperPluginFile) := findEntries files in
  match (match paperPluginFile with Some f => Some f | None => pluginFile end) with
  | None => Err (ErrNew "JAR contains neither plugin.yml nor paper-plugin.yml")
  | Some target =>
      match zfOpen target with
      | Err e => Err (ErrWrap e ("failed to open " +:+ zfName target +:+ " in JAR"))
      | Ok rc =>
          match rc with
          | Err e => Err (ErrWrap e ("failed to read " +:+ zfName target +:+ " from JAR"))
          | Ok data =>
              if maxPluginYMLSize <? Z.of_nat (String.length data)
              then Err (ErrNew (zfName target +:+ " exceeds maximum size of " +:+ pretty maxPluginYMLSize +:+ " bytes"))
              else wrap ("failed to parse " +:+ zfName target) (yamlUnmarshal data)
          end
      end
  end.

Definition ParseJARMetadata (jarBytes : string) : result JARMetadata :=
  match zipOpen jarBytes with
  | Err e => Err (ErrWrap e "failed to open JAR as ZIP archive")
  | Ok files => extractPluginYML files
  end.
End jar.

(** ** A concrete instance *)

(** An archive is its plugin.yml, which is the version. *)
Module PlainJar.
#[global] Instance lib : JarLib := {|
  zipOpen data := Ok [MkZipFile "plugin.yml" (Ok (Ok data))];
  yamlUnmarshal data := Ok (MkJARMetadata "" data "")
|}.
End PlainJar.
