(* ===== verification/PluginCtl.v ===== *)
(** * Plugin controller (internal/controller/plugin_controller.go)

    Metadata of a plugin from its repository or its JAR, the servers it matches,
    and the deletion protocol: a deleted plugin keeps its finalizer until its JAR
    is gone from every server.  A plugin that a handler mutates through its
    pointer is passed and returned. *)

From S2P Require Import Prelude GoBase GoLib Api Plugins Conditions Effects K8s Selector Url Jar StatusEq.

Open Scope Z_scope.

Definition PluginFinalizer : string := "mc.k8s.lex.la/plugin-cleanup".
Definition conditionTypeReady : string := "Ready".
Definition conditionTypeRepositoryAvailable : string := "RepositoryAvailable".
Definition conditionTypeVersionResolved : string := "VersionResolved".
Definition reasonUnavailable : string := "Unavailable".
Definition reasonResolved : string := "Resolved".
Definition reasonChecksumMismatch : string := "ChecksumMismatch".
Definition reasonFallbackVersion : string := "FallbackVersion".
Definition urlCacheTTL : Duration := Hour.
Definition deletionTimeout : Duration := 10 * Minute.

(** The finalizer helpers of controller-runtime on the finalizers of an object. *)
Class Finalizing := {
  ContainsFinalizer : list string -> string -> bool;
  AddFinalizer : list string -> string -> list string;
  RemoveFinalizer : list string -> string -> list string
}.

Section controller.
Context {MC : MetaConditions} {LS : LabelSelectors} {UR : URLs} {JL : JarLib} {DG : Digest} {FN : Finalizing}.

(** ** Conditions *)

Definition setCondition (plugin : Plugin) (conditionType status reason message : string) : prog Plugin :=
  now <- ask RNow ;;
  Ret (updPlgStatus (fun st => st <| pgConditions := SetStatusCondition now (pgConditions st)
         (MkCondition conditionType status reason message now (Generation (plgMeta plugin))) |>) plugin).

Definition hasCondition (plugin : Plugin) (conditionType reason : string) : bool :=
  existsb (fun c => (cdType c =? conditionType)%string && (cdReason c =? reason)%string)
    (pgConditions (plgStatus plugin)).

(** ** Conversions *)

Definition toVersionInfo (now : Time) (v : PluginVersion) : PluginVersionInfo :=
  MkPluginVersionInfo (pvVer v) (pvMinecraftVersions v) (pvDownloadURL v) (pvHash v) now
    (if IsZero (pvReleaseDate v) then now else pvReleaseDate v).

Definition convertToPluginVersionInfo (versions : list PluginVersion) : prog (list PluginVersionInfo) :=
  now <- ask RNow ;; Ret (map (toVersionInfo now) versions).

Definition convertCachedVersions (cached : list PluginVersionInfo) : list PluginVersion :=
  map (fun c => MkPluginVersion (viVersion c) (viReleasedAt c) [] (viMinecraftVersions c)
                  (viDownloadURL c) (viHash c)) cached.

(** Compatibility as the server's own status records it. *)
Definition matchedInstance (pluginName pluginNamespace : string) (server : PaperMCServer) : MatchedInstance :=
  let compatible :=
    match List.find (fun ps => (prName (spPluginRef ps) =? pluginName)%string &&
                               (prNamespace (spPluginRef ps) =? pluginNamespace)%string)
                    (stPlugins (srvStatus server)) with
    | Some ps => spCompatible ps
    | None => false
    end in
  MkMatchedInstance (srvName server) (srvNamespace server) (stCurrentVersion (srvStatus server)) compatible.

Definition buildMatchedInstances (servers : list PaperMCServer) (pluginName pluginNamespace : string)
  : list MatchedInstance := map (matchedInstance pluginName pluginNamespace) servers.

(** ** Metadata of URL plugins *)

(** [now] is read only where the code looks at the clock. *)
Definition urlCacheValid (plugin : Plugin) : prog bool :=
  match pgAvailableVersions (plgStatus plugin) with
  | [] => Ret false
  | cached :: _ =>
      let src := psSource (plgSpec plugin) in
      if negb (viDownloadURL cached =? soURL src)%string then Ret false
      else
        expired <- (if IsZero (viCachedAt cached) then Ret true
                    else now <- ask RNow ;; Ret (urlCacheTTL <? Sub now (viCachedAt cached))) ;;
        if (expired : bool) then Ret false
        else if negb (soChecksum src =? "")%string && negb (ToLower (viHash cached) =? ToLower (soChecksum src))%string
        then Ret false
        else Ret true
  end.

Definition resolveVersionWithFallback (plugin : Plugin) (jarVersion : string) : string :=
  if negb (jarVersion =? "")%string then jarVersion
  else if negb (psVersion (plgSpec plugin) =? "")%string then psVersion (plgSpec plugin)
  else "0.0.0".

Definition setFallbackVersionCondition (plugin : Plugin) (version : string) : prog Plugin :=
  if (version =? "0.0.0")%string
  then setCondition plugin conditionTypeVersionResolved ConditionFalse reasonFallbackVersion
         "Version could not be extracted from JAR or spec; using 0.0.0 placeholder"
  else setCondition plugin conditionTypeVersionResolved ConditionTrue reasonResolved
         "Version resolved from JAR metadata or spec".

Definition resolveURLVersion (plugin : Plugin) (jarBytes sha256Hex : string)
  : prog (Plugin * list PluginVersion) :=
  let url := soURL (psSource (plgSpec plugin)) in
  match ParseJARMetadata jarBytes with
  | Err _ =>
      let version := resolveVersionWithFallback plugin "" in
      plugin <- setFallbackVersionCondition plugin version ;;
      Ret (plugin, [MkPluginVersion version 0 [] [] url sha256Hex])
  | Ok jarMeta =>
      let version := resolveVersionWithFallback plugin (jmVersion jarMeta) in
      plugin <- setFallbackVersionCondition plugin version ;;
      let mcVersions := if negb (jmAPIVersion jarMeta =? "")%string then [jmAPIVersion jarMeta] else [] in
      Ret (plugin, [MkPluginVersion version 0 [] mcVersions url sha256Hex])
  end.

(** The release date of the cached version is kept if the content is the same. *)
Definition preserveReleaseDate (cachedVersions : list PluginVersionInfo) (versions : list PluginVersion)
  : list PluginVersion :=
  match cachedVersions, versions with
  | cached :: _, v :: vs =>
      if negb (viHash cached =? "")%string && (ToLower (viHash cached) =? ToLower (pvHash v))%string &&
         negb (IsZero (viReleasedAt cached))
      then MkPluginVersion (pvVer v) (viReleasedAt cached) (pvPaperVersions v) (pvMinecraftVersions v)
             (pvDownloadURL v) (pvHash v) :: vs
      else versions
  | _, _ => versions
  end.

(** Versions and whether they are the cached ones. *)
Definition fetchResult : Type := result (list PluginVersion * bool).

Definition fetchURLMetadata (plugin : Plugin) : prog (Plugin * fetchResult) :=
  let src := psSource (plgSpec plugin) in
  match ValidateDownloadURL (soURL src) with
  | Err e => Ret (plugin, Err (ErrMark (ErrWrap e "invalid URL") errInvalidURL))
  | Ok _ =>
      valid <- urlCacheValid plugin ;;
      if (valid : bool) then Ret (plugin, Ok (convertCachedVersions (pgAvailableVersions (plgStatus plugin)), true))
      else
        d <- DownloadJAR (soURL src) ;;
        match d with
        | Err e => Ret (plugin, Err (ErrWrap e "failed to download JAR"))
        | Ok jarBytes =>
            let sha256Hex := Sha256Hex jarBytes in
            let specChecksum := ToLower (soChecksum src) in
            if negb (soChecksum src =? "")%string && negb (sha256Hex =? specChecksum)%string then
              Ret (plugin, Err (ErrMark (ErrNew ("checksum mismatch: expected " +:+ specChecksum +:+ ", got " +:+ sha256Hex))
                                        errChecksumMismatch))
            else
              x <- resolveURLVersion plugin jarBytes sha256Hex ;;
              let '(plugin, versions) := x in
              Ret (plugin, Ok (preserveReleaseDate (pgAvailableVersions (plgStatus plugin)) versions, false))
        end
  end.

Definition fetchHangarMetadata (plugin : Plugin) : prog (result (list PluginVersion)) :=
  v <- ask (RPluginVersions (soProject (psSource (plgSpec plugin)))) ;;
  Ret (wrap "failed to fetch versions from repository" v).

Definition fetchPluginMetadata (plugin : Plugin) : prog (Plugin * fetchResult) :=
  let t := soType (psSource (plgSpec plugin)) in
  if (t =? "url")%string then fetchURLMetadata plugin
  else if (t =? "hangar")%string then
    v <- fetchHangarMetadata plugin ;;
    Ret (plugin, match v with Ok vs => Ok (vs, false) | Err e => Err e end)
  else Ret (plugin, Err (ErrMark (ErrNew ("source type " +:+ quoted t +:+ " is not yet implemented")) errUnsupportedSourceType)).

(** ** Synchronisation of the metadata *)

(** A permanent error: both conditions are set and nothing is requeued. *)
Definition permanentError (plugin : Plugin) (reason message resolved : string)
  : prog (Plugin * list PluginVersion * Duration) :=
  let plugin := updPlgStatus (fun st => st <| pgRepositoryStatus := "unavailable" |>) plugin in
  plugin <- setCondition plugin conditionTypeRepositoryAvailable ConditionFalse reason message ;;
  plugin <- setCondition plugin conditionTypeVersionResolved ConditionFalse reason resolved ;;
  Ret (plugin, [], 0).

Definition handleRepositoryError (plugin : Plugin) (repoErr : error)
  : prog (Plugin * list PluginVersion * Duration) :=
  match pgAvailableVersions (plgStatus plugin) with
  | [] =>
      let plugin := updPlgStatus (fun st => st <| pgRepositoryStatus := "unavailable" |>) plugin in
      plugin <- setCondition plugin conditionTypeRepositoryAvailable ConditionFalse reasonUnavailable (errString repoErr) ;;
      Ret (plugin, [], 5 * Minute)
  | cached =>
      let plugin := updPlgStatus (fun st => st <| pgRepositoryStatus := "orphaned" |>) plugin in
      plugin <- setCondition plugin conditionTypeRepositoryAvailable ConditionFalse reasonUnavailable
                  "Repository unavailable, using cached data" ;;
      Ret (plugin, convertCachedVersions cached, 0)
  end.

(** The plugin, the versions and the requeue delay; the error that the code
    returns besides is always nil. *)
Definition syncPluginMetadata (plugin : Plugin) : prog (Plugin * list PluginVersion * Duration) :=
  x <- fetchPluginMetadata plugin ;;
  match x with
  | (plugin, Err repoErr) =>
      if errIs repoErr errChecksumMismatch
      then permanentError plugin reasonChecksumMismatch (errString repoErr) "Cannot resolve version: checksum mismatch"
      else if errIs repoErr errInvalidURL
      then permanentError plugin reasonUnavailable (errString repoErr) "Cannot resolve version: invalid URL"
      else if errIs repoErr errUnsupportedSourceType
      then permanentError plugin reasonUnavailable (errString repoErr) "Cannot resolve version: unsupported source type"
      else handleRepositoryError plugin repoErr
  | (plugin, Ok (allVersions, true)) => Ret (plugin, allVersions, 0)
  | (plugin, Ok (allVersions, false)) =>
      let plugin := updPlgStatus (fun st => st <| pgRepositoryStatus := "available" |>) plugin in
      plugin <- setCondition plugin conditionTypeRepositoryAvailable ConditionTrue "Available" "Repository accessible" ;;
      now <- ask RNow ;;
      infos <- convertToPluginVersionInfo allVersions ;;
      Ret (updPlgStatus (fun st => st <| pgLastFetched := Some now |> <| pgAvailableVersions := infos |>) plugin,
           allVersions, 0)
  end.

Definition findMatchedServers (plugin : Plugin) : prog (result (list PaperMCServer)) :=
  x <- FindMatchingServers (plgNamespace plugin) (psInstanceSelector (plgSpec plugin)) ;;
  Ret (wrap "failed to find matching servers" x).

(** ** Reconciliation *)

Definition doReconcile (plugin : Plugin) : prog (Plugin * result Duration) :=
  x <- syncPluginMetadata plugin ;;
  let '(plugin, allVersions, requeue) := x in
  m <- findMatchedServers plugin ;;
  match m with
  | Err e => Ret (plugin, Err e)
  | Ok matchedServers =>
      let plugin := updPlgStatus (fun st => st <| pgMatchedInstances :=
                      buildMatchedInstances matchedServers (plgName plugin) (plgNamespace plugin) |>) plugin in
      if (length allVersions =? 0)%nat then Ret (plugin, Ok requeue)
      else
        plugin <- (if negb (hasCondition plugin conditionTypeVersionResolved reasonFallbackVersion)
                   then setCondition plugin conditionTypeVersionResolved ConditionTrue reasonResolved
                          "Metadata fetched and servers matched"
                   else Ret plugin) ;;
        Ret (plugin, Ok (15 * Minute))
  end.

(** ** Deletion *)

Definition newEntry (now : Time) (server : PaperMCServer) : DeletionProgressEntry :=
  MkDeletionProgressEntry (srvName server) (srvNamespace server) false None (Some now).

Definition setProgress (l : list DeletionProgressEntry) (plugin : Plugin) : Plugin :=
  updPlgStatus (fun st => st <| pgDeletionProgress := l |>) plugin.

(** [r.Status().Update(ctx, plugin)]: the plugin as the call leaves it. *)
Definition statusUpdatePlugin (plugin : Plugin) : prog (Plugin * option error) :=
  u <- ask (RStatusPlugin plugin) ;;
  Ret (match u with Ok p => (p, None) | Err e => (plugin, Some e) end).

Definition initDeletionProgressIfNeeded (plugin : Plugin) : prog (Plugin * result unit) :=
  match pgDeletionProgress (plgStatus plugin) with
  | _ :: _ => Ret (plugin, Ok tt)
  | [] =>
      m <- findMatchedServers plugin ;;
      match m with
      | Err e => Ret (plugin, Err (ErrWrap e "failed to find matched servers"))
      | Ok matchedServers =>
          now <- ask RNow ;;
          let plugin := setProgress (map (newEntry now) matchedServers) plugin in
          u <- statusUpdatePlugin plugin ;;
          match u with
          | (plugin, Some e) => Ret (plugin, Err (ErrWrap e "failed to initialize deletion progress"))
          | (plugin, None) => Ret (plugin, Ok tt)
          end
      end
  end.

(** One entry of [cleanupDeletedServers]: is it kept? *)
Definition keepEntry (entry : DeletionProgressEntry) : prog bool :=
  if dpJARDeleted entry then Ret true
  else
    g <- ask (RGetServer (dpNamespace entry, dpServerName entry)) ;;
    Ret (match g with
         | Ok _ => true
         | Err e => negb (IsNotFound e)
         end).

Definition cleanupStep (remaining : list DeletionProgressEntry) (entry : DeletionProgressEntry)
  : prog (list DeletionProgressEntry) :=
  keep <- keepEntry entry ;;
  Ret (if (keep : bool) then remaining ++ [entry] else remaining).

Definition cleanupDeletedServers (plugin : Plugin) : prog (Plugin * result unit) :=
  let progress := pgDeletionProgress (plgStatus plugin) in
  if (length progress =? 0)%nat then Ret (plugin, Ok tt)
  else
    remaining <- foldP cleanupStep [] progress ;;
    if negb (length remaining =? length progress)%nat then
      u <- statusUpdatePlugin (setProgress remaining plugin) ;;
      match u with
      | (plugin, Some e) => Ret (plugin, Err (ErrWrap e "failed to update deletion progress after cleanup"))
      | (plugin, None) => Ret (plugin, Ok tt)
      end
    else Ret (plugin, Ok tt).

(** The first entry of the server is marked. *)
Fixpoint markFirst (now : Time) (serverName namespace : string) (l : list DeletionProgressEntry)
  : list DeletionProgressEntry :=
  match l with
  | [] => []
  | e :: l =>
      if (dpServerName e =? serverName)%string && (dpNamespace e =? namespace)%string
      then e <| dpJARDeleted := true |> <| dpDeletedAt := Some now |> :: l
      else e :: markFirst now serverName namespace l
  end.

Definition markJARAsDeleted (plugin : Plugin) (serverName namespace : string) : prog (Plugin * result unit) :=
  now <- ask RNow ;;
  u <- statusUpdatePlugin
         (setProgress (markFirst now serverName namespace (pgDeletionProgress (plgStatus plugin))) plugin) ;;
  match u with
  | (plugin, Some e) => Ret (plugin, Err (ErrWrap e "failed to update deletion progress"))
  | (plugin, None) => Ret (plugin, Ok tt)
  end.

(** The first status of the plugin on the server is set pending; the statuses, the
    JAR name found there ([None] if there is no status) and whether one changed. *)
Fixpoint markPending (name namespace : string) (l : list ServerPluginStatus)
  : list ServerPluginStatus * option string * bool :=
  match l with
  | [] => ([], None, false)
  | p :: l =>
      if (prName (spPluginRef p) =? name)%string && (prNamespace (spPluginRef p) =? namespace)%string
      then if negb (spPendingDeletion p)
           then (p <| spPendingDeletion := true |> :: l, Some (spInstalledJARName p), true)
           else (p :: l, Some (spInstalledJARName p), false)
      else let '(l', jar, updated) := markPending name namespace l in (p :: l', jar, updated)
  end.

(** One entry of [markPluginForDeletionOnServers]. *)
Definition markOnServer (plugin : Plugin) (progress : DeletionProgressEntry) : prog (Plugin * result unit) :=
  if dpJARDeleted progress then Ret (plugin, Ok tt)
  else
    g <- ask (RGetServer (dpNamespace progress, dpServerName progress)) ;;
    match g with
    | Err e =>
        if IsNotFound e then markJARAsDeleted plugin (dpServerName progress) (dpNamespace progress)
        else Ret (plugin, Err (ErrWrap e ("failed to get server " +:+ dpNamespace progress +:+ "/" +:+ dpServerName progress)))
    | Ok server =>
        let '(statuses, jar, updated) := markPending (plgName plugin) (plgNamespace plugin) (stPlugins (srvStatus server)) in
        let server := updStatus (fun st => st <| stPlugins := statuses |>) server in
        if (match jar with None => true | Some j => (j =? "")%string end)
        then markJARAsDeleted plugin (dpServerName progress) (dpNamespace progress)
        else if (updated : bool) then
          u <- ask (RStatusServer server) ;;
          match u with
          | Err e => Ret (plugin, Err (ErrWrap e ("failed to mark plugin for deletion on server " +:+ srvName server)))
          | Ok _ => Ret (plugin, Ok tt)
          end
        else Ret (plugin, Ok tt)
    end.

(** The loop runs over the entries as they are when it starts; marking an entry
    changes only that entry, which has been visited. *)
Fixpoint markOnServers (plugin : Plugin) (entries : list DeletionProgressEntry) : prog (Plugin * result unit) :=
  match entries with
  | [] => Ret (plugin, Ok tt)
  | progress :: rest =>
      x <- markOnServer plugin progress ;;
      match x with
      | (plugin, Err e) => Ret (plugin, Err e)
      | (plugin, Ok _) => markOnServers plugin rest
      end
  end.

Definition markPluginForDeletionOnServers (plugin : Plugin) : prog (Plugin * result unit) :=
  markOnServers plugin (pgDeletionProgress (plgStatus plugin)).

(** [time.Since] is read anew for every open entry. *)
Definition forceStep (now : Time) (acc : list DeletionProgressEntry) (entry : DeletionProgressEntry)
  : prog (list DeletionProgressEntry) :=
  match dpJARDeleted entry, dpDeletionRequestedAt entry with
  | false, Some requestedAt =>
      t <- ask RNow ;;
      Ret (acc ++ [if deletionTimeout <? Sub t requestedAt
                   then entry <| dpJARDeleted := true |> <| dpDeletedAt := Some now |>
                   else entry])
  | _, _ => Ret (acc ++ [entry])
  end.

Definition forceCompleteStaleDeletions (plugin : Plugin) : prog Plugin :=
  now <- ask RNow ;;
  l <- foldP (forceStep now) [] (pgDeletionProgress (plgStatus plugin)) ;;
  Ret (setProgress l plugin).

Definition allJARsDeleted (plugin : Plugin) : bool :=
  forallb dpJARDeleted (pgDeletionProgress (plgStatus plugin)).

Definition removeFinalizer (plugin : Plugin) : prog (result Duration) :=
  u <- ask (RUpdatePlugin (plugin <| plgMeta := (plgMeta plugin)
             <| Finalizers := RemoveFinalizer (Finalizers (plgMeta plugin)) PluginFinalizer |> |>)) ;;
  match u with
  | Err e => Ret (Err (ErrWrap e "failed to remove finalizer"))
  | Ok _ => Ret (Ok 0)
  end.

(** Steps 4 to 6. *)
Definition finishDeletion (plugin : Plugin) : prog (result Duration) :=
  plugin <- forceCompleteStaleDeletions plugin ;;
  u <- statusUpdatePlugin plugin ;;
  match u with
  | (_, Some e) => if IsNotFound e then Ret (Ok 0) else Ret (Err (ErrWrap e "failed to persist force-completion"))
  | (plugin, None) =>
      if negb (allJARsDeleted plugin) then Ret (Ok (30 * Second)) else removeFinalizer plugin
  end.

Definition reconcileDelete (plugin : Plugin) : prog (result Duration) :=
  if negb (ContainsFinalizer (Finalizers (plgMeta plugin)) PluginFinalizer) then Ret (Ok 0)
  else
    i <- initDeletionProgressIfNeeded plugin ;;
    match i with
    | (_, Err e) => Ret (Err e)
    | (plugin, Ok _) =>
        c <- cleanupDeletedServers plugin ;;
        match c with
        | (_, Err e) => Ret (Err (ErrWrap e "failed to cleanup deleted servers"))
        | (plugin, Ok _) =>
            m <- markPluginForDeletionOnServers plugin ;;
            match m with
            | (_, Err e) => Ret (Err (ErrWrap e "failed to mark plugin for deletion"))
            | (plugin, Ok _) => finishDeletion plugin
            end
        end
    end.

(** ** Reconcile *)

(** From the reconciliation logic to the end. *)
Definition reconcileLive (plugin : Plugin) : prog (result Duration) :=
  let originalStatus := plgStatus plugin in
  x <- doReconcile plugin ;;
  let '(plugin, r) := x in
  plugin <- match r with
            | Err e => setCondition plugin conditionTypeReady ConditionFalse "ReconcileError" (errString e)
            | Ok _ => setCondition plugin conditionTypeReady ConditionTrue "ReconcileSuccess"
                        "Plugin reconciled successfully"
            end ;;
  if negb (isOk r) || negb (statusEqual (plgStatus plugin) originalStatus) then
    u <- ask (RStatusPlugin plugin) ;;
    Ret (match r, u with
         | Ok _, Err e => Err e
         | _, _ => r
         end)
  else Ret r.

Definition isDeleting (plugin : Plugin) : bool :=
  match DeletionTimestamp (plgMeta plugin) with Some t => negb (IsZero t) | None => false end.

Definition Reconcile (k : key) : prog (result Duration) :=
  g <- ask (RGetPlugin k) ;;
  match g with
  | Err e => if IsNotFound e then Ret (Ok 0) else Ret (Err (ErrWrap e "failed to get plugin"))
  | Ok plugin =>
      if isDeleting plugin then reconcileDelete plugin
      else if negb (ContainsFinalizer (Finalizers (plgMeta plugin)) PluginFinalizer) then
        u <- ask (RUpdatePlugin (plugin <| plgMeta := (plgMeta plugin)
               <| Finalizers := AddFinalizer (Finalizers (plgMeta plugin)) PluginFinalizer |> |>)) ;;
        match u with
        | Err e => Ret (Err (ErrWrap e "failed to add finalizer"))
        | Ok _ => Ret (Ok 0)
        end
      else reconcileLive plugin
  end.

(** ** Watch *)

Fixpoint pluginRequests (labels : gmap string string) (items : list Plugin) : list key :=
  match items with
  | [] => []
  | plugin :: rest =>
      match MatchesSelector labels (psInstanceSelector (plgSpec plugin)) with
      | Ok true => (plgNamespace plugin, plgName plugin) :: pluginRequests labels rest
      | _ => pluginRequests labels rest
      end
  end.

Definition findPluginsForServer (server : PaperMCServer) : prog (list key) :=
  l <- ask (RListPlugins (srvNamespace server)) ;;
  Ret (match l with Ok items => pluginRequests (Labels (srvMeta server)) items | Err _ => [] end).
End controller.

(** ** Deletion: why an entry is finished *)

(** The JAR name that a server's status records for the plugin. *)
Definition jarOn (plugin : Plugin) (server : PaperMCServer) : string :=
  match List.find (fun ps => (prName (spPluginRef ps) =? plgName plugin)%string &&
                             (prNamespace (spPluginRef ps) =? plgNamespace plugin)%string)
                  (stPlugins (srvStatus server)) with
  | Some ps => spInstalledJARName ps
  | None => ""
  end.

(** The run has seen that the JAR of this entry needs no more waiting: its server
    is gone, has no JAR of the plugin, or was asked for more than ten minutes ago. *)
Definition accounted (plugin : Plugin) (e : DeletionProgressEntry) (h : list event) : Prop :=
  let k : key := (dpNamespace e, dpServerName e) in
  (exists err, Ev (E := K8s) (RGetServer k) (Err err) ∈ h /\ IsNotFound err = true) \/
  (exists s, Ev (E := K8s) (RGetServer k) (Ok s) ∈ h /\ jarOn plugin s = "") \/
  (exists t req, Ev (E := K8s) RNow t ∈ h /\ dpDeletionRequestedAt e = Some req /\ deletionTimeout < Sub t req).

Lemma accounted_app plugin e h t : accounted plugin e h -> accounted plugin e (h ++ t).
Proof.
  intros [(err & ?)|[(s & ?)|(n & req & ?)]]; [left; exists err | right; left; exists s | right; right; exists n, req];
    set_solver.
Qed.

(** The API server answers an accepted status update with the plugin that was sent,
    as far as its identity, its finalizers and its deletion entries go. *)
Definition echoes (h : list event) : Prop :=
  forall p p', Ev (E := K8s) (RStatusPlugin p) (Ok p') ∈ h ->
    plgKey p' = plgKey p /\ Finalizers (plgMeta p') = Finalizers (plgMeta p) /\
    pgDeletionProgress (plgStatus p') = pgDeletionProgress (plgStatus p).

Lemma in_last (h : list event) e : e ∈ h ++ [e].
Proof. set_solver. Qed.

Lemma echoes_app h t : echoes (h ++ t) -> echoes h.
Proof. intros H p p' Hin. apply H. set_solver. Qed.

Section deletion.
Context {MC : MetaConditions} {LS : LabelSelectors} {UR : URLs} {JL : JarLib} {DG : Digest} {FN : Finalizing}.
(** The plugin as it was read and its entries. *)
Context (plugin0 : Plugin) (entries0 : list DeletionProgressEntry).

(** Every entry is finished, accounted for or still in [l]. *)
Definition tracked (l : list DeletionProgressEntry) (h : list event) : Prop :=
  forall e, e ∈ entries0 -> dpJARDeleted e = true \/ accounted plugin0 e h \/ e ∈ l.

Lemma tracked_app l h t : tracked l h -> tracked l (h ++ t).
Proof. intros H e He. destruct (H e He) as [?|[?|?]]; [by left | right; left; by apply accounted_app | auto]. Qed.

(** The invariant of the steps on the plugin that is passed along. *)
Definition inv (p : Plugin) (h : list event) : Prop :=
  plgKey p = plgKey plugin0 /\ tracked (pgDeletionProgress (plgStatus p)) h.

Lemma inv_app p h t : inv p h -> inv p (h ++ t).
Proof. intros [? ?]. split; [done | by apply tracked_app]. Qed.

Lemma wp_statusUpdate p h :
  inv p h -> wp (statusUpdatePlugin p) (fun h' x => echoes h' -> inv x.1 h') h.
Proof.
  intros Hi. unfold statusUpdatePlugin, ask. cbn [bind call wp]. intros [p'|e]; cbn [fst].
  - intros He. destruct (He p p') as (Hk & _ & Hp); [set_solver|]. apply inv_app with (t := [Ev (E := K8s) (RStatusPlugin p) (Ok p')]) in Hi.
    destruct Hi as [Hk0 Ht]. split; [congruence|]. by rewrite Hp.
  - intros _. by apply inv_app.
Qed.

Lemma extends_trans (h h1 h2 : list event) :
  (exists t, h1 = h ++ t) -> (exists t, h2 = h1 ++ t) -> exists t, h2 = h ++ t.
Proof. intros [t ->] [u ->]. exists (t ++ u). by rewrite app_assoc. Qed.

(** The entries that [cleanupDeletedServers] keeps. *)
Lemma wp_keepEntries l0 h :
  tracked l0 h ->
  wp (foldP cleanupStep [] l0) (fun h' acc => (exists t, h' = h ++ t) /\ tracked acc h') h.
Proof.
  intros Ht. eapply wp_mono.
  2: { apply (wp_foldP cleanupStep (fun rest acc h1 => (exists t, h1 = h ++ t) /\ tracked (acc ++ rest) h1)).
       2: { split; [exists []; by rewrite app_nil_r | exact Ht]. }
       intros e rest acc h1 [Hex H1]. unfold cleanupStep, keepEntry. destruct (dpJARDeleted e) eqn:Hd.
       - cbn [bind wp]. split; [done|]. by rewrite <- app_assoc.
       - unfold ask. cbn [bind call wp]. intros g. split.
         { eapply extends_trans; [exact Hex | by eexists]. }
         destruct (match g with Ok _ => true | Err e => negb (IsNotFound e) end) eqn:Hg.
         + rewrite <- app_assoc. by apply tracked_app.
         + destruct g as [s|err]; [done|]. apply negb_false_iff in Hg. intros e' He'.
           destruct (H1 e' He') as [?|[?|Hin]]; [by left | right; left; by apply accounted_app|].
           apply elem_of_app in Hin as [Hin|[->|Hin]%elem_of_cons]; [right; right; set_solver | | right; right; set_solver].
           right. left. left. exists err. set_solver. }
  cbn beta. intros h' acc [Hex H]. by rewrite app_nil_r in H.
Qed.

Lemma wp_cleanup p h :
  inv p h -> wp (cleanupDeletedServers p) (fun h' x => echoes h' -> inv x.1 h') h.
Proof.
  intros [Hk Ht]. unfold cleanupDeletedServers. destruct (_ =? _)%nat; [by split|].
  apply wp_bind. eapply wp_mono; [|by apply wp_keepEntries]. intros h1 remaining [[t ->] H1]. destruct (negb _).
  - apply wp_bind. eapply wp_mono; [|apply wp_statusUpdate; by split]. intros h2 [p2 [e|]] H2; exact H2.
  - intros _. split; [done|]. by apply tracked_app.
Qed.

Lemma markFirst_in now sn ns l e :
  e ∈ l -> e ∈ markFirst now sn ns l \/ (dpServerName e = sn /\ dpNamespace e = ns).
Proof.
  induction l as [|x l IH]; [by intros ?%not_elem_of_nil|]. intros [->|Hin]%elem_of_cons; cbn [markFirst].
  - destruct (_ && _) eqn:Hm; [|left; set_solver]. apply andb_true_iff in Hm as [H1 H2].
    apply String.eqb_eq in H1, H2. by right.
  - destruct (_ && _); [left; set_solver|]. destruct (IH Hin); [left; set_solver | by right].
Qed.

(** Marking the entry of a server whose entries are accounted for. *)
Lemma wp_markJARAsDeleted p sn ns h :
  inv p h -> (forall e, dpServerName e = sn -> dpNamespace e = ns -> accounted plugin0 e h) ->
  wp (markJARAsDeleted p sn ns) (fun h' x => echoes h' -> inv x.1 h') h.
Proof.
  intros [Hk Ht] Ha. unfold markJARAsDeleted, ask. cbn [bind call wp]. intros now.
  apply wp_bind. eapply wp_mono; [|apply wp_statusUpdate].
  - intros h2 [p2 [e|]] H2; exact H2.
  - split; [done|]. intros e He. destruct (Ht e He) as [?|[?|Hin]]; [by left | right; left; by apply accounted_app|].
    destruct (markFirst_in now sn ns _ e Hin) as [?|[H1 H2]]; [by right; right|].
    right. left. apply accounted_app. by apply Ha.
Qed.

Lemma markPending_jar plugin l statuses jar updated :
  markPending (plgName plugin) (plgNamespace plugin) l = (statuses, jar, updated) ->
  default "" jar = match List.find (fun ps => (prName (spPluginRef ps) =? plgName plugin)%string &&
                             (prNamespace (spPluginRef ps) =? plgNamespace plugin)%string) l with
                   | Some ps => spInstalledJARName ps
                   | None => ""
                   end.
Proof.
  revert statuses jar updated. induction l as [|p l IH]; intros statuses jar updated; cbn; [by intros [= <- <- <-]|].
  destruct (_ && _); [destruct (negb _); by intros [= <- <- <-]|].
  destruct (markPending _ _ l) as [[l' j] u] eqn:Hm. intros [= <- <- <-]. by eapply IH.
Qed.

Lemma wp_markOnServer p e h :
  inv p h -> wp (markOnServer p e) (fun h' x => echoes h' -> inv x.1 h') h.
Proof.
  intros Hi. unfold markOnServer. destruct (dpJARDeleted e); [by intros _|].
  unfold ask. cbn [bind call wp]. intros [server|err].
  - destruct (markPending _ _ _) as [[statuses jar] updated] eqn:Hm. apply markPending_jar in Hm.
    destruct (match jar with None => true | Some j => (j =? "")%string end) eqn:Hj.
    + apply wp_markJARAsDeleted; [by apply inv_app|]. intros e' H1 H2. right. left. exists server.
      rewrite H1, H2. split; [set_solver|]. destruct Hi as [Hk _]. unfold plgKey in Hk. injection Hk as Hns Hn.
      unfold jarOn. rewrite <- Hn, <- Hns, <- Hm. destruct jar as [j|]; [|done]. by apply String.eqb_eq in Hj.
    + destruct updated; cbn [bind call wp]; [|intros _; by apply inv_app].
      intros [s'|e2]; cbn [bind wp fst]; intros _; apply inv_app; by apply inv_app.
  - destruct (IsNotFound err) eqn:Hn; [|intros _; by apply inv_app].
    apply wp_markJARAsDeleted; [by apply inv_app|]. intros e' H1 H2. left. exists err. rewrite H1, H2. set_solver.
Qed.

Lemma wp_markOnServers p l h :
  inv p h -> wp (markOnServers p l) (fun h' x => echoes h' -> inv x.1 h') h.
Proof.
  revert p h. induction l as [|e l IH]; intros p h Hi; cbn [markOnServers]; [by intros _|].
  apply wp_bind. eapply wp_mono; [|by apply wp_markOnServer].
  intros h1 [p1 [u|err]] H1; [|exact H1].
  apply (wp_assume echoes); [apply echoes_app|]. intros He. apply IH. by apply H1.
Qed.

(** Every entry is finished or accounted for. *)
Definition finished (h : list event) : Prop :=
  echoes h -> forall e, e ∈ entries0 -> dpJARDeleted e = true \/ accounted plugin0 e h.

Lemma finished_monotone : monotone finished.
Proof.
  intros h t H He e Hin. apply echoes_app in He. destruct (H He e Hin); [by left|].
  right. by apply accounted_app.
Qed.

(** What is left open by the timeout was requested too recently. *)
Lemma wp_forceSteps now l h :
  tracked l h ->
  wp (foldP (forceStep now) [] l)
     (fun h' acc => (exists t, h' = h ++ t) /\ (forallb dpJARDeleted acc = true -> tracked [] h')) h.
Proof.
  intros Ht. eapply wp_mono.
  2: { apply (wp_foldP (forceStep now) (fun rest acc h1 => (exists t, h1 = h ++ t) /\
         (forallb dpJARDeleted acc = true -> tracked rest h1))).
       2: { split; [exists []; by rewrite app_nil_r | done]. }
       intros e rest acc h1 [Hex H1]. unfold forceStep.
       assert (Hstay : dpJARDeleted e = true \/ dpDeletionRequestedAt e = None ->
         forallb dpJARDeleted (acc ++ [e]) = true -> tracked rest h1).
       { rewrite forallb_app. cbn. rewrite !andb_true_iff. intros _ [Ha [He _]] e' He'.
         destruct (H1 Ha e' He') as [?|[?|[->|?]%elem_of_cons]]; auto. }
       destruct (dpJARDeleted e) eqn:Hd; [cbn [wp]; split; [done | by apply Hstay; left]|].
       destruct (dpDeletionRequestedAt e) as [req|] eqn:Hreq; [|cbn [wp]; split; [done | by apply Hstay; right]].
       unfold ask. cbn [bind call wp]. intros t. split; [eapply extends_trans; [exact Hex | by eexists]|].
       rewrite forallb_app, andb_true_iff. intros [Ha He] e' He'.
       destruct (H1 Ha e' He') as [?|[?|[->|?]%elem_of_cons]]; [by left | right; left; by apply accounted_app | | auto].
       right. left. right. right. exists t, req. split_and!; [set_solver | done|].
       destruct (_ <? _) eqn:Hlt; [by apply Z.ltb_lt|]. cbn in He. by rewrite Hd in He. }
  cbn beta. intros h' acc [Hex H]. done.
Qed.

Lemma wp_forceComplete p h :
  inv p h -> wp (forceCompleteStaleDeletions p)
    (fun h' p' => plgKey p' = plgKey plugin0 /\ (allJARsDeleted p' = true -> tracked [] h')) h.
Proof.
  intros [Hk Ht]. unfold forceCompleteStaleDeletions, ask. cbn [bind call wp]. intros now.
  apply wp_bind. eapply wp_mono; [|by apply wp_forceSteps, tracked_app].
  intros h' acc [_ H]. split; [exact Hk | exact H].
Qed.

Definition isUpdatePlugin (r : kreq) : bool := match r with RUpdatePlugin _ => true | _ => false end.

Notation guard := (guarded (E := K8s) isUpdatePlugin finished).

(** A step without plugin updates keeps the guard and what it establishes. *)
Lemma wp_step_guard {A B} (p : prog A) (f : A -> prog B) (J : A -> list event -> Prop) h :
  avoids isUpdatePlugin p -> guard h ->
  wp p (fun h' x => echoes h' -> J x h') h ->
  (forall h' x, guard h' -> (echoes h' -> J x h') -> wp (f x) (fun h'' _ => guard h'') h') ->
  wp (bind p f) (fun h' _ => guard h') h.
Proof.
  intros Ha Hg Hp Hf. apply wp_bind.
  eapply wp_mono; [|apply wp_conj; [apply wp_guard_avoids; [exact Ha | exact Hg] | exact Hp]].
  intros h' x [H1 H2]. by apply Hf.
Qed.

Lemma wp_finish p h : guard h -> (echoes h -> inv p h) -> wp (finishDeletion p) (fun h' _ => guard h') h.
Proof.
  intros Hg Hi. unfold finishDeletion.
  apply (wp_step_guard _ _ (fun p' h' => allJARsDeleted p' = true -> tracked [] h')); [| exact Hg | |].
  { unfold forceCompleteStaleDeletions. cbn. split; [done|]. intros now. apply avoids_bind; [|done].
    apply avoids_foldP. intros s x. unfold forceStep, ask. avoids_tac. }
  { apply (wp_assume echoes); [apply echoes_app|]. intros He.
    eapply wp_mono; [|by apply wp_forceComplete, Hi]. intros h' p' [_ H] _. exact H. }
  intros h1 p1 H1 Ht1. unfold statusUpdatePlugin, ask. cbn [bind call wp]. intros [p2|err].
  - assert (H2 : guard (h1 ++ [Ev (E := K8s) (RStatusPlugin p1) (Ok p2)])) by (apply guarded_quiet; [exact H1 | by repeat constructor]).
    cbn beta iota. destruct (allJARsDeleted p2) eqn:Hall; cbn [negb wp]; [|exact H2].
    eapply wp_mono with (Q := fun h' _ => guard h' /\ finished h'); [by intros h' x [H _]|].
    apply wp_guard_open; [apply finished_monotone | exact H2|].
    intros He e Hin. destruct (He p1 p2) as (_ & _ & Hp); [set_solver|].
    destruct (tracked_app _ _ [Ev (E := K8s) (RStatusPlugin p1) (Ok p2)] (Ht1 (echoes_app _ _ He) ltac:(by rewrite <- Hall; unfold allJARsDeleted; rewrite Hp)) e Hin)
      as [?|[?|?%not_elem_of_nil]]; auto.
  - assert (H2 : guard (h1 ++ [Ev (E := K8s) (RStatusPlugin p1) (Err err)])) by (apply guarded_quiet; [exact H1 | by repeat constructor]).
    cbn beta iota. by destruct (IsNotFound err).
Qed.

Lemma avoids_statusUpdate p : avoids (E := K8s) isUpdatePlugin (statusUpdatePlugin p).
Proof. unfold statusUpdatePlugin, ask. avoids_tac. Qed.

Lemma avoids_markJARAsDeleted p sn ns : avoids (E := K8s) isUpdatePlugin (markJARAsDeleted p sn ns).
Proof.
  unfold markJARAsDeleted, ask. cbn [bind call avoids]. split; [done|]. intros now.
  apply avoids_bind; [apply avoids_statusUpdate|]. avoids_tac.
Qed.

Lemma avoids_cleanup p : avoids (E := K8s) isUpdatePlugin (cleanupDeletedServers p).
Proof.
  unfold cleanupDeletedServers. destruct (_ =? _)%nat; [done|]. apply avoids_bind.
  - apply avoids_foldP. intros acc e. unfold cleanupStep, keepEntry, ask. avoids_tac.
  - intros l. destruct (negb _); [|done]. apply avoids_bind; [apply avoids_statusUpdate|]. avoids_tac.
Qed.

Lemma avoids_markOnServers p l : avoids (E := K8s) isUpdatePlugin (markOnServers p l).
Proof.
  revert p. induction l as [|e l IH]; intros p; cbn [markOnServers]; [done|]. apply avoids_bind.
  - unfold markOnServer, ask. pose proof avoids_markJARAsDeleted. avoids_tac; auto.
  - intros [p1 [u|err]]; [apply IH | done].
Qed.

(** Everything after the entries are known. *)
Definition deleteTracked (p : Plugin) : prog (result Duration) :=
  c <- cleanupDeletedServers p ;;
  match c with
  | (_, Err e) => Ret (Err (ErrWrap e "failed to cleanup deleted servers"))
  | (p, Ok _) =>
      m <- markPluginForDeletionOnServers p ;;
      match m with
      | (_, Err e) => Ret (Err (ErrWrap e "failed to mark plugin for deletion"))
      | (p, Ok _) => finishDeletion p
      end
  end.

Lemma wp_deleteTracked p h :
  guard h -> (echoes h -> inv p h) -> wp (deleteTracked p) (fun h' _ => guard h') h.
Proof.
  intros Hg Hi. unfold deleteTracked.
  apply (wp_step_guard _ _ (fun x h' => inv x.1 h')); [apply avoids_cleanup | exact Hg | |].
  { apply (wp_assume echoes); [apply echoes_app|]. intros He. by apply wp_cleanup, Hi. }
  intros h1 [p1 [[]|err]] H1 Hi1; [|exact H1].
  apply (wp_step_guard _ _ (fun x h' => inv x.1 h')); [apply avoids_markOnServers | exact H1 | |].
  { apply (wp_assume echoes); [apply echoes_app|]. intros He. by apply wp_markOnServers, Hi1. }
  intros h2 [p2 [[]|err]] H2 Hi2; [by apply wp_finish | exact H2].
Qed.
End deletion.

(** The entries a deletion works on: those of the status, or one new entry for every
    server that matches the plugin. *)
Definition deletionEntries `{LabelSelectors} (plugin : Plugin) (h : list event)
  (entries : list DeletionProgressEntry) : Prop :=
  match pgDeletionProgress (plgStatus plugin) with
  | [] => exists trs servers now t, h = trs ++ Ev (E := K8s) RNow now :: t /\
            runs (findMatchedServers plugin) trs (Ok servers) /\ entries = map (newEntry now) servers
  | l => entries = l
  end.

Section safety.
Context {MC : MetaConditions} {LS : LabelSelectors} {UR : URLs} {JL : JarLib} {DG : Digest} {FN : Finalizing}.

Lemma avoids_findMatchedServers p : avoids (E := K8s) isUpdatePlugin (findMatchedServers p).
Proof. unfold findMatchedServers, FindMatchingServers, ask. avoids_tac. Qed.

(** No plugin update, whatever the guard. *)
Lemma quiet_guarded (C : list event -> Prop) h :
  Forall (fun e : event => isUpdatePlugin (projT1 e) = false) h -> guarded (E := K8s) isUpdatePlugin C h.
Proof. intros H. apply (guarded_quiet _ _ [] h); [|done]. intros [|??] ??; discriminate. Qed.

Definition removable (plugin : Plugin) (h : list event) : Prop :=
  echoes h -> exists entries, deletionEntries plugin h entries /\
    forall e, e ∈ entries -> dpJARDeleted e = true \/ accounted plugin e h.

(** The run from the point at which the entries are known. *)
Lemma guarded_deleteTracked plugin entries p h tr r :
  Forall (fun e : event => isUpdatePlugin (projT1 e) = false) h ->
  runs (deleteTracked p) tr r -> (echoes h -> inv plugin entries p h) ->
  guarded (E := K8s) isUpdatePlugin (fun a => (exists t, a = h ++ t) /\ finished plugin entries a) (h ++ tr).
Proof.
  intros Hq Hr Hi. apply guarded_prefix; [done|].
  refine (proj1 (wp_runs _ _ h) (wp_deleteTracked plugin entries p h _ Hi) tr r Hr). by apply quiet_guarded.
Qed.

Lemma reconcileDelete_removable plugin tr r :
  runs (reconcileDelete plugin) tr r -> guarded (E := K8s) isUpdatePlugin (removable plugin) tr.
Proof.
  unfold reconcileDelete. destruct (negb _); [intros [-> _]; by apply quiet_guarded; constructor|].
  intros (t1 & [p1 i] & t2 & -> & Hi & Hr)%runs_bind.
  unfold initDeletionProgressIfNeeded in Hi. destruct (pgDeletionProgress (plgStatus plugin)) as [|e0 l0] eqn:Hp.
  - apply runs_bind in Hi as (trs & m & t3 & -> & Hm & Hi). assert (Hq : Forall (fun e : event => isUpdatePlugin (projT1 e) = false) trs)
      by (eapply avoids_runs; [apply avoids_findMatchedServers | exact Hm]).
    destruct m as [servers|err].
    2: { destruct Hi as [-> [= -> ->]]. destruct Hr as [-> _]. rewrite !app_nil_r. by apply quiet_guarded. }
    unfold statusUpdatePlugin, ask in Hi. cbn [bind call runs] in Hi.
    destruct Hi as (now & t4 & -> & u & t5 & -> & Hi).
    assert (Hq2 : Forall (fun e : event => isUpdatePlugin (projT1 e) = false)
      (trs ++ [Ev (E := K8s) RNow now; Ev (E := K8s) (RStatusPlugin (setProgress (map (newEntry now) servers) plugin)) u])).
    { apply Forall_app. split; [done | by repeat constructor]. }
    destruct u as [p'|err]; destruct Hi as [-> [= -> ->]].
    2: { destruct Hr as [-> _]. rewrite app_nil_r. by apply quiet_guarded. }
    eapply guarded_mono; [|apply (guarded_deleteTracked plugin (map (newEntry now) servers) p' _ t2 r Hq2 Hr)].
    + intros a [[t ->] Hf] He. eexists. split; [|exact (Hf He)]. unfold deletionEntries. rewrite Hp.
      exists trs, servers, now, (Ev (E := K8s) (RStatusPlugin (setProgress (map (newEntry now) servers) plugin)) (Ok p') :: t).
      by rewrite <- app_assoc.
    + intros He. destruct (He (setProgress (map (newEntry now) servers) plugin) p') as (Hk & _ & Hpr); [set_solver|].
      split; [done|]. intros e Hin. right. right. by rewrite Hpr.
  - destruct Hi as [-> [= -> ->]].
    eapply guarded_mono; [|apply (guarded_deleteTracked plugin (e0 :: l0) plugin [] t2 r); [constructor | exact Hr|]].
    + intros a [_ Hf] He. exists (e0 :: l0). split; [|exact (Hf He)]. unfold deletionEntries. by rewrite Hp.
    + intros _. split; [done|]. intros e Hin. right. right. by rewrite Hp.
Qed.

(** The run of a plugin that is being deleted, after the read. *)
Lemma Reconcile_deleting k plugin tr r :
  isDeleting plugin = true -> runs (Reconcile k) (Ev (E := K8s) (RGetPlugin k) (Ok plugin) :: tr) r ->
  runs (reconcileDelete plugin) tr r.
Proof.
  intros Hd (y & t & Hev & Hr).
  assert (Hy : y = Ok plugin) by by apply (f_equal (fun l => match l with existT (RGetPlugin _) x :: _ => x | _ => Ok plugin end)) in Hev.
  subst y. injection Hev as <-. cbn [bind call] in Hr. by rewrite Hd in Hr.
Qed.

(** A plugin that is being deleted loses its finalizer (its object is updated
    without it) only when every server of its deletion is accounted for: the entry is
    recorded as deleted, or this run saw that the server is gone, that it has no JAR
    of the plugin, or that the request is more than ten minutes old.  The servers are
    those of the recorded progress or, if there is none, all the servers that match
    the plugin.  The API server is assumed to answer a status update with the
    progress that was sent. *)
Lemma Reconcile_finalizer_safe k plugin tr r a p y b :
  runs (Reconcile k) (Ev (E := K8s) (RGetPlugin k) (Ok plugin) :: tr) r ->
  isDeleting plugin = true ->
  tr = a ++ Ev (E := K8s) (RUpdatePlugin p) y :: b -> echoes a ->
  exists entries, deletionEntries plugin a entries /\
    forall e, e ∈ entries -> dpJARDeleted e = true \/ accounted plugin e a.
Proof.
  intros Hr Hd -> He. apply Reconcile_deleting in Hr; [|done].
  by apply (reconcileDelete_removable plugin _ r Hr a (Ev (E := K8s) (RUpdatePlugin p) y) b).
Qed.
End safety.

(** ** Deletion: the timeout completes it *)

Section completion.
Context {MC : MetaConditions} {LS : LabelSelectors} {UR : URLs} {JL : JarLib} {DG : Digest} {FN : Finalizing}.
Context (plugin0 : Plugin).

Definition entries0 : list DeletionProgressEntry := pgDeletionProgress (plgStatus plugin0).

(** The API server does its part: reads of a server answer it or report that it is
    gone, status updates are accepted, and the clock is past the timeout of every
    request of the progress. *)
Definition cooperative (h : list event) : Prop :=
  echoes h /\
  (forall p y, Ev (E := K8s) (RStatusPlugin p) y ∈ h -> isOk y = true) /\
  (forall s y, Ev (E := K8s) (RStatusServer s) y ∈ h -> isOk y = true) /\
  (forall k e, Ev (E := K8s) (RGetServer k) (Err e) ∈ h -> IsNotFound e = true) /\
  (forall t e req, Ev (E := K8s) RNow t ∈ h -> e ∈ entries0 -> dpDeletionRequestedAt e = Some req ->
     deletionTimeout < Sub t req).

Lemma cooperative_app h t : cooperative (h ++ t) -> cooperative h.
Proof.
  intros (H1 & H2 & H3 & H4 & H5). assert (Hin : forall e, e ∈ h -> e ∈ h ++ t) by set_solver.
  split_and!; [by eapply echoes_app | eauto..].
Qed.

(** An entry that is deleted or that the timeout can close. *)
Definition closable (e : DeletionProgressEntry) : Prop :=
  dpJARDeleted e = true \/ exists req, dpDeletionRequestedAt e = Some req /\ e ∈ entries0.

Definition closing (p : Plugin) : Prop :=
  plgKey p = plgKey plugin0 /\ Finalizers (plgMeta p) = Finalizers (plgMeta plugin0) /\
  Forall closable (pgDeletionProgress (plgStatus p)).

(** A step that succeeds and keeps the invariant. *)
Definition succeeds (prg : prog (Plugin * result unit)) (h : list event) : Prop :=
  wp prg (fun h' x => cooperative h' -> x.2 = Ok tt /\ closing x.1) h.

Lemma succeeds_bind prg (f : Plugin * result unit -> prog (Plugin * result unit)) h :
  succeeds prg h -> (forall p h', closing p -> succeeds (f (p, Ok tt)) h') -> succeeds (bind prg f) h.
Proof.
  intros Hp Hf. apply wp_bind. eapply wp_mono; [|exact Hp]. intros h' [p u] H.
  apply (wp_assume cooperative); [apply cooperative_app|]. intros Hc. destruct (H Hc) as [Hu Hcl].
  cbn [snd fst] in *. subst u. by apply Hf.
Qed.

Lemma wp_statusUpdate_ok p h :
  closing p -> wp (statusUpdatePlugin p) (fun h' x => cooperative h' -> x.2 = None /\ closing x.1) h.
Proof.
  intros (Hk & Hf & Hl). unfold statusUpdatePlugin, ask. cbn [bind call wp]. intros [p'|e] (He & Hs & _); cbn [fst snd].
  - destruct (He p p') as (? & ? & Hp); [set_solver|]. split; [done|]. split_and!; [congruence | congruence | by rewrite Hp].
  - by discriminate (Hs p (Err e) ltac:(set_solver)).
Qed.

(** A status update whose error is wrapped. *)
Lemma succeeds_update (msg : string) p h :
  closing p ->
  succeeds (u <- statusUpdatePlugin p ;;
            match u with
            | (p, Some e) => Ret (p, Err (ErrWrap e msg))
            | (p, None) => Ret (p, Ok tt)
            end) h.
Proof.
  intros Hc. apply wp_bind. eapply wp_mono; [|by apply wp_statusUpdate_ok].
  intros h' [p' [e|]] H Hco; destruct (H Hco) as [? ?]; [done | by split].
Qed.

Lemma closing_setProgress p l : closing p -> Forall closable l -> closing (setProgress l p).
Proof. intros (? & ? & _) ?. by split_and!. Qed.

Lemma Forall_snoc_2 (P : DeletionProgressEntry -> Prop) l e : Forall P l -> P e -> Forall P (l ++ [e]).
Proof. intros Hl He. apply Forall_app. split; [done | by constructor]. Qed.

Lemma succeeds_cleanup p h : closing p -> succeeds (cleanupDeletedServers p) h.
Proof.
  intros Hc. unfold cleanupDeletedServers. destruct (_ =? _)%nat; [by intros _|].
  apply wp_bind. eapply wp_mono.
  2: { apply (wp_foldP cleanupStep (fun rest acc _ => Forall closable acc /\ Forall closable rest)).
       - intros e rest acc h1 [Ha [He Hr]%Forall_cons]. unfold cleanupStep, keepEntry.
         destruct (dpJARDeleted e); [split; [by apply Forall_snoc_2 | done]|].
         unfold ask. cbn [bind call wp]. intros g. split; [|done]. destruct (match g with Ok _ => _ | _ => _ end); [|done].
         by apply Forall_snoc_2.
       - split; [constructor | apply Hc]. }
  cbn beta. intros h' l [Hl _]. destruct (negb _); [by apply succeeds_update, closing_setProgress | by intros _].
Qed.

Lemma markFirst_closable now sn ns l : Forall closable l -> Forall closable (markFirst now sn ns l).
Proof.
  induction 1 as [|e l He Hl IH]; cbn [markFirst]; [constructor|].
  destruct (_ && _); constructor; auto. by left.
Qed.

Lemma succeeds_markJARAsDeleted p sn ns h : closing p -> succeeds (markJARAsDeleted p sn ns) h.
Proof.
  intros Hc. unfold succeeds, markJARAsDeleted, ask. cbn [bind call wp]. intros now.
  apply succeeds_update, closing_setProgress; [done|]. apply markFirst_closable, Hc.
Qed.

Lemma succeeds_markOnServers p l h : closing p -> succeeds (markOnServers p l) h.
Proof.
  revert p h. induction l as [|e l IH]; intros p h Hc; cbn [markOnServers]; [by intros _|].
  apply succeeds_bind; [|intros p1 h1 H1; by apply IH]. unfold succeeds, markOnServer.
  destruct (dpJARDeleted e); [by intros _|]. unfold ask. cbn [bind call wp]. intros [server|err].
  - destruct (markPending _ _ _) as [[statuses jar] updated].
    destruct (match jar with None => _ | _ => _ end); [by apply succeeds_markJARAsDeleted|].
    destruct updated; cbn [bind call wp]; [|by intros _].
    intros [s|e2] (_ & _ & Hs & _); [done|].
    by discriminate (Hs _ (Err e2) (in_last _ _)).
  - destruct (IsNotFound err) eqn:Hn; [by apply succeeds_markJARAsDeleted|].
    intros (_ & _ & _ & Hg & _). rewrite (Hg (dpNamespace e, dpServerName e) err) in Hn; [done | set_solver].
Qed.

Lemma wp_forceComplete_all p h :
  closing p -> wp (forceCompleteStaleDeletions p)
    (fun h' p' => cooperative h' -> closing p' /\ allJARsDeleted p' = true) h.
Proof.
  intros Hc. unfold forceCompleteStaleDeletions, ask. cbn [bind call wp]. intros now. apply wp_bind.
  eapply wp_mono.
  2: { apply (wp_foldP (forceStep now) (fun rest acc h1 =>
         Forall closable rest /\ (cooperative h1 -> Forall (fun e => dpJARDeleted e = true) acc))).
       - intros e rest acc h1 [[He Hr]%Forall_cons Ha]. unfold forceStep.
         destruct (dpJARDeleted e) eqn:Hd; [split; [done|]; intros H; apply Forall_app; auto|].
         destruct He as [He|(req & Hreq & Hin)]; [congruence|]. rewrite Hreq. unfold ask. cbn [bind call wp].
         intros t. split; [done|]. intros H. apply Forall_app. split; [apply Ha; by eapply cooperative_app|].
         destruct H as (_ & _ & _ & _ & Ht). apply Forall_singleton.
         destruct (Z.ltb_spec deletionTimeout (Sub t req)) as [_|Hle]; [done|].
         specialize (Ht t e req ltac:(set_solver) Hin Hreq). lia.
       - split; [apply Hc | by constructor]. }
  cbn beta. intros h' l [_ Hl] H. specialize (Hl H). split.
  - apply closing_setProgress; [done|]. eapply Forall_impl; [exact Hl|]. by left.
  - unfold allJARsDeleted. cbn. clear -Hl. induction Hl as [|e l He _ IH]; [done|]. cbn. by rewrite He.
Qed.

Lemma wp_finish_updates p h :
  closing p -> wp (finishDeletion p) (fun h' _ => cooperative h' ->
    exists q y, Ev (E := K8s) (RUpdatePlugin q) y ∈ h' /\ plgKey q = plgKey plugin0 /\
      Finalizers (plgMeta q) = RemoveFinalizer (Finalizers (plgMeta plugin0)) PluginFinalizer) h.
Proof.
  intros Hc. unfold finishDeletion. apply wp_bind. eapply wp_mono; [|by apply wp_forceComplete_all].
  intros h1 p1 H1. apply (wp_assume cooperative); [apply cooperative_app|]. intros Hco.
  destruct (H1 Hco) as [(Hk & Hf & _) Hall]. unfold statusUpdatePlugin, ask. cbn [bind call wp].
  intros [p2|e].
  - apply (wp_assume cooperative); [apply cooperative_app|]. intros [He _].
    destruct (He p1 p2 (in_last _ _)) as (Hk2 & Hf2 & Hp2). cbn beta iota.
    replace (allJARsDeleted p2) with true by (unfold allJARsDeleted in *; by rewrite Hp2).
    unfold removeFinalizer, ask. cbn [negb bind call wp]. intros y.
    assert (Hend : exists q y', Ev (E := K8s) (RUpdatePlugin q) y' ∈ (h1 ++ [Ev (E := K8s) (RStatusPlugin p1) (Ok p2)]) ++
        [Ev (E := K8s) (RUpdatePlugin (p2 <| plgMeta := (plgMeta p2)
           <| Finalizers := RemoveFinalizer (Finalizers (plgMeta p2)) PluginFinalizer |> |>)) y] /\
      plgKey q = plgKey plugin0 /\ Finalizers (plgMeta q) = RemoveFinalizer (Finalizers (plgMeta plugin0)) PluginFinalizer).
    { eexists _, y. split; [apply in_last|]. split; [by rewrite <- Hk, <- Hk2|]. cbn. by rewrite Hf2, Hf. }
    destruct y; by intros _.
  - cbn beta iota. assert (Hno : ~ cooperative (h1 ++ [Ev (E := K8s) (RStatusPlugin p1) (Err e)])).
    { intros (_ & Hs & _). by discriminate (Hs _ (Err e) (in_last _ _)). }
    destruct (IsNotFound e); cbn [wp]; by intros ?%Hno.
Qed.
End completion.

(** C14: A deletion completes.  If the recorded progress of a plugin is not empty and
    every entry of it is deleted or carries the time of its request, then a
    reconciliation after the timeout, to which the API server answers (servers are
    read or reported gone, status updates are accepted), updates the plugin without
    its finalizer, whatever the servers report about the JAR. *)
Theorem reconcileDelete_completes {MC : MetaConditions} {LS : LabelSelectors} {UR : URLs} {JL : JarLib} {DG : Digest} {FN : Finalizing} plugin tr r :
  runs (reconcileDelete plugin) tr r ->
  ContainsFinalizer (Finalizers (plgMeta plugin)) PluginFinalizer = true ->
  pgDeletionProgress (plgStatus plugin) <> [] ->
  (forall e, e ∈ pgDeletionProgress (plgStatus plugin) -> dpJARDeleted e = true \/ is_Some (dpDeletionRequestedAt e)) ->
  cooperative plugin tr ->
  exists q y, Ev (E := K8s) (RUpdatePlugin q) y ∈ tr /\ plgKey q = plgKey plugin /\
    Finalizers (plgMeta q) = RemoveFinalizer (Finalizers (plgMeta plugin)) PluginFinalizer.
Proof.
  intros Hr Hc Hne Hall Hco. unfold reconcileDelete in Hr. rewrite Hc in Hr. cbn [negb] in Hr.
  unfold initDeletionProgressIfNeeded in Hr. destruct (pgDeletionProgress (plgStatus plugin)) as [|e0 l0] eqn:Hp; [done|].
  cbn [bind] in Hr. rewrite <- Hp in Hall.
  assert (Hcl : closing plugin plugin).
  { split_and!; [done..|]. apply Forall_forall. intros e He. destruct (Hall e He) as [?|[req ?]]; [by left|].
    right. by exists req. }
  apply (proj1 (wp_runs _ (fun h' _ => cooperative plugin h' -> exists q y, Ev (E := K8s) (RUpdatePlugin q) y ∈ h' /\ plgKey q = plgKey plugin /\
    Finalizers (plgMeta q) = RemoveFinalizer (Finalizers (plgMeta plugin)) PluginFinalizer) [])) with (2 := Hr); [|done].
  apply wp_bind. eapply wp_mono; [|by apply succeeds_cleanup]. intros h1 [p1 u1] H1.
  apply (wp_assume (cooperative plugin)); [apply cooperative_app|]. intros Hc1. destruct (H1 Hc1) as [? Hcl1]. cbn in *. subst u1.
  apply wp_bind. eapply wp_mono; [|by apply succeeds_markOnServers]. intros h2 [p2 u2] H2.
  apply (wp_assume (cooperative plugin)); [apply cooperative_app|]. intros Hc2. destruct (H2 Hc2) as [? Hcl2]. cbn in *. subst u2.
  by apply wp_finish_updates.
Qed.

(** ** Metadata *)

Section metadata.
Context {MC : MetaConditions} {LS : LabelSelectors} {UR : URLs} {JL : JarLib} {DG : Digest} {FN : Finalizing}.

(** Setting conditions changes nothing else of the status. *)
Definition sameData (p p' : Plugin) : Prop :=
  pgAvailableVersions (plgStatus p') = pgAvailableVersions (plgStatus p) /\
  pgLastFetched (plgStatus p') = pgLastFetched (plgStatus p).

Lemma sameData_setCondition p ty st reason msg h :
  wp (setCondition p ty st reason msg) (fun _ p' => sameData p p') h.
Proof. unfold setCondition, ask. cbn [bind call wp]. by intros now. Qed.

Lemma sameData_setFallback p v h : wp (setFallbackVersionCondition p v) (fun _ p' => sameData p p') h.
Proof. unfold setFallbackVersionCondition. destruct (_ =? _)%string; apply sameData_setCondition. Qed.

Lemma sameData_trans p1 p2 p3 : sameData p1 p2 -> sameData p2 p3 -> sameData p1 p3.
Proof. unfold sameData. intuition congruence. Qed.

Lemma wp_permanentError p reason msg resolved h :
  wp (permanentError p reason msg resolved) (fun _ x => sameData p x.1.1) h.
Proof.
  unfold permanentError. apply wp_bind. eapply wp_mono; [|apply sameData_setCondition]. intros h1 p1 H1.
  apply wp_bind. eapply wp_mono; [|apply sameData_setCondition]. intros h2 p2 H2. cbn [wp fst].
  by eapply sameData_trans, H2.
Qed.

Lemma wp_handleRepositoryError p e h : wp (handleRepositoryError p e) (fun _ x => sameData p x.1.1) h.
Proof.
  unfold handleRepositoryError. destruct (pgAvailableVersions _);
    (apply wp_bind; eapply wp_mono; [|apply sameData_setCondition]; by intros h1 p1 H1).
Qed.

(** The first version of the list keeps the date of the cached one. *)
Definition datedLike (cached : PluginVersionInfo) (vs : list PluginVersion) : Prop :=
  forall v tl, vs = v :: tl -> ToLower (pvHash v) = ToLower (viHash cached) -> pvReleaseDate v = viReleasedAt cached.

Lemma preserveReleaseDate_dated cached rest vs :
  viHash cached <> "" -> IsZero (viReleasedAt cached) = false ->
  datedLike cached (preserveReleaseDate (cached :: rest) vs).
Proof.
  intros Hh Hz v tl. unfold preserveReleaseDate. destruct vs as [|v0 vs]; [done|]. rewrite Hz.
  destruct (String.eqb_spec (viHash cached) "") as [|_]; [done|]. cbn [negb andb]. rewrite andb_true_r.
  destruct (String.eqb_spec (ToLower (viHash cached)) (ToLower (pvHash v0))) as [Heq|Hneq]; intros [= <- <-]; [done|].
  intros ?. congruence.
Qed.

Lemma wp_fetchURL p cached rest h :
  pgAvailableVersions (plgStatus p) = cached :: rest -> viHash cached <> "" -> IsZero (viReleasedAt cached) = false ->
  wp (fetchURLMetadata p)
     (fun _ x => sameData p x.1 /\ match x.2 with Ok (vs, false) => datedLike cached vs | _ => True end) h.
Proof.
  intros Hv Hh Hz. unfold fetchURLMetadata. destruct (ValidateDownloadURL _) as [u|e]; [|done].
  apply wp_bind. eapply wp_mono; [|apply wp_true]. intros h1 [|] _; [done|].
  apply wp_bind. eapply wp_mono; [|apply wp_true]. intros h2 [jar|e] _; [|done].
  destruct (_ && _); [done|]. apply wp_bind. eapply wp_mono with (Q := fun _ x => sameData p x.1).
  - intros h3 [p3 vs] [H3 H4]. cbn [wp fst snd] in *. split; [done|]. rewrite H3, Hv. by apply preserveReleaseDate_dated.
  - unfold resolveURLVersion. destruct (ParseJARMetadata jar);
      (apply wp_bind; eapply wp_mono; [|apply sameData_setFallback]; by intros).
Qed.

(** The release date of a URL plugin's version survives the refresh of its
    metadata as long as the content does: if after the synchronisation the first
    version has the checksum of the version cached before (up to letter case), it has
    its release date too, and it is never replaced by the time of the fetch. *)
Theorem syncPluginMetadata_keepsReleaseDate plugin cached rest tr plugin' vs d head tl :
  runs (syncPluginMetadata plugin) tr (plugin', vs, d) ->
  soType (psSource (plgSpec plugin)) = "url" ->
  pgAvailableVersions (plgStatus plugin) = cached :: rest ->
  viHash cached <> "" -> IsZero (viReleasedAt cached) = false ->
  pgAvailableVersions (plgStatus plugin') = head :: tl ->
  ToLower (viHash head) = ToLower (viHash cached) ->
  viReleasedAt head = viReleasedAt cached.
Proof.
  intros Hr Ht Hv Hh Hz Hv' Heq. revert Hv'.
  apply (proj1 (wp_runs _ (fun _ x => pgAvailableVersions (plgStatus x.1.1) = head :: tl ->
    viReleasedAt head = viReleasedAt cached) [])) with (2 := Hr).
  unfold syncPluginMetadata, fetchPluginMetadata. rewrite Ht. cbn [String.eqb Ascii.eqb Bool.eqb].
  assert (Hsame : forall x : Plugin * list PluginVersion * Duration, sameData plugin x.1.1 ->
    pgAvailableVersions (plgStatus x.1.1) = head :: tl -> viReleasedAt head = viReleasedAt cached).
  { intros x [Hx _]. rewrite Hx, Hv. by intros [= <- <-]. }
  apply wp_bind. eapply wp_mono; [|by apply (wp_fetchURL plugin cached rest)].
  intros h1 [p1 [[vs1 [|]]|e]] [H1 H2]; cbn [fst snd] in *.
  - exact (Hsame (p1, vs1, 0) H1).
  - apply wp_bind. eapply wp_mono; [|apply wp_true]. intros h2 p2 _. unfold convertToPluginVersionInfo, ask.
    cbn [bind call wp]. intros now now2. cbn. destruct vs1 as [|v vs1]; [done|]. intros [= <- <-]. cbn in Heq |- *.
    rewrite (H2 v vs1 eq_refl Heq), Hz. done.
  - repeat match goal with |- wp (if ?b then _ else _) _ _ => destruct b end;
      (eapply wp_mono; [intros h' x Hx; apply Hsame; eapply sameData_trans; [exact H1 | exact Hx]|]);
      first [apply wp_permanentError | apply wp_handleRepositoryError].
Qed.

(** The plugin carries the time at which the run looked at the clock. *)
Definition stamped (p : Plugin) (h : list event) : Prop :=
  exists t, Ev (E := K8s) RNow t ∈ h /\ pgLastFetched (plgStatus p) = Some t.

Lemma stamped_mono p p' h h' : stamped p h -> sameData p p' -> (exists t, h' = h ++ t) -> stamped p' h'.
Proof. intros (t & Hin & Hp) [_ Hs] [u ->]. exists t. split; [set_solver | by rewrite Hs]. Qed.

Lemma sync_stamps plugin vs :
  soType (psSource (plgSpec plugin)) = "hangar" ->
  exists k, syncPluginMetadata plugin = Call (E := K8s) (RPluginVersions (soProject (psSource (plgSpec plugin)))) k /\
    forall h, wp (k (Ok vs)) (fun h' x => stamped x.1.1 h') h.
Proof.
  intros Ht. unfold syncPluginMetadata, fetchPluginMetadata, fetchHangarMetadata, ask. rewrite Ht.
  cbn [String.eqb Ascii.eqb Bool.eqb bind call]. eexists. split; [reflexivity|]. intros h. cbn.
  intros t1 t2 t3. exists t2. split; [set_solver | done].
Qed.

Lemma wp_setCondition_extends p ty st reason msg h :
  wp (setCondition p ty st reason msg) (fun h' p' => (exists t, h' = h ++ t) /\ sameData p p') h.
Proof.
  eapply wp_mono; [|apply wp_extends, sameData_setCondition]. intros h' p' [(t & -> & _) H]. split; [by eexists | done].
Qed.

Lemma statusEqual_lastFetched a b : pgLastFetched a <> pgLastFetched b -> statusEqual a b = false.
Proof.
  intros Hne. destruct (statusEqual a b) eqn:He; [|done]. exfalso. apply Hne.
  unfold statusEqual in He. rewrite !andb_true_iff in He. destruct He as [[[[_ He] _] _] _].
  apply (ptrEqual_spec _ eq _ _ TimeEqual_spec) in He. by inversion He; subst.
Qed.

(** The part of [reconcileLive] after the synchronisation keeps the stamp and ends
    with a status request if the stamp is not the stored one. *)
Lemma wp_live_tail p (original : PluginStatus) (r : result Duration) h :
  stamped p h ->
  wp (p <- match r with
           | Err e => setCondition p conditionTypeReady ConditionFalse "ReconcileError" (errString e)
           | Ok _ => setCondition p conditionTypeReady ConditionTrue "ReconcileSuccess"
                       "Plugin reconciled successfully"
           end ;;
      if negb (isOk r) || negb (statusEqual (plgStatus p) original) then
        u <- ask (RStatusPlugin p) ;;
        Ret (match r, u with Ok _, Err e => Err e | _, _ => r end)
      else Ret r)
     (fun h' _ => (forall t, Ev (E := K8s) RNow t ∈ h' -> pgLastFetched original <> Some t) ->
        exists q y, Ev (E := K8s) (RStatusPlugin q) y ∈ h') h.
Proof.
  intros Hs. apply wp_bind. eapply wp_mono with (Q := fun h' p' => stamped p' h').
  2: { destruct r; (eapply wp_mono; [|apply wp_setCondition_extends]); intros h' p' [Hex Hd]; by eapply stamped_mono. }
  intros h1 p1 (t & Hin & Hp). destruct (_ || _) eqn:Hb.
  - unfold ask. cbn [bind call wp]. intros y _. exists p1, y. apply in_last.
  - intros Hno. apply orb_false_iff in Hb as [_ Hb]. apply negb_false_iff in Hb.
    rewrite statusEqual_lastFetched in Hb; [done|]. rewrite Hp. intros Heq. by apply (Hno t).
Qed.

(** A live Hangar plugin whose versions were fetched is always written: unless the
    clock shows the very time that the stored status carries, the run updates the
    status, even if the repository and the servers are as they were. *)
Theorem reconcileLive_alwaysWrites plugin vs tr r :
  soType (psSource (plgSpec plugin)) = "hangar" ->
  runs (reconcileLive plugin) (Ev (E := K8s) (RPluginVersions (soProject (psSource (plgSpec plugin)))) (Ok vs) :: tr) r ->
  (forall t, Ev (E := K8s) RNow t ∈ tr -> pgLastFetched (plgStatus plugin) <> Some t) ->
  exists p y, Ev (E := K8s) (RStatusPlugin p) y ∈ tr.
Proof.
  intros Ht Hr. destruct (sync_stamps plugin vs Ht) as (k & Hk & Hw).
  unfold reconcileLive, doReconcile in Hr. rewrite Hk in Hr. cbn [bind] in Hr. destruct Hr as (y & tr' & Hev & Hr).
  assert (Hy : y = Ok vs).
  { by apply (f_equal (fun l => match l with existT (RPluginVersions _) x :: _ => x | _ => Ok vs end)) in Hev. }
  subst y. injection Hev as <-. revert Hr. generalize (plgStatus plugin) as original. intros original Hr.
  apply (proj1 (wp_runs _ (fun h' _ => (forall t, Ev (E := K8s) RNow t ∈ h' -> pgLastFetched original <> Some t) ->
    exists q y, Ev (E := K8s) (RStatusPlugin q) y ∈ h') [])) with (2 := Hr).
  apply wp_bind, wp_bind. eapply wp_mono; [|apply Hw]. intros h1 [[p1 vs1] d] H1. cbn [fst] in H1.
  apply wp_bind. eapply wp_mono; [|apply wp_extends, wp_true]. intros h2 m [(t2 & -> & _) _].
  destruct m as [servers|e]; [|apply wp_live_tail; eapply stamped_mono; [exact H1 | done | by eexists]].
  destruct (_ =? _)%nat; [apply wp_live_tail; eapply stamped_mono; [exact H1 | done | by eexists]|].
  apply wp_bind. destruct (negb _).
  - eapply wp_mono; [|apply wp_setCondition_extends]. intros h3 p3 [[t3 ->] Hd]. apply wp_live_tail.
    eapply stamped_mono; [exact H1 | exact Hd | exists (t2 ++ t3); by rewrite app_assoc].
  - apply wp_live_tail. eapply stamped_mono; [exact H1 | done | by eexists].
Qed.
End metadata.

(** ** Evaluated examples *)

(** The finalizer helpers on lists. *)
Module ListFinalizers.
#[global] Instance finalizing : Finalizing := {|
  ContainsFinalizer l f := existsb (String.eqb f) l;
  AddFinalizer l f := if existsb (String.eqb f) l then l else l ++ [f];
  RemoveFinalizer l f := List.filter (fun x => negb (x =? f)%string) l
|}.
End ListFinalizers.

Section witnesses.
Existing Instance ListConditions.conditions.
Existing Instance Exact.selectors.
Existing Instance SplitURLs.simpleURLs.
Existing Instance PlainJar.lib.
Existing Instance LengthDigest.digest.
Existing Instance ListFinalizers.finalizing.

(** One server is gone, one still has the JAR and was asked at time 1, one is done. *)
Definition doomed : Plugin :=
  zeroPlugin
    <| plgMeta := zeroObjectMeta <| Name := "chat" |> <| Namespace := "ns" |>
         <| Finalizers := ["other"; PluginFinalizer] |> <| DeletionTimestamp := Some 1 |> |>
    <| plgStatus := zeroPluginStatus <| pgDeletionProgress :=
         [MkDeletionProgressEntry "gone" "ns" false None (Some 1);
          MkDeletionProgressEntry "stuck" "ns" false None (Some 1);
          MkDeletionProgressEntry "done" "ns" true (Some 5) (Some 1)] |> |>.

Definition stuckServer : PaperMCServer :=
  zeroPaperMCServer
    <| srvMeta := zeroObjectMeta <| Name := "stuck" |> <| Namespace := "ns" |> |>
    <| srvStatus := zeroPaperMCServerStatus <| stPlugins :=
         [MkServerPluginStatus (MkPluginRef "chat" "ns") "1.0" "1.0" "1.0" true "hangar" false "chat.jar"] |> |>.

(** Reads answer the two objects; the clock shows [now]. *)
Definition cluster (now : Time) (plugin : Plugin) (vs : list PluginVersion) (jar : string)
  (h : list event) (r : kreq) : kans r :=
  match r return kans r with
  | RNow => now
  | RGetPlugin _ => Ok plugin
  | RGetServer (_, name) => if (name =? "stuck")%string then Ok stuckServer else Err notFound
  | RPluginVersions _ => Ok vs
  | RDownload _ => Ok (MkHTTPResponse 200 (-1) (Ok jar))
  | RListServers _ => Ok [stuckServer]
  | r => idle r
  end.

Lemma cluster_echoes now plugin vs jar {A} (p : prog A) h :
  (forall e, e ∈ h -> e ∈ (exec (cluster now plugin vs jar) p []).1) -> echoes h.
Proof.
  intros Hin q q' He. destruct (exec_answers _ _ _ _ (Hin _ He)) as [h' Heq]. cbn in Heq. by injection Heq as ->.
Qed.

Definition doomedRun := exec (cluster (20 * Minute) doomed [] "") (Reconcile ("ns", "chat")) [].

(** The requests before the finalizer is removed, and that update. *)
Definition doomedPrefix : list event := take 8 (tail doomedRun.1).

Definition doomedUpdate : Plugin :=
  match drop 8 (tail doomedRun.1) with existT (RUpdatePlugin p) _ :: _ => p | _ => zeroPlugin end.

Lemma doomedRun_runs :
  runs (Reconcile ("ns", "chat")) (Ev (E := K8s) (RGetPlugin ("ns", "chat")) (Ok doomed) ::
    doomedPrefix ++ [Ev (E := K8s) (RUpdatePlugin doomedUpdate) (Ok doomedUpdate)]) (Ok 0).
Proof.
  assert (Htr : doomedRun.1 = Ev (E := K8s) (RGetPlugin ("ns", "chat")) (Ok doomed) ::
    doomedPrefix ++ [Ev (E := K8s) (RUpdatePlugin doomedUpdate) (Ok doomedUpdate)]) by (vm_compute; reflexivity).
  rewrite <- Htr. replace (Ok 0) with doomedRun.2 by (vm_compute; reflexivity). apply exec_runs.
Qed.

Lemma doomedPrefix_echoes : echoes doomedPrefix.
Proof.
  apply (cluster_echoes (20 * Minute) doomed [] "" (Reconcile ("ns", "chat"))). intros e He.
  change (e ∈ doomedRun.1). destruct doomedRun.1 as [|e0 l] eqn:Hl; unfold doomedPrefix in He; rewrite Hl in He.
  - by apply not_elem_of_nil in He.
  - right. by apply elem_of_take in He as (i & Hi & _); apply list_elem_of_lookup_2 in Hi.
Qed.

Lemma Reconcile_finalizer_safe_witness :
  Finalizers (plgMeta doomedUpdate) = ["other"] /\
  exists entries, deletionEntries doomed doomedPrefix entries /\
    forall e, e ∈ entries -> dpJARDeleted e = true \/ accounted doomed e doomedPrefix.
Proof.
  split; [vm_compute; reflexivity|].
  apply (Reconcile_finalizer_safe ("ns", "chat") doomed _ _ doomedPrefix doomedUpdate (Ok doomedUpdate) [] doomedRun_runs).
  - vm_compute. reflexivity.
  - reflexivity.
  - exact doomedPrefix_echoes.
Defined.

(** The same plugin, a reconciliation after the timeout. *)
Definition lateRun := exec (cluster (20 * Minute) doomed [] "") (reconcileDelete doomed) [].

Lemma lateRun_answers (e : event) :
  e ∈ lateRun.1 -> exists h, projT2 e = cluster (20 * Minute) doomed [] "" h (projT1 e).
Proof. apply (exec_answers _ (reconcileDelete doomed) []). Qed.

Lemma lateRun_cooperative : cooperative doomed lateRun.1.
Proof.
  split_and!.
  - by apply (cluster_echoes (20 * Minute) doomed [] "" (reconcileDelete doomed)).
  - intros p y [h Hy]%lateRun_answers. cbn in Hy. by subst y.
  - intros s y [h Hy]%lateRun_answers. cbn in Hy. by subst y.
  - intros [ns n] e [h Hy]%lateRun_answers. cbn in Hy. destruct (n =? "stuck")%string; [done|]. by injection Hy as ->.
  - intros t e req [h Ht]%lateRun_answers He Hreq. cbn in Ht. subst t.
    unfold entries0 in He. cbn in He. repeat (apply elem_of_cons in He as [->|He]; [injection Hreq as <-; by vm_compute|]).
    by apply not_elem_of_nil in He.
Qed.

Lemma reconcileDelete_completes_witness :
  exists q y, Ev (E := K8s) (RUpdatePlugin q) y ∈ lateRun.1 /\ plgKey q = ("ns", "chat") /\
    Finalizers (plgMeta q) = ["other"].
Proof.
  destruct (reconcileDelete_completes doomed lateRun.1 lateRun.2) as (q & y & Hin & Hk & Hf).
  - apply exec_runs.
  - vm_compute. reflexivity.
  - discriminate.
  - intros e He. cbn in He. repeat (apply elem_of_cons in He as [->|He]; [right; by eexists|]).
    by apply not_elem_of_nil in He.
  - exact lateRun_cooperative.
  - exists q, y. split; [exact Hin|]. split; [exact Hk|]. rewrite Hf. vm_compute. reflexivity.
Defined.

(** The digest of the archive "ab". *)
Definition abDigest : string := "0000000000000000000000000000000000000000000000000000000000000002".

(** A URL plugin whose cache is old and whose JAR is the same. *)
Definition urlPlugin : Plugin :=
  zeroPlugin
    <| plgSpec := zeroPluginSpec <| psSource := MkPluginSource "url" "" "https://example.org/chat.jar" "" |> |>
    <| plgStatus := zeroPluginStatus <| pgAvailableVersions :=
         [MkPluginVersionInfo "1.0" [] "https://example.org/chat.jar" abDigest 5 7] |> |>.

Definition refreshed := exec (cluster (48 * Hour) urlPlugin [] "ab") (syncPluginMetadata urlPlugin) [].

Definition refreshedHead : PluginVersionInfo := MkPluginVersionInfo "ab" [] "https://example.org/chat.jar" abDigest (48 * Hour) 7.

Lemma syncPluginMetadata_keepsReleaseDate_witness :
  pgAvailableVersions (plgStatus refreshed.2.1.1) = [refreshedHead] /\ viReleasedAt refreshedHead = 7.
Proof.
  assert (Hv : pgAvailableVersions (plgStatus refreshed.2.1.1) = [refreshedHead]) by (vm_compute; reflexivity).
  split; [exact Hv|].
  refine (syncPluginMetadata_keepsReleaseDate urlPlugin (MkPluginVersionInfo "1.0" [] "https://example.org/chat.jar" abDigest 5 7) []
    refreshed.1 refreshed.2.1.1 refreshed.2.1.2 refreshed.2.2 refreshedHead [] _ eq_refl eq_refl _ eq_refl Hv eq_refl); [|done].
  rewrite <- !surjective_pairing. apply exec_runs.
Defined.

(** A Hangar plugin in the state that its last reconciliation left. *)
Definition hangarVersion : PluginVersion := MkPluginVersion "2.0" 3 [] ["1.21"] "https://hangar.papermc.io/chat.jar" "ab".

Definition settled (now : Time) : Plugin :=
  let p := zeroPlugin <| plgSpec := zeroPluginSpec <| psSource := MkPluginSource "hangar" "chat" "" "" |> |> in
  (exec (cluster now p [hangarVersion] "") (doReconcile p) []).2.1.

#[local] Notation again := (exec (cluster 200 (settled 100) [hangarVersion] "") (reconcileLive (settled 100)) []).

Lemma again_runs :
  runs (reconcileLive (settled 100))
    (Ev (E := K8s) (RPluginVersions (soProject (psSource (plgSpec (settled 100))))) (Ok [hangarVersion]) :: tail again.1)
    again.2.
Proof.
  assert (Htr : again.1 = Ev (E := K8s) (RPluginVersions (soProject (psSource (plgSpec (settled 100)))))
    (Ok [hangarVersion]) :: tail again.1) by (vm_compute; reflexivity).
  assert (Hr : runs (reconcileLive (settled 100)) again.1 again.2) by apply exec_runs.
  rewrite Htr in Hr. exact Hr.
Qed.

Lemma tail_clock env {A} (p : prog A) h t now :
  (forall h', env h' RNow = now) -> Ev (E := K8s) RNow t ∈ tail (exec env p h).1 -> t = now.
Proof.
  intros He Hin. destruct (exec_answers env p h (Ev (E := K8s) RNow t)) as [h' Ht]; [|by rewrite He in Ht].
  destruct (exec env p h).1; [by apply not_elem_of_nil in Hin | by right].
Qed.

Lemma reconcileLive_alwaysWrites_witness :
  pgLastFetched (plgStatus (settled 100)) = Some 100 /\
  exists p y, Ev (E := K8s) (RStatusPlugin p) y ∈ tail again.1.
Proof.
  split; [vm_compute; reflexivity|].
  apply (reconcileLive_alwaysWrites (settled 100) [hangarVersion] (tail again.1) again.2).
  - vm_compute. reflexivity.
  - exact again_runs.
  - intros t Hin. apply (tail_clock _ _ _ t 200) in Hin; [subst t | reflexivity].
    assert (Hl : pgLastFetched (plgStatus (settled 100)) = Some 100) by (vm_compute; reflexivity).
    rewrite Hl. discriminate.
Defined.
End witnesses.
