(* ===== verification/Webhook.v ===== *)
(** * Admission webhooks (api/v1beta1/papermcserver_webhook.go, plugin_webhook.go)

    The validators of both resources, error by error.  A [field.Path] is the list
    of its elements, a [field.ErrorList] the list of its errors; the aggregate
    error is nil exactly when the list is empty. *)

From S2P Require Import Prelude GoBase Decimals Strings Regex Api Window Url.
From Stdlib Require Import Ascii.

Open Scope Z_scope.

(** ** Package field *)

Inductive PathElem := PName (name : string) | PIndex (i : nat).

Definition Path : Type := list PathElem.

Definition Child (p : Path) (names : list string) : Path := p ++ map PName names.
Definition Index (p : Path) (i : nat) : Path := p ++ [PIndex i].

Inductive BadValue := BadString (s : string) | BadInt (z : Z).

Inductive FieldError :=
  | Required (p : Path) (detail : string)
  | Invalid (p : Path) (value : BadValue) (detail : string)
  | NotSupported (p : Path) (value : string) (supported : list string)
  | Forbidden (p : Path) (detail : string)
  | Duplicate (p : Path) (value : string).

Abbreviation ErrorList := (list FieldError) (only parsing).

Definition specPath : Path := [PName "spec"].

(** The error, if any, with all its causes. *)
Definition invalidIfNotEmpty (errs : ErrorList) : option ErrorList :=
  match errs with [] => None | _ => Some errs end.

(** ** Patterns *)

Definition strategyLatest : string := "latest".
Definition strategyAuto : string := "auto".
Definition strategyPin : string := "pin".
Definition strategyBuildPin : string := "build-pin".
Definition sourceTypeHangar : string := "hangar".
Definition sourceTypeURL : string := "url".
Definition protocolTCP : string := "TCP".
Definition protocolUDP : string := "UDP".
Definition protocolHTTP : string := "HTTP".

Definition isAlnumLower (c : Ascii.ascii) : bool := isLower c || isDigit c.

(** [[a-z0-9]([a-z0-9-]*[a-z0-9])?] *)
Definition labelPattern : re :=
  Seq (Chr isAlnumLower) (Opt (Seq (Star (Chr (fun c => isAlnumLower c || isChar "-"%char c))) (Chr isAlnumLower))).

(** [^LABEL(\.LABEL)*$] *)
Definition hostnamePattern : re := Seq labelPattern (Star (Seq (Chr (isChar "."%char)) labelPattern)).

(** [^[0-9a-f]{64}$] *)
Definition isHexLower (c : Ascii.ascii) : bool :=
  isDigit c || (let n := Ascii.nat_of_ascii c in (97 <=? n)%nat && (n <=? 102)%nat).
Definition sha256Pattern : re := Rep 64 (Chr isHexLower).

(** [^[a-zA-Z0-9._/-]+$] *)
Definition shellSafe (c : Ascii.ascii) : bool :=
  isLower c || isUpper c || isDigit c || isChar "."%char c || isChar "_"%char c || isChar "/"%char c || isChar "-"%char c.
Definition safeShellPattern : re := Plus (Chr shellSafe).

Definition containsShellUnsafeChars (s : string) : bool := negb (MatchString safeShellPattern s).

(** ** Names and configuration files *)

Definition dquote : string := String (Ascii.ascii_of_nat 34) EmptyString.

Definition unsafeNameMessage : string :=
  "must not contain shell-unsafe characters ('" +:+ dquote +:+ "', " +:+ dquote +:+ "'" +:+ dquote +:+
  ", '`', '$', '\', newline, carriage return)".

Definition validateSafeName (name : string) (fldPath : Path) : ErrorList :=
  (if Contains name "/" || Contains name ".."
   then [Invalid fldPath (BadString name) "must not contain '/' or '..'"] else []) ++
  (if containsShellUnsafeChars name
   then [Invalid fldPath (BadString name) unsafeNameMessage] else []).

Definition validateConfigFile (ref : ConfigMapKeyRef) (path : string) (fldPath : Path) : ErrorList :=
  (if (path =? "")%string then [Required (Child fldPath ["path"]) "path is required"]
   else
     (if HasPrefix path "/" then [Invalid (Child fldPath ["path"]) (BadString path) "must be a relative path, not starting with '/'"] else []) ++
     (if Contains path ".." then [Invalid (Child fldPath ["path"]) (BadString path) "must not contain '..' (path traversal)"] else []) ++
     (if containsShellUnsafeChars path then [Invalid (Child fldPath ["path"]) (BadString path)
        "must not contain shell-unsafe characters (quotes, backticks, $, backslash, newlines)"] else [])) ++
  (if (ckName ref =? "")%string then [Required (Child fldPath ["configMapRef"; "name"]) "ConfigMap name is required"]
   else validateSafeName (ckName ref) (Child fldPath ["configMapRef"; "name"])) ++
  (if (ckKey ref =? "")%string then [Required (Child fldPath ["configMapRef"; "key"]) "ConfigMap key is required"]
   else if containsShellUnsafeChars (ckKey ref)
   then [Invalid (Child fldPath ["configMapRef"; "key"]) (BadString (ckKey ref)) "must not contain shell-unsafe characters"]
   else []).

(** A key that must not repeat: the error and the keys seen so far. *)
Definition noteSeen {K} `{Countable K} (seen : gset K) (k : K) (err : FieldError) : ErrorList * gset K :=
  if bool_decide (k ∈ seen) then ([err], seen) else ([], {[k]} ∪ seen).

(** The loop over configuration files, at index [j] of the list at [at_]; empty
    paths are not compared. *)
Fixpoint configFiles (at_ : Path) (j : nat) (seenPaths : gset string) (l : list (ConfigMapKeyRef * string)) : ErrorList :=
  match l with
  | [] => []
  | (ref, path) :: l =>
      let cfgPath := Index at_ j in
      let '(dup, seenPaths) :=
        if (path =? "")%string then ([], seenPaths)
        else noteSeen seenPaths path (Duplicate (Child cfgPath ["path"]) path) in
      validateConfigFile ref path cfgPath ++ dup ++ configFiles at_ (S j) seenPaths l
  end.

Definition pluginFile (cfg : PluginConfigFile) : ConfigMapKeyRef * string := (pfConfigMapRef cfg, pfPath cfg).
Definition serverFile (cfg : ServerConfigFile) : ConfigMapKeyRef * string := (sfConfigMapRef cfg, sfPath cfg).

(** ** papermcserver_webhook.go *)

(** The strategy, the version and the build: one switch for servers and plugins. *)
Definition validateStrategy (strategy version : string) (build : option Z) (specPath : Path) : ErrorList :=
  if (strategy =? strategyLatest)%string || (strategy =? strategyAuto)%string then []
  else if (strategy =? strategyPin)%string then
    (if (version =? "")%string then [Required (Child specPath ["version"]) "version is required for 'pin' strategy"] else [])
  else if (strategy =? strategyBuildPin)%string then
    (if (version =? "")%string then [Required (Child specPath ["version"]) "version is required for 'build-pin' strategy"] else []) ++
    (match build with
     | None => [Required (Child specPath ["build"]) "build is required for 'build-pin' strategy"]
     | Some _ => []
     end)
  else [NotSupported (Child specPath ["updateStrategy"]) strategy
          [strategyLatest; strategyAuto; strategyPin; strategyBuildPin]].

Definition validateServerStrategy (s : PaperMCServer) (specPath : Path) : ErrorList :=
  validateStrategy (ssUpdateStrategy (srvSpec s)) (ssVersion (srvSpec s)) (ssBuild (srvSpec s)) specPath.

(** One expression that must parse. *)
Definition validateCron {CR : Cron} (expr : string) (p : Path) : ErrorList :=
  match ParseCron expr with
  | Ok _ => []
  | Err err => [Invalid p (BadString expr) ("invalid cron expression: " +:+ errString err)]
  end.

Definition validateCronExpressions {CR : Cron} (s : PaperMCServer) (specPath : Path) : ErrorList :=
  let schedulePath := Child specPath ["updateSchedule"] in
  let us := ssUpdateSchedule (srvSpec s) in
  validateCron (usCheckCron us) (Child schedulePath ["checkCron"]) ++
  (if mwEnabled (usMaintenanceWindow us)
   then validateCron (mwCron (usMaintenanceWindow us)) (Child schedulePath ["maintenanceWindow"; "cron"]) else []).

Definition validateRCON (s : PaperMCServer) (specPath : Path) : ErrorList :=
  let rcon := ssRCON (srvSpec s) in
  if negb (rcEnabled rcon) then []
  else
    let rconPath := Child specPath ["rcon"; "passwordSecret"] in
    (if (skName (rcPasswordSecret rcon) =? "")%string
     then [Required (Child rconPath ["name"]) "secret name is required when RCON is enabled"] else []) ++
    (if (skKey (rcPasswordSecret rcon) =? "")%string
     then [Required (Child rconPath ["key"]) "secret key is required when RCON is enabled"] else []).

Definition validateBackup {CR : Cron} (s : PaperMCServer) (specPath : Path) : ErrorList :=
  match ssBackup (srvSpec s) with
  | None => []
  | Some backup =>
      if negb (bsEnabled backup) then []
      else if negb (bsSchedule backup =? "")%string
      then validateCron (bsSchedule backup) (Child specPath ["backup"; "schedule"])
      else []
  end.

(** The loop over HTTP routes. *)
Fixpoint httpRoutes (routesPath : Path) (i : nat) (seenPluginEndpoint seenHostPath : gset string)
  (routes : list PluginHTTPRoute) : ErrorList :=
  match routes with
  | [] => []
  | route :: routes =>
      let routePath := Index routesPath i in
      let '(dupEndpoint, seenPluginEndpoint) :=
        if negb (hrPluginName route =? "")%string && negb (hrEndpointName route =? "")%string
        then noteSeen seenPluginEndpoint (hrPluginName route +:+ "/" +:+ hrEndpointName route)
               (Duplicate routePath (hrPluginName route +:+ "/" +:+ hrEndpointName route))
        else ([], seenPluginEndpoint) in
      let '(dupHost, seenHostPath) :=
        if negb (hrHostname route =? "")%string
        then noteSeen seenHostPath (hrHostname route +:+ "|" +:+ hrPathPrefix route)
               (Duplicate routePath ("hostname=" +:+ hrHostname route +:+ " pathPrefix=" +:+ hrPathPrefix route))
        else ([], seenHostPath) in
      (if (hrPluginName route =? "")%string then [Required (Child routePath ["pluginName"]) "pluginName is required"] else []) ++
      (if (hrEndpointName route =? "")%string then [Required (Child routePath ["endpointName"]) "endpointName is required"] else []) ++
      (if (hrHostname route =? "")%string then [Required (Child routePath ["hostname"]) "hostname is required"]
       else if negb (MatchString hostnamePattern (ToLower (hrHostname route)))
       then [Invalid (Child routePath ["hostname"]) (BadString (hrHostname route)) "must be a valid RFC 1123 hostname"]
       else []) ++
      (if negb (hrPathPrefix route =? "")%string && negb (HasPrefix (hrPathPrefix route) "/")
       then [Invalid (Child routePath ["pathPrefix"]) (BadString (hrPathPrefix route)) "pathPrefix must start with '/'"]
       else []) ++
      dupEndpoint ++ dupHost ++ httpRoutes routesPath (S i) seenPluginEndpoint seenHostPath routes
  end.

Definition validateHTTPRoutes (routes : list PluginHTTPRoute) (gwPath : Path) : ErrorList :=
  httpRoutes (Child gwPath ["httpRoutes"]) 0 ∅ ∅ routes.

Definition validateGateway (s : PaperMCServer) (specPath : Path) : ErrorList :=
  match ssGateway (srvSpec s) with
  | None => []
  | Some gw =>
      let gwPath := Child specPath ["gateway"] in
      let forbidden := if negb (gwEnabled gw) && (0 <? length (gwHTTPRoutes gw))%nat
                       then [Forbidden (Child gwPath ["httpRoutes"]) "httpRoutes require gateway.enabled=true"] else [] in
      if negb (gwEnabled gw) then forbidden
      else forbidden ++
        (if (length (gwParentRefs gw) =? 0)%nat
         then [Required (Child gwPath ["parentRefs"]) "at least one parentRef is required when gateway is enabled"] else []) ++
        validateHTTPRoutes (gwHTTPRoutes gw) gwPath
  end.

(** The loop over the plugin configurations of a server. *)
Fixpoint serverPluginConfigs (pluginConfigsPath : Path) (i : nat) (seenPluginNames : gset string)
  (l : list ServerPluginConfig) : ErrorList :=
  match l with
  | [] => []
  | pc :: l =>
      let pcPath := Index pluginConfigsPath i in
      let namePath := Child pcPath ["pluginName"] in
      let '(errs, seenPluginNames) :=
        if (scPluginName pc =? "")%string then ([Required namePath "pluginName is required"], seenPluginNames)
        else
          let '(dup, seen) := noteSeen seenPluginNames (scPluginName pc) (Duplicate namePath (scPluginName pc)) in
          (validateSafeName (scPluginName pc) namePath ++ dup, seen) in
      errs ++ configFiles (Child pcPath ["configs"]) 0 ∅ (map pluginFile (scConfigs pc)) ++
      serverPluginConfigs pluginConfigsPath (S i) seenPluginNames l
  end.

Definition validateServerPluginConfigs (s : PaperMCServer) (specPath : Path) : ErrorList :=
  serverPluginConfigs (Child specPath ["pluginConfigs"]) 0 ∅ (ssPluginConfigs (srvSpec s)).

Definition validateServerConfigFiles (s : PaperMCServer) (specPath : Path) : ErrorList :=
  configFiles (Child specPath ["serverConfigs"]) 0 ∅ (map serverFile (ssServerConfigs (srvSpec s))).

(** [PaperMCServerValidator.validate]; there are no warnings. *)
Definition validateServer {CR : Cron} (s : PaperMCServer) : option ErrorList :=
  invalidIfNotEmpty
    (validateServerStrategy s specPath ++ validateCronExpressions s specPath ++ validateRCON s specPath ++
     validateBackup s specPath ++ validateGateway s specPath ++ validateServerPluginConfigs s specPath ++
     validateServerConfigFiles s specPath).

(** ** plugin_webhook.go *)

Definition validateURLSource {UR : URLs} (p : Plugin) (specPath : Path) : list string * ErrorList :=
  let urlPath_ := Child specPath ["source"; "url"] in
  let url := soURL (psSource (plgSpec p)) in
  if (url =? "")%string then ([], [Required urlPath_ "url is required for source type 'url'"])
  else match urlParse url with
       | Err err => ([], [Invalid urlPath_ (BadString url) ("invalid URL: " +:+ errString err)])
       | Ok (scheme, host) =>
           (if negb (HasSuffix (ToLower (urlPath url)) ".jar")
            then ["spec.source.url path does not end in .jar; ensure the URL points to a valid plugin JAR"] else [],
            (if negb (scheme =? "https")%string then [Invalid urlPath_ (BadString url) "only https URLs are allowed"] else []) ++
            (if (host =? "")%string then [Invalid urlPath_ (BadString url) "URL must include a host"] else []))
       end.

Definition validatePluginStrategy (p : Plugin) (specPath : Path) : ErrorList :=
  validateStrategy (psUpdateStrategy (plgSpec p)) (psVersion (plgSpec p)) (psBuild (plgSpec p)) specPath.

(** The protocol of an endpoint, TCP by default. *)
Definition endpointProtocol (ep : PluginEndpoint) : string :=
  if (peProtocol ep =? "")%string then protocolTCP else peProtocol ep.

Fixpoint endpoints (epsPath : Path) (i : nat) (seenNames : gset string) (seenPortProto : gset (Z * string))
  (l : list PluginEndpoint) : ErrorList :=
  match l with
  | [] => []
  | ep :: l =>
      let epPath := Index epsPath i in
      let '(nameErrs, seenNames) :=
        if (peName ep =? "")%string then ([Required (Child epPath ["name"]) "endpoint name is required"], seenNames)
        else noteSeen seenNames (peName ep) (Duplicate (Child epPath ["name"]) (peName ep)) in
      let portErrs := if (pePort ep <? 1) || (65535 <? pePort ep)
                      then [Invalid (Child epPath ["port"]) (BadInt (pePort ep)) "port must be between 1 and 65535"] else [] in
      let proto := endpointProtocol ep in
      let protoErrs :=
        if (proto =? protocolTCP)%string || (proto =? protocolUDP)%string || (proto =? protocolHTTP)%string then []
        else [NotSupported (Child epPath ["protocol"]) (peProtocol ep) [protocolTCP; protocolUDP; protocolHTTP]] in
      let '(dup, seenPortProto) :=
        noteSeen seenPortProto (pePort ep, proto) (Duplicate (Child epPath ["port"]) (pretty (pePort ep) +:+ "/" +:+ proto)) in
      nameErrs ++ portErrs ++ protoErrs ++ dup ++ endpoints epsPath (S i) seenNames seenPortProto l
  end.

Definition validateEndpoints (p : Plugin) (specPath : Path) : ErrorList :=
  endpoints (Child specPath ["endpoints"]) 0 ∅ ∅ (psEndpoints (plgSpec p)).

Definition validatePluginConfigs (p : Plugin) (specPath : Path) : ErrorList :=
  if (length (psConfigs (plgSpec p)) =? 0)%nat then []
  else
    (if (psPluginDirName (plgSpec p) =? "")%string
     then [Required (Child specPath ["pluginDirName"]) "pluginDirName is required when configs are specified"]
     else validateSafeName (psPluginDirName (plgSpec p)) (Child specPath ["pluginDirName"])) ++
    configFiles (Child specPath ["configs"]) 0 ∅ (map pluginFile (psConfigs (plgSpec p))).

(** The switch on the source type: warnings and errors. *)
Definition validateSource {UR : URLs} (p : Plugin) (specPath : Path) : list string * ErrorList :=
  let src := psSource (plgSpec p) in
  if (soType src =? sourceTypeHangar)%string then
    ([], if (soProject src =? "")%string
         then [Required (Child specPath ["source"; "project"]) "project is required for source type 'hangar'"] else [])
  else if (soType src =? sourceTypeURL)%string then
    let '(urlWarnings, urlErrs) := validateURLSource p specPath in
    if (soChecksum src =? "")%string
    then (urlWarnings ++ ["spec.source.checksum is not set; downloads will not be integrity-verified"], urlErrs)
    else if negb (MatchString sha256Pattern (ToLower (soChecksum src)))
    then (urlWarnings, urlErrs ++ [Invalid (Child specPath ["source"; "checksum"]) (BadString (soChecksum src))
                                     "checksum must be a valid SHA256 hex string (64 hex characters)"])
    else (urlWarnings, urlErrs)
  else ([], [NotSupported (Child specPath ["source"; "type"]) (soType src) [sourceTypeHangar; sourceTypeURL]]).

(** [PluginValidator.validate]: the warnings and the error. *)
Definition validatePlugin {UR : URLs} (p : Plugin) : list string * option ErrorList :=
  let src := psSource (plgSpec p) in
  let projectErrs := if negb (soProject src =? "")%string
                     then validateSafeName (soProject src) (Child specPath ["source"; "project"]) else [] in
  let '(warnings, sourceErrs) := validateSource p specPath in
  (warnings, invalidIfNotEmpty
     (projectErrs ++ sourceErrs ++ validatePluginStrategy p specPath ++ validateEndpoints p specPath ++
      validatePluginConfigs p specPath)).

(** ** What the validators accept *)

Definition safeName (n : string) : Prop :=
  n <> "" /\ str_all shellSafe n = true /\ Contains n "/" = false /\ Contains n ".." = false.

Definition safePath (path : string) : Prop :=
  path <> "" /\ str_all shellSafe path = true /\ HasPrefix path "/" = false /\ Contains path ".." = false.

Definition validFile (f : ConfigMapKeyRef * string) : Prop :=
  safePath f.2 /\ safeName (ckName f.1) /\ ckKey f.1 <> "" /\ str_all shellSafe (ckKey f.1) = true.

Definition validFiles (l : list (ConfigMapKeyRef * string)) : Prop := Forall validFile l /\ NoDup (map snd l).

Definition validStrategy (strategy version : string) (build : option Z) : Prop :=
  strategy = strategyLatest \/ strategy = strategyAuto \/ (strategy = strategyPin /\ version <> "") \/
  (strategy = strategyBuildPin /\ version <> "" /\ is_Some build).

Definition validRoute (r : PluginHTTPRoute) : Prop :=
  hrPluginName r <> "" /\ hrEndpointName r <> "" /\ hrHostname r <> "" /\
  denotes hostnamePattern (ToLower (hrHostname r)) /\
  (hrPathPrefix r = "" \/ HasPrefix (hrPathPrefix r) "/" = true).

Definition endpointKey (r : PluginHTTPRoute) : string := hrPluginName r +:+ "/" +:+ hrEndpointName r.
Definition hostKey (r : PluginHTTPRoute) : string := hrHostname r +:+ "|" +:+ hrPathPrefix r.

Definition validEndpoint (ep : PluginEndpoint) : Prop :=
  peName ep <> "" /\ 1 <= pePort ep <= 65535 /\
  (endpointProtocol ep = protocolTCP \/ endpointProtocol ep = protocolUDP \/ endpointProtocol ep = protocolHTTP).

Definition portKey (ep : PluginEndpoint) : Z * string := (pePort ep, endpointProtocol ep).

Record ValidServer {CR : Cron} (s : PaperMCServer) : Prop := {
  vs_strategy : validStrategy (ssUpdateStrategy (srvSpec s)) (ssVersion (srvSpec s)) (ssBuild (srvSpec s));
  vs_check : isOk (ParseCron (usCheckCron (ssUpdateSchedule (srvSpec s)))) = true;
  vs_window : let w := usMaintenanceWindow (ssUpdateSchedule (srvSpec s)) in
    mwEnabled w = true -> isOk (ParseCron (mwCron w)) = true;
  vs_rcon : rcEnabled (ssRCON (srvSpec s)) = true ->
    skName (rcPasswordSecret (ssRCON (srvSpec s))) <> "" /\ skKey (rcPasswordSecret (ssRCON (srvSpec s))) <> "";
  vs_backup : forall b, ssBackup (srvSpec s) = Some b -> bsEnabled b = true -> bsSchedule b <> "" ->
    isOk (ParseCron (bsSchedule b)) = true;
  vs_gateway : forall gw, ssGateway (srvSpec s) = Some gw ->
    if gwEnabled gw
    then gwParentRefs gw <> [] /\ Forall validRoute (gwHTTPRoutes gw) /\
         NoDup (map endpointKey (gwHTTPRoutes gw)) /\ NoDup (map hostKey (gwHTTPRoutes gw))
    else gwHTTPRoutes gw = [];
  vs_plugins : Forall (fun pc => safeName (scPluginName pc) /\ validFiles (map pluginFile (scConfigs pc)))
    (ssPluginConfigs (srvSpec s)) /\ NoDup (map scPluginName (ssPluginConfigs (srvSpec s)));
  vs_files : validFiles (map serverFile (ssServerConfigs (srvSpec s)))
}.

Definition validSource {UR : URLs} (src : PluginSource) : Prop :=
  (soProject src <> "" -> safeName (soProject src)) /\
  ((soType src = sourceTypeHangar /\ soProject src <> "") \/
   (soType src = sourceTypeURL /\ soURL src <> "" /\
    (exists host, urlParse (soURL src) = Ok ("https", host) /\ host <> "") /\
    (soChecksum src = "" \/ denotes sha256Pattern (ToLower (soChecksum src))))).

Record ValidPlugin {UR : URLs} (p : Plugin) : Prop := {
  vp_source : validSource (psSource (plgSpec p));
  vp_strategy : validStrategy (psUpdateStrategy (plgSpec p)) (psVersion (plgSpec p)) (psBuild (plgSpec p));
  vp_endpoints : Forall validEndpoint (psEndpoints (plgSpec p)) /\ NoDup (map peName (psEndpoints (plgSpec p))) /\
    NoDup (map portKey (psEndpoints (plgSpec p)));
  vp_configs : psConfigs (plgSpec p) <> [] ->
    safeName (psPluginDirName (plgSpec p)) /\ validFiles (map pluginFile (psConfigs (plgSpec p)))
}.

(** ** Error lists that are empty *)

Lemma app_nil_iff {A} (a b : list A) : a ++ b = [] <-> a = [] /\ b = [].
Proof. destruct a; naive_solver. Qed.

(** An error that is raised by a test. *)
Lemma if_error (b : bool) (e : FieldError) : (if b then [e] else []) = [] <-> b = false.
Proof. by destruct b. Qed.

Lemma else_error (b : bool) (e : FieldError) (l : ErrorList) : (if b then [e] else l) = [] <-> b = false /\ l = [].
Proof. destruct b; naive_solver. Qed.

Lemma noteSeen_nil {K} `{Countable K} (seen : gset K) k err seen' :
  noteSeen seen k err = ([], seen') <-> k ∉ seen /\ seen' = {[k]} ∪ seen.
Proof. unfold noteSeen. case_bool_decide; naive_solver. Qed.

Lemma unsafe_false s : containsShellUnsafeChars s = false <-> s <> "" /\ str_all shellSafe s = true.
Proof.
  unfold containsShellUnsafeChars, safeShellPattern. by rewrite negb_false_iff, MatchString_spec, plus_chr.
Qed.

Lemma validateSafeName_nil n p : validateSafeName n p = [] <-> safeName n.
Proof.
  unfold validateSafeName, safeName. rewrite app_nil_iff, !if_error, orb_false_iff, unsafe_false. tauto.
Qed.

Lemma eqb_empty s : (s =? "")%string = false <-> s <> "".
Proof. apply String.eqb_neq. Qed.

Lemma validateConfigFile_nil ref path p : validateConfigFile ref path p = [] <-> validFile (ref, path).
Proof.
  unfold validateConfigFile, validFile, safePath.
  rewrite !app_nil_iff, !else_error, !app_nil_iff, !if_error, !unsafe_false, validateSafeName_nil, !eqb_empty.
  cbn. unfold safeName. tauto.
Qed.

(** A key with those before it is new and the keys after it are new. *)
Lemma seen_cons {K} `{Countable K} (seen : gset K) k (l : list K) :
  (k ∉ seen /\ NoDup l /\ (forall x, x ∈ l -> x ∉ ({[k]} ∪ seen : gset K))) <->
  (NoDup (k :: l) /\ forall x, x ∈ k :: l -> x ∉ seen).
Proof.
  rewrite NoDup_cons. split.
  - intros (Hk & Hl & Hx). split_and!; [|done|].
    + intros Hin. specialize (Hx k Hin). set_solver.
    + intros x [->|Hin]%elem_of_cons; [done|]. specialize (Hx x Hin). set_solver.
  - intros [[Hk Hl] Hx]. split_and!; [apply Hx; set_solver | done|].
    intros x Hin. specialize (Hx x ltac:(set_solver)). set_solver.
Qed.

Lemma configFiles_nil at_ j seen l :
  configFiles at_ j seen l = [] <->
  Forall validFile l /\ NoDup (map snd l) /\ forall x, x ∈ map snd l -> x ∉ seen.
Proof.
  revert j seen. induction l as [|[ref path] l IH]; intros j seen; cbn [configFiles map snd].
  { split; [intros _; split_and!; [constructor | constructor | by intros x ?%not_elem_of_nil] | done]. }
  rewrite Forall_cons, <- seen_cons. destruct (String.eqb_spec path "") as [->|Hne].
  - rewrite !app_nil_iff, validateConfigFile_nil. unfold validFile, safePath. cbn. naive_solver.
  - destruct (noteSeen seen path _) as [dup seen'] eqn:Hn.
    rewrite !app_nil_iff, validateConfigFile_nil. destruct dup as [|e dup].
    + apply noteSeen_nil in Hn as [Hk ->]. rewrite IH. naive_solver.
    + split; [by intros (_ & ? & _)|]. intros ([Hv _] & Hk & _).
      unfold noteSeen in Hn. rewrite bool_decide_eq_false_2 in Hn by done. done.
Qed.

Lemma configFiles_valid at_ j l : configFiles at_ j ∅ l = [] <-> validFiles l.
Proof. rewrite configFiles_nil. unfold validFiles. set_solver. Qed.

Lemma validateStrategy_nil st v b p : validateStrategy st v b p = [] <-> validStrategy st v b.
Proof.
  unfold validateStrategy, validStrategy.
  destruct (String.eqb_spec st strategyLatest) as [->|H1]; cbn [orb]; [naive_solver|].
  destruct (String.eqb_spec st strategyAuto) as [->|H2]; [naive_solver|].
  destruct (String.eqb_spec st strategyPin) as [->|H3].
  - rewrite if_error, eqb_empty. split; [auto 6|]. intros [?|[?|[[? ?]|[? _]]]]; done.
  - destruct (String.eqb_spec st strategyBuildPin) as [->|H4]; [|naive_solver].
    rewrite app_nil_iff, if_error, eqb_empty. destruct b as [b|]; split.
    + intros [? _]. right. right. right. eauto.
    + intros [?|[?|[[? ?]|(_ & ? & _)]]]; done.
    + by intros [_ ?].
    + intros [?|[?|[[? ?]|(_ & _ & [? ?])]]]; done.
Qed.

Lemma validateCron_nil {CR : Cron} expr p : validateCron expr p = [] <-> isOk (ParseCron expr) = true.
Proof. unfold validateCron. destruct (ParseCron expr); naive_solver. Qed.

(** A test for repetition that is made under a condition [c]. *)
Lemma seen_when {K} `{Countable K} (c : bool) (seen : gset K) k err dup seen' :
  (if c then noteSeen seen k err else ([], seen)) = (dup, seen') -> c = true ->
  (dup = [] <-> k ∉ seen) /\ (k ∉ seen -> seen' = {[k]} ∪ seen).
Proof. intros Hn ->. unfold noteSeen in Hn. case_bool_decide; injection Hn as <- <-; naive_solver. Qed.

Lemma nonempty_and a b : negb (a =? "")%string && negb (b =? "")%string = true <-> a <> "" /\ b <> "".
Proof. by rewrite andb_true_iff, !negb_true_iff, !eqb_empty. Qed.

Lemma httpRoutes_nil p i sp sh l :
  httpRoutes p i sp sh l = [] <->
  Forall validRoute l /\ (NoDup (map endpointKey l) /\ forall x, x ∈ map endpointKey l -> x ∉ sp) /\
  (NoDup (map hostKey l) /\ forall x, x ∈ map hostKey l -> x ∉ sh).
Proof.
  revert i sp sh. induction l as [|r l IH]; intros i sp sh; cbn [httpRoutes map].
  { split; [intros _; split_and!; [constructor | constructor | | constructor |]; by intros x ?%not_elem_of_nil | done]. }
  fold (endpointKey r) (hostKey r).
  destruct (if negb (hrPluginName r =? "")%string && negb (hrEndpointName r =? "")%string then _ else _) as [de sp'] eqn:Hde.
  destruct (if negb (hrHostname r =? "")%string then _ else _) as [dh sh'] eqn:Hdh.
  pose proof (seen_when _ _ _ _ _ _ Hde) as Ed. rewrite nonempty_and in Ed.
  pose proof (seen_when _ _ _ _ _ _ Hdh) as Eh. rewrite negb_true_iff, eqb_empty in Eh.
  rewrite Forall_cons, <- !seen_cons, !app_nil_iff, !if_error, else_error, if_error, !eqb_empty, !negb_false_iff,
    MatchString_spec, andb_false_iff, !negb_false_iff, String.eqb_eq, IH.
  unfold validRoute at 2. clear Hde Hdh IH. split.
  - intros (Hp & He & (Hh & Hm) & Hx & Hk & Hk2 & Hl & Ha & Hb).
    destruct (Ed (conj Hp He)) as [Ek Es], (Eh Hh) as [Ek2 Es2]. rewrite Es in Ha by tauto. rewrite Es2 in Hb by tauto. tauto.
  - intros (((Hp & He & Hh & Hm & Hx) & Hl) & (Hk & Ha) & (Hk2 & Hb)).
    destruct (Ed (conj Hp He)) as [Ek Es], (Eh Hh) as [Ek2 Es2]. rewrite Es, Es2 by done. tauto.
Qed.

Lemma httpRoutes_valid p l :
  validateHTTPRoutes l p = [] <-> Forall validRoute l /\ NoDup (map endpointKey l) /\ NoDup (map hostKey l).
Proof. unfold validateHTTPRoutes. rewrite httpRoutes_nil. set_solver. Qed.

Lemma serverPluginConfigs_nil p i seen l :
  serverPluginConfigs p i seen l = [] <->
  Forall (fun pc => safeName (scPluginName pc) /\ validFiles (map pluginFile (scConfigs pc))) l /\
  NoDup (map scPluginName l) /\ forall x, x ∈ map scPluginName l -> x ∉ seen.
Proof.
  revert i seen. induction l as [|pc l IH]; intros i seen; cbn [serverPluginConfigs map].
  { split; [intros _; split_and!; [constructor | constructor | by intros x ?%not_elem_of_nil] | done]. }
  rewrite Forall_cons, <- seen_cons. destruct (String.eqb_spec (scPluginName pc) "") as [He|Hne].
  { split; [done|]. by intros [[[[? _] _] _] _]. }
  destruct (noteSeen seen (scPluginName pc) _) as [dup seen'] eqn:Hn.
  destruct (seen_when true _ _ _ _ _ Hn eq_refl) as [Ek Es].
  rewrite !app_nil_iff, validateSafeName_nil, configFiles_valid, IH, Ek. split.
  - intros ((? & Hk) & ? & ? & ? & Hx). rewrite Es in Hx by done. tauto.
  - intros ([[? ?] ?] & Hk & ? & Hx). rewrite Es by done. tauto.
Qed.

Lemma endpoints_nil p i sn sp l :
  endpoints p i sn sp l = [] <->
  Forall validEndpoint l /\ (NoDup (map peName l) /\ forall x, x ∈ map peName l -> x ∉ sn) /\
  (NoDup (map portKey l) /\ forall x, x ∈ map portKey l -> x ∉ sp).
Proof.
  revert i sn sp. induction l as [|ep l IH]; intros i sn sp; cbn [endpoints map].
  { split; [intros _; split_and!; [constructor | constructor | | constructor |]; by intros x ?%not_elem_of_nil | done]. }
  fold (portKey ep). rewrite Forall_cons, <- !seen_cons. unfold validEndpoint at 1.
  destruct (String.eqb_spec (peName ep) "") as [He|Hne].
  { destruct (noteSeen sp _ _). split; [done|]. by intros [[(? & _) _] _]. }
  destruct (noteSeen sn (peName ep) _) as [dn sn'] eqn:Hn, (noteSeen sp (portKey ep) _) as [dp sp'] eqn:Hp.
  destruct (seen_when true _ _ _ _ _ Hn eq_refl) as [En Esn], (seen_when true _ _ _ _ _ Hp eq_refl) as [Ep Esp].
  rewrite !app_nil_iff, if_error, IH, En, Ep, orb_false_iff, Z.ltb_ge, Z.ltb_ge.
  assert (Hproto : forall e, (if (endpointProtocol ep =? protocolTCP)%string || (endpointProtocol ep =? protocolUDP)%string ||
      (endpointProtocol ep =? protocolHTTP)%string then [] else [e] : ErrorList) = [] <->
    (endpointProtocol ep = protocolTCP \/ endpointProtocol ep = protocolUDP \/ endpointProtocol ep = protocolHTTP)).
  { intros e. rewrite <- !String.eqb_eq. destruct (_ =? protocolTCP)%string, (_ =? protocolUDP)%string, (_ =? protocolHTTP)%string;
      cbn; naive_solver. }
  rewrite Hproto. clear Hproto Hn Hp IH. split.
  - intros (Hk & Hport & Hpr & Hk2 & Hl & Ha & Hb). rewrite Esn in Ha by done. rewrite Esp in Hb by done. tauto.
  - intros ([(_ & Hport & Hpr) Hl] & (Hk & Ha) & (Hk2 & Hb)). rewrite Esn, Esp by done. tauto.
Qed.

Lemma endpoints_valid p l :
  endpoints p 0 ∅ ∅ l = [] <-> Forall validEndpoint l /\ NoDup (map peName l) /\ NoDup (map portKey l).
Proof. rewrite endpoints_nil. set_solver. Qed.

Lemma invalidIfNotEmpty_none errs : invalidIfNotEmpty errs = None <-> errs = [].
Proof. by destruct errs. Qed.

Lemma validateGateway_nil s p :
  validateGateway s p = [] <-> forall gw, ssGateway (srvSpec s) = Some gw ->
    if gwEnabled gw
    then gwParentRefs gw <> [] /\ Forall validRoute (gwHTTPRoutes gw) /\
         NoDup (map endpointKey (gwHTTPRoutes gw)) /\ NoDup (map hostKey (gwHTTPRoutes gw))
    else gwHTTPRoutes gw = [].
Proof.
  unfold validateGateway. destruct (ssGateway (srvSpec s)) as [gw|]; [|naive_solver].
  destruct (gwEnabled gw) eqn:He; cbn [negb andb].
  - rewrite app_nil_l, app_nil_iff, if_error, httpRoutes_valid, Nat.eqb_neq. split.
    + intros [Hp H] gw' [= <-]. rewrite He. split; [by destruct (gwParentRefs gw) | exact H].
    + intros H. specialize (H gw eq_refl). rewrite He in H. destruct H as [Hp H]. split; [|exact H].
      by destruct (gwParentRefs gw).
  - rewrite if_error, Nat.ltb_ge. split.
    + intros Hl gw' [= <-]. rewrite He. destruct (gwHTTPRoutes gw); [done | cbn in Hl; lia].
    + intros H. specialize (H gw eq_refl). rewrite He in H. by rewrite H.
Qed.

Lemma validateRCON_nil s p :
  validateRCON s p = [] <-> (rcEnabled (ssRCON (srvSpec s)) = true ->
    skName (rcPasswordSecret (ssRCON (srvSpec s))) <> "" /\ skKey (rcPasswordSecret (ssRCON (srvSpec s))) <> "").
Proof.
  unfold validateRCON. destruct (rcEnabled _); cbn [negb]; [|naive_solver].
  rewrite app_nil_iff, !if_error, !eqb_empty. split; [done | intros H; by apply H].
Qed.

Lemma validateBackup_nil {CR : Cron} s p :
  validateBackup s p = [] <-> forall b, ssBackup (srvSpec s) = Some b -> bsEnabled b = true -> bsSchedule b <> "" ->
    isOk (ParseCron (bsSchedule b)) = true.
Proof.
  unfold validateBackup. destruct (ssBackup (srvSpec s)) as [b|]; [|naive_solver].
  destruct (bsEnabled b) eqn:He; cbn [negb]; [|split; [intros _ b' [= <-]; congruence | done]].
  destruct (String.eqb_spec (bsSchedule b) "") as [Hs|Hs]; cbn [negb]; [split; [intros _ b' [= <-]; done | done]|].
  rewrite validateCron_nil. naive_solver.
Qed.

Lemma validateURLSource_nil {UR : URLs} p sp :
  (validateURLSource p sp).2 = [] <->
  soURL (psSource (plgSpec p)) <> "" /\
  exists host, urlParse (soURL (psSource (plgSpec p))) = Ok ("https", host) /\ host <> "".
Proof.
  unfold validateURLSource. destruct (String.eqb_spec (soURL (psSource (plgSpec p))) "") as [He|Hne]; [naive_solver|].
  destruct (urlParse _) as [[scheme host]|e]; cbn [snd]; [|naive_solver].
  rewrite app_nil_iff, !if_error, negb_false_iff, String.eqb_eq, eqb_empty. naive_solver.
Qed.

Lemma validateSource_nil {UR : URLs} p sp :
  (validateSource p sp).2 = [] <->
   ((soType (psSource (plgSpec p)) = sourceTypeHangar /\ soProject (psSource (plgSpec p)) <> "") \/
    (soType (psSource (plgSpec p)) = sourceTypeURL /\ soURL (psSource (plgSpec p)) <> "" /\
     (exists host, urlParse (soURL (psSource (plgSpec p))) = Ok ("https", host) /\ host <> "") /\
     (soChecksum (psSource (plgSpec p)) = "" \/ denotes sha256Pattern (ToLower (soChecksum (psSource (plgSpec p))))))).
Proof.
  pose proof (validateURLSource_nil p sp) as Hu. unfold validateSource. set (src := psSource (plgSpec p)) in *.
  destruct (String.eqb_spec (soType src) sourceTypeHangar) as [Ht|Ht]; cbn [snd].
  { rewrite if_error, eqb_empty. split; [auto|]. intros [[_ ?]|[H _]]; [done|]. rewrite Ht in H. done. }
  destruct (String.eqb_spec (soType src) sourceTypeURL) as [Ht2|Ht2]; cbn [snd]; [|naive_solver].
  destruct (validateURLSource p sp) as [uw ue]. cbn [snd] in Hu.
  destruct (String.eqb_spec (soChecksum src) "") as [Hc|Hc]; [cbn [snd]; rewrite Hu; naive_solver|].
  rewrite <- MatchString_spec. destruct (MatchString _ _) eqn:Hm; cbn [negb snd].
  - rewrite Hu. naive_solver.
  - rewrite app_nil_iff. naive_solver.
Qed.

Lemma validServer_iff {CR : Cron} s : validateServer s = None <-> ValidServer s.
Proof.
  unfold validateServer, validateServerStrategy, validateCronExpressions, validateServerPluginConfigs, validateServerConfigFiles.
  rewrite invalidIfNotEmpty_none, !app_nil_iff, validateStrategy_nil, validateCron_nil, validateRCON_nil, validateBackup_nil,
    validateGateway_nil, serverPluginConfigs_nil, configFiles_valid.
  assert (Hw : forall w p, (if mwEnabled w then validateCron (mwCron w) p else []) = [] <->
    (mwEnabled w = true -> isOk (ParseCron (mwCron w)) = true)).
  { intros w p. destruct (mwEnabled w); [rewrite validateCron_nil|]; naive_solver. }
  rewrite Hw. split.
  - intros (? & [? ?] & ? & ? & ? & (? & ? & _) & ?). by constructor.
  - intros [? ? ? ? ? ? [? ?] ?]. split_and!; try done; set_solver.
Qed.

Lemma validPlugin_iff {UR : URLs} p : (validatePlugin p).2 = None <-> ValidPlugin p.
Proof.
  unfold validatePlugin. pose proof (validateSource_nil p specPath) as Hs. destruct (validateSource p specPath) as [w errs].
  cbn [snd] in *. unfold validatePluginStrategy, validateEndpoints, validatePluginConfigs.
  rewrite invalidIfNotEmpty_none, !app_nil_iff, Hs, validateStrategy_nil, endpoints_valid.
  assert (Hp : (if negb (soProject (psSource (plgSpec p)) =? "")%string
      then validateSafeName (soProject (psSource (plgSpec p))) (Child specPath ["source"; "project"]) else []) = [] <->
    (soProject (psSource (plgSpec p)) <> "" -> safeName (soProject (psSource (plgSpec p))))).
  { destruct (String.eqb_spec (soProject (psSource (plgSpec p))) ""); cbn [negb]; [naive_solver|].
    rewrite validateSafeName_nil. naive_solver. }
  assert (Hc : (if (length (psConfigs (plgSpec p)) =? 0)%nat then [] else
      (if (psPluginDirName (plgSpec p) =? "")%string
       then [Required (Child specPath ["pluginDirName"]) "pluginDirName is required when configs are specified"]
       else validateSafeName (psPluginDirName (plgSpec p)) (Child specPath ["pluginDirName"])) ++
      configFiles (Child specPath ["configs"]) 0 ∅ (map pluginFile (psConfigs (plgSpec p)))) = [] <->
    (psConfigs (plgSpec p) <> [] ->
      safeName (psPluginDirName (plgSpec p)) /\ validFiles (map pluginFile (psConfigs (plgSpec p))))).
  { destruct (psConfigs (plgSpec p)) as [|c l] eqn:Hl; cbn [length Nat.eqb]; [naive_solver|].
    rewrite app_nil_iff, else_error, validateSafeName_nil, configFiles_valid, eqb_empty. unfold safeName. naive_solver. }
  rewrite Hp, Hc. clear Hp Hc Hs. split.
  - intros (? & ? & ? & ? & ?). constructor; [split|..]; done.
  - intros [[? ?] ? ? ?]. done.
Qed.

(** ** Properties *)

(** C10: The webhook admits a server exactly when its specification is valid: a known
    strategy with the version and build it needs, cron expressions that parse, an RCON
    secret, routes that are complete, unambiguous and only used with the gateway on,
    and configuration files with safe, unambiguous names and relative paths. *)
Theorem validateServer_correct {CR : Cron} s : validateServer s = None <-> ValidServer s.
Proof. apply validServer_iff. Qed.

(** C18: The webhook admits a plugin exactly when its specification is valid: a source
    with a safe project or an https URL and a well-formed checksum, a known strategy
    with the version and build it needs, distinct endpoint names and distinct ports per
    protocol within range, and configuration files below a safe directory name. *)
Theorem validatePlugin_correct {UR : URLs} p : (validatePlugin p).2 = None <-> ValidPlugin p.
Proof. apply validPlugin_iff. Qed.
