(* ===== verification/Config.v ===== *)
(** * Config injection (internal/controller/config_injector.go)

    The shell script that copies configuration files from ConfigMaps to the data
    volume, the volumes it reads and the init container that runs it.  Go maps that
    the code ranges over are ranged over by [mapRange], whose order is arbitrary. *)

From S2P Require Import Prelude GoBase Decimals Strings GoLib Regex Api Objects Images Window Url Webhook.
From Stdlib Require Import Ascii Sorting.Sorted.

Open Scope Z_scope.

(** ** Constants *)

Definition ConfigInjectorImage : string :=
  "busybox@sha256:b3255e7dfbcd10cb367af0d409747d511aeb66dfac98cf30e97e87e4207dd76f".
Definition maxVolumeNameLength : nat := 63.
Definition volumeNameHashSuffixLength : nat := 9.
Definition configMountBase : string := "/configs".
Definition dataMountPath : string := "/data".
Definition configScriptPath : string := "/scripts".
Definition configScriptKey : string := "inject-configs.sh".
Definition gcConfigScript : string := "config-script".
Definition gcVolumeData : string := "data".
Definition gcRCONSecret : string := "rcon-secret".
Definition gcOverwriteAlways : string := "always".
Definition gcOverwriteIfNotExists : string := "ifNotExists".
Definition gcMinecraftOperator : string := "minecraft-operator".

(** [standardLabels] of labels.go. *)
Definition standardLabels (instanceName component : string) : gmap string string :=
  list_to_map
    [("app.kubernetes.io/name", containerNamePaperMC);
     ("app.kubernetes.io/instance", instanceName);
     ("app.kubernetes.io/managed-by", gcMinecraftOperator);
     ("app.kubernetes.io/component", component);
     ("app.kubernetes.io/part-of", gcMinecraftOperator)].

(** ** Entries and volumes *)

Record configMapVolumeRef := MkVolumeRef { VolumeName : string; ConfigMapName : string; MountPath : string }.

Record configEntry := MkEntry { sourcePath : string; targetPath : string; overwrite : string; comment : string }.

#[export] Instance configMapVolumeRef_eq_dec : EqDecision configMapVolumeRef.
Proof. solve_decision. Defined.
#[export] Instance configEntry_eq_dec : EqDecision configEntry.
Proof. solve_decision. Defined.

(** The references collected so far, by the name of their ConfigMap. *)
Abbreviation RefMap := (gmap string configMapVolumeRef).
Abbreviation Overrides := (gmap string (gmap string PluginConfigFile)).

Section config.
Context {MR : MapRange} {GS : GoSort} {DG : Digest}.

Definition configMapVolumeName (configMapName : string) : string :=
  let name := "cm-" +:+ configMapName in
  if (String.length name <=? maxVolumeNameLength)%nat then name
  else str_take (maxVolumeNameLength - volumeNameHashSuffixLength) name +:+ "-" +:+ str_take 8 (Sha256Hex name).

Definition resolvePluginDirName (plugin : Plugin) : string :=
  if negb (psPluginDirName (plgSpec plugin) =? "")%string then psPluginDirName (plgSpec plugin)
  else soProject (psSource (plgSpec plugin)).

(** A file of a ConfigMap, mounted at its volume. *)
Definition sourceOf (ref : ConfigMapKeyRef) : string :=
  configMountBase +:+ "/" +:+ configMapVolumeName (ckName ref) +:+ "/" +:+ ckKey ref.

Definition volumeRefOf (ref : ConfigMapKeyRef) : configMapVolumeRef :=
  MkVolumeRef (configMapVolumeName (ckName ref)) (ckName ref)
    (configMountBase +:+ "/" +:+ configMapVolumeName (ckName ref)).

Definition overwriteOr (o : string) : string := if (o =? "")%string then gcOverwriteAlways else o.

Definition buildPluginConfigEntry (dirName : string) (cfg : PluginConfigFile) : configEntry * configMapVolumeRef :=
  (MkEntry (sourceOf (pfConfigMapRef cfg)) (dataMountPath +:+ "/plugins/" +:+ dirName +:+ "/" +:+ pfPath cfg)
     (overwriteOr (pfOverwrite cfg))
     ("Plugin: " +:+ dirName +:+ ", file: " +:+ pfPath cfg +:+ " (overwrite=" +:+ overwriteOr (pfOverwrite cfg) +:+ ")"),
   volumeRefOf (pfConfigMapRef cfg)).

Definition noteRef (refMap : RefMap) (ref : configMapVolumeRef) : RefMap := <[ConfigMapName ref := ref]> refMap.

(** One file for [dirName]: its entry is appended and its reference noted. *)
Definition addFile (dirName : string) (acc : list configEntry * RefMap) (cfg : PluginConfigFile)
  : list configEntry * RefMap :=
  let '(entry, ref) := buildPluginConfigEntry dirName cfg in (acc.1 ++ [entry], noteRef acc.2 ref).

Definition addFiles (dirName : string) (acc : list configEntry * RefMap) (cfgs : list PluginConfigFile)
  : list configEntry * RefMap := foldl (addFile dirName) acc cfgs.

(** ** Overrides *)

Definition addOverride (m : gmap string PluginConfigFile) (cfg : PluginConfigFile) : gmap string PluginConfigFile :=
  <[pfPath cfg := cfg]> m.

Definition buildServerOverridesMap (server : PaperMCServer) : Overrides :=
  foldl (fun (overrides : Overrides) pc =>
      <[scPluginName pc := foldl addOverride (default ∅ (overrides !! scPluginName pc)) (scConfigs pc)]> overrides)
    ∅ (ssPluginConfigs (srvSpec server)).

Definition pluginHasConfigPath (plugin : Plugin) (path : string) : bool :=
  existsb (fun cfg => (pfPath cfg =? path)%string) (psConfigs (plgSpec plugin)).

(** The plugin's file, or the server's for the same path. *)
Definition effectiveCfg (overrides : option (gmap string PluginConfigFile)) (pluginCfg : PluginConfigFile) : PluginConfigFile :=
  match overrides with
  | Some o => default pluginCfg (o !! pfPath pluginCfg)
  | None => pluginCfg
  end.

(** The server's files for paths that the plugin does not have. *)
Definition extraFiles (plugin : Plugin) (overrides : option (gmap string PluginConfigFile)) : list PluginConfigFile :=
  match overrides with
  | Some o => map snd (List.filter (fun kv => negb (pluginHasConfigPath plugin kv.1)) (mapRange o))
  | None => []
  end.

Definition resolvePluginConfigs (plugin : Plugin) (dirName : string) (serverOverrides : Overrides) (refMap : RefMap)
  : list configEntry * RefMap :=
  let overrides := serverOverrides !! plgName plugin in
  addFiles dirName (addFiles dirName ([], refMap) (map (effectiveCfg overrides) (psConfigs (plgSpec plugin))))
    (extraFiles plugin overrides).

(** The state of the loop over the matched plugins. *)
Definition collectStep (serverOverrides : Overrides) (acc : list configEntry * gset string * RefMap) (plugin : Plugin)
  : list configEntry * gset string * RefMap :=
  let '(entries, consumed, refMap) := acc in
  let dirName := resolvePluginDirName plugin in
  if (dirName =? "")%string || (length (psConfigs (plgSpec plugin)) =? 0)%nat then
    match serverOverrides !! plgName plugin with
    | Some overrides =>
        let '(entries, refMap) := addFiles dirName (entries, refMap) (map snd (mapRange overrides)) in
        (entries, {[plgName plugin]} ∪ consumed, refMap)
    | None => acc
    end
  else
    let '(pluginEntries, refMap) := resolvePluginConfigs plugin dirName serverOverrides refMap in
    (entries ++ pluginEntries, {[plgName plugin]} ∪ consumed, refMap).

Definition collectPluginConfigEntries (matchedPlugins : list Plugin) (serverOverrides : Overrides) (refMap : RefMap)
  : list configEntry * gset string * RefMap :=
  foldl (collectStep serverOverrides) ([], ∅, refMap) matchedPlugins.

Definition unmatchedStep (consumed : gset string) (acc : list configEntry * list string * RefMap)
  (kv : string * gmap string PluginConfigFile) : list configEntry * list string * RefMap :=
  let '(entries, warnings, refMap) := acc in
  if bool_decide (kv.1 ∈ consumed) then acc
  else
    let '(entries, refMap) := addFiles kv.1 (entries, refMap) (map snd (mapRange kv.2)) in
    (entries, warnings ++ ["pluginConfigs references plugin " +:+ quoted kv.1 +:+ " which is not matched to this server"], refMap).

Definition collectUnmatchedOverrideEntries (serverOverrides : Overrides) (consumed : gset string) (refMap : RefMap)
  : list configEntry * list string * RefMap :=
  foldl (unmatchedStep consumed) ([], [], refMap) (mapRange serverOverrides).

Definition serverConfigEntry (cfg : ServerConfigFile) : configEntry :=
  MkEntry (sourceOf (sfConfigMapRef cfg)) (dataMountPath +:+ "/" +:+ sfPath cfg) (overwriteOr (sfOverwrite cfg))
    ("Server config: " +:+ sfPath cfg +:+ " (overwrite=" +:+ overwriteOr (sfOverwrite cfg) +:+ ")").

Definition collectServerConfigEntries (server : PaperMCServer) (refMap : RefMap) : list configEntry * RefMap :=
  foldl (fun acc cfg => (acc.1 ++ [serverConfigEntry cfg], noteRef acc.2 (volumeRefOf (sfConfigMapRef cfg))))
    ([], refMap) (ssServerConfigs (srvSpec server)).

(** ** The script *)

Definition newlineString : string := String (ascii_of_nat 10) EmptyString.

(** Lines, each with its newline. *)
Definition unlines (l : list string) : string := foldr (fun line rest => line +:+ newlineString +:+ rest) "" l.

Definition copyLine (entry : configEntry) : string := "cp " +:+ sourcePath entry +:+ " " +:+ targetPath entry.

Definition entryLines (entry : configEntry) : list string :=
  ["# " +:+ comment entry] ++
  (let dir := Dir (targetPath entry) in
   if negb (dir =? ".")%string && negb (dir =? "/")%string then ["mkdir -p " +:+ dir] else []) ++
  (if (overwrite entry =? gcOverwriteIfNotExists)%string
   then ["if [ ! -f " +:+ targetPath entry +:+ " ]; then"; "  " +:+ copyLine entry; "fi"]
   else [copyLine entry]).

Definition renderConfigScript (entries : list configEntry) : string :=
  unlines (["#!/bin/sh"; "set -e"] ++ concat (map entryLines entries)).

(** The commands that set one property. *)
Definition propertyLines (key value : string) : list string :=
  let props := dquote +:+ "$PROPS" +:+ dquote in
  ["  if grep -q '^" +:+ key +:+ "=' " +:+ props +:+ "; then";
   "    sed -i 's/^" +:+ key +:+ "=.*/" +:+ key +:+ "=" +:+ value +:+ "/' " +:+ props;
   "  else";
   "    echo '" +:+ key +:+ "=" +:+ value +:+ "' >> " +:+ props;
   "  fi"].

Definition passwordLines (secretPath : string) : list string :=
  let props := dquote +:+ "$PROPS" +:+ dquote in
  ["  # Inject RCON password from Secret";
   "  if [ -f " +:+ dquote +:+ secretPath +:+ dquote +:+ " ]; then";
   "    RCON_PASS=$(cat " +:+ dquote +:+ secretPath +:+ dquote +:+ ")";
   "    if grep -q '^rcon.password=' " +:+ props +:+ "; then";
   "      sed -i " +:+ dquote +:+ "s/^rcon.password=.*/rcon.password=$RCON_PASS/" +:+ dquote +:+ " " +:+ props;
   "    else";
   "      echo " +:+ dquote +:+ "rcon.password=$RCON_PASS" +:+ dquote +:+ " >> " +:+ props;
   "    fi";
   "  fi"].

Definition buildRCONPropertiesScript (server : PaperMCServer) : string :=
  let rcon := ssRCON (srvSpec server) in
  if negb (rcEnabled rcon) then ""
  else
    let port := if rcPort rcon =? 0 then 25575 else rcPort rcon in
    let passwordKey := if (skKey (rcPasswordSecret rcon) =? "")%string then "rcon-password" else skKey (rcPasswordSecret rcon) in
    let secretPath := "/secrets/rcon/" +:+ passwordKey in
    unlines
      (["# RCON properties injection from CRD spec"; "PROPS=/data/server.properties";
        "if [ -f " +:+ dquote +:+ "$PROPS" +:+ dquote +:+ " ]; then"] ++
       propertyLines "enable-rcon" "true" ++ propertyLines "rcon.port" (pretty port) ++
       (if negb (skName (rcPasswordSecret rcon) =? "")%string then passwordLines secretPath else []) ++
       ["fi"]).

Definition sortedConfigMapRefs (refMap : RefMap) : list configMapVolumeRef :=
  SortSlice (fun a b => strLess (ConfigMapName a) (ConfigMapName b)) (map snd (mapRange refMap)).

(** The entries of a server, in the order of the script, with the references and the
    warnings. *)
Definition collectEntries (server : PaperMCServer) (matchedPlugins : list Plugin)
  : list configEntry * RefMap * list string :=
  let serverOverrides := buildServerOverridesMap server in
  let '(entries, consumed, refMap) := collectPluginConfigEntries matchedPlugins serverOverrides ∅ in
  let '(unmatchedEntries, warnings, refMap) := collectUnmatchedOverrideEntries serverOverrides consumed refMap in
  let '(serverEntries, refMap) := collectServerConfigEntries server refMap in
  (entries ++ unmatchedEntries ++ serverEntries, refMap, warnings).

Definition buildConfigScript (server : PaperMCServer) (matchedPlugins : list Plugin)
  : string * list configMapVolumeRef * list string :=
  let '(entries, refMap, warnings) := collectEntries server matchedPlugins in
  let rconScript := buildRCONPropertiesScript server in
  if (length entries =? 0)%nat && (rconScript =? "")%string then ("", [], [])
  else (renderConfigScript entries +:+ rconScript, sortedConfigMapRefs refMap, warnings).

(** ** Objects *)

Definition buildScriptConfigMap (name namespace serverName script : string) : ConfigMap :=
  MkConfigMap (zeroObjectMeta <| Name := name |> <| Namespace := namespace |> <| Labels := standardLabels serverName "config" |>)
    {[configScriptKey := script]} [].

Definition configMapVolume (name configMap : string) (mode : option Z) : Volume :=
  MkVolume name (Some (MkConfigMapVolume configMap mode)) None "".

Definition secretVolume (name secretName : string) : Volume := MkVolume name None (Some secretName) "".

Definition buildConfigVolumes (scriptCMName : string) (refs : list configMapVolumeRef) : list Volume :=
  configMapVolume gcConfigScript scriptCMName (Some 493) ::
  map (fun ref => configMapVolume (VolumeName ref) (ConfigMapName ref) None) refs.

Definition buildConfigVolumeMounts (refs : list configMapVolumeRef) : list VolumeMount :=
  [MkVolumeMount gcVolumeData dataMountPath false; MkVolumeMount gcConfigScript configScriptPath false] ++
  map (fun ref => MkVolumeMount (VolumeName ref) (MountPath ref) false) refs.

Definition buildConfigInjection (server : PaperMCServer) (matchedPlugins : list Plugin)
  : option (Container * list Volume * ConfigMap) :=
  let '(script, refs, _) := buildConfigScript server matchedPlugins in
  if (script =? "")%string then None
  else
    let scriptCMName := srvName server +:+ "-config-script" in
    let scriptCM := buildScriptConfigMap scriptCMName (srvNamespace server) (srvName server) script in
    let rcon := ssRCON (srvSpec server) in
    let withSecret := rcEnabled rcon && negb (skName (rcPasswordSecret rcon) =? "")%string in
    let volumes := buildConfigVolumes scriptCMName refs ++
      (if withSecret then [secretVolume gcRCONSecret (skName (rcPasswordSecret rcon))] else []) in
    let mounts := buildConfigVolumeMounts refs ++
      (if withSecret then [MkVolumeMount gcRCONSecret "/secrets/rcon" true] else []) in
    Some (zeroContainer <| ctName := "config-injector" |> <| ctImage := ConfigInjectorImage |>
            <| ctCommand := ["sh"; configScriptPath +:+ "/" +:+ configScriptKey] |>
            <| ctVolumeMounts := mounts |>
            <| ctSecurityContext := Some (MkSecurityContext (Some false) (Some true) ["ALL"]) |>,
          volumes, scriptCM).

(** ** Referenced ConfigMaps *)

Definition addRef (acc : gset string * list ConfigMapKeyRef) (ref : ConfigMapKeyRef) : gset string * list ConfigMapKeyRef :=
  let key := ckName ref +:+ "/" +:+ ckKey ref in
  if bool_decide (key ∈ acc.1) then acc else ({[key]} ∪ acc.1, acc.2 ++ [ref]).

Definition collectReferencedConfigMaps (server : PaperMCServer) (matchedPlugins : list Plugin) : list ConfigMapKeyRef :=
  (foldl addRef (∅, [])
    (concat (map (fun p => map pfConfigMapRef (psConfigs (plgSpec p))) matchedPlugins) ++
     concat (map (fun pc => map pfConfigMapRef (scConfigs pc)) (ssPluginConfigs (srvSpec server))) ++
     map sfConfigMapRef (ssServerConfigs (srvSpec server)))).2.
End config.

(** ** Closed forms of the loops *)

Section closed.
Context {MR : MapRange} {GS : GoSort} {DG : Digest}.

(** What one file adds: its entry and its reference. *)
Definition placed (dirName : string) (cfg : PluginConfigFile) : configEntry * configMapVolumeRef :=
  buildPluginConfigEntry dirName cfg.

Definition noteRefs (refMap : RefMap) (l : list (configEntry * configMapVolumeRef)) : RefMap :=
  foldl noteRef refMap (map snd l).

Lemma noteRefs_app m a b : noteRefs m (a ++ b) = noteRefs (noteRefs m a) b.
Proof. unfold noteRefs. by rewrite map_app, foldl_app. Qed.

Lemma addFiles_eq dir es m cfgs :
  addFiles dir (es, m) cfgs = (es ++ map fst (map (placed dir) cfgs), noteRefs m (map (placed dir) cfgs)).
Proof.
  unfold addFiles. revert es m. induction cfgs as [|c l IH]; intros es m; cbn [foldl map]; [by rewrite app_nil_r|].
  change (addFile dir (es, m) c) with (es ++ [(placed dir c).1], noteRef m (placed dir c).2).
  rewrite IH, <- app_assoc. done.
Qed.

(** The files of one matched plugin, in order. *)
Definition pluginFiles (so : Overrides) (p : Plugin) : list PluginConfigFile :=
  if (resolvePluginDirName p =? "")%string || (length (psConfigs (plgSpec p)) =? 0)%nat then
    match so !! plgName p with Some o => map snd (mapRange o) | None => [] end
  else map (effectiveCfg (so !! plgName p)) (psConfigs (plgSpec p)) ++ extraFiles p (so !! plgName p).

(** Its overrides are used up. *)
Definition consumes (so : Overrides) (p : Plugin) : gset string :=
  if ((resolvePluginDirName p =? "")%string || (length (psConfigs (plgSpec p)) =? 0)%nat) &&
     negb (bool_decide (is_Some (so !! plgName p)))
  then ∅ else {[plgName p]}.

Definition pluginPlaced (so : Overrides) (p : Plugin) : list (configEntry * configMapVolumeRef) :=
  map (placed (resolvePluginDirName p)) (pluginFiles so p).

Lemma collectStep_eq so es consumed m p :
  collectStep so (es, consumed, m) p =
  (es ++ map fst (pluginPlaced so p), consumes so p ∪ consumed, noteRefs m (pluginPlaced so p)).
Proof.
  unfold collectStep, pluginPlaced, pluginFiles, consumes, resolvePluginConfigs. destruct (_ || _).
  - destruct (so !! plgName p) as [o|]; [by rewrite addFiles_eq|]. cbn. by rewrite app_nil_r, union_empty_l_L.
  - rewrite !addFiles_eq. cbn [andb app]. by rewrite map_app, map_app, noteRefs_app.
Qed.

Lemma collectPluginConfigEntries_eq plugins so :
  collectPluginConfigEntries plugins so ∅ =
  (map fst (concat (map (pluginPlaced so) plugins)), ⋃ (rev (map (consumes so) plugins)),
   noteRefs ∅ (concat (map (pluginPlaced so) plugins))).
Proof.
  unfold collectPluginConfigEntries. induction plugins as [|p l IH] using rev_ind; [done|].
  rewrite foldl_app, IH. cbn [foldl]. rewrite collectStep_eq, !map_app, rev_app_distr, concat_app, map_app, noteRefs_app.
  cbn. by rewrite app_nil_r.
Qed.

(** The plugins of the overrides that no matched plugin used up. *)
Definition unmatched (consumed : gset string) (so : Overrides) : list (string * gmap string PluginConfigFile) :=
  List.filter (fun kv => negb (bool_decide (kv.1 ∈ consumed))) (mapRange so).

Definition unmatchedPlaced (consumed : gset string) (so : Overrides) : list (configEntry * configMapVolumeRef) :=
  concat (map (fun kv => map (placed kv.1) (map snd (mapRange kv.2))) (unmatched consumed so)).

Lemma collectUnmatched_eq so consumed m : exists warnings,
  collectUnmatchedOverrideEntries so consumed m =
  (map fst (unmatchedPlaced consumed so), warnings, noteRefs m (unmatchedPlaced consumed so)).
Proof.
  unfold collectUnmatchedOverrideEntries, unmatchedPlaced, unmatched.
  induction (mapRange so) as [|kv l [w IH]] using rev_ind; [by eexists|].
  rewrite foldl_app, IH, List.filter_app, map_app, concat_app. cbn [foldl List.filter]. unfold unmatchedStep.
  destruct (bool_decide _); cbn [negb map concat].
  - rewrite app_nil_r. by eexists.
  - rewrite addFiles_eq, app_nil_r, map_app, noteRefs_app. by eexists.
Qed.

Definition serverPlaced (server : PaperMCServer) : list (configEntry * configMapVolumeRef) :=
  map (fun cfg => (serverConfigEntry cfg, volumeRefOf (sfConfigMapRef cfg))) (ssServerConfigs (srvSpec server)).

Lemma collectServer_eq server m :
  collectServerConfigEntries server m = (map fst (serverPlaced server), noteRefs m (serverPlaced server)).
Proof.
  unfold collectServerConfigEntries, serverPlaced.
  induction (ssServerConfigs (srvSpec server)) as [|c l IH] using rev_ind; [done|].
  by rewrite foldl_app, IH, !map_app, noteRefs_app.
Qed.

(** Everything that is placed, in the order of the script. *)
Definition consumedBy (server : PaperMCServer) (plugins : list Plugin) : gset string :=
  ⋃ (rev (map (consumes (buildServerOverridesMap server)) plugins)).

Definition allPlaced (server : PaperMCServer) (plugins : list Plugin) : list (configEntry * configMapVolumeRef) :=
  concat (map (pluginPlaced (buildServerOverridesMap server)) plugins) ++
  unmatchedPlaced (consumedBy server plugins) (buildServerOverridesMap server) ++ serverPlaced server.

Lemma collectEntries_eq server plugins : exists warnings,
  collectEntries server plugins = (map fst (allPlaced server plugins), noteRefs ∅ (allPlaced server plugins), warnings).
Proof.
  unfold collectEntries. rewrite collectPluginConfigEntries_eq.
  destruct (collectUnmatched_eq (buildServerOverridesMap server) (consumedBy server plugins)
    (noteRefs ∅ (concat (map (pluginPlaced (buildServerOverridesMap server)) plugins)))) as [w Hw].
  fold (consumedBy server plugins). rewrite Hw, collectServer_eq. exists w.
  unfold allPlaced. by rewrite !map_app, !noteRefs_app.
Qed.

(** ** Overrides of a server *)

Lemma foldl_addOverride m cfgs p :
  foldl addOverride m cfgs !! p =
  match List.find (fun c => (pfPath c =? p)%string) (rev cfgs) with Some c => Some c | None => m !! p end.
Proof.
  induction cfgs as [|c l IH] using rev_ind; [done|]. rewrite foldl_app, rev_app_distr. cbn [foldl rev app List.find].
  unfold addOverride at 1. destruct (String.eqb_spec (pfPath c) p) as [<-|Hne]; [by rewrite lookup_insert_eq|].
  by rewrite lookup_insert_ne, IH.
Qed.

Lemma addOverride_lookup cfgs p c :
  NoDup (map pfPath cfgs) -> (foldl addOverride ∅ cfgs !! p = Some c <-> c ∈ cfgs /\ pfPath c = p).
Proof.
  intros Hn. rewrite foldl_addOverride, lookup_empty. split.
  - destruct (List.find _ _) as [c'|] eqn:Hf; [|done]. intros [= ->].
    apply find_some_elem in Hf as [Hin Hp%String.eqb_eq]. by rewrite elem_of_rev in Hin.
  - intros [Hin <-]. destruct (List.find _ _) as [c'|] eqn:Hf.
    + apply find_some_elem in Hf as [Hin' Hp%String.eqb_eq]. rewrite elem_of_rev in Hin'. f_equal. by eapply (NoDup_map_inj pfPath).
    + eapply find_none_elem in Hf; [|by apply elem_of_rev, Hin]. by rewrite String.eqb_refl in Hf.
Qed.

(** The overrides of a server, one list of files per plugin name. *)
Lemma overrides_lookup l n :
  NoDup (map scPluginName l) ->
  foldl (fun (overrides : Overrides) pc =>
      <[scPluginName pc := foldl addOverride (default ∅ (overrides !! scPluginName pc)) (scConfigs pc)]> overrides) ∅ l !! n =
  (fun pc => foldl addOverride ∅ (scConfigs pc)) <$> List.find (fun pc => (scPluginName pc =? n)%string) l.
Proof.
  induction l as [|pc l IH] using rev_ind in n |- *; [done|]. rewrite map_app. cbn [map].
  intros [Hl [Hd _]]%NoDup_app. rewrite foldl_app. cbn [foldl].
  assert (Hnew : forall q, q ∈ l -> scPluginName q <> scPluginName pc).
  { intros q Hq He. apply (Hd (scPluginName q)); [apply elem_of_map; eauto|]. rewrite He. by left. }
  assert (Hf : List.find (fun q => (scPluginName q =? scPluginName pc)%string) l = None).
  { destruct (List.find _ _) as [q|] eqn:Hf; [|done]. apply find_some_elem in Hf as [Hq He%String.eqb_eq]. by apply Hnew in Hq. }
  rewrite (IH (scPluginName pc) Hl), Hf. cbn [default fmap option_fmap option_map from_option].
  assert (Ha : forall f, List.find f (l ++ [pc]) = match List.find f l with Some q => Some q | None => if f pc then Some pc else None end).
  { intros f. clear. induction l as [|q l IHl]; cbn [app List.find]; [done|]. by destruct (f q). }
  rewrite Ha. cbv beta. destruct (String.eqb_spec (scPluginName pc) n) as [<-|Hne].
  - by rewrite lookup_insert_eq, Hf.
  - rewrite lookup_insert_ne by done. rewrite (IH n Hl). by destruct (List.find (fun pc0 => (scPluginName pc0 =? n)%string) l).
Qed.

Context {ML : MapRangeLaws} {CR : Cron}.

(** A file that the server gives for a plugin. *)
Definition overrideFile (server : PaperMCServer) (name : string) (cfg : PluginConfigFile) : Prop :=
  exists pc, pc ∈ ssPluginConfigs (srvSpec server) /\ scPluginName pc = name /\ cfg ∈ scConfigs pc.

Lemma valid_paths l : validFiles (map pluginFile l) -> NoDup (map pfPath l).
Proof. intros [_ H]. by rewrite map_map in H. Qed.

Lemma overrides_none server n :
  ValidServer server -> buildServerOverridesMap server !! n = None <-> forall pc, pc ∈ ssPluginConfigs (srvSpec server) -> scPluginName pc <> n.
Proof.
  intros Hv. destruct (vs_plugins _ Hv) as [_ Hn]. unfold buildServerOverridesMap. rewrite overrides_lookup by done.
  destruct (List.find _ _) as [pc|] eqn:Hf; cbn; split; try done.
  - intros H. apply find_some_elem in Hf as [Hin Hp%String.eqb_eq]. by apply H in Hin.
  - intros _ pc Hpc Hp. eapply find_none_elem in Hf; [|exact Hpc]. cbn in Hf. by apply String.eqb_neq in Hf.
Qed.

Lemma overrides_some server n o :
  ValidServer server -> buildServerOverridesMap server !! n = Some o ->
  forall path cfg, o !! path = Some cfg <-> overrideFile server n cfg /\ pfPath cfg = path.
Proof.
  intros Hv. destruct (vs_plugins _ Hv) as [Hf Hn]. unfold buildServerOverridesMap. rewrite overrides_lookup by done.
  destruct (List.find _ _) as [pc|] eqn:Hfind; [|done]. cbn. intros [= <-] path cfg.
  apply find_some_elem in Hfind as [Hin Hp%String.eqb_eq]. rewrite Forall_forall in Hf.
  rewrite addOverride_lookup by (apply valid_paths; by apply Hf). split.
  - intros [Hc Hpath]. split; [by exists pc | done].
  - intros [(pc' & Hin' & Hp' & Hc) Hpath]. split; [|done].
    by rewrite (NoDup_map_inj scPluginName _ pc pc' Hn Hin Hin') by congruence.
Qed.

(** An override is found under the name of its plugin. *)
Lemma overrideFile_some server n cfg :
  ValidServer server -> overrideFile server n cfg -> exists o, buildServerOverridesMap server !! n = Some o /\ o !! pfPath cfg = Some cfg.
Proof.
  intros Hv Ho. destruct (buildServerOverridesMap server !! n) as [o|] eqn:Hl.
  - exists o. split; [done|]. by apply (overrides_some server n o Hv Hl).
  - destruct Ho as (pc & Hin & Hp & _). by destruct (proj1 (overrides_none server n Hv) Hl pc Hin).
Qed.

(** The values of a map. *)
Lemma elem_of_values (o : gmap string PluginConfigFile) cfg :
  cfg ∈ map snd (mapRange o) <-> exists path, o !! path = Some cfg.
Proof.
  rewrite elem_of_map. split.
  - intros ([k v] & -> & H). apply elem_of_mapRange in H. by exists k.
  - intros [k H]. exists (k, cfg). split; [done|]. by apply elem_of_mapRange.
Qed.
(** A plugin that is skipped by its directory or its lack of files has no files. *)
Lemma skipped_none {UR : URLs} p :
  ValidPlugin p -> (resolvePluginDirName p =? "")%string || (length (psConfigs (plgSpec p)) =? 0)%nat = true ->
  psConfigs (plgSpec p) = [].
Proof.
  intros Hp. destruct (psConfigs (plgSpec p)) as [|c l] eqn:Hl; [done|]. cbn [length Nat.eqb]. rewrite orb_false_r.
  intros Hd%String.eqb_eq. destruct (vp_configs _ Hp) as [[Hne _] _]; [by rewrite Hl|].
  unfold resolvePluginDirName in Hd. by rewrite (proj2 (String.eqb_neq _ _) Hne) in Hd.
Qed.

(** The files of a matched plugin: the overrides for it, and its own files at other paths. *)
Definition ownFile (server : PaperMCServer) (p : Plugin) (cfg : PluginConfigFile) : Prop :=
  cfg ∈ psConfigs (plgSpec p) /\ forall c, overrideFile server (plgName p) c -> pfPath c <> pfPath cfg.

Lemma pluginFiles_spec {UR : URLs} server p cfg :
  ValidServer server -> ValidPlugin p ->
  cfg ∈ pluginFiles (buildServerOverridesMap server) p <-> overrideFile server (plgName p) cfg \/ ownFile server p cfg.
Proof.
  intros Hv Hp. unfold pluginFiles, ownFile. destruct (buildServerOverridesMap server !! plgName p) as [o|] eqn:Hl.
  - pose proof (overrides_some server _ o Hv Hl) as Ho.
    assert (Hx : forall c, overrideFile server (plgName p) c <-> o !! pfPath c = Some c) by (intros c; rewrite Ho; tauto).
    assert (Hk : forall path c, o !! path = Some c -> pfPath c = path) by (intros path c; rewrite Ho; tauto).
    destruct (_ || _) eqn:Hd.
    + rewrite elem_of_values, Hx. split.
      * intros [path Hc]. left. by rewrite (Hk _ _ Hc).
      * intros [Hc|[Hc _]]; [by eexists|]. rewrite (skipped_none p Hp Hd) in Hc. by apply not_elem_of_nil in Hc.
    + rewrite elem_of_app, elem_of_map, Hx. unfold extraFiles, effectiveCfg. rewrite elem_of_map. split.
      * intros [(c & -> & Hc)|([k v] & -> & [Hr Hh]%elem_of_List_filter)].
        -- destruct (o !! pfPath c) as [c'|] eqn:Hc'; cbn [from_option id].
           ++ left. by rewrite (Hk _ _ Hc').
           ++ right. split; [done|]. intros d Hdd He. apply Hx in Hdd. rewrite He in Hdd. congruence.
        -- apply elem_of_mapRange in Hr. left. cbn [snd]. by rewrite (Hk _ _ Hr).
      * intros [Hc|[Hc Hno]].
        -- destruct (pluginHasConfigPath p (pfPath cfg)) eqn:Hh.
           ++ left. apply existsb_elem in Hh as (c & Hcin & He%String.eqb_eq). exists c. by rewrite He, Hc.
           ++ right. exists (pfPath cfg, cfg). split; [done|]. apply elem_of_List_filter. cbn. rewrite Hh. split; [|done]. by apply elem_of_mapRange.
        -- left. exists cfg. split; [|done]. destruct (o !! pfPath cfg) as [c'|] eqn:Hc'; [|done].
           exfalso. apply (Hno c'); [|by apply Hk]. apply Hx. by rewrite (Hk _ _ Hc').
  - pose proof (proj1 (overrides_none server _ Hv) Hl) as Hno.
    assert (Hx : forall c, ~ overrideFile server (plgName p) c) by (intros c (pc & Hin & Hpc & _); by apply Hno in Hin).
    destruct (_ || _) eqn:Hd.
    + rewrite (skipped_none p Hp Hd). split; [by intros ?%not_elem_of_nil|]. intros [Hc|[Hc _]]; [by apply Hx in Hc | done].
    + cbn [extraFiles effectiveCfg]. rewrite app_nil_r, map_id. naive_solver.
Qed.
Lemma consumed_spec server plugins n :
  ValidServer server -> (exists cfg, overrideFile server n cfg) ->
  n ∈ consumedBy server plugins <-> exists p, p ∈ plugins /\ plgName p = n.
Proof.
  intros Hv [cfg Ho]. unfold consumedBy. rewrite elem_of_union_list. split.
  - intros (X & HX & Hn). rewrite elem_of_rev in HX. apply elem_of_map in HX as (p & -> & Hp). exists p. split; [done|].
    unfold consumes in Hn. destruct (_ && _); set_solver.
  - intros (p & Hp & Hn). exists (consumes (buildServerOverridesMap server) p). rewrite elem_of_rev, elem_of_map. split; [eauto|].
    unfold consumes. destruct (overrideFile_some server n cfg Hv Ho) as (o & Hl & _). rewrite Hn, Hl, andb_false_r. set_solver.
Qed.

Lemma unmatched_spec server plugins x :
  ValidServer server ->
  x ∈ unmatchedPlaced (consumedBy server plugins) (buildServerOverridesMap server) <->
  exists name cfg, x = placed name cfg /\ overrideFile server name cfg /\ forall p, p ∈ plugins -> plgName p <> name.
Proof.
  intros Hv. unfold unmatchedPlaced, unmatched. rewrite elem_of_concat_map. split.
  - intros ([n o] & [Hr Hc]%elem_of_List_filter & Hx). apply elem_of_mapRange in Hr. cbn [fst snd] in *.
    rewrite elem_of_map in Hx. destruct Hx as (cfg & -> & [path Hp]%elem_of_values).
    apply (overrides_some server n o Hv Hr) in Hp as [Ho _]. exists n, cfg. split_and!; [done|done|].
    intros p Hp Hn. apply negb_true_iff, bool_decide_eq_false in Hc. apply Hc, consumed_spec; eauto.
  - intros (n & cfg & -> & Ho & Hno). destruct (overrideFile_some server n cfg Hv Ho) as (o & Hl & Hp).
    exists (n, o). rewrite elem_of_List_filter, elem_of_mapRange, negb_true_iff, bool_decide_eq_false. cbn [fst snd]. split.
    + split; [done|]. rewrite consumed_spec by eauto. naive_solver.
    + apply elem_of_map. exists cfg. split; [done|]. apply elem_of_values. by eexists.
Qed.

(** ** What the script copies *)

(** One file that belongs on the server: the file and the reference to its ConfigMap. *)
Inductive wanted (server : PaperMCServer) (plugins : list Plugin) : configEntry * configMapVolumeRef -> Prop :=
  | wanted_plugin p cfg : p ∈ plugins -> ownFile server p cfg -> wanted server plugins (placed (resolvePluginDirName p) cfg)
  | wanted_override p cfg : p ∈ plugins -> overrideFile server (plgName p) cfg ->
      wanted server plugins (placed (resolvePluginDirName p) cfg)
  | wanted_unmatched name cfg : overrideFile server name cfg -> (forall p, p ∈ plugins -> plgName p <> name) ->
      wanted server plugins (placed name cfg)
  | wanted_server cfg : cfg ∈ ssServerConfigs (srvSpec server) ->
      wanted server plugins (serverConfigEntry cfg, volumeRefOf (sfConfigMapRef cfg)).

Lemma allPlaced_spec {UR : URLs} server plugins x :
  ValidServer server -> Forall ValidPlugin plugins -> x ∈ allPlaced server plugins <-> wanted server plugins x.
Proof.
  intros Hv Hps. rewrite Forall_forall in Hps. unfold allPlaced.
  rewrite !elem_of_app, elem_of_concat_map, unmatched_spec by done. unfold pluginPlaced, serverPlaced. split.
  - intros [(p & Hp & Hx)|[(n & cfg & -> & Ho & Hno)|Hx]]; [|by apply wanted_unmatched|].
    + apply elem_of_map in Hx as (cfg & -> & Hc). apply pluginFiles_spec in Hc as [Hc|Hc]; [| |done|by apply Hps].
      * by apply wanted_override.
      * by apply wanted_plugin.
    + apply elem_of_map in Hx as (cfg & -> & Hc). by apply wanted_server.
  - intros [p cfg Hp Ho|p cfg Hp Ho|n cfg Ho Hno|cfg Hc]; [left|left|right; left|right; right].
    + exists p. split; [done|]. apply elem_of_map. exists cfg. rewrite pluginFiles_spec; auto.
    + exists p. split; [done|]. apply elem_of_map. exists cfg. rewrite pluginFiles_spec; auto.
    + eauto.
    + apply elem_of_map. eauto.
Qed.
(** The reference of a placed file is that of its ConfigMap. *)
Definition refNamed (name : string) : configMapVolumeRef :=
  MkVolumeRef (configMapVolumeName name) name (configMountBase +:+ "/" +:+ configMapVolumeName name).

Lemma wanted_ref server plugins x :
  wanted server plugins x ->
  exists ref, x.2 = refNamed (ckName ref) /\ sourcePath x.1 = MountPath (refNamed (ckName ref)) +:+ "/" +:+ ckKey ref.
Proof.
  intros [p cfg _ _|p cfg _ _|n cfg _ _|cfg _]; [exists (pfConfigMapRef cfg)..|exists (sfConfigMapRef cfg)];
    (split; [done|]); cbn; unfold sourceOf; by rewrite !str_app_assoc.
Qed.

Lemma noteRefs_lookup l m n : (forall x, x ∈ l -> x.2 = refNamed (ConfigMapName x.2)) ->
  noteRefs m l !! n = if bool_decide (n ∈ map (ConfigMapName ∘ snd) l) then Some (refNamed n) else m !! n.
Proof.
  revert m. induction l as [|x l IH]; intros m Hl; [done|].
  change (noteRefs m (x :: l)) with (noteRefs (noteRef m x.2) l). rewrite IH by (intros; apply Hl; by right).
  unfold noteRef. cbn [map]. change ((ConfigMapName ∘ snd) x) with (ConfigMapName x.2).
  destruct (decide (n ∈ map (ConfigMapName ∘ snd) l)) as [Hin|Hin].
  - rewrite !bool_decide_eq_true_2 by set_solver. done.
  - rewrite (bool_decide_eq_false_2 (n ∈ map _ l)) by done. destruct (decide (n = ConfigMapName x.2)) as [->|Hne].
    + rewrite lookup_insert_eq, bool_decide_eq_true_2 by set_solver. f_equal. apply Hl. by left.
    + rewrite lookup_insert_ne, bool_decide_eq_false_2 by set_solver. done.
Qed.

Context {GL : GoSortLaws}.

(** The sorted references of a map whose keys are the names. *)
Lemma sortedConfigMapRefs_spec (m : RefMap) : (forall n r, m !! n = Some r -> ConfigMapName r = n) ->
  (forall r, r ∈ sortedConfigMapRefs m <-> m !! ConfigMapName r = Some r) /\
  NoDup (map ConfigMapName (sortedConfigMapRefs m)) /\
  StronglySorted (fun a b => String.le (ConfigMapName a) (ConfigMapName b)) (sortedConfigMapRefs m).
Proof.
  intros Hm. unfold sortedConfigMapRefs.
  pose proof (SortSlice_perm (fun a b => strLess (ConfigMapName a) (ConfigMapName b)) (map snd (mapRange m))) as Hp. split_and!.
  - intros r. rewrite Hp, elem_of_map. split.
    + intros ([n r'] & -> & Hr%elem_of_mapRange). cbn. by rewrite (Hm _ _ Hr).
    + intros Hr. exists (ConfigMapName r, r). split; [done|]. by apply elem_of_mapRange.
  - change (NoDup (ConfigMapName <$> SortSlice (fun a b => strLess (ConfigMapName a) (ConfigMapName b)) (map snd (mapRange m)))).
    rewrite Hp. change (map snd (mapRange m)) with (snd <$> mapRange m). rewrite <- list_fmap_compose.
    replace ((ConfigMapName ∘ snd) <$> mapRange m) with (fst <$> mapRange m); [rewrite mapRange_perm; apply NoDup_fst_map_to_list|].
    apply list_fmap_ext. intros i [n r] Hi. cbn. symmetry. apply Hm, elem_of_mapRange. by eapply list_elem_of_lookup_2.
  - eapply StronglySorted_weaken; [|apply (SortSlice_ordered _ _ (weakOrder_string ConfigMapName))].
    intros a b Hab. unfold strLess in Hab. apply negb_false_iff in Hab. by apply Is_true_true_2.
Qed.
Lemma allPlaced_ref server plugins {UR : URLs} :
  ValidServer server -> Forall ValidPlugin plugins ->
  forall x, x ∈ allPlaced server plugins -> x.2 = refNamed (ConfigMapName x.2).
Proof. intros Hv Hp x Hx. apply allPlaced_spec in Hx; [|done..]. apply wanted_ref in Hx as (r & -> & _). done. Qed.

(** The references of what is placed, sorted by name. *)
Lemma refs_spec {UR : URLs} server plugins :
  ValidServer server -> Forall ValidPlugin plugins ->
  let refs := sortedConfigMapRefs (noteRefs ∅ (allPlaced server plugins)) in
  (forall r, r ∈ refs <-> exists e, wanted server plugins (e, r)) /\ NoDup (map ConfigMapName refs) /\
  StronglySorted (fun a b => String.le (ConfigMapName a) (ConfigMapName b)) refs.
Proof.
  intros Hv Hp refs. pose proof (allPlaced_ref server plugins Hv Hp) as Hr.
  pose proof (fun n => noteRefs_lookup (allPlaced server plugins) ∅ n Hr) as Hl.
  destruct (sortedConfigMapRefs_spec (noteRefs ∅ (allPlaced server plugins))) as (Hin & Hn & Hs).
  { intros n r. rewrite Hl. case_bool_decide; [by intros [= <-] | done]. }
  split_and!; [|done|done]. intros r. unfold refs. rewrite Hin, Hl, lookup_empty. split.
  - case_bool_decide as Hm; [|done]. intros [= <-]. apply elem_of_map in Hm as (x & Hx & Hxin). cbn in Hx. rewrite Hx.
    exists x.1. rewrite <- (Hr x Hxin), <- surjective_pairing. by apply allPlaced_spec.
  - intros [e He]. apply allPlaced_spec in He; [|done..]. rewrite bool_decide_eq_true_2; [f_equal; symmetry; by apply (Hr _ He)|].
    apply elem_of_map. by exists (e, r).
Qed.

(** The entries, in the order of the script. *)
Definition entriesOf (server : PaperMCServer) (plugins : list Plugin) : list configEntry := map fst (allPlaced server plugins).

Lemma entriesOf_spec {UR : URLs} server plugins e :
  ValidServer server -> Forall ValidPlugin plugins -> e ∈ entriesOf server plugins <-> exists r, wanted server plugins (e, r).
Proof.
  intros Hv Hp. unfold entriesOf. rewrite elem_of_map. split.
  - intros ([e' r] & -> & Hx%allPlaced_spec); [by exists r|done|done].
  - intros [r Hx]. exists (e, r). split; [done|]. by apply allPlaced_spec.
Qed.

(** Nothing to inject: no file and no RCON setting. *)
Definition nothing (server : PaperMCServer) (entries : list configEntry) : bool :=
  (length entries =? 0)%nat && (buildRCONPropertiesScript server =? "")%string.

Lemma buildConfigScript_eq server plugins : exists warnings,
  buildConfigScript server plugins =
  if nothing server (entriesOf server plugins) then ("", [], [])
  else (renderConfigScript (entriesOf server plugins) +:+ buildRCONPropertiesScript server,
        sortedConfigMapRefs (noteRefs ∅ (allPlaced server plugins)), warnings).
Proof.
  unfold buildConfigScript. destruct (collectEntries_eq server plugins) as [w ->]. by exists w.
Qed.

Lemma renderConfigScript_nonempty entries s : renderConfigScript entries +:+ s <> "".
Proof. unfold renderConfigScript. cbn [app unlines foldr]. discriminate. Qed.
End closed.

(** ** Safe scripts *)

Definition isNewline (c : ascii) : bool := Ascii.eqb c (ascii_of_nat 10).
Definition oneLine (s : string) : bool := str_all (fun c => negb (isNewline c)) s.

(** A word of the script that is a path below [base]. *)
Definition below (base path : string) : Prop :=
  HasPrefix path base = true /\ str_all shellSafe path = true /\ Contains path ".." = false.

(** The name or the value of a property: it ends neither a quotation of the shell nor
    a part of a command of sed. *)
Definition plainChar (c : ascii) : bool := shellSafe c && negb (Ascii.eqb c "/"%char).
Definition plainWord (s : string) : bool := str_all plainChar s.

(** A text between double quotes, and the properties file. *)
Definition inQuotes (s : string) : string := dquote +:+ s +:+ dquote.
Definition theProps : string := inQuotes "$PROPS".

(** The commands that the script may have.  Every word that comes from a resource is a
    plain path at its place, or a plain property; the remainder is fixed. *)
Inductive SafeCommand : string -> Prop :=
  | safe_shebang : SafeCommand "#!/bin/sh"
  | safe_option : SafeCommand "set -e"
  | safe_comment text : oneLine text = true -> SafeCommand ("# " +:+ text)
  | safe_else : SafeCommand "else"
  | safe_fi : SafeCommand "fi"
  | safe_mkdir dir : HasPrefix dir "/data" = true -> str_all shellSafe dir = true -> SafeCommand ("mkdir -p " +:+ dir)
  | safe_test target : below "/data/" target -> SafeCommand ("if [ ! -f " +:+ target +:+ " ]; then")
  | safe_copy source target :
      HasPrefix source "/configs/" = true -> str_all shellSafe source = true -> below "/data/" target ->
      SafeCommand ("cp " +:+ source +:+ " " +:+ target)
  | safe_props file : below "/data/" file -> SafeCommand ("PROPS=" +:+ file)
  | safe_test_props : SafeCommand ("if [ -f " +:+ theProps +:+ " ]; then")
  | safe_has_property key : plainWord key = true -> SafeCommand ("if grep -q '^" +:+ key +:+ "=' " +:+ theProps +:+ "; then")
  | safe_set_property key value : plainWord key = true -> plainWord value = true ->
      SafeCommand ("sed -i 's/^" +:+ key +:+ "=.*/" +:+ key +:+ "=" +:+ value +:+ "/' " +:+ theProps)
  | safe_add_property key value : plainWord key = true -> plainWord value = true ->
      SafeCommand ("echo '" +:+ key +:+ "=" +:+ value +:+ "' >> " +:+ theProps)
  | safe_test_password file : below "/secrets/rcon/" file -> SafeCommand ("if [ -f " +:+ dquote +:+ file +:+ dquote +:+ " ]; then")
  | safe_read_password file : below "/secrets/rcon/" file -> SafeCommand ("RCON_PASS=$(cat " +:+ dquote +:+ file +:+ dquote +:+ ")")
  | safe_set_password : SafeCommand ("sed -i " +:+ inQuotes "s/^rcon.password=.*/rcon.password=$RCON_PASS/" +:+ " " +:+ theProps)
  | safe_add_password : SafeCommand ("echo " +:+ inQuotes "rcon.password=$RCON_PASS" +:+ " >> " +:+ theProps).

#[export] Hint Constructors SafeCommand : mc.

Definition isBlank (s : string) : bool := str_all (fun c => Ascii.eqb c " "%char) s.

(** A line is one command, indented. *)
Definition SafeLine (line : string) : Prop :=
  exists indent command, line = indent +:+ command /\ isBlank indent = true /\ SafeCommand command.

Lemma safe_line indent command : isBlank indent = true -> SafeCommand command -> SafeLine (indent +:+ command).
Proof. by exists indent, command. Qed.

(** What the schema of the resources admits for [overwrite]. *)
Definition knownOverwrite (o : string) : Prop := o = "" \/ o = gcOverwriteAlways \/ o = gcOverwriteIfNotExists.

Definition knownOverwrites (server : PaperMCServer) (plugins : list Plugin) : Prop :=
  Forall (fun p => Forall (fun c => knownOverwrite (pfOverwrite c)) (psConfigs (plgSpec p))) plugins /\
  Forall (fun pc => Forall (fun c => knownOverwrite (pfOverwrite c)) (scConfigs pc)) (ssPluginConfigs (srvSpec server)) /\
  Forall (fun c => knownOverwrite (sfOverwrite c)) (ssServerConfigs (srvSpec server)).

(** The key of the RCON password in its Secret, of which the webhook only asks that it
    is there. *)
Definition safePasswordKey (server : PaperMCServer) : Prop :=
  let key := skKey (rcPasswordSecret (ssRCON (srvSpec server))) in
  str_all shellSafe key = true /\ Contains key ".." = false.

(** The directory of a plugin without files, which the webhook does not look at. *)
Definition safeDirName (p : Plugin) : Prop :=
  psConfigs (plgSpec p) = [] -> psPluginDirName (plgSpec p) <> "" -> safeName (psPluginDirName (plgSpec p)).

Section safe.
Context {MR : MapRange} {ML : MapRangeLaws} {DG : Digest} {DL : DigestLaws} {CR : Cron} {UR : URLs}.

(** An entry whose paths are safe. *)
Record SafeEntry (e : configEntry) : Prop := {
  se_source : HasPrefix (sourcePath e) "/configs/" = true /\ str_all shellSafe (sourcePath e) = true;
  se_target : exists rest, targetPath e = "/data/" +:+ rest /\ str_all shellSafe rest = true /\ Contains rest ".." = false;
  se_comment : oneLine (comment e) = true
}.

Lemma target_below e : SafeEntry e -> below "/data/" (targetPath e).
Proof.
  intros [_ (r & -> & Hr & Hc) _]. split_and!; [apply HasPrefix_spec; by eexists | by rewrite str_all_app, Hr|].
  change ("/data/" +:+ r) with ("/data" +:+ String "/"%char r). by apply Contains_sep.
Qed.

Lemma entryLines_safe e : SafeEntry e -> Forall SafeLine (entryLines e).
Proof.
  intros He. pose proof (target_below e He) as Ht. destruct He as [[Hs1 Hs2] (r & Hr & Hrs & Hrc) Hcm].
  unfold entryLines. rewrite !Forall_app. split_and!.
  - by apply Forall_singleton, (safe_line ""), safe_comment.
  - case_match; [|done]. apply Forall_singleton, (safe_line ""), safe_mkdir; [done| |].
    + rewrite Hr. change ("/data/" +:+ r) with ("/" +:+ "data" +:+ "/" +:+ r). by apply Dir_below.
    + apply Dir_all; [done|done|]. by apply Ht.
  - assert (Hc : SafeCommand (copyLine e)) by by apply safe_copy. case_match.
    + rewrite !Forall_cons. split_and!; [by apply (safe_line ""), safe_test | by apply (safe_line "  ") | by apply (safe_line ""), safe_fi | done].
    + by apply Forall_singleton, (safe_line "").
Qed.

Lemma entriesLines_safe entries :
  Forall SafeEntry entries -> Forall SafeLine (["#!/bin/sh"; "set -e"] ++ concat (map entryLines entries)).
Proof.
  intros He. rewrite Forall_app. split.
  - rewrite !Forall_cons. split_and!; [by apply (safe_line ""), safe_shebang | by apply (safe_line ""), safe_option | done].
  - induction He as [|e l He _ IH]; [constructor|]. cbn [map concat]. apply Forall_app. split; [by apply entryLines_safe | done].
Qed.

Lemma pretty_plainWord (z : Z) : plainWord (pretty z) = true.
Proof.
  assert (Hd : forall n : Z, 0 <= n -> plainWord (pretty n) = true).
  { intros n Hn. eapply str_all_mono; [|apply (pretty_digits n Hn)]. intros c Hc. unfold plainChar, shellSafe. rewrite Hc, !orb_true_r. cbn.
    by destruct (Ascii.eqb_spec c "/"%char) as [->|]. }
  destruct z as [|q|q]; [by apply Hd..|]. change (pretty (Z.neg q)) with ("-" +:+ pretty (Z.pos q)).
  unfold plainWord. rewrite str_all_app. by apply Hd.
Qed.

Lemma propertyLines_safe key value : plainWord key = true -> plainWord value = true -> Forall SafeLine (propertyLines key value).
Proof.
  intros Hk Hv. unfold propertyLines. rewrite !Forall_cons.
  split_and!; [by apply (safe_line "  "), safe_has_property | by apply (safe_line "    "), safe_set_property | by apply (safe_line "  "), safe_else
    | by apply (safe_line "    "), safe_add_property | by apply (safe_line "  "), safe_fi | done].
Qed.

Lemma passwordLines_safe file : below "/secrets/rcon/" file -> Forall SafeLine (passwordLines file).
Proof.
  intros Hf. unfold passwordLines. rewrite !Forall_cons.
  split_and!; [by apply (safe_line "  "), safe_comment | by apply (safe_line "  "), safe_test_password
    | by apply (safe_line "    "), safe_read_password | by apply (safe_line "    "), (safe_has_property "rcon.password")
    | by apply (safe_line "      "), safe_set_password | by apply (safe_line "    "), safe_else
    | by apply (safe_line "      "), safe_add_password | by apply (safe_line "    "), safe_fi | by apply (safe_line "  "), safe_fi | done].
Qed.

Lemma below_secrets key : str_all shellSafe key = true -> Contains key ".." = false -> below "/secrets/rcon/" ("/secrets/rcon/" +:+ key).
Proof.
  intros Hk Hc. split_and!; [apply HasPrefix_spec; by eexists | by rewrite str_all_app, Hk|].
  change ("/secrets/rcon/" +:+ key) with ("/secrets/rcon" +:+ String "/"%char key). by apply Contains_sep.
Qed.

Lemma buildRCONPropertiesScript_safe server :
  safePasswordKey server -> exists lines, buildRCONPropertiesScript server = unlines lines /\ Forall SafeLine lines.
Proof.
  intros [Hk Hc]. unfold buildRCONPropertiesScript. destruct (negb (rcEnabled _)); [by exists []|].
  eexists. split; [reflexivity|]. rewrite !Forall_app. split_and!.
  - rewrite !Forall_cons. split_and!; [by apply (safe_line ""), safe_comment | | by apply (safe_line ""), safe_test_props | done].
    by apply (safe_line ""), (safe_props "/data/server.properties").
  - by apply propertyLines_safe.
  - apply propertyLines_safe; [done | apply pretty_plainWord].
  - case_match; [|done]. apply passwordLines_safe. case_match; [done | by apply below_secrets].
  - by apply Forall_singleton, (safe_line ""), safe_fi.
Qed.

Lemma unlines_app a b : unlines (a ++ b) = unlines a +:+ unlines b.
Proof. induction a as [|x a IH]; [done|]. cbn [app unlines foldr] in *. unfold unlines in *. by rewrite IH, !str_app_assoc. Qed.

Lemma isHexDigit_safe c : isHexDigit c = true -> shellSafe c = true.
Proof.
  unfold isHexDigit, shellSafe, isLower. rewrite orb_true_iff, andb_true_iff, !Nat.leb_le. intros [->|[? ?]].
  - by rewrite !orb_true_r.
  - rewrite (proj2 (Nat.leb_le 97 _)), (proj2 (Nat.leb_le _ 122)) by lia. done.
Qed.

Lemma volumeName_safe n : str_all shellSafe n = true -> str_all shellSafe (configMapVolumeName n) = true.
Proof.
  intros Hn. unfold configMapVolumeName. case_match; [by rewrite str_all_app, Hn|].
  rewrite !str_all_app, str_all_take by by rewrite str_all_app, Hn.
  change (str_all shellSafe "-") with true. cbn [andb].
  apply str_all_take. eapply str_all_mono; [apply isHexDigit_safe | apply Sha256Hex_hex].
Qed.

Lemma sourceOf_safe ref path : validFile (ref, path) ->
  HasPrefix (sourceOf ref) "/configs/" = true /\ str_all shellSafe (sourceOf ref) = true.
Proof.
  intros (_ & (_ & Hn & _ & _) & _ & Hk). cbn [fst] in *. unfold sourceOf. split; [apply HasPrefix_spec; by eexists|].
  rewrite !str_all_app, (volumeName_safe _ Hn), Hk. done.
Qed.

Lemma safe_oneLine s : str_all shellSafe s = true -> oneLine s = true.
Proof.
  apply str_all_mono. intros c. unfold isNewline. destruct (Ascii.eqb_spec c (ascii_of_nat 10)) as [->|]; [|done]. by vm_compute.
Qed.

Lemma overwrite_oneLine o : knownOverwrite o -> oneLine (overwriteOr o) = true.
Proof. by intros [-> | [-> | ->]]. Qed.
Lemma oneLine_app a b : oneLine (a +:+ b) = oneLine a && oneLine b.
Proof. apply str_all_app. Qed.

(** A file below a directory that is safe or missing. *)
Lemma placed_safe dir cfg :
  (dir = "" \/ safeName dir) -> validFile (pluginFile cfg) -> knownOverwrite (pfOverwrite cfg) -> SafeEntry (placed dir cfg).1.
Proof.
  intros Hd Hf Ho. pose proof Hf as [(_ & Hp & _ & Hc) _]. cbn [pluginFile snd] in Hp, Hc.
  assert (Hd' : str_all shellSafe dir = true /\ Contains dir ".." = false) by (destruct Hd as [-> | (_ & ? & _ & ?)]; done).
  destruct Hd' as [Hds Hdc]. split; cbn [placed buildPluginConfigEntry fst sourcePath targetPath comment].
  - by apply (sourceOf_safe _ (pfPath cfg)).
  - exists ("plugins/" +:+ dir +:+ "/" +:+ pfPath cfg). split_and!; [done | by rewrite !str_all_app, Hds, Hp|].
    change ("plugins/" +:+ dir +:+ "/" +:+ pfPath cfg) with ("plugins" +:+ String "/"%char (dir +:+ String "/"%char (pfPath cfg))).
    apply Contains_sep; [done..|]. by apply Contains_sep.
  - by rewrite !oneLine_app, (safe_oneLine dir), (safe_oneLine (pfPath cfg)), (overwrite_oneLine _ Ho).
Qed.

Lemma serverConfig_safe cfg :
  validFile (serverFile cfg) -> knownOverwrite (sfOverwrite cfg) -> SafeEntry (serverConfigEntry cfg).
Proof.
  intros Hf Ho. pose proof Hf as [(_ & Hp & _ & Hc) _]. cbn [serverFile snd] in Hp, Hc.
  split; cbn [serverConfigEntry sourcePath targetPath comment].
  - by apply (sourceOf_safe _ (sfPath cfg)).
  - by exists (sfPath cfg).
  - by rewrite !oneLine_app, (safe_oneLine (sfPath cfg)), (overwrite_oneLine _ Ho).
Qed.

Lemma resolvePluginDirName_safe p :
  ValidPlugin p -> safeDirName p -> resolvePluginDirName p = "" \/ safeName (resolvePluginDirName p).
Proof.
  intros Hp Hd. unfold resolvePluginDirName. destruct (String.eqb_spec (psPluginDirName (plgSpec p)) "") as [He|He]; cbn [negb].
  - destruct (decide (soProject (psSource (plgSpec p)) = "")) as [->|Hne]; [by left|]. right. by apply (vp_source _ Hp).
  - right. destruct (psConfigs (plgSpec p)) as [|c l] eqn:Hl; [by apply Hd|]. apply (vp_configs _ Hp). by rewrite Hl.
Qed.

Lemma overrideFile_valid server n cfg : ValidServer server -> overrideFile server n cfg -> safeName n /\ validFile (pluginFile cfg).
Proof.
  intros Hv (pc & Hin & <- & Hc). destruct (vs_plugins _ Hv) as [Hf _]. rewrite Forall_forall in Hf.
  destruct (Hf pc Hin) as [Hn [Hfs _]]. split; [done|]. rewrite Forall_forall in Hfs. apply Hfs, elem_of_map. eauto.
Qed.

Lemma wanted_safe server plugins x :
  ValidServer server -> Forall ValidPlugin plugins -> Forall safeDirName plugins -> knownOverwrites server plugins ->
  wanted server plugins x -> SafeEntry x.1.
Proof.
  rewrite !Forall_forall. intros Hv Hps Hds (Ho1 & Ho2 & Ho3) Hw.
  rewrite Forall_forall in Ho1. rewrite Forall_forall in Ho2. rewrite Forall_forall in Ho3.
  assert (Hov : forall n cfg, overrideFile server n cfg -> knownOverwrite (pfOverwrite cfg)).
  { intros n cfg (pc & Hin & _ & Hc). by apply (proj1 (Forall_forall _ _) (Ho2 pc Hin)). }
  destruct Hw as [p cfg Hp [Hc _]|p cfg Hp Ho|n cfg Ho _|cfg Hc].
  - apply placed_safe; [by apply resolvePluginDirName_safe; auto| |].
    + destruct (vp_configs _ (Hps p Hp)) as [_ [Hf _]]; [by intros He; rewrite He in Hc; apply not_elem_of_nil in Hc|].
      rewrite Forall_forall in Hf. apply Hf, elem_of_map. eauto.
    + by apply (proj1 (Forall_forall _ _) (Ho1 p Hp)).
  - apply placed_safe; [by apply resolvePluginDirName_safe; auto | by apply (overrideFile_valid server (plgName p)) | by eapply Hov].
  - destruct (overrideFile_valid server n cfg Hv Ho). apply placed_safe; [by right | done | by eapply Hov].
  - cbn [fst]. destruct (vs_files _ Hv) as [Hf _]. rewrite Forall_forall in Hf.
    apply serverConfig_safe; [apply Hf, elem_of_map; eauto | auto].
Qed.
End safe.

(** ** Properties *)

(** C3: For admitted resources the script copies exactly the files that belong on the
    server, whatever the order of the maps: every file of a matched plugin at a path
    that the server does not override, every override in the directory of its plugin,
    overrides of plugins that are not matched under the plugin's name, and the server's
    own files.  The volume references are exactly those of the files, without
    repetition and sorted by ConfigMap; with nothing to do there is no script. *)
Theorem buildConfigScript_correct {MR : MapRange} {ML : MapRangeLaws} {GS : GoSort} {GL : GoSortLaws} {DG : Digest}
  {CR : Cron} {UR : URLs} server plugins :
  ValidServer server -> Forall ValidPlugin plugins ->
  exists entries refs warnings,
    buildConfigScript server plugins =
      (if nothing server entries then "" else renderConfigScript entries +:+ buildRCONPropertiesScript server, refs, warnings) /\
    (forall e, e ∈ entries <-> exists r, wanted server plugins (e, r)) /\
    (forall r, r ∈ refs <-> exists e, wanted server plugins (e, r)) /\
    NoDup (map ConfigMapName refs) /\
    StronglySorted (fun a b => String.le (ConfigMapName a) (ConfigMapName b)) refs.
Proof.
  intros Hv Hp. destruct (buildConfigScript_eq server plugins) as [w ->].
  pose proof (fun e => entriesOf_spec server plugins e Hv Hp) as He. pose proof (refs_spec server plugins Hv Hp) as Hr.
  cbv zeta in Hr. destruct (nothing server (entriesOf server plugins)) eqn:Hn.
  - exists (entriesOf server plugins), [], []. rewrite Hn. split_and!; [done | exact He | | constructor | constructor].
    intros r. split; [by intros ?%not_elem_of_nil|]. intros [e Hw]. exfalso.
    assert (Hin : e ∈ entriesOf server plugins) by (apply He; eauto).
    unfold nothing in Hn. destruct (entriesOf server plugins); [by apply not_elem_of_nil in Hin | done].
  - exists (entriesOf server plugins), (sortedConfigMapRefs (noteRefs ∅ (allPlaced server plugins))), w.
    rewrite Hn. split_and!; [done | exact He | apply Hr..].
Qed.


Section injection.
Context {MR : MapRange} {ML : MapRangeLaws} {GS : GoSort} {GL : GoSortLaws} {DG : Digest} {CR : Cron} {UR : URLs}.

(** The container reads what the script reads: its volumes and mounts, without the
    RCON secret. *)
Lemma ref_mounted refs r cm : r ∈ refs ->
  MkVolumeMount (VolumeName r) (MountPath r) false ∈ buildConfigVolumeMounts refs /\
  configMapVolume (VolumeName r) (ConfigMapName r) None ∈ buildConfigVolumes cm refs.
Proof.
  intros Hr. unfold buildConfigVolumeMounts, buildConfigVolumes. split.
  - apply elem_of_app. right. apply elem_of_map. eauto.
  - right. apply elem_of_map. eauto.
Qed.

(** Every mount is of a volume of the list or of the data volume of the pod. *)
Lemma mounts_have_volumes refs cm mnt : mnt ∈ buildConfigVolumeMounts refs ->
  vmName mnt = gcVolumeData \/ vmName mnt ∈ map voName (buildConfigVolumes cm refs).
Proof.
  unfold buildConfigVolumeMounts, buildConfigVolumes. rewrite elem_of_app, elem_of_map.
  intros [[->|[->|?%not_elem_of_nil]%elem_of_cons]%elem_of_cons|(r & -> & Hr)]; [by left|right; by left| |].
  - done.
  - right. cbn. right. apply elem_of_map. exists (configMapVolume (VolumeName r) (ConfigMapName r) None).
    split; [done|]. apply elem_of_map. eauto.
Qed.
End injection.

(** The init container is built exactly when a file belongs on the server or RCON is
    on, and it can read what it copies: its ConfigMap holds the script, every source
    lies below a mount of a volume with the file's ConfigMap, and every mount is of a
    volume that comes with it or of the data volume. *)
Theorem buildConfigInjection_correct {MR : MapRange} {ML : MapRangeLaws} {GS : GoSort} {GL : GoSortLaws} {DG : Digest}
  {CR : Cron} {UR : URLs} server plugins :
  ValidServer server -> Forall ValidPlugin plugins ->
  match buildConfigInjection server plugins with
  | None => rcEnabled (ssRCON (srvSpec server)) = false /\ forall x, ~ wanted server plugins x
  | Some (container, volumes, scriptCM) =>
      cmData scriptCM = {[configScriptKey := (buildConfigScript server plugins).1.1]} /\
      configMapVolume gcConfigScript (Name (cmMeta scriptCM)) (Some 493) ∈ volumes /\
      (forall e r, wanted server plugins (e, r) ->
        HasPrefix (sourcePath e) (MountPath r +:+ "/") = true /\
        MkVolumeMount (VolumeName r) (MountPath r) false ∈ ctVolumeMounts container /\
        configMapVolume (VolumeName r) (ConfigMapName r) None ∈ volumes) /\
      (forall mnt, mnt ∈ ctVolumeMounts container -> vmName mnt = gcVolumeData \/ vmName mnt ∈ map voName volumes)
  end.
Proof.
  intros Hv Hp. unfold buildConfigInjection. destruct (buildConfigScript_eq server plugins) as [w ->].
  pose proof (fun e => entriesOf_spec server plugins e Hv Hp) as He. pose proof (refs_spec server plugins Hv Hp) as [Hr _].
  set (refs := sortedConfigMapRefs _) in *. destruct (nothing server (entriesOf server plugins)) eqn:Hn.
  - cbn [String.eqb]. apply andb_true_iff in Hn as [Hl%Nat.eqb_eq Hs%String.eqb_eq]. split.
    + unfold buildRCONPropertiesScript in Hs. destruct (rcEnabled _); [discriminate Hs | done].
    + intros [e r] Hw. assert (Hin : e ∈ entriesOf server plugins) by (apply He; eauto).
      destruct (entriesOf server plugins); [by apply not_elem_of_nil in Hin | done].
  - rewrite (proj2 (String.eqb_neq _ _) (renderConfigScript_nonempty _ _)). cbn [fst].
    set (cm := srvName server +:+ "-config-script"). set (sec := _ && _). split_and!.
    + done.
    + apply elem_of_app. left. unfold buildConfigVolumes. by left.
    + intros e r Hw. destruct (ref_mounted refs r cm) as [Hm Hvo]; [apply Hr; eauto|]. split_and!.
      * destruct (wanted_ref server plugins _ Hw) as (ref & Hr2 & Hs). cbn [fst snd] in *. subst r. rewrite Hs.
        apply HasPrefix_spec. exists (ckKey ref). by rewrite str_app_assoc.
      * apply elem_of_app. by left.
      * apply elem_of_app. by left.
    + intros mnt [Hm|Hm]%elem_of_app.
      * apply (mounts_have_volumes refs cm) in Hm as [?|?]; [by left|]. right. rewrite map_app. apply elem_of_app. by left.
      * right. rewrite map_app. apply elem_of_app. right. destruct sec; [|by apply not_elem_of_nil in Hm].
        apply list_elem_of_singleton in Hm as ->. by left.
Qed.

(** A server with one override for the plugin [map], at two paths of a ConfigMap, and a
    password key. *)
Definition overridingServer (key : string) : PaperMCServer :=
  let file k := MkPluginConfigFile (MkConfigMapKeyRef "configs" k) k "always" in
  zeroPaperMCServer <| srvMeta := zeroObjectMeta <| Name := "s1" |> |>
    <| srvSpec := zeroPaperMCServerSpec <| ssUpdateStrategy := strategyLatest |>
         <| ssUpdateSchedule := zeroUpdateSchedule <| usCheckCron := "0 4 * * *" |> |>
         <| ssRCON := MkRCONConfig true (MkSecretKeyRef "rcon" key) 25575 |>
         <| ssPluginConfigs := [MkServerPluginConfig "map" [file "core.conf"; file "web.conf"]] |> |>.

(** The plugin [map], without files, in the directory [dir]. *)
Definition mapPlugin (dir : string) : Plugin :=
  zeroPlugin <| plgMeta := zeroObjectMeta <| Name := "map" |> |>
    <| plgSpec := zeroPluginSpec <| psSource := MkPluginSource sourceTypeHangar "BlueMap" "" "" |>
         <| psUpdateStrategy := strategyLatest |> <| psPluginDirName := dir |> |>.

Lemma overridingServer_valid :
  Forall (fun key => ValidServer (CR := Daily.cron) (overridingServer key)) ["rcon-password"; "$(reboot)"].
Proof. rewrite !Forall_cons. split_and!; try apply validServer_iff; done. Qed.

Lemma mapPlugin_valid : Forall (fun dir => ValidPlugin (UR := SplitURLs.simpleURLs) (mapPlugin dir)) ["BlueMap"; ""; "x; reboot #"].
Proof. rewrite !Forall_cons. split_and!; try apply validPlugin_iff; done. Qed.

Lemma mapPlugin_safe dir : dir = "BlueMap" \/ dir = "" -> safeDirName (mapPlugin dir).
Proof. intros [-> | ->] _ Hne; [|done]. repeat split; done. Qed.

Lemma overridingServer_known key dir : knownOverwrites (overridingServer key) [mapPlugin dir].
Proof. repeat constructor; right; by left. Qed.

(** Two inputs of admitted resources reach the shell unchecked: the directory name
    of a plugin without files, when the server has overrides for that plugin, and the
    key of the RCON password in its Secret.  The script then runs the command in them. *)
Theorem admitted_script_injection :
  exists server plugin badServer badPlugin,
    (ValidServer (CR := Daily.cron) server /\ ValidPlugin (UR := SplitURLs.simpleURLs) badPlugin /\
     Contains (buildConfigScript (MR := InOrder.range) (GS := InsertionSort.goSort) (DG := LengthDigest.digest) server [badPlugin]).1.1
       (newlineString +:+ "mkdir -p /data/plugins/x; reboot #" +:+ newlineString) = true) /\
    (ValidServer (CR := Daily.cron) badServer /\ ValidPlugin (UR := SplitURLs.simpleURLs) plugin /\
     Contains (buildConfigScript (MR := InOrder.range) (GS := InsertionSort.goSort) (DG := LengthDigest.digest) badServer [plugin]).1.1
       ("=$(cat " +:+ dquote +:+ "/secrets/rcon/$(reboot)" +:+ dquote +:+ ")" +:+ newlineString) = true).
Proof.
  pose proof overridingServer_valid as Hs. pose proof mapPlugin_valid as Hp. rewrite Forall_forall in Hs. rewrite Forall_forall in Hp.
  exists (overridingServer "rcon-password"), (mapPlugin "BlueMap"), (overridingServer "$(reboot)"), (mapPlugin "x; reboot #").
  split; (split_and!; [apply Hs; set_solver | apply Hp; set_solver | by vm_compute]).
Qed.

(** The text of the script, and so the ConfigMap that holds it, depends on the order
    in which a map is ranged over: two runs on the same admitted resources can write
    different scripts, although they copy the same files. *)
Theorem buildConfigScript_unstable : exists server,
  ValidServer (CR := Daily.cron) server /\
  (buildConfigScript (MR := InOrder.range) (GS := InsertionSort.goSort) (DG := LengthDigest.digest) server []).1.1 <>
  (buildConfigScript (MR := Reversed.range) (GS := InsertionSort.goSort) (DG := LengthDigest.digest) server []).1.1.
Proof.
  exists (overridingServer "rcon-password"). pose proof overridingServer_valid as Hs. rewrite Forall_forall in Hs.
  split; [apply Hs; set_solver | by vm_compute].
Qed.

(** ** Witnesses *)

Lemma buildConfigScript_correct_witness : exists entries refs warnings,
  buildConfigScript (MR := InOrder.range) (GS := InsertionSort.goSort) (DG := LengthDigest.digest)
    (overridingServer "rcon-password") [mapPlugin "BlueMap"] =
    (if nothing (overridingServer "rcon-password") entries then ""
     else renderConfigScript entries +:+ buildRCONPropertiesScript (overridingServer "rcon-password"), refs, warnings).
Proof.
  destruct (buildConfigScript_correct (MR := InOrder.range) (GS := InsertionSort.goSort) (DG := LengthDigest.digest) (CR := Daily.cron)
    (UR := SplitURLs.simpleURLs) (overridingServer "rcon-password") [mapPlugin "BlueMap"]) as (es & refs & w & H & _).
  - exact (proj1 (proj1 (Forall_cons _ _ _) overridingServer_valid)).
  - apply Forall_singleton. exact (proj1 (proj1 (Forall_cons _ _ _) mapPlugin_valid)).
  - exists es, refs, w. exact H.
Defined.


Lemma buildConfigInjection_correct_witness :
  exists container volumes scriptCM,
    buildConfigInjection (MR := InOrder.range) (GS := InsertionSort.goSort) (DG := LengthDigest.digest)
      (overridingServer "rcon-password") [mapPlugin "BlueMap"] = Some (container, volumes, scriptCM) /\
    configMapVolume gcConfigScript "s1-config-script" (Some 493) ∈ volumes.
Proof.
  pose proof (buildConfigInjection_correct (MR := InOrder.range) (GS := InsertionSort.goSort) (DG := LengthDigest.digest)
    (CR := Daily.cron) (UR := SplitURLs.simpleURLs) (overridingServer "rcon-password") [mapPlugin "BlueMap"]
    (proj1 (proj1 (Forall_cons _ _ _) overridingServer_valid))
    (proj2 (Forall_singleton _ _) (proj1 (proj1 (Forall_cons _ _ _) mapPlugin_valid)))) as H.
  destruct (buildConfigInjection _ _) as [[[c v] cm]|] eqn:Hb.
  - exists c, v, cm. split; [done|]. destruct H as (_ & Hv & _).
    assert (Hn : Name (cmMeta cm) = "s1-config-script") by (vm_compute in Hb; injection Hb as <- <- <-; reflexivity).
    rewrite <- Hn. exact Hv.
  - exfalso. vm_compute in Hb. discriminate Hb.
Defined.
