(* ===== verification/Workload.v ===== *)
(** * Workload of a server (internal/controller/papermcserver_controller.go)

    The builders of the StatefulSet and of the Service. *)

From S2P Require Import Prelude GoBase Decimals Strings GoLib Regex Api Objects Window Url Images Webhook Config.
From Stdlib Require Import Ascii.

Open Scope Z_scope.

(** ** Constants *)

Definition defaultStorageSize : string := "10Gi".
Definition defaultTerminationGracePeriod : Z := 300.
Definition gcLabelApp : string := "app".
Definition gcLabelServerName : string := "mc.k8s.lex.la/server-name".
Definition gcPortNameMinecraft : string := "minecraft".
Definition gcRCON : string := "rcon".
Definition minecraftPort : Z := 25565.
Definition ServiceTypeLoadBalancer : string := "LoadBalancer".

(** ** StatefulSet *)

(** The first variable of that name takes the value; what else it has stays. *)
Fixpoint addOrUpdateEnv (env : list EnvVar) (name value : string) : list EnvVar :=
  match env with
  | [] => [MkEnvVar name value None]
  | e :: env => if (evName e =? name)%string then e <| evValue := value |> :: env else e :: addOrUpdateEnv env name value
  end.

Definition buildEnvironmentVariables (server : PaperMCServer) (existingEnv : list EnvVar) : list EnvVar :=
  let spec := srvSpec server in
  let env := addOrUpdateEnv existingEnv "EULA" "TRUE" in
  let env := if negb (ssVersion spec =? "")%string && negb (ssVersion spec =? "latest")%string
             then addOrUpdateEnv env "PAPER_VERSION" (ssVersion spec) else env in
  let env := match ssBuild spec with
             | Some build => addOrUpdateEnv env "PAPER_BUILD" (pretty build)
             | None => env
             end in
  if rcEnabled (ssRCON spec) then
    addOrUpdateEnv env "RCON_PORT" (pretty (rcPort (ssRCON spec))) ++
    [MkEnvVar "RCON_PASSWORD" "" (Some (MkSecretRef (skName (rcPasswordSecret (ssRCON spec))) (skKey (rcPasswordSecret (ssRCON spec)))))]
  else env.

Section pod.
Context {MR : MapRange} {GS : GoSort} {DG : Digest}.

(** The pod of the template, its labels left as the user gave them. *)
Definition buildPodSpec (server : PaperMCServer) (matchedPlugins : list Plugin) : result PodTemplateSpec :=
  let podSpec := ssPodTemplate (srvSpec server) in
  let '(container, others) :=
    match ptContainers podSpec with
    | [] => (zeroContainer <| ctName := containerNamePaperMC |>, [])
    | c :: cs => (c, cs)
    end in
  let status := srvStatus server in
  if (stDesiredVersion status =? "")%string || (stDesiredBuild status =? 0) then
    Err (ErrNew ("BUG: buildPodSpec called without DesiredVersion/DesiredBuild set (version=" +:+ stDesiredVersion status +:+
                 ", build=" +:+ pretty (stDesiredBuild status) +:+ ")"))
  else
    let container :=
      container <| ctImage := imageFor (stDesiredVersion status) (stDesiredBuild status) |>
        <| ctEnv := buildEnvironmentVariables server (ctEnv container) |>
        <| ctVolumeMounts := ctVolumeMounts container ++ [MkVolumeMount gcVolumeData "/data" false] |> in
    let timeout := gsTimeout (ssGracefulShutdown (srvSpec server)) in
    let podSpec :=
      podSpec <| ptContainers := container :: others |>
        <| ptTerminationGracePeriodSeconds := Some (if 0 <? timeout then timeout / Second else defaultTerminationGracePeriod) |> in
    Ok (match buildConfigInjection server matchedPlugins with
        | Some (initContainer, configVolumes, _) =>
            podSpec <| ptInitContainers := initContainer :: ptInitContainers podSpec |>
              <| ptVolumes := ptVolumes podSpec ++ configVolumes |>
        | None => podSpec
        end).

Definition buildSelector (server : PaperMCServer) : gmap string string :=
  <[gcLabelApp := containerNamePaperMC]> {[gcLabelServerName := srvName server]}.

Definition buildPodTemplate (server : PaperMCServer) (podSpec : PodTemplateSpec) : PodTemplateSpec :=
  podSpec
    <| ptLabels := <[gcLabelServerName := srvName server]> (<[gcLabelApp := containerNamePaperMC]>
         (standardLabels (srvName server) "server" ∪ ptLabels (ssPodTemplate (srvSpec server)))) |>
    <| ptAnnotations := ptAnnotations (ssPodTemplate (srvSpec server)) |>.

Definition buildVolumeClaimTemplates : list VolumeClaim :=
  [MkVolumeClaim gcVolumeData ["ReadWriteOnce"] defaultStorageSize].

Definition buildStatefulSet (server : PaperMCServer) (matchedPlugins : list Plugin) : result StatefulSet :=
  match buildPodSpec server matchedPlugins with
  | Err e => Err (ErrWrap e "failed to build pod spec")
  | Ok podSpec =>
      Ok (MkStatefulSet
            (zeroObjectMeta <| Name := srvName server |> <| Namespace := srvNamespace server |>
               <| Labels := standardLabels (srvName server) "server" ∪ Labels (srvMeta server) |>)
            (buildPodTemplate server podSpec) 1 0 0 "" "" (srvName server) (buildSelector server) buildVolumeClaimTemplates)
  end.
End pod.

(** ** Service *)

(** The protocol of an endpoint in Kubernetes: TCP for TCP, HTTP and an empty one. *)
Definition endpointProto (ep : PluginEndpoint) : string :=
  if (peProtocol ep =? protocolUDP)%string then protocolUDP else protocolTCP.

(** The loop over the endpoints: each pair of port and protocol that was not seen. *)
Fixpoint freshPorts (seen : gset (Z * string)) (eps : list PluginEndpoint) : list (Z * string) :=
  match eps with
  | [] => []
  | ep :: eps =>
      let key := (pePort ep, endpointProto ep) in
      if bool_decide (key ∈ seen) then freshPorts seen eps else key :: freshPorts ({[key]} ∪ seen) eps
  end.

Definition allEndpoints (plugins : list Plugin) : list PluginEndpoint :=
  concat (map (fun p => psEndpoints (plgSpec p)) plugins).

Definition endpointPort (key : Z * string) : ServicePort :=
  MkServicePort ("ep-" +:+ pretty key.1 +:+ "-" +:+ ToLower (str_take 3 key.2)) key.1 key.1 key.2 0 None.

Definition rconPorts (server : PaperMCServer) : list ServicePort :=
  let rcon := ssRCON (srvSpec server) in
  if rcEnabled rcon then [MkServicePort gcRCON (rcPort rcon) (rcPort rcon) protocolTCP 0 None] else [].

Definition buildServicePorts (server : PaperMCServer) (matchedPlugins : list Plugin) : list ServicePort :=
  let rcon := ssRCON (srvSpec server) in
  let seen : gset (Z * string) := {[(minecraftPort, protocolTCP)]} in
  let seen := if rcEnabled rcon then {[(rcPort rcon, protocolTCP)]} ∪ seen else seen in
  [MkServicePort gcPortNameMinecraft minecraftPort minecraftPort protocolTCP 0 None] ++ rconPorts server ++
  map endpointPort (freshPorts seen (allEndpoints matchedPlugins)).

Definition buildService (server : PaperMCServer) (matchedPlugins : list Plugin) : Service :=
  let sv := ssService (srvSpec server) in
  MkService
    (zeroObjectMeta <| Name := srvName server |> <| Namespace := srvNamespace server |>
       <| Labels := standardLabels (srvName server) "service" |> <| Annotations := svAnnotations sv |>)
    (zeroServiceSpec <| seType := if negb (svType sv =? "")%string then svType sv else ServiceTypeLoadBalancer |>
       <| sePorts := buildServicePorts server matchedPlugins |> <| seSelector := buildSelector server |>
       <| seLoadBalancerIP := svLoadBalancerIP sv |>).

(** ** Lemmas *)

(** The first variable of a name. *)
Definition findEnv (n : string) (env : list EnvVar) : option EnvVar := List.find (fun e => (evName e =? n)%string) env.

Lemma findEnv_set env n v : exists e, findEnv n (addOrUpdateEnv env n v) = Some e /\ evValue e = v.
Proof.
  induction env as [|e env IH]; cbn [addOrUpdateEnv].
  - eexists. cbn. by rewrite String.eqb_refl.
  - unfold findEnv in *. destruct (evName e =? n)%string eqn:He; cbn.
    + eexists. by rewrite He.
    + by rewrite He.
Qed.

Lemma findEnv_other env n v m : m <> n -> findEnv m (addOrUpdateEnv env n v) = findEnv m env.
Proof.
  intros Hm. unfold findEnv. induction env as [|e env IH]; cbn [addOrUpdateEnv].
  - cbn. by rewrite (proj2 (String.eqb_neq n m)).
  - destruct (String.eqb_spec (evName e) n) as [He|He]; cbn.
    + by rewrite He, (proj2 (String.eqb_neq n m)).
    + by rewrite IH.
Qed.

Lemma filter_addOrUpdateEnv (p : string -> bool) env n v :
  p n = false -> List.filter (fun e => p (evName e)) (addOrUpdateEnv env n v) = List.filter (fun e => p (evName e)) env.
Proof.
  intros Hp. induction env as [|e env IH]; cbn [addOrUpdateEnv]; [cbn; by rewrite Hp|].
  destruct (String.eqb_spec (evName e) n) as [He|He]; cbn; [by rewrite He, Hp | by rewrite IH].
Qed.

(** What the environment of a server has to say. *)
Definition settings (server : PaperMCServer) : list (string * string) :=
  let spec := srvSpec server in
  [("EULA", "TRUE")] ++
  (if decide (ssVersion spec = "" \/ ssVersion spec = "latest") then [] else [("PAPER_VERSION", ssVersion spec)]) ++
  (match ssBuild spec with Some build => [("PAPER_BUILD", pretty build)] | None => [] end) ++
  (if rcEnabled (ssRCON spec) then [("RCON_PORT", pretty (rcPort (ssRCON spec)))] else []).

(** The password comes from the Secret that the server names. *)
Definition rconPassword (server : PaperMCServer) : list EnvVar :=
  let rcon := ssRCON (srvSpec server) in
  if rcEnabled rcon
  then [MkEnvVar "RCON_PASSWORD" "" (Some (MkSecretRef (skName (rcPasswordSecret rcon)) (skKey (rcPasswordSecret rcon))))]
  else [].

Definition setAll (env : list EnvVar) (l : list (string * string)) : list EnvVar :=
  foldl (fun env s => addOrUpdateEnv env s.1 s.2) env l.

Lemma buildEnvironmentVariables_eq server env :
  buildEnvironmentVariables server env = setAll env (settings server) ++ rconPassword server.
Proof.
  unfold buildEnvironmentVariables, settings, setAll, rconPassword.
  destruct (String.eqb_spec (ssVersion (srvSpec server)) ""), (String.eqb_spec (ssVersion (srvSpec server)) "latest");
    cbn [negb andb]; (case_decide; [try (exfalso; tauto)|try (exfalso; tauto)]);
    destruct (ssBuild (srvSpec server)), (rcEnabled (ssRCON (srvSpec server))); cbn; by rewrite ?app_nil_r.
Qed.

Lemma settings_NoDup server : NoDup (map fst (settings server)).
Proof.
  unfold settings. case_decide; destruct (ssBuild (srvSpec server)), (rcEnabled (ssRCON (srvSpec server))); cbn;
    by apply (bool_decide_unpack _); vm_compute.
Qed.

Lemma setAll_cons env n v l : setAll env ((n, v) :: l) = setAll (addOrUpdateEnv env n v) l.
Proof. done. Qed.

Lemma setAll_other l env n : n ∉ map fst l -> findEnv n (setAll env l) = findEnv n env.
Proof.
  revert env. induction l as [|[m v] l IH]; intros env Hn; [done|]. cbn in Hn. apply not_elem_of_cons in Hn as [Hm Hn].
  rewrite setAll_cons, IH by done. by apply findEnv_other.
Qed.

Lemma setAll_set l env n v :
  NoDup (map fst l) -> (n, v) ∈ l -> exists e, findEnv n (setAll env l) = Some e /\ evValue e = v.
Proof.
  revert env. induction l as [|[m w] l IH]; intros env; cbn [map fst]; [by intros _ ?%not_elem_of_nil|].
  rewrite setAll_cons. intros [Hm Hl]%NoDup_cons [[= -> ->]|Hin]%elem_of_cons; [|by apply IH].
  rewrite setAll_other by done. apply findEnv_set.
Qed.

(** The variables that are not set. *)
Definition notSet (server : PaperMCServer) (n : string) : bool := negb (bool_decide (n ∈ map fst (settings server))).
Definition unset (server : PaperMCServer) (e : EnvVar) : bool := notSet server (evName e).

Lemma setAll_unset l env p :
  (forall n, n ∈ map fst l -> p n = false) ->
  List.filter (fun e => p (evName e)) (setAll env l) = List.filter (fun e => p (evName e)) env.
Proof.
  revert env. induction l as [|[m v] l IH]; intros env Hp; [done|].
  rewrite setAll_cons, IH by (intros n Hn; apply Hp; by right). apply filter_addOrUpdateEnv, Hp. by left.
Qed.

(** The last character of a string. *)
Fixpoint lastChar (s : string) : option ascii :=
  match s with
  | EmptyString => None
  | String c EmptyString => Some c
  | String _ s => lastChar s
  end.

Lemma lastChar_app a b : b <> "" -> lastChar (a +:+ b) = lastChar b.
Proof.
  intros Hb. induction a as [|c a IH]; [done|]. rewrite str_app_cons. cbn [lastChar]. rewrite IH.
  destruct (a +:+ b) eqn:He; [|done]. destruct a; [by rewrite str_app_nil in He|done].
Qed.

Lemma lastChar_all f s c : str_all f s = true -> lastChar s = Some c -> f c = true.
Proof.
  induction s as [|d s IH]; cbn [str_all lastChar]; [done|]. intros [Hd Hs]%andb_true_iff.
  destruct s; [by intros [= <-]|]. auto.
Qed.

Lemma lastChar_some s : s <> "" -> exists c, lastChar s = Some c.
Proof.
  induction s as [|d s IH]; [done|]. intros _. cbn [lastChar]. destruct s; [by eexists|]. apply IH. done.
Qed.

(** A decimal number ends with a digit. *)
Lemma pretty_lastChar (z : Z) : exists c, lastChar (pretty z) = Some c /\ isDigit c = true.
Proof.
  assert (H : forall z, 0 <= z -> exists c, lastChar (pretty z) = Some c /\ isDigit c = true).
  { intros x Hx. destruct (pretty_digits x Hx) as [Hd Hn]. destruct (lastChar_some (pretty x)) as [c Hc].
    - by destruct (pretty x).
    - exists c. split; [done|]. by eapply lastChar_all. }
  destruct z as [|p|p]; [by apply H | by apply H|].
  change (pretty (Z.neg p)) with ("-" +:+ pretty (Z.pos p)).
  destruct (H (Z.pos p) ltac:(lia)) as (c & Hc & Hd). exists c. split; [|done]. rewrite lastChar_app; [done|].
  intros He. by rewrite He in Hc.
Qed.

(** An image with a build is never the tag latest. *)
Lemma imageFor_not_latest v (b : Z) base : imageFor v b <> base +:+ ":latest".
Proof.
  intros He. destruct (pretty_lastChar b) as (c & Hc & Hd).
  assert (H1 : lastChar (imageFor v b) = Some c).
  { unfold imageFor, tagFor. rewrite !lastChar_app; [done|..]; intros Hn; try (by rewrite Hn in Hc);
      destruct v; try discriminate Hn; by rewrite ?str_app_nil in Hn. }
  rewrite He, lastChar_app in H1 by done. injection H1 as <-. by vm_compute in Hd.
Qed.

Lemma standard_priority (std user : gmap string string) k v : std !! k = Some v -> (std ∪ user) !! k = Some v.
Proof. intros H. by apply lookup_union_Some_l. Qed.

Lemma standardLabels_other n c k : k = gcLabelApp \/ k = gcLabelServerName -> standardLabels n c !! k = None.
Proof. intros [-> | ->]; reflexivity. Qed.

Lemma buildPodTemplate_labels server pod :
  ptLabels (buildPodTemplate server pod) =
  <[gcLabelServerName := srvName server]> (<[gcLabelApp := containerNamePaperMC]>
    (standardLabels (srvName server) "server" ∪ ptLabels (ssPodTemplate (srvSpec server)))).
Proof. reflexivity. Qed.

(** The pods of the template are those that the selector asks for. *)
Lemma buildSelector_template server pod : buildSelector server ⊆ ptLabels (buildPodTemplate server pod).
Proof.
  rewrite buildPodTemplate_labels. apply map_subseteq_spec. intros k v. unfold buildSelector.
  destruct (decide (k = gcLabelApp)) as [->|H1]; [rewrite lookup_insert_eq; by rewrite lookup_insert_ne, lookup_insert_eq by done|].
  rewrite lookup_insert_ne by done. intros Hk. apply lookup_singleton_Some in Hk as [<- <-]. by rewrite lookup_insert_eq.
Qed.

Lemma standardLabels_template server pod k v :
  standardLabels (srvName server) "server" !! k = Some v -> ptLabels (buildPodTemplate server pod) !! k = Some v.
Proof.
  intros Hk. rewrite buildPodTemplate_labels, !lookup_insert_ne; [by apply standard_priority|..]; intros <-;
    rewrite standardLabels_other in Hk by auto; done.
Qed.

Section statefulset.
Context {MR : MapRange} {GS : GoSort} {DG : Digest}.

(** The first container of the template, or the one that is made up. *)
Definition firstContainer (server : PaperMCServer) : Container :=
  default (zeroContainer <| ctName := containerNamePaperMC |>) (head (ptContainers (ssPodTemplate (srvSpec server)))).

(** What the server's container becomes. *)
Definition serverContainer (server : PaperMCServer) : Container :=
  let c := firstContainer server in
  c <| ctImage := imageFor (stDesiredVersion (srvStatus server)) (stDesiredBuild (srvStatus server)) |>
    <| ctEnv := buildEnvironmentVariables server (ctEnv c) |>
    <| ctVolumeMounts := ctVolumeMounts c ++ [MkVolumeMount gcVolumeData "/data" false] |>.

Definition hasDesired (server : PaperMCServer) : bool :=
  negb ((stDesiredVersion (srvStatus server) =? "")%string || (stDesiredBuild (srvStatus server) =? 0)).

Definition injectedContainers (server : PaperMCServer) (plugins : list Plugin) : list Container :=
  match buildConfigInjection server plugins with Some (c, _, _) => [c] | None => [] end.
Definition injectedVolumes (server : PaperMCServer) (plugins : list Plugin) : list Volume :=
  match buildConfigInjection server plugins with Some (_, v, _) => v | None => [] end.

(** The pod by its parts. *)
Lemma buildPodSpec_Ok server plugins pod :
  buildPodSpec server plugins = Ok pod <->
  hasDesired server = true /\
  pod = (ssPodTemplate (srvSpec server))
    <| ptContainers := serverContainer server :: tail (ptContainers (ssPodTemplate (srvSpec server))) |>
    <| ptTerminationGracePeriodSeconds :=
         Some (if 0 <? gsTimeout (ssGracefulShutdown (srvSpec server))
               then gsTimeout (ssGracefulShutdown (srvSpec server)) / Second else defaultTerminationGracePeriod) |>
    <| ptInitContainers := injectedContainers server plugins ++ ptInitContainers (ssPodTemplate (srvSpec server)) |>
    <| ptVolumes := ptVolumes (ssPodTemplate (srvSpec server)) ++ injectedVolumes server plugins |>.
Proof.
  unfold buildPodSpec, hasDesired, serverContainer, firstContainer, injectedContainers, injectedVolumes.
  destruct (ssPodTemplate (srvSpec server)) as [l a ics cs vs tg o]. cbn [ptContainers].
  destruct cs as [|c cs]; cbn [head default tail from_option]; (destruct (_ || _) eqn:Hd; cbn [negb]; [split; [discriminate | by intros [? _]]|]);
    destruct (buildConfigInjection server plugins) as [[[ic vo] cm]|]; unfold update_field; cbn; rewrite ?app_nil_r;
    split; [intros [= <-] | intros [_ ->] | intros [= <-] | intros [_ ->] | intros [= <-] | intros [_ ->] | intros [= <-] | intros [_ ->]]; done.
Qed.
End statefulset.

(** ** Properties *)

(** C17: A StatefulSet is built exactly when the desired version and build are known.
    Its server container runs the image with exactly that version and build, never the
    tag latest, and mounts the data volume, which has a claim.  Its environment says
    everything that the server asks for: the EULA is accepted, the version and the
    build of the specification are given if they are set, and with RCON its port and
    the reference to the Secret with its password; of the variables of the template the
    others stay as they are, in their order.  The other containers and the user's init
    containers and volumes stay, after the injected init container; the pods carry the labels that the selector asks for, and
    no user label replaces a standard one. *)
Theorem buildStatefulSet_correct {MR : MapRange} {GS : GoSort} {DG : Digest} server plugins :
  let user := ssPodTemplate (srvSpec server) in
  let version := stDesiredVersion (srvStatus server) in
  let build := stDesiredBuild (srvStatus server) in
  match buildStatefulSet server plugins with
  | Err _ => version = "" \/ build = 0
  | Ok sts =>
      let pod := stsTemplate sts in
      version <> "" /\ build <> 0 /\
      (exists c, ptContainers pod = c :: tail (ptContainers user) /\
        ctImage c = imageFor version build /\ (forall base, ctImage c <> base +:+ ":latest") /\
        (exists env, ctEnv c = env ++ rconPassword server /\
           (forall n v, (n, v) ∈ settings server -> exists e, findEnv n env = Some e /\ evValue e = v) /\
           List.filter (unset server) env = List.filter (unset server) (ctEnv (firstContainer server))) /\
        MkVolumeMount gcVolumeData "/data" false ∈ ctVolumeMounts c) /\
      gcVolumeData ∈ map vcName (stsVolumeClaimTemplates sts) /\
      ptInitContainers pod = injectedContainers server plugins ++ ptInitContainers user /\
      ptVolumes pod = ptVolumes user ++ injectedVolumes server plugins /\
      stsSelector sts ⊆ ptLabels pod /\ stsReplicas sts = 1 /\
      (forall k v, standardLabels (srvName server) "server" !! k = Some v ->
        Labels (stsMeta sts) !! k = Some v /\ ptLabels pod !! k = Some v)
  end.
Proof.
  cbv zeta. unfold buildStatefulSet. destruct (buildPodSpec server plugins) as [pod|e] eqn:Hp.
  - apply buildPodSpec_Ok in Hp as [Hd ->]. unfold hasDesired in Hd. bool_prop. unfold update_field.
    cbn [stsTemplate stsVolumeClaimTemplates stsSelector stsReplicas stsMeta Labels buildPodTemplate ptContainers ptInitContainers ptVolumes ptLabels].
    split_and!; try done.
    + exists (serverContainer server). split_and!; [done|done|intros base; apply imageFor_not_latest| |].
      * exists (setAll (ctEnv (firstContainer server)) (settings server)). split_and!; [apply buildEnvironmentVariables_eq| |].
        -- intros n v Hin. apply setAll_set; [apply settings_NoDup | done].
        -- apply (setAll_unset _ _ (notSet server)). intros n Hn. unfold notSet. by rewrite bool_decide_eq_true_2.
      * cbn. apply elem_of_app. right. by left.
    + by left.
    + apply buildSelector_template.
    + intros k v Hk. split; [by apply standard_priority | by apply standardLabels_template].
  - unfold buildPodSpec in Hp. destruct (ptContainers (ssPodTemplate (srvSpec server))); destruct (_ || _) eqn:Hd; try discriminate Hp;
      apply orb_true_iff in Hd as [Hd%String.eqb_eq|Hd%Z.eqb_eq]; auto.
Qed.

(** ** Ports of the Service *)

Lemma freshPorts_spec seen eps :
  NoDup (freshPorts seen eps) /\
  (forall k, k ∈ freshPorts seen eps <-> k ∉ seen /\ exists ep, ep ∈ eps /\ k = (pePort ep, endpointProto ep)).
Proof.
  revert seen. induction eps as [|ep eps IH]; intros seen; cbn [freshPorts].
  { split; [constructor|]. intros k. split; [by intros ?%not_elem_of_nil|]. intros (_ & ep & ?%not_elem_of_nil & _). done. }
  destruct (IH seen) as [Hn Hin], (IH ({[(pePort ep, endpointProto ep)]} ∪ seen)) as [Hn2 Hin2]. case_bool_decide as Hs.
  - split; [done|]. intros k. rewrite Hin. split; [intros (? & e & ? & ?); set_solver|].
    intros (Hk & e & [->|He]%elem_of_cons & ->); [done | eauto].
  - split.
    + constructor; [|done]. rewrite Hin2. set_solver.
    + intros k. rewrite elem_of_cons, Hin2. split.
      * intros [->|(Hk & e & He & ->)]; [split; [done|]; exists ep; set_solver | split; [set_solver|]; exists e; set_solver].
      * intros (Hk & e & [->|He]%elem_of_cons & ->); [by left|].
        destruct (decide ((pePort e, endpointProto e) = (pePort ep, endpointProto ep))) as [->|Hne]; [by left|].
        right. split; [set_solver | eauto].
Qed.

Lemma endpointProto_cases ep : endpointProto ep = protocolTCP \/ endpointProto ep = protocolUDP.
Proof. unfold endpointProto. destruct (_ =? _)%string; auto. Qed.

Lemma str_app_inj_suffix (a b c d : string) :
  String.length b = String.length d -> a +:+ b = c +:+ d -> a = c /\ b = d.
Proof.
  intros Hl. revert c. induction a as [|x a IH]; intros [|y c]; rewrite ?str_app_nil, ?str_app_cons; intros H.
  - done.
  - exfalso. apply (f_equal String.length) in H. cbn in H. rewrite str_length_app in H. lia.
  - exfalso. apply (f_equal String.length) in H. cbn in H. rewrite str_length_app in H. lia.
  - injection H as -> H. by destruct (IH c H) as [-> ->].
Qed.

(** Protocols in the name of a port. *)
Lemma endpointPort_name k :
  k.2 = protocolTCP \/ k.2 = protocolUDP ->
  exists suffix, sePortName (endpointPort k) = "ep-" +:+ pretty k.1 +:+ suffix /\ String.length suffix = 4%nat /\
    suffix = (if (k.2 =? protocolTCP)%string then "-tcp" else "-udp").
Proof. destruct k as [n p]. cbn. intros [-> | ->]; eexists; split_and!; reflexivity. Qed.

Lemma endpointPort_inj k k' :
  (k.2 = protocolTCP \/ k.2 = protocolUDP) -> (k'.2 = protocolTCP \/ k'.2 = protocolUDP) ->
  sePortName (endpointPort k) = sePortName (endpointPort k') -> k = k'.
Proof.
  intros Hk Hk'. destruct (endpointPort_name k Hk) as (s & -> & Hl & Hs), (endpointPort_name k' Hk') as (s' & -> & Hl' & Hs').
  intros H. apply str_app_inj_l in H. apply str_app_inj_suffix in H as [Hp He]; [|lia]. apply (inj pretty) in Hp.
  destruct k as [n p], k' as [n' p']. cbn in *. subst. destruct Hk as [-> | ->], Hk' as [-> | ->]; try done.
Qed.

Definition portOf (p : ServicePort) : Z * string := (sePort p, seProtocol p).

(** The pairs that the loop starts with. *)
Definition basePorts (server : PaperMCServer) : gset (Z * string) :=
  let seen : gset (Z * string) := {[(minecraftPort, protocolTCP)]} in
  if rcEnabled (ssRCON (srvSpec server)) then {[(rcPort (ssRCON (srvSpec server)), protocolTCP)]} ∪ seen else seen.

Lemma buildServicePorts_eq server plugins :
  buildServicePorts server plugins =
  [MkServicePort gcPortNameMinecraft minecraftPort minecraftPort protocolTCP 0 None] ++ rconPorts server ++
  map endpointPort (freshPorts (basePorts server) (allEndpoints plugins)).
Proof. reflexivity. Qed.

Lemma NoDup_map_local {A B} (f : A -> B) (l : list A) :
  NoDup l -> (forall x y, x ∈ l -> y ∈ l -> f x = f y -> x = y) -> NoDup (map f l).
Proof. intros Hn Hf. by apply (NoDup_fmap_2_strong f l Hf). Qed.

(** The ports of the endpoints: their pairs, and names that are unique, short and start
    with ep-. *)
Lemma endpointPorts_ok {UR : URLs} seen plugins : Forall ValidPlugin plugins ->
  let fresh := freshPorts seen (allEndpoints plugins) in
  map portOf (map endpointPort fresh) = fresh /\ NoDup (map sePortName (map endpointPort fresh)) /\
  (forall n, n ∈ map sePortName (map endpointPort fresh) -> HasPrefix n "ep-" = true) /\
  Forall (fun p => (String.length (sePortName p) <= 15)%nat /\ seTargetPort p = sePort p) (map endpointPort fresh).
Proof.
  intros Hp fresh. destruct (freshPorts_spec seen (allEndpoints plugins)) as [Hn Hin]. fold fresh in Hn, Hin.
  assert (Hproto : forall k, k ∈ fresh -> k.2 = protocolTCP \/ k.2 = protocolUDP).
  { intros k (_ & ep & _ & ->)%Hin. apply endpointProto_cases. }
  split_and!.
  - rewrite map_map. etransitivity; [|apply map_id]. apply map_ext. by intros [? ?].
  - rewrite map_map. apply NoDup_map_local; [done|]. intros x y Hx Hy. apply endpointPort_inj; auto.
  - intros n. rewrite !elem_of_map. intros (p & -> & Hk). apply elem_of_map in Hk as (k & -> & Hk).
    destruct (endpointPort_name k (Hproto k Hk)) as (s & -> & _). apply HasPrefix_spec. by eexists.
  - apply Forall_forall. intros p (k & -> & Hk)%elem_of_map. split; [|by destruct k].
    destruct (endpointPort_name k (Hproto k Hk)) as (s & -> & Hl & _). rewrite !str_length_app, Hl.
    apply Hin in Hk as (_ & ep & Hep' & ->). apply elem_of_concat_map in Hep' as (p & Hpl & Hepl).
    rewrite Forall_forall in Hp. destruct (vp_endpoints _ (Hp p Hpl)) as [Hv _]. rewrite Forall_forall in Hv.
    destruct (Hv ep Hepl) as (_ & Hrange & _). pose proof (pretty_length 5 (pePort ep) ltac:(lia) ltac:(cbn; lia)). cbn in *. lia.
Qed.

(** The ports of the Service are the game port, the RCON port if RCON is on, and
    one port for each pair of port and protocol of the matched plugins' endpoints.  If
    RCON does not use the game port, pairs and names are unique, as Kubernetes
    requires, and names have at most fifteen characters. *)
Theorem buildServicePorts_correct {UR : URLs} server plugins :
  (rcEnabled (ssRCON (srvSpec server)) = true -> rcPort (ssRCON (srvSpec server)) <> minecraftPort) ->
  Forall ValidPlugin plugins ->
  let ports := buildServicePorts server plugins in
  (forall k, k ∈ map portOf ports <-> k = (minecraftPort, protocolTCP) \/
     (rcEnabled (ssRCON (srvSpec server)) = true /\ k = (rcPort (ssRCON (srvSpec server)), protocolTCP)) \/
     exists ep, ep ∈ allEndpoints plugins /\ k = (pePort ep, endpointProto ep)) /\
  NoDup (map portOf ports) /\ NoDup (map sePortName ports) /\
  Forall (fun p => (String.length (sePortName p) <= 15)%nat /\ seTargetPort p = sePort p) ports.
Proof.
  cbv zeta. intros Hr Hp. rewrite buildServicePorts_eq.
  destruct (freshPorts_spec (basePorts server) (allEndpoints plugins)) as [Hn Hin].
  destruct (endpointPorts_ok (basePorts server) plugins Hp) as (Hkey & Hnames & Hep & Hlen).
  set (fresh := freshPorts _ _) in *.
  rewrite !map_app, Hkey. unfold basePorts, rconPorts in *. destruct (rcEnabled (ssRCON (srvSpec server))) eqn:Hen; cbn [map app portOf sePort seProtocol sePortName] in *.
  - split_and!.
    + intros k. rewrite !elem_of_cons, Hin, not_elem_of_union, !not_elem_of_singleton.
      destruct (decide (k = (minecraftPort, protocolTCP))), (decide (k = (rcPort (ssRCON (srvSpec server)), protocolTCP))); tauto.
    + rewrite !NoDup_cons, elem_of_cons, !Hin, !not_elem_of_union, !not_elem_of_singleton.
      split_and!; [|tauto|done]. intros [H|H]; [injection H as H; by destruct (Hr eq_refl) | tauto].
    + rewrite !NoDup_cons, elem_of_cons. split_and!; [|by intros H%Hep|done]. by intros [H|H%Hep].
    + repeat (constructor; [by cbn; lia|]). done.
  - split_and!.
    + intros k. rewrite !elem_of_cons, Hin, not_elem_of_singleton.
      destruct (decide (k = (minecraftPort, protocolTCP))); split; try tauto. intros [?|[[? _]|?]]; [tauto|done|tauto].
    + rewrite !NoDup_cons, Hin, not_elem_of_singleton. split; [tauto|done].
    + rewrite !NoDup_cons. split; [by intros H%Hep|done].
    + constructor; [by cbn; lia|]. done.
Qed.

(** RCON on the game port gives two ports of one pair, which Kubernetes refuses. *)
Lemma buildServicePorts_clash server plugins :
  rcEnabled (ssRCON (srvSpec server)) = true -> rcPort (ssRCON (srvSpec server)) = minecraftPort ->
  ~ NoDup (map portOf (buildServicePorts server plugins)).
Proof.
  intros He Hp. rewrite buildServicePorts_eq. unfold rconPorts. rewrite He. cbn. rewrite Hp, NoDup_cons.
  intros [H _]. apply H. by left.
Qed.

(** A plugin with a web map and a voice endpoint on one port number. *)
Definition mapEndpoints : Plugin :=
  (mapPlugin "BlueMap") <| plgSpec := (plgSpec (mapPlugin "BlueMap"))
    <| psEndpoints := [MkPluginEndpoint "web" 8100 "HTTP"; MkPluginEndpoint "voice" 8100 "UDP"] |> |>.

Lemma mapEndpoints_valid : ValidPlugin (UR := SplitURLs.simpleURLs) mapEndpoints.
Proof. by apply validPlugin_iff. Qed.

Example buildServicePorts_example :
  map (fun p => (sePortName p, sePort p, seProtocol p)) (buildServicePorts (overridingServer "rcon-password") [mapEndpoints]) =
  [("minecraft", 25565, "TCP"); ("rcon", 25575, "TCP"); ("ep-8100-tcp", 8100, "TCP"); ("ep-8100-udp", 8100, "UDP")].
Proof. reflexivity. Qed.

Lemma buildServicePorts_correct_witness :
  NoDup (map portOf (buildServicePorts (overridingServer "rcon-password") [mapEndpoints])).
Proof.
  refine (proj1 (proj2 (buildServicePorts_correct (UR := SplitURLs.simpleURLs) _ _ _ _))); [done|].
  apply Forall_singleton. exact mapEndpoints_valid.
Defined.
