(* ===== verification/Network.v ===== *)
(** * Network policies (internal/controller/networkpolicy.go)

    The builders of the NetworkPolicy of a server.  In Kubernetes a rule without
    peers admits everybody and a rule without ports admits every port. *)

From S2P Require Import Prelude GoBase GoLib Api Objects Images Webhook Config Workload.

Open Scope Z_scope.

Definition dnsPort : Z := 53.
Definition gcLabelMetadataName : string := "kubernetes.io/metadata.name".
Definition PolicyTypeIngress : string := "Ingress".
Definition PolicyTypeEgress : string := "Egress".

(** ** Builders *)

Definition sameNamespacePeer (namespace : string) : NetworkPolicyPeer :=
  MkPeer None None (Some (MkLabelSelector {[gcLabelMetadataName := namespace]} [])).

Definition convertToPeer (source : NetworkPolicySource) : result NetworkPolicyPeer :=
  let none {A} (o : option A) := match o with None => true | Some _ => false end in
  if (nsCIDR source =? "")%string && none (nsPodSelector source) && none (nsNamespaceSelector source) then
    Err (ErrNew "NetworkPolicySource must specify at least one of CIDR, PodSelector, or NamespaceSelector")
  else if negb (nsCIDR source =? "")%string && (negb (none (nsPodSelector source)) || negb (none (nsNamespaceSelector source))) then
    Err (ErrNew "NetworkPolicySource cannot combine CIDR with PodSelector or NamespaceSelector")
  else Ok (MkPeer (if negb (nsCIDR source =? "")%string then Some (nsCIDR source) else None)
             (nsPodSelector source) (nsNamespaceSelector source)).

(** The rule of one port. *)
Definition portRule (key : Z * string) (from : list NetworkPolicyPeer) : NetworkPolicyRule :=
  MkPolicyRule [MkPolicyPort key.2 key.1] from.

Definition buildPluginIngressRules (matchedPlugins : list Plugin) (fromPeers : list NetworkPolicyPeer) : list NetworkPolicyRule :=
  map (fun key => portRule key fromPeers) (freshPorts ∅ (allEndpoints matchedPlugins)).

(** The port of RCON in the policy. *)
Definition rconPolicyPort (server : PaperMCServer) : Z :=
  let port := rcPort (ssRCON (srvSpec server)) in if port <=? 0 then 25575 else port.

Definition rconNamespace (operatorNamespace : string) (server : PaperMCServer) : string :=
  if (operatorNamespace =? "")%string then srvNamespace server else operatorNamespace.

Definition buildRCONIngressRule (operatorNamespace : string) (server : PaperMCServer) (proto : string) : list NetworkPolicyRule :=
  if negb (rcEnabled (ssRCON (srvSpec server))) then []
  else [portRule (rconPolicyPort server, proto) [sameNamespacePeer (rconNamespace operatorNamespace server)]].

(** The loop over the allowed sources, on top of the peers so far. *)
Fixpoint allowPeers (peers : list NetworkPolicyPeer) (sources : list NetworkPolicySource) : result (list NetworkPolicyPeer) :=
  match sources with
  | [] => Ok peers
  | source :: sources =>
      match convertToPeer source with
      | Err e => Err (ErrWrap e "invalid allowFrom source")
      | Ok peer => allowPeers (peers ++ [peer]) sources
      end
  end.

Definition buildNetworkPolicyIngress (operatorNamespace : string) (server : PaperMCServer) (npSpec : ServerNetworkPolicy)
  (matchedPlugins : list Plugin) : result (list NetworkPolicyRule) :=
  match allowPeers [sameNamespacePeer (srvNamespace server)] (npAllowFrom npSpec) with
  | Err e => Err e
  | Ok from =>
      Ok ([portRule (minecraftPort, protocolTCP) from] ++ buildPluginIngressRules matchedPlugins from ++
          buildRCONIngressRule operatorNamespace server protocolTCP)
  end.

(** One additional destination. *)
Definition egressRule (dest : NetworkPolicyDestination) : result NetworkPolicyRule :=
  match ndPort dest with
  | None =>
      if (ndCIDR dest =? "")%string then Err (ErrNew "NetworkPolicyDestination must specify at least CIDR or Port")
      else Ok (MkPolicyRule [] [MkPeer (Some (ndCIDR dest)) None None])
  | Some port =>
      Ok (MkPolicyRule [MkPolicyPort (default protocolTCP (ndProtocol dest)) port]
            (if negb (ndCIDR dest =? "")%string then [MkPeer (Some (ndCIDR dest)) None None] else []))
  end.

Fixpoint egressRules (rules : list NetworkPolicyRule) (dests : list NetworkPolicyDestination) : result (list NetworkPolicyRule) :=
  match dests with
  | [] => Ok rules
  | dest :: dests =>
      match egressRule dest with
      | Err e => Err e
      | Ok rule => egressRules (rules ++ [rule]) dests
      end
  end.

Definition buildNetworkPolicyEgress (npSpec : ServerNetworkPolicy) : result (list NetworkPolicyRule) :=
  egressRules [MkPolicyRule [MkPolicyPort protocolUDP dnsPort; MkPolicyPort protocolTCP dnsPort] [];
               MkPolicyRule [MkPolicyPort protocolTCP 443] []] (npAllowEgressTo npSpec).

(** The policy; [npSpec] is what the pointer of the server's specification points to. *)
Definition buildNetworkPolicy (operatorNamespace : string) (server : PaperMCServer) (npSpec : ServerNetworkPolicy)
  (matchedPlugins : list Plugin) : result NetworkPolicy :=
  match buildNetworkPolicyIngress operatorNamespace server npSpec matchedPlugins with
  | Err e => Err (ErrWrap e "failed to build ingress rules")
  | Ok ingress =>
      let restrictEgress := match npRestrictEgress npSpec with None => true | Some b => b end in
      match (if restrictEgress then buildNetworkPolicyEgress npSpec else Ok []) with
      | Err e => Err (ErrWrap e "failed to build egress rules")
      | Ok egress =>
          Ok (MkNetworkPolicy
                (zeroObjectMeta <| Name := srvName server +:+ "-minecraft" |> <| Namespace := srvNamespace server |>
                   <| Labels := standardLabels (srvName server) "network-policy" |>)
                (MkNetworkPolicySpec (MkLabelSelector (buildSelector server) [])
                   ([PolicyTypeIngress] ++ (if restrictEgress then [PolicyTypeEgress] else [])) ingress egress))
      end
  end.

(** ** What a policy admits *)

(** Some rule lets [peer] reach the port. *)
Definition opens (rules : list NetworkPolicyRule) (key : Z * string) (peer : NetworkPolicyPeer) : Prop :=
  exists rule, rule ∈ rules /\ MkPolicyPort key.2 key.1 ∈ ruPorts rule /\ peer ∈ ruPeers rule.

(** What a source stands for: one block of addresses, or the pods of a selector, a
    selector of namespaces, or both. *)
Definition validPeer (source : NetworkPolicySource) (peer : NetworkPolicyPeer) : Prop :=
  (nsCIDR source <> "" /\ nsPodSelector source = None /\ nsNamespaceSelector source = None /\
   peer = MkPeer (Some (nsCIDR source)) None None) \/
  (nsCIDR source = "" /\ (nsPodSelector source <> None \/ nsNamespaceSelector source <> None) /\
   peer = MkPeer None (nsPodSelector source) (nsNamespaceSelector source)).

Lemma convertToPeer_iff source peer : convertToPeer source = Ok peer <-> validPeer source peer.
Proof.
  unfold convertToPeer, validPeer. destruct source as [cidr ps ns]. cbn.
  destruct (String.eqb_spec cidr ""), ps, ns; cbn; split; naive_solver.
Qed.

(** The rule that a destination stands for. *)
Definition destRule (d : NetworkPolicyDestination) (r : NetworkPolicyRule) : Prop :=
  (ndCIDR d <> "" \/ ndPort d <> None) /\
  ruPeers r = (if decide (ndCIDR d = "") then [] else [MkPeer (Some (ndCIDR d)) None None]) /\
  ruPorts r = match ndPort d with Some port => [MkPolicyPort (default protocolTCP (ndProtocol d)) port] | None => [] end.

Lemma egressRule_Ok d r : egressRule d = Ok r -> destRule d r.
Proof.
  unfold egressRule, destRule. destruct (ndPort d), (String.eqb_spec (ndCIDR d) ""); cbn [negb]; try done; intros [= <-]; cbn;
    split_and!; try done; try (by left); try (by right); by case_decide.
Qed.

(** A peer that selects something. *)
Definition selective (peer : NetworkPolicyPeer) : Prop :=
  is_Some (prIPBlock peer) \/ is_Some (prPodSelector peer) \/ is_Some (prNamespaceSelector peer).

Lemma convertToPeer_selective source peer : convertToPeer source = Ok peer ->
  selective peer /\ (is_Some (prIPBlock peer) -> prPodSelector peer = None /\ prNamespaceSelector peer = None).
Proof.
  unfold convertToPeer, selective. destruct source as [cidr ps ns]. cbn.
  destruct (String.eqb_spec cidr ""), ps, ns; cbn; intros [= <-]; cbn; split; eauto; by intros [].
Qed.

Lemma allowPeers_Ok peers sources from : allowPeers peers sources = Ok from ->
  exists new, from = peers ++ new /\ Forall2 validPeer sources new.
Proof.
  revert peers. induction sources as [|s l IH]; intros peers; cbn [allowPeers].
  - intros [= <-]. exists []. by rewrite app_nil_r.
  - destruct (convertToPeer s) as [p|e] eqn:Hc; [|done]. apply convertToPeer_iff in Hc. intros (new & -> & Hf)%IH.
    exists (p :: new). split; [by rewrite <- app_assoc | by constructor].
Qed.

Lemma allowPeers_Err peers sources e : allowPeers peers sources = Err e ->
  exists s, s ∈ sources /\ forall peer, ~ validPeer s peer.
Proof.
  revert peers. induction sources as [|s l IH]; intros peers; cbn [allowPeers]; [done|].
  destruct (convertToPeer s) as [p|err] eqn:Hc.
  - intros (s' & Hin & H)%IH. exists s'. split; [by right|done].
  - intros _. exists s. split; [by left|]. intros p Hp%convertToPeer_iff. congruence.
Qed.

Lemma egressRules_Ok rules dests all : egressRules rules dests = Ok all ->
  exists new, all = rules ++ new /\ Forall2 destRule dests new.
Proof.
  revert rules. induction dests as [|d l IH]; intros rules; cbn [egressRules].
  - intros [= <-]. exists []. by rewrite app_nil_r.
  - destruct (egressRule d) as [r|e] eqn:Hc; [|done]. apply egressRule_Ok in Hc. intros (new & -> & Hf)%IH.
    exists (r :: new). split; [by rewrite <- app_assoc | by constructor].
Qed.

Lemma egressRules_Err rules dests e : egressRules rules dests = Err e ->
  exists d, d ∈ dests /\ ndCIDR d = "" /\ ndPort d = None.
Proof.
  revert rules. induction dests as [|d l IH]; intros rules; cbn [egressRules]; [done|].
  unfold egressRule. destruct (ndPort d) as [p|] eqn:Hp.
  - intros (d' & Hin & H)%IH. exists d'. split; [by right|done].
  - destruct (String.eqb_spec (ndCIDR d) "") as [Hc|Hc].
    + intros _. exists d. by split; [left|].
    + intros (d' & Hin & H)%IH. exists d'. split; [by right|done].
Qed.

(** A rule of a destination is not open to everything. *)
Lemma destRule_restricts d r : destRule d r -> ruPorts r <> [] \/ ruPeers r <> [].
Proof.
  intros ([Hc|Hp] & Hpeers & Hports); [right; rewrite Hpeers; by case_decide|].
  left. rewrite Hports. by destruct (ndPort d).
Qed.

Lemma opens_app a b key peer : opens (a ++ b) key peer <-> opens a key peer \/ opens b key peer.
Proof. unfold opens. setoid_rewrite elem_of_app. naive_solver. Qed.

Lemma opens_portRule k from key peer : opens [portRule k from] key peer <-> key = k /\ peer ∈ from.
Proof.
  unfold opens, portRule. split.
  - intros (r & ->%list_elem_of_singleton & Hp & Hpeer). cbn in *. apply list_elem_of_singleton in Hp.
    injection Hp as H1 H2. destruct key, k; cbn in *; subst. done.
  - intros [-> Hpeer]. eexists. split; [by left|]. cbn. split; [by left|done].
Qed.

Lemma opens_plugins plugins from key peer :
  opens (buildPluginIngressRules plugins from) key peer <->
  (exists ep, ep ∈ allEndpoints plugins /\ key = (pePort ep, endpointProto ep)) /\ peer ∈ from.
Proof.
  unfold buildPluginIngressRules. destruct (freshPorts_spec ∅ (allEndpoints plugins)) as [_ Hin].
  assert (Hex : (exists ep, ep ∈ allEndpoints plugins /\ key = (pePort ep, endpointProto ep)) <-> key ∈ freshPorts ∅ (allEndpoints plugins)).
  { rewrite Hin. split; [intros H; split; [apply not_elem_of_empty | done] | by intros [_ ?]]. }
  rewrite Hex. unfold opens. split.
  - intros (r & Hr & Hp & Hpeer). apply elem_of_map in Hr as (k & -> & Hk). cbn in *. apply list_elem_of_singleton in Hp.
    injection Hp as H1 H2. by replace key with k by (destruct key, k; cbn in *; congruence).
  - intros [Hk Hpeer]. exists (portRule key from). split; [apply elem_of_map; eauto|]. cbn. split; [by left|done].
Qed.

(** The rules of the policy, each on one port. *)
Lemma ingress_Ok operatorNamespace server npSpec plugins ingress :
  buildNetworkPolicyIngress operatorNamespace server npSpec plugins = Ok ingress ->
  exists from, Forall2 validPeer (npAllowFrom npSpec) from /\
    ingress = [portRule (minecraftPort, protocolTCP) (sameNamespacePeer (srvNamespace server) :: from)] ++
      buildPluginIngressRules plugins (sameNamespacePeer (srvNamespace server) :: from) ++
      buildRCONIngressRule operatorNamespace server protocolTCP.
Proof.
  unfold buildNetworkPolicyIngress. destruct (allowPeers _ _) as [peers|e] eqn:Ha; [|done]. intros [= <-].
  apply allowPeers_Ok in Ha as (from & -> & Hf). by exists from.
Qed.

(** A rule on at least one port, from at least one peer, all of which select. *)
Definition restrictive (r : NetworkPolicyRule) : Prop :=
  ruPorts r <> [] /\ ruPeers r <> [] /\ Forall selective (ruPeers r).

Lemma portRule_restrictive k from : from <> [] -> Forall selective from -> restrictive (portRule k from).
Proof. by repeat split. Qed.

Lemma sameNamespacePeer_selective ns : selective (sameNamespacePeer ns).
Proof. right. right. by eexists. Qed.

Lemma validPeers_selective sources from : Forall2 validPeer sources from -> Forall selective from.
Proof. induction 1 as [|s p l ps H _ IH]; constructor; [by apply (convertToPeer_selective s), convertToPeer_iff|done]. Qed.

Lemma ingress_restrictive operatorNamespace server npSpec plugins ingress :
  buildNetworkPolicyIngress operatorNamespace server npSpec plugins = Ok ingress -> Forall restrictive ingress.
Proof.
  intros (from & Hf & ->)%ingress_Ok.
  assert (Hs : Forall selective (sameNamespacePeer (srvNamespace server) :: from)).
  { constructor; [apply sameNamespacePeer_selective | by eapply validPeers_selective]. }
  rewrite !Forall_app. split_and!.
  - apply Forall_singleton, portRule_restrictive; done.
  - apply Forall_forall. intros r (k & -> & _)%elem_of_map. by apply portRule_restrictive.
  - unfold buildRCONIngressRule. destruct (negb _); [constructor|]. apply Forall_singleton, portRule_restrictive; [done|].
    apply Forall_singleton, sameNamespacePeer_selective.
Qed.

Definition restrictsEgress (npSpec : ServerNetworkPolicy) : bool :=
  match npRestrictEgress npSpec with None => true | Some b => b end.

(** DNS and HTTPS, which are always open. *)
Definition baseEgress : list NetworkPolicyRule :=
  [MkPolicyRule [MkPolicyPort protocolUDP 53; MkPolicyPort protocolTCP 53] []; MkPolicyRule [MkPolicyPort protocolTCP 443] []].

Lemma egress_Ok npSpec egress : buildNetworkPolicyEgress npSpec = Ok egress ->
  exists new, egress = baseEgress ++ new /\ Forall2 destRule (npAllowEgressTo npSpec) new.
Proof. apply egressRules_Ok. Qed.

Lemma egress_restricts new dests :
  Forall2 destRule dests new -> Forall (fun r => ruPorts r <> [] \/ ruPeers r <> []) (baseEgress ++ new).
Proof.
  intros Hf. apply Forall_app. split; [apply Forall_cons; split; [by left|]; apply Forall_singleton; by left|].
  induction Hf as [|d r l rs H _ IH]; constructor; [by eapply destRule_restricts|done].
Qed.

Lemma rconPolicyPort_spec server :
  rconPolicyPort server = if decide (0 < rcPort (ssRCON (srvSpec server))) then rcPort (ssRCON (srvSpec server)) else 25575.
Proof. unfold rconPolicyPort. case_decide; destruct (Z.leb_spec (rcPort (ssRCON (srvSpec server))) 0); lia. Qed.

Lemma rconNamespace_spec operatorNamespace server :
  rconNamespace operatorNamespace server = if decide (operatorNamespace = "") then srvNamespace server else operatorNamespace.
Proof. unfold rconNamespace. by case_decide; destruct (String.eqb_spec operatorNamespace ""). Qed.

(** ** Property *)

(** C7: The policy of a server opens exactly the game port and the ports of the matched
    plugins, to the server's namespace and the allowed sources, and the RCON port, to
    the operator's namespace; so RCON is closed to everybody else unless an endpoint
    shares its port.  No ingress rule is open to every peer or on every port.  With
    restricted egress only DNS, HTTPS and the listed destinations are open, none of them
    to everything.  The policy fails exactly for a source or destination that says
    nothing or too much. *)
Theorem buildNetworkPolicy_correct operatorNamespace server npSpec plugins :
  match buildNetworkPolicy operatorNamespace server npSpec plugins with
  | Err _ =>
      (exists s, s ∈ npAllowFrom npSpec /\ forall peer, ~ validPeer s peer) \/
      (restrictsEgress npSpec = true /\ exists d, d ∈ npAllowEgressTo npSpec /\ ndCIDR d = "" /\ ndPort d = None)
  | Ok policy =>
      let spec := nySpec policy in
      nyPodSelector spec = MkLabelSelector (buildSelector server) [] /\
      PolicyTypeIngress ∈ nyPolicyTypes spec /\
      (PolicyTypeEgress ∈ nyPolicyTypes spec <-> restrictsEgress npSpec = true) /\
      (exists from, Forall2 validPeer (npAllowFrom npSpec) from /\
        forall key peer, opens (nyIngress spec) key peer <->
          ((key = (minecraftPort, protocolTCP) \/ exists ep, ep ∈ allEndpoints plugins /\ key = (pePort ep, endpointProto ep)) /\
           (peer = sameNamespacePeer (srvNamespace server) \/ peer ∈ from)) \/
          (rcEnabled (ssRCON (srvSpec server)) = true /\
           key = (if decide (0 < rcPort (ssRCON (srvSpec server))) then rcPort (ssRCON (srvSpec server)) else 25575, protocolTCP) /\
           peer = sameNamespacePeer (if decide (operatorNamespace = "") then srvNamespace server else operatorNamespace))) /\
      Forall restrictive (nyIngress spec) /\
      (if restrictsEgress npSpec
       then exists new, nyEgress spec = baseEgress ++ new /\ Forall2 destRule (npAllowEgressTo npSpec) new
       else nyEgress spec = []) /\
      Forall (fun r => ruPorts r <> [] \/ ruPeers r <> []) (nyEgress spec)
  end.
Proof.
  unfold buildNetworkPolicy. fold (restrictsEgress npSpec).
  destruct (buildNetworkPolicyIngress _ _ _ _) as [ingress|e] eqn:Hi.
  - destruct (if restrictsEgress npSpec then _ else _) as [egress|e] eqn:He; cbv zeta; cbn [nySpec nyPodSelector nyPolicyTypes nyIngress nyEgress].
    + split_and!.
      * done.
      * by left.
      * destruct (restrictsEgress npSpec); split; try done; [intros _; right; by left|].
        intros [H|H%not_elem_of_nil]%elem_of_cons; done.
      * destruct (ingress_Ok _ _ _ _ _ Hi) as (from & Hf & ->). exists from. split; [done|]. intros key peer.
        rewrite !opens_app, opens_portRule, opens_plugins, !elem_of_cons. unfold buildRCONIngressRule.
        destruct (rcEnabled (ssRCON (srvSpec server))); cbn [negb].
        -- rewrite opens_portRule, list_elem_of_singleton, rconPolicyPort_spec, rconNamespace_spec. tauto.
        -- assert (~ opens [] key peer) by (by intros (r & ?%not_elem_of_nil & _)). intuition discriminate.
      * by eapply ingress_restrictive.
      * destruct (restrictsEgress npSpec); [by apply egress_Ok | by injection He as <-].
      * destruct (restrictsEgress npSpec); [|by injection He as <-].
        destruct (egress_Ok _ _ He) as (new & -> & Hd). by eapply egress_restricts.
    + right. destruct (restrictsEgress npSpec); [|done]. split; [done|]. by eapply egressRules_Err.
  - left. unfold buildNetworkPolicyIngress in Hi. destruct (allowPeers _ _) eqn:Ha; [done|]. by eapply allowPeers_Err.
Qed.

(** An endpoint of a plugin on the RCON port opens it to the sources of the game port. *)
Lemma endpoint_opens_rcon operatorNamespace server npSpec plugins ingress ep :
  buildNetworkPolicyIngress operatorNamespace server npSpec plugins = Ok ingress ->
  ep ∈ allEndpoints plugins -> endpointProto ep = protocolTCP -> pePort ep = rconPolicyPort server ->
  opens ingress (rconPolicyPort server, protocolTCP) (sameNamespacePeer (srvNamespace server)).
Proof.
  intros (from & _ & ->)%ingress_Ok Hep Hpr Hp. rewrite !opens_app, opens_plugins. right. left.
  split; [|by left]. exists ep. by rewrite Hp, Hpr.
Qed.
