(* ===== verification/Ensure.v ===== *)
(** * Objects that a server manages

    The operator keeps one object of several kinds per server: it reads the object,
    deletes it when it should not exist, creates it with the server as its owner, or
    adopts it and updates it when it differs.  The source repeats these lines for each
    kind (reconcileTCPRoute and reconcileUDPRoute of gateway_routes.go,
    ensureNetworkPolicy of networkpolicy.go, ensureService of
    papermcserver_controller.go); here they are written once, over a [Kind], and the
    functions are its instances.  Setting the owner is an interface. *)

From S2P Require Import Prelude GoBase GoLib Api Objects Effects K8s Webhook Config Workload Network.

Open Scope Z_scope.

(** ** controllerutil.SetControllerReference *)

Class Owning := {
  SetControllerReference : ObjectMeta -> ObjectMeta -> result ObjectMeta;
  (** the reference is to an object of the server's kind and name *)
  referSameObject : ObjectMeta -> OwnerReference -> bool
}.

(** The object belongs to the server. *)
Definition ownedBy {OW : Owning} (server : PaperMCServer) (m : ObjectMeta) : Prop :=
  exists r, r ∈ OwnerReferences m /\ referSameObject (srvMeta server) r = true /\ orUID r = UID (srvMeta server) /\ orController r = true.

Definition refersTo {OW : Owning} (server : PaperMCServer) (m : ObjectMeta) : Prop :=
  exists r, r ∈ OwnerReferences m /\ referSameObject (srvMeta server) r = true.

(** Another controller holds the object. *)
Definition foreign {OW : Owning} (server : PaperMCServer) (m : ObjectMeta) : Prop :=
  exists r, r ∈ OwnerReferences m /\ orController r = true /\ referSameObject (srvMeta server) r = false.

(** What differs is the list of owners. *)
Definition sameButOwners (m m' : ObjectMeta) : Prop := m' = m <| OwnerReferences := OwnerReferences m' |>.

Class OwningLaws {OW : Owning} : Prop := {
  (** the server's reference is replaced or added, the others are kept *)
  SetController_Ok server m m' : SetControllerReference (srvMeta server) m = Ok m' ->
    sameButOwners m m' /\ ownedBy server m' /\
    (length (OwnerReferences m) = length (OwnerReferences m') -> refersTo server m);
  (** once set there is nothing to do *)
  SetController_again server m m' m2 : SetControllerReference (srvMeta server) m = Ok m' ->
    Namespace m2 = Namespace m' -> OwnerReferences m2 = OwnerReferences m' ->
    SetControllerReference (srvMeta server) m2 = Ok m2;
  SetController_foreign server m : foreign server m -> isOk (SetControllerReference (srvMeta server) m) = false
}.

Module RefList.
(** The server's reference becomes the controller, or is added. *)
Fixpoint upsert (uid : string) (l : list OwnerReference) : list OwnerReference :=
  match l with
  | [] => [MkOwnerReference uid true]
  | r :: l => if (orUID r =? uid)%string then MkOwnerReference uid true :: l else r :: upsert uid l
  end.

Definition otherController (uid : string) (l : list OwnerReference) : bool :=
  existsb (fun r => orController r && negb (orUID r =? uid)%string) l.

#[global] Instance owning : Owning := {|
  SetControllerReference owner m :=
    if otherController (UID owner) (OwnerReferences m) then Err (ErrNew "already owned by another controller")
    else Ok (m <| OwnerReferences := upsert (UID owner) (OwnerReferences m) |>);
  referSameObject owner r := (orUID r =? UID owner)%string
|}.

Lemma upsert_again uid l : upsert uid (upsert uid l) = upsert uid l.
Proof.
  induction l as [|r l IH]; cbn [upsert]; [by rewrite String.eqb_refl|].
  destruct (orUID r =? uid)%string eqn:E; cbn [upsert]; [by cbn; rewrite String.eqb_refl | by rewrite E, IH].
Qed.

Lemma upsert_other uid l : otherController uid (upsert uid l) = otherController uid l.
Proof.
  unfold otherController. induction l as [|r l IH]; cbn [upsert existsb]; [cbn; by rewrite String.eqb_refl|].
  destruct (orUID r =? uid)%string eqn:E; cbn [existsb orUID orController]; [by rewrite String.eqb_refl, ?andb_false_r | by rewrite IH, E].
Qed.

Lemma upsert_in uid l : MkOwnerReference uid true ∈ upsert uid l.
Proof. induction l as [|r l IH]; cbn [upsert]; [by left|]. destruct (_ =? _)%string; [by left | by right]. Qed.

Lemma upsert_length uid l : length l = length (upsert uid l) -> exists r, r ∈ l /\ (orUID r =? uid)%string = true.
Proof.
  induction l as [|r l IH]; cbn [upsert length]; [lia|]. destruct (orUID r =? uid)%string eqn:E.
  - intros _. exists r. by split; [left|].
  - cbn [length]. intros [= H]. destruct (IH H) as (r' & ? & ?). exists r'. by split; [right|].
Qed.

#[global] Instance owning_laws : OwningLaws.
Proof.
  split; cbn.
  - intros server m m'. destruct (otherController _ _); intros [= <-]. split_and!; [done| |apply upsert_length].
    eexists. split; [apply upsert_in|]. cbn. by rewrite String.eqb_refl.
  - intros server m m' m2. destruct (otherController _ _) eqn:E; intros [= <-]. cbn. intros _ Ho.
    rewrite Ho, upsert_other, E, upsert_again, <- Ho. by destruct m2.
  - intros server m (r & Hr & Hc & Hu). unfold otherController.
    rewrite (proj2 (existsb_elem _ _)); [done|]. exists r. cbn in Hu. by rewrite Hc, Hu.
Qed.
End RefList.

(** ** Kinds *)

Record Kind (T : Type) := MkKind {
  kdGet : key -> prog (result T);
  kdCreate : T -> prog (result T);
  kdUpdate : T -> prog (result T);
  kdDelete : key -> prog (result unit);
  kdMeta : T -> ObjectMeta;
  kdSetMeta : ObjectMeta -> T -> T;
  (** the compared parts are equal *)
  kdSame : T -> T -> bool;
  (** the existing object with the compared parts of the desired one *)
  kdTake : T -> T -> T;
  (** the name of the kind in errors, and after "failed to set owner reference" *)
  kdNoun : string;
  kdOwner : string
}.
Arguments kdGet {T}. Arguments kdCreate {T}. Arguments kdUpdate {T}. Arguments kdDelete {T}. Arguments kdMeta {T}.
Arguments kdSetMeta {T}. Arguments kdSame {T}. Arguments kdTake {T}. Arguments kdNoun {T}. Arguments kdOwner {T}.

Section managed.
Context {OW : Owning} {T : Type} (k : Kind T).

Definition asUnit {A} (r : result A) : result unit := match r with Ok _ => Ok tt | Err e => Err e end.

Definition setOwner (server : PaperMCServer) (x : T) : result T :=
  match SetControllerReference (srvMeta server) (kdMeta k x) with
  | Ok m => Ok (kdSetMeta k m x)
  | Err e => Err (ErrWrap e ("failed to set owner reference" +:+ kdOwner k))
  end.

(** The object does not exist. *)
Definition createOwned (server : PaperMCServer) (desired : T) : prog (result unit) :=
  match setOwner server desired with
  | Err e => Ret (Err e)
  | Ok desired =>
      c <- kdCreate k desired ;;
      Ret (wrap ("failed to create " +:+ kdNoun k) (asUnit c))
  end.

(** The object exists: adoption, and the update unless nothing changed. *)
Definition adoptAndUpdate (server : PaperMCServer) (existing desired : T) : prog (result unit) :=
  match setOwner server existing with
  | Err e => Ret (Err e)
  | Ok adopted =>
      let ownerRefsChanged :=
        negb (length (OwnerReferences (kdMeta k adopted)) =? length (OwnerReferences (kdMeta k existing)))%nat in
      if negb ownerRefsChanged && kdSame k adopted desired then Ret (Ok tt)
      else
        u <- kdUpdate k (kdTake k adopted desired) ;;
        Ret (wrap ("failed to update " +:+ kdNoun k) (asUnit u))
  end.

(** The object should not exist. *)
Definition deleteExisting (existing : T) : prog (result unit) :=
  d <- kdDelete k (Namespace (kdMeta k existing), Name (kdMeta k existing)) ;;
  match d with
  | Err e => if IsNotFound e then Ret (Ok tt) else Ret (Err (ErrWrap e ("failed to delete " +:+ kdNoun k)))
  | Ok _ => Ret (Ok tt)
  end.

(** The common body; [optional] kinds may be unknown to the API server, and [desired]
    is built only when it is needed. *)
Definition reconcileManaged (optional : bool) (server : PaperMCServer) (name : string) (shouldExist : bool) (desired : result T)
  : prog (result unit) :=
  g <- kdGet k (srvNamespace server, name) ;;
  match g with
  | Err e =>
      if IsNotFound e then
        if negb shouldExist then Ret (Ok tt)
        else match desired with
             | Err e => Ret (Err e)
             | Ok desired => createOwned server desired
             end
      else if optional && IsNoMatchError e then Ret (Ok tt)
      else Ret (Err (ErrWrap e ("failed to get " +:+ kdNoun k)))
  | Ok existing =>
      if negb shouldExist then deleteExisting existing
      else match desired with
           | Err e => Ret (Err e)
           | Ok desired => adoptAndUpdate server existing desired
           end
  end.
End managed.

(** ** Convergence on an API server

    [h] answers the requests with a state, of which [stored] is the objects of the
    kind.  An API server fills in what a request leaves open: [kept x y] says that [y]
    has everything that [x] asks for. *)

Section converges.
Context {OW : Owning} {OL : OwningLaws} {T : Type} (k : Kind T) (kept : T -> T -> Prop).

Definition objKey (x : T) : key := (Namespace (kdMeta k x), Name (kdMeta k x)).

Definition like (x y : T) : Prop :=
  kept x y /\ objKey y = objKey x /\ OwnerReferences (kdMeta k y) = OwnerReferences (kdMeta k x).

(** How the operations of a kind fit together: [kdSame] compares what [kdTake] copies,
    which owners are not part of, and objects that are the same have what is asked for. *)
Record KindLaws : Prop := {
  kl_meta x m : kdMeta k (kdSetMeta k m x) = m;
  kl_take e d : kept d (kdTake k e d);
  kl_take_meta e d : objKey (kdTake k e d) = objKey e /\ OwnerReferences (kdMeta k (kdTake k e d)) = OwnerReferences (kdMeta k e);
  kl_trans x y z : kept x y -> kept y z -> kept x z;
  kl_same x d : kdSame k x d = true -> kept d x;
  kl_owners x m d : sameButOwners (kdMeta k x) m -> kdSame k (kdSetMeta k m x) d = kdSame k x d;
  kl_kept_owners x m : sameButOwners (kdMeta k x) m -> kept x (kdSetMeta k m x)
}.

Record Serves {S : Type} (h : S -> forall r, S * ans r) (stored : S -> key -> option T) : Prop := {
  sv_key s kk x : stored s kk = Some x -> objKey x = kk;
  sv_get s kk : exists tr, execS h s (kdGet k kk) = (s, tr, match stored s kk with Some x => Ok x | None => Err notFound end);
  sv_create s x : stored s (objKey x) = None ->
    exists s' tr y, execS h s (kdCreate k x) = (s', tr, Ok y) /\ stored s' (objKey x) = Some y /\ like x y;
  sv_update s x : is_Some (stored s (objKey x)) ->
    exists s' tr y, execS h s (kdUpdate k x) = (s', tr, Ok y) /\ stored s' (objKey x) = Some y /\ like x y
}.

Definition Deletes {S : Type} (h : S -> forall r, S * ans r) (stored : S -> key -> option T) : Prop :=
  forall s kk, is_Some (stored s kk) -> exists s' tr, execS h s (kdDelete k kk) = (s', tr, Ok tt) /\ stored s' kk = None.

(** The object has the desired parts and an owner reference that adoption leaves alone. *)
Definition settled (server : PaperMCServer) (d y : T) : Prop :=
  kept d y /\ refersTo server (kdMeta k y) /\ exists m, SetControllerReference (srvMeta server) (kdMeta k y) = Ok m /\
    length (OwnerReferences m) = length (OwnerReferences (kdMeta k y)).

Context {S : Type} (h : S -> forall r, S * ans r) (stored : S -> key -> option T).
Context (KL : KindLaws) (SV : Serves h stored).

Lemma sameButOwners_key x m : sameButOwners (kdMeta k x) m -> objKey (kdSetMeta k m x) = objKey x.
Proof. intros Hs. unfold objKey. rewrite (kl_meta KL), Hs. done. Qed.

(** What is written is settled. *)
Lemma written_settled server x m d z y :
  SetControllerReference (srvMeta server) (kdMeta k x) = Ok m -> OwnerReferences (kdMeta k z) = OwnerReferences m ->
  objKey z = objKey x -> kept d z -> like z y -> settled server d y.
Proof.
  intros Hm Ho Hk Hd (Hs & Hky & Hoy). split; [by apply (kl_trans KL _ z)|].
  destruct (SetController_Ok server _ _ Hm) as (Hsame & (r & Hr & Href & _) & _).
  split; [exists r; by rewrite Hoy, Ho|]. exists (kdMeta k y). split; [|done].
  eapply SetController_again; [exact Hm| |congruence].
  assert (He : objKey y = objKey x) by congruence. unfold objKey in He. injection He as He _. rewrite He, Hsame. done.
Qed.

(** Creation on a server that has no such object. *)
Lemma createOwned_spec server d s :
  stored s (objKey d) = None ->
  exists s1 tr r, execS h s (createOwned k server d) = (s1, tr, r) /\
    ((r = Ok tt /\ exists y, stored s1 (objKey d) = Some y /\ settled server d y) \/ (isOk r = false /\ s1 = s)).
Proof.
  intros Hn. unfold createOwned, setOwner. destruct (SetControllerReference (srvMeta server) (kdMeta k d)) as [m|e] eqn:Hm.
  2: { cbn. do 3 eexists. split; [reflexivity|]. by right. }
  destruct (SetController_Ok server _ _ Hm) as (Hs & _ & _). pose proof (sameButOwners_key d m Hs) as Hkey.
  rewrite execS_bind. destruct (sv_create _ _ SV s (kdSetMeta k m d)) as (s1 & tr & y & -> & Hst & Hl); [by rewrite Hkey|].
  cbn. do 3 eexists. split; [reflexivity|]. left. split; [done|]. exists y. rewrite <- Hkey. split; [done|].
  eapply written_settled; [exact Hm|by rewrite (kl_meta KL)|done|by apply (kl_kept_owners KL)|exact Hl].
Qed.

Lemma update_spec server x m d s :
  SetControllerReference (srvMeta server) (kdMeta k x) = Ok m -> stored s (objKey x) = Some x ->
  exists s1 tr y,
    execS h s (u <- kdUpdate k (kdTake k (kdSetMeta k m x) d) ;; Ret (wrap ("failed to update " +:+ kdNoun k) (asUnit u))) =
      (s1, tr, Ok tt) /\ stored s1 (objKey x) = Some y /\ settled server d y.
Proof.
  intros Hm Hst. destruct (SetController_Ok server _ _ Hm) as (Hs & _ & _). pose proof (sameButOwners_key x m Hs) as Hkey.
  destruct (kl_take_meta KL (kdSetMeta k m x) d) as [Htk Hto]. rewrite Hkey in Htk. rewrite (kl_meta KL) in Hto.
  rewrite execS_bind. destruct (sv_update _ _ SV s (kdTake k (kdSetMeta k m x) d)) as (s1 & tr & y & -> & Hst1 & Hl); [rewrite Htk; by eexists|].
  rewrite Htk in Hst1. cbn. do 3 eexists. split; [reflexivity|]. split; [done|].
  eapply written_settled; [exact Hm|exact Hto|exact Htk|apply (kl_take KL)|exact Hl].
Qed.

(** Adoption and update of an object that is there. *)
Lemma adoptAndUpdate_spec server x d s :
  stored s (objKey x) = Some x ->
  exists s1 tr r, execS h s (adoptAndUpdate k server x d) = (s1, tr, r) /\
    match SetControllerReference (srvMeta server) (kdMeta k x) with
    | Ok m => r = Ok tt /\ (exists y, stored s1 (objKey x) = Some y /\ settled server d y) /\
        (length (OwnerReferences m) = length (OwnerReferences (kdMeta k x)) -> kdSame k x d = true -> s1 = s)
    | Err _ => isOk r = false /\ s1 = s
    end.
Proof.
  intros Hst. unfold adoptAndUpdate, setOwner. destruct (SetControllerReference (srvMeta server) (kdMeta k x)) as [m|e] eqn:Hm.
  2: { do 3 eexists. by split. }
  destruct (SetController_Ok server _ _ Hm) as (Hs & Hown & Hlen). rewrite (kl_meta KL), negb_involutive, (kl_owners KL) by done.
  destruct (update_spec server x m d s Hm Hst) as (s1 & tr & y & Hu & Hy).
  destruct (Nat.eqb_spec (length (OwnerReferences m)) (length (OwnerReferences (kdMeta k x)))) as [El|El]; cbn [andb].
  - destruct (kdSame k x d) eqn:Esame.
    + do 3 eexists. split; [reflexivity|]. split_and!; [done| |done]. exists x. split; [done|].
      split; [by apply (kl_same KL)|]. split; [by apply Hlen|]. by exists m.
    + rewrite Hu. do 3 eexists. split; [reflexivity|]. split_and!; [done|by exists y|done].
  - rewrite Hu. do 3 eexists. split; [reflexivity|]. split_and!; [done|by exists y|done].
Qed.

(** A settled object stays settled, and is left alone if it compares equal. *)
Lemma settled_again optional server name d y s :
  stored s (srvNamespace server, name) = Some y -> settled server d y ->
  exists s2 tr y2, execS h s (reconcileManaged k optional server name true (Ok d)) = (s2, tr, Ok tt) /\
    stored s2 (srvNamespace server, name) = Some y2 /\ settled server d y2 /\ (kdSame k y d = true -> s2 = s).
Proof.
  intros Hst (Hd & Href & m & Hm & Hl). unfold reconcileManaged. rewrite execS_bind.
  destruct (sv_get _ _ SV s (srvNamespace server, name)) as [tr ->]. rewrite Hst. cbn [negb].
  pose proof (sv_key _ _ SV _ _ _ Hst) as Hk. rewrite <- Hk in Hst.
  destruct (adoptAndUpdate_spec server y d s Hst) as (s2 & tr2 & r & -> & H). rewrite Hm in H.
  destruct H as (-> & (y2 & Hst2 & Hs2) & Hq). do 3 eexists. split; [reflexivity|]. rewrite <- Hk. split_and!; [exact Hst2|done|].
  intros Hsame. by apply Hq.
Qed.
End converges.

(** Arguments of the lemmas above that every use gives. *)
Section reconcile.
Context {OW : Owning} {OL : OwningLaws} {T : Type} (k : Kind T) (kept : T -> T -> Prop) {S : Type}
  (h : S -> forall r, S * ans r) (stored : S -> key -> option T).

(** What a state should have under a key: nothing, or an object that has everything
    that is asked for and refers to the server. *)
Definition there (server : PaperMCServer) (name : string) (shouldExist : bool) (desired : result T) (s : S) : Prop :=
  if shouldExist then exists d y, desired = Ok d /\ stored s (srvNamespace server, name) = Some y /\ kept d y /\ refersTo server (kdMeta k y)
  else stored s (srvNamespace server, name) = None.

(** What is stored compares equal to what is desired. *)
Definition unchanged (server : PaperMCServer) (name : string) (desired : result T) (s : S) : Prop :=
  forall d y, desired = Ok d -> stored s (srvNamespace server, name) = Some y -> kdSame k y d = true.

(** The outcome of one run on a server that answers every request. *)
Definition Converged (optional : bool) (server : PaperMCServer) (name : string) (shouldExist : bool) (desired : result T) (s s1 : S)
  (r : result unit) : Prop :=
  (r = Ok tt -> there server name shouldExist desired s1 /\
     exists s2 tr, execS h s1 (reconcileManaged k optional server name shouldExist desired) = (s2, tr, Ok tt) /\
       there server name shouldExist desired s2 /\ (unchanged server name desired s1 -> s2 = s1)) /\
  (isOk r = false -> s1 = s /\ shouldExist = true) /\
  (forall x, stored s (srvNamespace server, name) = Some x -> foreign server (kdMeta k x) -> shouldExist = true -> isOk r = false).

Lemma converged_unwanted optional server name desired s :
  Serves k kept h stored -> Deletes k h stored ->
  exists s1 tr r, execS h s (reconcileManaged k optional server name false desired) = (s1, tr, r) /\
    Converged optional server name false desired s s1 r.
Proof.
  intros SV DE.
  assert (Hq : forall s0, stored s0 (srvNamespace server, name) = None -> exists tr,
    execS h s0 (reconcileManaged k optional server name false desired) = (s0, tr, Ok tt)).
  { intros s0 Hn. unfold reconcileManaged. rewrite execS_bind. destruct (sv_get _ _ _ _ SV s0 (srvNamespace server, name)) as [tr ->].
    rewrite Hn. cbn. by eexists. }
  assert (Hdone : forall s1, stored s1 (srvNamespace server, name) = None -> Converged optional server name false desired s s1 (Ok tt)).
  { intros s1 Hn. unfold Converged. split_and!; [|done..]. intros _. split; [done|].
    destruct (Hq s1 Hn) as [tr H]. by exists s1, tr. }
  destruct (stored s (srvNamespace server, name)) as [x|] eqn:Hst.
  - pose proof (sv_key _ _ _ _ SV _ _ _ Hst) as Hk. unfold objKey in Hk.
    destruct (DE s (srvNamespace server, name)) as (s1 & tr1 & Hd & Hn); [by eexists|].
    unfold reconcileManaged at 1. rewrite execS_bind.
    destruct (sv_get _ _ _ _ SV s (srvNamespace server, name)) as [tr ->]. rewrite Hst. cbn [negb]. unfold deleteExisting.
    rewrite Hk, execS_bind, Hd. cbn. do 3 eexists. split; [reflexivity|]. by apply Hdone.
  - destruct (Hq s Hst) as [tr H]. rewrite H. do 3 eexists. split; [reflexivity|]. by apply Hdone.
Qed.

Lemma converged_wanted optional server name d s :
  KindLaws k kept -> Serves k kept h stored -> objKey k d = (srvNamespace server, name) ->
  exists s1 tr r, execS h s (reconcileManaged k optional server name true (Ok d)) = (s1, tr, r) /\
    Converged optional server name true (Ok d) s s1 r.
Proof.
  intros KL SV Hk. unfold reconcileManaged at 1. rewrite execS_bind.
  destruct (sv_get _ _ _ _ SV s (srvNamespace server, name)) as [tr ->].
  assert (Hdone : forall s1 y, stored s1 (srvNamespace server, name) = Some y -> settled k kept server d y ->
    (forall x, stored s (srvNamespace server, name) = Some x -> ~ foreign server (kdMeta k x)) ->
    Converged optional server name true (Ok d) s s1 (Ok tt)).
  { intros s1 y Hst Hs Hf. unfold Converged. split_and!; [|done|by intros x Hx Hfx _; destruct (Hf x Hx)]. intros _.
    destruct (settled_again k kept h stored KL SV optional server name d y s1 Hst Hs) as (s2 & tr2 & y2 & He & Hst2 & Hs2 & Hq).
    split; [exists d, y; destruct Hs as (? & ? & _); by split_and!|]. exists s2, tr2. split_and!; [done| |].
    - exists d, y2. destruct Hs2 as (? & ? & _). by split_and!.
    - intros Hu. by apply Hq, Hu. }
  assert (Herr : forall r, isOk r = false -> Converged optional server name true (Ok d) s s r)
    by (intros [[]|e] He; [done|]; unfold Converged; by split_and!).
  destruct (stored s (srvNamespace server, name)) as [x|] eqn:Hst; cbn [negb].
  - pose proof (sv_key _ _ _ _ SV _ _ _ Hst) as Hkx. rewrite <- Hkx in Hst.
    destruct (adoptAndUpdate_spec k kept h stored KL SV server x d s Hst) as (s1 & tr1 & r & -> & H).
    do 3 eexists. split; [reflexivity|]. destruct (SetControllerReference _ _) as [m|e] eqn:Hm; [|destruct H as [H ->]; by apply Herr].
    destruct H as (-> & (y & Hy & Hs) & _). rewrite Hkx in Hy. apply (Hdone s1 y Hy Hs). intros x' [= <-] Hf%SetController_foreign.
    by rewrite Hm in Hf.
  - change (IsNotFound notFound) with true. cbn [negb]. rewrite <- Hk in Hst.
    destruct (createOwned_spec k kept h stored KL SV server d s Hst) as (s1 & tr1 & r & -> & H).
    do 3 eexists. split; [reflexivity|]. destruct H as [[-> (y & Hy & Hs)]|[H ->]]; [|by apply Herr].
    rewrite Hk in Hy. by apply (Hdone s1 y Hy Hs).
Qed.

Lemma converged_unbuilt optional server name e s :
  Serves k kept h stored ->
  exists s1 tr r, execS h s (reconcileManaged k optional server name true (Err e)) = (s1, tr, r) /\
    Converged optional server name true (Err e) s s1 r.
Proof.
  intros SV. unfold reconcileManaged at 1. rewrite execS_bind.
  destruct (sv_get _ _ _ _ SV s (srvNamespace server, name)) as [tr ->].
  destruct (stored s (srvNamespace server, name)); [|change (IsNotFound notFound) with true]; cbn;
    do 3 eexists; (split; [reflexivity|]); unfold Converged; split_and!; done.
Qed.

(** Whatever is wanted. *)
Lemma reconcileManaged_converged optional server name shouldExist desired s :
  KindLaws k kept -> Serves k kept h stored -> (shouldExist = false -> Deletes k h stored) ->
  (forall d, desired = Ok d -> objKey k d = (srvNamespace server, name)) ->
  exists s1 tr r, execS h s (reconcileManaged k optional server name shouldExist desired) = (s1, tr, r) /\
    Converged optional server name shouldExist desired s s1 r.
Proof.
  intros KL SV DE Hk. destruct shouldExist; [|by apply converged_unwanted; auto].
  destruct desired as [d|e]; [by apply converged_wanted; auto | by apply converged_unbuilt].
Qed.
End reconcile.

(** ** Network policy and Service *)

Definition policyKind : Kind NetworkPolicy := {|
  kdGet kk := ask (RGetNetworkPolicy kk);
  kdCreate p := ask (RCreateNetworkPolicy p);
  kdUpdate p := ask (RUpdateNetworkPolicy p);
  kdDelete kk := ask (RDeleteNetworkPolicy kk);
  kdMeta := nyMeta;
  kdSetMeta m p := p <| nyMeta := m |>;
  kdSame existing desired :=
    bool_decide (nySpec existing = nySpec desired) && bool_decide (Labels (nyMeta existing) = Labels (nyMeta desired));
  kdTake existing desired :=
    existing <| nySpec := nySpec desired |> <| nyMeta := (nyMeta existing) <| Labels := Labels (nyMeta desired) |> |>;
  kdNoun := "NetworkPolicy";
  kdOwner := " on NetworkPolicy"
|}.

Definition serviceKind : Kind Service := {|
  kdGet kk := ask (RGetService kk);
  kdCreate s := ask (RCreateService s);
  kdUpdate s := ask (RUpdateService s);
  kdDelete _ := Ret (Ok tt);  (* the Service always exists *)
  kdMeta := seMeta;
  kdSetMeta m s := s <| seMeta := m |>;
  kdSame existing desired :=
    bool_decide (seSpec existing = (seSpec desired) <| seClusterIP := seClusterIP (seSpec existing) |>
                                     <| seClusterIPs := seClusterIPs (seSpec existing) |>) &&
    bool_decide (Labels (seMeta existing) = Labels (seMeta desired)) &&
    bool_decide (Annotations (seMeta existing) = Annotations (seMeta desired));
  kdTake existing desired :=
    existing <| seSpec := (seSpec desired) <| seClusterIP := seClusterIP (seSpec existing) |>
                            <| seClusterIPs := seClusterIPs (seSpec existing) |> |>
      <| seMeta := (seMeta existing) <| Labels := Labels (seMeta desired) |>
                     <| Annotations := Annotations (seMeta desired) |> |>;
  kdNoun := "service";
  kdOwner := ""
|}.

(** What [server.Spec.Network.NetworkPolicy] points to. *)
Definition networkPolicySpec (server : PaperMCServer) : option ServerNetworkPolicy :=
  match ssNetwork (srvSpec server) with Some network => ncNetworkPolicy network | None => None end.

Definition policyWanted (server : PaperMCServer) : bool :=
  match networkPolicySpec server with Some np => npEnabled np | None => false end.

(** The policy that should exist; built only when it is wanted. *)
Definition desiredPolicy (operatorNamespace : string) (server : PaperMCServer) (matchedPlugins : list Plugin) : result NetworkPolicy :=
  wrap "failed to build NetworkPolicy"
    (buildNetworkPolicy operatorNamespace server (default zeroServerNetworkPolicy (networkPolicySpec server)) matchedPlugins).

Section server.
Context {OW : Owning}.

Definition ensureNetworkPolicy (operatorNamespace : string) (server : PaperMCServer) (matchedPlugins : list Plugin) : prog (result unit) :=
  reconcileManaged policyKind false server (srvName server +:+ "-minecraft") (policyWanted server)
    (desiredPolicy operatorNamespace server matchedPlugins).

Definition ensureService (server : PaperMCServer) (matchedPlugins : list Plugin) : prog (result unit) :=
  reconcileManaged serviceKind false server (srvName server) true (Ok (buildService server matchedPlugins)).
End server.

(** Nothing of a policy that the operator sends is left open: every port has its
    protocol and the policy types are given. *)
Definition policyKept (d y : NetworkPolicy) : Prop := kdSame policyKind y d = true.

(** What the API server keeps of a Service port: everything but a node port that was
    left open, which it assigns. *)
Definition portKept (d y : ServicePort) : Prop :=
  sePortName d = sePortName y /\ sePort d = sePort y /\ seTargetPort d = seTargetPort y /\ seProtocol d = seProtocol y /\
  (seNodePort d = 0 \/ seNodePort d = seNodePort y).

(** Of a Service: labels and annotations, and what the operator sets of the
    specification.  Cluster addresses, node ports, session affinity, traffic policies
    and IP families are filled in. *)
Definition serviceKept (d y : Service) : Prop :=
  Labels (seMeta d) = Labels (seMeta y) /\ Annotations (seMeta d) = Annotations (seMeta y) /\
  seType (seSpec d) = seType (seSpec y) /\ seSelector (seSpec d) = seSelector (seSpec y) /\
  seLoadBalancerIP (seSpec d) = seLoadBalancerIP (seSpec y) /\ Forall2 portKept (sePorts (seSpec d)) (sePorts (seSpec y)).

Lemma portKept_refl p : portKept p p.
Proof. unfold portKept. split_and!; auto. Qed.

Lemma portKept_trans p q r : portKept p q -> portKept q r -> portKept p r.
Proof. unfold portKept. intros (? & ? & ? & ? & [?|?]) (? & ? & ? & ? & [?|?]); split_and!; try congruence; (left; congruence) || (right; congruence). Qed.

Lemma portsKept_refl l : Forall2 portKept l l.
Proof. induction l; constructor; [apply portKept_refl | done]. Qed.

Lemma policyKept_refl p : policyKept p p.
Proof. unfold policyKept. cbn. by rewrite !bool_decide_eq_true_2. Qed.

Lemma policyKind_laws : KindLaws policyKind policyKept.
Proof.
  split.
  - done.
  - intros e d. unfold policyKept. cbn. by rewrite !bool_decide_eq_true_2.
  - done.
  - intros x y z Hxy Hyz. unfold policyKept in *. cbn in *. bool_prop. rewrite !bool_decide_eq_true_2; [done|congruence..].
  - done.
  - intros x m d ->. done.
  - intros x m ->. unfold policyKept. cbn. by rewrite !bool_decide_eq_true_2.
Qed.

Lemma serviceKind_laws : KindLaws serviceKind serviceKept.
Proof.
  split.
  - done.
  - intros e d. unfold serviceKept. cbn. split_and!; try done. apply portsKept_refl.
  - done.
  - intros x y z (? & ? & ? & ? & ? & Hp) (? & ? & ? & ? & ? & Hq). unfold serviceKept. split_and!; try congruence.
    revert Hp Hq. generalize (sePorts (seSpec y)) (sePorts (seSpec z)) (sePorts (seSpec x)). intros l2 l3 l1 Hports. revert l3.
    induction Hports as [|p q l l' Hpq _ IH]; intros l3 Hl3; inversion Hl3; subst; constructor; [by eapply portKept_trans | by apply IH].
  - intros x d. cbn. rewrite !andb_true_iff, !bool_decide_eq_true. intros [[Hs Hl] Ha]. unfold serviceKept.
    rewrite Hs. cbn. split_and!; try done. apply portsKept_refl.
  - intros x m d ->. done.
  - intros x m ->. unfold serviceKept. cbn. split_and!; try done. apply portsKept_refl.
Qed.

Lemma desiredPolicy_key operatorNamespace server plugins d :
  desiredPolicy operatorNamespace server plugins = Ok d ->
  objKey policyKind d = (srvNamespace server, srvName server +:+ "-minecraft").
Proof.
  unfold desiredPolicy. rewrite wrap_Ok. unfold buildNetworkPolicy.
  intros H. repeat case_match; simplify_eq; done.
Qed.

(** ** Property *)

(** C9: On an API server that answers, one run brings the network policy and the Service
    of a server to the desired state: the policy is gone if it is not wanted, otherwise
    both exist, have everything that is desired of them and refer to the server; an
    error leaves the objects as they were, and an object of another controller is never
    overwritten.  A second run succeeds and ends in the desired state again; for the
    policy it only reads.  The API server may fill in what the operator leaves open of
    a Service (node ports, session affinity, traffic policies, IP families), and then
    the second run may write the Service again. *)
Theorem ensure_converges {OW : Owning} {OL : OwningLaws} {S : Type} (h : S -> forall r, S * ans r)
  (policies : S -> key -> option NetworkPolicy) (services : S -> key -> option Service) operatorNamespace server plugins s :
  Serves policyKind policyKept h policies -> Deletes policyKind h policies -> Serves serviceKind serviceKept h services ->
  (exists s1 tr r, execS h s (ensureNetworkPolicy operatorNamespace server plugins) = (s1, tr, r) /\
    Converged policyKind policyKept h policies false server (srvName server +:+ "-minecraft") (policyWanted server)
      (desiredPolicy operatorNamespace server plugins) s s1 r /\
    (r = Ok tt -> exists tr2, execS h s1 (ensureNetworkPolicy operatorNamespace server plugins) = (s1, tr2, Ok tt))) /\
  (exists s1 tr r, execS h s (ensureService server plugins) = (s1, tr, r) /\
    Converged serviceKind serviceKept h services false server (srvName server) true (Ok (buildService server plugins)) s s1 r).
Proof.
  intros SP DP SS. split.
  - destruct (reconcileManaged_converged policyKind policyKept h policies false server (srvName server +:+ "-minecraft")
      (policyWanted server) (desiredPolicy operatorNamespace server plugins) s) as (s1 & tr & r & He & Hc);
      [apply policyKind_laws|done|done|apply desiredPolicy_key|].
    exists s1, tr, r. split_and!; [exact He | exact Hc |]. intros Hr. destruct Hc as [Hok _].
    destruct (Hok Hr) as (Ht & s2 & tr2 & H2 & _ & Hq). exists tr2. unfold ensureNetworkPolicy. rewrite H2. rewrite Hq; [done|].
    intros d y Hd Hy. unfold there in Ht. destruct (policyWanted server); [|congruence].
    destruct Ht as (d' & y' & Hd' & Hy' & Hk & _). unfold policyKept in Hk. congruence.
  - apply reconcileManaged_converged; [apply serviceKind_laws|done|done|]. by intros d [= <-].
Qed.

(** What the API server fills in makes the comparison of the next run fail: a Service
    with a session affinity, which the server sets to None when it is left open, is
    updated by every run, although nothing changed. *)
Lemma ensureService_rewrites {OW : Owning} {OL : OwningLaws} server plugins existing m tr r :
  runs (ensureService server plugins) (Ev (E := K8s) (RGetService (srvNamespace server, srvName server)) (Ok existing) :: tr) r ->
  SetControllerReference (srvMeta server) (seMeta existing) = Ok m -> seSessionAffinity (seSpec existing) <> "" ->
  exists x y, tr = [Ev (E := K8s) (RUpdateService x) y].
Proof.
  unfold ensureService, reconcileManaged, ask. cbn [bind call kdGet serviceKind]. intros (y & t & Heq & Hr) Hm Ha.
  assert (Hy : y = Ok existing) by
    by apply (f_equal (fun l => match l with existT (RGetService _) x :: _ => x | _ => Ok existing end)) in Heq.
  subst y. injection Heq as <-. unfold adoptAndUpdate, setOwner in Hr. cbn [bind call negb kdMeta serviceKind] in Hr. rewrite Hm in Hr.
  destruct (SetController_Ok server _ _ Hm) as (Hs & _ & _).
  match type of Hr with context [kdSame _ ?a ?b] => assert (Hsame : kdSame serviceKind a b = false) end.
  { cbn. rewrite bool_decide_eq_false_2; [done|]. intros He. apply Ha. by rewrite He. }
  rewrite Hsame, andb_false_r in Hr. destruct Hr as (u & t2 & -> & -> & _). by eexists _, u.
Qed.

(** ** Witness: an API server that stores policies and Services *)

Module Store.
Record state := MkState { policies : gmap key NetworkPolicy; services : gmap key Service }.

Definition found {A} (o : option A) : result A := match o with Some x => Ok x | None => Err notFound end.

Definition policyKey (p : NetworkPolicy) : key := (Namespace (nyMeta p), Name (nyMeta p)).
Definition serviceKey (x : Service) : key := (Namespace (seMeta x), Name (seMeta x)).

(** Objects are stored under their keys. *)
Definition storedPolicy (s : state) (kk : key) : option NetworkPolicy :=
  p ← policies s !! kk; if decide (policyKey p = kk) then Some p else None.
Definition storedService (s : state) (kk : key) : option Service :=
  x ← services s !! kk; if decide (serviceKey x = kk) then Some x else None.

(** What is left open of a Service is filled in. *)
Definition defaultedPort (p : ServicePort) : ServicePort :=
  if seNodePort p =? 0 then p <| seNodePort := 30000 + sePort p mod 2768 |> else p.

Definition defaulted (x : Service) : Service :=
  x <| seSpec := (seSpec x) <| sePorts := map defaultedPort (sePorts (seSpec x)) |> <| seSessionAffinity := "None" |>
         <| seClusterIP := "10.0.0.1" |> <| seClusterIPs := ["10.0.0.1"] |> <| seIPFamilies := ["IPv4"] |> |>.

Lemma defaulted_kept x : serviceKept x (defaulted x).
Proof.
  unfold serviceKept, defaulted. cbn. split_and!; try done. induction (sePorts (seSpec x)) as [|p l IH]; cbn; constructor; [|done].
  unfold defaultedPort, portKept. destruct (Z.eqb_spec (seNodePort p) 0); cbn; split_and!; auto.
Qed.

Definition handle (s : state) (r : kreq) : state * kans r :=
  match r return state * kans r with
  | RGetNetworkPolicy kk => (s, found (storedPolicy s kk))
  | RCreateNetworkPolicy p | RUpdateNetworkPolicy p => (MkState (<[policyKey p := p]> (policies s)) (services s), Ok p)
  | RDeleteNetworkPolicy kk => (MkState (delete kk (policies s)) (services s), Ok tt)
  | RGetService kk => (s, found (storedService s kk))
  | RCreateService x | RUpdateService x =>
      let y := defaulted x in (MkState (policies s) (<[serviceKey y := y]> (services s)), Ok y)
  | r => (s, idle r)
  end.

Lemma storedPolicy_put s p : storedPolicy (MkState (<[policyKey p := p]> (policies s)) (services s)) (policyKey p) = Some p.
Proof. unfold storedPolicy. cbn. by rewrite lookup_insert_eq; cbn; rewrite decide_True. Qed.

Lemma storedService_put s x : storedService (MkState (policies s) (<[serviceKey x := x]> (services s))) (serviceKey x) = Some x.
Proof. unfold storedService. cbn. by rewrite lookup_insert_eq; cbn; rewrite decide_True. Qed.

Lemma serves_policies : Serves policyKind policyKept handle storedPolicy.
Proof.
  split.
  - intros s kk p. unfold storedPolicy. destruct (policies s !! kk) as [q|]; cbn; [|done]. by case_decide; intros [= <-].
  - intros s kk. exists [Ev (E := K8s) (RGetNetworkPolicy kk) (found (storedPolicy s kk))]. cbn. by destruct (storedPolicy s kk).
  - intros s x _. cbn. do 3 eexists. split; [reflexivity|]. split; [apply storedPolicy_put|].
    split; [apply policyKept_refl | done].
  - intros s x _. cbn. do 3 eexists. split; [reflexivity|]. split; [apply storedPolicy_put|].
    split; [apply policyKept_refl | done].
Qed.

Lemma deletes_policies : Deletes policyKind handle storedPolicy.
Proof.
  intros s kk _. cbn. do 2 eexists. split; [reflexivity|]. unfold storedPolicy. cbn. by rewrite lookup_delete_eq.
Qed.

Lemma serves_services : Serves serviceKind serviceKept handle storedService.
Proof.
  split.
  - intros s kk p. unfold storedService. destruct (services s !! kk) as [q|]; cbn; [|done]. by case_decide; intros [= <-].
  - intros s kk. exists [Ev (E := K8s) (RGetService kk) (found (storedService s kk))]. cbn. by destruct (storedService s kk).
  - intros s x _. cbn. do 3 eexists. split; [reflexivity|]. split; [apply (storedService_put s (defaulted x))|].
    split; [apply defaulted_kept | done].
  - intros s x _. cbn. do 3 eexists. split; [reflexivity|]. split; [apply (storedService_put s (defaulted x))|].
    split; [apply defaulted_kept | done].
Qed.
End Store.

(** On the store, with nothing in it, the Service of a server is created and filled in. *)
Lemma ensure_converges_witness : exists s1 tr,
  execS Store.handle (Store.MkState ∅ ∅) (ensureService (OW := RefList.owning) (overridingServer "rcon-password") [mapEndpoints]) =
    (s1, tr, Ok tt) /\
  exists y, Store.storedService s1 ("", "s1") = Some y /\ seSessionAffinity (seSpec y) = "None" /\
    serviceKept (buildService (overridingServer "rcon-password") [mapEndpoints]) y.
Proof.
  destruct (ensure_converges (OW := RefList.owning) (OL := RefList.owning_laws) Store.handle Store.storedPolicy Store.storedService ""
    (overridingServer "rcon-password") [mapEndpoints] (Store.MkState ∅ ∅) Store.serves_policies Store.deletes_policies
    Store.serves_services) as [_ (s1 & tr & r & He & Hok & Herr & _)].
  assert (H1 : (execS Store.handle (Store.MkState ∅ ∅)
    (ensureService (OW := RefList.owning) (overridingServer "rcon-password") [mapEndpoints])).2 = Ok tt) by reflexivity.
  assert (H2 : seSessionAffinity (seSpec (default zeroService (Store.storedService (execS Store.handle (Store.MkState ∅ ∅)
    (ensureService (OW := RefList.owning) (overridingServer "rcon-password") [mapEndpoints])).1.1 ("", "s1")))) = "None") by (vm_compute; reflexivity).
  rewrite He in H1, H2. cbn [fst snd] in H1, H2. exists s1, tr. rewrite <- H1. split; [exact He|].
  destruct (Hok H1) as [(d & y & [= <-] & Hst & Hk & _) _].
  exists y. assert (Hst2 : Store.storedService s1 ("", "s1") = Some y) by exact Hst. rewrite Hst2 in H2 |- *. by split_and!.
Defined.

(** ** Requests *)

(** What the operations of a kind do not ask for the reconciliation does not ask for. *)
Lemma avoids_reconcileManaged {OW : Owning} {T} (k : Kind T) P optional server name shouldExist desired :
  (forall kk, avoids P (kdGet k kk)) -> (forall x, avoids P (kdCreate k x)) -> (forall x, avoids P (kdUpdate k x)) ->
  (forall kk, avoids P (kdDelete k kk)) -> avoids P (reconcileManaged k optional server name shouldExist desired).
Proof.
  intros Hg Hc Hu Hd. unfold reconcileManaged, createOwned, adoptAndUpdate, deleteExisting.
  apply avoids_bind; [done|]. intros [x|e].
  - destruct (negb shouldExist); [apply avoids_bind; [done|]; intros [?|?]; [done | by destruct (IsNotFound _)]|].
    destruct desired as [d|]; [|done]. destruct (setOwner k server x); [|done]. destruct (_ && _); [done|].
    apply avoids_bind; [done|]. intros ?. exact I.
  - destruct (IsNotFound e); [|by destruct (_ && _)]. destruct (negb shouldExist); [done|]. destruct desired as [d|]; [|done].
    destruct (setOwner k server d); [|done]. apply avoids_bind; [done|]. intros ?. exact I.
Qed.
