(* ===== verification/Routes.v ===== *)
(** * Gateway API routes (internal/controller/gateway_routes.go)

    The TCPRoute and UDPRoute of the game port and one HTTPRoute for each usable
    entry of the server's gateway configuration. *)

From S2P Require Import Prelude GoBase Decimals Strings GoLib Regex Api Objects Conditions Effects K8s Webhook Config Workload Network Ensure.
From S2P Require Import Window Url Resolve.
From Stdlib Require Import Ascii.

Open Scope Z_scope.

Definition conditionTypeHTTPRouteConfigValid : string := "HTTPRouteConfigValid".
Definition gcProtocolHTTPLower : string := "http".
Definition routeTypeLabel : string := "mc.k8s.lex.la/route-type".
Definition maxK8sNameLength : nat := 253.
Definition hashSuffixLength : nat := 9.

(** ** Builders *)

Definition convertParentRefs (refs : list GatewayParentRef) : list ParentReference :=
  map (fun ref => MkParentReference (gpName ref)
         (if negb (gpNamespace ref =? "")%string then Some (gpNamespace ref) else None)
         (if negb (gpSectionName ref =? "")%string then Some (gpSectionName ref) else None)) refs.

Definition buildBackendRef (serviceName : string) (port : Z) : BackendRef := MkBackendRef None None serviceName port.

(** [server.Spec.Gateway.ParentRefs], where the gateway is present. *)
Definition gatewayParentRefs (server : PaperMCServer) : list GatewayParentRef :=
  match ssGateway (srvSpec server) with Some gw => gwParentRefs gw | None => [] end.

Definition l4Suffix (udp : bool) : string := if udp then "-udp" else "-tcp".

(** [buildTCPRoute] and [buildUDPRoute] *)
Definition buildL4Route (udp : bool) (server : PaperMCServer) : L4Route :=
  MkL4Route
    (zeroObjectMeta <| Name := srvName server +:+ l4Suffix udp |> <| Namespace := srvNamespace server |>
       <| Labels := standardLabels (srvName server) "networking" |>)
    (MkL4RouteSpec (convertParentRefs (gatewayParentRefs server)) [[buildBackendRef (srvName server) minecraftPort]]).

Abbreviation RouteMap := (gmap string HTTPRoute).

Section build.
Context {DG : Digest}.

Definition truncateK8sName (name : string) : string :=
  if (String.length name <=? maxK8sNameLength)%nat then name
  else str_take (maxK8sNameLength - hashSuffixLength) name +:+ "-" +:+ str_take 8 (Sha256Hex name).

Definition findHTTPEndpoint (plugin : Plugin) (endpointName : string) : option PluginEndpoint :=
  List.find (fun ep => (peName ep =? endpointName)%string && (peProtocol ep =? protocolHTTP)%string)
    (psEndpoints (plgSpec plugin)).

Definition httpRouteName (server : PaperMCServer) (hr : PluginHTTPRoute) : string :=
  truncateK8sName (srvName server +:+ "-http-" +:+ hrPluginName hr +:+ "-" +:+ hrEndpointName hr).

Definition buildHTTPRoute (server : PaperMCServer) (hr : PluginHTTPRoute) (port : Z) : HTTPRoute :=
  MkHTTPRoute
    (zeroObjectMeta <| Name := httpRouteName server hr |> <| Namespace := srvNamespace server |>
       <| Labels := <[routeTypeLabel := gcProtocolHTTPLower]> (standardLabels (srvName server) "networking") |>)
    (MkHTTPRouteSpec (convertParentRefs (gatewayParentRefs server)) [hrHostname hr]
       [MkHTTPRouteRule (if negb (hrPathPrefix hr =? "")%string then [("PathPrefix", hrPathPrefix hr)] else [])
          [MkBackendRef (Some "") (Some "Service") (srvName server) port]]).

(** The matched plugins by name; the last one of a name counts. *)
Definition pluginMap (matchedPlugins : list Plugin) : gmap string Plugin :=
  foldl (fun m p => <[plgName p := p]> m) ∅ matchedPlugins.

(** One entry: the route that it asks for, or the issue with it. *)
Definition desiredStep (server : PaperMCServer) (plugins : gmap string Plugin) (acc : RouteMap * list string) (hr : PluginHTTPRoute)
  : RouteMap * list string :=
  let '(desired, issues) := acc in
  match plugins !! hrPluginName hr with
  | None => (desired, issues ++ ["plugin " +:+ quoted (hrPluginName hr) +:+ " not matched to this server"])
  | Some plugin =>
      match findHTTPEndpoint plugin (hrEndpointName hr) with
      | None => (desired, issues ++ ["plugin " +:+ quoted (hrPluginName hr) +:+ " has no HTTP endpoint " +:+ quoted (hrEndpointName hr)])
      | Some endpoint =>
          let route := buildHTTPRoute server hr (pePort endpoint) in
          (<[Name (htMeta route) := route]> desired, issues)
      end
  end.

Definition buildDesiredHTTPRoutes (server : PaperMCServer) (matchedPlugins : list Plugin) (gwEnabled : bool) : RouteMap * list string :=
  match ssGateway (srvSpec server) with
  | Some gw => if negb gwEnabled then (∅, []) else foldl (desiredStep server (pluginMap matchedPlugins)) (∅, []) (gwHTTPRoutes gw)
  | None => (∅, [])
  end.
End build.

Definition isOwnedBy (route : HTTPRoute) (server : PaperMCServer) : bool :=
  existsb (fun ref => (orUID ref =? UID (srvMeta server))%string) (OwnerReferences (htMeta route)).

(** ** TCP and UDP *)

Definition l4Kind (udp : bool) : Kind L4Route := {|
  kdGet kk := ask (RGetL4Route udp kk);
  kdCreate r := ask (RCreateL4Route udp r);
  kdUpdate r := ask (RUpdateL4Route udp r);
  kdDelete kk := ask (RDeleteL4Route udp kk);
  kdMeta := l4Meta;
  kdSetMeta m r := r <| l4Meta := m |>;
  kdSame existing desired :=
    bool_decide (l4Spec existing = l4Spec desired) && bool_decide (Labels (l4Meta existing) = Labels (l4Meta desired));
  kdTake existing desired :=
    existing <| l4Spec := l4Spec desired |> <| l4Meta := (l4Meta existing) <| Labels := Labels (l4Meta desired) |> |>;
  kdNoun := if udp then "UDPRoute" else "TCPRoute";
  kdOwner := if udp then " on UDPRoute" else " on TCPRoute"
|}.

(** The switch of the route kind in the gateway configuration. *)
Definition l4Wanted (udp : bool) (server : PaperMCServer) (gwEnabled : bool) : bool :=
  gwEnabled &&
  match ssGateway (srvSpec server) with
  | Some gw => match (if udp then gwUDPRoute gw else gwTCPRoute gw) with Some rc => rtEnabled rc | None => false end
  | None => false
  end.

Section effects.
Context {MR : MapRange} {DG : Digest} {OW : Owning} {MC : MetaConditions}.

(** [reconcileTCPRoute] and [reconcileUDPRoute] *)
Definition reconcileL4Route (udp : bool) (server : PaperMCServer) (gwEnabled : bool) : prog (result unit) :=
  reconcileManaged (l4Kind udp) true server (srvName server +:+ l4Suffix udp) (l4Wanted udp server gwEnabled)
    (Ok (buildL4Route udp server)).

(** ** HTTP *)

Definition setHTTPRouteCondition (server : PaperMCServer) (issues : list string) : prog PaperMCServer :=
  let configured := match ssGateway (srvSpec server) with Some gw => negb (length (gwHTTPRoutes gw) =? 0)%nat | None => false end in
  if negb configured then
    Ret (updStatus (fun st => st <| stConditions := RemoveStatusCondition (stConditions st) conditionTypeHTTPRouteConfigValid |>) server)
  else if (length issues =? 0)%nat then
    setCondition server conditionTypeHTTPRouteConfigValid ConditionTrue "AllRoutesValid"
      "All httpRoutes reference valid plugins and HTTP endpoints"
  else
    setCondition server conditionTypeHTTPRouteConfigValid ConditionFalse "InvalidRouteConfig"
      ("Invalid httpRoutes: " +:+ Join issues "; ").

(** The routes of the list that are the server's, by name; none if the kind is unknown. *)
Definition listOwnedHTTPRoutes (server : PaperMCServer) : prog (result (option RouteMap)) :=
  l <- ask (RListHTTPRoutes (srvNamespace server) {[routeTypeLabel := gcProtocolHTTPLower]}) ;;
  match l with
  | Err e => if IsNoMatchError e then Ret (Ok None) else Ret (Err (ErrWrap e "failed to list HTTPRoutes"))
  | Ok items =>
      Ret (Ok (Some (foldl (fun m route =>
        if bool_decide (Labels (htMeta route) !! routeTypeLabel = Some gcProtocolHTTPLower) && isOwnedBy route server
        then <[Name (htMeta route) := route]> m else m) ∅ items)))
  end.

Definition httpKind : Kind HTTPRoute := {|
  kdGet _ := Ret (Err notFound);  (* routes are listed *)
  kdCreate r := ask (RCreateHTTPRoute r);
  kdUpdate r := ask (RUpdateHTTPRoute r);
  kdDelete kk := ask (RDeleteHTTPRoute kk);
  kdMeta := htMeta;
  kdSetMeta m r := r <| htMeta := m |>;
  kdSame existing desired :=
    bool_decide (htSpec existing = htSpec desired) && bool_decide (Labels (htMeta existing) = Labels (htMeta desired));
  kdTake existing desired :=
    existing <| htSpec := htSpec desired |> <| htMeta := (htMeta existing) <| Labels := Labels (htMeta desired) |> |>;
  kdNoun := "HTTPRoute";
  kdOwner := " on HTTPRoute"
|}.

Definition updateHTTPRouteIfChanged (server : PaperMCServer) (existing desired : HTTPRoute) : prog (result unit) :=
  adoptAndUpdate httpKind server existing desired.

(** The loop over the desired routes; it stops at the first error. *)
Fixpoint applyRoutes (server : PaperMCServer) (existing : RouteMap) (desired : list (string * HTTPRoute)) : prog (result unit) :=
  match desired with
  | [] => Ret (Ok tt)
  | (name, desiredRoute) :: desired =>
      r <- (match existing !! name with
            | None => createOwned httpKind server desiredRoute
            | Some current => updateHTTPRouteIfChanged server current desiredRoute
            end) ;;
      match r with
      | Err e => Ret (Err e)
      | Ok _ => applyRoutes server existing desired
      end
  end.

Definition applyHTTPRouteChanges (server : PaperMCServer) (desired existing : RouteMap) : prog (result unit) :=
  applyRoutes server existing (mapRange desired).

(** The loop over the existing routes. *)
Fixpoint deleteRoutes (desired : RouteMap) (existing : list (string * HTTPRoute)) : prog (result unit) :=
  match existing with
  | [] => Ret (Ok tt)
  | (name, route) :: existing =>
      match desired !! name with
      | Some _ => deleteRoutes desired existing
      | None =>
          d <- ask (RDeleteHTTPRoute (Namespace (htMeta route), Name (htMeta route))) ;;
          match d with
          | Err e => if IsNotFound e then deleteRoutes desired existing
                     else Ret (Err (ErrWrap e "failed to delete orphaned HTTPRoute"))
          | Ok _ => deleteRoutes desired existing
          end
      end
  end.

Definition deleteOrphanedHTTPRoutes (desired existing : RouteMap) : prog (result unit) :=
  deleteRoutes desired (mapRange existing).

Definition reconcileHTTPRoutes (server : PaperMCServer) (matchedPlugins : list Plugin) (gwEnabled : bool)
  : prog (PaperMCServer * result unit) :=
  let '(desired, issues) := buildDesiredHTTPRoutes server matchedPlugins gwEnabled in
  server <- setHTTPRouteCondition server issues ;;
  l <- listOwnedHTTPRoutes server ;;
  match l with
  | Err e => Ret (server, Err e)
  | Ok None => Ret (server, Ok tt)
  | Ok (Some existingMap) =>
      a <- applyHTTPRouteChanges server desired existingMap ;;
      match a with
      | Err e => Ret (server, Err e)
      | Ok _ =>
          d <- deleteOrphanedHTTPRoutes desired existingMap ;;
          Ret (server, d)
      end
  end.

Definition ensureGatewayRoutes (server : PaperMCServer) (matchedPlugins : list Plugin) : prog (PaperMCServer * result unit) :=
  let enabled := match ssGateway (srvSpec server) with Some gw => gwEnabled gw | None => false end in
  t <- reconcileL4Route false server enabled ;;
  match t with
  | Err e => Ret (server, Err (ErrWrap e "failed to reconcile TCPRoute"))
  | Ok _ =>
      u <- reconcileL4Route true server enabled ;;
      match u with
      | Err e => Ret (server, Err (ErrWrap e "failed to reconcile UDPRoute"))
      | Ok _ =>
          x <- reconcileHTTPRoutes server matchedPlugins enabled ;;
          let '(server, h) := x in
          Ret (server, wrap "failed to reconcile HTTPRoutes" h)
      end
  end.
End effects.

(** ** HTTP routes: what a run does *)

Section http.
Context {MR : MapRange} {ML : MapRangeLaws} {DG : Digest} {OW : Owning} {MC : MetaConditions}.

(** The routes of the list that count. *)
Definition ownedRoute (server : PaperMCServer) (route : HTTPRoute) : bool :=
  bool_decide (Labels (htMeta route) !! routeTypeLabel = Some gcProtocolHTTPLower) && isOwnedBy route server.

Definition ownedRoutes (server : PaperMCServer) (items : list HTTPRoute) : RouteMap :=
  foldl (fun m route => if ownedRoute server route then <[Name (htMeta route) := route]> m else m) ∅ items.

Lemma ownedRoutes_spec server items n x : ownedRoutes server items !! n = Some x ->
  x ∈ items /\ Name (htMeta x) = n /\ ownedRoute server x = true.
Proof.
  unfold ownedRoutes. induction items as [|r l IH] using rev_ind; [done|]. rewrite foldl_app. cbn [foldl].
  destruct (ownedRoute server r) eqn:Ho.
  - destruct (decide (Name (htMeta r) = n)) as [<-|Hne].
    + rewrite lookup_insert_eq. intros [= <-]. split_and!; [|done|done]. apply elem_of_app. right. by left.
    + rewrite lookup_insert_ne by done. intros H. apply IH in H as (? & ? & ?). split_and!; try done. apply elem_of_app. by left.
  - intros H. apply IH in H as (? & ? & ?). split_and!; try done. apply elem_of_app. by left.
Qed.

(** The requests that a reconciliation of [existing] to [desired] may make: the creation
    of a desired route, owned by the server, an update of an owned route to what is
    desired under its name, and the deletion of an owned route that is not desired. *)
Definition allowed (server : PaperMCServer) (desired existing : RouteMap) (e : event) : Prop :=
  match reqOf e with
  | RCreateHTTPRoute r => exists n d m, desired !! n = Some d /\ existing !! n = None /\
      SetControllerReference (srvMeta server) (htMeta d) = Ok m /\ r = d <| htMeta := m |>
  | RUpdateHTTPRoute r => exists n d x m, desired !! n = Some d /\ existing !! n = Some x /\
      SetControllerReference (srvMeta server) (htMeta x) = Ok m /\ r = kdTake httpKind (x <| htMeta := m |>) d
  | RDeleteHTTPRoute kk => exists n x, existing !! n = Some x /\ desired !! n = None /\ kk = (Namespace (htMeta x), Name (htMeta x))
  | _ => False
  end.

(** A desired route was created, is as desired, or was updated. *)
Definition present (server : PaperMCServer) (existing : RouteMap) (n : string) (d : HTTPRoute) (tr : list event) : Prop :=
  match existing !! n with
  | None => exists r y, Ev (E := K8s) (RCreateHTTPRoute r) (Ok y) ∈ tr /\ Name (htMeta r) = Name (htMeta d) /\ htSpec r = htSpec d
  | Some x => kdSame httpKind x d = true \/
      exists r y, Ev (E := K8s) (RUpdateHTTPRoute r) (Ok y) ∈ tr /\ Name (htMeta r) = Name (htMeta x) /\ htSpec r = htSpec d
  end.

Definition gone (x : HTTPRoute) (tr : list event) : Prop :=
  exists y, Ev (E := K8s) (RDeleteHTTPRoute (Namespace (htMeta x), Name (htMeta x))) y ∈ tr /\
    (y = Ok tt \/ exists e, y = Err e /\ IsNotFound e = true).

Lemma present_mono server existing n d a b t :
  present server existing n d t -> present server existing n d (a ++ t ++ b).
Proof.
  unfold present. destruct (existing !! n); [intros [?|(r & y & H & ?)]; [by left|right] | intros (r & y & H & ?)];
    exists r, y; (split; [rewrite !elem_of_app; auto | done]).
Qed.

Context {OL : OwningLaws}.

Lemma applyRoute_runs server desired existing n d tr r :
  desired !! n = Some d ->
  runs (match existing !! n with
        | None => createOwned httpKind server d
        | Some current => updateHTTPRouteIfChanged server current d
        end) tr r ->
  Forall (allowed server desired existing) tr /\ (r = Ok tt -> present server existing n d tr).
Proof.
  intros Hd. unfold present, updateHTTPRouteIfChanged, createOwned, adoptAndUpdate, setOwner. destruct (existing !! n) as [x|] eqn:Hx.
  - cbn [kdMeta httpKind]. destruct (SetControllerReference (srvMeta server) (htMeta x)) as [m|e] eqn:Hm; cbn [kdSetMeta httpKind kdMeta].
    + destruct (SetController_Ok server _ _ Hm) as (Hs & _ & _).
      destruct (negb (negb _) && _) eqn:Hc.
      * intros [-> ->]. split; [constructor|]. intros _. left. apply andb_true_iff in Hc as [_ Hc]. cbn in Hc |- *. by rewrite Hs in Hc.
      * cbn [kdUpdate httpKind]. intros (y & tr' & -> & -> & ->). split.
        -- apply Forall_singleton. exists n, d, x, m. done.
        -- destruct y as [y|e]; [|done]. intros _. right. eexists _, y. split; [by left|]. cbn. by rewrite Hs.
    + intros [-> ->]. by split; [constructor|].
  - cbn [kdMeta httpKind]. destruct (SetControllerReference (srvMeta server) (htMeta d)) as [m|e] eqn:Hm; cbn [kdSetMeta httpKind kdCreate].
    + destruct (SetController_Ok server _ _ Hm) as (Hs & _ & _). intros (y & tr' & -> & -> & ->). split.
      * apply Forall_singleton. exists n, d, m. done.
      * destruct y as [y|e]; [|done]. intros _. eexists _, y. split; [by left|]. cbn. by rewrite Hs.
    + intros [-> ->]. by split; [constructor|].
Qed.

Lemma applyRoutes_runs server desired existing l tr r :
  (forall n d, (n, d) ∈ l -> desired !! n = Some d) ->
  runs (applyRoutes server existing l) tr r ->
  Forall (allowed server desired existing) tr /\ (r = Ok tt -> forall n d, (n, d) ∈ l -> present server existing n d tr).
Proof.
  revert tr. induction l as [|[n d] l IH]; intros tr Hl; cbn [applyRoutes].
  - intros [-> ->]. split; [constructor|]. by intros _ n d ?%not_elem_of_nil.
  - intros (tr1 & r1 & tr2 & -> & H1 & H2)%runs_bind.
    apply (applyRoute_runs _ desired) in H1 as [Ha Hp]; [|apply Hl; by left].
    destruct r1 as [[]|e].
    + destruct (IH tr2) as [Ha2 Hp2]; [intros; apply Hl; by right|done|]. split; [by apply Forall_app|].
      intros Hr n' d' [[= -> ->]|Hin]%elem_of_cons.
      * change (tr1 ++ tr2) with ([] ++ tr1 ++ tr2). by apply present_mono, Hp.
      * specialize (Hp2 Hr n' d' Hin). rewrite <- (app_nil_r tr2). by apply present_mono.
    + destruct H2 as [-> ->]. rewrite app_nil_r. by split.
Qed.

Lemma deleteRoutes_runs server desired existing l tr r :
  (forall n x, (n, x) ∈ l -> existing !! n = Some x) ->
  runs (deleteRoutes desired l) tr r ->
  Forall (allowed server desired existing) tr /\
  (r = Ok tt -> forall n x, (n, x) ∈ l -> desired !! n = None -> gone x tr).
Proof.
  revert tr. induction l as [|[n x] l IH]; intros tr Hl; cbn [deleteRoutes].
  - intros [-> ->]. split; [constructor|]. by intros _ n x ?%not_elem_of_nil.
  - assert (Hl' : forall n x, (n, x) ∈ l -> existing !! n = Some x) by (intros; apply Hl; by right).
    destruct (desired !! n) as [d|] eqn:Hd.
    + intros H. destruct (IH tr Hl' H) as [Ha Hg]. split; [done|]. intros Hr n' x' [[= -> ->]|Hin]%elem_of_cons Hn; [congruence | by eapply Hg].
    + intros (y & tr' & -> & H).
      assert (He : allowed server desired existing (Ev (E := K8s) (RDeleteHTTPRoute (Namespace (htMeta x), Name (htMeta x))) y)).
      { exists n, x. split_and!; [apply Hl; by left|done|done]. }
      assert (Hrest : runs (deleteRoutes desired l) tr' r -> (y = Ok tt \/ exists e, y = Err e /\ IsNotFound e = true) ->
        Forall (allowed server desired existing) (Ev (E := K8s) (RDeleteHTTPRoute (Namespace (htMeta x), Name (htMeta x))) y :: tr') /\
        (r = Ok tt -> forall n' x', (n', x') ∈ (n, x) :: l -> desired !! n' = None ->
          gone x' (Ev (E := K8s) (RDeleteHTTPRoute (Namespace (htMeta x), Name (htMeta x))) y :: tr'))).
      { intros Hrun Hy. destruct (IH tr' Hl' Hrun) as [Ha Hg]. split; [by constructor|].
        intros Hr n' x' [[= -> ->]|Hin]%elem_of_cons Hn; [exists y; by split; [left|]|].
        destruct (Hg Hr n' x' Hin Hn) as (z & Hz & Hz2). exists z. by split; [right|]. }
      destruct y as [[]|e].
      * apply Hrest; [done | by left].
      * cbn [bind] in H. destruct (IsNotFound e) eqn:He2 in H; [apply Hrest; [done | right; by exists e]|].
        destruct H as [-> ->]. split; [by constructor|done].
Qed.
End http.

Section desired.
Context {DG : Digest}.

(** An entry names a matched plugin and one of its HTTP endpoints. *)
Definition resolves (plugins : gmap string Plugin) (hr : PluginHTTPRoute) (port : Z) : Prop :=
  exists plugin ep, plugins !! hrPluginName hr = Some plugin /\ findHTTPEndpoint plugin (hrEndpointName hr) = Some ep /\ port = pePort ep.

Lemma desiredStep_spec server plugins l desired0 issues0 desired issues :
  foldl (desiredStep server plugins) (desired0, issues0) l = (desired, issues) ->
  (forall n d, desired !! n = Some d -> desired0 !! n = Some d \/
     exists hr port, hr ∈ l /\ resolves plugins hr port /\ d = buildHTTPRoute server hr port /\ n = httpRouteName server hr) /\
  (forall hr port, hr ∈ l -> resolves plugins hr port -> is_Some (desired !! httpRouteName server hr)) /\
  (forall n, is_Some (desired0 !! n) -> is_Some (desired !! n)).
Proof.
  revert desired0 issues0. induction l as [|hr l IH]; intros desired0 issues0; cbn [foldl].
  - intros [= -> ->]. split_and!; [by left| |done]. by intros hr port ?%not_elem_of_nil.
  - unfold desiredStep at 2. destruct (plugins !! hrPluginName hr) as [plugin|] eqn:Hp;
      [destruct (findHTTPEndpoint plugin (hrEndpointName hr)) as [ep|] eqn:He|].
    + intros H. apply IH in H as (H1 & H2 & H3). cbn [Name htMeta buildHTTPRoute] in *. split_and!.
      * intros n d Hd. destruct (H1 n d Hd) as [Hi|(hr' & port & Hin & Hr)]; [|right; exists hr', port; split; [by right|done]].
        change (<[httpRouteName server hr := buildHTTPRoute server hr (pePort ep)]> desired0 !! n = Some d) in Hi.
        apply lookup_insert_Some in Hi as [[<- <-]|[_ Hi]]; [right|by left].
        exists hr, (pePort ep). split_and!; [by left|by exists plugin, ep|done|done].
      * intros hr' port [->|Hin]%elem_of_cons Hr; [|by eapply H2]. apply H3.
        change (is_Some (<[httpRouteName server hr := buildHTTPRoute server hr (pePort ep)]> desired0 !! httpRouteName server hr)).
        rewrite lookup_insert_eq. by eexists.
      * intros n Hn. apply H3. change (is_Some (<[httpRouteName server hr := buildHTTPRoute server hr (pePort ep)]> desired0 !! n)).
        destruct (decide (httpRouteName server hr = n)) as [->|Hne]; [rewrite lookup_insert_eq; by eexists | by rewrite lookup_insert_ne].
    + intros H. apply IH in H as (H1 & H2 & H3). split_and!; [| |done].
      * intros n d Hd. destruct (H1 n d Hd) as [Hi|(hr' & port & Hin & Hr)]; [by left|right; exists hr', port; split; [by right|done]].
      * intros hr' port [->|Hin]%elem_of_cons Hr; [|by eapply H2]. destruct Hr as (q & ep & Hq & Hep & _). congruence.
    + intros H. apply IH in H as (H1 & H2 & H3). split_and!; [| |done].
      * intros n d Hd. destruct (H1 n d Hd) as [Hi|(hr' & port & Hin & Hr)]; [by left|right; exists hr', port; split; [by right|done]].
      * intros hr' port [->|Hin]%elem_of_cons Hr; [|by eapply H2]. destruct Hr as (q & ep & Hq & Hep & _). congruence.
Qed.

(** The entries of the gateway, if it is on. *)
Definition routeEntries (server : PaperMCServer) (enabled : bool) : list PluginHTTPRoute :=
  match ssGateway (srvSpec server) with Some gw => if enabled then gwHTTPRoutes gw else [] | None => [] end.

Lemma buildDesiredHTTPRoutes_spec server plugins enabled :
  (forall n d, (buildDesiredHTTPRoutes server plugins enabled).1 !! n = Some d -> exists hr port,
     hr ∈ routeEntries server enabled /\ resolves (pluginMap plugins) hr port /\ d = buildHTTPRoute server hr port /\
     n = httpRouteName server hr) /\
  (forall hr port, hr ∈ routeEntries server enabled -> resolves (pluginMap plugins) hr port ->
     is_Some ((buildDesiredHTTPRoutes server plugins enabled).1 !! httpRouteName server hr)).
Proof.
  unfold buildDesiredHTTPRoutes, routeEntries. destruct (ssGateway (srvSpec server)) as [gw|]; [destruct enabled|]; cbn [negb fst].
  - destruct (foldl _ _ _) as [desired issues] eqn:Hf. apply desiredStep_spec in Hf as (H1 & H2 & _). split; [|done].
    intros n d Hd. by destruct (H1 n d Hd) as [?|?].
  - split; [done|]. by intros hr port ?%not_elem_of_nil.
  - split; [done|]. by intros hr port ?%not_elem_of_nil.
Qed.
End desired.

(** ** Properties *)

Section exact.
Context {MR : MapRange} {ML : MapRangeLaws} {DG : Digest} {OW : Owning} {OL : OwningLaws} {MC : MetaConditions}.

Definition isRouteWrite (r : kreq) : bool :=
  match r with RCreateHTTPRoute _ | RUpdateHTTPRoute _ | RDeleteHTTPRoute _ => true | _ => false end.

Lemma setHTTPRouteCondition_same server issues tr s' : runs (setHTTPRouteCondition server issues) tr s' ->
  srvMeta s' = srvMeta server /\ srvSpec s' = srvSpec server /\ Forall (fun e => reqOf e = RNow) tr.
Proof.
  unfold setHTTPRouteCondition, setCondition. destruct (negb _); [intros [-> ->]; by split_and!|].
  destruct (_ =? _)%nat; intros (y & tr' & -> & -> & ->); split_and!; try done; by repeat constructor.
Qed.

Lemma allowed_same s s' desired existing e : srvMeta s' = srvMeta s -> allowed s' desired existing e -> allowed s desired existing e.
Proof. intros Hs. unfold allowed. by rewrite Hs. Qed.
(** The run after the condition is set. *)
Lemma reconcileHTTPRoutes_inv server plugins enabled tr s' r :
  runs (reconcileHTTPRoutes server plugins enabled) tr (s', r) ->
  exists now tr', tr = now ++ tr' /\ Forall (fun e => reqOf e = RNow) now /\
    srvMeta s' = srvMeta server /\ srvSpec s' = srvSpec server /\
    exists l tr2, tr' = Ev (E := K8s) (RListHTTPRoutes (srvNamespace server) {[routeTypeLabel := gcProtocolHTTPLower]}) l :: tr2 /\
      match l with
      | Err e => tr2 = [] /\ (isOk r = IsNoMatchError e)
      | Ok items =>
          let desired := (buildDesiredHTTPRoutes server plugins enabled).1 in
          let existing := ownedRoutes server items in
          exists a b ra, tr2 = a ++ b /\ runs (applyRoutes s' existing (mapRange desired)) a ra /\
            match ra with
            | Err e => b = [] /\ r = Err e
            | Ok _ => runs (deleteRoutes desired (mapRange existing)) b r
            end
      end.
Proof.
  unfold reconcileHTTPRoutes. destruct (buildDesiredHTTPRoutes server plugins enabled) as [desired issues]. cbn [fst].
  intros (now & s1 & tr' & -> & Hc & H)%runs_bind. apply setHTTPRouteCondition_same in Hc as (Hm & Hs & Hq).
  apply runs_bind in H as (t1 & l & t2 & -> & Hl & H). unfold listOwnedHTTPRoutes in Hl.
  destruct Hl as (y & t3 & -> & Hl). assert (Hns : srvNamespace s1 = srvNamespace server) by (unfold srvNamespace; by rewrite Hm).
  exists now, ((Ev (E := K8s) (RListHTTPRoutes (srvNamespace s1) {[routeTypeLabel := gcProtocolHTTPLower]}) y :: t3) ++ t2).
  destruct y as [items|e].
  - destruct Hl as [-> ->]. apply runs_bind in H as (a & ra & b & -> & Ha & Hb).
    assert (He : ownedRoutes s1 items = ownedRoutes server items) by (unfold ownedRoutes, ownedRoute, isOwnedBy; by rewrite Hm).
    fold (ownedRoutes s1 items) in Ha, Hb. unfold ownedRoutes in He.
    destruct ra as [[]|e].
    + apply runs_bind in Hb as (b1 & rd & b2 & -> & Hb & Hret). destruct Hret as [-> [= -> ->]]. rewrite app_nil_r.
      split_and!; [done|done|done|done|]. eexists _, (a ++ b1). rewrite Hns. split; [reflexivity|]. exists a, b1, (Ok tt).
      split_and!; [done| |]; unfold applyHTTPRouteChanges, deleteOrphanedHTTPRoutes in *.
      * exact (eq_ind _ (fun m => runs (applyRoutes s1 m (mapRange desired)) a (Ok tt)) Ha _ He).
      * exact (eq_ind _ (fun m => runs (deleteRoutes desired (mapRange m)) b1 rd) Hb _ He).
    + destruct Hb as [-> [= -> ->]]. rewrite app_nil_r. split_and!; [done|done|done|done|].
      eexists _, a. rewrite Hns. split; [reflexivity|]. exists a, [], (Err e). rewrite app_nil_r. split_and!; [done| |done|done].
      exact (eq_ind _ (fun m => runs (applyRoutes s1 m (mapRange desired)) a (Err e)) Ha _ He).
  - cbn [bind] in Hl. destruct (IsNoMatchError e) eqn:He; rewrite ?He in Hl; destruct Hl as [-> ->]; destruct H as [-> [= -> ->]];
      (split_and!; [done|done|done|done|]); eexists _, []; rewrite Hns; (split; [reflexivity|]); done.
Qed.

End exact.

(** C8: HTTP routes are brought exactly to the desired set: the routes of the entries that
    name a matched plugin and one of its HTTP endpoints.  Whatever happens, a run only
    creates desired routes, updates owned ones to what is desired under their name and
    deletes owned ones that are not desired; after success every desired route is there
    and every other owned route is gone. *)
Theorem reconcileHTTPRoutes_exact {MR : MapRange} {ML : MapRangeLaws} {DG : Digest} {OW : Owning} {OL : OwningLaws}
  {MC : MetaConditions} server plugins enabled tr s' r :
  runs (reconcileHTTPRoutes server plugins enabled) tr (s', r) ->
  let desired := (buildDesiredHTTPRoutes server plugins enabled).1 in
  (forall n d, desired !! n = Some d -> exists hr port,
     hr ∈ routeEntries server enabled /\ resolves (pluginMap plugins) hr port /\ d = buildHTTPRoute server hr port /\
     n = httpRouteName server hr) /\
  (forall hr port, hr ∈ routeEntries server enabled -> resolves (pluginMap plugins) hr port ->
     is_Some (desired !! httpRouteName server hr)) /\
  exists l, Ev (E := K8s) (RListHTTPRoutes (srvNamespace server) {[routeTypeLabel := gcProtocolHTTPLower]}) l ∈ tr /\
    match l with
    | Err e => Forall (fun e => isRouteWrite (reqOf e) = false) tr /\ isOk r = IsNoMatchError e
    | Ok items =>
        let existing := ownedRoutes server items in
        Forall (fun e => isRouteWrite (reqOf e) = true -> allowed server desired existing e) tr /\
        (r = Ok tt -> (forall n d, desired !! n = Some d -> present server existing n d tr) /\
           forall n x, existing !! n = Some x -> desired !! n = None -> gone x tr)
    end.
Proof.
  intros Hrun desired. destruct (buildDesiredHTTPRoutes_spec server plugins enabled) as [Hsound Hcomplete].
  split_and!; [done|done|].
  apply reconcileHTTPRoutes_inv in Hrun as (now & tr' & -> & Hq & Hm & Hsp & l & tr2 & -> & Hl).
  exists l. split; [apply elem_of_app; right; by left|].
  assert (Hnow : Forall (fun e => isRouteWrite (reqOf e) = false) now).
  { eapply Forall_impl; [exact Hq|]. intros e He. cbn in He. by rewrite He. }
  destruct l as [items|e].
  - destruct Hl as (a & b & ra & -> & Ha & Hb). fold desired in Ha, Hb. set (existing := ownedRoutes server items) in *.
    apply (applyRoutes_runs _ desired) in Ha as [Ha1 Ha2]; [|by intros n d Hd; apply elem_of_mapRange].
    assert (Hfront : forall t, Forall (allowed server desired existing) t ->
      Forall (fun e => isRouteWrite (reqOf e) = true -> allowed server desired existing e)
        (now ++ Ev (E := K8s) (RListHTTPRoutes (srvNamespace server) {[routeTypeLabel := gcProtocolHTTPLower]}) (Ok items) :: t)).
    { intros t Ht. apply Forall_app. split; [eapply Forall_impl; [exact Hnow|]; intros e He He2; cbn in He; congruence|].
      constructor; [done|]. eapply Forall_impl; [exact Ht|]. done. }
    assert (Ha3 : Forall (allowed server desired existing) a).
    { eapply Forall_impl; [exact Ha1|]. intros e. by apply allowed_same. }
    destruct ra as [[]|e].
    + apply (deleteRoutes_runs server _ existing) in Hb as [Hb1 Hb2]; [|by intros n x Hx; apply elem_of_mapRange].
      split; [apply Hfront; by apply Forall_app|]. intros Hr. split.
      * intros n d Hd. specialize (Ha2 eq_refl n d ltac:(by apply elem_of_mapRange)).
        replace (now ++ _) with ((now ++ [Ev (E := K8s) (RListHTTPRoutes (srvNamespace server) {[routeTypeLabel := gcProtocolHTTPLower]}) (Ok items)]) ++ a ++ b)
          by by rewrite <- app_assoc.
        by apply present_mono.
      * intros n x Hx Hn. destruct (Hb2 Hr n x ltac:(by apply elem_of_mapRange) Hn) as (y & Hy & Hy2).
        exists y. split; [|done]. rewrite elem_of_app. right. right. apply elem_of_app. by right.
    + destruct Hb as [-> ->]. rewrite app_nil_r. split; [by apply Hfront|done].
  - destruct Hl as [-> Hr]. split; [|done]. apply Forall_app. split; [done|]. by constructor.
Qed.

(** ** Names of routes *)

(** A server with routes for two endpoints. *)
Definition routedServer (routes : list PluginHTTPRoute) : PaperMCServer :=
  let s := overridingServer "rcon-password" in
  s <| srvMeta := (srvMeta s) <| UID := "u1" |> |>
    <| srvSpec := (srvSpec s) <| ssGateway := Some (MkGatewayConfig true [MkGatewayParentRef "gw" "" ""] None None routes) |> |>.

Definition webPlugin (name endpoint : string) (port : Z) : Plugin :=
  let p := mapPlugin "BlueMap" in
  p <| plgMeta := (plgMeta p) <| Name := name |> |>
    <| plgSpec := (plgSpec p) <| psEndpoints := [MkPluginEndpoint endpoint port protocolHTTP] |> |>.

(** The name of a route does not determine its plugin and endpoint: an admitted server
    can ask for routes to two endpoints of admitted plugins that get the same name, and
    then one of them is missing without any issue being reported. *)
Theorem httpRouteName_collision : exists server plugins first second,
  ValidServer (CR := Daily.cron) server /\ Forall (ValidPlugin (UR := SplitURLs.simpleURLs)) plugins /\
  routeEntries server true = [first; second] /\
  resolves (pluginMap plugins) first 8100 /\ resolves (pluginMap plugins) second 8200 /\
  buildDesiredHTTPRoutes (DG := LengthDigest.digest) server plugins true =
    ({[httpRouteName (DG := LengthDigest.digest) server first := buildHTTPRoute (DG := LengthDigest.digest) server second 8200]}, []).
Proof.
  set (first := MkPluginHTTPRoute "map" "web-ui" "a.example.com" "").
  set (second := MkPluginHTTPRoute "map-web" "ui" "b.example.com" "").
  exists (routedServer [first; second]), [webPlugin "map" "web-ui" 8100; webPlugin "map-web" "ui" 8200], first, second.
  split_and!.
  - by apply validServer_iff.
  - rewrite !Forall_cons. split_and!; try apply validPlugin_iff; done.
  - done.
  - do 2 eexists. split_and!; [vm_compute; reflexivity..|reflexivity].
  - do 2 eexists. split_and!; [vm_compute; reflexivity..|reflexivity].
  - vm_compute. reflexivity.
Qed.

(** ** Witness *)

Definition staleRoute : HTTPRoute :=
  MkHTTPRoute (zeroObjectMeta <| Name := "s1-http-old" |> <| Labels := {[routeTypeLabel := gcProtocolHTTPLower]} |>
                 <| OwnerReferences := [MkOwnerReference "u1" true] |>) zeroHTTPRouteSpec.

Definition staleEnv (_ : list (event (E := K8s))) (r : kreq) : kans r :=
  match r return kans r with
  | RListHTTPRoutes _ _ => Ok [staleRoute]
  | r => idle r
  end.

Definition routeRun :=
  exec (E := K8s) staleEnv (reconcileHTTPRoutes (MR := InOrder.range) (DG := LengthDigest.digest) (OW := RefList.owning)
    (MC := ListConditions.conditions) (routedServer [MkPluginHTTPRoute "map" "web" "map.example.com" "/"]) [mapEndpoints] true) [].

Lemma reconcileHTTPRoutes_exact_witness : routeRun.2.2 = Ok tt /\ gone staleRoute routeRun.1.
Proof.
  assert (Hr : routeRun.2.2 = Ok tt) by (vm_compute; reflexivity). split; [exact Hr|].
  pose proof (exec_runs (E := K8s) staleEnv (reconcileHTTPRoutes (MR := InOrder.range) (DG := LengthDigest.digest) (OW := RefList.owning)
    (MC := ListConditions.conditions) (routedServer [MkPluginHTTPRoute "map" "web" "map.example.com" "/"]) [mapEndpoints] true) []) as Hrun.
  fold routeRun in Hrun. rewrite (surjective_pairing routeRun.2) in Hrun.
  destruct (reconcileHTTPRoutes_exact (ML := InOrder.range_laws) (OL := RefList.owning_laws) _ _ _ _ _ _ Hrun) as (_ & _ & l & Hl & H).
  assert (l = Ok [staleRoute]) as ->.
  { apply (exec_answers (E := K8s)) in Hl as [h Hl]. exact Hl. }
  destruct H as [_ H]. destruct (H Hr) as [_ Hg]. apply (Hg "s1-http-old"); vm_compute; reflexivity.
Defined.
