(* ===== verification/ServerCtl.v ===== *)
(** * Reconciler of a server (internal/controller/papermcserver_controller.go)

    The ConfigMap of the injection script, the StatefulSet, the order in which the
    parts of the infrastructure are ensured, and the reconciler around them.  Functions
    that change the status of the server take the server and return it. *)

From S2P Require Import Prelude GoBase Decimals Strings GoLib Regex Semver VersionPkg Api Objects Plugins Solver Conditions Effects K8s.
From S2P Require Import Selector Images Window Url StatusEq Webhook Config Workload Network Ensure Routes Resolve.
From Stdlib Require Import Sorting.Sorted.
From stdpp Require sorting.

Open Scope Z_scope.

Definition conditionTypeConfigInjectionReady : string := "ConfigInjectionReady".
Definition conditionTypeServerReady : string := "Ready".
Definition reasonServerReconcileSuccess : string := "ReconcileSuccess".
Definition reasonServerReconcileError : string := "ReconcileError".
Definition reasonStatefulSetCreated : string := "StatefulSetCreated".

(** ** Volumes *)

Definition isOperatorManagedVolume (name : string) : bool :=
  (name =? gcVolumeData)%string || (name =? gcConfigScript)%string || HasPrefix name "cm-".

(** Volumes by name; the last one of a name counts. *)
Definition volumeMap (l : list Volume) : gmap string Volume := foldl (fun m v => <[voName v := v]> m) ∅ l.

(** The first existing volume of the name is not the desired one, or there is none. *)
Definition volumeDiffers (existing : list Volume) (desired : string * Volume) : bool :=
  match List.find (fun ev => (voName ev =? desired.1)%string) existing with
  | Some ev => negb (bool_decide (ev = desired.2))
  | None => true
  end.

Definition volumesChanged {MR : MapRange} (existing desired : list Volume) : bool :=
  let desiredMap := volumeMap desired in
  existsb (volumeDiffers existing) (mapRange desiredMap) ||
  existsb (fun ev => isOperatorManagedVolume (voName ev) && negb (bool_decide (is_Some (desiredMap !! voName ev)))) existing.

Section server.
Context {MR : MapRange} {GS : GoSort} {DG : Digest} {OW : Owning} {MC : MetaConditions}.

(** ** ConfigMaps *)

(** A ConfigMap or key that is missing, as the condition lists it. *)
Definition missingRef (namespace : string) (ref : ConfigMapKeyRef) : prog (list string) :=
  let text := ckName ref +:+ "/" +:+ ckKey ref in
  g <- ask (RGetConfigMap (namespace, ckName ref)) ;;
  Ret (match g with
       | Err e => if IsNotFound e then [text] else [text +:+ " (check failed)"]
       | Ok cm =>
           if bool_decide (is_Some (cmData cm !! ckKey ref)) || bool_decide (ckKey ref ∈ cmBinaryKeys cm) then []
           else [text +:+ " (key not found)"]
       end).

Definition validateReferencedConfigMaps (server : PaperMCServer) (matchedPlugins : list Plugin) : prog PaperMCServer :=
  let refs := collectReferencedConfigMaps server matchedPlugins in
  if (length refs =? 0)%nat then Ret server
  else
    missing <- foldP (fun missing ref => m <- missingRef (srvNamespace server) ref ;; Ret (missing ++ m)) [] refs ;;
    if (0 <? length missing)%nat then
      setCondition server conditionTypeConfigInjectionReady ConditionFalse "ConfigMapsMissing"
        ("Referenced ConfigMaps not found: " +:+ Join missing ", ")
    else
      setCondition server conditionTypeConfigInjectionReady ConditionTrue "ConfigMapsReady"
        "All referenced ConfigMaps are available".

Definition scriptConfigMapKey (server : PaperMCServer) : key := (srvNamespace server, srvName server +:+ "-config-script").

Definition deleteOrphanedConfigScriptConfigMap (server : PaperMCServer) : prog (result unit) :=
  g <- ask (RGetConfigMap (scriptConfigMapKey server)) ;;
  match g with
  | Ok existing =>
      d <- ask (RDeleteConfigMap (Namespace (cmMeta existing), Name (cmMeta existing))) ;;
      match d with
      | Err e => if IsNotFound e then Ret (Ok tt) else Ret (Err (ErrWrap e "failed to delete orphaned config script configmap"))
      | Ok _ => Ret (Ok tt)
      end
  | Err e => if IsNotFound e then Ret (Ok tt) else Ret (Err (ErrWrap e "failed to check for orphaned config script configmap"))
  end.

(** The script ConfigMap with its owner: created, or its data replaced if the script differs. *)
Definition putScriptConfigMap (scriptCM : ConfigMap) : prog (result unit) :=
  g <- ask (RGetConfigMap (Namespace (cmMeta scriptCM), Name (cmMeta scriptCM))) ;;
  match g with
  | Err e =>
      if negb (IsNotFound e) then Ret (Err (ErrWrap e "failed to get config script configmap"))
      else
        c <- ask (RCreateConfigMap scriptCM) ;;
        Ret (wrap "failed to create config script configmap" (asUnit c))
  | Ok existing =>
      if negb (default "" (cmData existing !! configScriptKey) =? default "" (cmData scriptCM !! configScriptKey))%string then
        u <- ask (RUpdateConfigMap (existing <| cmData := cmData scriptCM |>)) ;;
        Ret (wrap "failed to update config script configmap" (asUnit u))
      else Ret (Ok tt)
  end.

Definition ensureConfigScriptConfigMap (server : PaperMCServer) (matchedPlugins : list Plugin) : prog (PaperMCServer * result unit) :=
  match buildConfigInjection server matchedPlugins with
  | None =>
      let server := updStatus (fun st => st <| stConditions :=
                      RemoveStatusCondition (stConditions st) conditionTypeConfigInjectionReady |>) server in
      d <- deleteOrphanedConfigScriptConfigMap server ;;
      Ret (server, d)
  | Some (_, _, scriptCM) =>
      server <- validateReferencedConfigMaps server matchedPlugins ;;
      match SetControllerReference (srvMeta server) (cmMeta scriptCM) with
      | Err e => Ret (server, Err (ErrWrap e "failed to set owner reference on config script configmap"))
      | Ok m =>
          p <- putScriptConfigMap (scriptCM <| cmMeta := m |>) ;;
          Ret (server, p)
      end
  end.

(** ** StatefulSet *)

(** The image of the first container; the API server refuses a StatefulSet without one. *)
Definition firstImage (sts : StatefulSet) : string :=
  match ptContainers (stsTemplate sts) with c :: _ => ctImage c | [] => "" end.

(** The three comparisons of the pod templates. *)
Definition templateChanged (existing desired : StatefulSet) : bool :=
  negb (bool_decide (ptInitContainers (stsTemplate existing) = ptInitContainers (stsTemplate desired))) ||
  volumesChanged (ptVolumes (stsTemplate existing)) (ptVolumes (stsTemplate desired)) ||
  negb (firstImage existing =? firstImage desired)%string.

Definition ensureStatefulSet (server : PaperMCServer) (matchedPlugins : list Plugin) : prog (PaperMCServer * result StatefulSet) :=
  g <- ask (RGetSts (srvNamespace server, srvName server)) ;;
  match g with
  | Ok statefulSet =>
      match buildStatefulSet server matchedPlugins with
      | Err e => Ret (server, Err (ErrWrap e "failed to build desired statefulset for comparison"))
      | Ok desired =>
          if templateChanged statefulSet desired then
            u <- ask (RUpdateSts (statefulSet <| stsTemplate := stsTemplate desired |>)) ;;
            match u with
            | Err e => Ret (server, Err (ErrWrap e "failed to update statefulset"))
            | Ok statefulSet => Ret (server, Ok statefulSet)
            end
          else Ret (server, Ok statefulSet)
      end
  | Err e =>
      if negb (IsNotFound e) then Ret (server, Err (ErrWrap e "failed to get statefulset"))
      else
        match buildStatefulSet server matchedPlugins with
        | Err e => Ret (server, Err (ErrWrap e "failed to build statefulset"))
        | Ok newStatefulSet =>
            match SetControllerReference (srvMeta server) (stsMeta newStatefulSet) with
            | Err e => Ret (server, Err (ErrWrap e "failed to set owner reference"))
            | Ok m =>
                c <- ask (RCreateSts (newStatefulSet <| stsMeta := m |>)) ;;
                match c with
                | Err e => Ret (server, Err (ErrWrap e "failed to create statefulset"))
                | Ok newStatefulSet =>
                    server <- setCondition server conditionTypeStatefulSetReady ConditionFalse reasonStatefulSetCreated
                                "StatefulSet created, waiting for ready" ;;
                    Ret (server, Ok newStatefulSet)
                end
            end
        end
  end.

(** ** Infrastructure *)

Definition ensureInfrastructure (operatorNamespace : string) (server : PaperMCServer) (matchedPlugins : list Plugin)
  : prog (PaperMCServer * result StatefulSet) :=
  x <- ensureConfigScriptConfigMap server matchedPlugins ;;
  let '(server, r) := x in
  match r with
  | Err e => Ret (server, Err (ErrWrap e "failed to ensure config script configmap"))
  | Ok _ =>
      x <- ensureStatefulSet server matchedPlugins ;;
      let '(server, r) := x in
      match r with
      | Err e => Ret (server, Err (ErrWrap e "failed to ensure statefulset"))
      | Ok statefulSet =>
          r <- ensureService server matchedPlugins ;;
          match r with
          | Err e => Ret (server, Err (ErrWrap e "failed to ensure service"))
          | Ok _ =>
              x <- ensureGatewayRoutes server matchedPlugins ;;
              let '(server, r) := x in
              match r with
              | Err e => Ret (server, Err (ErrWrap e "failed to ensure gateway routes"))
              | Ok _ =>
                  r <- ensureNetworkPolicy operatorNamespace server matchedPlugins ;;
                  match r with
                  | Err e => Ret (server, Err (ErrWrap e "failed to ensure network policy"))
                  | Ok _ => Ret (server, Ok statefulSet)
                  end
              end
          end
      end
  end.

(** ** Reconciliation *)

Context {SV : Semver} {SO : Solver} {LS : LabelSelectors}.

Definition doReconcile (operatorNamespace : string) (server : PaperMCServer) : prog (PaperMCServer * result Duration) :=
  m <- findMatchedPlugins server ;;
  match m with
  | Err e => Ret (server, Err (ErrWrap e "failed to find matched plugins"))
  | Ok matchedPlugins =>
      x <- updateDesiredVersion server matchedPlugins ;;
      let '(server, r) := x in
      match r with
      | Err e => Ret (server, Err e)
      | Ok _ =>
          if (stDesiredVersion (srvStatus server) =? "")%string || (stDesiredBuild (srvStatus server) =? 0) then
            Ret (server, Err (ErrNew "desired version not resolved - cannot create infrastructure"))
          else
            x <- ensureInfrastructure operatorNamespace server matchedPlugins ;;
            let '(server, r) := x in
            match r with
            | Err e => Ret (server, Err e)
            | Ok statefulSet =>
                server <- updateServerStatus server (Some statefulSet) matchedPlugins ;;
                Ret (server, Ok (15 * Minute))
            end
      end
  end.

(** The conditions of the result, before the status is written. *)
Definition setReadyCondition {A} (server : PaperMCServer) (r : result A) : prog PaperMCServer :=
  match r with
  | Err e => setCondition server conditionTypeServerReady ConditionFalse reasonServerReconcileError (errString e)
  | Ok _ => setCondition server conditionTypeServerReady ConditionTrue reasonServerReconcileSuccess "Server reconciled successfully"
  end.

Definition configRequeue : Duration := 30 * Second.

(** The result, sooner if the ConfigMaps of the injection are missing. *)
Definition requeueResult (server : PaperMCServer) (after : Duration) : result Duration :=
  match FindStatusCondition (stConditions (srvStatus server)) conditionTypeConfigInjectionReady with
  | Some cond =>
      if (cdStatus cond =? ConditionFalse)%string then
        if (0 <? after) && (after <? configRequeue) then Ok after else Ok configRequeue
      else Ok after
  | None => Ok after
  end.

Definition Reconcile (operatorNamespace : string) (k : key) : prog (result Duration) :=
  g <- ask (RGetServer k) ;;
  match g with
  | Err e => if IsNotFound e then Ret (Ok 0) else Ret (Err (ErrWrap e "failed to get server"))
  | Ok server =>
      let originalStatus := srvStatus server in
      x <- doReconcile operatorNamespace server ;;
      let '(server, r) := x in
      server <- setReadyCondition server r ;;
      if negb (isOk r) || negb (serverStatusEqual (srvStatus server) originalStatus) then
        u <- ask (RStatusServer server) ;;
        Ret (match r, u with
             | Err e, _ => Err e
             | Ok _, Err e => Err e
             | Ok after, Ok server => requeueResult server after
             end)
      else Ret (match r with Err e => Err e | Ok after => requeueResult server after end)
  end.

(** ** Watch *)

Definition findServersForPlugin (plugin : Plugin) : prog (list key) :=
  l <- FindMatchingServers (plgNamespace plugin) (psInstanceSelector (plgSpec plugin)) ;;
  Ret (match l with
       | Ok servers => map (fun server => (srvNamespace server, srvName server)) servers
       | Err _ => []
       end).
End server.

(** ** Phases *)

(** The part of the infrastructure that a request belongs to, in the order in which the
    parts are ensured; the write of the status comes last. *)
Definition phase (r : kreq) : option nat :=
  match r with
  | RGetConfigMap _ | RCreateConfigMap _ | RUpdateConfigMap _ | RDeleteConfigMap _ => Some 1%nat
  | RGetSts _ | RCreateSts _ | RUpdateSts _ => Some 2%nat
  | RGetService _ | RCreateService _ | RUpdateService _ => Some 3%nat
  | RGetL4Route false _ | RCreateL4Route false _ | RUpdateL4Route false _ | RDeleteL4Route false _ => Some 4%nat
  | RGetL4Route true _ | RCreateL4Route true _ | RUpdateL4Route true _ | RDeleteL4Route true _ => Some 5%nat
  | RListHTTPRoutes _ _ | RCreateHTTPRoute _ | RUpdateHTTPRoute _ | RDeleteHTTPRoute _ => Some 6%nat
  | RGetNetworkPolicy _ | RCreateNetworkPolicy _ | RUpdateNetworkPolicy _ | RDeleteNetworkPolicy _ => Some 7%nat
  | RStatusServer _ => Some 8%nat
  | _ => None
  end.

(** The request belongs to another part than [n]. *)
Definition otherPhase (n : nat) (r : kreq) : bool := match phase r with Some m => negb (m =? n)%nat | None => false end.

Definition phases (tr : list (event (E := K8s))) : list nat := omap (fun e => phase (reqOf e)) tr.

Lemma phases_app a b : phases (a ++ b) = phases a ++ phases b.
Proof. apply omap_app. Qed.

Lemma onlyPhase_runs {A} n (p : prog A) tr a : avoids (otherPhase n) p -> runs p tr a -> Forall (fun m => m = n) (phases tr).
Proof.
  intros Ha Hr. pose proof (avoids_runs _ _ _ _ Ha Hr) as Hf. apply Forall_forall. intros m Hm.
  unfold phases in Hm. apply list_elem_of_omap in Hm as (e & He & Hp). rewrite Forall_forall in Hf. specialize (Hf e He).
  unfold otherPhase in Hf. unfold reqOf in Hp. rewrite Hp in Hf. apply negb_false_iff, Nat.eqb_eq in Hf. done.
Qed.

Section requests.
Context {MR : MapRange} {GS : GoSort} {DG : Digest} {OW : Owning} {MC : MetaConditions}.

Lemma setCondition_avoids server t s r m P : P RNow = false -> avoids P (setCondition server t s r m).
Proof. intros H. unfold setCondition, ask. by split. Qed.

Lemma ensureConfig_phase server plugins : avoids (otherPhase 1) (ensureConfigScriptConfigMap server plugins).
Proof.
  unfold ensureConfigScriptConfigMap, deleteOrphanedConfigScriptConfigMap, putScriptConfigMap, ask.
  destruct (buildConfigInjection server plugins) as [[[? ?] cm]|]; [|avoids_tac].
  apply avoids_bind.
  - unfold validateReferencedConfigMaps. destruct (_ =? _)%nat; [done|]. apply avoids_bind.
    + apply avoids_foldP. intros s x. unfold missingRef, ask. avoids_tac.
    + intros missing. destruct (_ <? _)%nat; by apply setCondition_avoids.
  - intros s. destruct (SetControllerReference _ _); avoids_tac.
Qed.

Lemma ensureStatefulSet_phase server plugins : avoids (otherPhase 2) (ensureStatefulSet server plugins).
Proof. unfold ensureStatefulSet, setCondition, ask. avoids_tac. Qed.

Lemma ensureService_phase server plugins : avoids (otherPhase 3) (ensureService server plugins).
Proof. apply avoids_reconcileManaged; intros; unfold serviceKind, ask; cbn; try done; by split. Qed.

Lemma reconcileL4_phase (udp : bool) server enabled : avoids (otherPhase (if udp then 5 else 4)) (reconcileL4Route udp server enabled).
Proof. destruct udp; apply avoids_reconcileManaged; intros; unfold l4Kind, ask; cbn; by split. Qed.

Lemma ensurePolicy_phase ns server plugins : avoids (otherPhase 7) (ensureNetworkPolicy ns server plugins).
Proof. apply avoids_reconcileManaged; intros; unfold policyKind, ask; cbn; by split. Qed.

Lemma applyRoutes_phase server existing l : avoids (otherPhase 6) (applyRoutes server existing l).
Proof.
  induction l as [|[n d] l IH]; [done|]. cbn [applyRoutes]. apply avoids_bind.
  - destruct (existing !! n); unfold updateHTTPRouteIfChanged, adoptAndUpdate, createOwned, httpKind, ask; cbn; avoids_tac.
  - intros [?|?]; done.
Qed.

Lemma deleteRoutes_phase desired l : avoids (otherPhase 6) (deleteRoutes desired l).
Proof.
  induction l as [|[n d] l IH]; [done|]. cbn [deleteRoutes]. destruct (desired !! n); [done|].
  apply avoids_bind; [by split|]. intros [?|e]; [done|]. by destruct (IsNotFound e).
Qed.

Lemma reconcileHTTPRoutes_phase server plugins enabled : avoids (otherPhase 6) (reconcileHTTPRoutes server plugins enabled).
Proof.
  unfold reconcileHTTPRoutes. destruct (buildDesiredHTTPRoutes server plugins enabled) as [desired issues].
  apply avoids_bind; [unfold setHTTPRouteCondition, setCondition, ask; avoids_tac|]. intros s.
  apply avoids_bind; [unfold listOwnedHTTPRoutes, ask; avoids_tac|]. intros [[existing|]|e]; [|done|done].
  apply avoids_bind; [apply applyRoutes_phase|]. intros [?|?]; [|done].
  apply avoids_bind; [apply deleteRoutes_phase | by intros].
Qed.
End requests.

(** A request to an object of the infrastructure, or the write of the status. *)
Definition isInfra (r : kreq) : bool := match phase r with Some _ => true | None => false end.

Section resolution.
Context {SV : Semver} {MC : MetaConditions} {SO : Solver} {LS : LabelSelectors}.

Ltac quiet := unfold setUpdateBlocked, clearUpdateBlocked, setCondition, ask; avoids_tac.

Lemma gated_avoids server v plugins k :
  (forall s, avoids isInfra (k s)) -> avoids isInfra (gated server v plugins k).
Proof.
  intros Hk. unfold gated, checkDowngrade, checkCompatibility. apply avoids_bind; [quiet|].
  intros [s [?|?]]; [|done]. apply avoids_bind; [quiet|]. intros [s' [?|?]]; done.
Qed.

Lemma buildPluginVersionPairs_avoids v plugins : avoids isInfra (buildPluginVersionPairs v plugins).
Proof. apply avoids_foldP. intros s p. destruct (pgAvailableVersions (plgStatus p)); quiet. Qed.

Lemma findAvailableUpdate_avoids server plugins : avoids isInfra (findAvailableUpdate server plugins).
Proof.
  pose proof buildPluginVersionPairs_avoids as Hb. unfold findAvailableUpdate, findVersionUpdate, findBuildUpdate.
  repeat match goal with |- avoids _ (if ?b then _ else _) => destruct b end; try done.
  all: quiet; try apply Hb; quiet.
Qed.

Lemma findExistingBuild_avoids server v l : avoids isInfra (findExistingBuild server v l).
Proof.
  induction l as [|b l IH] in server |- *; [done|]. cbn [findExistingBuild]. split; [done|].
  intros [[]|e]; [quiet|apply IH|apply IH].
Qed.

Lemma resolveDesired_avoids server plugins : avoids isInfra (resolveDesiredPaperVersion server plugins).
Proof.
  unfold resolveDesiredPaperVersion. repeat match goal with |- avoids _ (if ?b then _ else _) => destruct b end; try done.
  - unfold resolveLatestVersion. split; [done|]. intros [tags|e]; [|done]. cbn [bind].
    destruct (findLatestVersionFromTags tags) as [[v b]|e]; [|done]. apply gated_avoids. intros s. quiet.
  - unfold resolveAutoVersion. apply avoids_bind; [apply findAvailableUpdate_avoids|]. intros [s [[u|]|e]]; [|done|done].
    apply gated_avoids. intros s'. split; [done|]. intros [[]|e]; quiet.
  - apply gated_avoids. intros s. split; [done|]. intros [l|e]; [apply findExistingBuild_avoids|done].
  - destruct (ssBuild (srvSpec server)) as [b|]; [|done]. unfold resolvePinnedVersionBuild. destruct (Atoi _); [|done].
    apply gated_avoids. intros s. split; [done|]. intros [[]|e]; quiet.
Qed.

Lemma updateDesiredVersion_avoids server plugins : avoids isInfra (updateDesiredVersion server plugins).
Proof.
  apply avoids_bind; [apply resolveDesired_avoids|]. intros [s [[v b]|e]]; [done|]. by destruct (negb _).
Qed.

Lemma findMatchedPlugins_avoids server : avoids isInfra (findMatchedPlugins server).
Proof. by split. Qed.

Lemma updateServerStatus_avoids server sts plugins : avoids isInfra (updateServerStatus server sts plugins).
Proof.
  unfold updateServerStatus. destruct (detectCurrentPaperVersion sts) as [v b]. apply avoids_bind.
  - apply avoids_foldP. intros s p. apply avoids_bind; [|done]. unfold resolvePluginVersionForServer.
    repeat match goal with |- avoids _ (if ?b then _ else _) => destruct b end; try done.
    apply avoids_bind; [destruct (psUpdateDelay (plgSpec p)); quiet|]. intros l. unfold solveForServer. quiet.
  - intros ps. apply avoids_bind; [|intros s; unfold updateStatefulSetReadiness; destruct (isStatefulSetReady sts); quiet].
    unfold updateAvailableUpdateStatus. apply avoids_bind; [apply findAvailableUpdate_avoids|]. intros [s [[u|]|e]]; quiet.
Qed.
End resolution.

(** ** What the steps leave alone *)

Section frames.
Context {MR : MapRange} {GS : GoSort} {DG : Digest} {OW : Owning} {MC : MetaConditions}.

Lemma setCondition_frame server t s r m tr s' : runs (setCondition server t s r m) tr s' -> frame server s'.
Proof. intros (now & tr' & -> & -> & ->). done. Qed.

Lemma validateReferenced_frame server plugins tr s' :
  runs (validateReferencedConfigMaps server plugins) tr s' -> frame server s'.
Proof.
  unfold validateReferencedConfigMaps. destruct (_ =? _)%nat; [by intros [-> ->]|].
  intros (t1 & missing & t2 & -> & _ & H)%runs_bind. destruct (_ <? _)%nat; by apply setCondition_frame in H.
Qed.

Lemma ensureConfig_frame server plugins tr s' r :
  runs (ensureConfigScriptConfigMap server plugins) tr (s', r) -> frame server s'.
Proof.
  unfold ensureConfigScriptConfigMap. destruct (buildConfigInjection server plugins) as [[[? ?] cm]|].
  - intros (t1 & s1 & t2 & -> & H1 & H2)%runs_bind. apply validateReferenced_frame in H1.
    destruct (SetControllerReference _ _); [apply runs_bind in H2 as (t3 & p & t4 & -> & _ & H2)|]; by destruct H2 as [_ [= -> _]].
  - intros (t1 & d & t2 & -> & _ & _ & [= -> _])%runs_bind. done.
Qed.

Lemma reconcileHTTP_frame server plugins enabled tr s' r :
  runs (reconcileHTTPRoutes server plugins enabled) tr (s', r) -> frame server s'.
Proof.
  unfold reconcileHTTPRoutes. destruct (buildDesiredHTTPRoutes server plugins enabled) as [desired issues].
  intros (t1 & s1 & t2 & -> & H1 & H2)%runs_bind.
  assert (Hf : frame server s1).
  { unfold setHTTPRouteCondition in H1. destruct (negb _); [by destruct H1 as [_ ->]|].
    destruct (_ =? _)%nat; by apply setCondition_frame in H1. }
  apply runs_bind in H2 as (t3 & l & t4 & -> & _ & H2). destruct l as [[existing|]|e].
  - apply runs_bind in H2 as (t5 & a & t6 & -> & _ & H2). destruct a as [?|e]; [|by destruct H2 as [_ [= -> _]]].
    apply runs_bind in H2 as (t7 & d & t8 & -> & _ & _ & [= -> _]). done.
  - by destruct H2 as [_ [= -> _]].
  - by destruct H2 as [_ [= -> _]].
Qed.

Lemma ensureGateway_frame server plugins tr s' r : runs (ensureGatewayRoutes server plugins) tr (s', r) -> frame server s'.
Proof.
  unfold ensureGatewayRoutes. intros (t1 & t & t2 & -> & _ & H)%runs_bind.
  destruct t as [?|e]; [|by destruct H as [_ [= -> _]]].
  apply runs_bind in H as (t3 & u & t4 & -> & _ & H). destruct u as [?|e]; [|by destruct H as [_ [= -> _]]].
  apply runs_bind in H as (t5 & [s1 h] & t6 & -> & H1 & _ & [= -> _]). by apply reconcileHTTP_frame in H1.
Qed.

(** The event writes this StatefulSet. *)
Definition writesSts (e : event (E := K8s)) (s : StatefulSet) : Prop := reqOf e = RUpdateSts s \/ reqOf e = RCreateSts s.

(** The API server answered with this StatefulSet. *)
Definition stsAnswered (tr : list (event (E := K8s))) (s : StatefulSet) : Prop :=
  (exists kk, Ev (E := K8s) (RGetSts kk) (Ok s) ∈ tr) \/ (exists x, Ev (E := K8s) (RUpdateSts x) (Ok s) ∈ tr) \/
  exists x, Ev (E := K8s) (RCreateSts x) (Ok s) ∈ tr.

(** The one write of a trace. *)
Ltac find_write :=
  let Hin := fresh in let Hw := fresh in intros ?e ?s Hin Hw;
  repeat (apply elem_of_cons in Hin as [->|Hin];
          [destruct Hw as [Hw|Hw]; first [discriminate Hw | injection Hw as <-; by eexists]|]);
  by apply not_elem_of_nil in Hin.

Lemma ensureStatefulSet_runs server plugins tr s' r :
  runs (ensureStatefulSet server plugins) tr (s', r) ->
  frame server s' /\
  (forall e s, e ∈ tr -> writesSts e s -> exists new, buildStatefulSet server plugins = Ok new /\ stsTemplate s = stsTemplate new) /\
  (forall sts, r = Ok sts -> stsAnswered tr sts).
Proof.
  unfold ensureStatefulSet. intros (g & tr' & -> & H).
  assert (Hnone : forall e s, e ∈ [Ev (E := K8s) (RGetSts (srvNamespace server, srvName server)) g] -> writesSts e s ->
    exists new, buildStatefulSet server plugins = Ok new /\ stsTemplate s = stsTemplate new).
  { intros e s ->%list_elem_of_singleton [H1|H1]; discriminate H1. }
  destruct g as [sts|e]; cbn [bind] in H.
  - destruct (buildStatefulSet server plugins) as [new|e]; [|destruct H as [-> [= -> ->]]; split_and!; done].
    destruct (templateChanged sts new).
    + destruct H as (u & tr2 & -> & H). destruct u as [y|e]; destruct H as [-> [= -> ->]]; (split_and!; [done| |]).
      * find_write.
      * intros z [= <-]. right. left. eexists. right. by left.
      * find_write.
      * done.
    + destruct H as [-> [= -> ->]]. split_and!; [done|done|]. intros z [= <-]. left. eexists. by left.
  - destruct (negb (IsNotFound e)); [destruct H as [-> [= -> ->]]; split_and!; done|].
    destruct (buildStatefulSet server plugins) as [new|e2]; [|destruct H as [-> [= -> ->]]; split_and!; done].
    destruct (SetControllerReference _ _) as [m|e2]; [|destruct H as [-> [= -> ->]]; split_and!; done].
    destruct H as (c & tr2 & -> & H). destruct c as [y|e2]; cbn [bind] in H.
    + apply runs_bind in H as (t1 & s1 & t2 & -> & H1 & [-> [= -> ->]]). pose proof (setCondition_frame _ _ _ _ _ _ _ H1) as Hf.
      destruct H1 as (now & t3 & -> & -> & ->). rewrite app_nil_r. split_and!; [done| |].
      * find_write.
      * intros z [= <-]. right. right. eexists. right. by left.
    + destruct H as [-> [= -> ->]]. split_and!; [done| |done].
      find_write.
Qed.
End frames.

(** ** The order of the parts *)

(** Phases that are sorted and at least [lo]. *)
Definition from (lo : nat) (l : list nat) : Prop := StronglySorted le l /\ Forall (le lo) l.

Lemma from_nil lo : from lo [].
Proof. by split; constructor. Qed.

Lemma from_app lo n a b : (lo <= n)%nat -> Forall (fun m => m = n) a -> from n b -> from lo (a ++ b).
Proof.
  intros Hn Ha [Hs Hf]. induction Ha as [|m a -> Ha IH].
  - split; [done|]. eapply Forall_impl; [exact Hf|]. intros x. lia.
  - destruct IH as [IH1 IH2]. cbn [app]. split; [|by constructor]. constructor; [done|]. apply Forall_app. split; [|done].
    eapply Forall_impl; [exact Ha|]. intros x ->. lia.
Qed.

Lemma from_mono lo lo' l : (lo' <= lo)%nat -> from lo l -> from lo' l.
Proof. intros H [Hs Hf]. split; [done|]. eapply Forall_impl; [exact Hf|]. intros x. lia. Qed.

Section order.
Context {MR : MapRange} {GS : GoSort} {DG : Digest} {OW : Owning} {MC : MetaConditions}.

Lemma ensureGateway_phases server plugins tr x :
  runs (ensureGatewayRoutes server plugins) tr x -> from 4 (phases tr) /\ Forall (fun m => (m <= 6)%nat) (phases tr).
Proof.
  unfold ensureGatewayRoutes. set (en := match ssGateway (srvSpec server) with Some _ => _ | None => _ end).
  intros (t1 & t & t2 & -> & H1 & H)%runs_bind. rewrite phases_app.
  pose proof (onlyPhase_runs _ _ _ _ (reconcileL4_phase false server en) H1) as P1.
  assert (Hle : forall n a, (n <= 6)%nat -> Forall (fun m => m = n) a -> Forall (fun m => (m <= 6)%nat) a).
  { intros n a Hn Ha. eapply Forall_impl; [exact Ha|]. intros x' ->. done. }
  destruct t as [?|e]; [|destruct H as [-> _]; rewrite app_nil_r; split; [rewrite <- (app_nil_r (phases t1)); eapply from_app; [|exact P1|apply from_nil]; lia | by eapply Hle; [|exact P1]; lia]].
  apply runs_bind in H as (t3 & u & t4 & -> & H2 & H). rewrite phases_app.
  pose proof (onlyPhase_runs _ _ _ _ (reconcileL4_phase true server en) H2) as P2.
  assert (Hend : forall t, Forall (fun m => m = 6%nat) (phases t) ->
    from 4 (phases t1 ++ phases t3 ++ phases t) /\ Forall (fun m => (m <= 6)%nat) (phases t1 ++ phases t3 ++ phases t)).
  { intros t P3. split.
    - eapply from_app; [|exact P1|eapply from_app; [|exact P2|]]; [lia|lia|].
      rewrite <- (app_nil_r (phases t)). eapply from_app; [|exact P3|apply from_nil]. lia.
    - rewrite !Forall_app. split_and!; (eapply Hle; [|eassumption]; lia). }
  destruct u as [?|e]; [|destruct H as [-> _]; by apply (Hend [])].
  apply runs_bind in H as (t5 & [s1 h] & t6 & -> & H3 & -> & _). rewrite app_nil_r.
  apply Hend. by eapply onlyPhase_runs; [apply reconcileHTTPRoutes_phase|].
Qed.

Lemma buildStatefulSet_frame server server' plugins :
  frame server server' -> buildStatefulSet server' plugins = buildStatefulSet server plugins.
Proof.
  destruct server as [m sp st], server' as [m' sp' st']. unfold frame. cbn. intros (-> & -> & Hv & Hb & _).
  unfold buildStatefulSet, buildPodSpec. cbn. by rewrite Hv, Hb.
Qed.
End order.

Section infrastructure.
Context {MR : MapRange} {GS : GoSort} {DG : Digest} {OW : Owning} {MC : MetaConditions}.

(** A trace of other phases than the second writes no StatefulSet. *)
Lemma no_sts_write tr e s : Forall (fun m => m <> 2%nat) (phases tr) -> e ∈ tr -> writesSts e s -> False.
Proof.
  intros Hf He Hw. rewrite Forall_forall in Hf. apply (Hf 2%nat); [|done].
  apply list_elem_of_omap. exists e. split; [done|]. destruct Hw as [-> | ->]; done.
Qed.

(** What the StatefulSet step and the later ones guarantee. *)
Definition infraOk (server : PaperMCServer) (plugins : list Plugin) (tr : list event) (s' : PaperMCServer) (r : result StatefulSet) : Prop :=
  frame server s' /\
  (forall e s, e ∈ tr -> writesSts e s -> exists new, buildStatefulSet server plugins = Ok new /\ stsTemplate s = stsTemplate new) /\
  (forall sts, r = Ok sts -> stsAnswered tr sts).

Lemma infraOk_before server plugins tr1 tr2 s1 s' r :
  frame server s1 -> Forall (fun m => m <> 2%nat) (phases tr1) -> infraOk s1 plugins tr2 s' r -> infraOk server plugins (tr1 ++ tr2) s' r.
Proof.
  intros Hf Hp (Hf2 & Hw & Ha). split_and!.
  - by eapply frame_trans.
  - intros e s [He|He]%elem_of_app Hws; [by destruct (no_sts_write tr1 e s)|].
    rewrite <- (buildStatefulSet_frame server s1) by done. by apply (Hw e).
  - intros sts Hr. destruct (Ha sts Hr) as [[kk H]|[[x H]|[x H]]]; [left|right;left|right;right]; eexists; apply elem_of_app; right; exact H.
Qed.

Lemma infraOk_after server plugins tr1 tr2 s1 s2 r r' :
  infraOk server plugins tr1 s1 r -> frame s1 s2 -> Forall (fun m => m <> 2%nat) (phases tr2) -> (r' = r \/ isOk r' = false) ->
  infraOk server plugins (tr1 ++ tr2) s2 r'.
Proof.
  intros (Hf & Hw & Ha) Hf2 Hp Hr. split_and!.
  - by eapply frame_trans.
  - intros e s [He|He]%elem_of_app Hws; [by apply (Hw e)|by destruct (no_sts_write tr2 e s)].
  - intros sts ->. destruct Hr as [Hr|Hr]; [|done]. destruct (Ha sts (eq_sym Hr)) as [[kk H]|[[x H]|[x H]]]; [left|right;left|right;right]; eexists; apply elem_of_app; left; exact H.
Qed.

Lemma from_not lo n l : (n < lo)%nat -> from lo l -> Forall (fun m => m <> n) l.
Proof. intros Hn [_ Hf]. eapply Forall_impl; [exact Hf|]. intros x. lia. Qed.

Lemma const_not (n m : nat) l : n <> m -> Forall (fun x => x = n) l -> Forall (fun x => x <> m) l.
Proof. intros Hn Hf. eapply Forall_impl; [exact Hf|]. intros x ->. done. Qed.

(** The steps after the StatefulSet. *)
Lemma rest_runs ns server plugins (statefulSet : StatefulSet) tr s' (r : result StatefulSet) :
  runs (r <- ensureService server plugins ;;
        match r with
        | Err e => Ret (server, Err (ErrWrap e "failed to ensure service"))
        | Ok _ =>
            x <- ensureGatewayRoutes server plugins ;;
            let '(server, r) := x in
            match r with
            | Err e => Ret (server, Err (ErrWrap e "failed to ensure gateway routes"))
            | Ok _ =>
                r <- ensureNetworkPolicy ns server plugins ;;
                match r with
                | Err e => Ret (server, Err (ErrWrap e "failed to ensure network policy"))
                | Ok _ => Ret (server, Ok statefulSet)
                end
            end
        end) tr (s', r) ->
  from 3 (phases tr) /\ frame server s' /\ (r = Ok statefulSet \/ isOk r = false).
Proof.
  intros (t1 & a & t2 & -> & H1 & H)%runs_bind. rewrite phases_app.
  pose proof (onlyPhase_runs _ _ _ _ (ensureService_phase server plugins) H1) as P1.
  destruct a as [?|e]; [|destruct H as [-> [= -> ->]]; split_and!; [|done|by right]; eapply from_app; [|exact P1|apply from_nil]; lia].
  apply runs_bind in H as (t3 & [s1 b] & t4 & -> & H2 & H). rewrite phases_app.
  pose proof (ensureGateway_phases _ _ _ _ H2) as [[P2 P2'] P3]. apply ensureGateway_frame in H2.
  destruct b as [?|e].
  - apply runs_bind in H as (t5 & c & t6 & -> & H3 & H). rewrite phases_app.
    pose proof (onlyPhase_runs _ _ _ _ (ensurePolicy_phase ns s1 plugins) H3) as P4.
    assert (phases t6 = [] /\ frame server s' /\ (r = Ok statefulSet \/ isOk r = false)) as (P6 & Hf & Hr).
    { destruct c as [?|e]; destruct H as [-> [= -> ->]]; split_and!; auto. }
    split_and!; [|done|done]. rewrite P6, app_nil_r. eapply from_app; [|exact P1|]; [lia|]. split.
    + apply sorting.StronglySorted_app_2; [|done|].
      * intros x y Hx Hy. rewrite Forall_forall in P3. rewrite Forall_forall in P4. rewrite (P4 y Hy). specialize (P3 x Hx). lia.
      * destruct (from_app 7 7 (phases t5) [] ltac:(lia) P4 (from_nil 7)) as [Hs _]. by rewrite app_nil_r in Hs.
    + apply Forall_app. split; [eapply Forall_impl; [exact P2'|]; intros x; lia | eapply Forall_impl; [exact P4|]; intros x ->; lia].
  - destruct H as [-> [= -> ->]]. split_and!; [|done|by right]. rewrite app_nil_r. eapply from_app; [|exact P1|]; [lia|].
    split; [done|]. eapply Forall_impl; [exact P2'|]. intros x. lia.
Qed.

Lemma ensureInfrastructure_runs ns server plugins tr s' r :
  runs (ensureInfrastructure ns server plugins) tr (s', r) -> from 1 (phases tr) /\ infraOk server plugins tr s' r.
Proof.
  unfold ensureInfrastructure. intros (t1 & [s1 a] & t2 & -> & H1 & H)%runs_bind. rewrite phases_app.
  pose proof (onlyPhase_runs _ _ _ _ (ensureConfig_phase server plugins) H1) as P1. apply ensureConfig_frame in H1 as F1.
  assert (Hn1 : Forall (fun m => m <> 2%nat) (phases t1)) by by eapply const_not; [|exact P1].
  destruct a as [?|e].
  - apply runs_bind in H as (t3 & [s2 b] & t4 & -> & H2 & H). rewrite phases_app.
    pose proof (onlyPhase_runs _ _ _ _ (ensureStatefulSet_phase s1 plugins) H2) as P2. apply ensureStatefulSet_runs in H2 as H2'.
    destruct b as [sts|e].
    + apply rest_runs in H as (P3 & F3 & Hr). split.
      * eapply from_app; [|exact P1|eapply from_app; [|exact P2|eapply from_mono; [|exact P3]]]; lia.
      * eapply infraOk_before; [done|done|]. eapply infraOk_after; [exact H2'|done|by eapply (from_not 3); [lia|]|done].
    + destruct H as [-> [= -> ->]]. rewrite app_nil_r. split.
      * eapply from_app; [|exact P1|]; [lia|]. rewrite <- (app_nil_r (phases t3)). eapply from_app; [|exact P2|apply from_nil]. lia.
      * eapply infraOk_before; [done|done|]. rewrite app_nil_r. destruct H2' as (F2 & Hw & _). by split_and!.
  - destruct H as [-> [= -> ->]]. rewrite !app_nil_r. split.
    + rewrite <- (app_nil_r (phases t1)). eapply from_app; [|exact P1|apply from_nil]. lia.
    + split_and!; [done| |done]. intros e' s He Hw. by destruct (no_sts_write t1 e' s).
Qed.
End infrastructure.

Section reconcile.
Context {MR : MapRange} {GS : GoSort} {DG : Digest} {OW : Owning} {MC : MetaConditions}.
Context {SV : Semver} {SL : SemverLaws} {SO : Solver} {LS : LabelSelectors}.

Lemma updateServerStatus_runs server sts plugins tr s' :
  runs (updateServerStatus server sts plugins) tr s' ->
  stDesiredVersion (srvStatus s') = stDesiredVersion (srvStatus server) /\
  stDesiredBuild (srvStatus s') = stDesiredBuild (srvStatus server) /\
  (stCurrentVersion (srvStatus s'), stCurrentBuild (srvStatus s')) = detectCurrentPaperVersion sts.
Proof.
  unfold updateServerStatus. destruct (detectCurrentPaperVersion sts) as [v b].
  intros (t1 & ps & t2 & -> & _ & H)%runs_bind. apply runs_bind in H as (t3 & s1 & t4 & -> & H1 & H2).
  unfold updateStatefulSetReadiness in H2.
  assert (F2 : frame s1 s') by (destruct (isStatefulSetReady sts); by apply setCondition_frame in H2).
  unfold updateAvailableUpdateStatus in H1. apply runs_bind in H1 as (t5 & [s2 u] & t6 & -> & H3 & H1).
  apply (proj1 (wp_runs _ _ []) (wp_findAvailableUpdate _ _ [])) in H3. cbn [fst] in H3.
  assert (F1 : frame s2 s1 \/ frame (updStatus (fun st => st <| stAvailableUpdate := None |>) s2) s1 \/
    exists a, frame (updStatus (fun st => st <| stAvailableUpdate := a |>) s2) s1).
  { destruct u as [[u|]|e]; apply setCondition_frame in H1; [right; right; by eexists..|right; by left]. }
  assert (F1' : stDesiredVersion (srvStatus s1) = stDesiredVersion (srvStatus s2) /\ stDesiredBuild (srvStatus s1) = stDesiredBuild (srvStatus s2) /\
    stCurrentVersion (srvStatus s1) = stCurrentVersion (srvStatus s2) /\ stCurrentBuild (srvStatus s1) = stCurrentBuild (srvStatus s2)).
  { destruct F1 as [F|[F|[a F]]]; destruct F as (_ & _ & ? & ? & ? & ? & _); done. }
  destruct F1' as (A1 & A2 & A3 & A4), F2 as (_ & _ & B1 & B2 & B3 & B4 & _), H3 as (_ & _ & C1 & C2 & C3 & C4 & _).
  rewrite B1, B2, B3, B4, A1, A2, A3, A4, C1, C2, C3, C4. done.
Qed.

(** What the desired pair of a run may be. *)
Definition justified (server : PaperMCServer) (plugins : list Plugin) (tr : list event) (v : string) (b : Z) : Prop :=
  (v = stDesiredVersion (srvStatus server) /\ b = stDesiredBuild (srvStatus server)) \/
  (upgradeAllowed server v /\ (forall p, p ∈ plugins -> pluginAccepts v p) /\ imageKnown tr v b).

Lemma updateDesiredVersion_runs server plugins tr s' r :
  runs (updateDesiredVersion server plugins) tr (s', r) ->
  srvMeta s' = srvMeta server /\ srvSpec s' = srvSpec server /\
  (r = Ok tt -> justified server plugins tr (stDesiredVersion (srvStatus s')) (stDesiredBuild (srvStatus s'))).
Proof.
  intros (t1 & [s1 x] & t2 & -> & H1 & H2)%runs_bind.
  apply (proj1 (wp_runs _ _ []) (wp_resolveDesired server plugins [])) in H1 as [Hf Hx]. cbn [fst snd app] in *.
  destruct Hf as (F1 & F2 & F3 & F4 & _). destruct x as [[v b]|e].
  - destruct H2 as [-> [= -> ->]]. destruct Hx as (_ & Hu & Hp & Hi). rewrite app_nil_r. split_and!; [done|done|].
    intros _. right. by split_and!.
  - destruct (negb _); destruct H2 as [-> [= -> ->]]; (split_and!; [done|done|]); [|done]. intros _. left. done.
Qed.

(** The image of what [buildStatefulSet] makes. *)
Lemma buildStatefulSet_image server plugins new s :
  buildStatefulSet server plugins = Ok new -> stsTemplate s = stsTemplate new ->
  firstImage s = imageFor (stDesiredVersion (srvStatus server)) (stDesiredBuild (srvStatus server)) /\ hasDesired server = true.
Proof.
  unfold buildStatefulSet. destruct (buildPodSpec server plugins) as [pod|e] eqn:Hp; [|done]. intros [= <-] Ht.
  apply buildPodSpec_Ok in Hp as [Hd ->]. unfold firstImage. by rewrite Ht.
Qed.

Lemma phases_quiet tr : Forall (fun e : event (E := K8s) => isInfra (reqOf e) = false) tr -> phases tr = [].
Proof.
  induction 1 as [|e tr He _ IH]; [done|]. unfold phases in *. cbn. unfold isInfra in He. by destruct (phase (reqOf e)).
Qed.

Lemma quiet_phases {A} (p : prog (E := K8s) A) tr a : avoids (E := K8s) isInfra p -> runs p tr a -> phases tr = [].
Proof. intros Ha Hr. apply phases_quiet. by eapply (avoids_runs (E := K8s) isInfra). Qed.

(** A StatefulSet is written in the second phase. *)
Lemma quiet_no_write tr e s : phases tr = [] -> e ∈ tr -> writesSts e s -> False.
Proof. intros Hp. apply no_sts_write. rewrite Hp. constructor. Qed.

(** The infrastructure steps do not write the status. *)
Definition writesStatus (r : kreq) : bool := match r with RStatusServer _ => true | _ => false end.

Lemma otherPhase_status n {A} (p : prog (E := K8s) A) : n <> 8%nat -> avoids (E := K8s) (otherPhase n) p -> avoids (E := K8s) writesStatus p.
Proof.
  intros Hn. apply avoids_weaken. intros r. destruct r; try done. intros _.
  unfold otherPhase, phase. by apply negb_true_iff, Nat.eqb_neq.
Qed.

Lemma isInfra_status {A} (p : prog (E := K8s) A) : avoids (E := K8s) isInfra p -> avoids (E := K8s) writesStatus p.
Proof. apply avoids_weaken. by intros []. Qed.

Lemma doReconcile_noStatus ns server : avoids (E := K8s) writesStatus (doReconcile ns server).
Proof.
  unfold doReconcile. apply avoids_bind; [apply isInfra_status, findMatchedPlugins_avoids|]. intros [plugins|?]; [|done].
  apply avoids_bind; [apply isInfra_status, updateDesiredVersion_avoids|]. intros [s1 [?|?]]; [|done]. destruct (_ || _); [done|].
  apply avoids_bind; [|intros [s2 [sts|?]]; [|done]; apply avoids_bind; [apply isInfra_status, updateServerStatus_avoids|done]].
  unfold ensureInfrastructure. apply avoids_bind; [by eapply otherPhase_status, ensureConfig_phase|]. intros [s2 [?|?]]; [|done].
  apply avoids_bind; [by eapply otherPhase_status, ensureStatefulSet_phase|]. intros [s3 [?|?]]; [|done].
  apply avoids_bind; [by eapply otherPhase_status, ensureService_phase|]. intros [?|?]; [|done].
  apply avoids_bind; [|intros [s4 [?|?]]; [|done]; apply avoids_bind; [by eapply otherPhase_status, ensurePolicy_phase|by intros [?|?]]].
  unfold ensureGatewayRoutes. apply avoids_bind; [by eapply otherPhase_status, reconcileL4_phase|]. intros [?|?]; [|done].
  apply avoids_bind; [by eapply otherPhase_status, reconcileL4_phase|]. intros [?|?]; [|done].
  apply avoids_bind; [by eapply otherPhase_status, reconcileHTTPRoutes_phase|by intros [? ?]].
Qed.

(** A successful run asks for the next one a quarter of an hour later. *)
Lemma doReconcile_after ns server tr s' d : runs (doReconcile ns server) tr (s', Ok d) -> d = 15 * Minute.
Proof.
  unfold doReconcile. intros (t1 & m & t2 & -> & _ & H)%runs_bind. destruct m as [plugins|e]; [|by destruct H].
  apply runs_bind in H as (t3 & [s1 u] & t4 & -> & _ & H). destruct u as [?|e]; [|by destruct H].
  destruct (_ || _); [by destruct H|]. apply runs_bind in H as (t5 & [s2 x] & t6 & -> & _ & H). destruct x as [sts|e]; [|by destruct H].
  by apply runs_bind in H as (t7 & s3 & t8 & -> & _ & _ & [= _ ->]).
Qed.

(** The time to the next run. *)
Definition nextRun (server : PaperMCServer) : Duration :=
  if bool_decide (conditionStatus (stConditions (srvStatus server)) conditionTypeConfigInjectionReady = Some ConditionFalse)
  then 30 * Second else 15 * Minute.

Lemma requeueResult_next server : requeueResult server (15 * Minute) = Ok (nextRun server).
Proof.
  unfold requeueResult, nextRun, conditionStatus. destruct (FindStatusCondition _ _) as [c|]; [|done]. cbn [fmap option_fmap option_map].
  destruct (String.eqb_spec (cdStatus c) ConditionFalse) as [->|Hn]; case_bool_decide; try done. by destruct Hn; injection H.
Qed.

Lemma imageKnown_mono tr a b v n : imageKnown tr v n -> imageKnown (a ++ tr ++ b) v n.
Proof.
  intros [H|(tags & H & Hf)]; [left|right; exists tags; split; [|done]]; rewrite !elem_of_app; auto.
Qed.
End reconcile.

(** ** Properties *)


(** C28: A reconciliation of a server that exists runs the steps without writing the status,
    reads the clock for the Ready condition and then writes the status at most once: always
    after an error, after success exactly if a part that counts has changed.  The written
    status has Ready true exactly after success.  The error of the steps is what the caller
    gets even if the status was written; a successful result asks for the next run within
    fifteen minutes, or thirty seconds if the injection misses ConfigMaps. *)
Theorem Reconcile_reports {MR : MapRange} {GS : GoSort} {DG : Digest} {OW : Owning} {MC : MetaConditions}
  {ML : MetaConditionsLaws} {SV : Semver} {SO : Solver} {LS : LabelSelectors} ns k tr r :
  runs (Reconcile ns k) tr r ->
  (exists e, tr = [Ev (E := K8s) (RGetServer k) (Err e)] /\
     r = if IsNotFound e then Ok 0 else Err (ErrWrap e "failed to get server")) \/
  exists server server' (r0 : result Duration) tr1 now w final,
    tr = Ev (E := K8s) (RGetServer k) (Ok server) :: tr1 ++ Ev (E := K8s) RNow now :: w /\
    runs (doReconcile ns server) tr1 (server', r0) /\
    Forall (fun e : event (E := K8s) => writesStatus (reqOf e) = false) tr1 /\
    frame server' final /\
    conditionStatus (stConditions (srvStatus final)) conditionTypeServerReady = Some (if isOk r0 then ConditionTrue else ConditionFalse) /\
    ((w = [] /\ isOk r0 = true /\ serverStatusEqual (srvStatus final) (srvStatus server) = true /\ r = Ok (nextRun final)) \/
     (exists u, w = [Ev (E := K8s) (RStatusServer final) u] /\
      (isOk r0 = false \/ serverStatusEqual (srvStatus final) (srvStatus server) = false) /\
      r = match r0, u with
          | Err e, _ => Err e
          | Ok _, Err e => Err e
          | Ok _, Ok answered => Ok (nextRun answered)
          end)).
Proof.
  intros (g & tr' & -> & H). destruct g as [server|e]; [right|left]; cbn [bind] in H.
  2:{ exists e. destruct (IsNotFound e); by destruct H as [-> ->]. }
  apply runs_bind in H as (tr1 & [server' r0] & t2 & -> & H1 & H).
  apply runs_bind in H as (t3 & final & t4 & -> & H2 & H). cbn beta iota zeta in H.
  assert (Hready : exists now, t3 = [Ev (E := K8s) RNow now] /\ frame server' final /\
    conditionStatus (stConditions (srvStatus final)) conditionTypeServerReady = Some (if isOk r0 then ConditionTrue else ConditionFalse)).
  { destruct r0 as [d|e]; destruct H2 as (now & t5 & -> & -> & ->); exists now; (split_and!; [done|done|]);
      apply (conditionStatus_set now (stConditions (srvStatus server'))). }
  destruct Hready as (now & -> & Hf & Hc). exists server, server', r0, tr1, now, t4, final. cbn [app].
  split_and!; [done|done| |done|done|].
  { by apply (avoids_runs (E := K8s) writesStatus) with (2 := H1), doReconcile_noStatus. }
  assert (Hd : forall d, r0 = Ok d -> d = 15 * Minute) by (intros d ->; by apply doReconcile_after in H1).
  destruct (negb (isOk r0) || _) eqn:Hw.
  - right. destruct H as (u & t5 & -> & H). cbn in H. destruct H as [-> ->]. exists u. split_and!; [done| |].
    + apply orb_true_iff in Hw as [Hw|Hw]; [left|right]; by apply negb_true_iff in Hw.
    + destruct r0 as [d|e]; [|done]. destruct u as [s|e]; [|done]. by rewrite (Hd d eq_refl), requeueResult_next.
  - left. apply orb_false_iff in Hw as [Hw1 Hw2]. apply negb_false_iff in Hw1, Hw2. destruct r0 as [d|e]; [|done].
    destruct H as [-> ->]. by rewrite (Hd d eq_refl), requeueResult_next.
Qed.

(** The server with another schedule, update delay and block. *)
Definition rescheduled (schedule : UpdateSchedule) (delay : option Duration) (blocked : option UpdateBlockedStatus) (server : PaperMCServer) : PaperMCServer :=
  updStatus (fun st => st <| stUpdateBlocked := blocked |>)
    (server <| srvSpec := (srvSpec server) <| ssUpdateSchedule := schedule |> <| ssUpdateDelay := delay |> |>).

(** The reconciler of the server does not leave the change of the image to the update
    reconciler: if the existing StatefulSet has another image than the desired pair, it is
    written with the new image at once, whatever the maintenance window, the update delay
    and the block of the server are, and no other request comes before the write. *)
Theorem image_change_ignores_window {MR : MapRange} {GS : GoSort} {DG : Digest} {OW : Owning} {MC : MetaConditions}
  schedule delay blocked server plugins existing tr s' r :
  hasDesired server = true ->
  firstImage existing <> imageFor (stDesiredVersion (srvStatus server)) (stDesiredBuild (srvStatus server)) ->
  runs (ensureStatefulSet (rescheduled schedule delay blocked server) plugins)
    (Ev (E := K8s) (RGetSts (srvNamespace server, srvName server)) (Ok existing) :: tr) (s', r) ->
  exists s u, tr = [Ev (E := K8s) (RUpdateSts s) u] /\ stsMeta s = stsMeta existing /\
    firstImage s = imageFor (stDesiredVersion (srvStatus server)) (stDesiredBuild (srvStatus server)).
Proof.
  intros Hd Hi. unfold ensureStatefulSet. intros (g & tr' & Heq & H).
  apply (f_equal tail) in Heq as Ht. cbn in Ht. subst tr'.
  assert (g = Ok existing) as ->.
  { by apply (f_equal (fun l => match l with existT (RGetSts _) x :: _ => x | _ => Ok existing end)) in Heq. }
  cbn [bind] in H.
  destruct (buildStatefulSet (rescheduled schedule delay blocked server) plugins) as [new|e] eqn:Hb.
  - destruct (buildStatefulSet_image _ _ _ new Hb eq_refl) as [Hn _]. cbn in Hn.
    assert (templateChanged existing new = true) as Hc.
    { unfold templateChanged. apply orb_true_iff. right. apply negb_true_iff, String.eqb_neq. by rewrite Hn. }
    rewrite Hc in H. destruct H as (u & t2 & -> & H). eexists _, u. split_and!; [|done|exact Hn].
    by destruct u; destruct H as [-> _].
  - unfold buildStatefulSet in Hb. by rewrite (proj2 (buildPodSpec_Ok (rescheduled schedule delay blocked server) plugins _) (conj Hd eq_refl)) in Hb.
Qed.

(** ** Witnesses *)

Section witnesses.
Existing Instance InOrder.range.
Existing Instance InsertionSort.goSort.
Existing Instance LengthDigest.digest.
Existing Instance RefList.owning.
Existing Instance ListConditions.conditions.
Existing Instance ListConditions.conditions_laws.
Existing Instance Dotted.semver.
Existing Instance Dotted.semver_laws.
Existing Instance Simple.SimpleSolver.
Existing Instance Exact.selectors.

(** A server on a StatefulSet of an older image. *)
Definition oldSts : StatefulSet :=
  zeroStatefulSet <| stsTemplate := zeroPodTemplateSpec <| ptContainers := [zeroContainer <| ctImage := imageFor "1.20.6" 151 |>] |> |>.

Definition rollEnv (h : list (event (E := K8s))) (r : kreq) : kans r :=
  match r return kans r with
  | RGetServer _ => Ok (demoServer "latest" "" "1.20.6")
  | RGetSts _ => Ok oldSts
  | r => registry h r
  end.

Definition rollRun := exec (E := K8s) rollEnv (doReconcile "operator" (demoServer "latest" "" "1.20.6")) [].

(** The image of the StatefulSet that a trace writes. *)
Definition writtenImages (tr : list (event (E := K8s))) : list string :=
  omap (fun e => match reqOf e with RUpdateSts s | RCreateSts s => Some (firstImage s) | _ => None end) tr.


Definition reportRun := exec (E := K8s) rollEnv (Reconcile "operator" ("", "")) [].

Lemma Reconcile_reports_witness :
  reportRun.2 = Ok (15 * Minute) /\ exists final u, last reportRun.1 = Some (Ev (E := K8s) (RStatusServer final) u) /\
    conditionStatus (stConditions (srvStatus final)) conditionTypeServerReady = Some ConditionTrue.
Proof.
  assert (Hr : reportRun.2 = Ok (15 * Minute)) by (vm_compute; reflexivity). split; [exact Hr|].
  assert (Hl : exists e, last reportRun.1 = Some e /\ writesStatus (reqOf e) = true) by (eexists; vm_compute; split; reflexivity).
  assert (Hrun : runs (Reconcile "operator" ("", "")) reportRun.1 reportRun.2)
    by exact (exec_runs (E := K8s) rollEnv (Reconcile "operator" ("", "")) []).
  destruct (Reconcile_reports _ _ _ _ Hrun) as [(e & He & _)|(server & server' & r0 & tr1 & now & w & final & He & _ & _ & _ & Hc & Hw)].
  - exfalso. rewrite He in Hl. destruct Hl as (e' & Hl & Hst). injection Hl as <-. discriminate Hst.
  - destruct Hl as (e & Hl & Hst). rewrite He in Hl |- *. destruct Hw as [(-> & _)|(u & -> & _ & Hr0)].
    + exfalso. rewrite app_comm_cons, last_app in Hl. injection Hl as <-. discriminate Hst.
    + exists final, u. rewrite app_comm_cons, last_app. split; [reflexivity|].
      rewrite Hc. destruct r0 as [d|e']; [reflexivity|]. rewrite Hr0 in Hr. discriminate Hr.
Defined.

Definition closedWindow : UpdateSchedule :=
  zeroUpdateSchedule <| usMaintenanceWindow := MkMaintenanceWindow "0 4 * * 0" true |>.

Definition heldServer : PaperMCServer :=
  updStatus (fun st => st <| stDesiredVersion := "1.21.4" |> <| stDesiredBuild := 2 |>) (demoServer "latest" "" "1.20.6").

Definition heldBlock : UpdateBlockedStatus := MkUpdateBlockedStatus true "blocked" None.

Definition heldProg : prog (PaperMCServer * result StatefulSet) :=
  ensureStatefulSet (rescheduled closedWindow (Some (24 * Hour)) (Some heldBlock) heldServer) [].

Definition heldRun := exec (E := K8s) rollEnv heldProg [].

Lemma image_change_ignores_window_witness :
  firstImage oldSts <> imageFor "1.21.4" 2 /\
  exists s u, tail heldRun.1 = [Ev (E := K8s) (RUpdateSts s) u] /\ stsMeta s = stsMeta oldSts /\ firstImage s = imageFor "1.21.4" 2.
Proof.
  assert (Hi : firstImage oldSts <> imageFor "1.21.4" 2) by (vm_compute; discriminate). split; [exact Hi|].
  assert (Hrun : runs heldProg heldRun.1 heldRun.2) by exact (exec_runs (E := K8s) rollEnv heldProg []).
  destruct heldRun.2 as [s' r].
  assert (He : heldRun.1 = Ev (E := K8s) (RGetSts (srvNamespace heldServer, srvName heldServer)) (Ok oldSts) :: tail heldRun.1)
    by (vm_compute; reflexivity).
  rewrite He in Hrun.
  exact (image_change_ignores_window closedWindow (Some (24 * Hour)) (Some heldBlock)
    heldServer [] oldSts _ s' r eq_refl Hi Hrun).
Defined.
End witnesses.
