(* ===== verification/Clients.v ===== *)
(** * Clients of the registries (pkg/registry, pkg/paper, pkg/plugins/hangar.go)

    The clients behind the requests [RListTags], [RImageExists], [RPaperVersions],
    [RPaperBuild], [RBuilds] and [RPluginVersions] of the controllers.  They ask an
    effect of their own: HTTP GETs, files, and the calls of the libraries goPaperMC and
    go-hangar, whose answers are records of what the source reads. *)

From S2P Require Import Prelude GoBase Decimals Strings Plugins Effects K8s Url.
From Stdlib Require Import Ascii.

Open Scope Z_scope.

(** ** Data *)

(** [registry.TagResult] and [registry.TagsResponse] *)
Record TagResult := MkTagResult { trName : string }.

Record TagsResponse := MkTagsResponse {
  tgCount : Z;
  tgNext : string;
  tgPrevious : string;
  tgResults : list TagResult
}.

(** A build of goPaperMC: its number and what [GetDownloadURL] and
    [GetDownloadSHA256] answer. *)
Record BuildV3 := MkBuildV3 { b3ID : Z; b3DownloadURL : string; b3SHA256 : string }.

(** The namespace of a Hangar project. *)
Record HangarProject := MkHangarProject { hpOwner : string; hpSlug : string }.

(** The download of one platform; the file is given by its hash. *)
Record HangarDownload := MkHangarDownload {
  hdDownloadURL : string;
  hdExternalURL : string;
  hdFileInfo : option string
}.

(** [hangar.Version]; nil maps are empty, since the source only looks keys up. *)
Record HangarVersion := MkHangarVersion {
  hvName : string;
  hvCreatedAt : Time;
  hvGameVersions : list string;
  hvPlatformDependencies : gmap string (list string);
  hvDownloads : gmap string HangarDownload
}.

(** ** Requests *)

Inductive wreq :=
  | WGet (url : string)
  | WCreateFile (path : string)
  | WWriteFile (path data : string)
  | WPaperProject
  | WPaperBuilds (ver : string)
  | WHangarProject (project : string)
  | WHangarVersions (owner slug : string) (limit : Z)
  | WHangarVersion (project ver : string).

Definition wans (r : wreq) : Type :=
  match r with
  | WGet _ => result HTTPResponse
  | WCreateFile _ | WWriteFile _ _ => result unit
  | WPaperProject => result (list string)     (* the versions of the project, flattened *)
  | WPaperBuilds _ => result (list BuildV3)
  | WHangarProject _ => result HangarProject
  | WHangarVersions _ _ _ => result (list HangarVersion)
  | WHangarVersion _ _ => result HangarVersion
  end.

#[export] Instance Web : Effect := {| req := wreq; ans := wans |}.

Definition fetch (r : wreq) : prog (wans r) := call (E := Web) r.

(** What the source calls on URLs and bodies: [http.NewRequestWithContext] and
    [json.Unmarshal] into a [TagsResponse]. *)
Class HubLib := {
  newRequest : string -> result unit;
  unmarshalTags : string -> result TagsResponse
}.

(** ** Docker Hub *)

Definition defaultBaseURL : string := "https://hub.docker.com/v2".
Definition defaultPageSize : Z := 100.

Section hub.
Context {HL : HubLib} (baseURL : string).

(** One page, or why it could not be read. *)
Definition fetchPage (url : string) : prog (result TagsResponse) :=
  match newRequest url with
  | Err e => Ret (Err (ErrWrap e "failed to create request"))
  | Ok _ =>
      r <- fetch (WGet url) ;;
      Ret (match r with
           | Err e => Err (ErrWrap e "failed to fetch tags")
           | Ok resp =>
               if negb (htStatusCode resp =? 200) then
                 Err (ErrNew ("unexpected status code: " +:+ pretty (htStatusCode resp)))
               else
                 match htBody resp with
                 | Err e => Err (ErrWrap e "failed to read response body")
                 | Ok body => wrap "failed to parse JSON response" (unmarshalTags body)
                 end
           end)
  end.

(** The loop, [None] if [fuel] pages were not enough. *)
Fixpoint listPages (fuel : nat) (url : string) (tags : list string) : prog (option (result (list string))) :=
  if (url =? "")%string then Ret (Some (Ok tags))
  else
    match fuel with
    | O => Ret None
    | S fuel =>
        p <- fetchPage url ;;
        match p with
        | Err e => Ret (Some (Err e))
        | Ok tagsResp => listPages fuel (tgNext tagsResp) (tags ++ map trName (tgResults tagsResp))
        end
    end.

Definition firstURL (repository : string) (pageSize : Z) : string :=
  let pageSize := if pageSize <=? 0 then defaultPageSize else pageSize in
  baseURL +:+ "/repositories/" +:+ repository +:+ "/tags?page_size=" +:+ pretty pageSize.

Definition ListTags (fuel : nat) (repository : string) (pageSize : Z) : prog (option (result (list string))) :=
  listPages fuel (firstURL repository pageSize) [].

Definition ImageExists (repository tag : string) : prog (result bool) :=
  let url := baseURL +:+ "/repositories/" +:+ repository +:+ "/tags/" +:+ tag in
  match newRequest url with
  | Err e => Ret (Err (ErrWrap e "failed to create request"))
  | Ok _ =>
      r <- fetch (WGet url) ;;
      Ret (match r with
           | Err e => Err (ErrWrap e "failed to check tag existence")
           | Ok resp =>
               if htStatusCode resp =? 200 then Ok true
               else if htStatusCode resp =? 404 then Ok false
               else Err (ErrNew ("unexpected status code: " +:+ pretty (htStatusCode resp)))
           end)
  end.

(** ** Paper *)

Definition GetPaperVersions : prog (result (list string)) :=
  r <- fetch WPaperProject ;;
  Ret (wrap "failed to get Paper project" r).

Definition noBuilds (ver : string) : error := ErrNew ("no builds available for version " +:+ ver).

(** The last build of the list. *)
Definition extractBuildInfo (ver : string) (builds : list BuildV3) : result BuildInfo :=
  match last builds with
  | None => Err (noBuilds ver)
  | Some b => Ok (MkBuildInfo ver (b3ID b) (b3DownloadURL b) (b3SHA256 b))
  end.

Definition GetPaperBuild (ver : string) : prog (result BuildInfo) :=
  r <- fetch (WPaperBuilds ver) ;;
  Ret (match r with
       | Err e => Err (ErrWrap e "failed to get builds")
       | Ok builds => extractBuildInfo ver builds
       end).

Definition GetBuilds (ver : string) : prog (result (list Z)) :=
  r <- fetch (WPaperBuilds ver) ;;
  Ret (match r with
       | Err e => Err (ErrWrap e "failed to get builds")
       | Ok builds => if (length builds =? 0)%nat then Err (noBuilds ver) else Ok (map b3ID builds)
       end).

(** [io.Copy] reads the whole body. *)
Definition saveToFile (body : result string) (targetPath : string) : prog (result unit) :=
  c <- fetch (WCreateFile targetPath) ;;
  match c with
  | Err e => Ret (Err (ErrWrap e "failed to create file"))
  | Ok _ =>
      match body with
      | Err e => Ret (Err (ErrWrap e "failed to write file"))
      | Ok data =>
          w <- fetch (WWriteFile targetPath data) ;;
          Ret (wrap "failed to write file" w)
      end
  end.

Definition downloadFile (url targetPath : string) : prog (result unit) :=
  match newRequest url with
  | Err e => Ret (Err (ErrWrap e "failed to create request"))
  | Ok _ =>
      r <- fetch (WGet url) ;;
      match r with
      | Err e => Ret (Err (ErrWrap e "failed to execute request"))
      | Ok resp =>
          if negb (htStatusCode resp =? 200) then
            Ret (Err (ErrNew ("unexpected status code: " +:+ pretty (htStatusCode resp))))
          else saveToFile (htBody resp) targetPath
      end
  end.

Definition DownloadPaperJAR (ver targetPath : string) : prog (result unit) :=
  b <- GetPaperBuild ver ;;
  match b with
  | Err e => Ret (Err (ErrWrap e "failed to get build info"))
  | Ok buildInfo => downloadFile (biDownloadURL buildInfo) targetPath
  end.
End hub.

(** ** Hangar *)

Definition platformPaper : string := "PAPER".
Definition maxVersions : Z := 500.

Section hangar.
Context {UR : URLs} (baseURL : string).

Definition directExtensions : list string := [".jar"; ".zip"; ".tar.gz"; ".tgz"].

Definition isDirectDownloadURL (rawURL : string) : bool :=
  match urlParse rawURL with
  | Err _ => false
  | Ok _ =>
      let path := ToLower (urlPath rawURL) in
      existsb (HasSuffix path) directExtensions || HasSuffix path "/download" || Contains path "/download/"
  end.

Definition extractPaperDownload (v : HangarVersion) (owner slug : string) : string * string :=
  match hvDownloads v !! platformPaper with
  | None => ("", "")
  | Some info =>
      let downloadURL :=
        if negb (hdDownloadURL info =? "")%string then hdDownloadURL info
        else if negb (hdExternalURL info =? "")%string && isDirectDownloadURL (hdExternalURL info) then hdExternalURL info
        else "" in
      let hash := default "" (hdFileInfo info) in
      (if (downloadURL =? "")%string
       then baseURL +:+ "/projects/" +:+ owner +:+ "/" +:+ slug +:+ "/versions/" +:+ hvName v +:+ "/PAPER/download"
       else downloadURL, hash)
  end.

(** The Paper versions of the platform, and the Minecraft versions, which fall back to
    them. *)
Definition paperVersionsOf (v : HangarVersion) : list string := default [] (hvPlatformDependencies v !! platformPaper).

Definition minecraftVersionsOf (v : HangarVersion) : list string :=
  if (length (hvGameVersions v) =? 0)%nat then paperVersionsOf v else hvGameVersions v.

Definition hangarVersion (owner slug : string) (v : HangarVersion) : PluginVersion :=
  let '(downloadURL, hash) := extractPaperDownload v owner slug in
  MkPluginVersion (hvName v) (hvCreatedAt v) (paperVersionsOf v) (minecraftVersionsOf v) downloadURL hash.

Definition HangarGetVersions (project : string) : prog (result (list PluginVersion)) :=
  p <- fetch (WHangarProject project) ;;
  match p with
  | Err e => Ret (Err (ErrWrap e "failed to get project"))
  | Ok proj =>
      l <- fetch (WHangarVersions (hpOwner proj) (hpSlug proj) maxVersions) ;;
      Ret (match l with
           | Err e => Err (ErrWrap e "failed to list versions")
           | Ok versions => Ok (map (hangarVersion (hpOwner proj) (hpSlug proj)) versions)
           end)
  end.

Definition HangarGetCompatibility (project ver : string) : prog (result CompatibilityInfo) :=
  r <- fetch (WHangarVersion project ver) ;;
  Ret (match r with
       | Err e => Err (ErrWrap e "failed to get version")
       | Ok v => Ok (MkCompatibilityInfo (minecraftVersionsOf v) (paperVersionsOf v))
       end).
End hangar.

(** ** The pages of a listing *)

Section pages.
Context {HL : HubLib}.

(** The event reads one page of the listing. *)
Definition pageAt (url : string) (e : event (E := Web)) (page : TagsResponse) : Prop :=
  exists resp body, e = Ev (E := Web) (WGet url) (Ok resp) /\ newRequest url = Ok tt /\ htStatusCode resp = 200 /\
    htBody resp = Ok body /\ unmarshalTags body = Ok page.

(** The events read the pages from [url] on, following the links; the last link is
    [next]. *)
Inductive pages : string -> list (event (E := Web)) -> list TagsResponse -> string -> Prop :=
  | pages_nil url : pages url [] [] url
  | pages_cons url e page tr l next :
      url <> "" -> pageAt url e page -> pages (tgNext page) tr l next -> pages url (e :: tr) (page :: l) next.

Definition tagsOf (l : list TagsResponse) : list string := concat (map (fun p => map trName (tgResults p)) l).

(** The event could not be read as a page. *)
Definition pageFails (url : string) (tr : list (event (E := Web))) : Prop :=
  (exists e, newRequest url = Err e /\ tr = []) \/
  (exists y, newRequest url = Ok tt /\ tr = [Ev (E := Web) (WGet url) y] /\ forall page, ~ pageAt url (Ev (E := Web) (WGet url) y) page).

Lemma fetchPage_runs url tr r :
  runs (fetchPage url) tr r ->
  match r with
  | Ok page => exists e, tr = [e] /\ pageAt url e page
  | Err _ => pageFails url tr
  end.
Proof.
  unfold fetchPage. destruct (newRequest url) as [[]|e] eqn:Hn; [|intros [-> ->]; left; by exists e].
  intros (y & tr' & -> & H). cbn [runs bind] in H. destruct H as [-> ->].
  assert (Hinv : forall page, pageAt url (Ev (E := Web) (WGet url) y) page ->
    exists resp body, y = Ok resp /\ htStatusCode resp = 200 /\ htBody resp = Ok body /\ unmarshalTags body = Ok page).
  { intros page (resp & body & He & _ & H1 & H2 & H3). exists resp, body. split; [|done].
    by apply (f_equal (fun e : event (E := Web) => match e with existT (WGet _) x => x | _ => y end)) in He. }
  destruct y as [resp|e].
  - destruct (Z.eqb_spec (htStatusCode resp) 200) as [Hs|Hs]; cbn [negb].
    + destruct (htBody resp) as [body|e] eqn:Hb.
      * destruct (unmarshalTags body) as [page|e] eqn:Hu; cbn [wrap].
        -- eexists. split; [done|]. by exists resp, body.
        -- right. eexists. split_and!; [done|done|]. intros page (resp' & body' & [= <-] & _ & Hb' & Hu')%Hinv. congruence.
      * right. eexists. split_and!; [done|done|]. intros page (resp' & body' & [= <-] & _ & Hb' & _)%Hinv. congruence.
    + right. eexists. split_and!; [done|done|]. intros page (resp' & body' & [= <-] & Hs' & _)%Hinv. done.
  - right. eexists. split_and!; [done|done|]. by intros page (resp' & body' & ? & _)%Hinv.
Qed.

Lemma firstURL_nonempty baseURL repository pageSize : firstURL baseURL repository pageSize <> "".
Proof. unfold firstURL. destruct baseURL; rewrite ?str_app_nil, ?str_app_cons; discriminate. Qed.

Lemma listPages_runs fuel url acc tr r : runs (listPages fuel url acc) tr r ->
  match r with
  | Some (Ok tags) => exists l, pages url tr l "" /\ tags = acc ++ tagsOf l
  | Some (Err _) => exists tr1 tr2 l next, tr = tr1 ++ tr2 /\ pages url tr1 l next /\ next <> "" /\ pageFails next tr2
  | None => exists l next, pages url tr l next /\ next <> "" /\ length tr = fuel
  end.
Proof.
  revert url acc tr r. induction fuel as [|fuel IH]; intros url acc tr r; cbn [listPages];
    destruct (String.eqb_spec url "") as [->|Hne]; try (intros [-> ->]; exists []; rewrite app_nil_r; split; [constructor|done]).
  - intros [-> ->]. exists [], url. by split_and!; [constructor|..].
  - intros (t1 & p & t2 & -> & H1%fetchPage_runs & H2)%runs_bind. destruct p as [page|e].
    + destruct H1 as (ev & -> & Hp). apply IH in H2. destruct r as [[tags|e]|].
      * destruct H2 as (l & Hl & ->). exists (page :: l). split; [by econstructor|]. unfold tagsOf. cbn. by rewrite app_assoc.
      * destruct H2 as (tr1 & tr2 & l & next & -> & Hl & Hn & Hf). exists (ev :: tr1), tr2, (page :: l), next.
        by split_and!; [|econstructor|..].
      * destruct H2 as (l & next & Hl & Hn & Hlen). exists (page :: l), next. split_and!; [by econstructor|done|cbn; lia].
    + destruct H2 as [-> ->]. exists [], t1, [], url. rewrite app_nil_r. by split_and!; [|constructor|..].
Qed.

(** Enough fuel reads a listing that ends. *)
Lemma listPages_enough url tr l next : pages url tr l next -> next = "" -> forall fuel acc, (length tr <= fuel)%nat ->
  runs (listPages fuel url acc) tr (Some (Ok (acc ++ tagsOf l))).
Proof.
  induction 1 as [url|url e page tr l next Hne Hp _ IH]; intros -> fuel acc Hl; cbn in Hl.
  - destruct fuel; cbn; by rewrite app_nil_r.
  - destruct fuel as [|fuel]; [lia|]. cbn [listPages]. destruct (String.eqb_spec url "") as [|_]; [done|].
    apply runs_bind. exists [e], (Ok page), tr. split_and!; [done| |].
    + destruct Hp as (resp & body & -> & Hn & Hs & Hb & Hu). unfold fetchPage. rewrite Hn. cbn. eexists _, [].
      split; [done|]. split; [done|]. rewrite Hs, Hb, Hu. done.
    + replace (acc ++ tagsOf (page :: l)) with ((acc ++ map trName (tgResults page)) ++ tagsOf l) by by unfold tagsOf; cbn; rewrite app_assoc.
      apply IH; [done|lia].
Qed.

(** A page that links to itself is read forever. *)
Lemma listPages_cycle url e page : url <> "" -> pageAt url e page -> tgNext page = url ->
  forall fuel acc, exists tr, runs (listPages fuel url acc) tr None.
Proof.
  intros Hne Hp Hnext fuel. induction fuel as [|fuel IH]; intros acc; cbn [listPages];
    (destruct (String.eqb_spec url "") as [|_]; [done|]); [by exists []|].
  destruct (IH (acc ++ map trName (tgResults page))) as [tr Htr]. exists (e :: tr). apply runs_bind.
  exists [e], (Ok page), tr. split_and!; [done| |by rewrite Hnext].
  destruct Hp as (resp & body & -> & Hn & Hs & Hb & Hu). unfold fetchPage. rewrite Hn. cbn. eexists _, [].
  split; [done|]. split; [done|]. rewrite Hs, Hb, Hu. done.
Qed.
End pages.

(** ** Properties *)

(** A listing of tags reads the pages in the order of their links, each once, from the
    first one until a page has no link: the answer is then the tags of all pages in
    order.  It fails exactly at the first page that cannot be read.  It returns for
    every listing that ends, whatever the number of pages: as many rounds as pages are
    enough.  The source has no bound, so that only a listing that never ends keeps it
    going. *)
Theorem ListTags_complete {HL : HubLib} baseURL fuel repository pageSize :
  let first := firstURL baseURL repository pageSize in
  (forall tr r, runs (ListTags baseURL fuel repository pageSize) tr r ->
    match r with
    | Some (Ok tags) => exists l, pages first tr l "" /\ tags = tagsOf l /\ tr <> []
    | Some (Err _) => exists tr1 tr2 l next, tr = tr1 ++ tr2 /\ pages first tr1 l next /\ next <> "" /\ pageFails next tr2
    | None => exists l next, pages first tr l next /\ next <> "" /\ length tr = fuel
    end) /\
  (forall tr l, pages first tr l "" -> (length tr <= fuel)%nat ->
    runs (ListTags baseURL fuel repository pageSize) tr (Some (Ok (tagsOf l)))).
Proof.
  intros first. split.
  - intros tr r H%listPages_runs. destruct r as [[tags|e]|]; [|done..].
    destruct H as (l & Hl & ->). exists l. split_and!; [done|done|]. intros ->. inversion Hl. by eapply firstURL_nonempty.
  - intros tr l Hl Hf. exact (listPages_enough _ _ _ _ Hl eq_refl fuel [] Hf).
Qed.

(** Hangar versions become plugin versions one by one and in order.  A version with a
    download for Paper always has a URL: the direct one, or an external one that looks
    like a file, or Hangar's own download address; its hash is that of the file.  A
    version without a Paper download is kept, without URL and hash.  The Minecraft
    versions are the game versions or, if there are none, the Paper versions, and the
    compatibility of one version is computed in the same way. *)
Theorem HangarGetVersions_correct {UR : URLs} baseURL project tr r :
  runs (HangarGetVersions baseURL project) tr r ->
  match r with
  | Err _ =>
      (exists e, tr = [Ev (E := Web) (WHangarProject project) (Err e)]) \/
      exists proj e, tr = [Ev (E := Web) (WHangarProject project) (Ok proj);
                           Ev (E := Web) (WHangarVersions (hpOwner proj) (hpSlug proj) maxVersions) (Err e)]
  | Ok versions =>
      exists proj l, tr = [Ev (E := Web) (WHangarProject project) (Ok proj);
                           Ev (E := Web) (WHangarVersions (hpOwner proj) (hpSlug proj) maxVersions) (Ok l)] /\
      Forall2 (fun v pv =>
        pvVer pv = hvName v /\ pvReleaseDate pv = hvCreatedAt v /\
        (forall tr' c ver, runs (HangarGetCompatibility project ver) tr' (Ok c) ->
           tr' = [Ev (E := Web) (WHangarVersion project ver) (Ok v)] ->
           ciMinecraftVersions c = pvMinecraftVersions pv /\ ciPaperVersions c = pvPaperVersions pv) /\
        (hvGameVersions v <> [] -> pvMinecraftVersions pv = hvGameVersions v) /\
        match hvDownloads v !! platformPaper with
        | None => pvDownloadURL pv = "" /\ pvHash pv = ""
        | Some info =>
            pvHash pv = default "" (hdFileInfo info) /\
            ((hdDownloadURL info <> "" /\ pvDownloadURL pv = hdDownloadURL info) \/
             (hdDownloadURL info = "" /\ hdExternalURL info <> "" /\ isDirectDownloadURL (hdExternalURL info) = true /\
              pvDownloadURL pv = hdExternalURL info) \/
             (hdDownloadURL info = "" /\ (hdExternalURL info = "" \/ isDirectDownloadURL (hdExternalURL info) = false) /\
              HasSuffix (pvDownloadURL pv) "/PAPER/download" = true))
        end) l versions
  end.
Proof.
  intros (p & tr1 & -> & H). destruct p as [proj|e]; [|destruct H as [-> ->]; left; by exists e]. destruct H as (l & tr2 & -> & H).
  cbn [bind runs] in H. destruct H as [-> ->]. destruct l as [l|e]; [|right; by exists proj, e]. exists proj, l. split; [done|].
  clear. induction l as [|v l IH]; cbn [map]; [constructor|]. constructor; [|exact IH].
  unfold hangarVersion. destruct (extractPaperDownload baseURL v (hpOwner proj) (hpSlug proj)) as [url hash] eqn:Hd. cbn.
  split_and!; try done.
  - intros tr' c ver (y & t & -> & -> & Hy) He.
    apply (f_equal (fun l => match l with existT (WHangarVersion _ _) x :: _ => x | _ => y end)) in He. cbn in He, Hy. rewrite He in Hy. by injection Hy as ->.
  - intros Hg. unfold minecraftVersionsOf. by destruct (hvGameVersions v).
  - unfold extractPaperDownload in Hd. destruct (hvDownloads v !! platformPaper) as [info|]; [|by injection Hd as <- <-].
    injection Hd as <- <-. split; [done|].
    destruct (String.eqb_spec (hdDownloadURL info) "") as [H1|H1]; cbn [negb].
    + right. destruct (String.eqb_spec (hdExternalURL info) "") as [H2|H2]; cbn [negb andb];
        [|destruct (isDirectDownloadURL (hdExternalURL info)) eqn:H3]; cbn [String.eqb]; [right| |right].
      * split_and!; [done|by left|]. apply HasSuffix_spec. eexists. by rewrite <- !str_app_assoc.
      * left. by destruct (String.eqb_spec (hdExternalURL info) "").
      * split_and!; [done|by right|]. apply HasSuffix_spec. eexists. by rewrite <- !str_app_assoc.
    + left. by destruct (String.eqb_spec (hdDownloadURL info) "").
Qed.

(** ** Witnesses *)

(** A body is the link to the next page and the tags, separated by bars. *)
Module BarHub.
#[global] Instance lib : HubLib := {|
  newRequest _ := Ok tt;
  unmarshalTags body :=
    match SplitByte body "|"%char with
    | next :: tags => Ok (MkTagsResponse (Z.of_nat (length tags)) next "" (map MkTagResult tags))
    | [] => Err (ErrNew "empty")
    end
|}.
End BarHub.

Section witnesses.
Existing Instance BarHub.lib.
Existing Instance SplitURLs.simpleURLs.

Definition hubFirst : string := firstURL defaultBaseURL "lexfrei/papermc" 0.

(** Two pages; two Hangar versions, one of them not for Paper. *)
Definition hangarList : list HangarVersion :=
  [MkHangarVersion "2.0" 0 [] {[platformPaper := ["1.21.4"]]}
     {[platformPaper := MkHangarDownload "" "https://github.com/x/releases" (Some "abc")]};
   MkHangarVersion "1.0" 0 ["1.20"] ∅ ∅].

Definition web (h : list (event (E := Web))) (r : wreq) : wans r :=
  match r return wans r with
  | WGet url => Ok (MkHTTPResponse 200 (-1) (Ok (if (url =? hubFirst)%string then "page2|1.21.4-2|latest" else "|1.20.6-151")))
  | WCreateFile _ | WWriteFile _ _ => Ok tt
  | WPaperProject => Ok []
  | WPaperBuilds _ => Ok []
  | WHangarProject _ => Ok (MkHangarProject "o" "s")
  | WHangarVersions _ _ _ => Ok hangarList
  | WHangarVersion _ _ => Err (ErrNew "none")
  end.

Definition tagRun := exec (E := Web) web (ListTags defaultBaseURL 5 "lexfrei/papermc" 0) [].

Lemma ListTags_complete_witness :
  tagRun.2 = Some (Ok ["1.21.4-2"; "latest"; "1.20.6-151"]) /\
  exists l, pages hubFirst tagRun.1 l "" /\ tagsOf l = ["1.21.4-2"; "latest"; "1.20.6-151"].
Proof.
  assert (Hr : tagRun.2 = Some (Ok ["1.21.4-2"; "latest"; "1.20.6-151"])) by (vm_compute; reflexivity).
  split; [exact Hr|].
  pose proof (proj1 (ListTags_complete defaultBaseURL 5 "lexfrei/papermc" 0) tagRun.1 tagRun.2
    (exec_runs (E := Web) web (ListTags defaultBaseURL 5 "lexfrei/papermc" 0) [])) as H.
  rewrite Hr in H. destruct H as (l & Hl & Ht & _). exists l. split; [exact Hl | symmetry; exact Ht].
Defined.

Definition hangarRun := exec (E := Web) web (HangarGetVersions "https://hangar.papermc.io/api/v1" "Map") [].

Lemma HangarGetVersions_correct_witness :
  (exists versions, hangarRun.2 = Ok versions /\ map pvMinecraftVersions versions = [["1.21.4"]; ["1.20"]]) /\
  exists proj l, hangarRun.1 = [Ev (E := Web) (WHangarProject "Map") (Ok proj);
    Ev (E := Web) (WHangarVersions (hpOwner proj) (hpSlug proj) maxVersions) (Ok l)].
Proof.
  split; [eexists; split; vm_compute; reflexivity|].
  pose proof (HangarGetVersions_correct "https://hangar.papermc.io/api/v1" "Map" hangarRun.1 hangarRun.2
    (exec_runs (E := Web) web (HangarGetVersions "https://hangar.papermc.io/api/v1" "Map") [])) as H.
  destruct hangarRun.2 as [versions|e] eqn:Hr; [|vm_compute in Hr; discriminate Hr].
  destruct H as (proj & l & H & _). exists proj, l. exact H.
Defined.
End witnesses.
