(* ===== verification/Service.v ===== *)
(** * The service layer (pkg/service)

    The operations that the REST handlers and the web interface share: reading and
    writing servers, plugins, ConfigMaps and namespaces through the Kubernetes
    client, and the helpers that format what is shown.  A module per service; the
    structs of the layer are records with a prefix of their own. *)

From S2P Require Import Prelude GoBase Decimals Strings GoLib Durations Api Objects Plugins Effects K8s Conditions Resolve Window.
From Stdlib Require Import Ascii Sorted.

Open Scope Z_scope.

(** ** helpers.go *)

Definition FormatVersionWithBuild (version : string) (build : Z) : string :=
  if (version =? "")%string then "Unknown"
  else if 0 <? build then version +:+ "-" +:+ pretty build
  else version.

(** The loop of [splitCronExpression]: [current] is the part being read. *)
Fixpoint splitCronLoop (expr current : string) : list string :=
  match expr with
  | EmptyString => if (current =? "")%string then [] else [current]
  | String c expr =>
      if Ascii.eqb c " "%char || (nat_of_ascii c =? 9)%nat
      then (if (current =? "")%string then [] else [current]) ++ splitCronLoop expr ""
      else splitCronLoop expr (current +:+ String c "")
  end.

Definition splitCronExpression (expr : string) : list string := splitCronLoop expr "".

Definition weekdays : gmap string string :=
  list_to_map [("0", "Sunday"); ("1", "Monday"); ("2", "Tuesday"); ("3", "Wednesday"); ("4", "Thursday");
               ("5", "Friday"); ("6", "Saturday"); ("7", "Sunday")].

Definition getWeekdayName (weekday : string) : string := default "" (weekdays !! weekday).

Definition FormatCronSchedule (cronExpr : string) : string :=
  if (cronExpr =? "")%string then "Not scheduled"
  else
    match splitCronExpression cronExpr with
    | [minute; hour; day; month; weekday] =>
        if (day =? "*")%string && (month =? "*")%string && (weekday =? "*")%string then
          if (minute =? "0")%string && negb (hour =? "*")%string then "Daily at " +:+ hour +:+ ":00"
          else "Daily at " +:+ hour +:+ ":" +:+ minute
        else if (day =? "*")%string && (month =? "*")%string && negb (weekday =? "*")%string
                && negb (getWeekdayName weekday =? "")%string then
          if (minute =? "0")%string then "Every " +:+ getWeekdayName weekday +:+ " at " +:+ hour +:+ ":00"
          else "Every " +:+ getWeekdayName weekday +:+ " at " +:+ hour +:+ ":" +:+ minute
        else "Cron: " +:+ cronExpr
    | _ => "Cron: " +:+ cronExpr
    end.

Definition FormatPluginCompatibility (compatible : bool) : string :=
  if compatible then "compatible" else "incompatible".

Definition isAlphanumeric (c : ascii) : bool :=
  let n := nat_of_ascii c in ((97 <=? n) && (n <=? 122))%nat || ((48 <=? n) && (n <=? 57))%nat.

(** The last byte of a string. *)
Fixpoint lastByte (s : string) (c : ascii) : ascii :=
  match s with
  | EmptyString => c
  | String d s => lastByte s d
  end.

(** A rune beyond ASCII is refused, and so are its bytes. *)
Definition IsValidKubernetesName (name : string) : bool :=
  match name with
  | EmptyString => false
  | String first rest =>
      if (253 <? String.length name)%nat then false
      else if negb (isAlphanumeric first) || negb (isAlphanumeric (lastByte rest first)) then false
      else str_all (fun ch => isAlphanumeric ch || Ascii.eqb ch "-"%char || Ascii.eqb ch "."%char) name
  end.

(** ** Constants *)

Definition StatusRunning : string := "running".
Definition StatusUpdating : string := "updating".
Definition StatusUnknown : string := "unknown".
Definition AnnotationReconcile : string := "mc.k8s.lex.la/reconcile".
Definition ConditionStatefulSetReady : string := "StatefulSetReady".

(** ** Structs of servers.go *)

Record AvailableUpdateData := MkAvailableUpdateData {
  audVersion : string;
  audBuild : Z;
  audReleasedAt : Time
}.

Record ServerPluginData := MkServerPluginData {
  spdName : string;
  spdNamespace : string;
  spdResolvedVersion : string;
  spdCurrentVersion : string;
  spdDesiredVersion : string;
  spdCompatible : bool;
  spdSourceType : string;
  spdProject : string
}.

Record MaintenanceScheduleData := MkMaintenanceScheduleData {
  msdCheckCron : string;
  msdWindowCron : string;
  msdNextWindow : string;
  msdEnabled : bool
}.

Record UpdateHistoryData := MkUpdateHistoryData {
  uhdAppliedAt : Time;
  uhdPreviousVersion : string;
  uhdSuccessful : bool
}.

Record ServerData := MkServerData {
  sdName : string;
  sdNamespace : string;
  sdCurrentVersion : string;
  sdCurrentBuild : Z;
  sdDesiredVersion : string;
  sdDesiredBuild : Z;
  sdUpdateStrategy : string;
  sdStatus : string;
  sdPluginCount : Z;
  sdAvailableUpdate : option AvailableUpdateData;
  sdNextMaintenance : string;
  sdLabels : gmap string string;
  sdPlugins : list ServerPluginData;
  sdMaintenanceSchedule : option MaintenanceScheduleData;
  sdUpdateHistory : option UpdateHistoryData
}.
#[export] Instance eta_ServerData : Eta ServerData := fun r =>
  MkServerData (sdName r) (sdNamespace r) (sdCurrentVersion r) (sdCurrentBuild r) (sdDesiredVersion r) (sdDesiredBuild r)
    (sdUpdateStrategy r) (sdStatus r) (sdPluginCount r) (sdAvailableUpdate r) (sdNextMaintenance r) (sdLabels r)
    (sdPlugins r) (sdMaintenanceSchedule r) (sdUpdateHistory r).

Record ConfigFileData := MkConfigFileData {
  cfdConfigMapName : string;
  cfdConfigMapKey : string;
  cfdPath : string;
  cfdOverwrite : string
}.

Record ServerPluginConfigData := MkServerPluginConfigData {
  pcdPluginName : string;
  pcdConfigs : list ConfigFileData
}.

Record ServerCreateData := MkServerCreateData {
  scdName : string;
  scdNamespace : string;
  scdUpdateStrategy : string;
  scdVersion : string;
  scdBuild : Z;
  scdUpdateDelay : string;
  scdCheckCron : string;
  scdMaintenanceEnabled : bool;
  scdMaintenanceCron : string;
  scdLabels : gmap string string;
  scdPluginConfigs : list ServerPluginConfigData;
  scdServerConfigs : list ConfigFileData
}.

Record ServerUpdateData := MkServerUpdateData {
  sudNamespace : string;
  sudName : string;
  sudUpdateStrategy : option string;
  sudVersion : option string;
  sudBuild : option Z;
  sudUpdateDelay : option string;
  sudCheckCron : option string;
  sudMaintenanceEnabled : option bool;
  sudMaintenanceCron : option string;
  sudLabels : option (gmap string string)
}.

(** ** configmaps.go: conversions *)

Definition configDataToPluginConfigFiles (data : list ConfigFileData) : list PluginConfigFile :=
  map (fun cfg => MkPluginConfigFile (MkConfigMapKeyRef (cfdConfigMapName cfg) (cfdConfigMapKey cfg))
                    (cfdPath cfg) (cfdOverwrite cfg)) data.

Definition configDataToPluginConfigs (data : list ServerPluginConfigData) : list ServerPluginConfig :=
  map (fun pc => MkServerPluginConfig (pcdPluginName pc) (configDataToPluginConfigFiles (pcdConfigs pc))) data.

Definition configDataToServerConfigs (data : list ConfigFileData) : list ServerConfigFile :=
  map (fun cfg => MkServerConfigFile (MkConfigMapKeyRef (cfdConfigMapName cfg) (cfdConfigMapKey cfg))
                    (cfdPath cfg) (cfdOverwrite cfg)) data.

(** [errors.Wrapf(err, "invalid update delay %q", delay)] *)
Definition badDelay (delay : string) (e : error) : error := ErrWrap e ("invalid update delay " +:+ quoted delay).

(** The keys of a set of namespaces, in the order of the iteration. *)
Definition rangeKeys {MR : MapRange} {V} (m : gmap string V) : list string := map fst (mapRange m).

Definition namespaceSet (l : list string) (m : gmap string bool) : gmap string bool :=
  foldl (fun m ns => <[ns := true]> m) m l.

(** ** servers.go *)

Module ServerService.

Fixpoint statusOf (conditions : list Condition) : option string :=
  match conditions with
  | [] => None
  | c :: conditions =>
      if (cdType c =? ConditionStatefulSetReady)%string then
        if (cdStatus c =? ConditionTrue)%string then Some StatusRunning
        else if (cdStatus c =? ConditionFalse)%string && (cdReason c =? "Updating")%string then Some StatusUpdating
        else statusOf conditions
      else statusOf conditions
  end.

Definition DetermineStatus (server : PaperMCServer) : string :=
  match statusOf (stConditions (srvStatus server)) with
  | Some s => s
  | None => if negb (stCurrentVersion (srvStatus server) =? "")%string then StatusRunning else StatusUnknown
  end.

Definition CheckStatefulSetStatus (name namespace : string) : prog string :=
  r <- ask (RGetSts (namespace, name)) ;;
  Ret match r with
      | Err _ => StatusUnknown
      | Ok sts =>
          if (0 <? stsReadyReplicas sts) && (stsReadyReplicas sts =? stsStatusReplicas sts) then StatusRunning
          else if negb (stsCurrentRevision sts =? stsUpdateRevision sts)%string then StatusUpdating
          else StatusUnknown
      end.

Definition basicPluginData (ps : ServerPluginStatus) : ServerPluginData :=
  MkServerPluginData (prName (spPluginRef ps)) (prNamespace (spPluginRef ps)) (spResolvedVersion ps)
    (spCurrentVersion ps) (spDesiredVersion ps) (spCompatible ps) (spSource ps) "".

Definition serverToData (server : PaperMCServer) : prog ServerData :=
  let status := srvStatus server in
  let schedule := ssUpdateSchedule (srvSpec server) in
  let window := usMaintenanceWindow schedule in
  shown <- (if (DetermineStatus server =? StatusUnknown)%string
            then CheckStatefulSetStatus (srvName server) (srvNamespace server)
            else Ret (DetermineStatus server)) ;;
  Ret (MkServerData (srvName server) (srvNamespace server)
    (stCurrentVersion status) (stCurrentBuild status) (stDesiredVersion status) (stDesiredBuild status)
    (ssUpdateStrategy (srvSpec server)) shown (Z.of_nat (length (stPlugins status)))
    (option_map (fun u => MkAvailableUpdateData (auVersion u) (auBuild u) (auReleasedAt u)) (stAvailableUpdate status))
    (if mwEnabled window then FormatCronSchedule (mwCron window) else "")
    (Labels (srvMeta server))
    (map basicPluginData (stPlugins status))
    (if mwEnabled window
     then Some (MkMaintenanceScheduleData (usCheckCron schedule) (mwCron window) (FormatCronSchedule (mwCron window)) true)
     else None)
    (option_map (fun u => MkUpdateHistoryData (uhAppliedAt u) (uhPreviousVersion u) (uhSuccessful u)) (stLastUpdate status))).

Definition pluginDetail (ps : ServerPluginStatus) (r : result Plugin) : ServerPluginData :=
  match r with
  | Err _ =>
      MkServerPluginData (prName (spPluginRef ps)) (prNamespace (spPluginRef ps)) (spResolvedVersion ps)
        "" "" (spCompatible ps) "" ""
  | Ok plugin =>
      MkServerPluginData (plgName plugin) (plgNamespace plugin) (spResolvedVersion ps)
        (spCurrentVersion ps) (spDesiredVersion ps) (spCompatible ps)
        (soType (psSource (plgSpec plugin))) (soProject (psSource (plgSpec plugin)))
  end.

Fixpoint fetchPluginDetails (pluginStatuses : list ServerPluginStatus) : prog (list ServerPluginData) :=
  match pluginStatuses with
  | [] => Ret []
  | ps :: pluginStatuses =>
      r <- ask (RGetPlugin (prNamespace (spPluginRef ps), prName (spPluginRef ps))) ;;
      rest <- fetchPluginDetails pluginStatuses ;;
      Ret (pluginDetail ps r :: rest)
  end.

Fixpoint listLoop (namespace : string) (items : list PaperMCServer) : prog (list ServerData) :=
  match items with
  | [] => Ret []
  | server :: items =>
      if negb (namespace =? "")%string && negb (srvNamespace server =? namespace)%string then listLoop namespace items
      else data <- serverToData server ;; rest <- listLoop namespace items ;; Ret (data :: rest)
  end.

Definition ListServers (namespace : string) : prog (result (list ServerData)) :=
  r <- ask (RListServers "") ;;
  match r with
  | Err e => Ret (Err (ErrWrap e "failed to list PaperMCServers"))
  | Ok items => servers <- listLoop namespace items ;; Ret (Ok servers)
  end.

Definition fullData (server : PaperMCServer) : prog ServerData :=
  data <- serverToData server ;;
  plugins <- fetchPluginDetails (stPlugins (srvStatus server)) ;;
  Ret (data <| sdPlugins := plugins |>).

Definition GetServer (namespace name : string) : prog (result ServerData) :=
  r <- ask (RGetServer (namespace, name)) ;;
  match r with
  | Err e => Ret (Err (ErrWrap e "failed to get PaperMCServer"))
  | Ok server => data <- fullData server ;; Ret (Ok data)
  end.

Definition GetServerByName (name : string) : prog (result ServerData) :=
  r <- ask (RListServers "") ;;
  match r with
  | Err e => Ret (Err (ErrWrap e "failed to list PaperMCServers"))
  | Ok items =>
      match List.find (fun s => (srvName s =? name)%string) items with
      | Some server => data <- fullData server ;; Ret (Ok data)
      | None => Ret (Err (ErrNew ("PaperMCServer " +:+ quoted name +:+ " not found")))
      end
  end.

(** The value of an annotation: the seconds since the epoch in decimal. *)
Definition stamp (now : Time) : string := pretty (UnixSeconds now).

Definition annotated (annotation : string) (now : Time) (server : PaperMCServer) : PaperMCServer :=
  let m := srvMeta server in
  server <| srvMeta := m <| Annotations := <[annotation := stamp now]> (Annotations m) |> |>.

(** [TriggerReconciliation] and [ApplyNow] differ in the annotation. *)
Definition annotate (annotation namespace name : string) : prog (result unit) :=
  r <- ask (RGetServer (namespace, name)) ;;
  match r with
  | Err e => Ret (Err (ErrWrap e "failed to get server"))
  | Ok server =>
      now <- ask RNow ;;
      u <- ask (RUpdateServer (annotated annotation now server)) ;;
      Ret match u with Err e => Err (ErrWrap e "failed to update server") | Ok _ => Ok tt end
  end.

Definition TriggerReconciliation (namespace name : string) : prog (result unit) :=
  annotate AnnotationReconcile namespace name.

Definition ApplyNow (namespace name : string) : prog (result unit) := annotate AnnotationApplyNow namespace name.

Definition DeleteServer (namespace name : string) : prog (result unit) :=
  r <- ask (RGetServer (namespace, name)) ;;
  match r with
  | Err e => Ret (Err (ErrWrap e "failed to get server"))
  | Ok server =>
      d <- ask (RDeleteServer (srvKey server)) ;;
      Ret match d with Err e => Err (ErrWrap e "failed to delete server") | Ok _ => Ok tt end
  end.

(** The object that [CreateServer] sends. *)
Definition newServer (data : ServerCreateData) : result PaperMCServer :=
  let server :=
    zeroPaperMCServer
      <| srvMeta := zeroObjectMeta <| Name := scdName data |> <| Namespace := scdNamespace data |> <| Labels := scdLabels data |> |>
      <| srvSpec := zeroPaperMCServerSpec
           <| ssUpdateStrategy := scdUpdateStrategy data |> <| ssVersion := scdVersion data |>
           <| ssBuild := (if negb (scdBuild data =? 0) then Some (scdBuild data) else None) |> |> in
  let finish (delay : option Duration) :=
    let schedule := MkUpdateSchedule (scdCheckCron data)
      (if scdMaintenanceEnabled data then MkMaintenanceWindow (scdMaintenanceCron data) true else zeroMaintenanceWindow) in
    Ok (server <| srvSpec := (srvSpec server)
          <| ssUpdateDelay := delay |> <| ssUpdateSchedule := schedule |>
          <| ssPluginConfigs := configDataToPluginConfigs (scdPluginConfigs data) |>
          <| ssServerConfigs := configDataToServerConfigs (scdServerConfigs data) |> |>) in
  if negb (scdUpdateDelay data =? "")%string
  then match ParseDuration (scdUpdateDelay data) with
       | Err e => Err (badDelay (scdUpdateDelay data) e)
       | Ok d => finish (Some d)
       end
  else finish None.

Definition CreateServer (data : ServerCreateData) : prog (result unit) :=
  match newServer data with
  | Err e => Ret (Err e)
  | Ok server =>
      c <- ask (RCreateServer server) ;;
      Ret match c with Err e => Err (ErrWrap e "failed to create PaperMCServer") | Ok _ => Ok tt end
  end.

(** The object that [UpdateServer] sends: the fields that are given, one after the other. *)
Definition patchSpec {A} (given : option A) (f : A -> PaperMCServerSpec -> PaperMCServerSpec) (spec : PaperMCServerSpec)
  : PaperMCServerSpec :=
  match given with Some x => f x spec | None => spec end.

Definition setWindow (f : MaintenanceWindow -> MaintenanceWindow) (spec : PaperMCServerSpec) : PaperMCServerSpec :=
  let sched := ssUpdateSchedule spec in
  spec <| ssUpdateSchedule := sched <| usMaintenanceWindow := f (usMaintenanceWindow sched) |> |>.

Definition patchServer (data : ServerUpdateData) (server : PaperMCServer) : result PaperMCServer :=
  let spec := srvSpec server in
  let spec := patchSpec (sudUpdateStrategy data) (fun x spec => spec <| ssUpdateStrategy := x |>) spec in
  let spec := patchSpec (sudVersion data) (fun x spec => spec <| ssVersion := x |>) spec in
  let spec := patchSpec (sudBuild data) (fun x spec => spec <| ssBuild := Some x |>) spec in
  let finish (spec : PaperMCServerSpec) :=
    let spec := patchSpec (sudCheckCron data)
      (fun x spec => spec <| ssUpdateSchedule := (ssUpdateSchedule spec) <| usCheckCron := x |> |>) spec in
    let spec := patchSpec (sudMaintenanceEnabled data) (fun x => setWindow (fun w => w <| mwEnabled := x |>)) spec in
    let spec := patchSpec (sudMaintenanceCron data) (fun x => setWindow (fun w => w <| mwCron := x |>)) spec in
    let meta := match sudLabels data with
                | Some labels => (srvMeta server) <| Labels := labels |>
                | None => srvMeta server
                end in
    Ok (server <| srvMeta := meta |> <| srvSpec := spec |>) in
  match sudUpdateDelay data with
  | Some delay =>
      match ParseDuration delay with
      | Err e => Err (badDelay delay e)
      | Ok d => finish (spec <| ssUpdateDelay := Some d |>)
      end
  | None => finish spec
  end.

Definition UpdateServer (data : ServerUpdateData) : prog (result unit) :=
  r <- ask (RGetServer (sudNamespace data, sudName data)) ;;
  match r with
  | Err e => Ret (Err (ErrWrap e "failed to get server"))
  | Ok server =>
      match patchServer data server with
      | Err e => Ret (Err e)
      | Ok server =>
          u <- ask (RUpdateServer server) ;;
          Ret match u with Err e => Err (ErrWrap e "failed to update server") | Ok _ => Ok tt end
      end
  end.

Definition GetServerNamespaces {MR : MapRange} : prog (result (list string)) :=
  r <- ask (RListServers "") ;;
  Ret match r with
      | Err e => Err (ErrWrap e "failed to list PaperMCServers")
      | Ok items => Ok (rangeKeys (namespaceSet (map srvNamespace items) ∅))
      end.
End ServerService.

(** ** plugins.go *)

Record PluginVersionData := MkPluginVersionData {
  pvdVersion : string;
  pvdSupportedVersions : list string;
  pvdDownloadURL : string;
  pvdReleasedAt : Time
}.

Record MatchedInstanceData := MkMatchedInstanceData {
  midName : string;
  midNamespace : string;
  midVersion : string;
  midCompatible : bool
}.

Record PluginSourceData := MkPluginSourceData {
  psdType : string;
  psdProject : string;
  psdURL : string;
  psdChecksum : string
}.

(** The port is an int32. *)
Record PluginEndpointData := MkPluginEndpointData {
  pedName : string;
  pedPort : Z;
  pedProtocol : string
}.

Record PluginData := MkPluginData {
  pldName : string;
  pldNamespace : string;
  pldSourceType : string;
  pldProject : string;
  pldURL : string;
  pldUpdateStrategy : string;
  pldVersion : string;
  pldBuild : option Z;
  pldUpdateDelay : option Duration;
  pldEndpoints : list PluginEndpointData;
  pldResolvedVersion : string;
  pldMatchedServers : Z;
  pldRepositoryStatus : string;
  pldLastFetched : option Time;
  pldAvailableVersions : list PluginVersionData;
  pldMatchedInstances : list MatchedInstanceData
}.

Record PluginCreateData := MkPluginCreateData {
  pcrName : string;
  pcrNamespace : string;
  pcrSource : PluginSourceData;
  pcrUpdateStrategy : string;
  pcrVersion : string;
  pcrBuild : Z;
  pcrUpdateDelay : string;
  pcrEndpoints : list PluginEndpointData;
  pcrPluginDirName : string;
  pcrConfigs : list ConfigFileData;
  pcrInstanceSelector : LabelSelector
}.

Record PluginUpdateData := MkPluginUpdateData {
  pudNamespace : string;
  pudName : string;
  pudUpdateStrategy : option string;
  pudVersion : option string;
  pudBuild : option Z;
  pudUpdateDelay : option string;
  pudEndpoints : option (list PluginEndpointData);
  pudInstanceSelector : option LabelSelector
}.

Module PluginService.

Definition updateStrategyPin : string := "pin".
Definition updateStrategyPinLegacy : string := "pinned".

Definition convertEndpointsFromCRD (endpoints : list PluginEndpoint) : list PluginEndpointData :=
  map (fun ep => MkPluginEndpointData (peName ep) (pePort ep) (peProtocol ep)) endpoints.

(** The loops of [CreatePlugin] and [UpdatePlugin]. *)
Definition endpointsToCRD (endpoints : list PluginEndpointData) : list PluginEndpoint :=
  map (fun ep => MkPluginEndpoint (pedName ep) (pedPort ep) (pedProtocol ep)) endpoints.

Definition pluginToData (plugin : Plugin) : PluginData :=
  let spec := plgSpec plugin in
  let status := plgStatus plugin in
  let isPinned := (psUpdateStrategy spec =? updateStrategyPin)%string || (psUpdateStrategy spec =? updateStrategyPinLegacy)%string in
  MkPluginData (plgName plugin) (plgNamespace plugin)
    (soType (psSource spec)) (soProject (psSource spec)) (soURL (psSource spec))
    (psUpdateStrategy spec) (psVersion spec) (psBuild spec) (psUpdateDelay spec)
    (convertEndpointsFromCRD (psEndpoints spec))
    (if isPinned && negb (psVersion spec =? "")%string then psVersion spec else "")
    (Z.of_nat (length (pgMatchedInstances status))) (pgRepositoryStatus status) (pgLastFetched status)
    (map (fun v => MkPluginVersionData (viVersion v) (viMinecraftVersions v) (viDownloadURL v) (viReleasedAt v)) (pgAvailableVersions status))
    (map (fun mi => MkMatchedInstanceData (miName mi) (miNamespace mi) (miVersion mi) (miCompatible mi)) (pgMatchedInstances status)).

Definition ListPlugins (namespace : string) : prog (result (list PluginData)) :=
  r <- ask (RListPlugins "") ;;
  Ret match r with
      | Err e => Err (ErrWrap e "failed to list Plugins")
      | Ok items =>
          Ok (map pluginToData
                (List.filter (fun p => negb (negb (namespace =? "")%string && negb (plgNamespace p =? namespace)%string)) items))
      end.

Definition GetPlugin (namespace name : string) : prog (result PluginData) :=
  r <- ask (RGetPlugin (namespace, name)) ;;
  Ret match r with
      | Err e => Err (ErrWrap e "failed to get Plugin")
      | Ok plugin => Ok (pluginToData plugin)
      end.

(** The object that [CreatePlugin] sends. *)
Definition newPlugin (data : PluginCreateData) : result Plugin :=
  let src := pcrSource data in
  let finish (delay : option Duration) :=
    Ok (zeroPlugin
      <| plgMeta := zeroObjectMeta <| Name := pcrName data |> <| Namespace := pcrNamespace data |> |>
      <| plgSpec := zeroPluginSpec
           <| psSource := MkPluginSource (psdType src) (psdProject src) (psdURL src) (psdChecksum src) |>
           <| psUpdateStrategy := pcrUpdateStrategy data |> <| psVersion := pcrVersion data |>
           <| psInstanceSelector := pcrInstanceSelector data |>
           <| psBuild := (if negb (pcrBuild data =? 0) then Some (pcrBuild data) else None) |>
           <| psUpdateDelay := delay |>
           <| psEndpoints := endpointsToCRD (pcrEndpoints data) |>
           <| psPluginDirName := pcrPluginDirName data |>
           <| psConfigs := configDataToPluginConfigFiles (pcrConfigs data) |> |>) in
  if negb (pcrUpdateDelay data =? "")%string
  then match ParseDuration (pcrUpdateDelay data) with
       | Err e => Err (badDelay (pcrUpdateDelay data) e)
       | Ok d => finish (Some d)
       end
  else finish None.

Definition CreatePlugin (data : PluginCreateData) : prog (result unit) :=
  match newPlugin data with
  | Err e => Ret (Err e)
  | Ok plugin =>
      c <- ask (RCreatePlugin plugin) ;;
      Ret match c with Err e => Err (ErrWrap e "failed to create Plugin") | Ok _ => Ok tt end
  end.

Definition DeletePlugin (namespace name : string) : prog (result unit) :=
  r <- ask (RGetPlugin (namespace, name)) ;;
  match r with
  | Err e => Ret (Err (ErrWrap e "failed to get plugin"))
  | Ok plugin =>
      d <- ask (RDeletePlugin (plgKey plugin)) ;;
      Ret match d with Err e => Err (ErrWrap e "failed to delete plugin") | Ok _ => Ok tt end
  end.

Definition TriggerReconciliation (namespace name : string) : prog (result unit) :=
  r <- ask (RGetPlugin (namespace, name)) ;;
  match r with
  | Err e => Ret (Err (ErrWrap e "failed to get plugin"))
  | Ok plugin =>
      now <- ask RNow ;;
      let m := plgMeta plugin in
      let plugin := plugin <| plgMeta := m <| Annotations := <[AnnotationReconcile := pretty (UnixSeconds now)]> (Annotations m) |> |> in
      u <- ask (RUpdatePlugin plugin) ;;
      Ret match u with Err e => Err (ErrWrap e "failed to update plugin") | Ok _ => Ok tt end
  end.

Definition patchSpec {A} (given : option A) (f : A -> PluginSpec -> PluginSpec) (spec : PluginSpec) : PluginSpec :=
  match given with Some x => f x spec | None => spec end.

(** The object that [UpdatePlugin] sends. *)
Definition patchPlugin (data : PluginUpdateData) (plugin : Plugin) : result Plugin :=
  let spec := plgSpec plugin in
  let spec := patchSpec (pudUpdateStrategy data) (fun x spec => spec <| psUpdateStrategy := x |>) spec in
  let spec := patchSpec (pudVersion data) (fun x spec => spec <| psVersion := x |>) spec in
  let spec := patchSpec (pudBuild data) (fun x spec => spec <| psBuild := Some x |>) spec in
  let finish (spec : PluginSpec) :=
    let spec := patchSpec (pudEndpoints data) (fun x spec => spec <| psEndpoints := endpointsToCRD x |>) spec in
    let spec := patchSpec (pudInstanceSelector data) (fun x spec => spec <| psInstanceSelector := x |>) spec in
    Ok (plugin <| plgSpec := spec |>) in
  match pudUpdateDelay data with
  | Some delay =>
      match ParseDuration delay with
      | Err e => Err (badDelay delay e)
      | Ok d => finish (spec <| psUpdateDelay := Some d |>)
      end
  | None => finish spec
  end.

Definition UpdatePlugin (data : PluginUpdateData) : prog (result unit) :=
  r <- ask (RGetPlugin (pudNamespace data, pudName data)) ;;
  match r with
  | Err e => Ret (Err (ErrWrap e "failed to get plugin"))
  | Ok plugin =>
      match patchPlugin data plugin with
      | Err e => Ret (Err e)
      | Ok plugin =>
          u <- ask (RUpdatePlugin plugin) ;;
          Ret match u with Err e => Err (ErrWrap e "failed to update plugin") | Ok _ => Ok tt end
      end
  end.

Definition GetPluginNamespaces {MR : MapRange} : prog (result (list string)) :=
  r <- ask (RListPlugins "") ;;
  Ret match r with
      | Err e => Err (ErrWrap e "failed to list Plugins")
      | Ok items => Ok (rangeKeys (namespaceSet (map plgNamespace items) ∅))
      end.
End PluginService.

(** ** configmaps.go *)

Record ConfigMapSummary := MkConfigMapSummary {
  cmsName : string;
  cmsNamespace : string;
  cmsKeys : list string
}.

Module ConfigMapService.

Definition summarize {MR : MapRange} {GS : GoSort} (cm : ConfigMap) : ConfigMapSummary :=
  MkConfigMapSummary (Name (cmMeta cm)) (Namespace (cmMeta cm)) (SortSlice strLess (rangeKeys (cmData cm))).

Definition ListConfigMaps {MR : MapRange} {GS : GoSort} (namespace : string) : prog (result (list ConfigMapSummary)) :=
  r <- ask (RListConfigMaps namespace) ;;
  Ret match r with
      | Err e => Err (ErrWrap e "failed to list ConfigMaps")
      | Ok items => Ok (map summarize items)
      end.

Definition CreateConfigMap (namespace name : string) (data : gmap string string) : prog (result unit) :=
  c <- ask (RCreateConfigMap
              (zeroConfigMap <| cmMeta := zeroObjectMeta <| Name := name |> <| Namespace := namespace |> |> <| cmData := data |>)) ;;
  Ret match c with Err e => Err (ErrWrap e "failed to create ConfigMap") | Ok _ => Ok tt end.
End ConfigMapService.

(** ** namespaces.go *)

Module NamespaceService.

Definition ListNamespaces {MR : MapRange} : prog (result (list string)) :=
  r <- ask (RListPlugins "") ;;
  match r with
  | Err e => Ret (Err (ErrWrap e "failed to list Plugins"))
  | Ok plugins =>
      let set := namespaceSet (map plgNamespace plugins) ∅ in
      r <- ask (RListServers "") ;;
      Ret match r with
          | Err e => Err (ErrWrap e "failed to list PaperMCServers")
          | Ok servers => Ok (rangeKeys (<["default" := true]> (namespaceSet (map srvNamespace servers) set)))
          end
  end.
End NamespaceService.

(** ** Lemmas *)

Lemma SscanfD_pretty (z : Z) : 0 <= z <= maxInt64 -> SscanfD (pretty z) = Some z.
Proof.
  intros Hz. unfold SscanfD.
  assert (Hs : skipSpace (pretty z) = pretty z).
  { destruct (pretty_digits z) as [Hd Hn]; [lia|]. destruct (pretty z) as [|c s]; [done|].
    cbn [str_all] in Hd. apply andb_true_iff in Hd as [Hd _]. cbn [skipSpace].
    destruct (isSkippedSpace c) eqn:Hc; [|done]. unfold isDigit, isSkippedSpace in *.
    apply andb_true_iff in Hd as [Hd _]. apply Nat.leb_le in Hd. rewrite !orb_true_iff, !Nat.eqb_eq in Hc. lia. }
  rewrite Hs. pose proof (scanSign_pretty z "" ltac:(lia)) as Hsign. rewrite str_app_nil_r in Hsign. rewrite Hsign.
  pose proof (scanDigits_pretty z "" ltac:(lia)) as [k Hk]. rewrite str_app_nil_r in Hk. rewrite Hk.
  cbn [scanDigits Nat.eqb signed]. unfold inInt64b.
  assert ((minInt64 <=? z) && (z <=? maxInt64) = true) as ->; [|done]. unfold minInt64 in *. lia.
Qed.

Lemma Unix_UnixSeconds (t : Time) : Unix (UnixSeconds t) = t - t mod Second.
Proof. unfold Unix, UnixSeconds. pose proof (Z.div_mod t Second ltac:(done)). lia. Qed.

Lemma namespaceSet_spec l m ns : is_Some (namespaceSet l m !! ns) <-> ns ∈ l \/ is_Some (m !! ns).
Proof.
  unfold namespaceSet. revert m. induction l as [|x l IH]; intros m; cbn [foldl]; [set_solver|].
  rewrite IH, lookup_insert_is_Some, elem_of_cons. destruct (decide (x = ns)); naive_solver.
Qed.

Lemma elem_of_rangeKeys {MR : MapRange} {ML : MapRangeLaws} {V} (m : gmap string V) k :
  k ∈ rangeKeys m <-> is_Some (m !! k).
Proof.
  unfold rangeKeys. rewrite elem_of_map. split.
  - intros ([k' v] & -> & H%elem_of_mapRange). by exists v.
  - intros [v H]. exists (k, v). by rewrite elem_of_mapRange.
Qed.

Lemma NoDup_rangeKeys {MR : MapRange} {ML : MapRangeLaws} {V} (m : gmap string V) : NoDup (rangeKeys m).
Proof. unfold rangeKeys. rewrite mapRange_perm. apply NoDup_fst_map_to_list. Qed.

(** ** Servers: properties *)

(** What [UpdateServer] may send: every field is the given one or the one that was. *)
Record updatedFrom (data : ServerUpdateData) (delay : option Duration) (server sent : PaperMCServer) : Prop := {
  uf_status : srvStatus sent = srvStatus server;
  uf_meta : srvMeta sent = (srvMeta server) <| Labels := default (Labels (srvMeta server)) (sudLabels data) |>;
  uf_strategy : ssUpdateStrategy (srvSpec sent) = default (ssUpdateStrategy (srvSpec server)) (sudUpdateStrategy data);
  uf_version : ssVersion (srvSpec sent) = default (ssVersion (srvSpec server)) (sudVersion data);
  uf_build : ssBuild (srvSpec sent) = match sudBuild data with Some b => Some b | None => ssBuild (srvSpec server) end;
  uf_delay : ssUpdateDelay (srvSpec sent) = match delay with Some d => Some d | None => ssUpdateDelay (srvSpec server) end;
  uf_cron : usCheckCron (ssUpdateSchedule (srvSpec sent)) =
    default (usCheckCron (ssUpdateSchedule (srvSpec server))) (sudCheckCron data);
  uf_enabled : mwEnabled (usMaintenanceWindow (ssUpdateSchedule (srvSpec sent))) =
    default (mwEnabled (usMaintenanceWindow (ssUpdateSchedule (srvSpec server)))) (sudMaintenanceEnabled data);
  uf_window : mwCron (usMaintenanceWindow (ssUpdateSchedule (srvSpec sent))) =
    default (mwCron (usMaintenanceWindow (ssUpdateSchedule (srvSpec server)))) (sudMaintenanceCron data);
  uf_shutdown : ssGracefulShutdown (srvSpec sent) = ssGracefulShutdown (srvSpec server);
  uf_rcon : ssRCON (srvSpec sent) = ssRCON (srvSpec server);
  uf_service : ssService (srvSpec sent) = ssService (srvSpec server);
  uf_gateway : ssGateway (srvSpec sent) = ssGateway (srvSpec server);
  uf_backup : ssBackup (srvSpec sent) = ssBackup (srvSpec server);
  uf_network : ssNetwork (srvSpec sent) = ssNetwork (srvSpec server);
  uf_plugins : ssPluginConfigs (srvSpec sent) = ssPluginConfigs (srvSpec server);
  uf_files : ssServerConfigs (srvSpec sent) = ssServerConfigs (srvSpec server);
  uf_pod : ssPodTemplate (srvSpec sent) = ssPodTemplate (srvSpec server)
}.

(** The delay that is given, parsed. *)
Definition parsedDelay (given : option string) : result (option Duration) :=
  match given with
  | None => Ok None
  | Some delay => match ParseDuration delay with Ok d => Ok (Some d) | Err e => Err (badDelay delay e) end
  end.

Lemma patchServer_spec data server :
  match parsedDelay (sudUpdateDelay data) with
  | Err e => ServerService.patchServer data server = Err e
  | Ok delay => exists sent, ServerService.patchServer data server = Ok sent /\ updatedFrom data delay server sent
  end.
Proof.
  unfold parsedDelay, ServerService.patchServer.
  destruct data as [ns nm st ve bu de cc me mc la], server as [[] [] status]. cbn.
  destruct de as [de|]; [destruct (ParseDuration de); [|done]|]; eexists; (split; [reflexivity|]);
    destruct st, ve, bu, cc, me, mc, la; constructor; reflexivity.
Qed.

(** Updating a server reads it once and sends it back at most once, with exactly
    the given fields changed: the strategy, the version, the build, the delay, the
    schedule and the labels are the given ones or the ones that were, everything
    else (RCON, service, gateway, backups, network, configuration files, pod
    template, status, annotations, finalizers) is kept.  A delay that does not parse
    is an error before anything is sent, and a refused write is an error. *)
Theorem UpdateServer_exact data tr r :
  runs (ServerService.UpdateServer data) tr r ->
  exists got rest, tr = Ev (E := K8s) (RGetServer (sudNamespace data, sudName data)) got :: rest /\
    match got, parsedDelay (sudUpdateDelay data) with
    | Err e, _ => rest = [] /\ r = Err (ErrWrap e "failed to get server")
    | Ok _, Err e => rest = [] /\ r = Err e
    | Ok server, Ok delay =>
        exists sent u, rest = [Ev (E := K8s) (RUpdateServer sent) u] /\ isOk r = isOk u /\ updatedFrom data delay server sent
    end.
Proof.
  unfold ServerService.UpdateServer, ask, call. cbn [bind runs]. intros (got & rest & -> & H). exists got, rest. split; [done|].
  destruct got as [server|e]; [|by destruct H as [-> ->]].
  pose proof (patchServer_spec data server) as Hp.
  destruct (parsedDelay _) as [delay|e]; [|rewrite Hp in H; by destruct H as [-> ->]].
  destruct Hp as (sent & Hs & Hu). rewrite Hs in H. cbn [bind runs] in H. destruct H as (u & t & -> & -> & ->).
  exists sent, u. by destruct u.
Qed.

(** C24: Asking for an update now is honoured.  A successful [ApplyNow] reads the server,
    then the clock, and sends the server back with the annotation as the only change;
    the update controller honours that annotation until five minutes after the second
    the clock was in, and not after. *)
Theorem ApplyNow_honoured namespace name tr :
  runs (ServerService.ApplyNow namespace name) tr (Ok tt) ->
  exists server now sent kept, tr = [Ev (E := K8s) (RGetServer (namespace, name)) (Ok server); Ev (E := K8s) RNow now;
                                     Ev (E := K8s) (RUpdateServer sent) (Ok kept)] /\
    srvSpec sent = srvSpec server /\ srvStatus sent = srvStatus server /\
    delete AnnotationApplyNow (Annotations (srvMeta sent)) = delete AnnotationApplyNow (Annotations (srvMeta server)) /\
    (0 <= UnixSeconds now <= maxInt64 ->
     forall later, shouldApplyNow later sent = true <-> later <= now - now mod Second + 5 * Minute).
Proof.
  unfold ServerService.ApplyNow, ServerService.annotate, ask, call. cbn [bind runs]. intros (got & rest & -> & H).
  destruct got as [server|e]; [|by destruct H as [_ [=]]]. cbn [bind runs] in H.
  destruct H as (now & t & -> & u & t' & -> & -> & Hr). destruct u as [kept|e]; [|done].
  eexists server, now, _, kept. split; [reflexivity|]. split; [done|]. split; [done|].
  split; [cbn; by rewrite delete_insert_eq|]. intros Hn later. unfold shouldApplyNow.
  cbn -[applyNowMaxAge Sub]. rewrite lookup_insert_eq. unfold ServerService.stamp. rewrite SscanfD_pretty, Unix_UnixSeconds by done.
  rewrite negb_true_iff, Z.ltb_ge. unfold applyNowMaxAge, Sub. 
  assert (HA : 0 < 5 * Minute < maxInt64) by by vm_compute. assert (minInt64 < 0) by by vm_compute. lia.
Qed.

(** What a client is shown of a server: its own fields, and one of the three statuses. *)
Record shownAs (server : PaperMCServer) (d : ServerData) : Prop := {
  sa_name : sdName d = srvName server;
  sa_namespace : sdNamespace d = srvNamespace server;
  sa_version : sdCurrentVersion d = stCurrentVersion (srvStatus server);
  sa_desired : sdDesiredVersion d = stDesiredVersion (srvStatus server);
  sa_strategy : sdUpdateStrategy d = ssUpdateStrategy (srvSpec server);
  sa_labels : sdLabels d = Labels (srvMeta server);
  sa_count : sdPluginCount d = Z.of_nat (length (stPlugins (srvStatus server)));
  sa_status : sdStatus d = StatusRunning \/ sdStatus d = StatusUpdating \/ sdStatus d = StatusUnknown;
  sa_known : ServerService.DetermineStatus server <> StatusUnknown -> sdStatus d = ServerService.DetermineStatus server
}.

Lemma statusOf_cases conds s : ServerService.statusOf conds = Some s -> s = StatusRunning \/ s = StatusUpdating.
Proof.
  induction conds as [|c conds IH]; cbn [ServerService.statusOf]; [done|].
  destruct (_ =? _)%string; [|done]. destruct (_ =? _)%string; [intros [= <-]; auto|].
  destruct (_ && _); [intros [= <-]; auto | done].
Qed.

Lemma DetermineStatus_cases server :
  ServerService.DetermineStatus server = StatusRunning \/ ServerService.DetermineStatus server = StatusUpdating \/
  ServerService.DetermineStatus server = StatusUnknown.
Proof.
  unfold ServerService.DetermineStatus. destruct (ServerService.statusOf _) as [s|] eqn:Hs.
  - apply statusOf_cases in Hs as [->| ->]; auto.
  - destruct (negb _); auto.
Qed.

Lemma serverToData_shown server tr d : runs (ServerService.serverToData server) tr d -> shownAs server d.
Proof.
  unfold ServerService.serverToData. cbv zeta. intros (tr1 & s & tr2 & -> & Hs & -> & ->)%runs_bind.
  pose proof (DetermineStatus_cases server) as Hd.
  assert (Hshown : (s = StatusRunning \/ s = StatusUpdating \/ s = StatusUnknown) /\
    (ServerService.DetermineStatus server <> StatusUnknown -> s = ServerService.DetermineStatus server)).
  { destruct (String.eqb_spec (ServerService.DetermineStatus server) StatusUnknown) as [He|He].
    - split; [|done]. unfold ServerService.CheckStatefulSetStatus, ask, call in Hs. cbn [bind runs] in Hs.
      destruct Hs as (y & t & -> & -> & ->). destruct y as [sts|e]; [|auto].
      destruct (_ && _); [auto|]. destruct (negb _); auto.
    - destruct Hs as [_ ->]. split; [|done]. done. }
  destruct Hshown as [H1 H2]. by constructor.
Qed.

Definition inNamespace (namespace : string) (server : PaperMCServer) : bool :=
  (namespace =? "")%string || (srvNamespace server =? namespace)%string.

Lemma listLoop_shown namespace items tr l :
  runs (ServerService.listLoop namespace items) tr l -> Forall2 shownAs (List.filter (inNamespace namespace) items) l.
Proof.
  revert tr l. induction items as [|server items IH]; intros tr l; cbn [ServerService.listLoop List.filter].
  - intros [_ ->]. constructor.
  - replace (negb (namespace =? "")%string && negb (srvNamespace server =? namespace)%string)
      with (negb (inNamespace namespace server)) by (unfold inNamespace; by rewrite negb_orb).
    destruct (inNamespace namespace server); cbn [negb]; [|by apply IH].
    intros (t1 & d & t2 & -> & Hd & (t3 & rest & t4 & -> & Hl & -> & ->)%runs_bind)%runs_bind.
    constructor; [by eapply serverToData_shown | by eapply IH].
Qed.

Lemma ListServers_shown namespace tr l :
  runs (ServerService.ListServers namespace) tr (Ok l) ->
  exists items tr', tr = Ev (E := K8s) (RListServers "") (Ok items) :: tr' /\
    Forall2 shownAs (List.filter (inNamespace namespace) items) l.
Proof.
  unfold ServerService.ListServers, ask, call. cbn [bind runs]. intros (got & tr' & -> & H).
  destruct got as [items|e]; [|by destruct H as [_ [=]]].
  apply runs_bind in H as (t1 & l' & t2 & -> & Hl & -> & [= ->]). eexists _, _. split; [done|]. by eapply listLoop_shown.
Qed.

Lemma fullData_shown server tr d : runs (ServerService.fullData server) tr d -> shownAs server d.
Proof.
  unfold ServerService.fullData.
  intros (t1 & d' & t2 & -> & Hd%serverToData_shown & (t3 & pl & t4 & -> & _ & -> & ->)%runs_bind)%runs_bind.
  destruct Hd. by constructor.
Qed.

Lemma GetServer_shown namespace name tr d :
  runs (ServerService.GetServer namespace name) tr (Ok d) ->
  exists server tr', tr = Ev (E := K8s) (RGetServer (namespace, name)) (Ok server) :: tr' /\ shownAs server d.
Proof.
  unfold ServerService.GetServer, ask, call. cbn [bind runs]. intros (got & tr' & -> & H).
  destruct got as [server|e]; [|by destruct H as [_ [=]]].
  apply runs_bind in H as (t1 & l' & t2 & -> & Hl & -> & [= ->]). eexists _, _. split; [done|]. by eapply fullData_shown.
Qed.

(** A server whose StatefulSet is reported as not ready, by the condition that the
    reconciler writes, is shown as running as soon as it has a version. *)
Lemma DetermineStatus_notReady server :
  (forall c, c ∈ stConditions (srvStatus server) -> cdType c = ConditionStatefulSetReady ->
     cdStatus c = ConditionFalse /\ cdReason c = "StatefulSetNotReady") ->
  stCurrentVersion (srvStatus server) <> "" -> ServerService.DetermineStatus server = StatusRunning.
Proof.
  intros Hc Hv. unfold ServerService.DetermineStatus.
  assert (ServerService.statusOf (stConditions (srvStatus server)) = None) as ->.
  { induction (stConditions (srvStatus server)) as [|c conds IH]; [done|]. cbn [ServerService.statusOf].
    destruct (String.eqb_spec (cdType c) ConditionStatefulSetReady) as [Ht|Ht]; [|apply IH; set_solver].
    destruct (Hc c) as [Hs Hr]; [set_solver | done |]. rewrite Hs, Hr. apply IH. set_solver. }
  by rewrite (proj2 (String.eqb_neq _ _) Hv).
Qed.

(** ** Plugins, ConfigMaps and namespaces: properties *)

(** The namespaces offered are, each once, [default] and those of the plugins and servers. *)
Theorem ListNamespaces_exact {MR : MapRange} {ML : MapRangeLaws} tr l :
  runs NamespaceService.ListNamespaces tr (Ok l) ->
  exists plugins servers, tr = [Ev (E := K8s) (RListPlugins "") (Ok plugins); Ev (E := K8s) (RListServers "") (Ok servers)] /\
    NoDup l /\
    forall ns, ns ∈ l <-> ns = "default" \/ ns ∈ map plgNamespace plugins \/ ns ∈ map srvNamespace servers.
Proof.
  unfold NamespaceService.ListNamespaces, ask, call. cbn [bind runs]. intros (got & tr' & -> & H).
  destruct got as [plugins|e]; [|by destruct H as [_ [=]]]. cbn [bind runs] in H. destruct H as (y & t & -> & -> & Hr).
  destruct y as [servers|e]; [|done]. injection Hr as ->. exists plugins, servers. split; [done|].
  split; [apply NoDup_rangeKeys|]. intros ns.
  pose proof (is_Some_None (A := bool)). rewrite elem_of_rangeKeys, lookup_insert_is_Some, !namespaceSet_spec, lookup_empty.
  destruct (decide ("default" = ns)); naive_solver.
Qed.

(** The keys of a ConfigMap are listed in alphabetical order. *)
Lemma summarize_keys {MR : MapRange} {ML : MapRangeLaws} {GS : GoSort} {GL : GoSortLaws} cm :
  let keys := cmsKeys (ConfigMapService.summarize cm) in
  (forall k, k ∈ keys <-> is_Some (cmData cm !! k)) /\ StronglySorted (fun a b => strLess b a = false) keys.
Proof.
  cbn. split; [intros k; by rewrite SortSlice_perm, elem_of_rangeKeys|].
  apply (SortSlice_ordered strLess), (weakOrder_string id).
Qed.

(** ** What the operations write *)

(** The event is a write that the API server accepted. *)
Definition wrote (e : event) : bool :=
  let '(existT r y) := e in
  match r as r return kans r -> bool with
  | RCreateServer _ | RUpdateServer _ => isOk
  | RDeleteServer _ | RDeletePlugin _ => isOk
  | RCreatePlugin _ | RUpdatePlugin _ => isOk
  | RCreateConfigMap _ => isOk
  | _ => fun _ => false
  end y.

(** How many writes a run made. *)
Definition writes (tr : list event) : nat := length (List.filter wrote tr).

Lemma writes_app a b : writes (a ++ b) = (writes a + writes b)%nat.
Proof. unfold writes. by rewrite List.filter_app, length_app. Qed.

(** An operation writes exactly when it succeeds, and then once. *)
Definition writesOnce {A} (p : prog (result A)) : Prop :=
  forall tr r, runs p tr r -> writes tr = if isOk r then 1%nat else 0%nat.

Definition readsOnly {A} (p : prog A) : Prop := forall tr r, runs p tr r -> writes tr = 0%nat.

Lemma readsOnly_bind {A B} (p : prog A) (f : A -> prog B) :
  readsOnly p -> (forall a, readsOnly (f a)) -> readsOnly (bind p f).
Proof.
  intros Hp Hf tr b (t1 & a & t2 & -> & H1 & H2)%runs_bind. by rewrite writes_app, (Hp _ _ H1), (Hf _ _ _ H2).
Qed.

Lemma readsOnly_ret {A} (a : A) : readsOnly (Ret a).
Proof. by intros tr r [-> _]. Qed.

(** The runs of straight-line code, one request at a time. *)
Ltac run_steps :=
  repeat match goal with
  | H : runs (Ret _) _ _ |- _ => destruct H as [-> ->]
  | H : runs (Call _ _) _ _ |- _ => destruct H as (? & ? & -> & H)
  | H : runs (bind _ _) _ _ |- _ => progress cbn [bind] in H
  | H : runs (match (match ?x with _ => _ end) with _ => _ end) _ _ |- _ => destruct x
  | H : runs (match ?x with _ => _ end) _ _ |- _ => destruct x
  end.

Ltac writes_once := intros tr r H; unfold ask, call in H; cbn [bind] in H; run_steps; cbn; repeat case_match; done.

Lemma CreateServer_writes data : writesOnce (ServerService.CreateServer data).
Proof. unfold ServerService.CreateServer. writes_once. Qed.

Lemma UpdateServer_writes data : writesOnce (ServerService.UpdateServer data).
Proof. unfold ServerService.UpdateServer. writes_once. Qed.

Lemma DeleteServer_writes namespace name : writesOnce (ServerService.DeleteServer namespace name).
Proof. unfold ServerService.DeleteServer. writes_once. Qed.

Lemma annotate_writes annotation namespace name : writesOnce (ServerService.annotate annotation namespace name).
Proof. unfold ServerService.annotate. writes_once. Qed.

Lemma CreatePlugin_writes data : writesOnce (PluginService.CreatePlugin data).
Proof. unfold PluginService.CreatePlugin. writes_once. Qed.

Lemma UpdatePlugin_writes data : writesOnce (PluginService.UpdatePlugin data).
Proof. unfold PluginService.UpdatePlugin. writes_once. Qed.

Lemma DeletePlugin_writes namespace name : writesOnce (PluginService.DeletePlugin namespace name).
Proof. unfold PluginService.DeletePlugin. writes_once. Qed.

Lemma TriggerReconciliation_writes namespace name : writesOnce (PluginService.TriggerReconciliation namespace name).
Proof. unfold PluginService.TriggerReconciliation. cbv zeta. writes_once. Qed.

Lemma CreateConfigMap_writes namespace name data : writesOnce (ConfigMapService.CreateConfigMap namespace name data).
Proof. unfold ConfigMapService.CreateConfigMap. writes_once. Qed.

Lemma serverToData_reads server : readsOnly (ServerService.serverToData server).
Proof.
  unfold ServerService.serverToData. cbv zeta. apply readsOnly_bind; [|intros; apply readsOnly_ret].
  destruct (_ =? _)%string; [|apply readsOnly_ret]. intros tr r H. unfold ServerService.CheckStatefulSetStatus, ask, call in H.
  cbn [bind] in H. by run_steps.
Qed.

Lemma fetchPluginDetails_reads l : readsOnly (ServerService.fetchPluginDetails l).
Proof.
  induction l as [|ps l IH]; [apply readsOnly_ret|]. cbn [ServerService.fetchPluginDetails].
  apply readsOnly_bind; [by intros tr r (y & t & -> & -> & ->)|]. intros y. apply readsOnly_bind; [done|]. intros; apply readsOnly_ret.
Qed.

Lemma fullData_reads server : readsOnly (ServerService.fullData server).
Proof.
  unfold ServerService.fullData. apply readsOnly_bind; [apply serverToData_reads|]. intros d.
  apply readsOnly_bind; [apply fetchPluginDetails_reads|]. intros; apply readsOnly_ret.
Qed.

Lemma GetServer_reads namespace name : readsOnly (ServerService.GetServer namespace name).
Proof.
  unfold ServerService.GetServer. apply readsOnly_bind; [by intros tr r (y & t & -> & -> & ->)|].
  intros [server|e]; [|apply readsOnly_ret]. apply readsOnly_bind; [apply fullData_reads|]. intros; apply readsOnly_ret.
Qed.

Lemma ListServers_reads namespace : readsOnly (ServerService.ListServers namespace).
Proof.
  unfold ServerService.ListServers. apply readsOnly_bind; [by intros tr r (y & t & -> & -> & ->)|].
  intros [items|e]; [|apply readsOnly_ret]. apply readsOnly_bind; [|intros; apply readsOnly_ret].
  induction items as [|server items IH]; [apply readsOnly_ret|]. cbn [ServerService.listLoop]. destruct (_ && _); [done|].
  apply readsOnly_bind; [apply serverToData_reads|]. intros d. apply readsOnly_bind; [done|]. intros; apply readsOnly_ret.
Qed.

Ltac reads_only := intros tr r H; unfold ask, call in H; cbn [bind] in H; by run_steps.

Lemma GetPlugin_reads namespace name : readsOnly (PluginService.GetPlugin namespace name).
Proof. unfold PluginService.GetPlugin. reads_only. Qed.

Lemma ListPlugins_reads namespace : readsOnly (PluginService.ListPlugins namespace).
Proof. unfold PluginService.ListPlugins. reads_only. Qed.

Lemma ListConfigMaps_reads {MR : MapRange} {GS : GoSort} namespace : readsOnly (ConfigMapService.ListConfigMaps namespace).
Proof. unfold ConfigMapService.ListConfigMaps. reads_only. Qed.

Lemma ListNamespaces_reads {MR : MapRange} : readsOnly NamespaceService.ListNamespaces.
Proof. unfold NamespaceService.ListNamespaces. reads_only. Qed.

(** The writes of plugins and the creation of servers send what is computed from the request. *)
Lemma CreatePlugin_sends data tr r :
  runs (PluginService.CreatePlugin data) tr r ->
  match PluginService.newPlugin data with
  | Err e => tr = [] /\ r = Err e
  | Ok plugin => exists c, tr = [Ev (E := K8s) (RCreatePlugin plugin) c] /\ isOk r = isOk c
  end.
Proof.
  unfold PluginService.CreatePlugin. destruct (PluginService.newPlugin data); [|by intros [-> ->]].
  intros (c & t & -> & -> & ->). exists c. by destruct c.
Qed.

Lemma CreateServer_sends data tr r :
  runs (ServerService.CreateServer data) tr r ->
  match ServerService.newServer data with
  | Err e => tr = [] /\ r = Err e
  | Ok server => exists c, tr = [Ev (E := K8s) (RCreateServer server) c] /\ isOk r = isOk c
  end.
Proof.
  unfold ServerService.CreateServer. destruct (ServerService.newServer data); [|by intros [-> ->]].
  intros (c & t & -> & -> & ->). exists c. by destruct c.
Qed.

Lemma UpdatePlugin_sends data tr r :
  runs (PluginService.UpdatePlugin data) tr r ->
  exists got rest, tr = Ev (E := K8s) (RGetPlugin (pudNamespace data, pudName data)) got :: rest /\
    match got with
    | Err e => rest = []
    | Ok plugin =>
        match PluginService.patchPlugin data plugin with
        | Err e => rest = []
        | Ok sent => exists u, rest = [Ev (E := K8s) (RUpdatePlugin sent) u] /\ isOk r = isOk u
        end
    end.
Proof.
  unfold PluginService.UpdatePlugin, ask, call. cbn [bind runs]. intros (got & rest & -> & H). exists got, rest. split; [done|].
  destruct got as [plugin|e]; [|by destruct H as [-> _]].
  destruct (PluginService.patchPlugin data plugin) as [sent|e]; [|by destruct H as [-> _]]. cbn [bind runs] in H.
  destruct H as (u & t & -> & -> & ->). exists u. by destruct u.
Qed.

(** ** Examples *)

(** A cluster with one server, at a given time. *)
Definition oneServer (server : PaperMCServer) (now : Time) (r : kreq) : kans r :=
  match r return kans r with
  | RGetServer _ => Ok server
  | RListServers _ => Ok [server]
  | RNow => now
  | r => idle r
  end.

Definition survival : PaperMCServer :=
  zeroPaperMCServer
    <| srvMeta := zeroObjectMeta <| Name := "survival" |> <| Namespace := "games" |> |>
    <| srvSpec := zeroPaperMCServerSpec <| ssUpdateStrategy := "auto" |> <| ssRCON := MkRCONConfig true (MkSecretKeyRef "rcon" "password") 25575 |> |>
    <| srvStatus := zeroPaperMCServerStatus <| stCurrentVersion := "1.21.1" |>
         <| stConditions := [zeroCondition <| cdType := "StatefulSetReady" |> <| cdStatus := "False" |> <| cdReason := "StatefulSetNotReady" |>] |> |>.

Definition pinUpdate : ServerUpdateData :=
  MkServerUpdateData "games" "survival" (Some "pin") (Some "1.21.4") None (Some "24h") None None None None.

Lemma UpdateServer_exact_witness :
  let run := exec (fun _ => oneServer survival 0) (ServerService.UpdateServer pinUpdate) [] in
  run.2 = Ok tt /\
  exists sent u, run.1 = [Ev (E := K8s) (RGetServer ("games", "survival")) (Ok survival); Ev (E := K8s) (RUpdateServer sent) u] /\
    updatedFrom pinUpdate (Some (24 * Hour)) survival sent.
Proof.
  intros run. split; [by vm_compute|].
  assert (Hrun : runs (ServerService.UpdateServer pinUpdate) run.1 run.2)
    by exact (exec_runs (fun _ => oneServer survival 0) (ServerService.UpdateServer pinUpdate) []).
  destruct (UpdateServer_exact pinUpdate _ _ Hrun) as (got & rest & Ht & H).
  assert (Hg : got = Ok survival).
  { assert (Hh : head run.1 = Some (Ev (E := K8s) (RGetServer ("games", "survival")) (Ok survival))) by reflexivity.
    rewrite Ht in Hh. by apply (f_equal (fun o => match o with Some (existT (RGetServer _) x) => x | _ => Ok survival end)) in Hh. }
  subst got.
  assert (Hd : parsedDelay (sudUpdateDelay pinUpdate) = Ok (Some (24 * Hour))) by by vm_compute.
  rewrite Hd in H. destruct H as (sent & u & -> & _ & Hu). exists sent, u. split; [exact Ht | exact Hu].
Defined.

(** A quarter to two o'clock and 700 ms after the epoch. *)
Definition quarterToTwo : Time := Unix 6300 + 700000000.

Lemma ApplyNow_honoured_witness :
  let run := exec (fun _ => oneServer survival quarterToTwo) (ServerService.ApplyNow "games" "survival") [] in
  exists sent kept, nth_error run.1 2 = Some (Ev (E := K8s) (RUpdateServer sent) (Ok kept)) /\
    shouldApplyNow (quarterToTwo + 4 * Minute) sent = true /\ shouldApplyNow (quarterToTwo + 5 * Minute) sent = false.
Proof.
  intros run.
  assert (Hrun : runs (ServerService.ApplyNow "games" "survival") run.1 run.2)
    by exact (exec_runs (fun _ => oneServer survival quarterToTwo) (ServerService.ApplyNow "games" "survival") []).
  assert (Hok : run.2 = Ok tt) by by vm_compute. rewrite Hok in Hrun.
  destruct (ApplyNow_honoured "games" "survival" _ Hrun) as (server & now & sent & kept & Ht & _ & _ & _ & H).
  assert (Hn : now = quarterToTwo).
  { assert (Hh : nth_error run.1 1 = Some (Ev (E := K8s) RNow quarterToTwo)) by reflexivity.
    rewrite Ht in Hh. by apply (f_equal (fun o => match o with Some (existT RNow x) => x | _ => quarterToTwo end)) in Hh. }
  subst now. specialize (H ltac:(by vm_compute)). exists sent, kept. rewrite Ht. split; [done|].
  split; [apply H; by vm_compute|]. apply not_true_is_false. rewrite H. by vm_compute.
Defined.

(** A window at every hour, and one every six hours at a quarter past, read as times of a day. *)
Example FormatCronSchedule_examples :
  map FormatCronSchedule ["0 4 * * 0"; "30 4 * * *"; "5 4 * * *"; "0 */6 * * *"; "* * * * *"; "0 4 1 * *"; ""] =
  ["Every Sunday at 4:00"; "Daily at 4:30"; "Daily at 4:5"; "Daily at */6:00"; "Daily at *:*"; "Cron: 0 4 1 * *"; "Not scheduled"].
Proof. by vm_compute. Qed.
