(* ===== verification/Targets.v ===== *)
(** * Which object an operation of the service layer writes

    An operation that changes something names one object; the lemmas here say that
    nothing else is written, if the API server answers a read with the object that was
    asked for.  The REST API and the web interface use them. *)

From S2P Require Import Prelude GoBase Decimals Strings GoLib Durations Api Objects Effects K8s Service.

Open Scope Z_scope.

(** A kind of object and its key. *)
Inductive object := OServer (k : key) | OPlugin (k : key) | OConfigMap (k : key).

(** The object that an event writes. *)
Definition written (e : event) : option object :=
  match reqOf e with
  | RDeleteServer k => Some (OServer k)
  | RCreateServer s | RUpdateServer s => Some (OServer (srvKey s))
  | RDeletePlugin k => Some (OPlugin k)
  | RCreatePlugin p | RUpdatePlugin p => Some (OPlugin (plgKey p))
  | RCreateConfigMap c => Some (OConfigMap (Namespace (cmMeta c), Name (cmMeta c)))
  | _ => None
  end.

(** The API server answers a read with the object that was asked for. *)
Definition readsHonestly (e : event) : Prop :=
  match e with
  | existT (RGetServer k) (Ok s) => srvKey s = k
  | existT (RGetPlugin k) (Ok p) => plgKey p = k
  | _ => True
  end.

(** A program writes to no object but [o]. *)
Definition writesTo {A} (o : option object) (p : prog A) : Prop :=
  forall tr x, runs p tr x -> Forall readsHonestly tr -> Forall (fun e => wrote e = true -> written e = o) tr.

Lemma honest_server k s : readsHonestly (Ev (E := K8s) (RGetServer k) (Ok s)) -> srvKey s = k.
Proof. done. Qed.

Lemma honest_plugin k p : readsHonestly (Ev (E := K8s) (RGetPlugin k) (Ok p)) -> plgKey p = k.
Proof. done. Qed.

(** Straight-line code. *)
Ltac writes_to :=
  intros tr x H Hh; unfold ask, call in H; cbn [bind] in H; run_steps;
  repeat match goal with
  | H : Forall readsHonestly (_ :: _) |- _ => apply Forall_cons in H as [? H]
  end;
  repeat (apply Forall_cons_2; [|]); try apply Forall_nil_2;
  intros Hw; first [reflexivity | (cbn in Hw; discriminate Hw) |
    match goal with
    | H : readsHonestly (Ev _ (Ok _)) |- _ => first [apply honest_server in H | apply honest_plugin in H]; rewrite <- H; reflexivity
    end].

Lemma annotate_to annotation ns name : writesTo (Some (OServer (ns, name))) (ServerService.annotate annotation ns name).
Proof. unfold ServerService.annotate. writes_to. Qed.

Lemma triggerPlugin_to ns name : writesTo (Some (OPlugin (ns, name))) (PluginService.TriggerReconciliation ns name).
Proof. unfold PluginService.TriggerReconciliation. cbv zeta. writes_to. Qed.

Lemma createConfigMap_to ns name data : writesTo (Some (OConfigMap (ns, name))) (ConfigMapService.CreateConfigMap ns name data).
Proof. unfold ConfigMapService.CreateConfigMap. writes_to. Qed.

(** ** Operations on servers and plugins *)

Lemma newServer_key data server : ServerService.newServer data = Ok server -> srvKey server = (scdNamespace data, scdName data).
Proof. unfold ServerService.newServer. cbv zeta. destruct (negb _); [destruct (ParseDuration _)|]; intros [= <-]; done. Qed.

Lemma newPlugin_key data plugin : PluginService.newPlugin data = Ok plugin -> plgKey plugin = (pcrNamespace data, pcrName data).
Proof. unfold PluginService.newPlugin. cbv zeta. destruct (negb _); [destruct (ParseDuration _)|]; intros [= <-]; done. Qed.

Lemma patchServer_key data server sent : ServerService.patchServer data server = Ok sent -> srvKey sent = srvKey server.
Proof.
  pose proof (patchServer_spec data server) as Hp. destruct (parsedDelay _) as [delay|e]; [|congruence].
  destruct Hp as (sent' & Hs & Hu). rewrite Hs. intros [= ->]. unfold srvKey, srvNamespace, srvName. by rewrite (uf_meta _ _ _ _ Hu).
Qed.

Lemma patchPlugin_key data plugin sent : PluginService.patchPlugin data plugin = Ok sent -> plgKey sent = plgKey plugin.
Proof.
  unfold PluginService.patchPlugin. cbv zeta.
  destruct (pudUpdateDelay data); [destruct (ParseDuration _)|]; intros [= <-]; by destruct plugin as [[] ? ?].
Qed.

Lemma CreateServer_to data : writesTo (Some (OServer (scdNamespace data, scdName data))) (ServerService.CreateServer data).
Proof.
  unfold ServerService.CreateServer. destruct (ServerService.newServer data) as [server|e] eqn:Hn; [|by intros tr x [-> _]].
  rewrite <- (newServer_key _ _ Hn). writes_to.
Qed.

Lemma CreatePlugin_to data : writesTo (Some (OPlugin (pcrNamespace data, pcrName data))) (PluginService.CreatePlugin data).
Proof.
  unfold PluginService.CreatePlugin. destruct (PluginService.newPlugin data) as [plugin|e] eqn:Hn; [|by intros tr x [-> _]].
  rewrite <- (newPlugin_key _ _ Hn). writes_to.
Qed.

Lemma DeleteServer_to ns name : writesTo (Some (OServer (ns, name))) (ServerService.DeleteServer ns name).
Proof. unfold ServerService.DeleteServer. writes_to. Qed.

Lemma DeletePlugin_to ns name : writesTo (Some (OPlugin (ns, name))) (PluginService.DeletePlugin ns name).
Proof. unfold PluginService.DeletePlugin. writes_to. Qed.

(** A read, and what is computed from the answer is sent. *)
Lemma UpdateServer_to data : writesTo (Some (OServer (sudNamespace data, sudName data))) (ServerService.UpdateServer data).
Proof.
  intros tr x H Hh. unfold ServerService.UpdateServer, ask, call in H. cbn [bind] in H. destruct H as (y & t & -> & H).
  apply Forall_cons in Hh as [Hy Hh]. constructor; [done|].
  destruct y as [server|e]; [|by destruct H as [-> _]]. apply honest_server in Hy.
  destruct (ServerService.patchServer data server) as [sent|e] eqn:Hp; [|by destruct H as [-> _]].
  destruct H as (u & t' & -> & -> & _). constructor; [|done]. intros _. cbn. by rewrite (patchServer_key _ _ _ Hp), Hy.
Qed.

Lemma UpdatePlugin_to data : writesTo (Some (OPlugin (pudNamespace data, pudName data))) (PluginService.UpdatePlugin data).
Proof.
  intros tr x H Hh. unfold PluginService.UpdatePlugin, ask, call in H. cbn [bind] in H. destruct H as (y & t & -> & H).
  apply Forall_cons in Hh as [Hy Hh]. constructor; [done|].
  destruct y as [plugin|e]; [|by destruct H as [-> _]]. apply honest_plugin in Hy.
  destruct (PluginService.patchPlugin data plugin) as [sent|e] eqn:Hp; [|by destruct H as [-> _]].
  destruct H as (u & t' & -> & -> & _). constructor; [|done]. intros _. cbn. by rewrite (patchPlugin_key _ _ _ Hp), Hy.
Qed.

(** A run, up to its answer. *)
Ltac to_answer :=
  repeat match goal with
  | H : runs (bind _ _) _ _ |- _ => apply runs_bind in H as (? & ? & ? & -> & _ & H)
  | H : runs (Ret _) _ _ |- _ => destruct H as [-> ->]
  | H : runs (if ?b then _ else _) _ _ |- _ => destruct b
  | H : runs (match ?x with _ => _ end) _ _ |- _ => destruct x
  end.

(** ** Composition *)

(** Without writes there is no event that writes. *)
Lemma writes_none tr : writes tr = 0%nat -> Forall (fun e => wrote e = false) tr.
Proof.
  unfold writes. induction tr as [|e tr IH]; intros H; [constructor|]. cbn in H.
  destruct (wrote e) eqn:He; [done|]. constructor; auto.
Qed.

Lemma readsOnly_to {A} o (p : prog A) : readsOnly p -> writesTo o p.
Proof.
  intros Hp tr x H _. eapply Forall_impl; [by eapply writes_none, Hp|]. cbn. congruence.
Qed.

Lemma writesTo_bind {A B} o (p : prog A) (f : A -> prog B) :
  writesTo o p -> (forall a, writesTo o (f a)) -> writesTo o (bind p f).
Proof.
  intros Hp Hf tr b (t1 & a & t2 & -> & H1 & H2)%runs_bind [Ht1 Ht2]%Forall_app.
  apply Forall_app. split; [by eapply Hp | by eapply Hf].
Qed.

Lemma writesTo_ret {A} o (a : A) : writesTo o (Ret a).
Proof. by intros tr x [-> _]. Qed.
