(* ===== verification/OpenAPI.v ===== *)
(** * The types of the REST API (api/openapi/generated) and their conversions

    [api.gen.go] is generated from the OpenAPI document: the structs of requests
    and responses are the records of the module [generated] (a pointer is an
    option; a string type with declared values is a string with its [Valid] test).
    The conversions of pkg/api/handlers.go between them and the service layer's
    structs follow. *)

From S2P Require Import Prelude GoBase Decimals Strings GoLib Api Objects Service.

(** ** api.gen.go *)

Module generated.

(** *** String types *)

Definition Healthy : string := "healthy".
Definition Unhealthy : string := "unhealthy".
Definition HealthResponseStatus_Valid (e : string) : bool := (e =? Healthy)%string || (e =? Unhealthy)%string.

Definition DoesNotExist : string := "DoesNotExist".
Definition Exists : string := "Exists".
Definition In : string := "In".
Definition NotIn : string := "NotIn".
Definition LabelSelectorRequirementOperator_Valid (e : string) : bool := (e =? DoesNotExist)%string || (e =? Exists)%string || (e =? In)%string || (e =? NotIn)%string.

Definition PluginConfigFileOverwriteAlways : string := "always".
Definition PluginConfigFileOverwriteIfNotExists : string := "ifNotExists".
Definition PluginConfigFileOverwrite_Valid (e : string) : bool := (e =? PluginConfigFileOverwriteAlways)%string || (e =? PluginConfigFileOverwriteIfNotExists)%string.

Definition HTTP : string := "HTTP".
Definition TCP : string := "TCP".
Definition UDP : string := "UDP".
Definition PluginEndpointProtocol_Valid (e : string) : bool := (e =? HTTP)%string || (e =? TCP)%string || (e =? UDP)%string.

Definition Hangar : string := "hangar".
Definition Url : string := "url".
Definition PluginSourceType_Valid (e : string) : bool := (e =? Hangar)%string || (e =? Url)%string.

Definition Available : string := "available".
Definition Orphaned : string := "orphaned".
Definition Unavailable : string := "unavailable".
Definition RepositoryStatus_Valid (e : string) : bool := (e =? Available)%string || (e =? Orphaned)%string || (e =? Unavailable)%string.

Definition ServerConfigFileOverwriteAlways : string := "always".
Definition ServerConfigFileOverwriteIfNotExists : string := "ifNotExists".
Definition ServerConfigFileOverwrite_Valid (e : string) : bool := (e =? ServerConfigFileOverwriteAlways)%string || (e =? ServerConfigFileOverwriteIfNotExists)%string.

Definition ServerStatusRunning : string := "running".
Definition ServerStatusUnknown : string := "unknown".
Definition ServerStatusUpdating : string := "updating".
Definition ServerStatus_Valid (e : string) : bool := (e =? ServerStatusRunning)%string || (e =? ServerStatusUnknown)%string || (e =? ServerStatusUpdating)%string.

Definition Auto : string := "auto".
Definition BuildPin : string := "build-pin".
Definition Latest : string := "latest".
Definition Pin : string := "pin".
Definition UpdateStrategy_Valid (e : string) : bool := (e =? Auto)%string || (e =? BuildPin)%string || (e =? Latest)%string || (e =? Pin)%string.


Inductive ErrorResponseCode := ALREADYEXISTS | FORBIDDEN | INTERNALERROR | INVALIDREQUEST | NOTFOUND | UNAUTHORIZED.
#[export] Instance ErrorResponseCode_eq_dec : EqDecision ErrorResponseCode.
Proof. solve_decision. Defined.

(** *** Structs *)

Record ActionResponse := MkActionResponse {
  gaMessage : string;
  gaTimestamp : option Time
}.
#[export] Instance eta_ActionResponse : Eta ActionResponse := fun r => MkActionResponse (gaMessage r) (gaTimestamp r).

Record PluginVersionPair := MkPluginVersionPair {
  gvpName : option string;
  gvpNamespace : option string;
  gvpVersion : option string
}.
#[export] Instance eta_PluginVersionPair : Eta PluginVersionPair := fun r => MkPluginVersionPair (gvpName r) (gvpNamespace r) (gvpVersion r).

Record AvailableUpdate := MkAvailableUpdate {
  gauBuild : option Z;
  gauFoundAt : option Time;
  gauPlugins : option (list PluginVersionPair);
  gauReleasedAt : option Time;
  gauVersion : option string
}.
#[export] Instance eta_AvailableUpdate : Eta AvailableUpdate := fun r => MkAvailableUpdate (gauBuild r) (gauFoundAt r) (gauPlugins r) (gauReleasedAt r) (gauVersion r).

Record BlockedByInfo := MkBlockedByInfo {
  gbbPlugin : option string;
  gbbSupportedVersions : option (list string);
  gbbVersion : option string
}.
#[export] Instance eta_BlockedByInfo : Eta BlockedByInfo := fun r => MkBlockedByInfo (gbbPlugin r) (gbbSupportedVersions r) (gbbVersion r).

Record CompatibilityOverride := MkCompatibilityOverride {
  gcoEnabled : option bool;
  gcoMinecraftVersions : option (list string)
}.
#[export] Instance eta_CompatibilityOverride : Eta CompatibilityOverride := fun r => MkCompatibilityOverride (gcoEnabled r) (gcoMinecraftVersions r).

Record Condition := MkCondition {
  gcdLastTransitionTime : option Time;
  gcdMessage : option string;
  gcdObservedGeneration : option Z;
  gcdReason : option string;
  gcdStatus : string;
  gcdType : string
}.
#[export] Instance eta_Condition : Eta Condition := fun r => MkCondition (gcdLastTransitionTime r) (gcdMessage r) (gcdObservedGeneration r) (gcdReason r) (gcdStatus r) (gcdType r).

Record ConfigMapCreateRequest := MkConfigMapCreateRequest {
  gccData : gmap string string;
  gccName : string;
  gccNamespace : string
}.
#[export] Instance eta_ConfigMapCreateRequest : Eta ConfigMapCreateRequest := fun r => MkConfigMapCreateRequest (gccData r) (gccName r) (gccNamespace r).

Record ConfigMapKeyRef := MkConfigMapKeyRef {
  gckKey : string;
  gckName : string
}.
#[export] Instance eta_ConfigMapKeyRef : Eta ConfigMapKeyRef := fun r => MkConfigMapKeyRef (gckKey r) (gckName r).

Record ConfigMapSummary := MkConfigMapSummary {
  gcsKeys : option (list string);
  gcsName : string;
  gcsNamespace : string
}.
#[export] Instance eta_ConfigMapSummary : Eta ConfigMapSummary := fun r => MkConfigMapSummary (gcsKeys r) (gcsName r) (gcsNamespace r).

Record ConfigMapListResponse := MkConfigMapListResponse {
  gclConfigMaps : list ConfigMapSummary
}.
#[export] Instance eta_ConfigMapListResponse : Eta ConfigMapListResponse := fun r => MkConfigMapListResponse (gclConfigMaps r).

Record DeletionProgressEntry := MkDeletionProgressEntry {
  gdpDeletedAt : option Time;
  gdpJarDeleted : bool;
  gdpNamespace : string;
  gdpServerName : string
}.
#[export] Instance eta_DeletionProgressEntry : Eta DeletionProgressEntry := fun r => MkDeletionProgressEntry (gdpDeletedAt r) (gdpJarDeleted r) (gdpNamespace r) (gdpServerName r).

Record ErrorResponse := MkErrorResponse {
  gerCode : option ErrorResponseCode;
  gerDetails : option (gmap string string);
  gerError : string
}.
#[export] Instance eta_ErrorResponse : Eta ErrorResponse := fun r => MkErrorResponse (gerCode r) (gerDetails r) (gerError r).

Record HealthResponse := MkHealthResponse {
  ghrError : option string;
  ghrStatus : string;
  ghrTimestamp : Time
}.
#[export] Instance eta_HealthResponse : Eta HealthResponse := fun r => MkHealthResponse (ghrError r) (ghrStatus r) (ghrTimestamp r).

Record LabelSelectorRequirement := MkLabelSelectorRequirement {
  glrKey : string;
  glrOperator : string;
  glrValues : option (list string)
}.
#[export] Instance eta_LabelSelectorRequirement : Eta LabelSelectorRequirement := fun r => MkLabelSelectorRequirement (glrKey r) (glrOperator r) (glrValues r).

Record LabelSelector := MkLabelSelector {
  glsMatchExpressions : option (list LabelSelectorRequirement);
  glsMatchLabels : option (gmap string string)
}.
#[export] Instance eta_LabelSelector : Eta LabelSelector := fun r => MkLabelSelector (glsMatchExpressions r) (glsMatchLabels r).

Record MaintenanceSchedule := MkMaintenanceSchedule {
  gmsCheckCron : option string;
  gmsEnabled : option bool;
  gmsNextWindow : option string;
  gmsWindowCron : option string
}.
#[export] Instance eta_MaintenanceSchedule : Eta MaintenanceSchedule := fun r => MkMaintenanceSchedule (gmsCheckCron r) (gmsEnabled r) (gmsNextWindow r) (gmsWindowCron r).

Record MaintenanceWindowConfig := MkMaintenanceWindowConfig {
  gmwCron : option string;
  gmwEnabled : option bool
}.
#[export] Instance eta_MaintenanceWindowConfig : Eta MaintenanceWindowConfig := fun r => MkMaintenanceWindowConfig (gmwCron r) (gmwEnabled r).

Record MatchedInstance := MkMatchedInstance {
  gmiCompatible : bool;
  gmiName : string;
  gmiNamespace : string;
  gmiVersion : option string
}.
#[export] Instance eta_MatchedInstance : Eta MatchedInstance := fun r => MkMatchedInstance (gmiCompatible r) (gmiName r) (gmiNamespace r) (gmiVersion r).

Record NamespaceListResponse := MkNamespaceListResponse {
  gnlNamespaces : list string
}.
#[export] Instance eta_NamespaceListResponse : Eta NamespaceListResponse := fun r => MkNamespaceListResponse (gnlNamespaces r).

Record PluginConfigFile := MkPluginConfigFile {
  gpfConfigMapRef : ConfigMapKeyRef;
  gpfOverwrite : option string;
  gpfPath : string
}.
#[export] Instance eta_PluginConfigFile : Eta PluginConfigFile := fun r => MkPluginConfigFile (gpfConfigMapRef r) (gpfOverwrite r) (gpfPath r).

Record PluginEndpoint := MkPluginEndpoint {
  gpeName : string;
  gpePort : Z;
  gpeProtocol : option string
}.
#[export] Instance eta_PluginEndpoint : Eta PluginEndpoint := fun r => MkPluginEndpoint (gpeName r) (gpePort r) (gpeProtocol r).

Record PluginSource := MkPluginSource {
  gsoChecksum : option string;
  gsoProject : option string;
  gsoType : string;
  gsoUrl : option string
}.
#[export] Instance eta_PluginSource : Eta PluginSource := fun r => MkPluginSource (gsoChecksum r) (gsoProject r) (gsoType r) (gsoUrl r).

Record PluginCreateRequest := MkPluginCreateRequest {
  gpcBuild : option Z;
  gpcCompatibilityOverride : option CompatibilityOverride;
  gpcConfigs : option (list PluginConfigFile);
  gpcEndpoints : option (list PluginEndpoint);
  gpcInstanceSelector : LabelSelector;
  gpcName : string;
  gpcNamespace : string;
  gpcPluginDirName : option string;
  gpcSource : PluginSource;
  gpcUpdateDelay : option string;
  gpcUpdateStrategy : option string;
  gpcVersion : option string
}.
#[export] Instance eta_PluginCreateRequest : Eta PluginCreateRequest := fun r => MkPluginCreateRequest (gpcBuild r) (gpcCompatibilityOverride r) (gpcConfigs r) (gpcEndpoints r) (gpcInstanceSelector r) (gpcName r) (gpcNamespace r) (gpcPluginDirName r) (gpcSource r) (gpcUpdateDelay r) (gpcUpdateStrategy r) (gpcVersion r).

Record PluginVersion := MkPluginVersion {
  gpvCachedAt : option Time;
  gpvDownloadUrl : string;
  gpvHash : option string;
  gpvMinecraftVersions : list string;
  gpvReleasedAt : option Time;
  gpvVersion : string
}.
#[export] Instance eta_PluginVersion : Eta PluginVersion := fun r => MkPluginVersion (gpvCachedAt r) (gpvDownloadUrl r) (gpvHash r) (gpvMinecraftVersions r) (gpvReleasedAt r) (gpvVersion r).

Record PluginDetail := MkPluginDetail {
  gpdAvailableVersions : option (list PluginVersion);
  gpdBuild : option Z;
  gpdCompatibilityOverride : option CompatibilityOverride;
  gpdConditions : option (list Condition);
  gpdDeletionProgress : option (list DeletionProgressEntry);
  gpdEndpoints : option (list PluginEndpoint);
  gpdInstanceSelector : option LabelSelector;
  gpdLastFetched : option Time;
  gpdMatchedInstances : option (list MatchedInstance);
  gpdMatchedServers : option Z;
  gpdName : string;
  gpdNamespace : string;
  gpdProject : option string;
  gpdRepositoryStatus : option string;
  gpdResolvedVersion : option string;
  gpdSourceType : string;
  gpdUpdateDelay : option string;
  gpdUpdateStrategy : string;
  gpdUrl : option string;
  gpdVersion : option string
}.
#[export] Instance eta_PluginDetail : Eta PluginDetail := fun r => MkPluginDetail (gpdAvailableVersions r) (gpdBuild r) (gpdCompatibilityOverride r) (gpdConditions r) (gpdDeletionProgress r) (gpdEndpoints r) (gpdInstanceSelector r) (gpdLastFetched r) (gpdMatchedInstances r) (gpdMatchedServers r) (gpdName r) (gpdNamespace r) (gpdProject r) (gpdRepositoryStatus r) (gpdResolvedVersion r) (gpdSourceType r) (gpdUpdateDelay r) (gpdUpdateStrategy r) (gpdUrl r) (gpdVersion r).

Record PluginSummary := MkPluginSummary {
  gpsBuild : option Z;
  gpsMatchedServers : option Z;
  gpsName : string;
  gpsNamespace : string;
  gpsProject : option string;
  gpsRepositoryStatus : option string;
  gpsResolvedVersion : option string;
  gpsSourceType : string;
  gpsUpdateStrategy : string;
  gpsUrl : option string;
  gpsVersion : option string
}.
#[export] Instance eta_PluginSummary : Eta PluginSummary := fun r => MkPluginSummary (gpsBuild r) (gpsMatchedServers r) (gpsName r) (gpsNamespace r) (gpsProject r) (gpsRepositoryStatus r) (gpsResolvedVersion r) (gpsSourceType r) (gpsUpdateStrategy r) (gpsUrl r) (gpsVersion r).

Record PluginListResponse := MkPluginListResponse {
  gplPlugins : list PluginSummary
}.
#[export] Instance eta_PluginListResponse : Eta PluginListResponse := fun r => MkPluginListResponse (gplPlugins r).

Record PluginUpdateRequest := MkPluginUpdateRequest {
  gpuBuild : option Z;
  gpuCompatibilityOverride : option CompatibilityOverride;
  gpuConfigs : option (list PluginConfigFile);
  gpuEndpoints : option (list PluginEndpoint);
  gpuInstanceSelector : option LabelSelector;
  gpuPluginDirName : option string;
  gpuSource : option PluginSource;
  gpuUpdateDelay : option string;
  gpuUpdateStrategy : option string;
  gpuVersion : option string
}.
#[export] Instance eta_PluginUpdateRequest : Eta PluginUpdateRequest := fun r => MkPluginUpdateRequest (gpuBuild r) (gpuCompatibilityOverride r) (gpuConfigs r) (gpuEndpoints r) (gpuInstanceSelector r) (gpuPluginDirName r) (gpuSource r) (gpuUpdateDelay r) (gpuUpdateStrategy r) (gpuVersion r).

Record RCONConfig := MkRCONConfig {
  grcEnabled : option bool;
  grcPasswordSecretKey : option string;
  grcPasswordSecretName : option string;
  grcPort : option Z
}.
#[export] Instance eta_RCONConfig : Eta RCONConfig := fun r => MkRCONConfig (grcEnabled r) (grcPasswordSecretKey r) (grcPasswordSecretName r) (grcPort r).

Record RCONStatus := MkRCONStatus {
  grsEnabled : option bool;
  grsPort : option Z
}.
#[export] Instance eta_RCONStatus : Eta RCONStatus := fun r => MkRCONStatus (grsEnabled r) (grsPort r).

Record ServerConfigFile := MkServerConfigFile {
  gsfConfigMapRef : ConfigMapKeyRef;
  gsfOverwrite : option string;
  gsfPath : string
}.
#[export] Instance eta_ServerConfigFile : Eta ServerConfigFile := fun r => MkServerConfigFile (gsfConfigMapRef r) (gsfOverwrite r) (gsfPath r).

Record ServerPluginConfig := MkServerPluginConfig {
  gpgConfigs : list PluginConfigFile;
  gpgPluginName : string
}.
#[export] Instance eta_ServerPluginConfig : Eta ServerPluginConfig := fun r => MkServerPluginConfig (gpgConfigs r) (gpgPluginName r).

Record ServiceConfig := MkServiceConfig {
  gsvAnnotations : option (gmap string string);
  gsvLoadBalancerIP : option string;
  gsvType : option string
}.
#[export] Instance eta_ServiceConfig : Eta ServiceConfig := fun r => MkServiceConfig (gsvAnnotations r) (gsvLoadBalancerIP r) (gsvType r).

Record ServerCreateRequest := MkServerCreateRequest {
  gscBuild : option Z;
  gscCheckCron : option string;
  gscGracefulShutdownTimeout : option string;
  gscLabels : option (gmap string string);
  gscMaintenanceWindow : option MaintenanceWindowConfig;
  gscName : string;
  gscNamespace : string;
  gscPluginConfigs : option (list ServerPluginConfig);
  gscRcon : option RCONConfig;
  gscServerConfigs : option (list ServerConfigFile);
  gscService : option ServiceConfig;
  gscUpdateDelay : option string;
  gscUpdateStrategy : string;
  gscVersion : option string
}.
#[export] Instance eta_ServerCreateRequest : Eta ServerCreateRequest := fun r => MkServerCreateRequest (gscBuild r) (gscCheckCron r) (gscGracefulShutdownTimeout r) (gscLabels r) (gscMaintenanceWindow r) (gscName r) (gscNamespace r) (gscPluginConfigs r) (gscRcon r) (gscServerConfigs r) (gscService r) (gscUpdateDelay r) (gscUpdateStrategy r) (gscVersion r).

Record UpdateHistory := MkUpdateHistory {
  guhAppliedAt : option Time;
  guhPreviousVersion : option string;
  guhSuccessful : option bool
}.
#[export] Instance eta_UpdateHistory : Eta UpdateHistory := fun r => MkUpdateHistory (guhAppliedAt r) (guhPreviousVersion r) (guhSuccessful r).

Record ServerPlugin := MkServerPlugin {
  gspCompatible : bool;
  gspCurrentVersion : option string;
  gspDesiredVersion : option string;
  gspInstalledJarName : option string;
  gspName : string;
  gspNamespace : option string;
  gspPendingDeletion : option bool;
  gspProject : option string;
  gspResolvedVersion : option string;
  gspSource : option string
}.
#[export] Instance eta_ServerPlugin : Eta ServerPlugin := fun r => MkServerPlugin (gspCompatible r) (gspCurrentVersion r) (gspDesiredVersion r) (gspInstalledJarName r) (gspName r) (gspNamespace r) (gspPendingDeletion r) (gspProject r) (gspResolvedVersion r) (gspSource r).

Record ServiceStatus := MkServiceStatus {
  gstClusterIP : option string;
  gstExternalIP : option string;
  gstType : option string
}.
#[export] Instance eta_ServiceStatus : Eta ServiceStatus := fun r => MkServiceStatus (gstClusterIP r) (gstExternalIP r) (gstType r).

Record UpdateBlockedStatus := MkUpdateBlockedStatus {
  gubBlocked : option bool;
  gubBlockedBy : option BlockedByInfo;
  gubReason : option string
}.
#[export] Instance eta_UpdateBlockedStatus : Eta UpdateBlockedStatus := fun r => MkUpdateBlockedStatus (gubBlocked r) (gubBlockedBy r) (gubReason r).

Record ServerDetail := MkServerDetail {
  gsdAvailableUpdate : option AvailableUpdate;
  gsdConditions : option (list Condition);
  gsdCurrentBuild : option Z;
  gsdCurrentVersion : option string;
  gsdDesiredBuild : option Z;
  gsdDesiredVersion : option string;
  gsdLabels : option (gmap string string);
  gsdLastUpdate : option UpdateHistory;
  gsdMaintenanceSchedule : option MaintenanceSchedule;
  gsdName : string;
  gsdNamespace : string;
  gsdNextMaintenance : option string;
  gsdPluginCount : option Z;
  gsdPlugins : option (list ServerPlugin);
  gsdRcon : option RCONStatus;
  gsdService : option ServiceStatus;
  gsdStatus : string;
  gsdUpdateBlocked : option UpdateBlockedStatus;
  gsdUpdateStrategy : string
}.
#[export] Instance eta_ServerDetail : Eta ServerDetail := fun r => MkServerDetail (gsdAvailableUpdate r) (gsdConditions r) (gsdCurrentBuild r) (gsdCurrentVersion r) (gsdDesiredBuild r) (gsdDesiredVersion r) (gsdLabels r) (gsdLastUpdate r) (gsdMaintenanceSchedule r) (gsdName r) (gsdNamespace r) (gsdNextMaintenance r) (gsdPluginCount r) (gsdPlugins r) (gsdRcon r) (gsdService r) (gsdStatus r) (gsdUpdateBlocked r) (gsdUpdateStrategy r).

Record ServerSummary := MkServerSummary {
  gssAvailableUpdate : option AvailableUpdate;
  gssCurrentVersion : option string;
  gssDesiredVersion : option string;
  gssLabels : option (gmap string string);
  gssName : string;
  gssNamespace : string;
  gssNextMaintenance : option string;
  gssPluginCount : option Z;
  gssStatus : string;
  gssUpdateStrategy : string
}.
#[export] Instance eta_ServerSummary : Eta ServerSummary := fun r => MkServerSummary (gssAvailableUpdate r) (gssCurrentVersion r) (gssDesiredVersion r) (gssLabels r) (gssName r) (gssNamespace r) (gssNextMaintenance r) (gssPluginCount r) (gssStatus r) (gssUpdateStrategy r).

Record ServerListResponse := MkServerListResponse {
  gslServers : list ServerSummary
}.
#[export] Instance eta_ServerListResponse : Eta ServerListResponse := fun r => MkServerListResponse (gslServers r).

Record ServerUpdateRequest := MkServerUpdateRequest {
  gsuBuild : option Z;
  gsuCheckCron : option string;
  gsuLabels : option (gmap string string);
  gsuMaintenanceWindow : option MaintenanceWindowConfig;
  gsuPluginConfigs : option (list ServerPluginConfig);
  gsuServerConfigs : option (list ServerConfigFile);
  gsuUpdateDelay : option string;
  gsuUpdateStrategy : option string;
  gsuVersion : option string
}.
#[export] Instance eta_ServerUpdateRequest : Eta ServerUpdateRequest := fun r => MkServerUpdateRequest (gsuBuild r) (gsuCheckCron r) (gsuLabels r) (gsuMaintenanceWindow r) (gsuPluginConfigs r) (gsuServerConfigs r) (gsuUpdateDelay r) (gsuUpdateStrategy r) (gsuVersion r).

Record VersionResponse := MkVersionResponse {
  gvrApiVersion : string;
  gvrBuildDate : option Time;
  gvrGitCommit : option string;
  gvrGoVersion : option string;
  gvrVersion : string
}.
#[export] Instance eta_VersionResponse : Eta VersionResponse := fun r => MkVersionResponse (gvrApiVersion r) (gvrBuildDate r) (gvrGitCommit r) (gvrGoVersion r) (gvrVersion r).

(** *** Structs with no optional field set *)

Definition zeroActionResponse : ActionResponse := MkActionResponse "" None.
Definition zeroAvailableUpdate : AvailableUpdate := MkAvailableUpdate None None None None None.
Definition zeroConfigMapSummary : ConfigMapSummary := MkConfigMapSummary None "" "".
Definition zeroLabelSelector : LabelSelector := MkLabelSelector None None.
Definition zeroMaintenanceSchedule : MaintenanceSchedule := MkMaintenanceSchedule None None None None.
Definition zeroMatchedInstance : MatchedInstance := MkMatchedInstance false "" "" None.
Definition zeroPluginEndpoint : PluginEndpoint := MkPluginEndpoint "" 0%Z None.
Definition zeroPluginVersion : PluginVersion := MkPluginVersion None "" None [] None "".
Definition zeroUpdateHistory : UpdateHistory := MkUpdateHistory None None None.
Definition zeroServerPlugin : ServerPlugin := MkServerPlugin false None None None "" None None None None None.
Definition zeroServerSummary : ServerSummary := MkServerSummary None None None None "" "" None None "" "".
Definition zeroServerDetail : ServerDetail := MkServerDetail None None None None None None None None None "" "" None None None None None "" None "".
Definition zeroPluginSummary : PluginSummary := MkPluginSummary None None "" "" None None None "" "" None None.
Definition zeroPluginDetail : PluginDetail := MkPluginDetail None None None None None None None None None None "" "" None None None "" None "" None None.
Definition zeroPluginSource : PluginSource := MkPluginSource None None "" None.
Definition zeroServerCreateRequest : ServerCreateRequest := MkServerCreateRequest None None None None None "" "" None None None None None "" None.
Definition zeroPluginCreateRequest : PluginCreateRequest := MkPluginCreateRequest None None None None zeroLabelSelector "" "" None zeroPluginSource None None None.
Definition zeroServerUpdateRequest : ServerUpdateRequest := MkServerUpdateRequest None None None None None None None None None.
Definition zeroPluginUpdateRequest : PluginUpdateRequest := MkPluginUpdateRequest None None None None None None None None None None.
End generated.

Import generated.

(** ** Responses (handlers.go) *)

(** [if s != "" { field = &s }] *)
Definition nonEmpty (s : string) : option string := if negb (s =? "")%string then Some s else None.

(** [if len(l) > 0 { field = &l }] *)
Definition nonNil {A B} (f : list A -> B) (l : list A) : option B := match l with [] => None | _ => Some (f l) end.

Definition nonZeroTime (t : Time) : option Time := if negb (IsZero t) then Some t else None.

Definition positive (n : Z) : option Z := if (0 <? n)%Z then Some n else None.

Definition updateToAPI (u : AvailableUpdateData) : AvailableUpdate :=
  zeroAvailableUpdate <| gauVersion := Some (audVersion u) |> <| gauBuild := Some (audBuild u) |>
    <| gauReleasedAt := nonZeroTime (audReleasedAt u) |>.

Definition labelsToAPI (labels : gmap string string) : option (gmap string string) :=
  if (0 <? size labels)%nat then Some labels else None.

Definition serverDataToSummary (data : ServerData) : ServerSummary :=
  zeroServerSummary
    <| gssName := sdName data |> <| gssNamespace := sdNamespace data |>
    <| gssStatus := sdStatus data |> <| gssUpdateStrategy := sdUpdateStrategy data |>
    <| gssCurrentVersion := nonEmpty (sdCurrentVersion data) |>
    <| gssDesiredVersion := nonEmpty (sdDesiredVersion data) |>
    <| gssLabels := labelsToAPI (sdLabels data) |>
    <| gssPluginCount := positive (sdPluginCount data) |>
    <| gssNextMaintenance := nonEmpty (sdNextMaintenance data) |>
    <| gssAvailableUpdate := option_map updateToAPI (sdAvailableUpdate data) |>.

Definition serverPluginToAPI (p : ServerPluginData) : ServerPlugin :=
  zeroServerPlugin
    <| gspName := spdName p |> <| gspCompatible := spdCompatible p |>
    <| gspNamespace := nonEmpty (spdNamespace p) |>
    <| gspCurrentVersion := nonEmpty (spdCurrentVersion p) |>
    <| gspDesiredVersion := nonEmpty (spdDesiredVersion p) |>
    <| gspSource := nonEmpty (spdSourceType p) |>.

Definition scheduleToAPI (ms : MaintenanceScheduleData) : MaintenanceSchedule :=
  zeroMaintenanceSchedule
    <| gmsEnabled := Some (msdEnabled ms) |>
    <| gmsCheckCron := nonEmpty (msdCheckCron ms) |>
    <| gmsWindowCron := nonEmpty (msdWindowCron ms) |>
    <| gmsNextWindow := nonEmpty (msdNextWindow ms) |>.

Definition historyToAPI (uh : UpdateHistoryData) : UpdateHistory :=
  zeroUpdateHistory
    <| guhSuccessful := Some (uhdSuccessful uh) |>
    <| guhPreviousVersion := nonEmpty (uhdPreviousVersion uh) |>
    <| guhAppliedAt := nonZeroTime (uhdAppliedAt uh) |>.

Definition serverDataToDetail (data : ServerData) : ServerDetail :=
  zeroServerDetail
    <| gsdName := sdName data |> <| gsdNamespace := sdNamespace data |>
    <| gsdStatus := sdStatus data |> <| gsdUpdateStrategy := sdUpdateStrategy data |>
    <| gsdCurrentVersion := nonEmpty (sdCurrentVersion data) |>
    <| gsdDesiredVersion := nonEmpty (sdDesiredVersion data) |>
    <| gsdLabels := labelsToAPI (sdLabels data) |>
    <| gsdPluginCount := positive (sdPluginCount data) |>
    <| gsdNextMaintenance := nonEmpty (sdNextMaintenance data) |>
    <| gsdAvailableUpdate := option_map updateToAPI (sdAvailableUpdate data) |>
    <| gsdPlugins := nonNil (map serverPluginToAPI) (sdPlugins data) |>
    <| gsdMaintenanceSchedule := option_map scheduleToAPI (sdMaintenanceSchedule data) |>
    <| gsdLastUpdate := option_map historyToAPI (sdUpdateHistory data) |>.

Definition pluginDataToSummary (data : PluginData) : PluginSummary :=
  zeroPluginSummary
    <| gpsName := pldName data |> <| gpsNamespace := pldNamespace data |>
    <| gpsSourceType := pldSourceType data |> <| gpsUpdateStrategy := pldUpdateStrategy data |>
    <| gpsProject := nonEmpty (pldProject data) |>
    <| gpsVersion := nonEmpty (pldVersion data) |>
    <| gpsResolvedVersion := nonEmpty (pldResolvedVersion data) |>
    <| gpsMatchedServers := positive (pldMatchedServers data) |>.

Definition endpointToAPI (ep : PluginEndpointData) : PluginEndpoint :=
  MkPluginEndpoint (pedName ep) (pedPort ep) (nonEmpty (pedProtocol ep)).

Definition convertEndpointsToAPI (endpoints : list PluginEndpointData) : option (list PluginEndpoint) :=
  nonNil (map endpointToAPI) endpoints.

Definition instanceToAPI (mi : MatchedInstanceData) : MatchedInstance :=
  zeroMatchedInstance
    <| gmiName := midName mi |> <| gmiNamespace := midNamespace mi |> <| gmiCompatible := midCompatible mi |>
    <| gmiVersion := nonEmpty (midVersion mi) |>.

Definition versionToAPI (v : PluginVersionData) : PluginVersion :=
  zeroPluginVersion
    <| gpvVersion := pvdVersion v |> <| gpvDownloadUrl := pvdDownloadURL v |>
    <| gpvMinecraftVersions := pvdSupportedVersions v |>
    <| gpvReleasedAt := nonZeroTime (pvdReleasedAt v) |>.

Definition pluginDataToDetail (data : PluginData) : PluginDetail :=
  zeroPluginDetail
    <| gpdName := pldName data |> <| gpdNamespace := pldNamespace data |>
    <| gpdSourceType := pldSourceType data |> <| gpdUpdateStrategy := pldUpdateStrategy data |>
    <| gpdProject := nonEmpty (pldProject data) |>
    <| gpdVersion := nonEmpty (pldVersion data) |>
    <| gpdResolvedVersion := nonEmpty (pldResolvedVersion data) |>
    <| gpdMatchedServers := positive (pldMatchedServers data) |>
    <| gpdRepositoryStatus := nonEmpty (pldRepositoryStatus data) |>
    <| gpdMatchedInstances := nonNil (map instanceToAPI) (pldMatchedInstances data) |>
    <| gpdEndpoints := convertEndpointsToAPI (pldEndpoints data) |>
    <| gpdAvailableVersions := nonNil (map versionToAPI) (pldAvailableVersions data) |>.

(** ** Requests (handlers.go) *)

Definition defaultProtocol : string := "TCP".

Definition fileToData (ref : ConfigMapKeyRef) (path : string) (overwrite : option string) : ConfigFileData :=
  MkConfigFileData (gckName ref) (gckKey ref) path (default "always" overwrite).

Definition apiConfigFilesToData (configs : list ServerConfigFile) : list ConfigFileData :=
  map (fun cfg => fileToData (gsfConfigMapRef cfg) (gsfPath cfg) (gsfOverwrite cfg)) configs.

Definition apiConfigFilesToDataFromPlugin (configs : list PluginConfigFile) : list ConfigFileData :=
  map (fun cfg => fileToData (gpfConfigMapRef cfg) (gpfPath cfg) (gpfOverwrite cfg)) configs.

Definition apiPluginConfigsToData (configs : list ServerPluginConfig) : list ServerPluginConfigData :=
  map (fun pc => MkServerPluginConfigData (gpgPluginName pc) (apiConfigFilesToDataFromPlugin (gpgConfigs pc))) configs.

Definition serverCreateRequestToData (req : ServerCreateRequest) : ServerCreateData :=
  MkServerCreateData (gscName req) (gscNamespace req) (gscUpdateStrategy req)
    (default "" (gscVersion req)) (default 0%Z (gscBuild req)) (default "" (gscUpdateDelay req)) (default "" (gscCheckCron req))
    (match gscMaintenanceWindow req with Some w => default false (gmwEnabled w) | None => false end)
    (match gscMaintenanceWindow req with Some w => default "" (gmwCron w) | None => "" end)
    (default ∅ (gscLabels req))
    (match gscPluginConfigs req with Some l => apiPluginConfigsToData l | None => [] end)
    (match gscServerConfigs req with Some l => apiConfigFilesToData l | None => [] end).

Definition serverUpdateRequestToData (namespace name : string) (req : ServerUpdateRequest) : ServerUpdateData :=
  MkServerUpdateData namespace name (gsuUpdateStrategy req) (gsuVersion req) (gsuBuild req) (gsuUpdateDelay req)
    (gsuCheckCron req)
    (match gsuMaintenanceWindow req with Some w => gmwEnabled w | None => None end)
    (match gsuMaintenanceWindow req with Some w => gmwCron w | None => None end)
    (gsuLabels req).

Definition requirementToK8s (expr : LabelSelectorRequirement) : Api.LabelSelectorRequirement :=
  MkRequirement (glrKey expr) (glrOperator expr) (default [] (glrValues expr)).

Definition labelSelectorToK8s (sel : LabelSelector) : Api.LabelSelector :=
  Api.MkLabelSelector (default ∅ (glsMatchLabels sel))
    (match glsMatchExpressions sel with Some l => map requirementToK8s l | None => [] end).

(** The loop over the endpoints of a request: the port is converted to int32. *)
Definition endpointToData (ep : PluginEndpoint) : PluginEndpointData :=
  MkPluginEndpointData (gpeName ep) (wrap32 (gpePort ep)) (default defaultProtocol (gpeProtocol ep)).

Definition pluginCreateRequestToData (req : PluginCreateRequest) : PluginCreateData :=
  let source := gpcSource req in
  MkPluginCreateData (gpcName req) (gpcNamespace req)
    (MkPluginSourceData (gsoType source) (default "" (gsoProject source)) (default "" (gsoUrl source)) "")
    (default "" (gpcUpdateStrategy req)) (default "" (gpcVersion req)) (default 0%Z (gpcBuild req))
    (default "" (gpcUpdateDelay req))
    (match gpcEndpoints req with Some l => map endpointToData l | None => [] end)
    (default "" (gpcPluginDirName req))
    (match gpcConfigs req with Some l => apiConfigFilesToDataFromPlugin l | None => [] end)
    (labelSelectorToK8s (gpcInstanceSelector req)).

Definition pluginUpdateRequestToData (namespace name : string) (req : PluginUpdateRequest) : PluginUpdateData :=
  MkPluginUpdateData namespace name (gpuUpdateStrategy req) (gpuVersion req) (gpuBuild req) (gpuUpdateDelay req)
    (option_map (map endpointToData) (gpuEndpoints req))
    (option_map labelSelectorToK8s (gpuInstanceSelector req)).
