(* ===== verification/Rest.v ===== *)
(** * The REST handlers (pkg/api/handlers.go)

    Each handler is a program over the requests of the service layer; its answer
    is a status code with a body, or with an error body.  Reading a request from
    JSON and writing a response is the generated code's (file Http). *)

From S2P Require Import Prelude GoBase Decimals Strings GoLib Durations Regex Api Objects Effects K8s Window Url Webhook Service OpenAPI.
From Stdlib Require Import Ascii.

Import generated.

Open Scope Z_scope.

(** ** Responses *)

Inductive response (A : Type) :=
  | Reply (status : Z) (body : A)
  | Problem (status : Z) (body : ErrorResponse).
Arguments Reply {A} _ _.
Arguments Problem {A} _ _.

Definition statusCode {A} (r : response A) : Z := match r with Reply s _ | Problem s _ => s end.

(** An error body with its code. *)
Definition problem {A} (status : Z) (msg : string) (code : ErrorResponseCode) : response A :=
  Problem status (MkErrorResponse (Some code) None msg).

Definition errRequestBodyRequired : string := "Request body is required".

Definition bodyRequired {A} : response A := problem 400 errRequestBodyRequired INVALIDREQUEST.

(** ** Errors *)

(** The index of the first occurrence, or -1. *)
Fixpoint findSubstring (s substr : string) : Z :=
  if (String.length s <? String.length substr)%nat then -1
  else if (str_take (String.length substr) s =? substr)%string then 0
  else match s with
       | EmptyString => -1
       | String _ s => let i := findSubstring s substr in if i <? 0 then -1 else i + 1
       end.

Definition containsString (s substr : string) : bool :=
  (String.length substr <=? String.length s)%nat && (0 <=? findSubstring s substr).

Definition isNotFoundError (err : error) : bool :=
  (errString err =? "not found")%string || containsString (errString err) "not found" ||
  containsString (errString err) "NotFound".

Definition isAlreadyExistsError (err : error) : bool := containsString (errString err) "already exists".

(** The two answers to an error of an operation on a named object. *)
Definition missing {A} (err : error) (msg : string) : response A :=
  if isNotFoundError err then problem 404 (errString err) NOTFOUND else problem 500 msg INTERNALERROR.

(** The two answers to an error of a creation. *)
Definition taken {A} (err : error) (msg : string) : response A :=
  if isAlreadyExistsError err then problem 409 (errString err) ALREADYEXISTS else problem 500 msg INTERNALERROR.

(** ** Validation *)

(** [^[a-z0-9]([a-z0-9-]*[a-z0-9])?$] *)
Definition dnsLabelPattern : re :=
  Seq (Chr isAlnumLower) (Opt (Seq (Star (Chr (fun c => isAlnumLower c || isChar "-"%char c))) (Chr isAlnumLower))).

(** [^[a-z0-9]([a-z0-9.\-]*[a-z0-9])?$] *)
Definition k8sNamePattern : re :=
  Seq (Chr isAlnumLower)
      (Opt (Seq (Star (Chr (fun c => isAlnumLower c || isChar "."%char c || isChar "-"%char c))) (Chr isAlnumLower))).

Definition validateK8sName (name fieldLabel : string) : string :=
  if (name =? "")%string then fieldLabel +:+ " is required"
  else if (253 <? String.length name)%nat then fieldLabel +:+ " must be at most 253 characters"
  else if negb (MatchString k8sNamePattern name)
  then fieldLabel +:+ " must be a valid DNS subdomain (lowercase alphanumeric, hyphens, dots)"
  else "".

Definition maxEndpointNameLength : nat := 63.

(** [portProtoKey] *)
Definition requestKey (ep : PluginEndpoint) : string :=
  pretty (gpePort ep) +:+ "/" +:+ default defaultProtocol (gpeProtocol ep).

Fixpoint validateEndpoints (seenNames seenPortProto : gset string) (endpoints : list PluginEndpoint) : string :=
  match endpoints with
  | [] => ""
  | ep :: endpoints =>
      if (gpeName ep =? "")%string then "Endpoint name is required"
      else if (maxEndpointNameLength <? String.length (gpeName ep))%nat || negb (MatchString dnsLabelPattern (gpeName ep))
      then "Endpoint name " +:+ quoted (gpeName ep) +:+
           " must be a valid DNS label (lowercase alphanumeric/hyphens, max 63 chars)"
      else if (gpePort ep <? 1) || (65535 <? gpePort ep)
      then "Endpoint port must be between 1 and 65535, got " +:+ pretty (gpePort ep)
      else if match gpeProtocol ep with Some p => negb (PluginEndpointProtocol_Valid p) | None => false end
      then "Invalid protocol " +:+ quoted (default "" (gpeProtocol ep)) +:+ ", must be TCP, UDP, or HTTP"
      else if bool_decide (gpeName ep ∈ seenNames) then "Duplicate endpoint name " +:+ quoted (gpeName ep)
      else if bool_decide (requestKey ep ∈ seenPortProto) then "Duplicate port+protocol combination: " +:+ requestKey ep
      else validateEndpoints ({[gpeName ep]} ∪ seenNames) ({[requestKey ep]} ∪ seenPortProto) endpoints
  end.

Definition validateEndpointRequest (endpoints : option (list PluginEndpoint)) : string :=
  match endpoints with None => "" | Some l => validateEndpoints ∅ ∅ l end.

Definition updateStrategyLatest : string := "latest".
Definition updateStrategyAuto : string := "auto".
Definition updateStrategyPin : string := "pin".
Definition updateStrategyBuildPin : string := "build-pin".

Definition validUpdateStrategies : gmap string bool :=
  list_to_map [(updateStrategyLatest, true); (updateStrategyAuto, true); (updateStrategyPin, true); (updateStrategyBuildPin, true)].

(** The first error message, of a sequence of checks that stop at it. *)
Definition orElse (msg next : string) : string := if negb (msg =? "")%string then msg else next.

Definition validateServerCreateRequest (body : ServerCreateRequest) : string :=
  orElse (validateK8sName (gscName body) "Name")
    (orElse (validateK8sName (gscNamespace body) "Namespace")
      (if negb (default false (validUpdateStrategies !! gscUpdateStrategy body))
       then "Invalid update strategy " +:+ quoted (gscUpdateStrategy body)
       else if ((gscUpdateStrategy body =? updateStrategyPin)%string || (gscUpdateStrategy body =? updateStrategyBuildPin)%string)
               && match gscVersion body with None => true | Some v => (v =? "")%string end
       then "Version is required for pin and build-pin strategies"
       else if (gscUpdateStrategy body =? updateStrategyBuildPin)%string
               && match gscBuild body with None => true | Some _ => false end
       then "Build is required for build-pin strategy"
       else "")).

Definition validatePluginSource {UR : URLs} (source : PluginSource) : string :=
  if (gsoType source =? Hangar)%string then
    match gsoProject source with
    | Some project => if (project =? "")%string then "Project is required for hangar source type" else ""
    | None => "Project is required for hangar source type"
    end
  else if (gsoType source =? Url)%string then
    match gsoUrl source with
    | Some url =>
        if (url =? "")%string then "URL is required for url source type"
        else match ValidateDownloadURL url with
             | Err err => "Invalid plugin URL: " +:+ errString err
             | Ok _ => ""
             end
    | None => "URL is required for url source type"
    end
  else "Unsupported source type: " +:+ gsoType source.

(** The message of the 400 response, or the empty string. *)
Definition validatePluginCreateRequest {UR : URLs} (body : PluginCreateRequest) : string :=
  orElse (validateK8sName (gpcName body) "Name")
    (orElse (validateK8sName (gpcNamespace body) "Namespace")
      (orElse (validateEndpointRequest (gpcEndpoints body)) (validatePluginSource (gpcSource body)))).

(** ** Health, version, namespaces *)

Section handlers.
Context {MR : MapRange} {GS : GoSort} {UR : URLs}.

Definition GetHealth : prog (response HealthResponse) :=
  r <- NamespaceService.ListNamespaces ;;
  now <- ask RNow ;;
  Ret match r with
      | Err _ => Reply 503 (MkHealthResponse (Some "Kubernetes API unavailable") Unhealthy now)
      | Ok _ => Reply 200 (MkHealthResponse None Healthy now)
      end.

Definition ListNamespaces : prog (response NamespaceListResponse) :=
  r <- NamespaceService.ListNamespaces ;;
  Ret match r with
      | Err _ => problem 500 "Failed to list namespaces" INTERNALERROR
      | Ok namespaces => Reply 200 (MkNamespaceListResponse namespaces)
      end.

(** ** Servers *)

Definition ListServers (namespace : option string) : prog (response ServerListResponse) :=
  r <- ServerService.ListServers (default "" namespace) ;;
  Ret match r with
      | Err _ => problem 500 "Failed to list servers" INTERNALERROR
      | Ok servers => Reply 200 (MkServerListResponse (map serverDataToSummary servers))
      end.

Definition CreateServer (body : option ServerCreateRequest) : prog (response ServerDetail) :=
  match body with
  | None => Ret bodyRequired
  | Some body =>
      let errMsg := validateServerCreateRequest body in
      if negb (errMsg =? "")%string then Ret (problem 400 errMsg INVALIDREQUEST)
      else
        r <- ServerService.CreateServer (serverCreateRequestToData body) ;;
        match r with
        | Err err => Ret (taken err "Failed to create server")
        | Ok _ =>
            r <- ServerService.GetServer (gscNamespace body) (gscName body) ;;
            Ret match r with
                | Err _ => problem 500 "Server created but failed to retrieve details" INTERNALERROR
                | Ok srv => Reply 201 (serverDataToDetail srv)
                end
        end
  end.

Definition GetServer (namespace name : string) : prog (response ServerDetail) :=
  r <- ServerService.GetServer namespace name ;;
  Ret match r with
      | Err err => missing err "Failed to get server"
      | Ok srv => Reply 200 (serverDataToDetail srv)
      end.

Definition UpdateServer (namespace name : string) (body : option ServerUpdateRequest) : prog (response ServerDetail) :=
  match body with
  | None => Ret bodyRequired
  | Some body =>
      r <- ServerService.UpdateServer (serverUpdateRequestToData namespace name body) ;;
      match r with
      | Err err => Ret (missing err "Failed to update server")
      | Ok _ =>
          r <- ServerService.GetServer namespace name ;;
          Ret match r with
              | Err _ => problem 500 "Server updated but failed to retrieve details" INTERNALERROR
              | Ok srv => Reply 200 (serverDataToDetail srv)
              end
      end
  end.

Definition DeleteServer (namespace name : string) : prog (response unit) :=
  r <- ServerService.DeleteServer namespace name ;;
  Ret match r with Err err => missing err "Failed to delete server" | Ok _ => Reply 204 tt end.

Definition accepted (msg : string) : response ActionResponse := Reply 202 (MkActionResponse msg None).

Definition ResolveServer (namespace name : string) : prog (response ActionResponse) :=
  r <- ServerService.TriggerReconciliation namespace name ;;
  Ret match r with
      | Err err => missing err "Failed to trigger reconciliation"
      | Ok _ => accepted "Reconciliation triggered"
      end.

Definition ApplyNowServer (namespace name : string) : prog (response ActionResponse) :=
  r <- ServerService.ApplyNow namespace name ;;
  Ret match r with Err err => missing err "Failed to apply updates" | Ok _ => accepted "Update applied" end.

(** ** Plugins *)

Definition ListPlugins (namespace : option string) : prog (response PluginListResponse) :=
  r <- PluginService.ListPlugins (default "" namespace) ;;
  Ret match r with
      | Err _ => problem 500 "Failed to list plugins" INTERNALERROR
      | Ok plugins => Reply 200 (MkPluginListResponse (map pluginDataToSummary plugins))
      end.

Definition CreatePlugin (body : option PluginCreateRequest) : prog (response PluginDetail) :=
  match body with
  | None => Ret bodyRequired
  | Some body =>
      let errMsg := validatePluginCreateRequest body in
      if negb (errMsg =? "")%string then Ret (problem 400 errMsg INVALIDREQUEST)
      else
        r <- PluginService.CreatePlugin (pluginCreateRequestToData body) ;;
        match r with
        | Err err => Ret (taken err "Failed to create plugin")
        | Ok _ =>
            r <- PluginService.GetPlugin (gpcNamespace body) (gpcName body) ;;
            Ret match r with
                | Err _ => problem 500 "Plugin created but failed to retrieve details" INTERNALERROR
                | Ok p => Reply 201 (pluginDataToDetail p)
                end
        end
  end.

Definition GetPlugin (namespace name : string) : prog (response PluginDetail) :=
  r <- PluginService.GetPlugin namespace name ;;
  Ret match r with
      | Err err => missing err "Failed to get plugin"
      | Ok p => Reply 200 (pluginDataToDetail p)
      end.

Definition UpdatePlugin (namespace name : string) (body : option PluginUpdateRequest) : prog (response PluginDetail) :=
  match body with
  | None => Ret bodyRequired
  | Some body =>
      let errMsg := validateEndpointRequest (gpuEndpoints body) in
      if negb (errMsg =? "")%string then Ret (problem 400 errMsg INVALIDREQUEST)
      else
        r <- PluginService.UpdatePlugin (pluginUpdateRequestToData namespace name body) ;;
        match r with
        | Err err => Ret (missing err "Failed to update plugin")
        | Ok _ =>
            r <- PluginService.GetPlugin namespace name ;;
            Ret match r with
                | Err _ => problem 500 "Plugin updated but failed to retrieve details" INTERNALERROR
                | Ok p => Reply 200 (pluginDataToDetail p)
                end
        end
  end.

Definition DeletePlugin (namespace name : string) : prog (response unit) :=
  r <- PluginService.DeletePlugin namespace name ;;
  Ret match r with Err err => missing err "Failed to delete plugin" | Ok _ => Reply 204 tt end.

Definition ResolvePlugin (namespace name : string) : prog (response ActionResponse) :=
  r <- PluginService.TriggerReconciliation namespace name ;;
  Ret match r with
      | Err err => missing err "Failed to trigger reconciliation"
      | Ok _ => accepted "Reconciliation triggered"
      end.

(** ** ConfigMaps *)

Definition summaryToAPI (cm : Service.ConfigMapSummary) : ConfigMapSummary :=
  MkConfigMapSummary (nonNil id (cmsKeys cm)) (cmsName cm) (cmsNamespace cm).

Definition ListConfigMaps (namespace : string) : prog (response ConfigMapListResponse) :=
  r <- ConfigMapService.ListConfigMaps namespace ;;
  Ret match r with
      | Err _ => problem 500 "Failed to list ConfigMaps" INTERNALERROR
      | Ok summaries => Reply 200 (MkConfigMapListResponse (map summaryToAPI summaries))
      end.

Definition CreateConfigMap (body : option ConfigMapCreateRequest) : prog (response ConfigMapSummary) :=
  match body with
  | None => Ret bodyRequired
  | Some body =>
      let errMsg := validateK8sName (gccName body) "Name" in
      if negb (errMsg =? "")%string then Ret (problem 400 errMsg INVALIDREQUEST)
      else
        r <- ConfigMapService.CreateConfigMap (gccNamespace body) (gccName body) (gccData body) ;;
        Ret match r with
            | Err err => taken err "Failed to create ConfigMap"
            | Ok _ => Reply 201 (MkConfigMapSummary (Some (rangeKeys (gccData body))) (gccName body) (gccNamespace body))
            end
  end.
End handlers.

(** ** Version *)

(** [pkg/api/server.go]: what the build recorded. *)
Record VersionInfo := MkVersionInfo {
  viOperatorVersion : string;
  viGitCommit : string;
  viBuildDate : string;
  viGoVersion : string
}.

(** [runtime.Version()] and [time.Parse(time.RFC3339, _)] *)
Class GoRuntime := {
  runtimeVersion : string;
  ParseRFC3339 : string -> result Time
}.

Definition GetVersion {GR : GoRuntime} (info : VersionInfo) : response VersionResponse :=
  Reply 200 (MkVersionResponse "v1"
    (if negb (viBuildDate info =? "")%string
     then match ParseRFC3339 (viBuildDate info) with Ok t => Some t | Err _ => None end else None)
    (nonEmpty (viGitCommit info)) (Some runtimeVersion) (viOperatorVersion info)).

(** ** Names and labels *)

(** A nonempty text whose first and last characters satisfy [f] and all satisfy [g]. *)
Definition bounded (f g : ascii -> bool) : re := Seq (Chr f) (Opt (Seq (Star (Chr g)) (Chr f))).

Lemma lastByte_snoc s c d : lastByte (s +:+ String c "") d = c.
Proof. revert d. app_induction s. Qed.

Lemma snoc_cases (s : string) : s = "" \/ exists t c, s = t +:+ String c "".
Proof.
  induction s as [|c s IH]; [by left|]. right. destruct IH as [->|(t & d & ->)]; [by exists "", c|].
  exists (String c t), d. by rewrite str_app_cons.
Qed.

Lemma bounded_spec f g s : (forall c, f c = true -> g c = true) ->
  denotes (bounded f g) s <->
  match s with
  | EmptyString => False
  | String c r => f c = true /\ f (lastByte r c) = true /\ str_all g s = true
  end.
Proof.
  intros Hfg. unfold bounded, Opt. rewrite denotes_Seq_inv. split.
  - intros (u & v & -> & (c & -> & Hc)%denotes_Chr_inv & Hv). rewrite str_app_cons, str_app_nil.
    rewrite denotes_Alt_inv, denotes_Eps_inv, denotes_Seq_inv in Hv. cbn [str_all]. rewrite (Hfg c Hc).
    destruct Hv as [->|(a & b & -> & Ha%star_chr & (d & -> & Hd)%denotes_Chr_inv)]; [done|].
    rewrite lastByte_snoc, str_all_app, Ha. cbn. by rewrite (Hfg d Hd).
  - destruct s as [|c r]; [done|]. intros (Hc & Hl & Hall). exists (String c ""), r. split; [by rewrite str_app_cons, str_app_nil|].
    split; [apply denotes_Chr_inv; by exists c|]. rewrite denotes_Alt_inv, denotes_Eps_inv, denotes_Seq_inv.
    destruct (snoc_cases r) as [->|(t & d & ->)]; [by left|]. right. exists t, (String d ""). split; [done|].
    rewrite lastByte_snoc in Hl. cbn [str_all] in Hall. apply andb_true_iff in Hall as [_ Hall].
    rewrite str_all_app, andb_true_iff in Hall. split; [apply star_chr; tauto|]. apply denotes_Chr_inv. by exists d.
Qed.

Lemma isAlnum_agrees c : isAlnumLower c = isAlphanumeric c.
Proof. reflexivity. Qed.

Lemma str_all_ext (f g : ascii -> bool) s : (forall c, f c = g c) -> str_all f s = str_all g s.
Proof. intros H. induction s as [|c s IH]; [done|]. cbn. by rewrite H, IH. Qed.

Lemma app_nonempty a b : b <> "" -> a +:+ b <> "".
Proof. by destruct a, b. Qed.

(** The two checks of a resource name agree: what the REST handlers accept by a
    regular expression is what the service layer's character loop accepts, names of
    at most 253 lower-case letters, digits, hyphens and dots that begin and end with
    a letter or a digit. *)
Theorem validateK8sName_agrees name fieldLabel :
  validateK8sName name fieldLabel = "" <-> IsValidKubernetesName name = true.
Proof.
  unfold validateK8sName, IsValidKubernetesName. destruct name as [|c r]; cbn [String.eqb].
  { split; [|done]. by intros ?%app_nonempty. }
  destruct (_ <? _)%nat; [split; [by intros ?%app_nonempty | done]|].
  assert (Hspec : MatchString k8sNamePattern (String c r) = true <->
    negb (isAlphanumeric c) || negb (isAlphanumeric (lastByte r c)) = false /\
    str_all (fun ch => isAlphanumeric ch || Ascii.eqb ch "-"%char || Ascii.eqb ch "."%char) (String c r) = true).
  { rewrite MatchString_spec. change k8sNamePattern with
      (bounded isAlnumLower (fun c => isAlnumLower c || isChar "."%char c || isChar "-"%char c)).
    rewrite bounded_spec by (intros d ->; done). rewrite orb_false_iff, !negb_false_iff.
    rewrite (str_all_ext _ (fun ch => isAlphanumeric ch || Ascii.eqb ch "-"%char || Ascii.eqb ch "."%char)).
    - unfold isAlnumLower, isAlphanumeric, isLower, isDigit. tauto.
    - intros d. unfold isChar. rewrite isAlnum_agrees. rewrite <- !orb_assoc. by rewrite (orb_comm (Ascii.eqb d "."%char)). }
  destruct (MatchString k8sNamePattern _); cbn [negb].
  - destruct (proj1 Hspec eq_refl) as [-> ->]. done.
  - split; [by intros ?%app_nonempty|]. destruct (_ || _); [done|]. intros Hs. discriminate (proj2 Hspec (conj eq_refl Hs)).
Qed.

(** ** Endpoints *)

(** What a request may say of an endpoint. *)
Definition okEndpoint (ep : PluginEndpoint) : Prop :=
  gpeName ep <> "" /\ (String.length (gpeName ep) <= maxEndpointNameLength)%nat /\ denotes dnsLabelPattern (gpeName ep) /\
  1 <= gpePort ep <= 65535 /\
  default defaultProtocol (gpeProtocol ep) ∈ [protocolTCP; protocolUDP; protocolHTTP].

Lemma protocol_valid (o : option string) :
  match o with Some p => negb (PluginEndpointProtocol_Valid p) | None => false end = false <->
  default defaultProtocol o ∈ [protocolTCP; protocolUDP; protocolHTTP].
Proof.
  destruct o as [p|]; cbn [default from_option]; [|split; [intros _; left | done]].
  rewrite negb_false_iff. unfold PluginEndpointProtocol_Valid. rewrite !orb_true_iff, !String.eqb_eq.
  unfold HTTP, TCP, UDP, protocolTCP, protocolUDP, protocolHTTP. set_solver.
Qed.

Lemma validateEndpoints_spec sn sp l :
  validateEndpoints sn sp l = "" <->
  Forall okEndpoint l /\ (NoDup (map gpeName l) /\ forall x, x ∈ map gpeName l -> x ∉ sn) /\
  (NoDup (map requestKey l) /\ forall x, x ∈ map requestKey l -> x ∉ sp).
Proof.
  revert sn sp. induction l as [|ep l IH]; intros sn sp; cbn [validateEndpoints map].
  { split; [intros _; split_and!; [constructor | constructor | | constructor |]; by intros x ?%not_elem_of_nil | done]. }
  rewrite Forall_cons, <- !seen_cons. unfold okEndpoint at 1.
  destruct (String.eqb_spec (gpeName ep) "") as [He|Hne]; [split; [done | tauto]|].
  destruct (_ || negb (MatchString _ _)) eqn:Hname.
  { split; [by intros ?%app_nonempty|]. intros [[(_ & Hl & Hm & _) _] _]. exfalso. apply MatchString_spec in Hm.
    rewrite Hm in Hname. apply orb_true_iff in Hname as [Hname%Nat.ltb_lt|[=]]. lia. }
  apply orb_false_iff in Hname as [Hlen Hm]. apply negb_false_iff, MatchString_spec in Hm. apply Nat.ltb_ge in Hlen.
  destruct (_ || (65535 <? gpePort ep)) eqn:Hport; [split; [by intros ?%app_nonempty | intros; lia]|].
  pose proof (protocol_valid (gpeProtocol ep)) as Hproto. destruct (match gpeProtocol ep with Some _ => _ | None => _ end).
  { split; [by intros ?%app_nonempty|]. intros [[(_ & _ & _ & _ & Hp) _] _]. discriminate (proj2 Hproto Hp). }
  destruct (bool_decide_reflect (gpeName ep ∈ sn)) as [Hin|Hnin]; [split; [by intros ?%app_nonempty | tauto]|].
  destruct (bool_decide_reflect (requestKey ep ∈ sp)) as [Hin|Hnin2]; [split; [by intros ?%app_nonempty | tauto]|].
  rewrite IH. apply orb_false_iff in Hport. rewrite !Z.ltb_ge in Hport.
  pose proof (proj1 Hproto eq_refl). split; [intros (? & ? & ?)|intros ([? ?] & [? ?] & [? ?])]; split_and!; try done; try tauto; lia.
Qed.

(** The object that an event creates or updates. *)
Definition sentPlugin (e : event) : option Plugin :=
  match projT1 e with RCreatePlugin p | RUpdatePlugin p => Some p | _ => None end.

(** The endpoints of the object are those of the request, with ports that are ports. *)
Definition endpointOf (ep : PluginEndpoint) : Api.PluginEndpoint :=
  Api.MkPluginEndpoint (gpeName ep) (gpePort ep) (default protocolTCP (gpeProtocol ep)).

Definition exactEndpoints (l : list PluginEndpoint) (p : Plugin) : Prop :=
  psEndpoints (plgSpec p) = map endpointOf l /\
  Forall (fun ep => 1 <= pePort ep <= 65535) (psEndpoints (plgSpec p)) /\
  Webhook.validateEndpoints p specPath = [].

Lemma wrap32_port z : 1 <= z <= 65535 -> wrap32 z = z.
Proof. intros H. unfold wrap32. rewrite Z.mod_small; lia. Qed.

Lemma sentEndpoints l : Forall okEndpoint l -> PluginService.endpointsToCRD (map endpointToData l) = map endpointOf l.
Proof.
  unfold PluginService.endpointsToCRD. induction 1 as [|ep l (_ & _ & _ & Hp & _) _ IH]; [done|].
  cbn [map]. rewrite IH. f_equal. unfold endpointToData, endpointOf. cbn. by rewrite wrap32_port.
Qed.

Lemma NoDup_map_coarser {A B C} (f : A -> B) (g : A -> C) (l : list A) :
  (forall x y, x ∈ l -> y ∈ l -> f x = f y -> g x = g y) -> NoDup (map g l) -> NoDup (map f l).
Proof.
  induction l as [|x l IH]; cbn [map]; [constructor|]. intros Hfg. rewrite !NoDup_cons. intros [Hx Hl].
  split; [|apply IH; [intros; apply Hfg; set_solver | done]].
  intros (y & Hy & Hin)%elem_of_map. apply Hx, elem_of_map. exists y. split; [apply Hfg; set_solver | done].
Qed.

Lemma nonempty_protocol (s : string) : s ∈ [protocolTCP; protocolUDP; protocolHTTP] -> (s =? "")%string = false.
Proof. intros H. apply String.eqb_neq. intros ->. unfold protocolTCP, protocolUDP, protocolHTTP in H. set_solver. Qed.

Lemma accepted_endpoints o p :
  validateEndpointRequest o = "" ->
  psEndpoints (plgSpec p) = match o with Some l => PluginService.endpointsToCRD (map endpointToData l) | None => [] end ->
  exactEndpoints (default [] o) p.
Proof.
  intros Hv He. assert (Hok : Forall okEndpoint (default [] o) /\ NoDup (map gpeName (default [] o)) /\
    NoDup (map requestKey (default [] o))).
  { destruct o as [l|]; cbn in *; [|split_and!; constructor]. apply validateEndpoints_spec in Hv. tauto. }
  destruct Hok as (Hok & Hn & Hk).
  assert (He' : psEndpoints (plgSpec p) = map endpointOf (default [] o)).
  { rewrite He. destruct o as [l|]; [by apply sentEndpoints | done]. }
  split; [done|]. assert (Hval : Forall validEndpoint (map endpointOf (default [] o))).
  { apply Forall_map. eapply Forall_impl; [exact Hok|]. intros ep (H1 & _ & _ & H2 & H3). unfold validEndpoint, endpointProtocol. cbn.
    split; [done|]. split; [done|]. rewrite nonempty_protocol by done. set_solver. }
  rewrite He'. split; [eapply Forall_impl; [exact Hval | by intros ep (_ & ? & _)]|].
  unfold Webhook.validateEndpoints. rewrite He', endpoints_valid. split; [done|]. rewrite !map_map. split; [exact Hn|].
  eapply NoDup_map_coarser; [|exact Hk]. rewrite Forall_forall in Hok. intros x y Hx Hy H. unfold requestKey.
  unfold portKey, endpointProtocol in H. cbn in H. destruct (Hok x Hx) as (_ & _ & _ & _ & Px), (Hok y Hy) as (_ & _ & _ & _ & Py).
  rewrite !nonempty_protocol in H by done. change defaultProtocol with protocolTCP. injection H as -> Hp. by rewrite Hp.
Qed.

Lemma newPlugin_endpoints data p :
  PluginService.newPlugin data = Ok p -> psEndpoints (plgSpec p) = PluginService.endpointsToCRD (pcrEndpoints data).
Proof.
  unfold PluginService.newPlugin. destruct (negb _); [destruct (ParseDuration _); [|done]|]; by intros [= <-].
Qed.

Lemma patchPlugin_endpoints data plugin p l :
  PluginService.patchPlugin data plugin = Ok p -> pudEndpoints data = Some l ->
  psEndpoints (plgSpec p) = PluginService.endpointsToCRD l.
Proof.
  intros H Hl. unfold PluginService.patchPlugin in H. rewrite Hl in H.
  assert (Hsel : forall spec, psEndpoints (PluginService.patchSpec (pudInstanceSelector data)
    (fun x spec => spec <| psInstanceSelector := x |>) (PluginService.patchSpec (Some l)
    (fun x spec => spec <| psEndpoints := PluginService.endpointsToCRD x |>) spec)) = PluginService.endpointsToCRD l).
  { intros spec. by destruct (pudInstanceSelector data). }
  destruct (pudUpdateDelay data) as [d|]; [destruct (ParseDuration d); [|done]|]; injection H as <-; apply Hsel.
Qed.

Lemma orElse_empty a b : orElse a b = "" <-> a = "" /\ b = "".
Proof. unfold orElse. destruct (String.eqb_spec a ""); naive_solver. Qed.

Lemma GetPlugin_quiet namespace name tr r :
  runs (PluginService.GetPlugin namespace name) tr r -> forall e, e ∈ tr -> sentPlugin e = None.
Proof.
  unfold PluginService.GetPlugin. intros (y & t & -> & -> & ->) e [->|?%not_elem_of_nil]%elem_of_cons; done.
Qed.

Section endpoints.
Context {UR : URLs}.

(** C22: Plugin endpoints pass through the REST API unchanged.  Every plugin that creating
    or updating one sends to the API server has exactly the endpoints of the request,
    with the protocol TCP where none is given: the conversion of the port to a 32-bit
    integer loses nothing, because only ports from 1 to 65535 get that far; and the
    admission webhook has no objection to them. *)
Theorem endpoints_exact :
  (forall body tr r e p, runs (CreatePlugin (Some body)) tr r -> e ∈ tr -> sentPlugin e = Some p ->
     exactEndpoints (default [] (gpcEndpoints body)) p) /\
  (forall namespace name body l tr r e p, runs (UpdatePlugin namespace name (Some body)) tr r ->
     gpuEndpoints body = Some l -> e ∈ tr -> sentPlugin e = Some p -> exactEndpoints l p).
Proof.
  split.
  - intros body tr r e p H Hin Hs. unfold CreatePlugin in H. cbv zeta in H.
    destruct (String.eqb_spec (validatePluginCreateRequest body) "") as [Hv|]; cbn [negb] in H;
      [|destruct H as [-> _]; by apply not_elem_of_nil in Hin].
    unfold validatePluginCreateRequest in Hv. rewrite !orElse_empty in Hv. destruct Hv as (_ & _ & Hv & _).
    apply runs_bind in H as (t1 & c & t2 & -> & H1%CreatePlugin_sends & H2).
    assert (Hquiet : forall e, e ∈ t2 -> sentPlugin e = None).
    { destruct c; [|destruct H2 as [-> _]; by intros ? ?%not_elem_of_nil].
      apply runs_bind in H2 as (t3 & g & t4 & -> & H3 & -> & _). rewrite app_nil_r. by eapply GetPlugin_quiet. }
    apply elem_of_app in Hin as [Hin|Hin]; [|rewrite (Hquiet e Hin) in Hs; done].
    destruct (PluginService.newPlugin _) as [plugin|err] eqn:Hn; [|destruct H1 as [-> _]; by apply not_elem_of_nil in Hin].
    destruct H1 as (y & -> & _). apply elem_of_cons in Hin as [->|?%not_elem_of_nil]; [|done]. injection Hs as <-.
    apply accepted_endpoints; [done|]. rewrite (newPlugin_endpoints _ _ Hn). cbn. by destruct (gpcEndpoints body).
  - intros namespace name body l tr r e p H Hl Hin Hs. unfold UpdatePlugin in H. cbv zeta in H.
    destruct (String.eqb_spec (validateEndpointRequest (gpuEndpoints body)) "") as [Hv|]; cbn [negb] in H;
      [|destruct H as [-> _]; by apply not_elem_of_nil in Hin].
    apply runs_bind in H as (t1 & c & t2 & -> & H1%UpdatePlugin_sends & H2).
    assert (Hquiet : forall e, e ∈ t2 -> sentPlugin e = None).
    { destruct c; [|destruct H2 as [-> _]; by intros ? ?%not_elem_of_nil].
      apply runs_bind in H2 as (t3 & g & t4 & -> & H3 & -> & _). rewrite app_nil_r. by eapply GetPlugin_quiet. }
    apply elem_of_app in Hin as [Hin|Hin]; [|rewrite (Hquiet e Hin) in Hs; done].
    destruct H1 as (got & rest & -> & H1). apply elem_of_cons in Hin as [->|Hin]; [done|].
    destruct got as [plugin|err]; [|subst rest; by apply not_elem_of_nil in Hin].
    destruct (PluginService.patchPlugin _ plugin) as [sent|err] eqn:Hp; [|subst rest; by apply not_elem_of_nil in Hin].
    destruct H1 as (u & -> & _). apply elem_of_cons in Hin as [->|?%not_elem_of_nil]; [|done]. injection Hs as <-.
    rewrite Hl in Hv. apply (accepted_endpoints (Some l)); [done|].
    eapply patchPlugin_endpoints; [exact Hp|]. cbn. by rewrite Hl.
Qed.
End endpoints.

(** Without the check the conversion would turn port 2^32 + 80 into port 80. *)
Example wrap32_example : wrap32 (2 ^ 32 + 80) = 80 /\ validateEndpointRequest (Some [MkPluginEndpoint "web" (2 ^ 32 + 80) None]) <> "".
Proof. by vm_compute. Qed.

(** ** What a client is told *)

(** The operations of the API that reach the cluster. *)
Inductive operation :=
  | OpGetHealth
  | OpListNamespaces
  | OpListServers (namespace : option string)
  | OpCreateServer (body : option ServerCreateRequest)
  | OpGetServer (namespace name : string)
  | OpUpdateServer (namespace name : string) (body : option ServerUpdateRequest)
  | OpDeleteServer (namespace name : string)
  | OpResolveServer (namespace name : string)
  | OpApplyNowServer (namespace name : string)
  | OpListPlugins (namespace : option string)
  | OpCreatePlugin (body : option PluginCreateRequest)
  | OpGetPlugin (namespace name : string)
  | OpUpdatePlugin (namespace name : string) (body : option PluginUpdateRequest)
  | OpDeletePlugin (namespace name : string)
  | OpResolvePlugin (namespace name : string)
  | OpListConfigMaps (namespace : string)
  | OpCreateConfigMap (body : option ConfigMapCreateRequest).

(** The status code, and the message of an error body. *)
Definition outcome {A} (r : response A) : Z * string :=
  match r with Reply status _ => (status, "") | Problem status body => (status, gerError body) end.

Definition answer {A} (p : prog (response A)) : prog (Z * string) := r <- p ;; Ret (outcome r).

Section serve.
Context {MR : MapRange} {GS : GoSort} {UR : URLs}.

Definition serve (op : operation) : prog (Z * string) :=
  match op with
  | OpGetHealth => answer GetHealth
  | OpListNamespaces => answer ListNamespaces
  | OpListServers namespace => answer (ListServers namespace)
  | OpCreateServer body => answer (CreateServer body)
  | OpGetServer namespace name => answer (GetServer namespace name)
  | OpUpdateServer namespace name body => answer (UpdateServer namespace name body)
  | OpDeleteServer namespace name => answer (DeleteServer namespace name)
  | OpResolveServer namespace name => answer (ResolveServer namespace name)
  | OpApplyNowServer namespace name => answer (ApplyNowServer namespace name)
  | OpListPlugins namespace => answer (ListPlugins namespace)
  | OpCreatePlugin body => answer (CreatePlugin body)
  | OpGetPlugin namespace name => answer (GetPlugin namespace name)
  | OpUpdatePlugin namespace name body => answer (UpdatePlugin namespace name body)
  | OpDeletePlugin namespace name => answer (DeletePlugin namespace name)
  | OpResolvePlugin namespace name => answer (ResolvePlugin namespace name)
  | OpListConfigMaps namespace => answer (ListConfigMaps namespace)
  | OpCreateConfigMap body => answer (CreateConfigMap body)
  end.

Definition changes (op : operation) : bool :=
  match op with
  | OpGetHealth | OpListNamespaces | OpListServers _ | OpGetServer _ _ | OpListPlugins _ | OpGetPlugin _ _
  | OpListConfigMaps _ => false
  | _ => true
  end.

(** The messages that say that the change was made although the answer is an error. *)
Definition doneMessages : list string :=
  ["Server created but failed to retrieve details"; "Server updated but failed to retrieve details";
   "Plugin created but failed to retrieve details"; "Plugin updated but failed to retrieve details"].

(** The client is told that the change was made. *)
Definition toldDone (o : Z * string) : bool :=
  ((200 <=? o.1) && (o.1 <? 300)) || ((o.1 =? 500) && bool_decide (o.2 ∈ doneMessages)).

Definition honest (p : prog (Z * string)) : Prop :=
  forall tr o, runs p tr o -> writes tr = if toldDone o then 1%nat else 0%nat.

Lemma missing_told {A} err msg : bool_decide (msg ∈ doneMessages) = false -> toldDone (outcome (@missing A err msg)) = false.
Proof. intros H. unfold missing. destruct (isNotFoundError err); [done|]. cbn -[doneMessages]. exact H. Qed.

Lemma taken_told {A} err msg : bool_decide (msg ∈ doneMessages) = false -> toldDone (outcome (@taken A err msg)) = false.
Proof. intros H. unfold taken. destruct (isAlreadyExistsError err); [done|]. cbn -[doneMessages]. exact H. Qed.

(** A write whose result is reported at once. *)
Lemma honest_simple {A B} (p : prog (result A)) (f : result A -> response B) :
  writesOnce p -> (forall r, toldDone (outcome (f r)) = isOk r) -> honest (answer (r <- p ;; Ret (f r))).
Proof.
  intros Hp Hf tr o (t1 & r & t2 & -> & (t3 & a & t4 & -> & H1 & -> & ->)%runs_bind & -> & ->)%runs_bind.
  rewrite !app_nil_r, (Hp _ _ H1), Hf. done.
Qed.

(** A write after which the object is read to be shown. *)
Lemma honest_shown {A B C} (p : prog (result A)) (get : prog (result B)) (fail : error -> response C) (f : result B -> response C) :
  writesOnce p -> readsOnly get -> (forall e, toldDone (outcome (fail e)) = false) -> (forall r, toldDone (outcome (f r)) = true) ->
  honest (answer (r <- p ;; match r with Err e => Ret (fail e) | Ok _ => r <- get ;; Ret (f r) end)).
Proof.
  intros Hp Hg Hfail Hf tr o (t1 & r & t2 & -> & (t3 & a & t4 & -> & H1 & H2)%runs_bind & -> & ->)%runs_bind.
  rewrite app_nil_r, writes_app, (Hp _ _ H1). destruct a as [a|e].
  - apply runs_bind in H2 as (t5 & b & t6 & -> & H3 & -> & ->). rewrite app_nil_r, (Hg _ _ H3), Hf. done.
  - destruct H2 as [-> ->]. by rewrite Hfail.
Qed.

Lemma honest_refused {A} (r : response A) : toldDone (outcome r) = false -> honest (answer (Ret r)).
Proof. intros H tr o (t1 & a & t2 & -> & [-> ->] & -> & ->)%runs_bind. by rewrite H. Qed.

Lemma answer_reads {A} (p : prog (response A)) : readsOnly p -> readsOnly (answer p).
Proof. intros H. apply readsOnly_bind; [done|]. intros; apply readsOnly_ret. Qed.

Lemma serve_reads op : changes op = false -> readsOnly (serve op).
Proof.
  destruct op; cbn [changes serve]; try done; intros _; apply answer_reads;
    unfold GetHealth, ListNamespaces, ListServers, GetServer, ListPlugins, GetPlugin, ListConfigMaps;
    (apply readsOnly_bind; [eauto using ListNamespaces_reads, ListServers_reads, GetServer_reads, ListPlugins_reads, GetPlugin_reads, ListConfigMaps_reads
                           | intros; try apply readsOnly_ret]).
  apply readsOnly_bind; [by intros tr r (y & t & -> & -> & ->)|]. intros; apply readsOnly_ret.
Qed.

Lemma serve_honest_changes op : changes op = true -> honest (serve op).
Proof.
  assert (Hreq : forall A, toldDone (outcome (@bodyRequired A)) = false) by done.
  assert (Hbad : forall A msg, toldDone (outcome (@problem A 400 msg INVALIDREQUEST)) = false) by done.
  destruct op; cbn [changes serve]; try done; intros _.
  all: try match goal with |- honest (answer (_ ?b)) => is_var b; destruct b; [|apply honest_refused, Hreq] end.
  all: unfold CreateServer, UpdateServer, DeleteServer, ResolveServer, ApplyNowServer, CreatePlugin, UpdatePlugin, DeletePlugin,
         ResolvePlugin, CreateConfigMap; cbv zeta.
  all: try match goal with |- honest (answer (if ?c then _ else _)) => destruct c; [apply honest_refused, Hbad|] end.
  all: first [apply honest_simple | apply honest_shown].
  all: try first [apply CreateServer_writes | apply UpdateServer_writes | apply DeleteServer_writes | apply CreatePlugin_writes
    | apply UpdatePlugin_writes | apply DeletePlugin_writes | apply TriggerReconciliation_writes | apply CreateConfigMap_writes
    | intros; apply GetServer_reads | intros; apply GetPlugin_reads].
  all: try apply annotate_writes.
  all: intros [?|?] || intros ?; try done; try (by apply missing_told); by apply taken_told.
Qed.

(** Reading operations write nothing; the others write once if they say so. *)
Lemma serve_writes op tr o :
  runs (serve op) tr o ->
  writes tr = if changes op && toldDone o then 1%nat else 0%nat.
Proof.
  intros H. destruct (changes op) eqn:Hc; [by apply (serve_honest_changes op Hc) | by apply (serve_reads op Hc) in H].
Qed.
End serve.

(** ** Servers: what is listed and what is created *)

Section servers.
Context {MR : MapRange} {GS : GoSort} {UR : URLs} {CR : Cron}.

(** The list of servers has the type that the API declares.  A successful answer is
    200 with one entry per server of the namespace (of all, if none is given), in the
    order of the cluster, with its name, its namespace and its versions where it has
    them; every status is one of the declared values, and so is the strategy of every
    server that the admission webhook lets in. *)
Lemma ListServers_typed namespace tr status body :
  runs (ListServers namespace) tr (Reply status body) ->
  status = 200 /\
  exists items rest, tr = Ev (E := K8s) (RListServers "") (Ok items) :: rest /\
    Forall2 (fun server s =>
      gssName s = srvName server /\ gssNamespace s = srvNamespace server /\
      default "" (gssCurrentVersion s) = stCurrentVersion (srvStatus server) /\
      default "" (gssDesiredVersion s) = stDesiredVersion (srvStatus server) /\
      ServerStatus_Valid (gssStatus s) = true /\
      (validateServer server = None -> UpdateStrategy_Valid (gssUpdateStrategy s) = true))
    (List.filter (inNamespace (default "" namespace)) items) (gslServers body).
Proof.
  intros (t1 & r & t2 & -> & H1 & -> & H2)%runs_bind. destruct r as [servers|e]; [|done]. injection H2 as -> ->.
  split; [done|]. apply ListServers_shown in H1 as (items & t' & -> & H1). exists items, (t' ++ []).
  split; [done|]. cbn [gslServers]. apply Forall2_fmap_r. eapply Forall2_impl; [exact H1|]. intros server d Hd.
  assert (Hne : forall s, default "" (nonEmpty s) = s).
  { intros s. unfold nonEmpty. by destruct (String.eqb_spec s "") as [->|]. }
  destruct Hd as [Hn Hns Hv Hdv Hst _ _ Hs _]. cbn. rewrite !Hne. split_and!; try done.
  - by destruct Hs as [->|[->| ->]].
  - intros Hval. apply validServer_iff in Hval. rewrite Hst.
    destruct (vs_strategy _ Hval) as [->|[->|[[-> _]|[-> _]]]]; done.
Qed.

(** What the handler leaves to the webhook. *)
Definition fileOf (cfg : PluginConfigFile) : Api.ConfigMapKeyRef * string :=
  (Api.MkConfigMapKeyRef (gckName (gpfConfigMapRef cfg)) (gckKey (gpfConfigMapRef cfg)), gpfPath cfg).
Definition serverFileOf (cfg : ServerConfigFile) : Api.ConfigMapKeyRef * string :=
  (Api.MkConfigMapKeyRef (gckName (gsfConfigMapRef cfg)) (gckKey (gsfConfigMapRef cfg)), gsfPath cfg).

Record leftToWebhook (body : ServerCreateRequest) : Prop := {
  lw_build : gscUpdateStrategy body = updateStrategyBuildPin -> gscBuild body <> Some 0;
  lw_check : isOk (ParseCron (default "" (gscCheckCron body))) = true;
  lw_window : forall w, gscMaintenanceWindow body = Some w -> gmwEnabled w = Some true ->
    isOk (ParseCron (default "" (gmwCron w))) = true;
  lw_plugins : Forall (fun pc => safeName (gpgPluginName pc) /\ validFiles (map fileOf (gpgConfigs pc)))
    (default [] (gscPluginConfigs body)) /\ NoDup (map gpgPluginName (default [] (gscPluginConfigs body)));
  lw_files : validFiles (map serverFileOf (default [] (gscServerConfigs body)))
}.

Definition createdServer (e : event) : option PaperMCServer :=
  match projT1 e with RCreateServer s => Some s | _ => None end.

Definition creates (r : kreq) : bool := match r with RCreateServer _ => true | _ => false end.

Lemma fetchPluginDetails_avoids l : avoids creates (ServerService.fetchPluginDetails l).
Proof. induction l; cbn [ServerService.fetchPluginDetails]; unfold ask, call; avoids_tac. Qed.

Lemma GetServer_quiet namespace name tr r :
  runs (ServerService.GetServer namespace name) tr r -> forall e, e ∈ tr -> createdServer e = None.
Proof.
  intros H e He. assert (Ha : avoids creates (ServerService.GetServer namespace name)).
  { unfold ServerService.GetServer, ServerService.fullData, ServerService.serverToData, ServerService.CheckStatefulSetStatus, ask, call.
    avoids_tac. apply fetchPluginDetails_avoids. }
  pose proof (avoids_runs creates _ _ _ Ha H) as Hq. rewrite Forall_forall in Hq. specialize (Hq e He).
  destruct e as [q y]. cbn in Hq |- *. by destruct q.
Qed.

(** The specification that a request turns into. *)
Lemma newServer_spec data server :
  ServerService.newServer data = Ok server ->
  let spec := srvSpec server in
  ssUpdateStrategy spec = scdUpdateStrategy data /\ ssVersion spec = scdVersion data /\
  ssBuild spec = (if negb (scdBuild data =? 0) then Some (scdBuild data) else None) /\
  usCheckCron (ssUpdateSchedule spec) = scdCheckCron data /\
  usMaintenanceWindow (ssUpdateSchedule spec) =
    (if scdMaintenanceEnabled data then MkMaintenanceWindow (scdMaintenanceCron data) true else zeroMaintenanceWindow) /\
  ssPluginConfigs spec = configDataToPluginConfigs (scdPluginConfigs data) /\
  ssServerConfigs spec = configDataToServerConfigs (scdServerConfigs data) /\
  ssRCON spec = zeroRCONConfig /\ ssBackup spec = None /\ ssGateway spec = None.
Proof.
  unfold ServerService.newServer. cbv zeta. destruct (negb (scdUpdateDelay data =? "")%string); [destruct (ParseDuration _); [|done]|];
    intros [= <-]; by split_and!.
Qed.

(** The strategy of an accepted request, but for a pinned build that is 0. *)
Lemma accepted_strategy body server :
  validateServerCreateRequest body = "" ->
  ServerService.newServer (serverCreateRequestToData body) = Ok server ->
  validStrategy (ssUpdateStrategy (srvSpec server)) (ssVersion (srvSpec server)) (ssBuild (srvSpec server)) <->
  (gscUpdateStrategy body = updateStrategyBuildPin -> gscBuild body <> Some 0).
Proof.
  intros Hv Hn. destruct (newServer_spec _ _ Hn) as (-> & -> & -> & _). cbn [serverCreateRequestToData scdUpdateStrategy scdVersion scdBuild].
  unfold validateServerCreateRequest in Hv. rewrite !orElse_empty in Hv. destruct Hv as (_ & _ & Hv).
  destruct (default false (validUpdateStrategies !! gscUpdateStrategy body)) eqn:Hs; cbn [negb] in Hv; [|done].
  assert (Hin : gscUpdateStrategy body = updateStrategyLatest \/ gscUpdateStrategy body = updateStrategyAuto \/
    gscUpdateStrategy body = updateStrategyPin \/ gscUpdateStrategy body = updateStrategyBuildPin).
  { unfold validUpdateStrategies in Hs. cbn [list_to_map foldr curry fst snd] in Hs.
    destruct (decide (updateStrategyLatest = gscUpdateStrategy body)); [auto|]. rewrite lookup_insert_ne in Hs by done.
    destruct (decide (updateStrategyAuto = gscUpdateStrategy body)); [auto|]. rewrite lookup_insert_ne in Hs by done.
    destruct (decide (updateStrategyPin = gscUpdateStrategy body)); [auto|]. rewrite lookup_insert_ne in Hs by done.
    destruct (decide (updateStrategyBuildPin = gscUpdateStrategy body)); [auto|]. rewrite lookup_insert_ne in Hs by done. done. }
  unfold validStrategy.
  destruct Hin as [E|[E|[E|E]]]; rewrite E in *; cbn in Hv |- *.
  - split; [intros _ [=] | by left].
  - split; [intros _ [=] | by right; left].
  - split; [intros _ [=]|]. intros _. right; right; left. split; [done|].
    destruct (gscVersion body) as [v|]; [|done]. cbn. by destruct (String.eqb_spec v "").
  - destruct (gscVersion body) as [v|]; [|done]. destruct (String.eqb_spec v ""); [done|]. cbn in Hv |- *.
    destruct (gscBuild body) as [b|]; [|done]. cbn. split.
    + intros [[=]|[[=]|[[[=] _]|(_ & _ & [z Hz])]]] _ [= ->]. done.
    + intros H. right; right; right. split_and!; try done. specialize (H eq_refl).
      destruct (Z.eqb_spec b 0) as [->|]; [done | by eexists].
Qed.

Lemma validFiles_created (l : list PluginConfigFile) :
  map pluginFile (configDataToPluginConfigFiles (apiConfigFilesToDataFromPlugin l)) = map fileOf l.
Proof. unfold configDataToPluginConfigFiles, apiConfigFilesToDataFromPlugin. by rewrite !map_map. Qed.

Lemma serverFiles_created (l : list ServerConfigFile) :
  map serverFile (configDataToServerConfigs (apiConfigFilesToData l)) = map serverFileOf l.
Proof. unfold configDataToServerConfigs, apiConfigFilesToData. by rewrite !map_map. Qed.

Lemma pluginConfigs_created (l : list ServerPluginConfig) :
  let sent := configDataToPluginConfigs (apiPluginConfigsToData l) in
  map scPluginName sent = map gpgPluginName l /\
  (Forall (fun pc => safeName (scPluginName pc) /\ validFiles (map pluginFile (scConfigs pc))) sent <->
   Forall (fun pc => safeName (gpgPluginName pc) /\ validFiles (map fileOf (gpgConfigs pc))) l).
Proof.
  cbn. unfold configDataToPluginConfigs, apiPluginConfigsToData. rewrite !map_map. split; [done|].
  rewrite !Forall_map. apply Forall_iff. intros pc. cbn. by rewrite validFiles_created.
Qed.

(** An object sent for creation, against what the request has beyond the checks. *)
Lemma sent_admitted body tr r e server :
  runs (CreateServer (Some body)) tr r -> e ∈ tr -> createdServer e = Some server ->
  validateServer server = None <-> leftToWebhook body.
Proof.
  intros H Hin Hs. unfold CreateServer in H. cbv zeta in H.
  destruct (String.eqb_spec (validateServerCreateRequest body) "") as [Hv|]; cbn [negb] in H;
    [|destruct H as [-> _]; by apply not_elem_of_nil in Hin].
  apply runs_bind in H as (t1 & c & t2 & -> & H1%CreateServer_sends & H2).
  assert (Hquiet : forall e, e ∈ t2 -> createdServer e = None).
  { destruct c; [|destruct H2 as [-> _]; by intros ? ?%not_elem_of_nil].
    apply runs_bind in H2 as (t3 & g & t4 & -> & H3 & -> & _). rewrite app_nil_r. by eapply GetServer_quiet. }
  apply elem_of_app in Hin as [Hin|Hin]; [|rewrite (Hquiet e Hin) in Hs; done].
  destruct (ServerService.newServer _) as [sent|err] eqn:Hn; [|destruct H1 as [-> _]; by apply not_elem_of_nil in Hin].
  destruct H1 as (y & -> & _). apply elem_of_cons in Hin as [->|?%not_elem_of_nil]; [|done]. injection Hs as ->.
  pose proof (accepted_strategy body server Hv Hn) as Hst.
  destruct (newServer_spec _ _ Hn) as (_ & _ & _ & Hcheck & Hwin & Hpc & Hsc & Hrcon & Hbackup & Hgw).
  cbn [serverCreateRequestToData scdCheckCron scdMaintenanceEnabled scdMaintenanceCron scdPluginConfigs scdServerConfigs]
    in Hcheck, Hwin, Hpc, Hsc.
  pose proof (pluginConfigs_created (default [] (gscPluginConfigs body))) as [Hnames Hplugins].
  assert (Hpc' : ssPluginConfigs (srvSpec server) = configDataToPluginConfigs (apiPluginConfigsToData (default [] (gscPluginConfigs body))))
    by (rewrite Hpc; by destruct (gscPluginConfigs body)).
  assert (Hsc' : map serverFile (ssServerConfigs (srvSpec server)) = map serverFileOf (default [] (gscServerConfigs body)))
    by (rewrite Hsc, <- serverFiles_created; by destruct (gscServerConfigs body)).
  assert (Hwin' : (mwEnabled (usMaintenanceWindow (ssUpdateSchedule (srvSpec server))) = true ->
      isOk (ParseCron (mwCron (usMaintenanceWindow (ssUpdateSchedule (srvSpec server))))) = true) <->
    forall w, gscMaintenanceWindow body = Some w -> gmwEnabled w = Some true -> isOk (ParseCron (default "" (gmwCron w))) = true).
  { rewrite Hwin. destruct (gscMaintenanceWindow body) as [w|]; cbn; [|naive_solver].
    destruct (gmwEnabled w) as [[]|] eqn:He; cbn; naive_solver. }
  rewrite validServer_iff. split.
  - intros [V1 V2 V3 _ _ _ [V7 V7'] V8]. rewrite Hpc' in V7, V7'. rewrite Hnames in V7'. rewrite Hsc' in V8. rewrite Hcheck in V2.
    constructor; [by apply Hst | done | by apply Hwin' | split; [by apply Hplugins | done] | done].
  - intros [L1 L2 L3 [L4 L4'] L5]. constructor.
    + by apply Hst.
    + by rewrite Hcheck.
    + by apply Hwin'.
    + by rewrite Hrcon.
    + by rewrite Hbackup.
    + by rewrite Hgw.
    + rewrite Hpc', Hnames. split; [by apply Hplugins | done].
    + by rewrite Hsc'.
Qed.

(** C23: Which requests for a new server the cluster admits.  A server that the handler
    sends for creation passes the admission webhook exactly when the request also has
    what the handler does not check: a schedule for update checks and, with the
    maintenance window on, one for the window, both valid cron expressions, a pinned
    build that is not 0, and configuration files with safe, unambiguous names and
    relative paths.  The names, the strategy and the version that goes with it have
    been checked. *)
Theorem CreateServer_admitted body tr r e server :
  runs (CreateServer (Some body)) tr r -> e ∈ tr -> createdServer e = Some server ->
  validateServer server = None <-> leftToWebhook body.
Proof. apply sent_admitted. Qed.

(** A request without a schedule for update checks is accepted by the handler and
    refused by the webhook. *)
Lemma CreateServer_withoutSchedule body tr r e server :
  isOk (ParseCron "") = false -> gscCheckCron body = None ->
  runs (CreateServer (Some body)) tr r -> e ∈ tr -> createdServer e = Some server -> validateServer server <> None.
Proof.
  intros Hc Hn H Hin Hs Hval. pose proof (lw_check _ (proj1 (sent_admitted body tr r e server H Hin Hs) Hval)) as Hl.
  rewrite Hn in Hl. cbn in Hl. congruence.
Qed.
End servers.

(** ** Examples *)

(** A delay that does not parse quotes the text of the request; a delay that says
    [not found] is answered with 404 although the server exists. *)
Lemma UpdateServer_spurious404 :
  let body := zeroServerUpdateRequest <| gsuUpdateDelay := Some "not found" |> in
  let run := exec (fun _ => oneServer survival 0) (UpdateServer "games" "survival" (Some body)) [] in
  statusCode run.2 = 404 /\ length run.1 = 1%nat.
Proof. by vm_compute. Qed.

(** A delay that does not parse is a client's mistake, answered with 500. *)
Example UpdateServer_badDelay :
  statusCode (exec (fun _ => oneServer survival 0)
    (UpdateServer "games" "survival" (Some (zeroServerUpdateRequest <| gsuUpdateDelay := Some "1 day" |>))) []).2 = 500.
Proof. by vm_compute. Qed.

Section witnesses.
Existing Instance InOrder.range.
Existing Instance InsertionSort.goSort.
Existing Instance SplitURLs.simpleURLs.
Existing Instance Daily.cron.

(** A request for a server with a daily check and a configuration file. *)
Definition lobbyRequest : ServerCreateRequest :=
  zeroServerCreateRequest
    <| gscName := "lobby" |> <| gscNamespace := "games" |> <| gscUpdateStrategy := "auto" |>
    <| gscCheckCron := Some "0 4 * * *" |>
    <| gscServerConfigs := Some [MkServerConfigFile (MkConfigMapKeyRef "server.properties" "lobby-files") None "server.properties"] |>.

Definition lobbyRun := exec (fun _ => oneServer survival 0) (CreateServer (Some lobbyRequest)) [].

Definition lobbyEvent : event := default (Ev (E := K8s) RNow 0) (head lobbyRun.1).

Definition lobby : PaperMCServer := default zeroPaperMCServer (createdServer lobbyEvent).

Lemma CreateServer_admitted_witness :
  statusCode lobbyRun.2 = 201 /\ createdServer lobbyEvent = Some lobby /\ validateServer lobby = None.
Proof.
  split; [by vm_compute|]. assert (Hc : createdServer lobbyEvent = Some lobby) by by vm_compute. split; [exact Hc|].
  assert (Hrun : runs (CreateServer (Some lobbyRequest)) lobbyRun.1 lobbyRun.2)
    by exact (exec_runs (fun _ => oneServer survival 0) (CreateServer (Some lobbyRequest)) []).
  apply (CreateServer_admitted lobbyRequest lobbyRun.1 lobbyRun.2 lobbyEvent lobby Hrun); [left | exact Hc |].
  clear Hc Hrun. constructor; [done | by vm_compute | done | split; constructor |].
  split; [|apply NoDup_singleton]. apply Forall_singleton. repeat split; try done; by vm_compute.
Defined.

Definition listRun := exec (fun _ => oneServer survival 0) (ListServers (Some "games")) [].

Lemma ListServers_typed_witness :
  exists s, listRun.2 = Reply 200 (MkServerListResponse [s]) /\ ServerStatus_Valid (gssStatus s) = true /\ gssName s = "survival".
Proof.
  assert (Hrun : runs (ListServers (Some "games")) listRun.1 listRun.2)
    by exact (exec_runs (fun _ => oneServer survival 0) (ListServers (Some "games")) []).
  assert (Hr : exists s, listRun.2 = Reply 200 (MkServerListResponse [s])) by (eexists; reflexivity).
  destruct Hr as [s Hr]. exists s. split; [exact Hr|]. rewrite Hr in Hrun.
  destruct (ListServers_typed (Some "games") _ _ _ Hrun) as (_ & items & rest & Ht & H).
  assert (Hi : items = [survival]).
  { assert (Hh : head listRun.1 = Some (Ev (E := K8s) (RListServers "") (Ok [survival]))) by reflexivity.
    rewrite Ht in Hh. apply (f_equal (fun o => match o with Some (existT (RListServers _) x) => x | _ => Ok [] end)) in Hh.
    by injection Hh as ->. }
  subst items. inversion H as [|server s' ? ? (Hn & _ & _ & _ & Hs & _)]; subst. done.
Defined.

(** A plugin with a map on port 8100. *)
Definition mapRequest : PluginCreateRequest :=
  zeroPluginCreateRequest
    <| gpcName := "bluemap" |> <| gpcNamespace := "games" |>
    <| gpcSource := MkPluginSource None (Some "BlueMap") "hangar" None |>
    <| gpcEndpoints := Some [MkPluginEndpoint "web" 8100 (Some "HTTP")] |>.

Definition mapRun := exec (fun _ => oneServer survival 0) (CreatePlugin (Some mapRequest)) [].

Lemma endpoints_exact_witness :
  exists p, sentPlugin (default (Ev (E := K8s) RNow 0) (head mapRun.1)) = Some p /\
    psEndpoints (plgSpec p) = [Api.MkPluginEndpoint "web" 8100 "HTTP"].
Proof.
  assert (Hrun : runs (CreatePlugin (Some mapRequest)) mapRun.1 mapRun.2)
    by exact (exec_runs (fun _ => oneServer survival 0) (CreatePlugin (Some mapRequest)) []).
  assert (Hs : exists p, sentPlugin (default (Ev (E := K8s) RNow 0) (head mapRun.1)) = Some p) by (eexists; reflexivity).
  destruct Hs as [p Hs]. exists p. split; [exact Hs|].
  assert (Hin : default (Ev (E := K8s) RNow 0) (head mapRun.1) ∈ mapRun.1) by left.
  exact (proj1 (proj1 endpoints_exact mapRequest _ _ _ _ Hrun Hin Hs)).
Defined.
End witnesses.
