(* ===== verification/Http.v ===== *)
(** * The REST API over HTTP (api/openapi/generated/api.gen.go, pkg/api/server.go)

    What the generated code puts around the handlers of file Rest: the routes of a
    multiplexer, the binding of parameters, the decoding of bodies and the writing of
    answers.  A request carries what decoding its body gives for every type of body;
    an answer has its status, its content type and the value that is encoded.  The
    binding of parameters is the library's ([Binding]). *)

From S2P Require Import Prelude GoBase Decimals Strings GoLib Api Objects Effects K8s Window Url Webhook Service Targets OpenAPI Rest.
From Stdlib Require Import Ascii.

Import generated.

Open Scope Z_scope.

(** ** Requests and answers *)

(** [json.NewDecoder(r.Body).Decode(&body)] for the five types of body. *)
Record Bodies := MkBodies {
  asServerCreate : result ServerCreateRequest;
  asServerUpdate : result ServerUpdateRequest;
  asPluginCreate : result PluginCreateRequest;
  asPluginUpdate : result PluginUpdateRequest;
  asConfigMapCreate : result ConfigMapCreateRequest
}.

(** The path is without the prefix /api/v1, decoded; no segment has an encoded slash. *)
Record APIRequest := MkAPIRequest {
  arMethod : string;
  arPath : string;
  arQuery : gmap string string;
  arBodies : Bodies
}.

Inductive payload :=
  | PNone
  | PText (msg : string)
  | PError (e : ErrorResponse)
  | PHealth (b : HealthResponse)
  | PVersion (b : VersionResponse)
  | PNamespaces (b : NamespaceListResponse)
  | PServers (b : ServerListResponse)
  | PServer (b : ServerDetail)
  | PPlugins (b : PluginListResponse)
  | PPlugin (b : PluginDetail)
  | PAction (b : ActionResponse)
  | PConfigMaps (b : ConfigMapListResponse)
  | PConfigMap (b : ConfigMapSummary).

Record httpAnswer := MkAnswer { hStatus : Z; hContentType : string; hPayload : payload }.

(** [http.Error] *)
Definition textError (msg : string) (status : Z) : httpAnswer := MkAnswer status "text/plain; charset=utf-8" (PText msg).

(** The body of every [Visit] method: content type, status, encoded value. *)
Definition encode (status : Z) (b : payload) : httpAnswer := MkAnswer status "application/json" b.

(** ** Parameters *)

Class Binding := {
  (** [runtime.BindStyledParameterWithOptions] with style simple *)
  bindPath : string -> string -> result string;
  (** [runtime.BindQueryParameterWithOptions] with style form, not required *)
  bindQuery : string -> option string -> result (option string)
}.

(** A text of the letters of names is bound as it is, and so is an absent parameter. *)
Definition isNameByte (c : ascii) : bool := isAlnumLower c || Ascii.eqb c "-"%char || Ascii.eqb c "."%char.

Class BindingLaws {BD : Binding} : Prop := {
  bindPath_name : forall n v, v <> "" -> str_all isNameByte v = true -> bindPath n v = Ok v;
  bindQuery_none : forall n, bindQuery n None = Ok None;
  bindQuery_name : forall n v, v <> "" -> str_all isNameByte v = true -> bindQuery n (Some v) = Ok (Some v)
}.

Module PlainBinding.
Definition binding : Binding := {| bindPath _ v := Ok v; bindQuery _ v := Ok v |}.
Lemma binding_laws : BindingLaws (BD := binding).
Proof. by split. Qed.
End PlainBinding.

(** [InvalidParamFormatError] *)
Definition InvalidParamFormatError (paramName : string) (err : error) : error :=
  ErrNew ("Invalid format for parameter " +:+ paramName +:+ ": " +:+ errString err).

(** The handler of errors that [HandlerWithOptions] sets. *)
Definition ErrorHandlerFunc (err : error) : httpAnswer := textError (errString err) 400.

(** The handler of errors of requests that [NewStrictHandler] sets. *)
Definition RequestErrorHandlerFunc (err : error) : httpAnswer := textError (errString err) 400.

(** ** The responses of the operations

    The methods of the response types of an operation; the status selects the type. *)

Definition visit {A} (f : A -> payload) (r : response A) : httpAnswer :=
  match r with Reply status b => encode status (f b) | Problem status e => encode status (PError e) end.

Definition VisitListConfigMapsResponse : response ConfigMapListResponse -> httpAnswer := visit PConfigMaps.
Definition VisitCreateConfigMapResponse : response ConfigMapSummary -> httpAnswer := visit PConfigMap.
Definition VisitGetHealthResponse : response HealthResponse -> httpAnswer := visit PHealth.
Definition VisitListNamespacesResponse : response NamespaceListResponse -> httpAnswer := visit PNamespaces.
Definition VisitListPluginsResponse : response PluginListResponse -> httpAnswer := visit PPlugins.
Definition VisitCreatePluginResponse : response PluginDetail -> httpAnswer := visit PPlugin.
Definition VisitGetPluginResponse : response PluginDetail -> httpAnswer := visit PPlugin.
Definition VisitUpdatePluginResponse : response PluginDetail -> httpAnswer := visit PPlugin.
Definition VisitResolvePluginResponse : response ActionResponse -> httpAnswer := visit PAction.
Definition VisitListServersResponse : response ServerListResponse -> httpAnswer := visit PServers.
Definition VisitCreateServerResponse : response ServerDetail -> httpAnswer := visit PServer.
Definition VisitGetServerResponse : response ServerDetail -> httpAnswer := visit PServer.
Definition VisitUpdateServerResponse : response ServerDetail -> httpAnswer := visit PServer.
Definition VisitApplyNowServerResponse : response ActionResponse -> httpAnswer := visit PAction.
Definition VisitResolveServerResponse : response ActionResponse -> httpAnswer := visit PAction.
Definition VisitGetVersionResponse : response VersionResponse -> httpAnswer := visit PVersion.

(** A deletion is answered without a body. *)
Definition visitDeleted (r : response unit) : httpAnswer :=
  match r with Reply status _ => MkAnswer status "" PNone | Problem status e => encode status (PError e) end.

Definition VisitDeletePluginResponse : response unit -> httpAnswer := visitDeleted.
Definition VisitDeleteServerResponse : response unit -> httpAnswer := visitDeleted.

(** ** strictHandler: bodies and answers *)

Module strictHandler.
Section strict.
Context {MR : MapRange} {GS : GoSort} {UR : URLs} {GR : GoRuntime} (versionInfo : VersionInfo).

(** The error of a body that cannot be decoded, before anything is done. *)
Definition undecodable (err : error) : prog httpAnswer :=
  Ret (RequestErrorHandlerFunc (ErrNew ("can't decode JSON body: " +:+ errString err))).

Definition ListConfigMaps (namespace : string) : prog httpAnswer :=
  x <- Rest.ListConfigMaps namespace ;; Ret (VisitListConfigMapsResponse x).

(** The namespace of the path is kept in the request object, where no one reads it. *)
Definition CreateConfigMap (r : APIRequest) (namespace : string) : prog httpAnswer :=
  match asConfigMapCreate (arBodies r) with
  | Err e => undecodable e
  | Ok body => x <- Rest.CreateConfigMap (Some body) ;; Ret (VisitCreateConfigMapResponse x)
  end.

Definition GetHealth : prog httpAnswer := x <- Rest.GetHealth ;; Ret (VisitGetHealthResponse x).

Definition ListNamespaces : prog httpAnswer := x <- Rest.ListNamespaces ;; Ret (VisitListNamespacesResponse x).

Definition ListPlugins (namespace : option string) : prog httpAnswer :=
  x <- Rest.ListPlugins namespace ;; Ret (VisitListPluginsResponse x).

Definition CreatePlugin (r : APIRequest) : prog httpAnswer :=
  match asPluginCreate (arBodies r) with
  | Err e => undecodable e
  | Ok body => x <- Rest.CreatePlugin (Some body) ;; Ret (VisitCreatePluginResponse x)
  end.

Definition DeletePlugin (namespace name : string) : prog httpAnswer :=
  x <- Rest.DeletePlugin namespace name ;; Ret (VisitDeletePluginResponse x).

Definition GetPlugin (namespace name : string) : prog httpAnswer :=
  x <- Rest.GetPlugin namespace name ;; Ret (VisitGetPluginResponse x).

Definition UpdatePlugin (r : APIRequest) (namespace name : string) : prog httpAnswer :=
  match asPluginUpdate (arBodies r) with
  | Err e => undecodable e
  | Ok body => x <- Rest.UpdatePlugin namespace name (Some body) ;; Ret (VisitUpdatePluginResponse x)
  end.

Definition ResolvePlugin (namespace name : string) : prog httpAnswer :=
  x <- Rest.ResolvePlugin namespace name ;; Ret (VisitResolvePluginResponse x).

Definition ListServers (namespace : option string) : prog httpAnswer :=
  x <- Rest.ListServers namespace ;; Ret (VisitListServersResponse x).

Definition CreateServer (r : APIRequest) : prog httpAnswer :=
  match asServerCreate (arBodies r) with
  | Err e => undecodable e
  | Ok body => x <- Rest.CreateServer (Some body) ;; Ret (VisitCreateServerResponse x)
  end.

Definition DeleteServer (namespace name : string) : prog httpAnswer :=
  x <- Rest.DeleteServer namespace name ;; Ret (VisitDeleteServerResponse x).

Definition GetServer (namespace name : string) : prog httpAnswer :=
  x <- Rest.GetServer namespace name ;; Ret (VisitGetServerResponse x).

Definition UpdateServer (r : APIRequest) (namespace name : string) : prog httpAnswer :=
  match asServerUpdate (arBodies r) with
  | Err e => undecodable e
  | Ok body => x <- Rest.UpdateServer namespace name (Some body) ;; Ret (VisitUpdateServerResponse x)
  end.

Definition ApplyNowServer (namespace name : string) : prog httpAnswer :=
  x <- Rest.ApplyNowServer namespace name ;; Ret (VisitApplyNowServerResponse x).

Definition ResolveServer (namespace name : string) : prog httpAnswer :=
  x <- Rest.ResolveServer namespace name ;; Ret (VisitResolveServerResponse x).

Definition GetVersion : prog httpAnswer := Ret (VisitGetVersionResponse (Rest.GetVersion versionInfo)).
End strict.
End strictHandler.

(** ** ServerInterfaceWrapper: parameters *)

(** The values of the wildcards of a pattern. *)
Definition pathValues : Type := list (string * string).

Definition PathValue (vals : pathValues) (n : string) : string :=
  match List.find (fun e => (e.1 =? n)%string) vals with Some e => e.2 | None => "" end.

Module ServerInterfaceWrapper.
Section wrapper.
Context {MR : MapRange} {GS : GoSort} {UR : URLs} {GR : GoRuntime} {BD : Binding} (versionInfo : VersionInfo).

(** A parameter of the path, or the error. *)
Definition withPath (vals : pathValues) (n : string) (k : string -> prog httpAnswer) : prog httpAnswer :=
  match bindPath n (PathValue vals n) with
  | Err e => Ret (ErrorHandlerFunc (InvalidParamFormatError n e))
  | Ok v => k v
  end.

(** The optional parameter of a query, or the error. *)
Definition withQuery (r : APIRequest) (n : string) (k : option string -> prog httpAnswer) : prog httpAnswer :=
  match bindQuery n (arQuery r !! n) with
  | Err e => Ret (ErrorHandlerFunc (InvalidParamFormatError n e))
  | Ok v => k v
  end.

(** The two parameters of most paths. *)
Definition withObject (vals : pathValues) (k : string -> string -> prog httpAnswer) : prog httpAnswer :=
  withPath vals "namespace" (fun namespace => withPath vals "name" (fun name => k namespace name)).

Definition ListConfigMaps (vals : pathValues) (r : APIRequest) : prog httpAnswer :=
  withPath vals "namespace" strictHandler.ListConfigMaps.

Definition CreateConfigMap (vals : pathValues) (r : APIRequest) : prog httpAnswer :=
  withPath vals "namespace" (strictHandler.CreateConfigMap r).

Definition GetHealth (vals : pathValues) (r : APIRequest) : prog httpAnswer := strictHandler.GetHealth.

Definition ListNamespaces (vals : pathValues) (r : APIRequest) : prog httpAnswer := strictHandler.ListNamespaces.

Definition ListPlugins (vals : pathValues) (r : APIRequest) : prog httpAnswer :=
  withQuery r "namespace" strictHandler.ListPlugins.

Definition CreatePlugin (vals : pathValues) (r : APIRequest) : prog httpAnswer := strictHandler.CreatePlugin r.

Definition DeletePlugin (vals : pathValues) (r : APIRequest) : prog httpAnswer := withObject vals strictHandler.DeletePlugin.

Definition GetPlugin (vals : pathValues) (r : APIRequest) : prog httpAnswer := withObject vals strictHandler.GetPlugin.

Definition UpdatePlugin (vals : pathValues) (r : APIRequest) : prog httpAnswer :=
  withObject vals (strictHandler.UpdatePlugin r).

Definition ResolvePlugin (vals : pathValues) (r : APIRequest) : prog httpAnswer := withObject vals strictHandler.ResolvePlugin.

Definition ListServers (vals : pathValues) (r : APIRequest) : prog httpAnswer :=
  withQuery r "namespace" strictHandler.ListServers.

Definition CreateServer (vals : pathValues) (r : APIRequest) : prog httpAnswer := strictHandler.CreateServer r.

Definition DeleteServer (vals : pathValues) (r : APIRequest) : prog httpAnswer := withObject vals strictHandler.DeleteServer.

Definition GetServer (vals : pathValues) (r : APIRequest) : prog httpAnswer := withObject vals strictHandler.GetServer.

Definition UpdateServer (vals : pathValues) (r : APIRequest) : prog httpAnswer :=
  withObject vals (strictHandler.UpdateServer r).

Definition ApplyNowServer (vals : pathValues) (r : APIRequest) : prog httpAnswer :=
  withObject vals strictHandler.ApplyNowServer.

Definition ResolveServer (vals : pathValues) (r : APIRequest) : prog httpAnswer := withObject vals strictHandler.ResolveServer.

Definition GetVersion (vals : pathValues) (r : APIRequest) : prog httpAnswer := strictHandler.GetVersion versionInfo.
End wrapper.
End ServerInterfaceWrapper.

(** ** The routes *)

Inductive segment := Lit (s : string) | Wild (n : string).

Inductive route :=
  | RtListConfigMaps | RtCreateConfigMap | RtGetHealth | RtListNamespaces
  | RtListPlugins | RtCreatePlugin | RtDeletePlugin | RtGetPlugin | RtUpdatePlugin | RtResolvePlugin
  | RtListServers | RtCreateServer | RtDeleteServer | RtGetServer | RtUpdateServer | RtApplyNowServer | RtResolveServer
  | RtGetVersion.

Definition object_ (kind : string) : list segment := [Lit kind; Wild "namespace"; Wild "name"].

(** The patterns that [HandlerWithOptions] registers, without a base URL. *)
Definition routes : list (string * list segment * route) :=
  [("GET", [Lit "configmaps"; Wild "namespace"], RtListConfigMaps);
   ("POST", [Lit "configmaps"; Wild "namespace"], RtCreateConfigMap);
   ("GET", [Lit "health"], RtGetHealth);
   ("GET", [Lit "namespaces"], RtListNamespaces);
   ("GET", [Lit "plugins"], RtListPlugins);
   ("POST", [Lit "plugins"], RtCreatePlugin);
   ("DELETE", object_ "plugins", RtDeletePlugin);
   ("GET", object_ "plugins", RtGetPlugin);
   ("PUT", object_ "plugins", RtUpdatePlugin);
   ("POST", object_ "plugins" ++ [Lit "actions"; Lit "resolve"], RtResolvePlugin);
   ("GET", [Lit "servers"], RtListServers);
   ("POST", [Lit "servers"], RtCreateServer);
   ("DELETE", object_ "servers", RtDeleteServer);
   ("GET", object_ "servers", RtGetServer);
   ("PUT", object_ "servers", RtUpdateServer);
   ("POST", object_ "servers" ++ [Lit "actions"; Lit "apply-now"], RtApplyNowServer);
   ("POST", object_ "servers" ++ [Lit "actions"; Lit "resolve"], RtResolveServer);
   ("GET", [Lit "version"], RtGetVersion)].

(** [http.ServeMux]: a wildcard stands for one segment, which is not empty. *)
Fixpoint matchSegments (pat : list segment) (segs : list string) : option pathValues :=
  match pat, segs with
  | [], [] => Some []
  | Lit s :: pat, x :: segs => if (s =? x)%string then matchSegments pat segs else None
  | Wild n :: pat, x :: segs =>
      if (x =? "")%string then None else vals ← matchSegments pat segs; Some ((n, x) :: vals)
  | _, _ => None
  end.

(** A pattern for GET is one for HEAD too. *)
Definition methodMatches (pattern method : string) : bool :=
  (pattern =? method)%string || (pattern =? "GET")%string && (method =? "HEAD")%string.

Inductive destination := To (rt : route) (vals : pathValues) | NoMethod | NoPath.

(** No two of the patterns match the same method and path, so that their order does
    not matter. *)
Fixpoint findRoute (l : list (string * list segment * route)) (method : string) (segs : list string) (seen : bool) : destination :=
  match l with
  | [] => if seen then NoMethod else NoPath
  | (pattern, pat, rt) :: l =>
      match matchSegments pat segs with
      | Some vals => if methodMatches pattern method then To rt vals else findRoute l method segs true
      | None => findRoute l method segs seen
      end
  end.

Definition lookupRoute (r : APIRequest) : destination :=
  findRoute routes (arMethod r) (SplitByte (TrimPrefix (arPath r) "/") "/"%char) false.

Section handler.
Context {MR : MapRange} {GS : GoSort} {UR : URLs} {GR : GoRuntime} {BD : Binding} (versionInfo : VersionInfo).

Definition wrapper (rt : route) : pathValues -> APIRequest -> prog httpAnswer :=
  match rt with
  | RtListConfigMaps => ServerInterfaceWrapper.ListConfigMaps
  | RtCreateConfigMap => ServerInterfaceWrapper.CreateConfigMap
  | RtGetHealth => ServerInterfaceWrapper.GetHealth
  | RtListNamespaces => ServerInterfaceWrapper.ListNamespaces
  | RtListPlugins => ServerInterfaceWrapper.ListPlugins
  | RtCreatePlugin => ServerInterfaceWrapper.CreatePlugin
  | RtDeletePlugin => ServerInterfaceWrapper.DeletePlugin
  | RtGetPlugin => ServerInterfaceWrapper.GetPlugin
  | RtUpdatePlugin => ServerInterfaceWrapper.UpdatePlugin
  | RtResolvePlugin => ServerInterfaceWrapper.ResolvePlugin
  | RtListServers => ServerInterfaceWrapper.ListServers
  | RtCreateServer => ServerInterfaceWrapper.CreateServer
  | RtDeleteServer => ServerInterfaceWrapper.DeleteServer
  | RtGetServer => ServerInterfaceWrapper.GetServer
  | RtUpdateServer => ServerInterfaceWrapper.UpdateServer
  | RtApplyNowServer => ServerInterfaceWrapper.ApplyNowServer
  | RtResolveServer => ServerInterfaceWrapper.ResolveServer
  | RtGetVersion => ServerInterfaceWrapper.GetVersion versionInfo
  end.

(** [Server.Handler]: the multiplexer with the strict handler behind it. *)
Definition Handler (r : APIRequest) : prog httpAnswer :=
  match lookupRoute r with
  | To rt vals => wrapper rt vals r
  | NoMethod => Ret (textError "Method Not Allowed" 405)
  | NoPath => Ret (textError "404 page not found" 404)
  end.
End handler.

(** ** The routes do not overlap *)

Fixpoint overlap (p q : list segment) : bool :=
  match p, q with
  | [], [] => true
  | Lit s :: p, Lit t :: q => (s =? t)%string && overlap p q
  | _ :: p, _ :: q => overlap p q
  | _, _ => false
  end.

Lemma overlap_spec p q segs : is_Some (matchSegments p segs) -> is_Some (matchSegments q segs) -> overlap p q = true.
Proof.
  revert q segs. induction p as [|[s|n] p IH]; intros [|[t|m] q] [|x segs]; cbn; try (by intros [? [=]]); try (by intros _ [? [=]]).
  - destruct (s =? x)%string eqn:Hs; [|by intros [? [=]]]. destruct (t =? x)%string eqn:Ht; [|by intros _ [? [=]]].
    bool_prop. subst. rewrite String.eqb_refl. apply IH.
  - destruct (s =? x)%string; [|by intros [? [=]]]. destruct (x =? "")%string; [by intros _ [? [=]]|].
    intros Hp (vals & [vals' [Hv _]]%Some_bind). by eapply IH.
  - destruct (t =? x)%string; [|by intros _ [? [=]]]. destruct (x =? "")%string; [by intros [? [=]]|].
    intros (vals & [vals' [Hv _]]%Some_bind) Hq. by eapply IH.
  - destruct (x =? "")%string; [by intros [? [=]]|].
    intros (vals & [vals' [Hv _]]%Some_bind) (wals & [wals' [Hw _]]%Some_bind). by eapply IH.
Qed.

(** At most one pattern matches a method and a path. *)
Definition disjoint2 (a b : string * list segment * route) : bool :=
  negb (a.1.1 =? b.1.1)%string || negb (overlap a.1.2 b.1.2).

Fixpoint pairwise {A} (f : A -> A -> bool) (l : list A) : bool :=
  match l with [] => true | x :: l => forallb (f x) l && pairwise f l end.

Lemma routes_disjoint : pairwise disjoint2 routes = true.
Proof. by vm_compute. Qed.

(** The pattern takes the method and the path. *)
Definition takes (segs : list string) (method : string) (e : string * list segment * route) : Prop :=
  is_Some (matchSegments e.1.2 segs) /\ methodMatches e.1.1 method = true.

(** HEAD is not the method of a pattern, so a method is taken for one pattern's only. *)
Lemma methodMatches_one p q method :
  p <> "HEAD" -> q <> "HEAD" -> methodMatches p method = true -> methodMatches q method = true -> p = q.
Proof. unfold methodMatches. rewrite !orb_true_iff, !andb_true_iff, !String.eqb_eq. naive_solver. Qed.

Lemma routes_methods : forallb (fun e : string * list segment * route => negb (e.1.1 =? "HEAD")%string) routes = true.
Proof. by vm_compute. Qed.

Lemma pairwise_spec {A} (f : A -> A -> bool) (l : list A) x y :
  (forall x y, f x y = f y x) -> pairwise f l = true -> x ∈ l -> y ∈ l -> f x y = true \/ x = y.
Proof.
  intros Hs. induction l as [|z l IH]; [by intros _ ?%not_elem_of_nil|]. cbn. intros [Hz Hl]%andb_prop Hx Hy.
  rewrite forallb_forall in Hz. apply elem_of_cons in Hx as [->|Hx], Hy as [->|Hy]; [by right | left | left | by apply IH].
  - by apply Hz, list_elem_of_In.
  - rewrite Hs. by apply Hz, list_elem_of_In.
Qed.

Lemma overlap_comm p q : overlap p q = overlap q p.
Proof. revert q. induction p as [|[s|n] p IH]; intros [|[t|m] q]; cbn; try done. by rewrite String.eqb_sym, IH. Qed.

(** No two patterns take the same method and path. *)
Lemma routes_unique segs method e e' : e ∈ routes -> e' ∈ routes -> takes segs method e -> takes segs method e' -> e = e'.
Proof.
  intros He He' [Hm Ht] [Hm' Ht'].
  destruct (pairwise_spec disjoint2 routes e e') as [Hd|]; try done.
  - intros x y. unfold disjoint2. by rewrite String.eqb_sym, overlap_comm.
  - exfalso. unfold disjoint2 in Hd. rewrite (overlap_spec _ _ _ Hm Hm'), orb_false_r in Hd.
    pose proof routes_methods as Hr. rewrite forallb_forall in Hr. pose proof (Hr e) as H1. pose proof (Hr e') as H2.
    rewrite <- list_elem_of_In in H1, H2. specialize (H1 He). specialize (H2 He'). bool_prop.
    by apply Hd, (methodMatches_one _ _ method).
Qed.

(** What is found: the route that takes the request; or none. *)
Lemma findRoute_spec l method segs seen :
  match findRoute l method segs seen with
  | To rt vals => exists pattern pat, (pattern, pat, rt) ∈ l /\ matchSegments pat segs = Some vals /\ methodMatches pattern method = true
  | NoMethod => Forall (fun e => ~ takes segs method e) l /\ (seen = true \/ List.Exists (fun e => is_Some (matchSegments e.1.2 segs)) l)
  | NoPath => seen = false /\ Forall (fun e => matchSegments e.1.2 segs = None) l
  end.
Proof.
  revert seen. induction l as [|[[pattern pat] rt'] l IH]; intros seen; cbn [findRoute].
  { destruct seen; split; auto. }
  destruct (matchSegments pat segs) as [vals|] eqn:Hm; [destruct (methodMatches pattern method) eqn:Hq|].
  - exists pattern, pat. split; [left | done].
  - specialize (IH true). destruct (findRoute l method segs true) as [rt vals'| |]; [| |by destruct IH].
    + destruct IH as (p & q & Hin & H). exists p, q. split; [by right | done].
    + destruct IH as [IH _]. split; [constructor; [intros [_ H]; cbn in H; congruence | done]|]. right. left. by eexists.
  - specialize (IH seen). destruct (findRoute l method segs seen) as [rt vals'| |].
    + destruct IH as (p & q & Hin & H). exists p, q. split; [by right | done].
    + destruct IH as [IH Hs]. split; [constructor; [intros [[? H] _]; cbn in H; congruence | done]|].
      destruct Hs; [by left | right; by right].
    + destruct IH as [-> IH]. split; [done|]. by constructor.
Qed.

(** ** What a request asks for *)

Section requested.
Context {BD : Binding}.

(** A parameter of the path, and two. *)
Definition pathParam (vals : pathValues) (n : string) : result string :=
  match bindPath n (PathValue vals n) with Err e => Err (InvalidParamFormatError n e) | Ok v => Ok v end.

Definition queryParam (r : APIRequest) (n : string) : result (option string) :=
  match bindQuery n (arQuery r !! n) with Err e => Err (InvalidParamFormatError n e) | Ok v => Ok v end.

Definition bodyParam {A} (b : result A) : result A :=
  match b with Err e => Err (ErrNew ("can't decode JSON body: " +:+ errString e)) | Ok body => Ok body end.

Definition andThen {A B} (x : result A) (f : A -> result B) : result B := match x with Ok a => f a | Err e => Err e end.

Definition object2 {A} (vals : pathValues) (f : string -> string -> result A) : result A :=
  andThen (pathParam vals "namespace") (fun ns => andThen (pathParam vals "name") (f ns)).

(** The operation of a request on a route: [Ok None] is the one that needs no cluster. *)
Definition requested (rt : route) (vals : pathValues) (r : APIRequest) : result (option Rest.operation) :=
  let path f := andThen (pathParam vals "namespace") (fun ns => Ok (Some (f ns))) in
  let query f := andThen (queryParam r "namespace") (fun ns => Ok (Some (f ns))) in
  let object f := object2 vals (fun ns n => Ok (Some (f ns n))) in
  match rt with
  | RtListConfigMaps => path OpListConfigMaps
  | RtCreateConfigMap =>
      andThen (pathParam vals "namespace") (fun _ =>
      andThen (bodyParam (asConfigMapCreate (arBodies r))) (fun b => Ok (Some (OpCreateConfigMap (Some b)))))
  | RtGetHealth => Ok (Some OpGetHealth)
  | RtListNamespaces => Ok (Some OpListNamespaces)
  | RtListPlugins => query OpListPlugins
  | RtCreatePlugin => andThen (bodyParam (asPluginCreate (arBodies r))) (fun b => Ok (Some (OpCreatePlugin (Some b))))
  | RtDeletePlugin => object OpDeletePlugin
  | RtGetPlugin => object OpGetPlugin
  | RtUpdatePlugin => object2 vals (fun ns n =>
      andThen (bodyParam (asPluginUpdate (arBodies r))) (fun b => Ok (Some (OpUpdatePlugin ns n (Some b)))))
  | RtResolvePlugin => object OpResolvePlugin
  | RtListServers => query OpListServers
  | RtCreateServer => andThen (bodyParam (asServerCreate (arBodies r))) (fun b => Ok (Some (OpCreateServer (Some b))))
  | RtDeleteServer => object OpDeleteServer
  | RtGetServer => object OpGetServer
  | RtUpdateServer => object2 vals (fun ns n =>
      andThen (bodyParam (asServerUpdate (arBodies r))) (fun b => Ok (Some (OpUpdateServer ns n (Some b)))))
  | RtApplyNowServer => object OpApplyNowServer
  | RtResolveServer => object OpResolveServer
  | RtGetVersion => Ok None
  end.
End requested.

(** ** From requests to operations *)

Section handled.
Context {BD : Binding}.

(** A program is an answer 400 at once if nothing can be asked for, and satisfies [Q] otherwise. *)
Definition handled {A} (Q : A -> prog httpAnswer -> Prop) (o : result A) (p : prog httpAnswer) : Prop :=
  match o with Err e => p = Ret (textError (errString e) 400) | Ok x => Q x p end.

Context {A} (Q : A -> prog httpAnswer -> Prop).

Lemma handled_path vals n k f :
  (forall v, handled Q (f v) (k v)) -> handled Q (andThen (pathParam vals n) f) (ServerInterfaceWrapper.withPath vals n k).
Proof. intros Hk. unfold ServerInterfaceWrapper.withPath, pathParam. destruct (bindPath _ _); [apply Hk | done]. Qed.

Lemma handled_query r n k f :
  (forall v, handled Q (f v) (k v)) -> handled Q (andThen (queryParam r n) f) (ServerInterfaceWrapper.withQuery r n k).
Proof. intros Hk. unfold ServerInterfaceWrapper.withQuery, queryParam. destruct (bindQuery _ _); [apply Hk | done]. Qed.

Lemma handled_object vals k f :
  (forall ns n, handled Q (f ns n) (k ns n)) -> handled Q (object2 vals f) (ServerInterfaceWrapper.withObject vals k).
Proof. intros Hk. do 2 (apply handled_path; intros ?). apply Hk. Qed.

Lemma handled_body {B} (b : result B) k f :
  (forall v, handled Q (f v) (k v)) ->
  handled Q (andThen (bodyParam b) f) (match b with Err e => strictHandler.undecodable e | Ok body => k body end).
Proof. intros Hk. destruct b; [apply Hk | done]. Qed.
End handled.

(** The parameters and the body of a request. *)
Ltac read_request :=
  repeat first [apply handled_object; intros ? ? | apply handled_path; intros ? | apply handled_query; intros ? | apply handled_body; intros ?].

(** ** What is answered *)

(** The statuses for which an operation has a response type. *)
Definition declared (rt : route) : list Z :=
  match rt with
  | RtListConfigMaps | RtListNamespaces | RtListPlugins | RtListServers => [200; 500]
  | RtCreateConfigMap | RtCreatePlugin | RtCreateServer => [201; 400; 409; 500]
  | RtGetHealth => [200; 503]
  | RtGetVersion => [200]
  | RtDeletePlugin | RtDeleteServer => [204; 404; 500]
  | RtGetPlugin | RtGetServer => [200; 404; 500]
  | RtUpdatePlugin | RtUpdateServer => [200; 400; 404; 500]
  | RtResolvePlugin | RtApplyNowServer | RtResolveServer => [202; 404; 500]
  end.

(** The value that a response type of an operation holds. *)
Definition holds (rt : route) (p : payload) : bool :=
  match rt, p with
  | RtListConfigMaps, PConfigMaps _ | RtCreateConfigMap, PConfigMap _ | RtGetHealth, PHealth _
  | RtListNamespaces, PNamespaces _ | RtListPlugins, PPlugins _
  | (RtCreatePlugin | RtGetPlugin | RtUpdatePlugin), PPlugin _ | RtListServers, PServers _
  | (RtCreateServer | RtGetServer | RtUpdateServer), PServer _
  | (RtResolvePlugin | RtApplyNowServer | RtResolveServer), PAction _
  | (RtDeletePlugin | RtDeleteServer), PNone | RtGetVersion, PVersion _ => true
  | _, _ => false
  end.

(** The status that a code of an error body belongs to. *)
Definition statusOf (c : ErrorResponseCode) : Z :=
  match c with
  | INVALIDREQUEST => 400
  | NOTFOUND => 404
  | ALREADYEXISTS => 409
  | _ => 500
  end.

(** An answer of an operation has a declared status; its body is the declared value, or
    an error body whose code belongs to the status. *)
Definition wellTyped (rt : route) (a : httpAnswer) : Prop :=
  hStatus a ∈ declared rt /\
  match hPayload a with
  | PError e => exists c, gerCode e = Some c /\ statusOf c = hStatus a
  | p => holds rt p = true /\ (hStatus a < 300 \/ rt = RtGetHealth)
  end.

Lemma problem_typed rt {A} (f : A -> payload) status msg code :
  statusOf code = status -> status ∈ declared rt -> wellTyped rt (visit f (problem status msg code)).
Proof. intros Hc Hs. split; [done|]. by exists code. Qed.

Lemma problem_typed_deleted rt status msg code :
  statusOf code = status -> status ∈ declared rt -> wellTyped rt (visitDeleted (problem status msg code)).
Proof. intros Hc Hs. split; [done|]. by exists code. Qed.

Lemma missing_typed rt {A} (f : A -> payload) err msg :
  404 ∈ declared rt -> 500 ∈ declared rt -> wellTyped rt (visit f (missing err msg)).
Proof. intros H1 H2. unfold missing. destruct (isNotFoundError err); by apply problem_typed. Qed.

Lemma missing_typed_deleted rt err msg : 404 ∈ declared rt -> 500 ∈ declared rt -> wellTyped rt (visitDeleted (missing err msg)).
Proof. intros H1 H2. unfold missing. destruct (isNotFoundError err); by apply problem_typed_deleted. Qed.

Lemma taken_typed rt {A} (f : A -> payload) err msg :
  409 ∈ declared rt -> 500 ∈ declared rt -> wellTyped rt (visit f (taken err msg)).
Proof. intros H1 H2. unfold taken. destruct (isAlreadyExistsError err); by apply problem_typed. Qed.

(** An operation whose answers have the declared type. *)
Definition typed (rt : route) (op : option Rest.operation) (p : prog httpAnswer) : Prop := forall tr a, runs p tr a -> wellTyped rt a.

Lemma typed_visit {A} rt (v : response A -> httpAnswer) p op :
  (forall tr x, runs p tr x -> wellTyped rt (v x)) -> handled (typed rt) (Ok op) (x <- p ;; Ret (v x)).
Proof. intros Hp tr a (t1 & x & t2 & -> & H & -> & ->)%runs_bind. by eapply Hp. Qed.

Ltac declared_status := cbn; repeat (first [left; reflexivity | right]).

(** The answers of a handler of file Rest, case by case. *)
Tactic Notation "replies_well" reference(f) :=
  apply typed_visit; unfold f; cbv zeta; intros ? ? ?; to_answer; repeat case_match;
  first [ apply missing_typed; declared_status | apply missing_typed_deleted; declared_status | apply taken_typed; declared_status
        | apply problem_typed; [reflexivity | declared_status] | apply problem_typed_deleted; [reflexivity | declared_status]
        | (split; [declared_status | cbn; split; [reflexivity | first [left; lia | right; reflexivity]]]) ].

Section typed.
Context {MR : MapRange} {GS : GoSort} {UR : URLs} {GR : GoRuntime} {BD : Binding} (versionInfo : VersionInfo).

Lemma wrapper_typed rt vals r : handled (typed rt) (requested rt vals r) (wrapper versionInfo rt vals r).
Proof.
  destruct rt; cbn [wrapper requested]; read_request.
  - replies_well Rest.ListConfigMaps.
  - replies_well Rest.CreateConfigMap.
  - replies_well Rest.GetHealth.
  - replies_well Rest.ListNamespaces.
  - replies_well Rest.ListPlugins.
  - replies_well Rest.CreatePlugin.
  - replies_well Rest.DeletePlugin.
  - replies_well Rest.GetPlugin.
  - replies_well Rest.UpdatePlugin.
  - replies_well Rest.ResolvePlugin.
  - replies_well Rest.ListServers.
  - replies_well Rest.CreateServer.
  - replies_well Rest.DeleteServer.
  - replies_well Rest.GetServer.
  - replies_well Rest.UpdateServer.
  - replies_well Rest.ApplyNowServer.
  - replies_well Rest.ResolveServer.
  - intros tr a [_ ->]. split; [declared_status | split; [done | by left]].
Qed.
End typed.

(** ** What is changed *)

(** The object that an operation is about. *)
Definition target (op : Rest.operation) : option object :=
  match op with
  | OpCreateServer body => b ← body; Some (OServer (gscNamespace b, gscName b))
  | OpGetServer ns n | OpUpdateServer ns n _ | OpDeleteServer ns n | OpResolveServer ns n | OpApplyNowServer ns n =>
      Some (OServer (ns, n))
  | OpCreatePlugin body => b ← body; Some (OPlugin (gpcNamespace b, gpcName b))
  | OpGetPlugin ns n | OpUpdatePlugin ns n _ | OpDeletePlugin ns n | OpResolvePlugin ns n => Some (OPlugin (ns, n))
  | OpCreateConfigMap body => b ← body; Some (OConfigMap (gccNamespace b, gccName b))
  | _ => None
  end.

(** The status of an answer, and the message of an error body. *)
Definition told (a : httpAnswer) : Z * string :=
  (hStatus a, match hPayload a with PError e => gerError e | _ => "" end).

Section honest.
Context {MR : MapRange} {GS : GoSort} {UR : URLs} {GR : GoRuntime} {BD : Binding} (versionInfo : VersionInfo).

(** An operation that is answered by a program of file Rest. *)
Definition served (op : option Rest.operation) (p : prog httpAnswer) : Prop :=
  match op with
  | None => exists v, p = Ret (encode 200 (PVersion v))
  | Some op => forall tr a, runs p tr a -> runs (serve op) tr (told a)
  end.

Lemma served_reply {A} (q : prog (response A)) (v : response A -> httpAnswer) op :
  serve op = answer q -> (forall x, told (v x) = outcome x) -> handled served (Ok (Some op)) (x <- q ;; Ret (v x)).
Proof.
  intros Hs Hv tr a (t1 & x & t2 & -> & H & -> & ->)%runs_bind. rewrite Hs, Hv. apply runs_bind. by exists t1, x, [].
Qed.

(** What the generated code does with a request is what file Rest does with the
    operation that is asked for, or an answer 400 at once. *)
Lemma wrapper_served rt vals r : handled served (requested rt vals r) (wrapper versionInfo rt vals r).
Proof.
  destruct rt; cbn [wrapper requested]; read_request; first [by eexists | apply served_reply; [reflexivity | by intros []]].
Qed.

(** An operation writes to its object only. *)
Lemma answer_to {A} o (p : prog (response A)) : writesTo o p -> writesTo o (answer p).
Proof. intros Hp. apply writesTo_bind; [done|]. intros; apply writesTo_ret. Qed.

Lemma shown_to {A B C} o (p : prog (result A)) (get : prog (result B)) (fail : error -> response C) (f : result B -> response C) :
  writesTo o p -> readsOnly get ->
  writesTo o (r <- p ;; match r with Err e => Ret (fail e) | Ok _ => r <- get ;; Ret (f r) end).
Proof.
  intros Hp Hg. apply writesTo_bind; [done|]. intros [?|?]; [|apply writesTo_ret].
  apply writesTo_bind; [by apply readsOnly_to|]. intros; apply writesTo_ret.
Qed.

Lemma simple_to {A B} o (p : prog (result A)) (f : result A -> response B) : writesTo o p -> writesTo o (r <- p ;; Ret (f r)).
Proof. intros Hp. apply writesTo_bind; [done|]. intros; apply writesTo_ret. Qed.

Lemma refused_to {A} o c (r : response A) p : writesTo o p -> writesTo o (if c : bool then Ret r else p).
Proof. intros Hp. destruct c; [apply writesTo_ret | done]. Qed.

Lemma serve_to op : writesTo (target op) (serve op).
Proof.
  destruct (changes op) eqn:Hc; [|by apply readsOnly_to, serve_reads].
  destruct op; cbn [changes] in Hc; try done; cbn [serve]; apply answer_to.
  all: try match goal with |- writesTo _ (_ ?b) => is_var b; destruct b; [|apply writesTo_ret] end.
  all: unfold CreateServer, UpdateServer, DeleteServer, ResolveServer, ApplyNowServer, CreatePlugin, UpdatePlugin, DeletePlugin,
         ResolvePlugin, CreateConfigMap; cbv zeta.
  all: try apply refused_to; first [apply simple_to | apply shown_to].
  all: eauto using GetServer_reads, GetPlugin_reads.
  all: first [apply CreateServer_to | apply UpdateServer_to | apply DeleteServer_to | apply annotate_to | apply CreatePlugin_to
             | apply UpdatePlugin_to | apply DeletePlugin_to | apply triggerPlugin_to | apply createConfigMap_to].
Qed.

(** The operation of a request, if there is one that can be read. *)
Definition operationOf (r : APIRequest) : option Rest.operation :=
  match lookupRoute r with
  | To rt vals => match requested rt vals r with Ok op => op | Err _ => None end
  | _ => None
  end.

Lemma Handler_served r tr a :
  runs (Handler versionInfo r) tr a ->
  match operationOf r with Some op => runs (serve op) tr (told a) | None => tr = [] end.
Proof.
  unfold Handler, operationOf. destruct (lookupRoute r) as [rt vals| |]; [|by intros [-> _]..].
  pose proof (wrapper_served rt vals r) as Hw. destruct (requested rt vals r) as [[op|]|e]; cbn in Hw; [apply Hw| |rewrite Hw; by intros [-> _]].
  destruct Hw as [v ->]. by intros [-> _].
Qed.

(** C19: A client of the REST API is told what happened to the cluster.  For every HTTP
    request, on whatever route and with whatever body: the handler makes one accepted
    write if the request asks for an operation that changes something and the answer is
    a success or the error that says that the change was made but could not be read
    back, and none in every other case: whatever is answered with 400, 404, 405, 409,
    503 or another 500 has changed nothing.  What is written is the object that the
    request names, in its path or, for a creation, in its body. *)
Theorem Handler_honest r tr a :
  runs (Handler versionInfo r) tr a ->
  let op := operationOf r in
  writes tr = (if match op with Some op => changes op && toldDone (told a) | None => false end then 1 else 0)%nat /\
  (Forall readsHonestly tr -> Forall (fun e => wrote e = true -> op ≫= target = written e) tr).
Proof.
  intros H%Handler_served. destruct (operationOf r) as [op|]; [|by subst tr].
  split; [by apply serve_writes|]. intros Hh. eapply Forall_impl; [by apply (serve_to op tr (told a))|]. cbn. intros e He Hw. by rewrite He.
Qed.

(** C35: The REST API answers what its OpenAPI document declares.  A request that matches
    a route, which is the only one it matches, is answered with a status that its
    operation declares and either the value that is declared for it or an error body
    with the code that belongs to the status; only where a parameter or the body cannot
    be read, the answer is the text of the error with 400, and nothing was asked of the
    cluster.  A request that matches no route is answered with 405 if another method
    would, and 404 if none would. *)
Theorem Handler_typed r tr a :
  runs (Handler versionInfo r) tr a ->
  let segs := SplitByte (TrimPrefix (arPath r) "/") "/"%char in
  match lookupRoute r with
  | To rt vals =>
      (exists e, e ∈ routes /\ e.2 = rt /\ takes segs (arMethod r) e /\
         forall e', e' ∈ routes -> takes segs (arMethod r) e' -> e' = e) /\
      match requested rt vals r with
      | Ok _ => wellTyped rt a
      | Err e => tr = [] /\ a = textError (errString e) 400
      end
  | NoMethod => tr = [] /\ hStatus a = 405 /\ Forall (fun e => ~ takes segs (arMethod r) e) routes /\
      List.Exists (fun e => is_Some (matchSegments e.1.2 segs)) routes
  | NoPath => tr = [] /\ hStatus a = 404 /\ Forall (fun e => matchSegments e.1.2 segs = None) routes
  end.
Proof.
  unfold Handler, lookupRoute. intros H. cbv zeta. set (segs := SplitByte _ _) in H |- *. clearbody segs.
  pose proof (findRoute_spec routes (arMethod r) segs false) as Hf. destruct (findRoute _ _ _ _) as [rt vals| |].
  - split.
    + destruct Hf as (p & q & Hin & Hm & Hq). exists (p, q, rt). assert (takes segs (arMethod r) (p, q, rt)) by (split; [by eexists | done]).
      split_and!; try done. intros e' He' Ht. by apply (routes_unique segs (arMethod r)).
    + pose proof (wrapper_typed versionInfo rt vals r) as Hw. destruct (requested rt vals r); [by eapply Hw|].
      cbn in Hw. rewrite Hw in H. by destruct H as [-> ->].
  - destruct H as [-> ->]. destruct Hf as [? [?|?]]; done.
  - destruct H as [-> ->]. by destruct Hf.
Qed.
End honest.

(** ** Examples *)

Section witnesses.
Existing Instance InOrder.range.
Existing Instance InsertionSort.goSort.
Existing Instance SplitURLs.simpleURLs.
Existing Instance PlainBinding.binding.

(** A runtime that parses no dates. *)
#[local] Instance noDates : GoRuntime := {| runtimeVersion := "go1.25"; ParseRFC3339 _ := Err (ErrNew "no dates") |}.

Definition version : VersionInfo := MkVersionInfo "v0.1.0" "abcdef" "" "go1.25".

Definition unread {A} : result A := Err (ErrNew "EOF").

Definition noBodies : Bodies := MkBodies unread unread unread unread unread.

Definition deleteRequest : APIRequest := MkAPIRequest "DELETE" "/servers/games/survival" ∅ noBodies.

Definition deleteAnswer := exec (fun _ => oneServer survival 0) (Handler version deleteRequest) [].

Lemma Handler_honest_witness :
  deleteAnswer.2 = MkAnswer 204 "" PNone /\ writes deleteAnswer.1 = 1%nat /\
  Forall (fun e => wrote e = true -> Some (OServer ("games", "survival")) = written e) deleteAnswer.1.
Proof.
  assert (Hrun : runs (Handler version deleteRequest) deleteAnswer.1 deleteAnswer.2)
    by exact (exec_runs (fun _ => oneServer survival 0) (Handler version deleteRequest) []).
  assert (Ha : deleteAnswer.2 = MkAnswer 204 "" PNone) by by vm_compute. split; [exact Ha|].
  destruct (Handler_honest version deleteRequest _ _ Hrun) as [Hw Ht].
  rewrite Ha in Hw. split; [exact Hw|]. apply Ht. cbv. repeat constructor.
Defined.

(** A method that the path does not have, a path that no route has, and a body that cannot be read. *)
Lemma Handler_typed_witness :
  wellTyped RtDeleteServer deleteAnswer.2 /\
  hStatus (exec (fun _ => oneServer survival 0) (Handler version (MkAPIRequest "PATCH" "/servers/games/survival" ∅ noBodies)) []).2 = 405 /\
  hStatus (exec (fun _ => oneServer survival 0) (Handler version (MkAPIRequest "GET" "/servers/games" ∅ noBodies)) []).2 = 404 /\
  exec (fun _ => oneServer survival 0) (Handler version (MkAPIRequest "POST" "/servers" ∅ noBodies)) [] =
    ([], textError "can't decode JSON body: EOF" 400).
Proof.
  split; [|by vm_compute].
  assert (Hrun : runs (Handler version deleteRequest) deleteAnswer.1 deleteAnswer.2)
    by exact (exec_runs (fun _ => oneServer survival 0) (Handler version deleteRequest) []).
  exact (proj2 (Handler_typed version deleteRequest _ _ Hrun)).
Defined.

(** The namespace in the path of a request for a new ConfigMap is not the one that is used. *)
Lemma CreateConfigMap_ignoresPath :
  let body := MkConfigMapCreateRequest ∅ "files" "other" in
  let r := MkAPIRequest "POST" "/configmaps/games" ∅ (MkBodies unread unread unread unread (Ok body)) in
  let run := exec (E := K8s) (fun _ => oneServer survival 0) (Handler version r) [] in
  hStatus run.2 = 201 /\ map written run.1 = [Some (OConfigMap ("other", "files"))].
Proof. by vm_compute. Qed.
End witnesses.
