(* ===== verification/Floats.v ===== *)
(** * float64 values as text

    Package strconv's shortest decimal writing of a float64, as Go's [%v] and
    [FormatFloat] with precision -1 print it, and the conversions between float64
    and int.  A float64 is a [spec_float] of the Standard Library.  No code of the
    repository is modelled here. *)

From S2P Require Import Prelude GoBase Decimals Durations.
From Stdlib Require Import Ascii SpecFloat.

Open Scope Z_scope.

(** [int(x)]; a value that does not fit gives the smallest integer, as on amd64. *)
Definition floatToInt (x : spec_float) : Z :=
  match x with
  | S754_zero _ => 0
  | S754_finite s m e =>
      let z := signed s (if 0 <=? e then Z.pos m * 2 ^ e else Z.pos m / 2 ^ (- e)) in
      if inInt64b z then z else minInt64
  | S754_infinity _ | S754_nan => minInt64
  end.

(** Is it the float64 of the integer it is cut to?  ([val == float64(int(val))]) *)
Definition isIntegral (x : spec_float) : bool := SFeqb x (float64 (floatToInt x)).

(** ** The shortest digits

    The value and the ends of the interval of decimals that are read as it are
    numerators over one denominator.  [(d, k)] stands for d * 10^k. *)

Record interval := MkInterval { ivLow : Z; ivValue : Z; ivUp : Z; ivDen : Z; ivClosed : bool }.

Definition roundingInterval (m : positive) (e : Z) : interval :=
  let low := if (2 ^ 52 <? Z.pos m) || (e =? -1074) then 4 * Z.pos m - 2 else 4 * Z.pos m - 1 in
  let scale := if 2 <=? e then 2 ^ (e - 2) else 1 in
  MkInterval (low * scale) (4 * Z.pos m * scale) ((4 * Z.pos m + 2) * scale)
    (if 2 <=? e then 1 else 2 ^ (2 - e)) (Z.even (Z.pos m)).

(** [d * 10^k] compared with [n / den]. *)
Definition compareDecimal (d k n den : Z) : comparison :=
  if 0 <=? k then Z.compare (d * 10 ^ k * den) n else Z.compare (d * den) (n * 10 ^ (- k)).

Definition insideLow (iv : interval) (d k : Z) : bool :=
  match compareDecimal d k (ivLow iv) (ivDen iv) with Gt => true | Eq => ivClosed iv | Lt => false end.

Definition insideUp (iv : interval) (d k : Z) : bool :=
  match compareDecimal d k (ivUp iv) (ivDen iv) with Lt => true | Eq => ivClosed iv | Gt => false end.

(** The position of the decimal point: the first [dp] with [value < 10^dp]. *)
Fixpoint pointFrom (fuel : nat) (iv : interval) (dp : Z) : Z :=
  match fuel with
  | O => dp
  | S fuel =>
      match compareDecimal 1 dp (ivValue iv) (ivDen iv) with
      | Gt => dp
      | _ => pointFrom fuel iv (dp + 1)
      end
  end.

(** The value cut to a multiple of 10^k. *)
Definition cutTo (iv : interval) (k : Z) : Z :=
  if 0 <=? k then ivValue iv / (ivDen iv * 10 ^ k) else ivValue iv * 10 ^ (- k) / ivDen iv.

(** Twice the value against the middle of [d] and [d + 1]; a tie goes to the even one. *)
Definition nearer (iv : interval) (d k : Z) : Z :=
  match compareDecimal (2 * d + 1) k (2 * ivValue iv) (ivDen iv) with
  | Gt => d
  | Lt => d + 1
  | Eq => if Z.even d then d else d + 1
  end.

(** The first number of digits for which a neighbour is in the interval; 17 digits
    always suffice for a float64. *)
Fixpoint shortestFrom (fuel : nat) (iv : interval) (dp n : Z) : Z * Z :=
  let k := dp - n in
  let d := cutTo iv k in
  match insideLow iv d k, insideUp iv (d + 1) k, fuel with
  | true, true, _ => (nearer iv d k, k)
  | true, false, _ => (d, k)
  | false, true, _ => (d + 1, k)
  | false, false, O => (d, k)
  | false, false, S fuel => shortestFrom fuel iv dp (n + 1)
  end.

Fixpoint stripZeros (fuel : nat) (d k : Z) : Z * Z :=
  match fuel with
  | O => (d, k)
  | S fuel => if d mod 10 =? 0 then stripZeros fuel (d / 10) (k + 1) else (d, k)
  end.

(** The digits and the position of the decimal point before them. *)
Definition shortestDigits (m : positive) (e : Z) : string * Z :=
  let iv := roundingInterval m e in
  let '(d, k) := shortestFrom 17 iv (pointFrom 640 iv (-323)) 1 in
  let '(d, k) := stripZeros 20 d k in
  (pretty d, Z.of_nat (String.length (pretty d)) + k).

(** ** Writing *)

Definition zeros (n : Z) : string := Nat.iter (Z.to_nat n) (String "0"%char) "".

(** [%f] *)
Definition fmtF (ds : string) (dp : Z) : string :=
  let nd := Z.of_nat (String.length ds) in
  if dp <=? 0 then (if ds =? "" then "0" else "0." +:+ zeros (- dp) +:+ ds)%string
  else if nd <=? dp then ds +:+ zeros (dp - nd)
  else str_take (Z.to_nat dp) ds +:+ "." +:+ str_drop (Z.to_nat dp) ds.

(** [%e] *)
Definition fmtE (ds : string) (dp : Z) : string :=
  let x := Z.abs (dp - 1) in
  str_take 1 ds +:+ (if (1 <? String.length ds)%nat then "." +:+ str_drop 1 ds else "") +:+ "e" +:+
  (if dp - 1 <? 0 then "-" else "+") +:+ (if x <? 10 then "0" else "") +:+ pretty x.

(** [FormatFloat(x, 'f', -1, 64)] and [FormatFloat(x, 'g', -1, 64)] *)
Definition FormatFloat (general : bool) (x : spec_float) : string :=
  match x with
  | S754_nan => "NaN"
  | S754_infinity s => (if s then "-" else "+") +:+ "Inf"
  | S754_zero s => (if s then "-" else "") +:+ "0"
  | S754_finite s m e =>
      let '(ds, dp) := shortestDigits m e in
      (if s then "-" else "") +:+
      (if general && ((dp - 1 <? -4) || (6 <=? dp - 1)) then fmtE ds dp else fmtF ds dp)
  end.

Example FormatFloat_examples :
  FormatFloat false (fdiv (float64 1) (float64 10)) = "0.1" /\
  FormatFloat false (fdiv (float64 3) (float64 2)) = "1.5" /\
  FormatFloat false (fdiv (float64 1) (float64 3)) = "0.3333333333333333" /\
  FormatFloat true (float64 1000000) = "1e+06" /\
  FormatFloat true (fdiv (float64 1) (float64 (2 ^ 20))) = "9.5367431640625e-07" /\
  FormatFloat false (fmul (float64 (2 ^ 62)) (float64 (-4))) = "-18446744073709552000" /\
  FormatFloat false (binary_normalize 53 1024 1 (-1074) false) = "0." +:+ zeros 323 +:+ "5" /\
  isIntegral (float64 5) = true /\ isIntegral (fdiv (float64 1) (float64 2)) = false /\
  floatToInt (fdiv (float64 (-7)) (float64 2)) = -3.
Proof. vm_compute. repeat split. Qed.
