(* ===== verification/Schema.v ===== *)
(** * Form schemas (pkg/webui/schema: types.go, parser.go)

    The parser that turns a schema of the OpenAPI document into the description of
    a form.  A decoded YAML value is an [any]; a Go map is a [gmap], ranged over in
    the order of a [MapRange].  References in the document may form a cycle, so
    the recursion of [parseField] has fuel: [parseField_returns] says exactly when
    it ends.  Decoding YAML is left to its library: [NewParser] starts from its
    result. *)

From S2P Require Import Prelude GoBase Decimals Strings GoLib Durations Floats.
From stdpp Require sorting.
From Stdlib Require Import Ascii Sorted SpecFloat.

Open Scope Z_scope.

(** ** Values of type any

    What yaml.v3 decodes into [any], and the map of strings that form values hold
    as well.  Timestamps and integers beyond 64 bits, which the OpenAPI document
    does not have, are left out. *)

#[local] Unset Elimination Schemes.
Inductive any :=
  | ANil
  | AString (s : string)
  | ABool (b : bool)
  | AInt (n : Z)
  | AFloat (x : spec_float)
  | ASlice (l : list any)
  | AMap (m : gmap string any)
  | AStringMap (m : gmap string string).
#[local] Set Elimination Schemes.

(** The type assertions of the source. *)
Definition isString (v : any) : option string := match v with AString s => Some s | _ => None end.
Definition isMap (v : any) : option (gmap string any) := match v with AMap m => Some m | _ => None end.

(** [m\[k\]] of a map of values: nil without an entry. *)
Definition getKey (m : gmap string any) (k : string) : any := default ANil (m !! k).

(** [s, _ := m\[k\].(string)] *)
Definition stringOf (m : gmap string any) (k : string) : string := default "" (isString (getKey m k)).

(** [fmt.Sprintf("%v", v)]: maps are printed in the order of their keys. *)
Definition printEntries (l : list (string * string)) : string :=
  Join (map (fun '(k, v) => k +:+ ":" +:+ v) (InsertionSort.sort (fun x y => strLess x.1 y.1) l)) " ".

Fixpoint Sprint (v : any) : string :=
  match v with
  | ANil => "<nil>"
  | AString s => s
  | ABool b => if b then "true" else "false"
  | AInt n => pretty n
  | AFloat x => FormatFloat true x
  | ASlice l => "[" +:+ Join (map Sprint l) " " +:+ "]"
  | AMap m => "map[" +:+ printEntries (map_to_list (Sprint <$> m)) +:+ "]"
  | AStringMap m => "map[" +:+ printEntries (map_to_list m) +:+ "]"
  end.

Definition toString (v : any) : string :=
  match v with
  | ANil => ""
  | AString s => s
  | ABool b => if b then "true" else "false"
  | AInt n => pretty n
  | AFloat x => if isIntegral x then pretty (floatToInt x) else FormatFloat false x
  | _ => Sprint v
  end.

(** The value of [strconv.Atoi] with its error ignored: 0 for text that is not a
    number, the nearest int for a number out of range. *)
Definition atoiValue (s : string) : Z :=
  let '(neg, s1) := scanSign s in
  let '(v, n, rest) := scanDigits s1 0 0 in
  if (n =? 0)%nat || negb (rest =? "")%string then 0
  else Z.max minInt64 (Z.min maxInt64 (signed neg v)).

Definition toInt (v : any) : Z :=
  match v with
  | AInt n => n
  | AFloat x => floatToInt x
  | AString s => atoiValue s
  | _ => 0
  end.

Definition toStringSlice (v : any) : list string :=
  match v with
  | ASlice arr => omap isString arr
  | _ => []
  end.

(** ** types.go *)

Record Condition := MkCondition { DependsOn : string; Values : list string }.

#[local] Unset Elimination Schemes.
Inductive FormField := MkFormField {
  ffName : string;
  ffType : string;
  ffFormat : string;
  ffDescription : string;
  ffRequired : bool;
  ffEnum : list string;
  ffDefault : string;
  ffPattern : string;
  ffMinLength : option Z;
  ffMaxLength : option Z;
  ffMinimum : option Z;
  ffMaximum : option Z;
  ffExample : string;
  ffProperties : list FormField;
  ffItems : option FormField;
  ffAdditionalProperties : bool;
  ffCondition : option Condition;
  ffReadOnlyOnEdit : bool
}.
#[local] Set Elimination Schemes.

(** Induction through the properties and the items of a field. *)
Definition FormField_ind (P : FormField -> Prop)
    (H : forall f, Forall P (ffProperties f) -> (forall it, ffItems f = Some it -> P it) -> P f) : forall f, P f :=
  fix F f :=
    H f
      (match f return Forall P (ffProperties f) with
       | MkFormField _ _ _ _ _ _ _ _ _ _ _ _ _ props _ _ _ _ =>
           (fix go l : Forall P l :=
              match l with
              | [] => Forall_nil_2 P
              | x :: l => Forall_cons_2 P x l (F x) (go l)
              end) props
       end)
      (match f return forall it, ffItems f = Some it -> P it with
       | MkFormField _ _ _ _ _ _ _ _ _ _ _ _ _ _ items _ _ _ =>
           match items return forall it, items = Some it -> P it with
           | Some x => fun it e => match e in _ = o return (match o with Some it => P it | None => True end) with eq_refl => F x end
           | None => fun it e => match e with end
           end
       end).

#[export] Instance eta_FormField : Eta FormField := fun r =>
  MkFormField (ffName r) (ffType r) (ffFormat r) (ffDescription r) (ffRequired r) (ffEnum r) (ffDefault r)
    (ffPattern r) (ffMinLength r) (ffMaxLength r) (ffMinimum r) (ffMaximum r) (ffExample r) (ffProperties r)
    (ffItems r) (ffAdditionalProperties r) (ffCondition r) (ffReadOnlyOnEdit r).

Definition zeroFormField : FormField :=
  MkFormField "" "" "" "" false [] "" "" None None None None "" [] None false None false.

Record FormSchema := MkFormSchema { fsTitle : string; fsDescription : string; fsFields : list FormField }.

(** ** Constants *)

Definition typeString : string := "string".
Definition typeObject : string := "object".
Definition typeArray : string := "array".
Definition typeBoolean : string := "boolean".
Definition typeInteger : string := "integer".
Definition fieldName : string := "name".
Definition fieldNS : string := "namespace".
Definition fieldVersion : string := "version".
Definition fieldUpdateStrategy : string := "updateStrategy".
Definition fieldConfigMapRef : string := "configMapRef".
Definition strategyPin : string := "pin".

Definition conditionalRules : gmap string Condition :=
  list_to_map [(fieldVersion, MkCondition fieldUpdateStrategy [strategyPin; "build-pin"]);
               ("build", MkCondition fieldUpdateStrategy ["build-pin"])].

(** ** The parser *)

Record Parser := MkParser { root : gmap string any; schemas : gmap string any }.

Fixpoint navigateMap (m : gmap string any) (keys : list string) : result (gmap string any) :=
  match keys with
  | [] => Ok m
  | key :: keys =>
      match m !! key with
      | None => Err (ErrNew ("key " +:+ quoted key +:+ " not found"))
      | Some (AMap next) => navigateMap next keys
      | Some _ => Err (ErrNew ("key " +:+ quoted key +:+ " is not a map"))
      end
  end.

(** [decoded] is the answer of [yaml.Unmarshal]. *)
Definition NewParser (decoded : result (gmap string any)) : result Parser :=
  res_bind (wrap "failed to parse OpenAPI spec" decoded) (fun root =>
  res_bind (wrap "failed to find components.schemas" (navigateMap root ["components"; "schemas"])) (fun schemas =>
  Ok (MkParser root schemas))).

(** The loop of [resolveRef] and of [getStringValue]: nil when a step has no map. *)
Fixpoint walk (current : any) (parts : list string) : option any :=
  match parts with
  | [] => Some current
  | part :: parts =>
      match current with
      | AMap m => walk (getKey m part) parts
      | _ => None
      end
  end.

Definition resolveRef (p : Parser) (ref : string) : option (gmap string any) :=
  walk (AMap (root p)) (SplitByte (TrimPrefix ref "#/") "/"%char) ≫= isMap.

Definition resolvePropMap (p : Parser) (raw : any) : option (gmap string any) :=
  propMap ← isMap raw;
  match isString (getKey propMap "$ref") with
  | Some ref => resolveRef p ref
  | None => Some propMap
  end.

Definition buildRequiredSet (schemaMap : gmap string any) : gset string :=
  list_to_set (toStringSlice (getKey schemaMap "required")).

Definition extractBasicProps (field : FormField) (propMap : gmap string any) : FormField :=
  let field := field <| ffType := stringOf propMap "type" |>
                     <| ffFormat := stringOf propMap "format" |>
                     <| ffDescription := stringOf propMap "description" |>
                     <| ffPattern := stringOf propMap "pattern" |>
                     <| ffExample := toString (getKey propMap "example") |>
                     <| ffDefault := toString (getKey propMap "default") |> in
  match propMap !! "enum" with
  | Some enumRaw => field <| ffEnum := toStringSlice enumRaw |>
  | None => field
  end.

(** The four tests of the source, each of which sets one pointer. *)
Definition extractConstraints (field : FormField) (propMap : gmap string any) : FormField :=
  let field := match propMap !! "minLength" with Some v => field <| ffMinLength := Some (toInt v) |> | None => field end in
  let field := match propMap !! "maxLength" with Some v => field <| ffMaxLength := Some (toInt v) |> | None => field end in
  let field := match propMap !! "minimum" with Some v => field <| ffMinimum := Some (toInt v) |> | None => field end in
  match propMap !! "maximum" with Some v => field <| ffMaximum := Some (toInt v) |> | None => field end.

Definition applyFieldMeta (field : FormField) : FormField :=
  let field := match conditionalRules !! ffName field with
               | Some cond => field <| ffCondition := Some cond |>
               | None => field
               end in
  if (ffName field =? fieldName)%string || (ffName field =? fieldNS)%string
  then field <| ffReadOnlyOnEdit := true |> else field.

(** ** Sorting *)

Definition fieldLess (a b : FormField) : bool :=
  let aID := (ffName a =? fieldName)%string || (ffName a =? fieldNS)%string in
  let bID := (ffName b =? fieldName)%string || (ffName b =? fieldNS)%string in
  if negb (Bool.eqb aID bID) then aID
  else if aID && bID then (ffName a =? fieldName)%string
  else if negb (Bool.eqb (ffRequired a) (ffRequired b)) then ffRequired a
  else strLess (ffName a) (ffName b).

(** The body of the inner loop: fields [j - 1] and [j] are swapped if they are out
    of order. *)
Definition swapDown {A} (less : A -> A -> bool) (l : list A) (j : nat) : list A :=
  match l !! pred j, l !! j with
  | Some b, Some a => if less a b then <[j := b]> (<[pred j := a]> l) else l
  | _, _ => l
  end.

(** The inner loop, from [j] down to 1; it does not stop at the first pair in order. *)
Fixpoint sink {A} (less : A -> A -> bool) (l : list A) (j : nat) : list A :=
  match j with
  | O => l
  | S j' => sink less (swapDown less l j) j'
  end.

Definition sortFields (fields : list FormField) : list FormField :=
  foldl (sink fieldLess) fields (seq 1 (length fields - 1)).

(** ** Fields *)

(** The first test of [extractObjectProps]. *)
Definition markAdditional (field : FormField) (propMap : gmap string any) : FormField :=
  match propMap !! "additionalProperties" with
  | Some (AMap apMap) =>
      if (stringOf apMap "type" =? typeString)%string
      then field <| ffAdditionalProperties := true |> else field
  | _ => field
  end.

Section parse.
Context {MR : MapRange} (p : Parser).

(** The loop over the properties of an object, for a way to parse one. *)
Definition parseProps (parse : string -> any -> bool -> option FormField) (required : gset string)
    (props : gmap string any) : option (list FormField) :=
  mapM (fun '(name, raw) => parse name raw (bool_decide (name ∈ required))) (mapRange props).

Definition extractObjectProps (parse : string -> any -> bool -> option FormField) (field : FormField)
    (propMap : gmap string any) : option FormField :=
  let field := markAdditional field propMap in
  match isMap (getKey propMap "properties") with
  | None => Some field
  | Some props =>
      fields ← parseProps parse (buildRequiredSet propMap) props;
      Some (field <| ffProperties := sortFields fields |>)
  end.

Definition extractComplexTypes (parse : string -> any -> bool -> option FormField) (field : FormField)
    (propMap : gmap string any) : option FormField :=
  field ← (if (ffType field =? typeObject)%string then extractObjectProps parse field propMap else Some field);
  if (ffType field =? typeArray)%string then
    match propMap !! "items" with
    | Some items =>
        itemField ← parse "item" items false;
        Some (field <| ffItems := Some itemField |>)
    | None => Some field
    end
  else Some field.

Fixpoint parseField (fuel : nat) (name : string) (raw : any) (required : bool) : option FormField :=
  match fuel with
  | O => None
  | S fuel =>
      let field := zeroFormField <| ffName := name |> <| ffRequired := required |> in
      match resolvePropMap p raw with
      | None => Some (field <| ffType := typeString |>)
      | Some propMap =>
          let field := extractConstraints (extractBasicProps field propMap) propMap in
          applyFieldMeta <$> extractComplexTypes (parseField fuel) field propMap
      end
  end.

Definition ParseSchema (fuel : nat) (schemaName : string) : option (result FormSchema) :=
  match schemas p !! schemaName with
  | None => Some (Err (ErrNew ("schema " +:+ quoted schemaName +:+ " not found")))
  | Some (AMap schemaMap) =>
      let properties := default ∅ (isMap (getKey schemaMap "properties")) in
      fields ← parseProps (parseField fuel) (buildRequiredSet schemaMap) properties;
      Some (Ok (MkFormSchema schemaName (stringOf schemaMap "description") (sortFields fields)))
  | Some _ => Some (Err (ErrNew ("schema " +:+ quoted schemaName +:+ " is not an object")))
  end.
End parse.

(** ** The sort

    Seen from the high end of the sorted prefix, the inner loop inserts an element
    into it: [sinkR]. *)

Section sorting.
Context {A : Type} (less : A -> A -> bool).

Fixpoint sinkR (x : A) (r : list A) : list A :=
  match r with
  | [] => [x]
  | b :: r => if less x b then b :: sinkR x r else x :: sinkR b r
  end.

Lemma swapDown_at l b x rest :
  swapDown less (l ++ b :: x :: rest) (S (length l)) =
  l ++ (if less x b then x :: b :: rest else b :: x :: rest).
Proof.
  unfold swapDown. cbn [pred].
  rewrite list_lookup_middle, (cons_middle b), app_assoc, list_lookup_middle by (rewrite ?length_app; cbn; lia).
  destruct (less x b); rewrite <- app_assoc; [|done]. cbn.
  replace (length l) with (length l + 0)%nat at 2 by lia.
  replace (S (length l)) with (length l + 1)%nat by lia. by rewrite !insert_app_r.
Qed.

Lemma sink_sinkR r x rest : sink less (rev r ++ x :: rest) (length r) = rev (sinkR x r) ++ rest.
Proof.
  revert x rest. induction r as [|b r IH]; intros x rest; [done|].
  cbn [rev length sink sinkR]. rewrite <- app_assoc. cbn [app].
  rewrite <- (length_rev r), swapDown_at, length_rev.
  destruct (less x b); rewrite IH; cbn [rev]; by rewrite <- app_assoc.
Qed.

Lemma sort_sinkR r rest :
  foldl (sink less) (rev r ++ rest) (seq (length r) (length rest)) = rev (foldl (fun r x => sinkR x r) r rest).
Proof.
  revert r. induction rest as [|x rest IH]; intros r; cbn; [by rewrite app_nil_r|].
  rewrite sink_sinkR, <- IH. f_equal. f_equal.
  clear. revert x. induction r as [|b r IH]; intros x; cbn; [done|]. destruct (less x b); cbn; by rewrite <- IH.
Qed.

Lemma sinkR_perm x r : sinkR x r ≡ₚ x :: r.
Proof.
  revert x. induction r as [|b r IH]; intros x; cbn; [done|].
  destruct (less x b); rewrite IH; [apply perm_swap | done].
Qed.

Lemma sorting_perm r rest : foldl (fun r x => sinkR x r) r rest ≡ₚ r ++ rest.
Proof.
  revert r. induction rest as [|x rest IH]; intros r; cbn; [by rewrite app_nil_r|].
  rewrite IH, sinkR_perm. cbn. by rewrite Permutation_middle.
Qed.

(** From the high end: no element is less than one after it. *)
Definition descending : list A -> Prop := StronglySorted (fun a b => less a b = false).

Lemma sinkR_descending x r : weakOrder less -> descending r -> descending (sinkR x r).
Proof.
  intros [Ha Hn] Hr. revert x. induction Hr as [|b r Hr IH Hf]; intros x; cbn; [repeat constructor|].
  rewrite Forall_forall in Hf.
  destruct (less x b) eqn:Hx; constructor; try apply IH; apply Forall_forall; intros y Hy;
    rewrite sinkR_perm in Hy; apply elem_of_cons in Hy as [->|Hy]; [by apply Ha | by apply Hf | done |].
  destruct (less x y) eqn:Hxy; [|done]. specialize (Hf y Hy). destruct (Hn x y b Hxy); congruence.
Qed.

Lemma sorting_descending r rest :
  weakOrder less -> descending r -> descending (foldl (fun r x => sinkR x r) r rest).
Proof. intros Hw. revert r. induction rest as [|x rest IH]; intros r Hr; cbn; [done|]. by apply IH, sinkR_descending. Qed.
End sorting.

(** ** The order of fields *)

Definition rank (f : FormField) : Z :=
  if (ffName f =? fieldName)%string then 0 else if (ffName f =? fieldNS)%string then 1
  else if ffRequired f then 2 else 3.

(** Identity fields, then required ones, then by name. *)
Definition before (a b : FormField) : bool :=
  (rank a <? rank b) || ((rank a =? rank b) && strLess (ffName a) (ffName b)).

Lemma strLess_irrefl s : strLess s s = false.
Proof. unfold strLess. destruct (String.leb_total s s) as [H|H]; by rewrite H. Qed.

Lemma before_weakOrder : weakOrder before.
Proof.
  destruct (weakOrder_string ffName) as [Ha Hn]. split; unfold before.
  - intros x y H. apply orb_true_iff in H as [H|[H1 H2]%andb_true_iff]; bool_prop.
    + replace (rank y <? rank x) with false by lia. by replace (rank y =? rank x) with false by lia.
    + rewrite H1, Z.ltb_irrefl, (Ha x y) by done. by rewrite andb_false_r.
  - intros x y z H. rewrite !orb_true_iff, !andb_true_iff in *. rewrite !Z.ltb_lt, !Z.eqb_eq in *.
    destruct H as [H|[H1 H2]]; [lia|].
    destruct (Z.lt_trichotomy (rank x) (rank z)) as [?|[He|?]]; [lia | | lia].
    destruct (Hn x y z H2); [left | right]; right; split; congruence.
Qed.

Lemma fieldLess_before a b : ffName a <> ffName b -> fieldLess a b = before a b.
Proof.
  intros Hd. unfold fieldLess, before, rank.
  repeat match goal with
  | |- context [(?x =? ?y)%string] => destruct (x =? y)%string eqn:?
  | |- context [ffRequired ?x] => destruct (ffRequired x)
  end; bool_prop; cbn; try done; congruence.
Qed.

Lemma before_total a b : ffName a <> ffName b -> before a b = true \/ before b a = true.
Proof.
  intros Hd. unfold before. rewrite !orb_true_iff, !andb_true_iff, !Z.ltb_lt, !Z.eqb_eq.
  destruct (Z.lt_trichotomy (rank a) (rank b)) as [?|[He|?]]; [by repeat left | | by right; left].
  unfold strLess. rewrite !negb_true_iff.
  destruct (String.leb (ffName b) (ffName a)) eqn:H1; [|by left; right].
  destruct (String.leb (ffName a) (ffName b)) eqn:H2; [|by right; right].
  destruct Hd. by apply String.leb_antisym.
Qed.

Lemma sinkR_before x r : NoDup (map ffName (x :: r)) -> sinkR fieldLess x r = sinkR before x r.
Proof.
  revert x. induction r as [|b r IH]; intros x Hn; [done|]. cbn [sinkR].
  cbn [map] in Hn. apply NoDup_cons in Hn as [Hx Hn]. pose proof Hn as Hbr. apply NoDup_cons in Hn as [Hb Hn].
  rewrite not_elem_of_cons in Hx. destruct Hx as [Hxb Hx].
  rewrite fieldLess_before by done. destruct (before x b); f_equal; apply IH; [|done].
  cbn [map]. by apply NoDup_cons.
Qed.

Lemma sorting_before r rest :
  NoDup (map ffName (r ++ rest)) ->
  foldl (fun r x => sinkR fieldLess x r) r rest = foldl (fun r x => sinkR before x r) r rest.
Proof.
  revert r. induction rest as [|x rest IH]; intros r Hn; [done|]. cbn.
  assert (Hn' : NoDup (map ffName ((x :: r) ++ rest)))
    by (cbn [app]; rewrite Permutation_middle; exact Hn).
  rewrite sinkR_before by (rewrite map_app in Hn'; by apply NoDup_app in Hn' as [? _]).
  apply IH. eapply NoDup_Permutation_proper; [|exact Hn']. by rewrite sinkR_perm.
Qed.

Lemma sortFields_perm l : sortFields l ≡ₚ l.
Proof.
  unfold sortFields. destruct l as [|x l]; [done|]. cbn [length]. rewrite Nat.sub_succ, Nat.sub_0_r.
  change (x :: l) with (rev [x] ++ l) at 1. change 1%nat with (length [x]).
  rewrite sort_sinkR, <- Permutation_rev. exact (sorting_perm fieldLess [x] l).
Qed.

(** Fields with distinct names are sorted. *)
Lemma sortFields_sorted l :
  NoDup (map ffName l) -> StronglySorted (fun a b => before a b = true) (sortFields l).
Proof.
  intros Hn. unfold sortFields. destruct l as [|x l]; [constructor|]. cbn [length]. rewrite Nat.sub_succ, Nat.sub_0_r.
  change (x :: l) with (rev [x] ++ l). change 1%nat with (length [x]).
  rewrite sort_sinkR, sorting_before by done.
  pose proof (sorting_descending before [x] l before_weakOrder) as Hd.
  pose proof (sorting_perm before [x] l) as Hp. set (r := foldl _ _ _) in *. clearbody r.
  assert (Hr : NoDup (map ffName r)) by (by rewrite Hp).
  specialize (Hd ltac:(repeat constructor)). clear Hp Hn.
  induction Hd as [|y r Hd IH Hf]; cbn [rev]; [constructor|].
  cbn [map] in Hr. apply NoDup_cons in Hr as [Hy Hr].
  apply sorting.StronglySorted_app. split_and!; [| by apply IH | repeat constructor].
  intros a b Ha Hb. apply list_elem_of_singleton in Hb as ->. rewrite elem_of_rev in Ha.
  rewrite Forall_forall in Hf. specialize (Hf a Ha).
  destruct (before_total a y) as [?|?]; [|done | congruence].
  intros He. apply Hy. rewrite <- He. apply elem_of_map. eauto.
Qed.

Lemma sortFields_unique l1 l2 : NoDup (map ffName l1) -> l1 ≡ₚ l2 -> sortFields l1 = sortFields l2.
Proof.
  intros Hn Hp. assert (NoDup (map ffName l2)) by (by rewrite <- Hp).
  apply (sorting.StronglySorted_unique_strong (fun a b => before a b = true)).
  - intros a b _ _ Hab Hba. destruct before_weakOrder as [Ha _]. rewrite (Ha a b Hab) in Hba. done.
  - by apply sortFields_sorted.
  - by apply sortFields_sorted.
  - by rewrite !sortFields_perm.
Qed.

(** ** The loops over maps *)

Lemma mapM_perm {A B} (f : A -> option B) l1 l2 k1 :
  l1 ≡ₚ l2 -> mapM f l1 = Some k1 -> exists k2, mapM f l2 = Some k2 /\ k1 ≡ₚ k2.
Proof.
  intros Hp Hk. apply mapM_Some in Hk.
  destruct (Permutation_Forall2 Hp Hk) as (k2 & Hk2 & Hf). exists k2. by rewrite mapM_Some.
Qed.

Lemma mapM_ext_in {A B} (f g : A -> option B) l : (forall x, x ∈ l -> f x = g x) -> mapM f l = mapM g l.
Proof.
  induction l as [|x l IH]; intros H; cbn; [done|].
  rewrite H by left. rewrite IH; [done|]. intros y Hy. apply H. by right.
Qed.

Lemma mapM_is_Some_elem {A B} (f : A -> option B) l k x : mapM f l = Some k -> x ∈ l -> is_Some (f x).
Proof.
  rewrite mapM_Some. intros Hf [i Hi]%list_elem_of_lookup.
  destruct (Forall2_lookup_l _ _ _ _ _ Hf Hi) as (y & _ & Hy). by exists y.
Qed.

Section loops.
Context {MR : MapRange} {ML : MapRangeLaws}.

(** A way to parse fields that names them as told. *)
Definition labelled (parse : string -> any -> bool -> option FormField) : Prop :=
  forall name raw required f, parse name raw required = Some f -> ffName f = name /\ ffRequired f = required.

Lemma parseProps_names parse required props fields :
  labelled parse -> parseProps parse required props = Some fields ->
  map ffName fields = map fst (mapRange props).
Proof.
  unfold parseProps. intros Hl. rewrite mapM_Some. intros H.
  induction H as [|[name raw] f l fields Hf _ IH]; cbn; [done|].
  destruct (Hl _ _ _ _ Hf) as [-> _]. by rewrite IH.
Qed.

Lemma parseProps_NoDup parse required props fields :
  labelled parse -> parseProps parse required props = Some fields -> NoDup (map ffName fields).
Proof.
  intros Hl Hf. rewrite (parseProps_names _ _ _ _ Hl Hf), mapRange_perm. apply NoDup_fst_map_to_list.
Qed.

Lemma parseProps_elem parse required props fields f :
  parseProps parse required props = Some fields ->
  f ∈ fields <-> exists k raw, props !! k = Some raw /\ parse k raw (bool_decide (k ∈ required)) = Some f.
Proof.
  unfold parseProps. rewrite mapM_Some. intros H. split.
  - intros [i Hi]%list_elem_of_lookup. destruct (Forall2_lookup_r _ _ _ _ _ H Hi) as ([k raw] & Hk & Hf).
    exists k, raw. split; [|done]. apply elem_of_mapRange. by eapply list_elem_of_lookup_2.
  - intros (k & raw & Hk & Hf). apply elem_of_mapRange in Hk.
    apply list_elem_of_lookup in Hk as [i Hi]. destruct (Forall2_lookup_l _ _ _ _ _ H Hi) as (f' & Hf' & Hp).
    cbn in Hp. simplify_eq. by eapply list_elem_of_lookup_2.
Qed.
End loops.

(** The sorted fields do not depend on the order of the map. *)
Lemma parseProps_range {MR1 MR2 : MapRange} {ML1 : MapRangeLaws (MR := MR1)} {ML2 : MapRangeLaws (MR := MR2)}
    parse1 parse2 required props fields :
  labelled parse1 -> (forall n raw r f, parse1 n raw r = Some f -> parse2 n raw r = Some f) ->
  parseProps (MR := MR1) parse1 required props = Some fields ->
  exists fields2, parseProps (MR := MR2) parse2 required props = Some fields2 /\ sortFields fields = sortFields fields2.
Proof.
  intros Hl He H. pose proof (parseProps_NoDup _ _ _ _ Hl H) as Hn. unfold parseProps in *.
  assert (Hp : mapRange (MapRange := MR1) props ≡ₚ mapRange (MapRange := MR2) props) by (by rewrite !mapRange_perm).
  destruct (mapM_perm _ _ _ _ Hp H) as (k & Hk & Hkp). exists k. split; [|by apply sortFields_unique].
  rewrite <- Hk. apply mapM_ext_in. intros [n raw] Hx.
  destruct (mapM_is_Some_elem _ _ _ _ Hk Hx) as [f Hf]. cbn in *. rewrite Hf. by apply He.
Qed.

(** ** A field keeps the name and the mark it was given *)

Lemma extractBasicProps_label field m :
  ffName (extractBasicProps field m) = ffName field /\ ffRequired (extractBasicProps field m) = ffRequired field.
Proof. unfold extractBasicProps. by destruct (m !! "enum"). Qed.

Lemma extractConstraints_label field m :
  ffName (extractConstraints field m) = ffName field /\ ffRequired (extractConstraints field m) = ffRequired field.
Proof.
  unfold extractConstraints.
  by destruct (m !! "minLength"), (m !! "maxLength"), (m !! "minimum"), (m !! "maximum").
Qed.

Lemma applyFieldMeta_label field :
  ffName (applyFieldMeta field) = ffName field /\ ffRequired (applyFieldMeta field) = ffRequired field.
Proof.
  unfold applyFieldMeta. destruct (conditionalRules !! _); cbn; by destruct (_ || _).
Qed.

Lemma markAdditional_same field m :
  ffName (markAdditional field m) = ffName field /\ ffRequired (markAdditional field m) = ffRequired field /\
  ffType (markAdditional field m) = ffType field.
Proof.
  unfold markAdditional. destruct (m !! "additionalProperties") as [[]|]; try done. by destruct (_ =? _)%string.
Qed.

Lemma extractObjectProps_same {MR : MapRange} parse field m f :
  extractObjectProps parse field m = Some f ->
  ffName f = ffName field /\ ffRequired f = ffRequired field /\ ffType f = ffType field.
Proof.
  unfold extractObjectProps. destruct (markAdditional_same field m) as (Hn & Hr & Ht).
  destruct (isMap _); [|by intros [= <-]]. intros (fields & _ & [= <-])%Some_bind. done.
Qed.

Lemma extractComplexTypes_label {MR : MapRange} parse field m f :
  extractComplexTypes parse field m = Some f -> ffName f = ffName field /\ ffRequired f = ffRequired field.
Proof.
  unfold extractComplexTypes. intros (field' & Hf & H)%Some_bind.
  assert (Hl : ffName field' = ffName field /\ ffRequired field' = ffRequired field).
  { destruct (_ =? _)%string; [|by simplify_eq]. by apply extractObjectProps_same in Hf as (? & ? & _). }
  destruct (ffType field' =? typeArray)%string; [|by simplify_eq].
  destruct (m !! "items"); [|by simplify_eq]. apply Some_bind in H as (it & _ & [= <-]). done.
Qed.

Lemma parseField_labelled {MR : MapRange} p fuel : labelled (parseField p fuel).
Proof.
  intros name raw required f H. destruct fuel as [|fuel]; [done|]. cbn [parseField] in H.
  destruct (resolvePropMap p raw) as [m|]; [|by simplify_eq].
  apply fmap_Some in H as (f' & H & ->). apply extractComplexTypes_label in H as [H1 H2].
  destruct (applyFieldMeta_label f') as [-> ->]. rewrite H1, H2.
  set (f0 := zeroFormField <| ffName := name |> <| ffRequired := required |>).
  destruct (extractConstraints_label (extractBasicProps f0 m) m) as [-> ->].
  by destruct (extractBasicProps_label f0 m) as [-> ->].
Qed.

(** ** The order of the maps does not matter *)

Section ranges.
Context {MR1 MR2 : MapRange} {ML1 : MapRangeLaws (MR := MR1)} {ML2 : MapRangeLaws (MR := MR2)}.

Lemma extractComplexTypes_range parse1 parse2 field m f :
  labelled parse1 -> (forall n raw r f, parse1 n raw r = Some f -> parse2 n raw r = Some f) ->
  extractComplexTypes (MR := MR1) parse1 field m = Some f ->
  extractComplexTypes (MR := MR2) parse2 field m = Some f.
Proof.
  intros Hl He. unfold extractComplexTypes. intros (field' & Hf & H)%Some_bind.
  assert (Ho : (if (ffType field =? typeObject)%string then extractObjectProps (MR := MR2) parse2 field m else Some field)
               = Some field').
  { destruct (_ =? _)%string; [|done]. unfold extractObjectProps in *.
    destruct (isMap _) as [props|]; [|done]. apply Some_bind in Hf as (fields & Hp & [= <-]).
    destruct (parseProps_range parse1 parse2 _ _ _ Hl He Hp) as (fields2 & -> & ->). done. }
  rewrite Ho. cbn. destruct (ffType field' =? typeArray)%string; [|done].
  destruct (m !! "items") as [items|]; [|done]. apply Some_bind in H as (it & Hi & [= <-]).
  by rewrite (He _ _ _ _ Hi).
Qed.

Lemma parseField_range p fuel name raw required f :
  parseField (MR := MR1) p fuel name raw required = Some f ->
  parseField (MR := MR2) p fuel name raw required = Some f.
Proof.
  revert name raw required f. induction fuel as [|fuel IH]; intros name raw required f; [done|]. cbn [parseField].
  destruct (resolvePropMap p raw) as [m|]; [|done]. intros (f' & H & ->)%fmap_Some.
  by rewrite (extractComplexTypes_range _ _ _ _ _ (parseField_labelled p fuel) IH H).
Qed.
End ranges.

(** ** Which properties a property leads to *)

(** Parsing [raw] parses [raw'] on the way: a property of the object or the items of
    the array that [raw], or what it refers to, describes. *)
Inductive child (p : Parser) : any -> any -> Prop :=
  | child_property raw m props k raw' :
      resolvePropMap p raw = Some m -> stringOf m "type" = typeObject ->
      isMap (getKey m "properties") = Some props -> props !! k = Some raw' -> child p raw' raw
  | child_items raw m raw' :
      resolvePropMap p raw = Some m -> stringOf m "type" = typeArray ->
      m !! "items" = Some raw' -> child p raw' raw.

Section returning.
Context {MR : MapRange} {ML : MapRangeLaws} (p : Parser).

(** Enough fuel gives an answer. *)
Definition returns {A} (run : nat -> option A) : Prop :=
  exists n, forall k, (n <= k)%nat -> is_Some (run k).

Lemma returns_mapM {A B} (f : nat -> A -> option B) l :
  (forall x, x ∈ l -> returns (fun n => f n x)) -> returns (fun n => mapM (f n) l).
Proof.
  induction l as [|x l IH]; intros H; [by exists O|].
  destruct (H x) as [n Hn]; [by left|]. destruct IH as [n' Hn']; [intros y Hy; apply H; by right|].
  exists (n `max` n')%nat. intros k Hk. cbn.
  destruct (Hn k) as [y ->]; [lia|]. destruct (Hn' k) as [ys ->]; [lia|]. by eexists.
Qed.

Lemma ffType_extract field m :
  ffType (extractConstraints (extractBasicProps field m) m) = stringOf m "type".
Proof.
  unfold extractConstraints, extractBasicProps.
  by destruct (m !! "enum"), (m !! "minLength"), (m !! "maxLength"), (m !! "minimum"), (m !! "maximum").
Qed.

Lemma parseProps_returns (parse : nat -> string -> any -> bool -> option FormField) required props :
  (forall k raw r, props !! k = Some raw -> returns (fun n => parse n k raw r)) ->
  returns (fun n => parseProps (parse n) required props).
Proof.
  intros H. apply (returns_mapM (fun n '(k, raw) => parse n k raw (bool_decide (k ∈ required)))).
  intros [k raw] Hk. apply elem_of_mapRange in Hk. by apply H.
Qed.

Lemma returns_fmap {A B} (g : A -> B) (run : nat -> option A) : returns run -> returns (fun n => g <$> run n).
Proof. intros [n Hn]. exists n. intros k Hk. by destruct (Hn k Hk) as [x ->]. Qed.

Lemma returns_bind {A B} (g : A -> option B) (run : nat -> option A) :
  (forall x, is_Some (g x)) -> returns run -> returns (fun n => run n ≫= g).
Proof. intros Hg [n Hn]. exists n. intros k Hk. destruct (Hn k Hk) as [x ->]. apply Hg. Qed.

Lemma returns_Some {A} (x : A) : returns (fun _ => Some x).
Proof. exists O. by eexists. Qed.

Lemma extractObjectProps_ends field m :
  (forall props k raw r, isMap (getKey m "properties") = Some props -> props !! k = Some raw ->
     returns (fun n => parseField p n k raw r)) ->
  returns (fun n => extractObjectProps (parseField p n) field m).
Proof.
  intros H. unfold extractObjectProps. destruct (isMap _) as [props|]; [|apply returns_Some].
  apply returns_bind; [by eexists|]. apply parseProps_returns. intros k raw r. by apply H.
Qed.

Lemma parseField_ends raw : Acc (child p) raw -> forall name required, returns (fun n => parseField p n name raw required).
Proof.
  induction 1 as [raw _ IH]. intros name required.
  set (f0 := zeroFormField <| ffName := name |> <| ffRequired := required |>).
  enough (returns (fun n => match resolvePropMap p raw with
    | None => Some (f0 <| ffType := typeString |>)
    | Some m => applyFieldMeta <$> extractComplexTypes (parseField p n) (extractConstraints (extractBasicProps f0 m) m) m
    end)) as [n Hn] by (exists (S n); intros [|k] Hk; [lia|]; apply Hn; lia).
  destruct (resolvePropMap p raw) as [m|] eqn:Hm; [|apply returns_Some].
  apply returns_fmap. unfold extractComplexTypes. pose proof (ffType_extract f0 m) as Ht.
  destruct (ffType (extractConstraints _ m) =? typeObject)%string eqn:Ho; bool_prop.
  - destruct (extractObjectProps_ends (extractConstraints (extractBasicProps f0 m) m) m) as [n Hn].
    { intros props k raw' r Hp Hk. eapply IH, child_property; eauto. congruence. }
    exists n. intros k Hk. destruct (Hn k Hk) as [f Hf]. rewrite Hf. cbn.
    apply extractObjectProps_same in Hf as (_ & _ & ->). rewrite Ho. by eexists.
  - cbn. destruct (_ =? typeArray)%string eqn:Ha; [|apply returns_Some].
    destruct (m !! "items") as [items|] eqn:Hi; [|apply returns_Some]. bool_prop.
    apply returns_bind; [by eexists|]. eapply IH, child_items; eauto. congruence.
Qed.

(** An answer means that the properties on the way end. *)
Lemma parseField_Acc fuel name raw required f : parseField p fuel name raw required = Some f -> Acc (child p) raw.
Proof.
  revert name raw required f. induction fuel as [|fuel IH]; intros name raw required f; [done|]. cbn [parseField].
  intros H. constructor. intros raw' Hc. destruct Hc as [raw m props k raw' Hm Ht Hp Hk | raw m raw' Hm Ht Hi];
    rewrite Hm in H; apply fmap_Some in H as (f' & H & _); unfold extractComplexTypes in H;
    rewrite ffType_extract, Ht in H.
  - apply Some_bind in H as (f1 & H & _). cbn in H. unfold extractObjectProps in H. rewrite Hp in H.
    apply Some_bind in H as (fields & H & _). unfold parseProps in H. apply elem_of_mapRange in Hk.
    destruct (mapM_is_Some_elem _ _ _ _ H Hk) as [f2 Hf2]. by eapply IH.
  - cbn in H. rewrite ffType_extract, Ht, Hi in H. cbn in H. apply Some_bind in H as (it & H & _). by eapply IH.
Qed.
End returning.

(** ** What a field says: the keywords of a schema

    The contract of the parser, without its code: which map a property stands for, and
    what each keyword of that map is in the field. *)

(** A path of keys leads from a value to a value. *)
Inductive reaches : any -> list string -> any -> Prop :=
  | reaches_here v : reaches v [] v
  | reaches_step m k v path w : m !! k = Some v -> reaches v path w -> reaches (AMap m) (k :: path) w.

Definition pathOf (ref : string) : list string := SplitByte (TrimPrefix ref "#/") "/"%char.

(** The map that a property stands for: itself, or what its reference leads to. *)
Inductive means (p : Parser) : any -> gmap string any -> Prop :=
  | means_itself m : isString (getKey m "$ref") = None -> means p (AMap m) m
  | means_reference m0 ref m :
      isString (getKey m0 "$ref") = Some ref -> reaches (AMap (root p)) (pathOf ref) (AMap m) -> means p (AMap m0) m.

Definition propertiesOf (m : gmap string any) : gmap string any :=
  if (stringOf m "type" =? "object")%string then default ∅ (isMap (getKey m "properties")) else ∅.

Definition itemsOf (m : gmap string any) : option any :=
  if (stringOf m "type" =? "array")%string then m !! "items" else None.

(** An object whose further properties are strings. *)
Definition stringMap (m : gmap string any) : bool :=
  (stringOf m "type" =? "object")%string &&
  match m !! "additionalProperties" with Some (AMap ap) => (stringOf ap "type" =? "string")%string | _ => false end.

Definition requiredIn (m : gmap string any) (k : string) : bool := bool_decide (k ∈ toStringSlice (getKey m "required")).

Record keywords (m : gmap string any) (f : FormField) : Prop := {
  kw_type : ffType f = stringOf m "type";
  kw_format : ffFormat f = stringOf m "format";
  kw_description : ffDescription f = stringOf m "description";
  kw_pattern : ffPattern f = stringOf m "pattern";
  kw_example : ffExample f = toString (getKey m "example");
  kw_default : ffDefault f = toString (getKey m "default");
  kw_enum : ffEnum f = toStringSlice (getKey m "enum");
  kw_minLength : ffMinLength f = toInt <$> m !! "minLength";
  kw_maxLength : ffMaxLength f = toInt <$> m !! "maxLength";
  kw_minimum : ffMinimum f = toInt <$> m !! "minimum";
  kw_maximum : ffMaximum f = toInt <$> m !! "maximum";
  kw_additional : ffAdditionalProperties f = stringMap m
}.

(** What the name of a field adds: versions and builds are shown with the strategies
    that use them, and an object is not renamed. *)
Record meta (f : FormField) : Prop := {
  mt_condition : ffCondition f =
    if (ffName f =? "version")%string then Some (MkCondition "updateStrategy" ["pin"; "build-pin"])
    else if (ffName f =? "build")%string then Some (MkCondition "updateStrategy" ["build-pin"]) else None;
  mt_readOnly : ffReadOnlyOnEdit f = ((ffName f =? "name") || (ffName f =? "namespace"))%string
}.

Definition inOrder (fields : list FormField) : Prop := StronglySorted (fun a b => before a b = true) fields.

(** The field [f] describes the property [raw]. *)
Inductive describes (p : Parser) : string -> bool -> any -> FormField -> Prop :=
  | describes_unknown name required raw :
      (forall m, ~ means p raw m) ->
      describes p name required raw (zeroFormField <| ffName := name |> <| ffRequired := required |> <| ffType := "string" |>)
  | describes_schema name required raw m f entries :
      means p raw m -> ffName f = name -> ffRequired f = required -> keywords m f -> meta f ->
      entries ≡ₚ map_to_list (propertiesOf m) ->
      Forall2 (fun e g => describes p e.1 (requiredIn m e.1) e.2 g) entries (ffProperties f) -> inOrder (ffProperties f) ->
      option_Forall2 (fun items g => describes p "item" false items g) (itemsOf m) (ffItems f) ->
      describes p name required raw f.

(** ** The parser keeps it *)

Lemma walk_reaches v path m : walk v path = Some (AMap m) <-> reaches v path (AMap m).
Proof.
  revert v. induction path as [|k path IH]; intros v; cbn.
  - split; [intros [= ->]; constructor | by inversion 1].
  - split.
    + destruct v as [| | | | | |m0|]; try done. unfold getKey. destruct (m0 !! k) as [w|] eqn:Hk; cbn; intros Hw.
      * econstructor; [exact Hk | by apply IH].
      * by destruct path.
    + inversion 1 as [|m0 k' w path' w' Hk Hr]; subst. unfold getKey. rewrite Hk. by apply IH.
Qed.

Lemma resolvePropMap_means p raw m : resolvePropMap p raw = Some m <-> means p raw m.
Proof.
  unfold resolvePropMap, resolveRef. destruct raw as [| | | | | |m0|]; cbn; try (by split; [done | inversion 1]).
  destruct (isString (getKey m0 "$ref")) as [ref|] eqn:Href.
  - fold (pathOf ref). split.
    + destruct (walk _ _) as [w|] eqn:Hw; cbn; [|done]. destruct w; cbn; try done. intros [= ->].
      eapply means_reference; [exact Href | by apply walk_reaches].
    + inversion 1; simplify_eq. assert (Hw : walk (AMap (root p)) (pathOf ref) = Some (AMap m)) by by apply walk_reaches.
      by rewrite Hw.
  - split; [intros [= ->]; by constructor | by inversion 1; simplify_eq].
Qed.

(** The fields of the sorted list and the properties they come from. *)
Lemma parseProps_entries {MR : MapRange} {ML : MapRangeLaws} parse required props fields :
  labelled parse -> parseProps parse required props = Some fields ->
  exists entries, entries ≡ₚ map_to_list props /\ inOrder (sortFields fields) /\
    Forall2 (fun e g => parse e.1 e.2 (bool_decide (e.1 ∈ required)) = Some g) entries (sortFields fields).
Proof.
  intros Hl H. pose proof (sortFields_sorted _ (parseProps_NoDup _ _ _ _ Hl H)) as Hs.
  unfold parseProps in H. rewrite mapM_Some in H. apply Forall2_flip in H.
  destruct (Permutation_Forall2 (Permutation_sym (sortFields_perm fields)) H) as (entries & Hp & Hf).
  exists entries. split_and!; [by rewrite <- Hp, mapRange_perm | done |]. apply Forall2_flip in Hf.
  eapply Forall2_impl; [exact Hf|]. by intros [k raw] g.
Qed.

Lemma requiredIn_set m k : bool_decide (k ∈ buildRequiredSet m) = requiredIn m k.
Proof. unfold buildRequiredSet, requiredIn. apply bool_decide_ext. by rewrite elem_of_list_to_set. Qed.

(** What the step for objects and arrays adds to a field that has neither. *)
Lemma markAdditional_spec field m :
  stringOf m "type" = "object" -> ffAdditionalProperties field = false ->
  markAdditional field m = field <| ffAdditionalProperties := stringMap m |>.
Proof.
  intros Ht Ha. unfold markAdditional, stringMap, typeString. rewrite Ht. destruct field; cbn in *; subst.
  destruct (m !! "additionalProperties") as [[]|]; try done. by destruct (_ =? _)%string.
Qed.

Section spec.
Context {MR : MapRange} {ML : MapRangeLaws} (parse : string -> any -> bool -> option FormField) (Hl : labelled parse).

Definition propertiesParsed (m : gmap string any) (fields : list FormField) : Prop :=
  exists entries, entries ≡ₚ map_to_list (propertiesOf m) /\ inOrder fields /\
    Forall2 (fun e g => parse e.1 e.2 (requiredIn m e.1) = Some g) entries fields.

Lemma propertiesParsed_none m : propertiesOf m = ∅ -> propertiesParsed m [].
Proof. intros Hp. exists []. rewrite Hp, map_to_list_empty. split_and!; [done | constructor | constructor]. Qed.

Lemma extractObjectProps_spec field m f :
  stringOf m "type" = "object" -> ffProperties field = [] -> ffAdditionalProperties field = false ->
  extractObjectProps parse field m = Some f ->
  f = field <| ffAdditionalProperties := stringMap m |> <| ffProperties := ffProperties f |> /\ propertiesParsed m (ffProperties f).
Proof.
  intros Ht Hp Ha. unfold extractObjectProps. rewrite markAdditional_spec by done.
  destruct (isMap (getKey m "properties")) as [props|] eqn:Hm.
  - intros (fields & Hf & [= <-])%Some_bind. split; [by destruct field|].
    destruct (parseProps_entries _ _ _ _ Hl Hf) as (entries & He & Ho & H2). exists entries. unfold propertiesOf. rewrite Ht, Hm.
    split_and!; [done..|]. eapply Forall2_impl; [exact H2|]. intros e g. cbn beta. by rewrite requiredIn_set.
  - intros [= <-]. split; [destruct field; cbn in *; by subst|]. replace (ffProperties _) with ([] : list FormField) by by destruct field.
    apply propertiesParsed_none. unfold propertiesOf. by rewrite Ht, Hm.
Qed.

Lemma extractComplexTypes_spec field m f :
  ffType field = stringOf m "type" -> ffProperties field = [] -> ffItems field = None -> ffAdditionalProperties field = false ->
  extractComplexTypes parse field m = Some f ->
  f = field <| ffAdditionalProperties := stringMap m |> <| ffProperties := ffProperties f |> <| ffItems := ffItems f |> /\
  propertiesParsed m (ffProperties f) /\
  option_Forall2 (fun items g => parse "item" items false = Some g) (itemsOf m) (ffItems f).
Proof.
  intros Ht Hp Hi Ha. unfold extractComplexTypes. intros (f1 & H1 & H2)%Some_bind. unfold itemsOf.
  destruct (ffType field =? typeObject)%string eqn:Ho; rewrite Ht in Ho; [apply String.eqb_eq in Ho|].
  - apply (extractObjectProps_spec field m f1 Ho Hp Ha) in H1 as [He Hps].
    assert (Ht1 : ffType f1 = "object") by (rewrite He; destruct field; exact (eq_trans Ht Ho)).
    rewrite Ht1 in H2. injection H2 as <-. assert (Hi1 : ffItems f1 = None) by (rewrite He; by destruct field).
    rewrite Ho, Hi1. cbn. split_and!; [|done|constructor]. rewrite He at 1. by destruct field; cbn in *; subst.
  - injection H1 as <-. assert (Hs : stringMap m = false) by (unfold stringMap; unfold typeObject in Ho; by rewrite Ho).
    assert (Hn : propertiesParsed m []) by (apply propertiesParsed_none; unfold propertiesOf, typeObject in *; by rewrite Ho).
    rewrite Ht in H2. unfold typeArray in H2. rewrite Hs.
    destruct (stringOf m "type" =? "array")%string; [destruct (m !! "items") as [items|]|].
    + apply Some_bind in H2 as (it & Hit & [= <-]). destruct field; cbn in *; subst. split_and!; [done..|by constructor].
    + injection H2 as <-. destruct field; cbn in *; subst. split_and!; [done..|constructor].
    + injection H2 as <-. destruct field; cbn in *; subst. split_and!; [done..|constructor].
Qed.
End spec.

(** The field before objects, arrays and the name are looked at. *)
Lemma basics_spec name required m :
  let f := extractConstraints (extractBasicProps (zeroFormField <| ffName := name |> <| ffRequired := required |>) m) m in
  f = MkFormField name (stringOf m "type") (stringOf m "format") (stringOf m "description") required
        (toStringSlice (getKey m "enum")) (toString (getKey m "default")) (stringOf m "pattern")
        (toInt <$> m !! "minLength") (toInt <$> m !! "maxLength") (toInt <$> m !! "minimum") (toInt <$> m !! "maximum")
        (toString (getKey m "example")) [] None false None false.
Proof.
  unfold extractConstraints, extractBasicProps. unfold getKey at 3 4 5.
  destruct (m !! "enum") eqn:He, (m !! "minLength"), (m !! "maxLength"), (m !! "minimum"), (m !! "maximum"); cbn; unfold getKey; by rewrite ?He.
Qed.

Lemma applyFieldMeta_spec f :
  ffCondition f = None -> ffReadOnlyOnEdit f = false ->
  meta (applyFieldMeta f) /\
  applyFieldMeta f = f <| ffCondition := ffCondition (applyFieldMeta f) |> <| ffReadOnlyOnEdit := ffReadOnlyOnEdit (applyFieldMeta f) |>.
Proof.
  intros Hc Hr. unfold applyFieldMeta, conditionalRules, fieldVersion, fieldUpdateStrategy, strategyPin, fieldName, fieldNS. cbn [list_to_map foldr].
  destruct f as [n]; cbn in *; subst.
  destruct (String.eqb_spec n "version") as [->|Hv]; [by split; [split|]|].
  destruct (String.eqb_spec n "build") as [->|Hb]; [by split; [split|]|].
  assert (Hno : (list_to_map [("version", MkCondition "updateStrategy" ["pin"; "build-pin"]); ("build", MkCondition "updateStrategy" ["build-pin"])]
    : gmap string Condition) !! n = None) by (cbn; rewrite !lookup_insert_ne by done; apply lookup_empty).
  cbn in Hno. cbn [ffName]. rewrite Hno. cbn [ffName]. apply String.eqb_neq in Hv, Hb.
  destruct ((n =? "name") || (n =? "namespace"))%string eqn:Hn; (split; [|done]); split; cbn; by rewrite ?Hn, ?Hv, ?Hb.
Qed.

Lemma parseField_describes {MR : MapRange} {ML : MapRangeLaws} p fuel name raw required f :
  parseField p fuel name raw required = Some f -> describes p name required raw f.
Proof.
  revert name raw required f. induction fuel as [|fuel IH]; intros name raw required f; [done|]. cbn [parseField].
  destruct (resolvePropMap p raw) as [m|] eqn:Hm.
  2: { intros [= <-]. apply describes_unknown. intros m Hm2. apply resolvePropMap_means in Hm2. congruence. }
  apply resolvePropMap_means in Hm. intros (g & Hg & ->)%fmap_Some. rewrite basics_spec in Hg.
  apply (extractComplexTypes_spec _ (parseField_labelled p fuel)) in Hg
    as (He & (entries & Hent & Ho & Hf) & Hit); [|reflexivity..].
  destruct (applyFieldMeta_spec g) as [Hmeta Heq]; [by rewrite He..|].
  assert (Hprops : ffProperties (applyFieldMeta g) = ffProperties g) by by rewrite Heq.
  assert (Hitems : ffItems (applyFieldMeta g) = ffItems g) by by rewrite Heq.
  apply (describes_schema p name required raw m (applyFieldMeta g) entries); [exact Hm| | | |exact Hmeta|exact Hent| | |].
  - rewrite Heq, He. done.
  - rewrite Heq, He. done.
  - split; rewrite Heq, He; done.
  - rewrite Hprops. eapply Forall2_impl; [exact Hf|]. intros e h. apply IH.
  - by rewrite Hprops.
  - rewrite Hitems. destruct Hit; constructor. by apply IH.
Qed.

(** More fuel changes nothing. *)
Lemma parseField_more {MR : MapRange} {ML : MapRangeLaws} p fuel fuel' name raw required f :
  (fuel <= fuel')%nat -> parseField p fuel name raw required = Some f -> parseField p fuel' name raw required = Some f.
Proof.
  revert fuel' name raw required f. induction fuel as [|fuel IH]; intros fuel' name raw required f Hle; [done|].
  destruct fuel' as [|fuel']; [lia|]. cbn [parseField]. destruct (resolvePropMap p raw) as [m|]; [|done].
  intros (g & H & ->)%fmap_Some. erewrite extractComplexTypes_range; [done|apply (parseField_labelled p fuel)| |exact H].
  intros n r q g'. apply IH. lia.
Qed.

(** ** What the parser answers *)

(** No chain of properties, items and references of the schema goes on forever. *)
Definition acyclic (p : Parser) (name : string) : Prop :=
  forall m props k raw, schemas p !! name = Some (AMap m) -> isMap (getKey m "properties") = Some props ->
    props !! k = Some raw -> Acc (child p) raw.

(** What is promised of the answer for a schema: its form has one field for each
    property, which describes it, in order; a schema that is missing or not an object
    is an error. *)
Definition formOf (p : Parser) (name : string) (r : result FormSchema) : Prop :=
  match schemas p !! name with
  | Some (AMap m) =>
      exists s entries, r = Ok s /\ fsTitle s = name /\ fsDescription s = stringOf m "description" /\
        entries ≡ₚ map_to_list (default ∅ (isMap (getKey m "properties"))) /\ NoDup (map ffName (fsFields s)) /\
        inOrder (fsFields s) /\ Forall2 (fun e g => describes p e.1 (requiredIn m e.1) e.2 g) entries (fsFields s)
  | _ => isOk r = false
  end.

Lemma ParseSchema_form {MR : MapRange} {ML : MapRangeLaws} p fuel name r : ParseSchema p fuel name = Some r -> formOf p name r.
Proof.
  unfold ParseSchema, formOf. destruct (schemas p !! name) as [[]|]; try by intros [= <-].
  intros (fields & Hp & [= <-])%Some_bind. pose proof (parseField_labelled p fuel) as Hl.
  destruct (parseProps_entries _ _ _ _ Hl Hp) as (entries & He & Ho & Hf). eexists _, entries. split_and!; try done.
  - cbn. rewrite sortFields_perm. by eapply parseProps_NoDup.
  - eapply Forall2_impl; [exact Hf|]. intros e g Hg. cbn beta in Hg. rewrite requiredIn_set in Hg. by eapply parseField_describes.
Qed.

Lemma ParseSchema_range {MR1 MR2 : MapRange} {ML1 : MapRangeLaws (MR := MR1)} {ML2 : MapRangeLaws (MR := MR2)} p fuel fuel' name r :
  (fuel <= fuel')%nat -> ParseSchema (MR := MR1) p fuel name = Some r -> ParseSchema (MR := MR2) p fuel' name = Some r.
Proof.
  intros Hle. unfold ParseSchema. destruct (schemas p !! name) as [[]|]; try done.
  intros (fields & Hp & [= <-])%Some_bind.
  destruct (parseProps_range (MR1 := MR1) (MR2 := MR2) _ (parseField (MR := MR2) p fuel') _ _ _ (parseField_labelled p fuel)
    (fun n raw r f H => parseField_more p fuel fuel' n raw r f Hle (parseField_range p fuel n raw r f H)) Hp) as (fields2 & -> & Hs).
  cbn. by rewrite Hs.
Qed.

Lemma ParseSchema_ends {MR : MapRange} {ML : MapRangeLaws} p name : acyclic p name -> returns (fun fuel => ParseSchema p fuel name).
Proof.
  intros H. unfold ParseSchema. destruct (schemas p !! name) as [[]|] eqn:Hs; try apply returns_Some.
  apply returns_bind; [by eexists|]. apply parseProps_returns. intros k raw r Hk.
  apply parseField_ends. destruct (isMap (getKey m "properties")) as [props|] eqn:Hp; [by eapply H|].
  cbn in Hk. by rewrite lookup_empty in Hk.
Qed.

(** C25: for a schema in which no chain of properties, items and references is infinite
    the parser answers, and the answer does not depend on the order in which Go ranges
    over the maps.  The form has exactly one field per property, identity fields first,
    then required fields, then by name, and each field describes its property: all
    keywords of the schema that the property stands for, directly or by reference, are
    in the field (its type, format, texts, enumeration, default, and the four bounds),
    and the properties of an object and the items of an array are described by fields
    below it in the same way.
    A schema that is missing or not an object is an error. *)
Theorem ParseSchema_correct {MR : MapRange} {ML : MapRangeLaws} (p : Parser) (name : string) :
  acyclic p name ->
  exists n r, formOf p name r /\
    forall (MR' : MapRange) (ML' : MapRangeLaws (MR := MR')) fuel, (n <= fuel)%nat -> ParseSchema (MR := MR') p fuel name = Some r.
Proof.
  intros [n Hn]%ParseSchema_ends. destruct (Hn n (le_n n)) as [r Hr]. exists n, r. split; [by eapply ParseSchema_form|].
  intros MR' ML' fuel Hle. exact (ParseSchema_range (MR1 := MR) (MR2 := MR') p n fuel name r Hle Hr).
Qed.

Lemma ParseSchema_Acc {MR : MapRange} {ML : MapRangeLaws} p fuel name r m props k raw :
  ParseSchema p fuel name = Some r -> schemas p !! name = Some (AMap m) ->
  isMap (getKey m "properties") = Some props -> props !! k = Some raw -> Acc (child p) raw.
Proof.
  unfold ParseSchema. intros Hr Hs Hp Hk. rewrite Hs, Hp in Hr.
  apply Some_bind in Hr as (fields & Hf & _). unfold parseProps in Hf. apply elem_of_mapRange in Hk.
  destruct (mapM_is_Some_elem _ _ _ _ Hf Hk) as [f Hf']. by eapply parseField_Acc.
Qed.

(** C26: parsing a schema ends exactly when no chain of properties, items and
    references that starts at it goes on forever. *)
Theorem ParseSchema_returns {MR : MapRange} {ML : MapRangeLaws} (p : Parser) (name : string) :
  returns (fun fuel => ParseSchema p fuel name) <->
  forall m props k raw, schemas p !! name = Some (AMap m) -> isMap (getKey m "properties") = Some props ->
    props !! k = Some raw -> Acc (child p) raw.
Proof.
  split.
  - intros [n Hn] m props k raw. destruct (Hn n (le_n n)) as [r Hr]. by eapply ParseSchema_Acc.
  - apply ParseSchema_ends.
Qed.

(** A schema with a reference back to itself is parsed forever; the stack of the
    goroutine overflows. *)
Module cycle.
Definition tree : any := AMap {["type" := AString "object";
  "properties" := AMap {["child" := AMap {["$ref" := AString "#/components/schemas/Tree"]}]}]}.
Definition parser : Parser :=
  MkParser {["components" := AMap {["schemas" := AMap {["Tree" := tree]}]}]} {["Tree" := tree]}.
End cycle.

Lemma ParseSchema_cycle {MR : MapRange} {ML : MapRangeLaws} :
  ~ returns (fun fuel => ParseSchema cycle.parser fuel "Tree").
Proof.
  intros [n Hn]. destruct (Hn n (le_n n)) as [r Hr]. set (ref := AMap {["$ref" := AString "#/components/schemas/Tree"]}).
  assert (Ha : Acc (child cycle.parser) ref) by (by eapply ParseSchema_Acc with (k := "child"); [exact Hr | reflexivity..]).
  assert (Hc : child cycle.parser ref ref) by (by eapply child_property with (k := "child"); reflexivity).
  clearbody ref. clear Hn Hr. induction Ha as [x _ IH]. by apply (IH x).
Qed.

(** ** Evaluated on a part of the OpenAPI document *)

Module example.
Definition obj (l : list (string * any)) : any := AMap (list_to_map l).
Definition str (extra : list (string * any)) : any := obj (("type", AString "string") :: extra).

Definition updateStrategy : any :=
  str [("enum", ASlice [AString "latest"; AString "auto"; AString "pin"; AString "build-pin"]); ("example", AString "auto")].

Definition createRequest : any := obj [
  ("type", AString "object"); ("description", AString "Request body for creating a new PaperMCServer");
  ("required", ASlice [AString "name"; AString "namespace"; AString "updateStrategy"]);
  ("properties", obj [
    ("name", str [("minLength", AInt 1); ("maxLength", AInt 253); ("example", AString "creative-server")]);
    ("namespace", str [("example", AString "minecraft")]);
    ("updateStrategy", obj [("$ref", AString "#/components/schemas/UpdateStrategy")]);
    ("version", str [("description", AString "Target Paper version")]);
    ("build", obj [("type", AString "integer"); ("minimum", AInt 1)]);
    ("maintenanceWindow", obj [("type", AString "object"); ("properties", obj [
        ("cron", str []); ("enabled", obj [("type", AString "boolean"); ("default", ABool false)])])]);
    ("labels", obj [("type", AString "object"); ("additionalProperties", str [])])])].

Definition root : gmap string any := list_to_map [("components", obj [
  ("schemas", obj [("UpdateStrategy", updateStrategy); ("ServerCreateRequest", createRequest)])])].

Definition parser : Parser := match NewParser (Ok root) with Ok p => p | Err _ => MkParser ∅ ∅ end.
End example.

Lemma ParseSchema_correct_witness :
  exists s n, formOf example.parser "ServerCreateRequest" (Ok s) /\
    map ffName (fsFields s) = ["name"; "namespace"; "updateStrategy"; "build"; "labels"; "maintenanceWindow"; "version"] /\
    forall fuel, (n <= fuel)%nat -> ParseSchema (MR := Reversed.range) example.parser fuel "ServerCreateRequest" = Some (Ok s).
Proof.
  destruct (ParseSchema_correct (MR := InOrder.range) (ML := InOrder.range_laws) example.parser "ServerCreateRequest") as (n & r & Hf & Hr).
  - intros m props k raw Hm Hp Hk.
    destruct (ParseSchema (MR := InOrder.range) example.parser 3 "ServerCreateRequest") as [r|] eqn:Hr; [|vm_compute in Hr; congruence].
    by eapply (ParseSchema_Acc (MR := InOrder.range) (ML := InOrder.range_laws)).
  - assert (H3 : ParseSchema (MR := Reversed.range) example.parser (3 + n) "ServerCreateRequest" = Some r)
      by (apply Hr; [apply Reversed.range_laws | lia]).
    destruct (ParseSchema (MR := Reversed.range) example.parser 3 "ServerCreateRequest") as [[s|e]|] eqn:He; [|vm_compute in He; congruence..].
    assert (H4 : ParseSchema (MR := Reversed.range) example.parser (3 + n) "ServerCreateRequest" = Some (Ok s)).
    { eapply (ParseSchema_range (MR1 := Reversed.range) (ML1 := Reversed.range_laws) (ML2 := Reversed.range_laws)); [|exact He]. lia. }
    assert (r = Ok s) as -> by congruence. exists s, n. split; [exact Hf|]. split; [|by intros fuel Hle; apply Hr; [apply Reversed.range_laws|]].
    clear - He. vm_compute in He. injection He as <-. reflexivity.
Defined.

Lemma ParseSchema_returns_witness :
  returns (fun fuel => ParseSchema (MR := InOrder.range) example.parser fuel "ServerCreateRequest").
Proof.
  apply (ParseSchema_returns (MR := InOrder.range) (ML := InOrder.range_laws)). intros m props k raw Hm Hp Hk.
  destruct (ParseSchema (MR := InOrder.range) example.parser 3 "ServerCreateRequest") as [r|] eqn:Hr;
    [|vm_compute in Hr; congruence].
  by eapply (ParseSchema_Acc (MR := InOrder.range) (ML := InOrder.range_laws)).
Defined.
