(* ===== verification/Markup.v ===== *)
(** * Markup: package html and a strict reader of fragments

    [EscapeString] is Go's; [html] writes constants of the source.  The reader
    [hrun] says what safe markup is: a strict part of the HTML tokenizer with a stack
    of open elements that knows the elements and attributes of the web interface only
    (no event handler, no script but from two places, no text in a script), links and
    requests only to known beginnings, and neither angle brackets nor quotes in text
    and values.  A fragment [wellformed] keeps the reader outside of tags and leaves
    the open elements as they were; so does everything that is put together from such
    fragments.  A [document] is a document type and such a fragment. *)

From S2P Require Import Prelude GoBase Decimals Strings.
From Stdlib Require Import Ascii.

Open Scope Z_scope.

Definition quoteChar : ascii := ascii_of_nat 34.

(** A constant of the source; none has an apostrophe, which stands for a quote here. *)
Fixpoint html (s : string) : string :=
  match s with
  | EmptyString => EmptyString
  | String c s => String (if Ascii.eqb c "'"%char then quoteChar else c) (html s)
  end.

Definition cat (l : list string) : string := foldr String.append "" l.

(** [html.EscapeString] *)
Definition escapeChar (c : ascii) : string :=
  if Ascii.eqb c "&"%char then "&amp;"
  else if Ascii.eqb c "'"%char then "&#39;"
  else if Ascii.eqb c "<"%char then "&lt;"
  else if Ascii.eqb c ">"%char then "&gt;"
  else if Ascii.eqb c quoteChar then "&#34;"
  else String c "".

Fixpoint EscapeString (s : string) : string :=
  match s with
  | EmptyString => EmptyString
  | String c s => escapeChar c +:+ EscapeString s
  end.

(** ** The reader *)

Inductive mode :=
  | Data
  | TagOpen
  | TagName (n : string)
  | EndTag (n : string)
  | BeforeAttr (tag : string)
  | AttrName (tag n : string)
  | BeforeValue (tag n : string)
  | Value (tag : string) (must : list string)  (* the rest of the value begins with one of [must] *)
  | AfterValue (tag : string)
  | SelfClosing (tag : string)
  | RawText                     (* the text of a style element *)
  | Comment
  | Literal (lit : string) (next : mode).  (* exactly [lit] is next *)

(** The mode and the names of the open elements, innermost first. *)
Definition hstate : Type := mode * list string.

Definition elements : list string :=
  ["form"; "div"; "label"; "span"; "p"; "a"; "input"; "select"; "option"; "button"; "fieldset"; "template";
   "html"; "head"; "meta"; "title"; "script"; "style"; "body"; "header"; "main"; "h1"; "h2"; "h3"].

Definition attributes : list string :=
  ["id"; "for"; "name"; "value"; "type"; "style"; "placeholder"; "required"; "readonly"; "disabled"; "checked";
   "selected"; "pattern"; "minlength"; "maxlength"; "min"; "max"; "href"; "target"; "rel";
   "hx-get"; "hx-post"; "hx-put"; "hx-ext"; "hx-target"; "hx-swap"; "hx-trigger"; "data-success-redirect";
   "data-depends-on"; "data-show-when"; "data-map-field"; "data-map-entries"; "data-map-add"; "data-map-key";
   "data-map-value"; "data-map-name"; "data-map-remove"; "data-array-field"; "data-array-entries";
   "data-array-template"; "data-array-item"; "data-array-remove"; "data-array-add"; "data-configmap-ref";
   "data-configmap-name"; "data-configmap-key"; "data-configmap-create";
   "lang"; "charset"; "content"; "class"; "role"; "aria-live"; "defer"; "src"; "integrity"; "crossorigin";
   "hx-include"; "hx-confirm"; "sse-connect"; "sse-swap"].

Definition isElement (n : string) : bool := existsb (String.eqb n) elements.
Definition isAttribute (n : string) : bool := existsb (String.eqb n) attributes.

(** Elements without content. *)
Definition isVoid (n : string) : bool := (n =? "input")%string || (n =? "meta")%string.

(** Any value. *)
Definition free : list string := [""].

(** What the value of an attribute begins with: links, requests and scripts go to known
    places only. *)
Definition mustBegin (n : string) : list string :=
  if (n =? "href")%string then ["https://"; "/ui"]
  else if (n =? "src")%string then ["https://unpkg.com/htmx.org@1.9.12"; "/ui/static/"]
  else if existsb (String.eqb n) ["hx-get"; "hx-post"; "hx-put"] then ["/ui"; "/api/v1/"]
  else if existsb (String.eqb n) ["sse-connect"; "data-success-redirect"] then ["/ui"]
  else free.

Definition begins (must : list string) (v : string) : bool := existsb (fun p => HasPrefix v p) must.

(** What is left of the beginnings after a byte; a complete one leaves nothing to ask. *)
Definition after (c : ascii) (must : list string) : list string :=
  let rest := omap (fun p => match p with String d p => if Ascii.eqb c d then Some p else None | "" => None end) must in
  if existsb (String.eqb "") rest then free else rest.

Definition isNameChar (c : ascii) : bool :=
  let n := nat_of_ascii c in
  ((97 <=? n) && (n <=? 122) || (48 <=? n) && (n <=? 57))%nat || Ascii.eqb c "-"%char.

(** A byte that text and values may have as it is. *)
Definition isPlain (c : ascii) : bool :=
  negb (Ascii.eqb c "<"%char || Ascii.eqb c ">"%char || Ascii.eqb c quoteChar).

Definition push (n : string) (c : ascii) : string := n +:+ String c "".

(** The end of an opening tag. *)
Definition openElement (tag : string) (st : list string) : option hstate :=
  if isVoid tag then Some (Data, st)
  else if (tag =? "script")%string then Some (Literal "</script>" Data, st)
  else if (tag =? "style")%string then Some (RawText, st)
  else Some (Data, tag :: st).

Definition hstep (s : hstate) (c : ascii) : option hstate :=
  let '(m, st) := s in
  match m with
  | Data => if Ascii.eqb c "<"%char then Some (TagOpen, st) else if isPlain c then Some (Data, st) else None
  | TagOpen =>
      if Ascii.eqb c "/"%char then Some (EndTag "", st)
      else if Ascii.eqb c "!"%char then Some (Literal "--" Comment, st)
      else if isNameChar c then Some (TagName (String c ""), st) else None
  | TagName n =>
      if isNameChar c then Some (TagName (push n c), st)
      else if negb (isElement n) then None
      else if Ascii.eqb c " "%char then Some (BeforeAttr n, st)
      else if Ascii.eqb c ">"%char then openElement n st else None
  | EndTag n =>
      if isNameChar c then Some (EndTag (push n c), st)
      else if Ascii.eqb c ">"%char then
        match st with
        | top :: st => if (top =? n)%string then Some (Data, st) else None
        | [] => None
        end
      else None
  | BeforeAttr tag => if isNameChar c then Some (AttrName tag (String c ""), st) else None
  | AttrName tag n =>
      if isNameChar c then Some (AttrName tag (push n c), st)
      else if negb (isAttribute n) then None
      else if Ascii.eqb c "="%char then Some (BeforeValue tag n, st)
      else if Ascii.eqb c " "%char then Some (BeforeAttr tag, st)
      else if Ascii.eqb c "/"%char then Some (SelfClosing tag, st)
      else if Ascii.eqb c ">"%char then openElement tag st else None
  | BeforeValue tag n => if Ascii.eqb c quoteChar then Some (Value tag (mustBegin n), st) else None
  | Value tag must =>
      if begins must "" then
        if Ascii.eqb c quoteChar then Some (AfterValue tag, st)
        else if isPlain c then Some (Value tag free, st) else None
      else
        match after c must with
        | [] => None
        | must => if isPlain c then Some (Value tag must, st) else None
        end
  | AfterValue tag =>
      if Ascii.eqb c " "%char then Some (BeforeAttr tag, st)
      else if Ascii.eqb c "/"%char then Some (SelfClosing tag, st)
      else if Ascii.eqb c ">"%char then openElement tag st else None
  | SelfClosing tag => if Ascii.eqb c ">"%char && isVoid tag then Some (Data, st) else None
  | RawText => Some (if Ascii.eqb c "<"%char then Literal "/style>" Data else RawText, st)
  | Comment => if Ascii.eqb c "-"%char then Some (Literal "->" Data, st) else if isPlain c then Some (Comment, st) else None
  | Literal lit next =>
      match lit with
      | String d rest => if Ascii.eqb c d then Some (if (rest =? "")%string then next else Literal rest next, st) else None
      | EmptyString => None
      end
  end.

Fixpoint hrun (text : string) (s : hstate) : option hstate :=
  match text with
  | EmptyString => Some s
  | String c text => s ← hstep s c; hrun text s
  end.

(** A fragment between tags that closes what it opens. *)
Definition wellformed (text : string) : Prop := forall st, hrun text (Data, st) = Some (Data, st).

Definition doctype : string := "<!doctype html>".

(** A whole page. *)
Definition document (text : string) : Prop := exists page, text = doctype +:+ page /\ wellformed page.

#[global] Arguments begins _ _ : simpl never.
#[global] Arguments after _ _ : simpl never.
#[global] Arguments isAttribute _ : simpl never.
#[global] Arguments isElement _ : simpl never.
#[global] Arguments isPlain _ : simpl never.
#[global] Arguments isVoid _ : simpl never.
#[global] Arguments mustBegin _ : simpl never.

(** ** Reading in parts *)

Lemma hrun_app a b s : hrun (a +:+ b) s = hrun a s ≫= hrun b.
Proof.
  revert s. induction a as [|c a IH]; intros s; [done|]. rewrite str_app_cons. cbn [hrun].
  destruct (hstep s c); cbn; [apply IH | done].
Qed.

Lemma hrun_seq a b s s' r : hrun a s = Some s' -> hrun b s' = r -> hrun (a +:+ b) s = r.
Proof. intros Ha Hb. by rewrite hrun_app, Ha. Qed.

Lemma hrun_plain a m st :
  m = Data \/ (exists tag, m = Value tag free) -> str_all isPlain a = true -> hrun a (m, st) = Some (m, st).
Proof.
  intros Hm. induction a as [|c a IH]; cbn [str_all hrun]; [done|]. intros [Hc Ha]%andb_true_iff.
  assert (hstep (m, st) c = Some (m, st)) as ->; [|by apply IH].
  unfold isPlain in Hc. apply negb_true_iff in Hc. bool_prop.
  destruct Hm as [->|[tag ->]]; cbn; unfold isPlain;
    repeat match goal with H : Ascii.eqb _ _ = false |- _ => rewrite H end; done.
Qed.

Lemma hrun_plain_data a st : str_all isPlain a = true -> hrun a (Data, st) = Some (Data, st).
Proof. apply hrun_plain. by left. Qed.

Lemma hrun_plain_value a tag st : str_all isPlain a = true -> hrun a (Value tag free, st) = Some (Value tag free, st).
Proof. apply hrun_plain. right. by eexists. Qed.

(** A value that begins as it must. *)
Lemma begins_after c must v :
  begins must "" = false -> begins must (String c v) = true -> begins (after c must) v = true.
Proof.
  unfold begins, after. cbv zeta. intros Hn. intros (p & Hp & Hv)%existsb_exists.
  destruct p as [|d p].
  { apply Bool.not_true_iff_false in Hn. destruct Hn. apply existsb_exists. by exists "". }
  apply HasPrefix_spec in Hv as [r Hv]. rewrite str_app_cons in Hv. injection Hv as <- ->.
  set (rest := omap _ must). assert (Hr : p ∈ rest).
  { apply list_elem_of_omap. exists (String c p). rewrite Ascii.eqb_refl. split; [by apply list_elem_of_In | done]. }
  destruct (existsb _ rest) eqn:He; [by destruct (p +:+ r)|].
  apply existsb_exists. exists p. split; [by apply list_elem_of_In|]. apply HasPrefix_spec. by eexists.
Qed.

Lemma after_normal c must : begins (after c must) "" = true -> after c must = free.
Proof.
  unfold begins, after. cbv zeta. set (rest := omap _ must). destruct (existsb (String.eqb "") rest) eqn:He; [done|].
  intros (p & Hp & Hv)%existsb_exists. destruct p as [|d p]; [|done].
  apply Bool.not_true_iff_false in He. destruct He. apply existsb_exists. by exists "".
Qed.

Lemma hrun_begins tag must v st :
  (begins must "" = true -> must = free) -> begins must v = true -> str_all isPlain v = true ->
  hrun v (Value tag must, st) = Some (Value tag free, st).
Proof.
  revert must. induction v as [|c v IH]; intros must Hn Hb Hv.
  - cbn. by rewrite Hn.
  - destruct (begins must "") eqn:He; [rewrite Hn by done; by apply hrun_plain_value|].
    pose proof (begins_after c must v He Hb) as Ha. cbn [str_all hrun hstep] in *. rewrite He.
    apply andb_true_iff in Hv as [Hc Hv]. destruct (after c must) as [|p l] eqn:Hl; [done|]. rewrite Hc. cbn.
    rewrite <- Hl in *. apply IH; [apply after_normal | done | done].
Qed.

Lemma begins_app must p v : begins must p = true -> begins must (p +:+ v) = true.
Proof.
  unfold begins. intros (q & Hq & Hp)%existsb_exists. apply existsb_exists. exists q. split; [done|].
  apply HasPrefix_spec in Hp as [t ->]. apply HasPrefix_spec. exists (t +:+ v). by rewrite str_app_assoc.
Qed.

Lemma escapeChar_plain c : str_all isPlain (escapeChar c) = true.
Proof.
  unfold escapeChar. destruct (Ascii.eqb c "&"%char); [done|]. destruct (Ascii.eqb c "'"%char); [done|].
  destruct (Ascii.eqb c "<"%char) eqn:H1; [done|]. destruct (Ascii.eqb c ">"%char) eqn:H2; [done|].
  destruct (Ascii.eqb c quoteChar) eqn:H3; [done|]. cbn. unfold isPlain. by rewrite H1, H2, H3.
Qed.

Lemma EscapeString_plain s : str_all isPlain (EscapeString s) = true.
Proof.
  induction s as [|c s IH]; [done|]. cbn [EscapeString]. by rewrite str_all_app, escapeChar_plain, IH.
Qed.

Lemma EscapeString_app a b : EscapeString (a +:+ b) = EscapeString a +:+ EscapeString b.
Proof. induction a as [|c a IH]; [done|]. rewrite str_app_cons. cbn [EscapeString]. by rewrite IH, str_app_assoc. Qed.

(** Escaping keeps a beginning that needs none. *)
Lemma EscapeString_begins must v :
  Forall (fun p => EscapeString p = p) must -> begins must v = true -> begins must (EscapeString v) = true.
Proof.
  unfold begins. rewrite Forall_forall. intros Hm (p & Hp & [r ->]%HasPrefix_spec)%existsb_exists.
  apply existsb_exists. exists p. split; [done|]. apply HasPrefix_spec. exists (EscapeString r).
  rewrite EscapeString_app, Hm; [done | by apply list_elem_of_In].
Qed.

Lemma digits_plain s : str_all isDigit s = true -> str_all isPlain s = true.
Proof.
  apply str_all_mono. intros c. unfold isDigit, isPlain. intros Hc.
  apply negb_true_iff. repeat rewrite orb_false_iff.
  split_and!; apply Ascii.eqb_neq; intros ->; vm_compute in Hc; congruence.
Qed.

Lemma pretty_plain (z : Z) : str_all isPlain (pretty z) = true.
Proof.
  destruct (decide (0 <= z)) as [Hz|Hz]; [by apply digits_plain, pretty_digits|].
  destruct z as [|q|q]; [lia | lia |]. change (pretty (Z.neg q)) with ("-" +:+ pretty (Z.pos q)).
  rewrite str_all_app. by rewrite (digits_plain (pretty (Z.pos q))) by (apply pretty_digits; lia).
Qed.

(** ** Fragments *)

Lemma wellformed_nil : wellformed "".
Proof. by intros st. Qed.

Lemma wellformed_app a b : wellformed a -> wellformed b -> wellformed (a +:+ b).
Proof. intros Ha Hb st. rewrite hrun_app, Ha. apply Hb. Qed.

Lemma wellformed_cat l : Forall wellformed l -> wellformed (cat l).
Proof. induction 1; [apply wellformed_nil | by apply wellformed_app]. Qed.

Lemma wellformed_map {A} (f : A -> string) l : (forall x, x ∈ l -> wellformed (f x)) -> wellformed (cat (map f l)).
Proof.
  intros H. apply wellformed_cat, Forall_forall. intros y (x & -> & Hx)%elem_of_map. by apply H.
Qed.

Lemma wellformed_plain s : str_all isPlain s = true -> wellformed s.
Proof. intros Hs st. by apply hrun_plain_data. Qed.

(** Where the reader is in a tag after an attribute. *)
Inductive afterAttr (tag : string) : mode -> Prop :=
  | after_value : afterAttr tag (AfterValue tag)
  | after_name n : isAttribute n = true -> afterAttr tag (AttrName tag n).

(** A sequence of attributes, each after a space. *)
Definition attrs (text : string) : Prop :=
  forall tag m st, afterAttr tag m -> exists m', afterAttr tag m' /\ hrun text (m, st) = Some (m', st).

Lemma attrs_nil : attrs "".
Proof. intros tag m st Hm. by exists m. Qed.

Lemma attrs_app a b : attrs a -> attrs b -> attrs (a +:+ b).
Proof.
  intros Ha Hb tag m st Hm. destruct (Ha tag m st Hm) as (m1 & Hm1 & H1).
  destruct (Hb tag m1 st Hm1) as (m2 & Hm2 & H2). exists m2. split; [done|]. rewrite hrun_app, H1. exact H2.
Qed.

Lemma attrs_cat l : Forall attrs l -> attrs (cat l).
Proof. induction 1; [apply attrs_nil | by apply attrs_app]. Qed.

Lemma hstep_space tag m st : afterAttr tag m -> hstep (m, st) " "%char = Some (BeforeAttr tag, st).
Proof. intros [|n Hn]; cbn; [done|]. by rewrite Hn. Qed.

Lemma hrun_close_open tag m st s : afterAttr tag m -> openElement tag st = Some s -> hrun ">" (m, st) = Some s.
Proof. intros [|n Hn] Hv; cbn; [|rewrite Hn; cbn]; by rewrite Hv. Qed.

Lemma hrun_close_void tag m st : afterAttr tag m -> isVoid tag = true -> hrun "/>" (m, st) = Some (Data, st).
Proof.
  intros [|n Hn] Hv; cbn; [|rewrite Hn; change (isNameChar "/"%char) with false; cbn]; by rewrite Hv.
Qed.

(** Reading a name from its second character on. *)
Lemma hrun_name tag n s st : str_all isNameChar s = true -> hrun s (AttrName tag n, st) = Some (AttrName tag (n +:+ s), st).
Proof.
  revert n. induction s as [|c s IH]; intros n; cbn; [by rewrite str_app_nil_r|].
  intros [Hc Hs]%andb_true_iff. rewrite Hc. cbn. rewrite IH by done. unfold push.
  by rewrite str_app_assoc.
Qed.

(** A name that attributes may have. *)
Definition attrName (n : string) : bool :=
  match n with
  | String c s => isNameChar c && str_all isNameChar s && isAttribute n
  | EmptyString => false
  end.

Lemma hrun_attrName tag n m st :
  attrName n = true -> afterAttr tag m -> hrun (" " +:+ n) (m, st) = Some (AttrName tag n, st).
Proof.
  destruct n as [|c s]; [done|]. cbn [attrName]. intros [[Hc Hs]%andb_true_iff _]%andb_true_iff Hm.
  change (" " +:+ String c s) with (String " "%char (String c s)). cbn [hrun].
  rewrite (hstep_space tag) by done. cbn. rewrite Hc. cbn. by rewrite hrun_name.
Qed.

Lemma attrName_attribute n : attrName n = true -> isAttribute n = true.
Proof. destruct n; [done|]. by intros [_ ?]%andb_true_iff. Qed.

Lemma attrs_flag n : attrName n = true -> attrs (" " +:+ n).
Proof.
  intros Hn tag m st Hm. exists (AttrName tag n).
  split; [by apply after_name, attrName_attribute | by apply hrun_attrName].
Qed.

Lemma attrs_value n v :
  attrName n = true -> mustBegin n = free -> str_all isPlain v = true ->
  attrs (" " +:+ n +:+ html "='" +:+ v +:+ html "'").
Proof.
  intros Hn Hh Hv tag m st Hm. exists (AfterValue tag). split; [constructor|].
  rewrite <- str_app_assoc. eapply hrun_seq; [by apply hrun_attrName|].
  eapply hrun_seq with (s' := (Value tag free, st)).
  - cbn [html hrun hstep]. change (isNameChar _) with false. cbn.
    rewrite attrName_attribute by done. cbn. by rewrite Hh.
  - eapply hrun_seq; [by apply hrun_plain_value | done].
Qed.

Lemma wellformed_escape s : wellformed (EscapeString s).
Proof. apply wellformed_plain, EscapeString_plain. Qed.

Lemma wellformed_if (b : bool) x y : wellformed x -> wellformed y -> wellformed (if b then x else y).
Proof. by destruct b. Qed.

Lemma attrs_if (b : bool) x y : attrs x -> attrs y -> attrs (if b then x else y).
Proof. by destruct b. Qed.

(** [attrs] in the form that reading in parts needs. *)
Lemma hrun_attrs a b tag m st r :
  attrs a -> afterAttr tag m -> (forall m', afterAttr tag m' -> hrun b (m', st) = r) -> hrun (a +:+ b) (m, st) = r.
Proof. intros Ha Hm Hb. destruct (Ha tag m st Hm) as (m' & Hm' & H). eapply hrun_seq; [exact H | by apply Hb]. Qed.

(** A constant that begins with a space, after an attribute. *)
Lemma hrun_space a b tag m st s' r :
  afterAttr tag m -> hrun (html a) (BeforeAttr tag, st) = Some s' -> hrun b s' = r ->
  hrun (html (String " "%char a) +:+ b) (m, st) = r.
Proof. intros Hm Ha Hb. eapply hrun_seq; [|exact Hb]. cbn [html hrun]. by rewrite (hstep_space tag). Qed.

Create HintDb markup.
#[export] Hint Resolve wellformed_nil wellformed_escape wellformed_if attrs_nil attrs_if EscapeString_plain pretty_plain
  after_value : markup.
#[export] Hint Extern 1 (afterAttr _ (AttrName _ _)) => apply after_name; reflexivity : markup.

(** ** Tactics

    [hread] reads a text from a known state, one part at a time: constants are
    evaluated, dynamic text is plain, other fragments are looked up in the database
    [markup]. *)

Ltac hconst a s b r :=
  let s' := eval vm_compute in (hrun a s) in
  lazymatch s' with
  | Some ?x => refine (hrun_seq a b s x r _ _); [vm_compute; reflexivity|]
  end.

Ltac hspace a s b r :=
  lazymatch s with
  | (?m, ?st) =>
      lazymatch goal with
      | H : afterAttr ?tag m |- _ =>
          let s' := eval vm_compute in (hrun (html a) (BeforeAttr tag, st)) in
          lazymatch s' with
          | Some ?x => refine (hrun_space a b tag m st x r H _ _); [vm_compute; reflexivity|]
          end
      end
  end.

Ltac hpart a s b r :=
  lazymatch s with
  | (Data, _) => refine (hrun_seq a b s s r _ _); [solve [assert (wellformed a) as Hwf by eauto with markup; apply Hwf]|]
  | (Value _ [""], _) => refine (hrun_seq a b s s r _ _); [solve [apply hrun_plain_value; eauto with markup]|]
  | (Value ?tag _, ?st) =>
      refine (hrun_seq a b s (Value tag free, st) r _ _); [solve [apply hrun_begins; [by vm_compute | eauto with markup ..]]|]
  | (_, _) => eapply (hrun_attrs a b); [solve [eauto with markup] | solve [eauto with markup] | intros ? ?]
  end.

Ltac hread_step :=
  lazymatch goal with
  | |- hrun ?t ?s = ?r =>
      lazymatch t with
      | cat (?x :: ?l) => change (hrun (x +:+ cat l) s = r)
      | cat [] => reflexivity
      | (?a +:+ ?b) +:+ ?c => rewrite (str_app_assoc a b c)
      | "" +:+ ?b => change (hrun b s = r)
      | ?a +:+ ?b =>
          lazymatch a with
          | cat (?x :: ?l) => change (hrun ((x +:+ cat l) +:+ b) s = r)
          | cat [] => change (hrun b s = r)
          | html (String " "%char ?x) => first [hconst a s b r | hspace x s b r]
          | html _ => hconst a s b r
          | ">" => first [hconst a s b r | refine (hrun_seq a b s _ r (hrun_close_open _ _ _ _ _ _) _); [eassumption | reflexivity |]]
          | "/>" => first [hconst a s b r | refine (hrun_seq a b s _ r (hrun_close_void _ _ _ _ _) _); [eassumption | reflexivity |]]
          | String _ _ => hconst a s b r
          | _ => hpart a s b r
          end
      | _ => rewrite <- (str_app_nil_r t)
      end
  end.

Ltac hread := repeat (first [reflexivity | hread_step]).

#[export] Hint Extern 2 (wellformed (html _)) => (intros ?; vm_compute; reflexivity) : markup.
#[export] Hint Extern 3 (wellformed (_ +:+ _)) => (intros ?; hread) : markup.
#[export] Hint Extern 3 (wellformed (cat (_ :: _))) => (intros ?; hread) : markup.

(** [markup] proves that a fragment is well-formed by reading it. *)
Ltac markup := intros; let st := fresh "st" in intros st; hread.
