(* ===== verification/Render.v ===== *)
(** * Rendering of forms (pkg/webui/schema/renderer.go)

    A function that writes to the strings.Builder answers the text that it adds;
    [cat] joins the writes of one function in their order.  The page embeds the
    text without escaping, so that the renderer itself has to escape every dynamic
    value: [RenderForm_wellformed] shows, against the reader of file Markup, that
    for every schema and all values it does.  Constants of the source are written
    with [html] (an apostrophe stands for a quote). *)

From S2P Require Import Prelude GoBase Decimals Strings GoLib Schema Markup.
From Stdlib Require Import Ascii.

Open Scope Z_scope.

(** ** Constants and options *)

Inductive FormMode := ModeCreate | ModeEdit.
#[export] Instance FormMode_eq_dec : EqDecision FormMode.
Proof. solve_decision. Defined.

Definition boolTrue : string := "true".
Definition boolFalse : string := "false".

Record RenderOptions := MkRenderOptions { Mode : FormMode; SubmitURL : string; SuccessRedirect : string }.

Definition newline : ascii := ascii_of_nat 10.

(** [ph\[:idx\]] for the first line break, unless the text begins with it. *)
Definition firstLine (s : string) : string :=
  let idx := IndexByte s newline in
  if 0 <? idx then str_take (Z.to_nat idx) s else s.

(** ** Values and names *)

Definition getStringValue (values : gmap string any) (key : string) : string :=
  match values !! key with
  | Some v => toString v
  | None =>
      match walk (AMap values) (SplitByte key "."%char) with
      | Some current => toString current
      | None => ""
      end
  end.

Definition getMapValue (values : gmap string any) (key : string) : option (gmap string any) :=
  match values !! key with
  | Some (AMap m) => Some m
  | Some (AStringMap m) => Some (AString <$> m)
  | _ => None
  end.

Definition toUpper (r : ascii) : ascii :=
  let n := nat_of_ascii r in
  if ((97 <=? n) && (n <=? 122))%nat then ascii_of_nat (n - 32) else r.

(** The loop of [humanize] after the first rune. *)
Fixpoint spaceCapitals (s : string) : string :=
  match s with
  | EmptyString => EmptyString
  | String r s =>
      let n := nat_of_ascii r in
      if ((65 <=? n) && (n <=? 90))%nat then String " "%char (String r (spaceCapitals s))
      else String r (spaceCapitals s)
  end.

Fixpoint underscoresToSpaces (s : string) : string :=
  match s with
  | EmptyString => EmptyString
  | String c s => String (if Ascii.eqb c "_"%char then " "%char else c) (underscoresToSpaces s)
  end.

Definition humanize (name : string) : string :=
  underscoresToSpaces
    match name with
    | EmptyString => EmptyString
    | String r s => String (toUpper r) (spaceCapitals s)
    end.

(** ** Attributes *)

Definition writePlaceholder (field : FormField) : string :=
  let ph := ffExample field in
  let ph :=
    if (ph =? "")%string && negb (ffDescription field =? "")%string then
      let ph := TrimSpace (firstLine (ffDescription field)) in
      if (60 <? String.length ph)%nat then str_take 57 ph +:+ "..." else ph
    else ph in
  if negb (ph =? "")%string then html " placeholder='" +:+ EscapeString ph +:+ html "'" else "".

Definition writeValueAttr (value : string) : string :=
  if negb (value =? "")%string then html " value='" +:+ EscapeString value +:+ html "'" else "".

(** An attribute with an integer behind a pointer. *)
Definition writeInt (name : string) (n : option Z) : string :=
  match n with
  | Some n => " " +:+ name +:+ html "='" +:+ pretty n +:+ html "'"
  | None => ""
  end.

Definition writeFlag (b : bool) (name : string) : string := if b then " " +:+ name else "".

Definition writeValidationAttrs (field : FormField) : string := cat [
  writeFlag (ffRequired field) "required";
  (if negb (ffPattern field =? "")%string then html " pattern='" +:+ EscapeString (ffPattern field) +:+ html "'" else "");
  writeInt "minlength" (ffMinLength field);
  writeInt "maxlength" (ffMaxLength field)].

Definition writeInputStyle (readonly : bool) : string :=
  let base := "width:100%;padding:8px 10px;background:var(--bg-tertiary);color:var(--text-primary);" +:+
    "border:1px solid var(--border);border-radius:4px;font-size:14px;" in
  let base := if readonly then base +:+ "opacity:0.6;cursor:not-allowed;" else base in
  html " style='" +:+ base +:+ html "'".

(** ** Labels and descriptions *)

Definition writeLabel (field : FormField) (fullName : string) : string := cat [
  html "<label for='" +:+ EscapeString fullName +:+
  html "' style='display:block;font-size:13px;font-weight:600;color:var(--text-secondary);margin-bottom:6px;'>";
  EscapeString (humanize (ffName field));
  (if ffRequired field then html " <span style='color:var(--error);'>*</span>" else "");
  "</label>"].

(** The two entries of [helpLinks] are passed as label and URL. *)
Definition helpLink (label url : string) : string :=
  html "<a href='" +:+ url +:+ html "' target='_blank' rel='noopener' " +:+
  html "style='font-size:11px;color:var(--accent);margin-top:2px;display:inline-block;'>" +:+ EscapeString label +:+ "</a>".

Definition writeHelpLink (field : FormField) : string :=
  let lowerDesc := ToLower (ffDescription field) in
  cat [
    (if Contains (ffName field) "Cron" || Contains (ffName field) "cron" || Contains lowerDesc "cron"
     then helpLink "Cron syntax reference" "https://crontab.guru/" else "");
    (if Contains lowerDesc "duration" || Contains lowerDesc "go duration"
     then helpLink "Go duration format reference" "https://pkg.go.dev/time#ParseDuration" else "")].

Definition writeDescription (field : FormField) : string :=
  if (ffDescription field =? "")%string then ""
  else
    let desc := TrimSpace (firstLine (ffDescription field)) in
    cat [
      (if negb (desc =? "")%string
       then html "<p style='font-size:11px;color:var(--text-muted);margin-top:4px;'>" +:+ EscapeString desc +:+ "</p>"
       else "");
      writeHelpLink field].

(** ** Inputs *)

Definition writeTextInput (field : FormField) (fullName value : string) (readonly : bool) : string :=
  let inputType := if (ffFormat field =? "uri")%string then "url" else "text" in
  cat [
    html "<input type='" +:+ inputType +:+ html "' id='" +:+ EscapeString fullName +:+
      html "' name='" +:+ EscapeString fullName +:+ html "'";
    writeValueAttr value;
    writePlaceholder field;
    writeValidationAttrs field;
    writeFlag readonly "readonly";
    writeInputStyle readonly;
    "/>"].

Definition writeNumberInput (field : FormField) (fullName value : string) (readonly : bool) : string := cat [
  html "<input type='number' id='" +:+ EscapeString fullName +:+ html "' name='" +:+ EscapeString fullName +:+ html "'";
  writeValueAttr value;
  writeInt "min" (ffMinimum field);
  writeInt "max" (ffMaximum field);
  writeFlag (ffRequired field) "required";
  writeFlag readonly "readonly";
  writeInputStyle readonly;
  "/>"].

(** One option of the loop of [writeSelect]. *)
Definition writeOption (field : FormField) (value opt : string) : string :=
  let selected := if (opt =? value)%string || ((value =? "")%string && (opt =? ffDefault field)%string)
                  then " selected" else "" in
  html "<option value='" +:+ EscapeString opt +:+ html "'" +:+ selected +:+ ">" +:+ EscapeString opt +:+ "</option>".

Definition writeSelect (field : FormField) (fullName value : string) (readonly : bool) : string := cat [
  html "<select id='" +:+ EscapeString fullName +:+ html "' name='" +:+ EscapeString fullName +:+ html "'";
  writeFlag (ffRequired field) "required";
  writeFlag readonly "disabled";
  writeInputStyle readonly;
  ">";
  (if negb (ffRequired field) then html "<option value=''>— Select —</option>" else "");
  cat (map (writeOption field value) (ffEnum field));
  "</select>";
  (if readonly && negb (value =? "")%string
   then html "<input type='hidden' name='" +:+ EscapeString fullName +:+ html "' value='" +:+ EscapeString value +:+ html "'/>"
   else "")].

Definition writeCheckbox (fullName value defaultVal : string) (readonly : bool) : string :=
  let checked := (value =? boolTrue)%string || ((value =? "")%string && (defaultVal =? boolTrue)%string) in
  cat [
    html "<input type='checkbox' id='" +:+ EscapeString fullName +:+ html "' name='" +:+ EscapeString fullName +:+ html "'";
    writeFlag checked "checked";
    writeFlag readonly "disabled";
    html " style='width:auto;margin-top:8px;'/>";
    (if readonly
     then let val := if checked then boolTrue else boolFalse in
          html "<input type='hidden' name='" +:+ EscapeString fullName +:+ html "' value='" +:+ val +:+ html "'/>"
     else "")].

Definition writeScalarField (field : FormField) (fullName : string) (values : gmap string any) (mode : FormMode) : string :=
  let value := getStringValue values fullName in
  let readonly := ffReadOnlyOnEdit field && bool_decide (mode = ModeEdit) in
  cat [
    writeLabel field fullName;
    (if (0 <? length (ffEnum field))%nat then writeSelect field fullName value readonly
     else if (ffType field =? typeBoolean)%string then writeCheckbox fullName value (ffDefault field) readonly
     else if (ffType field =? typeInteger)%string then writeNumberInput field fullName value readonly
     else writeTextInput field fullName value readonly);
    writeDescription field].

(** ** Maps *)

Definition writeMapEntryRow (fieldName key value : string) : string := cat [
  html "<div style='display:flex;gap:8px;margin-bottom:6px;align-items:center;'>";
  html "<input type='text' data-map-key value='" +:+ EscapeString key +:+ html "' placeholder='Key' " +:+
    html "style='flex:1;padding:6px 8px;background:var(--bg-tertiary);color:var(--text-primary);" +:+
    html "border:1px solid var(--border);border-radius:4px;font-size:13px;'/>";
  html "<input type='text' data-map-value data-map-name='" +:+ EscapeString fieldName +:+
    html "' value='" +:+ EscapeString value +:+ html "' placeholder='Value' " +:+
    html "style='flex:1;padding:6px 8px;background:var(--bg-tertiary);color:var(--text-primary);" +:+
    html "border:1px solid var(--border);border-radius:4px;font-size:13px;'/>";
  html "<button type='button' data-map-remove " +:+
    html "style='font-size:11px;color:var(--error);background:none;border:none;cursor:pointer;'>Remove</button>";
  "</div>"].

Definition addButtonStyle : string :=
  html "style='margin-top:8px;padding:4px 12px;font-size:12px;background:var(--bg-tertiary);" +:+
  html "color:var(--text-secondary);border:1px solid var(--border);border-radius:4px;cursor:pointer;'>+ Add</button>".

Section render.
Context {MR : MapRange}.

Definition writeMapField (field : FormField) (fullName : string) (values : gmap string any) : string := cat [
  writeLabel field fullName;
  html "<div data-map-field='" +:+ EscapeString fullName +:+ html "'>";
  "<div data-map-entries>";
  match getMapValue values fullName with
  | Some mapVal => cat (map (fun '(k, v) => writeMapEntryRow fullName k (toString v)) (mapRange mapVal))
  | None => ""
  end;
  "</div>";
  html "<button type='button' data-map-add='" +:+ EscapeString fullName +:+ html "' " +:+ addButtonStyle;
  "</div>"].

(** ** Objects and arrays, for a way to write one field *)

Definition writeObjectField (writeSub : FormField -> string) (field : FormField) (fullName : string) : string := cat [
  writeLabel field fullName;
  html "<fieldset style='border:1px solid var(--border);border-radius:6px;padding:15px;margin:0;'>";
  cat (map writeSub (ffProperties field));
  "</fieldset>"].

(** [items] is what [field.Items] points to. *)
Definition writeArrayField (writeSub : FormField -> string) (field items : FormField) (fullName : string) : string := cat [
  writeLabel field fullName;
  html "<div data-array-field='" +:+ EscapeString fullName +:+ html "'>";
  "<div data-array-entries></div>";
  "<template data-array-template>";
  html "<div data-array-item style='border:1px solid var(--border);border-radius:4px;padding:10px;margin-bottom:8px;'>";
  (if (ffType items =? typeObject)%string then cat (map writeSub (ffProperties items)) else "");
  html "<button type='button' data-array-remove " +:+
    html "style='font-size:11px;color:var(--error);background:none;border:none;cursor:pointer;'>Remove</button>";
  "</div>";
  "</template>";
  html "<button type='button' data-array-add='" +:+ EscapeString fullName +:+ html "' " +:+ addButtonStyle;
  "</div>"].

(** The option of the value that is set, in the two selects of a ConfigMap reference. *)
Definition writeSelected (value : string) : string :=
  if negb (value =? "")%string
  then html "<option value='" +:+ EscapeString value +:+ html "' selected>" +:+ EscapeString value +:+ "</option>"
  else "".

Definition writeConfigMapRefField (field : FormField) (fullName : string) (values : gmap string any) : string :=
  let nameValue := getStringValue values (fullName +:+ ".name") in
  let keyValue := getStringValue values (fullName +:+ ".key") in
  cat [
    writeLabel field fullName;
    html "<div data-configmap-ref='" +:+ EscapeString fullName +:+
      html "' style='display:flex;gap:8px;align-items:end;flex-wrap:wrap;'>";
    html "<div style='flex:1;min-width:180px;'>";
    html "<label style='font-size:11px;color:var(--text-muted);display:block;margin-bottom:4px;'>ConfigMap</label>";
    html "<select name='" +:+ EscapeString fullName +:+ html ".name' data-configmap-name";
    writeInputStyle false;
    ">";
    html "<option value=''>— Select ConfigMap —</option>";
    writeSelected nameValue;
    "</select></div>";
    html "<div style='flex:1;min-width:150px;'>";
    html "<label style='font-size:11px;color:var(--text-muted);display:block;margin-bottom:4px;'>Key</label>";
    html "<select name='" +:+ EscapeString fullName +:+ html ".key' data-configmap-key";
    writeInputStyle false;
    ">";
    html "<option value=''>— Select Key —</option>";
    writeSelected keyValue;
    "</select></div>";
    html "<button type='button' data-configmap-create " +:+
      html "style='padding:6px 12px;font-size:12px;background:var(--accent);color:white;" +:+
      html "border:none;border-radius:4px;cursor:pointer;white-space:nowrap;'>+ New</button>";
    "</div>";
    writeDescription field].

(** ** Fields and forms *)

Definition isWide (field : FormField) : bool :=
  ffAdditionalProperties field
  || ((ffType field =? typeArray)%string && bool_decide (is_Some (ffItems field)))
  || ((ffType field =? typeObject)%string && (0 <? length (ffProperties field))%nat).

(** The opening tag that [writeField] wraps a field in. *)
Definition writeFieldOpen (field : FormField) : string :=
  let wideStyle := if isWide field then "grid-column:1/-1;" else "" in
  match ffCondition field with
  | Some cond =>
      html "<div data-depends-on='" +:+ EscapeString (DependsOn cond) +:+ html "' data-show-when='" +:+
      EscapeString (Join (Values cond) ",") +:+ html "' style='display:none;" +:+ wideStyle +:+ html "'>"
  | None => if isWide field then html "<div style='" +:+ wideStyle +:+ html "'>" else "<div>"
  end.

Fixpoint writeField (field : FormField) (prefix : string) (values : gmap string any) (mode : FormMode) : string :=
  let fullName := if negb (prefix =? "")%string then prefix +:+ "." +:+ ffName field else ffName field in
  cat [
    writeFieldOpen field;
    (if ffAdditionalProperties field then writeMapField field fullName values
     else
       match (ffType field =? typeArray)%string, ffItems field with
       | true, Some items =>
           writeArrayField (fun prop => writeField prop (fullName +:+ ".*") ∅ ModeCreate) field items fullName
       | _, _ =>
           if (ffName field =? fieldConfigMapRef)%string && (ffType field =? typeObject)%string
           then writeConfigMapRefField field fullName values
           else if (ffType field =? typeObject)%string && (0 <? length (ffProperties field))%nat
           then writeObjectField (fun sub => writeField sub fullName values mode) field fullName
           else writeScalarField field fullName values mode
       end);
    "</div>"].

Definition writeFormOpen (opts : RenderOptions) : string :=
  let method := if bool_decide (Mode opts = ModeEdit) then "hx-put" else "hx-post" in
  let redirect := if (SuccessRedirect opts =? "")%string then "/ui" else SuccessRedirect opts in
  html "<form id='resource-form' " +:+ method +:+ html "='" +:+ EscapeString (SubmitURL opts) +:+ html "' hx-ext='json-enc' " +:+
  html "hx-target='#form-result' hx-swap='innerHTML' data-success-redirect='" +:+ EscapeString redirect +:+ html "'>".

Definition writeSubmitButton (mode : FormMode) : string :=
  let label := if bool_decide (mode = ModeEdit) then "Update" else "Create" in
  html "<div style='margin-top:20px;'><button type='submit' " +:+
  html "style='padding:10px 24px;background:var(--accent);color:white;border:none;" +:+
  html "border-radius:6px;font-size:14px;font-weight:600;cursor:pointer;'>" +:+ label +:+ "</button></div>".

Definition RenderForm (schema : FormSchema) (values : gmap string any) (opts : RenderOptions) : string := cat [
  writeFormOpen opts;
  html "<div id='form-result'></div>";
  html "<div style='display:grid;grid-template-columns:repeat(auto-fit,minmax(280px,1fr));gap:20px;'>";
  cat (map (fun field => writeField field "" values (Mode opts)) (fsFields schema));
  "</div>";
  writeSubmitButton (Mode opts);
  "</form>"].
End render.

(** ** Every fragment is well-formed *)

Lemma placeholder_attrs field : attrs (writePlaceholder field).
Proof. unfold writePlaceholder. apply attrs_if; [|apply attrs_nil]. apply (attrs_value "placeholder"); [done | done | apply EscapeString_plain]. Qed.

Lemma valueAttr_attrs value : attrs (writeValueAttr value).
Proof. unfold writeValueAttr. apply attrs_if; [|apply attrs_nil]. apply (attrs_value "value"); [done | done | apply EscapeString_plain]. Qed.

Lemma writeInt_attrs name n : attrName name = true -> mustBegin name = free -> attrs (writeInt name n).
Proof. intros Hn Hh. destruct n as [n|]; [|apply attrs_nil]. apply (attrs_value name); [done | done | apply pretty_plain]. Qed.

Lemma writeFlag_attrs b name : attrName name = true -> attrs (writeFlag b name).
Proof. intros Hn. destruct b; [by apply attrs_flag | apply attrs_nil]. Qed.

Lemma inputStyle_attrs readonly : attrs (writeInputStyle readonly).
Proof. apply (attrs_value "style"); [done | done | by destruct readonly]. Qed.

#[export] Hint Resolve placeholder_attrs valueAttr_attrs inputStyle_attrs : markup.
#[export] Hint Extern 1 (attrs (writeInt _ _)) => apply writeInt_attrs; reflexivity : markup.
#[export] Hint Extern 1 (attrs (writeFlag _ _)) => apply writeFlag_attrs; reflexivity : markup.

Lemma validationAttrs_attrs field : attrs (writeValidationAttrs field).
Proof.
  apply attrs_cat. repeat constructor; auto with markup.
  apply attrs_if; [|apply attrs_nil]. apply (attrs_value "pattern"); [done | done | apply EscapeString_plain].
Qed.
#[export] Hint Resolve validationAttrs_attrs : markup.

Lemma writeLabel_wellformed field fullName : wellformed (writeLabel field fullName).
Proof.
  unfold writeLabel. destruct (ffRequired field); markup.
Qed.
#[export] Hint Resolve writeLabel_wellformed : markup.

Lemma writeHelpLink_wellformed field : wellformed (writeHelpLink field).
Proof.
  unfold writeHelpLink. apply wellformed_cat. repeat constructor; apply wellformed_if; auto with markup.
Qed.
#[export] Hint Resolve writeHelpLink_wellformed : markup.

Lemma writeDescription_wellformed field : wellformed (writeDescription field).
Proof. unfold writeDescription. destruct (_ =? _)%string; [apply wellformed_nil|]. cbv zeta. markup. Qed.
#[export] Hint Resolve writeDescription_wellformed : markup.

Lemma writeTextInput_wellformed field fullName value readonly : wellformed (writeTextInput field fullName value readonly).
Proof. unfold writeTextInput. cbv zeta. destruct (_ =? _)%string; markup. Qed.

Lemma writeNumberInput_wellformed field fullName value readonly : wellformed (writeNumberInput field fullName value readonly).
Proof. unfold writeNumberInput. markup. Qed.

Lemma writeOption_wellformed field value opt : wellformed (writeOption field value opt).
Proof. unfold writeOption. cbv zeta. destruct (_ || _); markup. Qed.

Lemma writeSelect_wellformed field fullName value readonly : wellformed (writeSelect field fullName value readonly).
Proof.
  unfold writeSelect. pose proof (wellformed_map (writeOption field value) (ffEnum field)
    (fun opt _ => writeOption_wellformed field value opt)) as Ho.
  set (options := cat (map _ _)) in *. clearbody options. destruct (ffRequired field), (readonly && _); markup.
Qed.

Lemma writeCheckbox_wellformed fullName value defaultVal readonly : wellformed (writeCheckbox fullName value defaultVal readonly).
Proof. unfold writeCheckbox. cbv zeta. destruct (_ || _), readonly; markup. Qed.
#[export] Hint Resolve writeTextInput_wellformed writeNumberInput_wellformed writeSelect_wellformed writeCheckbox_wellformed : markup.

Lemma writeScalarField_wellformed field fullName values mode : wellformed (writeScalarField field fullName values mode).
Proof. unfold writeScalarField. cbv zeta. apply wellformed_cat. repeat constructor; auto 6 with markup. Qed.
#[export] Hint Resolve writeScalarField_wellformed : markup.

Lemma writeMapEntryRow_wellformed fieldName key value : wellformed (writeMapEntryRow fieldName key value).
Proof. unfold writeMapEntryRow. markup. Qed.

Section wellformedness.
Context {MR : MapRange}.

Lemma writeMapField_wellformed field fullName values : wellformed (writeMapField field fullName values).
Proof.
  unfold writeMapField, addButtonStyle. destruct (getMapValue values fullName) as [m|]; [|markup].
  pose proof (wellformed_map (fun '(k, v) => writeMapEntryRow fullName k (toString v)) (mapRange m)
    (fun '(k, v) _ => writeMapEntryRow_wellformed fullName k (toString v))) as Hm.
  set (rows := cat (map _ _)) in *. clearbody rows. markup.
Qed.

Lemma writeObjectField_wellformed writeSub field fullName :
  wellformed (cat (map writeSub (ffProperties field))) -> wellformed (writeObjectField writeSub field fullName).
Proof. unfold writeObjectField. set (subs := cat (map _ _)). clearbody subs. markup. Qed.

Lemma writeArrayField_wellformed writeSub field items fullName :
  wellformed (cat (map writeSub (ffProperties items))) -> wellformed (writeArrayField writeSub field items fullName).
Proof. unfold writeArrayField, addButtonStyle. set (subs := cat (map _ _)). clearbody subs. markup. Qed.

Lemma writeSelected_wellformed value : wellformed (writeSelected value).
Proof. unfold writeSelected. auto with markup. Qed.
#[local] Hint Resolve writeSelected_wellformed writeMapField_wellformed : markup.

Lemma writeConfigMapRefField_wellformed field fullName values : wellformed (writeConfigMapRefField field fullName values).
Proof. unfold writeConfigMapRefField. cbv zeta. markup. Qed.
#[local] Hint Resolve writeConfigMapRefField_wellformed : markup.

(** The opening tag of a field leaves a [div] open. *)
Lemma writeFieldOpen_opens field st : hrun (writeFieldOpen field) (Data, st) = Some (Data, "div" :: st).
Proof. unfold writeFieldOpen. cbv zeta. destruct (ffCondition field), (isWide field); hread. Qed.

Lemma writeField_eq field prefix values mode :
  writeField field prefix values mode =
  let fullName := if negb (prefix =? "")%string then prefix +:+ "." +:+ ffName field else ffName field in
  cat [
    writeFieldOpen field;
    (if ffAdditionalProperties field then writeMapField field fullName values
     else
       match (ffType field =? typeArray)%string, ffItems field with
       | true, Some items =>
           writeArrayField (fun prop => writeField prop (fullName +:+ ".*") ∅ ModeCreate) field items fullName
       | _, _ =>
           if (ffName field =? fieldConfigMapRef)%string && (ffType field =? typeObject)%string
           then writeConfigMapRefField field fullName values
           else if (ffType field =? typeObject)%string && (0 <? length (ffProperties field))%nat
           then writeObjectField (fun sub => writeField sub fullName values mode) field fullName
           else writeScalarField field fullName values mode
       end);
    "</div>"].
Proof. by destruct field. Qed.

Definition writesWell (field : FormField) : Prop :=
  forall prefix values mode, wellformed (writeField field prefix values mode).

Lemma writesWell_map l prefix values mode :
  Forall writesWell l -> wellformed (cat (map (fun f => writeField f prefix values mode) l)).
Proof. intros Hl. apply wellformed_map. intros f Hf. rewrite Forall_forall in Hl. by apply Hl. Qed.

Lemma writeField_wellformed field : writesWell field /\ Forall writesWell (ffProperties field).
Proof.
  induction field as [field Hp Hi] using FormField_ind.
  assert (Hq : Forall writesWell (ffProperties field)) by (eapply Forall_impl; [exact Hp | by intros f [? _]]).
  split; [|done]. intros prefix values mode st. rewrite writeField_eq. cbv zeta.
  set (fullName := if negb _ then _ else _). set (body := if ffAdditionalProperties field then _ else _).
  assert (Hb : wellformed body).
  { subst body. apply wellformed_if; [auto with markup|].
    assert (Hr : wellformed (
      if (ffName field =? fieldConfigMapRef)%string && (ffType field =? typeObject)%string
      then writeConfigMapRefField field fullName values
      else if (ffType field =? typeObject)%string && (0 <? length (ffProperties field))%nat
      then writeObjectField (fun sub => writeField sub fullName values mode) field fullName
      else writeScalarField field fullName values mode)).
    { repeat apply wellformed_if; auto with markup. by apply writeObjectField_wellformed, writesWell_map. }
    destruct (_ =? typeArray)%string; [|done]. destruct (ffItems field) as [items|] eqn:Hit; [|done].
    apply writeArrayField_wellformed, writesWell_map. by destruct (Hi items eq_refl). }
  clearbody body. eapply hrun_seq; [apply writeFieldOpen_opens|]. hread.
Qed.
End wellformedness.

(** Where a form may be sent and what it may lead to. *)
Definition properOptions (opts : RenderOptions) : Prop :=
  begins (mustBegin "hx-post") (SubmitURL opts) = true /\
  (SuccessRedirect opts = "" \/ begins (mustBegin "data-success-redirect") (SuccessRedirect opts) = true).

Lemma writeFormOpen_opens opts st :
  properOptions opts -> hrun (writeFormOpen opts) (Data, st) = Some (Data, "form" :: st).
Proof.
  intros [Hs Hr]. unfold writeFormOpen. cbv zeta.
  set (redirect := if (SuccessRedirect opts =? "")%string then "/ui" else SuccessRedirect opts).
  assert (Hd : begins (mustBegin "data-success-redirect") redirect = true).
  { subst redirect. destruct (SuccessRedirect opts =? "")%string eqn:He; [done|]. destruct Hr as [Hr|Hr]; [|done].
    by rewrite Hr in He. }
  clearbody redirect. apply EscapeString_begins in Hs, Hd; try (by repeat constructor).
  change (mustBegin "hx-post") with ["/ui"; "/api/v1/"] in Hs. change (mustBegin _) with ["/ui"] in Hd.
  case_bool_decide; hread.
Qed.

Lemma renderedForm_wellformed {MR : MapRange} (schema : FormSchema) (values : gmap string any) (opts : RenderOptions) :
  properOptions opts -> wellformed (RenderForm schema values opts).
Proof.
  intros Ho st. unfold RenderForm, writeSubmitButton. cbv zeta.
  assert (Hf : wellformed (cat (map (fun field => writeField field "" values (Mode opts)) (fsFields schema))))
    by (apply writesWell_map, Forall_forall; intros f _; apply writeField_wellformed).
  set (fields := cat (map _ _)) in *. clearbody fields.
  cbn [cat foldr]. eapply hrun_seq; [by apply writeFormOpen_opens|]. case_bool_decide; hread.
Qed.
