(* ===== verification/Pages.v ===== *)
(** * The data of the pages (pkg/webui/adapters.go and the structs of pkg/webui/templates)

    What the templates of the web interface are given, computed from the data of
    the service layer, and the values that an edit form is filled with. *)

From S2P Require Import Prelude GoBase Decimals Strings GoLib Durations Api Objects Effects K8s Service Schema.
From Stdlib Require Import Ascii.

Open Scope Z_scope.

(** ** [time.Format(time.RFC3339)]

    [zone] is the offset of the local time from UTC in seconds. *)

(** Year, month and day of a number of days since the epoch. *)
Definition civil (days : Z) : Z * Z * Z :=
  let z := days + 719468 in
  let era := z / 146097 in
  let doe := z mod 146097 in
  let yoe := (doe - doe / 1460 + doe / 36524 - doe / 146096) / 365 in
  let doy := doe - (365 * yoe + yoe / 4 - yoe / 100) in
  let mp := (5 * doy + 2) / 153 in
  let month := if mp <? 10 then mp + 3 else mp - 9 in
  (yoe + era * 400 + (if month <=? 2 then 1 else 0), month, doy - (153 * mp + 2) / 5 + 1).

(** At least two digits. *)
Definition twoDigits (n : Z) : string := (if n <? 10 then "0" else "") +:+ pretty n.

Definition formatZone (zone : Z) : string :=
  if zone =? 0 then "Z"
  else (if zone <? 0 then "-" else "+") +:+ twoDigits (Z.abs zone / 3600) +:+ ":" +:+ twoDigits (Z.abs zone mod 3600 / 60).

(** For years of four digits. *)
Definition formatRFC3339 (zone : Z) (t : Time) : string :=
  let s := UnixSeconds t + zone in
  let '(y, m, d) := civil (s / 86400) in
  let r := s mod 86400 in
  pretty y +:+ "-" +:+ twoDigits m +:+ "-" +:+ twoDigits d +:+ "T" +:+
  twoDigits (r / 3600) +:+ ":" +:+ twoDigits (r mod 3600 / 60) +:+ ":" +:+ twoDigits (r mod 60) +:+ formatZone zone.

Example formatRFC3339_examples :
  map (formatRFC3339 0) [Unix 0; Unix 1709251199; Unix 1735689600] =
    ["1970-01-01T00:00:00Z"; "2024-02-29T23:59:59Z"; "2025-01-01T00:00:00Z"] /\
  formatRFC3339 (-19800) (Unix 1709251199) = "2024-02-29T18:29:59-05:30".
Proof. by vm_compute. Qed.

(** ** templates: structs *)

Record PluginUpdate := MkPluginUpdate { puName : string; puFromVersion : string; puToVersion : string }.

Record UpdatePlan := MkUpdatePlan { upPaperUpdate : string; upPluginUpdates : list PluginUpdate; upAppliesAt : string }.

Record PluginSummary := MkPluginSummary { pgsName : string; pgsCurrentVersion : string; pgsDesiredVersion : string }.

Record ServerSummary := MkServerSummary {
  svName : string;
  svNamespace : string;
  svCurrentPaperVersion : string;
  svStrategy : string;
  svAvailableUpdate : string;
  svPluginCount : Z;
  svNextMaintenance : string;
  svStatus : string;
  svPlugins : list PluginSummary;
  svUpdatePlan : option UpdatePlan;
  svLabels : gmap string string
}.

Record DashboardData := MkDashboardData {
  dbServers : list ServerSummary;
  dbNamespaces : list string;
  dbSelectedNamespace : string
}.

Record PluginInfo := MkPluginInfo {
  piName : string;
  piProject : string;
  piCurrentVersion : string;
  piResolvedVersion : string;
  piStatus : string
}.

Record MaintenanceInfo := MkMaintenanceInfo { mtCheckCron : string; mtWindowCron : string; mtNextWindow : string }.

Record UpdateInfo := MkUpdateInfo { uiTimestamp : string; uiStatus : string; uiMessage : string }.

Record ServerDetailData := MkServerDetailData {
  dtName : string;
  dtNamespace : string;
  dtCurrentPaperVersion : string;
  dtDesiredPaperVersion : string;
  dtAvailableUpdate : string;
  dtPlugins : list PluginInfo;
  dtMaintenanceSchedule : MaintenanceInfo;
  dtLastUpdate : UpdateInfo;
  dtLabels : gmap string string
}.

Record PluginListItem := MkPluginListItem {
  liName : string;
  liNamespace : string;
  liSourceType : string;
  liProject : string;
  liUpdateStrategy : string;
  liVersion : string;
  liResolvedVersion : string;
  liMatchedServers : Z
}.

Record PluginListData := MkPluginListData {
  plPlugins : list PluginListItem;
  plNamespaces : list string;
  plSelectedNamespace : string
}.

Record PluginDetailData := MkPluginDetailData {
  pdName : string;
  pdNamespace : string;
  pdSourceType : string;
  pdProject : string;
  pdURL : string;
  pdUpdateStrategy : string;
  pdVersion : string;
  pdResolvedVersion : string;
  pdMatchedServers : Z;
  pdRepositoryStatus : string
}.

(** ** adapters.go *)

Definition formatVersionWithBuild (version : string) (build : Z) : string :=
  if (version =? "")%string then "Unknown"
  else if 0 <? build then version +:+ "-" +:+ pretty build
  else version.

Definition updateText (u : AvailableUpdateData) : string := audVersion u +:+ "-" +:+ pretty (audBuild u).

(** The loop over the plugins of the update plan. *)
Definition pluginUpdates (plugins : list ServerPluginData) : list PluginUpdate :=
  omap (fun p =>
    if negb (spdDesiredVersion p =? "")%string && negb (spdDesiredVersion p =? spdCurrentVersion p)%string
    then Some (MkPluginUpdate (spdName p) (spdCurrentVersion p) (spdDesiredVersion p)) else None) plugins.

Definition serverDataToSummary (data : ServerData) : ServerSummary :=
  MkServerSummary (sdName data) (sdNamespace data) (formatVersionWithBuild (sdCurrentVersion data) (sdCurrentBuild data))
    (sdUpdateStrategy data)
    match sdAvailableUpdate data with Some u => updateText u | None => "" end
    (sdPluginCount data) (sdNextMaintenance data) (sdStatus data)
    (map (fun p => MkPluginSummary (spdName p) (spdCurrentVersion p) (spdDesiredVersion p)) (sdPlugins data))
    (option_map (fun u => MkUpdatePlan (updateText u) (pluginUpdates (sdPlugins data))
                            match sdMaintenanceSchedule data with Some ms => msdNextWindow ms | None => "" end)
       (sdAvailableUpdate data))
    (sdLabels data).

Definition serverDataToDetail (zone : Z) (data : ServerData) : ServerDetailData :=
  MkServerDetailData (sdName data) (sdNamespace data)
    (formatVersionWithBuild (sdCurrentVersion data) (sdCurrentBuild data))
    (formatVersionWithBuild (sdDesiredVersion data) (sdDesiredBuild data))
    match sdAvailableUpdate data with Some u => updateText u | None => "" end
    (map (fun p => MkPluginInfo (spdName p) (spdProject p) (spdCurrentVersion p) (spdResolvedVersion p)
                     (if spdCompatible p then "compatible" else "incompatible")) (sdPlugins data))
    match sdMaintenanceSchedule data with
    | Some ms => MkMaintenanceInfo (msdCheckCron ms) (msdWindowCron ms) (msdNextWindow ms)
    | None => MkMaintenanceInfo "" "" ""
    end
    match sdUpdateHistory data with
    | Some h => MkUpdateInfo (formatRFC3339 zone (uhdAppliedAt h)) (if uhdSuccessful h then "success" else "failed")
                  ("Updated from " +:+ uhdPreviousVersion h)
    | None => MkUpdateInfo "" "" ""
    end
    (sdLabels data).

Definition pluginDataToListItem (data : PluginData) : PluginListItem :=
  MkPluginListItem (pldName data) (pldNamespace data) (pldSourceType data) (pldProject data) (pldUpdateStrategy data)
    (pldVersion data) (pldResolvedVersion data) (pldMatchedServers data).

Definition pluginDataToDetail (data : PluginData) : PluginDetailData :=
  MkPluginDetailData (pldName data) (pldNamespace data) (pldSourceType data) (pldProject data) (pldURL data)
    (pldUpdateStrategy data) (pldVersion data) (pldResolvedVersion data) (pldMatchedServers data) (pldRepositoryStatus data).

(** ** The values of the edit forms *)

Definition serverDataToValues (data : ServerData) : gmap string any :=
  let version := if (sdCurrentVersion data =? "")%string then sdDesiredVersion data else sdCurrentVersion data in
  let values := list_to_map [("name", AString (sdName data)); ("namespace", AString (sdNamespace data));
    ("updateStrategy", AString (sdUpdateStrategy data)); ("version", AString version); ("checkCron", AString "")] in
  let values := if 0 <? sdCurrentBuild data then <["build" := AInt (sdCurrentBuild data)]> values else values in
  let values := match sdMaintenanceSchedule data with
                | Some ms => <["checkCron" := AString (msdCheckCron ms)]>
                               (<["maintenanceWindow.cron" := AString (msdWindowCron ms)]>
                                 (<["maintenanceWindow.enabled" := ABool (msdEnabled ms)]> values))
                | None => values
                end in
  if (0 <? size (sdLabels data))%nat then <["labels" := AStringMap (sdLabels data)]> values else values.

Definition pluginDataToValues (data : PluginData) : gmap string any :=
  let values := list_to_map [("name", AString (pldName data)); ("namespace", AString (pldNamespace data));
    ("source.type", AString (pldSourceType data)); ("source.project", AString (pldProject data));
    ("source.url", AString (pldURL data)); ("updateStrategy", AString (pldUpdateStrategy data));
    ("version", AString (pldVersion data))] in
  let values := match pldBuild data with Some b => <["build" := AInt b]> values | None => values end in
  match pldUpdateDelay data with Some d => <["updateDelay" := AString (DurationString d)]> values | None => values end.
