(* ===== verification/Templates.v ===== *)
(** * The pages (pkg/webui/templates)

    The text that the generated rendering code of the templates writes, in the order
    of its writes; [cat] joins them.  Constants are written with [html] (an
    apostrophe stands for a quote).  The run time of the template engine is third
    party: [Templ] has its escaping and its check of links, with their documented
    behaviour as laws.  Its buffer and the ends of contexts are left out: a page is
    written as a whole.  [document] is proved of every page, for all data. *)

From S2P Require Import Prelude GoBase Decimals Strings GoLib Markup Pages.
From Stdlib Require Import Ascii.

Open Scope Z_scope.

(** ** The template engine *)

Class Templ := { templEscape : string -> string; templURL : string -> string }.

(** A byte of an address that needs no escaping. *)
Definition isAddressChar (c : ascii) : bool :=
  let n := nat_of_ascii c in
  (((97 <=? n) && (n <=? 122) || (48 <=? n) && (n <=? 57))%nat
   || existsb (Ascii.eqb c) ["/"%char; "-"%char; "?"%char; "="%char]).

(** Escaped text has no angle bracket or quote, text is escaped byte by byte, and the
    letters of an address are kept.  A link without a scheme is kept. *)
Class TemplLaws {TL : Templ} : Prop := {
  templEscape_plain : forall s, str_all isPlain (templEscape s) = true;
  templEscape_app : forall a b, templEscape (a +:+ b) = templEscape a +:+ templEscape b;
  templEscape_address : forall s, str_all isAddressChar s = true -> templEscape s = s;
  templURL_path : forall p, templURL ("/" +:+ p) = "/" +:+ p
}.

Module SimpleTempl.
Definition schemes : list string := ["http"; "https"; "mailto"; "tel"; "ftp"; "ftps"].

Definition URL (s : string) : string :=
  let i := IndexByte s ":"%char in
  let protocol := str_take (Z.to_nat i) s in
  if (i <? 0) || Contains protocol "/" || existsb (String.eqb (ToLower protocol)) schemes then s
  else "about:invalid#TemplFailedSanitizationURL".

Definition templ : Templ := {| templEscape := EscapeString; templURL := URL |}.
End SimpleTempl.

(** ** Data of the form page *)

Record SchemaFormData := MkSchemaFormData { sfTitle : string; sfBackURL : string; sfFormHTML : string }.

Section templates.
Context {TL : Templ} {MR : MapRange}.

(** ** Layout *)

(** The style sheet of every page. *)
Definition stylesheet : string := "
			:root {
				--bg-primary: #1a1a1a;
				--bg-secondary: #2d2d2d;
				--bg-tertiary: #3a3a3a;
				--text-primary: #e0e0e0;
				--text-secondary: #b0b0b0;
				--text-muted: #888888;
				--accent: #4a9eff;
				--accent-bg: rgba(74, 158, 255, 0.15);
				--accent-border: rgba(74, 158, 255, 0.3);
				--success: #4caf50;
				--warning: #ff9800;
				--error: #f44336;
				--border: #404040;
			}

			* {
				margin: 0;
				padding: 0;
				box-sizing: border-box;
			}

			body {
				font-family: -apple-system, BlinkMacSystemFont, 'Segoe UI', Roboto, Oxygen, Ubuntu, Cantarell, sans-serif;
				background-color: var(--bg-primary);
				color: var(--text-primary);
				line-height: 1.6;
			}

			.container {
				max-width: 1400px;
				margin: 0 auto;
				padding: 20px;
			}

			header {
				background-color: var(--bg-secondary);
				border-bottom: 2px solid var(--accent);
				padding: 20px 0;
				margin-bottom: 30px;
			}

			header h1 {
				font-size: 24px;
				color: var(--accent);
			}

			header p {
				color: var(--text-secondary);
				font-size: 14px;
				margin-top: 5px;
			}

			.card {
				background-color: var(--bg-secondary);
				border: 1px solid var(--border);
				border-radius: 8px;
				padding: 20px;
				margin-bottom: 20px;
			}

			.card h2 {
				font-size: 18px;
				margin-bottom: 15px;
				color: var(--text-primary);
			}

			.badge {
				display: inline-block;
				padding: 4px 12px;
				border-radius: 12px;
				font-size: 12px;
				font-weight: 600;
				text-transform: uppercase;
			}

			.badge-success {
				background-color: var(--success);
				color: white;
			}

			.badge-warning {
				background-color: var(--warning);
				color: white;
			}

			.badge-error {
				background-color: var(--error);
				color: white;
			}

			.badge-info {
				background-color: var(--accent);
				color: white;
			}

			a {
				color: var(--accent);
				text-decoration: none;
			}

			a:hover {
				text-decoration: underline;
			}

			@media (max-width: 768px) {
				.container {
					padding: 10px;
				}
			}
		".

Definition Layout (title children : string) : string := cat [
  doctype +:+
    html "<html lang='en'><head><meta charset='UTF-8'><meta name='viewport' content='width=device-width, " +:+
    html "initial-scale=1.0'><title>";
  templEscape title;
  html " - Minecraft Operator</title><script defer src='https://unpkg.com/htmx.org@1.9.12' " +:+
    html "integrity='sha384-ujb1lZYygJmzgSwoxRggbCHcjc0rB2XoQrxeTUQyRjrOnlCoYta87iKBWq3EsdM2' crossorigin='anonymous'>" +:+
    html "</script><script defer src='/ui/static/form.js'></script><style>" +:+ stylesheet +:+
    html "</style></head><body><header><div class='container'><h1>Minecraft Operator</h1><p>PaperMC Server Management " +:+
    html "Dashboard</p></div></header><main class='container'>";
  children;
  "</main></body></html>"].

(** ** ServerCard *)

Definition serverBadge (server : ServerSummary) : string :=
  if (svStatus server =? "running")%string
   then html "<span class='badge badge-success'>Running</span>"
   else if (svStatus server =? "updating")%string
   then html "<span class='badge badge-warning'>Updating</span>"
   else html "<span class='badge badge-error'>Unknown</span>".

Definition serverHeader (server : ServerSummary) : string := cat [
  html "<div class='card' style='margin-bottom: 15px;'><!-- Header: name + status badge --><div style='display: " +:+
    html "flex; justify-content: space-between; align-items: center; margin-bottom: 8px;'><div style='display: flex; " +:+
    html "align-items: center; gap: 10px;'><h3 style='font-size: 18px; margin: 0;'><a href='";
  templEscape (templURL ("/ui/server/" +:+ svName server +:+ "?namespace=" +:+ svNamespace server));
  html "'>";
  templEscape (svName server);
  "</a></h3>";
  serverBadge server;
  html "</div><div id='";
  templEscape ("solver-status-" +:+ svName server);
  html "' role='status' aria-live='polite' style='font-size: 13px;'></div></div><!-- Namespace + labels --><div " +:+
    html "style='display: flex; align-items: center; gap: 8px; margin-bottom: 10px;'><p style='color: " +:+
    html "var(--text-secondary); font-size: 13px;'>";
  templEscape (svNamespace server);
  "</p>"].

Definition serverLabels (server : ServerSummary) : string :=
  if (0 <? size (svLabels server))%nat
   then cat [
     cat (map (fun '(key, value) => cat [
       html "<span style='background-color: var(--accent-bg); color: var(--accent); padding: 1px 6px; border-radius: " +:+
         html "3px; font-size: 11px; font-family: monospace; border: 1px solid var(--accent-border);'>";
       templEscape key;
       ": ";
       templEscape value;
       "</span>"]) (mapRange (svLabels server)))]
   else "".

Definition serverActions (server : ServerSummary) : string := cat [
  html "</div><!-- Action buttons --><div style='display: flex; gap: 8px; align-items: center; flex-wrap: wrap; " +:+
    html "margin-bottom: 12px;'><div id='";
  templEscape ("resolve-button-" +:+ svName server);
  html "'><button hx-post='";
  templEscape ("/ui/server/resolve?name=" +:+ svName server +:+ "&namespace=" +:+ svNamespace server);
  html "' hx-swap='outerHTML' hx-target='";
  templEscape ("#resolve-button-" +:+ svName server);
  html "' style='background-color: var(--accent); color: white; border: none; padding: 5px 10px; border-radius: " +:+
    html "4px; font-size: 12px; cursor: pointer; white-space: nowrap;'>Resolve</button></div><a href='";
  templEscape (templURL ("/ui/server/" +:+ svName server +:+ "/edit?namespace=" +:+ svNamespace server));
  html "' style='background-color: var(--bg-tertiary); color: var(--text-primary); border: 1px solid var(--border); " +:+
    html "padding: 5px 10px; border-radius: 4px; font-size: 12px; text-decoration: none;'>Edit</a> <button hx-post='";
  templEscape ("/ui/server/" +:+ svName server +:+ "/delete?namespace=" +:+ svNamespace server);
  html "' hx-confirm='";
  templEscape ("Are you sure you want to delete server '" +:+ svName server +:+ "'?");
  html "' style='background-color: var(--error); color: white; border: none; padding: 5px 10px; border-radius: 4px; " +:+
    html "font-size: 12px; cursor: pointer;'>Delete</button></div><!-- Stats grid --><div style='display: grid; " +:+
    html "grid-template-columns: repeat(auto-fit, minmax(150px, 1fr)); gap: 15px;'><div><p style='color: " +:+
    html "var(--text-secondary); font-size: 12px;'>Current Version</p><p style='font-size: 16px; font-weight: 600;'>"].

Definition serverStats (server : ServerSummary) : string := cat [
  templEscape (svCurrentPaperVersion server);
  html "</p></div><div><p style='color: var(--text-secondary); font-size: 12px;'>Strategy</p><p style='font-size: " +:+
    html "16px; font-weight: 600;'>";
  templEscape (svStrategy server);
  "</p></div>";
  (if negb (svAvailableUpdate server =? "")%string
   then cat [
     html "<div><p style='color: var(--text-secondary); font-size: 12px;'>Available Update</p><p style='font-size: " +:+
       html "16px; font-weight: 600; color: var(--accent);'>";
     templEscape (svAvailableUpdate server);
     "</p></div>"]
   else "");
  html "<div><p style='color: var(--text-secondary); font-size: 12px;'>Plugins</p><p style='font-size: 16px; " +:+
    html "font-weight: 600;'>";
  templEscape (pretty (svPluginCount server));
  "</p></div>";
  (if negb (svNextMaintenance server =? "")%string
   then cat [
     html "<div><p style='color: var(--text-secondary); font-size: 12px;'>Next Maintenance</p><p style='font-size: " +:+
       html "16px; font-weight: 600;'>";
     templEscape (svNextMaintenance server);
     "</p></div>"]
   else "");
  "</div>"].

Definition installedPlugin (plugin : PluginSummary) : string := cat [
  html "<div style='background-color: var(--bg-secondary); padding: 10px; border-radius: 4px; border: 1px solid " +:+
    html "var(--border);'><div style='display: flex; justify-content: space-between; align-items: start; gap: 10px;'>" +:+
    html "<div style='flex: 1;'><p style='font-weight: 600; font-size: 14px; margin-bottom: 4px;'>";
  templEscape (pgsName plugin);
  "</p>";
  (if negb (pgsCurrentVersion plugin =? "")%string
   then cat [
     html "<p style='color: var(--text-secondary); font-size: 12px;'>Current: ";
     templEscape (pgsCurrentVersion plugin);
     "</p>"]
   else if negb (pgsDesiredVersion plugin =? "")%string
   then cat [
     html "<p style='color: var(--text-secondary); font-size: 12px;'>Pending: ";
     templEscape (pgsDesiredVersion plugin);
     "</p>"]
   else html "<p style='color: var(--text-secondary); font-size: 12px;'>Not configured</p>");
  html "</div><div style='display: flex; gap: 6px; align-items: center;'>";
  (if (pgsCurrentVersion plugin =? "")%string && negb (pgsDesiredVersion plugin =? "")%string
   then html "<span style='background-color: rgba(74, 158, 255, 0.15); color: var(--accent); padding: 2px 8px; " +:+
       html "border-radius: 3px; font-size: 11px; border: 1px solid var(--accent-border);'>⬇ Pending install</span>"
   else if negb (pgsDesiredVersion plugin =? "")%string && negb (pgsDesiredVersion plugin =? pgsCurrentVersion plugin)%string
   then html "<span style='background-color: rgba(255, 193, 7, 0.15); color: #ffc107; padding: 2px 8px; border-radius: " +:+
       html "3px; font-size: 11px; border: 1px solid rgba(255, 193, 7, 0.3);'>⬆ Pending update</span>"
   else "");
  "</div></div></div>"].

Definition serverPlugins (server : ServerSummary) : string :=
  if (0 <? length (svPlugins server))%nat
   then cat [
     html "<div style='margin-top: 20px;'><p style='color: var(--text-secondary); font-size: 12px; margin-bottom: " +:+
       html "10px;'>Installed Plugins</p><div style='display: grid; grid-template-columns: repeat(auto-fill, " +:+
       html "minmax(250px, 1fr)); gap: 10px;'>";
     cat (map installedPlugin (svPlugins server));
     "</div></div>"]
   else "".

Definition plannedUpdate (update : PluginUpdate) : string := cat [
  html "<p style='font-size: 13px; margin-bottom: 6px;'><span style='color: var(--text-secondary);'>";
  templEscape (puName update);
  ":</span> ";
  templEscape (puFromVersion update);
  " → ";
  templEscape (puToVersion update);
  "</p>"].

Definition serverUpdatePlan (server : ServerSummary) : string :=
  match svUpdatePlan server with
  | Some plan => cat [
      html "<div style='margin-top: 20px; padding: 15px; background-color: rgba(255, 165, 0, 0.1); border-left: 4px " +:+
        html "solid var(--accent); border-radius: 4px;'><p style='font-weight: 600; font-size: 14px; margin-bottom: 10px; " +:+
        html "color: var(--accent);'>📋 Update Plan</p>";
      (if negb (upPaperUpdate plan =? "")%string
       then cat [
         html "<p style='font-size: 13px; margin-bottom: 6px;'><span style='color: var(--text-secondary);'>Paper:</span> ";
         templEscape (upPaperUpdate plan);
         "</p>"]
       else "");
      (if (0 <? length (upPluginUpdates plan))%nat
       then cat [
         cat (map plannedUpdate (upPluginUpdates plan))]
       else "");
      (if negb (upAppliesAt plan =? "")%string
       then cat [
         html "<p style='font-size: 12px; margin-top: 10px; color: var(--text-secondary);'>Will apply ";
         templEscape (upAppliesAt plan);
         "</p>"]
       else "");
      "</div>"]
  | None => ""
  end.

Definition ServerCard (server : ServerSummary) : string := cat [
  serverHeader server;
  serverLabels server;
  serverActions server;
  serverStats server;
  serverPlugins server;
  serverUpdatePlan server;
  "</div>"].

(** ** Dashboard *)

Definition namespaceOption (data : DashboardData) (ns : string) : string :=
  if (ns =? dbSelectedNamespace data)%string
   then cat [
     html "<option value='";
     templEscape ns;
     html "' selected>";
     templEscape ns;
     "</option>"]
   else cat [
     html "<option value='";
     templEscape ns;
     html "'>";
     templEscape ns;
     "</option>"].

Definition Dashboard (data : DashboardData) : string :=
  Layout "Dashboard" (cat [
  html "<div hx-ext='sse' sse-connect='/ui/events' sse-swap='update'><div class='card'><div style='display: flex; " +:+
    html "justify-content: space-between; align-items: center; margin-bottom: 20px;'><h2 style='margin: 0;'>PaperMC " +:+
    html "Servers</h2><div style='display: flex; gap: 15px; align-items: center;'>";
  (if (0 <? length (dbNamespaces data))%nat
   then cat [
     html "<div><label for='namespace-filter' style='color: var(--text-secondary); font-size: 14px; margin-right: " +:+
       html "10px;'>Namespace:</label> <select id='namespace-filter' name='namespace' hx-get='/ui' hx-trigger='change' " +:+
       html "hx-target='body' hx-swap='outerHTML' hx-include='[name=" +:+
       "'namespace'" +:+
       html "]' style='background-color: var(--bg-secondary); color: var(--text-primary); border: 1px solid " +:+
       html "var(--border); padding: 8px 12px; border-radius: 4px; font-size: 14px;'><option value=''>All " +:+
       "Namespaces</option> ";
     cat (map (fun ns => namespaceOption data ns) (dbNamespaces data));
     "</select></div>"]
   else "");
  html "<a href='/ui/server/new' style='background-color: var(--accent); color: white; padding: 8px 16px; " +:+
    html "border-radius: 4px; font-size: 14px; text-decoration: none;'>+ New Server</a> <a href='/ui/plugins' " +:+
    html "style='background-color: var(--bg-tertiary); color: var(--text-primary); padding: 8px 16px; border-radius: " +:+
    html "4px; font-size: 14px; text-decoration: none; border: 1px solid var(--border);'>Plugins</a></div></div>";
  (if (length (dbServers data) =? 0)%nat
   then html "<p style='color: var(--text-secondary);'>No servers found.</p>"
   else cat [
     html "<div id='server-list'>";
     cat (map ServerCard (dbServers data));
     "</div>"]);
  "</div></div>"]).

(** ** PluginCard *)

Definition pluginVersions (plugin : PluginInfo) : string :=
  if negb (piCurrentVersion plugin =? "")%string
   then cat [
     html "<p style='font-size: 14px;'>Installed: <span style='font-family: monospace; color: var(--success);'>";
     templEscape (piCurrentVersion plugin);
     "</span></p>";
     (if negb (piResolvedVersion plugin =? "")%string && negb (piResolvedVersion plugin =? piCurrentVersion plugin)%string
      then cat [
        html "<p style='font-size: 13px; color: var(--warning);'>Update available: ";
        templEscape (piResolvedVersion plugin);
        "</p>"]
      else "")]
   else if negb (piResolvedVersion plugin =? "")%string
   then cat [
     html "<p style='font-size: 14px; color: var(--warning);'>Pending install: <span style='font-family: monospace;'>";
     templEscape (piResolvedVersion plugin);
     "</span></p>"]
   else "".

Definition pluginStatus (plugin : PluginInfo) : string :=
  if (piStatus plugin =? "compatible")%string
   then html "<span class='badge badge-success'>Compatible</span>"
   else if (piStatus plugin =? "incompatible")%string
   then html "<span class='badge badge-error'>Incompatible</span>"
   else cat [
     html "<span class='badge badge-info'>";
     templEscape (piStatus plugin);
     "</span>"].

Definition PluginCard (plugin : PluginInfo) : string := cat [
  html "<div style='background-color: var(--bg-tertiary); padding: 15px; border-radius: 6px; margin-bottom: 10px;'>" +:+
    html "<div style='display: flex; justify-content: space-between; align-items: start;'><div><p style='font-size: " +:+
    html "16px; font-weight: 600; margin-bottom: 5px;'>";
  templEscape (piName plugin);
  html "</p><p style='color: var(--text-secondary); font-size: 14px; margin-bottom: 5px;'>Project: ";
  templEscape (piProject plugin);
  "</p>";
  pluginVersions plugin;
  "</div><div>";
  pluginStatus plugin;
  "</div></div></div>"].

(** ** ServerDetail *)

Definition detailLabels (data : ServerDetailData) : string :=
  if (0 <? size (dtLabels data))%nat
   then cat [
     html "<span style='color: var(--text-muted); font-size: 12px;'>•</span> ";
     cat (map (fun '(key, value) => cat [
       html "<span style='background-color: var(--accent-bg); color: var(--accent); padding: 2px 8px; border-radius: " +:+
         html "3px; font-size: 11px; font-family: monospace; border: 1px solid var(--accent-border);'>";
       templEscape key;
       ": ";
       templEscape value;
       "</span>"]) (mapRange (dtLabels data)))]
   else "".

Definition detailHeader (data : ServerDetailData) : string := cat [
  html "<div hx-ext='sse' sse-connect='/ui/events' sse-swap='update'><div style='margin-bottom: 20px;'><a " +:+
    html "href='/ui' style='font-size: 14px;'>← Back to Dashboard</a></div><div class='card'><h2 " +:+
    html "style='margin-bottom: 8px;'>";
  templEscape (dtName data);
  html "</h2><div style='display: flex; align-items: center; gap: 8px;'><p style='color: var(--text-secondary);'>" +:+
    "Namespace: ";
  templEscape (dtNamespace data);
  "</p>";
  detailLabels data;
  html "</div></div><div class='card'><h2>Paper Version</h2><div style='margin-top: 15px; display: grid; " +:+
    html "grid-template-columns: repeat(auto-fit, minmax(200px, 1fr)); gap: 20px;'><div><p style='color: " +:+
    html "var(--text-secondary); font-size: 12px;'>Current</p><p style='font-size: 18px; font-weight: 600;'>"].

Definition detailUpdate (data : ServerDetailData) : string :=
  if negb (dtAvailableUpdate data =? "")%string
   then cat [
     html "<div><p style='color: var(--text-secondary); font-size: 12px;'>Available Update</p><p style='font-size: " +:+
       html "18px; font-weight: 600; color: var(--accent);'>";
     templEscape (dtAvailableUpdate data);
     html "</p></div><div style='display: flex; align-items: end;'><button hx-post='";
     templEscape ("/ui/server/" +:+ dtName data +:+ "/apply-now?namespace=" +:+ dtNamespace data);
     html "' hx-confirm='Apply update immediately? This will restart the server.' hx-swap='outerHTML' " +:+
       html "style='background-color: var(--warning); color: white; border: none; padding: 8px 16px; border-radius: 4px; " +:+
       html "font-size: 14px; cursor: pointer;'>Apply Now</button></div>"]
   else "".

Definition detailVersions (data : ServerDetailData) : string := cat [
  templEscape (dtCurrentPaperVersion data);
  "</p></div>";
  (if negb (dtDesiredPaperVersion data =? "")%string && negb (dtDesiredPaperVersion data =? dtCurrentPaperVersion data)%string
   then cat [
     html "<div><p style='color: var(--text-secondary); font-size: 12px;'>Desired</p><p style='font-size: 18px; " +:+
       html "font-weight: 600;'>";
     templEscape (dtDesiredPaperVersion data);
     "</p></div>"]
   else "");
  detailUpdate data;
  html "</div></div><div class='card'><h2>Plugins ("].

Definition detailPlugins (data : ServerDetailData) : string := cat [
  templEscape (pretty (Z.of_nat (length (dtPlugins data))));
  ")</h2>";
  (if (length (dtPlugins data) =? 0)%nat
   then html "<p style='color: var(--text-secondary); margin-top: 15px;'>No plugins configured.</p>"
   else cat [
     html "<div style='margin-top: 15px;'>";
     cat (map PluginCard (dtPlugins data));
     "</div>"]);
  html "</div><div class='card'><h2>Maintenance Schedule</h2><div style='margin-top: 15px;'><div " +:+
    html "style='margin-bottom: 15px;'><p style='color: var(--text-secondary); font-size: 12px;'>Update Check " +:+
    html "Schedule</p><p style='font-size: 16px; font-family: monospace;'>"].

Definition detailMaintenance (data : ServerDetailData) : string := cat [
  templEscape (mtCheckCron (dtMaintenanceSchedule data));
  html "</p></div><div style='margin-bottom: 15px;'><p style='color: var(--text-secondary); font-size: 12px;'>" +:+
    html "Maintenance Window</p><p style='font-size: 16px; font-family: monospace;'>";
  templEscape (mtWindowCron (dtMaintenanceSchedule data));
  "</p></div>";
  (if negb (mtNextWindow (dtMaintenanceSchedule data) =? "")%string
   then cat [
     html "<div><p style='color: var(--text-secondary); font-size: 12px;'>Next Window</p><p style='font-size: 16px; " +:+
       html "font-weight: 600; color: var(--accent);'>";
     templEscape (mtNextWindow (dtMaintenanceSchedule data));
     "</p></div>"]
   else "");
  "</div></div>"].

Definition lastUpdate (data : ServerDetailData) : string :=
  if negb (uiTimestamp (dtLastUpdate data) =? "")%string
   then cat [
     html "<div class='card'><h2>Last Update</h2><div style='margin-top: 15px;'><div style='margin-bottom: 10px;'><p " +:+
       html "style='color: var(--text-secondary); font-size: 12px;'>Timestamp</p><p style='font-size: 16px;'>";
     templEscape (uiTimestamp (dtLastUpdate data));
     html "</p></div><div style='margin-bottom: 10px;'><p style='color: var(--text-secondary); font-size: 12px;'>" +:+
       "Status</p>";
     (if (uiStatus (dtLastUpdate data) =? "success")%string
      then html "<span class='badge badge-success'>Success</span>"
      else if (uiStatus (dtLastUpdate data) =? "failed")%string
      then html "<span class='badge badge-error'>Failed</span>"
      else cat [
        html "<span class='badge badge-info'>";
        templEscape (uiStatus (dtLastUpdate data));
        "</span>"]);
     "</div>";
     (if negb (uiMessage (dtLastUpdate data) =? "")%string
      then cat [
        html "<div><p style='color: var(--text-secondary); font-size: 12px;'>Message</p><p style='font-size: 14px;'>";
        templEscape (uiMessage (dtLastUpdate data));
        "</p></div>"]
      else "");
     "</div></div>"]
   else "".

Definition ServerDetail (data : ServerDetailData) : string :=
  Layout (dtName data) (cat [
  detailHeader data;
  detailVersions data;
  detailPlugins data;
  detailMaintenance data;
  lastUpdate data;
  "</div>"]).

(** ** PluginListCard *)

Definition listCardHead (plugin : PluginListItem) : string := cat [
  html "<div class='card' style='margin-bottom: 15px;'><div style='display: flex; justify-content: space-between; " +:+
    html "align-items: start;'><div style='flex: 1;'><h3 style='font-size: 18px; margin-bottom: 8px;'><a href='";
  templEscape (templURL ("/ui/plugin/" +:+ liName plugin +:+ "?namespace=" +:+ liNamespace plugin));
  html "' style='color: var(--accent);'>";
  templEscape (liName plugin);
  html "</a></h3><p style='color: var(--text-secondary); font-size: 14px; margin-bottom: 5px;'>Namespace: ";
  templEscape (liNamespace plugin);
  html "</p></div><div style='display: flex; gap: 10px; align-items: center;'><a href='";
  templEscape (templURL ("/ui/plugin/" +:+ liName plugin +:+ "/edit?namespace=" +:+ liNamespace plugin));
  html "' style='background-color: var(--bg-tertiary); color: var(--text-primary); border: 1px solid var(--border); " +:+
    html "padding: 6px 12px; border-radius: 4px; font-size: 13px; cursor: pointer; text-decoration: none;'>Edit</a> " +:+
    html "<button hx-post='";
  templEscape ("/ui/plugin/" +:+ liName plugin +:+ "/delete?namespace=" +:+ liNamespace plugin);
  html "' hx-confirm='";
  templEscape ("Are you sure you want to delete plugin '" +:+ liName plugin +:+ "'?");
  html "' hx-target='body' style='background-color: var(--error); color: white; border: none; padding: 6px 12px; " +:+
    html "border-radius: 4px; font-size: 13px; cursor: pointer;'>Delete</button> ";
  (if (liUpdateStrategy plugin =? "latest")%string
   then html "<span class='badge badge-info'>Latest</span>"
   else html "<span class='badge badge-warning'>Pinned</span>");
  html "</div></div><div style='margin-top: 15px; display: grid; grid-template-columns: repeat(auto-fit, " +:+
    html "minmax(150px, 1fr)); gap: 15px;'><div><p style='color: var(--text-secondary); font-size: 12px;'>Source</p>" +:+
    html "<p style='font-size: 14px; font-weight: 600;'>"].

Definition listCardFacts (plugin : PluginListItem) : string := cat [
  templEscape (liSourceType plugin);
  html "</p></div><div><p style='color: var(--text-secondary); font-size: 12px;'>Project</p><p style='font-size: " +:+
    html "14px; font-weight: 600;'>";
  templEscape (liProject plugin);
  "</p></div>";
  (if negb (liVersion plugin =? "")%string
   then cat [
     html "<div><p style='color: var(--text-secondary); font-size: 12px;'>Pinned Version</p><p style='font-size: 14px; " +:+
       html "font-weight: 600; font-family: monospace;'>";
     templEscape (liVersion plugin);
     "</p></div>"]
   else "");
  (if negb (liResolvedVersion plugin =? "")%string
   then cat [
     html "<div><p style='color: var(--text-secondary); font-size: 12px;'>Resolved Version</p><p style='font-size: " +:+
       html "14px; font-weight: 600; color: var(--accent); font-family: monospace;'>";
     templEscape (liResolvedVersion plugin);
     "</p></div>"]
   else "");
  html "<div><p style='color: var(--text-secondary); font-size: 12px;'>Matched Servers</p><p style='font-size: " +:+
    html "14px; font-weight: 600;'>";
  templEscape (pretty (liMatchedServers plugin));
  "</p></div></div></div>"].

Definition PluginListCard (plugin : PluginListItem) : string := cat [
  listCardHead plugin;
  listCardFacts plugin].

(** ** PluginList *)

Definition listNamespaceOption (data : PluginListData) (ns : string) : string :=
  if (ns =? plSelectedNamespace data)%string
   then cat [
     html "<option value='";
     templEscape ns;
     html "' selected>";
     templEscape ns;
     "</option>"]
   else cat [
     html "<option value='";
     templEscape ns;
     html "'>";
     templEscape ns;
     "</option>"].

Definition PluginList (data : PluginListData) : string :=
  Layout "Plugins" (cat [
  html "<div hx-ext='sse' sse-connect='/ui/events' sse-swap='update'><div class='card'><div style='display: flex; " +:+
    html "justify-content: space-between; align-items: center; margin-bottom: 20px;'><h2 style='margin: 0;'>" +:+
    html "Plugins</h2><div style='display: flex; gap: 15px; align-items: center;'>";
  (if (0 <? length (plNamespaces data))%nat
   then cat [
     html "<div><label for='namespace-filter' style='color: var(--text-secondary); font-size: 14px; margin-right: " +:+
       html "10px;'>Namespace:</label> <select id='namespace-filter' name='namespace' hx-get='/ui/plugins' " +:+
       html "hx-trigger='change' hx-target='body' hx-swap='outerHTML' hx-include='[name=" +:+
       "'namespace'" +:+
       html "]' style='background-color: var(--bg-secondary); color: var(--text-primary); border: 1px solid " +:+
       html "var(--border); padding: 8px 12px; border-radius: 4px; font-size: 14px;'><option value=''>All " +:+
       "Namespaces</option> ";
     cat (map (fun ns => listNamespaceOption data ns) (plNamespaces data));
     "</select></div>"]
   else "");
  html "<a href='/ui/plugin/new' style='background-color: var(--accent); color: white; padding: 8px 16px; " +:+
    html "border-radius: 4px; font-size: 14px; text-decoration: none;'>+ New Plugin</a></div></div><div " +:+
    html "style='margin-bottom: 20px;'><a href='/ui' style='font-size: 14px;'>← Back to Dashboard</a></div>";
  (if (length (plPlugins data) =? 0)%nat
   then html "<p style='color: var(--text-secondary);'>No plugins found.</p>"
   else cat [
     html "<div id='plugin-list'>";
     cat (map PluginListCard (plPlugins data));
     "</div>"]);
  "</div></div>"]).

(** ** PluginDetail *)

Definition repositoryBadge (data : PluginDetailData) : string :=
  if (pdRepositoryStatus data =? "available")%string
   then cat [
     html "<span class='badge badge-success'>";
     templEscape (pdRepositoryStatus data);
     "</span>"]
   else cat [
     html "<span class='badge badge-warning'>";
     templEscape (pdRepositoryStatus data);
     "</span>"].

Definition pluginHead (data : PluginDetailData) : string := cat [
  html "<div class='card'><div style='display:flex;justify-content:space-between;align-items:center;margin-bottom:20" +:+
    html "px;'><h2 style='font-size:20px;'>";
  templEscape (pdName data);
  html "</h2><div style='display:flex;gap:8px;'><a href='";
  templEscape (templURL ("/ui/plugin/" +:+ pdName data +:+ "/edit?namespace=" +:+ pdNamespace data));
  html "' style='padding:6px 14px;background:var(--accent);color:white;border-radius:4px;font-size:13px;text-decorat" +:+
    html "ion:none;'>Edit</a> <a href='";
  templEscape (templURL ("/ui/plugins"));
  html "' style='font-size:13px;color:var(--text-secondary);padding:6px 0;'>&larr; Back</a></div></div><div " +:+
    html "style='display:grid;grid-template-columns:repeat(auto-fit,minmax(200px,1fr));gap:15px;margin-bottom:20px;'>" +:+
    html "<div><p style='font-size:12px;color:var(--text-muted);'>Namespace</p><p style='font-size:14px;'>"].

Definition pluginFacts (data : PluginDetailData) : string := cat [
  templEscape (pdNamespace data);
  html "</p></div><div><p style='font-size:12px;color:var(--text-muted);'>Source</p><p style='font-size:14px;'>";
  templEscape (pdSourceType data);
  "</p></div>";
  (if negb (pdProject data =? "")%string
   then cat [
     html "<div><p style='font-size:12px;color:var(--text-muted);'>Project</p><p style='font-size:14px;'>";
     templEscape (pdProject data);
     "</p></div>"]
   else "");
  (if negb (pdURL data =? "")%string
   then cat [
     html "<div><p style='font-size:12px;color:var(--text-muted);'>URL</p><p " +:+
       html "style='font-size:14px;word-break:break-all;'>";
     templEscape (pdURL data);
     "</p></div>"]
   else "");
  html "<div><p style='font-size:12px;color:var(--text-muted);'>Strategy</p><p style='font-size:14px;'>";
  templEscape (pdUpdateStrategy data);
  "</p></div>";
  (if negb (pdVersion data =? "")%string
   then cat [
     html "<div><p style='font-size:12px;color:var(--text-muted);'>Pinned Version</p><p style='font-size:14px;'>";
     templEscape (pdVersion data);
     "</p></div>"]
   else "");
  (if negb (pdResolvedVersion data =? "")%string
   then cat [
     html "<div><p style='font-size:12px;color:var(--text-muted);'>Resolved Version</p><p " +:+
       html "style='font-size:14px;color:var(--success);'>";
     templEscape (pdResolvedVersion data);
     "</p></div>"]
   else "");
  html "<div><p style='font-size:12px;color:var(--text-muted);'>Matched Servers</p><p style='font-size:14px;'>";
  templEscape (pretty (pdMatchedServers data));
  html "</p></div><div><p style='font-size:12px;color:var(--text-muted);'>Repository</p>"].

Definition PluginDetail (data : PluginDetailData) : string :=
  Layout ("Plugin: " +:+ pdName data) (cat [
  pluginHead data;
  pluginFacts data;
  repositoryBadge data;
  "</div></div></div>"]).

(** ** SchemaFormPage *)

Definition SchemaFormPage (data : SchemaFormData) : string :=
  Layout (sfTitle data) (cat [
  html "<div class='card'><div style='display:flex;justify-content:space-between;align-items:center;margin-bottom:20" +:+
    html "px;'><h2 style='font-size:20px;'>";
  templEscape (sfTitle data);
  html "</h2><a href='";
  templEscape (templURL (sfBackURL data));
  html "' style='font-size:13px;color:var(--text-secondary);'>&larr; Back</a></div>";
  sfFormHTML data;
  "</div>"]).
End templates.

(** ** Every page is a document *)

Section wellformedness.
Context {TL : Templ} {TLL : TemplLaws} {MR : MapRange}.

Lemma templEscape_wellformed s : wellformed (templEscape s).
Proof. apply wellformed_plain, templEscape_plain. Qed.

(** An address that is a constant and something else, escaped. *)
Lemma templEscape_begins must p x :
  str_all isAddressChar p = true -> begins must p = true -> begins must (templEscape (p +:+ x)) = true.
Proof. intros Hp Hb. rewrite templEscape_app, (templEscape_address p Hp). by apply begins_app. Qed.

Lemma link_begins must p x :
  str_all isAddressChar p = true -> begins must ("/" +:+ p) = true ->
  begins must (templEscape (templURL (("/" +:+ p) +:+ x))) = true.
Proof. intros Hp Hb. rewrite str_app_assoc, templURL_path, <- str_app_assoc. by apply templEscape_begins. Qed.

Lemma link_constant must p :
  str_all isAddressChar p = true -> begins must ("/" +:+ p) = true -> begins must (templEscape (templURL ("/" +:+ p))) = true.
Proof. intros Hp Hb. pose proof (link_begins must p "" Hp Hb) as H. by rewrite str_app_nil_r in H. Qed.

#[local] Hint Resolve templEscape_plain templEscape_wellformed : markup.
#[local] Hint Extern 1 (begins _ (templEscape (templURL _)) = true) => (apply link_begins; reflexivity) : markup.
#[local] Hint Extern 1 (begins _ (templEscape (templURL _)) = true) => (apply (link_constant _ "ui/plugins"); reflexivity) : markup.
#[local] Hint Extern 2 (begins _ (templEscape (_ +:+ _)) = true) => (apply templEscape_begins; reflexivity) : markup.
#[local] Hint Extern 2 (wellformed (cat (map _ _))) => (apply wellformed_map; intros) : markup.

#[local] Hint Extern 1 (wellformed (let '(_, _) := ?x in _)) => destruct x : markup.

Lemma serverBadge_wellformed server : wellformed (serverBadge server).
Proof. unfold serverBadge. auto with markup. Qed.

Lemma serverLabels_wellformed server : wellformed (serverLabels server).
Proof. unfold serverLabels. auto with markup. Qed.

Lemma installedPlugin_wellformed plugin : wellformed (installedPlugin plugin).
Proof. unfold installedPlugin. markup. Qed.
#[local] Hint Resolve serverBadge_wellformed serverLabels_wellformed installedPlugin_wellformed : markup.

Lemma serverPlugins_wellformed server : wellformed (serverPlugins server).
Proof. unfold serverPlugins. auto with markup. Qed.

Lemma serverUpdatePlan_wellformed server : wellformed (serverUpdatePlan server).
Proof. unfold serverUpdatePlan, plannedUpdate. destruct (svUpdatePlan server); [markup | apply wellformed_nil]. Qed.
#[local] Hint Resolve serverPlugins_wellformed serverUpdatePlan_wellformed : markup.

Lemma ServerCard_wellformed server : wellformed (ServerCard server).
Proof. unfold ServerCard, serverHeader, serverActions, serverStats. markup. Qed.
#[local] Hint Resolve ServerCard_wellformed : markup.

Lemma pluginVersions_wellformed plugin : wellformed (pluginVersions plugin).
Proof. unfold pluginVersions. auto 6 with markup. Qed.

Lemma pluginStatus_wellformed plugin : wellformed (pluginStatus plugin).
Proof. unfold pluginStatus. auto with markup. Qed.
#[local] Hint Resolve pluginVersions_wellformed pluginStatus_wellformed : markup.

Lemma PluginCard_wellformed plugin : wellformed (PluginCard plugin).
Proof. unfold PluginCard. markup. Qed.

Lemma PluginListCard_wellformed plugin : wellformed (PluginListCard plugin).
Proof. unfold PluginListCard, listCardHead, listCardFacts. markup. Qed.
#[local] Hint Resolve PluginCard_wellformed PluginListCard_wellformed : markup.

Lemma detailLabels_wellformed data : wellformed (detailLabels data).
Proof. unfold detailLabels. auto with markup. Qed.

Lemma detailUpdate_wellformed data : wellformed (detailUpdate data).
Proof. unfold detailUpdate. auto with markup. Qed.

Lemma lastUpdate_wellformed data : wellformed (lastUpdate data).
Proof. unfold lastUpdate. apply wellformed_if; auto 7 with markup. Qed.

Lemma repositoryBadge_wellformed data : wellformed (repositoryBadge data).
Proof. unfold repositoryBadge. auto with markup. Qed.
#[local] Hint Resolve detailLabels_wellformed detailUpdate_wellformed lastUpdate_wellformed repositoryBadge_wellformed : markup.

Lemma Layout_document title children : wellformed children -> document (Layout title children).
Proof.
  intros Hc. unfold Layout. cbn [cat foldr]. eexists. rewrite str_app_assoc. split; [reflexivity|].
  unfold stylesheet. markup.
Qed.

Lemma Dashboard_document data : document (Dashboard data).
Proof. apply Layout_document. unfold namespaceOption. markup. Qed.

Lemma ServerDetail_document data : document (ServerDetail data).
Proof. apply Layout_document. unfold detailHeader, detailVersions, detailPlugins, detailMaintenance. markup. Qed.

Lemma PluginList_document data : document (PluginList data).
Proof. apply Layout_document. unfold listNamespaceOption. markup. Qed.

Lemma PluginDetail_document data : document (PluginDetail data).
Proof. apply Layout_document. unfold pluginHead, pluginFacts. markup. Qed.

Lemma SchemaFormPage_document data :
  begins ["/ui"] (sfBackURL data) = true -> wellformed (sfFormHTML data) -> document (SchemaFormPage data).
Proof.
  intros (p & [<-|[]] & [x Hx]%HasPrefix_spec)%existsb_exists Hf. apply Layout_document. rewrite Hx. markup.
Qed.
End wellformedness.

(** ** An engine that is as documented *)

Lemma simpleTempl_laws : TemplLaws (TL := SimpleTempl.templ).
Proof.
  split; cbn.
  - apply EscapeString_plain.
  - apply EscapeString_app.
  - intros s. induction s as [|c s IH]; [done|]. cbn [str_all EscapeString]. intros [Hc Hs]%andb_true_iff. rewrite IH by done.
    unfold escapeChar.
    repeat match goal with |- context [Ascii.eqb c ?d] =>
      destruct (Ascii.eqb c d) eqn:Hd; [apply Ascii.eqb_eq in Hd; subst; by vm_compute in Hc | clear Hd] end.
    done.
  - intros p. unfold SimpleTempl.URL. cbv zeta. set (s := "/" +:+ p). set (i := IndexByte s ":"%char).
    destruct (i <? 0) eqn:Hi; [done|]. bool_prop. cbn [orb].
    assert (Hc : Contains (str_take (Z.to_nat i) s) "/" = true).
    { apply Contains_spec. exists "", (str_take (Z.to_nat i - 1) p). subst s. unfold i in *. clear i.
      rewrite str_app_cons, str_app_nil in *. cbn [IndexByte] in *. destruct (Ascii.eqb _ _) eqn:He; [by vm_compute in He|].
      destruct (IndexByte p ":"%char <? 0) eqn:Hp; [lia|]. bool_prop.
      replace (Z.to_nat (IndexByte p ":"%char + 1)) with (S (Z.to_nat (IndexByte p ":"%char))) by lia.
      by rewrite Nat.sub_succ, Nat.sub_0_r. }
    by rewrite Hc.
Qed.
