(* ===== verification/WebUI.v ===== *)
(** * The web interface (pkg/webui: server.go, handlers.go)

    One program per handler of the web interface and the dispatch between them.  A
    request has its path, its query and, for the creation of a ConfigMap, the
    decoded body; an answer has a status code and a body: text (of http.Error),
    markup that a handler writes itself, a page given by its data (file Templates
    has its text), or JSON.  Handlers of forms parse the OpenAPI document, with fuel (Schema): without an
    answer of the parser they have none.  The static files and the redirects are those
    of net/http, whose words are a parameter ([NetHttp]).  Not modelled: starting and
    stopping the listener. *)

From S2P Require Import Prelude GoBase Decimals Strings GoLib Durations Api Objects Effects K8s Service Targets Schema Markup Render Pages.
From Stdlib Require Import Ascii.

Open Scope Z_scope.

(** ** Requests and answers *)

(** The body of a request for a new ConfigMap. *)
Record ConfigMapRequest := MkConfigMapRequest { cqName : string; cqNamespace : string; cqData : gmap string string }.

Record Request := MkRequest {
  Method : string;
  Path : string;
  Query : gmap string string;
  RawQuery : string;       (* the text of the query, which redirects repeat *)
  JSONBody : result ConfigMapRequest
}.

(** [r.URL.Query().Get(key)] *)
Definition QueryGet (r : Request) (key : string) : string := default "" (Query r !! key).

Inductive Body :=
  | Text (s : string)
  | Fragment (s : string)
  | Form (title backURL form : string)
  | DashboardPage (d : DashboardData)
  | ServerDetailPage (d : ServerDetailData)
  | PluginListPage (d : PluginListData)
  | PluginDetailPage (d : PluginDetailData)
  | ConfigMapsJSON (l : list ConfigMapSummary)
  | CreatedJSON (name namespace : string)
  | Location (url link : string)     (* of a redirect, with the markup that comes with it *)
  | StaticFile (name : string)
  | Listing (names : list string)    (* of the directory of the static files *)
  | OpenAPISpec
  | EventStream.

Record Response := MkResponse { code : Z; body : Body }.

Definition httpError (msg : string) (c : Z) : Response := MkResponse c (Text msg).
Definition httpNotFound : Response := httpError "404 page not found" 404.
Definition methodNotAllowed : Response := httpError "Method not allowed" 405.
Definition MethodGet : string := "GET".
Definition MethodPost : string := "POST".

(** A write to the answer without a status code. *)
Definition respond (b : Body) : Response := MkResponse 200 b.

(** What depends on the version of net/http: the text of a status code, the code with
    which the multiplexer redirects, and the page that lists a directory. *)
Class NetHttp := { StatusText : Z -> string; movedCode : Z; dirList : list string -> string }.

(** The text of a code has no markup. *)
Class NetHttpLaws {NH : NetHttp} : Prop := { StatusText_plain : forall c, str_all isPlain (StatusText c) = true }.

Module PlainHttp.
Definition netHttp : NetHttp :=
  {| StatusText c := if c =? 301 then "Moved Permanently" else if c =? 303 then "See Other" else ""; movedCode := 301; dirList l := Join l " " |}.
Lemma netHttp_laws : NetHttpLaws (NH := netHttp).
Proof. split. intros c. cbn. by repeat case_match. Qed.
End PlainHttp.

Definition newline : string := String (ascii_of_nat 10) "".

(** [http.Redirect]: the answer to a GET has a link, as markup. *)
Definition redirectLink {NH : NetHttp} (url : string) (c : Z) : string :=
  cat [html "<a href='"; EscapeString url; html "'>"; StatusText c; "</a>."; newline; newline].

Definition Redirect {NH : NetHttp} (r : Request) (url : string) (c : Z) : Response :=
  MkResponse c (Location url (if (Method r =? MethodGet)%string then redirectLink url c else "")).

(** [url.QueryEscape] *)
Definition upperHex (n : nat) : ascii := if (n <? 10)%nat then ascii_of_nat (48 + n) else ascii_of_nat (55 + n).

Definition isUnreserved (c : ascii) : bool :=
  let n := nat_of_ascii c in
  ((97 <=? n) && (n <=? 122) || (65 <=? n) && (n <=? 90) || (48 <=? n) && (n <=? 57))%nat
  || Ascii.eqb c "-"%char || Ascii.eqb c "_"%char || Ascii.eqb c "."%char || Ascii.eqb c "~"%char.

Fixpoint QueryEscape (s : string) : string :=
  match s with
  | EmptyString => EmptyString
  | String c s =>
      if Ascii.eqb c " "%char then String "+"%char (QueryEscape s)
      else if isUnreserved c then String c (QueryEscape s)
      else let n := nat_of_ascii c in
           String "%"%char (String (upperHex (n / 16)) (String (upperHex (n mod 16)) (QueryEscape s)))
  end.

(** ** handlers.go: paths and deletion *)

Definition actionDelete : string := "delete".
Definition actionApplyNow : string := "apply-now".
Definition actionEdit : string := "edit".

Definition pathParts (path prefix : string) : list string := SplitByte (TrimPrefix path prefix) "/"%char.

Definition parseResourcePathAction (r : Request) (prefix expectedAction : string) : option (string * string) :=
  match pathParts (Path r) prefix with
  | resourceName :: action :: _ =>
      if negb (action =? expectedAction)%string then None
      else
        let namespace := QueryGet r "namespace" in
        if (resourceName =? "")%string || (namespace =? "")%string then None else Some (resourceName, namespace)
  | _ => None
  end.

(** [fetch] reads the resource and answers its key, [remove] deletes it. *)
Definition handleResourceDelete {NH : NetHttp} (fetch : key -> prog (result key)) (remove : key -> prog (result unit))
    (r : Request) (pathPrefix resourceType redirectURL : string) : prog Response :=
  if negb (Method r =? MethodPost)%string then Ret methodNotAllowed
  else
    match parseResourcePathAction r pathPrefix actionDelete with
    | None => Ret (httpError ("Missing " +:+ resourceType +:+ " name or namespace") 400)
    | Some (name, namespace) =>
        got <- fetch (namespace, name) ;;
        match got with
        | Err e => Ret (httpError ("Failed to get " +:+ resourceType +:+ ": " +:+ errString e) 404)
        | Ok k =>
            d <- remove k ;;
            Ret match d with
                | Err e => httpError ("Failed to delete " +:+ resourceType +:+ ": " +:+ errString e) 500
                | Ok _ => Redirect r redirectURL 303
                end
        end
    end.

Definition fetchServer (k : key) : prog (result key) :=
  r <- ask (RGetServer k) ;; Ret match r with Ok server => Ok (srvKey server) | Err e => Err e end.

Definition fetchPlugin (k : key) : prog (result key) :=
  r <- ask (RGetPlugin k) ;; Ret match r with Ok plugin => Ok (plgKey plugin) | Err e => Err e end.

Definition handlePluginDelete {NH : NetHttp} (r : Request) : prog Response :=
  handleResourceDelete fetchPlugin (fun k => ask (RDeletePlugin k)) r "/ui/plugin/" "plugin" "/ui/plugins".

Definition handleServerDelete {NH : NetHttp} (r : Request) : prog Response :=
  handleResourceDelete fetchServer (fun k => ask (RDeleteServer k)) r "/ui/server/" "server" "/ui".

(** ** Lists *)

Section lists.
Context {MR : MapRange}.

Definition fetchDashboardData (filterNamespace : string) : prog (result DashboardData) :=
  all <- ServerService.ListServers "" ;;
  match all with
  | Err e => Ret (Err e)
  | Ok allServers =>
      serversData <- (if negb (filterNamespace =? "")%string then ServerService.ListServers filterNamespace
                      else Ret (Ok allServers)) ;;
      Ret match serversData with
          | Err e => Err e
          | Ok serversData =>
              Ok (MkDashboardData (map serverDataToSummary serversData)
                    (rangeKeys (namespaceSet (map sdNamespace allServers) ∅)) filterNamespace)
          end
  end.

Definition handleDashboard (r : Request) : prog Response :=
  if negb (Path r =? "/ui")%string then Ret httpNotFound
  else
    data <- fetchDashboardData (QueryGet r "namespace") ;;
    Ret match data with
        | Err e => httpError ("Failed to fetch dashboard data: " +:+ errString e) 500
        | Ok d => respond (DashboardPage d)
        end.

Definition fetchPluginListData (filterNamespace : string) : prog (result PluginListData) :=
  all <- PluginService.ListPlugins "" ;;
  match all with
  | Err e => Ret (Err e)
  | Ok allPlugins =>
      pluginsData <- (if negb (filterNamespace =? "")%string then PluginService.ListPlugins filterNamespace
                      else Ret (Ok allPlugins)) ;;
      Ret match pluginsData with
          | Err e => Err e
          | Ok pluginsData =>
              Ok (MkPluginListData (map pluginDataToListItem pluginsData)
                    (rangeKeys (namespaceSet (map pldNamespace allPlugins) ∅)) filterNamespace)
          end
  end.

Definition handlePluginList (r : Request) : prog Response :=
  data <- fetchPluginListData (QueryGet r "namespace") ;;
  Ret match data with
      | Err e => httpError ("Failed to fetch plugin list: " +:+ errString e) 500
      | Ok d => respond (PluginListPage d)
      end.
End lists.

(** ** Details *)

Definition handleServerDetailPage (zone : Z) (r : Request) (serverName : string) : prog Response :=
  let namespace := QueryGet r "namespace" in
  if (serverName =? "")%string then Ret httpNotFound
  else if negb (namespace =? "")%string then
    data <- ServerService.GetServer namespace serverName ;;
    Ret match data with
        | Err e => if IsNotFound e then httpNotFound
                   else httpError ("Failed to fetch server details: " +:+ errString e) 500
        | Ok d => respond (ServerDetailPage (serverDataToDetail zone d))
        end
  else
    data <- ServerService.GetServerByName serverName ;;
    Ret match data with
        | Err _ => httpNotFound
        | Ok d => respond (ServerDetailPage (serverDataToDetail zone d))
        end.

Definition handlePluginDetailPage (r : Request) (pluginName : string) : prog Response :=
  let namespace := QueryGet r "namespace" in
  if (pluginName =? "")%string then Ret httpNotFound
  else if (namespace =? "")%string then Ret (httpError "Missing namespace parameter" 400)
  else
    data <- PluginService.GetPlugin namespace pluginName ;;
    Ret match data with
        | Err e => if IsNotFound e then httpNotFound
                   else httpError ("Failed to fetch plugin: " +:+ errString e) 500
        | Ok d => respond (PluginDetailPage (pluginDataToDetail d))
        end.

(** ** Actions *)

Definition handleApplyNow (r : Request) : prog Response :=
  if negb (Method r =? MethodPost)%string then Ret methodNotAllowed
  else
    match parseResourcePathAction r "/ui/server/" actionApplyNow with
    | None => Ret (httpError "Missing server name or namespace" 400)
    | Some (serverName, namespace) =>
        a <- ServerService.ApplyNow namespace serverName ;;
        Ret match a with
            | Err e => httpError ("Failed to apply now: " +:+ errString e) 500
            | Ok _ => respond (Fragment (html "<span style='color: green;'>✓ Apply Now triggered</span>"))
            end
    end.

(** The button that [handleServerResolve] answers and the element that polls. *)
Definition resolvingButton (serverName namespace : string) : string := cat [
  html "<button disabled style='background-color: #ccc; color: #666; border: none; " +:+
    html "padding: 6px 12px; border-radius: 4px; font-size: 13px; cursor: not-allowed; " +:+
    html "white-space: nowrap;'>⏳ Resolving...</button>";
  html "<div hx-get='/ui/server/status?name=" +:+ QueryEscape serverName +:+ html "&namespace=" +:+ QueryEscape namespace +:+
    html "&attempt=1' " +:+ html "hx-trigger='load delay:1s' hx-target='#solver-status-" +:+ EscapeString serverName +:+
    html "' hx-swap='innerHTML'></div>"].

Definition handleServerResolve (r : Request) : prog Response :=
  if negb (Method r =? MethodPost)%string then Ret methodNotAllowed
  else
    let serverName := QueryGet r "name" in
    let namespace := QueryGet r "namespace" in
    if (serverName =? "")%string || (namespace =? "")%string then Ret (httpError "Missing name or namespace parameter" 400)
    else
      t <- ServerService.TriggerReconciliation namespace serverName ;;
      Ret match t with
          | Err e => httpError (EscapeString ("Failed to trigger reconciliation: " +:+ errString e)) 500
          | Ok _ => respond (Fragment (resolvingButton serverName namespace))
          end.

Definition handlePluginResolve (r : Request) : prog Response :=
  if negb (Method r =? MethodPost)%string then Ret methodNotAllowed
  else
    let pluginName := QueryGet r "name" in
    let namespace := QueryGet r "namespace" in
    if (pluginName =? "")%string || (namespace =? "")%string then Ret (httpError "Missing name or namespace parameter" 400)
    else
      t <- PluginService.TriggerReconciliation namespace pluginName ;;
      Ret match t with
          | Err e => httpError (EscapeString ("Failed to trigger reconciliation: " +:+ errString e)) 500
          | Ok _ => respond (Fragment ("Plugin " +:+ EscapeString pluginName +:+ " reconciliation triggered"))
          end.

(** ** The status of a resolution *)

Record solverStatusInfo := MkSolverStatusInfo {
  solverRunning : bool;
  solverCompleted : bool;
  solverFailed : bool;
  readySuccess : bool;
  readyFailed : bool
}.
#[export] Instance eta_solverStatusInfo : Eta solverStatusInfo := fun r =>
  MkSolverStatusInfo (solverRunning r) (solverCompleted r) (solverFailed r) (readySuccess r) (readyFailed r).

(** The body of the loop over the conditions. *)
Definition parseCondition (info : solverStatusInfo) (cond : Api.Condition) : solverStatusInfo :=
  let info :=
    if (cdType cond =? "SolverRunning")%string then
      let info := info <| solverRunning := (cdStatus cond =? "True")%string |> in
      let info := if (cdReason cond =? "SolverCompleted")%string then info <| solverCompleted := true |> else info in
      if (cdReason cond =? "SolverFailed")%string then info <| solverFailed := true |> else info
    else info in
  if (cdType cond =? "Ready")%string
  then info <| readySuccess := (cdStatus cond =? "True")%string |>
            <| readyFailed := (cdReason cond =? "ReconciliationFailed")%string |>
  else info.

Definition parseSolverStatus (server : PaperMCServer) : solverStatusInfo :=
  foldl parseCondition (MkSolverStatusInfo false false false false false) (stConditions (srvStatus server)).

(** The element that asks again, with the number of the next attempt. *)
Definition pollAgain (serverName namespace : string) (attempt : Z) (text : string) : string :=
  html "<span style='color: orange;' hx-get='/ui/server/status?name=" +:+ QueryEscape serverName +:+ html "&namespace=" +:+
  QueryEscape namespace +:+ html "&attempt=" +:+ pretty attempt +:+ html "' " +:+
  html "hx-trigger='load delay:2s' hx-target='this' hx-swap='outerHTML'>" +:+ text +:+ "</span>".

Definition renderSolverStatus (status : solverStatusInfo) (serverName namespace : string) (attempt : Z) : string :=
  let nextAttempt := wrap64 (attempt + 1) in
  if solverRunning status then pollAgain serverName namespace nextAttempt "⏳ Running solver..."
  else if solverFailed status then html "<span style='color: red;'>❌ Solver failed</span>"
  else if solverCompleted status && readySuccess status then html "<span style='color: green;'>✓ Resolved</span>"
  else if readyFailed status then html "<span style='color: red;'>❌ Failed</span>"
  else pollAgain serverName namespace nextAttempt "⏳ Working...".

(** The attempt that a request is: a number that cannot be read counts as the first. *)
Definition attemptOf (r : Request) : Z :=
  let attemptStr := QueryGet r "attempt" in
  let attempt := if negb (attemptStr =? "")%string then default 1 (SscanfD attemptStr) else 1 in
  if attempt <? 1 then 1 else attempt.

Definition handleServerStatus (r : Request) : prog Response :=
  if negb (Method r =? MethodGet)%string then Ret methodNotAllowed
  else
    let serverName := QueryGet r "name" in
    let namespace := QueryGet r "namespace" in
    if (serverName =? "")%string || (namespace =? "")%string then Ret (httpError "Missing name or namespace parameter" 400)
    else
      let attempt := attemptOf r in
      if 30 <? attempt then Ret (respond (Fragment (html "<span style='color: orange;'>⏱ Timeout - check logs</span>")))
      else
        got <- ask (RGetServer (namespace, serverName)) ;;
        Ret match got with
            | Err _ => respond (Fragment (html "<span style='color: red;'>❌ Error</span>"))
            | Ok server => respond (Fragment (renderSolverStatus (parseSolverStatus server) serverName namespace attempt))
            end.

(** ** Forms *)

(** The part of [Server] that the handlers of forms read, and what stands for the
    length of a computation of the parser; [zone] is the local time's. *)
Record Server := MkServer { schemaParser : option Parser; parserFuel : nat; zone : Z }.

Section forms.
Context {MR : MapRange} {NH : NetHttp} (s : Server).

(** No answer if the parser has none. *)
Definition renderSchemaForm (schemaName : string) (mode : FormMode) (submitURL backURL title : string)
    (values : gmap string any) : option Response :=
  match schemaParser s with
  | None => Some (httpError "Schema parser not initialized" 500)
  | Some p =>
      parsed ← ParseSchema p (parserFuel s) schemaName;
      Some match parsed with
           | Err e => httpError ("Failed to parse schema: " +:+ errString e) 500
           | Ok formSchema =>
               respond (Form title backURL (RenderForm formSchema values (MkRenderOptions mode submitURL backURL)))
           end
  end.

Definition handleServerCreate (r : Request) : option Response :=
  if negb (Method r =? MethodGet)%string then Some methodNotAllowed
  else renderSchemaForm "ServerCreateRequest" ModeCreate "/api/v1/servers" "/ui" "Create Server" ∅.

Definition handlePluginCreate (r : Request) : option Response :=
  if negb (Method r =? MethodGet)%string then Some methodNotAllowed
  else renderSchemaForm "PluginCreateRequest" ModeCreate "/api/v1/plugins" "/ui/plugins" "Create Plugin" ∅.

Definition handleServerEdit (r : Request) (serverName : string) : prog (option Response) :=
  let namespace := QueryGet r "namespace" in
  if (namespace =? "")%string then Ret (Some (httpError "Missing namespace parameter" 400))
  else
    data <- ServerService.GetServer namespace serverName ;;
    Ret match data with
        | Err e => Some (if IsNotFound e then httpNotFound else httpError ("Failed to get server: " +:+ errString e) 500)
        | Ok d =>
            renderSchemaForm "ServerUpdateRequest" ModeEdit ("/api/v1/servers/" +:+ namespace +:+ "/" +:+ serverName)
              "/ui" ("Edit Server: " +:+ serverName) (serverDataToValues d)
        end.

Definition handlePluginEdit (r : Request) (pluginName : string) : prog (option Response) :=
  let namespace := QueryGet r "namespace" in
  if (namespace =? "")%string then Ret (Some (httpError "Missing namespace parameter" 400))
  else
    data <- PluginService.GetPlugin namespace pluginName ;;
    Ret match data with
        | Err e => Some (if IsNotFound e then httpNotFound else httpError ("Failed to get plugin: " +:+ errString e) 500)
        | Ok d =>
            renderSchemaForm "PluginUpdateRequest" ModeEdit ("/api/v1/plugins/" +:+ namespace +:+ "/" +:+ pluginName)
              "/ui/plugins" ("Edit Plugin: " +:+ pluginName) (pluginDataToValues d)
        end.

(** ** ConfigMaps *)

Definition handleListConfigMaps {GS : GoSort} (r : Request) : prog Response :=
  let namespace := QueryGet r "namespace" in
  if (namespace =? "")%string then Ret (httpError "Missing namespace parameter" 400)
  else
    cms <- ConfigMapService.ListConfigMaps namespace ;;
    Ret match cms with
        | Err e => httpError ("Failed to list ConfigMaps: " +:+ errString e) 500
        | Ok l => respond (ConfigMapsJSON l)
        end.

Definition handleCreateConfigMap (r : Request) : prog Response :=
  if negb (Method r =? MethodPost)%string then Ret methodNotAllowed
  else
    match JSONBody r with
    | Err _ => Ret (httpError "Invalid JSON body" 400)
    | Ok req =>
        if (cqName req =? "")%string || (cqNamespace req =? "")%string || (size (cqData req) =? 0)%nat
        then Ret (httpError "name, namespace, and data are required" 400)
        else
          c <- ConfigMapService.CreateConfigMap (cqNamespace req) (cqName req) (cqData req) ;;
          Ret match c with
              | Err e => httpError ("Failed to create ConfigMap: " +:+ errString e) 500
              | Ok _ => MkResponse 201 (CreatedJSON (cqName req) (cqNamespace req))
              end
    end.

(** ** Routes below a resource *)

(** An answer that needs no form. *)
Definition answered (p : prog Response) : prog (option Response) := x <- p ;; Ret (Some x).

Definition handlePluginRoutes (r : Request) : prog (option Response) :=
  match pathParts (Path r) "/ui/plugin/" with
  | [] => answered (Ret httpNotFound)
  | part :: rest =>
      if (part =? "")%string then answered (Ret httpNotFound)
      else
        match rest with
        | action :: _ =>
            if (action =? actionDelete)%string then answered (handlePluginDelete r)
            else if (action =? actionEdit)%string then handlePluginEdit r part
            else answered (Ret httpNotFound)
        | [] => answered (handlePluginDetailPage r part)
        end
  end.

Definition handleServerRoutes (r : Request) : prog (option Response) :=
  match pathParts (Path r) "/ui/server/" with
  | [] => answered (Ret httpNotFound)
  | part :: rest =>
      if (part =? "")%string then answered (Ret httpNotFound)
      else
        match rest with
        | action :: _ =>
            if (action =? actionDelete)%string then answered (handleServerDelete r)
            else if (action =? actionApplyNow)%string then answered (handleApplyNow r)
            else if (action =? actionEdit)%string then handleServerEdit r part
            else answered (Ret httpNotFound)
        | [] => answered (handleServerDetailPage (zone s) r part)
        end
  end.

(** ** server.go: the multiplexer

    The patterns of [NewServer].  An exact pattern is preferred to the subtree that
    contains it; of the subtrees the longest counts. *)

Inductive handler :=
  | HStatic | HSpec | HListConfigMaps | HCreateConfigMap | HDashboard | HServerCreate | HServerRoutes | HEvents
  | HServerResolve | HServerStatus | HPluginResolve | HPluginList | HPluginCreate | HPluginRoutes | HAPI.

Definition exactPatterns : list (string * handler) :=
  [("/api/v1/openapi.yaml", HSpec); ("/ui/api/configmaps", HListConfigMaps); ("/ui/api/configmaps/create", HCreateConfigMap);
   ("/ui", HDashboard); ("/ui/server/new", HServerCreate); ("/ui/events", HEvents); ("/ui/server/resolve", HServerResolve);
   ("/ui/server/status", HServerStatus); ("/ui/plugin/resolve", HPluginResolve); ("/ui/plugins", HPluginList);
   ("/ui/plugin/new", HPluginCreate)].

Definition subtreePatterns : list (string * handler) :=
  [("/ui/static/", HStatic); ("/ui/server/", HServerRoutes); ("/ui/plugin/", HPluginRoutes); ("/api/v1/", HAPI)].

Definition lookupPattern (path : string) : option handler :=
  match List.find (fun e => (e.1 =? path)%string) exactPatterns with
  | Some e => Some e.2
  | None => option_map snd (List.find (fun e => HasPrefix path e.1) subtreePatterns)
  end.

(** [cleanPath] of net/http: a trailing slash is kept. *)
Definition cleanPath (p : string) : string :=
  if (p =? "")%string then "/"
  else
    let p := if HasPrefix p "/" then p else "/" +:+ p in
    let np := Clean p in
    if HasSuffix p "/" && negb (np =? "/")%string then np +:+ "/" else np.

(** A target with the query of the request. *)
Definition withQuery (r : Request) (url : string) : string :=
  if (RawQuery r =? "")%string then url else url +:+ "?" +:+ RawQuery r.

Definition moved (r : Request) (path : string) : Response := Redirect r (withQuery r path) movedCode.

(** A path is completed to a subtree if it has no handler of its own. *)
Definition slashRedirect (path : string) : option string :=
  match lookupPattern path with
  | Some _ => None
  | None => option_map fst (List.find (fun e => (e.1 =? path +:+ "/")%string) subtreePatterns)
  end.

(** The files of [static.FS], embedded as [*.js]. *)
Definition staticFiles : list string := ["form.js"].

(** [http.FileServer] below the prefix that [http.StripPrefix] takes away.  The
    multiplexer has cleaned the path; the redirects, to relative places, have no body. *)
Definition serveStatic (r : Request) : Response :=
  let upath := "/" +:+ TrimPrefix (Path r) "/ui/static/" in
  let localRedirect target := MkResponse 301 (Location (withQuery r target) "") in
  let file := TrimPrefix (Clean upath) "/" in
  if HasSuffix upath "/index.html" then localRedirect "./"
  else if (file =? "")%string then respond (Listing staticFiles)
  else if negb (existsb (String.eqb file) staticFiles) then httpNotFound
  else if HasSuffix upath "/" then localRedirect ("../" +:+ file)
  else respond (StaticFile file).

(** [apiHandler] is what is mounted at /api/v1 (the REST API).  Paths need no escapes,
    and the method CONNECT is left aside: its paths are not cleaned. *)
Definition ServeHTTP {GS : GoSort} (apiHandler : Request -> prog (option Response)) (r : Request) : prog (option Response) :=
  let path := cleanPath (Path r) in
  match slashRedirect path with
  | Some path => answered (Ret (moved r path))
  | None =>
    if negb (path =? Path r)%string then answered (Ret (moved r path))
    else
    match lookupPattern path with
    | None => answered (Ret httpNotFound)
    | Some HStatic => answered (Ret (serveStatic r))
    | Some HSpec => answered (Ret (respond OpenAPISpec))
    | Some HListConfigMaps => answered (handleListConfigMaps r)
    | Some HCreateConfigMap => answered (handleCreateConfigMap r)
    | Some HDashboard => answered (handleDashboard r)
    | Some HServerCreate => Ret (handleServerCreate r)
    | Some HServerRoutes => handleServerRoutes r
    | Some HEvents => answered (Ret (respond EventStream))
    | Some HServerResolve => answered (handleServerResolve r)
    | Some HServerStatus => answered (handleServerStatus r)
    | Some HPluginResolve => answered (handlePluginResolve r)
    | Some HPluginList => answered (handlePluginList r)
    | Some HPluginCreate => Ret (handlePluginCreate r)
    | Some HPluginRoutes => handlePluginRoutes r
    | Some HAPI => apiHandler r
    end
  end.
End forms.

(** ** Markup that the handlers write themselves *)

Lemma upperHex_plain n : (n < 16)%nat -> isPlain (upperHex n) = true.
Proof. intros Hn. do 16 (destruct n as [|n]; [reflexivity|]). lia. Qed.

Lemma isUnreserved_plain c : isUnreserved c = true -> isPlain c = true.
Proof.
  intros Hc. unfold isPlain. apply negb_true_iff. rewrite !orb_false_iff.
  split_and!; apply Ascii.eqb_neq; intros ->; vm_compute in Hc; congruence.
Qed.

Lemma QueryEscape_plain s : str_all isPlain (QueryEscape s) = true.
Proof.
  induction s as [|c s IH]; [done|]. cbn [QueryEscape].
  destruct (Ascii.eqb c " "%char); [by cbn [str_all]; rewrite IH|].
  destruct (isUnreserved c) eqn:Hc; cbn [str_all]; [by rewrite isUnreserved_plain, IH|].
  pose proof (nat_ascii_bounded c) as Hb.
  rewrite !upperHex_plain, IH; [done | by apply Nat.mod_upper_bound |].
  by apply Nat.Div0.div_lt_upper_bound.
Qed.
#[export] Hint Resolve QueryEscape_plain : markup.

Lemma resolvingButton_wellformed name namespace : wellformed (resolvingButton name namespace).
Proof. unfold resolvingButton. markup. Qed.

Lemma pollAgain_wellformed name namespace attempt text :
  str_all isPlain text = true -> wellformed (pollAgain name namespace attempt text).
Proof. intros Ht. unfold pollAgain. pose proof (wellformed_plain text Ht) as Hw. markup. Qed.

Lemma renderSolverStatus_wellformed status name namespace attempt :
  wellformed (renderSolverStatus status name namespace attempt).
Proof.
  unfold renderSolverStatus. cbv zeta. repeat apply wellformed_if; auto with markup; by apply pollAgain_wellformed.
Qed.

(** ** Which requests change something *)

(** The action of a path below a resource. *)
Definition actionIn (actions : list string) (path prefix : string) : bool :=
  match pathParts path prefix with
  | part :: action :: _ => negb (part =? "")%string && existsb (String.eqb action) actions
  | _ => false
  end.

Definition changing (r : Request) : bool :=
  (Method r =? MethodPost)%string && (cleanPath (Path r) =? Path r)%string &&
  match lookupPattern (Path r) with
  | Some HCreateConfigMap | Some HServerResolve | Some HPluginResolve => true
  | Some HServerRoutes => actionIn [actionDelete; actionApplyNow] (Path r) "/ui/server/"
  | Some HPluginRoutes => actionIn [actionDelete] (Path r) "/ui/plugin/"
  | _ => false
  end.

(** The object that a request names. *)
Definition named (r : Request) : option object :=
  let ns := QueryGet r "namespace" in
  match lookupPattern (Path r) with
  | Some HCreateConfigMap =>
      match JSONBody r with Ok q => Some (OConfigMap (cqNamespace q, cqName q)) | Err _ => None end
  | Some HServerResolve => Some (OServer (ns, QueryGet r "name"))
  | Some HPluginResolve => Some (OPlugin (ns, QueryGet r "name"))
  | Some HServerRoutes => OServer ∘ pair ns <$> head (pathParts (Path r) "/ui/server/")
  | Some HPluginRoutes => OPlugin ∘ pair ns <$> head (pathParts (Path r) "/ui/plugin/")
  | _ => None
  end.

(** A program writes once if its answer is not an error, and to [o]. *)
Definition changesOnly (o : option object) (p : prog Response) : Prop :=
  (forall tr x, runs p tr x -> writes tr = (if (code x <? 400)%Z then 1 else 0)%nat) /\ writesTo o p.

Lemma changesOnly_bind {A} o (p : prog (result A)) f :
  writesOnce p -> writesTo o p -> (forall a, (code (f a) <? 400) = isOk a) -> changesOnly o (a <- p ;; Ret (f a)).
Proof.
  intros Hp Ho Hf. split.
  - intros tr x (t1 & a & t2 & -> & H & -> & ->)%runs_bind. rewrite writes_app, (Hp _ _ H), Hf. cbn. lia.
  - intros tr x (t1 & a & t2 & -> & H & -> & ->)%runs_bind Hh. rewrite app_nil_r in *. by eapply Ho.
Qed.

Lemma changesOnly_refused o x : (code x <? 400) = false -> changesOnly o (Ret x).
Proof. intros Hx. split; [intros tr y [-> ->]; by rewrite Hx | by intros tr y [-> ->]]. Qed.

Lemma handleServerDelete_changes {NH : NetHttp} r o :
  Method r = MethodPost ->
  (forall name ns, parseResourcePathAction r "/ui/server/" actionDelete = Some (name, ns) -> o = Some (OServer (ns, name))) ->
  changesOnly o (handleServerDelete r).
Proof.
  intros Hm Ho. unfold handleServerDelete, handleResourceDelete. rewrite Hm, String.eqb_refl. cbn [negb].
  destruct (parseResourcePathAction _ _ _) as [[name ns]|]; [|by apply changesOnly_refused].
  rewrite (Ho _ _ eq_refl). unfold fetchServer. split; [|writes_to].
  intros tr x H. unfold ask, call in H. cbn [bind] in H. run_steps; cbn; repeat case_match; done.
Qed.

Lemma handlePluginDelete_changes {NH : NetHttp} r o :
  Method r = MethodPost ->
  (forall name ns, parseResourcePathAction r "/ui/plugin/" actionDelete = Some (name, ns) -> o = Some (OPlugin (ns, name))) ->
  changesOnly o (handlePluginDelete r).
Proof.
  intros Hm Ho. unfold handlePluginDelete, handleResourceDelete. rewrite Hm, String.eqb_refl. cbn [negb].
  destruct (parseResourcePathAction _ _ _) as [[name ns]|]; [|by apply changesOnly_refused].
  rewrite (Ho _ _ eq_refl). unfold fetchPlugin. split; [|writes_to].
  intros tr x H. unfold ask, call in H. cbn [bind] in H. run_steps; cbn; repeat case_match; done.
Qed.

Lemma handleApplyNow_changes r o :
  Method r = MethodPost ->
  (forall name ns, parseResourcePathAction r "/ui/server/" actionApplyNow = Some (name, ns) -> o = Some (OServer (ns, name))) ->
  changesOnly o (handleApplyNow r).
Proof.
  intros Hm Ho. unfold handleApplyNow. rewrite Hm, String.eqb_refl. cbn [negb].
  destruct (parseResourcePathAction _ _ _) as [[name ns]|]; [|by apply changesOnly_refused].
  rewrite (Ho _ _ eq_refl). apply changesOnly_bind; [apply annotate_writes | apply annotate_to | by intros []].
Qed.

Lemma handleServerResolve_changes r :
  Method r = MethodPost -> changesOnly (Some (OServer (QueryGet r "namespace", QueryGet r "name"))) (handleServerResolve r).
Proof.
  intros Hm. unfold handleServerResolve. rewrite Hm, String.eqb_refl. cbn [negb]. cbv zeta.
  destruct (_ || _); [by apply changesOnly_refused|].
  apply changesOnly_bind; [apply annotate_writes | apply annotate_to | by intros []].
Qed.

Lemma handlePluginResolve_changes r :
  Method r = MethodPost -> changesOnly (Some (OPlugin (QueryGet r "namespace", QueryGet r "name"))) (handlePluginResolve r).
Proof.
  intros Hm. unfold handlePluginResolve. rewrite Hm, String.eqb_refl. cbn [negb]. cbv zeta.
  destruct (_ || _); [by apply changesOnly_refused|].
  apply changesOnly_bind; [apply TriggerReconciliation_writes | apply triggerPlugin_to | by intros []].
Qed.

Lemma handleCreateConfigMap_changes r o :
  Method r = MethodPost ->
  (forall q, JSONBody r = Ok q -> o = Some (OConfigMap (cqNamespace q, cqName q))) ->
  changesOnly o (handleCreateConfigMap r).
Proof.
  intros Hm Ho. unfold handleCreateConfigMap. rewrite Hm, String.eqb_refl. cbn [negb].
  destruct (JSONBody r) as [q|]; [|by apply changesOnly_refused]. destruct (_ || _); [by apply changesOnly_refused|].
  rewrite (Ho _ eq_refl). apply changesOnly_bind; [apply CreateConfigMap_writes | apply createConfigMap_to | by intros []].
Qed.

(** ** Requests that change nothing *)

Lemma GetServerByName_reads name : readsOnly (ServerService.GetServerByName name).
Proof.
  unfold ServerService.GetServerByName. apply readsOnly_bind; [by intros tr r (y & t & -> & -> & ->)|].
  intros [items|e]; [|apply readsOnly_ret]. destruct (List.find _ _); [|apply readsOnly_ret].
  apply readsOnly_bind; [apply fullData_reads|]. intros; apply readsOnly_ret.
Qed.

#[local] Hint Resolve readsOnly_ret readsOnly_bind GetServer_reads GetServerByName_reads GetPlugin_reads ListServers_reads
  ListPlugins_reads ListConfigMaps_reads : markup.

Ltac reads :=
  repeat first [ solve [auto with markup] | apply readsOnly_bind; [|intros] | case_match ].

Lemma handleDashboard_reads {MR : MapRange} r : readsOnly (handleDashboard r).
Proof. unfold handleDashboard, fetchDashboardData. reads. Qed.

Lemma handlePluginList_reads {MR : MapRange} r : readsOnly (handlePluginList r).
Proof. unfold handlePluginList, fetchPluginListData. reads. Qed.

Lemma handleServerDetailPage_reads zone r name : readsOnly (handleServerDetailPage zone r name).
Proof. unfold handleServerDetailPage. cbv zeta. reads. Qed.

Lemma handlePluginDetailPage_reads r name : readsOnly (handlePluginDetailPage r name).
Proof. unfold handlePluginDetailPage. cbv zeta. reads. Qed.

Lemma handleServerEdit_reads {MR : MapRange} s r name : readsOnly (handleServerEdit s r name).
Proof. unfold handleServerEdit. cbv zeta. reads. Qed.

Lemma handlePluginEdit_reads {MR : MapRange} s r name : readsOnly (handlePluginEdit s r name).
Proof. unfold handlePluginEdit. cbv zeta. reads. Qed.

Lemma handleListConfigMaps_reads {MR : MapRange} {GS : GoSort} r : readsOnly (handleListConfigMaps r).
Proof. unfold handleListConfigMaps. cbv zeta. reads. Qed.

Lemma handleServerStatus_reads r : readsOnly (handleServerStatus r).
Proof.
  unfold handleServerStatus. cbv zeta. repeat case_match; try apply readsOnly_ret.
  by intros tr x (y & t & -> & -> & ->).
Qed.

(** Without the method POST the handlers of actions refuse. *)
Lemma actions_refuse {NH : NetHttp} r : Method r <> MethodPost ->
  handleServerDelete r = Ret methodNotAllowed /\ handlePluginDelete r = Ret methodNotAllowed /\
  handleApplyNow r = Ret methodNotAllowed /\ handleServerResolve r = Ret methodNotAllowed /\
  handlePluginResolve r = Ret methodNotAllowed /\ handleCreateConfigMap r = Ret methodNotAllowed.
Proof.
  intros Hm. unfold handleServerDelete, handlePluginDelete, handleResourceDelete, handleApplyNow, handleServerResolve,
    handlePluginResolve, handleCreateConfigMap. by rewrite (proj2 (String.eqb_neq _ _) Hm).
Qed.

Lemma answered_reads p : readsOnly p -> readsOnly (answered p).
Proof. intros Hp. apply readsOnly_bind; [done|]. intros; apply readsOnly_ret. Qed.

#[local] Hint Resolve answered_reads handleDashboard_reads handlePluginList_reads handleServerDetailPage_reads
  handlePluginDetailPage_reads handleServerEdit_reads handlePluginEdit_reads handleListConfigMaps_reads
  handleServerStatus_reads handleServerDelete_changes handlePluginDelete_changes handleApplyNow_changes
  handleServerResolve_changes handlePluginResolve_changes handleCreateConfigMap_changes : markup.

Section changes.
Context {MR : MapRange} {NH : NetHttp} {GS : GoSort} (s : Server) (apiHandler : Request -> prog (option Response)).

(** What a request may do: change the object it names, or nothing. *)
Definition outcome (r : Request) (b : bool) (p : prog (option Response)) : Prop :=
  if b then exists q, p = answered q /\ changesOnly (named r) q else readsOnly p.

Lemma handleServerRoutes_outcome r :
  lookupPattern (Path r) = Some HServerRoutes ->
  outcome r ((Method r =? MethodPost)%string && actionIn [actionDelete; actionApplyNow] (Path r) "/ui/server/") (handleServerRoutes s r).
Proof.
  intros Hl. unfold handleServerRoutes, actionIn, outcome, named. rewrite Hl.
  destruct (pathParts (Path r) "/ui/server/") as [|part [|action rest]] eqn:Hp; rewrite ?andb_false_r; auto with markup.
  { destruct (_ =? _)%string; auto with markup. }
  destruct (part =? "")%string; rewrite ?andb_false_r; auto with markup. cbn [existsb].
  pose proof (actions_refuse r) as Hr. destruct (Method r =? MethodPost)%string eqn:Hm; bool_prop; cbn [andb].
  2: { destruct (Hr Hm) as (-> & _ & -> & _). repeat (destruct (_ =? _)%string; auto with markup). }
  destruct (action =? actionDelete)%string eqn:Ha, (action =? actionApplyNow)%string eqn:Hb; cbn [orb negb andb].
  1: { exfalso. bool_prop. subst. discriminate. }
  - eexists. split; [done|]. apply handleServerDelete_changes; [done|]. unfold parseResourcePathAction.
    rewrite Hp. intros name ns. repeat case_match; intros; by simplify_eq.
  - eexists. split; [done|]. apply handleApplyNow_changes; [done|]. unfold parseResourcePathAction.
    rewrite Hp. intros name ns. repeat case_match; intros; by simplify_eq.
  - destruct (action =? actionEdit)%string; auto with markup.
Qed.

Lemma handlePluginRoutes_outcome r :
  lookupPattern (Path r) = Some HPluginRoutes ->
  outcome r ((Method r =? MethodPost)%string && actionIn [actionDelete] (Path r) "/ui/plugin/") (handlePluginRoutes s r).
Proof.
  intros Hl. unfold handlePluginRoutes, actionIn, outcome, named. rewrite Hl.
  destruct (pathParts (Path r) "/ui/plugin/") as [|part [|action rest]] eqn:Hp; rewrite ?andb_false_r; auto with markup.
  { destruct (_ =? _)%string; auto with markup. }
  destruct (part =? "")%string; rewrite ?andb_false_r; auto with markup. cbn [existsb].
  pose proof (actions_refuse r) as Hr. destruct (Method r =? MethodPost)%string eqn:Hm; bool_prop; cbn [andb].
  2: { destruct (Hr Hm) as (_ & -> & _). repeat (destruct (_ =? _)%string; auto with markup). }
  destruct (action =? actionDelete)%string eqn:Ha; cbn [orb negb andb].
  - eexists. split; [done|]. apply handlePluginDelete_changes; [done|]. unfold parseResourcePathAction.
    rewrite Hp. intros name ns. repeat case_match; intros; by simplify_eq.
  - destruct (action =? actionEdit)%string; auto with markup.
Qed.

Lemma ServeHTTP_outcome r : lookupPattern (Path r) <> Some HAPI -> outcome r (changing r) (ServeHTTP s apiHandler r).
Proof.
  intros Hapi. unfold ServeHTTP, changing, slashRedirect. cbv zeta.
  destruct (String.eqb_spec (cleanPath (Path r)) (Path r)) as [Hc|Hc]; cbn [negb].
  2: { rewrite andb_false_r. cbn [andb]. repeat case_match; apply answered_reads, readsOnly_ret. }
  rewrite Hc. rewrite andb_true_r. pose proof (actions_refuse r) as Hr.
  destruct (lookupPattern (Path r)) as [[]|] eqn:Hl; rewrite ?andb_false_r, ?andb_true_r; cbn [outcome];
    auto using handleServerRoutes_outcome, handlePluginRoutes_outcome with markup; [| | | |].
  all: try (destruct (Method r =? MethodPost)%string eqn:Hm; bool_prop; cbn [outcome];
    [|destruct (Hr Hm) as (_ & _ & _ & H1 & H2 & H3); rewrite ?H1, ?H2, ?H3; auto with markup];
    eexists; (split; [done|]); unfold named; rewrite Hl; auto with markup).
  - apply handleCreateConfigMap_changes; [done|]. by intros q ->.
  - done.
  - destruct (List.find _ _); cbn [option_map]; auto with markup.
Qed.

(** C20: of all requests to the web interface outside the API only a POST to one of its
    actions changes anything, and it changes the cluster exactly when its answer is not
    an error, by one write.  If the API server answers reads with the object that was
    asked for, the object written is the one that the request names. *)
Theorem ServeHTTP_writes r tr x (Hapi : lookupPattern (Path r) <> Some HAPI) (Hrun : runs (ServeHTTP s apiHandler r) tr x) :
  writes tr = (match x with Some y => if (changing r && (code y <? 400))%Z then 1 else 0 | None => 0 end)%nat /\
  (Forall readsHonestly tr -> Forall (fun e => wrote e = true -> written e = named r) tr).
Proof.
  pose proof (ServeHTTP_outcome r Hapi) as Ho. unfold outcome in Ho. destruct (changing r).
  - destruct Ho as (q & Hq & Hw & Ht). rewrite Hq in Hrun.
    apply runs_bind in Hrun as (t1 & y & t2 & -> & H & -> & ->). rewrite app_nil_r. cbn. split; [by apply Hw | by eapply Ht].
  - rewrite (Ho _ _ Hrun). split; [by destruct x|]. intros _.
    eapply Forall_impl; [by apply writes_none, (Ho _ _ Hrun)|]. cbn. congruence.
Qed.
End changes.

(** ** Polling ends *)

(** The browser asks again, as the answer to [r] tells it. *)
Inductive polls (r r' : Request) : Prop :=
  | polls_again tr x n text :
      runs (handleServerStatus r) tr x ->
      body x = Fragment (pollAgain (QueryGet r "name") (QueryGet r "namespace") n text) ->
      QueryGet r' "attempt" = pretty n -> polls r r'.

Definition noQuote (s : string) : Prop := str_all isPlain s = true.

Lemma quoted_inj a b x y :
  noQuote a -> noQuote b -> a +:+ String quoteChar x = b +:+ String quoteChar y -> a = b.
Proof.
  unfold noQuote. revert b. induction a as [|c a IH]; intros [|d b] Ha Hb H; cbn [str_all] in *.
  - done.
  - rewrite str_app_nil, str_app_cons in H. injection H as <- _. by vm_compute in Hb.
  - rewrite str_app_nil, str_app_cons in H. injection H as -> _. by vm_compute in Ha.
  - apply andb_true_iff in Ha as [_ Ha], Hb as [_ Hb]. rewrite !str_app_cons in H. injection H as -> H.
    f_equal. by eapply IH.
Qed.

Lemma pollAgain_inj name namespace n n' text text' :
  pollAgain name namespace n text = pollAgain name namespace n' text' -> n = n'.
Proof.
  unfold pollAgain. intros H. do 5 apply str_app_inj_l in H. cbn [html] in H. rewrite !str_app_cons in H.
  apply quoted_inj in H; [|apply pretty_plain..]. by apply (inj pretty).
Qed.

(** The fragment of a state that is not a final one. *)
Lemma renderSolverStatus_cases status name namespace attempt :
  (exists text, renderSolverStatus status name namespace attempt = pollAgain name namespace (wrap64 (attempt + 1)) text) \/
  renderSolverStatus status name namespace attempt ∈
    map html ["<span style='color: red;'>❌ Solver failed</span>"; "<span style='color: green;'>✓ Resolved</span>";
              "<span style='color: red;'>❌ Failed</span>"].
Proof.
  unfold renderSolverStatus. cbv zeta. repeat case_match; first [left; by eexists | right; cbn; set_solver].
Qed.

(** The first letter of the colour. *)
Lemma pollAgain_colour name namespace n text : String.get 20 (pollAgain name namespace n text) = Some "o"%char.
Proof. reflexivity. Qed.

Lemma attemptOf_pos r : 1 <= attemptOf r.
Proof. unfold attemptOf. cbv zeta. destruct (_ <? 1) eqn:H; bool_prop; lia. Qed.

Lemma polls_next r r' :
  polls r r' -> 1 <= attemptOf r <= 30 /\ attemptOf r' = attemptOf r + 1.
Proof.
  intros [tr x n text Hrun Hb Ha]. unfold handleServerStatus in Hrun.
  destruct (negb _); [by destruct Hrun as [_ ->]|]. cbv zeta in Hrun.
  destruct (_ || _); [by destruct Hrun as [_ ->]|].
  pose proof (attemptOf_pos r) as H1.
  destruct (30 <? attemptOf r) eqn:H30; bool_prop.
  { destruct Hrun as [_ ->]. by injection Hb as Hb%eq_sym. }
  destruct Hrun as (got & t & -> & _ & ->). destruct got as [server|e]; cbn in Hb; injection Hb as Hb%eq_sym; [|done].
  split; [lia|].
  destruct (renderSolverStatus_cases (parseSolverStatus server) (QueryGet r "name") (QueryGet r "namespace") (attemptOf r))
    as [[text' Ht]|Ht].
  - rewrite Ht in Hb. apply pollAgain_inj in Hb as ->. rewrite wrap64_id in Ha by (unfold in_int64, minInt64, maxInt64; lia).
    assert (Hs : SscanfD (pretty (attemptOf r + 1)) = Some (attemptOf r + 1)) by (apply SscanfD_pretty; unfold maxInt64; lia).
    unfold attemptOf at 1. rewrite Ha, Hs. cbv zeta. cbn [default].
    destruct (pretty_digits (attemptOf r + 1)) as [_ Hn]; [lia|]. unfold nonempty in Hn. rewrite Hn.
    unfold id. destruct (attemptOf r + 1 <? 1) eqn:Hlt; bool_prop; [lia | done].
  - rewrite <- Hb in Ht. cbn [map] in Ht. rewrite !elem_of_cons in Ht.
    destruct Ht as [Ht|[Ht|[Ht|Ht]]]; [| | | by apply not_elem_of_nil in Ht];
      apply (f_equal (String.get 20)) in Ht; rewrite pollAgain_colour in Ht; discriminate.
Qed.

(** The page that follows a resolution stops asking: whatever the cluster
    answers, a request for the status is followed by at most thirty more. *)
Theorem polling_ends n r r' (Hn : nsteps polls n r r') : (n <= 30)%nat.
Proof.
  enough (H : attemptOf r' = attemptOf r + Z.of_nat n /\ (n = O \/ attemptOf r' <= 31)).
  { pose proof (attemptOf_pos r). lia. }
  induction Hn as [r|n r y r' Hp Hs IH]; [lia|]. apply polls_next in Hp as [Hr Hy].
  destruct IH as [-> IH]. lia.
Qed.

(** ** The dashboard *)

(** What the dashboard shows of a server. *)
Definition listedAs (server : PaperMCServer) (v : ServerSummary) : Prop :=
  svName v = srvName server /\ svNamespace v = srvNamespace server /\
  svStrategy v = ssUpdateStrategy (srvSpec server) /\ svLabels v = Labels (srvMeta server) /\
  svPluginCount v = Z.of_nat (length (stPlugins (srvStatus server))).

Lemma summaries_listed servers data :
  Forall2 shownAs servers data -> Forall2 listedAs servers (map serverDataToSummary data).
Proof. intros H. apply Forall2_fmap_r. eapply Forall2_impl; [exact H|]. intros server d []. by split_and!. Qed.

Lemma shown_namespaces servers data : Forall2 shownAs servers data -> map sdNamespace data = map srvNamespace servers.
Proof. induction 1 as [|server d servers data H _ IH]; cbn; [done|]. destruct H. congruence. Qed.

(** The dashboard offers every namespace that has a server, each once, whatever
    filter is set; it lists exactly the servers of the chosen namespace (of all
    namespaces without a filter), in the order of the API server. *)
Theorem fetchDashboardData_exact {MR : MapRange} {ML : MapRangeLaws} ns tr d
    (Hrun : runs (fetchDashboardData ns) tr (Ok d)) :
  exists all items rest, tr = Ev (E := K8s) (RListServers "") (Ok all) :: rest /\
    (ns = "" -> items = all) /\ (ns <> "" -> Ev (E := K8s) (RListServers "") (Ok items) ∈ rest) /\
    dbSelectedNamespace d = ns /\
    Forall2 listedAs (List.filter (inNamespace ns) items) (dbServers d) /\
    NoDup (dbNamespaces d) /\ forall n, n ∈ dbNamespaces d <-> n ∈ map srvNamespace all.
Proof.
  unfold fetchDashboardData in Hrun. apply runs_bind in Hrun as (t1 & r1 & t2 & -> & H1 & H).
  destruct r1 as [data|e]; [|by destruct H as [_ [=]]]. apply ListServers_shown in H1 as (all & t1' & -> & H1).
  assert (Hall : List.filter (inNamespace "") all = all) by (clear; induction all as [|x l IH]; cbn; [done | by rewrite IH]).
  rewrite Hall in H1. apply runs_bind in H as (t3 & r2 & t4 & -> & H2 & -> & Hd).
  destruct r2 as [data2|e]; [|done]. injection Hd as ->. cbn [dbSelectedNamespace dbServers dbNamespaces].
  assert (Hn : NoDup (rangeKeys (namespaceSet (map sdNamespace data) ∅)) /\
    forall n, n ∈ rangeKeys (namespaceSet (map sdNamespace data) ∅) <-> n ∈ map srvNamespace all).
  { split; [apply NoDup_rangeKeys|]. intros n. rewrite elem_of_rangeKeys, namespaceSet_spec, lookup_empty, (shown_namespaces _ _ H1).
    split; [intros [?|[? [=]]]; done | by left]. }
  destruct (ns =? "")%string eqn:Hns; bool_prop; cbn [negb] in H2.
  - destruct H2 as [-> [= ->]]. subst ns. eexists all, all, _. rewrite Hall.
    split_and!; try done; [| by apply Hn..]. by apply summaries_listed.
  - apply ListServers_shown in H2 as (items & t3' & -> & H2). eexists all, items, _.
    split_and!; [done | done | | done | by apply summaries_listed | by apply Hn..].
    intros _. rewrite !elem_of_app. right. left. left.
Qed.

(** ** The edit form

    form.js sends every text input of an edit form, an empty one too. *)

(** The form of a server never shows its update delay, so that it sends an empty one,
    which the service layer refuses: the form cannot be saved as it was opened. *)
Lemma editForm_unsaved d data tr r :
  sudUpdateDelay data = Some (getStringValue (serverDataToValues d) "updateDelay") ->
  runs (ServerService.UpdateServer data) tr r -> isOk r = false /\ writes tr = 0%nat.
Proof.
  intros Hd Hrun. assert (Hv : getStringValue (serverDataToValues d) "updateDelay" = "").
  { assert (Hl : serverDataToValues d !! "updateDelay" = None).
    { unfold serverDataToValues. cbv zeta. destruct (_ <? _)%nat, (sdMaintenanceSchedule d), (_ <? _);
        rewrite ?lookup_insert_ne by done; reflexivity. }
    unfold getStringValue. rewrite Hl. change (SplitByte "updateDelay" "."%char) with ["updateDelay"].
    cbn [walk]. unfold getKey. by rewrite Hl. }
  rewrite Hv in Hd. pose proof (UpdateServer_writes data _ _ Hrun) as Hw.
  enough (isOk r = false) as Hr by (by rewrite Hr in Hw).
  unfold ServerService.UpdateServer, ask, call in Hrun. cbn [bind runs] in Hrun. destruct Hrun as (got & rest & -> & H).
  destruct got as [server|e]; [|by destruct H as [_ ->]]. pose proof (patchServer_spec data server) as Hp.
  rewrite Hd in Hp. change (parsedDelay (Some "")) with (@Err (option Duration) (badDelay "" (invalidDuration ""))) in Hp.
  cbv beta iota in Hp. rewrite Hp in H. by destruct H as [_ ->].
Qed.

(** The form shows the version that runs, not the one that the server is pinned to. *)
Lemma editForm_version ns name tr d :
  runs (ServerService.GetServer ns name) tr (Ok d) ->
  exists server rest, tr = Ev (E := K8s) (RGetServer (ns, name)) (Ok server) :: rest /\
    (stCurrentVersion (srvStatus server) <> "" ->
     getStringValue (serverDataToValues d) "version" = stCurrentVersion (srvStatus server)).
Proof.
  intros (server & rest & -> & Hs)%GetServer_shown. exists server, rest. split; [done|]. intros Hv.
  rewrite <- (sa_version _ _ Hs) in *. unfold getStringValue, serverDataToValues. cbv zeta.
  rewrite (proj2 (String.eqb_neq _ _) Hv).
  destruct (_ <? _)%nat, (sdMaintenanceSchedule d), (_ <? _); rewrite ?lookup_insert_ne by done; reflexivity.
Qed.

(** ** Examples *)

Definition noAPI (r : Request) : prog (option Response) := Ret None.
Definition exampleServer : Server := MkServer (Some example.parser) 3 0.

Definition request (m path : string) (query : list (string * string)) : Request :=
  MkRequest m path (list_to_map query) "" (Err (ErrNew "EOF")).

(** A request against a cluster with one server. *)
Definition tryRequest (r : Request) : list event * option Response :=
  exec (fun _ => oneServer survival quarterToTwo)
    (ServeHTTP (MR := InOrder.range) (NH := PlainHttp.netHttp) (GS := InsertionSort.goSort) exampleServer noAPI r) [].

Example ServeHTTP_examples :
  map (fun r => option_map code (tryRequest r).2)
    [request "GET" "/ui" []; request "GET" "/ui/" []; request "GET" "/ui/server/new" [];
     request "GET" "/ui/server/survival" []; request "GET" "/ui/server/survival/edit" [];
     request "GET" "/ui/server/survival/delete" [("namespace", "games")];
     request "POST" "/ui/server/survival/delete" []; request "POST" "/ui/server/survival/delete" [("namespace", "games")];
     request "GET" "/ui/server" []; request "GET" "/ui/plugin/x" [("namespace", "games")]; request "GET" "/ui//x" []] =
    map Some [200; 404; 200; 200; 400; 405; 400; 303; 301; 404; 301].
Proof. by vm_compute. Qed.

(** The only static file, the listing of its directory, and what is not there. *)
Example serveStatic_examples :
  map (fun path => option_map (fun x => (code x, body x)) (tryRequest (request "GET" path [])).2)
    ["/ui/static/form.js"; "/ui/static/"; "/ui/static/form.js/"; "/ui/static/htmx.js"; "/ui//static"] =
    map Some [(200, StaticFile "form.js"); (200, Listing ["form.js"]); (301, Location "../form.js" ""); (404, Text "404 page not found");
      (301, Location "/ui/static/" (html "<a href='/ui/static/'>Moved Permanently</a>." +:+ newline +:+ newline))].
Proof. by vm_compute. Qed.

(** Servers with the names of other pages have no page of their own. *)
Example shadowed_names :
  map (fun n => lookupPattern ("/ui/server/" +:+ n)) ["new"; "status"; "resolve"; "survival"] =
    [Some HServerCreate; Some HServerStatus; Some HServerResolve; Some HServerRoutes].
Proof. by vm_compute. Qed.

Lemma ServeHTTP_writes_witness :
  let run := tryRequest (request "POST" "/ui/server/survival/delete" [("namespace", "games")]) in
  run.2 = Some (MkResponse 303 (Location "/ui" "")) /\ writes run.1 = 1%nat /\
  Forall (fun e => wrote e = true -> written e = Some (OServer ("games", "survival"))) run.1.
Proof.
  intros run.
  assert (Hrun : runs (ServeHTTP (MR := InOrder.range) (NH := PlainHttp.netHttp) (GS := InsertionSort.goSort) exampleServer noAPI
      (request "POST" "/ui/server/survival/delete" [("namespace", "games")])) run.1 run.2)
    by exact (exec_runs (fun _ => oneServer survival quarterToTwo) _ []).
  split; [by vm_compute|].
  destruct (ServeHTTP_writes (MR := InOrder.range) (NH := PlainHttp.netHttp) exampleServer noAPI
    (request "POST" "/ui/server/survival/delete" [("namespace", "games")]) _ _ ltac:(by vm_compute) Hrun) as [Hw Ho].
  split; [rewrite Hw; by vm_compute|].
  refine (Forall_impl _ _ _ (Ho _) _).
  - repeat constructor.
  - intros e He Hwrote. rewrite (He Hwrote). by vm_compute.
Defined.

Lemma polling_ends_witness :
  let r := request "GET" "/ui/server/status" [("name", "survival"); ("namespace", "games"); ("attempt", "30")] in
  let r' := request "GET" "/ui/server/status" [("name", "survival"); ("namespace", "games"); ("attempt", "31")] in
  nsteps polls 1 r r' /\ (1 <= 30)%nat.
Proof.
  intros r r'.
  assert (H : nsteps polls 1 r r').
  { eapply nsteps_l; [|apply nsteps_O].
    refine (polls_again r r' _ _ 31 "⏳ Working..."
      (exec_runs (fun _ => oneServer survival quarterToTwo) (handleServerStatus r) []) _ _); by vm_compute. }
  split; [exact H | exact (polling_ends 1 r r' H)].
Defined.

Lemma fetchDashboardData_exact_witness :
  let run := exec (fun _ => oneServer survival 0) (fetchDashboardData (MR := InOrder.range) "games") [] in
  exists d, run.2 = Ok d /\ dbSelectedNamespace d = "games" /\ NoDup (dbNamespaces d).
Proof.
  intros run.
  assert (Hrun : runs (fetchDashboardData (MR := InOrder.range) "games") run.1 run.2)
    by exact (exec_runs (fun _ => oneServer survival 0) _ []).
  destruct run.2 as [d|e] eqn:Hr; [|vm_compute in Hr; congruence]. exists d. split; [done|].
  destruct (fetchDashboardData_exact (MR := InOrder.range) (ML := InOrder.range_laws) "games" _ _ Hrun)
    as (? & ? & ? & _ & _ & _ & H1 & _ & H2 & _). done.
Defined.
