(* ===== verification/WebMarkup.v ===== *)
(** * The markup of the web interface

    Every answer of the web interface in HTML is safe: a page is a [document] and a
    fragment is [wellformed] (file Markup), for every request and all answers of the
    cluster.  The two texts of net/http are the link of a redirect, which stays a link
    on this host, and the listing of the static files, which is always the same. *)

From S2P Require Import Prelude GoBase Decimals Strings GoLib Durations Api Objects Effects K8s Service Targets Schema Markup Render Pages Templates WebUI.
From Stdlib Require Import Ascii.

Open Scope Z_scope.

Section markup.
Context {TL : Templ} {TLL : TemplLaws} {MR : MapRange} {NH : NetHttp} {NL : NetHttpLaws}.

(** The text of an answer in HTML. *)
Definition markupOf (x : Response) : option string :=
  match body x with
  | Fragment s => Some s
  | Form title backURL form => Some (SchemaFormPage (MkSchemaFormData title backURL form))
  | DashboardPage d => Some (Dashboard d)
  | ServerDetailPage d => Some (ServerDetail d)
  | PluginListPage d => Some (PluginList d)
  | PluginDetailPage d => Some (PluginDetail d)
  | Location _ link => if (link =? "")%string then None else Some link
  | Listing names => Some (dirList names)
  | _ => None
  end.

(** A link to a path of this host, and nothing else; a target with two slashes in front
    would name another host. *)
Definition linkOnly (text : string) : Prop :=
  exists target words,
    text = html "<a href='" +:+ "/" +:+ target +:+ html "'>" +:+ words +:+ "</a>." +:+ newline +:+ newline /\
    HasPrefix target "/" = false /\ str_all isPlain target = true /\ str_all isPlain words = true.

(** Is the text put into a page that is there already? *)
Definition isFragment (x : Response) : bool := match body x with Fragment _ => true | _ => false end.

Definition safeAnswer (x : Response) : Prop :=
  forall text, markupOf x = Some text ->
    match body x with
    | Fragment _ => wellformed text
    | Location _ _ => linkOnly text
    | Listing _ => text = dirList staticFiles
    | _ => document text
    end.

(** Every answer of a program is safe. *)
Definition safe (p : prog Response) : Prop := forall tr x, runs p tr x -> safeAnswer x.

Lemma safeAnswer_none x : markupOf x = None -> safeAnswer x.
Proof. intros H text He. congruence. Qed.

Lemma safeAnswer_page b :
  match b with
  | DashboardPage _ | ServerDetailPage _ | PluginListPage _ | PluginDetailPage _ => safeAnswer (respond b)
  | _ => True
  end.
Proof.
  destruct b; try done; intros text [= <-];
    [apply Dashboard_document | apply ServerDetail_document | apply PluginList_document | apply PluginDetail_document].
Qed.

Lemma safeAnswer_fragment text : wellformed text -> safeAnswer (respond (Fragment text)).
Proof. by intros H text' [= <-]. Qed.

(** A path from the root of this host. *)
Definition onHost (url : string) : Prop := exists u, url = "/" +:+ u /\ HasPrefix u "/" = false.

Lemma EscapeString_slash u : HasPrefix u "/" = false -> HasPrefix (EscapeString u) "/" = false.
Proof.
  destruct u as [|c u]; [done|]. cbn [EscapeString HasPrefix]. unfold escapeChar. intros Hc.
  repeat (destruct (Ascii.eqb c _); [done|]). by rewrite str_app_cons.
Qed.

(** A redirect to a path. *)
Lemma Redirect_safe r url c : onHost url -> safeAnswer (Redirect r url c).
Proof.
  intros (u & -> & Hu). unfold Redirect. destruct (_ =? _)%string; [|by apply safeAnswer_none].
  intros text [= <-]. exists (EscapeString u), (StatusText c).
  split_and!; [|by apply EscapeString_slash | apply EscapeString_plain | apply StatusText_plain].
  unfold redirectLink, cat. cbn [foldr]. by rewrite EscapeString_app, !str_app_assoc, str_app_nil_r.
Qed.

Lemma HasPrefix_slash_app u v : HasPrefix u "/" = false -> HasPrefix v "/" = false \/ u <> "" -> HasPrefix (u +:+ v) "/" = false.
Proof. by destruct u as [|c u]; [intros _ [? | ?]|]. Qed.

Lemma moved_safe r path : onHost path -> safeAnswer (moved r path).
Proof.
  intros (u & -> & Hu). apply Redirect_safe. unfold withQuery. case_match; [by exists u|].
  exists (u +:+ "?" +:+ RawQuery r). rewrite str_app_assoc. split; [done|]. apply HasPrefix_slash_app; auto.
Qed.

Lemma serveStatic_safe r : safeAnswer (serveStatic r).
Proof. unfold serveStatic. cbv zeta. repeat case_match; try (by apply safeAnswer_none). by intros text [= <-]. Qed.

(** The elements of a cleaned path are neither empty nor have slashes. *)
Lemma cleanStep_elements stack el :
  Forall (fun p => p <> "" /\ HasPrefix p "/" = false) stack -> HasPrefix el "/" = false ->
  Forall (fun p => p <> "" /\ HasPrefix p "/" = false) (cleanStep true stack el).
Proof.
  intros Hs He. unfold cleanStep. destruct (String.eqb_spec el ""), (el =? ".")%string; cbn [orb]; try done.
  destruct (el =? "..")%string; [|by constructor]. destruct stack as [|top rest]; [done|].
  destruct (top =? "..")%string; [by constructor | by inversion Hs].
Qed.

Lemma Clean_onHost p : HasPrefix p "/" = true -> onHost (Clean p).
Proof.
  intros Hp. unfold Clean. rewrite Hp. eexists. split; [done|].
  assert (Hl : Forall (fun p => p <> "" /\ HasPrefix p "/" = false) (rev (foldl (cleanStep true) [] (SplitByte p "/"%char)))).
  { apply Forall_rev. assert (Hs : Forall (fun x => HasPrefix x "/" = false) (SplitByte p "/"%char)).
    { eapply Forall_impl; [apply (SplitByte_all (fun _ => true)); clear; by induction p|].
      cbn. intros [|c x]; [done|]. cbn. by destruct (Ascii.eqb_spec c "/"%char) as [->|]. }
    assert (Ha : Forall (fun p => p <> "" /\ HasPrefix p "/" = false) ([] : list string)) by constructor.
    revert Ha. generalize (@nil string) as acc. induction Hs as [|x l Hx _ IH]; intros acc Ha; [done|].
    cbn [foldl]. by apply IH, cleanStep_elements. }
  destruct Hl as [|x l [Hne Hx] Hl]; [done|]. destruct l as [|y l]; [done|].
  change (Join (x :: y :: l) "/") with (x +:+ "/" +:+ Join (y :: l) "/"). apply HasPrefix_slash_app; auto.
Qed.

Lemma cleanPath_onHost p : onHost (cleanPath p).
Proof.
  unfold cleanPath. destruct (p =? "")%string; [by exists ""|]. set (q := if HasPrefix p "/" then p else "/" +:+ p).
  destruct (Clean_onHost q) as (u & Hc & Hu); [unfold q; by destruct (HasPrefix p "/") eqn:?|].
  case_match eqn:Hs; [|by exists u]. exists (u +:+ "/"). rewrite Hc, str_app_assoc. split; [done|].
  apply HasPrefix_slash_app; [done|]. right. intros ->. rewrite Hc in Hs. by rewrite andb_false_r in Hs.
Qed.

Lemma slashRedirect_onHost path url : slashRedirect path = Some url -> onHost url.
Proof.
  unfold slashRedirect. destruct (lookupPattern path); [done|]. destruct (List.find _ _) as [e|] eqn:Hf; intros [= <-].
  apply find_some_elem in Hf as [He _]. revert He. unfold subtreePatterns. rewrite !elem_of_cons.
  intros [->|[->|[->|[->|He%not_elem_of_nil]]]]; [by eexists..|done].
Qed.

#[local] Hint Extern 1 (onHost _) => (by eexists) : markup.
#[local] Hint Resolve Redirect_safe : markup.
#[local] Hint Resolve serveStatic_safe : markup.
#[local] Hint Extern 1 (safeAnswer (httpError _ _)) => (by apply safeAnswer_none) : markup.
#[local] Hint Extern 1 (safeAnswer httpNotFound) => (by apply safeAnswer_none) : markup.
#[local] Hint Extern 1 (safeAnswer methodNotAllowed) => (by apply safeAnswer_none) : markup.
#[local] Hint Resolve safeAnswer_fragment resolvingButton_wellformed renderSolverStatus_wellformed : markup.
#[local] Hint Extern 1 (safeAnswer (respond (?c _))) => (apply (safeAnswer_page (c _))) : markup.
#[local] Hint Extern 1 (safeAnswer (respond _)) => (by apply safeAnswer_none) : markup.
#[local] Hint Extern 1 (safeAnswer (MkResponse _ (CreatedJSON _ _))) => (by apply safeAnswer_none) : markup.

Ltac safe_answer := intros ? ? ?; to_answer; repeat case_match; auto with markup.

Lemma handleResourceDelete_safe fetch remove r pathPrefix resourceType redirectURL :
  onHost redirectURL -> safe (handleResourceDelete fetch remove r pathPrefix resourceType redirectURL).
Proof. intros Hu. unfold handleResourceDelete. safe_answer. Qed.

Lemma handleApplyNow_safe r : safe (handleApplyNow r).
Proof. unfold handleApplyNow. safe_answer. Qed.

Lemma handleServerResolve_safe r : safe (handleServerResolve r).
Proof. unfold handleServerResolve. cbv zeta. safe_answer. Qed.

Lemma handlePluginResolve_safe r : safe (handlePluginResolve r).
Proof. unfold handlePluginResolve. cbv zeta. safe_answer. Qed.

Lemma handleServerStatus_safe r : safe (handleServerStatus r).
Proof. unfold handleServerStatus. cbv zeta. safe_answer. Qed.

Lemma handleDashboard_safe r : safe (handleDashboard r).
Proof. unfold handleDashboard. safe_answer. Qed.

Lemma handlePluginList_safe r : safe (handlePluginList r).
Proof. unfold handlePluginList. safe_answer. Qed.

Lemma handleServerDetailPage_safe zone r name : safe (handleServerDetailPage zone r name).
Proof. unfold handleServerDetailPage. cbv zeta. safe_answer. Qed.

Lemma handlePluginDetailPage_safe r name : safe (handlePluginDetailPage r name).
Proof. unfold handlePluginDetailPage. cbv zeta. safe_answer. Qed.

Lemma handleListConfigMaps_safe {GS : GoSort} r : safe (handleListConfigMaps r).
Proof. unfold handleListConfigMaps. cbv zeta. safe_answer. Qed.

Lemma handleCreateConfigMap_safe r : safe (handleCreateConfigMap r).
Proof. unfold handleCreateConfigMap. safe_answer. Qed.

(** The same of programs that may have no answer. *)
Definition safeIfAny (p : prog (option Response)) : Prop := forall tr x, runs p tr (Some x) -> safeAnswer x.

Lemma answered_safe p : safe p -> safeIfAny (answered p).
Proof. intros Hp tr x H. apply runs_bind in H as (t1 & y & t2 & -> & H & -> & [= ->]). by eapply Hp. Qed.

Lemma Ret_safe o : (forall x, o = Some x -> safeAnswer x) -> safeIfAny (Ret o).
Proof. intros H tr x [_ He]. by apply H. Qed.

Lemma RetResponse_safe x : markupOf x = None -> safe (Ret x).
Proof. intros Hx tr y [_ ->]. by apply safeAnswer_none. Qed.

#[local] Hint Resolve handleResourceDelete_safe handleApplyNow_safe handleServerResolve_safe handlePluginResolve_safe
  handleServerStatus_safe handleDashboard_safe handlePluginList_safe handleServerDetailPage_safe handlePluginDetailPage_safe
  handleListConfigMaps_safe handleCreateConfigMap_safe answered_safe : markup.
#[local] Hint Extern 1 (safe (Ret _)) => (by apply RetResponse_safe) : markup.

Section page.
Context (s : Server).

Lemma renderSchemaForm_safe name mode submitURL backURL title values x :
  begins (mustBegin "hx-post") submitURL = true -> begins ["/ui"] backURL = true ->
  renderSchemaForm s name mode submitURL backURL title values = Some x -> safeAnswer x.
Proof.
  intros Hs Hb. unfold renderSchemaForm. destruct (schemaParser s) as [p|]; [|intros [= <-]; auto with markup].
  intros (parsed & _ & [= <-])%Some_bind. destruct parsed as [schema|e]; [|auto with markup].
  intros text [= <-]. apply SchemaFormPage_document; [done|]. apply renderedForm_wellformed. split; [done | by right].
Qed.

(** Where an edit form is sent. *)
Lemma submitURL_begins p x : begins ["/ui"; "/api/v1/"] p = true -> begins (mustBegin "hx-post") (p +:+ x) = true.
Proof. apply begins_app. Qed.

Lemma handleServerEdit_safe r name : safeIfAny (handleServerEdit s r name).
Proof.
  unfold handleServerEdit. cbv zeta. intros tr x H. destruct (_ =? _)%string; [destruct H as [_ [= ->]]; auto with markup|].
  apply runs_bind in H as (? & data & ? & -> & _ & _ & He). destruct data; [symmetry in He; apply renderSchemaForm_safe in He; [done | by apply submitURL_begins | done]|].
  injection He as ->. destruct (IsNotFound e); auto with markup.
Qed.

Lemma handlePluginEdit_safe r name : safeIfAny (handlePluginEdit s r name).
Proof.
  unfold handlePluginEdit. cbv zeta. intros tr x H. destruct (_ =? _)%string; [destruct H as [_ [= ->]]; auto with markup|].
  apply runs_bind in H as (? & data & ? & -> & _ & _ & He). destruct data; [symmetry in He; apply renderSchemaForm_safe in He; [done | by apply submitURL_begins | done]|].
  injection He as ->. destruct (IsNotFound e); auto with markup.
Qed.
#[local] Hint Resolve handleServerEdit_safe handlePluginEdit_safe : markup.

Lemma handlePluginRoutes_safe r : safeIfAny (handlePluginRoutes s r).
Proof.
  unfold handlePluginRoutes, handlePluginDelete. destruct (pathParts _ _) as [|part [|action rest]]; auto with markup;
    destruct (_ =? _)%string; auto with markup. repeat (destruct (_ =? _)%string; auto with markup).
Qed.

Lemma handleServerRoutes_safe r : safeIfAny (handleServerRoutes s r).
Proof.
  unfold handleServerRoutes, handleServerDelete. destruct (pathParts _ _) as [|part [|action rest]]; auto with markup;
    destruct (_ =? _)%string; auto with markup. repeat (destruct (_ =? _)%string; auto with markup).
Qed.

(** C21: whatever is asked of the web interface and whatever the cluster answers,
    every answer in HTML is safe: a page is a whole document and a fragment
    well-formed, with the elements and attributes of the interface only, scripts from
    the two known places, links and requests to the known beginnings, and nothing of
    the names, namespaces, labels, versions or values of a resource read as markup.  The
    text of a redirect is one link to a path of this host, and the listing of the static
    files is the same for every request. *)
Theorem ServeHTTP_markup {GS : GoSort} apiHandler r tr x (Hapi : lookupPattern (Path r) <> Some HAPI)
    (Hrun : runs (ServeHTTP s apiHandler r) tr (Some x)) : safeAnswer x.
Proof.
  revert tr x Hrun. change (safeIfAny (ServeHTTP s apiHandler r)). unfold ServeHTTP. cbv zeta.
  destruct (slashRedirect _) as [url|] eqn:Hs.
  { apply answered_safe. intros tr x [_ ->]. by eapply moved_safe, slashRedirect_onHost. }
  destruct (String.eqb_spec (cleanPath (Path r)) (Path r)) as [Hc|Hc]; cbn [negb].
  2: { apply answered_safe. intros tr x [_ ->]. apply moved_safe, cleanPath_onHost. }
  rewrite Hc. destruct (lookupPattern (Path r)) as [[]|]; auto using handlePluginRoutes_safe, handleServerRoutes_safe with markup; [| | |].
  - apply answered_safe. intros tr x [_ ->]. apply serveStatic_safe.
  - apply Ret_safe. unfold handleServerCreate. intros x. destruct (negb _); [intros [= <-]; auto with markup|]. by apply renderSchemaForm_safe.
  - apply Ret_safe. unfold handlePluginCreate. intros x. destruct (negb _); [intros [= <-]; auto with markup|]. by apply renderSchemaForm_safe.
  - done.
Qed.
End page.
End markup.

(** ** Example *)

Definition scriptName : string := "x" +:+ String quoteChar "><script>".

Lemma ServeHTTP_markup_witness :
  let templ := SimpleTempl.templ in
  let post := request "POST" "/ui/server/resolve" [("name", scriptName); ("namespace", "games")] in
  let get := request "GET" "/ui" [] in
  (exists x text, (tryRequest post).2 = Some x /\ isFragment x = true /\ markupOf (MR := InOrder.range) (NH := PlainHttp.netHttp) x = Some text /\
     wellformed text) /\
  exists x text, (tryRequest get).2 = Some x /\ markupOf (MR := InOrder.range) (NH := PlainHttp.netHttp) x = Some text /\ document text.
Proof.
  intros templ post get.
  assert (Hsafe : forall r x, lookupPattern (Path r) <> Some HAPI -> (tryRequest r).2 = Some x ->
    safeAnswer (TL := templ) (MR := InOrder.range) (NH := PlainHttp.netHttp) x).
  { intros r x Hr Hx. pose proof (exec_runs (fun _ => oneServer survival quarterToTwo)
      (ServeHTTP (MR := InOrder.range) (NH := PlainHttp.netHttp) (GS := InsertionSort.goSort) exampleServer noAPI r) []) as Hrun.
    unfold tryRequest in Hx. rewrite Hx in Hrun.
    exact (ServeHTTP_markup (TLL := simpleTempl_laws) (NL := PlainHttp.netHttp_laws) (MR := InOrder.range) (NH := PlainHttp.netHttp) exampleServer noAPI r _ x Hr Hrun). }
  split.
  - assert (Hx : (tryRequest post).2 = Some (respond (Fragment (resolvingButton scriptName "games")))) by by vm_compute.
    eexists _, _. split; [exact Hx|]. split; [reflexivity|]. split; [reflexivity|].
    refine (Hsafe post _ _ Hx _ eq_refl). by vm_compute.
  - destruct (tryRequest get).2 as [[c b]|] eqn:Hx; [|vm_compute in Hx; congruence].
    destruct b as [| | |d| | | | | | | | | |]; try (vm_compute in Hx; congruence).
    eexists _, _. split; [done|]. split; [reflexivity|]. refine (Hsafe get _ _ Hx _ eq_refl). by vm_compute.
Defined.
