(* ===== verification/SSE.v ===== *)
(** * The broker of server-sent events (pkg/webui/sse.go)

    The goroutines that share the broker: the loop of [Start], a handler
    [ServeHTTP] for every connection and the callers of [Broadcast].  A step is one
    case of a select of theirs; [step] allows every interleaving.  The channels
    register and unregister have no buffer, so that handler and loop take the step
    together.  A channel of messages has a buffer of ten and may be closed; sending
    on a closed channel and closing it again panic, which the state records.
    Client identifiers come from the clock and may collide: connections are told
    apart by a number.  The keep-alive pings write nothing that the model follows. *)

From S2P Require Import Prelude GoBase.

Open Scope Z_scope.

(** Where the handler of a connection is. *)
Inductive phase := Registering | Streaming | Unregistering | Finished.
#[export] Instance phase_eq_dec : EqDecision phase.
Proof. solve_decision. Defined.

(** [SSEClient] with its handler: the identifier, the channel of messages and what
    the handler has written to the connection. *)
Record SSEClient := MkSSEClient {
  clientID : string;
  clientPhase : phase;
  messages : list string;
  closed : bool;
  output : list string
}.
#[export] Instance eta_SSEClient : Eta SSEClient := fun r =>
  MkSSEClient (clientID r) (clientPhase r) (messages r) (closed r) (output r).

Definition messagesCap : nat := 10.
Definition broadcastCap : nat := 100.

(** [SSEBroker]: the map of clients holds the number of a connection; [delivered] are
    the messages that the loop has taken from the channel. *)
Record SSEBroker := MkSSEBroker {
  running : bool;
  clients : gmap string nat;
  broadcast : list string;
  connections : gmap nat SSEClient;
  panicked : bool;
  delivered : list string
}.
#[export] Instance eta_SSEBroker : Eta SSEBroker := fun r =>
  MkSSEBroker (running r) (clients r) (broadcast r) (connections r) (panicked r) (delivered r).

Definition NewSSEBroker : SSEBroker := MkSSEBroker true ∅ [] ∅ false [].

(** ** Channels *)

Definition closeChan (c : SSEClient) : SSEClient := c <| closed := true |>.

(** Sending in a select with a default: a full channel is passed over. *)
Definition trySend (m : string) (c : SSEClient) : SSEClient :=
  if (length (messages c) <? messagesCap)%nat then c <| messages := messages c ++ [m] |> else c.

(** The connections that the map of clients refers to. *)
Definition registered (b : SSEBroker) (n : nat) : bool :=
  existsb (fun e => (e.2 =? n)%nat) (map_to_list (clients b)).

(** Sending to or closing the channels of all clients; a closed one panics. *)
Definition forClients (f : SSEClient -> SSEClient) (b : SSEBroker) : SSEBroker :=
  b <| connections := map_imap (fun n c => Some (if registered b n then f c else c)) (connections b) |>
    <| panicked := panicked b ||
         existsb (fun e => registered b e.1 && closed e.2) (map_to_list (connections b)) |>.

(** ** The loop of [Start] *)

Definition shutDown (b : SSEBroker) : SSEBroker := (forClients closeChan b) <| clients := ∅ |> <| running := false |>.

Definition registerClient (b : SSEBroker) (n : nat) (c : SSEClient) : SSEBroker :=
  b <| clients := <[clientID c := n]> (clients b) |>
    <| connections := <[n := c <| clientPhase := Streaming |>]> (connections b) |>.

Definition unregisterClient (b : SSEBroker) (n : nat) (c : SSEClient) : SSEBroker :=
  let gone := c <| clientPhase := Finished |> in
  match clients b !! clientID c with
  | Some _ =>
      b <| panicked := panicked b || closed c |>
        <| connections := <[n := closeChan gone]> (connections b) |>
        <| clients := delete (clientID c) (clients b) |>
  | None => b <| connections := <[n := gone]> (connections b) |>
  end.

Definition deliver (b : SSEBroker) (m : string) (rest : list string) : SSEBroker :=
  (forClients (trySend m) b) <| broadcast := rest |> <| delivered := delivered b ++ [m] |>.

(** ** [Broadcast] *)

Definition Broadcast (b : SSEBroker) (m : string) : SSEBroker :=
  if (length (broadcast b) <? broadcastCap)%nat then b <| broadcast := broadcast b ++ [m] |> else b.

Definition ClientCount (b : SSEBroker) : nat := size (clients b).

(** ** Steps *)

Inductive label :=
  | Connect (n : nat) (id : string)   (* a request arrives, the client is made *)
  | Register (n : nat)
  | Receive (n : nat)                 (* a message is taken and written *)
  | Lose (n : nat)                    (* a message is taken, writing it fails *)
  | Leave (n : nat)                   (* the request ends, or another write fails *)
  | SeeClosed (n : nat)
  | Unregister (n : nat)
  | Publish (m : string)
  | Deliver
  | Stop.

(** The state after a step, if it can be taken. *)
Definition take (l : label) (b : SSEBroker) : option SSEBroker :=
  match l with
  | Connect n id =>
      match connections b !! n with
      | None => Some (b <| connections := <[n := MkSSEClient id Registering [] false []]> (connections b) |>)
      | Some _ => None
      end
  | Register n =>
      c ← connections b !! n;
      if running b && bool_decide (clientPhase c = Registering) then Some (registerClient b n c) else None
  | Receive n =>
      c ← connections b !! n;
      match clientPhase c, messages c with
      | Streaming, m :: rest =>
          Some (b <| connections := <[n := c <| messages := rest |> <| output := output c ++ [m] |>]> (connections b) |>)
      | _, _ => None
      end
  | Lose n =>
      c ← connections b !! n;
      match clientPhase c, messages c with
      | Streaming, m :: rest =>
          Some (b <| connections := <[n := c <| messages := rest |> <| clientPhase := Unregistering |>]> (connections b) |>)
      | _, _ => None
      end
  | Leave n =>
      c ← connections b !! n;
      if bool_decide (clientPhase c = Streaming)
      then Some (b <| connections := <[n := c <| clientPhase := Unregistering |>]> (connections b) |>) else None
  | SeeClosed n =>
      c ← connections b !! n;
      match clientPhase c, messages c, closed c with
      | Streaming, [], true => Some (b <| connections := <[n := c <| clientPhase := Unregistering |>]> (connections b) |>)
      | _, _, _ => None
      end
  | Unregister n =>
      c ← connections b !! n;
      if running b && bool_decide (clientPhase c = Unregistering) then Some (unregisterClient b n c) else None
  | Publish m => Some (Broadcast b m)
  | Deliver =>
      match broadcast b with
      | m :: rest => if running b then Some (deliver b m rest) else None
      | [] => None
      end
  | Stop => if running b then Some (shutDown b) else None
  end.

Definition step (b b' : SSEBroker) : Prop := exists l, take l b = Some b'.
Definition reachable (b : SSEBroker) : Prop := rtc step NewSSEBroker b.

(** ** The invariant *)

(** A client of the map is a connection with that identifier whose handler has
    registered and not yet unregistered, and its channel is open. *)
Definition entryOk (b : SSEBroker) (id : string) (n : nat) : Prop :=
  exists c, connections b !! n = Some c /\ clientID c = id /\ closed c = false /\
    (clientPhase c = Streaming \/ clientPhase c = Unregistering).

Definition clientOk (b : SSEBroker) (c : SSEClient) : Prop :=
  (closed c = true -> clientPhase c = Finished \/ running b = false) /\
  (length (messages c) <= messagesCap)%nat /\
  sublist (output c ++ messages c) (delivered b).

Record brokerInv (b : SSEBroker) : Prop := {
  bi_panicked : panicked b = false;
  bi_entries : forall id n, clients b !! id = Some n -> entryOk b id n;
  bi_stopped : running b = false -> clients b = ∅;
  bi_queue : (length (broadcast b) <= broadcastCap)%nat;
  bi_clients : forall n c, connections b !! n = Some c -> clientOk b c
}.

Lemma registered_spec b n : registered b n = true <-> exists id, clients b !! id = Some n.
Proof.
  unfold registered. rewrite existsb_elem. split.
  - intros ([id k] & H & Hk%Nat.eqb_eq). cbn in Hk. subst. exists id. by apply elem_of_map_to_list.
  - intros [id H]. exists (id, n). split; [by apply elem_of_map_to_list | apply Nat.eqb_refl].
Qed.

Lemma forClients_lookup f b n :
  connections (forClients f b) !! n = (fun c => if registered b n then f c else c) <$> connections b !! n.
Proof. cbn. rewrite map_lookup_imap. by destruct (connections b !! n). Qed.

Lemma forClients_calm f b : brokerInv b -> panicked (forClients f b) = false.
Proof.
  intros Hi. cbn. rewrite (bi_panicked _ Hi). cbn. apply not_true_is_false. rewrite existsb_elem.
  intros ([n c] & Hc & [Hr Hcl]%andb_true_iff). apply elem_of_map_to_list in Hc. cbn in *.
  apply registered_spec in Hr as [id Hid]. destruct (bi_entries _ Hi _ _ Hid) as (c' & Hc' & _ & Ho & _). congruence.
Qed.

Lemma trySend_same m c : clientID (trySend m c) = clientID c /\ clientPhase (trySend m c) = clientPhase c /\
  closed (trySend m c) = closed c /\ output (trySend m c) = output c.
Proof. unfold trySend. by destruct (_ <? _)%nat. Qed.

(** Changing the handler of one connection leaves the entries of others. *)
Lemma entryOk_insert b b' id k n c :
  connections b' = <[n := c]> (connections b) -> entryOk b id k ->
  (k = n -> clientID c = id /\ closed c = false /\ (clientPhase c = Streaming \/ clientPhase c = Unregistering)) ->
  entryOk b' id k.
Proof.
  intros Hb (c0 & Hc & Hid & Ho & Hp) Hn. unfold entryOk. rewrite Hb.
  destruct (decide (k = n)) as [->|Hk].
  - exists c. rewrite lookup_insert_eq. by destruct (Hn eq_refl) as (? & ? & ?).
  - exists c0. by rewrite lookup_insert_ne.
Qed.

(** A step that changes one connection only, and neither the map nor the queue. *)
Lemma inv_connection b n c c' :
  brokerInv b -> connections b !! n = Some c -> clientOk b c' ->
  clientID c' = clientID c -> closed c' = closed c ->
  (clientPhase c = Streaming \/ clientPhase c = Unregistering -> clientPhase c' = Streaming \/ clientPhase c' = Unregistering) ->
  brokerInv (b <| connections := <[n := c']> (connections b) |>).
Proof.
  intros [Hpa He Hs Hq Hc] Hn Hok Hid Hcl Hph. split; [done | | done | done |]; cbn.
  - intros id k Hk. eapply entryOk_insert; [reflexivity | by apply He |]. intros ->.
    destruct (He _ _ Hk) as (c0 & Hc0 & ? & ? & ?). simplify_eq. split_and!; [done | congruence | by apply Hph].
  - intros k c0. cbn. intros [[<- <-]|[_ H]]%lookup_insert_Some; [done | by eapply Hc].
Qed.

(** A handler that is still at work has an open channel while the loop runs. *)
Lemma open_channel b n c :
  brokerInv b -> connections b !! n = Some c -> running b = true -> clientPhase c <> Finished -> closed c = false.
Proof.
  intros Hi Hn Hr Hp. destruct (bi_clients _ Hi _ _ Hn) as (Hc & _). apply not_true_is_false. intros H.
  destruct (Hc H); congruence.
Qed.

Lemma connect_inv b n id :
  brokerInv b -> connections b !! n = None ->
  brokerInv (b <| connections := <[n := MkSSEClient id Registering [] false []]> (connections b) |>).
Proof.
  intros [Hpa He Hs Hq Hc] Hn. split; [done | | done | done |]; cbn.
  - intros id0 k Hk. destruct (He _ _ Hk) as (c0 & Hc0 & Hr). exists c0. split; [|done]. cbn. rewrite lookup_insert_ne; congruence.
  - intros k c0. cbn. intros [[<- <-]|[_ H]]%lookup_insert_Some; [|by eapply Hc].
    split; [done|]. cbn. split; [lia | apply sublist_nil_l].
Qed.

Lemma register_inv b n c :
  brokerInv b -> connections b !! n = Some c -> running b = true -> clientPhase c = Registering ->
  brokerInv (registerClient b n c).
Proof.
  intros Hi Hn Hr Hp. assert (Ho : closed c = false) by (eapply open_channel; eauto; congruence).
  destruct Hi as [Hpa He Hs Hq Hc]. split; [done | | | done |]; cbn; [|congruence|].
  - intros id k [[<- <-]|[Hid Hk]]%lookup_insert_Some.
    + exists (c <| clientPhase := Streaming |>). cbn. rewrite lookup_insert_eq. split_and!; try done. by left.
    + eapply entryOk_insert; [reflexivity | by apply He |]. intros ->.
      destruct (He _ _ Hk) as (c0 & Hc0 & _ & _ & [H|H]); congruence.
  - intros k c0. cbn. intros [[<- <-]|[_ H]]%lookup_insert_Some; [|by eapply Hc].
    destruct (Hc _ _ Hn) as (H1 & H2 & H3). split; [|done]. cbn. congruence.
Qed.

Lemma unregister_inv b n c :
  brokerInv b -> connections b !! n = Some c -> running b = true -> clientPhase c = Unregistering ->
  brokerInv (unregisterClient b n c).
Proof.
  intros Hi Hn Hr Hp. assert (Ho : closed c = false) by (eapply open_channel; eauto; congruence).
  destruct Hi as [Hpa He Hs Hq Hc]. destruct (Hc _ _ Hn) as (H1 & H2 & H3).
  assert (Hother : forall id k c', clients b !! id = Some k -> id <> clientID c ->
    forall b', connections b' = <[n := c']> (connections b) -> entryOk b' id k).
  { intros id k c' Hk Hid b' Hb'. eapply entryOk_insert; [done | by apply He |]. intros ->.
    destruct (He _ _ Hk) as (c0 & Hc0 & ? & _). congruence. }
  unfold unregisterClient. cbv zeta. destruct (clients b !! clientID c) as [k|] eqn:Hk.
  - split; cbn; [by rewrite Hpa, Ho | | congruence | done |].
    + intros id k' [Hid Hk']%lookup_delete_Some. eapply Hother; [done | congruence | reflexivity].
    + intros k' c0. cbn. intros [[<- <-]|[_ H]]%lookup_insert_Some; [|by eapply Hc].
      split; [by left|]. done.
  - split; cbn; [done | | done | done |].
    + intros id k' Hk'. eapply Hother; [done | congruence | reflexivity].
    + intros k' c0. cbn. intros [[<- <-]|[_ H]]%lookup_insert_Some; [|by eapply Hc].
      split; [by left|]. done.
Qed.

Lemma deliver_inv b m rest : brokerInv b -> broadcast b = m :: rest -> running b = true -> brokerInv (deliver b m rest).
Proof.
  intros Hi Hb Hr. pose proof (forClients_calm (trySend m) b Hi) as Hcalm. destruct Hi as [Hpa He Hs Hq Hc].
  split; [done | | | |]; [| cbn; congruence | |].
  - intros id n Hn. destruct (He id n Hn) as (c & Hc' & Hid & Ho & Hp). exists (if registered b n then trySend m c else c).
    change (connections (deliver b m rest)) with (connections (forClients (trySend m) b)).
    rewrite forClients_lookup, Hc'. destruct (trySend_same m c) as (H1 & H2 & H3 & _).
    split; [done|]. destruct (registered b n); [|done]. by rewrite H1, H2, H3.
  - cbn. rewrite Hb in Hq. cbn in Hq. lia.
  - intros n c. change (connections (deliver b m rest)) with (connections (forClients (trySend m) b)).
    rewrite forClients_lookup. intros (c0 & Hc0 & ->)%fmap_Some.
    destruct (Hc _ _ Hc0) as (H1 & H2 & H3). destruct (trySend_same m c0) as (_ & Hp & Hcl & Hout).
    assert (Hd : sublist (output c0 ++ messages c0) (delivered b ++ [m])) by (by apply sublist_inserts_r).
    destruct (registered b n); [|by split_and!].
    split; [by rewrite Hcl, Hp|]. rewrite Hout. unfold trySend.
    destruct (_ <? _)%nat eqn:Hlt; cbn; [|done]. apply Nat.ltb_lt in Hlt. rewrite length_app. cbn.
    split; [lia|]. rewrite app_assoc. by apply sublist_app.
Qed.

Lemma shutDown_inv b : brokerInv b -> brokerInv (shutDown b).
Proof.
  intros Hi. pose proof (forClients_calm closeChan b Hi) as Hcalm. destruct Hi as [Hpa He Hs Hq Hc].
  split; [exact Hcalm | intros id n H; cbn in H; by rewrite lookup_empty in H | done | done |].
  intros n c. change (connections (shutDown b)) with (connections (forClients closeChan b)).
  rewrite forClients_lookup. intros (c0 & Hc0 & ->)%fmap_Some. destruct (Hc _ _ Hc0) as (_ & H2 & H3).
  split; [by right|]. by destruct (registered b n).
Qed.

Lemma take_inv l b b' : brokerInv b -> take l b = Some b' -> brokerInv b'.
Proof.
  intros Hi. destruct l; cbn [take].
  - destruct (connections b !! n) eqn:Hn; [done|]. intros [= <-]. by apply connect_inv.
  - destruct (connections b !! n) as [c|] eqn:Hn; [|done]. cbn.
    destruct (_ && _) eqn:Hr; [|done]. intros [= <-]. bool_prop. by apply register_inv.
  - destruct (connections b !! n) as [c|] eqn:Hn; [|done]. cbn. destruct (bi_clients _ Hi _ _ Hn) as (H1 & H2 & H3).
    destruct (clientPhase c) eqn:Hp, (messages c) as [|m rest] eqn:Hm; try done. intros [= <-].
    apply inv_connection with (c := c); try done. cbn in *.
    split; [cbn; intros H; destruct (H1 H); [congruence | by right]|]. cbn. split; [lia|]. by rewrite <- app_assoc.
  - destruct (connections b !! n) as [c|] eqn:Hn; [|done]. cbn. destruct (bi_clients _ Hi _ _ Hn) as (H1 & H2 & H3).
    destruct (clientPhase c) eqn:Hp, (messages c) as [|m rest] eqn:Hm; try done. intros [= <-].
    apply inv_connection with (c := c); try done; [|by right]. cbn in *. split; [cbn; intros H; destruct (H1 H); [congruence | by right]|].
    cbn. split; [lia|]. etransitivity; [|exact H3]. apply sublist_app; [done | by apply sublist_cons].
  - destruct (connections b !! n) as [c|] eqn:Hn; [|done]. cbn. destruct (bi_clients _ Hi _ _ Hn) as (H1 & H2 & H3).
    case_bool_decide as Hp; [|done]. intros [= <-]. apply inv_connection with (c := c); try done; [|by right].
    split; [cbn; intros H; destruct (H1 H); [congruence | by right] | done].
  - destruct (connections b !! n) as [c|] eqn:Hn; [|done]. cbn. destruct (bi_clients _ Hi _ _ Hn) as (H1 & H2 & H3).
    destruct (clientPhase c) eqn:Hp, (messages c) eqn:Hm, (closed c) eqn:Ho; try done. intros [= <-].
    apply inv_connection with (c := c); try done; [|by right].
    split; [cbn; intros H; destruct (H1 eq_refl); [congruence | by right]|]. cbn. by rewrite Hm.
  - destruct (connections b !! n) as [c|] eqn:Hn; [|done]. cbn.
    destruct (_ && _) eqn:Hr; [|done]. intros [= <-]. bool_prop. by apply unregister_inv.
  - intros [= <-]. unfold Broadcast. destruct (_ <? _)%nat eqn:Hl; [|done]. apply Nat.ltb_lt in Hl.
    destruct Hi. split; try done. cbn. rewrite length_app. cbn. lia.
  - destruct (broadcast b) as [|m rest] eqn:Hb; [done|]. destruct (running b) eqn:Hr; [|done].
    intros [= <-]. by apply deliver_inv.
  - destruct (running b); [|done]. intros [= <-]. by apply shutDown_inv.
Qed.

Lemma reachable_inv b : reachable b -> brokerInv b.
Proof.
  assert (Hinit : brokerInv NewSSEBroker) by (split; cbn; try done; lia).
  unfold reachable. generalize NewSSEBroker Hinit. intros b0 H0 H. induction H as [|x y z [l Hl] _ IH]; [done|].
  apply IH. by eapply take_inv.
Qed.

(** C27: under every interleaving of connections, messages and the end of the
    process, whatever identifiers the clock gives, the broker never closes a channel
    twice and never sends on a closed one; no queue is longer than its channel
    allows; and what a connection has been sent is a part of the messages delivered,
    in their order and none twice. *)
Theorem broker_safe b (Hr : reachable b) :
  panicked b = false /\ (length (broadcast b) <= broadcastCap)%nat /\
  (forall id n, clients b !! id = Some n -> entryOk b id n) /\
  (forall n c, connections b !! n = Some c -> (length (messages c) <= messagesCap)%nat /\ sublist (output c) (delivered b)).
Proof.
  apply reachable_inv in Hr as [Hp He _ Hq Hc]. split_and!; try done.
  intros n c Hn. destruct (Hc _ _ Hn) as (_ & Hl & Hsub). split; [done|].
  etransitivity; [|exact Hsub]. by apply sublist_inserts_r.
Qed.

(** ** The end of the process *)

(** After the loop has stopped no handler that is still at work ever returns: it
    waits for the loop to take its client from a channel.  [http.Server.Shutdown]
    waits for the handlers, so that an open connection makes it run into its timeout. *)
Lemma stopped_handlers_stay b b' n c :
  running b = false -> connections b !! n = Some c -> clientPhase c <> Finished -> rtc step b b' ->
  running b' = false /\ exists c', connections b' !! n = Some c' /\ clientPhase c' <> Finished.
Proof.
  intros Hr Hn Hp Hs. revert c Hr Hn Hp. induction Hs as [b|b b1 b' [l Hl] _ IH]; intros c Hr Hn Hp; [by eauto|].
  assert (H : running b1 = false /\ exists c', connections b1 !! n = Some c' /\ clientPhase c' <> Finished).
  { assert (Hput : forall k c', clientPhase c' <> Finished ->
      running (b <| connections := <[k := c']> (connections b) |>) = false /\
      exists c'', connections (b <| connections := <[k := c']> (connections b) |>) !! n = Some c'' /\ clientPhase c'' <> Finished).
    { intros k c' Hc'. split; [done|]. cbn. destruct (decide (k = n)) as [->|Hk].
      - exists c'. by rewrite lookup_insert_eq.
      - exists c. by rewrite lookup_insert_ne. }
    destruct l; cbn [take] in Hl; rewrite ?Hr in Hl; cbn [andb] in Hl;
      repeat (case_match || (apply Some_bind in Hl as (? & ? & Hl))); simplify_eq; try (by apply Hput); try (by apply Hput; cbn; congruence).
    unfold Broadcast. case_match; by eauto. }
  destruct H as (Hr1 & c1 & Hn1 & Hp1). by eapply IH.
Qed.

(** ** Examples *)

Fixpoint takes (ls : list label) (b : SSEBroker) : option SSEBroker :=
  match ls with
  | [] => Some b
  | l :: ls => b ← take l b; takes ls b
  end.

Lemma takes_reachable ls b b' : rtc step NewSSEBroker b -> takes ls b = Some b' -> reachable b'.
Proof.
  revert b. induction ls as [|l ls IH]; cbn [takes]; intros b Hb H; [by simplify_eq|].
  apply Some_bind in H as (b1 & H1 & H). eapply IH; [|exact H]. eapply rtc_r; [exact Hb | by exists l].
Qed.

(** Two connections of the same nanosecond: the first to leave takes the second out of
    the map, which gets no message any more. *)
Definition collision : list label :=
  [Connect 0 "client-7"; Connect 1 "client-7"; Register 0; Register 1; Leave 0; Unregister 0; Publish "update"; Deliver].

Example colliding_ids :
  (fun b => (ClientCount b, map (fun n => (fun c => (clientPhase c, messages c)) <$> connections b !! n) [0; 1]%nat))
    <$> takes collision NewSSEBroker =
  Some (0%nat, [Some (Finished, []); Some (Streaming, [])]).
Proof. by vm_compute. Qed.

Definition session : list label :=
  [Connect 0 "client-7"; Register 0; Publish "a"; Publish "b"; Deliver; Deliver; Receive 0; Stop; Receive 0; SeeClosed 0].

Lemma broker_safe_witness :
  exists b c, takes session NewSSEBroker = Some b /\ connections b !! 0%nat = Some c /\ output c = ["a"; "b"] /\
    clientPhase c = Unregistering /\ panicked b = false /\ sublist (output c) (delivered b).
Proof.
  destruct (takes session NewSSEBroker) as [b|] eqn:Hb; [|vm_compute in Hb; congruence].
  assert (Hr : reachable b) by (by eapply takes_reachable).
  destruct (broker_safe b Hr) as (Hp & _ & _ & Hc). exists b.
  vm_compute in Hb. injection Hb as <-. eexists. split; [done|]. split; [reflexivity|].
  split; [reflexivity|]. split; [reflexivity|]. split; [exact Hp|]. by eapply (Hc 0%nat).
Defined.
