(* ===== verification/Runtime.v ===== *)
(** * What runs beside the controllers

    The HTTP client that downloads plugins (pkg/plugins/url.go), the execution of
    commands in pods (internal/controller/pod_executor.go), and two components that the
    manager runs until it stops: the cron schedulers (pkg/cron/cron.go) and the web
    server (pkg/webui/server.go). *)

From S2P Require Import Prelude GoBase Strings GoLib Url.

Open Scope Z_scope.

(** ** Downloads: SafeHTTPClient *)

Module SafeHTTPClient.

Definition MaxRedirects : nat := 10.

(** The place of a request: the scheme and the host of its URL. *)
Record place := MkPlace { plScheme : string; plHost : string }.

(** [CheckRedirect]: the next request, and how many were made. *)
Definition CheckRedirect (req : place) (via : nat) : option error :=
  if (MaxRedirects <=? via)%nat then Some (ErrNew ("stopped after " +:+ pretty (Z.of_nat MaxRedirects) +:+ " redirects"))
  else if isBlockedHost (plHost req) then Some (ErrNew ("redirect to blocked host: " +:+ plHost req))
  else None.

(** The answer to one request: a body, or another place. *)
Inductive reply := Body (b : string) | MovedTo (req : place).

Section client.
(** What the network answers to a request, after those made before. *)
Context (send : list place -> place -> result reply).

(** [http.Client.Do]: the requests made, and the result; [None]: more requests than the
    fuel. *)
Fixpoint Do (fuel : nat) (via : list place) (req : place) : list place * option (result string) :=
  match fuel with
  | O => (via, None)
  | S fuel =>
      let made := via ++ [req] in
      match send via req with
      | Err e => (made, Some (Err e))
      | Ok (Body b) => (made, Some (Ok b))
      | Ok (MovedTo next) =>
          match CheckRedirect next (length made) with
          | Some e => (made, Some (Err e))
          | None => Do fuel made next
          end
      end
  end.

Definition allowed (req : place) : Prop := isBlockedHost (plHost req) = false.

(** Few requests, all allowed, and an end. *)
Definition safeDownload (x : list place * option (result string)) : Prop :=
  (length x.1 <= MaxRedirects)%nat /\ Forall allowed x.1 /\ x.2 <> None.

Lemma Do_spec fuel via req :
  (length via < MaxRedirects)%nat -> (MaxRedirects - length via <= fuel)%nat -> Forall allowed via -> allowed req ->
  safeDownload (Do fuel via req).
Proof.
  revert via req. induction fuel as [|fuel IH]; intros via req Hl Hf Hv Hh; [lia|]. cbn [Do].
  assert (Hm : (length (via ++ [req]) = S (length via))%nat) by (rewrite length_app; cbn; lia).
  assert (Hb : Forall allowed (via ++ [req])) by (apply Forall_app; split; [done | by apply Forall_singleton]).
  assert (Hstop : forall r : result string, safeDownload (via ++ [req], Some r))
    by (intros r; split_and!; [cbn [fst]; rewrite Hm; lia | done | done]).
  destruct (send via req) as [[b|next]|e]; [apply Hstop| |apply Hstop].
  unfold CheckRedirect. destruct (MaxRedirects <=? length (via ++ [req]))%nat eqn:Hr; [apply Hstop|].
  apply Nat.leb_gt in Hr. destruct (isBlockedHost (plHost next)) eqn:Hn; [apply Hstop|].
  apply IH; [done | lia | done | done].
Qed.

(** A download that starts at a place that is not blocked makes at most ten requests,
    none of them to a blocked host, whatever the network answers; and it ends. *)
Theorem Do_safe req : allowed req -> safeDownload (Do MaxRedirects [] req).
Proof. intros Hh. apply Do_spec; [unfold MaxRedirects; cbn; lia.. | constructor | done]. Qed.
End client.

(** A name outside that leads to the metadata service inside. *)
Definition rebinding (via : list place) (req : place) : result reply :=
  if (plHost req =? "files.example.org")%string then Ok (MovedTo (MkPlace "http" "169.254.169.254")) else Ok (Body "secret").

Definition outside : place := MkPlace "https" "files.example.org".

Lemma Do_safe_witness : (Do rebinding MaxRedirects [] outside).1 = [outside] /\ safeDownload (Do rebinding MaxRedirects [] outside).
Proof. split; [by vm_compute|]. apply (Do_safe rebinding). by vm_compute. Defined.

(** A redirect may leave HTTPS: only the host of the next request is looked at. *)
Lemma Do_plainHTTP :
  let send via req := if (plScheme req =? "https")%string then Ok (MovedTo (MkPlace "http" (plHost req))) else Ok (Body "jar") in
  Do send MaxRedirects [] outside = ([outside; MkPlace "http" "files.example.org"], Some (Ok "jar")).
Proof. by vm_compute. Qed.
End SafeHTTPClient.

(** ** Commands in pods: K8sPodExecutor *)

Module K8sPodExecutor.

(** [corev1.PodExecOptions] of the request on the subresource exec of a pod. *)
Record execRequest := MkExecRequest {
  erNamespace : string;
  erPod : string;
  erContainer : string;
  erCommand : list string;
  erStdout : bool;
  erStderr : bool
}.

(** What the stream left in the two buffers, and its error. *)
Record streamed := MkStreamed { sdStdout : string; sdStderr : string; sdErr : option error }.

(** [remotecommand.NewSPDYExecutor], and [StreamWithContext] of its executor. *)
Definition ExecInPod (newSPDYExecutor : execRequest -> result streamed) (namespace podName container : string) (command : list string)
  : result string :=
  match newSPDYExecutor (MkExecRequest namespace podName container command true true) with
  | Err e => Err (ErrWrap e "failed to create SPDY executor")
  | Ok s =>
      match sdErr s with
      | Some e => Err (ErrWrap e ("exec failed (stderr: " +:+ sdStderr s +:+ ")"))
      | None => Ok (sdStdout s)
      end
  end.

(** The output is what the command wrote to its standard output, if it succeeded. *)
Lemma ExecInPod_ok spdy ns pod container command out :
  ExecInPod spdy ns pod container command = Ok out <->
  exists stderr, spdy (MkExecRequest ns pod container command true true) = Ok (MkStreamed out stderr None).
Proof.
  unfold ExecInPod. destruct (spdy _) as [[stdout stderr [e|]]|e]; cbn; split; try naive_solver.
Qed.
End K8sPodExecutor.

(** ** Schedulers: CronRunnable *)

Module CronRunnable.

(** [Start] waits for the end of its context, calls [Stop] and returns; [RealScheduler.Stop]
    stops the cron and waits for its running jobs. *)
Inductive phase := Waiting | Stopping | Returned.

Record state := MkState {
  ctxDone : bool;
  stopped : bool;          (* no job is started any more *)
  running : nat;           (* jobs that have not ended *)
  at_ : phase
}.

Definition initial : state := MkState false false 0 Waiting.

Inductive step : state -> state -> Prop :=
  | step_cancel s : step s (MkState true (stopped s) (running s) (at_ s))
  | step_jobStarts s : stopped s = false -> step s (MkState (ctxDone s) (stopped s) (S (running s)) (at_ s))
  | step_jobEnds s n : running s = S n -> step s (MkState (ctxDone s) (stopped s) n (at_ s))
  | step_stop s : at_ s = Waiting -> ctxDone s = true -> step s (MkState true true (running s) Stopping)
  | step_return s : at_ s = Stopping -> running s = 0%nat -> step s (MkState (ctxDone s) (stopped s) 0 Returned).

Definition reachable : state -> Prop := rtc step initial.

Definition inv (s : state) : Prop :=
  match at_ s with
  | Waiting => stopped s = false
  | Stopping => ctxDone s = true /\ stopped s = true
  | Returned => ctxDone s = true /\ stopped s = true /\ running s = 0%nat
  end.

Lemma inv_step s s' : inv s -> step s s' -> inv s'.
Proof.
  unfold inv. intros Hi Hs. destruct Hs; cbn; destruct (at_ s); intuition congruence.
Qed.

Lemma inv_reachable s s' : rtc step s s' -> inv s -> inv s'.
Proof. induction 1; eauto using inv_step. Qed.

(** Returned for good. *)
Lemma returned_step s s' : inv s -> at_ s = Returned -> step s s' -> at_ s' = Returned.
Proof. unfold inv. intros Hi Ha Hs. rewrite Ha in Hi. destruct Hs; cbn in *; congruence. Qed.

(** When [Start] returns, the manager is stopping, no job is running and none will. *)
Theorem Start_waits s s' :
  reachable s -> at_ s = Returned -> rtc step s s' -> ctxDone s = true /\ at_ s' = Returned /\ running s' = 0%nat.
Proof.
  intros Hr Ha Hs. assert (Hi : inv s) by by apply (inv_reachable initial).
  assert (Ha' : at_ s' = Returned).
  { clear Hr. induction Hs as [|s s1 s2 Hst _ IH]; [done|]. apply IH; [by eapply returned_step | by eapply inv_step]. }
  pose proof (inv_reachable _ _ Hs Hi) as Hi'. unfold inv in Hi, Hi'. rewrite Ha in Hi. rewrite Ha' in Hi'. naive_solver.
Qed.

(** Once the context has ended, [Start] returns as soon as the running jobs have. *)
Lemma Start_returns s : inv s -> ctxDone s = true -> exists s', rtc step s s' /\ at_ s' = Returned.
Proof.
  intros Hi Hd. assert (Hstop : forall n st, running st = n -> at_ st = Stopping -> exists s', rtc step st s' /\ at_ s' = Returned).
  { induction n as [|n IH]; intros st Hn Ha.
    - eexists. split; [apply rtc_once; by apply step_return | done].
    - destruct (IH (MkState (ctxDone st) (stopped st) n (at_ st)) eq_refl Ha) as (s' & Hs & H). exists s'. split; [|done].
      eapply rtc_l; [by apply step_jobEnds | exact Hs]. }
  unfold inv in Hi. destruct (at_ s) eqn:Ha.
  - destruct (Hstop _ (MkState true true (running s) Stopping) eq_refl eq_refl) as (s' & Hs & H). exists s'. split; [|done].
    eapply rtc_l; [by apply step_stop | exact Hs].
  - by eapply Hstop.
  - by exists s.
Qed.
End CronRunnable.

(** ** The web server *)

Module WebServer.

(** [Server.Start]: [ListenAndServe] runs in a goroutine, whose error is logged; [Start]
    itself waits for the end of the context and shuts the server down. *)
Inductive listener := Serving | Failed (e : error) | Closed.
Inductive phase := Waiting | Returned (r : result unit).

Record state := MkState { ctxDone : bool; listening : listener; at_ : phase }.

Definition initial : state := MkState false Serving Waiting.

(** The answer of [Start] to that of [Shutdown]. *)
Definition shutDown (err : option error) : result unit :=
  match err with Some e => Err (ErrWrap e "failed to shutdown web ui server") | None => Ok tt end.

Inductive step : state -> state -> Prop :=
  | step_cancel s : step s (MkState true (listening s) (at_ s))
  | step_fails s e : listening s = Serving -> step s (MkState (ctxDone s) (Failed e) (at_ s))
  | step_shutdown s err : at_ s = Waiting -> ctxDone s = true ->
      step s (MkState true (match listening s with Serving => Closed | l => l end) (Returned (shutDown err))).

Lemma waits s s' : rtc step s s' -> at_ s = Waiting \/ ctxDone s = true -> at_ s' = Waiting \/ ctxDone s' = true.
Proof. induction 1 as [|s s1 s2 Hs _ IH]; [done|]. intros H. apply IH. destruct Hs; cbn; tauto. Qed.

(** [Start] returns only when the manager stops, *)
Lemma Start_stops s r : rtc step initial s -> at_ s = Returned r -> ctxDone s = true.
Proof.
  intros Hr Ha. destruct (waits _ _ Hr) as [H|H]; [by left | congruence | done].
Qed.

(** so that a server that cannot listen, on a port that is taken, leaves the operator
    running without its web interface and its API: no one is told. *)
Lemma Start_hidesFailure e : exists s, rtc step initial s /\ listening s = Failed e /\ at_ s = Waiting /\
  forall s', rtc step s s' -> ctxDone s' = false -> at_ s' = Waiting.
Proof.
  exists (MkState false (Failed e) Waiting). split_and!; [|done..|].
  - apply rtc_once. by apply (step_fails initial e).
  - intros s' Hs Hd. destruct (waits _ _ Hs) as [H|H]; [by left | done | congruence].
Qed.
End WebServer.
