(* ===== verification/Metrics.v ===== *)
(** * Metrics (pkg/metrics)

    The recorder of the controllers: counters and histograms with one label.  The
    library of Prometheus is an interface ([Prometheus]); a recorder that does nothing
    has the same operations ([Recorder]). *)

From S2P Require Import Prelude GoBase GoLib.

Open Scope Z_scope.

(** ** The library *)

(** Families of counters and of histograms with one label: what a label has counted,
    and what it has observed, oldest first. *)
Class Prometheus := {
  CounterVec : Type;
  HistogramVec : Type;
  newCounter : CounterVec;
  newHistogram : HistogramVec;
  Inc : string -> CounterVec -> CounterVec;                      (* WithLabelValues(_).Inc() *)
  Observe : string -> Duration -> HistogramVec -> HistogramVec;  (* WithLabelValues(_).Observe(_.Seconds()) *)
  counted : CounterVec -> string -> Z;
  observed : HistogramVec -> string -> list Duration
}.

Class PrometheusLaws {PR : Prometheus} : Prop := {
  counted_new : forall l, counted newCounter l = 0;
  observed_new : forall l, observed newHistogram l = [];
  counted_inc : forall v l l', counted (Inc l v) l' = counted v l' + (if (l =? l')%string then 1 else 0);
  observed_observe : forall v l d l', observed (Observe l d v) l' = observed v l' ++ (if (l =? l')%string then [d] else [])
}.

(** ** The interface of the controllers *)

Class Recorder := {
  recorder : Type;
  RecordReconcile : string -> option error -> Duration -> recorder -> recorder;
  RecordPluginAPICall : string -> option error -> Duration -> recorder -> recorder;
  RecordSolverRun : string -> option error -> Duration -> recorder -> recorder;
  RecordUpdate : bool -> recorder -> recorder
}.

(** The calls of the interface. *)
Inductive record :=
  | Reconcile (controller : string) (err : option error) (duration : Duration)
  | PluginAPICall (source : string) (err : option error) (duration : Duration)
  | SolverRun (solverType : string) (err : option error) (duration : Duration)
  | Update (success : bool).

Definition apply_record {RC : Recorder} (r : recorder) (x : record) : recorder :=
  match x with
  | Reconcile c e d => RecordReconcile c e d r
  | PluginAPICall s e d => RecordPluginAPICall s e d r
  | SolverRun t e d => RecordSolverRun t e d r
  | Update b => RecordUpdate b r
  end.

(** ** Nothing *)

Module NoopRecorder.
Definition noop : Recorder := {|
  recorder := unit;
  RecordReconcile _ _ _ r := r;
  RecordPluginAPICall _ _ _ r := r;
  RecordSolverRun _ _ _ r := r;
  RecordUpdate _ r := r
|}.
End NoopRecorder.

(** ** Prometheus *)

(** The metrics of one kind of event. *)
Record family {PR : Prometheus} := MkFamily {
  fmTotal : CounterVec;
  fmErrors : CounterVec;
  fmDuration : HistogramVec
}.

Section recorder.
Context {PR : Prometheus}.

Record PrometheusRecorder := MkPrometheusRecorder {
  prReconcile : family;
  prPluginAPI : family;
  prSolver : family;
  prUpdates : CounterVec
}.

Definition newFamily : family := MkFamily PR newCounter newCounter newHistogram.

Definition NewPrometheusRecorder : PrometheusRecorder := MkPrometheusRecorder newFamily newFamily newFamily newCounter.

(** The bodies of the first three operations. *)
Definition recordFamily (label : string) (err : option error) (d : Duration) (f : family) : family :=
  MkFamily PR (Inc label (fmTotal f))
    (match err with Some _ => Inc label (fmErrors f) | None => fmErrors f end)
    (Observe label d (fmDuration f)).

Definition prometheus : Recorder := {|
  recorder := PrometheusRecorder;
  RecordReconcile c e d r := MkPrometheusRecorder (recordFamily c e d (prReconcile r)) (prPluginAPI r) (prSolver r) (prUpdates r);
  RecordPluginAPICall s e d r := MkPrometheusRecorder (prReconcile r) (recordFamily s e d (prPluginAPI r)) (prSolver r) (prUpdates r);
  RecordSolverRun t e d r := MkPrometheusRecorder (prReconcile r) (prPluginAPI r) (recordFamily t e d (prSolver r)) (prUpdates r);
  RecordUpdate b r := MkPrometheusRecorder (prReconcile r) (prPluginAPI r) (prSolver r) (Inc (if b then "success" else "failure") (prUpdates r))
|}.

(** The names under which the metrics are registered. *)
Definition metricNames : list string :=
  ["minecraft_operator_reconcile_total"; "minecraft_operator_reconcile_errors_total"; "minecraft_operator_reconcile_duration_seconds";
   "minecraft_operator_plugin_api_requests_total"; "minecraft_operator_plugin_api_errors_total"; "minecraft_operator_plugin_api_duration_seconds";
   "minecraft_operator_solver_runs_total"; "minecraft_operator_solver_errors_total"; "minecraft_operator_solver_duration_seconds";
   "minecraft_operator_updates_total"].

(** [MustRegister] does not panic because of a name that is used twice. *)
Lemma metricNames_distinct : NoDup metricNames.
Proof. by apply (bool_decide_unpack _). Qed.

(** ** What is counted *)

(** The calls of one family with a label: the error and the duration. *)
Definition reconcileOf (l : string) (x : record) : list (option error * Duration) :=
  match x with Reconcile c e d => if (c =? l)%string then [(e, d)] else [] | _ => [] end.
Definition pluginAPIOf (l : string) (x : record) : list (option error * Duration) :=
  match x with PluginAPICall s e d => if (s =? l)%string then [(e, d)] else [] | _ => [] end.
Definition solverOf (l : string) (x : record) : list (option error * Duration) :=
  match x with SolverRun t e d => if (t =? l)%string then [(e, d)] else [] | _ => [] end.
Definition updateOf (l : string) (x : record) : list bool :=
  match x with Update b => if ((if b then "success" else "failure") =? l)%string then [b] else [] | _ => [] end.

(** A family shows these calls. *)
Record shows (f : family) (l : string) (calls : list (option error * Duration)) : Prop := {
  sh_total : counted (fmTotal f) l = Z.of_nat (length calls);
  sh_errors : counted (fmErrors f) l = Z.of_nat (length (List.filter (fun c => match c.1 with Some _ => true | None => false end) calls));
  sh_durations : observed (fmDuration f) l = map snd calls
}.

Context {PRL : PrometheusLaws}.

Lemma newFamily_shows l : shows newFamily l [].
Proof. split; cbn; [apply counted_new | apply counted_new | apply observed_new]. Qed.

Lemma recordFamily_shows label e d f l calls :
  shows f l calls -> shows (recordFamily label e d f) l (calls ++ (if (label =? l)%string then [(e, d)] else [])).
Proof.
  intros [H1 H2 H3]. unfold recordFamily. split; cbn [fmTotal fmErrors fmDuration].
  - rewrite counted_inc, H1, length_app. destruct (label =? l)%string; cbn; lia.
  - rewrite List.filter_app, length_app. destruct e as [e|]; rewrite ?counted_inc, H2; destruct (label =? l)%string; cbn; lia.
  - rewrite observed_observe, H3, map_app. by destruct (label =? l)%string.
Qed.

(** After any calls, every metric shows exactly the calls with its label, in order: the
    total and the number of durations agree, and the errors are those of the calls
    that had one. *)
Theorem recorder_correct (calls : list record) l :
  let r := fold_left (apply_record (RC := prometheus)) calls NewPrometheusRecorder in
  shows (prReconcile r) l (flat_map (reconcileOf l) calls) /\
  shows (prPluginAPI r) l (flat_map (pluginAPIOf l) calls) /\
  shows (prSolver r) l (flat_map (solverOf l) calls) /\
  counted (prUpdates r) l = Z.of_nat (length (flat_map (updateOf l) calls)).
Proof.
  induction calls as [|x calls IH] using rev_ind; [cbn; split_and!; [apply newFamily_shows..|apply counted_new]|].
  rewrite fold_left_app, !flat_map_app. cbn [fold_left flat_map]. rewrite !app_nil_r. destruct IH as (H1 & H2 & H3 & H4).
  destruct x as [c e d|s e d|t e d|b]; cbn [apply_record RecordReconcile RecordPluginAPICall RecordSolverRun RecordUpdate prometheus
    prReconcile prPluginAPI prSolver prUpdates reconcileOf pluginAPIOf solverOf updateOf]; rewrite ?app_nil_r; split_and!; try done;
    try by apply recordFamily_shows.
  rewrite counted_inc, H4, length_app. destruct (_ =? l)%string; cbn; lia.
Qed.

(** Errors never exceed the total. *)
Lemma shows_errors f l calls : shows f l calls -> 0 <= counted (fmErrors f) l <= counted (fmTotal f) l.
Proof. intros [-> -> _]. pose proof (List.filter_length_le (fun c : option error * Duration => match c.1 with Some _ => true | None => false end) calls). lia. Qed.
End recorder.

(** ** An example *)

(** The families as functions of the label. *)
Module FunctionMetrics.
Definition prom : Prometheus := {|
  CounterVec := string -> Z;
  HistogramVec := string -> list Duration;
  newCounter _ := 0;
  newHistogram _ := [];
  Inc l v l' := v l' + (if (l =? l')%string then 1 else 0);
  Observe l d v l' := v l' ++ (if (l =? l')%string then [d] else []);
  counted v := v;
  observed v := v
|}.

Lemma prom_laws : PrometheusLaws (PR := prom).
Proof. by split. Qed.

Lemma recorder_correct_witness :
  let calls := [Reconcile "plugin" None Second; Update true; Reconcile "plugin" (Some (ErrNew "conflict")) Minute; Reconcile "backup" None Second] in
  counted (Prometheus := prom) (fmErrors (prReconcile (PR := prom) (fold_left (apply_record (RC := prometheus)) calls NewPrometheusRecorder))) "plugin" = 1.
Proof.
  intros calls. destruct (recorder_correct (PRL := prom_laws) calls "plugin") as ([_ H _] & _). exact H.
Defined.
End FunctionMetrics.
