(* ===== verification/Startup.v ===== *)
(** * Start-up (cmd/main.go, internal/crdmanager/manager.go, the SetupWithManager methods)

    The operator parses its flags, applies the embedded custom resource definitions and
    waits until the cluster has established them, sets up the controllers, schedulers,
    webhooks and the web interface, and runs the manager; any failure before ends the
    process.  What it asks of its libraries is an effect of its own ([Boot]). *)

From S2P Require Import Prelude GoBase Strings GoLib Effects.
From Stdlib Require Import Ascii.

Open Scope Z_scope.

(** ** Resources and what can be set up *)

Inductive kind := KPlugin | KPaperMCServer | KStatefulSet | KService | KNetworkPolicy | KTCPRoute | KUDPRoute | KHTTPRoute.

#[export] Instance kind_eq_dec : EqDecision kind.
Proof. solve_decision. Defined.

(** Which changes of the main resource a controller is told. *)
Inductive changes := EveryChange | GenerationOrAnnotations.

(** What is given to [ctrl.NewControllerManagedBy(mgr)]. *)
Record controllerSpec := MkController {
  ctName : string;
  ctFor : kind;
  ctPredicate : changes;
  ctOwns : list kind;
  ctWatches : list kind
}.

(** The certificate of a server: directory, name and key file. *)
Record CertFiles := MkCertFiles { cfDir : string; cfName : string; cfKey : string }.

Record MetricsOptions := MkMetricsOptions {
  moBindAddress : string;
  moSecureServing : bool;
  moFiltered : bool;  (* authentication and authorization of requests *)
  moNextProtos : option (list string);
  moCert : option CertFiles
}.

Record WebhookOptions := MkWebhookOptions { woNextProtos : option (list string); woCert : option CertFiles }.

Record ManagerOptions := MkManagerOptions {
  mgMetrics : MetricsOptions;
  mgWebhook : WebhookOptions;
  mgHealthProbeBindAddress : string;
  mgLeaderElection : bool;
  mgLeaderElectionID : string
}.

(** The two cron schedulers. *)
Inductive scheduler := BackupCron | UpdateCron.

(** What is added to the manager to run with it. *)
Inductive runnable := CronRunnable (s : scheduler) | WebUI (namespace bindAddress : string).

(** The calls of libraries that can fail. *)
Inductive step :=
  | GetConfig
  | NewManager (o : ManagerOptions)
  | NewClient
  | Complete (c : controllerSpec)
  | NewClientset
  | Add (r : runnable)
  | NewWebhook (k : kind)
  | AddHealthzCheck (name : string)
  | AddReadyzCheck (name : string)
  | StartManager.

Inductive breq :=
  | BStep (s : step)
  | BCronStart (s : scheduler)                 (* starts the goroutine of a scheduler *)
  | BApply (kind name : string)                (* server-side apply of a document, with force *)
  | BGet (name : string)                       (* the conditions of a definition: type and status *)
  | BWait.                                     (* [select] on the end of the context and a timer *)

Definition bans (r : breq) : Type :=
  match r with
  | BStep _ | BApply _ _ => result unit
  | BCronStart _ => unit
  | BGet _ => result (list (string * string))
  | BWait => option error                      (* the error of the context, if it has ended *)
  end.

#[export] Instance Boot : Effect := {| req := breq; ans := bans |}.

Definition boot (r : breq) : prog (bans r) := call (E := Boot) r.

(** ** crdmanager *)

Module CRDManager.

Definition pollInterval : Duration := Second / 2.

(** A document: [unstructured.Unstructured], as far as it is looked at. *)
Record Unstructured := MkUnstructured { unKind : string; unName : string }.

(** An entry of the embedded directory: what reading it gives, and the documents that
    are decoded before the end of the file or the first error. *)
Record dirEntry := MkDirEntry {
  deName : string;
  deIsDir : bool;
  deData : result (list Unstructured * option error)
}.

Definition isCRDFile (e : dirEntry) : bool := negb (deIsDir e) && HasSuffix (deName e) ".yaml".

Section manager.
(** [crdFS.ReadDir("crds")] *)
Context (crdDir : result (list dirEntry)).

(** The documents of a file; those without a name are left out. *)
Fixpoint applyDocs (docs : list Unstructured) (err : option error) : prog (result unit) :=
  match docs with
  | [] => Ret match err with Some e => Err (ErrWrap e "failed to decode YAML") | None => Ok tt end
  | u :: docs =>
      if (unName u =? "")%string then applyDocs docs err
      else
        x <- boot (BApply (unKind u) (unName u)) ;;
        match x with
        | Err e => Ret (Err (ErrWrap e ("failed to apply " +:+ unKind u +:+ "/" +:+ unName u)))
        | Ok _ => applyDocs docs err
        end
  end.

Definition applyFile (entry : dirEntry) : prog (result unit) :=
  match deData entry with
  | Err e => Ret (Err (ErrWrap e "failed to read file"))
  | Ok (docs, err) => applyDocs docs err
  end.

Fixpoint applyEntries (entries : list dirEntry) : prog (result unit) :=
  match entries with
  | [] => Ret (Ok tt)
  | entry :: entries =>
      if negb (isCRDFile entry) then applyEntries entries
      else
        x <- applyFile entry ;;
        match x with
        | Err e => Ret (Err (ErrWrap e ("failed to apply CRD file " +:+ deName entry)))
        | Ok _ => applyEntries entries
        end
  end.

Definition Apply : prog (result unit) :=
  match crdDir with
  | Err e => Ret (Err (ErrWrap e "failed to read embedded CRDs directory"))
  | Ok entries => applyEntries entries
  end.

Definition isCRDEstablished (name : string) : prog (result bool) :=
  x <- boot (BGet name) ;;
  Ret match x with
      | Err e => Err (ErrWrap e "failed to get CRD")
      | Ok conditions => Ok (existsb (fun c => (c.1 =? "Established")%string && (c.2 =? "True")%string) conditions)
      end.

Definition namedDocs (docs : list Unstructured) : list string :=
  List.filter (fun n => negb (n =? "")%string) (map unName docs).

Fixpoint namesOf (entries : list dirEntry) (names : list string) : result (list string) :=
  match entries with
  | [] => Ok names
  | entry :: entries =>
      if negb (isCRDFile entry) then namesOf entries names
      else
        match deData entry with
        | Err e => Err (ErrWrap e ("failed to read " +:+ deName entry))
        | Ok (_, Some e) => Err (ErrWrap e ("failed to decode " +:+ deName entry))
        | Ok (docs, None) => namesOf entries (names ++ namedDocs docs)
        end
  end.

Definition embeddedCRDNames : result (list string) :=
  match crdDir with
  | Err e => Err (ErrWrap e "failed to read embedded CRDs directory")
  | Ok entries => namesOf entries []
  end.

(** One round over the names, up to the first that is not established. *)
Fixpoint allEstablished (names : list string) : prog (result bool) :=
  match names with
  | [] => Ret (Ok true)
  | name :: names =>
      x <- isCRDEstablished name ;;
      match x with
      | Err e => Ret (Err (ErrWrap e ("failed to check CRD " +:+ name)))
      | Ok false => Ret (Ok false)
      | Ok true => allEstablished names
      end
  end.

(** The loop; [None]: more rounds than the fuel. *)
Fixpoint poll (fuel : nat) (names : list string) : prog (option (result unit)) :=
  match fuel with
  | O => Ret None
  | S fuel =>
      x <- allEstablished names ;;
      match x with
      | Err e => Ret (Some (Err e))
      | Ok true => Ret (Some (Ok tt))
      | Ok false =>
          w <- boot BWait ;;
          match w with
          | Some e => Ret (Some (Err (ErrWrap e "timed out waiting for CRDs to become established")))
          | None => poll fuel names
          end
      end
  end.

Definition WaitEstablished (fuel : nat) : prog (option (result unit)) :=
  match embeddedCRDNames with
  | Err e => Ret (Some (Err e))
  | Ok names => poll fuel names
  end.

Definition EnsureCRDs (fuel : nat) : prog (option (result unit)) :=
  x <- Apply ;;
  match x with
  | Err e => Ret (Some (Err (ErrWrap e "failed to apply CRDs")))
  | Ok _ =>
      w <- WaitEstablished fuel ;;
      Ret match w with
          | Some (Err e) => Some (Err (ErrWrap e "failed waiting for CRDs to become established"))
          | w => w
          end
  end.
End manager.

(** ** What is established *)

(** The definition that an event has applied, and that it has found established. *)
Definition appliedName (e : event) : option string :=
  match e with existT (BApply _ name) (Ok _) => Some name | _ => None end.

Definition established (conditions : list (string * string)) : bool :=
  existsb (fun c => (c.1 =? "Established")%string && (c.2 =? "True")%string) conditions.

Definition establishedName (e : event) : option string :=
  match e with existT (BGet name) (Ok conditions) => if established conditions then Some name else None | _ => None end.

(** The library, the cluster or the context failed. *)
Definition failed (e : event) : bool :=
  match e with
  | existT (BStep _) (Err _) | existT (BApply _ _) (Err _) | existT (BGet _) (Err _) | existT BWait (Some _) => true
  | _ => false
  end.

(** A wait that ended with the timer. *)
Definition elapsed (e : event) : bool := match e with existT BWait None => true | _ => false end.

Definition elapses (tr : list event) : nat := length (List.filter elapsed tr).

(** The context ends in time: the waits that ended with the timer are within its timeout. *)
Definition inTime (timeout : Duration) (tr : list event) : Prop := Z.of_nat (elapses tr) * pollInterval <= timeout.

Definition enough (timeout : Duration) (fuel : nat) : Prop := timeout / pollInterval < Z.of_nat fuel.

Lemma elapses_app t1 t2 : elapses (t1 ++ t2) = (elapses t1 + elapses t2)%nat.
Proof. unfold elapses. by rewrite List.filter_app, length_app. Qed.

Lemma namesOf_acc entries names : namesOf entries names = match namesOf entries [] with Ok l => Ok (names ++ l) | Err e => Err e end.
Proof.
  revert names. induction entries as [|e entries IH]; intros names; cbn [namesOf]; [by rewrite app_nil_r|].
  destruct (negb (isCRDFile e)); [apply IH|]. destruct (deData e) as [[docs [?|]]|?]; [done| |done].
  rewrite (IH (names ++ _)), (IH ([] ++ _)). destruct (namesOf entries []); [|done]. by rewrite <- app_assoc.
Qed.

(** Either every document was applied in order, or something failed. *)
Lemma applyDocs_spec docs err tr r :
  runs (applyDocs docs err) tr r ->
  elapses tr = 0%nat /\
  match r with
  | Ok _ => err = None /\ map appliedName tr = map Some (namedDocs docs)
  | Err _ => (exists e, e ∈ tr /\ failed e = true) \/ err <> None
  end.
Proof.
  revert tr. induction docs as [|u docs IH]; intros tr; cbn [applyDocs]; unfold namedDocs; cbn [map List.filter].
  { intros [-> ->]. destruct err; split; auto. }
  destruct (unName u =? "")%string; cbn [negb]; [apply IH|].
  intros (x & t & -> & H). destruct x as [[]|e].
  - apply IH in H as [He H]. split; [done|]. destruct r as [|e']; [destruct H as [-> H]; split; [done|]; cbn; by rewrite H|].
    destruct H as [(e & Hin & Hf)|?]; [left; exists e; split; [by right | done] | by right].
  - destruct H as [-> ->]. split; [done|]. left. eexists. split; [left | done].
Qed.

Section correct.
Context (crdDir : result (list dirEntry)).

Lemma applyEntries_spec entries tr r :
  runs (applyEntries entries) tr r ->
  elapses tr = 0%nat /\
  match r with
  | Ok _ => exists names, namesOf entries [] = Ok names /\ map appliedName tr = map Some names
  | Err _ => (exists e, e ∈ tr /\ failed e = true) \/ isOk (namesOf entries []) = false
  end.
Proof.
  revert tr. induction entries as [|e entries IH]; intros tr; cbn [applyEntries namesOf].
  { intros [-> ->]. split; [done|]. by exists []. }
  destruct (negb (isCRDFile e)); [apply IH|]. intros (t1 & x & t2 & -> & H1 & H2)%runs_bind. unfold applyFile in H1.
  destruct (deData e) as [[docs err]|e']; [|destruct H1 as [-> ->], H2 as [-> ->]; by split; [|right]].
  apply applyDocs_spec in H1 as [Ht1 H1]. destruct x as [[]|e'].
  - destruct H1 as [-> H1]. apply IH in H2 as [Ht2 H2]. rewrite elapses_app, Ht1, Ht2, namesOf_acc. split; [done|].
    destruct r as [[]|]; [|destruct H2 as [(e'' & Hin & Hf)|Hn]; [left; exists e''; set_solver | right; by destruct (namesOf entries [])]].
    destruct H2 as (names & -> & H2). eexists. split; [done|]. by rewrite !map_app, H1, H2.
  - destruct H2 as [-> ->]. rewrite app_nil_r. split; [done|]. destruct H1 as [?|Hn]; [by left | right; by destruct err].
Qed.

Lemma Apply_spec tr r :
  runs (Apply crdDir) tr r ->
  elapses tr = 0%nat /\
  match r with
  | Ok _ => exists names, embeddedCRDNames crdDir = Ok names /\ map appliedName tr = map Some names
  | Err _ => (exists e, e ∈ tr /\ failed e = true) \/ isOk (embeddedCRDNames crdDir) = false
  end.
Proof. unfold Apply, embeddedCRDNames. destruct crdDir as [entries|]; [apply applyEntries_spec | intros [-> ->]; by split; [|right]]. Qed.

Lemma allEstablished_spec names tr r :
  runs (allEstablished names) tr r ->
  elapses tr = 0%nat /\
  match r with
  | Ok true => map establishedName tr = map Some names
  | Ok false => True
  | Err _ => exists e, e ∈ tr /\ failed e = true
  end.
Proof.
  revert tr. induction names as [|n names IH]; intros tr; cbn [allEstablished]; [by intros [-> ->]|].
  intros (x & t & -> & H). cbn [bind] in H. destruct x as [conditions|e].
  - change (existsb _ conditions) with (established conditions) in H. destruct (established conditions) eqn:Hc.
    + apply IH in H as [Ht H]. split; [done|]. destruct r as [[]|err]; [|done|].
      * cbn [map]. rewrite H. cbn. by rewrite Hc.
      * destruct H as (e & Hin & Hf). exists e. split; [by right | done].
    + by destruct H as [-> ->].
  - destruct H as [-> ->]. split; [done|]. eexists. split; [left | done].
Qed.

(** The last round found everything established; or something failed; or the context
    outlived the fuel. *)
Lemma poll_spec fuel names tr r :
  runs (poll fuel names) tr r ->
  match r with
  | None => elapses tr = fuel
  | Some (Ok _) => exists t1 t2, tr = t1 ++ t2 /\ map establishedName t2 = map Some names
  | Some (Err _) => exists e, e ∈ tr /\ failed e = true
  end.
Proof.
  revert tr. induction fuel as [|fuel IH]; intros tr; cbn [poll]; [by intros [-> ->]|].
  intros (t1 & x & t2 & -> & [Ht1 H1]%allEstablished_spec & H2)%runs_bind. destruct x as [[]|e].
  - destruct H2 as [-> ->]. exists [], t1. split; [by rewrite app_nil_r | done].
  - destruct H2 as (w & t & -> & H2). destruct w as [e|].
    + destruct H2 as [-> ->]. eexists. split; [apply elem_of_app; right; left | done].
    + apply IH in H2. destruct r as [[[]|e]|].
      * destruct H2 as (t3 & t4 & -> & H2). exists (t1 ++ Ev (E := Boot) BWait None :: t3), t4. by rewrite <- app_assoc.
      * destruct H2 as (e' & Hin & Hf). exists e'. split; [set_solver | done].
      * rewrite elapses_app, Ht1. unfold elapses in *. cbn. by rewrite H2.
  - destruct H2 as [-> ->]. by rewrite app_nil_r.
Qed.

(** Every definition was applied and then, after the last wait, found established. *)
Definition ensured (tr : list event) : Prop :=
  exists names t1 t2 t3, embeddedCRDNames crdDir = Ok names /\ tr = t1 ++ t2 ++ t3 /\
    map appliedName t1 = map Some names /\ map establishedName t3 = map Some names.

Lemma EnsureCRDs_spec timeout fuel tr r :
  runs (EnsureCRDs crdDir fuel) tr r -> inTime timeout tr -> enough timeout fuel ->
  exists x, r = Some x /\
    match x with
    | Ok _ => ensured tr
    | Err _ => (exists e, e ∈ tr /\ failed e = true) \/ isOk (embeddedCRDNames crdDir) = false
    end.
Proof.
  intros (t1 & x & t2 & -> & [Ht1 H1]%Apply_spec & H2)%runs_bind Ht Hf. destruct x as [[]|e].
  2: { destruct H2 as [-> ->]. rewrite app_nil_r. by eexists. }
  destruct H1 as (names & Hn & H1). apply runs_bind in H2 as (t3 & w & t4 & -> & H2 & -> & ->).
  rewrite app_nil_r in *. unfold WaitEstablished in H2. rewrite Hn in H2. apply poll_spec in H2.
  destruct w as [[[]|e]|]; [| |exfalso].
  - eexists. split; [done|]. destruct H2 as (t2 & t5 & -> & H2). by exists names, t1, t2, t5.
  - eexists. split; [done|]. left. destruct H2 as (e' & Hin & Hfl). exists e'. split; [set_solver | done].
  - unfold inTime, enough in *. rewrite elapses_app, Ht1, H2 in Ht. cbn [Nat.add] in Ht.
    rewrite Z.mul_comm in Ht. apply Z.div_le_lower_bound in Ht; [lia | done].
Qed.

(** A failure is the last thing that happens, and the answer says so. *)
Fixpoint fatal {A} (bad : A -> bool) (p : prog A) : Prop :=
  match p with
  | Ret _ => True
  | Call r k => forall y, fatal bad (k y) /\ (failed (Ev r y) = true -> exists a, k y = Ret a /\ bad a = true)
  end.

Lemma fatal_bind {A B} (bad : A -> bool) (bad' : B -> bool) (p : prog A) (f : A -> prog B) :
  fatal bad p -> (forall a, bad a = true -> exists b, f a = Ret b /\ bad' b = true) -> (forall a, fatal bad' (f a)) ->
  fatal bad' (bind p f).
Proof.
  intros Hp Hb Hf. induction p as [a|r k IH]; cbn [bind fatal]; [apply Hf|]. intros y. destruct (Hp y) as [Hk Hl].
  split; [by apply IH|]. intros (a & -> & Ha)%Hl. cbn [bind]. by apply Hb.
Qed.

Lemma fatal_runs {A} (bad : A -> bool) (p : prog A) tr r t1 e t2 :
  fatal bad p -> runs p tr r -> tr = t1 ++ e :: t2 -> failed e = true -> t2 = [] /\ bad r = true.
Proof.
  revert tr t1. induction p as [a|q k IH]; intros tr t1 Hp; cbn [runs]; [by intros [-> _] ?%app_cons_not_nil|].
  intros (y & t & -> & H) Heq Hfl. destruct (Hp y) as [Hk Hl]. destruct t1 as [|e' t1]; injection Heq as ? Heq; [subst e|by eapply IH].
  destruct (Hl Hfl) as (a & Ha & Hbad). rewrite Ha in H. destruct H as [-> ->]. by subst.
Qed.

Definition isErr {A} (r : result A) : bool := negb (isOk r).
Definition isErr' {A} (r : option (result A)) : bool := match r with Some r => isErr r | None => false end.

Lemma Apply_fatal : fatal isErr (Apply crdDir).
Proof.
  unfold Apply. destruct crdDir as [entries|]; [|done]. induction entries as [|e entries IH]; cbn [applyEntries]; [done|].
  destruct (negb _); [done|]. apply (fatal_bind isErr); [|intros [[]|]; [done | by eexists]|intros [[]|]; done].
  unfold applyFile. destruct (deData e) as [[docs err]|]; [|done]. clear IH. induction docs as [|u docs IH]; cbn [applyDocs]; [done|].
  destruct (_ =? _)%string; [done|]. intros [[]|e']; [by split | split; [done | by eexists]].
Qed.

Lemma allEstablished_fatal names : fatal isErr (allEstablished names).
Proof.
  induction names as [|n names IH]; cbn [allEstablished]; [done|].
  intros [c|e]; cbn [bind]; split; try done; [by destruct (existsb _ c) | by eexists].
Qed.

Lemma poll_fatal fuel names : fatal isErr' (poll fuel names).
Proof.
  induction fuel as [|fuel IH]; cbn [poll]; [done|].
  apply (fatal_bind isErr); [apply allEstablished_fatal | intros [|]; [done | by eexists] |].
  intros [[]|]; [done| |done]. intros [w|]; split; try done. by eexists.
Qed.

Lemma EnsureCRDs_fatal fuel : fatal isErr' (EnsureCRDs crdDir fuel).
Proof.
  apply (fatal_bind isErr); [apply Apply_fatal | intros [|]; [done | by eexists] |]. intros [[]|]; [|done].
  apply (fatal_bind isErr'); [|intros [[]|]; [done | by eexists | done] | done]. unfold WaitEstablished.
  destruct (embeddedCRDNames crdDir); [apply poll_fatal | done].
Qed.

(** Nothing is set up meanwhile. *)
Definition setsUp (r : breq) : bool := match r with BStep _ | BCronStart _ => true | _ => false end.

Lemma applyEntries_avoids entries : avoids setsUp (applyEntries entries).
Proof.
  induction entries as [|e entries IH]; cbn [applyEntries]; [done|]. destruct (negb _); [done|].
  apply avoids_bind; [|intros [[]|]; done]. unfold applyFile. destruct (deData e) as [[docs err]|]; [|done].
  induction docs as [|u docs IHd]; cbn [applyDocs]; [done|]. destruct (_ =? _)%string; [done|]. split; [done|]. intros [[]|]; [exact IHd | done].
Qed.

Lemma poll_avoids fuel names : avoids setsUp (poll fuel names).
Proof.
  induction fuel as [|fuel IH]; cbn [poll]; [done|]. apply avoids_bind.
  - clear IH. induction names as [|n l IHn]; cbn [allEstablished]; [done|]. split; [done|]. intros [c|e]; cbn [bind]; [|done]. by destruct (existsb _ c).
  - intros [[]|]; [done| |done]. split; [done|]. by intros [].
Qed.

Lemma EnsureCRDs_avoids fuel : avoids setsUp (EnsureCRDs crdDir fuel).
Proof.
  apply avoids_bind; [unfold Apply; destruct crdDir; [apply applyEntries_avoids | done]|]. intros [[]|]; [|done].
  apply avoids_bind; [|intros [[]|]; done]. unfold WaitEstablished. destruct (embeddedCRDNames crdDir); [apply poll_avoids | done].
Qed.
End correct.
End CRDManager.
