(* ===== verification/Main.v ===== *)
(** * The process (cmd/main.go)

    Flags, the options that they turn into, and the sequence of what is set up.  The
    process ends with an exit code. *)

From S2P Require Import Prelude GoBase Strings GoLib Effects Startup.
From Stdlib Require Import Ascii.

Open Scope Z_scope.

(** ** Flags *)

Record Flags := MkFlags {
  flMetricsAddr : string;
  flProbeAddr : string;
  flLeaderElection : bool;
  flSecureMetrics : bool;
  flWebhookCertPath : string;
  flWebhookCertName : string;
  flWebhookCertKey : string;
  flMetricsCertPath : string;
  flMetricsCertName : string;
  flMetricsCertKey : string;
  flHTTP2 : bool;
  flWebuiAddr : string;
  flWebuiNamespace : string;
  flWebuiEnabled : bool;
  flManageCRDs : bool;
  flWebhooks : bool;
  flLogLevel : string;
  flLogFormat : string
}.
#[export] Instance eta_Flags : Eta Flags := fun r =>
  MkFlags (flMetricsAddr r) (flProbeAddr r) (flLeaderElection r) (flSecureMetrics r) (flWebhookCertPath r) (flWebhookCertName r)
    (flWebhookCertKey r) (flMetricsCertPath r) (flMetricsCertName r) (flMetricsCertKey r) (flHTTP2 r) (flWebuiAddr r)
    (flWebuiNamespace r) (flWebuiEnabled r) (flManageCRDs r) (flWebhooks r) (flLogLevel r) (flLogFormat r).

Definition defaultFlags : Flags :=
  MkFlags "0" ":8081" false true "" "tls.crt" "tls.key" "" "tls.crt" "tls.key" false ":8082" "" true true false "info" "json".

Inductive flagValue :=
  | StringVar (set : string -> Flags -> Flags)
  | BoolVar (set : bool -> Flags -> Flags).

Definition flagTable : list (string * flagValue) :=
  [("metrics-bind-address", StringVar (fun v fl => fl <| flMetricsAddr := v |>));
   ("health-probe-bind-address", StringVar (fun v fl => fl <| flProbeAddr := v |>));
   ("leader-elect", BoolVar (fun v fl => fl <| flLeaderElection := v |>));
   ("metrics-secure", BoolVar (fun v fl => fl <| flSecureMetrics := v |>));
   ("webhook-cert-path", StringVar (fun v fl => fl <| flWebhookCertPath := v |>));
   ("webhook-cert-name", StringVar (fun v fl => fl <| flWebhookCertName := v |>));
   ("webhook-cert-key", StringVar (fun v fl => fl <| flWebhookCertKey := v |>));
   ("metrics-cert-path", StringVar (fun v fl => fl <| flMetricsCertPath := v |>));
   ("metrics-cert-name", StringVar (fun v fl => fl <| flMetricsCertName := v |>));
   ("metrics-cert-key", StringVar (fun v fl => fl <| flMetricsCertKey := v |>));
   ("enable-http2", BoolVar (fun v fl => fl <| flHTTP2 := v |>));
   ("webui-bind-address", StringVar (fun v fl => fl <| flWebuiAddr := v |>));
   ("webui-namespace", StringVar (fun v fl => fl <| flWebuiNamespace := v |>));
   ("webui-enabled", BoolVar (fun v fl => fl <| flWebuiEnabled := v |>));
   ("manage-crds", BoolVar (fun v fl => fl <| flManageCRDs := v |>));
   ("enable-webhooks", BoolVar (fun v fl => fl <| flWebhooks := v |>));
   ("log-level", StringVar (fun v fl => fl <| flLogLevel := v |>));
   ("log-format", StringVar (fun v fl => fl <| flLogFormat := v |>))].

(** [strconv.ParseBool] *)
Definition ParseBool (s : string) : option bool :=
  if bool_decide (s ∈ ["1"; "t"; "T"; "true"; "TRUE"; "True"]) then Some true
  else if bool_decide (s ∈ ["0"; "f"; "F"; "false"; "FALSE"; "False"]) then Some false
  else None.

(** [flag.Parse] of the package flag: the flags, or the exit code of the process
    (0 after the help, 2 after an error). *)
Inductive parsed := Parsed (fl : Flags) | Exits (code : Z).

(** The name and the value of an argument without its hyphens. *)
Definition cutFlag (s : string) : string * option string :=
  let i := IndexByte s "="%char in
  if i <? 1 then (s, None) else (str_take (Z.to_nat i) s, Some (str_drop (S (Z.to_nat i)) s)).

Definition isFlagArg (s : string) : bool := HasPrefix s "-" && (2 <=? String.length s)%nat.

Section parse.
(** The flags that libraries register for themselves, which take a value
    (controller-runtime: kubeconfig). *)
Context (libraryFlags : list string).

Definition Lookup (name : string) : option flagValue :=
  if bool_decide (name ∈ libraryFlags) then Some (StringVar (fun _ fl => fl))
  else snd <$> List.find (fun e => (e.1 =? name)%string) flagTable.

Fixpoint ParseArgs (args : list string) (fl : Flags) : parsed :=
  match args with
  | [] => Parsed fl
  | s :: args =>
      if negb (isFlagArg s) || (s =? "--")%string then Parsed fl
      else
        let s := if HasPrefix s "--" then str_drop 2 s else str_drop 1 s in
        if HasPrefix s "-" || HasPrefix s "=" then Exits 2
        else
          let '(name, value) := cutFlag s in
          match Lookup name with
          | None => Exits (if (name =? "help")%string || (name =? "h")%string then 0 else 2)
          | Some (BoolVar set) =>
              match value with
              | None => ParseArgs args (set true fl)
              | Some v => match ParseBool v with Some b => ParseArgs args (set b fl) | None => Exits 2 end
              end
          | Some (StringVar set) =>
              match value, args with
              | Some v, _ => ParseArgs args (set v fl)
              | None, v :: args => ParseArgs args (set v fl)
              | None, [] => Exits 2
              end
          end
  end.
End parse.

(** ** Logging *)

Inductive slogLevel := LevelDebug | LevelInfo | LevelWarn | LevelError.

(** The level, and is a warning printed? *)
Definition logLevel (s : string) : slogLevel * bool :=
  if (s =? "debug")%string then (LevelDebug, false)
  else if (s =? "info")%string then (LevelInfo, false)
  else if (s =? "warn")%string then (LevelWarn, false)
  else if (s =? "error")%string then (LevelError, false)
  else (LevelInfo, true).

Inductive slogHandler := TextHandler | JSONHandler.

Definition logFormat (s : string) : slogHandler * bool :=
  if (s =? "text")%string then (TextHandler, false)
  else if (s =? "json")%string then (JSONHandler, false)
  else (JSONHandler, true).

(** ** Options *)

(** The protocols that are offered in TLS, if they are restricted. *)
Definition nextProtos (fl : Flags) : option (list string) := if negb (flHTTP2 fl) then Some ["http/1.1"] else None.

Definition certFiles (dir name key : string) : option CertFiles :=
  if (0 <? String.length dir)%nat then Some (MkCertFiles dir name key) else None.

Definition managerOptions (fl : Flags) : ManagerOptions :=
  MkManagerOptions
    (MkMetricsOptions (flMetricsAddr fl) (flSecureMetrics fl) (flSecureMetrics fl) (nextProtos fl)
       (certFiles (flMetricsCertPath fl) (flMetricsCertName fl) (flMetricsCertKey fl)))
    (MkWebhookOptions (nextProtos fl) (certFiles (flWebhookCertPath fl) (flWebhookCertName fl) (flWebhookCertKey fl)))
    (flProbeAddr fl) (flLeaderElection fl) "5fdad980.mc.k8s.lex.la".

Definition uiNamespace (fl : Flags) (podNamespace : string) : string :=
  if (flWebuiNamespace fl =? "")%string then if (podNamespace =? "")%string then "default" else podNamespace
  else flWebuiNamespace fl.

(** ** The controllers *)

Section run.
(** What the REST mapper knows, the embedded files and the variable POD_NAMESPACE. *)
Context (installed : kind -> bool) (crdDir : result (list CRDManager.dirEntry)) (podNamespace : string).

Definition gatewayAPIsAvailable : bool := installed KTCPRoute.
Definition httpRouteAvailable : bool := installed KHTTPRoute.

Definition pluginController : controllerSpec := MkController "plugin" KPlugin EveryChange [] [KPaperMCServer].

Definition serverController : controllerSpec :=
  MkController "papermcserver" KPaperMCServer EveryChange
    ([KStatefulSet; KService; KNetworkPolicy] ++ (if gatewayAPIsAvailable then [KTCPRoute; KUDPRoute] else []) ++
     (if httpRouteAvailable then [KHTTPRoute] else []))
    [KPlugin].

Definition backupController : controllerSpec := MkController "backup" KPaperMCServer GenerationOrAnnotations [] [].

Definition updateController : controllerSpec := MkController "update" KPaperMCServer EveryChange [] [].

Definition perform (s : step) : prog (result unit) := boot (BStep s).

Definition PluginReconciler_SetupWithManager : prog (result unit) := perform (Complete pluginController).
Definition PaperMCServerReconciler_SetupWithManager : prog (result unit) := perform (Complete serverController).
Definition BackupReconciler_SetupWithManager : prog (result unit) :=
  boot (BCronStart BackupCron) ;;; perform (Complete backupController).
Definition UpdateReconciler_SetupWithManager : prog (result unit) :=
  boot (BCronStart UpdateCron) ;;; perform (Complete updateController).

(** ** main *)

(** An error is logged and ends the process with 1. *)
Definition orExit (p : prog (result unit)) (k : prog (option Z)) : prog (option Z) :=
  x <- p ;; match x with Err _ => Ret (Some 1) | Ok _ => k end.

Definition crdTimeout : Duration := 30 * Second.

(** Rounds of polling: more than the timeout has room for. *)
Definition pollRounds : nat := S (Z.to_nat (crdTimeout / CRDManager.pollInterval)).

Definition applyCRDs (k : prog (option Z)) : prog (option Z) :=
  orExit (perform NewClient)
    (x <- CRDManager.EnsureCRDs crdDir pollRounds ;;
     match x with
     | None => Ret None
     | Some (Err _) => Ret (Some 1)
     | Some (Ok _) => k
     end).

Definition registerWebhooks (k : prog (option Z)) : prog (option Z) :=
  orExit (perform (NewWebhook KPlugin)) (orExit (perform (NewWebhook KPaperMCServer)) k).

Definition main (fl : Flags) : prog (option Z) :=
  orExit (perform GetConfig)
  (orExit (perform (NewManager (managerOptions fl)))
  ((if flManageCRDs fl then applyCRDs else id)
  (orExit PluginReconciler_SetupWithManager
  (orExit PaperMCServerReconciler_SetupWithManager
  (orExit (perform NewClientset)
  (orExit BackupReconciler_SetupWithManager
  (orExit (perform (Add (CronRunnable BackupCron)))
  (orExit UpdateReconciler_SetupWithManager
  (orExit (perform (Add (CronRunnable UpdateCron)))
  ((if flWebhooks fl then registerWebhooks else id)
  (orExit (perform (AddHealthzCheck "healthz"))
  (orExit (perform (AddReadyzCheck "readyz"))
  ((if flWebuiEnabled fl then orExit (perform (Add (WebUI (uiNamespace fl podNamespace) (flWebuiAddr fl)))) else id)
  (orExit (perform StartManager) (Ret (Some 0)))))))))))))))).

(** The process with its arguments. *)
Definition run (libraryFlags args : list string) : prog (option Z) :=
  match ParseArgs libraryFlags args defaultFlags with
  | Exits code => Ret (Some code)
  | Parsed fl => main fl
  end.
End run.

(** ** The plan

    What the process does, as a list: every item is done if all before it succeeded. *)

Inductive item := Do (s : step) | Cron (s : scheduler) | CRDs.

Section plan.
Context (installed : kind -> bool) (crdDir : result (list CRDManager.dirEntry)) (podNamespace : string).

Definition plan (fl : Flags) : list item :=
  [Do GetConfig; Do (NewManager (managerOptions fl))] ++
  (if flManageCRDs fl then [Do NewClient; CRDs] else []) ++
  [Do (Complete pluginController); Do (Complete (serverController installed)); Do NewClientset;
   Cron BackupCron; Do (Complete backupController); Do (Add (CronRunnable BackupCron));
   Cron UpdateCron; Do (Complete updateController); Do (Add (CronRunnable UpdateCron))] ++
  (if flWebhooks fl then [Do (NewWebhook KPlugin); Do (NewWebhook KPaperMCServer)] else []) ++
  [Do (AddHealthzCheck "healthz"); Do (AddReadyzCheck "readyz")] ++
  (if flWebuiEnabled fl then [Do (Add (WebUI (uiNamespace fl podNamespace) (flWebuiAddr fl)))] else []) ++
  [Do StartManager].

(** A trace does what a list says, and the process ends with a code. *)
Inductive follows : list item -> list event -> option Z -> Prop :=
  | follows_end : follows [] [] (Some 0)
  | follows_step s l tr code : follows l tr code -> follows (Do s :: l) (Ev (E := Boot) (BStep s) (Ok tt) :: tr) code
  | follows_fails s l e : follows (Do s :: l) [Ev (E := Boot) (BStep s) (Err e)] (Some 1)
  | follows_cron s l tr code : follows l tr code -> follows (Cron s :: l) (Ev (E := Boot) (BCronStart s) tt :: tr) code
  | follows_crds l t tr code : runs (CRDManager.EnsureCRDs crdDir pollRounds) t (Some (Ok tt)) -> follows l tr code ->
      follows (CRDs :: l) (t ++ tr) code
  | follows_crdsFail l t e : runs (CRDManager.EnsureCRDs crdDir pollRounds) t (Some (Err e)) -> follows (CRDs :: l) t (Some 1)
  | follows_crdsHang l t : runs (CRDManager.EnsureCRDs crdDir pollRounds) t None -> follows (CRDs :: l) t None.

Definition performs (l : list item) (p : prog (option Z)) : Prop := forall tr code, runs p tr code -> follows l tr code.

Lemma performs_end : performs [] (Ret (Some 0)).
Proof. intros tr code [-> ->]. constructor. Qed.

Lemma performs_step s l k : performs l k -> performs (Do s :: l) (orExit (perform s) k).
Proof.
  intros Hk tr code (x & t & -> & H). cbn [bind] in H. destruct x as [[]|e]; [constructor; by apply Hk|].
  destruct H as [-> ->]. constructor.
Qed.

Lemma performs_cron s c l k : performs l k -> performs (Cron c :: Do s :: l) (orExit (boot (BCronStart c) ;;; perform s) k).
Proof.
  intros Hk tr code ([] & t & -> & x & t' & -> & H). cbn [bind] in H. constructor. destruct x as [[]|e]; [constructor; by apply Hk|].
  destruct H as [-> ->]. constructor.
Qed.

Lemma performs_crds l k : performs l k -> performs (Do NewClient :: CRDs :: l) (applyCRDs crdDir k).
Proof.
  intros Hk. apply performs_step. intros tr code (t1 & x & t2 & -> & H1 & H2)%runs_bind. destruct x as [[[]|e]|].
  - apply follows_crds; [done | by apply Hk].
  - destruct H2 as [-> ->]. rewrite app_nil_r. by apply follows_crdsFail with e.
  - destruct H2 as [-> ->]. rewrite app_nil_r. by apply follows_crdsHang.
Qed.

Lemma main_performs fl : performs (plan fl) (main installed crdDir podNamespace fl).
Proof.
  unfold plan, main, registerWebhooks. cbn [app]. do 2 apply performs_step.
  assert (Hend : performs ((if flWebuiEnabled fl then [Do (Add (WebUI (uiNamespace fl podNamespace) (flWebuiAddr fl)))] else []) ++ [Do StartManager])
    ((if flWebuiEnabled fl then orExit (perform (Add (WebUI (uiNamespace fl podNamespace) (flWebuiAddr fl)))) else id)
       (orExit (perform StartManager) (Ret (Some 0))))).
  { destruct (flWebuiEnabled fl); repeat apply performs_step; apply performs_end. }
  destruct (flManageCRDs fl); [apply performs_crds|]; cbn [app];
    do 3 apply performs_step; apply performs_cron, performs_step, performs_cron, performs_step;
    destruct (flWebhooks fl); repeat apply performs_step; exact Hend.
Qed.

(** A list in two parts: the first is done, and then the second. *)
Lemma follows_app a b tr code :
  follows (a ++ b) tr code <->
  (exists t1 t2, tr = t1 ++ t2 /\ follows a t1 (Some 0) /\ follows b t2 code) \/ (code <> Some 0 /\ follows a tr code).
Proof.
  revert tr. induction a as [|i a IH]; intros tr; cbn [app].
  { split; [intros H; left; exists [], tr; split_and!; [done | constructor | done]|].
    intros [(t1 & t2 & -> & H1 & H)|[Hc H]]; [by inversion H1 | by inversion H; subst]. }
  split.
  - intros H. inversion H as [|s l t c Hf|s l e|s l t c Hf|l t t' c Hr Hf|l t e Hr|l t Hr]; subst.
    + apply IH in Hf as [(t1 & t2 & -> & H1 & H2)|[Hc Hf]]; [left | right; split; [done | by constructor]].
      exists (Ev (E := Boot) (BStep s) (Ok tt) :: t1), t2. split_and!; [done | by constructor | done].
    + right. split; [done | constructor].
    + apply IH in Hf as [(t1 & t2 & -> & H1 & H2)|[Hc Hf]]; [left | right; split; [done | by constructor]].
      exists (Ev (E := Boot) (BCronStart s) tt :: t1), t2. split_and!; [done | by constructor | done].
    + apply IH in Hf as [(t1 & t2 & -> & H1 & H2)|[Hc Hf]]; [left | right; split; [done | by constructor]].
      exists (t ++ t1), t2. split_and!; [by rewrite app_assoc | by constructor | done].
    + right. split; [done | by eapply follows_crdsFail].
    + right. split; [done | by eapply follows_crdsHang].
  - intros [(t1 & t2 & -> & H1 & H2)|[Hc H]].
    + inversion H1 as [|s l t c Hf|s l e|s l t c Hf|l t t' c Hr Hf|l t e Hr|l t Hr]; subst; cbn [app]; rewrite <- ?app_assoc;
        constructor; try done; apply IH; left; by eexists _, _.
    + inversion H as [|s l t c Hf|s l e|s l t c Hf|l t t' c Hr Hf|l t e Hr|l t Hr]; subst;
        [constructor; apply IH; by right | constructor | constructor; apply IH; by right | constructor; [done | apply IH; by right]
        | by eapply follows_crdsFail | by eapply follows_crdsHang].
Qed.

Definition did (s : step) (tr : list event) : Prop := Ev (E := Boot) (BStep s) (Ok tt) ∈ tr.

Definition startedCron (s : scheduler) (tr : list event) : Prop := Ev (E := Boot) (BCronStart s) tt ∈ tr.

(** The steps of a trace that is complete are those of the list. *)
Lemma follows_did l tr s : follows l tr (Some 0) -> did s tr <-> Do s ∈ l.
Proof.
  intros H. remember (Some 0) as code. unfold did.
  induction H as [|s' l tr code H IH|s' l e|s' l tr code H IH|l t tr code Hr H IH|l t e Hr|l t Hr]; try done;
    rewrite ?elem_of_cons, ?elem_of_app, ?IH by done.
  - by rewrite !elem_of_nil.
  - split; (intros [He|]; [left | by right]); [by injection He as -> | by injection He as ->].
  - split; (intros [He|]; [|by right]); discriminate He.
  - split; (intros [He|]; [|by right]); [|discriminate He].
    pose proof (avoids_runs _ _ _ _ (CRDManager.EnsureCRDs_avoids crdDir pollRounds) Hr) as Ha. rewrite Forall_forall in Ha. by apply Ha in He.
Qed.

Lemma follows_cronStarted l tr s : follows l tr (Some 0) -> Cron s ∈ l -> startedCron s tr.
Proof.
  intros H. remember (Some 0) as code. unfold startedCron.
  induction H as [|s' l tr code H IH|s' l e|s' l tr code H IH|l t tr code Hr H IH|l t e Hr|l t Hr]; try done;
    rewrite ?elem_of_cons, ?elem_of_app, ?elem_of_nil; intros Hin; try done.
  - destruct Hin; [done | right; auto].
  - destruct Hin as [[= ->]|]; [by left | right; auto].
  - destruct Hin; [done | right; auto].
Qed.

(** The answer to a step. *)
Definition answered (e : event) : option (result unit) := match e with existT (BStep _) y => Some y | _ => None end.

(** What is done is on the list. *)
Lemma follows_planned l tr code s x : follows l tr code -> Ev (E := Boot) (BStep s) x ∈ tr -> Do s ∈ l.
Proof.
  assert (Hq : forall t r, runs (CRDManager.EnsureCRDs crdDir pollRounds) t r -> Ev (E := Boot) (BStep s) x ∉ t).
  { intros t r Hr He. pose proof (avoids_runs _ _ _ _ (CRDManager.EnsureCRDs_avoids crdDir pollRounds) Hr) as Ha.
    rewrite Forall_forall in Ha. by apply Ha in He. }
  induction 1 as [|s' l tr code H IH|s' l e|s' l tr code H IH|l t tr code Hr H IH|l t e Hr|l t Hr];
    rewrite ?elem_of_cons, ?elem_of_app, ?elem_of_nil; try done.
  - intros [[= -> _]|?]; auto.
  - intros [[= -> _]|[]]. by left.
  - intros [?|?]; auto. done.
  - intros [?%(Hq _ _ Hr)|?]; auto. done.
  - by intros ?%(Hq _ _ Hr).
  - by intros ?%(Hq _ _ Hr).
Qed.

(** A failure is the last thing that happens. *)
Lemma follows_failed l tr code t1 e t2 :
  follows l tr code -> tr = t1 ++ e :: t2 -> CRDManager.failed e = true -> t2 = [] /\ code = Some 1.
Proof.
  intros H. revert t1. induction H as [|s' l tr code H IH|s' l e'|s' l tr code H IH|l t tr code Hr H IH|l t e' Hr|l t Hr]; intros t1 Heq Hf.
  - by apply app_cons_not_nil in Heq.
  - destruct t1 as [|e'' t1]; injection Heq as ? Heq; [by subst e | by eapply IH].
  - destruct t1 as [|e'' t1]; injection Heq as ? Heq; [done | by apply app_cons_not_nil in Heq].
  - destruct t1 as [|e'' t1]; injection Heq as ? Heq; [by subst e | by eapply IH].
  - symmetry in Heq. apply app_split_elem in Heq as [(b & -> & ->)|(a & -> & Ht)]; [|by eapply IH].
    by destruct (CRDManager.fatal_runs _ _ _ _ _ _ _ (CRDManager.EnsureCRDs_fatal crdDir pollRounds) Hr eq_refl Hf) as [_ ?].
  - by destruct (CRDManager.fatal_runs _ _ _ _ _ _ _ (CRDManager.EnsureCRDs_fatal crdDir pollRounds) Hr Heq Hf) as [-> _].
  - by destruct (CRDManager.fatal_runs _ _ _ _ _ _ _ (CRDManager.EnsureCRDs_fatal crdDir pollRounds) Hr Heq Hf) as [_ ?].
Qed.

(** The polling never runs out of fuel while the context lives. *)
Lemma follows_ends l tr code : follows l tr code -> CRDManager.inTime crdTimeout tr -> code = Some 0 \/ code = Some 1.
Proof.
  assert (Hen : CRDManager.enough crdTimeout pollRounds) by by vm_compute.
  assert (Hle : forall t1 t2, CRDManager.inTime crdTimeout (t1 ++ t2) -> CRDManager.inTime crdTimeout t1 /\ CRDManager.inTime crdTimeout t2).
  { intros t1 t2. unfold CRDManager.inTime. rewrite CRDManager.elapses_app. change CRDManager.pollInterval with 500000000. lia. }
  induction 1 as [|s' l tr code H IH|s' l e|s' l tr code H IH|l t tr code Hr H IH|l t e Hr|l t Hr]; intros Ht; auto.
  - by apply IH, (Hle t tr).
  - destruct (CRDManager.EnsureCRDs_spec _ _ _ _ _ Hr Ht Hen) as (x & [=] & _).
Qed.

(** The manager is not started twice: it is the last step. *)
Definition beforeStart (fl : Flags) : list item := removelast (plan fl).

Lemma plan_split fl : plan fl = beforeStart fl ++ [Do StartManager].
Proof. unfold beforeStart, plan. by destruct (flManageCRDs fl), (flWebhooks fl), (flWebuiEnabled fl). Qed.

Lemma beforeStart_starts fl : Do StartManager ∉ beforeStart fl.
Proof. unfold beforeStart, plan. destruct (flManageCRDs fl), (flWebhooks fl), (flWebuiEnabled fl); cbn; set_solver. Qed.

(** What is done when the manager starts. *)
Record ready (fl : Flags) (tr : list event) : Prop := {
  rd_options : forall o, did (NewManager o) tr <-> o = managerOptions fl;
  rd_crds : flManageCRDs fl = true -> exists t1 t2 t3, tr = t1 ++ t2 ++ t3 /\ CRDManager.ensured crdDir t2 /\ forall c, ~ did (Complete c) t1;
  rd_controllers : forall c, did (Complete c) tr <-> c ∈ [pluginController; serverController installed; backupController; updateController];
  rd_crons : forall s, startedCron s tr /\ did (Add (CronRunnable s)) tr;
  rd_webhooks : forall k, did (NewWebhook k) tr <-> flWebhooks fl = true /\ (k = KPlugin \/ k = KPaperMCServer);
  rd_webui : forall ns addr, did (Add (WebUI ns addr)) tr <->
    flWebuiEnabled fl = true /\ ns = uiNamespace fl podNamespace /\ addr = flWebuiAddr fl
}.

Lemma beforeStart_crds fl tr :
  CRDManager.inTime crdTimeout tr -> follows (beforeStart fl) tr (Some 0) -> flManageCRDs fl = true ->
  exists t1 t2 t3, tr = t1 ++ t2 ++ t3 /\ CRDManager.ensured crdDir t2 /\ forall c, ~ did (Complete c) t1.
Proof.
  intros Ht H Hm. set (before := [Do GetConfig; Do (NewManager (managerOptions fl)); Do NewClient]).
  assert (Hp : exists rest, beforeStart fl = before ++ CRDs :: rest)
    by (unfold beforeStart, plan; rewrite Hm; destruct (flWebhooks fl), (flWebuiEnabled fl); by eexists).
  destruct Hp as [rest Hp]. rewrite Hp in H. apply follows_app in H as [(t1 & t2 & -> & H1 & H2)|[? _]]; [|done].
  inversion H2 as [| | | |l t t' c Hr Hf| |]; subst. exists t1, t, t'. split; [done|]. split.
  - destruct (CRDManager.EnsureCRDs_spec crdDir crdTimeout _ _ _ Hr) as (x & [= <-] & He); [|by vm_compute|done].
    unfold CRDManager.inTime in *. rewrite !CRDManager.elapses_app in Ht. change CRDManager.pollInterval with 500000000 in *. lia.
  - intros c Hc. apply (follows_did _ _ _ H1) in Hc. subst before. set_solver.
Qed.

(** Is an item on the list? *)
Ltac planned fl :=
  unfold beforeStart, plan; destruct (flManageCRDs fl), (flWebhooks fl), (flWebuiEnabled fl); cbn [app removelast];
  rewrite ?list_elem_of_In; cbn [In]; first [tauto | split; intros; intuition congruence].

Lemma beforeStart_ready fl tr : CRDManager.inTime crdTimeout tr -> follows (beforeStart fl) tr (Some 0) -> ready fl tr.
Proof.
  intros Ht H. pose proof (fun s => follows_did _ _ s H) as Hd. pose proof (fun s => follows_cronStarted _ _ s H) as Hc.
  constructor; [|by apply beforeStart_crds|..]; intros; rewrite ?Hd; [| |split; [apply Hc|]| |].
  - planned fl.
  - planned fl.
  - destruct s; planned fl.
  - destruct s; planned fl.
  - planned fl.
  - planned fl.
Qed.

(** C29: The operator starts completely or not at all.  A process with bad flags ends before
    it does anything; otherwise it ends with 0 when the manager was started and stopped
    without an error, and with 1 in every other case, always: waiting for the resource
    definitions ends with the timeout of their context.  Nothing is done after a
    failure; when the manager starts, everything before succeeded: the options are those
    of the flags, every embedded resource definition was applied and found established
    before the first controller was set up (unless that is switched off), exactly the
    four controllers are set up, both cron schedulers are running and registered to be
    stopped, the webhooks are there if they are enabled, and so is the web interface,
    for the namespace that the flags and the environment give. *)
Theorem run_correct libraryFlags args tr r :
  runs (run installed crdDir podNamespace libraryFlags args) tr r -> CRDManager.inTime crdTimeout tr ->
  match ParseArgs libraryFlags args defaultFlags with
  | Exits code => tr = [] /\ r = Some code
  | Parsed fl =>
      (r = Some 0 \/ r = Some 1) /\
      (r = Some 0 <-> did StartManager tr) /\
      (forall t1 e t2, tr = t1 ++ e :: t2 -> CRDManager.failed e = true -> t2 = [] /\ r = Some 1) /\
      (forall t1 x t2, tr = t1 ++ Ev (E := Boot) (BStep StartManager) x :: t2 -> t2 = [] /\ ready fl t1)
  end.
Proof.
  unfold run. destruct (ParseArgs libraryFlags args defaultFlags) as [fl|code]; [|by intros [-> ->]].
  intros H%main_performs Ht. split; [by eapply follows_ends|].
  assert (Hlast : forall t1 e t2, tr = t1 ++ e :: t2 -> CRDManager.failed e = true -> t2 = [] /\ r = Some 1)
    by (intros; by eapply follows_failed).
  rewrite plan_split in H. apply follows_app in H as [(t1 & t2 & -> & H1 & H2)|[Hr H]].
  - assert (Hno : forall x, Ev (E := Boot) (BStep StartManager) x ∉ t1)
      by (intros x Hin%(follows_planned _ _ _ _ _ H1); by apply beforeStart_starts in Hin).
    assert (Ht1 : CRDManager.inTime crdTimeout t1).
    { unfold CRDManager.inTime in *. rewrite CRDManager.elapses_app in Ht. change CRDManager.pollInterval with 500000000 in *. lia. }
    assert (H3 : exists x, t2 = [Ev (E := Boot) (BStep StartManager) x] /\ (r = Some 0 <-> x = Ok tt)).
    { inversion H2 as [|s l t c Hf|s l e| | | |]; subst; [inversion Hf; subst; by exists (Ok tt) | by exists (Err e)]. }
    destruct H3 as (x & -> & Hx). split_and!; [|exact Hlast|].
    + rewrite Hx. unfold did. rewrite elem_of_app, list_elem_of_singleton. split; [intros ->; by right|].
      intros [Hin|He]; [by apply Hno in Hin|]. by injection (f_equal answered He).
    + intros t3 y t4 Heq. symmetry in Heq. apply app_split_elem in Heq as [(b & -> & _)|(a & -> & Ha)].
      * exfalso. apply (Hno y), elem_of_app. right. left.
      * destruct a as [|e a]; injection Ha as _ Ha; [|by apply app_cons_not_nil in Ha].
        subst t4. rewrite app_nil_r. split; [done|]. by apply beforeStart_ready.
  - assert (Hno : forall x, Ev (E := Boot) (BStep StartManager) x ∉ tr)
      by (intros x Hin%(follows_planned _ _ _ _ _ H); by apply beforeStart_starts in Hin).
    split_and!; [split; [done|]; by intros ?%Hno | exact Hlast |].
    intros t1 x t2 ->. exfalso. apply (Hno x), elem_of_app. right. left.
Qed.
End plan.

(** ** An example *)

(** The two files of the directory crds. *)
Definition crdFile (file name : string) : CRDManager.dirEntry :=
  CRDManager.MkDirEntry file false (Ok ([CRDManager.MkUnstructured "CustomResourceDefinition" name], None)).

Definition crds : result (list CRDManager.dirEntry) :=
  Ok [crdFile "mc.k8s.lex.la_papermcservers.yaml" "papermcservers.mc.k8s.lex.la";
      crdFile "mc.k8s.lex.la_plugins.yaml" "plugins.mc.k8s.lex.la"].

(** A cluster that needs half a second to establish a definition. *)
Definition cluster (h : list event) (r : breq) : bans r :=
  match r with
  | BStep _ | BApply _ _ => Ok tt
  | BCronStart _ => tt
  | BGet _ => Ok (if (CRDManager.elapses h =? 0)%nat then [("NamesAccepted", "True")] else [("Established", "True")])
  | BWait => None
  end.

Definition exampleArgs : list string := ["--enable-webhooks"; "-webui-namespace"; "games"; "--leader-elect=true"].

Definition exampleRun := exec cluster (run (fun _ => false) crds "mc-system" ["kubeconfig"] exampleArgs) [].

Lemma run_correct_witness :
  exampleRun.2 = Some 0 /\ did StartManager exampleRun.1 /\ did (Add (WebUI "games" ":8082")) exampleRun.1.
Proof.
  assert (Hrun : runs (run (fun _ => false) crds "mc-system" ["kubeconfig"] exampleArgs) exampleRun.1 exampleRun.2)
    by exact (exec_runs cluster (run (fun _ => false) crds "mc-system" ["kubeconfig"] exampleArgs) []).
  assert (Ht : CRDManager.inTime crdTimeout exampleRun.1) by by vm_compute.
  pose proof (run_correct (fun _ => false) crds "mc-system" ["kubeconfig"] exampleArgs _ _ Hrun Ht) as (_ & H0 & _ & Hs).
  assert (Hr : exampleRun.2 = Some 0) by by vm_compute. split; [exact Hr|]. split; [by apply H0|].
  assert (He : exampleRun.1 = removelast exampleRun.1 ++ [Ev (E := Boot) (BStep StartManager) (Ok tt)]) by by vm_compute.
  destruct (Hs _ _ _ He) as [_ Hready]. rewrite He. apply elem_of_app. left. apply (rd_webui _ _ _ _ _ Hready). split_and!; reflexivity.
Defined.
