(* ===== verification/Deletion.v ===== *)
(** * Deleting a plugin: two controllers together

    A plugin that is deleted waits, by its finalizer, until its JAR is off the servers.
    The plugin controller (file PluginCtl) keeps the list of servers in the plugin's
    status, the update controller (file Update) removes the JARs and marks the entries
    of that list.  Here their runs are put together, in any number and in any
    interleaving of their requests, over one API server. *)

From S2P Require Import Prelude GoBase Decimals Strings GoLib Api Objects Effects K8s Conditions Selector Plugins Images Backup Url Jar Window PluginCtl Update.

Open Scope Z_scope.

(** ** Entries and plugins as they are seen *)

Definition entryKey (e : DeletionProgressEntry) : key := (dpNamespace e, dpServerName e).

Definition entries (p : Plugin) : list DeletionProgressEntry := pgDeletionProgress (plgStatus p).

(** The plugin that an event answers. *)
Definition answers (x : event) (q : Plugin) : Prop :=
  match x with existT (RGetPlugin _ | RStatusPlugin _) (Ok p) => p = q | _ => False end.

(** The API server answers the plugin that was asked for. *)
Definition honest (h : list event) : Prop :=
  (forall k q, Ev (E := K8s) (RGetPlugin k) (Ok q) ∈ h -> plgKey q = k) /\
  (forall p q, Ev (E := K8s) (RStatusPlugin p) (Ok q) ∈ h -> plgKey q = plgKey p).

Lemma honest_app h t : honest (h ++ t) -> honest h.
Proof. intros [H1 H2]. split; intros; [apply H1 | apply H2]; set_solver. Qed.

(** The JAR name that a server's status records for a plugin. *)
Definition jarAt (k : key) (server : PaperMCServer) : string :=
  match List.find (fun ps => (prName (spPluginRef ps) =? k.2)%string && (prNamespace (spPluginRef ps) =? k.1)%string)
                  (stPlugins (srvStatus server)) with
  | Some ps => spInstalledJARName ps
  | None => ""
  end.

(** Why the server [s] needs no more waiting for the plugin [k], as requests showed: it
    is gone; it has no JAR of the plugin; or an entry of it that was read had been asked
    for more than ten minutes before the clock was read. *)
Definition seen (k s : key) (h : list event) : Prop :=
  (exists err, Ev (E := K8s) (RGetServer s) (Err err) ∈ h /\ IsNotFound err = true) \/
  (exists server, Ev (E := K8s) (RGetServer s) (Ok server) ∈ h /\ jarAt k server = "") \/
  (exists x q e req t, x ∈ h /\ answers x q /\ plgKey q = k /\ e ∈ entries q /\ entryKey e = s /\
     dpDeletionRequestedAt e = Some req /\ Ev (E := K8s) RNow t ∈ h /\ deletionTimeout < Sub t req).

Lemma seen_mono k s h h' : h ⊆ h' -> seen k s h -> seen k s h'.
Proof.
  intros Hs [(err & ?)|[(server & ?)|(x & q & e & req & t & ?)]];
    [left; exists err | right; left; exists server | right; right; exists x, q, e, req, t]; naive_solver.
Qed.

(** A plugin for [k] that was read has a marked entry of the server [s]. *)
Definition readMarked (k s : key) (h : list event) : Prop :=
  exists x q e, x ∈ h /\ answers x q /\ plgKey q = k /\ e ∈ entries q /\ entryKey e = s /\ dpJARDeleted e = true.

Lemma readMarked_mono k s h h' : h ⊆ h' -> readMarked k s h -> readMarked k s h'.
Proof. intros Hs (x & q & e & ?). exists x, q, e. naive_solver. Qed.

(** Every mark of a plugin that is sent has a reason. *)
Definition reasoned (R : key -> key -> list event -> Prop) (p : Plugin) (h : list event) : Prop :=
  forall e, e ∈ entries p -> dpJARDeleted e = true -> readMarked (plgKey p) (entryKey e) h \/ R (plgKey p) (entryKey e) h.

Definition sends (R : key -> key -> list event -> Prop) (h : list event) : Prop :=
  forall a p y b, h = a ++ Ev (E := K8s) (RStatusPlugin p) y :: b -> reasoned R p a.

Definition isStatusPlugin (r : kreq) : bool := match r with RStatusPlugin _ => true | _ => false end.

Definition still (h : list event) : Prop := Forall (fun e : event => isStatusPlugin (projT1 e) = false) h.

Lemma sends_nil R : sends R [].
Proof. intros [|? ?] p y b [=]. Qed.

Lemma sends_still R h t : sends R h -> still t -> sends R (h ++ t).
Proof.
  intros Hh Ht a p y b Heq. symmetry in Heq. apply app_split_elem in Heq as [(b' & -> & _)|(a' & -> & ->)]; [by eapply Hh|].
  apply Forall_app in Ht as [_ Ht]. by inversion Ht.
Qed.

Lemma sends_snoc R h p y : sends R h -> reasoned R p h -> sends R (h ++ [Ev (E := K8s) (RStatusPlugin p) y]).
Proof.
  intros Hh Hp a p' y' b Heq. symmetry in Heq. apply app_split_elem in Heq as [(b' & -> & _)|(a' & -> & Ha)]; [by eapply Hh|].
  destruct a' as [|? a']; [|injection Ha as _ Ha; by apply app_cons_not_nil in Ha].
  injection Ha as Hp' _. rewrite app_nil_r. by subst p'.
Qed.

(** ** The update controller's part *)

Section update.

Definition rmCommand (jar : string) : list string := ["rm"; "--force"; "/data/plugins/" +:+ jar; "/data/plugins/update/" +:+ jar].

(** The run for this server has taken the JAR off it, or has no name for one. *)
Definition removedBy (server : PaperMCServer) (k s : key) (h : list event) : Prop :=
  srvKey server = s /\
  exists ps, ps ∈ getPluginsToDelete server /\ (prNamespace (spPluginRef ps), prName (spPluginRef ps)) = k /\
    (spInstalledJARName ps = "" \/
     exists out, Ev (E := K8s) (RExec (srvNamespace server) (podNameOf server) containerNamePaperMC (rmCommand (spInstalledJARName ps))) (Ok out) ∈ h).

Lemma removedBy_mono server k s h h' : h ⊆ h' -> removedBy server k s h -> removedBy server k s h'.
Proof. intros Hs (? & ps & ? & ? & [?|[out ?]]); (split; [done|]); exists ps; eauto 10. Qed.

Lemma markEntry_spec sn ns now l progress e :
  markEntry sn ns now l = Some progress -> e ∈ progress -> dpJARDeleted e = true ->
  (e ∈ l) \/ entryKey e = (ns, sn).
Proof.
  revert progress. induction l as [|x l IH]; intros progress; cbn [markEntry]; [done|].
  destruct (_ && _) eqn:Hm.
  - apply andb_true_iff in Hm as [H1 H2]. apply String.eqb_eq in H1, H2. intros [= <-] [->|Hin]%elem_of_cons _; [right | left; by right].
    unfold entryKey. cbn. by rewrite H1, H2.
  - intros (l' & Hl & ->)%fmap_Some [->|Hin]%elem_of_cons Hd; [left; left|].
    destruct (IH _ Hl Hin Hd); [left; by right | by right].
Qed.

(** A plugin that was read, sent with one more mark. *)
Lemma wp_mark R server k h :
  sends R h -> R k (srvKey server) h -> (forall k s h h', h ⊆ h' -> R k s h -> R k s h') ->
  wp (markJARAsDeleted k.2 k.1 (srvName server) (srvNamespace server)) (fun h' _ => honest h' -> sends R h') h.
Proof.
  intros Hs Hr Hmono. unfold markJARAsDeleted, ask. cbn [bind call wp]. intros [plugin|e].
  2: { intros _. apply sends_still; [done | by repeat constructor]. }
  intros now. destruct (markEntry _ _ _ _) as [progress|] eqn:Hm.
  2: { intros _. rewrite <- app_assoc. apply sends_still; [done | by repeat constructor]. }
  cbn [bind call wp]. intros u.
  set (h1 := (h ++ [Ev (E := K8s) (RGetPlugin (k.1, k.2)) (Ok plugin)]) ++ [Ev (E := K8s) RNow now]).
  assert (H1 : sends R h1) by (unfold h1; rewrite <- app_assoc; apply sends_still; [done | by repeat constructor]).
  assert (Hfin : honest (h1 ++ [Ev (E := K8s) (RStatusPlugin (updPlgStatus (fun st => st <| pgDeletionProgress := progress |>) plugin)) u]) ->
    sends R (h1 ++ [Ev (E := K8s) (RStatusPlugin (updPlgStatus (fun st => st <| pgDeletionProgress := progress |>) plugin)) u])).
  { intros Hh. apply sends_snoc; [done|]. apply honest_app in Hh as [Hh _].
    assert (Hk : plgKey plugin = k) by (rewrite (Hh (k.1, k.2) plugin); [by destruct k | unfold h1; set_solver]).
    intros e Hin Hd. change (plgKey (updPlgStatus _ plugin)) with (plgKey plugin). rewrite Hk.
    destruct (markEntry_spec _ _ _ _ _ e Hm Hin Hd) as [Hold|Hnew].
    - left. exists (Ev (E := K8s) (RGetPlugin (k.1, k.2)) (Ok plugin)), plugin, e. split_and!; try done. unfold h1. set_solver.
    - right. rewrite Hnew. eapply Hmono; [|exact Hr]. unfold h1. set_solver. }
  destruct u as [p|e]; exact Hfin.
Qed.

(** A run over the plugins that are marked on a server. *)
Definition sending {A} (R : key -> key -> list event -> Prop) (p : prog A) : Prop :=
  forall h, (honest h -> sends R h) -> wp p (fun h' _ => honest h' -> sends R h') h.

Lemma wp_deletePluginJAR server ps h :
  ps ∈ getPluginsToDelete server -> (honest h -> sends (removedBy server) h) ->
  wp (deletePluginJAR server ps) (fun h' _ => honest h' -> sends (removedBy server) h') h.
Proof.
  intros Hps Hs. unfold deletePluginJAR. set (k := (prNamespace (spPluginRef ps), prName (spPluginRef ps))).
  assert (Hmark : forall h, (honest h -> sends (removedBy server) h) -> removedBy server k (srvKey server) h ->
    wp (markJARAsDeleted (prName (spPluginRef ps)) (prNamespace (spPluginRef ps)) (srvName server) (srvNamespace server))
       (fun h' _ => honest h' -> sends (removedBy server) h') h).
  { intros h' H1 H2. apply (wp_assume honest); [apply honest_app|]. intros Hh.
    by apply (wp_mark (removedBy server) server k h' (H1 Hh) H2), removedBy_mono. }
  destruct (spInstalledJARName ps =? "")%string eqn:Hj.
  - apply Hmark; [done|]. split; [done|]. exists ps. split_and!; try done. left. by apply String.eqb_eq.
  - unfold ExecInPod, ask. cbn [bind call wp]. intros [out|e].
    + apply wp_bind. eapply wp_mono; [|apply Hmark].
      * intros h' [[]|e]; by cbn [wp].
      * intros Hh. apply sends_still; [by apply Hs, (honest_app _ _ Hh) | by repeat constructor].
      * split; [done|]. exists ps. split_and!; try done. right. exists out. set_solver.
    + intros Hh. apply sends_still; [by apply Hs, (honest_app _ _ Hh) | by repeat constructor].
Qed.

Lemma deleteMarked_sends server tr r : runs (deleteMarkedPlugins server) tr r -> honest tr -> sends (removedBy server) tr.
Proof.
  revert tr r. assert (H : wp (deleteMarkedPlugins server) (fun h' _ => honest h' -> sends (removedBy server) h') []).
  { unfold deleteMarkedPlugins. destruct (getPluginsToDelete server) as [|p0 l0] eqn:Hl; [intros _; apply sends_nil|].
    apply wp_bind. eapply wp_mono with (Q := fun h' _ => honest h' -> sends (removedBy server) h'); [by intros h' [|]|].
    eapply wp_mono; [|apply (wp_foldP (deleteStep server) (fun rest _ h' => rest ⊆ getPluginsToDelete server /\ (honest h' -> sends (removedBy server) h')))].
    - intros h' errs [_ H]. exact H.
    - intros ps rest errs h' [Hsub Hs]. unfold deleteStep. apply wp_bind.
      eapply wp_mono; [|apply wp_deletePluginJAR; [apply Hsub; left | exact Hs]]. intros h2 x H2. split; [set_solver | exact H2].
    - rewrite <- Hl. split; [done|]. intros _. apply sends_nil. }
  intros tr r Hr. by apply (proj1 (wp_runs _ _ []) H tr r Hr).
Qed.
End update.

(** ** The plugin controller's part *)

Section plugin.
Context {MC : MetaConditions} {LS : LabelSelectors} {UR : URLs} {JL : JarLib} {DG : Digest} {FN : Finalizing}.
Context (k : key).

(** The plugin that is passed along: its entries come from a plugin that was read, and
    their marks have a reason. *)
Definition held (p : Plugin) (h : list event) : Prop :=
  plgKey p = k /\
  forall e, e ∈ entries p -> exists x q e', x ∈ h /\ answers x q /\ plgKey q = k /\ e' ∈ entries q /\
    entryKey e' = entryKey e /\ dpDeletionRequestedAt e' = dpDeletionRequestedAt e /\
    (dpJARDeleted e = true -> dpJARDeleted e' = true \/ seen k (entryKey e) h).

Lemma held_mono p h h' : h ⊆ h' -> held p h -> held p h'.
Proof.
  intros Hs [Hk Hp]. split; [done|]. intros e Hin. destruct (Hp e Hin) as (x & q & e' & Hx & H1 & H2 & H3 & H4 & H5 & H6).
  exists x, q, e'. split_and!; try done; [by apply Hs|]. intros Hd. destruct (H6 Hd); [by left | right; by eapply seen_mono].
Qed.

(** What was read is held. *)
Lemma held_read p h x : x ∈ h -> answers x p -> plgKey p = k -> held p h.
Proof. intros Hx Ha Hk. split; [done|]. intros e Hin. exists x, p, e. split_and!; try done. by left. Qed.

Lemma held_reasoned p h : held p h -> reasoned seen p h.
Proof.
  intros [Hk Hp] e Hin Hd. rewrite Hk. destruct (Hp e Hin) as (x & q & e' & Hx & H1 & H2 & H3 & H4 & H5 & H6).
  destruct (H6 Hd) as [Hd'|Hs]; [left | by right]. exists x, q, e'. by split_and!.
Qed.

(** The state of a run: what was sent, and what is held. *)
Definition good (p : Plugin) (h : list event) : Prop := honest h -> sends seen h /\ held p h.

Lemma good_still p h t : good p h -> still t -> good p (h ++ t).
Proof.
  intros Hg Ht Hh. destruct (Hg (honest_app _ _ Hh)) as [H1 H2]. split; [by apply sends_still|].
  eapply held_mono; [|exact H2]. set_solver.
Qed.

(** Sending a plugin whose marks have a reason. *)
Lemma wp_status p h :
  (honest h -> sends seen h /\ plgKey p = k /\ reasoned seen p h) ->
  wp (statusUpdatePlugin p)
    (fun h' x => honest h' -> sends seen h' /\ match x.2 with None => held x.1 h' | Some _ => True end) h.
Proof.
  intros Hp. unfold statusUpdatePlugin, ask. cbn [bind call wp]. intros [p'|e] Hh; cbn [fst snd];
    destruct (Hp (honest_app _ _ Hh)) as (H1 & H2 & H3); (split; [by apply sends_snoc|]); [|done].
  apply (held_read _ _ (Ev (E := K8s) (RStatusPlugin p) (Ok p'))); [set_solver | done|].
  destruct Hh as [_ Hh]. rewrite (Hh p p'); [done | set_solver].
Qed.

(** What a step leaves: the plugin is held if there was no error. *)
Definition leaves (h' : list event) (x : Plugin * result unit) : Prop :=
  honest h' -> sends seen h' /\ (isOk x.2 = true -> held x.1 h').

Lemma good_leaves p h r : good p h -> leaves h (p, r).
Proof. intros Hg Hh. by destruct (Hg Hh). Qed.

(** Fewer entries, or more marks with a reason. *)
Lemma held_entries p p' h :
  plgKey p' = plgKey p ->
  (forall e, e ∈ entries p' -> exists e0, e0 ∈ entries p /\ entryKey e0 = entryKey e /\
     dpDeletionRequestedAt e0 = dpDeletionRequestedAt e /\ (dpJARDeleted e = true -> dpJARDeleted e0 = true \/ seen k (entryKey e) h)) ->
  held p h -> held p' h.
Proof.
  intros Hk He [Hpk Hp]. split; [congruence|]. intros e (e0 & Hin & H1 & H2 & H3)%He.
  destruct (Hp e0 Hin) as (x & q & e' & Hx & Ha & Hq & Hin' & H4 & H5 & H6).
  exists x, q, e'. split_and!; try done; [congruence..|]. intros Hd. destruct (H3 Hd) as [Hd0|?]; [|by right].
  rewrite <- H1. by apply H6.
Qed.

(** A status update whose answer is passed on. *)
Lemma wp_update p h (f : error -> error) :
  good p h ->
  wp (u <- statusUpdatePlugin p ;;
      match u with (p', Some e) => Ret (p', Err (f e)) | (p', None) => Ret (p', Ok tt) end) leaves h.
Proof.
  intros Hg. apply wp_bind. eapply wp_mono; [|apply wp_status; intros Hh].
  - intros h' [p' [e|]] H Hh; destruct (H Hh) as [H1 H2]; (split; [exact H1 | cbn; by intros]).
  - destruct (Hg Hh) as [H1 H2]. split_and!; [done | by destruct H2 | by apply held_reasoned].
Qed.

Lemma wp_keep l h :
  wp (foldP cleanupStep [] l) (fun h' acc => (exists t, h' = h ++ t /\ still t) /\ acc ⊆ l) h.
Proof.
  eapply wp_mono; [|apply (wp_foldP cleanupStep (fun rest acc h' => (exists t, h' = h ++ t /\ still t) /\ acc ++ rest ⊆ l))].
  - intros h' acc [H1 H2]. by rewrite app_nil_r in H2.
  - intros e rest acc h' [(t & -> & Ht) Hsub]. unfold cleanupStep, keepEntry, ask. destruct (dpJARDeleted e); cbn [bind call wp].
    + split; [by exists t | by rewrite <- app_assoc].
    + intros g. split; [exists (t ++ [Ev (E := K8s) (RGetServer (dpNamespace e, dpServerName e)) g]); rewrite app_assoc; split; [done|]|].
      { apply Forall_app. split; [done | by repeat constructor]. }
      destruct (match g with Ok _ => _ | Err _ => _ end); [by rewrite <- app_assoc | set_solver].
  - split; [exists []; split; [by rewrite app_nil_r | constructor] | done].
Qed.

Lemma sends_cleanup p h : good p h -> wp (cleanupDeletedServers p) leaves h.
Proof.
  intros Hg. unfold cleanupDeletedServers. destruct (_ =? _)%nat; [by apply good_leaves|].
  apply wp_bind. eapply wp_mono; [|apply wp_keep]. intros h' remaining [(t & -> & Ht) Hsub].
  destruct (negb _); [|by apply good_leaves, good_still].
  apply (wp_update (setProgress remaining p)). intros Hh. destruct (good_still p h t Hg Ht Hh) as [H1 H2]. split; [done|].
  apply (held_entries p); [done| |exact H2]. intros e Hin. exists e. split_and!; try done; [by apply Hsub | by left].
Qed.

Lemma markFirst_entries now sn ns l e :
  e ∈ markFirst now sn ns l -> exists e0, e0 ∈ l /\ entryKey e0 = entryKey e /\ dpDeletionRequestedAt e0 = dpDeletionRequestedAt e /\
    (dpJARDeleted e = true -> dpJARDeleted e0 = true \/ entryKey e = (ns, sn)).
Proof.
  induction l as [|x l IH]; cbn [markFirst]; [by intros ?%not_elem_of_nil|]. destruct (_ && _) eqn:Hm.
  - intros [->|Hin]%elem_of_cons; [exists x | exists e]; (split_and!; [set_solver | done..|]); [|by left].
    apply andb_true_iff in Hm as [H1 H2]. apply String.eqb_eq in H1, H2. intros _. right. unfold entryKey. cbn. by rewrite H1, H2.
  - intros [->|Hin]%elem_of_cons; [exists x; split_and!; [set_solver | done..|]; by left|].
    destruct (IH Hin) as (e0 & ? & ?). exists e0. split; [set_solver | done].
Qed.

(** Marking the entry of a server that has a reason. *)
Lemma wp_markJAR p sn ns h : good p h -> seen k (ns, sn) h -> wp (PluginCtl.markJARAsDeleted p sn ns) leaves h.
Proof.
  intros Hg Hs. unfold PluginCtl.markJARAsDeleted, ask. cbn [bind call wp]. intros now.
  apply (wp_update (setProgress (markFirst now sn ns (entries p)) p)). intros Hh.
  destruct (good_still p h [Ev (E := K8s) RNow now] Hg ltac:(by repeat constructor) Hh) as [H1 H2]. split; [done|].
  apply (held_entries p); [done| |exact H2]. intros e (e0 & Hin & He1 & He2 & He3)%markFirst_entries.
  exists e0. split_and!; try done. intros Hd. destruct (He3 Hd) as [?|Hk]; [by left | right]. rewrite Hk.
  eapply seen_mono; [|exact Hs]. set_solver.
Qed.

Lemma sends_markOnServer p e h : good p h -> wp (markOnServer p e) leaves h.
Proof.
  intros Hg. unfold markOnServer. destruct (dpJARDeleted e); [by apply good_leaves|].
  unfold ask. cbn [bind call wp]. set (s := (dpNamespace e, dpServerName e)). intros [server|err].
  - assert (Hg1 : good p (h ++ [Ev (E := K8s) (RGetServer s) (Ok server)])) by (apply good_still; [done | by repeat constructor]).
    destruct (markPending _ _ _) as [[statuses jar] updated] eqn:Hm. apply markPending_jar in Hm.
    destruct (match jar with None => true | Some j => (j =? "")%string end) eqn:Hj.
    + apply (wp_assume honest); [apply honest_app|]. intros Hh. apply wp_markJAR; [done|]. right. left. exists server.
      split; [set_solver|]. destruct (Hg1 Hh) as [_ [Hk _]]. unfold jarAt. rewrite <- Hk. cbn [plgKey fst snd]. rewrite <- Hm.
      destruct jar as [j|]; [|done]. by apply String.eqb_eq in Hj.
    + destruct updated; cbn [bind call wp]; [|by apply good_leaves].
      intros [s'|e2]; cbn [bind wp]; apply good_leaves, good_still; done || by repeat constructor.
  - assert (Hg1 : good p (h ++ [Ev (E := K8s) (RGetServer s) (Err err)])) by (apply good_still; [done | by repeat constructor]).
    destruct (IsNotFound err) eqn:Hn; [|by apply good_leaves]. apply wp_markJAR; [done|]. left. exists err. split; [set_solver | done].
Qed.

(** From one step to the next. *)
Lemma leaves_good h p r : leaves h (p, r) -> isOk r = true -> good p h.
Proof. intros Hl Hr Hh. destruct (Hl Hh) as [H1 H2]. split; [done | by apply H2]. Qed.

Lemma sends_markOnServers p l h : good p h -> wp (markOnServers p l) leaves h.
Proof.
  revert p h. induction l as [|e l IH]; intros p h Hg; cbn [markOnServers]; [by apply good_leaves|].
  apply wp_bind. eapply wp_mono; [|by apply sends_markOnServer]. intros h1 [p1 [u|err]] H1; [|exact H1].
  by apply IH, (leaves_good _ _ (Ok u)).
Qed.

Lemma wp_force now l h :
  (honest h -> forall e, e ∈ l -> exists x q e', x ∈ h /\ answers x q /\ plgKey q = k /\ e' ∈ entries q /\
     entryKey e' = entryKey e /\ dpDeletionRequestedAt e' = dpDeletionRequestedAt e) ->
  wp (foldP (forceStep now) [] l)
    (fun h' acc => (exists t, h' = h ++ t /\ still t) /\ (honest h' -> forall e, e ∈ acc -> exists e0, e0 ∈ l /\ entryKey e0 = entryKey e /\
       dpDeletionRequestedAt e0 = dpDeletionRequestedAt e /\ (dpJARDeleted e = true -> dpJARDeleted e0 = true \/ seen k (entryKey e) h'))) h.
Proof.
  intros Hl. set (from := fun (h' : list event) (acc : list DeletionProgressEntry) => honest h' -> forall e, e ∈ acc -> exists e0, e0 ∈ l /\ entryKey e0 = entryKey e /\
    dpDeletionRequestedAt e0 = dpDeletionRequestedAt e /\ (dpJARDeleted e = true -> dpJARDeleted e0 = true \/ seen k (entryKey e) h')).
  eapply wp_mono; [|apply (wp_foldP (forceStep now) (fun rest acc h' => (exists t, h' = h ++ t /\ still t) /\ rest ⊆ l /\ from h' acc))].
  - by intros h' acc (H1 & _ & H2).
  - intros e rest acc h' ((t & -> & Ht) & Hsub & Hf). unfold forceStep.
    assert (Hkeep : from (h ++ t) (acc ++ [e])).
    { intros Hh e1 [Hin| ->%list_elem_of_singleton]%elem_of_app; [by apply Hf | exists e]. split_and!; try done; [set_solver | by left]. }
    assert (Hrest : rest ⊆ l) by set_solver.
    destruct (dpJARDeleted e) eqn:Hd; [cbn [wp]; split_and!; [by exists t | done..]|].
    destruct (dpDeletionRequestedAt e) as [req|] eqn:Hreq; [|cbn [wp]; split_and!; [by exists t | done..]].
    unfold ask. cbn [bind call wp]. intros now'. split_and!; [|done|].
    { exists (t ++ [Ev (E := K8s) RNow now']). rewrite app_assoc. split; [done|]. apply Forall_app. split; [done | by repeat constructor]. }
    intros Hh e1 [Hin| ->%list_elem_of_singleton]%elem_of_app.
    + destruct (Hf (honest_app _ _ Hh) e1 Hin) as (e0 & H1 & H2 & H3 & H4). exists e0. split_and!; try done.
      intros Hd1. destruct (H4 Hd1); [by left | right]. eapply seen_mono; [|done]. set_solver.
    + exists e. destruct (deletionTimeout <? Sub now' req) eqn:Hlt; (split_and!; [set_solver|done..|]); [|by left].
      intros _. right. right. right. destruct (Hl (honest_app _ _ (honest_app _ _ Hh)) e) as (x & q & e' & Hx & H1 & H2 & H3 & H4 & H5); [set_solver|].
      exists x, q, e', req, now'. split_and!; try done; [set_solver | congruence | set_solver | by apply Z.ltb_lt].
  - split_and!; [exists []; split; [by rewrite app_nil_r | constructor] | done|]. intros _ e ?%not_elem_of_nil. done.
Qed.

Lemma sends_forceComplete p h : good p h -> wp (forceCompleteStaleDeletions p) (fun h' p' => good p' h') h.
Proof.
  intros Hg. unfold forceCompleteStaleDeletions, ask. cbn [bind call wp]. intros now.
  assert (Hg1 : good p (h ++ [Ev (E := K8s) RNow now])) by (apply good_still; [done | by repeat constructor]).
  apply wp_bind. eapply wp_mono; [|apply wp_force].
  - intros h' acc [(t & -> & Ht) Hf] Hh. destruct (good_still p _ t Hg1 Ht Hh) as [H1 H2]. split; [done|].
    apply (held_entries p); [done| |exact H2]. intros e Hin. by apply Hf.
  - intros Hh e Hin. destruct (Hg1 Hh) as [_ [_ Hp]]. destruct (Hp e Hin) as (x & q & e' & Hx & H1 & H2 & H3 & H4 & H5 & _).
    by exists x, q, e'.
Qed.

(** The rest of a run, of which only what it sends is of interest. *)
Definition fine (h : list event) : Prop := honest h -> sends seen h.

Lemma fine_still h t : fine h -> still t -> fine (h ++ t).
Proof. intros Hf Ht Hh. apply sends_still; [by apply Hf, (honest_app _ t) | done]. Qed.

Lemma good_fine p h : good p h -> fine h.
Proof. intros Hg Hh. by destruct (Hg Hh). Qed.

Lemma leaves_fine h x : leaves h x -> fine h.
Proof. intros Hl Hh. by destruct (Hl Hh). Qed.

Lemma wp_fine {A} (p : prog A) h : avoids isStatusPlugin p -> fine h -> wp p (fun h' _ => fine h') h.
Proof. intros Ha Hf. apply wp_runs. intros tr a Hr. apply fine_still; [done|]. by apply (avoids_runs _ _ _ _ Ha Hr). Qed.

Lemma sends_finish p h : good p h -> wp (finishDeletion p) (fun h' _ => fine h') h.
Proof.
  intros Hg. unfold finishDeletion. apply wp_bind. eapply wp_mono; [|by apply sends_forceComplete].
  intros h1 p1 H1. apply wp_bind. eapply wp_mono; [|apply wp_status; intros Hh].
  - intros h2 [p2 e] H2. assert (Hf : fine h2) by (intros Hh; by destruct (H2 Hh)). apply wp_fine; [|done].
    destruct e as [e|]; [by destruct (IsNotFound e)|]. destruct (negb _); [done|]. unfold removeFinalizer, ask. avoids_tac.
  - destruct (H1 Hh) as [Hs Hp]. split_and!; [done | by destruct Hp | by apply held_reasoned].
Qed.

Lemma sends_deleteTracked p h : good p h -> wp (deleteTracked p) (fun h' _ => fine h') h.
Proof.
  intros Hg. unfold deleteTracked. apply wp_bind. eapply wp_mono; [|by apply sends_cleanup].
  intros h1 [p1 [u|e]] H1; [|by eapply leaves_fine]. apply leaves_good in H1; [|done].
  apply wp_bind. eapply wp_mono; [|by apply sends_markOnServers].
  intros h2 [p2 [u2|e]] H2; [|by eapply leaves_fine]. apply leaves_good in H2; [|done]. by apply sends_finish.
Qed.

Lemma avoids_matched p : avoids (E := K8s) isStatusPlugin (findMatchedServers p).
Proof. unfold findMatchedServers, FindMatchingServers, ask. avoids_tac. Qed.

(** The entries of a deletion that begins have no marks. *)
Lemma wp_init p h : good p h -> wp (initDeletionProgressIfNeeded p) leaves h.
Proof.
  intros Hg. unfold initDeletionProgressIfNeeded. destruct (pgDeletionProgress (plgStatus p)) as [|e0 l0]; [|by apply good_leaves].
  apply wp_bind. apply wp_runs. intros t m Ht%(avoids_runs (E := K8s) isStatusPlugin); [|apply avoids_matched].
  assert (Hg1 : good p (h ++ t)) by by apply good_still.
  destruct m as [servers|e]; [|by apply good_leaves]. unfold ask. cbn [bind call wp]. intros now.
  assert (Hg2 : good p ((h ++ t) ++ [Ev (E := K8s) RNow now])) by (apply good_still; [done | by repeat constructor]).
  apply wp_bind. eapply wp_mono; [|apply wp_status; intros Hh].
  - intros h' [p' [e|]] H Hh; destruct (H Hh) as [H1 H2]; (split; [exact H1 | cbn; by intros]).
  - destruct (Hg2 Hh) as [Hs [Hk _]]. split_and!; [done..|]. intros e Hin Hd. exfalso.
    apply elem_of_map in Hin as (server & -> & _). done.
Qed.

Lemma reconcileDelete_split plugin :
  reconcileDelete plugin =
  if negb (ContainsFinalizer (Finalizers (plgMeta plugin)) PluginFinalizer) then Ret (Ok 0)
  else i <- initDeletionProgressIfNeeded plugin ;; match i with (_, Err e) => Ret (Err e) | (p, Ok _) => deleteTracked p end.
Proof. reflexivity. Qed.

Lemma wp_reconcileDelete p h : good p h -> wp (reconcileDelete p) (fun h' _ => fine h') h.
Proof.
  intros Hg. rewrite reconcileDelete_split. destruct (negb _); [by eapply good_fine|].
  apply wp_bind. eapply wp_mono; [|by apply wp_init]. intros h1 [p1 [u|e]] H1; [|by eapply leaves_fine].
  by apply sends_deleteTracked, (leaves_good _ _ (Ok u)).
Qed.

(** A reconciliation of a plugin that lives keeps its entries as they were read. *)
Definition keeps {A} (plg : A -> Plugin) (p : Plugin) (q : prog A) : Prop :=
  forall tr x, runs q tr x -> still tr /\ plgMeta (plg x) = plgMeta p /\ entries (plg x) = entries p.

Lemma keeps_ret {A} (plg : A -> Plugin) p x : plgMeta (plg x) = plgMeta p -> entries (plg x) = entries p -> keeps plg p (Ret x).
Proof. intros H1 H2 tr y [-> ->]. split_and!; [constructor | done..]. Qed.

Lemma keeps_bind {A B} (plgA : A -> Plugin) (plg : B -> Plugin) p (q : prog A) (f : A -> prog B) :
  keeps plgA p q -> (forall a, keeps plg (plgA a) (f a)) -> keeps plg p (bind q f).
Proof.
  intros Hq Hf tr x (t1 & a & t2 & -> & (H1 & H2 & H3)%Hq & (H4 & H5 & H6)%Hf)%runs_bind.
  split_and!; [by apply Forall_app | congruence..].
Qed.

Lemma keeps_quiet {A B} (plg : B -> Plugin) p (q : prog A) (f : A -> prog B) :
  avoids isStatusPlugin q -> (forall a, keeps plg p (f a)) -> keeps plg p (bind q f).
Proof.
  intros Hq Hf tr x (t1 & a & t2 & -> & H1%(avoids_runs (E := K8s) isStatusPlugin) & (H4 & H5 & H6)%Hf)%runs_bind; [|done].
  split_and!; [by apply Forall_app | done..].
Qed.

Lemma keeps_from {A} (plg : A -> Plugin) p p' q : plgMeta p' = plgMeta p -> entries p' = entries p -> keeps plg p' q -> keeps plg p q.
Proof. intros H1 H2 Hq tr x Hr. destruct (Hq tr x Hr) as (? & ? & ?). split_and!; [done | congruence..]. Qed.

Lemma keeps_setCondition p a b c d : keeps id p (setCondition p a b c d).
Proof. intros tr x (now & t & -> & -> & ->). split_and!; [by repeat constructor | done..]. Qed.

(** Straight-line code on a plugin. *)
Ltac keeps_tac :=
  repeat match goal with
  | |- keeps _ _ (Ret _) => apply keeps_ret; reflexivity
  | |- keeps _ _ (bind (setCondition ?q _ _ _ _) _) =>
      apply (keeps_from _ _ q); [reflexivity | reflexivity | apply (keeps_bind id); [apply keeps_setCondition | intros ?; cbn [id]]]
  | |- keeps _ _ (if ?b then _ else _) => destruct b
  | |- keeps _ _ (match ?x with _ => _ end) => destruct x
  end.

Lemma keeps_fallback p v : keeps id p (setFallbackVersionCondition p v).
Proof. unfold setFallbackVersionCondition. destruct (_ =? _)%string; apply keeps_setCondition. Qed.

Lemma keeps_fetch p : keeps fst p (fetchPluginMetadata p).
Proof.
  unfold fetchPluginMetadata. destruct (_ =? "url")%string; [|destruct (_ =? "hangar")%string; [|by apply keeps_ret]].
  - unfold fetchURLMetadata. destruct (ValidateDownloadURL _); [|by apply keeps_ret].
    apply keeps_quiet; [unfold urlCacheValid, ask; avoids_tac|]. intros [|]; [by apply keeps_ret|].
    apply keeps_quiet; [unfold DownloadJAR, ask; avoids_tac|]. intros [jarBytes|]; [|by apply keeps_ret].
    destruct (_ && _); [by apply keeps_ret|]. apply (keeps_bind fst); [|intros []; by apply keeps_ret].
    unfold resolveURLVersion. destruct (ParseJARMetadata jarBytes); (apply (keeps_bind id); [apply keeps_fallback | intros ?; by apply keeps_ret]).
  - apply keeps_quiet; [unfold fetchHangarMetadata, ask; avoids_tac|]. intros v. by apply keeps_ret.
Qed.

Lemma keeps_sync p : keeps (fun x => x.1.1) p (syncPluginMetadata p).
Proof.
  unfold syncPluginMetadata. apply (keeps_bind fst); [apply keeps_fetch|]. intros [p1 [[versions [|]]|e]]; cbn [fst].
  - by apply keeps_ret.
  - keeps_tac. apply keeps_quiet; [unfold ask; avoids_tac|]. intros now.
    apply keeps_quiet; [unfold convertToPluginVersionInfo, ask; avoids_tac|]. intros infos. by apply keeps_ret.
  - unfold permanentError, handleRepositoryError. keeps_tac.
Qed.

Lemma keeps_doReconcile p : keeps fst p (doReconcile p).
Proof.
  unfold doReconcile. apply (keeps_bind (fun x => x.1.1)); [apply keeps_sync|]. intros [[p1 versions] requeue]. cbn [fst].
  apply keeps_quiet; [apply avoids_matched|]. intros [servers|e]; [|by apply keeps_ret].
  destruct (_ =? _)%nat; [by apply keeps_ret|]. apply (keeps_from _ _ (updPlgStatus (fun st => st <| pgMatchedInstances :=
    buildMatchedInstances servers (plgName p1) (plgNamespace p1) |>) p1)); [done..|].
  apply (keeps_bind id); [|intros p2; by apply keeps_ret]. destruct (negb _); [apply keeps_setCondition | by apply keeps_ret].
Qed.

Lemma wp_reconcileLive p h : good p h -> wp (reconcileLive p) (fun h' _ => fine h') h.
Proof.
  intros Hg. unfold reconcileLive. apply wp_bind, wp_runs. intros t1 [p1 r] (H1 & H2 & H3)%keeps_doReconcile. cbn [fst] in *.
  apply wp_bind, wp_runs. intros t2 p2 Hr2.
  assert (Hk : still t2 /\ plgMeta p2 = plgMeta p1 /\ entries p2 = entries p1) by (destruct r; by apply keeps_setCondition in Hr2).
  destruct Hk as (H4 & H5 & H6). assert (Hg2 : good p ((h ++ t1) ++ t2)) by (apply good_still; [by apply good_still | done]).
  destruct (_ || _); [|by eapply good_fine]. unfold ask. cbn [bind call wp]. intros u Hh.
  destruct (Hg2 (honest_app _ _ Hh)) as [Hs Hp]. apply sends_snoc; [done|]. apply held_reasoned.
  assert (Hk2 : plgKey p2 = plgKey p) by (unfold plgKey, plgNamespace, plgName; by rewrite H5, H2).
  apply (held_entries p); [done| |done]. rewrite H6, H3. intros e Hin. exists e. split_and!; try done. by left.
Qed.

Lemma fine_nil t : still t -> fine t.
Proof. intros Ht _. by apply (sends_still seen [] t), Ht; apply sends_nil. Qed.

Lemma sends_Reconcile : wp (PluginCtl.Reconcile k) (fun h' _ => fine h') [].
Proof.
  unfold PluginCtl.Reconcile, ask. cbn [bind call wp app]. intros [p|e].
  2: { destruct (IsNotFound e); apply fine_nil; by repeat constructor. }
  assert (Hg : good p [Ev (E := K8s) (RGetPlugin k) (Ok p)]).
  { intros Hh. split; [by apply fine_nil; [by repeat constructor|]|]. apply (held_read _ _ (Ev (E := K8s) (RGetPlugin k) (Ok p))); [by left | done|].
    apply Hh. by left. }
  destruct (isDeleting p); [by apply wp_reconcileDelete|]. destruct (negb _); [|by apply wp_reconcileLive].
  apply wp_fine; [avoids_tac | by eapply good_fine].
Qed.

Lemma Reconcile_sends tr r : runs (PluginCtl.Reconcile k) tr r -> honest tr -> sends seen tr.
Proof. intros Hr. by apply (proj1 (wp_runs _ _ []) sends_Reconcile tr r Hr). Qed.
End plugin.

(** ** All runs together *)

(** A run is a reconciliation of a plugin, or the deletions of an update of a server,
    with the copy of the server that the run works on. *)
Inductive process := Reconciling (k : key) | Removing (server : PaperMCServer).

Section log.
Context {MC : MetaConditions} {LS : LabelSelectors} {UR : URLs} {JL : JarLib} {DG : Digest} {FN : Finalizing}.

(** The requests of all runs in the order in which the API server answered them. *)
Definition log : Type := list (nat * event).

Definition own (pid : nat) (l : log) : list event := map snd (List.filter (fun x => (x.1 =? pid)%nat) l).

(** The trace is one of the run so far. *)
Definition partial {A} (p : prog A) (tr : list event) : Prop := exists rest x, runs p (tr ++ rest) x.

Definition follows (p : process) (tr : list event) : Prop :=
  match p with
  | Reconciling k => partial (PluginCtl.Reconcile k) tr
  | Removing server => partial (deleteMarkedPlugins server) tr
  end.

(** The reasons for a mark. *)
Definition removedIn (procs : nat -> process) (k s : key) (l : log) : Prop :=
  exists pid server, procs pid = Removing server /\ removedBy server k s (own pid l).

Definition cause (procs : nat -> process) (k s : key) (l : log) : Prop :=
  seen k s (map snd l) \/ removedIn procs k s l.

(** The log is one of such runs; the API server answers the plugin that was asked for,
    and no mark that was not sent to it before. *)
Record execution (procs : nat -> process) (l : log) : Prop := {
  ex_runs : forall pid, follows (procs pid) (own pid l);
  ex_honest : honest (map snd l);
  ex_store : forall l1 pid x q l2 e, l = l1 ++ (pid, x) :: l2 -> answers x q -> e ∈ entries q -> dpJARDeleted e = true ->
    exists pid' p y e', (pid', Ev (E := K8s) (RStatusPlugin p) y) ∈ l1 ++ [(pid, x)] /\ plgKey p = plgKey q /\
      e' ∈ entries p /\ entryKey e' = entryKey e /\ dpJARDeleted e' = true
}.

Lemma own_app pid l1 l2 : own pid (l1 ++ l2) = own pid l1 ++ own pid l2.
Proof. unfold own. by rewrite List.filter_app, map_app. Qed.

Lemma own_sub pid l : own pid l ⊆ map snd l.
Proof.
  unfold own. intros x (y & -> & Hy)%elem_of_map. apply elem_of_map. exists y. split; [done|].
  rewrite list_elem_of_In in *. by apply filter_In in Hy as [? _].
Qed.

Lemma cause_mono procs k s l l' : (forall x, x ∈ l -> x ∈ l') -> cause procs k s l -> cause procs k s l'.
Proof.
  intros Hs [Hc|(pid & server & Hp & Hc)].
  - left. eapply seen_mono; [|exact Hc]. intros x (y & -> & Hy)%elem_of_map. apply elem_of_map. exists y. auto.
  - right. exists pid, server. split; [done|]. eapply removedBy_mono; [|exact Hc]. unfold own.
    intros x (y & -> & Hy)%elem_of_map. apply elem_of_map. exists y. split; [done|]. rewrite list_elem_of_In in *.
    apply filter_In in Hy as [Hy Hb]. apply filter_In. split; [|done]. rewrite <- list_elem_of_In in *. auto.
Qed.

Lemma honest_sub h h' : h' ⊆ h -> honest h -> honest h'.
Proof. intros Hs [H1 H2]. split; intros; [apply H1 | apply H2]; by apply Hs. Qed.

(** What is left of a run can end honestly. *)
Lemma partial_idle {A} (p : prog A) tr :
  partial p tr -> exists rest x, runs p (tr ++ rest) x /\ Forall (fun e : event => projT2 e = idle (projT1 e)) rest.
Proof.
  revert tr. induction p as [a|r f IH]; intros tr (rest & x & H).
  - destruct H as [H ->]. apply app_eq_nil in H as [-> ->]. by exists [], a.
  - destruct tr as [|e tr].
    + exists (exec (E := K8s) (fun _ => idle) (Call r f) []).1, (exec (E := K8s) (fun _ => idle) (Call r f) []).2.
      split; [apply exec_runs|]. apply Forall_forall. intros e He. by destruct (exec_answers _ _ _ _ He).
    + destruct H as (y & t & Heq & H). injection Heq as -> <-. destruct (IH y tr) as (rest' & x' & H1 & H2); [by exists rest, x|].
      exists rest', x'. split; [|done]. by exists y, (tr ++ rest').
Qed.

Lemma honest_idle tr rest : honest tr -> Forall (fun e : event => projT2 e = idle (projT1 e)) rest -> honest (tr ++ rest).
Proof.
  intros [H1 H2] Hi. rewrite Forall_forall in Hi. split.
  - intros k q [Hin|Hin]%elem_of_app; [by apply H1 | by apply Hi in Hin].
  - intros p q [Hin|Hin]%elem_of_app; [by apply H2 | apply Hi in Hin; cbn in Hin; congruence].
Qed.

(** What a run sends has a reason. *)
Lemma follows_sends p tr a q y b :
  follows p tr -> honest tr -> tr = a ++ Ev (E := K8s) (RStatusPlugin q) y :: b ->
  match p with Reconciling k => reasoned seen q a | Removing server => reasoned (removedBy server) q a end.
Proof.
  intros Hf Hh Htr. destruct p as [k|server]; apply partial_idle in Hf as (rest & x & Hr & Hi).
  - apply (Reconcile_sends k _ _ Hr (honest_idle _ _ Hh Hi) a q y (b ++ rest)). by rewrite Htr, <- app_assoc.
  - apply (deleteMarked_sends server _ _ Hr (honest_idle _ _ Hh Hi) a q y (b ++ rest)). by rewrite Htr, <- app_assoc.
Qed.

(** A mark that a run has read was sent before. *)
Lemma sent_before procs l l1 l2 pid x q e :
  execution procs l -> l = l1 ++ l2 -> x ∈ own pid l1 -> answers x q -> e ∈ entries q -> dpJARDeleted e = true ->
  exists n1 pid' p y n2 e', l1 = n1 ++ (pid', Ev (E := K8s) (RStatusPlugin p) y) :: n2 /\ plgKey p = plgKey q /\
    e' ∈ entries p /\ entryKey e' = entryKey e /\ dpJARDeleted e' = true.
Proof.
  intros [_ _ Hstore] Hl Hx Ha Hin Hd.
  assert (Hx' : (pid, x) ∈ l1).
  { unfold own in Hx. apply elem_of_map in Hx as ([i z] & -> & Hz). rewrite list_elem_of_In in Hz |- *.
    apply filter_In in Hz as [Hz Hi]. apply Nat.eqb_eq in Hi. by cbn in Hi |- *; subst i. }
  apply list_elem_of_split in Hx' as (m1 & m2 & ->).
  destruct (Hstore m1 pid x q (m2 ++ l2) e) as (pid' & p & y & e' & Hs & Hk & Hin' & He' & Hd'); [by rewrite Hl, <- app_assoc | done..|].
  apply list_elem_of_split in Hs as (n1 & n2 & Hs). exists n1, pid', p, y, (n2 ++ m2), e'. split_and!; try done.
  change (m1 ++ (pid, x) :: m2) with (m1 ++ [(pid, x)] ++ m2). rewrite app_assoc, Hs. by rewrite <- app_assoc.
Qed.

(** The reason of a run for a mark that it sends. *)
Lemma sent_reason procs l l1 pid p y l2 e :
  execution procs l -> l = l1 ++ (pid, Ev (E := K8s) (RStatusPlugin p) y) :: l2 -> e ∈ entries p -> dpJARDeleted e = true ->
  readMarked (plgKey p) (entryKey e) (own pid l1) \/ cause procs (plgKey p) (entryKey e) l1.
Proof.
  intros [Hruns Hh _] Hl Hin Hd.
  assert (Hown : own pid l = own pid l1 ++ Ev (E := K8s) (RStatusPlugin p) y :: own pid l2).
  { rewrite Hl, own_app. unfold own at 2. cbn [List.filter fst]. by rewrite Nat.eqb_refl. }
  pose proof (follows_sends (procs pid) (own pid l) _ _ _ _ (Hruns pid) (honest_sub _ _ (own_sub pid l) Hh) Hown) as Hr.
  destruct (procs pid) as [k|server] eqn:Hp; destruct (Hr e Hin Hd) as [?|Hc]; auto; right.
  - left. eapply seen_mono; [apply own_sub | exact Hc].
  - right. by exists pid, server.
Qed.

(** Every mark that is sent has a cause in what happened before. *)
Lemma marks_caused procs l : execution procs l ->
  forall n l1 pid p y l2 e, (length l1 < n)%nat -> l = l1 ++ (pid, Ev (E := K8s) (RStatusPlugin p) y) :: l2 ->
    e ∈ entries p -> dpJARDeleted e = true -> cause procs (plgKey p) (entryKey e) l1.
Proof.
  intros Hex. induction n as [|n IH]; intros l1 pid p y l2 e Hn Hl Hin Hd; [lia|].
  destruct (sent_reason _ _ _ _ _ _ _ _ Hex Hl Hin Hd) as [(x & q & e1 & Hx & Ha & Hq & Hin1 & He1 & Hd1)|?]; [|done].
  destruct (sent_before _ _ _ _ _ _ _ _ Hex Hl Hx Ha Hin1 Hd1) as (n1 & pid' & p' & y' & n2 & e' & -> & Hk & Hin' & He' & Hd').
  rewrite <- Hq, <- He1, <- Hk, <- He'. rewrite length_app in Hn. cbn in Hn. rewrite <- app_assoc in Hl.
  eapply cause_mono; [|eapply (IH n1); [lia | exact Hl | done..]]. set_solver.
Qed.

(** So has every mark that a run has read. *)
Lemma read_caused procs l l1 l2 pid x q k e :
  execution procs l -> l = l1 ++ l2 -> x ∈ own pid l1 -> answers x q -> plgKey q = k -> e ∈ entries q -> dpJARDeleted e = true ->
  cause procs k (entryKey e) l1.
Proof.
  intros Hex Hl Hx Ha <- Hin Hd.
  destruct (sent_before _ _ _ _ _ _ _ _ Hex Hl Hx Ha Hin Hd) as (n1 & pid' & p & y & n2 & e' & -> & Hk & Hin' & He' & Hd').
  rewrite <- Hk, <- He'. rewrite <- app_assoc in Hl.
  eapply cause_mono; [|eapply (marks_caused procs l Hex (S (length n1)) n1); [lia | exact Hl | done..]]. set_solver.
Qed.

(** C1: A deleted plugin goes only when its JAR is off the servers, or there is a reason
    not to wait for it: put together, in any interleaving of any number of
    reconciliations of plugins and of updates of servers, over an API server that stores
    what it is sent.  When the plugin controller drops the finalizer, then for every
    server of the deletion one of these has happened before: that run saw that the
    server is gone, has no JAR of the plugin or was asked for more than ten minutes
    ago; or an earlier run of it saw that; or an update of that server ran rm on the
    JAR in its pod, successfully, or had no name of a JAR to remove. *)
Theorem finalizer_released procs l l1 pid k plugin a p y l2 :
  execution procs l -> l = l1 ++ (pid, Ev (E := K8s) (RUpdatePlugin p) y) :: l2 ->
  procs pid = Reconciling k -> own pid l1 = Ev (E := K8s) (RGetPlugin k) (Ok plugin) :: a ->
  isDeleting plugin = true -> echoes a ->
  exists es, deletionEntries plugin a es /\
    forall e, e ∈ es -> accounted plugin e a \/ cause procs k (entryKey e) l1.
Proof.
  intros Hex Hl Hp Hown Hd He. pose proof Hex as [Hruns Hh Hstore].
  pose proof (Hruns pid) as Hf. rewrite Hp in Hf. destruct Hf as (rest & r & Hr).
  assert (Hol : own pid l ++ rest = Ev (E := K8s) (RGetPlugin k) (Ok plugin) :: a ++ Ev (E := K8s) (RUpdatePlugin p) y :: own pid l2 ++ rest).
  { rewrite Hl, own_app, Hown. unfold own at 1. cbn [List.filter fst]. rewrite Nat.eqb_refl. cbn [map snd app]. by rewrite <- app_assoc. }
  rewrite Hol in Hr. apply Reconcile_deleting in Hr; [|done].
  destruct (reconcileDelete_removable plugin _ r Hr a _ _ eq_refl eq_refl He) as (es & Hes & Hacc).
  exists es. split; [done|]. intros e Hin. destruct (Hacc e Hin) as [Hmark|?]; [right | by left].
  assert (Hee : e ∈ entries plugin).
  { unfold deletionEntries in Hes. unfold entries. destruct (pgDeletionProgress (plgStatus plugin)) as [|e0 l0]; [|by subst es].
    destruct Hes as (trs & servers & now & t & _ & _ & ->). by apply elem_of_map in Hin as (server & -> & _). }
  assert (Hget : Ev (E := K8s) (RGetPlugin k) (Ok plugin) ∈ own pid l1) by (rewrite Hown; left).
  assert (Hk : plgKey plugin = k) by (apply Hh, (own_sub pid); rewrite Hl, own_app; set_solver).
  eapply (read_caused procs l l1); [done | exact Hl | exact Hget | done | exact Hk | exact Hee | exact Hmark].
Qed.
End log.

(** The update controller alone does not start for a deletion: on a server without an
    available update whose plugins are all at their desired versions, a run touches
    nothing, also if plugins are marked for deletion. *)
Lemma Reconcile_keepsDeleted {MC : MetaConditions} {GS : GoSort} {UR : URLs} hasBackup ticks en k server tr out :
  runs (Update.Reconcile hasBackup ticks en k) (Ev (E := K8s) (RGetServer k) (Ok server) :: tr) out ->
  stAvailableUpdate (srvStatus server) = None ->
  (forall ps, ps ∈ stPlugins (srvStatus server) -> spDesiredVersion ps = spCurrentVersion ps) ->
  Forall (fun e : event => actsOnServer (reqOf e) = false) (Ev (E := K8s) (RGetServer k) (Ok server) :: tr).
Proof.
  intros Hr Ha Hv. apply Forall_forall. intros e (a & b & Heq)%list_elem_of_split.
  destruct (actsOnServer (reqOf e)) eqn:He; [|done]. exfalso.
  destruct (run_gated _ _ _ _ _ _ _ _ _ Hr Heq He) as (sv & (t & ->) & Hp & _).
  apply (f_equal (fun h : list event => match h with existT (RGetServer _) (Ok s) :: _ => s | _ => sv end)) in Heq.
  cbn in Heq. subst sv. unfold updatePending in Hp. rewrite Ha in Hp. apply existsb_exists in Hp as (ps & Hin & Hd).
  apply andb_true_iff in Hd as [_ Hd]. rewrite <- list_elem_of_In in Hin. by rewrite (Hv _ Hin), String.eqb_refl in Hd.
Qed.

(** ** An evaluated example *)

Lemma split_index {A} (l l1 l2 : list A) x :
  l = l1 ++ x :: l2 -> l !! length l1 = Some x /\ l1 ++ [x] = take (S (length l1)) l.
Proof.
  intros ->. split; [by apply list_lookup_middle|]. change (x :: l2) with ([x] ++ l2). rewrite app_assoc.
  replace (S (length l1)) with (length (l1 ++ [x])) by (rewrite length_app; cbn; lia). by rewrite take_app_length.
Qed.

(** Answers that name the plugin that was asked for; status updates that come back as
    they were sent. *)
Definition named (x : event) : Prop :=
  match x with existT (RGetPlugin k) (Ok q) => plgKey q = k | existT (RStatusPlugin p) (Ok q) => q = p | _ => True end.

Lemma named_honest h : Forall named h -> honest h.
Proof.
  rewrite Forall_forall. intros H. split; intros ? ? Hin; apply H in Hin; cbn in Hin; congruence.
Qed.

Lemma named_echoes h : Forall named h -> echoes h.
Proof. rewrite Forall_forall. intros H p q Hin. apply H in Hin. cbn in Hin. by subst q. Qed.

Section witnesses.
Existing Instance ListConditions.conditions.
Existing Instance Exact.selectors.
Existing Instance SplitURLs.simpleURLs.
Existing Instance PlainJar.lib.
Existing Instance LengthDigest.digest.
Existing Instance ListFinalizers.finalizing.

(** A deleted plugin that waits for one server, before and after the removal of its
    JAR. *)
Definition asked : Plugin :=
  doomed <| plgStatus := zeroPluginStatus <| pgDeletionProgress := [MkDeletionProgressEntry "stuck" "ns" false None (Some 1)] |> |>.

Definition marked : Plugin :=
  doomed <| plgStatus := zeroPluginStatus <| pgDeletionProgress := [MkDeletionProgressEntry "stuck" "ns" true (Some 5) (Some 1)] |> |>.

Definition freed : Plugin :=
  marked <| plgMeta := zeroObjectMeta <| Name := "chat" |> <| Namespace := "ns" |>
              <| Finalizers := ["other"] |> <| DeletionTimestamp := Some 1 |> |>.

Definition told : PaperMCServer :=
  stuckServer <| srvStatus := zeroPaperMCServerStatus <| stPlugins :=
    [MkServerPluginStatus (MkPluginRef "chat" "ns") "1.0" "1.0" "1.0" true "hangar" true "chat.jar"] |> |>.

(** The update takes the JAR off, then the plugin is released. *)
Definition removal : list event :=
  [Ev (E := K8s) (RExec "ns" "stuck-0" containerNamePaperMC (rmCommand "chat.jar")) (Ok "");
   Ev (E := K8s) (RGetPlugin ("ns", "chat")) (Ok asked);
   Ev (E := K8s) RNow 5;
   Ev (E := K8s) (RStatusPlugin marked) (Ok marked)].

Definition release : list event :=
  [Ev (E := K8s) (RGetPlugin ("ns", "chat")) (Ok marked);
   Ev (E := K8s) RNow 7;
   Ev (E := K8s) (RStatusPlugin marked) (Ok marked)].

Definition together : log :=
  map (pair 0%nat) removal ++ map (pair 1%nat) release ++ [(1%nat, Ev (E := K8s) (RUpdatePlugin freed) (Ok freed))].

Definition both (pid : nat) : process :=
  match pid with O => Removing told | _ => Reconciling ("ns", "chat") end.

Lemma removal_runs : runs (deleteMarkedPlugins told) removal (Ok tt).
Proof.
  replace removal with (exec (cluster 5 asked [] "") (deleteMarkedPlugins told) []).1 by (vm_compute; reflexivity).
  replace (Ok tt) with (exec (cluster 5 asked [] "") (deleteMarkedPlugins told) []).2 by (vm_compute; reflexivity).
  apply exec_runs.
Qed.

Lemma release_runs :
  runs (PluginCtl.Reconcile ("ns", "chat")) (release ++ [Ev (E := K8s) (RUpdatePlugin freed) (Ok freed)]) (Ok 0).
Proof.
  replace (release ++ _) with (exec (cluster 7 marked [] "") (PluginCtl.Reconcile ("ns", "chat")) []).1 by (vm_compute; reflexivity).
  replace (Ok 0) with (exec (cluster 7 marked [] "") (PluginCtl.Reconcile ("ns", "chat")) []).2 by (vm_compute; reflexivity).
  apply exec_runs.
Qed.

Lemma together_execution : execution both together.
Proof.
  split.
  - intros [|[|pid]]; unfold follows, both.
    + exists [], (Ok tt). exact removal_runs.
    + exists [], (Ok 0). exact release_runs.
    + destruct (runs_total (PluginCtl.Reconcile ("ns", "chat")) idle) as (tr & x & H). by exists tr, x.
  - apply named_honest. repeat constructor.
  - intros l1 pid x q l2 e Hl Ha Hin Hd.
    apply split_index in Hl as [Hx ->]. revert Hx. generalize (length l1). intros i Hx.
    do 3 (destruct i as [|i]; [injection Hx as <- <-; cbn in Ha; first [done | subst q; cbn in Hin;
      apply elem_of_cons in Hin as [->|Hin]; [discriminate | by apply not_elem_of_nil in Hin]]|]).
    assert (q = marked) as ->.
    { do 5 (destruct i as [|i]; [injection Hx as <- <-; cbn in Ha; first [by symmetry | done]|]). discriminate. }
    exists 0%nat, marked, (Ok marked), e. split_and!; try done. change (take (S (S (S (S i)))) together) with
      (map (pair 0%nat) removal ++ take i (map (pair 1%nat) release ++ [(1%nat, Ev (E := K8s) (RUpdatePlugin freed) (Ok freed))])).
    apply elem_of_app. left. do 3 right. by left.
Qed.

Lemma finalizer_released_witness :
  Finalizers (plgMeta freed) = ["other"] /\
  exists es, deletionEntries marked (tail release) es /\
    forall e, e ∈ es -> accounted marked e (tail release) \/
      cause both ("ns", "chat") (entryKey e) (map (pair 0%nat) removal ++ map (pair 1%nat) release).
Proof.
  split; [reflexivity|].
  apply (finalizer_released both together _ 1 ("ns", "chat") marked (tail release) freed (Ok freed) [] together_execution).
  - reflexivity.
  - reflexivity.
  - reflexivity.
  - reflexivity.
  - apply named_echoes. repeat constructor.
Defined.
End witnesses.
